(* ===== verification/_CoqProject ===== *)
-Q . S2P
Prelude.v
Crc16.v
Cobs.v
Uart.v
Comm.v
CommTx.v
Link.v
CommRx.v
LinkTrip.v
Message.v
Linked.v
Pbuf.v
PbufChain.v
PbufCopy.v
PbufTrim.v
InetChksum.v
IpAddr.v
IpHdr.v
RawPcb.v
Etharp.v
EtharpTable.v
EtharpPackets.v
EtharpInput.v
Netif.v
Ip.v
Icmp.v
IpOutput.v
IpInput.v
IcmpEcho.v
Udp.v
UdpPorts.v
UdpInput.v
UdpOutput.v
Dhcps.v
DhcpsLease.v
DhcpsRange.v
DhcpsMsg.v
DhcpsSend.v
Dns.v
DnsNames.v
DnsRecv.v
DnsSend.v
DnsTable.v
Igmp.v
IgmpGroups.v
IgmpSend.v
IgmpLife.v
IgmpMember.v
IgmpLeave.v
IgmpInput.v
IgmpCalls.v
Dhcp.v
DhcpSend.v
DhcpReply.v
DhcpState.v
DhcpLife.v
Timers.v
UserMain.v
Host.v
Commands.v
Forward.v
RawSend.v
