(* ===== verification/Prelude.v ===== *)
(** * raw-esp: a verified model of the firmware.

    raw-esp turns an ESP8266 into a network interface of the host on its
    serial port.  This development models the firmware's own code and the
    parts of its copy of lwIP that its packets pass through, and proves what
    makes them correct.  All paths below are under [src/].

    ** The program and the files

    The host and the firmware exchange messages over a UART.  A message is a
    type byte and data with a CRC behind, framed with COBS.
    - [Crc16]: [user_main/crc16.c].  The table-driven sums; they equal the
      bit-serial register and detect every burst of up to 16 bits.
    - [Cobs]: [user_main/cobs.c].  Encoder and decoder; decoding what was
      encoded gives the message back, and the decoder resynchronises at the
      end of a frame.
    - [Uart]: [driver/uart.c] and the register map.  The hardware is the
      class [Soc] with the laws [SocLaws]; [Sim] is a device that has them.
    - [Comm], with the theorems of [CommTx], [CommRx], [Link] and [LinkTrip]:
      [user_main/comm.c].  [comm_send] puts an encoded frame into a ring of
      heap blocks, the UART interrupt and the task move its bytes to the FIFO;
      received bytes go through the decoder and the CRC test to the callback.
      [CommTx] is about the ring, [CommRx] about reception, [Link] about every
      interleaving of sends, the task and the interrupt, as a step relation
      with events, and [LinkTrip] about the way of messages from one side to
      the other.  The code takes a full ring for an empty one once the write
      index has wrapped and the read index has not; runs that never send then
      are [orderly].
    - [Message]: [user_main/message.h].  The types of messages and the packed
      structs with their layouts.
    - [UserMain], with [Host], [Commands] and [Forward]:
      [user_main/user_main.c].  One definition per handler of
      [packet_from_host] ([on_..._set] and the like), the receive callback of
      the raw control blocks ([raw_receiver]), the three functions put
      between the interface and the stack ([mitm_interface] and
      [netif_..._mitm]), the injection of packets, and start-up.  [Host]
      holds the invariant [safe], which counts the room of the ring, and one
      lemma per handler, [Commands] the
      theorems about commands, [Forward] those about packets from the network.

    Packets live in the buffers of lwIP and take this way through it:
    - [Pbuf], with [PbufChain], [PbufCopy] and [PbufTrim]:
      [lwip/core/pbuf.c].  Buffers are cells at addresses with a next pointer,
      a payload pointer and a reference count; their memory is the heap.
    - [InetChksum]: [lwip/core/ipv4/inet_chksum.c].  The optimised sums equal
      the ones' complement sum of the bytes, over chains too.
    - [IpAddr]: [lwip/core/ipv4/ip_addr.c].  Addresses and their text.
    - [Etharp], with [EtharpTable], [EtharpPackets] and [EtharpInput]:
      [lwip/netif/etharp.c].  [Etharp] has the definitions, [EtharpTable] the
      invariant of the table ([arp_ok]: ten entries, one per address at most,
      queues of distinct packets that nobody else frees), the search and the
      ageing, [EtharpPackets] what is sent and queued, [EtharpInput] what
      received frames do.
    - [Linked]: lists of cells in memory, and the two loops the control
      blocks of [raw.c] and [udp.c] share: [unlink_cell] and [move_front].
    - [RawPcb], with [RawSend]: [lwip/core/raw.c].  The list of control blocks,
      the offer of packets to their callbacks, and sending.  [RawSend] proves
      of [raw_sendto] the law the application's theorems assume of it.
    - [Netif]: [lwip/core/netif.c].  The list of interfaces, their flags and
      addresses, and the record [stack] with the static variables of the
      stack; TCP control blocks with the fields an address change looks at.
    - [IpHdr]: [include/lwip/ip.h].  Fields of headers and how they are read.
    - [Ip], with [IpOutput] and [IpInput]: [lwip/core/ipv4/ip.c].  Routing,
      output with options and the header checksum, and input up to the handler
      of the protocol; the raw control blocks of [RawPcb] are asked first.
    - [Icmp], with [IcmpEcho]: [lwip/core/ipv4/icmp.c].  The answer to echo
      requests through [ip_output_if], and the unreachable messages.
    - [Udp], with [UdpPorts], [UdpInput] and [UdpOutput]: [lwip/core/udp.c].
      [UdpPorts] has the invariant of the control blocks ([udp_ok]), of which
      there may be any number, ports and
      the search for the block of a datagram, [UdpInput] reception up to the
      callback or [icmp_dest_unreach], [UdpOutput] the headers of what is sent.
    - [Dhcps], with [DhcpsLease], [DhcpsRange], [DhcpsMsg] and [DhcpsSend]:
      [lwip/app/dhcpserver.c].  [DhcpsLease] has the list of leases in memory
      ([holds]), [DhcpsRange] the invariant of the server ([served]), which
      address a device gets and when leases end, [DhcpsMsg] the options of
      requests and the bytes of answers, [DhcpsSend] whole requests, what is
      sent through [udp_sendto], start and stop.
    - [Dns], with [DnsNames], [DnsRecv], [DnsSend] and [DnsTable]:
      [lwip/core/dns.c].  [DnsNames] is about names and the reading of
      responses, [DnsRecv] about what a response does to its query,
      [DnsSend] about the packet of a query, [DnsTable] has the invariant of
      the resolver ([steady]), the life of a query under the timer, and new
      queries.
    - [Igmp], with [IgmpGroups], [IgmpSend], [IgmpLife], [IgmpMember],
      [IgmpLeave], [IgmpInput] and [IgmpCalls]: [lwip/core/ipv4/igmp.c].  The
      groups are cells in memory, part of the state through the interface
      [Groups].  [IgmpGroups] has the invariant ([sound]: the groups of the
      list, one for each interface and address) and [outside], what drivers
      and allocators leave alone, [IgmpSend] the messages that leave through
      [ip_output_if_opt], [IgmpLife] timers, [IgmpMember] and [IgmpLeave]
      joining and leaving, [IgmpInput] messages of others, [IgmpCalls] the
      specification of all calls as a map of uses ([allowed], [trace]).
    - [Dhcp], with [DhcpSend], [DhcpReply], [DhcpState] and [DhcpLife]:
      [lwip/core/dhcp.c].  [Dhcp] has one definition per function; the six
      functions that send a request share [send_request] and [next_try].
      [DhcpSend] is about the packets that leave through [udp_sendto_if] and
      the waiting behind them, [DhcpReply] about the options of replies,
      [DhcpState] has the abstract machine ([machine]: state, tries and
      waiting time, with [on_timeout], [on_reply], [on_conflict] and
      [on_tick]) and what every function leaves alone, [DhcpLife] the
      refinement of the machine, the types of the fields and the binding of a
      lease.
    - [Timers]: [lwip/core/timers.c].  The list of timeouts as a sorted list
      of expiries, and the timers of the protocols, whose work may fault and
      may arm the timer of TCP.

    This file holds what they share: integers of a machine's width, [result]
    with its monad, bytes and memory blocks with checked accesses.

    ** How the code is modelled

    State is passed explicitly; each file has the record of the static
    variables of its source.  A C function that can go wrong returns a
    [result]: [Fault] marks undefined behaviour (a NULL or freed pointer, an
    access out of bounds, a division by zero), so that a theorem that ends
    in [Ok] says there is none.  Integers are [Z] and wrap where the source
    stores them.  Network byte order is written out where the source swaps.

    What is not under [src/], or not modelled, is a parameter: a class
    where several functions share state ([Soc], [Os], [Sdk]), a variable of
    the section otherwise ([linkoutput], [output], [memp_malloc], the
    callbacks [call], [tcp_input], random numbers and MAC filters, the
    allocators of the DHCP server, the DHCP client and the groups of IGMP, the station table of
    the former and the report of an address to the SDK of the latter; in [Etharp], [UserMain] and
    [RawPcb] also [ip_input], [ip_route] and [ip_output_if], which [Ip] models
    on the whole state of the stack, and in [Netif], [Ip] and [Dhcp] the calls
    of IGMP, which [Igmp] models on any state that holds its groups).  Laws about them are classes ([SocLaws], [OsLaws],
    [SdkLaws]) or named hypotheses ([link_keeps], [output_keeps],
    [reply_keeps]); each has an instance that the witnesses use.  Of the
    allocators of UDP control blocks and of leases nothing is assumed but that
    what they grant is not in use ([fresh], [fresh_memory]); they may refuse, and the
    theorems say what happens then.

    Loops over linked structures run on fuel: the number of cells of the
    store ([chain_fuel], [list_fuel]), which a chain or a list cannot exceed,
    or the length of the queue or the size of the table where the source has
    it; the options of a DHCP reply on the bytes that are left, and their
    areas on [REPLY_AREAS] turns, of which three are enough for a reply that
    does not overload its fields from within them; such a reply the code
    reads for ever.  The loop of the timeouts has as many rounds as [load]
    bounds.  The theorems show that the fuel suffices, since
    [OutOfFuel] is a fault.

    [yields] is the partial judgement of the development: what holds of a
    state if one is returned; [wp] the total one, with the faults that are
    allowed.  [yields] carries the frames and the invariants of the
    DHCP client, whose messages and binding are shown to return as well.

    The configuration is that of [include/lwipopts.h]: [NO_SYS], ARP queueing
    and learning from IP packets, no VLAN, no static ARP entries, no AutoIP,
    no SNMP, no reassembly.  Debug output and statistics counters of lwIP are
    left out, and [LWIP_ASSERT] is not executed.

    ** What the theorems show

    - Host link: [link_roundtrip] (what is sent is received, in every orderly
      run), [link_in_order], [link_no_lost_wakeup],
      [link_no_fault], [comm_send_queues], [transmitter_send_in_order],
      [decoder_check_and_dispatch_spec], [rx_rejects_burst], [cobs_roundtrip],
      [cobs_decoder_resync], [crc16_block_bitwise],
      [crc16_block_detects_burst], [message_structs_roundtrip].
    - Application: [host_command_safe] (no command but one makes a handler
      fault while the ring has five free slots), [host_command_wrong_size], [station_conf_set_spec],
      [set_baud_faults] (the one), [inject_ip_packet_delivers],
      [inject_ether_packet_restores_irq], [mitm_interface_hooks],
      [raw_receiver_decides], [ether_mode_isolates].
    - Packets: [pbuf_free_prefix], [pbuf_take_roundtrip],
      [pbuf_header_hide_reveal], [pbuf_realloc_trims],
      [lwip_standard_chksum_ones_complement],
      [inet_chksum_pseudo_flat], [ipaddr_roundtrip].
    - ARP: [etharp_query_spec], [etharp_arp_input_spec], [find_entry_spec],
      [update_arp_entry_resolves], [etharp_entries_expire],
      [ethernet_input_dispatch], [etharp_request_frame].
    - Raw control blocks: [raw_input_offers], [raw_list_ops],
      [raw_sendto_lends].
    - Interfaces: [netif_list_ops], [netif_set_ipaddr_connections],
      [netif_announces].
    - IP: [ip_route_choice] (against a declarative choice),
      [ip_output_if_header] (what is sent, with a checksum that verifies),
      [ip_output_refuses], [ip_input_decides] (what is dropped, trimmed and
      handed up), [ip_input_protocols], [ip_sent_received]
      (from the output of one host to the input of another).
    - ICMP: [icmp_echo_reply], [icmp_input_ignores].
    - UDP: [udp_ports_apart] (an invariant of every sequence of calls and
      datagrams, but for one call while no port is free), [udp_bind_spec], [udp_demux], [udp_input_decides],
      [udp_sendto_if_sends], [udp_datagram_roundtrip].
    - DHCP server: [dhcps_handles_request] (from a request in memory to the
      answer), [dhcps_leases_apart] (over every sequence of requests and timer
      calls, until the last address of the range has been given), [dhcps_lease_request], [dhcps_leases_expire],
      [parse_options_verdict], [dhcps_answer], [dhcps_message_sent],
      [dhcps_range], [dhcps_set_range], [dhcps_starts], [dhcps_stops].
    - DNS: [dns_gethostbyname_asks], [dns_query_sent], [dns_recv_decides],
      [dns_query_ends] (a query ends in 14 ticks, whatever happens beside it),
      [dns_name_roundtrip].
    - DHCP client: [dhcp_request_sent] (the six requests, byte by byte) and
      [dhcp_request_waits], [dhcp_reply_roundtrip], [dhcp_follows_machine],
      [dhcp_types], [dhcp_stays_awake], [dhcp_bind_configures].
    - IGMP: [igmp_refines_membership] (every sequence of calls),
      [igmp_send_reports], [igmp_input_heard], [igmp_query_answered] (within
      the time of the query), [igmp_query_divides].
    - Timers: [protocol_timers_keep_running] (while there is memory),
      [sys_timeout_inserts],
      [sys_untimeout_removes], [sys_check_timeouts_fires].

    Faults of the code that came up are theorems as well, such as
    [push_overwrites_wrapped_ring], [cobs_decoder_put_overflow],
    [dhcpc_start_inverted], [pbuf_memfind_misses_match],
    [ipaddr_aton_accepts_large_part], [ethernet_input_short_frame],
    [etharp_cleanup_nothing], [ip_route_shadows], [ip_input_short_header],
    [echo_reply_all_zero], [dhcps_full_range_hangs], [wrapped_run_given],
    [second_start_swaps], [long_name_overflows], [overloaded_file_loops],
    [nameless_offer_stops], [renewal_stops], [renewal_binds_old],
    [long_lease_wraps], [wrapped_is_full], [compare_name_takes_prefix] and
    [no_memory_no_timer].

    ** Not modelled

    - AutoIP ([lwip/core/ipv4/autoip.c]), which is configured out.
    - TCP, which the firmware leaves to the host: [raw_receiver] takes TCP
      packets before the stack sees them.
    - [lwip/core/mem.c] and [memp.c], which are configured to call the
      allocator of the SDK; whether it grants memory is the model's [Os] or
      [memp_malloc].  The pool of ARP queue entries is such a parameter, and
      giving entries back to it is not recorded.
    - The sequential and socket interfaces ([lwip/api/]), which [NO_SYS]
      leaves out of the build, and Espressif's other applications
      ([lwip/app/]), which the firmware does not call. *)
From stdpp Require Export base list gmap numbers.
From Stdlib Require Export ZArith Lia Bool.

#[global] Open Scope Z_scope.

(** ** Machine integers

    A w-bit unsigned C integer is a [Z] in [[0, 2^w)]; storing a value in
    one wraps it modulo [2^w], which the functions below write out. *)

Definition u8 (z : Z) : Z := z mod 256.
Definition u16 (z : Z) : Z := z mod 65536.
Definition u32 (z : Z) : Z := z mod 4294967296.

(** Conversion to a 16-bit or 32-bit two's complement integer. *)
Definition s16 (z : Z) : Z := (z + 32768) mod 65536 - 32768.
Definition s32 (z : Z) : Z := (z + 2147483648) mod 4294967296 - 2147483648.

(** The truth value of a C integer and the C integer of a truth value. *)
Definition c_true (z : Z) : bool := negb (z =? 0).
Definition c_bool (b : bool) : Z := if b then 1 else 0.

Definition is_byte (b : Z) : Prop := 0 <= b < 256.
Definition is_u16 (x : Z) : Prop := 0 <= x < 65536.
Definition is_u32 (x : Z) : Prop := 0 <= x < 4294967296.

#[export] Instance is_byte_dec b : Decision (is_byte b).
Proof. unfold is_byte; apply _. Defined.
#[export] Instance is_u16_dec x : Decision (is_u16 x).
Proof. unfold is_u16; apply _. Defined.
#[export] Instance is_u32_dec x : Decision (is_u32 x).
Proof. unfold is_u32; apply _. Defined.

(** A string of bytes. *)
Definition bytes (l : list Z) : Prop := Forall is_byte l.

Definition zlen {A} (l : list A) : Z := Z.of_nat (length l).

(** ** Automation *)

Create HintDb esp.
Create Rewrite HintDb esp.
Create Rewrite HintDb zlen.

(** Unfold the width definitions and close with linear arithmetic. *)
Ltac widths :=
  unfold is_byte, is_u16, is_u32, u8, u16, u32, zlen in *.
Ltac width_lia := widths; first [lia | Z.div_mod_to_equations; lia].

(** Split on every [if]/[match] scrutinee of the goal. *)
Ltac cases := repeat (case_match; simplify_eq/=).

Lemma u8_range z : is_byte (u8 z).
Proof. unfold is_byte, u8. apply Z.mod_pos_bound; lia. Qed.
Lemma u16_range z : is_u16 (u16 z).
Proof. unfold is_u16, u16. apply Z.mod_pos_bound; lia. Qed.
Lemma u32_range z : is_u32 (u32 z).
Proof. unfold is_u32, u32. apply Z.mod_pos_bound; lia. Qed.
Lemma u8_small z : is_byte z -> u8 z = z.
Proof. apply Z.mod_small. Qed.
Lemma u16_small z : is_u16 z -> u16 z = z.
Proof. apply Z.mod_small. Qed.
Lemma u32_small z : is_u32 z -> u32 z = z.
Proof. apply Z.mod_small. Qed.
#[export] Hint Resolve u8_range u16_range u32_range : esp.
#[export] Hint Rewrite u8_small u16_small u32_small using (width_lia) : esp.

(** ** Results

    What a run of C code ends in: a value, or one of the undefined
    behaviours the code can reach. *)

Inductive fault :=
  | OutOfBounds      (* access outside an object *)
  | DivByZero
  | NullDeref
  | UseAfterFree     (* access through a pointer to a freed object *)
  | OutOfFuel.       (* no behaviour of C: the bound of a modelled loop *)

Inductive result (A : Type) :=
  | Ok (a : A)
  | Fault (f : fault).
Arguments Ok {A} a.
Arguments Fault {A} f.

#[export] Instance fault_eq_dec : EqDecision fault.
Proof. solve_decision. Defined.

Definition rbind {A B} (m : result A) (k : A -> result B) : result B :=
  match m with Ok a => k a | Fault f => Fault f end.

Declare Scope res_scope.
Delimit Scope res_scope with res.
Notation "'let!' x ':=' m 'in' k" := (rbind m (fun x => k))
  (at level 10, x pattern, m at level 100, k at level 200) : res_scope.
#[global] Open Scope res_scope.

Definition of_option {A} (f : fault) (o : option A) : result A :=
  match o with Some a => Ok a | None => Fault f end.

Lemma rbind_ok {A B} (m : result A) (k : A -> result B) b :
  rbind m k = Ok b -> exists a, m = Ok a /\ k a = Ok b.
Proof. destruct m; simpl; [eauto | discriminate]. Qed.

Lemma rbind_assoc {A B C} (x : result A) (f : A -> result B) (g : B -> result C) : rbind (rbind x f) g = rbind x (fun a => rbind (f a) g).
Proof. by destruct x. Qed.

(** Whatever a computation returns satisfies [P]. *)
Definition yields {A} (x : result A) (P : A -> Prop) : Prop := forall a, x = Ok a -> P a.
Lemma yields_ok {A} (a : A) (P : A -> Prop) : P a -> yields (Ok a) P.
Proof. by intros Hp b [= <-]. Qed.
Lemma yields_fault {A} f (P : A -> Prop) : yields (Fault f) P.
Proof. by intros b. Qed.
Lemma yields_any {A} (x : result A) : yields x (fun _ => True).
Proof. done. Qed.
Lemma yields_bind {A B} (x : result A) (k : A -> result B) (P : A -> Prop) (Q : B -> Prop) : yields x P -> (forall a, P a -> yields (k a) Q) -> yields (rbind x k) Q.
Proof. intros Hx Hk b E. apply rbind_ok in E as (a & E & Eb). by apply (Hk a (Hx a E)). Qed.
Lemma yields_weaken {A} (x : result A) (P Q : A -> Prop) : yields x P -> (forall a, P a -> Q a) -> yields x Q.
Proof. intros Hx Hpq a E. by apply Hpq, Hx. Qed.
Create HintDb keeps.
Ltac case_on y := tryif is_var y then (destruct y; cbn [fst snd] in * ) else destruct y eqn:?.
(** Walk through a computation: results of calls in the database [keeps], and
    any result of the others. *)
Ltac yields_step :=
  match goal with
  | |- yields (Ok _) _ => apply yields_ok
  | |- yields (Fault _) _ => apply yields_fault
  | |- yields (rbind ?x _) _ =>
      lazymatch x with
      | rbind _ _ => rewrite rbind_assoc
      | Ok _ => cbn [rbind]
      | match ?y with _ => _ end => case_on y
      | _ => first [eapply yields_bind; [solve [eauto with keeps]|intros ? ?] | apply (yields_bind _ _ _ _ (yields_any _)); intros ? _]
      end
  | |- yields (match ?y with _ => _ end) _ => case_on y
  | |- yields _ _ => solve [eauto with keeps]
  end.

(** The total judgement: a state with [P] is returned, or a fault that [E]
    allows. *)
Definition wp {A} (E : fault -> Prop) (x : result A) (P : A -> Prop) : Prop := match x with Ok a => P a | Fault f => E f end.
Definition never (f : fault) : Prop := False.
Lemma wp_bind {A B} E (x : result A) (k : A -> result B) (P : A -> Prop) (Q : B -> Prop) : wp E x P -> (forall a, P a -> wp E (k a) Q) -> wp E (rbind x k) Q.
Proof. destruct x; cbn; [eauto|done]. Qed.
Lemma wp_weaken {A} (E E' : fault -> Prop) (x : result A) (P Q : A -> Prop) : wp E x P -> (forall f, E f -> E' f) -> (forall a, P a -> Q a) -> wp E' x Q.
Proof. destruct x; cbn; eauto. Qed.
Lemma wp_never {A} E (x : result A) (P : A -> Prop) : wp never x P -> wp E x P.
Proof. intros Hx. by eapply wp_weaken. Qed.
Lemma wp_ok {A} (x : result A) (P : A -> Prop) : wp never x P <-> exists a, x = Ok a /\ P a.
Proof. split; [destruct x; [by eexists|done]|by intros (a & -> & Ha)]. Qed.

(** ** Memory blocks: reads and writes that check the bounds of the object *)

Definition mread (m : list Z) (i : Z) : result Z :=
  if 0 <=? i then of_option OutOfBounds (m !! Z.to_nat i) else Fault OutOfBounds.

Definition mwrite (m : list Z) (i v : Z) : result (list Z) :=
  if (0 <=? i) && (i <? zlen m) then Ok (<[Z.to_nat i := v]> m)
  else Fault OutOfBounds.

(** [memcpy(m + i, l, |l|)] and the [n] bytes at [m + i]. *)
Definition mcopy (m : list Z) (i : Z) (l : list Z) : result (list Z) :=
  if (0 <=? i) && (i + zlen l <=? zlen m)
  then Ok (take (Z.to_nat i) m ++ l ++ drop (Z.to_nat i + length l) m)
  else Fault OutOfBounds.

Definition mslice (m : list Z) (i n : Z) : result (list Z) :=
  if (0 <=? i) && (0 <=? n) && (i + n <=? zlen m)
  then Ok (take (Z.to_nat n) (drop (Z.to_nat i) m))
  else Fault OutOfBounds.

Lemma zlen_nonneg {A} (l : list A) : 0 <= zlen l.
Proof. unfold zlen; lia. Qed.
Lemma zlen_app {A} (l k : list A) : zlen (l ++ k) = zlen l + zlen k.
Proof. unfold zlen; rewrite length_app; lia. Qed.
Lemma zlen_cons {A} (x : A) l : zlen (x :: l) = 1 + zlen l.
Proof. unfold zlen; simpl; lia. Qed.
Lemma zlen_nil {A} : zlen (@nil A) = 0.
Proof. reflexivity. Qed.
Lemma zlen_insert {A} (l : list A) i x : zlen (<[i := x]> l) = zlen l.
Proof. unfold zlen; by rewrite length_insert. Qed.
#[export] Hint Rewrite @zlen_app @zlen_cons @zlen_nil @zlen_insert : zlen.
Ltac zl := autorewrite with zlen in *.

(** Record that every length in sight is nonnegative. *)
Ltac zpos := repeat match goal with
  | |- context [zlen ?l] =>
      lazymatch goal with H : 0 <= zlen l |- _ => fail | _ => pose proof (zlen_nonneg l) end
  | H : context [zlen ?l] |- _ =>
      lazymatch goal with H' : 0 <= zlen l |- _ => fail | _ => pose proof (zlen_nonneg l) end
  end.

(** Arithmetic on lengths and widths. *)
Ltac zlia := zl; zpos; unfold is_byte, is_u16, is_u32 in *; lia.

(** Reassociate appends to the right. *)
Ltac app_norm := repeat first [rewrite <- app_assoc | progress cbn [app]].

Lemma mwrite_ok m i v :
  0 <= i < zlen m -> mwrite m i v = Ok (<[Z.to_nat i := v]> m).
Proof. intros. unfold mwrite. by rewrite (proj2 (Z.leb_le _ _)), (proj2 (Z.ltb_lt _ _)) by lia. Qed.

(** Writing at the seam of an append. *)
Lemma mwrite_seam l x k v :
  mwrite (l ++ x :: k) (zlen l) v = Ok (l ++ v :: k).
Proof.
  rewrite mwrite_ok by (zl; pose proof (zlen_nonneg l); pose proof (zlen_nonneg k); lia).
  unfold zlen. rewrite Nat2Z.id, insert_app_r_alt by lia.
  by rewrite Nat.sub_diag.
Qed.

Lemma mslice_prefix l k : mslice (l ++ k) 0 (zlen l) = Ok l.
Proof.
  unfold mslice. pose proof (zlen_nonneg l). pose proof (zlen_nonneg k).
  rewrite !(proj2 (Z.leb_le _ _)) by (zl; lia). simpl.
  unfold zlen. by rewrite drop_0, Nat2Z.id, take_app_length.
Qed.

Lemma mread_skip pre m i : zlen pre <= i -> mread (pre ++ m) i = mread m (i - zlen pre).
Proof.
  intros Hi. pose proof (zlen_nonneg pre). unfold mread.
  rewrite !(proj2 (Z.leb_le _ _)) by lia. f_equal. unfold zlen in *.
  rewrite lookup_app_r by lia. f_equal. lia.
Qed.
Lemma mread_next x m i : 1 <= i -> mread (x :: m) i = mread m (i - 1).
Proof. intros Hi. by apply (mread_skip [x]). Qed.
Lemma mread_here x m i : i = 0 -> mread (x :: m) i = Ok x.
Proof. by intros ->. Qed.

(** ** Bits *)
Lemma testbit_high x n i : 0 <= x < 2 ^ n -> n <= i -> Z.testbit x i = false.
Proof.
  intros Hx Hi. destruct (Z.le_gt_cases 0 n) as [Hn|Hn].
  - rewrite <- (Z.mod_small x (2 ^ n)) by done. by apply Z.mod_pow2_bits_high.
  - rewrite (Z.pow_neg_r 2 n) in Hx by done; lia.
Qed.

Lemma lxor_range a b n :
  0 <= n -> 0 <= a < 2 ^ n -> 0 <= b < 2 ^ n -> 0 <= Z.lxor a b < 2 ^ n.
Proof.
  intros Hn Ha Hb. split; [apply Z.lxor_nonneg; lia|].
  assert (Z.lxor a b mod 2 ^ n = Z.lxor a b) as <-; [|apply Z.mod_pos_bound; lia].
  apply Z.bits_inj'; intros i Hi. destruct (Z.lt_ge_cases i n).
  - by rewrite Z.mod_pow2_bits_low.
  - rewrite Z.mod_pow2_bits_high, Z.lxor_spec, !(testbit_high _ n); auto.
Qed.

Lemma shiftr_range a k n :
  0 <= k -> 0 <= n -> 0 <= a < 2 ^ (n + k) -> 0 <= Z.shiftr a k < 2 ^ n.
Proof.
  intros. rewrite Z.shiftr_div_pow2 by lia.
  rewrite Z.pow_add_r in * by lia. assert (0 < 2 ^ k) by lia.
  split; [apply Z.div_pos; lia | apply Z.div_lt_upper_bound; lia].
Qed.

Lemma land_255 x : Z.land x 255 = x mod 256.
Proof. change 255 with (Z.ones 8). by rewrite Z.land_ones. Qed.
Lemma land_65535 x : Z.land x 65535 = x mod 65536.
Proof. change 65535 with (Z.ones 16). by rewrite Z.land_ones. Qed.

(** A number is its high part xor its low byte. *)
Lemma split_byte x : Z.lxor (Z.shiftl (Z.shiftr x 8) 8) (Z.land x 255) = x.
Proof.
  apply Z.bits_inj'; intros i Hi.
  change 255 with (Z.ones 8).
  rewrite Z.lxor_spec, Z.land_spec, Z.shiftl_spec by lia.
  destruct (Z.lt_ge_cases i 8).
  - rewrite Z.testbit_neg_r, Z.ones_spec_low by lia.
    by rewrite andb_true_r, xorb_false_l.
  - rewrite Z.shiftr_spec, Z.ones_spec_high by lia.
    rewrite andb_false_r, xorb_false_r. f_equal; lia.
Qed.

(** Disjoint numbers are combined by adding them. *)
Lemma lor_add a b n : 0 <= n -> a mod 2 ^ n = 0 -> 0 <= b < 2 ^ n -> Z.lor a b = a + b.
Proof.
  intros Hn Ha Hb. assert (Z.land a b = 0) as Hl.
  { apply Z.bits_inj'; intros i Hi. rewrite Z.land_spec, Z.bits_0. destruct (Z.lt_ge_cases i n) as [Hlt|Hge].
    - rewrite <- (Z.mod_pow2_bits_low a n i Hlt), Ha, Z.bits_0. done.
    - rewrite (testbit_high b n) by done. apply andb_false_r. }
  rewrite Z.add_nocarry_lxor, Z.lxor_lor; done.
Qed.

(** Exhaustive check over an initial segment of [Z]. *)
Lemma check_range (P : Z -> bool) n :
  forallb P (seqZ 0 n) = true -> forall i, 0 <= i < n -> P i = true.
Proof.
  intros H i Hi. rewrite forallb_forall in H. apply H.
  apply list_elem_of_In, elem_of_seqZ. lia.
Qed.

Lemma fold_left_cons {A B} (f : A -> B -> A) x l a :
  fold_left f (x :: l) a = fold_left f l (f a x).
Proof. reflexivity. Qed.

Lemma bytes_app l k : bytes (l ++ k) <-> bytes l /\ bytes k.
Proof. apply Forall_app. Qed.
Lemma bytes_cons x l : bytes (x :: l) <-> is_byte x /\ bytes l.
Proof. apply List.Forall_cons_iff. Qed.
Lemma bytes_nil : bytes [].
Proof. constructor. Qed.

(** Split a list of bytes into its parts. *)
Ltac byte_list := repeat first [assumption | apply bytes_nil | apply bytes_cons; split | apply bytes_app; split].
