(* ===== verification/Crc16.v ===== *)
(** * CRC-16: the two table-driven checksums of [user_main/crc16.c] and
    [user_main/crc16.h], their bit-serial definitions, and the error
    detection the receive path of [comm.c] relies on. *)
From S2P Require Import Prelude.

Definition CRC16_CCITT_INIT_VALUE : Z := 0.
Definition CRC16_INIT_VALUE : Z := 0xFFFF.

Definition crc16_tab : list Z :=
  [
   0x0000; 0x1189; 0x2312; 0x329b; 0x4624; 0x57ad; 0x6536; 0x74bf;
   0x8c48; 0x9dc1; 0xaf5a; 0xbed3; 0xca6c; 0xdbe5; 0xe97e; 0xf8f7;
   0x1081; 0x0108; 0x3393; 0x221a; 0x56a5; 0x472c; 0x75b7; 0x643e;
   0x9cc9; 0x8d40; 0xbfdb; 0xae52; 0xdaed; 0xcb64; 0xf9ff; 0xe876;
   0x2102; 0x308b; 0x0210; 0x1399; 0x6726; 0x76af; 0x4434; 0x55bd;
   0xad4a; 0xbcc3; 0x8e58; 0x9fd1; 0xeb6e; 0xfae7; 0xc87c; 0xd9f5;
   0x3183; 0x200a; 0x1291; 0x0318; 0x77a7; 0x662e; 0x54b5; 0x453c;
   0xbdcb; 0xac42; 0x9ed9; 0x8f50; 0xfbef; 0xea66; 0xd8fd; 0xc974;
   0x4204; 0x538d; 0x6116; 0x709f; 0x0420; 0x15a9; 0x2732; 0x36bb;
   0xce4c; 0xdfc5; 0xed5e; 0xfcd7; 0x8868; 0x99e1; 0xab7a; 0xbaf3;
   0x5285; 0x430c; 0x7197; 0x601e; 0x14a1; 0x0528; 0x37b3; 0x263a;
   0xdecd; 0xcf44; 0xfddf; 0xec56; 0x98e9; 0x8960; 0xbbfb; 0xaa72;
   0x6306; 0x728f; 0x4014; 0x519d; 0x2522; 0x34ab; 0x0630; 0x17b9;
   0xef4e; 0xfec7; 0xcc5c; 0xddd5; 0xa96a; 0xb8e3; 0x8a78; 0x9bf1;
   0x7387; 0x620e; 0x5095; 0x411c; 0x35a3; 0x242a; 0x16b1; 0x0738;
   0xffcf; 0xee46; 0xdcdd; 0xcd54; 0xb9eb; 0xa862; 0x9af9; 0x8b70;
   0x8408; 0x9581; 0xa71a; 0xb693; 0xc22c; 0xd3a5; 0xe13e; 0xf0b7;
   0x0840; 0x19c9; 0x2b52; 0x3adb; 0x4e64; 0x5fed; 0x6d76; 0x7cff;
   0x9489; 0x8500; 0xb79b; 0xa612; 0xd2ad; 0xc324; 0xf1bf; 0xe036;
   0x18c1; 0x0948; 0x3bd3; 0x2a5a; 0x5ee5; 0x4f6c; 0x7df7; 0x6c7e;
   0xa50a; 0xb483; 0x8618; 0x9791; 0xe32e; 0xf2a7; 0xc03c; 0xd1b5;
   0x2942; 0x38cb; 0x0a50; 0x1bd9; 0x6f66; 0x7eef; 0x4c74; 0x5dfd;
   0xb58b; 0xa402; 0x9699; 0x8710; 0xf3af; 0xe226; 0xd0bd; 0xc134;
   0x39c3; 0x284a; 0x1ad1; 0x0b58; 0x7fe7; 0x6e6e; 0x5cf5; 0x4d7c;
   0xc60c; 0xd785; 0xe51e; 0xf497; 0x8028; 0x91a1; 0xa33a; 0xb2b3;
   0x4a44; 0x5bcd; 0x6956; 0x78df; 0x0c60; 0x1de9; 0x2f72; 0x3efb;
   0xd68d; 0xc704; 0xf59f; 0xe416; 0x90a9; 0x8120; 0xb3bb; 0xa232;
   0x5ac5; 0x4b4c; 0x79d7; 0x685e; 0x1ce1; 0x0d68; 0x3ff3; 0x2e7a;
   0xe70e; 0xf687; 0xc41c; 0xd595; 0xa12a; 0xb0a3; 0x8238; 0x93b1;
   0x6b46; 0x7acf; 0x4854; 0x59dd; 0x2d62; 0x3ceb; 0x0e70; 0x1ff9;
   0xf78f; 0xe606; 0xd49d; 0xc514; 0xb1ab; 0xa022; 0x92b9; 0x8330;
   0x7bc7; 0x6a4e; 0x58d5; 0x495c; 0x3de3; 0x2c6a; 0x1ef1; 0x0f78
  ].

Definition crc16_ccitt_tab : list Z :=
  [
   0x0000; 0x1021; 0x2042; 0x3063; 0x4084; 0x50a5; 0x60c6; 0x70e7;
   0x8108; 0x9129; 0xa14a; 0xb16b; 0xc18c; 0xd1ad; 0xe1ce; 0xf1ef;
   0x1231; 0x0210; 0x3273; 0x2252; 0x52b5; 0x4294; 0x72f7; 0x62d6;
   0x9339; 0x8318; 0xb37b; 0xa35a; 0xd3bd; 0xc39c; 0xf3ff; 0xe3de;
   0x2462; 0x3443; 0x0420; 0x1401; 0x64e6; 0x74c7; 0x44a4; 0x5485;
   0xa56a; 0xb54b; 0x8528; 0x9509; 0xe5ee; 0xf5cf; 0xc5ac; 0xd58d;
   0x3653; 0x2672; 0x1611; 0x0630; 0x76d7; 0x66f6; 0x5695; 0x46b4;
   0xb75b; 0xa77a; 0x9719; 0x8738; 0xf7df; 0xe7fe; 0xd79d; 0xc7bc;
   0x48c4; 0x58e5; 0x6886; 0x78a7; 0x0840; 0x1861; 0x2802; 0x3823;
   0xc9cc; 0xd9ed; 0xe98e; 0xf9af; 0x8948; 0x9969; 0xa90a; 0xb92b;
   0x5af5; 0x4ad4; 0x7ab7; 0x6a96; 0x1a71; 0x0a50; 0x3a33; 0x2a12;
   0xdbfd; 0xcbdc; 0xfbbf; 0xeb9e; 0x9b79; 0x8b58; 0xbb3b; 0xab1a;
   0x6ca6; 0x7c87; 0x4ce4; 0x5cc5; 0x2c22; 0x3c03; 0x0c60; 0x1c41;
   0xedae; 0xfd8f; 0xcdec; 0xddcd; 0xad2a; 0xbd0b; 0x8d68; 0x9d49;
   0x7e97; 0x6eb6; 0x5ed5; 0x4ef4; 0x3e13; 0x2e32; 0x1e51; 0x0e70;
   0xff9f; 0xefbe; 0xdfdd; 0xcffc; 0xbf1b; 0xaf3a; 0x9f59; 0x8f78;
   0x9188; 0x81a9; 0xb1ca; 0xa1eb; 0xd10c; 0xc12d; 0xf14e; 0xe16f;
   0x1080; 0x00a1; 0x30c2; 0x20e3; 0x5004; 0x4025; 0x7046; 0x6067;
   0x83b9; 0x9398; 0xa3fb; 0xb3da; 0xc33d; 0xd31c; 0xe37f; 0xf35e;
   0x02b1; 0x1290; 0x22f3; 0x32d2; 0x4235; 0x5214; 0x6277; 0x7256;
   0xb5ea; 0xa5cb; 0x95a8; 0x8589; 0xf56e; 0xe54f; 0xd52c; 0xc50d;
   0x34e2; 0x24c3; 0x14a0; 0x0481; 0x7466; 0x6447; 0x5424; 0x4405;
   0xa7db; 0xb7fa; 0x8799; 0x97b8; 0xe75f; 0xf77e; 0xc71d; 0xd73c;
   0x26d3; 0x36f2; 0x0691; 0x16b0; 0x6657; 0x7676; 0x4615; 0x5634;
   0xd94c; 0xc96d; 0xf90e; 0xe92f; 0x99c8; 0x89e9; 0xb98a; 0xa9ab;
   0x5844; 0x4865; 0x7806; 0x6827; 0x18c0; 0x08e1; 0x3882; 0x28a3;
   0xcb7d; 0xdb5c; 0xeb3f; 0xfb1e; 0x8bf9; 0x9bd8; 0xabbb; 0xbb9a;
   0x4a75; 0x5a54; 0x6a37; 0x7a16; 0x0af1; 0x1ad0; 0x2ab3; 0x3a92;
   0xfd2e; 0xed0f; 0xdd6c; 0xcd4d; 0xbdaa; 0xad8b; 0x9de8; 0x8dc9;
   0x7c26; 0x6c07; 0x5c64; 0x4c45; 0x3ca2; 0x2c83; 0x1ce0; 0x0cc1;
   0xef1f; 0xff3e; 0xcf5d; 0xdf7c; 0xaf9b; 0xbfba; 0x8fd9; 0x9ff8;
   0x6e17; 0x7e36; 0x4e55; 0x5e74; 0x2e93; 0x3eb2; 0x0ed1; 0x1ef0
  ].

(** ** The code *)

(** [crc16_update(&crc, data)]: the new value stored in [*crc]. *)
Definition crc16_update (crc data : Z) : Z :=
  u16 (Z.lxor (Z.shiftr crc 8)
              (nth (Z.to_nat (Z.land (Z.lxor crc data) 0xFF)) crc16_tab 0)).

(** [crc16_ccitt_update(&crc, data)]; [*crc << 8] is computed in [int] and
    truncated by the store. *)
Definition crc16_ccitt_update (crc data : Z) : Z :=
  let offset := Z.land (Z.lxor (Z.shiftr crc 8) data) 0x00ff in
  u16 (Z.lxor (Z.shiftl crc 8) (nth (Z.to_nat offset) crc16_ccitt_tab 0)).

(** The loops over [buf], with [len = |buf|]. *)
Definition crc16_block (buf : list Z) : Z :=
  fold_left crc16_update buf CRC16_INIT_VALUE.

Definition crc16_ccitt_block (buf : list Z) : Z :=
  fold_left crc16_ccitt_update buf CRC16_CCITT_INIT_VALUE.

(** ** Bit-serial reference definitions

    [lfsr] is one step of the reflected register of the polynomial
    x^16 + x^12 + x^5 + 1, [lfsr_msb] one step of the register that shifts
    the other way. *)

Definition lfsr (c : Z) : Z :=
  Z.lxor (Z.shiftr c 1) (if Z.testbit c 0 then 0x8408 else 0).

Definition lfsr_msb (c : Z) : Z :=
  Z.land (Z.lxor (Z.shiftl c 1) (if Z.testbit c 15 then 0x1021 else 0)) 0xFFFF.

Definition crc_bits (crc data : Z) : Z := Nat.iter 8 lfsr (Z.lxor crc data).

Definition crc_bits_msb (crc data : Z) : Z :=
  Nat.iter 8 lfsr_msb (Z.lxor crc (Z.shiftl data 8)).

(** ** The register is linear *)

Section linear.
Context (f : Z -> Z).
Context (f_lxor : forall a b, f (Z.lxor a b) = Z.lxor (f a) (f b)).

Lemma iter_lxor n a b :
  Nat.iter n f (Z.lxor a b) = Z.lxor (Nat.iter n f a) (Nat.iter n f b).
Proof using f_lxor. induction n as [|n IH]; simpl; [done|]. by rewrite IH, f_lxor. Qed.
End linear.

Lemma lxor_if (p q : bool) k :
  (if xorb p q then k else 0) = Z.lxor (if p then k else 0) (if q then k else 0).
Proof. destruct p, q; simpl; rewrite ?Z.lxor_0_r, ?Z.lxor_nilpotent; done. Qed.

Lemma lxor_swap a b c d :
  Z.lxor (Z.lxor a b) (Z.lxor c d) = Z.lxor (Z.lxor a c) (Z.lxor b d).
Proof.
  apply Z.bits_inj'; intros i _. rewrite !Z.lxor_spec.
  by repeat destruct (Z.testbit _ i).
Qed.

Lemma lfsr_lxor a b : lfsr (Z.lxor a b) = Z.lxor (lfsr a) (lfsr b).
Proof. unfold lfsr. by rewrite Z.shiftr_lxor, Z.lxor_spec, lxor_if, lxor_swap. Qed.

Lemma land_lxor_l a b c : Z.land (Z.lxor a b) c = Z.lxor (Z.land a c) (Z.land b c).
Proof.
  apply Z.bits_inj'; intros i _. rewrite !Z.lxor_spec, !Z.land_spec, Z.lxor_spec.
  by repeat destruct (Z.testbit _ i).
Qed.

Lemma lfsr_msb_lxor a b : lfsr_msb (Z.lxor a b) = Z.lxor (lfsr_msb a) (lfsr_msb b).
Proof.
  unfold lfsr_msb.
  by rewrite Z.shiftl_lxor, Z.lxor_spec, lxor_if, lxor_swap, land_lxor_l.
Qed.

(** Eight steps only move the high byte of the register down. *)
Lemma iter_lfsr_shift n h : Nat.iter n lfsr (Z.shiftl h (Z.of_nat n)) = h.
Proof.
  induction n as [|n IH]; [by rewrite Z.shiftl_0_r|].
  rewrite Nat.iter_succ_r.
  replace (lfsr (Z.shiftl h (Z.of_nat (S n)))) with (Z.shiftl h (Z.of_nat n)); [done|].
  unfold lfsr. rewrite Z.shiftl_spec_low by lia. rewrite Z.lxor_0_r.
  rewrite Z.shiftr_shiftl_l by lia. f_equal; lia.
Qed.

Lemma crc16_tab_lfsr i :
  0 <= i < 256 -> nth (Z.to_nat i) crc16_tab 0 = Nat.iter 8 lfsr i.
Proof.
  intros Hi. apply Z.eqb_eq.
  apply (check_range (fun i => nth (Z.to_nat i) crc16_tab 0 =? Nat.iter 8 lfsr i) 256);
    [vm_compute; reflexivity | done].
Qed.

Lemma crc16_ccitt_tab_lfsr i :
  0 <= i < 256 ->
  nth (Z.to_nat i) crc16_ccitt_tab 0 = Nat.iter 8 lfsr_msb (Z.shiftl i 8).
Proof.
  intros Hi. apply Z.eqb_eq.
  apply (check_range (fun i =>
    nth (Z.to_nat i) crc16_ccitt_tab 0 =? Nat.iter 8 lfsr_msb (Z.shiftl i 8)) 256);
    [vm_compute; reflexivity | done].
Qed.

Lemma lfsr_msb_low i : 0 <= i < 256 -> Nat.iter 8 lfsr_msb i = Z.shiftl i 8.
Proof.
  intros Hi. apply Z.eqb_eq.
  apply (check_range (fun i => Nat.iter 8 lfsr_msb i =? Z.shiftl i 8) 256);
    [vm_compute; reflexivity | done].
Qed.

Lemma lfsr_range c : is_u16 c -> is_u16 (lfsr c).
Proof.
  intros Hc. unfold lfsr, is_u16. change 65536 with (2 ^ 16).
  apply lxor_range; [lia| |case_match; lia].
  pose proof (shiftr_range c 1 15). unfold is_u16 in Hc. change (2 ^ (15 + 1)) with 65536 in H.
  change (2 ^ 16) with 65536. change (2 ^ 15) with 32768 in H. lia.
Qed.

(** The register step loses no information. *)
Lemma lfsr_inj a b : is_u16 a -> is_u16 b -> lfsr a = lfsr b -> a = b.
Proof.
  intros Ha Hb E.
  assert (forall c, is_u16 c -> Z.testbit (lfsr c) 15 = Z.testbit c 0) as Htop.
  { intros c Hc. unfold lfsr. rewrite Z.lxor_spec, Z.shiftr_spec by lia.
    rewrite (testbit_high c 16) by (first [exact Hc | lia]).
    by destruct (Z.testbit c 0). }
  assert (Z.testbit a 0 = Z.testbit b 0) as E0 by (rewrite <- !Htop by done; by rewrite E).
  assert (Z.shiftr a 1 = Z.shiftr b 1) as E1.
  { unfold lfsr in E. rewrite E0 in E. revert E. generalize (if Z.testbit b 0 then 33800 else 0).
    intros k E. apply (f_equal (fun z => Z.lxor z k)) in E.
    by rewrite !Z.lxor_assoc, !Z.lxor_nilpotent, !Z.lxor_0_r in E. }
  apply Z.bits_inj'; intros i Hi. destruct (Z.eq_dec i 0) as [->|]; [done|].
  apply (f_equal (fun z => Z.testbit z (i - 1))) in E1.
  rewrite !Z.shiftr_spec in E1 by lia. by replace (i - 1 + 1) with i in E1 by lia.
Qed.

Lemma lfsr_msb_u16 c : u16 (lfsr_msb c) = lfsr_msb c.
Proof. unfold lfsr_msb, u16. rewrite <- land_65535, <- Z.land_assoc. done. Qed.

(** From here on the register is used through these lemmas only. *)
#[local] Opaque lfsr lfsr_msb.

Lemma iter_lfsr_range n c : is_u16 c -> is_u16 (Nat.iter n lfsr c).
Proof. intros; induction n; simpl; [done|]. by apply lfsr_range. Qed.

Lemma lxor_u16_byte crc d : is_u16 crc -> is_byte d -> is_u16 (Z.lxor crc d).
Proof. intros. unfold is_u16. change 65536 with (2 ^ 16). apply lxor_range; widths; lia. Qed.

Lemma crc_bits_range crc d : is_u16 crc -> is_byte d -> is_u16 (crc_bits crc d).
Proof. intros. apply iter_lfsr_range. by apply lxor_u16_byte. Qed.

Lemma crc16_update_bits crc d :
  is_u16 crc -> is_byte d -> crc16_update crc d = crc_bits crc d.
Proof.
  intros Hc Hd. unfold crc16_update, crc_bits. set (x := Z.lxor crc d).
  assert (is_u16 x) as Hx by by apply lxor_u16_byte.
  rewrite crc16_tab_lfsr by (change 0xFF with 255; rewrite land_255; apply Z.mod_pos_bound; lia).
  assert (Z.shiftr crc 8 = Z.shiftr x 8) as ->.
  { unfold x. rewrite Z.shiftr_lxor.
    replace (Z.shiftr d 8) with 0; [by rewrite Z.lxor_0_r|].
    rewrite Z.shiftr_div_pow2 by lia. symmetry; apply Z.div_small.
    change (2 ^ 8) with 256. widths; lia. }
  pose proof (iter_lfsr_shift 8 (Z.shiftr x 8)) as E. change (Z.of_nat 8) with 8 in E.
  rewrite <- E. rewrite <- (iter_lxor lfsr lfsr_lxor).
  rewrite (split_byte x). apply u16_small. by apply iter_lfsr_range.
Qed.

Lemma u16_lxor a b : u16 (Z.lxor a b) = Z.lxor (u16 a) (u16 b).
Proof. unfold u16. by rewrite <- !land_65535, land_lxor_l. Qed.

Lemma crc16_ccitt_update_bits crc d :
  is_u16 crc -> is_byte d -> crc16_ccitt_update crc d = crc_bits_msb crc d.
Proof.
  intros Hc Hd. unfold crc16_ccitt_update, crc_bits_msb. set (h := Z.lxor (Z.shiftr crc 8) d).
  assert (0 <= h < 256) as Hh.
  { change 256 with (2 ^ 8). apply lxor_range; [lia| |widths; lia].
    apply shiftr_range; [lia|lia|]. change (2 ^ (8 + 8)) with 65536. widths; lia. }
  assert (Z.land h 0xff = h) as -> by (change 0xff with 255; rewrite land_255; by apply Z.mod_small).
  rewrite crc16_ccitt_tab_lfsr by done.
  assert (Z.lxor crc (Z.shiftl d 8) = Z.lxor (Z.shiftl h 8) (Z.land crc 255)) as ->.
  { rewrite <- (split_byte crc) at 1. unfold h. rewrite Z.shiftl_lxor.
    rewrite !Z.lxor_assoc. f_equal. apply Z.lxor_comm. }
  rewrite (iter_lxor lfsr_msb lfsr_msb_lxor), (lfsr_msb_low (Z.land crc 255))
    by (rewrite ?land_255; apply Z.mod_pos_bound; lia).
  rewrite Z.lxor_comm, u16_lxor. f_equal.
  - rewrite (Nat.iter_succ 7). apply lfsr_msb_u16.
  - unfold u16. rewrite land_255, !Z.shiftl_mul_pow2 by lia.
    change 65536 with (256 * 2 ^ 8). by rewrite Z.mul_mod_distr_r by lia.
Qed.

(** ** Theorems *)
Lemma crc16_fold_bits buf c :
  is_u16 c -> bytes buf ->
  fold_left crc16_update buf c = fold_left crc_bits buf c /\
  is_u16 (fold_left crc16_update buf c).
Proof.
  intros Hc Hb. revert c Hc. induction Hb as [|d buf Hd Hb IH]; intros c Hc; [done|].
  rewrite !fold_left_cons, crc16_update_bits by done. apply IH. by apply crc_bits_range.
Qed.

Lemma crc_bits_msb_range crc d : is_u16 (crc_bits_msb crc d).
Proof.
  unfold crc_bits_msb. rewrite (Nat.iter_succ 7), <- lfsr_msb_u16. apply u16_range.
Qed.

Lemma crc16_ccitt_fold_bits buf c :
  is_u16 c -> bytes buf ->
  fold_left crc16_ccitt_update buf c = fold_left crc_bits_msb buf c.
Proof.
  intros Hc Hb. revert c Hc. induction Hb as [|d buf Hd Hb IH]; intros c Hc; [done|].
  rewrite !fold_left_cons, crc16_ccitt_update_bits by done. apply IH. apply crc_bits_msb_range.
Qed.

Lemma crc16_block_range buf : bytes buf -> is_u16 (crc16_block buf).
Proof. intros Hb. apply crc16_fold_bits; [done | exact Hb]. Qed.

Lemma iter_lfsr_inj n a b :
  is_u16 a -> is_u16 b -> Nat.iter n lfsr a = Nat.iter n lfsr b -> a = b.
Proof.
  intros Ha Hb. induction n as [|n IH]; [done|]. simpl. intros E.
  apply IH, lfsr_inj; auto using iter_lfsr_range.
Qed.

Lemma lxor_inj_l c a b : Z.lxor c a = Z.lxor c b -> a = b.
Proof.
  intros E. apply (f_equal (Z.lxor c)) in E.
  by rewrite <- !Z.lxor_assoc, Z.lxor_nilpotent, !Z.lxor_0_l in E.
Qed.

Lemma lxor_inj_r c a b : Z.lxor a c = Z.lxor b c -> a = b.
Proof. rewrite !(Z.lxor_comm _ c). apply lxor_inj_l. Qed.

Lemma crc_bits_inj_crc a b d :
  is_u16 a -> is_u16 b -> is_byte d -> crc_bits a d = crc_bits b d -> a = b.
Proof.
  intros Ha Hb Hd E. apply iter_lfsr_inj in E; [|by apply lxor_u16_byte..].
  by apply lxor_inj_r in E.
Qed.

(** Two bytes are sixteen steps on the register with both bytes in it. *)
Lemma crc_bits_two c x y :
  crc_bits (crc_bits c x) y = Nat.iter 16 lfsr (Z.lxor c (Z.lxor x (Z.shiftl y 8))).
Proof.
  unfold crc_bits. rewrite (Nat.iter_add 8 8). f_equal.
  rewrite <- Z.lxor_assoc. rewrite (iter_lxor lfsr lfsr_lxor 8 (Z.lxor c x)).
  f_equal. pose proof (iter_lfsr_shift 8 y) as E. by change (Z.of_nat 8) with 8 in E.
Qed.

Lemma lxor_two_bytes x y x' y' :
  is_byte x -> is_byte x' -> is_byte y -> is_byte y' ->
  Z.lxor x (Z.shiftl y 8) = Z.lxor x' (Z.shiftl y' 8) -> x = x' /\ y = y'.
Proof.
  assert (forall x y, is_byte x -> Z.land (Z.lxor x (Z.shiftl y 8)) 255 = x /\
                                   Z.shiftr (Z.lxor x (Z.shiftl y 8)) 8 = y) as H.
  { clear. intros x y Hx. split.
    - rewrite land_lxor_l, !land_255, Z.shiftl_mul_pow2 by lia.
      change (2 ^ 8) with 256. rewrite Z.mod_mul, Z.lxor_0_r by lia. by apply Z.mod_small.
    - rewrite Z.shiftr_lxor, Z.shiftr_shiftl_l, Z.shiftl_0_r by lia.
      replace (Z.shiftr x 8) with 0; [by rewrite Z.lxor_0_l|].
      rewrite Z.shiftr_div_pow2 by lia. symmetry; by apply Z.div_small. }
  intros Hx Hx' _ _ E. destruct (H x y Hx) as [A B], (H x' y' Hx') as [A' B'].
  rewrite E in A, B. split; congruence.
Qed.

Lemma shiftl_byte_u16 y : is_byte y -> is_u16 (Z.shiftl y 8).
Proof. intros. rewrite Z.shiftl_mul_pow2 by lia. change (2 ^ 8) with 256. widths; lia. Qed.

Lemma crc_bits_two_inj c x y x' y' :
  is_u16 c -> is_byte x -> is_byte x' -> is_byte y -> is_byte y' ->
  crc_bits (crc_bits c x) y = crc_bits (crc_bits c x') y' -> x = x' /\ y = y'.
Proof.
  intros Hc Hx Hx' Hy Hy' E. rewrite !crc_bits_two in E.
  assert (forall x y, is_byte x -> is_byte y -> is_u16 (Z.lxor c (Z.lxor x (Z.shiftl y 8)))) as R.
  { clear -Hc. intros x y Hx Hy. pose proof (shiftl_byte_u16 y Hy). widths.
    change 65536 with (2 ^ 16) in *. repeat apply lxor_range; lia. }
  apply iter_lfsr_inj in E; [|by apply R..].
  apply lxor_inj_l in E. eapply lxor_two_bytes; [exact Hx|exact Hx'|exact Hy|exact Hy'|exact E].
Qed.

Lemma crc_fold_inj buf a b :
  is_u16 a -> is_u16 b -> bytes buf ->
  fold_left crc_bits buf a = fold_left crc_bits buf b -> a = b.
Proof.
  intros Ha Hb H. revert a b Ha Hb. induction H as [|d buf Hd H IH]; intros a b Ha Hb E; [done|].
  rewrite !fold_left_cons in E. apply IH in E; [|by apply crc_bits_range..]. by apply crc_bits_inj_crc in E.
Qed.

Lemma bytes_fold_range buf c :
  is_u16 c -> bytes buf -> is_u16 (fold_left crc_bits buf c).
Proof. intros. destruct (crc16_fold_bits buf c) as [<- ?]; done. Qed.

Lemma crc16_block_fold buf :
  bytes buf -> crc16_block buf = fold_left crc_bits buf 0xFFFF.
Proof. intros Hb. by apply (crc16_fold_bits buf 0xFFFF). Qed.

Lemma crc_burst : forall p s x y x' y',
  bytes (p ++ s) -> bytes [x; y; x'; y'] -> ~ (x = x' /\ y = y') ->
  crc16_block (p ++ x :: y :: s) <> crc16_block (p ++ x' :: y' :: s).
Proof.
  intros p s x y x' y' [Hp Hs]%bytes_app H Hne E. apply Hne.
  rewrite !bytes_cons in H. destruct H as (Hx & Hy & Hx' & Hy' & _).
  rewrite !crc16_block_fold in E by (rewrite bytes_app, !bytes_cons; tauto).
  rewrite !fold_left_app, !fold_left_cons in E.
  pose proof (bytes_fold_range p 0xFFFF ltac:(done) Hp) as Hc.
  apply crc_fold_inj in E; [|by repeat apply crc_bits_range..|done].
  by apply crc_bits_two_inj in E.
Qed.

(** The table-driven checksum of a message is the one a shift register
    of the polynomial 0x8408 (x^16 + x^12 + x^5 + 1, reflected) computes bit
    by bit from the initial value 0xFFFF, for every string of bytes. *)
Theorem crc16_block_bitwise : forall buf,
  bytes buf -> crc16_block buf = fold_left crc_bits buf 0xFFFF.
Proof. exact crc16_block_fold. Qed.

Lemma crc16_block_bitwise_witness :
  bytes [0x31; 0x32; 0x33; 0x34; 0x35; 0x36; 0x37; 0x38; 0x39] /\
  crc16_block [0x31; 0x32; 0x33; 0x34; 0x35; 0x36; 0x37; 0x38; 0x39] =
  fold_left crc_bits [0x31; 0x32; 0x33; 0x34; 0x35; 0x36; 0x37; 0x38; 0x39] 0xFFFF.
Proof.
  assert (bytes [0x31; 0x32; 0x33; 0x34; 0x35; 0x36; 0x37; 0x38; 0x39])
    as H by (repeat constructor; lia).
  split; [exact H | apply (crc16_block_bitwise _ H)].
Defined.

(** The other table computes the CCITT/XModem checksum: the register of
    x^16 + x^12 + x^5 + 1 that shifts left, from the initial value 0. *)
Theorem crc16_ccitt_block_bitwise : forall buf,
  bytes buf -> crc16_ccitt_block buf = fold_left crc_bits_msb buf 0.
Proof. intros buf Hb. by apply crc16_ccitt_fold_bits. Qed.

Lemma crc16_ccitt_block_bitwise_witness :
  bytes [0x31; 0x32; 0x33] /\
  crc16_ccitt_block [0x31; 0x32; 0x33] = fold_left crc_bits_msb [0x31; 0x32; 0x33] 0.
Proof.
  assert (bytes [0x31; 0x32; 0x33]) as H by (repeat constructor; lia).
  split; [exact H | apply (crc16_ccitt_block_bitwise _ H)].
Defined.

(** An error confined to two consecutive bytes of a message (so any burst
    of at most nine bits wherever it starts, and any of sixteen on a byte
    boundary) always changes the checksum. *)
Theorem crc16_block_detects_burst : forall p s x y x' y',
  bytes (p ++ s) -> bytes [x; y; x'; y'] -> ~ (x = x' /\ y = y') ->
  crc16_block (p ++ x :: y :: s) <> crc16_block (p ++ x' :: y' :: s).
Proof. apply crc_burst. Qed.

Lemma crc16_block_detects_burst_witness :
  bytes ([0x80] ++ [7]) /\ bytes [1; 2; 3; 2] /\ ~ (1 = 3 /\ 2 = 2) /\
  crc16_block ([0x80] ++ 1 :: 2 :: [7]) <> crc16_block ([0x80] ++ 3 :: 2 :: [7]).
Proof.
  assert (bytes ([0x80] ++ [7])) as H1 by (repeat constructor; lia).
  assert (bytes [1; 2; 3; 2]) as H2 by (repeat constructor; lia).
  assert (~ (1 = 3 /\ 2 = 2)) as H3 by lia.
  repeat split; [exact H1 | exact H2 | exact H3 |].
  apply (crc16_block_detects_burst _ _ _ _ _ _ H1 H2 H3).
Defined.

(** The checksum the link uses is not the one its description names: on
    the nine digits "123456789" the XModem checksum is 0x31C3 and the
    checksum [comm_send] appends and the receiver verifies is 0x6F91. *)
Theorem crc16_block_is_not_xmodem :
  crc16_ccitt_block [0x31; 0x32; 0x33; 0x34; 0x35; 0x36; 0x37; 0x38; 0x39] = 0x31C3 /\
  crc16_block [0x31; 0x32; 0x33; 0x34; 0x35; 0x36; 0x37; 0x38; 0x39] = 0x6F91.
Proof. vm_compute. done. Qed.
