(* ===== verification/Cobs.v ===== *)
(** * COBS framing: [user_main/cobs.c] and [user_main/cobs.h].

    The encoder writes through a destination block whose bounds are checked
    by [mwrite]; [cobs_frame] is the frame it is meant to produce.  The
    decoder is the state machine of [cobs_decoder_put] over a receive buffer;
    its callback is a parameter. *)
From S2P Require Import Prelude.

Definition COBS_MAX_DISTANCE : Z := 0xff - 1.
Definition COBS_BYTE_EOF : Z := 0.

(** [size_t] arithmetic. *)
Definition COBS_ENCODED_MAX_SIZE (size : Z) : Z :=
  u32 (size + u32 (size + COBS_MAX_DISTANCE - 1) / COBS_MAX_DISTANCE + 1).

(** ** Encoder *)

Module Encoder.

(** The locals of [cobs_encode]: the destination block and the three
    variables that index it ([dst] and [code_ptr] as offsets from
    [dst_orig]). *)
Record enc := Enc { mem : list Z; dst : Z; code_ptr : Z; code_len : Z }.

(** [*code_ptr = code_len; code_ptr = dst++; code_len = 0x01;] *)
Definition close_block (e : enc) : result enc :=
  let! m := mwrite (mem e) (code_ptr e) (code_len e) in
  Ok (Enc m (dst e + 1) (dst e) 0x01).

(** [*dst++ = ch; code_len++;] *)
Definition store_byte (e : enc) (ch : Z) : result enc :=
  let! m := mwrite (mem e) (dst e) ch in
  Ok (Enc m (dst e + 1) (code_ptr e) (u8 (code_len e + 1))).

(** The [while (src_len--)] loop; whether it ended without the [return -1]. *)
Fixpoint cobs_encode_loop (code_end : Z) (src : list Z) (e : enc) : result (bool * enc) :=
  match src with
  | [] => Ok (true, e)
  | ch :: src' =>
      if code_end <=? dst e then Ok (false, e)
      else if ch =? COBS_BYTE_EOF then
        let! e := close_block e in cobs_encode_loop code_end src' e
      else
        let! e := store_byte e ch in
        if code_len e =? 0xFF then
          match src' with
          | [] => Ok (true, e)
          | _ => let! e := close_block e in cobs_encode_loop code_end src' e
          end
        else cobs_encode_loop code_end src' e
  end.

(** [cobs_encode(dst_orig, src_orig, src_len)]: the destination block after
    the call and the returned [size_t]. *)
Definition cobs_encode (dst_orig src : list Z) : result (list Z * Z) :=
  let dest_sz := COBS_ENCODED_MAX_SIZE (zlen src) in
  let code_end := dest_sz - 1 in
  let! (complete, e) := cobs_encode_loop code_end src (Enc dst_orig 1 0 0x01) in
  if (complete : bool) then
    let! m := mwrite (mem e) (code_ptr e) (code_len e) in
    let! m := mwrite m (dst e) COBS_BYTE_EOF in
    Ok (m, dst e + 1)
  else Ok (mem e, u32 (-1)).

(** ** The frame of a payload

    [blk] is the block being collected, in order: a block ends at a zero of
    the payload, when it holds 254 bytes and more follow, or with the
    payload. *)

Fixpoint frame_from (blk src : list Z) : list Z :=
  match src with
  | [] => (1 + zlen blk) :: blk ++ [COBS_BYTE_EOF]
  | ch :: src' =>
      if ch =? COBS_BYTE_EOF then (1 + zlen blk) :: blk ++ frame_from [] src'
      else
        let blk := blk ++ [ch] in
        if (zlen blk =? COBS_MAX_DISTANCE) && negb (bool_decide (src' = []))
        then (1 + zlen blk) :: blk ++ frame_from [] src'
        else frame_from blk src'
  end.

Definition cobs_frame (src : list Z) : list Z := frame_from [] src.

(** ** The encoder writes the frame *)

(** The loop's state while [blk] is being collected behind the finished
    part [out] of the frame; the code byte of the open block is a hole. *)
Definition enc_at (out : list Z) (hole : Z) (blk rest : list Z) : enc :=
  Enc (out ++ hole :: blk ++ rest) (zlen out + 1 + zlen blk) (zlen out) (1 + zlen blk).

Lemma frame_from_len blk src : 2 + zlen blk + zlen src <= zlen (frame_from blk src).
Proof.
  revert blk. induction src as [|ch src IH]; intros blk; simpl.
  - zl. pose proof (zlen_nonneg blk). lia.
  - specialize (IH []) as IH0. specialize (IH (blk ++ [ch])).
    cases; zl; lia.
Qed.

Lemma frame_from_len_max blk src :
  zlen blk <= 253 -> 0 < zlen blk + zlen src ->
  zlen (frame_from blk src) <= 2 + zlen blk + zlen src + (zlen blk + zlen src - 1) / 254.
Proof.
  revert blk. induction src as [|ch src IH]; intros blk Hb Hpos.
  - simpl. zl. rewrite Z.div_small by lia. lia.
  - assert (forall k, 0 <= k -> zlen (frame_from [] src) <= 2 + zlen src + (k + zlen src) / 254)
      as IH0.
    { intros k Hk. destruct src as [|c src]; [simpl; zl; pose proof (Z.div_pos (k + 0) 254); lia|].
      specialize (IH [] ltac:(done)). zl. pose proof (zlen_nonneg src).
      specialize (IH ltac:(lia)).
      pose proof (Z.div_le_mono (0 + (1 + zlen src) - 1) (k + (1 + zlen src)) 254). lia. }
    pose proof (zlen_nonneg src). pose proof (zlen_nonneg blk).
    simpl. destruct (ch =? COBS_BYTE_EOF).
    { specialize (IH0 (zlen blk) ltac:(lia)). zl.
      replace (zlen blk + (1 + zlen src) - 1) with (zlen blk + zlen src) by lia. lia. }
    destruct (Z.eqb_spec (zlen (blk ++ [ch])) COBS_MAX_DISTANCE) as [E|E]; simpl.
    + zl. change COBS_MAX_DISTANCE with 254 in E. case_bool_decide as Hsrc; simpl.
      * subst src. simpl. zl. pose proof (Z.div_pos (zlen blk + (1 + 0) - 1) 254). lia.
      * zl. destruct src as [|c src]; [done|].
        specialize (IH [] ltac:(done)). zl. pose proof (zlen_nonneg src).
        specialize (IH ltac:(lia)).
        replace (zlen blk + (1 + (1 + zlen src)) - 1) with (0 + (1 + zlen src) - 1 + 1 * 254) by lia.
        rewrite Z.div_add by lia. lia.
    + change COBS_MAX_DISTANCE with 254 in E. specialize (IH (blk ++ [ch])). zl.
      replace (zlen blk + (1 + zlen src) - 1) with (zlen blk + (1 + 0) + zlen src - 1) by lia.
      specialize (IH ltac:(lia) ltac:(lia)). lia.
Qed.

Lemma frame_from_bytes src : forall blk,
  bytes blk -> bytes src -> zlen blk <= 254 -> (zlen blk = 254 -> src = []) ->
  bytes (frame_from blk src).
Proof.
  induction src as [|ch src IH]; intros blk Hb Hs Hl H254; cbn [frame_from].
  - apply bytes_cons. split; [zlia|]. apply bytes_app. split; [done|by repeat constructor].
  - apply bytes_cons in Hs as [Hc Hs].
    assert (bytes ((1 + zlen blk) :: blk)) as Hblk by (apply bytes_cons; split; [zlia|done]).
    assert (zlen blk <= 253) as Hl' by (destruct (Z.eq_dec (zlen blk) 254); [by specialize (H254 e)|lia]).
    assert (bytes (blk ++ [ch])) as Hblk' by (apply bytes_app; split; [done|apply bytes_cons; split; [done|constructor]]).
    assert (bytes (frame_from [] src)) as IH0 by (apply IH; [constructor|done|zlia|zl; lia]).
    destruct (ch =? COBS_BYTE_EOF); [by apply (bytes_app (_ :: _)); split|].
    destruct (Z.eqb_spec (zlen (blk ++ [ch])) COBS_MAX_DISTANCE) as [E|E];
      change COBS_MAX_DISTANCE with 254 in E; simpl.
    + case_bool_decide as Hsrc; simpl.
      * subst. apply IH; try done. lia.
      * apply (bytes_app (_ :: _)). split; [|done].
        apply bytes_cons. split; [zlia|done].
    + apply IH; [done|done|zlia|done].
Qed.

Lemma frame_bytes src : bytes src -> bytes (cobs_frame src).
Proof. intros. apply frame_from_bytes; [constructor|done|zlia|zl; lia]. Qed.

Lemma close_block_at out hole blk x rest :
  close_block (enc_at out hole blk (x :: rest)) =
  Ok (enc_at (out ++ (1 + zlen blk) :: blk) x [] rest).
Proof.
  unfold close_block, enc_at; simpl. rewrite mwrite_seam. simpl.
  f_equal. f_equal; zl; try lia. by rewrite <- app_assoc.
Qed.

Lemma store_byte_at out hole blk x rest ch :
  zlen blk <= 253 ->
  store_byte (enc_at out hole blk (x :: rest)) ch = Ok (enc_at out hole (blk ++ [ch]) rest).
Proof.
  intros Hb. pose proof (zlen_nonneg blk). unfold store_byte, enc_at; cbn [mem dst code_ptr code_len].
  replace (out ++ hole :: blk ++ x :: rest) with ((out ++ hole :: blk) ++ x :: rest) by by app_norm.
  replace (zlen out + 1 + zlen blk) with (zlen (out ++ hole :: blk)) by (zl; lia).
  rewrite mwrite_seam. cbn [rbind]. rewrite u8_small by (widths; lia).
  f_equal. f_equal; zl; try lia. by app_norm.
Qed.

(** Finishing: the last code byte and the EOF. *)
Definition finish (e : enc) : result (list Z * Z) :=
  let! m := mwrite (mem e) (code_ptr e) (code_len e) in
  let! m := mwrite m (dst e) COBS_BYTE_EOF in
  Ok (m, dst e + 1).

Lemma finish_at out hole blk x rest :
  finish (enc_at out hole blk (x :: rest)) =
  Ok (out ++ frame_from blk [] ++ rest, zlen (out ++ frame_from blk [])).
Proof.
  unfold finish, enc_at; simpl. rewrite mwrite_seam. simpl.
  replace (out ++ (1 + zlen blk) :: blk ++ x :: rest)
    with ((out ++ (1 + zlen blk) :: blk) ++ x :: rest) by by rewrite <- app_assoc.
  replace (zlen out + 1 + zlen blk) with (zlen (out ++ (1 + zlen blk) :: blk)) by (zl; lia).
  rewrite mwrite_seam. simpl. f_equal. f_equal; [|zl; lia].
  cbn [frame_from]. by app_norm.
Qed.

(** The loop from any of its states runs to the end and finishes the frame,
    as long as the frame ends at or before [code_end]: of the free part
    [rest] of the destination, the frame takes [skip] and leaves [tail]. *)
Lemma loop_at code_end src : forall out hole blk rest,
  bytes src -> zlen blk <= 253 ->
  zlen (out ++ frame_from blk src) <= code_end + 1 ->
  zlen (frame_from blk src) <= 1 + zlen blk + zlen rest ->
  exists e skip tail,
    rest = skip ++ tail /\ 1 + zlen blk + zlen skip = zlen (frame_from blk src) /\
    cobs_encode_loop code_end src (enc_at out hole blk rest) = Ok (true, e) /\
    finish e = Ok (out ++ frame_from blk src ++ tail, zlen (out ++ frame_from blk src)).
Proof.
  induction src as [|ch src IH]; intros out hole blk rest Hsrc Hblk Hend Hrest.
  - destruct rest as [|x rest]; [simpl in Hrest; zl; lia|].
    eexists _, [x], rest. rewrite finish_at. repeat split; [simpl; zl; lia].
  - apply bytes_cons in Hsrc as [Hch Hsrc].
    pose proof (frame_from_len blk (ch :: src)) as Hlen.
    pose proof (zlen_nonneg src). pose proof (zlen_nonneg blk).
    destruct rest as [|x rest]; [zl; lia|].
    cbn [cobs_encode_loop]. unfold enc_at at 1. cbn [dst].
    rewrite (proj2 (Z.leb_gt _ _)) by (zl; lia).
    cbn [frame_from] in *. destruct (Z.eqb_spec ch COBS_BYTE_EOF) as [->|Hz].
    + rewrite close_block_at. cbn [rbind].
      edestruct (IH (out ++ (1 + zlen blk) :: blk) x [] rest)
        as (e & skip & tail & -> & Hskip & -> & Hf); [done|done|zl; lia|zl; lia|].
      eexists e, (x :: skip), tail. repeat split; [zl; lia|].
      rewrite Hf. f_equal. f_equal; [by app_norm|zl; lia].
    + rewrite store_byte_at by done. cbn [rbind].
      set (blk' := blk ++ [ch]) in *.
      assert (zlen blk' = zlen blk + 1) as Hblk' by (unfold blk'; zl; lia).
      unfold enc_at at 1. cbn [code_len]. change COBS_MAX_DISTANCE with 254 in *.
      replace (1 + zlen blk' =? 0xFF) with (zlen blk' =? 254) by
        (destruct (Z.eqb_spec (zlen blk') 254), (Z.eqb_spec (1 + zlen blk') 0xFF); lia).
      destruct (Z.eqb_spec (zlen blk') 254) as [E|E]; cbn [andb] in *.
      * destruct src as [|c src'].
        -- rewrite bool_decide_true in * by done. cbn [negb] in *.
           destruct rest as [|y rest]; [simpl in Hrest; zl; lia|].
           eexists _, [x; y], rest. rewrite finish_at. repeat split; [simpl; zl; lia].
        -- rewrite bool_decide_false in * by done. cbn [negb] in *.
           set (s := c :: src') in *. pose proof (frame_from_len [] s) as Hl0.
           destruct rest as [|y rest]; [zl; lia|].
           rewrite close_block_at. cbn [rbind].
           edestruct (IH (out ++ (1 + zlen blk') :: blk') y [] rest)
             as (e & skip & tail & -> & Hskip & -> & Hf); [done|done|zl; lia|zl; lia|].
           eexists e, (x :: y :: skip), tail. repeat split; [zl; lia|].
           rewrite Hf. f_equal. f_equal; [by app_norm|zl; lia].
      * edestruct (IH out hole blk' rest) as (e & skip & tail & -> & Hskip & -> & Hf);
          [done|lia|done|zl; lia|].
        eexists e, (x :: skip), tail. repeat split; [zl; lia|]. done.
Qed.

Lemma max_size_eq n :
  0 <= n < 2 ^ 31 -> COBS_ENCODED_MAX_SIZE n = n + (n + 253) / 254 + 1.
Proof.
  intros Hn. unfold COBS_ENCODED_MAX_SIZE. change COBS_MAX_DISTANCE with 254.
  change (2 ^ 31) with 2147483648 in Hn.
  rewrite (u32_small (n + 254 - 1)) by (widths; lia).
  replace (n + 254 - 1) with (n + 253) by lia. apply u32_small. width_lia.
Qed.

Lemma frame_len_max src :
  0 < zlen src < 2 ^ 31 -> zlen (cobs_frame src) <= COBS_ENCODED_MAX_SIZE (zlen src).
Proof.
  intros H. rewrite max_size_eq by lia.
  pose proof (frame_from_len_max [] src) as L. zl. unfold cobs_frame.
  specialize (L ltac:(lia) ltac:(lia)).
  replace (zlen src + 253) with (0 + zlen src - 1 + 1 * 254) by lia.
  rewrite Z.div_add by lia. lia.
Qed.

Lemma cobs_encode_writes m src :
  bytes src -> 0 < zlen src < 2 ^ 31 -> COBS_ENCODED_MAX_SIZE (zlen src) <= zlen m ->
  cobs_encode m src =
    Ok (cobs_frame src ++ drop (length (cobs_frame src)) m, zlen (cobs_frame src)).
Proof.
  intros Hsrc Hlen Hm. pose proof (frame_len_max src Hlen) as HL.
  pose proof (frame_from_len [] src) as Hl0. unfold cobs_frame in *. zl.
  destruct m as [|hole m]; [zl; lia|].
  unfold cobs_encode.
  change (Enc (hole :: m) 1 0 0x01) with (enc_at [] hole [] m).
  edestruct (loop_at (COBS_ENCODED_MAX_SIZE (zlen src) - 1) src [] hole [] m)
    as (e & skip & tail & -> & Hskip & -> & Hf); [done|done|zl; lia|zl; lia|].
  cbn [rbind]. unfold finish in Hf. rewrite Hf.
  replace (length (frame_from [] src)) with (S (length skip)) by (zl; unfold zlen in *; lia).
  cbn [drop app]. by rewrite drop_app_length.
Qed.

End Encoder.

(** ** Decoder *)

Inductive cobs_decoder_state := DEC_IDLE | DEC_BLOCK.

(** [struct cobs_decoder] without its callback; [buf] is the memory the field
    [buf] points to and [buf_size] the size the decoder was told. *)
Record cobs_decoder := Decoder {
  buf : list Z;
  buf_size : Z;
  buf_ind : Z;
  overflow : Z;
  block_len : Z;
  block_cnt : Z;
  state : cobs_decoder_state
}.

#[export] Instance cobs_decoder_state_eq_dec : EqDecision cobs_decoder_state.
Proof. solve_decision. Defined.

(** [cobs_decoder_init]: the fields it does not assign keep their values. *)
Definition cobs_decoder_init (d : cobs_decoder) (b : list Z) (sz : Z) : cobs_decoder :=
  Decoder b sz (buf_ind d) (overflow d) (block_len d) (block_cnt d) DEC_IDLE.

(** [cobs->block_cnt = cobs->block_len = ch]. *)
Definition open_block (d : cobs_decoder) (ch : Z) : cobs_decoder :=
  Decoder (buf d) (buf_size d) (buf_ind d) (overflow d) ch ch (state d).

(** [cobs->buf[cobs->buf_ind++] = b] *)
Definition store (d : cobs_decoder) (b : Z) : result cobs_decoder :=
  let! m := mwrite (buf d) (buf_ind d) b in
  Ok (Decoder m (buf_size d) (u32 (buf_ind d + 1)) (overflow d)
        (block_len d) (block_cnt d) (state d)).

Definition set_overflow (d : cobs_decoder) : cobs_decoder :=
  Decoder (buf d) (buf_size d) (buf_ind d) 1 (block_len d) (block_cnt d) (state d).

Definition dec_block_cnt (d : cobs_decoder) : cobs_decoder :=
  Decoder (buf d) (buf_size d) (buf_ind d) (overflow d) (block_len d)
    (u32 (block_cnt d - 1)) (state d).

(** [cobs->buf_ind = 0; cobs->state = DEC_IDLE] *)
Definition to_idle (d : cobs_decoder) : cobs_decoder :=
  Decoder (buf d) (buf_size d) 0 (overflow d) (block_len d) (block_cnt d) DEC_IDLE.

Section decoder.
(** The callback [cobs->cb(cobs->cb_data, buf, len)]: it runs on the rest of
    the program's state and may read all of the buffer it is given. *)
Context {W : Type} (cb : W -> list Z -> Z -> result W).

(** One iteration of the loop of [cobs_decoder_put]. *)
Definition cobs_put_byte (d : cobs_decoder) (w : W) (ch : Z) : result (cobs_decoder * W) :=
  match state d with
  | DEC_IDLE =>
      if negb (ch =? COBS_BYTE_EOF) then
        Ok (Decoder (buf d) (buf_size d) 0 0 ch ch DEC_BLOCK, w)
      else Ok (d, w)
  | DEC_BLOCK =>
      if negb (ch =? COBS_BYTE_EOF) then
        if (block_cnt d =? 1) && (block_len d <? 0xFF) then
          let! d := store d COBS_BYTE_EOF in Ok (open_block d ch, w)
        else if (block_cnt d =? 1) && (block_len d =? 0xff) then
          Ok (open_block d ch, w)
        else
          let d := dec_block_cnt d in
          if buf_ind d <? buf_size d then
            let! d := store d ch in Ok (d, w)
          else Ok (set_overflow d, w)
      else
        let! w := (if (block_cnt d =? 1) && (overflow d =? 0)
                   then cb w (buf d) (buf_ind d) else Ok w) in
        Ok (to_idle d, w)
  end.

Fixpoint cobs_decoder_put (d : cobs_decoder) (w : W) (src : list Z)
  : result (cobs_decoder * W) :=
  match src with
  | [] => Ok (d, w)
  | ch :: src' => let! (d, w) := cobs_put_byte d w ch in cobs_decoder_put d w src'
  end.

(** How the bytes are cut into calls does not matter. *)
Lemma put_app d w a b :
  cobs_decoder_put d w (a ++ b) =
  (let! (d, w) := cobs_decoder_put d w a in cobs_decoder_put d w b).
Proof.
  revert d w. induction a as [|ch a IH]; intros d w; simpl; [done|].
  destruct (cobs_put_byte d w ch) as [[d' w']|]; simpl; [apply IH | done].
Qed.

(** The decoder's invariant: in a block, the countdown is between 1 and the
    block length and the fill index is in the buffer. *)
Definition dec_inv (d : cobs_decoder) : Prop :=
  buf_size d = zlen (buf d) /\ is_u32 (buf_size d) /\
  (state d = DEC_BLOCK ->
     1 <= block_cnt d <= block_len d /\ block_len d < 256 /\
     0 <= buf_ind d <= buf_size d).

(** [d] holds [out] at the start of its buffer and will go on after it. *)
Definition holds (d : cobs_decoder) (out junk : list Z) : Prop :=
  buf d = out ++ junk /\ buf_ind d = zlen out /\ buf_size d = zlen (buf d) /\
  is_u32 (buf_size d) /\ overflow d = 0 /\ state d = DEC_BLOCK.

(** Room left for what is still to come. *)
Lemma store_holds d out junk x b :
  holds d out (x :: junk) ->
  exists d', store d b = Ok d' /\ holds d' (out ++ [b]) junk /\
    block_cnt d' = block_cnt d /\ block_len d' = block_len d.
Proof.
  intros (Hb & Hi & Hs & Hr & Ho & Hst). unfold store. rewrite Hb, Hi, mwrite_seam.
  eexists; split; [done|]. pose proof (zlen_nonneg out). pose proof (zlen_nonneg junk).
  rewrite Hb in Hs. zl.
  repeat split; simpl; try done; [by app_norm|rewrite u32_small; zl; widths; lia|zl; lia|apply Hr..].
Qed.

(** Feeding the bytes of a block. *)
Lemma put_block blk : forall d w out junk,
  holds d out junk -> zlen blk <= zlen junk ->
  Forall (fun b => is_byte b /\ b <> 0) blk -> block_cnt d = 1 + zlen blk ->
  exists d' junk', cobs_decoder_put d w blk = Ok (d', w) /\
    holds d' (out ++ blk) junk' /\ zlen junk' = zlen junk - zlen blk /\
    block_cnt d' = 1 /\ block_len d' = block_len d.
Proof.
  induction blk as [|b blk IH]; intros d w out junk Hd Hlen Hblk Hcnt.
  - exists d, junk. rewrite app_nil_r. zl. repeat split; try apply Hd; lia.
  - apply List.Forall_cons_iff in Hblk as [[Hb Hb0] Hblk]. zl.
    pose proof (zlen_nonneg blk). pose proof (zlen_nonneg junk).
    destruct junk as [|x junk]; [zl; lia|]. zl.
    pose proof Hd as (Hbuf & Hi & Hs & Hr & Ho & Hst).
    cbn [cobs_decoder_put]. unfold cobs_put_byte. rewrite Hst.
    rewrite (proj2 (Z.eqb_neq b COBS_BYTE_EOF)) by done. cbn [negb].
    rewrite (proj2 (Z.eqb_neq (block_cnt d) 1)) by lia. cbn [andb].
    rewrite (proj2 (Z.ltb_lt _ _))
      by (cbn [dec_block_cnt buf_ind buf_size]; rewrite Hi, Hs, Hbuf; zl; lia).
    edestruct (store_holds (dec_block_cnt d) out junk x b)
      as (d' & -> & Hd' & Hc & Hl); [exact Hd|].
    cbn [rbind]. cbn [dec_block_cnt block_cnt block_len] in Hc, Hl.
    edestruct (IH d' w (out ++ [b]) junk) as (d2 & junk' & -> & Hd2 & Hj & Hc2 & Hl2);
      [done|lia|done| |].
    { rewrite Hbuf in Hs. rewrite Hc, u32_small; zlia. }
    exists d2, junk'. rewrite <- app_assoc in Hd2. repeat split; try done; try apply Hd2; lia.
Qed.

Definition idle (d : cobs_decoder) : Prop :=
  state d = DEC_IDLE /\ buf_size d = zlen (buf d) /\ is_u32 (buf_size d).

(** In [d] the next nonzero byte opens a block behind the message so far. *)
Definition ready (d : cobs_decoder) (out junk : list Z) : Prop :=
  forall w c, 1 <= c <= 255 -> exists d',
    cobs_put_byte d w c = Ok (d', w) /\ holds d' out junk /\
    block_cnt d' = c /\ block_len d' = c.

Lemma idle_ready d : idle d -> ready d [] (buf d).
Proof.
  intros (Hst & Hs & Hr) w c Hc. unfold cobs_put_byte. rewrite Hst.
  rewrite (proj2 (Z.eqb_neq c COBS_BYTE_EOF)) by (unfold COBS_BYTE_EOF; lia).
  eexists; split; [done|]. by repeat split; simpl; try apply Hr.
Qed.

Lemma boundary_ready_zero d out x junk :
  holds d out (x :: junk) -> block_cnt d = 1 -> block_len d < 255 ->
  ready d (out ++ [COBS_BYTE_EOF]) junk.
Proof.
  intros Hd H1 Hl w c Hc. unfold cobs_put_byte.
  destruct (store_holds d out junk x COBS_BYTE_EOF Hd) as (d' & Hsd & Hd' & _ & _).
  destruct Hd as (_ & _ & _ & _ & _ & ->).
  rewrite (proj2 (Z.eqb_neq c COBS_BYTE_EOF)), H1, (proj2 (Z.ltb_lt _ _))
    by (unfold COBS_BYTE_EOF; lia).
  rewrite Hsd. eexists; split; [done|]. split; [exact Hd'|done].
Qed.

Lemma boundary_ready_full d out junk :
  holds d out junk -> block_cnt d = 1 -> block_len d = 255 -> ready d out junk.
Proof.
  intros Hd H1 Hl w c Hc. unfold cobs_put_byte.
  pose proof Hd as (_ & _ & _ & _ & _ & ->).
  rewrite (proj2 (Z.eqb_neq c COBS_BYTE_EOF)), H1, Hl by (unfold COBS_BYTE_EOF; lia).
  eexists; split; [done|]. split; [exact Hd|done].
Qed.

(** A code byte and its block, fed where a block may open. *)
Lemma put_code_block blk d w out junk rest :
  ready d out junk -> zlen blk <= 254 -> zlen blk <= zlen junk ->
  Forall (fun b => is_byte b /\ b <> 0) blk ->
  exists d' junk',
    cobs_decoder_put d w ((1 + zlen blk) :: blk ++ rest) = cobs_decoder_put d' w rest /\
    holds d' (out ++ blk) junk' /\ zlen junk' = zlen junk - zlen blk /\
    block_cnt d' = 1 /\ block_len d' = 1 + zlen blk.
Proof.
  intros Hr Hb Hj Hblk. destruct (Hr w (1 + zlen blk)) as (d1 & H1 & Hd1 & Hc & Hl); [zlia|].
  edestruct (put_block blk d1 w out junk) as (d2 & junk' & H2 & Hd2 & Hj2 & Hc2 & Hl2); [done..|].
  exists d2, junk'. cbn [cobs_decoder_put]. rewrite H1. cbn [rbind].
  rewrite put_app, H2. cbn [rbind]. repeat split; try done; try apply Hd2. by rewrite Hl2.
Qed.

(** [fr], fed to [d], hands [out ++ p] to the callback and leaves the
    decoder idle, with the message still at the start of the buffer. *)
Definition delivers (d : cobs_decoder) (w : W) (fr out p junk : list Z) : Prop :=
  exists d' junk',
    cobs_decoder_put d w fr =
      (let! w := cb w ((out ++ p) ++ junk') (zlen (out ++ p)) in Ok (d', w)) /\
    idle d' /\ buf d' = (out ++ p) ++ junk' /\ zlen junk' = zlen junk - zlen p.

Lemma delivers_step d w fr d1 fr1 out a p junk junk1 :
  cobs_decoder_put d w fr = cobs_decoder_put d1 w fr1 ->
  delivers d1 w fr1 (out ++ a) p junk1 -> zlen junk1 = zlen junk - zlen a ->
  delivers d w fr out (a ++ p) junk.
Proof.
  intros E (d' & junk' & H & Hi & Hb & Hj) Hl. rewrite <- (app_assoc out a p) in H, Hb.
  exists d', junk'. rewrite E. repeat split; try done; try apply Hi. zlia.
Qed.

(** The last block of a frame and the EOF. *)
Lemma put_last blk d w out junk :
  ready d out junk -> zlen blk <= 254 -> zlen blk <= zlen junk ->
  Forall (fun b => is_byte b /\ b <> 0) blk ->
  delivers d w (Encoder.frame_from blk []) out blk junk.
Proof.
  intros Hr Hb Hj Hblk.
  edestruct (put_code_block blk d w out junk [COBS_BYTE_EOF])
    as (d1 & junk' & E & Hd1 & Hj1 & Hc1 & _); [done..|].
  destruct Hd1 as (Hbuf & Hi & Hs & Hu & Ho & Hst).
  exists (to_idle d1), junk'. split; [|repeat split; simpl; try done; apply Hu].
  cbn [Encoder.frame_from]. rewrite E. cbn [cobs_decoder_put]. unfold cobs_put_byte.
  rewrite Hst, Hc1, Ho, Hbuf, Hi. cbn [negb andb Z.eqb COBS_BYTE_EOF].
  by destruct (cb w _ _).
Qed.

(** Feeding a frame delivers its payload. *)
Lemma put_frame src : forall blk d w out junk,
  ready d out junk -> zlen blk <= 253 ->
  Forall (fun b => is_byte b /\ b <> 0) blk -> bytes src ->
  zlen blk + zlen src <= zlen junk ->
  delivers d w (Encoder.frame_from blk src) out (blk ++ src) junk.
Proof.
  induction src as [|ch src IH]; intros blk d w out junk Hr Hb Hblk Hsrc Hj.
  { rewrite app_nil_r. apply put_last; try done; zlia. }
  apply bytes_cons in Hsrc as [Hch Hsrc]. cbn [Encoder.frame_from].
  destruct (Z.eqb_spec ch COBS_BYTE_EOF) as [->|Hz].
  - edestruct (put_code_block blk d w out junk (Encoder.frame_from [] src))
      as (d1 & junk1 & E1 & Hd1 & Hj1 & Hc1 & Hl1); [done|zlia|zlia|done|].
    destruct junk1 as [|x junk1]; [zlia|].
    replace (blk ++ COBS_BYTE_EOF :: src) with ((blk ++ [COBS_BYTE_EOF]) ++ src) by by app_norm.
    eapply delivers_step; [exact E1| |].
    + apply (IH [] d1 w (out ++ blk ++ [COBS_BYTE_EOF]) junk1); [|zlia|constructor|done|zlia].
      rewrite app_assoc. apply (boundary_ready_zero _ _ x); [done|done|zlia].
    + zlia.
  - assert (Forall (fun b => is_byte b /\ b <> 0) (blk ++ [ch])) as Hblk'.
    { apply Forall_app; split; [done|]. apply List.Forall_cons; [done|constructor]. }
    change COBS_MAX_DISTANCE with 254.
    replace (blk ++ ch :: src) with ((blk ++ [ch]) ++ src) by by app_norm.
    destruct (Z.eqb_spec (zlen (blk ++ [ch])) 254) as [E|E]; cbn [andb].
    + case_bool_decide as Hnil; cbn [negb].
      * subst src. rewrite app_nil_r. apply put_last; try done; zlia.
      * edestruct (put_code_block (blk ++ [ch]) d w out junk (Encoder.frame_from [] src))
          as (d1 & junk1 & E1 & Hd1 & Hj1 & Hc1 & Hl1); [done|zlia|zlia|done|].
        eapply delivers_step; [exact E1| |].
        -- apply (IH [] d1 w (out ++ blk ++ [ch]) junk1); [|zlia|constructor|done|zlia].
           apply boundary_ready_full; [done|done|zlia].
        -- zlia.
    + apply IH; try done; zlia.
Qed.

Lemma put_cobs_frame d w src :
  idle d -> bytes src -> zlen src <= buf_size d ->
  delivers d w (Encoder.cobs_frame src) [] src (buf d).
Proof.
  intros Hd Hsrc Hl. apply (put_frame src []); [by apply idle_ready|done|constructor|done|].
  destruct Hd as (_ & Hs & _). zlia.
Qed.

(** An EOF always ends in the idle state. *)
Lemma put_eof_idle d w d' w' :
  dec_inv d -> cobs_put_byte d w COBS_BYTE_EOF = Ok (d', w') -> idle d'.
Proof.
  intros (Hs & Hu & _) E. unfold cobs_put_byte in E. destruct (state d) eqn:Hst; simpl in E.
  - simplify_eq. by repeat split; try apply Hu.
  - apply rbind_ok in E as (w1 & _ & E). simplify_eq. by repeat split; try apply Hu.
Qed.

(** ** Which streams are safe

    [run_ok n k l]: no stretch of [l] without an EOF is longer than [n + 1]
    bytes, [k] bytes of the first having been seen already. *)
Fixpoint run_ok (n k : Z) (l : list Z) : bool :=
  match l with
  | [] => true
  | c :: l => if c =? COBS_BYTE_EOF then run_ok n 0 l else (k <=? n) && run_ok n (k + 1) l
  end.

(** The invariant with the count [k] of bytes seen since the last EOF. *)
Definition dec_inv_at (k : Z) (d : cobs_decoder) : Prop :=
  dec_inv d /\ match state d with DEC_IDLE => k = 0 | DEC_BLOCK => 0 <= buf_ind d <= k - 1 end.

Context (cb_safe : forall w b n, 0 <= n <= zlen b -> exists w', cb w b n = Ok w').

Lemma store_ok d b :
  0 <= buf_ind d < zlen (buf d) ->
  store d b = Ok (Decoder (<[Z.to_nat (buf_ind d) := b]> (buf d)) (buf_size d)
                    (u32 (buf_ind d + 1)) (overflow d) (block_len d) (block_cnt d) (state d)).
Proof. intros H. unfold store. by rewrite mwrite_ok. Qed.

Ltac put_byte_done Hst Hu :=
  repeat split; simpl; zl; rewrite ?Hst; try done; try apply Hu;
  rewrite ?u32_small by zlia; zlia.

Lemma put_byte_safe k d w c :
  dec_inv_at k d -> is_byte c -> (c <> 0 -> k <= buf_size d) ->
  exists d' w', cobs_put_byte d w c = Ok (d', w') /\ buf_size d' = buf_size d /\
    dec_inv_at (if c =? COBS_BYTE_EOF then 0 else k + 1) d'.
Proof using cb_safe.
  intros [(Hs & Hu & Hblk) Hk] Hc Hroom. unfold cobs_put_byte.
  change COBS_BYTE_EOF with 0. destruct (Z.eqb_spec c 0) as [->|Hz]; cbn [negb].
  - destruct (state d) eqn:Hst.
    + eexists _, _; split; [done|]. split; [done|]. subst k.
      split; [split; [done|split; [done|by rewrite Hst]]|by rewrite Hst].
    + specialize (Hblk eq_refl) as (? & ? & ?).
      assert (exists w', (if (block_cnt d =? 1) && (overflow d =? 0)
               then cb w (buf d) (buf_ind d) else Ok w) = Ok w') as [w' ->].
      { case_match; [apply cb_safe; lia|eauto]. }
      eexists _, _; split; [done|]. repeat split; simpl; try done; apply Hu.
  - specialize (Hroom Hz). destruct (state d) eqn:Hst.
    + eexists _, _; split; [done|]. split; [done|]. subst k.
      repeat split; simpl; try done; zlia.
    + specialize (Hblk eq_refl) as (? & ? & ?).
      change (buf_ind (dec_block_cnt d)) with (buf_ind d).
      change (buf_size (dec_block_cnt d)) with (buf_size d).
      destruct (Z.eqb_spec (block_cnt d) 1), (Z.ltb_spec (block_len d) 0xFF),
        (Z.eqb_spec (block_len d) 0xff); cbn [andb]; try lia;
      try (eexists _, _; split; [done|]; put_byte_done Hst Hu).
      * rewrite store_ok by lia. eexists _, _; split; [done|].
        put_byte_done Hst Hu.
      * destruct (Z.ltb_spec (buf_ind d) (buf_size d)).
        -- rewrite store_ok by (simpl; lia). eexists _, _; split; [done|].
           put_byte_done Hst Hu.
        -- eexists _, _; split; [done|].
           put_byte_done Hst Hu.
      * destruct (Z.ltb_spec (buf_ind d) (buf_size d)).
        -- rewrite store_ok by (simpl; lia). eexists _, _; split; [done|].
           put_byte_done Hst Hu.
        -- eexists _, _; split; [done|].
           put_byte_done Hst Hu.
Qed.

Lemma put_safe l : forall k d w,
  dec_inv_at k d -> bytes l -> run_ok (buf_size d) k l = true ->
  exists d' w' k', cobs_decoder_put d w l = Ok (d', w') /\ dec_inv_at k' d'.
Proof using cb_safe.
  induction l as [|c l IH]; intros k d w Hd Hl Hrun; [by eexists _, _, _|].
  apply bytes_cons in Hl as [Hc Hl]. cbn [run_ok] in Hrun.
  edestruct (put_byte_safe k d w c) as (d1 & w1 & E & Hs & Hd1); [done|done| |].
  { intros Hz. rewrite (proj2 (Z.eqb_neq c COBS_BYTE_EOF)) in Hrun by done.
    by apply andb_true_iff in Hrun as [?%Z.leb_le _]. }
  cbn [cobs_decoder_put]. rewrite E. cbn [rbind]. eapply IH; [exact Hd1|done|].
  rewrite Hs. destruct (c =? COBS_BYTE_EOF); [done|]. by apply andb_true_iff in Hrun as [_ ?].
Qed.
End decoder.

(** A stretch of one-byte blocks writes past the end of the buffer. *)
Lemma put_ones_overflow {W} (cb : W -> list Z -> Z -> result W) n : forall d w,
  state d = DEC_BLOCK -> block_cnt d = 1 -> block_len d = 1 ->
  0 <= buf_ind d -> zlen (buf d) = buf_ind d + Z.of_nat n -> is_u32 (zlen (buf d)) ->
  cobs_decoder_put cb d w (replicate (S n) 1) = Fault OutOfBounds.
Proof.
  induction n as [|n IH]; intros d w Hst Hc Hl Hi Hn Hu;
    cbn [replicate cobs_decoder_put]; unfold cobs_put_byte; rewrite Hst, Hc, Hl; simpl.
  - unfold store, mwrite. rewrite (proj2 (Z.ltb_ge _ _)) by lia. by rewrite andb_false_r.
  - rewrite store_ok by lia. cbn [rbind].
    change (1 :: replicate n 1) with (replicate (S n) 1).
    apply IH; simpl; zl; try done; rewrite ?u32_small by zlia; zlia.
Qed.

Lemma zero_notin_frame src : forall blk,
  Forall (fun b => b <> 0) blk ->
  exists body, Encoder.frame_from blk src = body ++ [0] /\ Forall (fun b => b <> 0) body.
Proof.
  assert (forall blk, Forall (fun b => b <> 0) blk ->
            Forall (fun b => b <> 0) ((1 + zlen blk) :: blk)) as Hcons
    by (intros blk H; apply List.Forall_cons; [zlia|done]).
  induction src as [|ch src IH]; intros blk Hblk; cbn [Encoder.frame_from].
  - exists ((1 + zlen blk) :: blk). split; [by app_norm|auto].
  - destruct (IH [] ltac:(constructor)) as (body & -> & Hbody).
    destruct (Z.eqb_spec ch COBS_BYTE_EOF) as [->|Hz].
    + exists (((1 + zlen blk) :: blk) ++ body). split; [by app_norm|]. apply Forall_app; auto.
    + assert (Forall (fun b => b <> 0) (blk ++ [ch])) as Hblk'
        by (apply Forall_app; split; [done|by repeat constructor]).
      case_match eqn:E.
      * exists (((1 + zlen (blk ++ [ch])) :: blk ++ [ch]) ++ body).
        split; [by app_norm|]. apply Forall_app; auto.
      * by apply IH.
Qed.

(** ** Theorems *)

(** For a nonempty message the encoder never takes its error return: into
    a destination of at least [COBS_ENCODED_MAX_SIZE] bytes it writes exactly
    the frame of the message, touches no byte behind it, returns the frame's
    length, and that length is within the bound the macro promises. *)
Theorem cobs_encode_frame : forall m src,
  bytes src -> 0 < zlen src < 2 ^ 31 -> COBS_ENCODED_MAX_SIZE (zlen src) <= zlen m ->
  Encoder.cobs_encode m src =
    Ok (Encoder.cobs_frame src ++ drop (length (Encoder.cobs_frame src)) m,
        zlen (Encoder.cobs_frame src)) /\
  zlen (Encoder.cobs_frame src) <= COBS_ENCODED_MAX_SIZE (zlen src).
Proof.
  intros m src Hsrc Hl Hm. split; [by apply Encoder.cobs_encode_writes|].
  by apply Encoder.frame_len_max.
Qed.

Lemma cobs_encode_frame_witness :
  let src := [0x13; 0x08; 0x00; 0xF0; 0x00; 0x00; 0x34; 0xA4; 0x11] in
  let m := replicate 12 0x55 in
  (bytes src /\ 0 < zlen src < 2 ^ 31 /\ COBS_ENCODED_MAX_SIZE (zlen src) <= zlen m) /\
  Encoder.cobs_frame src = [0x03; 0x13; 0x08; 0x02; 0xF0; 0x01; 0x04; 0x34; 0xA4; 0x11; 0x00] /\
  Encoder.cobs_encode m src =
    Ok (Encoder.cobs_frame src ++ drop (length (Encoder.cobs_frame src)) m,
        zlen (Encoder.cobs_frame src)).
Proof.
  cbv zeta.
  assert (bytes [0x13; 0x08; 0x00; 0xF0; 0x00; 0x00; 0x34; 0xA4; 0x11]) as H1
    by (repeat constructor; lia).
  assert (0 < zlen [0x13; 0x08; 0x00; 0xF0; 0x00; 0x00; 0x34; 0xA4; 0x11] < 2 ^ 31) as H2
    by (vm_compute; done).
  assert (COBS_ENCODED_MAX_SIZE (zlen [0x13; 0x08; 0x00; 0xF0; 0x00; 0x00; 0x34; 0xA4; 0x11])
          <= zlen (replicate 12 0x55)) as H3 by (vm_compute; done).
  split; [exact (conj H1 (conj H2 H3))|]. split; [vm_compute; reflexivity|].
  apply (cobs_encode_frame _ _ H1 H2 H3).
Defined.

(** A frame holds no zero byte except the one that ends it. *)
Theorem cobs_frame_one_zero : forall src, exists body,
  Encoder.cobs_frame src = body ++ [COBS_BYTE_EOF] /\ ~ In COBS_BYTE_EOF body.
Proof.
  intros src. destruct (zero_notin_frame src []) as (body & E & H); [constructor|].
  exists body. split; [exact E|]. rewrite List.Forall_forall in H. intros Hin. by apply (H _ Hin).
Qed.

(** C34: round trip over the wire.  Whatever an idle decoder's buffer holds,
    the bytes [cobs_encode] wrote for a message that fits the buffer make it
    call its callback once, on that message, and return to idle. *)
Theorem cobs_roundtrip : forall {W} (cb : W -> list Z -> Z -> result W) d w m src,
  idle d -> bytes src -> 0 < zlen src < 2 ^ 31 -> zlen src <= buf_size d ->
  COBS_ENCODED_MAX_SIZE (zlen src) <= zlen m ->
  exists m' n d' junk,
    Encoder.cobs_encode m src = Ok (m', n) /\
    cobs_decoder_put cb d w (take (Z.to_nat n) m') =
      (let! w := cb w (src ++ junk) (zlen src) in Ok (d', w)) /\
    idle d'.
Proof.
  intros W cb d w m src Hd Hsrc Hl Hbuf Hm.
  rewrite (Encoder.cobs_encode_writes m src) by done.
  destruct (put_cobs_frame cb d w src) as (d' & junk & E & Hi & _ & _); [done..|].
  eexists _, _, d', junk. split; [done|]. split; [|exact Hi].
  unfold zlen at 1. by rewrite Nat2Z.id, take_app_length, E.
Qed.

(** A callback that logs the messages it is given. *)
Definition log_cb (w : list (list Z)) (b : list Z) (n : Z) : result (list (list Z)) :=
  let! msg := mslice b 0 n in Ok (w ++ [msg]).

Definition idle_decoder (n : nat) : cobs_decoder :=
  Decoder (replicate n 0xEE) (Z.of_nat n) 0 0 0 0 DEC_IDLE.

Lemma cobs_roundtrip_witness :
  (idle (idle_decoder 8) /\ bytes [7; 0; 9]) /\
  exists m' n d' junk,
    Encoder.cobs_encode (replicate 6 0) [7; 0; 9] = Ok (m', n) /\
    cobs_decoder_put log_cb (idle_decoder 8) [] (take (Z.to_nat n) m') =
      (let! w := log_cb [] ([7; 0; 9] ++ junk) (zlen [7; 0; 9]) in Ok (d', w)) /\
    idle d'.
Proof.
  assert (idle (idle_decoder 8)) as H1 by (vm_compute; done).
  assert (bytes [7; 0; 9]) as H2 by (repeat constructor; lia).
  split; [split; [exact H1|exact H2]|].
  apply (cobs_roundtrip log_cb (idle_decoder 8) [] (replicate 6 0) [7; 0; 9] H1 H2);
    vm_compute; done.
Defined.

(** C35: resynchronisation.  From any state the decoder can be in and after any
    line noise that did not leave the buffer, one EOF byte makes the decoder
    ready: the next frame is delivered intact. *)
Theorem cobs_decoder_resync : forall {W} (cb : W -> list Z -> Z -> result W) d w noise d1 w1 d2 w2 src,
  cobs_decoder_put cb d w noise = Ok (d1, w1) -> dec_inv d1 ->
  cobs_put_byte cb d1 w1 COBS_BYTE_EOF = Ok (d2, w2) ->
  bytes src -> zlen src <= buf_size d2 ->
  exists d' junk,
    cobs_decoder_put cb d w (noise ++ COBS_BYTE_EOF :: Encoder.cobs_frame src) =
      (let! w := cb w2 (src ++ junk) (zlen src) in Ok (d', w)) /\ idle d'.
Proof.
  intros W cb d w noise d1 w1 d2 w2 src E Hinv E2 Hsrc Hl.
  pose proof (put_eof_idle cb d1 w1 d2 w2 Hinv E2) as Hidle.
  destruct (put_cobs_frame cb d2 w2 src) as (d' & junk & E3 & Hi & _ & _); [done..|].
  exists d', junk. split; [|exact Hi].
  rewrite put_app, E. cbn [rbind cobs_decoder_put]. by rewrite E2.
Qed.

Lemma cobs_decoder_resync_witness : exists d1 w1 d2 w2,
  (cobs_decoder_put log_cb (idle_decoder 8) [] [5; 1; 2] = Ok (d1, w1) /\ dec_inv d1 /\
   cobs_put_byte log_cb d1 w1 COBS_BYTE_EOF = Ok (d2, w2) /\ bytes [7; 0]) /\
  exists d' junk,
    cobs_decoder_put log_cb (idle_decoder 8) []
      ([5; 1; 2] ++ COBS_BYTE_EOF :: Encoder.cobs_frame [7; 0]) =
      (let! w := log_cb w2 ([7; 0] ++ junk) (zlen [7; 0]) in Ok (d', w)) /\ idle d'.
Proof.
  eexists _, _, _, _.
  split; [split; [vm_compute; reflexivity|split; [vm_compute; done|
    split; [vm_compute; reflexivity|repeat constructor; lia]]]|].
  eapply (cobs_decoder_resync log_cb); [vm_compute; reflexivity|vm_compute; done|
    vm_compute; reflexivity|repeat constructor; lia|vm_compute; done].
Defined.

(** Bounds.  If no stretch of the input without an EOF is longer than the
    buffer plus the leading code byte, the decoder never touches memory
    outside its buffer, whatever the bytes are, and its countdown and fill
    index stay in range. *)
Theorem cobs_decoder_put_safe : forall {W} (cb : W -> list Z -> Z -> result W) d w l,
  (forall w b n, 0 <= n <= zlen b -> exists w', cb w b n = Ok w') ->
  idle d -> bytes l -> run_ok (buf_size d) 0 l = true ->
  exists d' w', cobs_decoder_put cb d w l = Ok (d', w') /\ dec_inv d'.
Proof.
  intros W cb d w l Hcb (Hst & Hs & Hu) Hl Hrun.
  destruct (put_safe cb Hcb l 0 d w) as (d' & w' & k' & E & Hd' & _); [|done|done|eauto].
  split; [|by rewrite Hst]. split; [done|]. split; [done|]. by rewrite Hst.
Qed.

Lemma log_cb_safe w b n : 0 <= n <= zlen b -> exists w', log_cb w b n = Ok w'.
Proof.
  intros H. unfold log_cb, mslice. rewrite !(proj2 (Z.leb_le _ _)) by lia. simpl. eauto.
Defined.

Lemma cobs_decoder_put_safe_witness :
  (idle (idle_decoder 3) /\ bytes [1; 1; 9; 9; 0; 3; 1; 1; 0; 0] /\
   run_ok (buf_size (idle_decoder 3)) 0 [1; 1; 9; 9; 0; 3; 1; 1; 0; 0] = true) /\
  exists d' w', cobs_decoder_put log_cb (idle_decoder 3) [] [1; 1; 9; 9; 0; 3; 1; 1; 0; 0] = Ok (d', w') /\
    dec_inv d'.
Proof.
  assert (idle (idle_decoder 3)) as H1 by (vm_compute; done).
  assert (bytes [1; 1; 9; 9; 0; 3; 1; 1; 0; 0]) as H2 by (repeat constructor; lia).
  assert (run_ok (buf_size (idle_decoder 3)) 0 [1; 1; 9; 9; 0; 3; 1; 1; 0; 0] = true) as H3
    by (vm_compute; done).
  split; [split; [exact H1|split; [exact H2|exact H3]]|].
  apply (cobs_decoder_put_safe log_cb (idle_decoder 3) [] _ log_cb_safe H1 H2 H3).
Defined.

(** The bound is needed.  The store of the implied zero of a block is not
    guarded by [buf_size]: on a stream of two more 0x01 bytes than the buffer
    holds, an idle decoder writes outside its buffer, whatever its size. *)
Theorem cobs_decoder_put_overflow : forall {W} (cb : W -> list Z -> Z -> result W) d w,
  idle d ->
  cobs_decoder_put cb d w (replicate (S (S (length (buf d)))) 1) = Fault OutOfBounds.
Proof.
  intros W cb d w (Hst & Hs & Hu).
  change (replicate (S (S (length (buf d)))) 1) with (1 :: replicate (S (length (buf d))) 1).
  cbn [cobs_decoder_put]. unfold cobs_put_byte. rewrite Hst. cbn [rbind negb Z.eqb COBS_BYTE_EOF].
  apply put_ones_overflow; simpl; try done. by rewrite <- Hs.
Qed.

Lemma cobs_decoder_put_overflow_witness :
  idle (idle_decoder 4) /\
  cobs_decoder_put log_cb (idle_decoder 4) [] [1; 1; 1; 1; 1; 1] = Fault OutOfBounds.
Proof.
  assert (idle (idle_decoder 4)) as H by (vm_compute; done).
  split; [exact H|]. apply (cobs_decoder_put_overflow log_cb (idle_decoder 4) [] H).
Defined.

(** The size macro is one too small for the empty message: the frame has
    two bytes and the macro gives one. *)
Theorem cobs_encoded_max_size_empty :
  COBS_ENCODED_MAX_SIZE 0 = 1 /\
  Encoder.cobs_encode (replicate 1 0x55) [] = Fault OutOfBounds /\
  Encoder.cobs_encode (replicate 2 0x55) [] = Ok ([1; 0], 2).
Proof. vm_compute. done. Qed.
