(* ===== verification/Uart.v ===== *)
(** * UART: [driver/uart.c], [include/driver/uart.h] and the register map of
    [include/driver/uart_register.h].

    The registers, the ROM and the SDK are reached through the operations of
    the class [Soc]; [SocLaws] states what their documentation says of UART0
    (the FIFOs and the interrupt enable register), and [Sim] is a device
    that satisfies it. *)
From S2P Require Import Prelude.

(** ** Register map *)

Definition REG_UART_BASE (i : Z) : Z := 0x60000000 + i * 0xf00.
Definition UART_FIFO (i : Z) : Z := REG_UART_BASE i + 0x0.
Definition UART_INT_ST (i : Z) : Z := REG_UART_BASE i + 0x8.
Definition UART_RXFIFO_TOUT_INT_ST : Z := Z.shiftl 1 8.
Definition UART_TXFIFO_EMPTY_INT_ST : Z := Z.shiftl 1 1.
Definition UART_RXFIFO_FULL_INT_ST : Z := Z.shiftl 1 0.
Definition UART_INT_ENA (i : Z) : Z := REG_UART_BASE i + 0xC.
Definition UART_RXFIFO_TOUT_INT_ENA : Z := Z.shiftl 1 8.
Definition UART_TXFIFO_EMPTY_INT_ENA : Z := Z.shiftl 1 1.
Definition UART_RXFIFO_FULL_INT_ENA : Z := Z.shiftl 1 0.
Definition UART_INT_CLR (i : Z) : Z := REG_UART_BASE i + 0x10.
Definition UART_RXFIFO_TOUT_INT_CLR : Z := Z.shiftl 1 8.
Definition UART_TXFIFO_EMPTY_INT_CLR : Z := Z.shiftl 1 1.
Definition UART_RXFIFO_FULL_INT_CLR : Z := Z.shiftl 1 0.
Definition UART_STATUS (i : Z) : Z := REG_UART_BASE i + 0x1C.
Definition UART_TXFIFO_CNT : Z := 0x000000FF.
Definition UART_TXFIFO_CNT_S : Z := 16.
Definition UART_RXFIFO_CNT : Z := 0x000000FF.
Definition UART_RXFIFO_CNT_S : Z := 0.
Definition UART_CONF0 (i : Z) : Z := REG_UART_BASE i + 0x20.
Definition UART_TXFIFO_RST : Z := Z.shiftl 1 18.
Definition UART_RXFIFO_RST : Z := Z.shiftl 1 17.
Definition UART_STOP_BIT_NUM_S : Z := 4.
Definition UART_BIT_NUM_S : Z := 2.
Definition UART_CONF1 (i : Z) : Z := REG_UART_BASE i + 0x24.
Definition UART_RX_FLOW_EN : Z := Z.shiftl 1 23.
Definition UART_RX_FLOW_THRHD : Z := 0x0000007F.
Definition UART_RX_FLOW_THRHD_S : Z := 16.
Definition UART_RXFIFO_FULL_THRHD : Z := 0x0000007F.
Definition UART_RXFIFO_FULL_THRHD_S : Z := 0.

Definition UART0 : Z := 0.
Definition UART1 : Z := 1.
Definition BIT_RATE_115200 : Z := 115200.

(** ** The hardware interface *)

(** Calls into the ROM and the SDK, with the arguments the driver gives; the
    pin names are the SDK's. *)
Inductive pin := PERIPHS_IO_MUX_GPIO2_U | PERIPHS_IO_MUX_U0TXD_U
  | PERIPHS_IO_MUX_U0RXD_U | PERIPHS_IO_MUX_MTDO_U | PERIPHS_IO_MUX_MTCK_U.

Inductive pin_func := FUNC_U1TXD_BK | FUNC_U0TXD | FUNC_U0RXD | FUNC_U0RTS | FUNC_4.

Inductive soc_call :=
  | PIN_FUNC_SELECT (p : pin) (f : pin_func)
  | PIN_PULLUP_DIS (p : pin)
  | PIN_PULLUP_EN (p : pin)
  | ETS_UART_INTR_ATTACH
  | ETS_UART_INTR_ENABLE
  | ETS_UART_INTR_DISABLE
  | uart_div_modify (uart_no div : Z)
  | os_install_putc1
  | system_os_task.

Class Soc (D : Type) := {
  READ_PERI_REG : D -> Z -> Z * D;
  WRITE_PERI_REG : D -> Z -> Z -> D;
  SET_PERI_REG_MASK : D -> Z -> Z -> D;
  CLEAR_PERI_REG_MASK : D -> Z -> Z -> D;
  call_soc : D -> soc_call -> D;
  UART_CLK_FREQ : Z
}.

(** Everything of a device but one observation of UART0 is left as it was. *)
Class SocView (D : Type) := {
  tx_sent : D -> list Z;     (* all bytes written to the transmit FIFO so far *)
  tx_count : D -> Z;         (* bytes in the transmit FIFO *)
  rx_stream : D -> list Z;   (* bytes received and still to be read, the ones
                                that are yet to arrive included *)
  int_ena : D -> Z           (* the interrupt enable register *)
}.

Record same_but_tx `{SocView D} (d d' : D) : Prop := {
  same_tx_rx : rx_stream d' = rx_stream d;
  same_tx_ena : int_ena d' = int_ena d
}.

Record quiet `{SocView D} (d d' : D) : Prop := {
  quiet_sent : tx_sent d' = tx_sent d;
  quiet_count : 0 <= tx_count d' <= tx_count d;
  quiet_rx : rx_stream d' = rx_stream d
}.

(** What the documentation of the UART says: the transmit FIFO takes the
    bytes written to it in order and drains on its own; the status register
    gives the fill of both FIFOs; reading the receive FIFO takes its oldest
    byte; the interrupt status shows enabled interrupts only; the mask macros set and clear bits of one register. *)
Class SocLaws (D : Type) `{Soc D, SocView D} := {
  tx_count_nonneg : forall d : D, 0 <= tx_count d;
  read_status : forall d : D,
    let '(v, d') := READ_PERI_REG d (UART_STATUS 0) in
    quiet d d' /\ int_ena d' = int_ena d /\
    Z.land (Z.shiftr v UART_TXFIFO_CNT_S) UART_TXFIFO_CNT = tx_count d' /\
    0 <= Z.land (Z.shiftr v UART_RXFIFO_CNT_S) UART_RXFIFO_CNT <= zlen (rx_stream d');
  read_fifo : forall (d : D) b s, rx_stream d = b :: s ->
    let '(v, d') := READ_PERI_REG d (UART_FIFO 0) in
    Z.land v 0xFF = b /\ rx_stream d' = s /\ int_ena d' = int_ena d /\
    tx_sent d' = tx_sent d /\ tx_count d' <= tx_count d;
  read_int_st : forall d : D,
    let '(v, d') := READ_PERI_REG d (UART_INT_ST 0) in
    quiet d d' /\ int_ena d' = int_ena d /\ Z.land v (int_ena d) = v;
  write_fifo : forall (d : D) b,
    let d' := WRITE_PERI_REG d (UART_FIFO 0) b in
    tx_sent d' = tx_sent d ++ [u8 b] /\ tx_count d' <= tx_count d + 1 /\ same_but_tx d d';
  write_int_clr : forall (d : D) m,
    let d' := WRITE_PERI_REG d (UART_INT_CLR 0) m in
    quiet d d' /\ int_ena d' = int_ena d;
  set_int_ena : forall (d : D) m,
    let d' := SET_PERI_REG_MASK d (UART_INT_ENA 0) m in
    quiet d d' /\ int_ena d' = Z.lor (int_ena d) m;
  clear_int_ena : forall (d : D) m,
    let d' := CLEAR_PERI_REG_MASK d (UART_INT_ENA 0) m in
    quiet d d' /\ int_ena d' = Z.ldiff (int_ena d) m
}.

(** ** The driver *)

(** The fields of the ROM's [UartDev] the driver uses. *)
Record UartDevice := UartDev {
  baut_rate : Z;
  data_bits : Z;
  exist_parity : Z;
  parity : Z;
  stop_bits : Z;
  TrigLvl : Z
}.

Definition set_baut_rate (u : UartDevice) (r : Z) : UartDevice :=
  UartDev r (data_bits u) (exist_parity u) (parity u) (stop_bits u) (TrigLvl u).

Section driver.
Context {D : Type} `{Soc D}.

Definition uart0_rx_intr_enable (d : D) : D :=
  SET_PERI_REG_MASK d (UART_INT_ENA 0)
    (Z.lor UART_RXFIFO_FULL_INT_ENA UART_RXFIFO_TOUT_INT_ENA).
Definition uart0_rx_intr_disable (d : D) : D :=
  CLEAR_PERI_REG_MASK d (UART_INT_ENA 0)
    (Z.lor UART_RXFIFO_FULL_INT_ENA UART_RXFIFO_TOUT_INT_ENA).
Definition uart0_tx_intr_enable (d : D) : D :=
  SET_PERI_REG_MASK d (UART_INT_ENA 0) UART_TXFIFO_EMPTY_INT_ENA.
Definition uart0_tx_intr_disable (d : D) : D :=
  CLEAR_PERI_REG_MASK d (UART_INT_ENA 0) UART_TXFIFO_EMPTY_INT_ENA.

(** The pin set-up of [uart_config]. *)
Definition uart_config_pins (d : D) (uart_no : Z) : D :=
  if uart_no =? UART1 then
    call_soc d (PIN_FUNC_SELECT PERIPHS_IO_MUX_GPIO2_U FUNC_U1TXD_BK)
  else
    fold_left call_soc
      [ETS_UART_INTR_ATTACH;
       PIN_PULLUP_DIS PERIPHS_IO_MUX_U0TXD_U;
       PIN_FUNC_SELECT PERIPHS_IO_MUX_U0TXD_U FUNC_U0TXD;
       PIN_PULLUP_EN PERIPHS_IO_MUX_U0RXD_U;
       PIN_FUNC_SELECT PERIPHS_IO_MUX_U0RXD_U FUNC_U0RXD;
       PIN_FUNC_SELECT PERIPHS_IO_MUX_MTDO_U FUNC_U0RTS;
       PIN_PULLUP_DIS PERIPHS_IO_MUX_MTCK_U;
       PIN_FUNC_SELECT PERIPHS_IO_MUX_MTCK_U FUNC_4] d.

(** The word [uart_config] writes to [UART_CONF0] and to [UART_CONF1]. *)
Definition uart_conf0_word (u : UartDevice) : Z :=
  Z.lor (Z.lor (Z.lor (exist_parity u) (parity u))
               (Z.shiftl (stop_bits u) UART_STOP_BIT_NUM_S))
        (Z.shiftl (data_bits u) UART_BIT_NUM_S).

Definition uart_conf1_word (u : UartDevice) (uart_no : Z) : Z :=
  let trig := Z.shiftl (Z.land (TrigLvl u) UART_RXFIFO_FULL_THRHD) UART_RXFIFO_FULL_THRHD_S in
  if uart_no =? UART0 then
    Z.lor (Z.lor trig UART_RX_FLOW_EN)
          (Z.shiftl (Z.land 0x10 UART_RX_FLOW_THRHD) UART_RX_FLOW_THRHD_S)
  else trig.

Definition uart_config (u : UartDevice) (d : D) (uart_no : Z) : result D :=
  let d := uart_config_pins d uart_no in
  if baut_rate u =? 0 then Fault DivByZero else
  let d := call_soc d (uart_div_modify uart_no (UART_CLK_FREQ / baut_rate u)) in
  let d := WRITE_PERI_REG d (UART_CONF0 uart_no) (uart_conf0_word u) in
  let d := SET_PERI_REG_MASK d (UART_CONF0 uart_no) (Z.lor UART_RXFIFO_RST UART_TXFIFO_RST) in
  let d := CLEAR_PERI_REG_MASK d (UART_CONF0 uart_no) (Z.lor UART_RXFIFO_RST UART_TXFIFO_RST) in
  let d := WRITE_PERI_REG d (UART_CONF1 uart_no) (uart_conf1_word u uart_no) in
  let d := WRITE_PERI_REG d (UART_INT_CLR uart_no) 0xffff in
  Ok (SET_PERI_REG_MASK d (UART_INT_ENA uart_no) UART_RXFIFO_FULL_INT_ENA).

(** [uart_tx_one_char]: poll until fewer than 126 bytes are queued, then
    write the byte.  The poll loop has no bound in C; [fuel] bounds it. *)
Fixpoint uart_tx_one_char (fuel : nat) (d : D) (uart TxChar : Z) : result D :=
  match fuel with
  | O => Fault OutOfFuel
  | S fuel =>
      let '(v, d) := READ_PERI_REG d (UART_STATUS uart) in
      let fifo_cnt := Z.land v (Z.shiftl UART_TXFIFO_CNT UART_TXFIFO_CNT_S) in
      if Z.land (Z.shiftr fifo_cnt UART_TXFIFO_CNT_S) UART_TXFIFO_CNT <? 126
      then Ok (WRITE_PERI_REG d (UART_FIFO uart) TxChar)
      else uart_tx_one_char fuel d uart TxChar
  end.

(** [uart1_write_char] and [uart0_putc]: ['\n'] is sent as CR LF, ['\r'] is
    dropped. *)
Definition uart_put_translated (fuel : nat) (d : D) (uart c : Z) : result D :=
  if c =? 10 then
    let! d := uart_tx_one_char fuel d uart 13 in uart_tx_one_char fuel d uart 10
  else if c =? 13 then Ok d
  else uart_tx_one_char fuel d uart c.

Definition uart1_write_char (fuel : nat) (d : D) (c : Z) : result D :=
  uart_put_translated fuel d UART1 c.
Definition uart0_putc (fuel : nat) (d : D) (c : Z) : result D :=
  uart_put_translated fuel d UART0 c.

Fixpoint uart0_tx_buffer (fuel : nat) (d : D) (buf : list Z) : result D :=
  match buf with
  | [] => Ok d
  | b :: buf => let! d := uart_tx_one_char fuel d UART0 b in uart0_tx_buffer fuel d buf
  end.

(** [uart0_sendStr(str)]: [str] is the memory from the pointer on. *)
Fixpoint uart0_sendStr (fuel : nat) (d : D) (str : list Z) : result D :=
  match str with
  | [] => Fault OutOfBounds
  | c :: str =>
      if c =? 0 then Ok d
      else let! d := uart0_putc fuel d c in uart0_sendStr fuel d str
  end.

Definition uart_init (u : UartDevice) (d : D) (uart0_br uart1_br : Z) : result (UartDevice * D) :=
  let u := set_baut_rate u uart0_br in
  let! d := uart_config u d UART0 in
  let u := set_baut_rate u uart1_br in
  let! d := uart_config u d UART1 in
  let d := call_soc d ETS_UART_INTR_ENABLE in
  Ok (u, call_soc d os_install_putc1).

Definition uart_setup (u : UartDevice) (d : D) (uart_no : Z) : result D :=
  let d := call_soc d ETS_UART_INTR_DISABLE in
  let! d := uart_config u d uart_no in
  Ok (call_soc d ETS_UART_INTR_ENABLE).
End driver.

(** ** A simulated device *)

Module Sim.
Record dev := Dev {
  regs : gmap Z Z;
  sent : list Z;
  count : nat;
  rx : list Z;
  calls : list soc_call
}.

Definition reg (d : dev) (a : Z) : Z := default 0 (regs d !! a).

(** One byte leaves the transmit FIFO per poll of the status register. *)
Definition read (d : dev) (a : Z) : Z * dev :=
  if a =? UART_STATUS 0 then
    let c := Nat.min 255 (pred (count d)) in
    (Z.of_nat c * 65536 + Z.min 255 (zlen (rx d)),
     Dev (regs d) (sent d) c (rx d) (calls d))
  else if a =? UART_FIFO 0 then
    match rx d with
    | [] => (0, d)
    | b :: s => (u8 b, Dev (regs d) (sent d) (count d) s (calls d))
    end
  else if a =? UART_INT_ST 0 then (Z.land (reg d a) (reg d (UART_INT_ENA 0)), d)
  else (reg d a, d).

Definition write (d : dev) (a v : Z) : dev :=
  if a =? UART_FIFO 0 then
    Dev (regs d) (sent d ++ [u8 v]) (S (count d)) (rx d) (calls d)
  else Dev (<[a := v]> (regs d)) (sent d) (count d) (rx d) (calls d).

#[global] Instance soc : Soc dev := {
  READ_PERI_REG := read;
  WRITE_PERI_REG := write;
  SET_PERI_REG_MASK d a m := write d a (Z.lor (reg d a) m);
  CLEAR_PERI_REG_MASK d a m := write d a (Z.ldiff (reg d a) m);
  call_soc d c := Dev (regs d) (sent d) (count d) (rx d) (calls d ++ [c]);
  UART_CLK_FREQ := 80000000
}.

#[global] Instance view : SocView dev := {
  tx_sent := sent;
  tx_count d := Z.of_nat (count d);
  rx_stream d := map u8 (rx d);
  int_ena d := reg d (UART_INT_ENA 0)
}.

Lemma status_fields c m :
  0 <= c < 256 -> 0 <= m < 256 ->
  Z.land (Z.shiftr (c * 65536 + m) 16) 0xFF = c /\ Z.land (Z.shiftr (c * 65536 + m) 0) 0xFF = m.
Proof.
  intros Hc Hm. change 0xFF with 255. rewrite !land_255, Z.shiftr_0_r, Z.shiftr_div_pow2 by lia.
  change (2 ^ 16) with 65536. split; Z.div_mod_to_equations; lia.
Qed.

#[global] Instance laws : SocLaws dev.
Proof.
  split.
  - intros d. simpl. lia.
  - intros d. set (c := Nat.min 255 (pred (count d))). set (m := Z.min 255 (zlen (rx d))).
    change (READ_PERI_REG d (UART_STATUS 0)) with
      (Z.of_nat c * 65536 + m, Dev (regs d) (sent d) c (rx d) (calls d)).
    pose proof (zlen_nonneg (rx d)).
    destruct (status_fields (Z.of_nat c) m) as [E1 E2]; [subst c; lia|subst m; lia|].
    unfold UART_TXFIFO_CNT, UART_TXFIFO_CNT_S, UART_RXFIFO_CNT, UART_RXFIFO_CNT_S.
    rewrite E1, E2. assert (zlen (map u8 (rx d)) = zlen (rx d)) by (unfold zlen; by rewrite length_map).
    cbn [rx_stream view rx].
    subst m. zpos. unfold zlen in *. repeat split; simpl; lia.
  - intros d b s E. simpl in *. unfold read. simpl.
    destruct (rx d) as [|r rx']; [done|]. simpl in E. injection E as Hb Hs.
    change 255 with (Z.ones 8). rewrite Z.land_ones by lia.
    repeat split; simpl; try done. rewrite <- Hb. unfold u8. by rewrite Z.mod_mod.
  - intros d. simpl. repeat split; simpl; try lia. by rewrite <- Z.land_assoc, Z.land_diag.
  - intros d b. simpl. repeat split; simpl; try done. lia.
  - intros d m. repeat split; simpl; try lia. unfold reg; simpl. by rewrite lookup_insert_ne.
  - intros d m. repeat split; simpl; try lia. unfold reg at 1; simpl. by rewrite lookup_insert_eq.
  - intros d m. repeat split; simpl; try lia. unfold reg at 1; simpl. by rewrite lookup_insert_eq.
Qed.

(** A device at rest whose host has sent [l]. *)
Definition fresh (l : list Z) : dev := Dev empty [] 0 l [].
End Sim.

(** ** Theorems *)

Section sending.
Context {D : Type} `{SocLaws D}.

(** The transmit FIFO drains: polling a FIFO of 126 bytes makes progress, and
    [fuel] polls are enough. *)
Context (drain : D -> nat) (fuel : nat).
Context (drains : forall d v d',
  READ_PERI_REG d (UART_STATUS 0) = (v, d') -> tx_count d' = 126 -> (drain d' < drain d)%nat).
Context (drain_fuel : forall d, tx_count d <= 126 -> (drain d < fuel)%nat).

Lemma txfifo_field v :
  Z.land (Z.shiftr (Z.land v (Z.shiftl UART_TXFIFO_CNT UART_TXFIFO_CNT_S)) UART_TXFIFO_CNT_S)
    UART_TXFIFO_CNT = Z.land (Z.shiftr v UART_TXFIFO_CNT_S) UART_TXFIFO_CNT.
Proof.
  unfold UART_TXFIFO_CNT, UART_TXFIFO_CNT_S. apply Z.bits_inj'; intros i Hi.
  rewrite !Z.land_spec, !Z.shiftr_spec, Z.land_spec, Z.shiftl_spec by lia.
  replace (i + 16 - 16) with i by lia.
  destruct (Z.testbit 0xFF i); by rewrite ?andb_true_r, ?andb_false_r.
Qed.

Lemma tx_one_char n : forall d c,
  tx_count d <= 126 -> (drain d < n)%nat ->
  exists d', uart_tx_one_char n d UART0 c = Ok d' /\
    tx_sent d' = tx_sent d ++ [u8 c] /\ tx_count d' <= 126 /\ same_but_tx d d'.
Proof using H1 drains.
  induction n as [|n IH]; intros d c Hc Hn; [lia|]. cbn [uart_tx_one_char].
  pose proof (read_status d) as Hr. pose proof (drains d) as Hdr. change UART0 with 0 in *.
  destruct (READ_PERI_REG d (UART_STATUS 0)) as [v d1] eqn:E.
  destruct Hr as ([Hs Hcnt Hrx] & Hena & Hv & _).
  rewrite txfifo_field, Hv. destruct (Z.ltb_spec (tx_count d1) 126) as [Hlt|Hge].
  - pose proof (write_fifo d1 c) as (Hw1 & Hw2 & [Hw3 Hw4]). eexists; split; [done|].
    rewrite Hw1, Hs. repeat split; [lia|by rewrite Hw3|by rewrite Hw4].
  - edestruct (IH d1 c) as (d' & E' & Hs' & Hc' & [Hrx' Hena']); [lia| |].
    { specialize (Hdr v d1 eq_refl). lia. }
    exists d'. rewrite E', Hs', Hs. repeat split; [done|by rewrite Hrx'|by rewrite Hena'].
Qed.

Lemma same_but_tx_trans d1 d2 d3 : same_but_tx d1 d2 -> same_but_tx d2 d3 -> same_but_tx d1 d3.
Proof. intros [A B] [A' B']. split; congruence. Qed.

(** What the terminal conventions of [uart0_putc] make of a character. *)
Definition translated (c : Z) : list Z :=
  if c =? 10 then [13; 10] else if c =? 13 then [] else [u8 c].

Lemma putc_sends d c :
  tx_count d <= 126 ->
  exists d', uart0_putc fuel d c = Ok d' /\
    tx_sent d' = tx_sent d ++ translated c /\ tx_count d' <= 126 /\ same_but_tx d d'.
Proof using H1 drains drain_fuel.
  intros Hc. unfold uart0_putc, uart_put_translated, translated. destruct (c =? 10).
  - destruct (tx_one_char fuel d 13) as (d1 & -> & Hs1 & Hc1 & Hk1); [auto..|]. cbn [rbind].
    destruct (tx_one_char fuel d1 10) as (d2 & -> & Hs2 & Hc2 & Hk2); [auto..|].
    exists d2. split; [done|]. split; [by rewrite Hs2, Hs1, <- app_assoc|].
    split; [done|by eapply same_but_tx_trans].
  - destruct (c =? 13); [|by apply tx_one_char; auto].
    exists d. rewrite app_nil_r. by repeat split.
Qed.

Lemma sendStr_sends s : forall d rest,
  tx_count d <= 126 -> Forall (fun c => c <> 0) s ->
  exists d', uart0_sendStr fuel d (s ++ 0 :: rest) = Ok d' /\
    tx_sent d' = tx_sent d ++ flat_map translated s /\ tx_count d' <= 126.
Proof using H1 drains drain_fuel.
  induction s as [|c s IH]; intros d rest Hc Hs; cbn [app uart0_sendStr flat_map].
  - exists d. by rewrite app_nil_r.
  - apply List.Forall_cons_iff in Hs as [Hz Hs]. rewrite (proj2 (Z.eqb_neq c 0)) by done.
    destruct (putc_sends d c Hc) as (d1 & -> & Hs1 & Hc1 & _). cbn [rbind].
    destruct (IH d1 rest Hc1 Hs) as (d2 & -> & Hs2 & Hc2). exists d2.
    by rewrite Hs2, Hs1, <- app_assoc.
Qed.
End sending.

(** On a UART whose transmit FIFO drains, [uart0_sendStr] comes back, has
    written the string up to its NUL with LF sent as CR LF and CR dropped,
    and never lets more than 126 bytes into the FIFO. *)
Theorem uart0_sendStr_output : forall {D} `{SocLaws D} (drain : D -> nat) (fuel : nat) d s rest,
  (forall d v d', READ_PERI_REG d (UART_STATUS 0) = (v, d') -> tx_count d' = 126 ->
                  (drain d' < drain d)%nat) ->
  (forall d, tx_count d <= 126 -> (drain d < fuel)%nat) ->
  tx_count d <= 126 -> Forall (fun c => c <> 0) s ->
  exists d', uart0_sendStr fuel d (s ++ 0 :: rest) = Ok d' /\
    tx_sent d' = tx_sent d ++ flat_map translated s /\ tx_count d' <= 126.
Proof. intros D ? ? ? drain fuel d s rest H1 H2 H3 H4. by apply (sendStr_sends drain fuel H1 H2). Qed.

Lemma uart0_sendStr_output_witness : exists d',
  uart0_sendStr 200 (Sim.fresh []) ([72; 10] ++ 0 :: [5]) = Ok d' /\
  tx_sent d' = tx_sent (Sim.fresh []) ++ flat_map translated [72; 10] /\ tx_count d' <= 126.
Proof.
  apply (uart0_sendStr_output Sim.count 200 (Sim.fresh []) [72; 10] [5]).
  - intros d v d' E Hc. change (tx_count d') with (Z.of_nat (Sim.count d')) in Hc.
    assert (Sim.count d' = Nat.min 255 (pred (Sim.count d))) by by injection E as _ <-.
    lia.
  - intros d Hc. change (tx_count d) with (Z.of_nat (Sim.count d)) in Hc. lia.
  - vm_compute. done.
  - repeat constructor; lia.
Defined.
