(* ===== verification/Comm.v ===== *)
(** * The serial link: [user_main/comm.c] and [user_main/comm.h].

    The transmit ring over the heap, the receive decoder with its checksum,
    the interrupt handler, the task, and the send interface.  The state of
    the whole link is the record [comm]; [X] is the state of the rest of the
    firmware, which the message callback runs on. *)
From S2P Require Import Prelude Crc16 Cobs Uart.
From stdpp Require Export strings.
#[global] Open Scope Z_scope.

Definition DO_RX : Z := 80.
Definition DO_TX : Z := 81.

Definition COMM_TX_PRIO_LOW : Z := 0.
Definition COMM_TX_PRIO_MEDIUM : Z := 1.
Definition COMM_TX_PRIO_HIGH : Z := 2.

Definition MAX_MESSAGE_SIZE : Z := 2040.

Definition TX_RING_BUFFER_SIZE : Z := 32.
Definition TX_RING_BUFFER_MASK : Z := TX_RING_BUFFER_SIZE - 1.

Definition MSG_STATUS : Z := 0x80.
Definition MSG_LOG : Z := 0x83.
Definition PRINT_BUF_SIZE : Z := 128.

(** [struct transmitter]; [bufs] holds heap addresses. *)
Record transmitter := Transmitter {
  bufs : list Z;
  buf_lens : list Z;
  buf_read_i : Z;
  buf_write_i : Z;
  task_pending : bool;
  dropped_packets : Z;
  idx_in_buf : Z
}.

(** The heap: allocated blocks by address. *)
Abbreviation memory := (gmap Z (list Z)).

(** An argument of [os_sprintf]: an integer or a string. *)
Inductive sprintf_arg := SInt (z : Z) | SStr (l : list Z).

(** The heap services of the SDK and its formatted printing. *)
Class Os := {
  (* the address and the (unspecified) contents of a fresh block of the size,
     or failure *)
  os_malloc : memory -> Z -> option (Z * list Z);
  system_get_free_heap_size : memory -> Z;
  (* the characters [os_sprintf] writes before the terminating NUL *)
  os_sprintf : string -> list sprintf_arg -> list Z
}.

Class OsLaws `{Os} := {
  os_malloc_fresh : forall h n p b, 0 <= n ->
    os_malloc h n = Some (p, b) -> h !! p = None /\ p <> 0 /\ zlen b = n /\ bytes b
}.

(** [os_free(p)]: freeing what is not allocated is undefined. *)
Definition os_free (h : memory) (p : Z) : result memory :=
  match h !! p with Some _ => Ok (delete p h) | None => Fault UseAfterFree end.

Record comm (D X : Type) := Comm {
  tx : transmitter;
  cobs : cobs_decoder;
  proto_errors : Z;
  crc_errors : Z;
  comm_loglevel : Z;
  heap : memory;
  posted : list Z;       (* signals posted to the comm task, oldest first *)
  intr_locked : bool;    (* between [ets_intr_lock] and [ets_intr_unlock] *)
  uart_dev : UartDevice;
  dev : D;
  ext : X
}.
Arguments Comm {D X}. Arguments tx {D X}. Arguments cobs {D X}.
Arguments proto_errors {D X}. Arguments crc_errors {D X}. Arguments comm_loglevel {D X}.
Arguments heap {D X}. Arguments posted {D X}. Arguments intr_locked {D X}.
Arguments uart_dev {D X}. Arguments dev {D X}. Arguments ext {D X}.

Section setters.
Context {D X : Type}.
Implicit Type s : comm D X.
Definition set_tx s t := Comm t (cobs s) (proto_errors s) (crc_errors s) (comm_loglevel s)
  (heap s) (posted s) (intr_locked s) (uart_dev s) (dev s) (ext s).
Definition set_cobs s c := Comm (tx s) c (proto_errors s) (crc_errors s) (comm_loglevel s)
  (heap s) (posted s) (intr_locked s) (uart_dev s) (dev s) (ext s).
Definition set_errors s p c := Comm (tx s) (cobs s) p c (comm_loglevel s)
  (heap s) (posted s) (intr_locked s) (uart_dev s) (dev s) (ext s).
Definition set_loglevel s l := Comm (tx s) (cobs s) (proto_errors s) (crc_errors s) l
  (heap s) (posted s) (intr_locked s) (uart_dev s) (dev s) (ext s).
Definition set_heap s h := Comm (tx s) (cobs s) (proto_errors s) (crc_errors s) (comm_loglevel s)
  h (posted s) (intr_locked s) (uart_dev s) (dev s) (ext s).
Definition set_posted s q := Comm (tx s) (cobs s) (proto_errors s) (crc_errors s) (comm_loglevel s)
  (heap s) q (intr_locked s) (uart_dev s) (dev s) (ext s).
Definition set_locked s b := Comm (tx s) (cobs s) (proto_errors s) (crc_errors s) (comm_loglevel s)
  (heap s) (posted s) b (uart_dev s) (dev s) (ext s).
Definition set_uart s (u : UartDevice) (d : D) := Comm (tx s) (cobs s) (proto_errors s) (crc_errors s) (comm_loglevel s)
  (heap s) (posted s) (intr_locked s) u d (ext s).
Definition set_dev s (d : D) := set_uart s (uart_dev s) d.
Definition set_ext s (x : X) := Comm (tx s) (cobs s) (proto_errors s) (crc_errors s) (comm_loglevel s)
  (heap s) (posted s) (intr_locked s) (uart_dev s) (dev s) x.

Definition ets_intr_lock s := set_locked s true.
Definition ets_intr_unlock s := set_locked s false.
Definition system_os_post s sig := set_posted s (posted s ++ [sig]).
End setters.

Definition set_pending (t : transmitter) (b : bool) : transmitter :=
  Transmitter (bufs t) (buf_lens t) (buf_read_i t) (buf_write_i t) b (dropped_packets t) (idx_in_buf t).
Definition set_idx (t : transmitter) (i : Z) : transmitter :=
  Transmitter (bufs t) (buf_lens t) (buf_read_i t) (buf_write_i t) (task_pending t) (dropped_packets t) i.
(** [t->dropped_packets += 1] *)
Definition count_drop (t : transmitter) : transmitter :=
  Transmitter (bufs t) (buf_lens t) (buf_read_i t) (buf_write_i t) (task_pending t)
    (u32 (dropped_packets t + 1)) (idx_in_buf t).
(** [t->buf_read_i++; t->idx_in_buf = 0] *)
Definition next_buf (t : transmitter) : transmitter :=
  Transmitter (bufs t) (buf_lens t) (u16 (buf_read_i t + 1)) (buf_write_i t) (task_pending t)
    (dropped_packets t) 0.
(** The insertion of a frame at the write index. *)
Definition put_buf (t : transmitter) (p len : Z) : result transmitter :=
  let i := Z.land (buf_write_i t) TX_RING_BUFFER_MASK in
  let! b := mwrite (bufs t) i p in
  let! l := mwrite (buf_lens t) i len in
  Ok (Transmitter b l (buf_read_i t) (u16 (buf_write_i t + 1)) (task_pending t)
        (dropped_packets t) (idx_in_buf t)).

(** ** Transmitter *)

(** [transmitter_init]: the arrays keep their contents. *)
Definition transmitter_init (t : transmitter) : transmitter :=
  Transmitter (bufs t) (buf_lens t) 0 0 false 0 0.

(** The thresholds of the [switch (prio)]. *)
Definition below_limits (prio heap_free buf_free : Z) : bool :=
  if prio =? COMM_TX_PRIO_LOW then (heap_free <? 20000) || (buf_free <? 15)
  else if prio =? COMM_TX_PRIO_MEDIUM then (heap_free <? 10000) || (buf_free <? 10)
  else if prio =? COMM_TX_PRIO_HIGH then (heap_free <? 2000) || (buf_free <? 1)
  else false.

Section link.
Context {D X : Type} `{Soc D, Os}.
Implicit Type s : comm D X.

Definition transmitter_wake_task s : comm D X :=
  if task_pending (tx s) then s
  else
    let s := ets_intr_lock s in
    let s := if negb (task_pending (tx s))
             then system_os_post (set_tx s (set_pending (tx s) true)) DO_TX
             else s in
    ets_intr_unlock s.

(** The send interface over the push it uses; [transmitter_push] reaches it
    back through the error log. *)
Section interface.
Context (push : comm D X -> list Z -> Z -> result (comm D X)).

(** The message [comm_send] puts on its stack: type, data, checksum. *)
Definition message (type : Z) (data : list Z) : list Z :=
  let crc := crc16_block (type :: data) in
  type :: data ++ [Z.land crc 0xff; Z.land (Z.shiftr crc 8) 0xff].

Definition comm_send_via s (type : Z) (data : list Z) (prio : Z) : result (comm D X) :=
  push s (message type data) prio.

(** [COMM_LOG]; the text is formatted behind the level in a buffer of
    [PRINT_BUF_SIZE] bytes. *)
Definition comm_log_via s (level : Z) (fmt : string) (args : list sprintf_arg) : result (comm D X) :=
  if comm_loglevel s <=? level then
    let text := os_sprintf fmt args in
    if PRINT_BUF_SIZE <? 1 + zlen text + 1 then Fault OutOfBounds
    else comm_send_via s MSG_LOG (level :: text) COMM_TX_PRIO_HIGH
  else Ok s.
End interface.

(** The precheck of [transmitter_push]: is there room for a packet of this
    priority?  The [int] difference of the indices is converted to [size_t]. *)
Definition push_admits s (prio : Z) : bool :=
  let t := tx s in
  let buf_used := u32 (buf_write_i t - buf_read_i t) in
  if buf_used =? TX_RING_BUFFER_SIZE then false
  else
    let buf_free := u32 (TX_RING_BUFFER_SIZE - buf_used) in
    let heap_free := system_get_free_heap_size (heap s) in
    negb (below_limits prio heap_free buf_free).

(** Allocation and encoding: the address and the size of the frame; [None]
    when the allocation fails. *)
Definition push_encode s (data : list Z) : result (option (comm D X * Z * Z * bool)) :=
  let encoded_max_size := u32 (COBS_ENCODED_MAX_SIZE (zlen data) + 1) in
  match os_malloc (heap s) encoded_max_size with
  | None => Ok None
  | Some (p, blk) =>
      let! blk := mwrite blk (encoded_max_size - 1) 0x55 in
      let! (blk, encoded_size) := Encoder.cobs_encode blk data in
      let! guard := mread blk (encoded_max_size - 1) in
      Ok (Some (set_heap s (<[p := blk]> (heap s)), p, encoded_size, negb (guard =? 0x55)))
  end.

(** The critical section and what follows it. *)
Definition push_commit s (p encoded_size : Z) : result (comm D X) :=
  let s := ets_intr_lock s in
  if buf_write_i (tx s) - buf_read_i (tx s) =? TX_RING_BUFFER_SIZE then
    let s := ets_intr_unlock s in
    let! h := os_free (heap s) p in
    let s := set_heap s h in
    Ok (set_tx s (count_drop (tx s)))
  else
    let! t := put_buf (tx s) p encoded_size in
    let s := ets_intr_unlock (set_tx s t) in
    Ok (transmitter_wake_task s).

(** [transmitter_push]; [fuel] bounds the nesting through [COMM_ERR]. *)
Fixpoint transmitter_push (fuel : nat) s (data : list Z) (prio : Z) : result (comm D X) :=
  match fuel with
  | O => Fault OutOfFuel
  | S fuel =>
      if push_admits s prio then
        let! r := push_encode s data in
        match r with
        | None => Ok s
        | Some (s, p, encoded_size, clobbered) =>
            let! s := (if clobbered
                       then comm_log_via (transmitter_push fuel) s 40 "buffer overflow" []
                       else Ok s) in
            push_commit s p encoded_size
        end
      else Ok (set_tx s (count_drop (tx s)))
  end.

(** The inner loop of [transmitter_send]: bytes [idx..len) of the block as
    far as the FIFO has room; the new [idx] and room. *)
Fixpoint send_bytes (n : nat) (d : D) (blk : option (list Z)) (idx fifo_free_n : Z)
  : result (D * Z * Z) :=
  match n with
  | O => Ok (d, idx, fifo_free_n)
  | S n =>
      if c_true fifo_free_n then
        let! blk' := of_option UseAfterFree blk in
        let! b := mread blk' idx in
        send_bytes n (WRITE_PERI_REG d (UART_FIFO 0) b) blk (idx + 1) (fifo_free_n - 1)
      else Ok (d, idx, fifo_free_n)
  end.

(** The outer loop: one buffer per round; [fuel] counts the buffers queued. *)
Fixpoint send_bufs (fuel : nat) s (fifo_free_n : Z) : result (comm D X * Z) :=
  match fuel with
  | O => Ok (s, fifo_free_n)
  | S fuel =>
      let t := tx s in
      if c_true fifo_free_n && negb (buf_read_i t =? buf_write_i t) then
        let buf_idx := Z.land (buf_read_i t) TX_RING_BUFFER_MASK in
        let! p := mread (bufs t) buf_idx in
        let! len := mread (buf_lens t) buf_idx in
        let! (d, idx, fifo_free_n) :=
          send_bytes (Z.to_nat (len - idx_in_buf t)) (dev s) (heap s !! p) (idx_in_buf t) fifo_free_n in
        let s := set_dev s d in
        if negb (idx =? len) then Ok (set_tx s (set_idx t idx), fifo_free_n)
        else
          let s := set_tx s (next_buf t) in
          let! h := os_free (heap s) p in
          send_bufs fuel (set_heap s h) fifo_free_n
      else Ok (s, fifo_free_n)
  end.

(** The number of rounds the outer loop can make. *)
Definition queued_bufs (t : transmitter) : nat := Z.to_nat (u16 (buf_write_i t - buf_read_i t)).

Definition transmitter_send s : result (comm D X) :=
  let s := ets_intr_lock s in
  let s := set_tx s (set_pending (tx s) false) in
  let s := ets_intr_unlock s in
  let '(v, d) := READ_PERI_REG (dev s) (UART_STATUS 0) in
  let s := set_dev s d in
  let fifo_cnt := Z.land (Z.shiftr v UART_TXFIFO_CNT_S) UART_TXFIFO_CNT in
  let fifo_free_n := u32 (126 - fifo_cnt) in
  if fifo_free_n =? 0 then Ok (set_dev s (uart0_tx_intr_enable (dev s)))
  else
    let! (s, fifo_free_n) := send_bufs (queued_bufs (tx s)) s fifo_free_n in
    if negb (c_true fifo_free_n) && negb (buf_read_i (tx s) =? buf_write_i (tx s))
    then Ok (set_dev s (uart0_tx_intr_enable (dev s)))
    else Ok s.

(** ** The send interface *)

(** [transmitter_push] nests at most twice: see [push_not_clobbered]. *)
Definition push := transmitter_push 2.

Definition comm_send := comm_send_via push.
Definition comm_log := comm_log_via push.
Definition comm_send_ctl s (type : Z) (data : list Z) : result (comm D X) :=
  comm_send s type data COMM_TX_PRIO_HIGH.
Definition comm_send_status s (st : Z) : result (comm D X) :=
  comm_send_ctl s MSG_STATUS [u8 st].
Definition comm_set_loglevel s (level : Z) : comm D X := set_loglevel s (u8 level).

(** [comm_get_stats]: the three values it stores. *)
Definition comm_get_stats s : Z * Z * Z :=
  (u32 (proto_errors s + crc_errors s), crc_errors s, dropped_packets (tx s)).

(** ** Receiver *)

(** The callback given to [comm_init]: type, the memory behind it, length. *)
Context (cb : option (comm D X -> Z -> list Z -> Z -> result (comm D X))).

(** [decoder_check_and_dispatch_cb(dec, data, len)]; the checksum is read as a
    little-endian [uint16_t]. *)
Definition decoder_check_and_dispatch_cb s (data : list Z) (len : Z) : result (comm D X) :=
  if len <? 3 then Ok (set_errors s (u32 (proto_errors s + 1)) (crc_errors s))
  else
    let! body := mslice data 0 (len - 2) in
    let crc_calc := crc16_block body in
    let! lo := mread data (len - 2) in
    let! hi := mread data (len - 1) in
    let crc_msg := Z.lor lo (Z.shiftl hi 8) in
    if negb (crc_calc =? crc_msg) then Ok (set_errors s (proto_errors s) (u32 (crc_errors s + 1)))
    else
      match cb with
      | Some cb => let! type := mread data 0 in cb s type (drop 1 data) (len - 3)
      | None => Ok s
      end.

(** [decoder_init] on a receive buffer whose contents are [raw]. *)
Definition decoder_init s (raw : list Z) : comm D X :=
  let s := set_cobs s (cobs_decoder_init (cobs s) raw (COBS_ENCODED_MAX_SIZE MAX_MESSAGE_SIZE)) in
  set_errors s 0 0.

Definition decoder_put_data s (data : list Z) : result (comm D X) :=
  let! (c, s) := cobs_decoder_put decoder_check_and_dispatch_cb (cobs s) s data in
  Ok (set_cobs s c).

(** [n] reads of the receive FIFO. *)
Fixpoint read_fifo_n (n : nat) (d : D) : list Z * D :=
  match n with
  | O => ([], d)
  | S n =>
      let '(v, d) := READ_PERI_REG d (UART_FIFO UART0) in
      let '(l, d) := read_fifo_n n d in
      (Z.land v 0xFF :: l, d)
  end.

(** [do_rx]: the [while (1)] loop in rounds of at most 64 bytes. *)
Fixpoint do_rx_loop (fuel : nat) s : result (comm D X) :=
  match fuel with
  | O => Fault OutOfFuel
  | S fuel =>
      let '(v, d) := READ_PERI_REG (dev s) (UART_STATUS UART0) in
      let n := Z.land (Z.shiftr v UART_RXFIFO_CNT_S) UART_RXFIFO_CNT in
      if n =? 0 then Ok (set_dev s d)
      else
        let '(buf, d) := read_fifo_n (Z.to_nat (Z.min n 64)) d in
        let! s := decoder_put_data (set_dev s d) buf in
        do_rx_loop fuel s
  end.

Definition do_rx (fuel : nat) s : result (comm D X) :=
  let! s := do_rx_loop fuel s in
  Ok (set_dev s (uart0_rx_intr_enable (dev s))).

(** ** Interrupt handler and task *)

Definition comm_task (fuel : nat) s (sig : Z) : result (comm D X) :=
  if sig =? DO_RX then do_rx fuel s
  else if sig =? DO_TX then transmitter_send s
  else comm_log s 40 "unknown task variant" [].

Definition uart0_rx_intr_handler s : comm D X :=
  let '(stat, d) := READ_PERI_REG (dev s) (UART_INT_ST UART0) in
  let s := set_dev s d in
  let s := if c_true (Z.land stat (Z.lor UART_RXFIFO_FULL_INT_ST UART_RXFIFO_TOUT_INT_ST)) then
             let s := set_dev s (uart0_rx_intr_disable (dev s)) in
             let s := set_dev s (WRITE_PERI_REG (dev s) (UART_INT_CLR UART0)
                                   (Z.lor UART_RXFIFO_FULL_INT_CLR UART_RXFIFO_TOUT_INT_CLR)) in
             system_os_post s DO_RX
           else s in
  if c_true (Z.land stat UART_TXFIFO_EMPTY_INT_ST) then
    let s := set_dev s (uart0_tx_intr_disable (dev s)) in
    let s := set_dev s (WRITE_PERI_REG (dev s) (UART_INT_CLR UART0) UART_TXFIFO_EMPTY_INT_CLR) in
    transmitter_wake_task s
  else s.

(** [comm_init]: [raw] is the receive buffer, [fuel] the polls of the transmit
    FIFO. *)
Definition comm_init (fuel : nat) s (raw : list Z) : result (comm D X) :=
  let s := decoder_init s raw in
  let s := set_tx s (transmitter_init (tx s)) in
  let s := set_dev s (call_soc (dev s) system_os_task) in
  let! (u, d) := uart_init (uart_dev s) (dev s) BIT_RATE_115200 BIT_RATE_115200 in
  let! d := uart_tx_one_char fuel d UART0 COBS_BYTE_EOF in
  Ok (set_uart s u (uart0_rx_intr_enable d)).
End link.

(** ** A simulated heap

    It holds 40 blocks; a block is filled with 0xA5 when allocated. *)
Module SimOs.
Definition capacity : nat := 40.

Definition chars (f : string) : list Z :=
  map (fun a => Z.of_N (Ascii.N_of_ascii a)) (String.list_ascii_of_string f).

#[global] Instance os : Os := {
  os_malloc h n :=
    if (size h <? capacity)%nat
    then Some (fresh ({[ 0 ]} ∪ dom h : gset Z), replicate (Z.to_nat n) 0xA5)
    else None;
  system_get_free_heap_size h := 30000 - 100 * Z.of_nat (size h);
  os_sprintf f args := chars f
}.

Lemma malloc_fresh h n p b :
  0 <= n -> os_malloc h n = Some (p, b) -> h !! p = None /\ p <> 0 /\ zlen b = n /\ bytes b.
Proof.
  intros Hn E. simpl in E. case_match; [|done]. injection E as <- <-.
  pose proof (is_fresh ({[ 0 ]} ∪ dom h : gset Z)) as Hf.
  rewrite elem_of_union, elem_of_singleton in Hf.
  split; [apply not_elem_of_dom; tauto|]. split; [tauto|].
  split; [unfold zlen; rewrite length_replicate; lia|].
  apply Forall_replicate. unfold is_byte. lia.
Qed.

#[global] Instance laws : OsLaws.
Proof. split. exact malloc_fresh. Qed.

(** A booted link over the simulated device whose host has sent [l]. *)
Definition booted (l : list Z) : comm Sim.dev unit :=
  Comm (Transmitter (replicate 32 0) (replicate 32 0) 0 0 false 0 0)
    (Decoder (replicate 2050 0) (zlen (replicate 2050 0)) 0 0 0 0 DEC_IDLE) 0 0 0 empty [] false
    (UartDev 115200 3 0 0 1 1) (Sim.fresh l) tt.
End SimOs.
