(* ===== verification/CommTx.v ===== *)
(** * The transmit ring of [comm.c]: what it stores, what reaches the FIFO,
    and when the transmit task is woken. *)
From S2P Require Import Prelude Crc16 Cobs Uart Comm.

(** ** The ring as a queue of frames *)

(** The [k]-th queued buffer: its address and its length. *)
Definition entry (t : transmitter) (k : nat) : Z * Z :=
  let i := Z.to_nat ((buf_read_i t + Z.of_nat k) mod 32) in
  (nth i (bufs t) 0, nth i (buf_lens t) 0).

Definition entries (t : transmitter) : list (Z * Z) := map (entry t) (seq 0 (queued_bufs t)).

Definition frame_of (h : memory) (e : Z * Z) : list Z :=
  take (Z.to_nat e.2) (default [] (h !! e.1)).

Definition frames (t : transmitter) (h : memory) : list (list Z) := map (frame_of h) (entries t).

(** The bytes still to be written to the FIFO. *)
Definition pending (t : transmitter) (h : memory) : list Z :=
  drop (Z.to_nat (idx_in_buf t)) (concat (frames t h)).

Definition entry_ok (h : memory) (e : Z * Z) : Prop := exists blk,
  h !! e.1 = Some blk /\ 0 < e.2 <= zlen blk /\ bytes (take (Z.to_nat e.2) blk).

Record ring_ok (t : transmitter) (h : memory) : Prop := {
  ring_bufs : zlen (bufs t) = 32;
  ring_lens : zlen (buf_lens t) = 32;
  ring_read : is_u16 (buf_read_i t);
  ring_write : is_u16 (buf_write_i t);
  ring_bound : (queued_bufs t <= 32)%nat;
  ring_nodup : NoDup (map fst (entries t));
  ring_entries : Forall (entry_ok h) (entries t);
  ring_idx : 0 <= idx_in_buf t;
  ring_head : match entries t with [] => idx_in_buf t = 0 | e :: _ => idx_in_buf t < e.2 end
}.

(** The difference of the indices as C computes it agrees with the number of
    queued buffers: the write index has not wrapped past the read index, or
    there is room anyway. *)
Definition no_wrapped_full (t : transmitter) : Prop :=
  buf_read_i t <= buf_write_i t \/ (queued_bufs t < 32)%nat.

(** [k] more messages cannot meet a wrapped full ring: there is room for them,
    or the write index has not wrapped and will not with them. *)
Definition room (k : nat) (t : transmitter) : Prop :=
  (queued_bufs t + k <= 32)%nat \/ buf_read_i t <= buf_write_i t /\ buf_write_i t + Z.of_nat k <= 65535.

Lemma room_not_wrapped k t : room (S k) t -> no_wrapped_full t.
Proof. unfold room, no_wrapped_full. lia. Qed.
Lemma room_le k k' t : (k' <= k)%nat -> room k t -> room k' t.
Proof. unfold room. lia. Qed.

Lemma land_mask i : Z.land i TX_RING_BUFFER_MASK = i mod 32.
Proof. change TX_RING_BUFFER_MASK with (Z.ones 5). by rewrite Z.land_ones. Qed.

Lemma u16_add_mod32 a b : (u16 a + b) mod 32 = (a + b) mod 32.
Proof.
  unfold u16. rewrite (Z.div_mod a 65536) at 2 by done.
  replace (65536 * (a / 65536) + a mod 65536 + b)
    with (a mod 65536 + b + (2048 * (a / 65536)) * 32) by lia.
  by rewrite Z.mod_add.
Qed.

Lemma queued_eq t :
  Z.of_nat (queued_bufs t) = u16 (buf_write_i t - buf_read_i t).
Proof. unfold queued_bufs. pose proof (u16_range (buf_write_i t - buf_read_i t)). widths. lia. Qed.

Lemma queued_zero t :
  is_u16 (buf_read_i t) -> is_u16 (buf_write_i t) ->
  (buf_read_i t =? buf_write_i t) = (queued_bufs t =? 0)%nat.
Proof.
  intros Hr Hw. pose proof (queued_eq t) as Hq. unfold u16 in Hq.
  apply Bool.eq_iff_eq_true. rewrite Z.eqb_eq, Nat.eqb_eq. widths.
  split; intros; Z.div_mod_to_equations; lia.
Qed.

Lemma write_slot t :
  is_u16 (buf_read_i t) -> is_u16 (buf_write_i t) ->
  buf_write_i t mod 32 = (buf_read_i t + Z.of_nat (queued_bufs t)) mod 32.
Proof. intros. rewrite queued_eq. widths. Z.div_mod_to_equations; lia. Qed.

Lemma length_entries t : length (entries t) = queued_bufs t.
Proof. unfold entries. by rewrite length_map, length_seq. Qed.

(** Taking the head buffer off. *)
Lemma queued_next t :
  is_u16 (buf_read_i t) -> is_u16 (buf_write_i t) -> (0 < queued_bufs t)%nat ->
  queued_bufs t = S (queued_bufs (next_buf t)).
Proof.
  intros Hr Hw Hq. pose proof (queued_eq t) as E. pose proof (queued_eq (next_buf t)) as E'.
  cbn [next_buf buf_read_i buf_write_i] in E'.
  set (q := queued_bufs t) in *. set (q' := queued_bufs (next_buf t)) in *. clearbody q q'.
  widths. Z.div_mod_to_equations; lia.
Qed.

Lemma entries_next t :
  is_u16 (buf_read_i t) -> is_u16 (buf_write_i t) -> (0 < queued_bufs t)%nat ->
  entries t = entry t 0 :: entries (next_buf t).
Proof.
  intros Hr Hw Hq. unfold entries. rewrite (queued_next t) by done. simpl. f_equal.
  rewrite <- seq_shift, map_map. apply map_ext. intros k.
  unfold entry, next_buf; simpl.
  rewrite u16_add_mod32, Nat2Z.inj_succ.
  by replace (buf_read_i t + 1 + Z.of_nat k) with (buf_read_i t + Z.succ (Z.of_nat k)) by lia.
Qed.

(** Inserting at the write index. *)
Lemma put_buf_ok t h p len :
  ring_ok t h -> exists t', put_buf t p len = Ok t' /\
    t' = Transmitter (<[Z.to_nat (buf_write_i t mod 32) := p]> (bufs t))
           (<[Z.to_nat (buf_write_i t mod 32) := len]> (buf_lens t))
           (buf_read_i t) (u16 (buf_write_i t + 1)) (task_pending t) (dropped_packets t)
           (idx_in_buf t).
Proof.
  intros [Hb Hl Hr Hw _ _ _ _ _]. unfold put_buf. rewrite land_mask.
  pose proof (Z.mod_pos_bound (buf_write_i t) 32).
  rewrite !mwrite_ok by lia. cbn [rbind]. eauto.
Qed.

Lemma queued_put t p len t' h :
  ring_ok t h -> put_buf t p len = Ok t' -> (queued_bufs t < 32)%nat ->
  queued_bufs t' = S (queued_bufs t).
Proof.
  intros Hok Hput Hq. destruct (put_buf_ok t h p len Hok) as (t1 & E & Et).
  rewrite Hput in E. injection E as <-.
  destruct Hok as [_ _ Hr Hw _ _ _ _ _].
  pose proof (queued_eq t) as Eq. pose proof (queued_eq t') as E'.
  rewrite Et in E' at 2 3. cbn [buf_read_i buf_write_i] in E'. clear Et Hput.
  widths. Z.div_mod_to_equations; lia.
Qed.

Lemma nth_insert_ne (l : list Z) i j x : i <> j -> nth i (<[j := x]> l) 0 = nth i l 0.
Proof.
  intros. rewrite !nth_lookup, list_lookup_insert_ne by done. done.
Qed.
Lemma nth_insert_eq (l : list Z) i x : (i < length l)%nat -> nth i (<[i := x]> l) 0 = x.
Proof. intros. by rewrite nth_lookup, list_lookup_insert_eq. Qed.

Lemma entries_put t p len t' h :
  ring_ok t h -> put_buf t p len = Ok t' -> (queued_bufs t < 32)%nat ->
  entries t' = entries t ++ [(p, len)].
Proof.
  intros Hok Hput Hq. pose proof (queued_put _ _ _ _ _ Hok Hput Hq) as Hqq.
  destruct (put_buf_ok t h p len Hok) as (t1 & E & Et). rewrite Hput in E. injection E as <-.
  destruct Hok as [Hb Hl Hr Hw _ _ _ _ _].
  unfold entries. rewrite Hqq, seq_S, map_app. f_equal.
  - apply map_ext_in. intros k Hk%in_seq. unfold entry. rewrite Et; simpl.
    assert (Z.to_nat ((buf_read_i t + Z.of_nat k) mod 32) <> Z.to_nat (buf_write_i t mod 32)) as Hne.
    { rewrite write_slot by done. Z.div_mod_to_equations; lia. }
    by rewrite !nth_insert_ne by done.
  - simpl. unfold entry. rewrite Et; simpl. rewrite <- write_slot by done.
    pose proof (Z.mod_pos_bound (buf_write_i t) 32). unfold zlen in *.
    by rewrite !nth_insert_eq by lia.
Qed.

(** ** Well-formed rings *)
Lemma frame_length h e : entry_ok h e -> zlen (frame_of h e) = e.2.
Proof.
  intros (blk & E & Hl & _). unfold frame_of. rewrite E. cbn [default from_option].
  unfold id, zlen in *. rewrite length_take. lia.
Qed.

Lemma frame_of_bytes h e : entry_ok h e -> bytes (frame_of h e).
Proof. intros (blk & E & _ & Hb). unfold frame_of. by rewrite E. Qed.

Lemma frame_of_insert h p blk e :
  h !! p = None -> entry_ok h e -> frame_of (<[p := blk]> h) e = frame_of h e.
Proof.
  intros Hp (b & E & _). unfold frame_of. rewrite lookup_insert_ne; [done|]. intros ->. congruence.
Qed.

Lemma entry_ok_insert h p blk e :
  h !! p = None -> entry_ok h e -> entry_ok (<[p := blk]> h) e.
Proof.
  intros Hp (b & E & Hb). exists b. rewrite lookup_insert_ne; [done|]. intros ->. congruence.
Qed.

Lemma frames_insert t h p blk :
  ring_ok t h -> h !! p = None -> frames t (<[p := blk]> h) = frames t h.
Proof.
  intros Hok Hp. unfold frames. apply map_ext_in. intros e He.
  apply frame_of_insert; [done|]. pose proof (ring_entries _ _ Hok) as HF.
  rewrite List.Forall_forall in HF. auto.
Qed.

(** The first byte not yet sent lies in the head frame. *)
Lemma idx_bound t h : ring_ok t h ->
  (Z.to_nat (idx_in_buf t) <= length (concat (frames t h)))%nat.
Proof.
  intros Hok. pose proof (ring_head _ _ Hok) as Hh. pose proof (ring_entries _ _ Hok) as HF.
  pose proof (ring_idx _ _ Hok). unfold frames. destruct (entries t) as [|e l]; [simpl; lia|].
  inversion HF as [|? ? He]; subst. apply frame_length in He.
  cbn [map concat]. rewrite length_app. unfold zlen in He. lia.
Qed.

Lemma ring_put t h p len blk t' :
  ring_ok t h -> (queued_bufs t < 32)%nat -> h !! p = None ->
  entry_ok (<[p := blk]> h) (p, len) -> put_buf t p len = Ok t' ->
  ring_ok t' (<[p := blk]> h) /\ queued_bufs t' = S (queued_bufs t) /\
  frames t' (<[p := blk]> h) = frames t h ++ [frame_of (<[p := blk]> h) (p, len)] /\
  pending t' (<[p := blk]> h) = pending t h ++ frame_of (<[p := blk]> h) (p, len).
Proof.
  intros Hok Hq Hp He Hput.
  pose proof (queued_put _ _ _ _ _ Hok Hput Hq) as Hqq.
  pose proof (entries_put _ _ _ _ _ Hok Hput Hq) as Hen.
  assert (frames t' (<[p := blk]> h) = frames t h ++ [frame_of (<[p := blk]> h) (p, len)]) as Hfr.
  { unfold frames at 1. rewrite Hen, map_app. f_equal. by apply frames_insert. }
  destruct (put_buf_ok t h p len Hok) as (t1 & E & Et). rewrite Hput in E. injection E as <-.
  assert (idx_in_buf t' = idx_in_buf t) as Hidx by by rewrite Et.
  split; [|split; [done|split; [done|]]].
  - pose proof Hok as [Hb Hl Hr Hw Hbd Hnd HF Hi Hh].
    split; rewrite ?Hidx, ?Hen; try done; try (rewrite Et; simpl; zl; done).
    + rewrite Et; simpl. apply u16_range.
    + lia.
    + rewrite map_app. apply NoDup_app. split; [done|]. split; [|apply NoDup_singleton].
      intros q Hin Hq'. apply list_elem_of_singleton in Hq' as ->. simpl in Hin.
      apply list_elem_of_In, in_map_iff in Hin as (e & <- & Hin).
      rewrite List.Forall_forall in HF. destruct (HF e Hin) as (b & E' & _). congruence.
    + apply Forall_app. split; [|by constructor].
      eapply Forall_impl; [exact HF|]. intros. by apply entry_ok_insert.
    + destruct (entries t); simpl; [|done].
      destruct He as (? & ? & ? & _). simpl in *. lia.
  - unfold pending. rewrite Hidx, Hfr, concat_app, drop_app_le by by apply idx_bound.
    cbn [concat]. by rewrite app_nil_r.
Qed.

(** The bytes of messages on the wire, for lists of types and data. *)
Definition wire (msgs : list (Z * list Z)) : list Z := concat (map (fun m => Encoder.cobs_frame (message m.1 m.2)) msgs).

(** ** Pushing a message *)

Definition sendable (data : list Z) : Prop := bytes data /\ 0 < zlen data < 2 ^ 31.

(** Everything but the transmitter, the heap and the task queue. *)
Definition rest_of {D X} (s : comm D X) :=
  (cobs s, proto_errors s, crc_errors s, comm_loglevel s, uart_dev s, dev s, ext s).

(** [s'] is [s] with the frame [fr] queued behind all others. *)
Record queued {D X} (fr : list Z) (s s' : comm D X) : Prop := {
  queued_ring : ring_ok (tx s') (heap s');
  queued_count : queued_bufs (tx s') = S (queued_bufs (tx s));
  queued_indices : buf_read_i (tx s') = buf_read_i (tx s) /\ buf_write_i (tx s') = u16 (buf_write_i (tx s) + 1);
  queued_frames : frames (tx s') (heap s') = frames (tx s) (heap s) ++ [fr];
  queued_pending : pending (tx s') (heap s') = pending (tx s) (heap s) ++ fr;
  queued_task : task_pending (tx s') = true;
  queued_posted : posted s' = posted s ++ (if task_pending (tx s) then [] else [DO_TX]);
  queued_unlocked : intr_locked s' = false;
  queued_dropped : dropped_packets (tx s') = dropped_packets (tx s);
  queued_rest : rest_of s' = rest_of s;
  queued_heap : heap s ⊆ heap s';
  queued_entry : exists e, heap s !! e.1 = None /\ entries (tx s') = entries (tx s) ++ [e]
}.

Section push.
Context {D X : Type} `{Soc D, OsLaws}.
Implicit Type s : comm D X.

(** The frame is written in front of the guard byte, which survives. *)
Lemma push_encode_ok s data :
  sendable data ->
  match os_malloc (heap s) (COBS_ENCODED_MAX_SIZE (zlen data) + 1) with
  | None => push_encode s data = Ok None
  | Some (p, _) => exists blk,
      push_encode s data =
        Ok (Some (set_heap s (<[p := blk]> (heap s)), p, zlen (Encoder.cobs_frame data), false)) /\
      heap s !! p = None /\
      entry_ok (<[p := blk]> (heap s)) (p, zlen (Encoder.cobs_frame data)) /\
      frame_of (<[p := blk]> (heap s)) (p, zlen (Encoder.cobs_frame data)) = Encoder.cobs_frame data
  end.
Proof using Type*.
  intros [Hb Hl]. pose proof (Encoder.frame_len_max data Hl) as HL.
  pose proof (Encoder.frame_from_len [] data) as Hl0. change (Encoder.frame_from [] data)
    with (Encoder.cobs_frame data) in Hl0.
  unfold push_encode. set (M := COBS_ENCODED_MAX_SIZE (zlen data)) in *.
  assert (M = zlen data + (zlen data + 253) / 254 + 1) as HM by (apply Encoder.max_size_eq; lia).
  assert (u32 (M + 1) = M + 1) as -> by
    (apply u32_small; change (2 ^ 31) with 2147483648 in Hl; width_lia).
  destruct (os_malloc (heap s) (M + 1)) as [[p blk]|] eqn:Em; [|done].
  apply os_malloc_fresh in Em as (Hp & _ & Hblk & _); [|zlia].
  replace (M + 1 - 1) with M by lia. zl. 
  rewrite mwrite_ok by lia. cbn [rbind].
  set (fr := Encoder.cobs_frame data) in *.
  assert (bytes fr) as Hfr by by apply Encoder.frame_bytes.
  rewrite Encoder.cobs_encode_writes by (try done; zl; lia). cbn [rbind]. fold fr.
  set (blk' := fr ++ _).
  assert (zlen blk' = M + 1) as Hl'.
  { unfold blk'. unfold zlen in *. rewrite length_app, length_drop, length_insert. lia. }
  assert (blk' !! Z.to_nat M = Some 0x55) as Hg.
  { unfold blk'. unfold zlen in *. rewrite lookup_app_r, lookup_drop by lia.
    replace (length fr + (Z.to_nat M - length fr))%nat with (Z.to_nat M) by lia.
    rewrite list_lookup_insert_eq by lia. done. }
  unfold mread. rewrite (proj2 (Z.leb_le _ _)), Hg by lia. cbn [of_option rbind].
  assert (take (Z.to_nat (zlen fr)) blk' = fr) as Ht.
  { unfold blk', zlen. by rewrite Nat2Z.id, take_app_length. }
  exists blk'. split; [done|]. split; [done|].
  unfold entry_ok, frame_of; cbn [fst snd]. rewrite lookup_insert_eq. cbn [default from_option].
  unfold id. split; [|done].
  exists blk'. rewrite Ht. split; [done|]. split; [lia|done].
Qed.

Lemma wake_fields s :
  tx (transmitter_wake_task s) = set_pending (tx s) true /\
  heap (transmitter_wake_task s) = heap s /\
  posted (transmitter_wake_task s) = posted s ++ (if task_pending (tx s) then [] else [DO_TX]) /\
  intr_locked (transmitter_wake_task s) = intr_locked s && task_pending (tx s) /\
  rest_of (transmitter_wake_task s) = rest_of s.
Proof.
  unfold transmitter_wake_task. destruct (task_pending (tx s)) eqn:E; simpl.
  - rewrite app_nil_r, andb_true_r. split; [|done]. destruct s as [[] ]; simpl in *. by subst.
  - rewrite E. simpl. by rewrite andb_false_r.
Qed.

(** The index difference C computes, from the number of queued buffers. *)
Lemma index_difference t :
  is_u16 (buf_read_i t) -> is_u16 (buf_write_i t) ->
  (buf_write_i t - buf_read_i t =? 32) =
  (queued_bufs t =? 32)%nat && (buf_read_i t <=? buf_write_i t).
Proof.
  intros Hr Hw. pose proof (queued_eq t) as Hq. unfold u16 in Hq.
  apply Bool.eq_iff_eq_true. rewrite andb_true_iff, Z.eqb_eq, Nat.eqb_eq, Z.leb_le. widths.
  split; intros; Z.div_mod_to_equations; lia.
Qed.

Lemma admits_room s prio :
  ring_ok (tx s) (heap s) -> no_wrapped_full (tx s) -> push_admits s prio = true ->
  (queued_bufs (tx s) < 32)%nat.
Proof.
  intros [_ _ Hr Hw Hbd _ _ _ _] Hnw Ha. unfold push_admits in Ha.
  destruct (u32 (buf_write_i (tx s) - buf_read_i (tx s)) =? TX_RING_BUFFER_SIZE) eqn:E; [done|].
  destruct Hnw as [Hle|?]; [|done]. apply Z.eqb_neq in E. revert E.
  pose proof (queued_eq (tx s)) as Hq. unfold TX_RING_BUFFER_SIZE. intros E.
  enough (Z.of_nat (queued_bufs (tx s)) <> 32) by lia. rewrite Hq. intros E'. apply E.
  rewrite u32_small by width_lia. rewrite u16_small in E' by width_lia. done.
Qed.

Lemma ring_pending t h b : ring_ok t h -> ring_ok (set_pending t b) h.
Proof. intros []. by split. Qed.

Lemma push_commit_ok s p blk n :
  ring_ok (tx s) (heap s) -> (queued_bufs (tx s) < 32)%nat -> heap s !! p = None ->
  entry_ok (<[p := blk]> (heap s)) (p, n) ->
  exists s', push_commit (set_heap s (<[p := blk]> (heap s))) p n = Ok s' /\
    queued (frame_of (<[p := blk]> (heap s)) (p, n)) s s'.
Proof.
  intros Hok Hq Hp He. unfold push_commit.
  change (tx (ets_intr_lock _)) with (tx s). unfold TX_RING_BUFFER_SIZE.
  rewrite index_difference by apply Hok. rewrite (proj2 (Nat.eqb_neq _ _)) by lia. cbn [andb].
  destruct (put_buf_ok (tx s) (heap s) p n Hok) as (t & Ht & Et). rewrite Ht. cbn [rbind].
  destruct (ring_put _ _ _ _ _ _ Hok Hq Hp He Ht) as (Hok' & Hqq & Hfr & Hpd).
  eexists; split; [reflexivity|].
  match goal with |- queued _ _ (transmitter_wake_task ?s') =>
    destruct (wake_fields s') as (Etx & Eh & Epo & El & Er) end.
  split; rewrite ?Etx, ?Eh, ?Epo, ?El, ?Er; try done.
  - by apply ring_pending.
  - by rewrite Et.
  - by rewrite Et.
  - by rewrite Et.
  - by apply insert_subseteq.
  - exists (p, n). split; [done|]. exact (entries_put _ _ _ _ _ Hok Ht Hq).
Qed.

(** The outcome of a push. *)
Definition push_outcome s (data : list Z) (prio : Z) (s' : comm D X) : Prop :=
  if push_admits s prio then
    match os_malloc (heap s) (COBS_ENCODED_MAX_SIZE (zlen data) + 1) with
    | None => s' = s
    | Some _ => queued (Encoder.cobs_frame data) s s'
    end
  else s' = set_tx s (count_drop (tx s)).

Lemma push_ok s data prio :
  ring_ok (tx s) (heap s) -> no_wrapped_full (tx s) -> sendable data ->
  exists s', push s data prio = Ok s' /\ push_outcome s data prio s'.
Proof using Type*.
  intros Hok Hnw Hd. unfold push, push_outcome. cbn [transmitter_push].
  destruct (push_admits s prio) eqn:Ha; [|eauto].
  pose proof (push_encode_ok s data Hd) as He.
  destruct (os_malloc _ _) as [[p b]|].
  - destruct He as (blk & E & Hp & Hen & Hfr). rewrite E. cbn [rbind].
    edestruct push_commit_ok as (s' & Es & Hs); [done|by eapply admits_room|done|done|].
    exists s'. split; [exact Es|]. by rewrite Hfr in Hs.
  - rewrite He. cbn [rbind]. eauto.
Qed.

(** The [COMM_ERR] in [transmitter_push] is never reached, so its recursion
    ends at once: any fuel beyond zero gives the same result. *)
Lemma push_not_clobbered n s data prio :
  sendable data -> transmitter_push (S n) s data prio = push s data prio.
Proof using Type*.
  intros Hd. unfold push. cbn [transmitter_push]. destruct (push_admits s prio); [|done].
  pose proof (push_encode_ok s data Hd) as He.
  destruct (os_malloc _ _) as [[p b]|]; [|by rewrite He].
  destruct He as (blk & E & _). by rewrite E.
Qed.

Lemma ring_drop t h : ring_ok t h -> ring_ok (count_drop t) h.
Proof. intros []. by split. Qed.

Lemma sendable_message type data :
  is_byte type -> bytes data -> zlen data < 2 ^ 31 - 3 -> sendable (message type data).
Proof.
  intros Ht Hb Hl. unfold message, sendable. change (2 ^ 31) with 2147483648 in *.
  change 0xff with 255. rewrite !land_255. split; [|zlia].
  apply bytes_cons. split; [done|]. apply bytes_app. split; [done|].
  repeat (apply bytes_cons; split); [apply Z.mod_pos_bound; lia..|constructor].
Qed.
End push.

(** ** Sending to the FIFO *)
Lemma bytes_lookup l i b : bytes l -> l !! i = Some b -> is_byte b.
Proof. intros Hl. by apply Forall_lookup_1. Qed.

Section send.
Context {D X : Type} `{SocLaws D}.
Implicit Type s : comm D X.

Lemma comm_but_tx_trans (d1 d2 d3 : D) : same_but_tx d1 d2 -> same_but_tx d2 d3 -> same_but_tx d1 d3.
Proof. intros [? ?] [? ?]. split; congruence. Qed.

(** The bytes [idx..idx+n) go out as far as there is room. *)
Lemma send_bytes_ok n : forall d blk idx room,
  0 <= idx -> idx + Z.of_nat n <= zlen blk -> 0 <= room ->
  bytes (take (Z.to_nat idx + n) blk) ->
  exists d' k, k = Nat.min n (Z.to_nat room) /\
    send_bytes n d (Some blk) idx room = Ok (d', idx + Z.of_nat k, room - Z.of_nat k) /\
    tx_sent d' = tx_sent d ++ take k (drop (Z.to_nat idx) blk) /\
    tx_count d' <= tx_count d + Z.of_nat k /\ same_but_tx d d'.
Proof using Type*.
  induction n as [|n IH]; intros d blk idx room Hi Hn Hr Hb; cbn [send_bytes].
  { exists d, 0%nat. rewrite take_0, app_nil_r, Z.add_0_r, Z.sub_0_r. repeat split; try done. lia. }
  destruct (Z.eq_dec room 0) as [->|Hroom].
  { exists d, 0%nat. rewrite take_0, app_nil_r, Z.add_0_r. repeat split; try done; lia. }
  unfold c_true. rewrite (proj2 (Z.eqb_neq room 0)) by done. cbn [negb of_option rbind].
  destruct (lookup_lt_is_Some_2 blk (Z.to_nat idx)) as [b Eb]; [unfold zlen in *; lia|].
  unfold mread. rewrite (proj2 (Z.leb_le _ _)) by done. rewrite Eb. cbn [of_option rbind].
  pose proof (write_fifo d b) as (Es & Ec & Esame).
  set (d1 := WRITE_PERI_REG d (UART_FIFO 0) b) in *.
  destruct (IH d1 blk (idx + 1) (room - 1)) as (d' & k & Ek & E & Es' & Ec' & Esame'); try lia.
  { rewrite Z2Nat.inj_add by lia. by replace (Z.to_nat idx + Z.to_nat 1 + n)%nat
      with (Z.to_nat idx + S n)%nat by lia. }
  exists d', (S k). rewrite E. split; [lia|].
  replace (idx + 1 + Z.of_nat k) with (idx + Z.of_nat (S k)) by lia.
  replace (room - 1 - Z.of_nat k) with (room - Z.of_nat (S k)) by lia. split; [done|].
  assert (u8 b = b) as Hb8.
  { apply u8_small. apply (bytes_lookup _ (Z.to_nat idx) _ Hb). rewrite lookup_take_lt by lia. exact Eb. }
  split; [|split; [lia|by eapply comm_but_tx_trans]].
  rewrite Es', Es, Hb8, <- app_assoc. f_equal.
  rewrite (drop_S _ _ _ Eb). rewrite Z2Nat.inj_add by lia.
  by replace (Z.to_nat idx + Z.to_nat 1)%nat with (S (Z.to_nat idx)) by lia.
Qed.

(** Freeing the head buffer. *)
Lemma ring_next t h :
  ring_ok t h -> (0 < queued_bufs t)%nat ->
  exists e blk, entry t 0 = e /\ h !! e.1 = Some blk /\ 0 < e.2 <= zlen blk /\
    bytes (take (Z.to_nat e.2) blk) /\ 0 <= idx_in_buf t < e.2 /\
    ring_ok (next_buf t) (delete e.1 h) /\
    pending t h = drop (Z.to_nat (idx_in_buf t)) (take (Z.to_nat e.2) blk) ++
                  pending (next_buf t) (delete e.1 h).
Proof.
  intros Hok Hq. pose proof Hok as [Hb Hl Hr Hw Hbd Hnd HF Hi Hh].
  pose proof (entries_next t Hr Hw Hq) as En. pose proof (queued_next t Hr Hw Hq) as Eq.
  rewrite En in Hnd, HF, Hh. inversion HF as [|? ? He HF']; subst.
  destruct He as (blk & Eblk & Hlen & Hbytes).
  set (e := entry t 0) in *. exists e, blk.
  cbn [map] in Hnd. apply NoDup_cons in Hnd as [Hnin Hnd].
  assert (forall e', In e' (entries (next_buf t)) -> e'.1 <> e.1) as Hne.
  { intros e' Hin Heq. apply Hnin. rewrite <- Heq. apply list_elem_of_In. by apply in_map. }
  assert (frames (next_buf t) (delete e.1 h) = frames (next_buf t) h) as Hfr.
  { apply map_ext_in. intros e' Hin%Hne. unfold frame_of. by rewrite lookup_delete_ne. }
  do 4 (split; [done|]). split; [lia|]. split.
  - split; simpl; try done; try lia.
    + apply u16_range.
    + rewrite List.Forall_forall in HF' |- *. intros e' Hin.
      destruct (HF' e' Hin) as (b & E & ?). exists b. rewrite lookup_delete_ne; [done|].
      intros Heq. by apply (Hne e' Hin).
    + destruct (entries (next_buf t)) as [|e' l] eqn:El; [done|].
      inversion HF' as [|? ? (b & _ & ? & _)]; subst. lia.
  - unfold pending at 1. unfold frames. rewrite En. cbn [map concat].
    fold (frames (next_buf t) h). rewrite <- Hfr.
    assert (frame_of h e = take (Z.to_nat e.2) blk) as -> by by (unfold frame_of; rewrite Eblk).
    rewrite drop_app_le by (unfold zlen in *; rewrite length_take; lia). done.
Qed.

(** What [send_bufs] promises from [s] with [room] bytes of FIFO space. *)
Record sent s (room : Z) s' (room' : Z) : Prop := {
  sent_ring : ring_ok (tx s') (heap s');
  sent_bytes : tx_sent (dev s') ++ pending (tx s') (heap s') =
               tx_sent (dev s) ++ pending (tx s) (heap s);
  sent_count : tx_count (dev s') + room' <= tx_count (dev s) + room;
  sent_room : 0 <= room' <= room;
  sent_moved : zlen (tx_sent (dev s')) = zlen (tx_sent (dev s)) + (room - room');
  sent_done : room' = 0 \/ queued_bufs (tx s') = 0%nat;
  sent_dev : same_but_tx (dev s) (dev s');
  sent_tx : task_pending (tx s') = task_pending (tx s) /\
            dropped_packets (tx s') = dropped_packets (tx s) /\
            buf_write_i (tx s') = buf_write_i (tx s);
  sent_same : (cobs s', proto_errors s', crc_errors s', comm_loglevel s', posted s',
               intr_locked s', uart_dev s', ext s') =
              (cobs s, proto_errors s, crc_errors s, comm_loglevel s, posted s,
               intr_locked s, uart_dev s, ext s)
}.

Lemma sent_step s room s1 room1 s' room' :
  ring_ok (tx s1) (heap s1) ->
  tx_sent (dev s1) ++ pending (tx s1) (heap s1) = tx_sent (dev s) ++ pending (tx s) (heap s) ->
  tx_count (dev s1) + room1 <= tx_count (dev s) + room ->
  room1 <= room -> zlen (tx_sent (dev s1)) = zlen (tx_sent (dev s)) + (room - room1) ->
  same_but_tx (dev s) (dev s1) ->
  task_pending (tx s1) = task_pending (tx s) /\ dropped_packets (tx s1) = dropped_packets (tx s) /\
    buf_write_i (tx s1) = buf_write_i (tx s) ->
  (cobs s1, proto_errors s1, crc_errors s1, comm_loglevel s1, posted s1,
     intr_locked s1, uart_dev s1, ext s1) =
    (cobs s, proto_errors s, crc_errors s, comm_loglevel s, posted s,
     intr_locked s, uart_dev s, ext s) ->
  sent s1 room1 s' room' -> sent s room s' room'.
Proof.
  intros ? E1 ? ? ? Hd (? & ? & ?) E2 [? E3 ? ? ? ? Hd' (? & ? & ?) E4].
  split; try done; try congruence; try lia; [by eapply comm_but_tx_trans|].
  repeat split; congruence.
Qed.

Lemma send_stop s room :
  ring_ok (tx s) (heap s) -> 0 <= room -> room = 0 \/ queued_bufs (tx s) = 0%nat ->
  sent s room s room.
Proof. intros. split; try done; lia. Qed.

(** The head buffer is read at the masked read index. *)
Lemma read_head t h : ring_ok t h ->
  mread (bufs t) (Z.land (buf_read_i t) TX_RING_BUFFER_MASK) = Ok (entry t 0).1 /\
  mread (buf_lens t) (Z.land (buf_read_i t) TX_RING_BUFFER_MASK) = Ok (entry t 0).2.
Proof.
  intros [Hb Hl _ _ _ _ _ _ _]. rewrite land_mask. unfold entry. cbn [fst snd]. rewrite Z.add_0_r.
  pose proof (Z.mod_pos_bound (buf_read_i t) 32 ltac:(lia)). unfold zlen, mread in *.
  rewrite !(proj2 (Z.leb_le _ _)) by lia.
  split; (destruct (lookup_lt_is_Some_2 (bufs t) (Z.to_nat (buf_read_i t mod 32)) ltac:(lia)) as [x Ex];
    destruct (lookup_lt_is_Some_2 (buf_lens t) (Z.to_nat (buf_read_i t mod 32)) ltac:(lia)) as [y Ey];
    rewrite ?(nth_lookup_Some _ _ _ _ Ex), ?(nth_lookup_Some _ _ _ _ Ey), ?Ex, ?Ey; done).
Qed.

Lemma ring_idx_ok t h e i :
  ring_ok t h -> (0 < queued_bufs t)%nat -> entry t 0 = e -> 0 <= i < e.2 -> ring_ok (set_idx t i) h.
Proof.
  intros Hok Hq He Hi. pose proof Hok as [Hb Hl Hr Hw Hbd Hnd HF Hi0 Hh].
  split; try done; [simpl; lia|].
  change (entries (set_idx t i)) with (entries t). rewrite (entries_next t Hr Hw Hq), He.
  simpl. lia.
Qed.

(** The frame of the head buffer goes out from [idx] on as far as there is
    room; what remains of it is what [pending] starts with. *)
Lemma send_head s room :
  ring_ok (tx s) (heap s) -> (0 < queued_bufs (tx s))%nat -> 0 < room ->
  let e := entry (tx s) 0 in
  exists d k, (k <= Z.to_nat (e.2 - idx_in_buf (tx s)))%nat /\
    send_bytes (Z.to_nat (e.2 - idx_in_buf (tx s))) (dev s) (heap s !! e.1) (idx_in_buf (tx s)) room =
      Ok (d, idx_in_buf (tx s) + Z.of_nat k, room - Z.of_nat k) /\
    0 < Z.of_nat k <= room /\ same_but_tx (dev s) d /\
    tx_count d <= tx_count (dev s) + Z.of_nat k /\
    zlen (tx_sent d) = zlen (tx_sent (dev s)) + Z.of_nat k /\
    if (idx_in_buf (tx s) + Z.of_nat k =? e.2)
    then ring_ok (next_buf (tx s)) (delete e.1 (heap s)) /\ is_Some (heap s !! e.1) /\
         tx_sent d ++ pending (next_buf (tx s)) (delete e.1 (heap s)) =
         tx_sent (dev s) ++ pending (tx s) (heap s)
    else room = Z.of_nat k /\
         ring_ok (set_idx (tx s) (idx_in_buf (tx s) + Z.of_nat k)) (heap s) /\
         tx_sent d ++ pending (set_idx (tx s) (idx_in_buf (tx s) + Z.of_nat k)) (heap s) =
         tx_sent (dev s) ++ pending (tx s) (heap s).
Proof using Type*.
  intros Hok Hq Hroom e.
  destruct (ring_next _ _ Hok Hq) as (e' & blk & Ee & Eblk & Hlen & Hbytes & Hidx & Hok' & Hp).
  fold e in Ee. subst e'. set (i := idx_in_buf (tx s)) in *. rewrite Eblk.
  destruct (send_bytes_ok (Z.to_nat (e.2 - i)) (dev s) blk i room)
    as (d & k & Ek & E & Es & Ec & Esame); try lia.
  { by replace (Z.to_nat i + Z.to_nat (e.2 - i))%nat with (Z.to_nat e.2) by lia. }
  assert (Z.to_nat i + k <= Z.to_nat e.2)%nat as Hk by lia.
  assert (take k (drop (Z.to_nat i) blk) = take k (drop (Z.to_nat i) (take (Z.to_nat e.2) blk))) as Et.
  { rewrite skipn_firstn_comm, take_take. f_equal. lia. }
  exists d, k. split; [lia|]. split; [exact E|]. split; [lia|]. split; [done|]. split; [done|].
  split; [rewrite Es; zl; unfold zlen in *; rewrite length_take, length_drop; lia|].
  rewrite Es, Et. destruct (Z.eqb_spec (i + Z.of_nat k) e.2).
  - split; [done|]. split; [done|]. rewrite Hp, <- app_assoc. do 2 f_equal.
    rewrite firstn_all2; [done|]. rewrite length_drop, length_take. lia.
  - split; [lia|]. split; [apply (ring_idx_ok _ _ e); try done; lia|].
    rewrite <- app_assoc. f_equal. unfold pending. cbn [set_idx idx_in_buf].
    change (frames (set_idx _ _) (heap s)) with (frames (tx s) (heap s)).
    fold (pending (tx s) (heap s)) in Hp |- *.
    replace (Z.to_nat (i + Z.of_nat k)) with (Z.to_nat i + k)%nat by lia.
    rewrite <- drop_drop. fold i. unfold pending in Hp. fold i in Hp. rewrite Hp.
    rewrite drop_app_le by (rewrite length_drop, length_take; unfold zlen in *; lia).
    by rewrite app_assoc, take_drop.
Qed.

Lemma send_bufs_ok fuel : forall s room,
  ring_ok (tx s) (heap s) -> 0 <= room -> (queued_bufs (tx s) <= fuel)%nat ->
  exists s' room', send_bufs fuel s room = Ok (s', room') /\ sent s room s' room'.
Proof using Type*.
  induction fuel as [|fuel IH]; intros s room Hok Hr Hf; cbn [send_bufs].
  { eexists _, _; split; [done|]. apply send_stop; [done|done|right; lia]. }
  pose proof Hok as [_ _ Hri Hwi _ _ _ _ _]. rewrite (queued_zero _ Hri Hwi). unfold c_true.
  destruct (Z.eqb_spec room 0) as [->|Hroom]; cbn [negb andb].
  { eexists _, _; split; [done|]. apply send_stop; auto. }
  destruct (Nat.eqb_spec (queued_bufs (tx s)) 0) as [Hq|Hq]; cbn [negb].
  { eexists _, _; split; [done|]. apply send_stop; auto. }
  destruct (read_head _ _ Hok) as [-> ->]. cbn [rbind].
  destruct (send_head s room Hok) as (d & k & Hk & E & Hkr & Hsame & Hc & Hz & Hcase); [lia..|].
  rewrite E. cbn [rbind]. destruct (idx_in_buf (tx s) + Z.of_nat k =? (entry (tx s) 0).2) eqn:Efull;
    cbn [negb].
  - destruct Hcase as (Hok' & [blk Hblk] & Hp). unfold os_free.
    change (heap (set_tx _ _)) with (heap s). rewrite Hblk. cbn [rbind].
    edestruct (IH (set_heap (set_tx (set_dev s d) (next_buf (tx s))) (delete (entry (tx s) 0).1 (heap s)))
      (room - Z.of_nat k)) as (s' & room' & E' & Hs'); [exact Hok'|lia| |].
    { cbn [tx set_heap set_tx]. rewrite (queued_next (tx s)) in Hf by (try done; lia). lia. }
    exists s', room'. split; [exact E'|].
    eapply sent_step; [..|exact Hs']; try done; simpl; lia.
  - destruct Hcase as (-> & Hok' & Hp). eexists _, _; split; [done|].
    rewrite Z.sub_diag. split; try done; simpl; try lia; auto.
Qed.

(** [transmitter_send] on a FIFO of at most 126 bytes: nothing is lost or
    reordered, the FIFO is not overrun, and what stays behind has the
    transmit interrupt enabled. *)
Record send_done s s' : Prop := {
  done_ring : ring_ok (tx s') (heap s');
  done_bytes : tx_sent (dev s') ++ pending (tx s') (heap s') =
               tx_sent (dev s) ++ pending (tx s) (heap s);
  done_moved : exists c, 0 <= c <= tx_count (dev s) /\
    zlen (tx_sent (dev s')) =
    zlen (tx_sent (dev s)) + Z.min (126 - c) (zlen (pending (tx s) (heap s)));
  done_count : tx_count (dev s') <= 126;
  done_task : task_pending (tx s') = false;
  done_write : buf_write_i (tx s') = buf_write_i (tx s) /\
               dropped_packets (tx s') = dropped_packets (tx s);
  done_armed : queued_bufs (tx s') <> 0%nat ->
               Z.testbit (int_ena (dev s')) 1 = true;
  done_ena : forall i, i <> 1 -> Z.testbit (int_ena (dev s')) i = Z.testbit (int_ena (dev s)) i;
  done_keeps : Z.testbit (int_ena (dev s)) 1 = true -> Z.testbit (int_ena (dev s')) 1 = true;
  done_rx : rx_stream (dev s') = rx_stream (dev s);
  done_same : (cobs s', proto_errors s', crc_errors s', comm_loglevel s', posted s',
                 intr_locked s', uart_dev s', ext s') =
              (cobs s, proto_errors s, crc_errors s, comm_loglevel s, posted s,
                 false, uart_dev s, ext s)
}.

Lemma lor_bit1 a i : Z.testbit (Z.lor a UART_TXFIFO_EMPTY_INT_ENA) i = Z.testbit a i || (i =? 1).
Proof.
  rewrite Z.lor_spec. f_equal. change UART_TXFIFO_EMPTY_INT_ENA with (2 ^ 1).
  destruct (Z.lt_ge_cases i 0); [rewrite Z.testbit_neg_r by done; symmetry; apply Z.eqb_neq; lia|].
  destruct (Z.eqb_spec i 1) as [->|Hne]; [by rewrite Z.pow2_bits_true|by rewrite Z.pow2_bits_false by lia].
Qed.

(** The bytes moved are as many as there is room for, or all. *)
Lemma sent_amount s room s' room' :
  sent s room s' room' ->
  room - room' = Z.min room (zlen (pending (tx s) (heap s))).
Proof.
  intros [Hok' Hby _ Hroom Hmoved Hdone _ _ _].
  apply (f_equal zlen) in Hby. zl.
  destruct Hdone as [->|Hq]; [zlia|].
  assert (pending (tx s') (heap s') = []) as E.
  { unfold pending, frames, entries. rewrite Hq. apply drop_nil. }
  rewrite E in Hby. zlia.
Qed.

Lemma transmitter_send_ok s :
  ring_ok (tx s) (heap s) -> tx_count (dev s) <= 126 ->
  exists s', transmitter_send s = Ok s' /\ send_done s s'.
Proof using Type*.
  intros Hok Hc. unfold transmitter_send.
  pose proof (read_status (dev s)) as Hst.
  change (dev (ets_intr_unlock _)) with (dev s).
  destruct (READ_PERI_REG (dev s) (UART_STATUS 0)) as [v d].
  destruct Hst as ([Hsent [Hc0 Hc1] Hrx] & Hena & Hcnt & _). rewrite Hcnt.
  rewrite u32_small by width_lia.
  set (s1 := set_dev (ets_intr_unlock _) d).
  assert (ring_ok (tx s1) (heap s1)) as Hok1 by by apply (ring_pending (tx s) (heap s) false).
  assert (pending (tx s1) (heap s1) = pending (tx s) (heap s)) as Hp1 by done.
  destruct (Z.eqb_spec (126 - tx_count d) 0) as [Hz|Hz].
  - eexists; split; [reflexivity|].
    destruct (set_int_ena d UART_TXFIFO_EMPTY_INT_ENA) as ([Hs2 [? Hc2] Hrx2] & He2).
    change (dev s1) with d. fold (uart0_tx_intr_enable d) in Hs2, Hc2, Hrx2, He2.
    set (d2 := uart0_tx_intr_enable d) in *.
    split; try done; cbn [set_dev set_uart dev]; try congruence; try lia.
    + change (pending _ _) with (pending (tx s1) (heap s1)). congruence.
    + exists (tx_count d). split; [lia|]. rewrite Hs2, Hsent. zlia.
    + intros _. by rewrite He2, lor_bit1, orb_true_r.
    + intros i Hi. rewrite He2, lor_bit1, Hena. rewrite (proj2 (Z.eqb_neq i 1)) by done. apply orb_false_r.
    + intros. by rewrite He2, lor_bit1, orb_true_r.
  - destruct (send_bufs_ok (queued_bufs (tx s1)) s1 (126 - tx_count d) Hok1) as (s' & room' & E & Hs');
      [lia|done|]. rewrite E. cbn [rbind].
    pose proof (sent_amount _ _ _ _ Hs') as Ham. rewrite Hp1 in Ham.
    destruct Hs' as [Hok' Hby Hcnt' Hroom' Hmoved Hdone [Hd1 Hd2] (Ht & Hdr & Hw) Hsame].
    change (dev s1) with d in *. pose proof Hok' as [_ _ Hri Hwi _ _ _ _ _].
    rewrite (queued_zero _ Hri Hwi). unfold c_true. rewrite negb_involutive.
    destruct ((room' =? 0) && negb (queued_bufs (tx s') =? 0)%nat) eqn:Earm; eexists; (split; [reflexivity|]).
    + destruct (set_int_ena (dev s') UART_TXFIFO_EMPTY_INT_ENA) as ([Hs2 [? Hc2] Hrx2] & He2).
      fold (uart0_tx_intr_enable (dev s')) in Hs2, Hc2, Hrx2, He2.
      set (d2 := uart0_tx_intr_enable (dev s')) in *.
      split; try done; cbn [set_dev set_uart dev tx heap]; try congruence; try lia.
      * exists (tx_count d). split; [lia|]. rewrite Hs2, Hmoved, <- Hsent. lia.
      * intros _. by rewrite He2, lor_bit1, orb_true_r.
      * intros i Hi. rewrite He2, lor_bit1, Hd2, Hena, (proj2 (Z.eqb_neq i 1)) by done. apply orb_false_r.
      * intros. by rewrite He2, lor_bit1, orb_true_r.
    + split; try done; try congruence; try lia.
      * exists (tx_count d). split; [lia|]. rewrite Hmoved, <- Hsent. lia.
      * intros Hq. destruct Hdone as [->|]; [|done]. simpl in Earm.
        rewrite (proj2 (Nat.eqb_neq _ _)) in Earm by done. done.
Qed.

End send.

(** ** The wrapped full ring *)
Lemma entry_lookup t k : (k < queued_bufs t)%nat ->
  map fst (entries t) !! k = Some (entry t k).1.
Proof.
  intros Hk. unfold entries. rewrite map_map. apply list_lookup_fmap_Some.
  exists k. split; [done|]. apply lookup_seq. lia.
Qed.

(** In a full ring every slot but the head's holds another address. *)
Lemma full_ring_slots t h i :
  ring_ok t h -> queued_bufs t = 32%nat -> (i < 32)%nat -> i <> Z.to_nat (buf_read_i t mod 32) ->
  nth i (bufs t) 0 <> (entry t 0).1.
Proof.
  intros Hok Hq Hi Hne Heq. pose proof (ring_nodup _ _ Hok) as Hnd.
  set (r := buf_read_i t) in *. set (k := Z.to_nat ((Z.of_nat i - r) mod 32)).
  assert (0 <= (Z.of_nat i - r) mod 32 < 32) as Hk by (apply Z.mod_pos_bound; lia).
  assert ((r + (Z.of_nat i - r) mod 32) mod 32 = Z.of_nat i) as Hrk.
  { rewrite Z.add_mod_idemp_r by lia. rewrite Z.mod_small; lia. }
  assert (k = 0%nat) as Hk0.
  { eapply NoDup_lookup; [exact Hnd|..]; rewrite entry_lookup by lia; [reflexivity|].
    rewrite <- Heq. unfold entry. cbn [fst]. fold r. unfold k.
    rewrite Z2Nat.id by lia. by rewrite Hrk, Nat2Z.id. }
  apply Hne. assert ((Z.of_nat i - r) mod 32 = 0) as E0 by lia. rewrite E0, Z.add_0_r in Hrk. lia.
Qed.

Lemma wrapped_admits {D X} `{Soc D, Os} (s : comm D X) prio :
  is_u16 (buf_read_i (tx s)) -> is_u16 (buf_write_i (tx s)) ->
  buf_write_i (tx s) < buf_read_i (tx s) -> 20000 <= system_get_free_heap_size (heap s) ->
  push_admits s prio = true.
Proof.
  intros Hr Hw Hlt Hh. unfold push_admits, TX_RING_BUFFER_SIZE.
  set (d := buf_write_i (tx s) - buf_read_i (tx s)).
  assert (u32 d = d + 4294967296) as -> by (unfold d; width_lia).
  rewrite (proj2 (Z.eqb_neq _ _)) by (unfold d; widths; lia).
  assert (u32 (32 - (d + 4294967296)) = 32 - d) as -> by (unfold d; width_lia).
  unfold below_limits. rewrite !(proj2 (Z.ltb_ge (system_get_free_heap_size (heap s)) _)) by lia.
  rewrite !(proj2 (Z.ltb_ge (32 - d) _)) by (unfold d; widths; lia).
  by repeat case_match.
Qed.

Lemma full_write_slot t h : ring_ok t h -> queued_bufs t = 32%nat ->
  buf_write_i t mod 32 = buf_read_i t mod 32.
Proof.
  intros [_ _ Hr Hw _ _ _ _ _] Hq. rewrite (write_slot t Hr Hw), Hq.
  replace (buf_read_i t + Z.of_nat 32) with (buf_read_i t + 1 * 32) by lia. by rewrite Z.mod_add.
Qed.

(** ** Decidability, for concrete rings *)

#[global] Instance entry_ok_dec h e : Decision (entry_ok h e).
Proof.
  destruct (h !! e.1) as [blk|] eqn:E.
  - destruct (decide (0 < e.2 /\ e.2 <= zlen blk /\ bytes (take (Z.to_nat e.2) blk))) as [Hy|Hn].
    + left. exists blk. tauto.
    + right. intros (b & E' & ? & ?). rewrite E in E'. injection E' as <-. apply Hn. tauto.
  - right. intros (b & E' & _). congruence.
Defined.

Definition ring_check (t : transmitter) (h : memory) : bool :=
  (zlen (bufs t) =? 32) && (zlen (buf_lens t) =? 32) &&
  bool_decide (is_u16 (buf_read_i t)) && bool_decide (is_u16 (buf_write_i t)) &&
  (queued_bufs t <=? 32)%nat && bool_decide (NoDup (map fst (entries t))) &&
  bool_decide (Forall (entry_ok h) (entries t)) && (0 <=? idx_in_buf t) &&
  match entries t with [] => idx_in_buf t =? 0 | e :: _ => idx_in_buf t <? e.2 end.

Lemma ring_check_ok t h : ring_check t h = true -> ring_ok t h.
Proof.
  unfold ring_check. rewrite !andb_true_iff, !bool_decide_eq_true, !Z.eqb_eq, Z.leb_le, Nat.leb_le.
  intros ((((((((? & ?) & ?) & ?) & ?) & ?) & ?) & ?) & Hh). split; try done.
  by destruct (entries t); [apply Z.eqb_eq in Hh|apply Z.ltb_lt in Hh].
Qed.

(** [transmitter_init] makes an empty ring of any arrays. *)
Lemma ring_init t h :
  zlen (bufs t) = 32 -> zlen (buf_lens t) = 32 -> ring_ok (transmitter_init t) h.
Proof.
  intros. assert (queued_bufs (transmitter_init t) = 0%nat) as E by done.
  split; unfold entries; rewrite ?E; simpl; try done; try (by constructor); unfold is_u16; lia.
Qed.

(** ** Theorems *)

Section theorems.
Context {D X : Type} `{SocLaws D, OsLaws}.
Implicit Type s : comm D X.

(** [transmitter_send] never faults while the FIFO holds at most 126 bytes.
    What was sent followed by what is still queued stays the same, so bytes
    leave in order, once, and none is lost; the FIFO is not overrun, all bytes
    that fit are moved, and if any stay behind the transmit interrupt is on. *)
Theorem transmitter_send_in_order : forall s,
  ring_ok (tx s) (heap s) -> tx_count (dev s) <= 126 ->
  exists s', transmitter_send s = Ok s' /\ ring_ok (tx s') (heap s') /\
    tx_sent (dev s') ++ pending (tx s') (heap s') = tx_sent (dev s) ++ pending (tx s) (heap s) /\
    tx_count (dev s') <= 126 /\ task_pending (tx s') = false /\ intr_locked s' = false /\
    (exists c, 0 <= c <= tx_count (dev s) /\
       zlen (tx_sent (dev s')) =
       zlen (tx_sent (dev s)) + Z.min (126 - c) (zlen (pending (tx s) (heap s)))) /\
    (queued_bufs (tx s') <> 0%nat -> Z.testbit (int_ena (dev s')) 1 = true).
Proof using Type*.
  intros s Hok Hc. destruct (transmitter_send_ok s Hok Hc) as (s' & E & []).
  exists s'. repeat (split; [done|]). split; [by injection done_same0|]. by split.
Qed.

(** What a push does to a full ring whose write index has wrapped: it is
    admitted like to one with room, and the new frame, in the block [p], takes
    the slot of the head of the queue, whose block no slot refers to any
    more. *)
Definition overwrites s (p : Z) (data : list Z) s' : Prop :=
  queued_bufs (tx s') = 33%nat /\ entry (tx s') 0 = (p, zlen (Encoder.cobs_frame data)) /\ p <> (entry (tx s) 0).1 /\
  ~ In (entry (tx s) 0).1 (bufs (tx s')) /\ is_Some (heap s' !! (entry (tx s) 0).1).

Lemma push_overwrites s data prio p b :
  ring_ok (tx s) (heap s) -> queued_bufs (tx s) = 32%nat -> buf_write_i (tx s) < buf_read_i (tx s) ->
  push_admits s prio = true -> sendable data ->
  os_malloc (heap s) (COBS_ENCODED_MAX_SIZE (zlen data) + 1) = Some (p, b) ->
  exists s', push s data prio = Ok s' /\ overwrites s p data s'.
Proof using Type*.
  intros Hok Hq Hlt Ha Hd Hm. pose proof Hok as [Hb Hl Hr Hw _ _ _ _ _].
  unfold push. cbn [transmitter_push]. rewrite Ha.
  pose proof (push_encode_ok s data Hd) as He. rewrite Hm in He.
  destruct He as (blk & E & Hp & _ & _). rewrite E. cbn [rbind].
  unfold push_commit. change (tx (ets_intr_lock _)) with (tx s). unfold TX_RING_BUFFER_SIZE.
  rewrite index_difference by done. rewrite Hq, (proj2 (Z.leb_gt _ _)) by done. cbn [andb Nat.eqb].
  destruct (put_buf_ok (tx s) (heap s) p (zlen (Encoder.cobs_frame data)) Hok) as (t & Ht & Et).
  rewrite Ht. cbn [rbind]. eexists; split; [reflexivity|]. unfold overwrites.
  match goal with |- context [transmitter_wake_task ?s'] =>
    destruct (wake_fields s') as (Etx & Eh & _) end.
  rewrite Etx, Eh. cbn [set_tx set_heap ets_intr_lock ets_intr_unlock set_locked tx heap].
  rewrite (full_write_slot _ _ Hok Hq) in Et.
  pose proof (Z.mod_pos_bound (buf_read_i (tx s)) 32 ltac:(lia)) as Hm32.
  destruct (ring_next _ _ Hok ltac:(lia)) as (e & blk0 & <- & Hblk0 & _).
  assert (p <> (entry (tx s) 0).1) as Hne by (intros ->; congruence).
  split; [|split; [|split; [done|split]]].
  - pose proof (queued_eq (tx s)) as E1. rewrite Hq in E1.
    pose proof (queued_eq (set_pending t true)) as E2. rewrite Et in E2 at 2 3. simpl in E2.
    change (queued_bufs (set_pending t true)) with (queued_bufs t) in *. clear Et Ht.
    widths. Z.div_mod_to_equations. lia.
  - rewrite Et. unfold entry. cbn [buf_read_i bufs buf_lens set_pending]. rewrite Z.add_0_r.
    unfold zlen in *. rewrite !nth_insert_eq by lia. done.
  - rewrite Et. cbn [bufs set_pending]. intros Hin. apply (In_nth _ _ 0) in Hin as (i & Hi & Ei).
    rewrite length_insert in Hi.
    destruct (decide (i = Z.to_nat (buf_read_i (tx s) mod 32))) as [->|Hir].
    + rewrite nth_insert_eq in Ei by (unfold zlen in *; lia). congruence.
    + rewrite nth_insert_ne in Ei by done.
      eapply full_ring_slots; try done. unfold zlen in *. lia.
  - rewrite lookup_insert_ne by congruence. eauto.
Qed.

Lemma wrapped_full t h : ring_ok t h -> ~ no_wrapped_full t -> queued_bufs t = 32%nat /\ buf_write_i t < buf_read_i t.
Proof using Type. intros [_ _ _ _ Hq _ _ _ _] Hn. unfold no_wrapped_full in Hn. lia. Qed.

(** C29: [comm_send] never faults, and has four outcomes.  The message is
    refused with the drop counter raised when the ring or the heap is below
    the limits of its priority; it vanishes, and is not counted, when the
    allocation fails; else the COBS frame of type, data and checksum is queued
    behind all others, the transmit task is pending (posted once if it was
    not) and interrupts are enabled again.  When the ring is full and its
    write index has wrapped, the frame takes the place of the oldest one. *)
Theorem comm_send_queues : forall s type data prio,
  ring_ok (tx s) (heap s) -> is_byte type -> bytes data -> zlen data < 2 ^ 31 - 3 ->
  let msg := message type data in
  exists s', comm_send s type data prio = Ok s' /\
    if push_admits s prio then
      match os_malloc (heap s) (COBS_ENCODED_MAX_SIZE (zlen msg) + 1) with
      | None => s' = s
      | Some (p, _) => (no_wrapped_full (tx s) -> queued (Encoder.cobs_frame msg) s s') /\
                       (~ no_wrapped_full (tx s) -> overwrites s p msg s')
      end
    else s' = set_tx s (count_drop (tx s)).
Proof using Type*.
  intros s type data prio Hok Ht Hb Hl msg. pose proof (sendable_message type data Ht Hb Hl) as Hs. fold msg in Hs.
  assert (no_wrapped_full (tx s) \/ ~ no_wrapped_full (tx s)) as [Hn|Hn] by (unfold no_wrapped_full; lia).
  - destruct (push_ok s msg prio Hok Hn Hs) as (s' & E & Ho). exists s'. split; [exact E|]. unfold push_outcome in Ho.
    destruct (push_admits s prio); [|done]. by destruct (os_malloc _ _) as [[p b]|].
  - destruct (wrapped_full _ _ Hok Hn) as [Hq Hlt]. change (comm_send s type data prio) with (push s msg prio).
    destruct (push_admits s prio) eqn:Ha; [|unfold push; cbn [transmitter_push]; rewrite Ha; by eexists].
    destruct (os_malloc _ _) as [[p b]|] eqn:Em.
    + destruct (push_overwrites s msg prio p b Hok Hq Hlt Ha Hs Em) as (s' & E & Ho). by exists s'.
    + unfold push. cbn [transmitter_push]. rewrite Ha. pose proof (push_encode_ok s msg Hs) as He. rewrite Em in He. rewrite He. by eexists.
Qed.

(** The full test fails on a wrapped ring.  The indices are [uint16_t] but
    their difference is taken as [int]: when the write index has wrapped past
    zero and the read index has not, a full ring admits a push whatever the
    priority, the new frame replaces the head of the queue, and no slot of
    the ring refers to the old head any more. *)
Theorem push_overwrites_wrapped_ring : forall s data prio p b,
  ring_ok (tx s) (heap s) -> queued_bufs (tx s) = 32%nat ->
  buf_write_i (tx s) < buf_read_i (tx s) ->
  20000 <= system_get_free_heap_size (heap s) -> sendable data ->
  os_malloc (heap s) (COBS_ENCODED_MAX_SIZE (zlen data) + 1) = Some (p, b) ->
  exists s', push s data prio = Ok s' /\ overwrites s p data s'.
Proof using Type*.
  intros s data prio p b Hok Hq Hlt Hh Hd Hm. apply (push_overwrites s data prio p b Hok Hq Hlt); [|done|done]. by apply wrapped_admits; [apply Hok..| |].
Qed.
End theorems.

Lemma comm_send_queues_witness :
  let s := SimOs.booted [] in
  (ring_ok (tx s) (heap s) /\ bytes [1; 2; 3] /\ no_wrapped_full (tx s)) /\
  exists s', comm_send s 5 [1; 2; 3] COMM_TX_PRIO_HIGH = Ok s' /\ queued (Encoder.cobs_frame (message 5 [1; 2; 3])) s s'.
Proof.
  intros s. assert (ring_ok (tx s) (heap s)) as H1 by (apply ring_check_ok; vm_compute; reflexivity).
  assert (no_wrapped_full (tx s)) as H2 by (left; vm_compute; done).
  assert (bytes [1; 2; 3]) as H3 by (repeat constructor; lia).
  split; [split; [exact H1|split; [exact H3|exact H2]]|].
  destruct (comm_send_queues s 5 [1; 2; 3] COMM_TX_PRIO_HIGH H1) as (s' & E & Ho); [split; lia|exact H3|vm_compute; done|].
  exists s'. split; [exact E|]. exact (proj1 Ho H2).
Defined.

(** A ring with two frames, the first one partly sent. *)
Definition busy_link : comm Sim.dev unit :=
  set_tx (set_heap (SimOs.booted []) (list_to_map [(7, [3; 1; 2; 0]); (9, [2; 5; 0; 85])]))
    (Transmitter (<[3%nat := 7]> (<[4%nat := 9]> (replicate 32 0)))
       (<[3%nat := 4]> (<[4%nat := 3]> (replicate 32 0))) 3 5 true 0 1).

Lemma transmitter_send_in_order_witness :
  let s := busy_link in
  (ring_ok (tx s) (heap s) /\ tx_count (dev s) <= 126) /\
  pending (tx s) (heap s) = [1; 2; 0; 2; 5; 0] /\
  exists s', transmitter_send s = Ok s' /\ ring_ok (tx s') (heap s') /\
    tx_sent (dev s') ++ pending (tx s') (heap s') = tx_sent (dev s) ++ pending (tx s) (heap s) /\
    tx_count (dev s') <= 126 /\ task_pending (tx s') = false /\ intr_locked s' = false /\
    (exists c, 0 <= c <= tx_count (dev s) /\
       zlen (tx_sent (dev s')) =
       zlen (tx_sent (dev s)) + Z.min (126 - c) (zlen (pending (tx s) (heap s)))) /\
    (queued_bufs (tx s') <> 0%nat -> Z.testbit (int_ena (dev s')) 1 = true).
Proof.
  intros s. assert (ring_ok (tx s) (heap s)) as H1 by (apply ring_check_ok; vm_compute; reflexivity).
  assert (tx_count (dev s) <= 126) as H2 by (vm_compute; done).
  split; [split; [exact H1|exact H2]|]. split; [vm_compute; reflexivity|].
  apply (transmitter_send_in_order s H1 H2).
Defined.

(** A full ring whose write index has wrapped. *)
Definition wrapped_link : comm Sim.dev unit :=
  set_tx (set_heap (SimOs.booted []) (list_to_map (map (fun p => (p, [2; 7; 0])) (seqZ 1 32))))
    (Transmitter (seqZ 1 32) (replicate 32 3) 65535 31 true 0 0).

Lemma push_overwrites_wrapped_ring_witness :
  let s := wrapped_link in
  exists p b,
  (ring_ok (tx s) (heap s) /\ queued_bufs (tx s) = 32%nat /\
   os_malloc (heap s) (COBS_ENCODED_MAX_SIZE (zlen [8]) + 1) = Some (p, b)) /\
  exists s', push s [8] COMM_TX_PRIO_LOW = Ok s' /\ queued_bufs (tx s') = 33%nat /\
    entry (tx s') 0 = (p, zlen (Encoder.cobs_frame [8])) /\ p <> (entry (tx s) 0).1 /\
    ~ In (entry (tx s) 0).1 (bufs (tx s')) /\ is_Some (heap s' !! (entry (tx s) 0).1).
Proof.
  intros s. assert (ring_ok (tx s) (heap s)) as H1 by (apply ring_check_ok; vm_compute; reflexivity).
  assert (sendable [8]) as H2 by (split; [repeat constructor; lia|vm_compute; done]).
  eexists _, _.
  split; [split; [exact H1|split; [vm_compute; reflexivity|vm_compute; reflexivity]]|].
  eapply (push_overwrites_wrapped_ring s [8] COMM_TX_PRIO_LOW _ _ H1);
    [vm_compute; reflexivity|vm_compute; reflexivity|vm_compute; done|exact H2|
     vm_compute; reflexivity].
Defined.

(** What follows from the overwritten head: the frame is sent twice and
    its buffer is freed twice. *)
Theorem wrapped_ring_use_after_free :
  (let! s := push wrapped_link [8] COMM_TX_PRIO_LOW in transmitter_send s) = Fault UseAfterFree.
Proof. vm_compute. reflexivity. Qed.
