(* ===== verification/Link.v ===== *)
(** * The transmit side of the link in operation: sends, the task, the
    interrupt handler and the receiver as interleaved steps.

    [user_main/comm.c] runs in two contexts: the comm task (with everything
    that sends messages), which the scheduler runs to completion, and the UART
    interrupt.  A step of the relation below is a call of [comm_send], the
    dispatch of one [DO_TX], the begin and the end of the handling of a
    [DO_RX], one interrupt, or a change outside the transmitter (the hardware
    draining its FIFO, the receiver working on its buffer).  Nothing restricts
    the order of the steps; the theorems are about runs that never send while
    the ring is full and its write index has wrapped ([orderly]), since the
    code takes such a ring for one with room. *)
From S2P Require Import Prelude Crc16 Cobs Uart Comm CommTx.

#[local] Arguments Z.testbit : simpl never.
#[local] Arguments Z.land : simpl never.

Record link (D X : Type) := Link {
  state : comm D X;
  accepted : list (Z * list Z);   (* types and data of the messages admitted so far *)
  receiving : bool            (* the comm task is in [do_rx] *)
}.
Arguments Link {D X}. Arguments state {D X}. Arguments accepted {D X}. Arguments receiving {D X}.

Definition RX_INTS : Z := Z.lor UART_RXFIFO_FULL_INT_ENA UART_RXFIFO_TOUT_INT_ENA.

Section link_steps.
Context {D X : Type} `{SocLaws D, OsLaws}.
Implicit Type s : comm D X.

(** Does [comm_send] take the message? *)
Definition takes s (msg : list Z) (prio : Z) : bool :=
  push_admits s prio &&
  match os_malloc (heap s) (COBS_ENCODED_MAX_SIZE (zlen msg) + 1) with Some _ => true | None => false end.

(** Nothing of the transmitter changes; the FIFO may drain. *)
Record outside s s' : Prop := {
  out_tx : tx s' = tx s;
  out_heap : forall e, In e (entries (tx s)) -> heap s' !! e.1 = heap s !! e.1;
  out_posted : posted s' = posted s;
  out_locked : intr_locked s' = intr_locked s;
  out_sent : tx_sent (dev s') = tx_sent (dev s);
  out_count : tx_count (dev s') <= tx_count (dev s);
  out_ena : int_ena (dev s') = int_ena (dev s)
}.

Inductive event := Send (type : Z) (data : list Z) (prio : Z) | Task | RxBegin | RxEnd | Irq | Outside.

Inductive step : event -> link D X -> link D X -> Prop :=
  | step_send s acc rx type data prio s' :
      is_byte type -> bytes data -> zlen data < 2 ^ 31 - 3 -> comm_send s type data prio = Ok s' ->
      step (Send type data prio) (Link s acc rx)
        (Link s' (if takes s (message type data) prio then acc ++ [(type, data)] else acc) rx)
  | step_task s acc q s' :
      posted s = DO_TX :: q -> transmitter_send (set_posted s q) = Ok s' ->
      step Task (Link s acc false) (Link s' acc false)
  | step_rx_begin s acc q :
      posted s = DO_RX :: q ->
      step RxBegin (Link s acc false) (Link (set_posted s q) acc true)
  | step_rx_end s acc :
      step RxEnd (Link s acc true) (Link (set_dev s (uart0_rx_intr_enable (dev s))) acc false)
  | step_irq s acc rx :
      step Irq (Link s acc rx) (Link (uart0_rx_intr_handler s) acc rx)
  | step_outside s acc rx s' :
      outside s s' -> step Outside (Link s acc rx) (Link s' acc rx).

(** The state [comm_init] leaves: empty ring, no task posted. *)
Definition initial (l : link D X) : Prop :=
  let s := state l in
  ring_ok (tx s) (heap s) /\ queued_bufs (tx s) = 0%nat /\ task_pending (tx s) = false /\
  posted s = [] /\ intr_locked s = false /\ tx_count (dev s) <= 126 /\
  accepted l = [] /\ receiving l = false.

(** A run: the events with the states they met. *)
Inductive run (l0 : link D X) : list (event * link D X) -> link D X -> Prop :=
  | run_nil : run l0 [] l0
  | run_step tr l ev l' : run l0 tr l -> step ev l l' -> run l0 (tr ++ [(ev, l)]) l'.
(** No message is sent while the ring is full and its write index wrapped. *)
Definition orderly (tr : list (event * link D X)) : Prop :=
  Forall (fun '(ev, l) => match ev with Send _ _ _ => no_wrapped_full (tx (state l)) | _ => True end) tr.

(** ** The invariant *)

Definition count_of (sig : Z) (q : list Z) : nat := length (filter (fun x => x = sig) q).

Record link_inv (out0 : list Z) (l : link D X) : Prop := {
  inv_ring : ring_ok (tx (state l)) (heap (state l));
  inv_fifo : tx_count (dev (state l)) <= 126;
  inv_out : tx_sent (dev (state l)) ++ pending (tx (state l)) (heap (state l)) =
            out0 ++ wire (accepted l);
  inv_locked : intr_locked (state l) = false;
  inv_tx_posted : count_of DO_TX (posted (state l)) =
                  (if task_pending (tx (state l)) then 1 else 0)%nat;
  inv_rx_posted : (count_of DO_RX (posted (state l)) + (if receiving l then 1 else 0) <= 1)%nat;
  inv_rx_masked : (0 < count_of DO_RX (posted (state l)) + (if receiving l then 1 else 0))%nat ->
                  Z.land (int_ena (dev (state l))) RX_INTS = 0;
  inv_signals : Forall (fun x => x = DO_RX \/ x = DO_TX) (posted (state l));
  inv_wakeup : queued_bufs (tx (state l)) <> 0%nat ->
               task_pending (tx (state l)) = true \/
               Z.testbit (int_ena (dev (state l))) 1 = true
}.

Lemma count_cons sig x q : count_of sig (x :: q) = ((if decide (x = sig) then 1 else 0) + count_of sig q)%nat.
Proof. unfold count_of. rewrite filter_cons. by case_decide. Qed.
Lemma count_app sig p q : count_of sig (p ++ q) = (count_of sig p + count_of sig q)%nat.
Proof. unfold count_of. by rewrite filter_app, length_app. Qed.

(** Waking the transmit task posts no [DO_RX]. *)
Lemma count_wake (b : bool) : count_of DO_RX (if b then [] else [DO_TX]) = 0%nat.
Proof. by destruct b. Qed.

Lemma posted_length q :
  Forall (fun x => x = DO_RX \/ x = DO_TX) q -> length q = (count_of DO_RX q + count_of DO_TX q)%nat.
Proof.
  induction 1 as [|x q Hx _ IH]; [done|].
  rewrite !count_cons. simpl. destruct Hx as [-> | ->]; simpl; lia.
Qed.

Lemma initial_inv l : initial l -> link_inv (tx_sent (dev (state l))) l.
Proof.
  intros (Hok & Hq & Hp & Hpo & Hl & Hc & Ha & Hr).
  split; rewrite ?Hpo, ?Hp, ?Ha, ?Hr; try done; try (cbn; lia).
  - unfold wire. cbn [map concat]. rewrite app_nil_r. unfold pending, frames, entries. rewrite Hq. cbn [seq map concat].
    by rewrite drop_nil, app_nil_r.
Qed.

Lemma frames_outside s s' : outside s s' -> frames (tx s') (heap s') = frames (tx s) (heap s).
Proof.
  intros Ho. unfold frames. rewrite (out_tx _ _ Ho). apply map_ext_in. intros e Hin.
  unfold frame_of. by rewrite (out_heap _ _ Ho).
Qed.

Lemma ring_outside s s' : outside s s' -> ring_ok (tx s) (heap s) -> ring_ok (tx s') (heap s').
Proof.
  intros Ho Hok. rewrite (out_tx _ _ Ho). destruct Hok as [? ? ? ? ? ? HF ? ?]. split; try done.
  rewrite List.Forall_forall in HF |- *. intros e Hin. destruct (HF e Hin) as (b & E & ?).
  exists b. by rewrite (out_heap _ _ Ho).
Qed.

Lemma inv_outside out0 s s' acc rx :
  outside s s' -> link_inv out0 (Link s acc rx) -> link_inv out0 (Link s' acc rx).
Proof.
  intros Ho Hinv. pose proof (frames_outside _ _ Ho) as Hf. pose proof (ring_outside _ _ Ho) as Hr.
  destruct Hinv as [H1' H2' H3' H4' H5' H6' H7' H8' H9']. simpl in *.
  pose proof Ho as [Et _ Ep El Es Ec Ee].
  split; simpl; rewrite ?Ep, ?Ee, ?El; auto; try (rewrite Et; done); try lia.
  unfold pending in *. rewrite Hf, Es, Et. done.
Qed.

Lemma inv_send out0 s acc rx type data prio s' :
  is_byte type -> bytes data -> zlen data < 2 ^ 31 - 3 -> no_wrapped_full (tx s) ->
  comm_send s type data prio = Ok s' -> link_inv out0 (Link s acc rx) ->
  link_inv out0
    (Link s' (if takes s (message type data) prio then acc ++ [(type, data)] else acc) rx).
Proof using Type*.
  intros Ht Hb Hl Hnw E Hinv. pose proof Hinv as [Hok Hc Hout Hlk Htp Hrp Hrm Hsig Hwk]. simpl in *.
  destruct (push_ok s (message type data) prio Hok Hnw) as (s1 & E1 & Hs1);
    [by apply sendable_message|].
  change (push s (message type data) prio) with (comm_send s type data prio) in E1.
  rewrite E in E1. injection E1 as <-. unfold push_outcome, takes in *.
  destruct (push_admits s prio); cbn [andb]; [|subst s'; by split; [apply ring_drop|..]].
  destruct (os_malloc _ _); [|by subst s'].
  destruct Hs1 as [Hok' _ _ _ Hp' Htk' Hpo' Hlk' _ Hrest].
  injection Hrest as _ _ _ _ _ Edev _.
  split; simpl; rewrite ?Edev, ?Hpo', ?Htk'; try done.
  - unfold wire in *. rewrite Hp', map_app, concat_app. cbn [map concat fst snd]. rewrite app_nil_r, !app_assoc. by f_equal.
  - rewrite count_app, Htp. by destruct (task_pending (tx s)).
  - rewrite count_app, count_wake. lia.
  - rewrite count_app, count_wake. intros Hpos. apply Hrm. lia.
  - apply Forall_app. split; [done|]. destruct (task_pending (tx s)); [constructor|].
    apply Forall_singleton. by right.
  - by left.
Qed.

Lemma land_rx_same a b :
  (forall i, i <> 1 -> Z.testbit a i = Z.testbit b i) -> Z.land a RX_INTS = Z.land b RX_INTS.
Proof.
  intros Hab. apply Z.bits_inj'; intros i Hi. rewrite !Z.land_spec.
  destruct (Z.eq_dec i 1) as [->|Hne]; [by rewrite !andb_false_r|by rewrite Hab].
Qed.

Lemma inv_task out0 s acc q s' :
  posted s = DO_TX :: q -> transmitter_send (set_posted s q) = Ok s' ->
  link_inv out0 (Link s acc false) -> link_inv out0 (Link s' acc false).
Proof using Type*.
  intros Hpo E Hinv. pose proof Hinv as [Hok Hc Hout Hlk Htp Hrp Hrm Hsig Hwk]. simpl in *.
  destruct (transmitter_send_ok (set_posted s q) Hok Hc) as (s1 & E1 & Hs1).
  rewrite E in E1. injection E1 as <-.
  destruct Hs1 as [Hok' Hby _ Hc' Htk' _ Harm Hena _ _ Hsame]. injection Hsame as _ _ _ _ Epo Elk _ _.
  simpl in Epo. rewrite Hpo in Htp, Hrp, Hrm, Hsig. rewrite count_cons in Htp, Hrp, Hrm. simpl in *.
  pose proof (land_rx_same _ _ Hena) as Hland. simpl in Hland.
  split; simpl; rewrite ?Epo, ?Htk', ?Hland; try done.
  - by rewrite Hby.
  - destruct (task_pending (tx s)); lia.
  - by inversion Hsig.
  - auto.
Qed.

Lemma inv_rx_begin out0 s acc q :
  posted s = DO_RX :: q -> link_inv out0 (Link s acc false) ->
  link_inv out0 (Link (set_posted s q) acc true).
Proof.
  intros Hpo [Hok Hc Hout Hlk Htp Hrp Hrm Hsig Hwk]. simpl in *.
  rewrite Hpo in Htp, Hrp, Hrm, Hsig. rewrite count_cons in Htp, Hrp, Hrm. simpl in *.
  split; simpl; try done; try lia.
  - by inversion Hsig.
Qed.

Lemma inv_rx_end out0 s acc :
  link_inv out0 (Link s acc true) ->
  link_inv out0 (Link (set_dev s (uart0_rx_intr_enable (dev s))) acc false).
Proof using Type*.
  intros [Hok Hc Hout Hlk Htp Hrp Hrm Hsig Hwk]. simpl in *.
  destruct (set_int_ena (dev s) RX_INTS) as ([Hs2 [? Hc2] Hrx2] & He2).
  fold (uart0_rx_intr_enable (dev s)) in Hs2, Hc2, Hrx2, He2.
  change (SET_PERI_REG_MASK (dev s) (UART_INT_ENA 0) RX_INTS) with (uart0_rx_intr_enable (dev s)) in *.
  split; cbn [state accepted receiving set_dev set_uart dev tx heap posted intr_locked];
    try done; try lia.
  - by rewrite Hs2.
  - intros Hq. destruct (Hwk Hq) as [?|Hb]; [by left|right]. by rewrite He2, Z.lor_spec, Hb.
Qed.

Lemma outside_quiet s d :
  quiet (dev s) d -> int_ena d = int_ena (dev s) -> outside s (set_dev s d).
Proof. intros [? [? ?] ?] ?. by split. Qed.

(** The receive branch of the handler. *)
Definition irq_rx s : comm D X :=
  let s := set_dev s (uart0_rx_intr_disable (dev s)) in
  let s := set_dev s (WRITE_PERI_REG (dev s) (UART_INT_CLR UART0)
                        (Z.lor UART_RXFIFO_FULL_INT_CLR UART_RXFIFO_TOUT_INT_CLR)) in
  system_os_post s DO_RX.

(** Its transmit branch. *)
Definition irq_tx s : comm D X :=
  let s := set_dev s (uart0_tx_intr_disable (dev s)) in
  let s := set_dev s (WRITE_PERI_REG (dev s) (UART_INT_CLR UART0) UART_TXFIFO_EMPTY_INT_CLR) in
  transmitter_wake_task s.

Lemma irq_dev (d : D) m c :
  let d' := WRITE_PERI_REG (CLEAR_PERI_REG_MASK d (UART_INT_ENA 0) m) (UART_INT_CLR 0) c in
  tx_sent d' = tx_sent d /\ tx_count d' <= tx_count d /\ rx_stream d' = rx_stream d /\
  int_ena d' = Z.ldiff (int_ena d) m.
Proof using Type*.
  destruct (clear_int_ena d m) as ([Hs1 [_ Hc1] Hr1] & He1).
  destruct (write_int_clr (CLEAR_PERI_REG_MASK d (UART_INT_ENA 0) m) c) as ([Hs2 [_ Hc2] Hr2] & He2).
  cbv zeta. rewrite Hs2, Hr2, He2. repeat split; try done. lia.
Qed.

Lemma inv_irq_rx out0 s acc rx :
  c_true (Z.land (int_ena (dev s)) RX_INTS) = true ->
  link_inv out0 (Link s acc rx) -> link_inv out0 (Link (irq_rx s) acc rx).
Proof using Type*.
  intros Hst [Hok Hc Hout Hlk Htp Hrp Hrm Hsig Hwk]. simpl in *.
  assert (Z.land (int_ena (dev s)) RX_INTS <> 0) as Hst' by (intros E; by rewrite E in Hst).
  assert (count_of DO_RX (posted s) = 0%nat /\ rx = false) as [Hrx ->].
  { destruct rx; [|split; [|done]].
    - exfalso. apply Hst', Hrm. lia.
    - destruct (count_of DO_RX (posted s)); [done|]. exfalso. apply Hst', Hrm. lia. }
  destruct (irq_dev (dev s) RX_INTS (Z.lor UART_RXFIFO_FULL_INT_CLR UART_RXFIFO_TOUT_INT_CLR))
    as (Hs & Hct & _ & He).
  change (CLEAR_PERI_REG_MASK (dev s) (UART_INT_ENA 0) RX_INTS)
    with (uart0_rx_intr_disable (dev s)) in *.
  split; simpl; unfold UART0; rewrite ?Hs, ?He, ?count_app; try done; try lia.
  - rewrite Htp. change (count_of DO_TX [DO_RX]) with 0%nat. lia.
  - rewrite Hrx. change (count_of DO_RX [DO_RX]) with 1%nat. lia.
  - intros _. apply Z.bits_inj'; intros i Hi. rewrite Z.land_spec, Z.ldiff_spec, Z.bits_0.
    destruct (Z.testbit RX_INTS i); by rewrite ?andb_false_r.
  - apply Forall_app. split; [done|]. apply Forall_singleton. by left.
  - rewrite Z.ldiff_spec. change (Z.testbit RX_INTS 1) with false. by rewrite andb_true_r.
Qed.

Lemma inv_irq_tx out0 s acc rx :
  link_inv out0 (Link s acc rx) -> link_inv out0 (Link (irq_tx s) acc rx).
Proof using Type*.
  intros [Hok Hc Hout Hlk Htp Hrp Hrm Hsig Hwk]. simpl in *.
  destruct (irq_dev (dev s) UART_TXFIFO_EMPTY_INT_ENA UART_TXFIFO_EMPTY_INT_CLR)
    as (Hs & Hct & _ & He).
  change (CLEAR_PERI_REG_MASK (dev s) (UART_INT_ENA 0) UART_TXFIFO_EMPTY_INT_ENA)
    with (uart0_tx_intr_disable (dev s)) in *.
  unfold irq_tx. set (s1 := set_dev (set_dev s _) _).
  destruct (wake_fields s1) as (Etx & Eh & Epo & El & Er). injection Er as _ _ _ _ _ Ed _.
  split; cbn [state accepted receiving]; rewrite ?Etx, ?Eh, ?Epo, ?El, ?Ed; simpl;
    unfold UART0; rewrite ?Hs, ?Hlk, ?He, ?count_app, ?count_wake; try done; try lia.
  - by apply ring_pending.
  - rewrite Htp. by destruct (task_pending (tx s)).
  - intros Hpos. rewrite Nat.add_0_r in Hpos. apply Hrm in Hpos. apply Z.bits_inj'; intros i Hi.
    apply (f_equal (fun z => Z.testbit z i)) in Hpos.
    rewrite Z.land_spec, Z.ldiff_spec in *. rewrite Z.bits_0 in *.
    destruct (Z.testbit (int_ena (dev s)) i), (Z.testbit RX_INTS i); try done;
      by rewrite ?andb_false_r.
  - apply Forall_app. split; [done|]. destruct (task_pending (tx s)); [constructor|].
    apply Forall_singleton. by right.
Qed.

Lemma c_true_land_sub v e m : Z.land v e = v -> c_true (Z.land v m) = true -> c_true (Z.land e m) = true.
Proof.
  unfold c_true. rewrite !negb_true_iff, !Z.eqb_neq. intros Hv Hn E. apply Hn.
  by rewrite <- Hv, <- Z.land_assoc, E, Z.land_0_r.
Qed.

Lemma inv_irq out0 s acc rx :
  link_inv out0 (Link s acc rx) -> link_inv out0 (Link (uart0_rx_intr_handler s) acc rx).
Proof using Type*.
  intros Hinv. unfold uart0_rx_intr_handler.
  pose proof (read_int_st (dev s)) as Hst. unfold UART0 at 1.
  destruct (READ_PERI_REG (dev s) (UART_INT_ST 0)) as [v d]. destruct Hst as (Hq & He & Hv).
  assert (link_inv out0 (Link (set_dev s d) acc rx)) as Hinv1
    by (eapply inv_outside; [by apply outside_quiet|done]).
  change (Z.lor UART_RXFIFO_FULL_INT_ST UART_RXFIFO_TOUT_INT_ST) with RX_INTS.
  destruct (c_true (Z.land v RX_INTS)) eqn:Erx, (c_true (Z.land v UART_TXFIFO_EMPTY_INT_ST));
    cbv zeta; fold (irq_rx (set_dev s d)); fold (irq_tx (set_dev s d));
    fold (irq_tx (irq_rx (set_dev s d))); try apply inv_irq_tx; try done;
    (apply inv_irq_rx; [|done]; cbn [dev set_dev set_uart]; rewrite He; by eapply c_true_land_sub).
Qed.

Lemma step_inv out0 ev l l' : step ev l l' -> match ev with Send _ _ _ => no_wrapped_full (tx (state l)) | _ => True end ->
  link_inv out0 l -> link_inv out0 l'.
Proof using Type*.
  intros Hs Hev Hinv. destruct Hs; [by eapply inv_send|by eapply inv_task|by eapply inv_rx_begin|
    by apply inv_rx_end|by apply inv_irq|by eapply inv_outside].
Qed.

Lemma run_inv l0 tr l : initial l0 -> run l0 tr l -> orderly tr -> link_inv (tx_sent (dev (state l0))) l.
Proof using Type*.
  intros Hi. induction 1 as [|tr l ev l' Hr IH Hs]; intros Ho; [by apply initial_inv|].
  apply Forall_app in Ho as [Ho [Hev _]%Forall_cons]. eapply step_inv; [exact Hs|exact Hev|by apply IH].
Qed.

(** ** Theorems *)

(** C2: in-order delivery.  However sends, interrupts, task runs and the
    hardware interleave, as long as no message is sent while the ring is full
    and its write index wrapped, the bytes written to the FIFO since the
    start, followed by those still queued, are exactly the COBS frames of the
    admitted messages, in the order they were admitted. *)
Theorem link_in_order : forall l0 tr l,
  initial l0 -> run l0 tr l -> orderly tr ->
  tx_sent (dev (state l)) ++ pending (tx (state l)) (heap (state l)) =
  tx_sent (dev (state l0)) ++ concat (map (fun m => Encoder.cobs_frame (message m.1 m.2)) (accepted l)).
Proof using Type*. intros l0 tr l Hi Hr Ho. apply (inv_out _ _ (run_inv l0 tr l Hi Hr Ho)). Qed.

(** C38: no lost wakeup.  While data is queued, either the transmit task is
    posted, once, or the interrupt that will post it is enabled, in every run
    that sends nothing while the ring is full and its write index wrapped. *)
Theorem link_no_lost_wakeup : forall l0 tr l,
  initial l0 -> run l0 tr l -> orderly tr -> queued_bufs (tx (state l)) <> 0%nat ->
  count_of DO_TX (posted (state l)) = 1%nat \/ Z.testbit (int_ena (dev (state l))) 1 = true.
Proof using Type*.
  intros l0 tr l Hi Hr Ho Hq. pose proof (run_inv l0 tr l Hi Hr Ho) as Hinv.
  rewrite (inv_tx_posted _ _ Hinv). destruct (inv_wakeup _ _ Hinv Hq) as [->|?]; auto.
Qed.

(** The event queue never overflows: [comm_queue] has three entries and at
    most one [DO_RX] and one [DO_TX] are posted; a [DO_RX] is posted only
    while the receive interrupts are masked. *)
Theorem link_queue_bound : forall l0 tr l,
  initial l0 -> run l0 tr l -> orderly tr ->
  (length (posted (state l)) <= 2)%nat /\
  (In DO_RX (posted (state l)) -> Z.land (int_ena (dev (state l))) RX_INTS = 0).
Proof using Type*.
  intros l0 tr l Hi Hr Ho. pose proof (run_inv l0 tr l Hi Hr Ho) as Hinv.
  pose proof (inv_rx_posted _ _ Hinv) as Hrx. split.
  - rewrite (posted_length _ (inv_signals _ _ Hinv)), (inv_tx_posted _ _ Hinv).
    destruct (task_pending _); lia.
  - intros Hin. apply (inv_rx_masked _ _ Hinv). apply list_elem_of_In, list_elem_of_split in Hin
      as (a & b & ->). rewrite count_app, count_cons. simpl. lia.
Qed.

(** C39: no operation of the transmit side faults behind an orderly run, and
    interrupts are never left locked and the FIFO is never overrun; a message
    sent while the ring is full and its write index wrapped is excepted. *)
Theorem link_no_fault : forall l0 tr l,
  initial l0 -> run l0 tr l -> orderly tr ->
  (exists s', transmitter_send (state l) = Ok s') /\
  (forall type data prio, no_wrapped_full (tx (state l)) -> is_byte type -> bytes data ->
     zlen data < 2 ^ 31 - 3 -> exists s', comm_send (state l) type data prio = Ok s') /\
  intr_locked (state l) = false /\ tx_count (dev (state l)) <= 126.
Proof using Type*.
  intros l0 tr l Hi Hr Ho. destruct (run_inv l0 tr l Hi Hr Ho) as [Hok Hc _ Hl _ _ _ _ _].
  split; [|split; [|by split]].
  - destruct (transmitter_send_ok _ Hok Hc) as (s' & E & _). eauto.
  - intros type data prio Hnw Ht Hb Hlen.
    destruct (push_ok (state l) (message type data) prio Hok Hnw) as (s' & E & _);
      [by apply sendable_message|eauto].
Qed.
End link_steps.

(** A run: two sends, the transmit task, and a receive interrupt. *)
Definition get {A} (r : result A) (d : A) : A := match r with Ok a => a | Fault _ => d end.
Definition run0 : comm Sim.dev unit := SimOs.booted [1; 0].
Definition run1 := get (comm_send run0 5 [1; 0] COMM_TX_PRIO_LOW) run0.
Definition run2 := get (comm_send run1 6 [7] COMM_TX_PRIO_HIGH) run1.
Definition run3 := get (transmitter_send (set_posted run2 [])) run2.
Definition run4 := get (comm_send run3 7 [] COMM_TX_PRIO_MEDIUM) run3.

Lemma run_initial : initial (Link run0 [] false).
Proof. repeat split; try (vm_compute; done). all: by apply (ring_check_ok (tx run0) (heap run0)). Qed.

Definition ms : list (Z * list Z) := [(5, [1; 0]); (6, [7]); (7, [])].
Definition run_trace : list (event * link Sim.dev unit) :=
  [(Send 5 [1; 0] COMM_TX_PRIO_LOW, Link run0 [] false); (Send 6 [7] COMM_TX_PRIO_HIGH, Link run1 (take 1 ms) false);
   (Task, Link run2 (take 2 ms) false); (Send 7 [] COMM_TX_PRIO_MEDIUM, Link run3 (take 2 ms) false)].
Definition run_end : link Sim.dev unit := Link run4 ms false.

Lemma run_runs : run (Link run0 [] false) run_trace run_end.
Proof.
  pose proof (step_send run0 [] false 5 [1; 0] COMM_TX_PRIO_LOW run1) as S1.
  pose proof (step_send run1 (take 1 ms) false 6 [7] COMM_TX_PRIO_HIGH run2) as S2.
  pose proof (step_task run2 (take 2 ms) [] run3) as S3.
  pose proof (step_send run3 (take 2 ms) false 7 [] COMM_TX_PRIO_MEDIUM run4) as S4.
  apply (run_step _ (take 3 run_trace)); [apply (run_step _ (take 2 run_trace)); [apply (run_step _ (take 1 run_trace)); [apply (run_step _ []); [apply run_nil|]|]|]|].
  - apply S1; [split; lia|repeat constructor; lia|vm_compute; done|vm_compute; reflexivity].
  - apply S2; [split; lia|repeat constructor; lia|vm_compute; done|vm_compute; reflexivity].
  - apply S3; vm_compute; reflexivity.
  - apply S4; [split; lia|constructor|vm_compute; done|vm_compute; reflexivity].
Qed.
Lemma run_orderly : orderly run_trace.
Proof. repeat (apply List.Forall_cons; [try exact I; left; vm_compute; discriminate|]). constructor. Qed.

Lemma link_in_order_witness :
  (initial (Link run0 [] false) /\ run (Link run0 [] false) run_trace run_end /\ orderly run_trace) /\
  zlen (tx_sent (dev (state run_end))) = 13 /\ zlen (pending (tx run4) (heap run4)) = 5 /\
  tx_sent (dev (state run_end)) ++ pending (tx (state run_end)) (heap (state run_end)) =
  tx_sent (dev run0) ++ concat (map (fun m => Encoder.cobs_frame (message m.1 m.2)) (accepted run_end)).
Proof.
  split; [split; [exact run_initial|split; [exact run_runs|exact run_orderly]]|].
  split; [vm_compute; reflexivity|]. split; [vm_compute; reflexivity|].
  apply (link_in_order _ run_trace run_end run_initial run_runs run_orderly).
Defined.

Lemma link_no_lost_wakeup_witness :
  (initial (Link run0 [] false) /\ run (Link run0 [] false) run_trace run_end /\ orderly run_trace /\
   queued_bufs (tx (state run_end)) <> 0%nat) /\
  (count_of DO_TX (posted (state run_end)) = 1%nat \/
   Z.testbit (int_ena (dev (state run_end))) 1 = true).
Proof.
  assert (queued_bufs (tx (state run_end)) <> 0%nat) as H by (vm_compute; done).
  split; [split; [exact run_initial|split; [exact run_runs|split; [exact run_orderly|exact H]]]|].
  apply (link_no_lost_wakeup _ run_trace run_end run_initial run_runs run_orderly H).
Defined.

Lemma link_queue_bound_witness :
  (initial (Link run0 [] false) /\ run (Link run0 [] false) run_trace run_end /\ orderly run_trace) /\
  (length (posted (state run_end)) <= 2)%nat /\
  (In DO_RX (posted (state run_end)) -> Z.land (int_ena (dev (state run_end))) RX_INTS = 0).
Proof.
  split; [split; [exact run_initial|split; [exact run_runs|exact run_orderly]]|].
  apply (link_queue_bound _ run_trace run_end run_initial run_runs run_orderly).
Defined.

Lemma link_no_fault_witness :
  (initial (Link run0 [] false) /\ run (Link run0 [] false) run_trace run_end /\ orderly run_trace) /\
  (exists s', transmitter_send (state run_end) = Ok s') /\
  (forall type data prio, no_wrapped_full (tx (state run_end)) -> is_byte type -> bytes data ->
     zlen data < 2 ^ 31 - 3 -> exists s', comm_send (state run_end) type data prio = Ok s') /\
  intr_locked (state run_end) = false /\ tx_count (dev (state run_end)) <= 126.
Proof.
  split; [split; [exact run_initial|split; [exact run_runs|exact run_orderly]]|].
  apply (link_no_fault _ run_trace run_end run_initial run_runs run_orderly).
Defined.
