(* ===== verification/CommRx.v ===== *)
(** * The receive side of [comm.c]: what the decoder and its checksum hand to
    the callback, and the loop that empties the receive FIFO. *)
From S2P Require Import Prelude Crc16 Cobs Uart Comm CommTx.

Section rx.
Context {D X : Type} `{SocLaws D, Os}.
Implicit Type s : comm D X.
Abbreviation callback := (comm D X -> Z -> list Z -> Z -> result (comm D X)).

(** ** Messages *)
Lemma message_cons type data : message type data =
  (type :: data) ++ [Z.land (crc16_block (type :: data)) 0xff;
                     Z.land (Z.shiftr (crc16_block (type :: data)) 8) 0xff].
Proof. done. Qed.

Lemma zlen_message type data : zlen (message type data) = zlen data + 3.
Proof. unfold message. zl. lia. Qed.

(** The two checksum bytes are read back as the checksum. *)
Lemma read_crc c : is_u16 c ->
  Z.lor (Z.land c 0xff) (Z.shiftl (Z.land (Z.shiftr c 8) 0xff) 8) = c.
Proof.
  intros Hc. change 0xff with 255.
  assert (Z.land (Z.shiftr c 8) 255 = Z.shiftr c 8) as ->.
  { rewrite land_255. apply Z.mod_small. apply (shiftr_range c 8 8); [lia..|exact Hc]. }
  apply Z.bits_inj'; intros i Hi. change 255 with (Z.ones 8).
  rewrite Z.lor_spec, Z.land_spec, Z.shiftl_spec by lia.
  destruct (Z.lt_ge_cases i 8).
  - rewrite (Z.testbit_neg_r _ (i - 8)), Z.ones_spec_low by lia. by rewrite andb_true_r, orb_false_r.
  - rewrite Z.ones_spec_high, Z.shiftr_spec by lia. rewrite andb_false_r. cbn [orb]. f_equal. lia.
Qed.

(** The two bytes of a word. *)
Lemma lor_low lo hi : is_byte lo -> Z.land (Z.lor lo (Z.shiftl hi 8)) 0xff = lo.
Proof.
  intros Hlo. change 0xff with (Z.ones 8). apply Z.bits_inj'; intros i Hi.
  rewrite Z.land_spec, Z.lor_spec, Z.shiftl_spec by lia. destruct (Z.lt_ge_cases i 8).
  - rewrite (Z.testbit_neg_r _ (i - 8)), Z.ones_spec_low by lia. by rewrite andb_true_r, orb_false_r.
  - rewrite Z.ones_spec_high, (testbit_high lo 8 i) by (first [exact Hlo|lia]). by rewrite andb_false_r.
Qed.

Lemma lor_high lo hi : is_byte lo -> is_byte hi ->
  Z.land (Z.shiftr (Z.lor lo (Z.shiftl hi 8)) 8) 0xff = hi.
Proof.
  intros Hlo Hhi. rewrite Z.shiftr_lor, Z.shiftr_shiftl_l by lia.
  assert (Z.shiftr lo 8 = 0) as -> by (rewrite Z.shiftr_div_pow2 by lia; apply Z.div_small, Hlo).
  change 0xff with 255. rewrite Z.lor_0_l, land_255, Z.sub_diag, Z.shiftl_0_r. by apply Z.mod_small.
Qed.

Lemma mread_app l x k : mread (l ++ x :: k) (zlen l) = Ok x.
Proof.
  unfold mread, zlen. rewrite (proj2 (Z.leb_le _ _)), Nat2Z.id by lia.
  by rewrite lookup_app_r, Nat.sub_diag by lia.
Qed.

(** What the check does with [body] and the two bytes behind it. *)
Lemma dispatch_body (cb : option callback) s type data lo hi junk :
  decoder_check_and_dispatch_cb cb s ((type :: data) ++ [lo; hi] ++ junk) (zlen data + 3) =
  if crc16_block (type :: data) =? Z.lor lo (Z.shiftl hi 8) then
    match cb with
    | Some cb => cb s type (data ++ [lo; hi] ++ junk) (zlen data)
    | None => Ok s
    end
  else Ok (set_errors s (proto_errors s) (u32 (crc_errors s + 1))).
Proof.
  unfold decoder_check_and_dispatch_cb. pose proof (zlen_nonneg data).
  rewrite (proj2 (Z.ltb_ge _ _)) by lia.
  replace (zlen data + 3 - 2) with (zlen (type :: data)) by (zl; lia).
  rewrite mslice_prefix. cbn [rbind].
  change ([lo; hi] ++ junk) with (lo :: hi :: junk).
  rewrite (mread_app (type :: data)). cbn [rbind].
  replace (zlen data + 3 - 1) with (zlen ((type :: data) ++ [lo])) by (zl; lia).
  replace ((type :: data) ++ lo :: hi :: junk) with (((type :: data) ++ [lo]) ++ hi :: junk)
    by by app_norm.
  rewrite mread_app. cbn [rbind]. destruct (_ =? _); cbn [negb]; [|done].
  destruct cb; [|done]. cbn [app mread Z.leb]. simpl.
  replace (zlen data + 3 - 3) with (zlen data) by lia. by app_norm.
Qed.

Lemma dispatch_message (cb : option callback) s type data junk :
  is_byte type -> bytes data ->
  decoder_check_and_dispatch_cb cb s (message type data ++ junk) (zlen data + 3) =
  match cb with
  | Some cb => cb s type (data ++ drop (S (length data)) (message type data) ++ junk) (zlen data)
  | None => Ok s
  end.
Proof.
  intros Ht Hd. rewrite message_cons, <- app_assoc, dispatch_body, read_crc, Z.eqb_refl.
  - destruct cb; [|done]. repeat f_equal.
    change (S (length data)) with (length (type :: data)). by rewrite drop_app_length.
  - apply crc16_block_range. by apply bytes_cons.
Qed.

(** ** Streams of messages *)

(** The callback run on the messages in order. *)
Fixpoint deliver_all (cb : callback) s (msgs : list (Z * list Z)) : result (comm D X) :=
  match msgs with
  | [] => Ok s
  | (type, data) :: msgs => let! s := cb s type data (zlen data) in deliver_all cb s msgs
  end.

(** A message whose frame the receive buffer can take. *)
Definition fits (sz : Z) (m : Z * list Z) : Prop :=
  is_byte m.1 /\ bytes m.2 /\ zlen m.2 + 3 <= sz.

(** The callback looks at its message only, and neither at the decoder nor
    at the UART. *)
Record local (cb : callback) : Prop := {
  local_data : forall s type data junk, cb s type (data ++ junk) (zlen data) = cb s type data (zlen data);
  local_cobs : forall s c type data n,
    cb (set_cobs s c) type data n = (let! s := cb s type data n in Ok (set_cobs s c));
  local_dev : forall s d type data n,
    cb (set_dev s d) type data n = (let! s := cb s type data n in Ok (set_dev s d))
}.

Lemma bytes_message type data : is_byte type -> bytes data -> bytes (message type data).
Proof.
  intros Ht Hb. unfold message. change 0xff with 255. rewrite !land_255.
  apply bytes_cons. split; [done|]. apply bytes_app. split; [done|].
  repeat (apply bytes_cons; split); [apply Z.mod_pos_bound; lia..|constructor].
Qed.

Lemma put_wire (cb : callback) msgs : local cb -> forall d s,
  idle d -> Forall (fits (buf_size d)) msgs ->
  exists d', idle d' /\ buf_size d' = buf_size d /\
    cobs_decoder_put (decoder_check_and_dispatch_cb (Some cb)) d s (wire msgs) =
    (let! s := deliver_all cb s msgs in Ok (d', s)).
Proof.
  intros Hcb. induction msgs as [|[type data] msgs IH]; intros d s Hd Hm; [by exists d|].
  inversion Hm as [|? ? (Ht & Hb & Hl) Hm']; subst. simpl in Ht, Hb, Hl.
  destruct (put_cobs_frame (decoder_check_and_dispatch_cb (Some cb)) d s (message type data))
    as (d1 & junk & E & Hi & Hbuf & Hj); [done|by apply bytes_message|rewrite zlen_message; lia|].
  assert (buf_size d1 = buf_size d) as Hsz.
  { destruct Hi as (_ & -> & _), Hd as (_ & -> & _). rewrite Hbuf. zl. lia. }
  change (wire ((type, data) :: msgs)) with (Encoder.cobs_frame (message type data) ++ wire msgs).
  rewrite put_app, E. cbn [app]. rewrite zlen_message, dispatch_message, (local_data _ Hcb) by done.
  cbn [deliver_all]. destruct (cb s type data (zlen data)) as [s1|f]; cbn [rbind].
  - rewrite <- Hsz in Hm'. destruct (IH d1 s1 Hi Hm') as (d' & Hi' & Hs' & E').
    exists d'. split; [done|]. split; [congruence|exact E'].
  - by exists d1.
Qed.

(** ** The receive loop *)
Lemma read_fifo_n_ok n : forall d, (n <= length (rx_stream d))%nat ->
  exists d', read_fifo_n n d = (take n (rx_stream d), d') /\
    rx_stream d' = drop n (rx_stream d) /\ int_ena d' = int_ena d /\
    tx_sent d' = tx_sent d /\ tx_count d' <= tx_count d.
Proof using Type*.
  induction n as [|n IH]; intros d Hn; [by exists d|].
  destruct (rx_stream d) as [|b l] eqn:E; [simpl in Hn; lia|]. cbn [read_fifo_n].
  pose proof (read_fifo d b l E) as Hr. unfold UART0.
  destruct (READ_PERI_REG d (UART_FIFO 0)) as [v d1]. destruct Hr as (Hv & Hs & He & Ht & Hc).
  destruct (IH d1) as (d' & E' & Hs' & He' & Ht' & Hc'); [rewrite Hs; simpl in Hn; lia|].
  exists d'. rewrite E', Hv, Hs. split; [done|]. rewrite Hs', Hs. repeat split; congruence || lia.
Qed.
End rx.

(** A change of the world the callback commutes with. *)
Lemma put_commutes {W} (cb : W -> list Z -> Z -> result W) (f : W -> W) :
  (forall w b n, cb (f w) b n = (let! w := cb w b n in Ok (f w))) ->
  forall l d w, cobs_decoder_put cb d (f w) l =
    (let! (d, w) := cobs_decoder_put cb d w l in Ok (d, f w)).
Proof.
  intros Hf. induction l as [|c l IH]; intros d w; [done|]. cbn [cobs_decoder_put].
  assert (cobs_put_byte cb d (f w) c = (let! (d, w) := cobs_put_byte cb d w c in Ok (d, f w))) as ->.
  { unfold cobs_put_byte. destruct (state d); [by case_match|]. repeat case_match; try done.
    - unfold store. by destruct (mwrite _ _ _).
    - unfold store. by destruct (mwrite _ _ _).
    - rewrite Hf. by destruct (cb w _ _). }
  destruct (cobs_put_byte cb d w c) as [[d1 w1]|]; cbn [rbind]; [apply IH|done].
Qed.

Section do_rx.
Context {D X : Type} `{SocLaws D, Os}.
Implicit Type s : comm D X.
Context (cb : comm D X -> Z -> list Z -> Z -> result (comm D X)) (cb_local : local cb).

Lemma dispatch_commutes (f : comm D X -> comm D X) :
  (forall s t m n, cb (f s) t m n = (let! s := cb s t m n in Ok (f s))) ->
  (forall s, proto_errors (f s) = proto_errors s /\ crc_errors (f s) = crc_errors s) ->
  (forall s p c, set_errors (f s) p c = f (set_errors s p c)) ->
  forall s m n, decoder_check_and_dispatch_cb (Some cb) (f s) m n =
    (let! s := decoder_check_and_dispatch_cb (Some cb) s m n in Ok (f s)).
Proof.
  intros Hcb Herr Hset s m n. unfold decoder_check_and_dispatch_cb.
  destruct (Herr s) as [-> ->]. rewrite !Hset. case_match; [done|].
  destruct (mslice m 0 (n - 2)); [|done]. destruct (mread m (n - 2)); [|done].
  destruct (mread m (n - 1)); [|done]. cbn [rbind]. case_match; [done|].
  destruct (mread m 0); [|done]. cbn [rbind]. apply Hcb.
Qed.

Abbreviation feed := (decoder_put_data (Some cb)).

Lemma feed_dev s d l : feed (set_dev s d) l = (let! s := feed s l in Ok (set_dev s d)).
Proof using cb_local.
  unfold decoder_put_data. change (cobs (set_dev s d)) with (cobs s).
  rewrite (put_commutes _ (fun s => set_dev s d)).
  - by destruct (cobs_decoder_put _ _ _ _) as [[? ?]|].
  - apply (dispatch_commutes (fun s => set_dev s d)); try done. intros. by apply local_dev.
Qed.

Lemma feed_app s l k : feed s (l ++ k) = (let! s := feed s l in feed s k).
Proof using cb_local.
  unfold decoder_put_data. rewrite put_app.
  destruct (cobs_decoder_put _ _ _ l) as [[d1 s1]|]; [|done]. cbn [rbind].
  change (cobs (set_cobs s1 d1)) with d1.
  rewrite (put_commutes _ (fun s => set_cobs s d1)).
  - by destruct (cobs_decoder_put _ _ _ k) as [[? ?]|].
  - apply (dispatch_commutes (fun s => set_cobs s d1)); try done. intros. by apply local_cobs.
Qed.

(** The loop stops, and has fed a prefix of the stream to the decoder. *)
Lemma do_rx_loop_ok fuel : forall s, zlen (rx_stream (dev s)) < Z.of_nat fuel ->
  exists l rest d', rx_stream (dev s) = l ++ rest /\ rx_stream d' = rest /\
    int_ena d' = int_ena (dev s) /\ tx_sent d' = tx_sent (dev s) /\
    do_rx_loop (Some cb) fuel s = (let! s := feed s l in Ok (set_dev s d')).
Proof using Type*.
  induction fuel as [|fuel IH]; intros s Hf; [zlia|]. cbn [do_rx_loop].
  pose proof (read_status (dev s)) as Hst. unfold UART0.
  destruct (READ_PERI_REG (dev s) (UART_STATUS 0)) as [v d].
  destruct Hst as ([Hs1 _ Hr1] & He1 & _ & Hn).
  set (n := Z.land _ UART_RXFIFO_CNT) in *. destruct (Z.eqb_spec n 0) as [Hz|Hz].
  { exists [], (rx_stream (dev s)), d. repeat split; try done. }
  destruct (read_fifo_n_ok (Z.to_nat (Z.min n 64)) d) as (d1 & E1 & Hr2 & He2 & Hs2 & _);
    [unfold zlen in Hn; lia|].
  rewrite E1, feed_dev. set (l1 := take _ (rx_stream d)) in *.
  assert (rx_stream (dev s) = l1 ++ rx_stream d1) as Hsplit by (rewrite Hr2, <- Hr1; symmetry; apply take_drop).
  assert (0 < zlen l1) as Hl1.
  { unfold l1, zlen in *. rewrite length_take. lia. }
  destruct (feed s l1) as [s1|f] eqn:E2; cbn [rbind].
  - destruct (IH (set_dev s1 d1)) as (l & rest & d' & Hl & Hr3 & He3 & Hs3 & E3).
    { cbn [dev set_dev set_uart]. rewrite Hsplit in Hf. zl. lia. }
    exists (l1 ++ l), rest, d'. cbn [dev set_dev set_uart] in *.
    split; [by rewrite Hsplit, Hl, app_assoc|]. split; [done|]. split; [congruence|].
    split; [congruence|]. change (set_dev (set_dev s1 d) d1) with (set_dev s1 d1).
    rewrite E3, feed_app, E2, feed_dev. cbn [rbind]. by destruct (feed s1 l).
  - exists l1, (rx_stream d1), d1. rewrite E2. repeat split; try done; congruence.
Qed.

(** [do_rx] terminates: the stream's length bounds its rounds.  It hands the
    decoder a prefix of what was received, byte for byte and in order, leaves
    the rest in the FIFO, sends nothing by itself, and re-enables the receive
    interrupts. *)
Theorem do_rx_feeds_stream : forall fuel s,
  zlen (rx_stream (dev s)) < Z.of_nat fuel ->
  exists l rest d', rx_stream (dev s) = l ++ rest /\ rx_stream d' = rest /\
    int_ena d' = Z.lor (int_ena (dev s)) (Z.lor UART_RXFIFO_FULL_INT_ENA UART_RXFIFO_TOUT_INT_ENA) /\
    tx_sent d' = tx_sent (dev s) /\
    do_rx (Some cb) fuel s = (let! s := decoder_put_data (Some cb) s l in Ok (set_dev s d')).
Proof using Type*.
  intros fuel s Hf. destruct (do_rx_loop_ok fuel s Hf) as (l & rest & d & Hl & Hr & He & Hs & E).
  destruct (set_int_ena d (Z.lor UART_RXFIFO_FULL_INT_ENA UART_RXFIFO_TOUT_INT_ENA))
    as ([Hs2 _ Hr2] & He2).
  fold (uart0_rx_intr_enable d) in Hs2, Hr2, He2.
  exists l, rest, (uart0_rx_intr_enable d). unfold do_rx. rewrite E.
  repeat split; try congruence. by destruct (decoder_put_data (Some cb) s l).
Qed.
End do_rx.

(** Every branch of the receive check.  A frame of fewer than three bytes
    counts as a protocol error; one whose last two bytes are not the checksum
    of the others counts as a checksum error; in both cases the callback is
    not called.  Any other frame is a message and goes to the callback. *)
Theorem decoder_check_and_dispatch_spec : forall {D X : Type}
  (cb : comm D X -> Z -> list Z -> Z -> result (comm D X)) s data len,
  0 <= len <= zlen data -> bytes data ->
  let body := take (Z.to_nat (len - 2)) data in
  decoder_check_and_dispatch_cb (Some cb) s data len =
  if len <? 3 then Ok (set_errors s (u32 (proto_errors s + 1)) (crc_errors s))
  else if bool_decide (take (Z.to_nat len) data =
                       message (hd 0 body) (tl body))
  then cb s (hd 0 data) (tl data) (len - 3)
  else Ok (set_errors s (proto_errors s) (u32 (crc_errors s + 1))).
Proof.
  intros D X cb s data len Hlen Hb body. subst body.
  destruct (Z.ltb_spec len 3) as [Hlt|Hge];
    [unfold decoder_check_and_dispatch_cb; by rewrite (proj2 (Z.ltb_lt _ _))|].
  destruct data as [|type rest]; [zlia|].
  set (k := Z.to_nat (len - 3)).
  assert (k + 2 <= length rest)%nat as Hk by (unfold k, zlen in *; simpl in Hlen; lia).
  destruct (drop k rest) as [|lo [|hi junk]] eqn:E;
    [apply (f_equal length) in E; rewrite length_drop in E; simpl in E; lia..|].
  rewrite <- (take_drop k rest), E in Hb |- *. set (d := take k rest) in *.
  assert (length d = k) as Hd by (unfold d; rewrite length_take; lia).
  assert (len = zlen d + 3) as Elen by (unfold zlen; rewrite Hd; unfold k; lia).
  clearbody d. clear E Hge Hlen Hk Hd k. subst len. pose proof (zlen_nonneg d).
  assert (take (Z.to_nat (zlen d + 3 - 2)) (type :: d ++ lo :: hi :: junk) = type :: d) as ->.
  { replace (Z.to_nat (zlen d + 3 - 2)) with (length (type :: d)) by (unfold zlen; simpl; lia).
    by apply (take_app_length (type :: d)). }
  assert (take (Z.to_nat (zlen d + 3)) (type :: d ++ lo :: hi :: junk) = (type :: d) ++ [lo; hi]) as ->.
  { replace (Z.to_nat (zlen d + 3)) with (length ((type :: d) ++ [lo; hi]))
      by (unfold zlen; rewrite length_app; simpl; lia).
    rewrite <- (take_app_length ((type :: d) ++ [lo; hi]) junk) at 2. f_equal. by app_norm. }
  change (type :: d ++ lo :: hi :: junk) with ((type :: d) ++ [lo; hi] ++ junk).
  apply (bytes_app (type :: d)) in Hb as [Hbody [Hlo [Hhi _]%bytes_cons]%bytes_cons].
  rewrite dispatch_body. cbn [hd tl]. rewrite message_cons.
  pose proof (crc16_block_range _ Hbody) as Hc.
  assert ((crc16_block (type :: d) =? Z.lor lo (Z.shiftl hi 8)) =
    bool_decide ((type :: d) ++ [lo; hi] =
      (type :: d) ++ [Z.land (crc16_block (type :: d)) 0xff;
                      Z.land (Z.shiftr (crc16_block (type :: d)) 8) 0xff])) as ->.
  { apply Bool.eq_iff_eq_true. rewrite bool_decide_eq_true, Z.eqb_eq. split.
    - intros ->. f_equal. by rewrite lor_low, lor_high by done.
    - intros E%app_inv_head. injection E as -> ->. by rewrite read_crc. }
  cbn [app hd tl]. by replace (zlen d + 3 - 3) with (zlen d) by lia.
Qed.

(** A message damaged by a burst of up to 16 bits in type or data is never
    delivered: it counts as a checksum error. *)
Theorem rx_rejects_burst : forall {D X : Type}
  (cb : comm D X -> Z -> list Z -> Z -> result (comm D X)) s p q x y x' y',
  bytes (p ++ q) -> bytes [x; y; x'; y'] -> ~ (x = x' /\ y = y') ->
  let sent := p ++ x :: y :: q in
  let received := (p ++ x' :: y' :: q) ++ drop (length sent) (message (hd 0 sent) (tl sent)) in
  decoder_check_and_dispatch_cb (Some cb) s received (zlen received) =
  Ok (set_errors s (proto_errors s) (u32 (crc_errors s + 1))).
Proof.
  intros D X cb s p q x y x' y' Hpq H Hne sent received.
  assert (sent = hd 0 sent :: tl sent) as Es by (unfold sent; by destruct p).
  assert (bytes sent) as Hb by (unfold sent; rewrite !bytes_app, !bytes_cons in *; tauto).
  set (c := crc16_block sent).
  assert (received = (p ++ x' :: y' :: q) ++ [Z.land c 0xff; Z.land (Z.shiftr c 8) 0xff]) as ->.
  { unfold received. rewrite message_cons, <- Es. fold c. by rewrite drop_app_length. }
  destruct (p ++ x' :: y' :: q) as [|t d] eqn:Er; [by destruct p|].
  rewrite <- (app_nil_r [_; _]).
  replace (zlen ((t :: d) ++ [Z.land c 255; Z.land (Z.shiftr c 8) 255] ++ [])) with (zlen d + 3)
    by (zl; lia).
  rewrite dispatch_body, read_crc by (by apply crc16_block_range).
  rewrite <- Er. rewrite (proj2 (Z.eqb_neq _ _)); [done|].
  intros E. by apply (crc_burst p q x y x' y' Hpq H Hne).
Qed.

Lemma rx_rejects_burst_witness :
  (bytes ([5; 1] ++ [9]) /\ bytes [2; 3; 2; 7] /\ ~ (2 = 2 /\ 3 = 7)) /\
  let sent := [5; 1] ++ 2 :: 3 :: [9] in
  let received := ([5; 1] ++ 2 :: 7 :: [9]) ++ drop (length sent) (message (hd 0 sent) (tl sent)) in
  decoder_check_and_dispatch_cb (Some (fun s _ _ _ => Ok s)) (SimOs.booted []) received (zlen received) =
  Ok (set_errors (SimOs.booted []) 0 1).
Proof.
  assert (bytes ([5; 1] ++ [9])) as H1 by (repeat constructor; lia).
  assert (bytes [2; 3; 2; 7]) as H2 by (repeat constructor; lia).
  assert (~ (2 = 2 /\ 3 = 7)) as H3 by lia.
  split; [split; [exact H1|split; [exact H2|exact H3]]|].
  apply (rx_rejects_burst (fun s _ _ _ => Ok s) (SimOs.booted []) [5; 1] [9] 2 3 2 7 H1 H2 H3).
Defined.

(** A callback that keeps a log of the messages it is given. *)
Definition log_message (s : comm Sim.dev (list (Z * list Z))) (type : Z) (data : list Z) (n : Z)
  : result (comm Sim.dev (list (Z * list Z))) :=
  Ok (set_ext s (ext s ++ [(type, take (Z.to_nat n) data)])).

Lemma log_message_local : local log_message.
Proof.
  split; try done. intros s type data junk. unfold log_message, zlen.
  by rewrite Nat2Z.id, take_app_length, (firstn_all data).
Qed.

(** An idle receiver whose host has sent [l]. *)
Definition receiver (l : list Z) : comm Sim.dev (list (Z * list Z)) :=
  Comm (tx (SimOs.booted [])) (idle_decoder 16) 0 0 0 empty [] false
    (UartDev 115200 3 0 0 1 1) (Sim.fresh l) [].

Lemma do_rx_feeds_stream_witness :
  let s := receiver (wire [(5, [1; 0; 2])]) in
  zlen (rx_stream (dev s)) < Z.of_nat 20 /\
  exists l rest d', rx_stream (dev s) = l ++ rest /\ rx_stream d' = rest /\
    int_ena d' = Z.lor (int_ena (dev s)) (Z.lor UART_RXFIFO_FULL_INT_ENA UART_RXFIFO_TOUT_INT_ENA) /\
    tx_sent d' = tx_sent (dev s) /\
    do_rx (Some log_message) 20 s =
    (let! s := decoder_put_data (Some log_message) s l in Ok (set_dev s d')).
Proof.
  intros s. assert (zlen (rx_stream (dev s)) < Z.of_nat 20) as H by (vm_compute; done).
  split; [exact H|]. apply (do_rx_feeds_stream log_message log_message_local 20 s H).
Defined.

Lemma decoder_check_and_dispatch_spec_witness :
  let data := message 5 [1; 0; 2] ++ [0xEE] in
  (0 <= 6 <= zlen data /\ bytes data) /\
  let body := take (Z.to_nat (6 - 2)) data in
  decoder_check_and_dispatch_cb (Some log_message) (receiver []) data 6 =
  if 6 <? 3 then Ok (set_errors (receiver []) 1 0)
  else if bool_decide (take (Z.to_nat 6) data = message (hd 0 body) (tl body))
  then log_message (receiver []) (hd 0 data) (tl data) (6 - 3)
  else Ok (set_errors (receiver []) 0 1).
Proof.
  intros data. assert (0 <= 6 <= zlen data) as H1 by (vm_compute; split; intros E; discriminate E).
  assert (bytes data) as H2 by (vm_compute; repeat constructor; intros E; discriminate E).
  split; [split; [exact H1|exact H2]|].
  apply (decoder_check_and_dispatch_spec log_message (receiver []) data 6 H1 H2).
Defined.
