(* ===== verification/LinkTrip.v ===== *)
(** * The link from one side to the other: theorems about [user_main/comm.c].

    What one side sends with [comm_send], in a run of [Link], reaches the
    callback of the other, in whatever pieces its bytes arrive. *)
From S2P Require Import Prelude Crc16 Cobs Uart Comm CommTx CommRx Link.

Section trip.
Context {D X D' X' : Type} `{SocLaws D} `{SocLaws D'} `{OsLaws}.
Implicit Types (l : link D X) (rx : comm D' X').
Context (cb : comm D' X' -> Z -> list Z -> Z -> result (comm D' X')) (cb_local : local cb).

(** The receiver takes the bytes in pieces. *)
Fixpoint receive rx (chunks : list (list Z)) : result (comm D' X') :=
  match chunks with
  | [] => Ok rx
  | bs :: chunks => let! rx := decoder_put_data (Some cb) rx bs in receive rx chunks
  end.

Lemma receive_concat chunks : forall rx, receive rx chunks = decoder_put_data (Some cb) rx (concat chunks).
Proof using cb_local.
  induction chunks as [|bs chunks IH]; intros rx; cbn [receive concat].
  - unfold decoder_put_data. cbn. by destruct rx.
  - rewrite (feed_app cb cb_local). destruct (decoder_put_data (Some cb) rx bs); [apply IH|done].
Qed.

Lemma wire_received rx msgs : idle (cobs rx) -> Forall (fits (buf_size (cobs rx))) msgs ->
  exists c, idle c /\ decoder_put_data (Some cb) rx (wire msgs) = (let! s := deliver_all cb rx msgs in Ok (set_cobs s c)).
Proof using cb_local.
  intros Hi Hm. destruct (put_wire cb msgs cb_local (cobs rx) rx Hi Hm) as (c & Hc & _ & E).
  exists c. split; [done|]. unfold decoder_put_data. rewrite E. by destruct (deliver_all cb rx msgs).
Qed.

(** Only messages made of bytes are admitted. *)
Lemma accepted_bytes l0 tr l : initial l0 -> run l0 tr l -> Forall (fun m => is_byte m.1 /\ bytes m.2) (accepted l).
Proof.
  intros (_ & _ & _ & _ & _ & _ & Ha & _). induction 1 as [|tr l ev l' Hr IH Hs]; [by rewrite Ha|].
  destruct Hs; try done. cbn [accepted] in *. destruct (takes _ _ _); [|done]. apply Forall_app. split; [done|]. by apply Forall_singleton.
Qed.

(** C1: the link round trip.  Let messages be sent, interrupts handled and
    tasks run in any order from the start, never sending while the ring is
    full and its write index wrapped, until nothing is queued.  The bytes
    that reached the transmit FIFO, in whatever pieces they arrive, make an
    idle receiver call its callback once per admitted message, in the order
    of admission, with the type, the data and the length that were given to
    [comm_send], and leave it idle with no error counted; the receive buffer
    has to hold the messages, and the callback has to leave the decoder alone
    ([local]). *)
Theorem link_roundtrip l0 tr l rx chunks :
  initial l0 -> run l0 tr l -> orderly tr -> queued_bufs (tx (state l)) = 0%nat ->
  tx_sent (dev (state l)) = tx_sent (dev (state l0)) ++ concat chunks ->
  idle (cobs rx) -> Forall (fun m => zlen m.2 + 3 <= buf_size (cobs rx)) (accepted l) ->
  exists c, idle c /\ receive rx chunks = (let! s := deliver_all cb rx (accepted l) in Ok (set_cobs s c)).
Proof using Type*.
  intros Hi Hr Ho Hq Hc Hidle Hm. pose proof (inv_out _ _ (run_inv l0 tr l Hi Hr Ho)) as Hout.
  assert (pending (tx (state l)) (heap (state l)) = []) as Hp by (unfold pending, frames, entries; rewrite Hq; cbn [seq map concat]; apply drop_nil).
  rewrite Hp, app_nil_r, Hc in Hout. apply app_inv_head in Hout. rewrite receive_concat, Hout. apply wire_received; [done|].
  pose proof (accepted_bytes l0 tr l Hi Hr) as Hb. rewrite List.Forall_forall in Hm, Hb |- *. intros m Hin. destruct (Hb m Hin). split; [done|]. split; [done|by apply Hm].
Qed.
End trip.

(** The run of [Link], carried on until everything is sent. *)
Definition run5 := get (transmitter_send (set_posted run4 [])) run4.
Definition trip_trace := run_trace ++ [(Task, Link run4 ms false)].
Definition trip_end : link Sim.dev unit := Link run5 ms false.
Lemma trip_runs : run (Link run0 [] false) trip_trace trip_end.
Proof. apply run_step; [exact run_runs|]. apply (step_task run4 ms [] run5); vm_compute; reflexivity. Qed.
Lemma trip_orderly : orderly trip_trace.
Proof. apply Forall_app. split; [exact run_orderly|]. by apply Forall_singleton. Qed.

(** The bytes as they arrive: the first piece ends within a frame. *)
Definition trip_chunks : list (list Z) := let bs := tx_sent (dev run5) in [take 4 bs; drop 4 bs].
Lemma link_roundtrip_witness :
  (initial (Link run0 [] false) /\ run (Link run0 [] false) trip_trace trip_end /\ orderly trip_trace) /\ zlen (concat trip_chunks) = 18 /\
  exists c, idle c /\ receive log_message (receiver []) trip_chunks = (let! s := deliver_all log_message (receiver []) ms in Ok (set_cobs s c)).
Proof.
  split; [split; [exact run_initial|split; [exact trip_runs|exact trip_orderly]]|]. split; [vm_compute; reflexivity|].
  apply (link_roundtrip log_message log_message_local (Link run0 [] false) trip_trace trip_end (receiver []) trip_chunks run_initial trip_runs trip_orderly);
    [vm_compute; reflexivity|vm_compute; reflexivity|vm_compute; done|].
  repeat (apply List.Forall_cons; [vm_compute; discriminate|]). constructor.
Defined.
