(* ===== verification/Message.v ===== *)
(** * The message format: [user_main/message.h].

    The numbers of [enum command_type] and the layouts of the packed structs,
    as functions between a record and the bytes it occupies. *)
From S2P Require Import Prelude.

(** ** Commands *)

Definition MSG_IP_PACKET : Z := 0x00.
Definition MSG_ETHER_PACKET : Z := 0x01.
Definition MSG_FORWARD_IP_BROADCASTS : Z := 0x10.
Definition MSG_SET_FORWARDING_MODE : Z := 0x11.
Definition MSG_WIFI_MODE_SET : Z := 0x20.
Definition MSG_WIFI_SLEEP_MODE_SET : Z := 0x21.
Definition MSG_WIFI_SCAN_REQUEST : Z := 0x22.
Definition MSG_WIFI_SCAN_REPLY : Z := 0x23.
Definition MSG_WIFI_SCAN_ENTRY : Z := 0x24.
Definition MSG_WIFI_GET_MACADDR_REQUEST : Z := 0x25.
Definition MSG_WIFI_GET_MACADDR_REPLY : Z := 0x26.
Definition MSG_STATION_CONF_SET : Z := 0x40.
Definition MSG_STATION_STATIC_IP_CONF_SET : Z := 0x41.
Definition MSG_STATION_DHCPC_STATE_SET : Z := 0x42.
Definition MSG_STATION_IP_CONF_REQUEST : Z := 0x43.
Definition MSG_STATION_IP_CONF_REPLY : Z := 0x44.
Definition MSG_STATION_CONN_STATUS_REQUEST : Z := 0x45.
Definition MSG_STATION_CONN_STATUS_REPLY : Z := 0x46.
Definition MSG_STATION_RSSI_REQUEST : Z := 0x47.
Definition MSG_STATION_RSSI_REPLY : Z := 0x48.
Definition MSG_SOFTAP_CONF_SET : Z := 0x60.
Definition MSG_SOFTAP_NET_CONF_SET : Z := 0x61.
Definition MSG_BOOT : Z := 0x81.
Definition MSG_LOG_LEVEL_SET : Z := 0x82.
Definition MSG_ECHO_REQUEST : Z := 0x84.
Definition MSG_ECHO_REPLY : Z := 0x85.
Definition MSG_SET_BAUD : Z := 0x86.
Definition MSG_PRINT_STATS : Z := 0x90.

Definition MODE_STA : Z := 1.
Definition MODE_SOFTAP : Z := 2.

Definition FORWARDING_MODE_NONE : Z := 0.
Definition FORWARDING_MODE_IP : Z := 1.
Definition FORWARDING_MODE_ETHER : Z := 2.

(** ** Fields in memory, little-endian *)

Definition read_u16 (m : list Z) (i : Z) : result Z :=
  let! a := mread m i in let! b := mread m (i + 1) in Ok (a + 256 * b).
Definition read_u32 (m : list Z) (i : Z) : result Z :=
  let! a := read_u16 m i in let! b := read_u16 m (i + 2) in Ok (a + 65536 * b).
Definition bytes_u16 (x : Z) : list Z := [x mod 256; x / 256 mod 256].
Definition bytes_u32 (x : Z) : list Z := bytes_u16 (x mod 65536) ++ bytes_u16 (x / 65536).

(** ** The packed structs *)

Record msg_station_conf := MsgStationConf {
  sc_ssid_len : Z; sc_ssid : list Z; sc_password_len : Z; sc_password : list Z
}.
Definition sizeof_msg_station_conf : Z := 98.
Definition read_msg_station_conf (m : list Z) : result msg_station_conf :=
  let! ssid_len := mread m 0 in
  let! ssid := mslice m 1 32 in
  let! password_len := mread m 33 in
  let! password := mslice m 34 64 in
  Ok (MsgStationConf ssid_len ssid password_len password).
Definition bytes_msg_station_conf (c : msg_station_conf) : list Z :=
  [sc_ssid_len c] ++ sc_ssid c ++ [sc_password_len c] ++ sc_password c.

Record msg_ip_conf := MsgIpConf { address : Z; netmask : Z; gateway : Z; dns : list Z }.
Definition sizeof_msg_ip_conf : Z := 24.
Definition read_msg_ip_conf (m : list Z) : result msg_ip_conf :=
  let! address := read_u32 m 0 in
  let! netmask := read_u32 m 4 in
  let! gateway := read_u32 m 8 in
  let! d0 := read_u32 m 12 in
  let! d1 := read_u32 m 16 in
  let! d2 := read_u32 m 20 in
  Ok (MsgIpConf address netmask gateway [d0; d1; d2]).
Definition bytes_msg_ip_conf (c : msg_ip_conf) : list Z :=
  bytes_u32 (address c) ++ bytes_u32 (netmask c) ++ bytes_u32 (gateway c) ++
  concat (map bytes_u32 (dns c)).

Record msg_wifi_scan_request := MsgScanRequest {
  sr_ssid_len : Z; sr_ssid : list Z; use_bssid : Z; sr_bssid : list Z; sr_channel : Z; show_hidden : Z
}.
Definition sizeof_msg_wifi_scan_request : Z := 42.
Definition read_msg_wifi_scan_request (m : list Z) : result msg_wifi_scan_request :=
  let! ssid_len := mread m 0 in
  let! ssid := mslice m 1 32 in
  let! use_bssid := mread m 33 in
  let! bssid := mslice m 34 6 in
  let! channel := mread m 40 in
  let! show_hidden := mread m 41 in
  Ok (MsgScanRequest ssid_len ssid use_bssid bssid channel show_hidden).
Definition bytes_msg_wifi_scan_request (c : msg_wifi_scan_request) : list Z :=
  [sr_ssid_len c] ++ sr_ssid c ++ [use_bssid c] ++ sr_bssid c ++ [sr_channel c; show_hidden c].

Record msg_wifi_scan_reply := MsgScanReply { status : Z; entries_n : Z }.
Definition sizeof_msg_wifi_scan_reply : Z := 3.
Definition read_msg_wifi_scan_reply (m : list Z) : result msg_wifi_scan_reply :=
  let! status := mread m 0 in let! n := read_u16 m 1 in Ok (MsgScanReply status n).
Definition bytes_msg_wifi_scan_reply (c : msg_wifi_scan_reply) : list Z :=
  [status c] ++ bytes_u16 (entries_n c).

Record msg_wifi_scan_entry := MsgScanEntry {
  se_index : Z; se_ssid_len : Z; se_ssid : list Z; se_bssid : list Z; se_channel : Z;
  se_auth_mode : Z; se_rssi : Z; se_is_hidden : Z
}.
Definition sizeof_msg_wifi_scan_entry : Z := 46.
Definition read_msg_wifi_scan_entry (m : list Z) : result msg_wifi_scan_entry :=
  let! index := read_u16 m 0 in
  let! ssid_len := mread m 2 in
  let! ssid := mslice m 3 32 in
  let! bssid := mslice m 35 6 in
  let! channel := mread m 41 in
  let! auth_mode := mread m 42 in
  let! rssi := read_u16 m 43 in
  let! is_hidden := mread m 45 in
  Ok (MsgScanEntry index ssid_len ssid bssid channel auth_mode (s16 rssi) is_hidden).
Definition bytes_msg_wifi_scan_entry (c : msg_wifi_scan_entry) : list Z :=
  bytes_u16 (se_index c) ++ [se_ssid_len c] ++ se_ssid c ++ se_bssid c ++
  [se_channel c; se_auth_mode c] ++ bytes_u16 (se_rssi c) ++ [se_is_hidden c].

Record msg_softap_conf := MsgSoftapConf {
  sa_ssid_len : Z; sa_ssid : list Z; sa_password_len : Z; sa_password : list Z;
  sa_channel : Z; sa_auth_mode : Z; sa_beacon_interval : Z
}.
Definition sizeof_msg_softap_conf : Z := 102.
Definition read_msg_softap_conf (m : list Z) : result msg_softap_conf :=
  let! ssid_len := mread m 0 in
  let! ssid := mslice m 1 32 in
  let! password_len := mread m 33 in
  let! password := mslice m 34 64 in
  let! channel := mread m 98 in
  let! auth_mode := mread m 99 in
  let! beacon_interval := read_u16 m 100 in
  Ok (MsgSoftapConf ssid_len ssid password_len password channel auth_mode beacon_interval).
Definition bytes_msg_softap_conf (c : msg_softap_conf) : list Z :=
  [sa_ssid_len c] ++ sa_ssid c ++ [sa_password_len c] ++ sa_password c ++
  [sa_channel c; sa_auth_mode c] ++ bytes_u16 (sa_beacon_interval c).

Record msg_softap_net_conf := MsgSoftapNetConf {
  sn_address : Z; sn_netmask : Z; sn_gateway : Z; enable_dhcpd : Z; dhcpd_offer_gateway : Z;
  dhcpd_first_ip : Z; dhcpd_last_ip : Z
}.
Definition sizeof_msg_softap_net_conf : Z := 22.
Definition read_msg_softap_net_conf (m : list Z) : result msg_softap_net_conf :=
  let! address := read_u32 m 0 in
  let! netmask := read_u32 m 4 in
  let! gateway := read_u32 m 8 in
  let! enable := mread m 12 in
  let! offer := mread m 13 in
  let! first := read_u32 m 14 in
  let! last := read_u32 m 18 in
  Ok (MsgSoftapNetConf address netmask gateway enable offer first last).
Definition bytes_msg_softap_net_conf (c : msg_softap_net_conf) : list Z :=
  bytes_u32 (sn_address c) ++ bytes_u32 (sn_netmask c) ++ bytes_u32 (sn_gateway c) ++
  [enable_dhcpd c; dhcpd_offer_gateway c] ++ bytes_u32 (dhcpd_first_ip c) ++ bytes_u32 (dhcpd_last_ip c).

(** ** Reading back *)
Lemma mslice_skip pre m i n : zlen pre <= i -> mslice (pre ++ m) i n = mslice m (i - zlen pre) n.
Proof.
  intros Hi. pose proof (zlen_nonneg pre). unfold mslice. zl.
  replace (i + n <=? zlen pre + zlen m) with (i - zlen pre + n <=? zlen m)
    by (apply Bool.eq_iff_eq_true; rewrite !Z.leb_le; lia).
  rewrite (proj2 (Z.leb_le 0 i)), (proj2 (Z.leb_le 0 (i - zlen pre))) by lia.
  match goal with |- (if ?b then _ else _) = _ => destruct b end; [|done]. do 2 f_equal.
  unfold zlen in *. rewrite drop_app_ge by lia. f_equal. lia.
Qed.
Lemma mslice_next x m i n : 1 <= i -> mslice (x :: m) i n = mslice m (i - 1) n.
Proof. intros Hi. by apply (mslice_skip [x]). Qed.
Lemma mslice_here l m i n : i = 0 -> n = zlen l -> mslice (l ++ m) i n = Ok l.
Proof. intros -> ->. apply mslice_prefix. Qed.

Lemma read_u16_skip pre m i : zlen pre <= i -> read_u16 (pre ++ m) i = read_u16 m (i - zlen pre).
Proof.
  intros Hi. unfold read_u16. rewrite !mread_skip by lia.
  by replace (i + 1 - zlen pre) with (i - zlen pre + 1) by lia.
Qed.
Lemma read_u16_next x m i : 1 <= i -> read_u16 (x :: m) i = read_u16 m (i - 1).
Proof. intros Hi. by apply (read_u16_skip [x]). Qed.
Lemma read_u16_here x m i : i = 0 -> is_u16 x -> read_u16 (bytes_u16 x ++ m) i = Ok x.
Proof.
  intros -> Hx. unfold read_u16, bytes_u16. cbn [app].
  rewrite mread_here, mread_next, mread_here by lia. cbn [rbind]. f_equal. widths. Z.div_mod_to_equations. lia.
Qed.

Lemma read_u32_skip pre m i : zlen pre <= i -> read_u32 (pre ++ m) i = read_u32 m (i - zlen pre).
Proof.
  intros Hi. unfold read_u32. rewrite !read_u16_skip by lia.
  by replace (i + 2 - zlen pre) with (i - zlen pre + 2) by lia.
Qed.
Lemma read_u32_next x m i : 1 <= i -> read_u32 (x :: m) i = read_u32 m (i - 1).
Proof. intros Hi. by apply (read_u32_skip [x]). Qed.
Lemma read_u32_here x m i : i = 0 -> is_u32 x -> read_u32 (bytes_u32 x ++ m) i = Ok x.
Proof.
  intros -> Hx. unfold read_u32, bytes_u32. rewrite <- app_assoc.
  rewrite read_u16_here by (done || width_lia). cbn [rbind].
  rewrite read_u16_skip by done. rewrite read_u16_here by (done || width_lia). cbn [rbind].
  f_equal. widths. Z.div_mod_to_equations. lia.
Qed.

Lemma zlen_bytes_u16 x : zlen (bytes_u16 x) = 2.
Proof. done. Qed.
Lemma zlen_bytes_u32 x : zlen (bytes_u32 x) = 4.
Proof. done. Qed.
#[export] Hint Rewrite zlen_bytes_u16 zlen_bytes_u32 : zlen.

Lemma bytes_u16_signed x : bytes_u16 x = bytes_u16 (x mod 65536).
Proof.
  unfold bytes_u16. f_equal; [|f_equal]; Z.div_mod_to_equations; lia.
Qed.

Lemma bytes_u16_bytes x : bytes (bytes_u16 x).
Proof. repeat (apply bytes_cons; split); [apply Z.mod_pos_bound; lia..|constructor]. Qed.
Lemma bytes_u32_bytes x : bytes (bytes_u32 x).
Proof. apply bytes_app. split; apply bytes_u16_bytes. Qed.

#[global] Opaque bytes_u16 bytes_u32.

(** Reads within the memory succeed. *)
Lemma mread_in m i : bytes m -> 0 <= i < zlen m -> exists b, mread m i = Ok b /\ is_byte b.
Proof.
  intros Hm Hi. unfold mread. rewrite (proj2 (Z.leb_le _ _)) by lia.
  destruct (lookup_lt_is_Some_2 m (Z.to_nat i)) as [b E]; [unfold zlen in *; lia|].
  rewrite E. exists b. split; [done|]. by eapply Forall_lookup_1 in E.
Qed.
Lemma mslice_in m i n : bytes m -> 0 <= i -> 0 <= n -> i + n <= zlen m ->
  exists l, mslice m i n = Ok l /\ zlen l = n /\ bytes l.
Proof.
  intros Hm Hi Hn Hin. unfold mslice. rewrite !(proj2 (Z.leb_le _ _)) by lia. eexists. split; [done|].
  split; [unfold zlen in *; rewrite length_take, length_drop; lia|]. by apply Forall_take, Forall_drop.
Qed.
Lemma read_u16_in m i : bytes m -> 0 <= i -> i + 2 <= zlen m ->
  exists x, read_u16 m i = Ok x /\ is_u16 x.
Proof.
  intros Hm Hi Hn. unfold read_u16. destruct (mread_in m i) as (a & -> & Ha); [done|lia|].
  destruct (mread_in m (i + 1)) as (b & -> & Hb); [done|lia|]. eexists. split; [done|]. widths. lia.
Qed.
Lemma read_u32_in m i : bytes m -> 0 <= i -> i + 4 <= zlen m ->
  exists x, read_u32 m i = Ok x /\ is_u32 x.
Proof.
  intros Hm Hi Hn. unfold read_u32. destruct (read_u16_in m i) as (a & -> & Ha); [done|lia|lia|].
  destruct (read_u16_in m (i + 2)) as (b & -> & Hb); [done|lia|lia|]. eexists. split; [done|]. widths. lia.
Qed.

(** Every read of a struct from a large enough memory. *)
Ltac read_fields Hm := repeat match goal with
  | |- context [mread ?m ?i] => destruct (mread_in m i Hm ltac:(lia)) as (? & -> & ?); cbn [rbind]
  | |- context [mslice ?m ?i ?n] =>
      destruct (mslice_in m i n Hm ltac:(lia) ltac:(lia) ltac:(lia)) as (? & -> & ? & ?); cbn [rbind]
  | |- context [read_u16 ?m ?i] => destruct (read_u16_in m i Hm ltac:(lia) ltac:(lia)) as (? & -> & ?); cbn [rbind]
  | |- context [read_u32 ?m ?i] => destruct (read_u32_in m i Hm ltac:(lia) ltac:(lia)) as (? & -> & ?); cbn [rbind]
  end.

(** Find the next field. *)
Ltac field_at := first
  [ rewrite mread_here by (zl; lia)
  | rewrite mread_next by (zl; lia)
  | rewrite mread_skip by (zl; lia)
  | rewrite mslice_here by (zl; lia)
  | rewrite mslice_next by (zl; lia)
  | rewrite mslice_skip by (zl; lia)
  | rewrite read_u16_here by first [done | zl; lia]
  | rewrite read_u16_next by (zl; lia)
  | rewrite read_u16_skip by (zl; lia)
  | rewrite read_u32_here by first [done | zl; lia]
  | rewrite read_u32_next by (zl; lia)
  | rewrite read_u32_skip by (zl; lia) ].
Ltac fields := app_norm; repeat first [field_at | progress cbn [rbind]].

(** ** Well-formed messages: every field has the range of its type. *)

Definition wf_station_conf (c : msg_station_conf) : Prop :=
  zlen (sc_ssid c) = 32 /\ zlen (sc_password c) = 64.
Definition wf_ip_conf (c : msg_ip_conf) : Prop :=
  is_u32 (address c) /\ is_u32 (netmask c) /\ is_u32 (gateway c) /\
  zlen (dns c) = 3 /\ Forall is_u32 (dns c).
Definition wf_scan_request (c : msg_wifi_scan_request) : Prop :=
  zlen (sr_ssid c) = 32 /\ zlen (sr_bssid c) = 6.
Definition wf_scan_entry (c : msg_wifi_scan_entry) : Prop :=
  is_u16 (se_index c) /\ zlen (se_ssid c) = 32 /\ zlen (se_bssid c) = 6 /\
  -32768 <= se_rssi c < 32768.
Definition wf_softap_conf (c : msg_softap_conf) : Prop :=
  zlen (sa_ssid c) = 32 /\ zlen (sa_password c) = 64 /\ is_u16 (sa_beacon_interval c).
Definition wf_softap_net_conf (c : msg_softap_net_conf) : Prop :=
  is_u32 (sn_address c) /\ is_u32 (sn_netmask c) /\ is_u32 (sn_gateway c) /\
  is_u32 (dhcpd_first_ip c) /\ is_u32 (dhcpd_last_ip c).

Lemma station_conf_read c k : wf_station_conf c ->
  read_msg_station_conf (bytes_msg_station_conf c ++ k) = Ok c.
Proof.
  destruct c as [sl ss pl ps]. intros [Hs Hp]. cbn in Hs, Hp.
  unfold read_msg_station_conf, bytes_msg_station_conf.
  cbn [sc_ssid_len sc_ssid sc_password_len sc_password]. by fields.
Qed.

(** Round trip of every struct of the protocol.  Whatever follows in the
    buffer, reading the bytes of a struct gives back its fields, and the
    bytes are as many as the [sizeof] the handlers check. *)
Theorem message_structs_roundtrip : forall k,
  (forall c, wf_station_conf c -> zlen (bytes_msg_station_conf c) = sizeof_msg_station_conf /\
     read_msg_station_conf (bytes_msg_station_conf c ++ k) = Ok c) /\
  (forall c, wf_ip_conf c -> zlen (bytes_msg_ip_conf c) = sizeof_msg_ip_conf /\
     read_msg_ip_conf (bytes_msg_ip_conf c ++ k) = Ok c) /\
  (forall c, wf_scan_request c -> zlen (bytes_msg_wifi_scan_request c) = sizeof_msg_wifi_scan_request /\
     read_msg_wifi_scan_request (bytes_msg_wifi_scan_request c ++ k) = Ok c) /\
  (forall c, is_u16 (entries_n c) -> zlen (bytes_msg_wifi_scan_reply c) = sizeof_msg_wifi_scan_reply /\
     read_msg_wifi_scan_reply (bytes_msg_wifi_scan_reply c ++ k) = Ok c) /\
  (forall c, wf_scan_entry c -> zlen (bytes_msg_wifi_scan_entry c) = sizeof_msg_wifi_scan_entry /\
     read_msg_wifi_scan_entry (bytes_msg_wifi_scan_entry c ++ k) = Ok c) /\
  (forall c, wf_softap_conf c -> zlen (bytes_msg_softap_conf c) = sizeof_msg_softap_conf /\
     read_msg_softap_conf (bytes_msg_softap_conf c ++ k) = Ok c) /\
  (forall c, wf_softap_net_conf c -> zlen (bytes_msg_softap_net_conf c) = sizeof_msg_softap_net_conf /\
     read_msg_softap_net_conf (bytes_msg_softap_net_conf c ++ k) = Ok c).
Proof.
  intros k. split; [|split; [|split; [|split; [|split; [|split]]]]].
  - intros c Hc. split; [|by apply station_conf_read]. destruct c as [sl ss pl ps], Hc as [Hs Hp].
    cbn in Hs, Hp. unfold bytes_msg_station_conf. cbn [sc_ssid_len sc_ssid sc_password_len sc_password].
    zl. by rewrite Hs, Hp.
  - intros [a m g d] (Ha & Hm & Hg & Hd & HF). cbn in *.
    destruct d as [|d0 [|d1 [|d2 [|]]]]; try (unfold zlen in Hd; simpl in Hd; lia).
    apply List.Forall_cons_iff in HF as [H0 HF]. apply List.Forall_cons_iff in HF as [H1 HF].
    apply List.Forall_cons_iff in HF as [H2 _].
    unfold read_msg_ip_conf, bytes_msg_ip_conf. cbn [address netmask gateway dns map concat].
    split; [by zl|]. by fields.
  - intros [sl ss ub bs ch sh] [Hs Hb]. cbn in Hs, Hb.
    unfold read_msg_wifi_scan_request, bytes_msg_wifi_scan_request.
    cbn [sr_ssid_len sr_ssid use_bssid sr_bssid sr_channel show_hidden].
    split; [zl; rewrite Hs, Hb; done|]. by fields.
  - intros [st n] Hn. cbn in Hn. unfold read_msg_wifi_scan_reply, bytes_msg_wifi_scan_reply.
    cbn [status entries_n]. split; [done|]. by fields.
  - intros [i sl ss bs ch au rs hi] (Hi & Hs & Hb & Hr). cbn in Hi, Hs, Hb, Hr.
    unfold read_msg_wifi_scan_entry, bytes_msg_wifi_scan_entry.
    cbn [se_index se_ssid_len se_ssid se_bssid se_channel se_auth_mode se_rssi se_is_hidden].
    split; [zl; rewrite Hs, Hb; done|]. rewrite (bytes_u16_signed rs).
    assert (is_u16 (rs mod 65536)) by width_lia. fields.
    replace (s16 (rs mod 65536)) with rs by (unfold s16; Z.div_mod_to_equations; lia). done.
  - intros [sl ss pl ps ch au bi] (Hs & Hp & Hb). cbn in Hs, Hp, Hb.
    unfold read_msg_softap_conf, bytes_msg_softap_conf.
    cbn [sa_ssid_len sa_ssid sa_password_len sa_password sa_channel sa_auth_mode sa_beacon_interval].
    split; [zl; rewrite Hs, Hp; done|]. by fields.
  - intros [a m g en og f l] (Ha & Hm & Hg & Hf & Hl). cbn in *.
    unfold read_msg_softap_net_conf, bytes_msg_softap_net_conf.
    cbn [sn_address sn_netmask sn_gateway enable_dhcpd dhcpd_offer_gateway dhcpd_first_ip dhcpd_last_ip].
    split; [by zl|]. by fields.
Qed.
