(* ===== verification/Linked.v ===== *)
(** * Linked lists in memory.

    Cells at addresses, each with the address of the next one, 0 for NULL:
    what the lists of control blocks and interfaces of the stack share. *)
From S2P Require Import Prelude.
From stdpp Require Import list gmap.
#[local] Open Scope Z_scope.

Section linked.
Context {C : Type} (nxt : C -> Z).
Implicit Types (m : gmap Z C) (l : list Z).

(** The cells of [l] lead from [p] to [q]. *)
Fixpoint lseg m (p : Z) l (q : Z) : Prop :=
  match l with
  | [] => p = q
  | a :: l => p = a /\ a <> 0 /\ exists c, m !! a = Some c /\ lseg m (nxt c) l q
  end.
Definition linked m (p : Z) l : Prop := lseg m p l 0.

Lemma lseg_app m l1 : forall p l2 q, lseg m p (l1 ++ l2) q <-> exists r, lseg m p l1 r /\ lseg m r l2 q.
Proof.
  induction l1 as [|a l1 IH]; intros p l2 q; cbn [lseg app].
  - split; [eauto|by intros (r & -> & ?)].
  - split.
    + intros (-> & Ha & c & Ec & (r & H1 & H2)%IH). exists r. split; [|done]. split; [done|]. split; [done|]. by exists c.
    + intros (r & (-> & Ha & c & Ec & H1) & H2). split; [done|]. split; [done|]. exists c. split; [done|].
      apply IH. by exists r.
Qed.

Lemma lseg_frame m m' l : forall p q, (forall a, In a l -> m' !! a = m !! a) -> lseg m p l q -> lseg m' p l q.
Proof.
  induction l as [|a l IH]; intros p q Hf; [done|]. intros (-> & Ha & c & Ec & Hl).
  split; [done|]. split; [done|]. exists c. rewrite Hf by by left. split; [done|].
  apply IH; [|done]. intros x Hx. apply Hf. by right.
Qed.

(** Only the links matter. *)
Lemma lseg_links m m' l : forall p q,
  (forall a c, In a l -> m !! a = Some c -> exists c', m' !! a = Some c' /\ nxt c' = nxt c) ->
  lseg m p l q -> lseg m' p l q.
Proof.
  induction l as [|a l IH]; intros p q Hf; [done|]. intros (-> & Ha & c & Ec & Hl).
  split; [done|]. split; [done|]. destruct (Hf a c) as (c' & Ec' & En); [by left|done|].
  exists c'. split; [done|]. rewrite En. apply IH; [|done]. intros x cx Hx. apply Hf. by right.
Qed.

Lemma linked_det m l1 : forall p l2, linked m p l1 -> linked m p l2 -> l1 = l2.
Proof.
  induction l1 as [|a l1 IH]; intros p [|b l2]; cbn; [done|by intros <- (? & ? & _)|by intros (<- & ? & _) ?|].
  intros (<- & _ & c & Ec & H1) (<- & _ & c' & Ec' & H2). simplify_eq. f_equal. by eapply IH.
Qed.

Lemma linked_nodup m p l : linked m p l -> NoDup l.
Proof.
  revert p. induction l as [|a l IH]; intros p Hl; [constructor|].
  pose proof Hl as (-> & _ & c & _ & Hl'). apply NoDup_cons. split; [|by eapply IH].
  intros Hin. apply list_elem_of_split in Hin as (l1 & l2 & ->).
  change (a :: l1 ++ a :: l2) with ((a :: l1) ++ a :: l2) in Hl.
  pose proof Hl as Hl2. apply lseg_app in Hl2 as (r & _ & Hr). assert (r = a) as -> by by destruct Hr.
  pose proof (linked_det _ _ _ _ Hl Hr) as E. apply (f_equal length) in E. rewrite length_app in E. cbn in E. lia.
Qed.

Lemma lseg_in m l : forall p q a, lseg m p l q -> In a l -> a <> 0 /\ is_Some (m !! a).
Proof.
  induction l as [|b l IH]; intros p q a; [done|]. intros (-> & Hb & c & Ec & Hl) [<-|Hin]; [eauto|by eapply IH].
Qed.

Lemma linked_length m p l : linked m p l -> (length l <= size m)%nat.
Proof.
  intros Hl. pose proof (linked_nodup _ _ _ Hl) as Hnd.
  rewrite <- (size_list_to_set (C:=gset Z) l) by done. rewrite <- size_dom.
  apply subseteq_size. intros a Ha%elem_of_list_to_set. apply elem_of_dom.
  apply (lseg_in m l p 0 a Hl). by apply list_elem_of_In.
Qed.

(** Dereferencing a pointer. *)
Definition cell m (a : Z) : result C :=
  if a =? 0 then Fault NullDeref else of_option UseAfterFree (m !! a).
Lemma cell_ok m a c : a <> 0 -> m !! a = Some c -> cell m a = Ok c.
Proof. intros Ha E. unfold cell. by rewrite (proj2 (Z.eqb_neq a 0)), E by done. Qed.

(** The links after a store to one cell outside of the segment. *)
Lemma lseg_store m l p q a c : ~ In a l -> lseg m p l q -> lseg (<[a := c]> m) p l q.
Proof. intros Hn. apply lseg_frame. intros x Hx. apply lookup_insert_ne. naive_solver. Qed.

(** Enough rounds for a loop over a list. *)
Definition list_fuel m : nat := S (size m).
Lemma list_fuel_enough m p l : linked m p l -> (length l < list_fuel m)%nat.
Proof. intros ?%linked_length. unfold list_fuel. lia. Qed.

(** The store that takes the cell behind [b] out of the list. *)
Lemma skip_link m q l1 b cb p cp cb' l2 : lseg m q (l1 ++ b :: p :: l2) 0 -> m !! b = Some cb -> m !! p = Some cp ->
  nxt cb' = nxt cp -> lseg (<[b := cb']> m) q (l1 ++ b :: l2) 0.
Proof.
  intros Hl Eb Ep En. pose proof (linked_nodup _ _ _ Hl) as Hnd. apply NoDup_app in Hnd as (_ & Hd & Hnd).
  apply NoDup_cons in Hnd as [Hb _]. rewrite list_elem_of_In in Hb. cbn in Hb.
  apply lseg_app in Hl as (q' & H1 & (-> & Hb0 & c & Ec & (Hp & Hp0 & c' & Ec' & H2))).
  simplify_eq. apply lseg_app. exists b. split.
  - apply lseg_store; [|done]. rewrite <- list_elem_of_In. intros Hin. by apply (Hd _ Hin), list_elem_of_here.
  - split; [done|]. split; [done|]. exists cb'. rewrite lookup_insert_eq, En. split; [done|].
    apply lseg_store; [naive_solver|done].
Qed.
End linked.

(** A list without one of its elements. *)
Lemma without_self (p : Z) (l : list Z) : ~ In p l -> filter (fun a => a <> p) l = l.
Proof.
  induction l as [|b l IH]; intros Hn; [done|]. rewrite filter_cons_True by (intros ->; apply Hn; by left).
  f_equal. apply IH. intros ?. apply Hn. by right.
Qed.
Lemma without_mid (p : Z) (l1 l2 : list Z) : NoDup (l1 ++ p :: l2) -> filter (fun a => a <> p) (l1 ++ p :: l2) = l1 ++ l2.
Proof.
  intros Hnd. apply NoDup_app in Hnd as (_ & Hd & [Hn _]%NoDup_cons). rewrite filter_app, filter_cons_False by naive_solver.
  f_equal; apply without_self; rewrite <- list_elem_of_In; [|done]. intros Hin. by apply (Hd _ Hin), list_elem_of_here.
Qed.

(** ** Changing the links

    The two loops the lists of control blocks share: taking a cell out, and
    moving it to the front. *)

Class LinkLaws {C : Type} (nxt : C -> Z) (set_nxt : C -> Z -> C) : Prop := {
  nxt_set : forall c n, nxt (set_nxt c n) = n;
  set_set : forall c a b, set_nxt (set_nxt c a) b = set_nxt c b
}.

Section links.
Context {C : Type} (nxt : C -> Z) (set_nxt : C -> Z -> C).
Implicit Types (m : gmap Z C) (l : list Z).

(** The search goes on to the end of the list after the cell is found. *)
Fixpoint unlink_loop (fuel : nat) m (a p : Z) : result (gmap Z C) :=
  match fuel with
  | O => Fault OutOfFuel
  | S fuel =>
      if a =? 0 then Ok m
      else
        let! c := cell m a in
        let! m := (if negb (nxt c =? 0) && (nxt c =? p)
                   then let! cp := cell m p in Ok (<[a := set_nxt c (nxt cp)]> m) else Ok m) in
        let! c := cell m a in
        unlink_loop fuel m (nxt c) p
  end.

(** The new head and the cells. *)
Definition unlink_cell m (head p : Z) : result (Z * gmap Z C) :=
  if head =? p then let! c := cell m head in Ok (nxt c, m)
  else let! m := unlink_loop (list_fuel m) m head p in Ok (head, m).

(** Move [p] behind [prev] to the front. *)
Definition move_front m (head prev p : Z) : result (Z * gmap Z C) :=
  if prev =? 0 then Ok (head, m)
  else
    let! c := cell m p in
    let! pc := cell m prev in
    let m := <[prev := set_nxt pc (nxt c)]> m in
    let! c := cell m p in
    Ok (p, <[p := set_nxt c head]> m).

Context `{!LinkLaws nxt set_nxt}.
Abbreviation lseg := (lseg nxt).

(** A cell but for its link. *)
Definition erased (c : C) : C := set_nxt c 0.
Definition same_cells m m' : Prop := forall x, erased <$> m' !! x = erased <$> m !! x.

Lemma same_cells_set m a c n : m !! a = Some c -> same_cells m (<[a := set_nxt c n]> m).
Proof using Type*.
  intros E x. destruct (decide (x = a)) as [->|Hne]; [|by rewrite lookup_insert_ne].
  rewrite lookup_insert_eq, E. cbn. unfold erased. by rewrite set_set.
Qed.
Lemma same_cells_trans m1 m2 m3 : same_cells m1 m2 -> same_cells m2 m3 -> same_cells m1 m3.
Proof using Type. intros H1 H2 x. by rewrite H2. Qed.
Lemma same_cells_at m m' x c : same_cells m m' -> m !! x = Some c -> exists c', m' !! x = Some c' /\ erased c' = erased c.
Proof using Type. intros H E. specialize (H x). rewrite E in H. destruct (m' !! x) as [c'|]; [|done]. exists c'. split; [done|]. by injection H. Qed.

Lemma same_cells_size m m' : same_cells m m' -> size m' = size m.
Proof using Type.
  intros Hs. rewrite <- !size_dom. f_equal. apply leibniz_equiv. intros a. rewrite !elem_of_dom. specialize (Hs a).
  destruct (m' !! a), (m !! a); try done; split; intros []; by eexists.
Qed.

Lemma unlink_none m p l : forall fuel q, p <> 0 -> lseg m q l 0 -> ~ In p (tail l) ->
  (length l < fuel)%nat -> unlink_loop fuel m q p = Ok m.
Proof using Type.
  induction l as [|b l IH]; intros fuel q Hp Hl Hn Hf; (destruct fuel as [|fuel]; [cbn in Hf; lia|]); cbn [unlink_loop].
  - by rewrite Hl.
  - destruct Hl as (-> & Hb & c & Ec & Hl). rewrite (proj2 (Z.eqb_neq b 0)) by done.
    rewrite (cell_ok m b c) by done. cbn [rbind].
    assert (negb (nxt c =? 0) && (nxt c =? p) = false) as ->.
    { destruct l as [|x l]; [by rewrite Hl|]. destruct Hl as (-> & _). cbn in Hn.
      rewrite (proj2 (Z.eqb_neq x p)) by naive_solver. by rewrite andb_false_r. }
    cbn [rbind]. rewrite (cell_ok m b c) by done. cbn [rbind]. cbn [length tail] in *.
    apply IH; [done|done| |lia]. destruct l; [done|]. cbn in *. naive_solver.
Qed.

Lemma unlink_found m p l1 : forall fuel q b cb cp l2, lseg m q (l1 ++ b :: p :: l2) 0 ->
  m !! b = Some cb -> m !! p = Some cp -> (length (l1 ++ b :: p :: l2) < fuel)%nat ->
  unlink_loop fuel m q p = Ok (<[b := set_nxt cb (nxt cp)]> m).
Proof using Type*.
  induction l1 as [|a l1 IH]; intros fuel q b cb cp l2 Hl Eb Ep Hf;
    (destruct fuel as [|fuel]; [cbn in Hf; lia|]); cbn [unlink_loop app] in *;
    pose proof (linked_nodup _ _ _ _ Hl) as Hnd; destruct Hl as (-> & Ha & c & Ec & Hl);
    rewrite (proj2 (Z.eqb_neq _ 0)) by done; erewrite cell_ok by done; cbn [rbind].
  - assert (c = cb) as -> by congruence. destruct Hl as (Hnx & Hp & cp' & Ec' & Hl).
    assert (cp' = cp) as -> by congruence. rewrite Hnx.
    rewrite (proj2 (Z.eqb_neq p 0)), Z.eqb_refl by done. cbn [negb andb].
    rewrite (cell_ok m p cp) by done. cbn [rbind]. rewrite (cell_ok _ b _ Ha (lookup_insert_eq m b _)). cbn [rbind]. rewrite nxt_set.
    apply NoDup_cons in Hnd as [Hn1 Hnd]. apply NoDup_cons in Hnd as [Hn2 _].
    rewrite list_elem_of_In in Hn1, Hn2. cbn in Hn1.
    apply (unlink_none _ p l2); [done| | |cbn in Hf; lia].
    + apply lseg_store; [naive_solver|done].
    + destruct l2; [done|]. cbn in *. naive_solver.
  - assert (negb (nxt c =? 0) && (nxt c =? p) = false) as ->.
    { apply NoDup_cons in Hnd as [_ Hnd1]. destruct l1 as [|x l1]; cbn in Hl, Hnd1; destruct Hl as (-> & _);
        (rewrite (proj2 (Z.eqb_neq _ p)); [by rewrite andb_false_r|]; intros ->);
        apply NoDup_cons in Hnd1 as [Hn _]; rewrite list_elem_of_In in Hn; apply Hn; [by left|].
      rewrite in_app_iff. cbn. tauto. }
    cbn [rbind]. erewrite cell_ok by done. cbn [rbind]. eapply (IH fuel); [exact Hl|done|done|cbn [length] in Hf; lia].
Qed.

Lemma unlink_ok m h l p cp : linked nxt m h l -> p <> 0 -> m !! p = Some cp ->
  exists h' m', unlink_cell m h p = Ok (h', m') /\ linked nxt m' h' (filter (fun a => a <> p) l) /\
    ~ In p (filter (fun a => a <> p) l) /\ m' !! p = Some cp /\ same_cells m m'.
Proof using Type*.
  unfold linked. intros Hl Hp Ep. pose proof (linked_nodup _ _ _ _ Hl) as Hnd. unfold unlink_cell.
  assert (~ In p (filter (fun a => a <> p) l)) as Hnp by (rewrite <- list_elem_of_In, list_elem_of_filter; naive_solver).
  destruct (Z.eqb_spec h p) as [->|Hne].
  - rewrite (cell_ok m p cp) by done. eexists _, _. split; [reflexivity|]. split; [|done].
    destruct l as [|a l]; [done|]. destruct Hl as (<- & _ & c & Ec & Hl). rewrite filter_cons_False by naive_solver.
    apply NoDup_cons in Hnd as [Hn _]. rewrite list_elem_of_In in Hn. rewrite without_self by done.
    assert (c = cp) as -> by congruence. exact Hl.
  - destruct (decide (p ∈ l)) as [Hin|Hn]; rewrite list_elem_of_In in *.
    2:{ exists h, m. rewrite without_self by done. split; [|done].
        rewrite (unlink_none m p l); [done|done|done| |by eapply list_fuel_enough]. destruct l; [done|]. cbn in *. tauto. }
    apply in_split in Hin as (l1 & l2 & ->). destruct l1 as [|b l1 _] using rev_ind; [by destruct Hl as (? & _)|].
    rewrite <- app_assoc in *. cbn [app] in *.
    destruct (lseg_in _ _ _ _ _ b Hl) as [Hb0 [cb Eb]]; [rewrite in_app_iff; cbn; tauto|].
    assert (b <> p) as Hbp by (apply NoDup_app in Hnd as (_ & _ & [Hn _]%NoDup_cons); intros ->; by apply Hn, list_elem_of_here).
    rewrite (unlink_found m p l1 _ h b cb cp l2 Hl Eb Ep) by by eapply list_fuel_enough. eexists _, _. split; [reflexivity|].
    split; [|split; [done|split; [by rewrite lookup_insert_ne|by apply same_cells_set]]].
    assert (NoDup ((l1 ++ [b]) ++ p :: l2)) as Hnd' by by rewrite <- app_assoc.
    replace (l1 ++ b :: p :: l2) with ((l1 ++ [b]) ++ p :: l2) by by rewrite <- app_assoc.
    rewrite without_mid, <- app_assoc by done. eapply (skip_link nxt); [exact Hl|done|done|apply nxt_set].
Qed.

Lemma move_front_ok m h l1 b p l2 : linked nxt m h (l1 ++ b :: p :: l2) ->
  exists h' m', move_front m h b p = Ok (h', m') /\ linked nxt m' h' (p :: l1 ++ b :: l2) /\ same_cells m m'.
Proof using Type*.
  unfold linked. intros Hl. pose proof (linked_nodup _ _ _ _ Hl) as Hnd.
  assert (exists cb, b <> 0 /\ m !! b = Some cb) as (cb & Hb & Eb).
  { destruct (lseg_in _ _ _ _ _ b Hl) as [? [cb ?]]; [rewrite in_app_iff; cbn; tauto|]. by exists cb. }
  assert (exists cp, p <> 0 /\ m !! p = Some cp) as (cp & Hp & Ep).
  { destruct (lseg_in _ _ _ _ _ p Hl) as [? [cp ?]]; [rewrite in_app_iff; cbn; tauto|]. by exists cp. }
  assert (b <> p) as Hbp by (apply NoDup_app in Hnd as (_ & _ & [Hn _]%NoDup_cons); intros ->; by apply Hn, list_elem_of_here).
  unfold move_front. rewrite (proj2 (Z.eqb_neq b 0)), (cell_ok m p cp), (cell_ok m b cb) by done. cbn [rbind].
  set (m1 := <[b := set_nxt cb (nxt cp)]> m). assert (m1 !! p = Some cp) as Ep1 by (unfold m1; by rewrite lookup_insert_ne).
  rewrite (cell_ok m1 p cp) by done. cbn [rbind]. eexists _, _. split; [reflexivity|]. split.
  - split; [done|]. split; [done|]. eexists. rewrite lookup_insert_eq. split; [done|]. rewrite nxt_set.
    apply lseg_store; [|eapply (skip_link nxt); [exact Hl|done|done|apply nxt_set]].
    apply NoDup_app in Hnd as (_ & Hd & [_ [Hn _]%NoDup_cons]%NoDup_cons).
    rewrite in_app_iff, <- list_elem_of_In. cbn. rewrite <- list_elem_of_In.
    intros [Hin|[?|?]]; [|done|done]. apply (Hd _ Hin). by apply list_elem_of_further, list_elem_of_here.
  - eapply same_cells_trans; by apply same_cells_set.
Qed.

Lemma last_behind l a : default 0 (last (l ++ [a])) = a.
Proof using Type. by rewrite last_snoc. Qed.

(** Found behind the cells [l1], with the last of them as [prev]. *)
Lemma front_at m h l1 a l2 : linked nxt m h (l1 ++ a :: l2) ->
  exists h' m', move_front m h (default 0 (last l1)) a = Ok (h', m') /\
    linked nxt m' h' (a :: filter (fun x => x <> a) (l1 ++ a :: l2)) /\ same_cells m m'.
Proof using Type*.
  intros Hl. pose proof (linked_nodup _ _ _ _ Hl) as Hnd. rewrite without_mid by done. destruct l1 as [|b l1 _] using rev_ind.
  - exists h, m. by split.
  - rewrite last_behind. rewrite <- !app_assoc in *. cbn [app] in *. by apply move_front_ok.
Qed.
End links.
