(* ===== verification/Pbuf.v ===== *)
(** * Packet buffers: [lwip/core/pbuf.c] and [include/lwip/pbuf.h].

    A [struct pbuf] is a cell at an address; the memory it is allocated in is
    a block of the heap, which begins with the structure itself and goes on
    with the payload area.  Payload pointers are pairs of a block address and
    an offset, so a [PBUF_REF] can point into foreign memory.  Loops over a
    chain are bounded by the number of cells: see [chain_fuel]. *)
From S2P Require Import Prelude Cobs Uart Comm.

Definition MEM_ALIGNMENT : Z := 4.
(** [LWIP_MEM_ALIGN_SIZE]; blocks of the heap are aligned, so [LWIP_MEM_ALIGN]
    of an address in a block aligns its offset. *)
Definition LWIP_MEM_ALIGN_SIZE (size : Z) : Z :=
  Z.land (size + MEM_ALIGNMENT - 1) (Z.lnot (MEM_ALIGNMENT - 1)).

Definition PBUF_TRANSPORT_HLEN : Z := 20.
Definition PBUF_IP_HLEN : Z := 20.
Definition PBUF_LINK_HLEN : Z := 14.
Definition TCP_MSS : Z := 1460.
Definition PBUF_POOL_BUFSIZE : Z := LWIP_MEM_ALIGN_SIZE (TCP_MSS + 40 + PBUF_LINK_HLEN).
Definition PBUF_POOL_BUFSIZE_ALIGNED : Z := LWIP_MEM_ALIGN_SIZE PBUF_POOL_BUFSIZE.

Inductive pbuf_layer := PBUF_TRANSPORT | PBUF_IP | PBUF_LINK | PBUF_RAW.
Inductive pbuf_type := PBUF_RAM | PBUF_ROM | PBUF_REF | PBUF_POOL.
#[export] Instance pbuf_type_eq_dec : EqDecision pbuf_type.
Proof. solve_decision. Defined.

Record pbuf := Pbuf {
  next : Z;            (* 0 is NULL *)
  payload : Z * Z;     (* block and offset *)
  tot_len : Z;
  len : Z;
  type : pbuf_type;
  flags : Z;
  ref : Z
}.

(** Six fields of four, four, two, two, one, one, two and four bytes. *)
Definition SIZEOF_STRUCT_PBUF : Z := LWIP_MEM_ALIGN_SIZE 20.

Definition ERR_OK : Z := 0.
Definition ERR_MEM : Z := -1.
Definition ERR_BUF : Z := -2.
Definition ERR_RTE : Z := -4.
Definition ERR_VAL : Z := -6.
Definition ERR_ARG : Z := -12.

Record store := Store { cells : gmap Z pbuf; blocks : memory }.

Definition set_next (c : pbuf) (n : Z) := Pbuf n (payload c) (tot_len c) (len c) (type c) (flags c) (ref c).
Definition set_payload (c : pbuf) (x : Z * Z) := Pbuf (next c) x (tot_len c) (len c) (type c) (flags c) (ref c).
Definition set_tot_len (c : pbuf) (n : Z) := Pbuf (next c) (payload c) n (len c) (type c) (flags c) (ref c).
Definition set_len (c : pbuf) (n : Z) := Pbuf (next c) (payload c) (tot_len c) n (type c) (flags c) (ref c).
Definition set_ref (c : pbuf) (n : Z) := Pbuf (next c) (payload c) (tot_len c) (len c) (type c) (flags c) n.

(** Dereferencing a pointer to a pbuf. *)
Definition deref (s : store) (p : Z) : result pbuf :=
  if p =? 0 then Fault NullDeref else of_option UseAfterFree (cells s !! p).
Definition put (s : store) (p : Z) (c : pbuf) : store := Store (<[p := c]> (cells s)) (blocks s).

(** The [n] bytes at offset [off] of a payload, and storing there. *)
Definition load (s : store) (a : Z * Z) (off n : Z) : result (list Z) :=
  if n =? 0 then Ok [] else
  let! b := of_option UseAfterFree (blocks s !! a.1) in mslice b (a.2 + off) n.
Definition save (s : store) (a : Z * Z) (off : Z) (l : list Z) : result store :=
  if zlen l =? 0 then Ok s else
  let! b := of_option UseAfterFree (blocks s !! a.1) in
  let! b := mcopy b (a.2 + off) l in
  Ok (Store (cells s) (<[a.1 := b]> (blocks s))).

(** Enough rounds for any loop over a chain. *)
Definition chain_fuel (s : store) : nat := S (size (cells s)).

Section pbuf.
Context `{Os}.

(** [memp_malloc(MEMP_PBUF_POOL)], [memp_malloc(MEMP_PBUF)] and [mem_malloc]:
    all pools live in the heap; the fields of the new structure are set by
    the caller. *)
Definition pbuf_malloc (s : store) (size : Z) : option (Z * store) :=
  match os_malloc (blocks s) size with
  | Some (p, b) => Some (p, Store (cells s) (<[p := b]> (blocks s)))
  | None => None
  end.
(** [mem_free(p)] of the memory of a pbuf. *)
Definition pbuf_release (s : store) (p : Z) : result store :=
  let! h := os_free (blocks s) p in Ok (Store (delete p (cells s)) h).

Definition MEMP_PBUF_SIZE : Z := SIZEOF_STRUCT_PBUF.
Definition MEMP_PBUF_POOL_SIZE : Z := SIZEOF_STRUCT_PBUF + PBUF_POOL_BUFSIZE_ALIGNED.

(** The loop of [pbuf_free]: how many pbufs were deallocated. *)
Fixpoint pbuf_free_loop (fuel : nat) (s : store) (p count : Z) : result (Z * store) :=
  match fuel with
  | O => Fault OutOfFuel
  | S fuel =>
      if p =? 0 then Ok (count, s)
      else
        let! c := deref s p in
        let ref' := u16 (ref c - 1) in
        let s := put s p (set_ref c ref') in
        if ref' =? 0 then
          let! s := pbuf_release s p in
          pbuf_free_loop fuel s (next c) (u8 (count + 1))
        else Ok (count, s)
  end.

Definition pbuf_free (s : store) (p : Z) : result (Z * store) :=
  pbuf_free_loop (chain_fuel s) s p 0.

(** The header room of a layer. *)
Definition layer_offset (layer : pbuf_layer) : Z :=
  match layer with
  | PBUF_TRANSPORT => PBUF_TRANSPORT_HLEN + PBUF_IP_HLEN + PBUF_LINK_HLEN
  | PBUF_IP => PBUF_IP_HLEN + PBUF_LINK_HLEN
  | PBUF_LINK => PBUF_LINK_HLEN
  | PBUF_RAW => 0
  end.

(** The tail of a [PBUF_POOL] chain: [p] is its head, [r] the pbuf allocated
    last; [None] when the memory ran out, the chain freed. *)
Fixpoint pool_tail (fuel : nat) (s : store) (p r rem_len : Z) : result (bool * store) :=
  match fuel with
  | O => Fault OutOfFuel
  | S fuel =>
      if 0 <? rem_len then
        match pbuf_malloc s MEMP_PBUF_POOL_SIZE with
        | None => let! (_, s) := pbuf_free s p in Ok (false, s)
        | Some (q, s) =>
            let! rc := deref s r in
            let s := put s r (set_next rc q) in
            let qlen := Z.min (u16 rem_len) PBUF_POOL_BUFSIZE_ALIGNED in
            let s := put s q (Pbuf 0 (q, SIZEOF_STRUCT_PBUF) (u16 rem_len) qlen PBUF_POOL 0 1) in
            pool_tail fuel s p q (rem_len - qlen)
        end
      else Ok (true, s)
  end.

(** The payload pointer of a pbuf allocated at [p] with its own area. *)
Definition own_payload (p offset : Z) : Z * Z := (p, LWIP_MEM_ALIGN_SIZE (SIZEOF_STRUCT_PBUF + offset)).

(** [pbuf_alloc(layer, length, type)]; the address, 0 for NULL.  Each further
    pbuf of a pool chain takes at least one byte. *)
Definition pbuf_alloc (s : store) (layer : pbuf_layer) (length : Z) (type : pbuf_type)
  : result (Z * store) :=
  let offset := layer_offset layer in
  match type with
  | PBUF_POOL =>
      match pbuf_malloc s MEMP_PBUF_POOL_SIZE with
      | None => Ok (0, s)
      | Some (p, s) =>
          let plen := u16 (Z.min length (PBUF_POOL_BUFSIZE_ALIGNED - LWIP_MEM_ALIGN_SIZE offset)) in
          (* the flags of the head are set at the end *)
          let s := put s p (Pbuf 0 (own_payload p offset) length plen type 0 1) in
          let! (ok, s) := pool_tail (S (Z.to_nat length)) s p p (length - plen) in
          Ok (if (ok : bool) then p else 0, s)
      end
  | PBUF_RAM =>
      match pbuf_malloc s (LWIP_MEM_ALIGN_SIZE (SIZEOF_STRUCT_PBUF + offset) + LWIP_MEM_ALIGN_SIZE length) with
      | None => Ok (0, s)
      | Some (p, s) => Ok (p, put s p (Pbuf 0 (own_payload p offset) length length type 0 1))
      end
  | PBUF_ROM | PBUF_REF =>
      match pbuf_malloc s MEMP_PBUF_SIZE with
      | None => Ok (0, s)
      | Some (p, s) => Ok (p, put s p (Pbuf 0 (0, 0) length length type 0 1))
      end
  end.

(** The first loop of [pbuf_realloc]: the new last pbuf and its length. *)
Fixpoint realloc_skip (fuel : nat) (s : store) (q rem_len grow : Z) : result (Z * Z * store) :=
  match fuel with
  | O => Fault OutOfFuel
  | S fuel =>
      let! c := deref s q in
      if len c <? rem_len then
        let s := put s q (set_tot_len c (u16 (tot_len c + u16 grow))) in
        realloc_skip fuel s (next c) (u16 (rem_len - len c)) grow
      else Ok (q, rem_len, s)
  end.

(** [pbuf_realloc]; [mem_trim] leaves its block as it is. *)
Definition pbuf_realloc (s : store) (p new_len : Z) : result store :=
  let! c := deref s p in
  if tot_len c <=? new_len then Ok s
  else
    let grow := new_len - tot_len c in
    let! (q, rem_len, s) := realloc_skip (chain_fuel s) s p new_len grow in
    let! c := deref s q in
    let s := put s q (set_tot_len (set_len c rem_len) rem_len) in
    let! s := (if negb (next c =? 0)
               then let! (_, s) := pbuf_free s (next c) in Ok s else Ok s) in
    let! c := deref s q in
    Ok (put s q (set_next c 0)).

(** [pbuf_header]: the returned flag (1 is failure). *)
Definition pbuf_header (s : store) (p header_size_increment : Z) : result (Z * store) :=
  if (header_size_increment =? 0) || (p =? 0) then Ok (0, s)
  else
    let! c := deref s p in
    let increment_magnitude :=
      u16 (if header_size_increment <? 0 then - header_size_increment else header_size_increment) in
    if (header_size_increment <? 0) && (len c <? increment_magnitude) then Ok (1, s)
    else
      let moved := ((payload c).1, (payload c).2 - header_size_increment) in
      let finish c := (0, put s p (set_tot_len (set_len c (u16 (len c + header_size_increment)))
                                     (u16 (tot_len c + header_size_increment)))) in
      match type c with
      | PBUF_RAM | PBUF_POOL =>
          if moved.2 <? SIZEOF_STRUCT_PBUF then Ok (1, s)
          else Ok (finish (set_payload c moved))
      | PBUF_REF => Ok (finish (set_payload c moved))
      | PBUF_ROM =>
          if (header_size_increment <? 0) && (increment_magnitude <=? len c)
          then Ok (finish (set_payload c moved))
          else Ok (1, s)
      end.

Fixpoint pbuf_clen_loop (fuel : nat) (s : store) (p len : Z) : result Z :=
  match fuel with
  | O => Fault OutOfFuel
  | S fuel =>
      if p =? 0 then Ok len
      else let! c := deref s p in pbuf_clen_loop fuel s (next c) (u8 (len + 1))
  end.
Definition pbuf_clen (s : store) (p : Z) : result Z := pbuf_clen_loop (chain_fuel s) s p 0.

Definition pbuf_ref (s : store) (p : Z) : result store :=
  if p =? 0 then Ok s
  else let! c := deref s p in Ok (put s p (set_ref c (u16 (ref c + 1)))).

(** The loop of [pbuf_cat]: [t] is the tail, [p] the pbuf reached.  The total
    of the tail is read in each round. *)
Fixpoint pbuf_cat_loop (fuel : nat) (s : store) (p t : Z) : result store :=
  match fuel with
  | O => Fault OutOfFuel
  | S fuel =>
      let! c := deref s p in
      let! tc := deref s t in
      let c' := set_tot_len c (u16 (tot_len c + tot_len tc)) in
      if negb (next c =? 0) then pbuf_cat_loop fuel (put s p c') (next c) t
      else Ok (put s p (set_next c' t))
  end.

Definition pbuf_cat (s : store) (h t : Z) : result store :=
  if (h =? 0) || (t =? 0) then Ok s else pbuf_cat_loop (chain_fuel s) s h t.

Definition pbuf_chain (s : store) (h t : Z) : result store :=
  let! s := pbuf_cat s h t in pbuf_ref s t.

Definition pbuf_dechain (s : store) (p : Z) : result (Z * store) :=
  let! c := deref s p in
  let q := next c in
  if negb (q =? 0) then
    let! qc := deref s q in
    let s := put s q (set_tot_len qc (u16 (tot_len c - len c))) in
    let! c := deref s p in
    let s := put s p (set_tot_len (set_next c 0) (len c)) in
    let! (tail_gone, s) := pbuf_free s q in
    Ok (if 0 <? tail_gone then 0 else q, s)
  else Ok (0, s).

(** One packet per chain: [pbuf_copy] refuses a pbuf that ends a packet and
    has a successor. *)
Definition packet_queue (s : store) (p : Z) : result bool :=
  if p =? 0 then Ok false
  else let! c := deref s p in Ok ((len c =? tot_len c) && negb (next c =? 0)).

(** The [do]-[while] loop of [pbuf_copy]. *)
Fixpoint pbuf_copy_loop (fuel : nat) (s : store) (p_to p_from offset_to offset_from : Z)
  : result (Z * store) :=
  match fuel with
  | O => Fault OutOfFuel
  | S fuel =>
      let! tc := deref s p_to in
      let! fc := deref s p_from in
      let n := if len fc - offset_from <=? len tc - offset_to
               then u16 (len fc - offset_from) else u16 (len tc - offset_to) in
      let! l := load s (payload fc) offset_from n in
      let! s := save s (payload tc) offset_to l in
      let offset_to := u16 (offset_to + n) in
      let offset_from := u16 (offset_from + n) in
      let '(p_to, offset_to) :=
        if offset_to =? len tc then (next tc, 0) else (p_to, offset_to) in
      let '(p_from, offset_from) :=
        if len fc <=? offset_from then (next fc, 0) else (p_from, offset_from) in
      let! from_queue := packet_queue s p_from in
      if (from_queue : bool) then Ok (ERR_VAL, s)
      else
        let! to_queue := packet_queue s p_to in
        if (to_queue : bool) then Ok (ERR_VAL, s)
        else if p_from =? 0 then Ok (ERR_OK, s)
        else pbuf_copy_loop fuel s p_to p_from offset_to offset_from
  end.

Definition pbuf_copy (s : store) (p_to p_from : Z) : result (Z * store) :=
  if (p_to =? 0) || (p_from =? 0) then Ok (ERR_ARG, s)
  else
    let! tc := deref s p_to in
    let! fc := deref s p_from in
    if tot_len tc <? tot_len fc then Ok (ERR_ARG, s)
    else pbuf_copy_loop (chain_fuel s + chain_fuel s) s p_to p_from 0 0.

(** The loop of [pbuf_copy_partial] into the memory [dst] at [dataptr]. *)
Fixpoint copy_partial_loop (fuel : nat) (s : store) (p : Z) (dst : list Z)
  (left len_ offset copied_total : Z) : result (Z * list Z) :=
  match fuel with
  | O => Fault OutOfFuel
  | S fuel =>
      if (len_ =? 0) || (p =? 0) then Ok (copied_total, dst)
      else
        let! c := deref s p in
        if negb (offset =? 0) && (len c <=? offset) then
          copy_partial_loop fuel s (next c) dst left len_ (u16 (offset - len c)) copied_total
        else
          let buf_copy_len := u16 (len c - offset) in
          let buf_copy_len := if len_ <? buf_copy_len then len_ else buf_copy_len in
          let! l := load s (payload c) offset buf_copy_len in
          let! dst := mcopy dst left l in
          copy_partial_loop fuel s (next c) dst (u16 (left + buf_copy_len))
            (u16 (len_ - buf_copy_len)) 0 (u16 (copied_total + buf_copy_len))
  end.

(** [pbuf_copy_partial(buf, dataptr, len, offset)] with a buffer behind
    [dataptr]. *)
Definition pbuf_copy_partial (s : store) (buf : Z) (dst : list Z) (len offset : Z)
  : result (Z * list Z) :=
  if buf =? 0 then Ok (0, dst)
  else copy_partial_loop (chain_fuel s) s buf dst 0 len offset 0.

Fixpoint take_loop (fuel : nat) (s : store) (p : Z) (data : list Z)
  (total_copy_len copied_total : Z) : result store :=
  match fuel with
  | O => Fault OutOfFuel
  | S fuel =>
      if total_copy_len =? 0 then Ok s
      else
        let! c := deref s p in
        let buf_copy_len := if len c <? total_copy_len then len c else total_copy_len in
        let! l := mslice data copied_total buf_copy_len in
        let! s := save s (payload c) 0 l in
        take_loop fuel s (next c) data (u16 (total_copy_len - buf_copy_len))
          (u16 (copied_total + buf_copy_len))
  end.

Definition pbuf_take (s : store) (buf : Z) (data : list Z) (len : Z) : result (Z * store) :=
  if buf =? 0 then Ok (0, s)
  else
    let! c := deref s buf in
    if tot_len c <? len then Ok (ERR_ARG, s)
    else let! s := take_loop (chain_fuel s) s buf data len 0 in Ok (ERR_OK, s).

Definition pbuf_coalesce (s : store) (p : Z) (layer : pbuf_layer) : result (Z * store) :=
  let! c := deref s p in
  if next c =? 0 then Ok (p, s)
  else
    let! (q, s) := pbuf_alloc s layer (tot_len c) PBUF_RAM in
    if q =? 0 then Ok (p, s)
    else
      let! (_, s) := pbuf_copy s q p in
      let! (_, s) := pbuf_free s p in
      Ok (q, s).

(** The first loop of [pbuf_get_at] and [pbuf_memcmp]: the pbuf an offset
    falls in, 0 behind the end. *)
Fixpoint find_at (fuel : nat) (s : store) (q copy_from : Z) : result (Z * Z) :=
  match fuel with
  | O => Fault OutOfFuel
  | S fuel =>
      if q =? 0 then Ok (q, copy_from)
      else
        let! c := deref s q in
        if len c <=? copy_from then find_at fuel s (next c) (u16 (copy_from - len c))
        else Ok (q, copy_from)
  end.

Definition pbuf_get_at (s : store) (p offset : Z) : result Z :=
  let! (q, copy_from) := find_at (chain_fuel s) s p offset in
  if q =? 0 then Ok 0
  else
    let! c := deref s q in
    let! l := load s (payload c) copy_from 1 in mread l 0.

Fixpoint memcmp_loop (fuel : nat) (s : store) (q start i : Z) (s2 : list Z) (n : Z) : result Z :=
  match fuel with
  | O => Fault OutOfFuel
  | S fuel =>
      if i <? n then
        let! a := pbuf_get_at s q (u16 (start + i)) in
        let! b := mread s2 i in
        if negb (a =? b) then Ok (u16 (i + 1)) else memcmp_loop fuel s q start (u16 (i + 1)) s2 n
      else Ok 0
  end.

Definition pbuf_memcmp (s : store) (p offset : Z) (s2 : list Z) (n : Z) : result Z :=
  let! (q, start) := find_at (chain_fuel s) s p offset in
  if q =? 0 then Ok 0xffff
  else memcmp_loop (S (Z.to_nat n)) s q start 0 s2 n.

Fixpoint memfind_loop (fuel : nat) (s : store) (p : Z) (mem : list Z) (mem_len i max : Z) : result Z :=
  match fuel with
  | O => Fault OutOfFuel
  | S fuel =>
      if i <=? max then
        let! plus := pbuf_memcmp s p i mem mem_len in
        if plus =? 0 then Ok i else memfind_loop fuel s p mem mem_len (u16 (i + plus)) max
      else Ok 0xFFFF
  end.

Definition pbuf_memfind (s : store) (p : Z) (mem : list Z) (mem_len start_offset : Z) : result Z :=
  let! c := deref s p in
  let max := u16 (tot_len c - mem_len) in
  if mem_len + start_offset <=? tot_len c
  then memfind_loop (S (Z.to_nat (tot_len c))) s p mem mem_len start_offset max
  else Ok 0xFFFF.

(** [strlen] of the memory from a pointer on. *)
Fixpoint strlen (l : list Z) : result Z :=
  match l with
  | [] => Fault OutOfBounds
  | c :: l => if c =? 0 then Ok 0 else let! n := strlen l in Ok (1 + n)
  end.

(** [pbuf_strstr]; [None] is a NULL [substr]. *)
Definition pbuf_strstr (s : store) (p : Z) (substr : option (list Z)) : result Z :=
  match substr with
  | None => Ok 0xFFFF
  | Some substr =>
      let! c0 := mread substr 0 in
      if c0 =? 0 then Ok 0xFFFF
      else
        let! c := deref s p in
        if tot_len c =? 0xFFFF then Ok 0xFFFF
        else
          let! substr_len := strlen substr in
          if 0xFFFF <=? substr_len then Ok 0xFFFF
          else pbuf_memfind s p substr (u16 substr_len) 0
  end.
End pbuf.

(** ** Chains *)

(** The addresses of the pbufs of the chain at [p]. *)
Fixpoint is_chain (s : store) (p : Z) (l : list Z) : Prop :=
  match l with
  | [] => p = 0
  | a :: l => p = a /\ a <> 0 /\ exists c, cells s !! a = Some c /\ is_chain s (next c) l
  end.

(** The bytes of one pbuf, and of a chain. *)
Definition cell_data (s : store) (c : pbuf) : list Z :=
  take (Z.to_nat (len c)) (drop (Z.to_nat (payload c).2) (default [] (blocks s !! (payload c).1))).
Definition data_of (s : store) (a : Z) : list Z :=
  match cells s !! a with Some c => cell_data s c | None => [] end.
Definition contents (s : store) (l : list Z) : list Z := concat (map (data_of s) l).

(** The payload of a pbuf lies in an allocated block. *)
Definition cell_ok (s : store) (c : pbuf) : Prop :=
  is_u16 (len c) /\ is_u16 (ref c) /\ bytes (cell_data s c) /\
  (0 < len c -> exists b, blocks s !! (payload c).1 = Some b /\
     0 <= (payload c).2 /\ (payload c).2 + len c <= zlen b).
Definition pbuf_ok (s : store) (a : Z) : Prop :=
  match cells s !! a with Some c => cell_ok s c | None => False end.

(** The invariant of [include/lwip/pbuf.h]: each total is the sum of the
    lengths from that pbuf on. *)
Fixpoint totals_ok (s : store) (l : list Z) : Prop :=
  match l with
  | [] => True
  | a :: l' => (match cells s !! a with
                | Some c => tot_len c = zlen (contents s l)
                | None => False end) /\ totals_ok s l'
  end.

(** A packet: a chain of well-formed pbufs whose totals fit their fields. *)
Record packet (s : store) (p : Z) (l : list Z) : Prop := {
  packet_chain : is_chain s p l;
  packet_cells : Forall (pbuf_ok s) l;
  packet_totals : totals_ok s l;
  packet_small : zlen (contents s l) < 65536
}.

Lemma chain_det s l1 : forall p l2, is_chain s p l1 -> is_chain s p l2 -> l1 = l2.
Proof.
  induction l1 as [|a l1 IH]; intros p [|b l2]; simpl; [done|by intros -> (<- & ? & _)|
    by intros (<- & ? & _) ->|].
  intros (<- & _ & c & Ec & H1) (<- & _ & c' & Ec' & H2). simplify_eq. f_equal. by eapply IH.
Qed.

Lemma chain_suffix s l1 : forall p a l2, is_chain s p (l1 ++ a :: l2) -> is_chain s a (a :: l2).
Proof.
  induction l1 as [|b l1 IH]; intros p a l2.
  - intros H. pose proof H as (-> & _). done.
  - intros (_ & _ & c & _ & H). by eapply IH.
Qed.

Lemma chain_nodup s p l : is_chain s p l -> NoDup l.
Proof.
  revert p. induction l as [|a l IH]; intros p H; [constructor|].
  pose proof H as (-> & _ & c & Ec & H'). apply NoDup_cons. split; [|by eapply IH].
  intros Hin. apply list_elem_of_split in Hin as (l1 & l2 & ->).
  change (a :: l1 ++ a :: l2) with ((a :: l1) ++ a :: l2) in H.
  pose proof (chain_suffix _ _ _ _ _ H) as H2.
  pose proof (chain_det _ _ _ _ H H2) as E. apply (f_equal length) in E.
  rewrite length_app in E. simpl in E. lia.
Qed.

Lemma chain_in s l : forall p a, is_chain s p l -> In a l -> a <> 0 /\ is_Some (cells s !! a).
Proof.
  induction l as [|b l IH]; intros p a; [done|].
  intros (-> & Hb & c & Ec & H) [<-|Hin]; [eauto|by eapply IH].
Qed.

Lemma chain_length s p l : is_chain s p l -> (length l <= size (cells s))%nat.
Proof.
  intros H. pose proof (chain_nodup _ _ _ H) as Hnd.
  rewrite <- (size_list_to_set (C:=gset Z) l) by done. rewrite <- size_dom.
  apply subseteq_size. intros a Ha%elem_of_list_to_set. apply elem_of_dom.
  apply (chain_in s l p a H). by apply list_elem_of_In.
Qed.

Lemma chain_enough s p l : is_chain s p l -> (length l < chain_fuel s)%nat.
Proof. intros H%chain_length. unfold chain_fuel. lia. Qed.

Lemma deref_ok s a c : a <> 0 -> cells s !! a = Some c -> deref s a = Ok c.
Proof. intros Ha E. unfold deref. by rewrite (proj2 (Z.eqb_neq a 0)), E by done. Qed.

Lemma cell_data_length s c : cell_ok s c -> zlen (cell_data s c) = len c.
Proof.
  intros (Hl & _ & _ & Hb). unfold is_u16 in Hl. unfold cell_data.
  destruct (Z.eq_dec (len c) 0) as [->|Hne]; [done|].
  destruct Hb as (b & -> & Ho & Hlen); [lia|]. simpl. unfold id, zlen in *.
  rewrite length_take, length_drop. lia.
Qed.

(** Loading within a pbuf. *)
Lemma load_ok s c i n : cell_ok s c -> 0 <= i -> 0 <= n -> i + n <= len c ->
  load s (payload c) i n = Ok (take (Z.to_nat n) (drop (Z.to_nat i) (cell_data s c))).
Proof.
  intros (Hl & _ & _ & Hb) Hi Hn Hin. unfold load.
  destruct (Z.eqb_spec n 0) as [->|Hne]; [done|].
  destruct Hb as (b & Eb & Ho & Hlen); [lia|]. rewrite Eb. cbn [of_option rbind].
  unfold mslice. rewrite !(proj2 (Z.leb_le _ _)) by lia. cbn [andb].
  unfold cell_data. rewrite Eb. cbn [default from_option]. unfold id. f_equal.
  rewrite skipn_firstn_comm, take_take, drop_drop, <- Z2Nat.inj_add by lia. f_equal. lia.
Qed.

Lemma cell_data_bytes s c : cell_ok s c -> bytes (cell_data s c).
Proof. by intros (_ & _ & H & _). Qed.

Lemma contents_cons s a l : contents s (a :: l) = data_of s a ++ contents s l.
Proof. done. Qed.

Lemma contents_bytes s l : Forall (pbuf_ok s) l -> bytes (contents s l).
Proof.
  induction 1 as [|a l Ha _ IH]; [constructor|]. rewrite contents_cons. apply bytes_app. split; [|done].
  unfold pbuf_ok, data_of in *. destruct (cells s !! a); [by apply cell_data_bytes|done].
Qed.

(** The head of a chain of well-formed pbufs. *)
Lemma chain_head s p a l : is_chain s p (a :: l) -> Forall (pbuf_ok s) (a :: l) ->
  p = a /\ exists c, deref s p = Ok c /\ cells s !! a = Some c /\ cell_ok s c /\
    (p =? 0) = false /\ data_of s a = cell_data s c /\ zlen (data_of s a) = len c /\
    is_chain s (next c) l /\ Forall (pbuf_ok s) l.
Proof.
  intros (-> & Ha & c & Ec & Hch) HF. apply List.Forall_cons_iff in HF as [Hok HF].
  unfold pbuf_ok in Hok. rewrite Ec in Hok. split; [done|]. exists c.
  assert (data_of s a = cell_data s c) as Hd by (unfold data_of; by rewrite Ec).
  split; [by apply deref_ok|]. split; [done|]. split; [done|]. split; [by apply Z.eqb_neq|].
  split; [done|]. split; [by rewrite Hd; apply cell_data_length|by split].
Qed.
