(* ===== verification/PbufChain.v ===== *)
(** * What the operations of [lwip/core/pbuf.c] do to the bytes, the lengths
    and the reference counts of a chain. *)
From S2P Require Import Prelude Cobs Uart Comm Pbuf.

(** ** Reading a chain *)
Lemma mcopy_seam pre l rest :
  zlen l <= zlen rest ->
  mcopy (pre ++ rest) (zlen pre) l = Ok (pre ++ l ++ drop (length l) rest).
Proof.
  intros Hl. pose proof (zlen_nonneg pre). unfold mcopy. zl.
  rewrite !(proj2 (Z.leb_le _ _)) by lia. cbn [andb]. unfold zlen. rewrite Nat2Z.id.
  rewrite take_app_length. do 2 f_equal. rewrite drop_app_ge by lia. do 2 f_equal. lia.
Qed.

Lemma data_length s a c : pbuf_ok s a -> cells s !! a = Some c -> zlen (data_of s a) = len c.
Proof.
  unfold pbuf_ok, data_of. intros Hok E. rewrite E in *. by apply cell_data_length.
Qed.

Lemma take_min {A} (n : Z) (l : list A) : 0 <= n ->
  take (Z.to_nat n) l = take (Z.to_nat (Z.min n (zlen l))) l.
Proof.
  intros Hn. destruct (Z.le_ge_cases n (zlen l)); [by rewrite Z.min_l|].
  rewrite Z.min_r by done. unfold zlen in *. rewrite !firstn_all2 by lia. done.
Qed.

(** [off] bytes into a chain: the first pbuf is skipped or read from. *)
Lemma drop_into (d r : list Z) off : zlen d <= off ->
  drop (Z.to_nat off) (d ++ r) = drop (Z.to_nat (off - zlen d)) r.
Proof. intros H. unfold zlen in *. rewrite drop_app_ge by lia. f_equal. lia. Qed.

Lemma copy_partial_loop_ok fuel : forall s p l pre rest n off,
  is_chain s p l -> Forall (pbuf_ok s) l -> (length l < fuel)%nat ->
  0 <= n <= zlen rest -> is_u16 off -> zlen pre + n < 65536 ->
  let r := take (Z.to_nat n) (drop (Z.to_nat off) (contents s l)) in
  copy_partial_loop fuel s p (pre ++ rest) (zlen pre) n off (zlen pre) =
  Ok (zlen pre + zlen r, pre ++ r ++ drop (length r) rest).
Proof.
  induction fuel as [|fuel IH]; intros s p l pre rest n off Hch HF Hf Hn Hoff Hsm r; [lia|].
  cbn [copy_partial_loop]. destruct (Z.eqb_spec n 0) as [->|Hn0].
  { cbn [orb]. subst r. simpl. by rewrite Z.add_0_r. }
  destruct l as [|a l].
  { rewrite Hch. cbn [orb Z.eqb]. subst r. change (contents s []) with (@nil Z).
    rewrite drop_nil, take_nil. simpl. by rewrite Z.add_0_r. }
  destruct (chain_head _ _ _ _ Hch HF) as (-> & c & Hd & Ec & Hok & Hz & Hda & Hlen & Hch' & HF').
  rewrite Hz, Hd. cbn [orb rbind]. pose proof Hok as (Hlc & _). unfold is_u16 in *.
  simpl in Hf. subst r. rewrite contents_cons. set (d := data_of s a) in *.
  destruct (negb (off =? 0) && (len c <=? off)) eqn:Eskip.
  { apply andb_true_iff in Eskip as [_ Hle%Z.leb_le]. rewrite u16_small by (unfold is_u16; lia).
    rewrite (IH s (next c) l pre rest n (off - len c)) by (try done; unfold is_u16; lia).
    rewrite drop_into by lia. by rewrite Hlen. }
  assert (off <= len c) as Hle.
  { apply andb_false_iff in Eskip as [E|E]; [apply negb_false_iff, Z.eqb_eq in E; lia|
      apply Z.leb_gt in E; lia]. }
  rewrite (u16_small (len c - off)) by (unfold is_u16; lia).
  set (k := if n <? len c - off then n else len c - off).
  assert (k = Z.min n (len c - off)) as Hk by (unfold k; destruct (Z.ltb_spec n (len c - off)); lia).
  rewrite (load_ok s c off k) by (try done; lia). cbn [rbind]. rewrite <- Hda. fold d.
  set (x := take (Z.to_nat k) (drop (Z.to_nat off) d)).
  assert (zlen x = k) as Hx.
  { unfold x, zlen in *. rewrite length_take, length_drop. lia. }
  rewrite mcopy_seam by lia. cbn [rbind].
  rewrite !(u16_small (zlen pre + k)), (u16_small (n - k)) by (unfold is_u16; zpos; lia).
  assert (take (Z.to_nat n) (drop (Z.to_nat off) (d ++ contents s l)) =
          x ++ take (Z.to_nat (n - k)) (contents s l)) as ->.
  { rewrite drop_app_le by (unfold zlen in *; lia). rewrite take_app.
    assert (zlen (drop (Z.to_nat off) d) = len c - off) as Hdl
      by (unfold zlen in *; rewrite length_drop; lia).
    f_equal; [unfold x; rewrite take_min by lia; by rewrite Hdl, <- Hk|].
    f_equal. unfold zlen in *. lia. }
  rewrite app_assoc. replace (zlen pre + k) with (zlen (pre ++ x)) by (zl; lia).
  pose proof (zlen_nonneg pre).
  rewrite (IH s (next c) l (pre ++ x) (drop (length x) rest) (n - k) 0);
    [|done|done|lia| |unfold is_u16; lia|zl; lia].
  - rewrite drop_0. do 2 f_equal; [zl; lia|]. app_norm. do 3 f_equal.
    rewrite drop_drop. f_equal. rewrite length_app. lia.
  - unfold zlen in *. rewrite length_drop. lia.
Qed.

Lemma copy_partial_ok s p l dst n off :
  is_chain s p l -> Forall (pbuf_ok s) l -> 0 <= n <= zlen dst -> is_u16 n -> is_u16 off ->
  let r := take (Z.to_nat n) (drop (Z.to_nat off) (contents s l)) in
  pbuf_copy_partial s p dst n off = Ok (zlen r, r ++ drop (length r) dst).
Proof.
  intros Hch HF Hn Hn16 Hoff r. unfold pbuf_copy_partial. destruct (Z.eqb_spec p 0) as [->|Hp].
  - destruct l as [|a l]; [|by destruct Hch as (<- & ? & _)].
    subst r. change (contents s []) with (@nil Z). by rewrite drop_nil, take_nil.
  - unfold is_u16 in Hn16. pose proof (chain_enough _ _ _ Hch) as Hf.
    pose proof (copy_partial_loop_ok (chain_fuel s) s p l [] dst n off Hch HF Hf Hn Hoff) as E.
    cbn [app] in E. rewrite zlen_nil in E. rewrite E by lia. by rewrite Z.add_0_l.
Qed.

(** The pbuf an offset falls in. *)
Lemma find_at_ok fuel : forall s q l off,
  is_chain s q l -> Forall (pbuf_ok s) l -> (length l < fuel)%nat -> is_u16 off ->
  exists q' off' l', find_at fuel s q off = Ok (q', off') /\ is_chain s q' l' /\
    Forall (pbuf_ok s) l' /\ 0 <= off' <= off /\
    drop (Z.to_nat off) (contents s l) = drop (Z.to_nat off') (contents s l') /\
    match l' with [] => zlen (contents s l) <= off | a :: _ => off' < zlen (data_of s a) end.
Proof.
  induction fuel as [|fuel IH]; intros s q l off Hch HF Hf Hoff; [lia|]. cbn [find_at].
  unfold is_u16 in Hoff. destruct l as [|a l].
  { rewrite Hch. exists 0, off, []. repeat split; try done; simpl; zl; lia. }
  pose proof Hch as Hch0. pose proof HF as HF0.
  destruct (chain_head _ _ _ _ Hch HF) as (-> & c & Hd & Ec & Hok & Hz & Hda & Hlen & Hch' & HF').
  rewrite Hz, Hd. cbn [rbind]. pose proof Hok as (Hlc & _). unfold is_u16 in Hlc. simpl in Hf.
  destruct (Z.leb_spec (len c) off) as [Hle|Hlt].
  - rewrite u16_small by (unfold is_u16; lia).
    destruct (IH s (next c) l (off - len c) Hch' HF' ltac:(lia) ltac:(unfold is_u16; lia))
      as (q' & off' & l' & E & Hq & HFq & Ho & Hdr & Hm).
    exists q', off', l'. split; [done|]. split; [done|]. split; [done|]. split; [lia|].
    rewrite contents_cons. split; [by rewrite drop_into, Hlen by lia|].
    destruct l'; [zl; lia|done].
  - exists a, off, (a :: l). split; [done|]. split; [exact Hch0|]. split; [done|].
    split; [lia|]. split; [done|lia].
Qed.

Lemma get_at_ok s p l off :
  is_chain s p l -> Forall (pbuf_ok s) l -> is_u16 off ->
  pbuf_get_at s p off = Ok (nth (Z.to_nat off) (contents s l) 0).
Proof.
  intros Hch HF Hoff. unfold pbuf_get_at.
  destruct (find_at_ok (chain_fuel s) s p l off Hch HF (chain_enough _ _ _ Hch) Hoff)
    as (q & off' & l' & E & Hq & HFq & Ho & Hdr & Hm).
  rewrite E. cbn [rbind]. assert (forall k (m : list Z), nth k m 0 = nth 0 (drop k m) 0) as Hnth.
  { intros k m. rewrite !nth_lookup, lookup_drop. by rewrite Nat.add_0_r. }
  rewrite Hnth, Hdr, <- Hnth. destruct l' as [|a l'].
  { rewrite Hq. simpl. by destruct (Z.to_nat off'). }
  destruct (chain_head _ _ _ _ Hq HFq) as (-> & c & Hd & Ec & Hok & Hz & Hda & Hlen & _ & _).
  rewrite Hz, Hd. cbn [rbind]. rewrite (load_ok s c off' 1) by (try done; lia). cbn [rbind].
  rewrite <- Hda, contents_cons. rewrite app_nth1 by (unfold zlen in *; lia).
  destruct (lookup_lt_is_Some_2 (data_of s a) (Z.to_nat off')) as [x Ex]; [unfold zlen in *; lia|].
  rewrite (drop_S _ _ _ Ex). rewrite nth_lookup, Ex. done.
Qed.

(** ** Comparing and searching *)

(** One more than the index of the first difference, 0 when there is none. *)
Fixpoint first_diff (a b : list Z) : Z :=
  match a, b with
  | x :: a, y :: b => if x =? y then (let d := first_diff a b in if d =? 0 then 0 else d + 1) else 1
  | _, _ => 0
  end.

Lemma first_diff_range a b : 0 <= first_diff a b <= zlen a.
Proof.
  revert b. induction a as [|x a IH]; intros [|y b]; cbn [first_diff]; zl; zpos; try lia.
  specialize (IH b). destruct (x =? y); [|lia]. destruct (first_diff a b =? 0); lia.
Qed.

Lemma first_diff_zero a b : length a = length b -> first_diff a b = 0 <-> a = b.
Proof.
  revert b. induction a as [|x a IH]; intros [|y b] Hl; try done. simpl in *.
  pose proof (first_diff_range a b). specialize (IH b ltac:(lia)).
  destruct (Z.eqb_spec x y) as [->|]; [|split; intros E; [done|by injection E]].
  destruct (Z.eqb_spec (first_diff a b) 0) as [E|E].
  - split; [intros _; f_equal; by apply IH|done].
  - split; intros E'; [lia|injection E' as E'; exfalso; by apply E, IH].
Qed.

Lemma memcmp_loop_ok fuel : forall s q l start i s2 n,
  is_chain s q l -> Forall (pbuf_ok s) l -> n - i < Z.of_nat fuel -> 0 <= i <= n -> 0 <= start ->
  start + n <= zlen (contents s l) -> zlen (contents s l) < 65536 -> n <= zlen s2 ->
  let d := first_diff (take (Z.to_nat (n - i)) (drop (Z.to_nat (start + i)) (contents s l)))
                      (take (Z.to_nat (n - i)) (drop (Z.to_nat i) s2)) in
  memcmp_loop fuel s q start i s2 n = Ok (if d =? 0 then 0 else i + d).
Proof.
  induction fuel as [|fuel IH]; intros s q l start i s2 n Hch HF Hf Hi Hst Hlen Hsm Hs2 d; [lia|].
  cbn [memcmp_loop]. destruct (Z.ltb_spec i n) as [Hin|Hin].
  - assert (u16 (i + 1) = i + 1) as Eu by (apply u16_small; unfold is_u16; zpos; lia).
    rewrite (u16_small (start + i)) by (unfold is_u16; lia).
    rewrite (get_at_ok s q l) by (try done; unfold is_u16; lia). cbn [rbind].
    destruct (lookup_lt_is_Some_2 (contents s l) (Z.to_nat (start + i))) as [x Ex]; [unfold zlen in *; lia|].
    destruct (lookup_lt_is_Some_2 s2 (Z.to_nat i)) as [y Ey]; [unfold zlen in *; lia|].
    unfold mread. rewrite (proj2 (Z.leb_le _ _)), Ey by lia. cbn [of_option rbind].
    rewrite nth_lookup, Ex. cbn [default from_option].
    rewrite !Eu, (IH s q l start (i + 1)) by (try done; lia).
    subst d. replace (Z.to_nat (n - i)) with (S (Z.to_nat (n - (i + 1)))) by lia.
    rewrite (drop_S _ _ _ Ex), (drop_S _ _ _ Ey). cbn [take first_diff].
    replace (S (Z.to_nat (start + i))) with (Z.to_nat (start + (i + 1))) by lia.
    replace (S (Z.to_nat i)) with (Z.to_nat (i + 1)) by lia.
    set (d := first_diff _ _). pose proof (first_diff_range
      (take (Z.to_nat (n - (i + 1))) (drop (Z.to_nat (start + (i + 1))) (contents s l)))
      (take (Z.to_nat (n - (i + 1))) (drop (Z.to_nat (i + 1)) s2))) as Hd. fold d in Hd.
    unfold id. destruct (x =? y); cbn [negb]; [|done].
    destruct (Z.eqb_spec d 0); [done|]. rewrite (proj2 (Z.eqb_neq (d + 1) 0)) by lia. f_equal. lia.
  - subst d. replace (n - i) with 0 by lia. done.
Qed.

Lemma memcmp_ok s p l off s2 n :
  is_chain s p l -> Forall (pbuf_ok s) l -> 0 <= n <= zlen s2 -> 0 <= off < zlen (contents s l) ->
  off + n <= zlen (contents s l) -> zlen (contents s l) < 65536 ->
  pbuf_memcmp s p off s2 n =
  Ok (first_diff (take (Z.to_nat n) (drop (Z.to_nat off) (contents s l))) (take (Z.to_nat n) s2)).
Proof.
  intros Hch HF Hn Hoff Hlen Hsm. unfold pbuf_memcmp.
  destruct (find_at_ok (chain_fuel s) s p l off Hch HF (chain_enough _ _ _ Hch) ltac:(unfold is_u16; lia))
    as (q & off' & l' & E & Hq & HFq & Ho & Hdr & Hm).
  rewrite E. cbn [rbind]. destruct l' as [|a l']; [lia|].
  destruct (chain_head _ _ _ _ Hq HFq) as (-> & c & _ & _ & _ & Hz & _). rewrite Hz.
  assert (zlen (contents s (a :: l')) - off' = zlen (contents s l) - off) as Hl'.
  { pose proof (f_equal length Hdr) as El. rewrite !length_drop in El.
    rewrite contents_cons in El |- *. zl. unfold zlen in *. rewrite length_app in El. lia. }
  pose proof (memcmp_loop_ok (S (Z.to_nat n)) s a (a :: l') off' 0 s2 n Hq HFq) as Hloop.
  cbv zeta in Hloop. rewrite Z.sub_0_r, Z.add_0_r in Hloop. change (Z.to_nat 0) with 0%nat in Hloop.
  rewrite drop_0 in Hloop. rewrite Hloop by lia. rewrite Hdr. set (d := first_diff _ _).
  destruct (Z.eqb_spec d 0) as [->|]; [done|]. by rewrite Z.add_0_l.
Qed.

Lemma memfind_loop_ok fuel : forall s p l mem i,
  is_chain s p l -> Forall (pbuf_ok s) l -> 0 < zlen mem -> 0 <= i ->
  zlen (contents s l) - i < Z.of_nat fuel -> zlen (contents s l) < 65536 ->
  zlen mem <= zlen (contents s l) -> i <= zlen (contents s l) ->
  exists r, memfind_loop fuel s p mem (zlen mem) i (zlen (contents s l) - zlen mem) = Ok r /\
    (r = 0xFFFF \/ i <= r /\ r + zlen mem <= zlen (contents s l) /\
       take (length mem) (drop (Z.to_nat r) (contents s l)) = mem).
Proof.
  induction fuel as [|fuel IH]; intros s p l mem i Hch HF Hm Hi Hf Hsm Hle Hil; [lia|].
  cbn [memfind_loop]. destruct (Z.leb_spec i (zlen (contents s l) - zlen mem)) as [Him|].
  - rewrite (memcmp_ok s p l) by (try done; lia). cbn [rbind].
    replace (Z.to_nat (zlen mem)) with (length mem) by (unfold zlen; lia). rewrite firstn_all.
    set (w := take (length mem) (drop (Z.to_nat i) (contents s l))).
    assert (length w = length mem) as Hw.
    { unfold w. rewrite length_take, length_drop. unfold zlen in *. lia. }
    pose proof (first_diff_range w mem) as Hd. pose proof (first_diff_zero w mem Hw) as Hd0.
    destruct (Z.eqb_spec (first_diff w mem) 0) as [E|E].
    + exists i. split; [done|]. right. split; [lia|]. split; [lia|]. by apply Hd0.
    + assert (zlen w = zlen mem) as Hzw by (unfold zlen; lia).
      rewrite u16_small by (unfold is_u16; lia).
      destruct (IH s p l mem (i + first_diff w mem) Hch HF Hm) as (r & Er & Hr); try lia.
      exists r. split; [done|]. destruct Hr as [->|(? & ? & ?)]; [by left|right]. repeat split; [lia|lia|done].
  - eexists. split; [reflexivity|by left].
Qed.

(** ** Freeing *)

(** The store without the pbufs [l] and their memory. *)
Fixpoint without (l : list Z) (s : store) : store :=
  match l with
  | [] => s
  | a :: l => without l (Store (delete a (cells s)) (delete a (blocks s)))
  end.

(** The reference of the chain's holder is given up at [l]: nothing is left
    to do at the end of the chain, else the count goes down by one. *)
Definition unref (l : list Z) (s : store) : store :=
  match l with
  | [] => s
  | a :: _ => match cells s !! a with Some c => put s a (set_ref c (ref c - 1)) | None => s end
  end.

Definition ref_of (s : store) (a : Z) : Z := match cells s !! a with Some c => ref c | None => 0 end.

Lemma chain_frame s s' l : forall p,
  (forall a, In a l -> cells s' !! a = cells s !! a) -> is_chain s p l -> is_chain s' p l.
Proof.
  induction l as [|a l IH]; intros p Hf; [done|]. intros (-> & Ha & c & Ec & H).
  split; [done|]. split; [done|]. exists c. rewrite Hf by by left. split; [done|].
  apply IH; [|done]. intros b Hb. apply Hf. by right.
Qed.

Lemma without_cells l : forall s a, ~ In a l -> cells (without l s) !! a = cells s !! a.
Proof.
  induction l as [|b l IH]; intros s a Hn; [done|]. cbn [without]. rewrite IH by (intros ?; apply Hn; by right).
  simpl. apply lookup_delete_ne. intros ->. apply Hn. by left.
Qed.

(** A pbuf a loop over the chain can release: it has its own memory and at
    least one reference. *)
Definition releasable (s : store) (a : Z) : Prop :=
  exists c, cells s !! a = Some c /\ is_Some (blocks s !! a) /\ 1 <= ref c < 65536.

Lemma free_loop_ok l1 : forall fuel s p l2 count,
  is_chain s p (l1 ++ l2) -> Forall (releasable s) (l1 ++ l2) ->
  (length (l1 ++ l2) < fuel)%nat -> Forall (fun a => ref_of s a = 1) l1 ->
  match l2 with [] => True | a :: _ => ref_of s a <> 1 end ->
  0 <= count < 256 ->
  pbuf_free_loop fuel s p count =
  Ok (u8 (count + zlen l1), without l1 (unref l2 s)).
Proof.
  induction l1 as [|a l1 IH]; intros fuel s p l2 count Hch HF Hf H1 H2 Hc.
  - destruct fuel as [|fuel]; [lia|]. cbn [pbuf_free_loop app without] in *.
    assert (u8 (count + zlen (@nil Z)) = count) as -> by (rewrite Z.add_0_r; apply u8_small; unfold is_byte; lia).
    destruct l2 as [|a l2]; [by rewrite Hch|].
    destruct Hch as (-> & Ha & c & Ec & Hch). rewrite (proj2 (Z.eqb_neq a 0)) by done.
    rewrite (deref_ok s a c) by done. cbn [rbind].
    apply List.Forall_cons_iff in HF as [(c' & Ec' & _ & Hr) _]. simplify_eq.
    unfold ref_of in H2. rewrite Ec in H2. rewrite u16_small by (unfold is_u16; lia).
    rewrite (proj2 (Z.eqb_neq _ _)) by lia. unfold unref. by rewrite Ec.
  - destruct fuel as [|fuel]; [lia|]. cbn [pbuf_free_loop].
    pose proof (chain_nodup _ _ _ Hch) as Hnd. cbn [app] in *.
    destruct Hch as (-> & Ha & c & Ec & Hch). rewrite (proj2 (Z.eqb_neq a 0)) by done.
    rewrite (deref_ok s a c) by done. cbn [rbind].
    apply List.Forall_cons_iff in HF as [(c' & Ec' & [b Hb] & Hr) HF].
    apply List.Forall_cons_iff in H1 as [Hr1 H1]. simplify_eq.
    unfold ref_of in Hr1. rewrite Ec in Hr1. rewrite Hr1. change (u16 (1 - 1)) with 0. cbn [Z.eqb].
    unfold pbuf_release, os_free. cbn [blocks put]. rewrite Hb. cbn [rbind cells].
    cbn [cells put]. rewrite delete_insert_eq.
    set (s1 := Store (delete a (cells s)) (delete a (blocks s))).
    apply NoDup_cons in Hnd as [Hnin Hnd].
    assert (forall x, In x (l1 ++ l2) -> x <> a) as Hne.
    { intros x Hx ->. apply Hnin. by apply list_elem_of_In. }
    assert (forall x, In x (l1 ++ l2) -> cells s1 !! x = cells s !! x) as Hcs.
    { intros x Hx. simpl. apply lookup_delete_ne. intros E. by apply (Hne x Hx). }
    etransitivity; [apply (IH fuel s1 (next c) l2 (u8 (count + 1)))|].
    + by apply (chain_frame s s1).
    + rewrite List.Forall_forall in HF |- *. intros x Hx. destruct (HF x Hx) as (cx & Ex & Hbx & Hrx).
      exists cx. rewrite Hcs by done. split; [done|]. split; [|done]. simpl.
      rewrite lookup_delete_ne; [done|]. intros E. by apply (Hne x Hx).
    + simpl in Hf. lia.
    + rewrite List.Forall_forall in H1 |- *. intros x Hx. unfold ref_of.
      rewrite Hcs by (apply in_app_iff; by left). by apply H1.
    + destruct l2 as [|x l2]; [done|]. unfold ref_of. rewrite Hcs; [done|].
      apply in_app_iff. right. by left.
    + apply u8_range.
    + f_equal. f_equal.
      * unfold u8. rewrite Z.add_mod_idemp_l by done. f_equal. zl. lia.
      * cbn [without]. f_equal. destruct l2 as [|x l2]; [done|]. cbn [unref].
        assert (In x (l1 ++ x :: l2)) as Hx by (apply in_app_iff; right; by left).
        rewrite Hcs by done. destruct (cells s !! x) as [cx|]; [|done].
        unfold put, s1. cbn [cells blocks]. f_equal. rewrite delete_insert_ne; [done|].
        intros E. by apply (Hne x Hx).
Qed.

(** ** Writing a chain *)

(** The payload lies in the pbuf's own block. *)
Definition own (s : store) (a : Z) : Prop :=
  match cells s !! a with Some c => (payload c).1 = a | None => False end.

Lemma save_ok s a c x :
  cells s !! a = Some c -> cell_ok s c -> (payload c).1 = a -> zlen x <= len c -> bytes x ->
  exists s1, save s (payload c) 0 x = Ok s1 /\ cells s1 = cells s /\
    (forall b, b <> a -> blocks s1 !! b = blocks s !! b) /\ cell_ok s1 c /\
    cell_data s1 c = x ++ drop (length x) (cell_data s c).
Proof.
  intros Ec Hok Hown Hx Hbx. unfold save. pose proof (zlen_nonneg x).
  destruct (Z.eqb_spec (zlen x) 0) as [Hz|Hz].
  { exists s. repeat (split; [done|]). assert (x = []) as -> by (destruct x; [done|]; zl; zpos; lia). done. }
  pose proof (cell_data_bytes s c Hok) as Hcb. pose proof Hok as (Hl & Hr & _ & Hb).
  destruct Hb as (b & Eb & Ho & Hlen); [lia|]. rewrite Eb. cbn [of_option rbind].
  unfold mcopy. rewrite Z.add_0_r, !(proj2 (Z.leb_le _ _)) by lia. cbn [andb rbind].
  set (b' := take _ _ ++ _). rewrite Hown. set (s1 := Store (cells s) (<[a := b']> (blocks s))).
  assert (cell_data s1 c = x ++ drop (length x) (cell_data s c)) as Hdata.
  { unfold cell_data, s1. rewrite Hown in Eb |- *. cbn [blocks]. rewrite lookup_insert_eq, Eb.
    cbn [default from_option]. unfold id, b'.
    set (o := Z.to_nat (payload c).2). set (n := Z.to_nat (len c)).
    assert (length (take o b) = o) as Hto by (rewrite length_take; unfold zlen in *; lia).
    rewrite drop_app_ge by lia. rewrite Hto, Nat.sub_diag, drop_0.
    rewrite firstn_app. rewrite firstn_all2 by (unfold zlen in *; lia). f_equal.
    rewrite skipn_firstn_comm, drop_drop. done. }
  exists s1. split; [done|]. split; [done|]. split.
  { intros z Hz'. simpl. by rewrite lookup_insert_ne. }
  split; [|done]. split; [done|]. split; [done|]. split.
  { rewrite Hdata. apply bytes_app. split; [done|]. by apply Forall_drop. }
  intros _. exists b'. rewrite Hown. cbn [blocks s1]. rewrite lookup_insert_eq.
  split; [done|]. split; [done|]. unfold b', zlen in *. rewrite !length_app, length_take, length_drop. lia.
Qed.

Lemma data_frame s s1 l :
  cells s1 = cells s -> (forall a, In a l -> blocks s1 !! a = blocks s !! a) -> Forall (own s) l ->
  contents s1 l = contents s l /\ (Forall (pbuf_ok s) l -> Forall (pbuf_ok s1) l).
Proof.
  intros Hc Hb Hown. rewrite List.Forall_forall in Hown.
  assert (forall a c, In a l -> cells s !! a = Some c -> cell_data s1 c = cell_data s c) as Hd.
  { intros a c Hin Ec. specialize (Hown a Hin). unfold own in Hown. rewrite Ec in Hown.
    unfold cell_data. by rewrite Hown, Hb. }
  split.
  - unfold contents. f_equal. apply map_ext_in. intros a Hin. unfold data_of. rewrite Hc.
    destruct (cells s !! a) eqn:Ec; [by eapply Hd|done].
  - intros HF. rewrite List.Forall_forall in HF |- *. intros a Hin. specialize (HF a Hin).
    specialize (Hown a Hin). unfold pbuf_ok, own in *. rewrite Hc.
    destruct (cells s !! a) as [c|] eqn:Ec; [|done]. destruct HF as (? & ? & Hby & Hbl).
    split; [done|]. split; [done|]. split; [by rewrite (Hd a c)|].
    intros Hpos. destruct (Hbl Hpos) as (b & Eb & ?). exists b. split; [|done].
    rewrite Hown in Eb |- *. by rewrite Hb.
Qed.

Lemma take_loop_ok fuel : forall s p l data n pos,
  is_chain s p l -> Forall (pbuf_ok s) l -> Forall (own s) l -> (length l < fuel)%nat ->
  0 <= n <= zlen (contents s l) -> 0 <= pos -> pos + n <= zlen data -> pos + n < 65536 -> bytes data ->
  exists s', take_loop fuel s p data n pos = Ok s' /\ cells s' = cells s /\
    (forall b, ~ In b l -> blocks s' !! b = blocks s !! b) /\ Forall (pbuf_ok s') l /\
    contents s' l = take (Z.to_nat n) (drop (Z.to_nat pos) data) ++ drop (Z.to_nat n) (contents s l).
Proof.
  induction fuel as [|fuel IH]; intros s p l data n pos Hch HF Hown Hf Hn Hpos Hpn Hsm Hbd; [lia|].
  cbn [take_loop]. destruct (Z.eqb_spec n 0) as [->|Hn0]; [by exists s|].
  destruct l as [|a l]; [change (zlen (contents s [])) with 0 in Hn; lia|].
  pose proof (chain_nodup _ _ _ Hch) as [Hnin Hnd]%NoDup_cons.
  rewrite list_elem_of_In in Hnin.
  destruct (chain_head _ _ _ _ Hch HF) as (-> & c & Hd & Ec & Hok & Hz & Hda & Hlen & Hch' & HF').
  rewrite Hd. cbn [rbind]. pose proof Hok as (Hlc & _). unfold is_u16 in Hlc.
  apply List.Forall_cons_iff in Hown as [Hown Hown'].
  unfold own in Hown. rewrite Ec in Hown. rewrite contents_cons in Hn |- *. zl.
  set (k := if len c <? n then len c else n).
  assert (k = Z.min n (len c)) as Hk by (unfold k; destruct (Z.ltb_spec (len c) n); lia).
  unfold mslice. rewrite !(proj2 (Z.leb_le _ _)) by lia. cbn [andb rbind].
  set (x := take (Z.to_nat k) (drop (Z.to_nat pos) data)).
  assert (zlen x = k) as Hx by (unfold x, zlen in *; rewrite length_take, length_drop; lia).
  assert (bytes x) as Hbx by by apply Forall_take, Forall_drop.
  destruct (save_ok s a c x Ec Hok Hown) as (s1 & E1 & Hc1 & Hb1 & Hok1 & Hd1); [lia|done|].
  rewrite E1. cbn [rbind]. rewrite !u16_small by (unfold is_u16; lia).
  assert (forall b, In b l -> blocks s1 !! b = blocks s !! b) as Hbl1.
  { intros b Hb. apply Hb1. intros ->. by apply Hnin. }
  destruct (data_frame s s1 l Hc1 Hbl1 Hown') as [Hcont Hoks].
  destruct (IH s1 (next c) l data (n - k) (pos + k)) as (s' & E' & Hc' & Hb' & HF2 & Hcon');
    try done; try (rewrite ?Hcont; zpos; lia); try by apply Hoks.
  { apply (chain_frame s); [|done]. intros; by rewrite Hc1. }
  { rewrite List.Forall_forall in Hown' |- *. intros y Hy. unfold own. rewrite Hc1. by apply Hown'. }
  { simpl in Hf. lia. }
  exists s'. split; [exact E'|]. split; [congruence|]. split.
  { intros b Hb. rewrite Hb' by (intros ?; apply Hb; by right). apply Hb1. intros ->. apply Hb. by left. }
  assert (cell_data s' c = cell_data s1 c) as Hds.
  { unfold cell_data. rewrite Hown. by rewrite Hb'. }
  assert (pbuf_ok s' a) as Hoka.
  { unfold pbuf_ok. rewrite Hc', Hc1, Ec. destruct Hok1 as (? & ? & ? & Hbb).
    split; [done|]. split; [done|]. split; [by rewrite Hds|]. intros Hp. destruct (Hbb Hp) as (b & Eb & ?).
    exists b. rewrite Hown in Eb |- *. by rewrite Hb'. }
  split; [by apply List.Forall_cons|].
  rewrite contents_cons. assert (data_of s' a = cell_data s1 c) as ->
    by (unfold data_of; by rewrite Hc', Hc1, Ec, Hds).
  rewrite Hcon', Hd1, Hcont, <- Hda. set (d := data_of s a) in *. set (r := contents s l) in *.
  destruct (Z.le_ge_cases n (len c)) as [Hle|Hge].
  - assert (k = n) as Ekn by lia. rewrite Ekn, Z.sub_diag. change (Z.to_nat 0) with 0%nat.
    rewrite take_0, drop_0, (drop_app_le d) by (unfold zlen in *; lia). cbn [app].
    replace (length x) with (Z.to_nat n) by (unfold zlen in *; lia).
    rewrite <- app_assoc. unfold x. by rewrite Ekn.
  - assert (k = len c) as Ekc by lia.
    rewrite (skipn_all2 d) by (unfold zlen in *; lia). rewrite app_nil_r, app_assoc. f_equal.
    + unfold x. rewrite Ekc. replace (Z.to_nat (pos + len c)) with (Z.to_nat pos + Z.to_nat (len c))%nat by lia.
      rewrite <- drop_drop. set (z := drop (Z.to_nat pos) data).
      rewrite <- (take_drop (Z.to_nat (len c)) z) at 3. rewrite firstn_app.
      assert (length (take (Z.to_nat (len c)) z) = Z.to_nat (len c)) as Hlz
        by (unfold z, zlen in *; rewrite length_take, length_drop; lia).
      rewrite Hlz, (firstn_all2 (n := Z.to_nat n)) by lia. f_equal. f_equal. lia.
    + rewrite Ekc, <- Hlen. symmetry. apply drop_into. lia.
Qed.

(** ** Headers *)

(** A pbuf with its own area, whose payload lies behind the structure. *)
Definition has_area (c : pbuf) : Prop :=
  (type c = PBUF_RAM \/ type c = PBUF_POOL) /\ SIZEOF_STRUCT_PBUF <= (payload c).2.

(** The pbuf with its payload moved by [n] bytes. *)
Definition moved (c : pbuf) (n : Z) : pbuf :=
  set_tot_len (set_len (set_payload c ((payload c).1, (payload c).2 - n)) (len c + n)) (tot_len c + n).

Lemma header_ok s a c n :
  a <> 0 -> cells s !! a = Some c -> has_area c -> n <> 0 -> -32768 <= n < 32768 ->
  0 <= len c + n < 65536 -> 0 <= tot_len c + n < 65536 ->
  SIZEOF_STRUCT_PBUF <= (payload c).2 - n -> pbuf_header s a n = Ok (0, put s a (moved c n)).
Proof.
  intros Ha Ec [Ht Hp] Hn Hr Hl Htot Hroom. unfold pbuf_header.
  rewrite (proj2 (Z.eqb_neq n 0)), (proj2 (Z.eqb_neq a 0)), (deref_ok s a c) by done. cbn [orb rbind].
  assert ((n <? 0) && (len c <? u16 (if n <? 0 then - n else n)) = false) as ->.
  { destruct (Z.ltb_spec n 0); [|done]. cbn [andb]. apply Z.ltb_ge.
    rewrite u16_small by (unfold is_u16; lia). lia. }
  destruct Ht as [-> | ->]; cbn [snd]; rewrite (proj2 (Z.ltb_ge _ _)) by lia;
    cbn [len tot_len set_payload]; by rewrite !u16_small by (unfold is_u16; lia).
Qed.

Lemma header_any s p n c : p <> 0 -> cells s !! p = Some c -> n <> 0 ->
  pbuf_header s p n = Ok (1, s) \/
  exists c', pbuf_header s p n = Ok (0, put s p c') /\ next c' = next c /\ ref c' = ref c.
Proof.
  intros Hp Ec Hn. unfold pbuf_header. rewrite (proj2 (Z.eqb_neq n 0)), (proj2 (Z.eqb_neq p 0)) by done.
  rewrite (deref_ok s p c) by done. cbn [orb rbind]. destruct (_ && _); [by left|].
  destruct (type c); try (destruct (_ <? SIZEOF_STRUCT_PBUF); [by left|]); try (destruct (_ && _); [|by left]);
    right; by eexists.
Qed.

Lemma put_same s a c : cells s !! a = Some c -> put s a c = s.
Proof. intros E. unfold put. destruct s as [cs bs]. simpl in *. by rewrite insert_id. Qed.

Lemma put_put s a c c' : put (put s a c) a c' = put s a c'.
Proof. unfold put. simpl. by rewrite insert_insert_eq. Qed.

Lemma moved_back c n : moved (moved c n) (- n) = c.
Proof.
  destruct c as [nx [b o] t l ty f r]. unfold moved. cbn.
  replace (o - n - - n) with o by lia. replace (l + n + - n) with l by lia.
  by replace (t + n + - n) with t by lia.
Qed.

Lemma moved_data s a c n : cell_ok s c -> 0 <= n <= len c ->
  cell_data (put s a (moved c (- n))) (moved c (- n)) = drop (Z.to_nat n) (cell_data s c) /\
  cell_ok (put s a (moved c (- n))) (moved c (- n)).
Proof.
  intros Hok Hn. pose proof (cell_data_bytes s c Hok) as Hb. destruct Hok as (Hl & Hr & _ & Hbl).
  assert (cell_data (put s a (moved c (- n))) (moved c (- n)) = drop (Z.to_nat n) (cell_data s c)) as E.
  { destruct (Z.eq_dec (len c) 0) as [Hz|Hz].
    - assert (n = 0) as -> by lia. unfold cell_data, moved. cbn. rewrite Hz. done.
    - destruct Hbl as (b & Eb & Ho & Hlen); [unfold is_u16 in Hl; lia|]. unfold cell_data, moved. cbn.
      rewrite Eb. cbn. unfold id. rewrite skipn_firstn_comm, drop_drop. f_equal; [lia|]. f_equal. lia. }
  split; [done|]. split; [unfold is_u16 in *; cbn; lia|]. split; [done|].
  split; [rewrite E; by apply Forall_drop|].
  cbn. intros Hp. destruct Hbl as (b & Eb & Ho & Hlen); [lia|]. exists b. split; [done|]. lia.
Qed.

(** Updating one cell leaves the data of the others. *)
Lemma data_of_put s a c x : x <> a -> data_of (put s a c) x = data_of s x.
Proof. intros Hx. unfold data_of, put. simpl. by rewrite lookup_insert_ne. Qed.
Lemma data_of_put_eq s a c : data_of (put s a c) a = cell_data s c.
Proof. unfold data_of, put. simpl. by rewrite lookup_insert_eq. Qed.
Lemma contents_put s a c l : ~ In a l -> contents (put s a c) l = contents s l.
Proof.
  intros Hn. unfold contents. f_equal. apply map_ext_in. intros x Hx. apply data_of_put.
  intros ->. done.
Qed.
Lemma pbuf_ok_put s a c l : ~ In a l -> Forall (pbuf_ok s) l -> Forall (pbuf_ok (put s a c)) l.
Proof.
  intros Hn HF. rewrite List.Forall_forall in HF |- *. intros x Hx. specialize (HF x Hx).
  unfold pbuf_ok, put in *. simpl. rewrite lookup_insert_ne by (intros ->; done).
  by destruct (cells s !! x).
Qed.
Lemma totals_put s a c l : ~ In a l -> totals_ok s l -> totals_ok (put s a c) l.
Proof.
  induction l as [|x l IH]; [done|]. intros Hn [Ht Htl]. cbn [totals_ok].
  assert (x <> a) as Hx by (intros ->; apply Hn; by left).
  split; [|apply IH; [intros ?; apply Hn; by right|done]].
  rewrite contents_put by done. unfold put at 1. simpl. rewrite lookup_insert_ne by done. done.
Qed.
Lemma chain_put s a c l p : ~ In a l -> is_chain s p l -> is_chain (put s a c) p l.
Proof.
  intros Hn. apply chain_frame. intros x Hx. unfold put. simpl. apply lookup_insert_ne.
  intros ->. done.
Qed.

(** Hiding [n] bytes at the front of a packet. *)
Lemma hide_packet s p a l c n :
  packet s p (a :: l) -> cells s !! a = Some c -> has_area c -> 0 < n <= len c -> n < 32768 ->
  pbuf_header s p (- n) = Ok (0, put s a (moved c (- n))) /\
  packet (put s a (moved c (- n))) p (a :: l) /\
  contents (put s a (moved c (- n))) (a :: l) = drop (Z.to_nat n) (contents s (a :: l)).
Proof.
  intros [Hch HF Htot Hsm] Ec Harea Hn Hn16.
  pose proof (chain_nodup _ _ _ Hch) as [Hnin _]%NoDup_cons. rewrite list_elem_of_In in Hnin.
  destruct (chain_head _ _ _ _ Hch HF) as (-> & c' & Hd & Ec' & Hok & Hz & Hda & Hlen & Hch' & HF').
  simplify_eq. destruct Htot as [Ht Htot]. rewrite Ec in Ht.
  destruct (moved_data s a c n Hok ltac:(lia)) as [Ed Hok'].
  pose proof Hok as (Hlc & _). unfold is_u16 in Hlc. pose proof (zlen_nonneg (contents s l)).
  assert (contents (put s a (moved c (- n))) (a :: l) = drop (Z.to_nat n) (contents s (a :: l))) as Hc.
  { rewrite !contents_cons, contents_put by done.
    assert (data_of (put s a (moved c (- n))) a = drop (Z.to_nat n) (data_of s a)) as ->.
    { rewrite data_of_put_eq, Hda. exact Ed. }
    rewrite drop_app_le by (unfold zlen in *; lia). done. }
  rewrite contents_cons in Ht, Hsm. zl. split; [|split; [|done]].
  - apply (header_ok s a c (- n)); first [done|lia|by apply Z.eqb_neq|destruct Harea; lia].
  - split.
    + split; [done|]. split; [by apply Z.eqb_neq|]. exists (moved c (- n)).
      split; [apply lookup_insert_eq|]. by apply chain_put.
    + apply List.Forall_cons; [|by apply pbuf_ok_put]. unfold pbuf_ok.
      unfold put at 1. cbn [cells]. by rewrite lookup_insert_eq.
    + split; [|by apply totals_put]. unfold put at 1. cbn [cells]. rewrite lookup_insert_eq, Hc.
      cbn [moved set_tot_len tot_len]. rewrite contents_cons. unfold zlen in *.
      rewrite length_drop, length_app. lia.
    + rewrite Hc, contents_cons. unfold zlen in *. rewrite length_drop, length_app. lia.
Qed.

(** ** Joining chains *)

(** Lengths, data and links of [c'] agree with [c], the total aside. *)
Lemma cell_data_tot s c n m : cell_data s (set_tot_len (set_next c n) m) = cell_data s c.
Proof. done. Qed.

Lemma packet_tail s p a l c :
  packet s p (a :: l) -> cells s !! a = Some c -> packet s (next c) l.
Proof.
  intros [Hch HF [_ Ht] Hsm] Ec. destruct Hch as (-> & _ & c' & Ec' & Hch). simplify_eq.
  apply List.Forall_cons_iff in HF as [_ HF]. rewrite contents_cons in Hsm. zl.
  split; try done. pose proof (zlen_nonneg (data_of s a)). lia.
Qed.

(** What joining does: cells outside [l1] are left alone, the data of all is
    kept, and the chain runs on into [t]. *)
Lemma cat_loop_ok l1 : forall fuel s p t l2,
  packet s p l1 -> l1 <> [] -> packet s t l2 -> l2 <> [] -> (forall a, In a l1 -> ~ In a l2) ->
  zlen (contents s l1) + zlen (contents s l2) < 65536 -> (length l1 < S fuel)%nat ->
  exists s', pbuf_cat_loop (S fuel) s p t = Ok s' /\ packet s' p (l1 ++ l2) /\
    blocks s' = blocks s /\ (forall a, ~ In a l1 -> cells s' !! a = cells s !! a) /\
    contents s' (l1 ++ l2) = contents s l1 ++ contents s l2.
Proof.
  induction l1 as [|a l1 IH]; intros fuel s p t l2 Hp Hne1 Ht Hne2 Hdis Hsm Hf; [done|].
  pose proof Hp as [Hch HF Htot Hsm1]. pose proof (chain_nodup _ _ _ Hch) as [Hnin _]%NoDup_cons.
  rewrite list_elem_of_In in Hnin.
  destruct l2 as [|b l2]; [done|].
  destruct (chain_head _ _ _ _ Hch HF) as (-> & c & Hd & Ec & Hok & Hz & Hda & Hlen & Hch' & HF').
  pose proof Ht as [Hcht HFt [Htt _] _].
  destruct (chain_head _ _ _ _ Hcht HFt) as (-> & tc & Hdt & Ect & _ & Hzt & _).
  rewrite Ect in Htt. destruct Htot as [Hta Htot]. rewrite Ec in Hta.
  cbn [pbuf_cat_loop]. rewrite Hd, Hdt. cbn [rbind].
  rewrite Hta, Htt, u16_small by (unfold is_u16; zpos; lia).
  set (T := zlen (contents s (a :: l1)) + zlen (contents s (b :: l2))) in *.
  assert (~ In a (b :: l2)) as Hab by (apply Hdis; by left).
  assert (forall n, data_of (put s a (set_tot_len (set_next c n) T)) a = data_of s a) as Hdself.
  { intros n. rewrite data_of_put_eq, Hda. apply cell_data_tot. }
  destruct (Z.eqb_spec (next c) 0) as [Hn|Hn]; cbn [negb].
  - destruct l1 as [|x l1]; [|destruct Hch' as (Hx & ? & _); congruence].
    eexists. split; [reflexivity|].
    set (s' := put s a (set_next (set_tot_len c T) b)).
    assert (contents s' (a :: b :: l2) = contents s [a] ++ contents s (b :: l2)) as Hc.
    { rewrite (contents_cons s' a), (contents_cons s a []). unfold s'.
      change (set_next (set_tot_len c T) b) with (set_tot_len (set_next c b) T).
      rewrite Hdself, contents_put by done. change (contents s []) with (@nil Z).
      by rewrite app_nil_r. }
    split; [|split; [done|split; [|done]]].
    + cbn [app]. split.
      * split; [done|]. split; [by apply Z.eqb_neq|]. eexists. split; [apply lookup_insert_eq|].
        apply chain_put; [done|]. exact Hcht.
      * apply List.Forall_cons; [|by apply pbuf_ok_put]. unfold pbuf_ok, s'.
        unfold put at 1. cbn [cells]. rewrite lookup_insert_eq. exact Hok.
      * split; [|apply totals_put; [done|apply Ht]]. unfold s', put at 1. cbn [cells].
        rewrite lookup_insert_eq. fold s'. rewrite Hc. zl. done.
      * rewrite Hc. zl. lia.
    + intros x Hx. unfold s', put. cbn [cells]. apply lookup_insert_ne. intros ->. apply Hx. by left.
  - destruct l1 as [|x l1]; [congruence|]. destruct fuel as [|fuel]; [simpl in Hf; lia|].
    set (s1 := put s a (set_tot_len c T)).
    change (set_tot_len c T) with (set_tot_len (set_next c (next c)) T) in s1.
    assert (forall l, ~ In a l -> forall q, packet s q l -> packet s1 q l) as Hframe.
    { intros l Hl q [? ? ? ?]. split; [by apply chain_put|by apply pbuf_ok_put|by apply totals_put|].
      unfold s1. by rewrite contents_put. }
    edestruct (IH fuel s1 (next c) b (b :: l2)) as (s' & E & Hp' & Hb' & Hc' & Hcont).
    + apply Hframe; [done|]. by eapply packet_tail.
    + done.
    + by apply Hframe.
    + done.
    + intros y Hy. apply Hdis. by right.
    + unfold s1. rewrite !contents_put by done. unfold T in Hsm. rewrite contents_cons in Hsm.
      zl. pose proof (zlen_nonneg (data_of s a)). lia.
    + simpl in Hf |- *. lia.
    + exists s'. split; [exact E|].
      assert (~ In a ((x :: l1) ++ b :: l2)) as Hnot by (rewrite in_app_iff; tauto).
      assert (cells s' !! a = Some (set_tot_len (set_next c (next c)) T)) as Eca.
      { rewrite Hc' by done. apply lookup_insert_eq. }
      assert (data_of s' a = data_of s a) as Hda'.
      { unfold data_of. rewrite Eca, Ec. unfold cell_data. by rewrite Hb'. }
      unfold s1 in Hcont. rewrite !contents_put in Hcont by done. fold s1 in Hcont.
      assert (contents s' (a :: (x :: l1) ++ b :: l2) = contents s (a :: x :: l1) ++ contents s (b :: l2)) as Hfin.
      { rewrite contents_cons, Hda', Hcont, (contents_cons s a). by rewrite app_assoc. }
      split; [|split; [by rewrite Hb'|split; [|exact Hfin]]].
      * destruct Hp' as [Hq1 Hq2 Hq3 Hq4]. split.
        -- split; [done|]. split; [by apply Z.eqb_neq|]. eexists. split; [exact Eca|]. exact Hq1.
        -- apply List.Forall_cons; [|done]. unfold pbuf_ok. rewrite Eca.
           destruct Hok as (? & ? & Hby & Hbl). split; [done|]. split; [done|].
           unfold cell_data in *. rewrite Hb'. split; [exact Hby|exact Hbl].
        -- change ((a :: x :: l1) ++ b :: l2) with (a :: (x :: l1) ++ b :: l2).
           split; [|done]. rewrite Eca, Hfin. zl. done.
        -- change ((a :: x :: l1) ++ b :: l2) with (a :: (x :: l1) ++ b :: l2).
           rewrite Hfin. zl. done.
      * intros y Hy. rewrite Hc' by (intros ?; apply Hy; by right). unfold s1, put. cbn [cells].
        apply lookup_insert_ne. intros ->. apply Hy. by left.
Qed.

(** ** Allocating *)

Section alloc.
Context `{OsLaws}.

(** Every cell lives in a block. *)
Definition backed (s : store) : Prop := forall a, is_Some (cells s !! a) -> is_Some (blocks s !! a).

Lemma malloc_ok s n p s1 : 0 <= n -> backed s -> pbuf_malloc s n = Some (p, s1) ->
  p <> 0 /\ cells s !! p = None /\ blocks s !! p = None /\ cells s1 = cells s /\
  exists b, blocks s1 = <[p := b]> (blocks s) /\ zlen b = n /\ bytes b.
Proof.
  intros Hn Hbk E. unfold pbuf_malloc in E. destruct (os_malloc (blocks s) n) as [[q b]|] eqn:Em; [|done].
  injection E as <- <-. apply os_malloc_fresh in Em as (Hp & Hq & Hl & Hb); [|done].
  split; [done|]. split.
  { destruct (cells s !! q) eqn:Ec; [|done]. destruct (Hbk q) as [x Hx]; [by rewrite Ec|congruence]. }
  split; [done|]. split; [done|]. by exists b.
Qed.

Lemma align_eq x : 0 <= x -> LWIP_MEM_ALIGN_SIZE x = (x + 3) / 4 * 4.
Proof.
  intros Hx. unfold LWIP_MEM_ALIGN_SIZE, MEM_ALIGNMENT.
  replace (x + 4 - 1) with (x + 3) by lia. change (4 - 1) with (Z.ones 2).
  rewrite <- Z.ldiff_land, Z.ldiff_ones_r, Z.shiftr_div_pow2, Z.shiftl_mul_pow2 by done. done.
Qed.

Lemma layer_offset_range layer : 0 <= layer_offset layer <= 54.
Proof. destruct layer; vm_compute; split; discriminate. Qed.

Lemma alloc_ram_ok s layer n : backed s -> is_u16 n ->
  (pbuf_alloc s layer n PBUF_RAM = Ok (0, s)) \/
  exists p s1, pbuf_alloc s layer n PBUF_RAM = Ok (p, s1) /\ p <> 0 /\ cells s !! p = None /\
    blocks s !! p = None /\ packet s1 p [p] /\ zlen (contents s1 [p]) = n /\ backed s1 /\ own s1 p /\ ref_of s1 p = 1 /\
    (forall a, a <> p -> cells s1 !! a = cells s !! a /\ blocks s1 !! a = blocks s !! a) /\
    exists c, cells s1 !! p = Some c /\ has_area c /\
      layer_offset layer <= (payload c).2 - SIZEOF_STRUCT_PBUF.
Proof.
  intros Hbk Hn. unfold pbuf_alloc. pose proof (layer_offset_range layer) as Ho.
  set (off := layer_offset layer) in *.
  assert (SIZEOF_STRUCT_PBUF = 20) as HS by done.
  assert (LWIP_MEM_ALIGN_SIZE (SIZEOF_STRUCT_PBUF + off) = (20 + off + 3) / 4 * 4) as Ea
    by (rewrite HS; apply align_eq; lia).
  assert (LWIP_MEM_ALIGN_SIZE n = (n + 3) / 4 * 4) as En by (apply align_eq; unfold is_u16 in Hn; lia).
  destruct (pbuf_malloc s _) as [[p s1]|] eqn:Em; [|by left]. right.
  apply malloc_ok in Em as (Hp & Hc & Hb & Ec & b & Eb & Hbl & Hby);
    [|rewrite Ea, En; unfold is_u16 in Hn; Z.div_mod_to_equations; lia|done].
  set (c := Pbuf 0 (own_payload p off) n n PBUF_RAM 0 1).
  eexists p, _. split; [reflexivity|]. do 3 (split; [done|]).
  set (s2 := put s1 p c).
  assert (SIZEOF_STRUCT_PBUF + off <= (payload c).2 /\ (payload c).2 + n <= zlen b) as [Hpl Hfit].
  { cbn. rewrite Hbl, Ea, En, HS. unfold is_u16 in Hn. Z.div_mod_to_equations. lia. }
  assert (blocks s2 !! p = Some b) as Eb2 by (unfold s2; cbn; rewrite Eb; apply lookup_insert_eq).
  assert (cell_ok s2 c) as Hok.
  { split; [exact Hn|]. split; [unfold is_u16; cbn; lia|]. split.
    - unfold cell_data. cbn [payload c own_payload fst]. rewrite Eb2. cbn. apply Forall_take.
      by apply Forall_drop.
    - intros _. exists b. split; [exact Eb2|]. change (len c) with n. lia. }
  assert (contents s2 [p] = cell_data s2 c) as Hcont.
  { unfold contents. cbn [map concat]. rewrite app_nil_r. unfold s2. by rewrite data_of_put_eq. }
  assert (zlen (contents s2 [p]) = n) as Hzc by (rewrite Hcont; by apply cell_data_length).
  assert (cells s2 !! p = Some c) as Ec2 by (unfold s2, put; cbn; apply lookup_insert_eq).
  split.
  { split; [split; [done|split; [done|by exists c]]| | |rewrite Hzc; apply Hn].
    - apply List.Forall_cons; [|apply List.Forall_nil]. unfold pbuf_ok. by rewrite Ec2.
    - split; [|done]. rewrite Ec2. cbn [c tot_len]. done. }
  split; [done|]. split.
  { intros a Ha. destruct (decide (a = p)) as [->|Hne]; [by rewrite Eb2|].
    unfold s2, put in *. cbn [cells blocks] in *. rewrite Eb, lookup_insert_ne by done.
    apply Hbk. rewrite lookup_insert_ne, Ec in Ha by done. done. }
  split; [unfold own; by rewrite Ec2|]. split; [unfold ref_of; by rewrite Ec2|]. split.
  { intros a Ha. unfold s2, put. cbn [cells blocks]. rewrite Eb, Ec, !lookup_insert_ne by done. done. }
  exists c. split; [done|]. split; [|lia]. split; [by left|]. lia.
Qed.
End alloc.

(** ** Theorems *)

(** Two pbufs: three bytes at an odd address, then two. *)
Definition two_pbufs : store :=
  Store (list_to_map [(100, Pbuf 200 (100, 21) 5 3 PBUF_RAM 0 1); (200, Pbuf 0 (200, 20) 2 2 PBUF_RAM 0 1)])
    (list_to_map [(100, replicate 21 0 ++ [1; 2; 255]); (200, replicate 20 0 ++ [7; 9])]).

Lemma two_pbufs_chain : is_chain two_pbufs 100 [100; 200].
Proof.
  repeat split; try done. eexists. split; [reflexivity|]. repeat split; try done. eexists.
  split; reflexivity.
Qed.

Lemma two_pbufs_ok : Forall (pbuf_ok two_pbufs) [100; 200].
Proof.
  apply List.Forall_cons; [|apply List.Forall_cons; [|apply List.Forall_nil]].
  all: split; [by apply (bool_decide_unpack _)|split; [by apply (bool_decide_unpack _)|split]].
  all: try by apply (bool_decide_unpack _).
  all: intros _; eexists; split; [reflexivity|vm_compute; split; discriminate].
Qed.


Lemma two_pbufs_packet : packet two_pbufs 100 [100; 200].
Proof. split; [exact two_pbufs_chain|exact two_pbufs_ok|repeat split|vm_compute; reflexivity]. Qed.

Lemma two_pbufs_own : Forall (own two_pbufs) [100; 200].
Proof. apply List.Forall_cons; [|apply List.Forall_cons; [|apply List.Forall_nil]]; reflexivity. Qed.

(** [pbuf_copy_partial] copies the requested slice of the packet and
    nothing else: of the bytes of the chain put together, those from
    [offset] on, [len] of them or as many as there are, however the slice
    falls across pbufs; it returns their number. *)
Theorem pbuf_copy_partial_slice : forall s p l dst n off,
  is_chain s p l -> Forall (pbuf_ok s) l -> 0 <= n <= zlen dst -> is_u16 n -> is_u16 off ->
  let r := take (Z.to_nat n) (drop (Z.to_nat off) (contents s l)) in
  pbuf_copy_partial s p dst n off = Ok (zlen r, r ++ drop (length r) dst).
Proof. apply copy_partial_ok. Qed.

Lemma pbuf_copy_partial_slice_witness :
  (is_chain two_pbufs 100 [100; 200] /\ Forall (pbuf_ok two_pbufs) [100; 200]) /\
  let r := take (Z.to_nat 3) (drop (Z.to_nat 1) (contents two_pbufs [100; 200])) in
  r = [2; 255; 7] /\
  pbuf_copy_partial two_pbufs 100 [0; 0; 0; 0] 3 1 = Ok (zlen r, r ++ drop (length r) [0; 0; 0; 0]).
Proof.
  split; [exact (conj two_pbufs_chain two_pbufs_ok)|]. split; [vm_compute; reflexivity|].
  apply (pbuf_copy_partial_slice two_pbufs 100 [100; 200] [0; 0; 0; 0] 3 1 two_pbufs_chain two_pbufs_ok);
    vm_compute; split; first [reflexivity | discriminate].
Defined.

(** Writing and reading back.  Into a packet that is large enough
    [pbuf_take] writes the data from the front, over as many pbufs as it
    takes, and leaves what lies behind; [pbuf_copy_partial] then returns the
    data; other blocks are not touched. *)
Theorem pbuf_take_roundtrip : forall s p l data dst,
  packet s p l -> l <> [] -> Forall (own s) l -> bytes data ->
  zlen data <= zlen (contents s l) -> zlen data <= zlen dst ->
  exists s', pbuf_take s p data (zlen data) = Ok (ERR_OK, s') /\
    contents s' l = data ++ drop (length data) (contents s l) /\
    pbuf_copy_partial s' p dst (zlen data) 0 = Ok (zlen data, data ++ drop (length data) dst) /\
    cells s' = cells s /\ (forall b, ~ In b l -> blocks s' !! b = blocks s !! b).
Proof.
  intros s p l data dst [Hch HF Htot Hsm] Hne Hown Hb Hl Hdst. pose proof (zlen_nonneg data).
  destruct (take_loop_ok (chain_fuel s) s p l data (zlen data) 0 Hch HF Hown (chain_enough _ _ _ Hch))
    as (s' & E & Hc & Hbl & HF' & Hcont); try done; try lia.
  destruct l as [|a l]; [done|].
  destruct (chain_head _ _ _ _ Hch HF) as (-> & c & Hd & Ec & _ & Hz & _).
  destruct Htot as [Ht _]. rewrite Ec in Ht.
  assert (contents s' (a :: l) = data ++ drop (length data) (contents s (a :: l))) as Hcont'.
  { rewrite Hcont. unfold zlen. rewrite Nat2Z.id. change (Z.to_nat 0) with 0%nat.
    rewrite drop_0. by rewrite firstn_all. }
  exists s'. split.
  { unfold pbuf_take. rewrite Hz, Hd. cbn [rbind]. rewrite Ht, (proj2 (Z.ltb_ge _ _)) by lia. by rewrite E. }
  split; [done|]. split; [|by split].
  rewrite (copy_partial_ok s' a (a :: l)); try done; try (unfold is_u16; lia).
  - rewrite Hcont'. change (Z.to_nat 0) with 0%nat. rewrite drop_0.
    replace (Z.to_nat (zlen data)) with (length data) by (unfold zlen; lia).
    by rewrite take_app_length.
  - apply (chain_frame s); [|done]. intros; by rewrite Hc.
Qed.

Lemma pbuf_take_roundtrip_witness :
  (packet two_pbufs 100 [100; 200] /\ Forall (own two_pbufs) [100; 200] /\ bytes [5; 6; 7; 8]) /\
  exists s', pbuf_take two_pbufs 100 [5; 6; 7; 8] (zlen [5; 6; 7; 8]) = Ok (ERR_OK, s') /\
    contents s' [100; 200] = [5; 6; 7; 8] ++ drop (length [5; 6; 7; 8]) (contents two_pbufs [100; 200]) /\
    pbuf_copy_partial s' 100 [0; 0; 0; 0] (zlen [5; 6; 7; 8]) 0 =
      Ok (zlen [5; 6; 7; 8], [5; 6; 7; 8] ++ drop (length [5; 6; 7; 8]) [0; 0; 0; 0]) /\
    cells s' = cells two_pbufs /\ (forall b, ~ In b [100; 200] -> blocks s' !! b = blocks two_pbufs !! b).
Proof.
  assert (bytes [5; 6; 7; 8]) as H by (repeat constructor; lia).
  split; [exact (conj two_pbufs_packet (conj two_pbufs_own H))|].
  apply (pbuf_take_roundtrip two_pbufs 100 [100; 200] _ _ two_pbufs_packet); try done;
    try exact two_pbufs_own; vm_compute; discriminate.
Defined.

(** [pbuf_get_at] is indexing: the byte at the offset of the bytes of the
    chain put together, and zero behind the end. *)
Theorem pbuf_get_at_nth : forall s p l off,
  is_chain s p l -> Forall (pbuf_ok s) l -> is_u16 off ->
  pbuf_get_at s p off = Ok (nth (Z.to_nat off) (contents s l) 0).
Proof. apply get_at_ok. Qed.

Lemma pbuf_get_at_nth_witness :
  (is_chain two_pbufs 100 [100; 200] /\ Forall (pbuf_ok two_pbufs) [100; 200]) /\
  pbuf_get_at two_pbufs 100 3 = Ok (nth (Z.to_nat 3) (contents two_pbufs [100; 200]) 0).
Proof.
  split; [exact (conj two_pbufs_chain two_pbufs_ok)|].
  apply (pbuf_get_at_nth two_pbufs 100 [100; 200] 3 two_pbufs_chain two_pbufs_ok). split; lia.
Defined.

(** [pbuf_memfind] terminates, and what it finds is a match. *)
Theorem pbuf_memfind_sound : forall s p l mem start,
  packet s p l -> l <> [] -> 0 < zlen mem -> 0 <= start ->
  exists r, pbuf_memfind s p mem (zlen mem) start = Ok r /\
    (r = 0xFFFF \/ start <= r /\ r + zlen mem <= zlen (contents s l) /\
       take (length mem) (drop (Z.to_nat r) (contents s l)) = mem).
Proof.
  intros s p l mem start [Hch HF Htot Hsm] Hne Hm Hst. destruct l as [|a l]; [done|].
  pose proof Hch as Hch0. pose proof HF as HF0.
  destruct (chain_head _ _ _ _ Hch HF) as (-> & c & Hd & Ec & _).
  destruct Htot as [Ht _]. rewrite Ec in Ht. unfold pbuf_memfind. rewrite Hd. cbn [rbind]. rewrite Ht.
  destruct (Z.leb_spec (zlen mem + start) (zlen (contents s (a :: l)))) as [Hle|]; [|eauto].
  rewrite u16_small by (unfold is_u16; lia).
  apply memfind_loop_ok; try done; lia.
Qed.

Lemma pbuf_memfind_sound_witness :
  packet two_pbufs 100 [100; 200] /\
  exists r, pbuf_memfind two_pbufs 100 [255; 7] (zlen [255; 7]) 0 = Ok r /\
    (r = 0xFFFF \/ 0 <= r /\ r + zlen [255; 7] <= zlen (contents two_pbufs [100; 200]) /\
       take (length [255; 7]) (drop (Z.to_nat r) (contents two_pbufs [100; 200])) = [255; 7]).
Proof.
  split; [exact two_pbufs_packet|].
  apply (pbuf_memfind_sound two_pbufs 100 [100; 200] [255; 7] 0 two_pbufs_packet);
    [discriminate|vm_compute; reflexivity|lia].
Defined.

(** A pbuf that holds "aaab". *)
Definition aaab : store :=
  Store (list_to_map [(100, Pbuf 0 (100, 20) 4 4 PBUF_RAM 0 1)])
    (list_to_map [(100, replicate 20 0 ++ [97; 97; 97; 98])]).

(** [pbuf_memfind] is not complete.  After a mismatch it goes on behind the
    mismatching byte, not at the next offset: it does not find "aab" in
    "aaab", although [pbuf_memcmp] confirms the match at offset 1. *)
Theorem pbuf_memfind_misses_match :
  pbuf_memfind aaab 100 [97; 97; 98] 3 0 = Ok 0xFFFF /\
  pbuf_memcmp aaab 100 1 [97; 97; 98] 3 = Ok 0.
Proof. vm_compute. split; reflexivity. Qed.

(** Reference counting.  [pbuf_free] deallocates the longest prefix of the
    chain in which every pbuf has exactly one reference, takes one reference
    off the pbuf behind it, touches nothing else, and returns how many pbufs
    were deallocated (modulo 256, the width of its counter). *)
Theorem pbuf_free_prefix : forall s p l1 l2,
  is_chain s p (l1 ++ l2) -> Forall (releasable s) (l1 ++ l2) ->
  Forall (fun a => ref_of s a = 1) l1 ->
  match l2 with [] => True | a :: _ => ref_of s a <> 1 end ->
  pbuf_free s p = Ok (u8 (zlen l1), without l1 (unref l2 s)).
Proof.
  intros s p l1 l2 Hch HF H1 H2. unfold pbuf_free.
  rewrite (free_loop_ok l1 (chain_fuel s) s p l2 0 Hch HF (chain_enough _ _ _ Hch) H1 H2) by lia.
  by rewrite Z.add_0_l.
Qed.

(** Three pbufs, the last one shared: 1->1->2. *)
Definition shared_tail : store :=
  Store (list_to_map [(4, Pbuf 8 (4, 20) 3 1 PBUF_RAM 0 1); (8, Pbuf 12 (8, 20) 2 1 PBUF_RAM 0 1);
                      (12, Pbuf 0 (12, 20) 1 1 PBUF_RAM 0 2)])
    (list_to_map [(4, replicate 21 1); (8, replicate 21 2); (12, replicate 21 3)]).

Lemma pbuf_free_prefix_witness :
  (is_chain shared_tail 4 ([4; 8] ++ [12]) /\ Forall (releasable shared_tail) ([4; 8] ++ [12])) /\
  pbuf_free shared_tail 4 = Ok (u8 (zlen [4; 8]), without [4; 8] (unref [12] shared_tail)).
Proof.
  assert (is_chain shared_tail 4 ([4; 8] ++ [12])) as H1.
  { split; [reflexivity|split; [discriminate|eexists; split; [reflexivity|]]].
    split; [reflexivity|split; [discriminate|eexists; split; [reflexivity|]]].
    split; [reflexivity|split; [discriminate|eexists; split; [reflexivity|]]]. reflexivity. }
  assert (Forall (releasable shared_tail) ([4; 8] ++ [12])) as H2.
  { apply List.Forall_cons; [|apply List.Forall_cons; [|apply List.Forall_cons; [|apply List.Forall_nil]]];
      (eexists; split; [reflexivity|split; [eexists; reflexivity|cbn; lia]]). }
  split; [exact (conj H1 H2)|].
  apply (pbuf_free_prefix shared_tail 4 [4; 8] [12] H1 H2);
    [apply List.Forall_cons; [|apply List.Forall_cons; [|apply List.Forall_nil]]; reflexivity|discriminate].
Defined.

(** Headers.  Hiding [n] bytes of the first pbuf moves the payload pointer
    over them: the packet stays well-formed and loses exactly its first [n]
    bytes; revealing them again restores the packet.  Hiding more than the
    first pbuf holds, or revealing more than there is room for in front of
    the payload, fails and changes nothing. *)
Theorem pbuf_header_hide_reveal : forall s p a l c n,
  packet s p (a :: l) -> cells s !! a = Some c -> has_area c -> 0 < n < 32768 ->
  (n <= len c -> exists s', pbuf_header s p (- n) = Ok (0, s') /\ packet s' p (a :: l) /\
     contents s' (a :: l) = drop (Z.to_nat n) (contents s (a :: l)) /\
     pbuf_header s' p n = Ok (0, s)) /\
  (len c < n -> pbuf_header s p (- n) = Ok (1, s)) /\
  ((payload c).2 - n < SIZEOF_STRUCT_PBUF -> pbuf_header s p n = Ok (1, s)).
Proof.
  intros s p a l c n Hp Ec Harea Hn. pose proof Hp as [Hch HF [Ht _] Hsm]. rewrite Ec in Ht.
  destruct (chain_head _ _ _ _ Hch HF) as (-> & c' & Hd & Ec' & (Hlc & _) & Hz & _). simplify_eq.
  unfold is_u16 in Hlc. pose proof Hz as Ha. apply Z.eqb_neq in Ha. split; [|split].
  - intros Hle. destruct (hide_packet s a a l c n Hp Ec Harea ltac:(lia) ltac:(lia)) as (E & Hp' & Hc).
    eexists. split; [exact E|]. split; [exact Hp'|]. split; [exact Hc|].
    assert (tot_len c = zlen (contents s (a :: l))) as Ht' by done.
    assert (len c <= tot_len c) as Hlt.
    { rewrite Ht', contents_cons. zl. rewrite (data_length s a c); [zpos; lia| |done].
      by apply List.Forall_cons_iff in HF as [? _]. }
    rewrite (header_ok _ a (moved c (- n))); try done; try lia.
    + rewrite put_put. rewrite <- (Z.opp_involutive n) at 2. rewrite moved_back. by rewrite put_same.
    + apply lookup_insert_eq.
    + destruct Harea as [Hty Hpl]. split; [exact Hty|]. cbn. lia.
    + cbn. lia.
    + cbn. lia.
    + destruct Harea as [Hty Hpl]. cbn. lia.
  - intros Hlt. unfold pbuf_header. rewrite (proj2 (Z.eqb_neq (- n) 0)), Hz, Hd by lia. cbn [orb rbind].
    rewrite (proj2 (Z.ltb_lt (- n) 0)) by lia. rewrite (u16_small (- - n)) by (unfold is_u16; lia).
    by rewrite (proj2 (Z.ltb_lt _ _)) by lia.
  - intros Hroom. unfold pbuf_header. rewrite (proj2 (Z.eqb_neq n 0)), Hz, Hd by lia. cbn [orb rbind].
    rewrite (proj2 (Z.ltb_ge n 0)) by lia. cbn [andb snd].
    rewrite (proj2 (Z.ltb_lt _ _)) by lia. by destruct Harea as [[-> | ->] _].
Qed.

Lemma pbuf_header_hide_reveal_witness :
  exists c, (packet two_pbufs 100 [100; 200] /\ cells two_pbufs !! 100 = Some c /\ has_area c) /\
  ((2 <= len c -> exists s', pbuf_header two_pbufs 100 (- 2) = Ok (0, s') /\ packet s' 100 [100; 200] /\
     contents s' [100; 200] = drop (Z.to_nat 2) (contents two_pbufs [100; 200]) /\
     pbuf_header s' 100 2 = Ok (0, two_pbufs)) /\
  (len c < 2 -> pbuf_header two_pbufs 100 (- 2) = Ok (1, two_pbufs)) /\
  ((payload c).2 - 2 < SIZEOF_STRUCT_PBUF -> pbuf_header two_pbufs 100 2 = Ok (1, two_pbufs))).
Proof.
  eexists. split; [split; [exact two_pbufs_packet|split; [reflexivity|]]|].
  - split; [left; reflexivity|vm_compute; discriminate].
  - apply (pbuf_header_hide_reveal two_pbufs 100 100 [200] _ 2 two_pbufs_packet);
      [reflexivity|split; [left; reflexivity|vm_compute; discriminate]|lia].
Defined.

(** Concatenation.  Joining two packets of distinct pbufs whose lengths
    together fit 16 bits gives one packet: its bytes are those of the first
    followed by those of the second, and every total is right again. *)
Theorem pbuf_cat_packet : forall s h t l1 l2,
  packet s h l1 -> l1 <> [] -> packet s t l2 -> l2 <> [] -> (forall a, In a l1 -> ~ In a l2) ->
  zlen (contents s l1) + zlen (contents s l2) < 65536 ->
  exists s', pbuf_cat s h t = Ok s' /\ packet s' h (l1 ++ l2) /\
    contents s' (l1 ++ l2) = contents s l1 ++ contents s l2.
Proof.
  intros s h t l1 l2 Hh H1 Ht H2 Hdis Hsm. pose proof Hh as [Hch _ _ _]. pose proof Ht as [Hct _ _ _].
  assert (h <> 0) as Hh0 by (destruct l1; [done|by destruct Hch as (-> & ? & _)]).
  assert (t <> 0) as Ht0 by (destruct l2; [done|by destruct Hct as (-> & ? & _)]).
  destruct (cat_loop_ok l1 (size (cells s)) s h t l2 Hh H1 Ht H2 Hdis Hsm) as (s' & E & Hp & _ & _ & Hc).
  { apply (chain_enough _ _ _ Hch). }
  exists s'. split; [|by split]. unfold pbuf_cat.
  rewrite (proj2 (Z.eqb_neq h 0)), (proj2 (Z.eqb_neq t 0)) by done. exact E.
Qed.

(** A packet of one byte apart from the two pbufs. *)
Definition two_packets : store :=
  Store (<[300 := Pbuf 0 (300, 20) 1 1 PBUF_RAM 0 1]> (cells two_pbufs))
    (<[300 := replicate 20 0 ++ [42]]> (blocks two_pbufs)).

Lemma two_packets_first : packet two_packets 100 [100; 200].
Proof.
  split; [| |repeat split|vm_compute; reflexivity].
  - split; [reflexivity|split; [discriminate|eexists; split; [reflexivity|]]].
    split; [reflexivity|split; [discriminate|eexists; split; [reflexivity|reflexivity]]].
  - apply List.Forall_cons; [|apply List.Forall_cons; [|apply List.Forall_nil]].
    all: split; [by apply (bool_decide_unpack _)|split; [by apply (bool_decide_unpack _)|split]].
    all: try by apply (bool_decide_unpack _).
    all: intros _; eexists; split; [reflexivity|vm_compute; split; discriminate].
Qed.

Lemma two_packets_second : packet two_packets 300 [300].
Proof.
  split; [| |repeat split|vm_compute; reflexivity].
  - split; [reflexivity|split; [discriminate|eexists; split; [reflexivity|reflexivity]]].
  - apply List.Forall_cons; [|apply List.Forall_nil].
    split; [by apply (bool_decide_unpack _)|split; [by apply (bool_decide_unpack _)|split]].
    { by apply (bool_decide_unpack _). }
    intros _; eexists; split; [reflexivity|vm_compute; split; discriminate].
Qed.

Lemma pbuf_cat_packet_witness :
  (packet two_packets 100 [100; 200] /\ packet two_packets 300 [300]) /\
  exists s', pbuf_cat two_packets 100 300 = Ok s' /\ packet s' 100 ([100; 200] ++ [300]) /\
    contents s' ([100; 200] ++ [300]) = contents two_packets [100; 200] ++ contents two_packets [300].
Proof.
  split; [exact (conj two_packets_first two_packets_second)|].
  apply (pbuf_cat_packet two_packets 100 300 [100; 200] [300] two_packets_first);
    [discriminate|exact two_packets_second|discriminate| |vm_compute; reflexivity].
  intros a [<-|[<-|[]]] [E|[]]; discriminate E.
Defined.

(** Freeing a chain whatever its references are. *)
Lemma free_any l : forall fuel m p count, is_chain m p l -> Forall (fun a => is_Some (blocks m !! a)) l -> backed m -> (length l < fuel)%nat ->
  exists k m', pbuf_free_loop fuel m p count = Ok (k, m') /\ backed m'.
Proof.
  induction l as [|a l IH]; intros fuel m p count Hch HF Hbk Hf; (destruct fuel as [|fuel]; [cbn in Hf; lia|]); cbn [pbuf_free_loop].
  - rewrite Hch. cbn [Z.eqb]. by eexists _, _.
  - pose proof (chain_nodup _ _ _ Hch) as [Hn _]%NoDup_cons. rewrite list_elem_of_In in Hn.
    destruct Hch as (-> & Ha & c & Ec & Hch). apply Forall_cons in HF as [Hb HF]. rewrite (proj2 (Z.eqb_neq a 0)), (deref_ok m a c) by done. cbn [rbind].
    destruct (u16 (ref c - 1) =? 0).
    + destruct Hb as [b Eb]. unfold pbuf_release, os_free. cbn [blocks put]. rewrite Eb. cbn [rbind cells put]. rewrite delete_insert_eq.
      assert (forall x, In x l -> x <> a) as Hx by (by intros x Hx ->).
      apply IH; [eapply chain_frame; [|exact Hch]; intros x Hx2; cbn; apply lookup_delete_ne; by apply not_eq_sym, Hx| | |cbn in Hf; lia].
      * rewrite Forall_forall in HF |- *. intros x Hx2. cbn. rewrite lookup_delete_ne; [by apply HF|]. apply not_eq_sym, Hx. by apply list_elem_of_In.
      * intros x Hx2. cbn in Hx2 |- *. destruct (decide (x = a)) as [->|Hne]; [rewrite lookup_delete_eq in Hx2; by destruct Hx2|].
        rewrite lookup_delete_ne by done. rewrite lookup_delete_ne in Hx2 by done. by apply Hbk.
    + eexists _, _. split; [reflexivity|]. intros x Hx. cbn in Hx |- *. destruct (decide (x = a)) as [->|Hne]; [done|].
      rewrite lookup_insert_ne in Hx by done. by apply Hbk.
Qed.
(** Allocation of a [PBUF_RAM].  Either there is no memory, and NULL is
    returned with nothing changed, or the result is a fresh packet of one
    pbuf with the requested length and one reference, its payload within its
    block and in front of it the header room of the layer; all other pbufs
    and blocks are as before. *)
Theorem pbuf_alloc_ram : forall `{OsLaws} s layer n,
  backed s -> is_u16 n ->
  (pbuf_alloc s layer n PBUF_RAM = Ok (0, s)) \/
  exists p s1, pbuf_alloc s layer n PBUF_RAM = Ok (p, s1) /\ p <> 0 /\ cells s !! p = None /\
    blocks s !! p = None /\ packet s1 p [p] /\ zlen (contents s1 [p]) = n /\ backed s1 /\ own s1 p /\ ref_of s1 p = 1 /\
    (forall a, a <> p -> cells s1 !! a = cells s !! a /\ blocks s1 !! a = blocks s !! a) /\
    exists c, cells s1 !! p = Some c /\ has_area c /\
      layer_offset layer <= (payload c).2 - SIZEOF_STRUCT_PBUF.
Proof. intros. by apply alloc_ram_ok. Qed.

Lemma pbuf_alloc_ram_witness :
  (backed (Store empty empty) /\ is_u16 7) /\
  ((pbuf_alloc (Store empty empty) PBUF_IP 7 PBUF_RAM = Ok (0, Store empty empty)) \/
  exists p s1, pbuf_alloc (Store empty empty) PBUF_IP 7 PBUF_RAM = Ok (p, s1) /\ p <> 0 /\
    cells (Store empty empty) !! p = None /\ blocks (Store empty empty) !! p = None /\
    packet s1 p [p] /\ zlen (contents s1 [p]) = 7 /\ backed s1 /\ own s1 p /\ ref_of s1 p = 1 /\
    (forall a, a <> p -> cells s1 !! a = cells (Store empty empty) !! a /\
       blocks s1 !! a = blocks (Store empty empty) !! a) /\
    exists c, cells s1 !! p = Some c /\ has_area c /\
      layer_offset PBUF_IP <= (payload c).2 - SIZEOF_STRUCT_PBUF).
Proof.
  assert (backed (Store empty empty)) as H1 by (intros a [x Hx]; discriminate Hx).
  assert (is_u16 7) as H2 by (split; lia).
  split; [exact (conj H1 H2)|]. apply (pbuf_alloc_ram (Store empty empty) PBUF_IP 7 H1 H2).
Defined.
