(* ===== verification/PbufCopy.v ===== *)
(** * Stores into a packet, and [pbuf_copy] of [lwip/core/pbuf.c]. *)
From S2P Require Import Prelude Cobs Uart Comm Pbuf PbufChain.

(** The bytes [d] after [x] was stored at [off]. *)
Definition splice (d : list Z) (off : Z) (x : list Z) : list Z :=
  take (Z.to_nat off) d ++ x ++ drop (Z.to_nat off + length x) d.

Lemma splice_length d off x : 0 <= off -> off + zlen x <= zlen d -> zlen (splice d off x) = zlen d.
Proof.
  intros Ho Hx. unfold splice, zlen in *. rewrite !length_app, length_take, length_drop. lia.
Qed.
Lemma splice_nil d off : splice d off [] = d.
Proof. unfold splice. cbn. by rewrite Nat.add_0_r, take_drop. Qed.
Lemma splice_bytes d off x : bytes d -> bytes x -> bytes (splice d off x).
Proof. intros Hd Hx. apply bytes_app. split; [by apply Forall_take|]. apply bytes_app. split; [done|by apply Forall_drop]. Qed.

Lemma splice_mid pre old post off x : off = zlen pre -> zlen x = zlen old -> splice (pre ++ old ++ post) off x = pre ++ x ++ post.
Proof.
  intros -> Hl. unfold splice, zlen in *. rewrite Nat2Z.id, take_app_length, drop_app_ge by lia. do 2 f_equal.
  replace (length pre + length x - length pre)%nat with (length old) by lia. by rewrite drop_app_length.
Qed.

(** Storing behind what has been stored. *)
Lemma splice_seam (pre x rest : list Z) : zlen x <= zlen rest ->
  splice (pre ++ rest) (zlen pre) x = (pre ++ x) ++ drop (length x) rest.
Proof.
  intros Hx. unfold splice, zlen. rewrite Nat2Z.id, take_app_length, <- app_assoc. do 2 f_equal.
  rewrite drop_app_ge by lia. f_equal. lia.
Qed.

(** A store into the payload of a pbuf with its own memory. *)
Lemma save_at s a c off x :
  cells s !! a = Some c -> cell_ok s c -> (payload c).1 = a -> 0 <= off -> off + zlen x <= len c -> bytes x ->
  exists s1, save s (payload c) off x = Ok s1 /\ cells s1 = cells s /\
    (forall b, b <> a -> blocks s1 !! b = blocks s !! b) /\
    (forall b, is_Some (blocks s !! b) -> is_Some (blocks s1 !! b)) /\ cell_ok s1 c /\
    cell_data s1 c = splice (cell_data s c) off x.
Proof.
  intros Ec Hok Hown Ho Hx Hbx. unfold save. pose proof (zlen_nonneg x).
  destruct (Z.eqb_spec (zlen x) 0) as [Hz|Hz].
  { exists s. assert (x = []) as -> by (destruct x; [done|]; zl; zpos; lia).
    rewrite splice_nil. repeat (split; [done|]). done. }
  pose proof (cell_data_bytes s c Hok) as Hcb. pose proof Hok as (Hl & Hr & _ & Hb).
  destruct Hb as (b & Eb & Hob & Hlen); [lia|]. rewrite Eb. cbn [of_option rbind].
  unfold mcopy. rewrite !(proj2 (Z.leb_le _ _)) by lia. cbn [andb rbind].
  set (b' := take _ _ ++ _). rewrite Hown. set (s1 := Store (cells s) (<[a := b']> (blocks s))).
  assert (length b' = length b) as Hlb.
  { unfold b', zlen in *. rewrite !length_app, length_take, length_drop. lia. }
  assert (cell_data s1 c = splice (cell_data s c) off x) as Hdata.
  { unfold cell_data, s1, splice. rewrite Hown in Eb |- *. cbn [blocks]. rewrite lookup_insert_eq, Eb.
    cbn [default from_option]. unfold id, b'. set (o := Z.to_nat (payload c).2). set (n := Z.to_nat (len c)).
    replace (Z.to_nat ((payload c).2 + off)) with (o + Z.to_nat off)%nat by lia. set (k := Z.to_nat off).
    rewrite drop_app_le by (rewrite length_take; unfold zlen in *; lia).
    rewrite skipn_firstn_comm. replace (o + k - o)%nat with k by lia.
    rewrite firstn_app, length_take, length_drop, take_take.
    rewrite (Nat.min_r n k) by (unfold zlen in *; lia). rewrite take_take, (Nat.min_l k n) by (unfold zlen in *; lia). f_equal.
    rewrite firstn_app. rewrite firstn_all2 by (unfold zlen in *; lia). f_equal.
    rewrite !skipn_firstn_comm, drop_drop. f_equal; [unfold zlen in *; lia|f_equal; lia]. }
  exists s1. split; [done|]. split; [done|]. split; [intros z Hz'; simpl; by rewrite lookup_insert_ne|].
  split.
  { intros z [y Hy]. simpl. destruct (decide (z = a)) as [->|]; [rewrite lookup_insert_eq|rewrite lookup_insert_ne by done]; eauto. }
  split; [|done]. split; [done|]. split; [done|]. split; [rewrite Hdata; by apply splice_bytes|].
  intros _. exists b'. rewrite Hown. cbn [blocks s1]. rewrite lookup_insert_eq.
  split; [done|]. split; [done|]. unfold zlen in *. lia.
Qed.

(** ** Copying a packet into one pbuf *)

(** No pbuf of the chain is empty, and none lies in the memory of [p]. *)
Definition filled (s : store) (p a : Z) : Prop :=
  match cells s !! a with Some c => 0 < len c /\ (payload c).1 <> p | None => False end.

Lemma filled_frame s s1 p c x :
  cells s1 = cells s -> (forall b, b <> p -> blocks s1 !! b = blocks s !! b) ->
  Forall (filled s p) (x :: c) ->
  data_of s1 x = data_of s x /\ contents s1 c = contents s c /\
  (Forall (pbuf_ok s) c -> Forall (pbuf_ok s1) c) /\ Forall (filled s1 p) c.
Proof.
  intros Hc Hb HF. rewrite List.Forall_forall in HF.
  assert (forall a d, In a (x :: c) -> cells s !! a = Some d -> cell_data s1 d = cell_data s d) as Hd.
  { intros a d Hin Ed. specialize (HF a Hin). unfold filled in HF. rewrite Ed in HF. unfold cell_data. by rewrite Hb by apply HF. }
  assert (forall a, In a (x :: c) -> data_of s1 a = data_of s a) as Hda.
  { intros a Hin. unfold data_of. rewrite Hc. destruct (cells s !! a) eqn:Ea; [by eapply Hd|done]. }
  split; [apply Hda; by left|]. split; [|split].
  - unfold contents. f_equal. apply map_ext_in. intros a Hin. apply Hda. by right.
  - intros HP. rewrite List.Forall_forall in HP |- *. intros a Hin. specialize (HP a Hin).
    assert (In a (x :: c)) as Hin' by by right. specialize (HF a Hin').
    unfold pbuf_ok, filled in *. rewrite Hc. destruct (cells s !! a) as [d|] eqn:Ea; [|done].
    destruct HP as (? & ? & Hby & Hbl). split; [done|]. split; [done|]. split; [by rewrite (Hd a d)|].
    intros Hp. destruct (Hbl Hp) as (b & Eb & ?). exists b. by rewrite Hb by apply HF.
  - apply List.Forall_forall. intros a Hin. assert (In a (x :: c)) as Hin' by by right. specialize (HF a Hin').
    unfold filled in *. by rewrite Hc.
Qed.

Lemma not_queue s p q l : totals_ok s l -> is_chain s q l -> Forall (pbuf_ok s) l -> Forall (filled s p) l ->
  packet_queue s q = Ok false.
Proof.
  intros Htot Hch HF Hfl. unfold packet_queue. destruct l as [|a l]; [by rewrite Hch|].
  destruct (chain_head _ _ _ _ Hch HF) as (-> & c & Hd & Ec & Hok & Hz & Hda & Hlen & Hch' & HF').
  rewrite Hz, Hd. cbn [rbind]. destruct Htot as [Ht _]. rewrite Ec, contents_cons in Ht. zl.
  destruct l as [|b l].
  - cbn in Hch'. rewrite Hch'. cbn. by rewrite andb_false_r.
  - apply List.Forall_cons_iff in Hfl as [_ Hfl]. apply List.Forall_cons_iff in Hfl as [Hb _].
    destruct (chain_head _ _ _ _ Hch' HF') as (_ & d & _ & Ed & _ & _ & _ & Hlen' & _).
    unfold filled in Hb. rewrite Ed in Hb. rewrite contents_cons in Ht. zl. zpos.
    rewrite (proj2 (Z.eqb_neq _ _)) by lia. done.
Qed.

Lemma totals_same s s1 x l : cells s1 = cells s ->
  (forall y l', x :: l = y ++ l' -> zlen (contents s1 l') = zlen (contents s l')) ->
  totals_ok s l -> totals_ok s1 l.
Proof.
  intros Hc. revert x. induction l as [|a l IH]; intros x Hz; [done|]. intros [Ha Hl]. split.
  - rewrite Hc. destruct (cells s !! a); [|done]. by rewrite (Hz [x] (a :: l)).
  - apply (IH a); [|done]. intros y l' E. apply (Hz (x :: y) l'). by rewrite E.
Qed.

Lemma contents_suffix s s1 p x l : cells s1 = cells s -> (forall b, b <> p -> blocks s1 !! b = blocks s !! b) ->
  Forall (filled s p) (x :: l) -> forall y l', x :: l = y ++ l' -> contents s1 l' = contents s l'.
Proof.
  intros Hc Hb HF y l' E. rewrite E in HF. apply Forall_app in HF as [_ HF].
  destruct l' as [|b l']; [done|]. destruct (filled_frame s s1 p l' b Hc Hb HF) as (E1 & E2 & _).
  by rewrite !contents_cons, E1, E2.
Qed.

(** The target [p] holds [pre] and takes the chain [b :: l] behind it. *)
Lemma copy_loop_ok fuel : forall s p tc q b l pre rest,
  is_chain s q (b :: l) -> Forall (pbuf_ok s) (b :: l) -> totals_ok s (b :: l) -> Forall (filled s p) (b :: l) ->
  p <> 0 -> cells s !! p = Some tc -> cell_ok s tc -> (payload tc).1 = p -> next tc = 0 ->
  cell_data s tc = pre ++ rest -> zlen (contents s (b :: l)) <= zlen rest -> (length l < fuel)%nat ->
  exists s', pbuf_copy_loop fuel s p q (zlen pre) 0 = Ok (ERR_OK, s') /\ cells s' = cells s /\
    (forall x, x <> p -> blocks s' !! x = blocks s !! x) /\
    (forall x, is_Some (blocks s !! x) -> is_Some (blocks s' !! x)) /\ cell_ok s' tc /\
    cell_data s' tc = pre ++ contents s (b :: l) ++ drop (length (contents s (b :: l))) rest.
Proof.
  induction fuel as [|fuel IH]; intros s p tc q b l pre rest Hch HF Htot Hfl Hp Ep Htc Hpay Hnx Hdat Hfit Hf; [lia|].
  cbn [pbuf_copy_loop].
  destruct (chain_head _ _ _ _ Hch HF) as (-> & c & Hd & Ec & Hok & Hz & Hda & Hlen & Hch' & HF').
  rewrite (deref_ok s p tc), Hd by done. cbn [rbind].
  pose proof (cell_data_length s tc Htc) as Htl. rewrite Hdat in Htl. rewrite contents_cons in *. zl. zpos.
  pose proof Hok as (Hlc & _). pose proof Htc as (Hltc & _). unfold is_u16 in Hlc, Hltc.
  rewrite !Z.sub_0_r, (proj2 (Z.leb_le (len c) (len tc - zlen pre))), (u16_small (len c)) by (unfold is_u16; lia).
  rewrite (load_ok s c 0 (len c)) by (done || lia). cbn [rbind]. change (Z.to_nat 0) with 0%nat.
  rewrite drop_0, firstn_all2 by (rewrite <- Hda; unfold zlen in *; lia). rewrite <- Hda. set (x := data_of s b) in *.
  assert (bytes x) as Hbx by (rewrite Hda; by apply cell_data_bytes).
  destruct (save_at s p tc (zlen pre) x) as (s1 & -> & Hc1 & Hb1 & Hbs1 & Hok1 & Hd1); try done; [lia..|].
  cbn [rbind]. rewrite Hdat, splice_seam in Hd1 by lia.
  rewrite Z.add_0_l, (u16_small (len c)), (u16_small (zlen pre + len c)) by (unfold is_u16; lia).
  rewrite (proj2 (Z.leb_le (len c) (len c))) by lia.
  destruct (filled_frame s s1 p l b Hc1 Hb1 Hfl) as (_ & Hcont & HF1 & Hfl1).
  assert (is_chain s1 (next c) l) as Hch1 by (apply (chain_frame s); [intros; by rewrite Hc1|done]).
  assert (totals_ok s1 l) as Htot1.
  { apply (totals_same s s1 b); [done| |apply Htot]. intros y l' E. f_equal. by eapply contents_suffix. }
  rewrite (not_queue s1 p (next c) l) by (try done; by apply HF1). cbn [rbind].
  assert (packet_queue s1 (if zlen pre + len c =? len tc then next tc else p) = Ok false) as Hto.
  { unfold packet_queue. rewrite Hnx. destruct (zlen pre + len c =? len tc); [done|]. rewrite (proj2 (Z.eqb_neq p 0)) by done.
    rewrite (deref_ok s1 p tc) by (done || by rewrite Hc1). cbn [rbind]. rewrite Hnx. cbn. by rewrite andb_false_r. }
  assert ((if zlen pre + len c =? len tc then (next tc, 0) else (p, zlen pre + len c)) =
          (if zlen pre + len c =? len tc then next tc else p, if zlen pre + len c =? len tc then 0 else zlen pre + len c)) as ->
    by by case_match.
  rewrite Hto. cbn [rbind].
  destruct l as [|d l].
  { cbn in Hch1. rewrite Hch1. cbn [Z.eqb]. exists s1. split; [done|]. split; [done|]. split; [done|]. split; [done|]. split; [done|].
    rewrite Hd1. change (contents s []) with (@nil Z). by rewrite !app_nil_r, <- app_assoc. }
  destruct (chain_head _ _ _ _ Hch1 (HF1 HF')) as (Hn1 & c1 & _ & Ec1 & _ & Hz1 & _ & Hlen1 & _).
  rewrite Hz1. rewrite (proj2 (Z.eqb_neq (zlen pre + len c) (len tc))).
  2:{ apply List.Forall_cons_iff in Hfl1 as [Hd0 _]. unfold filled in Hd0. rewrite Ec1 in Hd0.
      rewrite <- Hcont, contents_cons in Hfit. zl. zpos. lia. }
  replace (zlen pre + len c) with (zlen (pre ++ x)) by (zl; lia).
  destruct (IH s1 p tc (next c) d l (pre ++ x) (drop (length x) rest)) as (s' & E' & Hc' & Hb' & Hbs' & Hok' & Hd'); try done.
  - by apply HF1.
  - by rewrite Hc1.
  - rewrite Hcont. unfold zlen in *. rewrite length_drop. lia.
  - cbn [length] in Hf. lia.
  - exists s'. split; [exact E'|]. split; [congruence|]. split; [intros y Hy; by rewrite Hb', Hb1|].
    split; [by auto|]. split; [done|]. rewrite Hd', Hcont, drop_drop, length_app, <- !app_assoc. done.
Qed.

(** [pbuf_copy] copies a packet of nonempty pbufs into a pbuf of its own
    memory that is as long. *)
Lemma copy_into s p tc q l :
  packet s q l -> l <> [] -> Forall (filled s p) l ->
  p <> 0 -> cells s !! p = Some tc -> cell_ok s tc -> (payload tc).1 = p -> next tc = 0 ->
  tot_len tc = len tc -> len tc = zlen (contents s l) ->
  exists s', pbuf_copy s p q = Ok (ERR_OK, s') /\ cells s' = cells s /\
    (forall x, x <> p -> blocks s' !! x = blocks s !! x) /\
    (forall x, is_Some (blocks s !! x) -> is_Some (blocks s' !! x)) /\ cell_ok s' tc /\
    cell_data s' tc = contents s l.
Proof.
  intros [Hch HF Htot _] Hne Hfl Hp Ep Htc Hpay Hnx Htt Hlen. destruct l as [|b l]; [done|].
  destruct (chain_head _ _ _ _ Hch HF) as (-> & c & Hd & Ec & _ & Hz & _).
  unfold pbuf_copy. rewrite (proj2 (Z.eqb_neq p 0)), Hz by done. cbn [orb].
  rewrite (deref_ok s p tc), Hd by done. cbn [rbind]. destruct Htot as [Ht Htot]. rewrite Ec in Ht.
  rewrite (proj2 (Z.ltb_ge (tot_len tc) (tot_len c))) by lia.
  pose proof (chain_enough _ _ _ Hch) as Hen. cbn [length] in Hen.
  destruct (copy_loop_ok (chain_fuel s + chain_fuel s) s p tc b b l [] (cell_data s tc)) as
    (s' & E & Hc & Hb & Hbs & Hok & Hd'); try done.
  - split; [by rewrite Ec|done].
  - rewrite cell_data_length by done. lia.
  - lia.
  - exists s'. change (zlen []) with 0 in E. split; [exact E|]. do 4 (split; [done|]).
    rewrite Hd'. cbn [app]. rewrite skipn_all2, app_nil_r; [done|].
    pose proof (cell_data_length s tc Htc). unfold zlen in *. lia.
Qed.
