(* ===== verification/PbufTrim.v ===== *)
(** * Trimming and freeing packets: [pbuf_realloc] and [pbuf_free] of
    [lwip/core/pbuf.c] on whole chains. *)
From S2P Require Import Prelude Cobs Uart Comm Pbuf PbufChain.
From stdpp Require Import list gmap.
#[local] Open Scope Z_scope.

(** Everything but [l] is as it was. *)
Definition untouched (m m' : store) (l : list Z) : Prop :=
  (backed m -> backed m') /\ forall a, ~ In a l -> cells m' !! a = cells m !! a /\ blocks m' !! a = blocks m !! a.

Lemma untouched_refl m l : untouched m m l.
Proof. by split. Qed.
Lemma untouched_trans m1 m2 m3 l : untouched m1 m2 l -> untouched m2 m3 l -> untouched m1 m3 l.
Proof.
  intros [B1 U1] [B2 U2]. split; [by auto|]. intros a Ha. destruct (U1 a Ha) as [E1 E2], (U2 a Ha) as [E3 E4].
  split; congruence.
Qed.
Lemma untouched_weaken m m' l l' : (forall a, In a l -> In a l') -> untouched m m' l -> untouched m m' l'.
Proof. intros Hl [B U]. split; [done|]. intros a Ha. apply U. auto. Qed.
Lemma untouched_put m a c : is_Some (cells m !! a) -> untouched m (put m a c) [a].
Proof.
  intros Hs. split.
  - intros Hb x. cbn. destruct (decide (x = a)) as [->|Hx]; [intros _; by apply Hb|rewrite lookup_insert_ne by done; apply Hb].
  - intros x Hx. cbn. rewrite lookup_insert_ne; [done|]. intros ->. apply Hx. by left.
Qed.

(** ** Freeing a whole packet *)
Lemma without_blocks l : forall s a, ~ In a l -> blocks (without l s) !! a = blocks s !! a.
Proof.
  induction l as [|b l IH]; intros s a Hn; [done|]. cbn [without]. rewrite IH by (intros ?; apply Hn; by right).
  simpl. apply lookup_delete_ne. intros ->. apply Hn. by left.
Qed.
Lemma without_gone l : forall s a, In a l -> cells (without l s) !! a = None.
Proof.
  induction l as [|b l IH]; intros s a; [done|]. intros [->|Hin]; cbn [without]; [|by apply IH].
  destruct (decide (a ∈ l)) as [Hin|Hn]; rewrite list_elem_of_In in *; [by apply IH|].
  rewrite without_cells by done. cbn. apply lookup_delete_eq.
Qed.
Lemma without_backed l : forall s, backed s -> backed (without l s).
Proof.
  induction l as [|b l IH]; intros s Hb; [done|]. cbn [without]. apply IH. intros a. cbn.
  destruct (decide (a = b)) as [->|Ha]; [rewrite lookup_delete_eq; by intros []|]. rewrite !lookup_delete_ne by done. apply Hb.
Qed.

(** Where the chain stops being freed. *)
Lemma prefix_of_ones s l : exists l1 l2, l = l1 ++ l2 /\ Forall (fun a => ref_of s a = 1) l1 /\
  match l2 with [] => True | a :: _ => ref_of s a <> 1 end.
Proof.
  induction l as [|a l (l1 & l2 & -> & H1 & H2)]; [by exists [], []|].
  destruct (decide (ref_of s a = 1)); [exists (a :: l1), l2; by repeat constructor|by exists [], (a :: l1 ++ l2)].
Qed.

Lemma free_chain m p l : is_chain m p l -> Forall (releasable m) l ->
  exists n m', pbuf_free m p = Ok (n, m') /\ untouched m m' l /\
    (Forall (fun a => ref_of m a = 1) l -> forall a, In a l -> cells m' !! a = None).
Proof.
  intros Hch HF. destruct (prefix_of_ones m l) as (l1 & l2 & -> & H1 & H2). unfold pbuf_free.
  rewrite (free_loop_ok l1 _ m p l2 0 Hch HF) by (done || by apply chain_enough in Hch). eexists _, _. split; [reflexivity|]. split.
  - assert (untouched m (unref l2 m) l2) as Hu.
    { destruct l2 as [|b l2]; [apply untouched_refl|]. cbn [unref]. destruct (cells m !! b) eqn:Eb; [|apply untouched_refl].
      eapply untouched_weaken; [|apply untouched_put; by rewrite Eb]. intros ? [->|[]]. by left. }
    destruct Hu as [B U]. split; [intros Hb; by apply without_backed, B|]. intros a Ha. rewrite in_app_iff in Ha.
    rewrite without_cells, without_blocks by tauto. apply U. tauto.
  - intros Hones a Hin. destruct l2 as [|b l2]; [rewrite app_nil_r in Hin; by apply without_gone|].
    apply Forall_app in Hones as [_ Hones]. by apply Forall_cons in Hones as [? _].
Qed.

(** ** Trimming *)

(** The pbufs [l] with their totals lowered by [d]. *)
Definition lowered (m m' : store) (d : Z) (l : list Z) : Prop := forall a, In a l ->
  exists c, cells m !! a = Some c /\ cells m' !! a = Some (set_tot_len c (tot_len c - d)).

Lemma realloc_skip_ok d l : forall fuel m q n, packet m q l -> l <> [] -> (length l < fuel)%nat ->
  0 <= d -> n = zlen (contents m l) - d -> 0 <= n ->
  exists l1 b l2 cb m', l = l1 ++ b :: l2 /\ realloc_skip fuel m q n (- d) = Ok (b, n - zlen (contents m l1), m') /\
    cells m !! b = Some cb /\ 0 <= n - zlen (contents m l1) <= len cb /\ lowered m m' d l1 /\ blocks m' = blocks m /\
    forall a, ~ In a l1 -> cells m' !! a = cells m !! a.
Proof.
  induction l as [|a l IH]; intros fuel m q n Hp Hne Hf Hd Hn H0; [done|]. destruct fuel as [|fuel]; [cbn in Hf; lia|].
  pose proof Hp as [Hch HF [Ht Htot] Hsm]. destruct (chain_head _ _ _ _ Hch HF) as (-> & c & Hder & Ec & Hok & _ & Hda & Hlen & Hch' & HF').
  rewrite Ec in Ht. cbn [realloc_skip]. rewrite Hder. cbn [rbind].
  pose proof (packet_tail _ _ _ _ _ Hp Ec) as Hp'. rewrite contents_cons, zlen_app in Hn, Ht, Hsm.
  pose proof (zlen_nonneg (contents m l)). destruct Hok as (Hlc & _).
  destruct (Z.ltb_spec (len c) n) as [Hlt|Hge].
  - assert (l <> []) as Hl by (intros ->; change (zlen (contents m [])) with 0 in *; lia).
    assert (u16 (tot_len c + u16 (- d)) = tot_len c - d) as ->.
    { unfold u16. rewrite Zplus_mod_idemp_r. apply Z.mod_small. unfold is_u16 in Hlc. lia. }
    rewrite (u16_small (n - len c)) by (unfold is_u16 in *; lia).
    set (m1 := put m a (set_tot_len c (tot_len c - d))).
    pose proof (chain_nodup _ _ _ Hch) as [Hnin _]%NoDup_cons. rewrite list_elem_of_In in Hnin.
    destruct (IH fuel m1 (next c) (n - len c)) as (l1 & b & l2 & cb & m' & -> & E & Ecb & Hr & Hlow & Hb & Hc).
    + destruct Hp' as [? ? ? ?]. split; [by apply chain_put|by apply pbuf_ok_put|by apply totals_put|unfold m1; by rewrite contents_put].
    + done.
    + cbn in Hf. lia.
    + done.
    + unfold m1. rewrite contents_put by done. lia.
    + lia.
    + assert (~ In a l1) as Hn1 by (intros ?; apply Hnin, in_app_iff; by left).
      unfold m1 in E, Hr. rewrite contents_put in E, Hr by done.
      exists (a :: l1), b, l2, cb, m'. split; [done|]. rewrite contents_cons, zlen_app, Hlen.
      replace (n - (len c + zlen (contents m l1))) with (n - len c - zlen (contents m l1)) by lia.
      split; [done|]. split; [|split; [done|split; [|split; [done|]]]].
      * rewrite <- Ecb. symmetry. cbn. apply lookup_insert_ne. intros <-. apply Hnin, in_elt.
      * intros x [<-|Hx]; [exists c; split; [done|]; rewrite Hc by done; apply lookup_insert_eq|].
        destruct (Hlow x Hx) as (cx & Ex & Ex'). exists cx. split; [|done]. rewrite <- Ex. symmetry. cbn.
        apply lookup_insert_ne. by intros <-.
      * intros x Hx. rewrite Hc by (intros ?; apply Hx; by right). cbn. apply lookup_insert_ne. intros <-. apply Hx. by left.
  - exists [], a, l, c, m. change (zlen (contents m [])) with 0. rewrite Z.sub_0_r. split; [done|]. split; [done|]. split; [done|].
    split; [lia|]. split; [by intros x []|]. by split.
Qed.

(** A cell keeps its data when its total or link changes. *)
Lemma cell_ok_block m m' c c' : cell_ok m c -> payload c' = payload c -> len c' = len c -> is_u16 (ref c') ->
  blocks m' !! (payload c).1 = blocks m !! (payload c).1 -> cell_ok m' c' /\ cell_data m' c' = cell_data m c.
Proof.
  intros (Hl & _ & Hby & Hb) Hp Hlen Hr Eb.
  assert (cell_data m' c' = cell_data m c) as Hd by (unfold cell_data; by rewrite Hp, Hlen, Eb).
  split; [|done]. split; [by rewrite Hlen|]. split; [done|]. split; [by rewrite Hd|]. by rewrite Hp, Hlen, Eb.
Qed.

(** A cell cut to its first [n] bytes. *)
Lemma cell_cut m m' c c' n : cell_ok m c -> payload c' = payload c -> len c' = n -> 0 <= n <= len c -> is_u16 (ref c') ->
  blocks m' !! (payload c).1 = blocks m !! (payload c).1 -> cell_ok m' c' /\ cell_data m' c' = take (Z.to_nat n) (cell_data m c).
Proof.
  intros (Hl & _ & Hby & Hb) Hp Hlen Hn Hr Eb.
  assert (cell_data m' c' = take (Z.to_nat n) (cell_data m c)) as Hd.
  { unfold cell_data. rewrite Hp, Hlen, Eb, take_take. f_equal. lia. }
  split; [|done]. unfold is_u16 in *. split; [unfold is_u16; rewrite Hlen; lia|]. split; [done|]. split; [rewrite Hd; by apply Forall_take|].
  rewrite Hp, Hlen, Eb. intros ?. destruct Hb as (x & ? & ?); [lia|]. exists x. split; [done|lia].
Qed.

Lemma contents_app m l k : contents m (l ++ k) = contents m l ++ contents m k.
Proof. unfold contents. by rewrite map_app, concat_app. Qed.

Section trimmed.
Context (m m' : store) (d rem b : Z) (l2 : list Z) (cb : pbuf).
Context (Hb0 : b <> 0) (Ecb : cells m' !! b = Some cb) (Hnext : next cb = 0) (Htot : tot_len cb = rem)
  (Hok : cell_ok m' cb) (Hlen : len cb = rem) (Hdata : cell_data m' cb = take (Z.to_nat rem) (data_of m b))
  (Hd : d = zlen (contents m (b :: l2)) - rem).

Lemma trimmed_chain l1 : forall p, is_chain m p (l1 ++ b :: l2) -> Forall (pbuf_ok m) l1 -> totals_ok m (l1 ++ b :: l2) ->
  lowered m m' d l1 -> (forall a, In a l1 -> blocks m' !! a = blocks m !! a) -> Forall (own m) l1 ->
  is_chain m' p (l1 ++ [b]) /\ Forall (pbuf_ok m') (l1 ++ [b]) /\ totals_ok m' (l1 ++ [b]) /\
  contents m' (l1 ++ [b]) = contents m l1 ++ take (Z.to_nat rem) (data_of m b).
Proof using Type*.
  induction l1 as [|a l1 IH]; intros p Hch HF Ht Hlow Hbl Hown; cbn [app] in *.
  - destruct Hch as (-> & _). assert (contents m' [b] = take (Z.to_nat rem) (data_of m b)) as Hc.
    { unfold contents. cbn [map concat]. rewrite app_nil_r. unfold data_of at 1. by rewrite Ecb. }
    assert (zlen (contents m' [b]) = rem) as Hz.
    { unfold contents. cbn [map concat]. rewrite app_nil_r. unfold data_of. rewrite Ecb, cell_data_length by done. done. }
    split; [split; [done|split; [done|by exists cb]]|]. split; [apply Forall_singleton; unfold pbuf_ok; by rewrite Ecb|].
    split; [split; [by rewrite Ecb, Hz|done]|done].
  - destruct Hch as (-> & Ha & c & Ec & Hch). destruct Ht as [Hta Ht]. rewrite Ec in Hta.
    apply Forall_cons in HF as [Hoka HF]. apply Forall_cons in Hown as [Howna Hown]. unfold pbuf_ok in Hoka. unfold own in Howna.
    rewrite Ec in Hoka, Howna. destruct (Hlow a) as (c' & Ec' & Em); [by left|]. assert (c' = c) as -> by congruence.
    destruct (IH (next c)) as (H1 & H2 & H3 & H4); [done..|intros x Hx; apply Hlow; by right|intros x Hx; apply Hbl; by right|done|].
    destruct (cell_ok_block m m' c (set_tot_len c (tot_len c - d)) Hoka) as [Hok' Hd']; [done|done|apply Hoka|rewrite Howna; apply Hbl; by left|].
    assert (data_of m' a = data_of m a) as Hda by (unfold data_of; by rewrite Em, Ec).
    assert (contents m' (a :: l1 ++ [b]) = contents m (a :: l1) ++ take (Z.to_nat rem) (data_of m b)) as Hc
      by (rewrite !contents_cons, H4, Hda; by rewrite app_assoc).
    split; [split; [done|split; [done|by exists (set_tot_len c (tot_len c - d))]]|].
    split; [constructor; [unfold pbuf_ok; by rewrite Em|done]|]. split; [|done]. split; [|done]. rewrite Em. cbn [tot_len set_tot_len].
    rewrite Hta, Hd, Hc. change (a :: l1 ++ b :: l2) with ((a :: l1) ++ b :: l2). rewrite contents_app, !zlen_app.
    assert (zlen (take (Z.to_nat rem) (data_of m b)) = rem) as ->; [|lia].
    rewrite <- Hdata, cell_data_length by done. done.
Qed.
End trimmed.

(** What trimming leaves of the packet [l]: the pbufs [l1] and the last one [b]. *)
Definition trimmed (m m' : store) (p n : Z) (l l1 : list Z) (b : Z) : Prop :=
  packet m' p (l1 ++ [b]) /\ contents m' (l1 ++ [b]) = take (Z.to_nat n) (contents m l) /\ untouched m m' l /\
  forall a, In a (l1 ++ [b]) -> blocks m' !! a = blocks m !! a /\
    exists c c', cells m !! a = Some c /\ cells m' !! a = Some c' /\ payload c' = payload c /\ ref c' = ref c /\ type c' = type c /\
      len c' <= len c.

Lemma trim_nothing m p l n : packet m p l -> l <> [] -> zlen (contents m l) <= n ->
  exists l1 b, l = l1 ++ [b] /\ trimmed m m p n l l1 b.
Proof.
  intros Hp Hne Hn. destruct (exists_last Hne) as (l1 & b & El). exists l1, b. split; [done|]. unfold trimmed. rewrite <- El.
  split; [done|]. split; [rewrite take_ge; [done|]; unfold zlen in *; lia|]. split; [apply untouched_refl|].
  intros a Ha. split; [done|]. destruct (chain_in _ _ _ _ (packet_chain _ _ _ Hp) Ha) as [_ [ca Ea]].
  exists ca, ca. repeat (split; [done|]). lia.
Qed.

(** The end of the function, for the last pbuf [b] and the pbufs [l2] behind it. *)
Lemma cut_ok m b cb l2 rem : b <> 0 -> ~ In b l2 -> cells m !! b = Some cb -> is_chain m (next cb) l2 -> Forall (releasable m) l2 ->
  exists m', (let! c := deref m b in
    let m := put m b (set_tot_len (set_len c rem) rem) in
    let! m := (if negb (next c =? 0) then let! (_, m) := pbuf_free m (next c) in Ok m else Ok m) in
    let! c := deref m b in Ok (put m b (set_next c 0))) = Ok m' /\
    cells m' !! b = Some (set_next (set_tot_len (set_len cb rem) rem) 0) /\ untouched m m' (b :: l2) /\ blocks m' !! b = blocks m !! b /\
    (Forall (fun a => ref_of m a = 1) l2 -> forall a, In a l2 -> cells m' !! a = None).
Proof.
  intros Hb Hn Ecb Hch Hrel. rewrite (deref_ok m b cb) by done. cbn [rbind]. set (c1 := set_tot_len (set_len cb rem) rem).
  set (m1 := put m b c1). assert (forall a, In a l2 -> cells m1 !! a = cells m !! a) as Hsame.
  { intros a Ha. cbn. apply lookup_insert_ne. by intros ->. }
  assert (exists m2, (if negb (next cb =? 0) then let! (_, m) := pbuf_free m1 (next cb) in Ok m else Ok m1) = Ok m2 /\
    untouched m1 m2 l2 /\ (Forall (fun a => ref_of m1 a = 1) l2 -> forall a, In a l2 -> cells m2 !! a = None)) as (m2 & -> & U & Hg).
  { destruct (Z.eqb_spec (next cb) 0) as [E|E]; cbn [negb].
    - destruct l2 as [|x l2]; [|destruct Hch as (? & ? & _); congruence]. exists m1. split; [done|]. split; [apply untouched_refl|by intros _ a []].
    - destruct (free_chain m1 (next cb) l2) as (k & m2 & -> & U & Hg); [by eapply chain_frame| |by exists m2].
      rewrite Forall_forall in Hrel |- *. intros a Ha. destruct (Hrel a Ha) as (ca & Ea & Hba). exists ca.
      rewrite Hsame; [done|by apply list_elem_of_In]. }
  cbn [rbind]. destruct U as [B U]. destruct (U b Hn) as [Ub1 Ub2]. assert (cells m1 !! b = Some c1) as E1 by apply lookup_insert_eq.
  rewrite E1 in Ub1. rewrite (deref_ok m2 b c1) by done. cbn [rbind]. eexists. split; [reflexivity|].
  split; [apply lookup_insert_eq|]. split; [|split; [done|]].
  - assert (untouched m1 (put m2 b (set_next c1 0)) (b :: l2)) as U2.
    { eapply untouched_trans; [eapply untouched_weaken; [|by split]; by right|].
      eapply untouched_weaken; [|apply untouched_put; by rewrite Ub1]. intros ? [->|[]]. by left. }
    eapply untouched_trans; [|exact U2]. eapply untouched_weaken; [|apply untouched_put; by rewrite Ecb].
    intros ? [->|[]]. by left.
  - intros Hones a Ha. cbn. rewrite lookup_insert_ne by by intros ->. apply Hg; [|done].
    rewrite Forall_forall in Hones |- *. intros x Hx. unfold ref_of. rewrite Hsame by by apply list_elem_of_In. by apply Hones.
Qed.

(** What the two loops leave is the trimmed packet. *)
Lemma cut_trimmed m m1 m' p n l1 b l2 cb : packet m p (l1 ++ b :: l2) -> Forall (own m) (l1 ++ b :: l2) -> cells m !! b = Some cb ->
  b <> 0 -> ~ In b l1 -> (forall a, In a l2 -> ~ In a l1) -> ~ In b l2 ->
  let rem := n - zlen (contents m l1) in 0 <= n -> 0 <= rem <= len cb ->
  lowered m m1 (zlen (contents m (l1 ++ b :: l2)) - n) l1 -> blocks m1 = blocks m -> (forall a, ~ In a l1 -> cells m1 !! a = cells m !! a) ->
  cells m' !! b = Some (set_next (set_tot_len (set_len cb rem) rem) 0) -> untouched m1 m' (b :: l2) -> blocks m' !! b = blocks m1 !! b ->
  trimmed m m' p n (l1 ++ b :: l2) l1 b.
Proof.
  intros [Hch HF Htot Hsm] Hown Ecb Hb0 Hb1 Hl2 Hb2 rem Hn Hr Hlow Hbl Hcells Ecb2 U Ebb. pose proof U as [B U'].
  assert (forall a, In a l1 -> cells m' !! a = cells m1 !! a /\ blocks m' !! a = blocks m1 !! a) as Hl1.
  { intros a Ha. apply U'. intros [->|Hin]; [done|]. by apply (Hl2 a). }
  assert (Hall := HF). apply Forall_app in Hall as [HF1 [Hokb _]%Forall_cons]. unfold pbuf_ok in Hokb. rewrite Ecb in Hokb.
  apply Forall_app in Hown as [Hown1 [Hownb _]%Forall_cons]. unfold own in Hownb. rewrite Ecb in Hownb.
  assert (data_of m b = cell_data m cb) as Hdb by (unfold data_of; by rewrite Ecb).
  destruct (cell_cut m m' cb (set_next (set_tot_len (set_len cb rem) rem) 0) rem Hokb) as [Hok' Hd']; [done|done|done|apply Hokb|by rewrite Hownb, Ebb, Hbl|].
  set (d := zlen (contents m (l1 ++ b :: l2)) - n) in *.
  assert (lowered m m' d l1) as Hlow'.
  { intros a Ha. destruct (Hlow a Ha) as (ca & Ea & Ea'). exists ca. split; [done|]. by rewrite (proj1 (Hl1 a Ha)). }
  destruct (trimmed_chain m m' d rem b l2 _ Hb0 Ecb2) with (l1 := l1) (p := p) as (H1 & H2 & H3 & H4);
    [done|done|done|done|by rewrite Hdb|unfold d, rem; rewrite contents_app, zlen_app; lia|done|done|done|done| |done|].
  { intros a Ha. by rewrite (proj2 (Hl1 a Ha)), Hbl. }
  assert (contents m' (l1 ++ [b]) = take (Z.to_nat n) (contents m (l1 ++ b :: l2))) as Hcont.
  { rewrite H4, contents_app, contents_cons, firstn_app. f_equal; [rewrite take_ge; [done|unfold rem, zlen in *; lia]|].
    rewrite firstn_app. replace (Z.to_nat n - length (contents m l1))%nat with (Z.to_nat rem) by (unfold rem, zlen; lia).
    assert (Z.to_nat rem - length (data_of m b) = 0)%nat as ->; [|by rewrite take_0, app_nil_r].
    rewrite Hdb. pose proof (cell_data_length _ _ Hokb). unfold zlen in *. lia. }
  split; [split; [done|done|done|rewrite Hcont; unfold zlen in *; rewrite length_take; lia]|]. split; [done|]. split.
  - eapply untouched_trans; [|eapply untouched_weaken; [|exact U]; intros x Hx; apply in_app_iff; by right].
    split; [intros Hbk x Hx; rewrite Hbl|intros x Hx; rewrite Hbl; split; [apply Hcells; intros ?; apply Hx, in_app_iff; by left|done]].
    apply Hbk. destruct (decide (x ∈ l1)) as [Hin|Hin]; rewrite list_elem_of_In in Hin; [destruct (Hlow x Hin) as (cx & -> & _); by eexists|by rewrite <- Hcells].
  - intros a [Ha|[<-|[]]]%in_app_iff.
    + split; [by rewrite (proj2 (Hl1 a Ha)), Hbl|]. destruct (Hlow' a Ha) as (ca & Ea & Ea'). eexists _, _. repeat (split; [done|]). cbn. lia.
    + split; [by rewrite Ebb, Hbl|]. eexists _, _. repeat (split; [done|]). cbn. lia.
Qed.

Lemma realloc_ok m p l n : packet m p l -> l <> [] -> Forall (own m) l -> Forall (releasable m) l -> 0 <= n <= zlen (contents m l) ->
  exists m' l1 b l2, pbuf_realloc m p n = Ok m' /\ l = l1 ++ b :: l2 /\ trimmed m m' p n l l1 b /\
    (Forall (fun a => ref_of m a = 1) l2 -> forall a, In a l2 -> cells m' !! a = None).
Proof.
  intros Hp Hne Hown Hrel Hn. pose proof Hp as [Hch HF Htot Hsm]. destruct l as [|h t]; [done|].
  destruct (chain_head _ _ _ _ Hch HF) as (-> & c & Hder & Ec & _). pose proof Htot as [Ht _]. rewrite Ec in Ht.
  unfold pbuf_realloc. rewrite Hder. cbn [rbind]. set (l := h :: t) in *. destruct (Z.leb_spec (tot_len c) n) as [Hle|Hgt].
  { destruct (trim_nothing m h l n Hp Hne) as (l1 & b & El & HT); [lia|]. exists m, l1, b, []. split; [done|]. split; [done|].
    split; [done|by intros _ a []]. }
  replace (n - tot_len c) with (- (tot_len c - n)) by lia.
  destruct (realloc_skip_ok (tot_len c - n) l (chain_fuel m) m h n Hp Hne (chain_enough _ _ _ Hch)) as
    (l1 & b & l2 & cb & m1 & El & -> & Ecb & Hr & Hlow & Hbl & Hcells); [lia..|]. cbn [rbind].
  set (rem := n - zlen (contents m l1)) in *. pose proof (chain_nodup _ _ _ Hch) as Hnd. rewrite El in *. clearbody l.
  apply NoDup_app in Hnd as (Hnd1 & Hdis & [Hbn Hnd2]%NoDup_cons). rewrite list_elem_of_In in Hbn.
  assert (~ In b l1) as Hb1 by (rewrite <- list_elem_of_In; intros Hin; by apply (Hdis _ Hin), list_elem_of_here).
  assert (forall a, In a l2 -> ~ In a l1) as Hl2.
  { intros a Ha Hin. rewrite <- list_elem_of_In in Ha, Hin. by apply (Hdis _ Hin), list_elem_of_further. }
  destruct (chain_suffix _ _ _ _ _ Hch) as (_ & Hb0 & cb' & Ecb' & Hch2). assert (cb' = cb) as -> by congruence.
  destruct (cut_ok m1 b cb l2 rem Hb0 Hbn) as (m' & Ecut & Ecb2 & U & Ebb & Hg).
  { by rewrite Hcells. }
  { eapply chain_frame; [|exact Hch2]. intros a Ha. apply Hcells. by apply Hl2. }
  { apply Forall_app in Hrel as [_ [_ Hrel]%Forall_cons]. rewrite Forall_forall in Hrel |- *. intros a Ha.
    destruct (Hrel a Ha) as (ca & Ea & Hba). exists ca. rewrite Hcells, Hbl; [done|]. apply Hl2. by apply list_elem_of_In. }
  exists m', l1, b, l2. split; [exact Ecut|]. split; [done|]. clear Ecut. split.
  - apply (cut_trimmed m m1 m' h n l1 b l2 cb); try done; [lia|by rewrite <- Ht].
  - intros Hones. apply Hg. rewrite Forall_forall in Hones |- *. intros x Hx. unfold ref_of.
    rewrite Hcells by (apply Hl2; by apply list_elem_of_In). by apply Hones.
Qed.

(** Freeing what trimming left: all of the packet is gone. *)
Lemma free_trimmed m m1 p n l l1 b l2 : l = l1 ++ b :: l2 -> trimmed m m1 p n l l1 b -> Forall (releasable m) l ->
  (Forall (fun a => ref_of m a = 1) l2 -> forall a, In a l2 -> cells m1 !! a = None) ->
  exists k m', pbuf_free m1 p = Ok (k, m') /\ untouched m m' l /\
    (Forall (fun a => ref_of m a = 1) l -> forall a, In a l -> cells m' !! a = None).
Proof.
  intros El (Hp & _ & U & Hkeep) Hrel Hg.
  assert (forall a, In a (l1 ++ [b]) -> In a l) as Hsub by (intros a; subst l; rewrite !in_app_iff; cbn; tauto).
  assert (Forall (releasable m1) (l1 ++ [b])) as Hrel1.
  { rewrite Forall_forall in Hrel |- *. intros a Ha%list_elem_of_In. destruct (Hkeep a Ha) as (Hb & c & c' & Ec & Ec' & Epl & Er & _).
    destruct (Hrel a) as (ca & Ea & Hbl & Hr); [by apply list_elem_of_In, Hsub|]. assert (ca = c) as -> by congruence.
    exists c'. rewrite Er, Hb. done. }
  destruct (free_chain m1 p (l1 ++ [b]) (packet_chain _ _ _ Hp) Hrel1) as (k & m' & E & U' & Hg'). exists k, m'. split; [done|].
  split; [eapply untouched_trans; [exact U|by eapply untouched_weaken]|]. intros Hones a Ha.
  destruct (in_dec Z.eq_dec a (l1 ++ [b])) as [Hin|Hn].
  - apply Hg'; [|done]. rewrite Forall_forall in Hones |- *. intros x Hx%list_elem_of_In. rewrite <- (Hones x) by by apply list_elem_of_In, Hsub.
    destruct (Hkeep x Hx) as (_ & c & c' & Ec & Ec' & _ & Er & _). unfold ref_of. by rewrite Ec, Ec'.
  - rewrite (proj1 (proj2 U' a Hn)). subst l. apply Forall_app in Hones as [_ [_ Hones]%Forall_cons]. apply Hg; [done|].
    rewrite in_app_iff in Ha, Hn. cbn in Ha, Hn. tauto.
Qed.

(** Trimming a packet.  [pbuf_realloc] to at most the length of the packet leaves a well-formed packet of exactly its first [n] bytes, in the pbufs up to the one where they end; it frees the pbufs behind when nobody else refers to them, moves no bytes, and touches nothing outside the packet. *)
Theorem pbuf_realloc_trims m p l n : packet m p l -> l <> [] -> Forall (own m) l -> Forall (releasable m) l ->
  0 <= n <= zlen (contents m l) ->
  exists m' l1 b l2, pbuf_realloc m p n = Ok m' /\ l = l1 ++ b :: l2 /\ trimmed m m' p n l l1 b /\
    (Forall (fun a => ref_of m a = 1) l2 -> forall a, In a l2 -> cells m' !! a = None).
Proof. apply realloc_ok. Qed.

Lemma pbuf_realloc_trims_witness :
  packet two_pbufs 100 [100; 200] /\
  exists m' l1 b l2, pbuf_realloc two_pbufs 100 2 = Ok m' /\ [100; 200] = l1 ++ b :: l2 /\
    contents m' (l1 ++ [b]) = take 2 (contents two_pbufs [100; 200]).
Proof.
  split; [exact two_pbufs_packet|].
  assert (Forall (releasable two_pbufs) [100; 200]) as Hr.
  { apply List.Forall_cons; [|apply List.Forall_cons; [|apply List.Forall_nil]];
      (eexists; split; [reflexivity|split; [eexists; reflexivity|cbn; lia]]). }
  destruct (pbuf_realloc_trims two_pbufs 100 [100; 200] 2 two_pbufs_packet) as (m' & l1 & b & l2 & H1 & H2 & (_ & H3 & _) & _);
    [discriminate|exact two_pbufs_own|exact Hr|vm_compute; split; discriminate|].
  exists m', l1, b, l2. split; [exact H1|]. split; [exact H2|exact H3].
Defined.
