(* ===== verification/InetChksum.v ===== *)
(** * The Internet checksum: [lwip/core/ipv4/inet_chksum.c],
    [include/lwip/inet_chksum.h] and the byte order macros of [arch/cc.h].

    The sums are compared with the little-endian integer of the data: modulo
    65535 the two are equal, which makes the treatment of alignment, odd
    lengths and chains of buffers one computation. *)
From S2P Require Import Prelude Cobs Uart Comm Pbuf PbufChain.

(** [LWIP_PLATFORM_HTONS] and [LWIP_PLATFORM_HTONL]. *)
Definition LWIP_PLATFORM_HTONS (n : Z) : Z :=
  u16 (Z.lor (Z.shiftl (Z.land n 0xff) 8) (Z.land (Z.shiftr n 8) 0xff)).
Definition LWIP_PLATFORM_HTONL (n : Z) : Z :=
  u32 (Z.lor (Z.lor (Z.lor (Z.shiftl (Z.land n 0xff) 24) (Z.shiftl (Z.land n 0xff00) 8))
               (Z.land (Z.shiftr n 8) 0xff00))
         (Z.land (Z.shiftr n 24) 0xff)).
Abbreviation htons := LWIP_PLATFORM_HTONS.
Abbreviation ntohs := LWIP_PLATFORM_HTONS.

Definition SWAP_BYTES_IN_WORD (w : Z) : Z := LWIP_PLATFORM_HTONS w.
Definition FOLD_U32T (u : Z) : Z := u32 (Z.shiftr u 16 + Z.land u 0x0000ffff).

(** The loop over the 16-bit words: the sum and the bytes left over. *)
Fixpoint sum_words (sum : Z) (l : list Z) : Z * list Z :=
  match l with
  | lo :: hi :: l => sum_words (u32 (sum + (lo + 256 * hi))) l
  | _ => (sum, l)
  end.

(** [lwip_standard_chksum(dataptr, len)]: [odd] is the lowest bit of the
    address, [data] the [len] bytes there. *)
Definition lwip_standard_chksum (odd : bool) (data : list Z) : Z :=
  let '(t1, pb) :=
    match odd, data with
    | true, b :: pb => (b, pb)
    | _, _ => (0, data)
    end in
  let '(sum, rest) := sum_words 0 pb in
  let t0 := match rest with [] => 0 | b :: _ => b end in
  let sum := u32 (sum + (t0 + 256 * t1)) in
  let sum := FOLD_U32T sum in
  let sum := FOLD_U32T sum in
  u16 (if odd then SWAP_BYTES_IN_WORD sum else sum).

Definition inet_chksum (odd : bool) (data : list Z) : Z := u16 (Z.lnot (lwip_standard_chksum odd data)).

(** [LWIP_CHKSUM(q->payload, n)]; blocks are aligned. *)
Definition chksum_payload (s : store) (a : Z * Z) (n : Z) : result Z :=
  let! l := load s a 0 n in Ok (lwip_standard_chksum (Z.odd a.2) l).

(** One pbuf of the loops below: [acc] and the [swapped] flag. *)
Definition chksum_round (acc : Z) (swapped : bool) (chk qlen : Z) : Z * bool :=
  let acc := FOLD_U32T (u32 (acc + chk)) in
  if negb (qlen mod 2 =? 0) then (SWAP_BYTES_IN_WORD acc, negb swapped) else (acc, swapped).

(** The loop over a chain; [chksum_len] is [None] where the function has no
    such argument. *)
Fixpoint chksum_chain (fuel : nat) (s : store) (q : Z) (chksum_len : option Z)
  (acc : Z) (swapped : bool) : result (Z * bool) :=
  match fuel with
  | O => Fault OutOfFuel
  | S fuel =>
      if (q =? 0) || match chksum_len with Some n => n <=? 0 | None => false end
      then Ok (acc, swapped)
      else
        let! c := deref s q in
        let chklen := match chksum_len with
                      | Some n => if n <? len c then n else len c
                      | None => len c
                      end in
        let! chk := chksum_payload s (payload c) chklen in
        let '(acc, swapped) := chksum_round acc swapped chk (len c) in
        chksum_chain fuel s (next c) (option_map (fun n => u16 (n - chklen)) chksum_len) acc swapped
  end.

(** What [inet_chksum_pseudo] adds for the pseudo header. *)
Definition add_pseudo (acc src dest proto proto_len : Z) : Z :=
  let acc := u32 (acc + Z.land src 0xffff) in
  let acc := u32 (acc + Z.land (Z.shiftr src 16) 0xffff) in
  let acc := u32 (acc + Z.land dest 0xffff) in
  let acc := u32 (acc + Z.land (Z.shiftr dest 16) 0xffff) in
  let acc := u32 (acc + htons (u16 proto)) in
  u32 (acc + htons proto_len).

Definition pseudo_of (s : store) (p src dest proto proto_len : Z) (chksum_len : option Z) : result Z :=
  let! (acc, swapped) := chksum_chain (chain_fuel s) s p chksum_len 0 false in
  let acc := if (swapped : bool) then SWAP_BYTES_IN_WORD acc else acc in
  let acc := add_pseudo acc src dest proto proto_len in
  let acc := FOLD_U32T acc in
  let acc := FOLD_U32T acc in
  Ok (u16 (Z.lnot (Z.land acc 0xffff))).

Definition inet_chksum_pseudo (s : store) (p src dest proto proto_len : Z) : result Z :=
  pseudo_of s p src dest proto proto_len None.
Definition inet_chksum_pseudo_partial (s : store) (p src dest proto proto_len chksum_len : Z) : result Z :=
  pseudo_of s p src dest proto proto_len (Some chksum_len).

Definition inet_chksum_pbuf (s : store) (p : Z) : result Z :=
  let! (acc, swapped) := chksum_chain (chain_fuel s) s p None 0 false in
  let acc := if (swapped : bool) then SWAP_BYTES_IN_WORD acc else acc in
  Ok (u16 (Z.lnot (Z.land acc 0xffff))).

(** ** The data as a number *)

Fixpoint le_val (l : list Z) : Z :=
  match l with [] => 0 | b :: l => b + 256 * le_val l end.

(** The representative in [[1, 65535]] of a positive sum. *)
Definition canon (z : Z) : Z := if z =? 0 then 0 else (z - 1) mod 65535 + 1.

Definition same_sum (a b : Z) : Prop := a mod 65535 = b mod 65535 /\ (a = 0 <-> b = 0).

#[global] Instance same_sum_equiv : Equivalence same_sum.
Proof.
  split.
  - intros a. split; reflexivity.
  - intros a b [Hm Hz]. split; [symmetry; exact Hm|symmetry; exact Hz].
  - intros a b c [Hm Hz] [Hm' Hz']. split; [by transitivity (b mod 65535)|by transitivity (b = 0)].
Qed.

Lemma canon_same a b : 0 <= a -> 0 <= b -> same_sum a b -> canon a = canon b.
Proof.
  intros Ha Hb [Hm Hz]. unfold canon.
  destruct (Z.eqb_spec a 0), (Z.eqb_spec b 0); [reflexivity|clear Hm; lia|clear Hm; lia|].
  f_equal. rewrite (Zminus_mod a), (Zminus_mod b), Hm. reflexivity.
Qed.

Lemma canon_small a : 0 <= a <= 65535 -> canon a = a.
Proof.
  intros Ha. unfold canon. destruct (Z.eqb_spec a 0); [done|]. rewrite Z.mod_small; lia.
Qed.

Lemma canon_range a : 0 <= a -> 0 <= canon a <= 65535.
Proof.
  intros Ha. unfold canon. destruct (Z.eqb_spec a 0); [lia|].
  pose proof (Z.mod_pos_bound (a - 1) 65535). lia.
Qed.

Lemma canon_same_sum a : 0 <= a -> same_sum (canon a) a.
Proof.
  intros Ha. unfold canon, same_sum. destruct (Z.eqb_spec a 0) as [->|]; [done|].
  pose proof (Z.mod_pos_bound (a - 1) 65535). split; [|lia].
  rewrite Z.add_mod_idemp_l by done. f_equal. lia.
Qed.

(** Folding keeps the sum. *)
Lemma fold_eq u : is_u32 u -> FOLD_U32T u = u / 65536 + u mod 65536.
Proof.
  intros Hu. unfold FOLD_U32T. rewrite land_65535, Z.shiftr_div_pow2 by done.
  change (2 ^ 16) with 65536. apply u32_small. width_lia.
Qed.

Lemma fold_same u : is_u32 u -> same_sum (FOLD_U32T u) u.
Proof.
  intros Hu. rewrite fold_eq by done. split.
  - rewrite (Z.div_mod u 65536) at 3 by done.
    replace (65536 * (u / 65536) + u mod 65536)
      with (u / 65536 + u mod 65536 + (u / 65536) * 65535) by lia.
    by rewrite Z.mod_add.
  - widths. split; intros; Z.div_mod_to_equations; lia.
Qed.

Lemma fold_twice u : is_u32 u -> FOLD_U32T (FOLD_U32T u) = canon u.
Proof.
  intros Hu. assert (is_u32 (FOLD_U32T u)) as Hu' by (rewrite fold_eq by done; width_lia).
  assert (0 <= FOLD_U32T (FOLD_U32T u) <= 65535).
  { rewrite (fold_eq _ Hu'). rewrite (fold_eq _ Hu). widths. Z.div_mod_to_equations. lia. }
  rewrite <- (canon_small (FOLD_U32T (FOLD_U32T u))) by done.
  apply canon_same; [lia|widths; lia|]. by rewrite !fold_same.
Qed.

(** ** Sums of bytes *)
Lemma le_val_nonneg l : bytes l -> 0 <= le_val l.
Proof. induction 1 as [|b l Hb _ IH]; simpl; [lia|]. unfold is_byte in Hb. lia. Qed.

Lemma le_val_app l k : le_val (l ++ k) = le_val l + 256 ^ zlen l * le_val k.
Proof.
  induction l as [|b l IH]; [change (256 ^ zlen []) with 1; simpl; lia|].
  cbn [app le_val]. rewrite IH, zlen_cons, Z.pow_add_r by zlia. lia.
Qed.

Lemma same_sum_intro a b k : a = b + k * 65535 -> (a = 0 <-> b = 0) -> same_sum a b.
Proof. intros -> Hz. split; [by rewrite Z.mod_add|done]. Qed.

(** A byte swap multiplies the sum by 256. *)
Lemma swap_eq w : 0 <= w <= 65535 -> SWAP_BYTES_IN_WORD w = 256 * (w mod 256) + w / 256.
Proof.
  intros Hw. unfold SWAP_BYTES_IN_WORD, LWIP_PLATFORM_HTONS.
  change 0xff with 255. rewrite !land_255, Z.shiftr_div_pow2, Z.shiftl_mul_pow2 by done.
  change (2 ^ 8) with 256. rewrite (Z.mod_small (w / 256)) by (Z.div_mod_to_equations; lia).
  assert (Z.lor (w mod 256 * 256) (w / 256) = w mod 256 * 256 + w / 256) as ->.
  { symmetry. rewrite <- Z.lxor_lor, <- Z.add_nocarry_lxor; [done|..];
    (apply Z.bits_inj'; intros i Hi; rewrite Z.land_spec, Z.bits_0;
      change (w mod 256 * 256) with (w mod 256 * 2 ^ 8);
      destruct (Z.lt_ge_cases i 8);
      [rewrite Z.mul_pow2_bits_low by done; done|
       rewrite (testbit_high (w / 256) 8 i); [apply andb_false_r| |done];
       change (2 ^ 8) with 256; Z.div_mod_to_equations; lia]). }
  rewrite u16_small; [lia|]. width_lia.
Qed.

Lemma swap_same w : 0 <= w <= 65535 -> same_sum (SWAP_BYTES_IN_WORD w) (256 * w).
Proof.
  intros Hw. rewrite swap_eq by done. apply (same_sum_intro _ _ (- (w / 256))).
  - pose proof (Z.div_mod w 256 ltac:(done)). lia.
  - split; intros; Z.div_mod_to_equations; lia.
Qed.

Lemma swap_range w : 0 <= w <= 65535 -> 0 <= SWAP_BYTES_IN_WORD w <= 65535.
Proof. intros Hw. rewrite swap_eq by done. Z.div_mod_to_equations. lia. Qed.

Lemma swap_swap w : 0 <= w <= 65535 -> SWAP_BYTES_IN_WORD (SWAP_BYTES_IN_WORD w) = w.
Proof.
  intros Hw. pose proof (swap_range w Hw). rewrite swap_eq, swap_eq by done.
  Z.div_mod_to_equations. lia.
Qed.

(** The sum of the 16-bit words, the last one filled with zero. *)
Fixpoint wsum (l : list Z) : Z :=
  match l with
  | lo :: hi :: l => lo + 256 * hi + wsum l
  | [b] => b
  | [] => 0
  end.

Lemma pair_ind (P : list Z -> Prop) :
  P [] -> (forall b, P [b]) -> (forall a b l, P l -> P (a :: b :: l)) -> forall l, P l.
Proof.
  intros H0 H1 H2. fix IH 1. intros [|a [|b l]]; [done|apply H1|apply H2, IH].
Qed.

Lemma wsum_same l : bytes l -> same_sum (wsum l) (le_val l).
Proof.
  induction l as [|b|a b l IH] using pair_ind; intros Hl; [reflexivity|simpl; by rewrite Z.add_0_r|].
  apply bytes_cons in Hl as [Ha Hl]. apply bytes_cons in Hl as [Hb Hl].
  specialize (IH Hl) as [IHm IHz]. pose proof (le_val_nonneg l Hl). unfold is_byte in *.
  cbn [wsum le_val]. split.
  - replace (a + 256 * (b + 256 * le_val l)) with (a + 256 * b + le_val l + le_val l * 65535) by lia.
    rewrite Z.mod_add by done. rewrite (Z.add_mod _ (wsum l)), (Z.add_mod _ (le_val l)) by done.
    by rewrite IHm.
  - assert (0 <= wsum l) as Hw.
    { clear - Hl. induction l as [|b|a b l IH] using pair_ind; [done| |];
        rewrite ?bytes_cons in Hl; unfold is_byte in *; simpl; [lia|].
      assert (0 <= wsum l) by (apply IH; tauto). lia. }
    lia.
Qed.

Lemma wsum_bound l : bytes l -> 0 <= wsum l <= 65535 * zlen l.
Proof.
  induction l as [|b|a b l IH] using pair_ind; intros Hl; rewrite ?bytes_cons in Hl;
    unfold is_byte in *; cbn [wsum]; zl; [lia|lia|].
  assert (0 <= wsum l <= 65535 * zlen l) by (apply IH; tauto). lia.
Qed.

(** The loop computes [wsum], the last odd byte left aside. *)
Lemma sum_words_ok l : forall sum,
  bytes l -> 0 <= sum -> sum + 65535 * zlen l < 4294967296 ->
  exists s r, sum_words sum l = (s, r) /\ s + match r with [] => 0 | b :: _ => b end = sum + wsum l /\
    sum <= s /\ bytes r.
Proof.
  induction l as [|b|a b l IH] using pair_ind; intros sum Hl Hs Hb.
  - exists sum, []. by repeat split; simpl; lia || constructor.
  - exists sum, [b]. repeat split; simpl; done || lia.
  - rewrite !bytes_cons in Hl. destruct Hl as (Ha' & Hb' & Hl). unfold is_byte in *. zl.
    pose proof (zlen_nonneg l). cbn [sum_words wsum]. rewrite u32_small by width_lia.
    destruct (IH (sum + (a + 256 * b))) as (s & r & E & Es & Hle & Hr); [done|lia|lia|].
    exists s, r. repeat split; try done; lia.
Qed.

(** ** The checksum of one buffer *)
Lemma same_sum_nonneg_mul k a b : 0 < k -> same_sum a b -> same_sum (k * a) (k * b).
Proof.
  intros Hk [Hm Hz]. split; [|nia].
  by rewrite (Z.mul_mod k a), (Z.mul_mod k b), Hm by done.
Qed.

Lemma chksum_canon odd data :
  bytes data -> zlen data <= 65535 -> lwip_standard_chksum odd data = canon (le_val data).
Proof.
  intros Hd Hl. pose proof (le_val_nonneg data Hd) as Hv.
  assert (forall pb t1, bytes pb -> zlen pb <= 65535 -> is_byte t1 ->
    let '(sum, rest) := sum_words 0 pb in
    let t0 := match rest with [] => 0 | b :: _ => b end in
    u32 (sum + (t0 + 256 * t1)) = wsum pb + 256 * t1 /\ is_u32 (wsum pb + 256 * t1)) as Hsum.
  { intros pb t1 Hpb Hlen Ht. destruct (sum_words_ok pb 0 Hpb) as (s & r & -> & E & _ & _); [lia|lia|].
    pose proof (wsum_bound pb Hpb). unfold is_byte in Ht. cbv zeta.
    replace (s + (match r with [] => 0 | b :: _ => b end + 256 * t1)) with (wsum pb + 256 * t1) by lia.
    split; [apply u32_small|]; widths; lia. }
  assert (forall t1, is_byte t1 -> forall pb, bytes pb -> zlen pb <= 65535 ->
    let '(sum, rest) := sum_words 0 pb in
    FOLD_U32T (FOLD_U32T (u32 (sum + (match rest with [] => 0 | b :: _ => b end + 256 * t1)))) =
    canon (wsum pb + 256 * t1)) as Hfold.
  { intros t1 Ht pb Hpb Hlen. specialize (Hsum pb t1 Hpb Hlen Ht). destruct (sum_words 0 pb) as [s r].
    destruct Hsum as [-> Hu]. by apply fold_twice. }
  pose proof (canon_range _ Hv) as Hc.
  assert (0 <= 0 < 256) as H00 by lia.
  destruct odd; [destruct data as [|b pb]|]; unfold lwip_standard_chksum.
  - reflexivity.
  - apply bytes_cons in Hd as [Hb Hpb]. zl. specialize (Hfold b Hb pb Hpb ltac:(lia)).
    destruct (sum_words 0 pb) as [s r]. rewrite Hfold. clear Hfold Hsum.
    pose proof (wsum_bound pb Hpb) as Hw. pose proof (le_val_nonneg pb Hpb) as Hvp.
    unfold is_byte in Hb.
    pose proof (canon_range (wsum pb + 256 * b) ltac:(lia)) as Hc'.
    pose proof (swap_range _ Hc') as Hsw. rewrite u16_small by (widths; lia).
    rewrite <- (canon_small (SWAP_BYTES_IN_WORD _)) by done.
    apply canon_same; [lia|done|]. rewrite swap_same by done.
    rewrite (same_sum_nonneg_mul 256 _ _ ltac:(lia) (canon_same_sum (wsum pb + 256 * b) ltac:(lia))).
    pose proof (wsum_same pb Hpb) as [Hm Hz]. cbn [le_val]. split; [|lia].
    replace (256 * (wsum pb + 256 * b)) with (b + 256 * wsum pb + b * 65535) by lia.
    rewrite Z.mod_add by done. rewrite (Z.add_mod b), (Z.add_mod b (256 * le_val pb)) by done.
    by rewrite (Z.mul_mod 256 (wsum pb)), (Z.mul_mod 256 (le_val pb)), Hm by done.
  - specialize (Hfold 0 H00 data Hd Hl). destruct (sum_words 0 data) as [s r]. rewrite Hfold.
    rewrite Z.mul_0_r, Z.add_0_r. pose proof (wsum_bound data Hd).
    pose proof (canon_range (wsum data) ltac:(lia)). rewrite u16_small by (widths; lia).
    apply canon_same; [lia|done|]. by apply wsum_same.
Qed.

(** ** The checksum of a chain *)
Lemma same_sum_add a b c d : 0 <= a -> 0 <= b -> 0 <= c -> 0 <= d ->
  same_sum a b -> same_sum c d -> same_sum (a + c) (b + d).
Proof.
  intros ? ? ? ? [Hm Hz] [Hm' Hz']. split; [|lia].
  by rewrite (Z.add_mod a), (Z.add_mod b), Hm, Hm' by done.
Qed.

Lemma same_sum_65536 x : same_sum (65536 * x) x.
Proof. apply (same_sum_intro _ _ x); lia. Qed.

(** The weight of an odd position. *)
Definition weight (odd : bool) : Z := if odd then 256 else 1.

Lemma weight_neg sw x : same_sum (weight (negb sw) * (256 * x)) (weight sw * x).
Proof.
  destruct sw; unfold weight; cbn [negb]; [by rewrite Z.mul_1_l|].
  rewrite Z.mul_assoc, Z.mul_1_l. apply same_sum_65536.
Qed.

Lemma pow_even n x : same_sum (256 ^ (2 * Z.of_nat n) * x) x.
Proof.
  induction n as [|n IH]; [by rewrite Z.mul_1_l|].
  replace (2 * Z.of_nat (S n)) with (2 + 2 * Z.of_nat n) by lia.
  rewrite Z.pow_add_r by lia. change (256 ^ 2) with 65536. rewrite <- Z.mul_assoc.
  by rewrite same_sum_65536.
Qed.

Lemma pow_weight n x : 0 <= n -> same_sum (256 ^ n * x) (weight (negb (n mod 2 =? 0)) * x).
Proof.
  intros Hn. pose proof (Z.div_mod n 2 ltac:(done)) as E. pose proof (Z.mod_pos_bound n 2 ltac:(done)).
  destruct (Z.eqb_spec (n mod 2) 0) as [Hz|Hz]; cbn [negb weight].
  - rewrite Hz, Z.add_0_r in E. rewrite E, <- (Z2Nat.id (n / 2)) by (apply Z.div_pos; lia).
    rewrite pow_even. by rewrite Z.mul_1_l.
  - assert (n mod 2 = 1) as H1 by lia. rewrite H1 in E.
    rewrite E, Z.pow_add_r, (Z.mul_comm (256 ^ _)), <- Z.mul_assoc by (try apply Z.mul_nonneg_nonneg;
      try apply Z.div_pos; lia). change (256 ^ 1) with 256.
    apply same_sum_nonneg_mul; [lia|].
    rewrite <- (Z2Nat.id (n / 2)) by (apply Z.div_pos; lia). apply pow_even.
Qed.

(** One buffer of a chain, in front of a rest of value [rest]. *)
Lemma chksum_round_ok acc sw d qlen rest :
  0 <= acc <= 65535 -> bytes d -> zlen d <= 65535 -> 0 <= rest -> 0 <= qlen ->
  (rest = 0 \/ qlen = zlen d) ->
  let '(acc', sw') := chksum_round acc sw (canon (le_val d)) qlen in
  0 <= acc' <= 65535 /\
  same_sum (weight sw' * acc' + weight sw' * rest)
           (weight sw * acc + weight sw * (le_val d + 256 ^ zlen d * rest)).
Proof.
  intros Ha Hd Hl Hr Hq Hrq. pose proof (le_val_nonneg d Hd) as Hv.
  pose proof (canon_range _ Hv) as Hc. pose proof (zlen_nonneg d).
  assert (is_u32 (acc + canon (le_val d))) as Hu by (widths; lia).
  assert (0 <= FOLD_U32T (acc + canon (le_val d)) <= 65535) as Hf.
  { rewrite fold_eq by done. widths. Z.div_mod_to_equations. lia. }
  assert (same_sum (FOLD_U32T (acc + canon (le_val d))) (acc + le_val d)) as Hsame.
  { rewrite fold_same by done. apply same_sum_add; try lia; [reflexivity|by apply canon_same_sum]. }
  unfold chksum_round. rewrite u32_small by done. set (f := FOLD_U32T _) in *.
  assert (0 < 256 ^ zlen d) as Hpow by (apply Z.pow_pos_nonneg; lia).
  assert (0 < weight sw) as Hw by (destruct sw; done).
  assert (0 < weight (negb sw)) as Hw' by (destruct sw; done).
  pose proof (Z.mul_nonneg_nonneg (256 ^ zlen d) rest ltac:(lia) Hr) as Hpr.
  assert (forall x, 0 <= x -> 0 <= weight sw * x) as Hwx by (intros; apply Z.mul_nonneg_nonneg; lia).
  assert (forall x, 0 <= x -> 0 <= weight (negb sw) * x) as Hwx'
    by (intros; apply Z.mul_nonneg_nonneg; lia).
  rewrite Z.mul_add_distr_l.
  assert (forall a b, weight sw * a + (weight sw * b + weight sw * (256 ^ zlen d * rest)) =
    weight sw * (a + b) + weight sw * (256 ^ zlen d * rest)) as Hre by (intros; lia).
  rewrite Hre. destruct (negb (qlen mod 2 =? 0)) eqn:Eq.
  - split; [by apply swap_range|].
    apply same_sum_add; [apply Hwx', swap_range; done|apply Hwx; lia|by apply Hwx'|by apply Hwx| |].
    + rewrite (same_sum_nonneg_mul _ _ _ Hw' (swap_same f Hf)). rewrite weight_neg.
      by apply same_sum_nonneg_mul.
    + destruct Hrq as [-> | ->]; [by rewrite !Z.mul_0_r|].
      rewrite (same_sum_nonneg_mul _ _ _ Hw (pow_weight (zlen d) rest ltac:(lia))), Eq.
      cbn [weight]. pose proof (weight_neg (negb sw) rest) as W.
      rewrite negb_involutive in W. by symmetry.
  - split; [done|].
    apply same_sum_add; [apply Hwx; lia|apply Hwx; lia|by apply Hwx|by apply Hwx| |].
    + by apply same_sum_nonneg_mul.
    + destruct Hrq as [-> | ->]; [by rewrite !Z.mul_0_r|].
      rewrite (same_sum_nonneg_mul _ _ _ Hw (pow_weight (zlen d) rest ltac:(lia))), Eq.
      cbn [weight]. by rewrite Z.mul_1_l.
Qed.

(** The part of the data a [chksum_len] selects. *)
Definition cut (o : option Z) (l : list Z) : list Z :=
  match o with Some n => take (Z.to_nat n) l | None => l end.

Lemma bytes_cut o l : bytes l -> bytes (cut o l).
Proof. destruct o; [apply Forall_take|done]. Qed.

Lemma cut_app n d r : 0 <= n ->
  cut (Some n) (d ++ r) = cut (Some (Z.min n (zlen d))) d ++ cut (Some (n - Z.min n (zlen d))) r.
Proof.
  intros Hn. cbn [cut]. rewrite take_app. unfold zlen. f_equal; [|f_equal; lia].
  destruct (Z.le_ge_cases n (Z.of_nat (length d))).
  - f_equal. lia.
  - rewrite !firstn_all2 by lia. done.
Qed.

Lemma chksum_chain_ok fuel : forall s q l o acc sw,
  is_chain s q l -> Forall (pbuf_ok s) l -> (length l < fuel)%nat -> 0 <= acc <= 65535 ->
  match o with Some n => is_u16 n | None => True end ->
  exists acc' sw', chksum_chain fuel s q o acc sw = Ok (acc', sw') /\ 0 <= acc' <= 65535 /\
    same_sum (weight sw' * acc') (weight sw * acc + weight sw * le_val (cut o (contents s l))).
Proof.
  induction fuel as [|fuel IH]; intros s q l o acc sw Hch HF Hf Ha Ho; [lia|]. cbn [chksum_chain].
  destruct l as [|a l].
  { rewrite Hch. exists acc, sw. split; [done|]. split; [done|].
    replace (cut o (contents s [])) with (@nil Z) by (destruct o as [n|]; [symmetry; apply take_nil|done]).
    cbn [le_val]. by rewrite Z.mul_0_r, Z.add_0_r. }
  destruct (chain_head _ _ _ _ Hch HF) as (-> & c & Hd & Ec & Hok & Hz & Hda & Hlen & Hch' & HF').
  rewrite Hz, Hd. cbn [orb rbind]. pose proof Hok as (Hlc & _). unfold is_u16 in Hlc.
  assert (match o with Some n => n <=? 0 | None => false end = true ->
          exists acc' sw', Ok (acc, sw) = Ok (acc', sw') /\ 0 <= acc' <= 65535 /\
          same_sum (weight sw' * acc') (weight sw * acc + weight sw * le_val (cut o (contents s (a :: l)))))
    as Hstop.
  { destruct o as [n|]; [|done]. intros Hn%Z.leb_le. exists acc, sw. split; [done|]. split; [done|].
    unfold is_u16 in Ho. assert (n = 0) as -> by lia. cbn [cut]. simpl. by rewrite Z.mul_0_r, Z.add_0_r. }
  destruct (match o with Some n => n <=? 0 | None => false end) eqn:Estop; [by apply Hstop|]. clear Hstop.
  set (k := match o with Some n => if n <? len c then n else len c | None => len c end).
  assert (0 <= k <= len c) as Hk.
  { unfold k. destruct o as [n|]; [|lia]. apply Z.leb_gt in Estop.
    destruct (Z.ltb_spec n (len c)); lia. }
  unfold chksum_payload. rewrite (load_ok s c 0 k) by (try done; lia). cbn [rbind].
  rewrite drop_0, <- Hda. set (d := take (Z.to_nat k) (data_of s a)).
  pose proof (contents_bytes s (a :: l) HF) as Hcb. rewrite contents_cons in Hcb |- *.
  apply bytes_app in Hcb as [Hbd Hbl].
  assert (bytes d) as Hbd' by by apply Forall_take.
  assert (zlen d = k) as Hzd by (unfold d, zlen in *; rewrite length_take; lia).
  rewrite chksum_canon by (try done; lia).
  set (o' := option_map (fun n => u16 (n - k)) o).
  assert (match o' with Some n => is_u16 n | None => True end) as Ho' by (destruct o; [apply u16_range|done]).
  assert (cut o (data_of s a ++ contents s l) = d ++ cut o' (contents s l)) as Hcut.
  { unfold o', d. destruct o as [n|]; cbn [option_map]; unfold k in *.
    - unfold is_u16 in Ho. rewrite cut_app by lia. rewrite Hlen.
      assert ((if n <? len c then n else len c) = Z.min n (len c)) as -> by
        (destruct (Z.ltb_spec n (len c)); lia).
      rewrite u16_small by (unfold is_u16; lia). done.
    - simpl. rewrite firstn_all2 by (unfold zlen in *; lia). done. }
  rewrite Hcut, le_val_app.
  assert (le_val (cut o' (contents s l)) = 0 \/ len c = zlen d) as Hrest.
  { rewrite Hzd. unfold o', k. destruct o as [n|]; [|by right]. cbn [option_map].
    destruct (n <? len c); [|by right]. left. rewrite Z.sub_diag. done. }
  pose proof (chksum_round_ok acc sw d (len c) (le_val (cut o' (contents s l))) Ha Hbd' ltac:(lia)
    (le_val_nonneg _ (bytes_cut o' _ Hbl)) ltac:(lia) Hrest) as Hround.
  destruct (chksum_round acc sw (canon (le_val d)) (len c)) as [acc1 sw1].
  destruct Hround as [Ha1 Hs1].
  destruct (IH s (next c) l o' acc1 sw1 Hch' HF' ltac:(simpl in Hf; lia) Ha1 Ho')
    as (acc' & sw' & E & Ha' & Hs').
  exists acc', sw'. split; [exact E|]. split; [done|]. by rewrite Hs'.
Qed.

(** The folded and unswapped sum of a chain is that of its bytes. *)
Lemma chksum_chain_sum s q l o :
  is_chain s q l -> Forall (pbuf_ok s) l -> match o with Some n => is_u16 n | None => True end ->
  exists acc sw, chksum_chain (chain_fuel s) s q o 0 false = Ok (acc, sw) /\
    (if sw then SWAP_BYTES_IN_WORD acc else acc) = canon (le_val (cut o (contents s l))).
Proof.
  intros Hch HF Ho.
  destruct (chksum_chain_ok (chain_fuel s) s q l o 0 false Hch HF (chain_enough _ _ _ Hch) ltac:(lia) Ho)
    as (acc & sw & E & Ha & Hs).
  exists acc, sw. split; [done|]. cbn [weight] in Hs. rewrite Z.mul_0_r, Z.add_0_l, Z.mul_1_l in Hs.
  pose proof (le_val_nonneg _ (bytes_cut o _ (contents_bytes s l HF))) as Hv.
  destruct sw; cbn [weight] in Hs.
  - pose proof (swap_range acc Ha). rewrite <- (canon_small (SWAP_BYTES_IN_WORD acc)) by done.
    apply canon_same; [lia|done|]. by rewrite swap_same.
  - rewrite Z.mul_1_l in Hs. rewrite <- (canon_small acc) by done. apply canon_same; [lia|done|done].
Qed.

(** ** Theorems *)

(** One's complement addition of 16-bit words and the sum of a buffer's words
    in the byte order of the machine, an odd last byte filled with zero. *)
Definition oc_add (a b : Z) : Z := if a + b <? 65536 then a + b else a + b - 65535.

Fixpoint oc_sum (acc : Z) (l : list Z) : Z :=
  match l with
  | lo :: hi :: l => oc_sum (oc_add acc (lo + 256 * hi)) l
  | [b] => oc_add acc b
  | [] => acc
  end.

Lemma oc_add_canon a b : 0 <= a -> 0 <= b <= 65535 -> oc_add (canon a) b = canon (a + b).
Proof.
  intros Ha Hb. pose proof (canon_range a Ha).
  assert (0 <= oc_add (canon a) b <= 65535) as Hr by (unfold oc_add; case_match; lia).
  rewrite <- (canon_small (oc_add _ _)) by done. apply canon_same; [lia|lia|].
  transitivity (canon a + b); [|apply same_sum_add; try lia; [by apply canon_same_sum|reflexivity]].
  unfold oc_add. destruct (Z.ltb_spec (canon a + b) 65536); [reflexivity|].
  apply (same_sum_intro _ _ (-1)); lia.
Qed.

Lemma oc_sum_canon l : forall a, 0 <= a -> bytes l -> oc_sum (canon a) l = canon (a + wsum l).
Proof.
  induction l as [|b|x y l IH] using pair_ind; intros a Ha Hl; rewrite ?bytes_cons in Hl;
    unfold is_byte in *; cbn [oc_sum wsum].
  - by rewrite Z.add_0_r.
  - apply oc_add_canon; lia.
  - rewrite oc_add_canon by lia. rewrite IH by (try tauto; lia). f_equal. lia.
Qed.

Lemma canon_oc_sum l : bytes l -> canon (le_val l) = oc_sum 0 l.
Proof.
  intros Hl. change 0 with (canon 0). rewrite oc_sum_canon, Z.add_0_l by done.
  pose proof (wsum_bound l Hl). pose proof (le_val_nonneg l Hl).
  apply canon_same; [lia|lia|]. symmetry. by apply wsum_same.
Qed.

(** C37: the optimised routine, which sums words into 32 bits, treats odd start
    addresses by a shifted sum and swaps bytes at the end, computes the one's
    complement sum of the buffer's 16-bit words, wherever the buffer lies. *)
Theorem lwip_standard_chksum_ones_complement : forall odd data,
  bytes data -> zlen data <= 65535 -> lwip_standard_chksum odd data = oc_sum 0 data.
Proof. intros. rewrite chksum_canon by done. by apply canon_oc_sum. Qed.

Lemma lwip_standard_chksum_ones_complement_witness :
  (bytes [1; 2; 255] /\ zlen [1; 2; 255] <= 65535) /\
  lwip_standard_chksum true [1; 2; 255] = oc_sum 0 [1; 2; 255].
Proof.
  assert (bytes [1; 2; 255]) as H1 by (repeat constructor; lia).
  assert (zlen [1; 2; 255] <= 65535) as H2 by (vm_compute; discriminate).
  split; [exact (conj H1 H2)|]. apply (lwip_standard_chksum_ones_complement true _ H1 H2).
Defined.

Lemma lnot16 x : 0 <= x <= 65535 -> u16 (Z.lnot x) = 65535 - x.
Proof. intros Hx. unfold Z.lnot. width_lia. Qed.

(** The sum of a chain does not depend on how the data is split: over any
    chain of well-formed pbufs, with odd lengths and odd payload addresses,
    [inet_chksum_pbuf] is the checksum of the bytes put together. *)
Theorem inet_chksum_pbuf_flat : forall s p l,
  is_chain s p l -> Forall (pbuf_ok s) l -> zlen (contents s l) <= 65535 ->
  inet_chksum_pbuf s p = Ok (inet_chksum false (contents s l)).
Proof.
  intros s p l Hch HF Hl. pose proof (contents_bytes s l HF) as Hb.
  destruct (chksum_chain_sum s p l None Hch HF I) as (acc & sw & E & Es).
  unfold inet_chksum_pbuf. rewrite E. cbn [rbind]. rewrite Es.
  unfold inet_chksum. rewrite chksum_canon by done. cbn [cut].
  pose proof (canon_range _ (le_val_nonneg _ Hb)).
  by rewrite land_65535, Z.mod_small by lia.
Qed.

(** The pseudo header as it lies in memory: addresses are kept in network
    order, so their words are summed as they are. *)
Definition le32 (x : Z) : list Z := [x mod 256; x / 256 mod 256; x / 65536 mod 256; x / 16777216].
Definition pseudo_header (src dest proto proto_len : Z) : list Z :=
  le32 src ++ le32 dest ++ [0; proto; proto_len / 256; proto_len mod 256].

Lemma htons_eq x : is_u16 x -> htons x = 256 * (x mod 256) + x / 256.
Proof. intros Hx. apply swap_eq. unfold is_u16 in Hx. lia. Qed.

Lemma htons_range x : is_u16 (htons x).
Proof. apply u16_range. Qed.

Lemma le32_bytes x : is_u32 x -> bytes (le32 x).
Proof. intros. repeat (apply bytes_cons; split); [width_lia..|constructor]. Qed.

Lemma pseudo_header_bytes src dest proto proto_len :
  is_u32 src -> is_u32 dest -> is_byte proto -> is_u16 proto_len ->
  bytes (pseudo_header src dest proto proto_len).
Proof.
  intros. unfold pseudo_header. apply bytes_app. split; [by apply le32_bytes|].
  apply bytes_app. split; [by apply le32_bytes|].
  repeat (apply bytes_cons; split); [width_lia..|constructor].
Qed.

Lemma words_of x : is_u32 x -> Z.land x 0xffff + Z.land (Z.shiftr x 16) 0xffff =
  wsum (le32 x).
Proof.
  intros Hx. rewrite !land_65535, Z.shiftr_div_pow2 by done. change (2 ^ 16) with 65536.
  cbn [wsum le32]. widths. Z.div_mod_to_equations. lia.
Qed.

Lemma add_pseudo_eq acc src dest proto proto_len :
  0 <= acc <= 65535 -> is_u32 src -> is_u32 dest -> is_byte proto -> is_u16 proto_len ->
  add_pseudo acc src dest proto proto_len = acc + wsum (pseudo_header src dest proto proto_len) /\
  is_u32 (acc + wsum (pseudo_header src dest proto proto_len)).
Proof.
  intros Ha Hs Hd Hp Hl. pose proof (words_of src Hs) as Es. pose proof (words_of dest Hd) as Ed.
  assert (htons (u16 proto) + htons proto_len =
          wsum [0; proto; proto_len / 256; proto_len mod 256]) as Eh.
  { rewrite (u16_small proto), !htons_eq by width_lia. cbn [wsum]. widths. Z.div_mod_to_equations. lia. }
  assert (wsum (pseudo_header src dest proto proto_len) =
    wsum (le32 src) + wsum (le32 dest) + wsum [0; proto; proto_len / 256; proto_len mod 256]) as ->
    by (cbn [pseudo_header le32 app wsum]; lia).
  pose proof (wsum_bound _ (le32_bytes src Hs)). pose proof (wsum_bound _ (le32_bytes dest Hd)).
  assert (forall x, 0 <= Z.land x 65535 <= 65535) as Hland
    by (intros; rewrite land_65535; pose proof (Z.mod_pos_bound x 65536); lia).
  pose proof (Hland src). pose proof (Hland dest). pose proof (Hland (Z.shiftr src 16)).
  pose proof (Hland (Z.shiftr dest 16)).
  pose proof (htons_range (u16 proto)) as Hp1. pose proof (htons_range proto_len) as Hp2.
  change (zlen (le32 src)) with 4 in *. change (zlen (le32 dest)) with 4 in *.
  change 0xffff with 65535 in *. unfold add_pseudo. change 0xffff with 65535.
  unfold is_u16 in Hp1, Hp2. 
  repeat match goal with |- context [u32 ?x] =>
    lazymatch x with context [u32 _] => fail | _ => rewrite (u32_small x) by (unfold is_u32; lia) end
  end.
  split; [lia|]. unfold is_u32. lia.
Qed.

Lemma pseudo_value s p l src dest proto proto_len o :
  is_chain s p l -> Forall (pbuf_ok s) l ->
  match o with Some n => is_u16 n | None => True end ->
  is_u32 src -> is_u32 dest -> is_byte proto -> is_u16 proto_len ->
  zlen (cut o (contents s l)) <= 65523 ->
  pseudo_of s p src dest proto proto_len o =
  Ok (inet_chksum false (pseudo_header src dest proto proto_len ++ cut o (contents s l))).
Proof.
  intros Hch HF Ho Hs Hd Hp Hl Hlen.
  pose proof (bytes_cut o _ (contents_bytes s l HF)) as Hb. set (data := cut o (contents s l)) in *.
  destruct (chksum_chain_sum s p l o Hch HF Ho) as (acc & sw & E & Es). fold data in Es.
  unfold pseudo_of. rewrite E. cbn [rbind]. rewrite Es.
  pose proof (le_val_nonneg data Hb) as Hv. pose proof (canon_range _ Hv) as Hc.
  pose proof (pseudo_header_bytes src dest proto proto_len Hs Hd Hp Hl) as Hph.
  destruct (add_pseudo_eq (canon (le_val data)) src dest proto proto_len Hc Hs Hd Hp Hl) as [-> Hu].
  rewrite fold_twice by done. set (ph := pseudo_header src dest proto proto_len) in *.
  assert (zlen ph = 12) as Hzph by done. pose proof (wsum_bound ph Hph) as Hwb.
  unfold inet_chksum. rewrite chksum_canon by (try (apply bytes_app; done); zl; lia).
  pose proof (canon_range (canon (le_val data) + wsum ph) ltac:(lia)) as Hc2.
  rewrite land_65535, Z.mod_small by lia. do 3 f_equal.
  pose proof (le_val_nonneg ph Hph). rewrite le_val_app, Hzph.
  apply canon_same; [lia|lia|]. rewrite Z.add_comm. apply same_sum_add; try lia.
  - by apply wsum_same.
  - rewrite canon_same_sum by done. symmetry. apply (pow_even 6).
Qed.

(** The transport checksum.  [inet_chksum_pseudo] is the checksum of the
    pseudo header (addresses, protocol and length in network order) followed
    by the bytes of the chain; [inet_chksum_pseudo_partial] takes the first
    [chksum_len] of them only. *)
Theorem inet_chksum_pseudo_flat : forall s p l src dest proto proto_len chksum_len,
  is_chain s p l -> Forall (pbuf_ok s) l -> zlen (contents s l) <= 65523 ->
  is_u32 src -> is_u32 dest -> is_byte proto -> is_u16 proto_len -> is_u16 chksum_len ->
  inet_chksum_pseudo s p src dest proto proto_len =
    Ok (inet_chksum false (pseudo_header src dest proto proto_len ++ contents s l)) /\
  inet_chksum_pseudo_partial s p src dest proto proto_len chksum_len =
    Ok (inet_chksum false (pseudo_header src dest proto proto_len ++
                           take (Z.to_nat chksum_len) (contents s l))).
Proof.
  intros s p l src dest proto proto_len chksum_len Hch HF Hlen Hs Hd Hp Hl Hc. split.
  - by apply (pseudo_value s p l src dest proto proto_len None).
  - apply (pseudo_value s p l src dest proto proto_len (Some chksum_len)); try done.
    cbn [cut]. unfold zlen in *. rewrite length_take. lia.
Qed.

(** A receiver accepts what a sender computed.  With the checksum of the
    data stored in a zero field at an even offset, low byte first, the
    checksum of the result is zero. *)
Theorem inet_chksum_verifies : forall a b,
  bytes a -> bytes b -> zlen a mod 2 = 0 -> zlen a + zlen b <= 65533 ->
  let c := inet_chksum false (a ++ [0; 0] ++ b) in
  inet_chksum false (a ++ [c mod 256; c / 256] ++ b) = 0.
Proof.
  intros a b Ha Hb He Hl c. set (v := le_val (a ++ [0; 0] ++ b)).
  assert (bytes (a ++ [0; 0] ++ b)) as Hb0 by (rewrite !bytes_app; repeat split; try done;
    repeat (apply bytes_cons; split); try width_lia; constructor).
  pose proof (le_val_nonneg _ Hb0) as Hv. fold v in Hv. pose proof (canon_range v Hv) as Hcr.
  assert (c = 65535 - canon v) as Hc.
  { unfold c, inet_chksum. rewrite chksum_canon by (try done; zl; lia). by apply lnot16. }
  assert (bytes (a ++ [c mod 256; c / 256] ++ b)) as Hb1 by (rewrite !bytes_app; repeat split; try done;
    repeat (apply bytes_cons; split); try width_lia; constructor).
  unfold inet_chksum. rewrite chksum_canon by (try done; zl; lia).
  pose proof (le_val_nonneg _ Hb1) as Hv1.
  assert (le_val (a ++ [c mod 256; c / 256] ++ b) = v + 256 ^ zlen a * c) as Ev.
  { unfold v. rewrite !le_val_app. cbn [le_val app].
    change (zlen [c mod 256; c / 256]) with (zlen [0; 0]).
    replace (c mod 256 + 256 * (c / 256 + 256 * 0)) with c by (pose proof (Z.div_mod c 256); lia). lia. }
  rewrite Ev. assert (canon (v + 256 ^ zlen a * c) = 65535) as ->; [|done].
  rewrite <- (canon_small 65535) by lia. apply canon_same; [lia|lia|].
  replace 65535 with (canon v + c) by lia.
  apply same_sum_add; [lia|lia|apply Z.mul_nonneg_nonneg; [apply Z.pow_nonneg; lia|lia]|lia| |].
  - symmetry. by apply canon_same_sum.
  - pose proof (pow_weight (zlen a) c (zlen_nonneg a)) as W. rewrite He in W.
    cbn [Z.eqb negb weight] in W. by rewrite Z.mul_1_l in W.
Qed.

Lemma inet_chksum_pbuf_flat_witness :
  (is_chain two_pbufs 100 [100; 200] /\ Forall (pbuf_ok two_pbufs) [100; 200] /\
   zlen (contents two_pbufs [100; 200]) <= 65535) /\
  contents two_pbufs [100; 200] = [1; 2; 255; 7; 9] /\
  inet_chksum_pbuf two_pbufs 100 = Ok (inet_chksum false (contents two_pbufs [100; 200])).
Proof.
  assert (zlen (contents two_pbufs [100; 200]) <= 65535) as H by (vm_compute; discriminate).
  split; [exact (conj two_pbufs_chain (conj two_pbufs_ok H))|]. split; [vm_compute; reflexivity|].
  apply (inet_chksum_pbuf_flat two_pbufs 100 [100; 200] two_pbufs_chain two_pbufs_ok H).
Defined.

Lemma inet_chksum_pseudo_flat_witness :
  (is_chain two_pbufs 100 [100; 200] /\ Forall (pbuf_ok two_pbufs) [100; 200] /\
   zlen (contents two_pbufs [100; 200]) <= 65523) /\
  (inet_chksum_pseudo two_pbufs 100 0x0100A8C0 0x0200A8C0 17 5 =
    Ok (inet_chksum false (pseudo_header 0x0100A8C0 0x0200A8C0 17 5 ++ contents two_pbufs [100; 200])) /\
  inet_chksum_pseudo_partial two_pbufs 100 0x0100A8C0 0x0200A8C0 17 5 4 =
    Ok (inet_chksum false (pseudo_header 0x0100A8C0 0x0200A8C0 17 5 ++
                           take (Z.to_nat 4) (contents two_pbufs [100; 200])))).
Proof.
  assert (zlen (contents two_pbufs [100; 200]) <= 65523) as H by (vm_compute; discriminate).
  split; [exact (conj two_pbufs_chain (conj two_pbufs_ok H))|].
  apply (inet_chksum_pseudo_flat two_pbufs 100 [100; 200] 0x0100A8C0 0x0200A8C0 17 5 4
    two_pbufs_chain two_pbufs_ok H); split; lia.
Defined.

Lemma inet_chksum_verifies_witness :
  let a := [0x45; 0; 0; 20] in let b := [1; 2; 3] in
  let c := inet_chksum false (a ++ [0; 0] ++ b) in
  (bytes a /\ bytes b /\ zlen a mod 2 = 0 /\ zlen a + zlen b <= 65533) /\
  inet_chksum false (a ++ [c mod 256; c / 256] ++ b) = 0.
Proof.
  intros a b c. assert (bytes a) as H1 by (repeat constructor; lia).
  assert (bytes b) as H2 by (repeat constructor; lia).
  assert (zlen a mod 2 = 0) as H3 by reflexivity.
  assert (zlen a + zlen b <= 65533) as H4 by (vm_compute; discriminate).
  split; [exact (conj H1 (conj H2 (conj H3 H4)))|]. apply (inet_chksum_verifies a b H1 H2 H3 H4).
Defined.
