(* ===== verification/IpAddr.v ===== *)
(** * IP addresses: [lwip/core/ipv4/ip_addr.c].

    Parsing and printing of dotted addresses, netmasks and broadcast
    addresses.  An address is the [u32_t] in network order, whose bytes in
    memory are the four parts in the order they are written. *)
From S2P Require Import Prelude InetChksum.

Abbreviation htonl := LWIP_PLATFORM_HTONL.

Definition IPADDR_ANY : Z := 0x00000000.
Definition IPADDR_BROADCAST : Z := 0xffffffff.
Definition IPADDR_NONE : Z := 0xffffffff.
Definition NETIF_FLAG_BROADCAST : Z := 0x02.

(** ** Broadcast addresses and netmasks *)

(** The fields of [struct netif] the test looks at. *)
Record iface := Iface { if_flags : Z; if_ip_addr : Z; if_netmask : Z }.

Definition ip_addr_netcmp (addr1 addr2 mask : Z) : bool := Z.land addr1 mask =? Z.land addr2 mask.

Definition ip4_addr_isbroadcast (addr : Z) (n : iface) : bool :=
  if (u32 (Z.lnot addr) =? IPADDR_ANY) || (addr =? IPADDR_ANY) then true
  else if Z.land (if_flags n) NETIF_FLAG_BROADCAST =? 0 then false
  else if addr =? if_ip_addr n then false
  else if ip_addr_netcmp addr (if_ip_addr n) (if_netmask n) &&
          (Z.land addr (u32 (Z.lnot (if_netmask n))) =?
           Z.land IPADDR_BROADCAST (u32 (Z.lnot (if_netmask n)))) then true
  else false.

(** The two loops of [ip4_addr_netmask_valid]: from the highest bit to the
    first zero, and on from there to the first one. *)
Fixpoint first_zero (fuel : nat) (nm mask : Z) : result Z :=
  match fuel with
  | O => Fault OutOfFuel
  | S fuel =>
      if mask =? 0 then Ok mask
      else if Z.land nm mask =? 0 then Ok mask
      else first_zero fuel nm (Z.shiftr mask 1)
  end.
Fixpoint no_one (fuel : nat) (nm mask : Z) : result bool :=
  match fuel with
  | O => Fault OutOfFuel
  | S fuel =>
      if mask =? 0 then Ok true
      else if negb (Z.land nm mask =? 0) then Ok false
      else no_one fuel nm (Z.shiftr mask 1)
  end.

(** Each loop halves the mask, so 33 rounds are enough for both. *)
Definition ip4_addr_netmask_valid (netmask : Z) : result bool :=
  let nm_hostorder := htonl netmask in
  let! mask := first_zero 33 nm_hostorder (Z.shiftl 1 31) in
  no_one 33 nm_hostorder mask.

(** ** Parsing *)

Definition isdigit (c : Z) : bool := (48 <=? c) && (c <=? 57).
Definition isxdigit (c : Z) : bool :=
  isdigit c || ((97 <=? c) && (c <=? 102)) || ((65 <=? c) && (c <=? 70)).
Definition islower (c : Z) : bool := (97 <=? c) && (c <=? 122).
Definition isspace (c : Z) : bool :=
  (c =? 32) || (c =? 12) || (c =? 10) || (c =? 13) || (c =? 9) || (c =? 11).

(** The inner loop: digits are collected into [val] up to the first character
    that is none. *)
Fixpoint collect (cp : list Z) (val base : Z) : result (Z * list Z) :=
  match cp with
  | [] => Fault OutOfBounds
  | c :: rest =>
      if isdigit c then collect rest (u32 (val * base + (c - 48))) base
      else if (base =? 16) && isxdigit c then
        collect rest (Z.lor (u32 (Z.shiftl val 4)) (c + 10 - (if islower c then 97 else 65))) base
      else Ok (val, cp)
  end.

(** One number and its prefix; [None] if there is none. *)
Definition number (cp : list Z) : result (option (Z * list Z)) :=
  let! c := mread cp 0 in
  if negb (isdigit c) then Ok None
  else
    let! r :=
      (if c =? 48 then
         let cp := drop 1 cp in
         let! c := mread cp 0 in
         if (c =? 120) || (c =? 88) then collect (drop 1 cp) 0 16 else collect cp 0 8
       else collect cp 0 10) in
    Ok (Some r).

(** The outer loop: the numbers before each dot, of which there can be [n]
    more, the last number, and what follows it. *)
Fixpoint aton_loop (n : nat) (cp parts : list Z) : result (option (list Z * Z * list Z)) :=
  let! r := number cp in
  match r with
  | None => Ok None
  | Some (val, cp) =>
      let! c := mread cp 0 in
      if c =? 46 then
        match n with
        | O => Ok None
        | S n => aton_loop n (drop 1 cp) (parts ++ [val])
        end
      else Ok (Some (parts, val, cp))
  end.

(** The address of the parts, in host order. *)
Definition concoct (parts : list Z) (val : Z) : option Z :=
  match parts with
  | [] => Some val
  | [a] => if 0xffffff <? val then None else Some (Z.lor val (u32 (Z.shiftl a 24)))
  | [a; b] =>
      if 0xffff <? val then None
      else Some (Z.lor val (Z.lor (u32 (Z.shiftl a 24)) (u32 (Z.shiftl b 16))))
  | [a; b; c] =>
      if 0xff <? val then None
      else Some (Z.lor val (Z.lor (Z.lor (u32 (Z.shiftl a 24)) (u32 (Z.shiftl b 16))) (u32 (Z.shiftl c 8))))
  | _ => Some val
  end.

(** [ipaddr_aton(cp, &addr)]: the address stored, [None] when it returns 0. *)
Definition ipaddr_aton (cp : list Z) : result (option Z) :=
  let! r := aton_loop 3 cp [] in
  match r with
  | None => Ok None
  | Some (parts, val, cp) =>
      let! c := mread cp 0 in
      if negb (c =? 0) && negb (isspace c) then Ok None
      else Ok (option_map htonl (concoct parts val))
  end.

Definition ipaddr_addr (cp : list Z) : result Z :=
  let! r := ipaddr_aton cp in
  match r with Some val => Ok val | None => Ok IPADDR_NONE end.

(** ** Printing *)

(** The [do] loop: the digits of [ap], last one first; a byte has at most
    three. *)
Fixpoint invert (fuel : nat) (ap : Z) (inv : list Z) : result (list Z) :=
  match fuel with
  | O => Fault OutOfFuel
  | S fuel =>
      let rem := ap mod 10 in
      let ap := ap / 10 in
      let inv := inv ++ [48 + rem] in
      if c_true ap then invert fuel ap inv else Ok inv
  end.

(** [if (len++ >= buflen) return NULL; *rp++ = c]; [rp] points behind [len]
    characters. *)
Definition put_char (buf : list Z) (len buflen c : Z) : result (option (list Z)) :=
  if buflen <=? len then Ok None else let! buf := mwrite buf len c in Ok (Some buf).

(** [while (i--)]: the digits in reverse. *)
Fixpoint put_chars (l : list Z) (buf : list Z) (len buflen : Z) : result (option (list Z * Z)) :=
  match l with
  | [] => Ok (Some (buf, len))
  | c :: l =>
      let! r := put_char buf len buflen c in
      match r with None => Ok None | Some buf => put_chars l buf (len + 1) buflen end
  end.

(** The loop over the four bytes. *)
Fixpoint ntoa_loop (aps : list Z) (buf : list Z) (len buflen : Z) : result (option (list Z * Z)) :=
  match aps with
  | [] => Ok (Some (buf, len))
  | ap :: aps =>
      let! inv := invert 3 ap [] in
      let! r := put_chars (rev inv ++ [46]) buf len buflen in
      match r with None => Ok None | Some (buf, len) => ntoa_loop aps buf len buflen end
  end.

(** The bytes of a [u32_t] in memory. *)
Definition u32_bytes (x : Z) : list Z := [x mod 256; x / 256 mod 256; x / 65536 mod 256; x / 16777216 mod 256].

(** [ipaddr_ntoa_r(addr, buf, buflen)]: the buffer, [None] for NULL. *)
Definition ipaddr_ntoa_r (addr : Z) (buf : list Z) (buflen : Z) : result (option (list Z)) :=
  let! r := ntoa_loop (u32_bytes addr) buf 0 buflen in
  match r with
  | None => Ok None
  | Some (buf, len) => let! buf := mwrite buf (len - 1) 0 in Ok (Some buf)
  end.

Definition ipaddr_ntoa (addr : Z) (str : list Z) : result (option (list Z)) := ipaddr_ntoa_r addr str 16.

(** ** Lemmas *)

(** The decimal digits of a byte, and a dotted address. *)
Definition dec (b : Z) : list Z :=
  if b <? 10 then [48 + b]
  else if b <? 100 then [48 + b / 10; 48 + b mod 10]
  else [48 + b / 100; 48 + b / 10 mod 10; 48 + b mod 10].
Definition dotted (a b c d : Z) : list Z := dec a ++ [46] ++ dec b ++ [46] ++ dec c ++ [46] ++ dec d.
Definition address_of (a b c d : Z) : Z := a + 256 * b + 65536 * c + 16777216 * d.

Lemma digit_yes x : 0 <= x < 10 -> isdigit (48 + x) = true.
Proof. intros Hx. unfold isdigit. by rewrite !(proj2 (Z.leb_le _ _)) by lia. Qed.

Lemma collect_digit x rest v base : 0 <= x < 10 ->
  collect (48 + x :: rest) v base = collect rest (u32 (v * base + x)) base.
Proof. intros Hx. cbn [collect]. rewrite digit_yes by done. do 2 f_equal. lia. Qed.

Lemma collect_stop c k v base : c = 46 \/ c = 0 -> collect (c :: k) v base = Ok (v, c :: k).
Proof. intros [-> | ->]; cbn [collect]; simpl; by rewrite andb_false_r. Qed.

(** A decimal byte followed by a dot or the end. *)
Lemma number_dec b c k : is_byte b -> c = 46 \/ c = 0 -> number (dec b ++ c :: k) = Ok (Some (b, c :: k)).
Proof.
  intros Hb Hc. unfold is_byte in Hb. unfold number, dec.
  assert (forall x, is_byte x -> u32 x = x) as Hu by (intros x Hx; apply u32_small; unfold is_byte, is_u32 in *; lia).
  destruct (Z.ltb_spec b 10); [|destruct (Z.ltb_spec b 100)]; cbn [app];
    rewrite mread_here by done; cbn [rbind]; rewrite digit_yes by (Z.div_mod_to_equations; lia); cbn [negb].
  - destruct (Z.eqb_spec (48 + b) 48) as [E|_].
    + assert (b = 0) as -> by lia. cbn [drop]. rewrite mread_here by done. cbn [rbind].
      assert ((c =? 120) || (c =? 88) = false) as -> by (by destruct Hc as [-> | ->]).
      rewrite collect_stop by done. done.
    + rewrite collect_digit, collect_stop by (done || lia). cbn [rbind]. by rewrite Hu.
  - rewrite (proj2 (Z.eqb_neq _ _)) by (Z.div_mod_to_equations; lia).
    rewrite !collect_digit, collect_stop by (done || (Z.div_mod_to_equations; lia)). cbn [rbind].
    rewrite (Hu (0 * 10 + b / 10)), Hu by (unfold is_byte; Z.div_mod_to_equations; lia).
    do 4 f_equal. Z.div_mod_to_equations; lia.
  - rewrite (proj2 (Z.eqb_neq _ _)) by (Z.div_mod_to_equations; lia).
    rewrite !collect_digit, collect_stop by (done || (Z.div_mod_to_equations; lia)). cbn [rbind].
    rewrite (Hu (0 * 10 + b / 100)) by (unfold is_byte; Z.div_mod_to_equations; lia).
    rewrite (Hu ((0 * 10 + b / 100) * 10 + b / 10 mod 10)) by (unfold is_byte; Z.div_mod_to_equations; lia).
    rewrite Hu by (unfold is_byte; Z.div_mod_to_equations; lia).
    do 4 f_equal. Z.div_mod_to_equations; lia.
Qed.

Lemma concoct_bytes a b c d : is_byte a -> is_byte b -> is_byte c -> is_byte d ->
  concoct [a; b; c] d = Some (d + 256 * c + 65536 * b + 16777216 * a).
Proof.
  unfold is_byte. intros Ha Hb Hc Hd. unfold concoct. rewrite (proj2 (Z.ltb_ge _ _)) by lia. f_equal.
  rewrite !Z.shiftl_mul_pow2 by lia. rewrite !u32_small by (unfold is_u32; lia).
  rewrite (lor_add (a * 2 ^ 24) (b * 2 ^ 16) 24) by (try (change (2 ^ 24) with 16777216; change (2 ^ 16) with 65536; lia);
    change (2 ^ 24) with 16777216; by rewrite Z.mod_mul).
  rewrite (lor_add (a * 2 ^ 24 + b * 2 ^ 16) (c * 2 ^ 8) 16).
  - rewrite Z.lor_comm, (lor_add _ d 8); [lia|lia| |lia]. Z.div_mod_to_equations; lia.
  - lia.
  - change (2 ^ 16) with 65536. Z.div_mod_to_equations; lia.
  - lia.
Qed.

Lemma land_second_byte m : 0 <= m -> Z.land m 0xff00 = 256 * (m / 256 mod 256).
Proof.
  intros Hm. assert (256 * (m / 256 mod 256) = Z.shiftl (Z.land (Z.shiftr m 8) 255) 8) as ->
    by (rewrite land_255, Z.shiftr_div_pow2, Z.shiftl_mul_pow2 by lia; change (2 ^ 8) with 256; lia).
  change 0xff00 with (Z.shiftl 255 8).
  apply Z.bits_inj'; intros i Hi. rewrite Z.land_spec. destruct (Z.lt_ge_cases i 8).
  - rewrite !Z.shiftl_spec_low by lia. apply andb_false_r.
  - rewrite !Z.shiftl_spec, Z.land_spec, Z.shiftr_spec by lia. do 2 f_equal. lia.
Qed.

Lemma htonl_bytes a b c d : is_byte a -> is_byte b -> is_byte c -> is_byte d ->
  htonl (d + 256 * c + 65536 * b + 16777216 * a) = address_of a b c d.
Proof.
  unfold is_byte. intros Ha Hb Hc Hd. unfold LWIP_PLATFORM_HTONL, address_of.
  set (n := d + _ + _ + _). assert (0 <= n) as Hn by (unfold n; lia).
  rewrite !land_second_byte by (rewrite ?Z.shiftr_div_pow2 by lia; try apply Z.div_pos; lia).
  rewrite !Z.shiftr_div_pow2, !Z.shiftl_mul_pow2, !land_255 by lia.
  change (2 ^ 24) with 16777216. change (2 ^ 8) with 256.
  assert (n mod 256 = d /\ n / 256 mod 256 = c /\ n / 256 / 256 mod 256 = b /\ n / 16777216 mod 256 = a)
    as (-> & -> & -> & ->) by (unfold n; Z.div_mod_to_equations; lia).
  rewrite (lor_add (d * 16777216) (256 * c * 256) 24); [|lia| |change (2 ^ 24) with 16777216; lia].
  2:{ change (2 ^ 24) with 16777216. by rewrite Z.mod_mul. }
  rewrite (lor_add _ (256 * b) 16); [|lia| |change (2 ^ 16) with 65536; lia].
  2:{ change (2 ^ 16) with 65536. Z.div_mod_to_equations; lia. }
  rewrite (lor_add _ a 8); [|lia| |change (2 ^ 8) with 256; lia].
  2:{ change (2 ^ 8) with 256. Z.div_mod_to_equations; lia. }
  rewrite u32_small by (unfold is_u32; lia). lia.
Qed.

Lemma aton_dot n b k parts : is_byte b ->
  aton_loop (S n) (dec b ++ 46 :: k) parts = aton_loop n k (parts ++ [b]).
Proof. intros Hb. cbn [aton_loop]. rewrite number_dec by auto. cbn [rbind]. by rewrite mread_here. Qed.

Lemma aton_end n b k parts : is_byte b ->
  aton_loop n (dec b ++ 0 :: k) parts = Ok (Some (parts, b, 0 :: k)).
Proof.
  intros Hb. destruct n; cbn [aton_loop]; rewrite number_dec by auto; cbn [rbind]; by rewrite mread_here.
Qed.

Lemma aton_dotted a b c d k : is_byte a -> is_byte b -> is_byte c -> is_byte d ->
  ipaddr_aton (dotted a b c d ++ 0 :: k) = Ok (Some (address_of a b c d)).
Proof.
  intros Ha Hb Hc Hd. unfold ipaddr_aton, dotted. app_norm. rewrite !aton_dot, aton_end by done.
  cbn [rbind app]. rewrite mread_here by done. cbn [rbind].
  change (negb (0 =? 0) && negb (isspace 0)) with false. cbv iota.
  rewrite concoct_bytes by done. cbn [option_map]. by rewrite htonl_bytes.
Qed.

(** Printing one byte. *)
Lemma invert_dec b : is_byte b -> exists inv, invert 3 b [] = Ok inv /\ rev inv = dec b.
Proof.
  unfold is_byte. intros Hb. cbn [invert app]. unfold c_true, dec.
  destruct (Z.ltb_spec b 10).
  { rewrite (proj2 (Z.eqb_eq (b / 10) 0)) by (Z.div_mod_to_equations; lia). cbn [negb].
    eexists. split; [done|]. cbn. do 2 f_equal. Z.div_mod_to_equations; lia. }
  rewrite (proj2 (Z.eqb_neq (b / 10) 0)) by (Z.div_mod_to_equations; lia). cbn [negb].
  destruct (Z.ltb_spec b 100).
  { rewrite (proj2 (Z.eqb_eq (b / 10 / 10) 0)) by (Z.div_mod_to_equations; lia). cbn [negb].
    eexists. split; [done|]. cbn. do 2 f_equal. Z.div_mod_to_equations; lia. }
  rewrite (proj2 (Z.eqb_neq (b / 10 / 10) 0)) by (Z.div_mod_to_equations; lia). cbn [negb].
  rewrite (proj2 (Z.eqb_eq (b / 10 / 10 / 10) 0)) by (Z.div_mod_to_equations; lia). cbn [negb].
  eexists. split; [done|]. cbn. repeat f_equal; Z.div_mod_to_equations; lia.
Qed.

(** Characters are stored one after the other while they fit. *)
Lemma put_chars_ok l : forall pre rest buflen, buflen <= zlen pre + zlen rest ->
  put_chars l (pre ++ rest) (zlen pre) buflen =
  Ok (if zlen pre + zlen l <=? buflen
      then Some (pre ++ l ++ drop (length l) rest, zlen pre + zlen l) else
      if zlen l =? 0 then Some (pre ++ rest, zlen pre) else None).
Proof.
  induction l as [|c l IH]; intros pre rest buflen Hb; cbn [put_chars].
  { rewrite Z.add_0_r. cbn. by destruct (zlen pre <=? buflen). }
  rewrite zlen_cons. pose proof (zlen_nonneg l). pose proof (zlen_nonneg pre).
  rewrite (proj2 (Z.eqb_neq (1 + zlen l) 0)) by lia. unfold put_char.
  destruct (Z.leb_spec buflen (zlen pre)).
  { cbn [rbind]. by rewrite (proj2 (Z.leb_gt _ _)) by lia. }
  destruct rest as [|x rest]; [zl; lia|]. rewrite mwrite_seam. cbn [rbind].
  replace (pre ++ c :: rest) with ((pre ++ [c]) ++ rest) by (app_norm; done).
  replace (zlen pre + 1) with (zlen (pre ++ [c])) by (zl; lia).
  rewrite IH by (zl; lia). zl. replace (zlen pre + (1 + 0) + zlen l) with (zlen pre + (1 + zlen l)) by lia.
  destruct (Z.leb_spec (zlen pre + (1 + zlen l)) buflen); [by app_norm|].
  destruct (Z.eqb_spec (zlen l) 0); [lia|done].
Qed.

Lemma zlen_dec b : is_byte b -> 1 <= zlen (dec b) <= 3.
Proof. intros _. unfold dec, zlen. destruct (b <? 10), (b <? 100); simpl; lia. Qed.

(** The bytes with a dot behind each. *)
Definition dots (l : list Z) : list Z := concat (map (fun b => dec b ++ [46]) l).

Lemma ntoa_loop_ok aps : forall pre rest buflen, bytes aps -> buflen <= zlen pre + zlen rest ->
  ntoa_loop aps (pre ++ rest) (zlen pre) buflen =
  Ok (if (zlen pre + zlen (dots aps) <=? buflen) || (zlen aps =? 0)
      then Some (pre ++ dots aps ++ drop (length (dots aps)) rest, zlen pre + zlen (dots aps))
      else None).
Proof.
  induction aps as [|b aps IH]; intros pre rest buflen Hb Hl; cbn [ntoa_loop].
  { rewrite orb_true_r. cbn. by rewrite Z.add_0_r. }
  apply bytes_cons in Hb as [Hb Hbs]. destruct (invert_dec b Hb) as (inv & -> & Er). cbn [rbind]. rewrite Er.
  change (dots (b :: aps)) with ((dec b ++ [46]) ++ dots aps). set (t := dec b ++ [46]).
  assert (2 <= zlen t) as Ht by (unfold t; pose proof (zlen_dec b Hb); zl; lia).
  rewrite put_chars_ok by done. cbn [rbind]. rewrite zlen_app, zlen_cons.
  pose proof (zlen_nonneg aps). pose proof (zlen_nonneg (dots aps)).
  rewrite (proj2 (Z.eqb_neq (1 + zlen aps) 0)), (proj2 (Z.eqb_neq (zlen t) 0)), orb_false_r by lia.
  destruct (Z.leb_spec (zlen pre + zlen t) buflen); [|by rewrite (proj2 (Z.leb_gt _ _)) by lia].
  rewrite app_assoc. replace (zlen pre + zlen t) with (zlen (pre ++ t)) by by zl.
  rewrite IH; [|done|unfold zlen in *; rewrite !length_app, length_drop; lia].
  rewrite zlen_app, drop_drop. f_equal.
  replace (zlen pre + (zlen t + zlen (dots aps))) with (zlen pre + zlen t + zlen (dots aps)) by lia.
  destruct (Z.leb_spec (zlen pre + zlen t + zlen (dots aps)) buflen); cbn [orb].
  - rewrite length_app. by app_norm.
  - destruct (Z.eqb_spec (zlen aps) 0) as [E|]; [|done].
    assert (aps = []) as -> by (destruct aps; [done|]; zl; zpos; lia). cbn in *. lia.
Qed.

Lemma u32_bytes_of a b c d : is_byte a -> is_byte b -> is_byte c -> is_byte d ->
  u32_bytes (address_of a b c d) = [a; b; c; d].
Proof.
  unfold is_byte, u32_bytes, address_of. intros. repeat f_equal; Z.div_mod_to_equations; lia.
Qed.

(** Printing fills the buffer with the text and a NUL if they fit. *)
Lemma ntoa_r_ok a b c d buf buflen : is_byte a -> is_byte b -> is_byte c -> is_byte d -> buflen <= zlen buf ->
  ipaddr_ntoa_r (address_of a b c d) buf buflen =
  Ok (if zlen (dotted a b c d) <? buflen
      then Some (dotted a b c d ++ 0 :: drop (S (length (dotted a b c d))) buf) else None).
Proof.
  intros Ha Hb Hc Hd Hl. unfold ipaddr_ntoa_r. rewrite u32_bytes_of by done.
  pose proof (ntoa_loop_ok [a; b; c; d] [] buf buflen) as E. cbn [app] in E. rewrite zlen_nil in E.
  rewrite E by (byte_list || lia). clear E. cbn [rbind].
  assert (dots [a; b; c; d] = dotted a b c d ++ [46]) as ->.
  { unfold dots, dotted. cbn [map concat]. rewrite app_nil_r. by app_norm. }
  change (zlen [a; b; c; d] =? 0) with false. rewrite orb_false_r. set (t := dotted a b c d). zl.
  destruct (Z.leb_spec (0 + (zlen t + (1 + 0))) buflen), (Z.ltb_spec (zlen t) buflen); try lia; [|done].
  cbn [rbind]. replace (0 + (zlen t + (1 + 0)) - 1) with (zlen t) by lia.
  rewrite <- app_assoc. cbn [app]. rewrite mwrite_seam. cbn [rbind]. do 4 f_equal.
  rewrite length_app. simpl. f_equal. lia.
Qed.

(** ** Parsing never runs off the string *)
Lemma nonzero_tail c rest : In 0 (c :: rest) -> c <> 0 -> In 0 rest.
Proof. by intros [-> | ?]. Qed.
Lemma isdigit_nonzero c : isdigit c = true -> c <> 0.
Proof. by intros E ->. Qed.
Lemma isxdigit_nonzero c : isxdigit c = true -> c <> 0.
Proof. by intros E ->. Qed.

Lemma collect_total cp : forall val base, In 0 cp ->
  exists v cp', collect cp val base = Ok (v, cp') /\ In 0 cp'.
Proof.
  induction cp as [|c cp IH]; intros val base Hin; [done|]. cbn [collect].
  destruct (isdigit c) eqn:Ed; [apply IH; by apply (nonzero_tail c), isdigit_nonzero|].
  destruct ((base =? 16) && isxdigit c) eqn:Ex; [|by do 2 eexists].
  apply andb_true_iff in Ex as [_ Ex]. apply IH. by apply (nonzero_tail c), isxdigit_nonzero.
Qed.

Lemma mread_head cp : In 0 cp -> exists c rest, cp = c :: rest /\ mread cp 0 = Ok c.
Proof. destruct cp as [|c rest]; [done|]. intros _. by exists c, rest. Qed.

Lemma number_total cp : In 0 cp ->
  number cp = Ok None \/ exists v cp', number cp = Ok (Some (v, cp')) /\ In 0 cp'.
Proof.
  intros Hin. unfold number. destruct (mread_head cp Hin) as (c & rest & -> & ->). cbn [rbind].
  destruct (isdigit c) eqn:Ed; cbn [negb]; [|by left]. right.
  assert (In 0 rest) as Hr by (by apply (nonzero_tail c), isdigit_nonzero).
  destruct (c =? 48).
  - change (drop 1 (c :: rest)) with rest. destruct (mread_head rest Hr) as (c2 & rest2 & -> & ->). cbn [rbind].
    destruct ((c2 =? 120) || (c2 =? 88)) eqn:Ex.
    + change (drop 1 (c2 :: rest2)) with rest2. destruct (collect_total rest2 0 16) as (v & cp' & -> & ?); [|by exists v, cp'].
      apply (nonzero_tail c2); [done|]. by intros ->.
    + destruct (collect_total (c2 :: rest2) 0 8 Hr) as (v & cp' & -> & ?). by exists v, cp'.
  - destruct (collect_total (c :: rest) 0 10 Hin) as (v & cp' & -> & ?). by exists v, cp'.
Qed.

Lemma aton_loop_total n : forall cp parts, In 0 cp ->
  aton_loop n cp parts = Ok None \/
  exists ps v cp', aton_loop n cp parts = Ok (Some (ps, v, cp')) /\ In 0 cp'.
Proof.
  induction n as [|n IH]; intros cp parts Hin; cbn [aton_loop];
    (destruct (number_total cp Hin) as [->|(v & cp' & -> & Hin')]; cbn [rbind]; [by left|]);
    destruct (mread_head cp' Hin') as (c & rest & -> & ->); cbn [rbind];
    (destruct (Z.eqb_spec c 46) as [->|_]; [|right; by do 3 eexists]); [by left|].
  change (drop 1 (46 :: rest)) with rest. apply IH. by apply (nonzero_tail 46).
Qed.

(** ** Netmasks *)

(** The mask in the loops: one bit, or nothing when it was shifted out. *)
Definition bit (n : nat) : Z := match n with O => 0 | S i => 2 ^ Z.of_nat i end.

Lemma bit_shift n : Z.shiftr (bit (S n)) 1 = bit n.
Proof.
  rewrite Z.shiftr_div_pow2 by lia. destruct n as [|n]; [done|]. cbn [bit].
  rewrite Nat2Z.inj_succ, Z.pow_succ_r by lia. change (2 ^ 1) with 2. rewrite Z.mul_comm. by apply Z.div_mul.
Qed.

Lemma bit_test nm n : (bit (S n) =? 0) = false /\ (Z.land nm (bit (S n)) =? 0) = negb (Z.testbit nm (Z.of_nat n)).
Proof.
  cbn [bit]. split; [apply Z.eqb_neq; lia|].
  destruct (Z.testbit nm (Z.of_nat n)) eqn:Et; cbn [negb].
  - apply Z.eqb_neq. intros E. apply (f_equal (fun z => Z.testbit z (Z.of_nat n))) in E.
    rewrite Z.land_spec, Et, Z.pow2_bits_true, Z.bits_0 in E by lia. done.
  - apply Z.eqb_eq, Z.bits_inj'. intros i Hi. rewrite Z.land_spec, Z.bits_0, Z.pow2_bits_eqb by lia.
    destruct (Z.eqb_spec (Z.of_nat n) i) as [<-|]; [by rewrite Et|apply andb_false_r].
Qed.

Lemma first_zero_ok nm n : forall fuel, (n < fuel)%nat ->
  exists j, (j <= n)%nat /\ first_zero fuel nm (bit n) = Ok (bit j) /\
    (forall i, (j <= i < n)%nat -> Z.testbit nm (Z.of_nat i) = true) /\
    match j with O => True | S i => Z.testbit nm (Z.of_nat i) = false end.
Proof.
  induction n as [|n IH]; intros [|fuel] Hf; try lia; cbn [first_zero].
  { exists 0%nat. repeat split; try done; lia. }
  destruct (bit_test nm n) as [-> ->]. destruct (Z.testbit nm (Z.of_nat n)) eqn:Et; cbn [negb].
  - rewrite bit_shift. destruct (IH fuel ltac:(lia)) as (j & Hj & -> & H1 & H2). exists j. split; [lia|].
    split; [done|]. split; [|done]. intros i Hi. destruct (decide (i = n)) as [->|]; [done|]. apply H1. lia.
  - exists (S n). split; [done|]. split; [done|]. split; [lia|done].
Qed.

Lemma no_one_ok nm n : forall fuel, (n < fuel)%nat ->
  exists b, no_one fuel nm (bit n) = Ok b /\
    (b = true <-> forall i, (i < n)%nat -> Z.testbit nm (Z.of_nat i) = false).
Proof.
  induction n as [|n IH]; intros [|fuel] Hf; try lia; cbn [no_one].
  { exists true. split; [done|]. split; [lia|done]. }
  destruct (bit_test nm n) as [-> ->]. destruct (Z.testbit nm (Z.of_nat n)) eqn:Et; cbn [negb].
  - exists false. split; [done|]. split; [done|]. intros Hall. rewrite <- Et. rewrite Hall; [done|lia].
  - rewrite bit_shift. destruct (IH fuel ltac:(lia)) as (b & -> & Hb). exists b. split; [done|].
    rewrite Hb. split; intros Hall i Hi; [|apply Hall; lia].
    destruct (decide (i = n)) as [->|]; [done|]. apply Hall. lia.
Qed.

Lemma mask_bits k i : 0 <= k <= 32 -> 0 <= i -> Z.testbit (2 ^ 32 - 2 ^ k) i = (k <=? i) && (i <? 32).
Proof.
  intros Hk Hi. assert (2 ^ 32 - 2 ^ k = Z.shiftl (Z.ones (32 - k)) k) as ->.
  { rewrite Z.shiftl_mul_pow2, Z.ones_equiv by lia. rewrite <- Z.sub_1_r, Z.mul_sub_distr_r, <- Z.pow_add_r by lia.
    f_equal; [f_equal; lia|lia]. }
  rewrite Z.shiftl_spec by lia. destruct (Z.leb_spec k i); [|by rewrite Z.testbit_neg_r by lia].
  rewrite Z.testbit_ones by lia. cbn [andb]. apply Bool.eq_iff_eq_true.
  rewrite andb_true_iff, Z.leb_le, !Z.ltb_lt. lia.
Qed.

(** ** Theorems *)

(** Printing and parsing are inverse.  [ipaddr_ntoa_r] writes the four
    parts in decimal and a NUL exactly when they fit the buffer, touches
    nothing behind the NUL, and otherwise returns NULL without writing out of
    bounds; sixteen bytes are always enough; and [ipaddr_aton] reads the same
    address back, whatever follows the string. *)
Theorem ipaddr_roundtrip : forall a b c d buf buflen k,
  is_byte a -> is_byte b -> is_byte c -> is_byte d -> buflen <= zlen buf ->
  let text := dotted a b c d in
  ipaddr_ntoa_r (address_of a b c d) buf buflen =
    Ok (if zlen text <? buflen then Some (text ++ 0 :: drop (S (length text)) buf) else None) /\
  zlen text < 16 /\ ipaddr_aton (text ++ 0 :: k) = Ok (Some (address_of a b c d)).
Proof.
  intros a b c d buf buflen k Ha Hb Hc Hd Hl text. split; [by apply ntoa_r_ok|]. split; [|by apply aton_dotted].
  unfold text, dotted. pose proof (zlen_dec a Ha). pose proof (zlen_dec b Hb).
  pose proof (zlen_dec c Hc). pose proof (zlen_dec d Hd). zl. lia.
Qed.

Lemma ipaddr_roundtrip_witness :
  (is_byte 192 /\ is_byte 168 /\ is_byte 0 /\ is_byte 17 /\ 16 <= zlen (replicate 16 9)) /\
  ipaddr_ntoa_r (address_of 192 168 0 17) (replicate 16 9) 16 =
    Ok (Some (dotted 192 168 0 17 ++ 0 :: drop 13 (replicate 16 9))) /\
  zlen (dotted 192 168 0 17) < 16 /\
  ipaddr_aton (dotted 192 168 0 17 ++ [0; 5]) = Ok (Some (address_of 192 168 0 17)).
Proof.
  assert (is_byte 192) as H1 by by apply (bool_decide_unpack _).
  assert (is_byte 168) as H2 by by apply (bool_decide_unpack _).
  assert (is_byte 0) as H3 by by apply (bool_decide_unpack _).
  assert (is_byte 17) as H4 by by apply (bool_decide_unpack _).
  assert (16 <= zlen (replicate 16 9)) as H5 by done.
  split; [done|]. exact (ipaddr_roundtrip 192 168 0 17 (replicate 16 9) 16 [5] H1 H2 H3 H4 H5).
Defined.

(** The parser is total: on any NUL-terminated string it ends without
    reading past the NUL. *)
Theorem ipaddr_aton_total : forall cp, In 0 cp -> exists r, ipaddr_aton cp = Ok r.
Proof.
  intros cp Hin. unfold ipaddr_aton.
  destruct (aton_loop_total 3 cp [] Hin) as [->|(ps & v & cp' & -> & Hin')]; cbn [rbind]; [by eexists|].
  destruct (mread_head cp' Hin') as (c & rest & -> & ->). cbn [rbind]. by case_match; eexists.
Qed.

Lemma ipaddr_aton_total_witness : In 0 [48; 120; 0] /\ exists r, ipaddr_aton [48; 120; 0] = Ok r.
Proof.
  assert (In 0 [48; 120; 0]) as H by by do 2 right; left.
  split; [done|]. exact (ipaddr_aton_total [48; 120; 0] H).
Defined.

(** The parser checks the range of the last part only: 256.0.0.1 and 0.0.0.1
    are the same address, and 08 is a number. *)
Lemma ipaddr_aton_accepts_large_part :
  ipaddr_aton (dec 25 ++ [54; 46; 48; 46; 48; 46; 49; 0]) = ipaddr_aton (dotted 0 0 0 1 ++ [0]) /\
  ipaddr_aton [48; 56; 0] = Ok (Some (htonl 8)).
Proof. by vm_compute. Qed.

(** [ip4_addr_netmask_valid] ends and accepts exactly the masks that are,
    in host order, ones followed by zeros. *)
Theorem netmask_valid_spec : forall a b c d, is_byte a -> is_byte b -> is_byte c -> is_byte d ->
  exists v, ip4_addr_netmask_valid (address_of a b c d) = Ok v /\
    (v = true <-> exists k, 0 <= k <= 32 /\ d + 256 * c + 65536 * b + 16777216 * a = 2 ^ 32 - 2 ^ k).
Proof.
  intros a b c d Ha Hb Hc Hd. unfold ip4_addr_netmask_valid. set (nm := d + _ + _ + _).
  assert (htonl (address_of a b c d) = nm) as ->.
  { replace (address_of a b c d) with (a + 256 * b + 65536 * c + 16777216 * d) by (unfold address_of; lia).
    rewrite (htonl_bytes d c b a) by done. unfold address_of, nm. lia. }
  assert (0 <= nm < 2 ^ 32) as Hnm by (unfold is_byte in *; change (2 ^ 32) with 4294967296; unfold nm; lia).
  change (Z.shiftl 1 31) with (bit 32).
  destruct (first_zero_ok nm 32 33) as (j & Hj & -> & H1 & H2); [lia|]. cbn [rbind].
  destruct (no_one_ok nm j 33) as (v & -> & Hv); [lia|]. exists v. split; [done|]. rewrite Hv. split.
  - intros H0. exists (Z.of_nat j). split; [lia|]. apply Z.bits_inj'; intros i Hi.
    rewrite mask_bits by lia. rewrite <- (Z2Nat.id i) by done.
    destruct (Z.leb_spec (Z.of_nat j) (Z.of_nat (Z.to_nat i))) as [Hle|Hgt]; cbn [andb]; [|apply H0; lia].
    destruct (Z.ltb_spec (Z.of_nat (Z.to_nat i)) 32); [apply H1; lia|by apply (testbit_high nm 32)].
  - intros (k & Hk & E) i Hi. destruct (Z.testbit nm (Z.of_nat i)) eqn:Et; [|done]. exfalso.
    rewrite E, mask_bits in Et by lia. apply andb_true_iff in Et as [Hki%Z.leb_le _].
    destruct j as [|j]; [lia|]. rewrite E, mask_bits in H2 by lia.
    rewrite (proj2 (Z.leb_le _ _)), (proj2 (Z.ltb_lt _ _)) in H2 by lia. done.
Qed.

Lemma netmask_valid_spec_witness : (is_byte 255 /\ is_byte 240 /\ is_byte 0) /\
  exists v, ip4_addr_netmask_valid (address_of 255 255 240 0) = Ok v /\
    (v = true <-> exists k, 0 <= k <= 32 /\ 0 + 256 * 240 + 65536 * 255 + 16777216 * 255 = 2 ^ 32 - 2 ^ k).
Proof.
  assert (is_byte 255) as H1 by by apply (bool_decide_unpack _).
  assert (is_byte 240) as H2 by by apply (bool_decide_unpack _).
  assert (is_byte 0) as H3 by by apply (bool_decide_unpack _).
  split; [done|]. exact (netmask_valid_spec 255 255 240 0 H1 H1 H2 H3).
Defined.
