(* ===== verification/IpHdr.v ===== *)
(** * IP headers: the structure and the macros of [include/lwip/ip.h].

    Fields are read from memory where the code reads them, through a pointer
    to the header. *)
From S2P Require Import Prelude Cobs Uart Comm Message Pbuf InetChksum IpAddr.
From stdpp Require Import list.
#[local] Open Scope Z_scope.

Definition IP_PROTO_ICMP : Z := 1.
Definition IP_PROTO_IGMP : Z := 2.
Definition IP_PROTO_TCP : Z := 6.
Definition IP_PROTO_UDP : Z := 17.
Definition SIZEOF_IP_HDR : Z := 20.
Definition SIZEOF_UDP_HDR : Z := 8.
Definition IP_HLEN : Z := 20.
Definition IP_MF : Z := 0x2000.
Definition IP_OFFMASK : Z := 0x1fff.

(** A byte, a 16-bit and a 32-bit field at [off], as the processor reads
    them. *)
Definition hdr_u8 (m : store) (a : Z * Z) (off : Z) : result Z := let! b := load m a off 1 in mread b 0.
Definition hdr_u16 (m : store) (a : Z * Z) (off : Z) : result Z := let! b := load m a off 2 in read_u16 b 0.
Definition hdr_u32 (m : store) (a : Z * Z) (off : Z) : result Z := let! b := load m a off 4 in read_u32 b 0.

(** [IPH_V], [IPH_HL] and [IPH_VHLTOS_SET] of the first word. *)
Definition IPH_V (w : Z) : Z := Z.shiftr (ntohs w) 12.
Definition IPH_HL (w : Z) : Z := Z.land (Z.shiftr (ntohs w) 8) 0x0f.
Definition vhltos (v hl tos : Z) : Z := htons (Z.lor (Z.lor (Z.shiftl v 12) (Z.shiftl hl 8)) tos).

(** ** Parts of a packet *)

(** [n] bytes of a frame at [off]. *)
Definition part (d : list Z) (off n : nat) : list Z := take n (drop off d).

(** The 32 bits of an address field, as the processor reads them. *)
Definition address_at (d : list Z) (off : nat) : Z :=
  match part d off 4 with [a; b; c; e] => address_of a b c e | _ => 0 end.

Lemma part_length d off n : (off + n <= length d)%nat -> length (part d off n) = n.
Proof. intros Hl. unfold part. rewrite length_take, length_drop. lia. Qed.
Lemma part_bytes d off n : bytes d -> bytes (part d off n).
Proof. intros Hb. by apply Forall_take, Forall_drop. Qed.

Lemma address_read d off : bytes d -> (off + 4 <= length d)%nat ->
  read_u32 (part d off 4) 0 = Ok (address_at d off).
Proof.
  intros Hb Hl. pose proof (part_length d off 4 Hl) as Hn. pose proof (part_bytes d off 4 Hb) as Hp. unfold address_at.
  destruct (part d off 4) as [|a [|b [|c [|e [|]]]]]; try done.
  unfold address_of. trans (Ok (a + 256 * b + 65536 * (c + 256 * e))); [done|f_equal; lia].
Qed.


(** A byte of a packet, and a 16-bit field in network order. *)
Definition byte_at (d : list Z) (i : nat) : Z := nth i d 0.
Definition word_at (d : list Z) (i : nat) : Z := 256 * byte_at d i + byte_at d (S i).

Lemma byte_at_part d i : (i < length d)%nat -> part d i 1 = [byte_at d i].
Proof.
  intros Hi. unfold part, byte_at. destruct (lookup_lt_is_Some_2 d i Hi) as [x Ex]. rewrite (nth_lookup_Some _ _ _ _ Ex).
  rewrite (drop_S _ _ _ Ex). done.
Qed.
Lemma word_at_part d i : (S i < length d)%nat -> part d i 2 = [byte_at d i; byte_at d (S i)].
Proof.
  intros Hi. unfold part, byte_at. destruct (lookup_lt_is_Some_2 d i ltac:(lia)) as [x Ex]. destruct (lookup_lt_is_Some_2 d (S i) Hi) as [y Ey].
  rewrite (nth_lookup_Some _ _ _ _ Ex), (nth_lookup_Some _ _ _ _ Ey), (drop_S _ _ _ Ex), (drop_S _ _ _ Ey). done.
Qed.
Lemma byte_at_range d i : bytes d -> (i < length d)%nat -> is_byte (byte_at d i).
Proof. intros Hd Hi. unfold byte_at. destruct (lookup_lt_is_Some_2 d i Hi) as [x Ex]. rewrite (nth_lookup_Some _ _ _ _ Ex). by eapply Forall_lookup_1 in Ex. Qed.

Section fields.
Context (m : store) (c : pbuf) (Hok : cell_ok m c) (off : nat).

Lemma part_load n : (off + n <= Z.to_nat (len c))%nat -> load m (payload c) (Z.of_nat off) (Z.of_nat n) = Ok (part (cell_data m c) off n).
Proof using Type*. intros Hn. pose proof (proj1 Hok) as Hu. unfold is_u16 in Hu. rewrite (load_ok m c) by (done || lia). unfold part. by rewrite !Nat2Z.id. Qed.

Lemma cell_data_nat : length (cell_data m c) = Z.to_nat (len c).
Proof using Type*. pose proof (cell_data_length m c Hok) as H. unfold zlen in H. lia. Qed.

Lemma hdr_u8_ok : (off < Z.to_nat (len c))%nat -> hdr_u8 m (payload c) (Z.of_nat off) = Ok (byte_at (cell_data m c) off).
Proof using Type*.
  intros Hl. unfold hdr_u8. change 1 with (Z.of_nat 1). rewrite part_load by lia. cbn [rbind].
  rewrite byte_at_part by (rewrite cell_data_nat; lia). done.
Qed.

Lemma hdr_u16_ok : (S off < Z.to_nat (len c))%nat -> exists v, hdr_u16 m (payload c) (Z.of_nat off) = Ok v /\ is_u16 v /\
  ntohs v = word_at (cell_data m c) off.
Proof using Type*.
  intros Hl. unfold hdr_u16. change 2 with (Z.of_nat 2). rewrite part_load by lia. cbn [rbind].
  rewrite word_at_part by (rewrite cell_data_nat; lia). pose proof (cell_data_bytes m c Hok) as Hb.
  pose proof (byte_at_range _ off Hb) as H1. pose proof (byte_at_range _ (S off) Hb) as H2. rewrite cell_data_nat in H1, H2.
  specialize (H1 ltac:(lia)). specialize (H2 ltac:(lia)). unfold word_at. set (a := byte_at _ off) in *. set (b := byte_at _ (S off)) in *.
  exists (a + 256 * b). split; [done|]. unfold is_byte in *. assert (is_u16 (a + 256 * b)) as Hu by (unfold is_u16; lia). split; [done|].
  rewrite htons_eq by done. replace (a + 256 * b) with (a + b * 256) by lia. rewrite Z.mod_add, Z.div_add by done.
  rewrite Z.mod_small, Z.div_small by lia. lia.
Qed.

Lemma hdr_u32_ok : (off + 4 <= Z.to_nat (len c))%nat -> hdr_u32 m (payload c) (Z.of_nat off) = Ok (address_at (cell_data m c) off).
Proof using Type*.
  intros Hl. unfold hdr_u32. change 4 with (Z.of_nat 4). rewrite part_load by lia. cbn [rbind].
  apply address_read; [by apply cell_data_bytes|rewrite cell_data_nat; lia].
Qed.
End fields.

Lemma ntohs_ntohs v : is_u16 v -> ntohs (ntohs v) = v.
Proof. intros Hv. apply (swap_swap v). unfold is_u16 in Hv. lia. Qed.

(** The first word of a header, by the bytes [a] and [b]. *)
Lemma first_word w a b : is_byte a -> is_byte b -> ntohs w = 256 * a + b -> IPH_V w = a / 16 /\ IPH_HL w = a mod 16.
Proof.
  intros Ha Hb Hw. unfold IPH_V, IPH_HL. rewrite Hw, !Z.shiftr_div_pow2 by done. change (2 ^ 12) with 4096. change (2 ^ 8) with 256.
  change 0x0f with (Z.ones 4). rewrite Z.land_ones by done. change (2 ^ 4) with 16. unfold is_byte in *. split; Z.div_mod_to_equations; lia.
Qed.
