(* ===== verification/RawPcb.v ===== *)
(** * Raw control blocks: [lwip/core/raw.c].

    The list of raw control blocks, the delivery of received packets to their
    callbacks, and sending.  Callbacks have type [F] and run on the list and
    on the rest [W] of the program, which holds the packet buffers; routing
    and the output of IP packets are parameters. *)
From S2P Require Import Prelude Cobs Uart Comm Pbuf Linked IpHdr.
From stdpp Require Import list gmap.
#[local] Open Scope Z_scope.

Definition RAW_TTL : Z := 255.

(** [struct raw_pcb] with the fields of [IP_PCB]; [None] is a NULL callback. *)
Record raw_pcb (F : Type) := RawPcb {
  local_ip : Z; remote_ip : Z; so_options : Z; tos : Z; ttl : Z;
  raw_next : Z; protocol : Z; recv : option F; recv_arg : Z
}.
Arguments RawPcb {F}. Arguments local_ip {F}. Arguments remote_ip {F}. Arguments so_options {F}.
Arguments tos {F}. Arguments ttl {F}. Arguments raw_next {F}. Arguments protocol {F}.
Arguments recv {F}. Arguments recv_arg {F}.

(** [raw_pcbs] and the memory of the control blocks. *)
Record raws (F : Type) := Raws { raw_pcbs : Z; pcbs : gmap Z (raw_pcb F) }.
Arguments Raws {F}. Arguments raw_pcbs {F}. Arguments pcbs {F}.

Section raw.
Context {F : Type}.
Abbreviation pcb := (raw_pcb F).
Implicit Type r : raws F.

Definition set_raw_next (c : pcb) (n : Z) : pcb :=
  RawPcb (local_ip c) (remote_ip c) (so_options c) (tos c) (ttl c) n (protocol c) (recv c) (recv_arg c).
Definition set_local_ip (c : pcb) (a : Z) : pcb :=
  RawPcb a (remote_ip c) (so_options c) (tos c) (ttl c) (raw_next c) (protocol c) (recv c) (recv_arg c).
Definition set_remote_ip (c : pcb) (a : Z) : pcb :=
  RawPcb (local_ip c) a (so_options c) (tos c) (ttl c) (raw_next c) (protocol c) (recv c) (recv_arg c).
Definition set_recv (c : pcb) (f : option F) (a : Z) : pcb :=
  RawPcb (local_ip c) (remote_ip c) (so_options c) (tos c) (ttl c) (raw_next c) (protocol c) f a.

Definition pcb_at r (p : Z) : result pcb := cell (pcbs r) p.
Definition put_pcb r (p : Z) (c : pcb) : raws F := Raws (raw_pcbs r) (<[p := c]> (pcbs r)).
Definition upd_pcb r (p : Z) (f : pcb -> pcb) : result (raws F) :=
  let! c := pcb_at r p in Ok (put_pcb r p (f c)).

(** ** Control blocks *)

(** [memp_malloc(MEMP_RAW_PCB)], [None] when there is no memory. *)
Context (memp_malloc : gmap Z pcb -> option Z).

(** [raw_new]: the address, 0 for NULL. *)
Definition raw_new r (proto : Z) : Z * raws F :=
  match memp_malloc (pcbs r) with
  | None => (0, r)
  | Some p => (p, Raws p (<[p := RawPcb 0 0 0 0 RAW_TTL (raw_pcbs r) (u8 proto) None 0]> (pcbs r)))
  end.

Definition raw_bind r (p ipaddr : Z) : result (Z * raws F) :=
  let! r := upd_pcb r p (fun c => set_local_ip c ipaddr) in Ok (ERR_OK, r).
Definition raw_connect r (p ipaddr : Z) : result (Z * raws F) :=
  let! r := upd_pcb r p (fun c => set_remote_ip c ipaddr) in Ok (ERR_OK, r).
Definition raw_recv r (p : Z) (f : option F) (arg : Z) : result (raws F) :=
  upd_pcb r p (fun c => set_recv c f arg).

Definition raw_remove r (p : Z) : result (raws F) :=
  let! (head, m) := unlink_cell raw_next set_raw_next (pcbs r) (raw_pcbs r) p in
  let! _ := cell m p in
  Ok (Raws head (delete p m)).

(** ** Receiving *)

Section input.
Context {W : Type} (mem : W -> store).
Abbreviation state := (raws F * W)%type.
(** A callback: its function, argument, the block, the packet and the source
    address; what it returns and leaves. *)
Context (call : F -> Z -> Z -> Z -> Z -> state -> result (Z * state)).

(** [pcb->protocol == proto] and bound to any address or to [dest], which is
    [current_iphdr_dest]. *)
Definition pcb_matches (c : pcb) (proto dest : Z) : bool :=
  (protocol c =? proto) && ((local_ip c =? 0) || (local_ip c =? dest)).

Fixpoint raw_input_loop (fuel : nat) (st : state) (prev p pkt proto src dest : Z) : result (Z * state) :=
  match fuel with
  | O => Fault OutOfFuel
  | S fuel =>
      if p =? 0 then Ok (0, st)
      else
        let! c := pcb_at st.1 p in
        let! (eaten, st) :=
          (if pcb_matches c proto dest then
             match recv c with
             | None => Ok (0, st)
             | Some f =>
                 let! (n, st) := call f (recv_arg c) p pkt src st in
                 if n =? 0 then Ok (0, st)
                 else let! (head, m) := move_front raw_next set_raw_next (pcbs st.1) (raw_pcbs st.1) prev p in
                      Ok (1, (Raws head m, st.2))
             end
           else Ok (0, st)) in
        let! c := pcb_at st.1 p in
        if eaten =? 0 then raw_input_loop fuel st p (raw_next c) pkt proto src dest
        else Ok (eaten, st)
  end.

(** [raw_input(p, inp)] with the addresses of [current_iphdr_src] and
    [current_iphdr_dest]; the protocol is the tenth byte of the payload. *)
Definition raw_input (st : state) (pkt src dest : Z) : result (Z * state) :=
  let! c := deref (mem st.2) pkt in
  let! b := load (mem st.2) (payload c) 9 1 in
  let! proto := mread b 0 in
  raw_input_loop (list_fuel (pcbs st.1)) st 0 (raw_pcbs st.1) pkt proto src dest.
End input.

(** ** Sending *)

Section output.
Context `{Os} {E : Type}.
(** [ip_route]: the address of the interface, if there is one; and
    [ip_output_if] with pbuf, source, destination, TTL, TOS and protocol. *)
Context (ip_route : E -> Z -> option Z)
        (ip_output_if : E -> store -> Z -> Z -> Z -> Z -> Z -> Z -> Z * store * E).

(** Room for an IP header in front of the packet: the pbuf to send, 0 when
    there is none. *)
Definition with_header (s : store) (p : Z) : result (Z * store) :=
  let! (full, s) := pbuf_header s p IP_HLEN in
  if negb (full =? 0) then
    let! (q, s) := pbuf_alloc s PBUF_IP 0 PBUF_RAM in
    if q =? 0 then Ok (0, s)
    else
      let! c := deref s p in
      let! s := (if negb (tot_len c =? 0) then pbuf_chain s q p else Ok s) in
      Ok (q, s)
  else
    let! (fail, s) := pbuf_header s p (- IP_HLEN) in
    Ok (if fail =? 0 then p else 0, s).

Definition raw_sendto r (e : E) (s : store) (pcb p ipaddr : Z) : result (Z * store * E) :=
  let! (q, s) := with_header s p in
  if q =? 0 then Ok (ERR_MEM, s, e)
  else
    let release (s : store) : result store :=
      if negb (q =? p) then let! (_, s) := pbuf_free s q in Ok s else Ok s in
    match ip_route e ipaddr with
    | None => let! s := release s in Ok (ERR_RTE, s, e)
    | Some netif_ip =>
        let! c := pcb_at r pcb in
        let src_ip := if local_ip c =? 0 then netif_ip else local_ip c in
        let '(err, s, e) := ip_output_if e s q src_ip ipaddr (ttl c) (tos c) (protocol c) in
        let! s := release s in
        Ok (err, s, e)
    end.

Definition raw_send r (e : E) (s : store) (pcb p : Z) : result (Z * store * E) :=
  let! c := pcb_at r pcb in raw_sendto r e s pcb p (remote_ip c).
End output.
End raw.

(** ** The list *)

Section lists.
Context {F : Type}.
Implicit Type r : raws F.
Abbreviation lseg := (lseg (@raw_next F)).

#[export] Instance raw_links : LinkLaws (@raw_next F) set_raw_next.
Proof. by split. Qed.

(** The blocks of the list, in order. *)
Definition raw_list r (l : list Z) : Prop := linked raw_next (pcbs r) (raw_pcbs r) l.

(** A block but for its link. *)
Definition body (c : raw_pcb F) : raw_pcb F := set_raw_next c 0.
Definition bodies r (a : Z) : option (raw_pcb F) := body <$> pcbs r !! a.

Lemma body_link (c : raw_pcb F) n : body (set_raw_next c n) = body c.
Proof. done. Qed.
Lemma bodies_put r a c c' x : pcbs r !! a = Some c -> body c' = body c -> bodies (put_pcb r a c') x = bodies r x.
Proof.
  intros E Hb. unfold bodies, put_pcb. cbn. destruct (decide (x = a)) as [->|Hne].
  - rewrite lookup_insert_eq, E. cbn. by rewrite Hb.
  - by rewrite lookup_insert_ne.
Qed.

Lemma pcb_at_ok r a c : a <> 0 -> pcbs r !! a = Some c -> pcb_at r a = Ok c.
Proof. apply cell_ok. Qed.

Lemma bodies_same r h m : same_cells set_raw_next (pcbs r) m -> forall x, bodies (Raws h m) x = bodies r x.
Proof. intros Hs x. apply Hs. Qed.
End lists.

(** ** Delivery *)

Section deliver.
Context {F W : Type} (mem : W -> store).
(** What a callback returns and leaves when it does not touch the list. *)
Context (work : F -> Z -> Z -> Z -> Z -> W -> Z * W).
Context (call : F -> Z -> Z -> Z -> Z -> raws F * W -> result (Z * (raws F * W))).
Implicit Type r : raws F.

Definition leaves_list : Prop := forall f arg p pkt src r w,
  call f arg p pkt src (r, w) = Ok ((work f arg p pkt src w).1, (r, (work f arg p pkt src w).2)).

(** The packet is offered to the matching blocks of [l] in order until one
    takes it: that block, and what the callbacks leave. *)
Fixpoint offer r (l : list Z) (pkt proto src dest : Z) (w : W) : option Z * W :=
  match l with
  | [] => (None, w)
  | a :: l =>
      match pcbs r !! a with
      | Some c =>
          match recv c with
          | Some f =>
              if pcb_matches c proto dest then
                let '(n, w) := work f (recv_arg c) a pkt src w in
                if n =? 0 then offer r l pkt proto src dest w else (Some a, w)
              else offer r l pkt proto src dest w
          | None => offer r l pkt proto src dest w
          end
      | None => (None, w)
      end
  end.

Lemma deliver_loop r pkt proto src dest l2 : forall fuel l1 q w,
  leaves_list -> raw_list r (l1 ++ l2) -> lseg raw_next (pcbs r) q l2 0 -> (length l2 < fuel)%nat ->
  match offer r l2 pkt proto src dest w with
  | (None, w') => raw_input_loop call fuel (r, w) (default 0 (last l1)) q pkt proto src dest = Ok (0, (r, w'))
  | (Some a, w') => exists r',
      raw_input_loop call fuel (r, w) (default 0 (last l1)) q pkt proto src dest = Ok (1, (r', w')) /\
      raw_list r' (a :: filter (fun x => x <> a) (l1 ++ l2)) /\ forall x, bodies r' x = bodies r x
  end.
Proof.
  induction l2 as [|a l2 IH]; intros fuel l1 q w Hcall Hl Hq Hf; (destruct fuel as [|fuel]; [cbn in Hf; lia|]).
  - cbn [offer raw_input_loop]. by rewrite Hq.
  - destruct Hq as (-> & Ha & c & Ec & Hq). cbn [offer raw_input_loop]. rewrite Ec.
    rewrite (proj2 (Z.eqb_neq a 0)) by done. cbn [fst]. rewrite (pcb_at_ok r a c) by done. cbn [rbind].
    assert (forall w, match offer r l2 pkt proto src dest w with
      | (None, w') => raw_input_loop call fuel (r, w) a (raw_next c) pkt proto src dest = Ok (0, (r, w'))
      | (Some x, w') => exists r', raw_input_loop call fuel (r, w) a (raw_next c) pkt proto src dest = Ok (1, (r', w')) /\
          raw_list r' (x :: filter (fun y => y <> x) (l1 ++ a :: l2)) /\ forall x, bodies r' x = bodies r x
      end) as Hnext.
    { intros w1. specialize (IH fuel (l1 ++ [a]) (raw_next c) w1 Hcall). rewrite <- app_assoc, last_behind in IH.
      apply IH; [done|done|]. cbn [length] in Hf. lia. }
    destruct (pcb_matches c proto dest); destruct (recv c) as [f|];
      try (cbn [rbind fst]; rewrite (pcb_at_ok r a c) by done; apply Hnext).
    rewrite Hcall. cbn [rbind]. destruct (work f (recv_arg c) a pkt src w) as [n w1]. cbn [fst snd].
    destruct (n =? 0).
    + cbn [rbind fst]. rewrite (pcb_at_ok r a c) by done. apply Hnext.
    + destruct (front_at raw_next set_raw_next _ _ l1 a l2 Hl) as (h & m & -> & Hl' & Hb). cbn [rbind fst].
      pose proof Hl' as (_ & _ & c' & Ec' & _). rewrite (pcb_at_ok (Raws h m) a c') by done. cbn [rbind Z.eqb].
      exists (Raws h m). split; [done|]. split; [done|]. by apply bodies_same.
Qed.
End deliver.

(** ** Theorems *)

Section theorems.
Context {F : Type}.
Implicit Type r : raws F.

(** [raw_new] puts a zeroed block of the protocol in front of the list, or returns NULL and changes nothing; [raw_remove] takes a block out of the list wherever it is and frees it, and the other blocks keep their order and all their fields. *)
Theorem raw_list_ops (memp_malloc : gmap Z (raw_pcb F) -> option Z) r l :
  (forall m p, memp_malloc m = Some p -> p <> 0 /\ m !! p = None) ->
  raw_list r l ->
  (forall proto, match raw_new memp_malloc r proto with
   | (p, r') => if p =? 0 then r' = r else raw_list r' (p :: l) /\
       pcbs r' !! p = Some (RawPcb 0 0 0 0 RAW_TTL (raw_pcbs r) (u8 proto) None 0) /\
       forall a, a <> p -> pcbs r' !! a = pcbs r !! a
   end) /\
  (forall p, p <> 0 -> is_Some (pcbs r !! p) ->
   exists r', raw_remove r p = Ok r' /\ raw_list r' (filter (fun a => a <> p) l) /\
     pcbs r' !! p = None /\ forall a, a <> p -> bodies r' a = bodies r a).
Proof.
  intros Hm Hl. split.
  - intros proto. unfold raw_new. destruct (memp_malloc (pcbs r)) as [p|] eqn:Em; [|done].
    apply Hm in Em as [Hp Hn]. rewrite (proj2 (Z.eqb_neq p 0)) by done. cbn [pcbs]. split.
    + split; [done|]. split; [done|]. eexists. cbn. rewrite lookup_insert_eq. split; [done|]. cbn.
      apply lseg_store; [|exact Hl]. intros Hin. destruct (lseg_in _ _ _ _ _ p Hl Hin) as [_ [c Ec]]. congruence.
    + rewrite lookup_insert_eq. split; [done|]. intros a Ha. by rewrite lookup_insert_ne.
  - intros p Hp [cp Ep]. unfold raw_remove.
    destruct (unlink_ok raw_next set_raw_next _ _ l p cp Hl Hp Ep) as (h & m & -> & Hl1 & Hnp & Ep1 & Hb).
    cbn [rbind]. rewrite (cell_ok m p cp) by done. cbn [rbind]. eexists. split; [reflexivity|].
    split; [|split; [apply lookup_delete_eq|]].
    + eapply lseg_frame; [|exact Hl1]. intros a Ha. cbn. apply lookup_delete_ne. by intros <-.
    + intros a Ha. rewrite <- (bodies_same r h m Hb a). unfold bodies. cbn. by rewrite lookup_delete_ne.
Qed.

(** [raw_input] ends and offers the packet to the blocks of its protocol bound to its destination or to no address, in the order of the list, until a callback takes it: it returns 1 then, with that block moved to the front and the others in their order, and 0 with the list untouched when none does. *)
Theorem raw_input_offers {W} (mem : W -> store) work call r (w : W) l pkt c b proto src dest :
  leaves_list work call -> raw_list r l ->
  deref (mem w) pkt = Ok c -> load (mem w) (payload c) 9 1 = Ok b -> mread b 0 = Ok proto ->
  match offer work r l pkt proto src dest w with
  | (None, w') => raw_input mem call (r, w) pkt src dest = Ok (0, (r, w'))
  | (Some a, w') => exists r', raw_input mem call (r, w) pkt src dest = Ok (1, (r', w')) /\
      raw_list r' (a :: filter (fun x => x <> a) l) /\ forall x, bodies r' x = bodies r x
  end.
Proof.
  intros Hcall Hl Hd Hld Hb. unfold raw_input. cbn [fst snd]. rewrite Hd. cbn [rbind]. rewrite Hld. cbn [rbind].
  rewrite Hb. cbn [rbind]. apply (deliver_loop work call r pkt proto src dest l _ [] (raw_pcbs r) w Hcall Hl Hl).
  by eapply list_fuel_enough.
Qed.
End theorems.

(** Two blocks of a pool; the callback takes what its argument says. *)
Definition two_blocks {C} (m : gmap Z C) : option Z :=
  match m !! 100, m !! 200 with None, _ => Some 100 | _, None => Some 200 | _, _ => None end.
Lemma two_blocks_fresh {C} (m : gmap Z C) p : two_blocks m = Some p -> p <> 0 /\ m !! p = None.
Proof. unfold two_blocks. destruct (m !! 100) eqn:E1; [destruct (m !! 200) eqn:E2|]; naive_solver. Qed.
Definition two_pcbs : raws Z :=
  Raws 100 (list_to_map [(100, RawPcb 0 0 0 0 RAW_TTL 200 17 (Some 1) 0); (200, RawPcb 0 0 0 0 RAW_TTL 0 17 (Some 2) 1)]).
Lemma two_pcbs_list : raw_list two_pcbs [100; 200].
Proof. repeat split; try done. eexists. split; [reflexivity|]. repeat split; try done. eexists. by split. Qed.

Lemma raw_list_ops_witness :
  raw_list two_pcbs [100; 200] /\
  exists r', raw_remove two_pcbs 200 = Ok r' /\ raw_list r' [100] /\ pcbs r' !! 200 = None.
Proof.
  split; [exact two_pcbs_list|].
  destruct (raw_list_ops two_blocks two_pcbs [100; 200] two_blocks_fresh two_pcbs_list) as [_ Hr].
  destruct (Hr 200) as (r' & H1 & H2 & H3 & _); [done|by eexists|]. by exists r'.
Defined.

(** The callbacks log who was asked. *)
Definition eat_work (f arg p pkt src : Z) (w : store * list Z) : Z * (store * list Z) := (arg, (w.1, w.2 ++ [f])).
Definition eat_call (f arg p pkt src : Z) (st : raws Z * (store * list Z)) : result (Z * (raws Z * (store * list Z))) :=
  let '(n, w) := eat_work f arg p pkt src st.2 in Ok (n, (st.1, w)).
Definition udp_packet : store :=
  Store (list_to_map [(500, Pbuf 0 (500, 20) 20 20 PBUF_RAM 0 1)])
    (list_to_map [(500, replicate 29 0 ++ [17] ++ replicate 10 0)]).

Lemma raw_input_offers_witness :
  raw_list two_pcbs [100; 200] /\
  exists r', raw_input (fun w => w.1) eat_call (two_pcbs, (udp_packet, [])) 500 7 9 = Ok (1, (r', (udp_packet, [1; 2]))) /\
    raw_list r' [200; 100].
Proof.
  split; [exact two_pcbs_list|].
  assert (leaves_list eat_work eat_call) as Hc by (intros ? ? ? ? ? ? ?; reflexivity).
  destruct (raw_input_offers (fun w : store * list Z => w.1) eat_work eat_call two_pcbs (udp_packet, []) [100; 200]
    500 (Pbuf 0 (500, 20) 20 20 PBUF_RAM 0 1) [17] 17 7 9 Hc two_pcbs_list) as (r' & H1 & H2 & _); try reflexivity.
  by exists r'.
Defined.
