(* ===== verification/Etharp.v ===== *)
(** * ARP and Ethernet: [lwip/netif/etharp.c] and [include/netif/etharp.h].

    The ARP table with its queues of packets that wait for an address, its
    ageing, the frames of the protocol, and the input and output of Ethernet
    frames.  The queues are linked lists only this file reaches, so they are
    lists here.  The driver's [linkoutput], [ip_input] and [dhcp_arp_reply]
    are parameters: the driver runs on the packet buffers and on its own
    state, the other two on the whole state, since they may send in turn. *)
From S2P Require Import Prelude Cobs Uart Comm Message Pbuf InetChksum IpAddr.
From stdpp Require Import list gmap.
#[local] Open Scope Z_scope.

Definition ARP_TABLE_SIZE : Z := 10.
Definition ARP_MAXAGE : Z := 240.
Definition ARP_MAXPENDING : Z := 2.
Definition HWTYPE_ETHERNET : Z := 1.
Definition ETHARP_FLAG_TRY_HARD : Z := 1.
Definition ETHARP_FLAG_FIND_ONLY : Z := 2.
Definition ETHARP_HWADDR_LEN : Z := 6.
Definition SIZEOF_ETH_HDR : Z := 14.
Definition SIZEOF_ETHARP_HDR : Z := 28.
Definition SIZEOF_ETHARP_PACKET : Z := SIZEOF_ETH_HDR + SIZEOF_ETHARP_HDR.
Definition ETHTYPE_ARP : Z := 0x0806.
Definition ETHTYPE_IP : Z := 0x0800.
Definition ARP_REQUEST : Z := 1.
Definition ARP_REPLY : Z := 2.
Definition NETIF_FLAG_ETHARP : Z := 0x20.
Definition ethbroadcast : list Z := [0xff; 0xff; 0xff; 0xff; 0xff; 0xff].
Definition ethzero : list Z := [0; 0; 0; 0; 0; 0].

Inductive etharp_state := ETHARP_STATE_EMPTY | ETHARP_STATE_PENDING | ETHARP_STATE_STABLE.
#[export] Instance etharp_state_eq_dec : EqDecision etharp_state.
Proof. solve_decision. Defined.

(** [struct etharp_entry]; [q] holds the packets of the queue in order, and
    0 is a NULL [netif]. *)
Record etharp_entry := EtharpEntry {
  q : list Z; ipaddr : Z; ethaddr : list Z; netif : Z; state : etharp_state; ctime : Z
}.
Definition set_q (e : etharp_entry) l := EtharpEntry l (ipaddr e) (ethaddr e) (netif e) (state e) (ctime e).
Definition set_ipaddr (e : etharp_entry) a := EtharpEntry (q e) a (ethaddr e) (netif e) (state e) (ctime e).
Definition set_ethaddr (e : etharp_entry) a := EtharpEntry (q e) (ipaddr e) a (netif e) (state e) (ctime e).
Definition set_state (e : etharp_entry) s := EtharpEntry (q e) (ipaddr e) (ethaddr e) (netif e) s (ctime e).
Definition set_ctime (e : etharp_entry) t := EtharpEntry (q e) (ipaddr e) (ethaddr e) (netif e) (state e) t.

(** The fields of [struct netif] this file reads, and the address of the
    structure. *)
Record ethif := EthIf { eth_if : iface; if_gw : Z; hwaddr : list Z; if_addr : Z }.

Definition ip_addr_ismulticast (a : Z) : bool := Z.land a 0x000000f0 =? 0x000000e0.
Definition ip_addr_islinklocal (a : Z) : bool := Z.land a 0x0000ffff =? 0x0000fea9.
Definition ip4_addr2 (a : Z) : Z := a / 256 mod 256.
Definition ip4_addr3 (a : Z) : Z := a / 65536 mod 256.
Definition ip4_addr4 (a : Z) : Z := a / 16777216 mod 256.

(** The bytes of a 16-bit field in network order. *)
Definition be16 (v : Z) : list Z := [v / 256 mod 256; v mod 256].

(** ** The search for an entry *)

(** The candidates of [find_entry]; [ARP_TABLE_SIZE] is none. *)
Record candidates := Candidates {
  first_empty : Z; old_pending : Z; old_stable : Z; old_queue : Z;
  age_pending : Z; age_stable : Z; age_queue : Z
}.
Definition no_candidates : candidates :=
  Candidates ARP_TABLE_SIZE ARP_TABLE_SIZE ARP_TABLE_SIZE ARP_TABLE_SIZE 0 0 0.

Definition is_empty (e : etharp_entry) : bool := bool_decide (state e = ETHARP_STATE_EMPTY).

(** The part of one round that remembers a candidate. *)
Definition consider (i : Z) (e : etharp_entry) (c : candidates) : candidates :=
  match state e with
  | ETHARP_STATE_EMPTY => c
  | ETHARP_STATE_PENDING =>
      match q e with
      | _ :: _ =>
          if age_queue c <=? ctime e
          then Candidates (first_empty c) (old_pending c) (old_stable c) i (age_pending c) (age_stable c) (ctime e)
          else c
      | [] =>
          if age_pending c <=? ctime e
          then Candidates (first_empty c) i (old_stable c) (old_queue c) (ctime e) (age_stable c) (age_queue c)
          else c
      end
  | ETHARP_STATE_STABLE =>
      if age_stable c <=? ctime e
      then Candidates (first_empty c) (old_pending c) i (old_queue c) (age_pending c) (ctime e) (age_queue c)
      else c
  end.

(** The loop: the index of a match, or the candidates. *)
Fixpoint scan (ip : Z) (l : list etharp_entry) (i : Z) (c : candidates) : Z + candidates :=
  match l with
  | [] => inr c
  | e :: l =>
      if (first_empty c =? ARP_TABLE_SIZE) && is_empty e then
        scan ip l (i + 1)
          (Candidates i (old_pending c) (old_stable c) (old_queue c) (age_pending c) (age_stable c) (age_queue c))
      else if is_empty e then scan ip l (i + 1) c
      else if ip =? ipaddr e then inl i
      else scan ip l (i + 1) (consider i e c)
  end.

(** Which entry to take, and whether it has to be freed first. *)
Definition select (c : candidates) (flags : Z) : option (Z * bool) :=
  if negb (Z.land flags ETHARP_FLAG_FIND_ONLY =? 0) ||
     ((first_empty c =? ARP_TABLE_SIZE) && (Z.land flags ETHARP_FLAG_TRY_HARD =? 0)) then None
  else if first_empty c <? ARP_TABLE_SIZE then Some (first_empty c, false)
  else if old_stable c <? ARP_TABLE_SIZE then Some (old_stable c, true)
  else if old_pending c <? ARP_TABLE_SIZE then Some (old_pending c, true)
  else if old_queue c <? ARP_TABLE_SIZE then Some (old_queue c, true)
  else None.

Section etharp.
Context `{Os} {E : Type}.

(** The static variables, the packet buffers, and the state of the rest. *)
Record net := Net { arp_table : list etharp_entry; etharp_cached_entry : Z; mem : store; env : E }.
Implicit Type s : net.
Definition set_table s t := Net t (etharp_cached_entry s) (mem s) (env s).
Definition set_mem s m := Net (arp_table s) (etharp_cached_entry s) m (env s).
Definition set_hint s i := Net (arp_table s) i (mem s) (env s).

Definition entry_at s (i : Z) : result etharp_entry :=
  if 0 <=? i then of_option OutOfBounds (arp_table s !! Z.to_nat i) else Fault OutOfBounds.
Definition put_entry s (i : Z) (e : etharp_entry) : net := set_table s (<[Z.to_nat i := e]> (arp_table s)).

(** [netif->linkoutput], [memp_malloc(MEMP_ARP_QUEUE)], whether it succeeds,
    [ip_input] and [dhcp_arp_reply]. *)
Context (linkoutput : E -> store -> Z -> Z * store * E) (memp_malloc : E -> bool * E)
        (ip_input dhcp_arp_reply : net -> Z -> result net).

(** ** Entries *)

Fixpoint free_etharp_q (l : list Z) (m : store) : result store :=
  match l with
  | [] => Ok m
  | p :: l => let! (_, m) := pbuf_free m p in free_etharp_q l m
  end.

Definition free_entry s (i : Z) : result net :=
  let! e := entry_at s i in
  let! m := free_etharp_q (q e) (mem s) in
  Ok (put_entry (set_mem s m) i (set_state (set_q e []) ETHARP_STATE_EMPTY)).

(** One round of [etharp_tmr], and the loop over [n] entries from [i] on. *)
Definition age_entry s (i : Z) : result net :=
  let! e := entry_at s i in
  if is_empty e then Ok s
  else
    let e := set_ctime e (u8 (ctime e + 1)) in
    let s := put_entry s i e in
    if (ARP_MAXAGE <=? ctime e) ||
       (bool_decide (state e = ETHARP_STATE_PENDING) && (ARP_MAXPENDING <=? ctime e))
    then free_entry s i else Ok s.
Fixpoint tmr_loop (n : nat) s (i : Z) : result net :=
  match n with
  | O => Ok s
  | S n => let! s := age_entry s i in tmr_loop n s (i + 1)
  end.
Definition etharp_tmr s : result net := tmr_loop (Z.to_nat ARP_TABLE_SIZE) s 0.

(** [find_entry(&ip, flags)]: the index, or [ERR_MEM]. *)
Definition find_entry s (ip flags : Z) : result (Z * net) :=
  match scan ip (arp_table s) 0 no_candidates with
  | inl i => Ok (i, s)
  | inr c =>
      match select c flags with
      | None => Ok (ERR_MEM, s)
      | Some (i, occupied) =>
          let! s := (if (occupied : bool) then free_entry s i else Ok s) in
          let! e := entry_at s i in
          Ok (i, put_entry s i (set_ctime (set_ipaddr e ip) 0))
      end
  end.

Definition etharp_send_ip s (p : Z) (src dst : list Z) : result (Z * net) :=
  let! c := deref (mem s) p in
  let! m := save (mem s) (payload c) 0 dst in
  let! m := save m (payload c) 6 src in
  let! m := save m (payload c) 12 (be16 ETHTYPE_IP) in
  let '(err, m, e) := linkoutput (env s) m p in
  Ok (err, Net (arp_table s) (etharp_cached_entry s) m e).

(** Sending what has been queued on entry [i]: [n] bounds the queue. *)
Fixpoint send_queue (n : nat) s (i : Z) (src dst : list Z) : result net :=
  let! e := entry_at s i in
  match q e with
  | [] => Ok s
  | p :: l =>
      match n with
      | O => Fault OutOfFuel
      | S n =>
          let s := put_entry s i (set_q e l) in
          let! (_, s) := etharp_send_ip s p src dst in
          let! (_, m) := pbuf_free (mem s) p in
          send_queue n (set_mem s m) i src dst
      end
  end.

Definition update_arp_entry s (nif : ethif) (ip : Z) (eth : list Z) (flags : Z) : result (Z * net) :=
  if (ip =? IPADDR_ANY) || ip4_addr_isbroadcast ip (eth_if nif) || ip_addr_ismulticast ip then Ok (ERR_ARG, s)
  else
    let! (i, s) := find_entry s ip flags in
    if i <? 0 then Ok (i, s)
    else
      let! e := entry_at s i in
      let e := set_ctime (set_ethaddr (set_state e ETHARP_STATE_STABLE) eth) 0 in
      let! s := send_queue (length (q e)) (put_entry s i e) i (hwaddr nif) eth in
      Ok (ERR_OK, s).

(** [etharp_cleanup_netif]. *)
Fixpoint cleanup_loop (n : nat) s (i nif : Z) : result net :=
  match n with
  | O => Ok s
  | S n =>
      let! e := entry_at s i in
      let! s := (if negb (is_empty e) && (netif e =? nif) then free_entry s i else Ok s) in
      cleanup_loop n s (i + 1) nif
  end.
Definition etharp_cleanup_netif s (nif : Z) : result net := cleanup_loop (Z.to_nat ARP_TABLE_SIZE) s 0 nif.

(** [etharp_find_addr]: index and both addresses, [None] for -1. *)
Definition etharp_find_addr s (ip : Z) : result (option (Z * list Z * Z) * net) :=
  let! (i, s) := find_entry s ip ETHARP_FLAG_FIND_ONLY in
  if i <? 0 then Ok (None, s)
  else
    let! e := entry_at s i in
    Ok (if bool_decide (state e = ETHARP_STATE_STABLE) then Some (i, ethaddr e, ipaddr e) else None, s).

(** ** Frames *)

(** [n] bytes of the frame [c] at [off], and a store there. *)
Definition field (m : store) (c : pbuf) (off n : Z) : result (list Z) := load m (payload c) off n.
Definition fields_are (m : store) (c : pbuf) (off : Z) (l : list Z) : result bool :=
  let! x := field m c off (zlen l) in Ok (bool_decide (x = l)).

(** The stores of a list of fields, in order. *)
Fixpoint put_fields (m : store) (a : Z * Z) (l : list (Z * list Z)) : result store :=
  match l with
  | [] => Ok m
  | (off, x) :: l => let! m := save m a off x in put_fields m a l
  end.

(** The fields [etharp_raw] stores, in its order. *)
Definition arp_fields (ethsrc ethdst hwsrc : list Z) (ipsrc : Z) (hwdst : list Z) (ipdst opcode : Z)
  : list (Z * list Z) :=
  [(20, be16 opcode); (22, hwsrc); (32, hwdst); (0, ethdst); (6, ethsrc);
   (28, u32_bytes ipsrc); (38, u32_bytes ipdst);
   (14, be16 HWTYPE_ETHERNET); (16, be16 ETHTYPE_IP); (18, [ETHARP_HWADDR_LEN]); (19, [4]);
   (12, be16 ETHTYPE_ARP)].

(** [etharp_raw], with the addresses as bytes and the IP addresses as their
    [u32_t]. *)
Definition etharp_raw s (ethsrc ethdst hwsrc : list Z) (ipsrc : Z) (hwdst : list Z) (ipdst opcode : Z)
  : result (Z * net) :=
  let! (p, m) := pbuf_alloc (mem s) PBUF_RAW SIZEOF_ETHARP_PACKET PBUF_RAM in
  if p =? 0 then Ok (ERR_MEM, set_mem s m)
  else
    let! c := deref m p in
    let! m := put_fields m (payload c) (arp_fields ethsrc ethdst hwsrc ipsrc hwdst ipdst opcode) in
    let '(result, m, e) := linkoutput (env s) m p in
    let! (_, m) := pbuf_free m p in
    Ok (result, Net (arp_table s) (etharp_cached_entry s) m e).

Definition etharp_request s (nif : ethif) (ip : Z) : result (Z * net) :=
  etharp_raw s (hwaddr nif) ethbroadcast (hwaddr nif) (if_ip_addr (eth_if nif)) ethzero ip ARP_REQUEST.

(** ** Output *)

(** The loop of [etharp_query] over the packet: the first pbuf that is not a
    [PBUF_ROM], 0 if there is none. *)
Fixpoint first_not_rom (fuel : nat) (m : store) (p : Z) : result Z :=
  match fuel with
  | O => Fault OutOfFuel
  | S fuel =>
      if p =? 0 then Ok 0
      else
        let! c := deref m p in
        if bool_decide (type c = PBUF_ROM) then first_not_rom fuel m (next c) else Ok p
  end.

(** The packet to queue in place of [q], 0 when it could not be copied. *)
Definition take_over (m : store) (q : Z) : result (Z * store) :=
  let! p := first_not_rom (chain_fuel m) m q in
  if p =? 0 then let! m := pbuf_ref m q in Ok (q, m)
  else
    let! c := deref m p in
    let! (p, m) := pbuf_alloc m PBUF_RAW (tot_len c) PBUF_RAM in
    if p =? 0 then Ok (0, m)
    else
      let! (err, m) := pbuf_copy m p q in
      if err =? ERR_OK then Ok (p, m)
      else let! (_, m) := pbuf_free m p in Ok (0, m).

(** Queueing the packet on a pending entry. *)
Definition queue_packet s (i pkt : Z) : result (Z * net) :=
  let! (p, m) := take_over (mem s) pkt in
  let s := set_mem s m in
  if p =? 0 then Ok (ERR_MEM, s)
  else
    let '(ok, env) := memp_malloc (env s) in
    let s := Net (arp_table s) (etharp_cached_entry s) (mem s) env in
    if (ok : bool) then
      let! e := entry_at s i in
      Ok (ERR_OK, put_entry s i (set_q e (Etharp.q e ++ [p])))
    else let! (_, m) := pbuf_free (mem s) p in Ok (ERR_MEM, set_mem s m).

(** [etharp_query] from the entry [i] it found on. *)
Definition query_entry s (nif : ethif) (ip pkt i : Z) : result (Z * net) :=
  let! e := entry_at s i in
  let! (result, s) :=
    (if bool_decide (state e = ETHARP_STATE_PENDING) || (pkt =? 0)
     then etharp_request s nif ip else Ok (ERR_MEM, s)) in
  if pkt =? 0 then Ok (result, s)
  else
    let! e := entry_at s i in
    match state e with
    | ETHARP_STATE_STABLE => etharp_send_ip (set_hint s i) pkt (hwaddr nif) (ethaddr e)
    | ETHARP_STATE_PENDING => queue_packet s i pkt
    | ETHARP_STATE_EMPTY => Ok (result, s)
    end.

(** [etharp_query(netif, ipaddr, q)]; 0 is a NULL [q]. *)
Definition etharp_query s (nif : ethif) (ip pkt : Z) : result (Z * net) :=
  if ip4_addr_isbroadcast ip (eth_if nif) || ip_addr_ismulticast ip || (ip =? IPADDR_ANY) then Ok (ERR_ARG, s)
  else
    let! (i, s) := find_entry s ip ETHARP_FLAG_TRY_HARD in
    if i <? 0 then Ok (i, s)
    else
      let! e := entry_at s i in
      let s := if is_empty e then put_entry s i (set_state e ETHARP_STATE_PENDING) else s in
      query_entry s nif ip pkt i.

(** The Ethernet address of a multicast group. *)
Definition mcastaddr (ip : Z) : list Z := [0x01; 0x00; 0x5e; Z.land (ip4_addr2 ip) 0x7f; ip4_addr3 ip; ip4_addr4 ip].

(** The unicast part of [etharp_output]. *)
Definition output_unicast s (nif : ethif) (pkt ip : Z) : result (Z * net) :=
  let! e := entry_at s (etharp_cached_entry s) in
  if bool_decide (state e = ETHARP_STATE_STABLE) && (ip =? ipaddr e)
  then etharp_send_ip s pkt (hwaddr nif) (ethaddr e)
  else etharp_query s nif ip pkt.

Definition etharp_output s (nif : ethif) (pkt ip : Z) : result (Z * net) :=
  let! (fail, m) := pbuf_header (mem s) pkt SIZEOF_ETH_HDR in
  let s := set_mem s m in
  if negb (fail =? 0) then Ok (ERR_BUF, s)
  else if ip4_addr_isbroadcast ip (eth_if nif) then etharp_send_ip s pkt (hwaddr nif) ethbroadcast
  else if ip_addr_ismulticast ip then etharp_send_ip s pkt (hwaddr nif) (mcastaddr ip)
  else if negb (ip_addr_netcmp ip (if_ip_addr (eth_if nif)) (if_netmask (eth_if nif))) &&
          negb (ip_addr_islinklocal ip) then
    if if_gw nif =? IPADDR_ANY then Ok (ERR_RTE, s) else output_unicast s nif pkt (if_gw nif)
  else output_unicast s nif pkt ip.

(** ** Input *)

(** [etharp_ip_input]: the source of a packet of the local network. *)
Definition etharp_ip_input s (nif : ethif) (p : Z) : result net :=
  let! c := deref (mem s) p in
  let! src := field (mem s) c (SIZEOF_ETH_HDR + 12) 4 in
  let! iphdr_src := read_u32 src 0 in
  if negb (ip_addr_netcmp iphdr_src (if_ip_addr (eth_if nif)) (if_netmask (eth_if nif))) then Ok s
  else
    let! eth := field (mem s) c 6 6 in
    let! (_, s) := update_arp_entry s nif iphdr_src eth ETHARP_FLAG_FIND_ONLY in
    Ok s.

Definition free_packet s (p : Z) : result net :=
  let! (_, m) := pbuf_free (mem s) p in Ok (set_mem s m).

(** The tests of [etharp_arp_input] on the header. *)
Definition arp_header_ok (m : store) (c : pbuf) : result bool :=
  let! a := fields_are m c 14 (be16 HWTYPE_ETHERNET) in
  let! b := fields_are m c 18 [ETHARP_HWADDR_LEN] in
  let! d := fields_are m c 19 [4] in
  let! e := fields_are m c 16 (be16 ETHTYPE_IP) in
  let! f := fields_are m c 12 (be16 ETHTYPE_ARP) in
  Ok (a && b && d && e && f).

(** The reply, written into the request. *)
Definition make_reply (m : store) (c : pbuf) (nif : ethif) : result store :=
  let! m := save m (payload c) 20 (be16 ARP_REPLY) in
  let! sip := field m c 28 4 in
  let! m := save m (payload c) 38 sip in
  let! m := save m (payload c) 28 (u32_bytes (if_ip_addr (eth_if nif))) in
  let! sha := field m c 22 6 in
  let! m := save m (payload c) 32 sha in
  let! sha := field m c 22 6 in
  let! m := save m (payload c) 0 sha in
  let! m := save m (payload c) 22 (hwaddr nif) in
  save m (payload c) 6 (hwaddr nif).

Definition etharp_arp_input s (nif : ethif) (p : Z) : result net :=
  let! c := deref (mem s) p in
  if len c <? SIZEOF_ETHARP_PACKET then free_packet s p
  else
    let! ok := arp_header_ok (mem s) c in
    if negb ok then free_packet s p
    else
      let! sip := field (mem s) c 28 4 in
      let! sipaddr := read_u32 sip 0 in
      let! dip := field (mem s) c 38 4 in
      let! dipaddr := read_u32 dip 0 in
      let for_us := negb (if_ip_addr (eth_if nif) =? IPADDR_ANY) && (dipaddr =? if_ip_addr (eth_if nif)) in
      let! sha := field (mem s) c 22 6 in
      let! (_, s) := update_arp_entry s nif sipaddr sha
                       (if for_us then ETHARP_FLAG_TRY_HARD else ETHARP_FLAG_FIND_ONLY) in
      let! request := fields_are (mem s) c 20 (be16 ARP_REQUEST) in
      let! reply := fields_are (mem s) c 20 (be16 ARP_REPLY) in
      let! s := (if (request : bool) then
                   if for_us then
                     let! m := make_reply (mem s) c nif in
                     let '(_, m, e) := linkoutput (env s) m p in
                     Ok (Net (arp_table s) (etharp_cached_entry s) m e)
                   else Ok s
                 else if (reply : bool) then
                   dhcp_arp_reply s sipaddr
                 else Ok s) in
      free_packet s p.

(** [ethernet_input] always returns [ERR_OK]. *)
Definition ethernet_input s (nif : ethif) (p : Z) : result net :=
  let! c := deref (mem s) p in
  if len c <=? SIZEOF_ETH_HDR then free_packet s p
  else
    let! is_ip := fields_are (mem s) c 12 (be16 ETHTYPE_IP) in
    let! is_arp := fields_are (mem s) c 12 (be16 ETHTYPE_ARP) in
    let etharp := negb (Z.land (if_flags (eth_if nif)) NETIF_FLAG_ETHARP =? 0) in
    if (is_ip : bool) then
      if negb etharp then free_packet s p
      else
        let! s := etharp_ip_input s nif p in
        let! (fail, m) := pbuf_header (mem s) p (- SIZEOF_ETH_HDR) in
        let s := set_mem s m in
        if negb (fail =? 0) then free_packet s p
        else ip_input s p
    else if (is_arp : bool) then
      if negb etharp then free_packet s p else etharp_arp_input s nif p
    else free_packet s p.
End etharp.
Arguments net : clear implicits.
