(* ===== verification/EtharpTable.v ===== *)
(** * The ARP table: what [lwip/netif/etharp.c] keeps true of it.

    The invariant of the table and of the packets queued on it, the search
    for an entry, and the ageing of entries. *)
From S2P Require Import Prelude Cobs Uart Comm Message Pbuf PbufChain PbufTrim PbufCopy InetChksum IpAddr Etharp.
From stdpp Require Import list gmap.
#[local] Open Scope Z_scope.

(** ** The invariant *)

(** A pbuf with its own memory, an Ethernet header's room at least, and a
    reference; [n] follows it.  A packet on a queue is one such pbuf. *)
Definition held (n : Z) (m : store) (p : Z) : Prop :=
  p <> 0 /\ exists c, cells m !! p = Some c /\ next c = n /\ 1 <= ref c < 65536 /\ cell_ok m c /\
    (payload c).1 = p /\ SIZEOF_ETH_HDR <= len c.

Abbreviation waiting := (held 0).

(** Six bytes. *)
Definition mac (l : list Z) : Prop := length l = 6%nat /\ bytes l.

Definition entry_ok (e : etharp_entry) : Prop :=
  0 <= ctime e /\ netif e = 0 /\
  match state e with
  | ETHARP_STATE_EMPTY => q e = []
  | ETHARP_STATE_PENDING => ctime e < ARP_MAXPENDING
  | ETHARP_STATE_STABLE => q e = [] /\ ctime e < ARP_MAXAGE /\ mac (ethaddr e)
  end.

Definition queues (t : list etharp_entry) : list Z := concat (map q t).

(** Ten entries, no two of them for the same address. *)
Record table_ok (t : list etharp_entry) : Prop := {
  table_size : length t = 10%nat;
  table_entries : Forall entry_ok t;
  table_unique : forall i j e f, t !! i = Some e -> t !! j = Some f ->
    is_empty e = false -> is_empty f = false -> ipaddr e = ipaddr f -> i = j
}.

Record arp_ok {E} (s : net E) : Prop := {
  arp_table_ok : table_ok (arp_table s);
  arp_hint : 0 <= etharp_cached_entry s < ARP_TABLE_SIZE;
  arp_once : NoDup (queues (arp_table s));
  arp_waiting : Forall (waiting (mem s)) (queues (arp_table s));
  arp_backed : backed (mem s)
}.

Lemma held_untouched n m m' l p : untouched m m' l -> ~ In p l -> held n m p -> held n m' p.
Proof.
  intros [_ U] Hp (Hp0 & c & Ec & Hn & Hr & (Hl & Hrc & Hby & Hb) & Hpay & Hlen). destruct (U p Hp) as [E1 E2].
  split; [done|]. exists c. rewrite E1. split; [done|]. split; [done|]. split; [done|]. split; [|done].
  assert (cell_data m' c = cell_data m c) as Hd by (unfold cell_data; by rewrite Hpay, E2).
  split; [done|]. split; [done|]. split; [by rewrite Hd|]. rewrite Hpay in *. by rewrite E2.
Qed.

(** ** Freeing a queue *)
Lemma free_waiting m p : waiting m p -> backed m ->
  exists n m', pbuf_free m p = Ok (n, m') /\ untouched m m' [p].
Proof.
  intros (Hp & c & Ec & Hnx & Hr & _) Hbk. unfold pbuf_free, chain_fuel.
  assert (exists k, size (cells m) = S k) as [k ->].
  { destruct (size (cells m)) eqn:Es; [|eauto]. apply map_size_empty_inv in Es. by rewrite Es in Ec. }
  cbn [pbuf_free_loop]. rewrite (proj2 (Z.eqb_neq p 0)), (deref_ok m p c) by done. cbn [rbind].
  destruct (Hbk p) as [b Eb]; [by rewrite Ec|].
  assert (forall a, ~ In a [p] -> a <> p) as Hne by (intros a Ha ->; apply Ha; by left).
  destruct (u16 (ref c - 1) =? 0).
  - unfold pbuf_release, os_free. cbn [put blocks]. rewrite Eb. cbn [rbind]. rewrite Hnx. cbn [Z.eqb].
    eexists _, _. split; [reflexivity|]. split; unfold backed; cbn [cells blocks put].
    + intros _ a. destruct (decide (a = p)) as [->|]; [rewrite lookup_delete_eq; by intros []|].
      rewrite !lookup_delete_ne, lookup_insert_ne by done. apply Hbk.
    + intros a Ha%Hne. by rewrite !lookup_delete_ne, lookup_insert_ne by done.
  - eexists _, _. split; [reflexivity|]. split; unfold backed; cbn [cells blocks put].
    + intros _ a. destruct (decide (a = p)) as [->|]; [intros _; by rewrite Eb|].
      rewrite lookup_insert_ne by done. apply Hbk.
    + intros a Ha%Hne. by rewrite lookup_insert_ne.
Qed.

Lemma free_queue l : forall m, NoDup l -> Forall (waiting m) l -> backed m ->
  exists m', free_etharp_q l m = Ok m' /\ untouched m m' l.
Proof.
  induction l as [|p l IH]; intros m Hnd HF Hbk; cbn [free_etharp_q]; [exists m; split; [done|apply untouched_refl]|].
  apply NoDup_cons in Hnd as [Hp Hnd]. rewrite list_elem_of_In in Hp. apply Forall_cons in HF as [Hw HF].
  destruct (free_waiting m p Hw Hbk) as (n & m1 & -> & Hu). cbn [rbind].
  destruct (IH m1) as (m2 & -> & Hu2); [done| |by apply Hu|].
  { rewrite Forall_forall in HF |- *. intros a Ha. eapply held_untouched; [exact Hu| |by apply HF].
    intros [->|[]]. by rewrite list_elem_of_In in Ha. }
  exists m2. split; [done|]. eapply untouched_trans; (eapply untouched_weaken; [|done]); [|by right].
  intros a [->|[]]. by left.
Qed.

(** ** Entries of the table *)
Lemma queues_app t1 t2 : queues (t1 ++ t2) = queues t1 ++ queues t2.
Proof. unfold queues. by rewrite map_app, concat_app. Qed.
Lemma queues_in t i e p : t !! i = Some e -> In p (q e) -> In p (queues t).
Proof.
  intros Hi Hp. apply in_concat. exists (q e). split; [|done]. apply in_map. apply list_elem_of_In.
  by eapply list_elem_of_lookup_2.
Qed.

(** Replacing one entry: its queue changes, the others stay. *)
Lemma queues_insert t i e e' : t !! i = Some e ->
  exists l1 l2, queues t = l1 ++ q e ++ l2 /\ queues (<[i := e']> t) = l1 ++ q e' ++ l2.
Proof.
  intros Hi. pose proof (take_drop_middle _ _ _ Hi) as Ht. assert (i < length t)%nat as Hlt by by eapply lookup_lt_Some.
  exists (queues (take i t)), (queues (drop (S i) t)). split.
  - rewrite <- Ht at 1. rewrite queues_app. done.
  - rewrite insert_take_drop by done. by rewrite queues_app.
Qed.

Section table.
Context `{OsLaws} {E : Type}.
Implicit Type s : net E.

Lemma entry_in s i e : 0 <= i -> arp_table s !! Z.to_nat i = Some e -> entry_at s i = Ok e.
Proof. intros Hi He. unfold entry_at. rewrite (proj2 (Z.leb_le _ _)) by done. by rewrite He. Qed.
Lemma entry_exists s i : table_ok (arp_table s) -> 0 <= i < ARP_TABLE_SIZE ->
  exists e, arp_table s !! Z.to_nat i = Some e /\ entry_at s i = Ok e /\ entry_ok e.
Proof.
  intros [Hs HF _] Hi. unfold ARP_TABLE_SIZE in Hi. destruct (lookup_lt_is_Some_2 (arp_table s) (Z.to_nat i)) as [e He]; [lia|].
  exists e. split; [done|]. split; [apply entry_in; [lia|done]|]. by eapply Forall_lookup_1.
Qed.

(** An entry is replaced by one that is well-formed, whose queue is part of
    the old one, and that is not for a new address. *)
Definition narrows (e e' : etharp_entry) : Prop :=
  entry_ok e' /\ q e' `sublist_of` q e /\ (is_empty e' = false -> is_empty e = false /\ ipaddr e' = ipaddr e).

Lemma put_table_ok t i e e' : table_ok t -> t !! i = Some e -> narrows e e' -> table_ok (<[i := e']> t).
Proof.
  intros [Hs HF Hu] Hi (Hok & _ & Hip). split; [by rewrite length_insert|by apply Forall_insert|].
  intros j k f g Hj Hk Ef Eg Heq.
  assert (forall j f, <[i := e']> t !! j = Some f -> is_empty f = false ->
    exists f', t !! j = Some f' /\ is_empty f' = false /\ ipaddr f' = ipaddr f) as Hback.
  { intros j' f' Hj' Hf'. destruct (decide (j' = i)) as [->|Hne].
    - rewrite list_lookup_insert_eq in Hj' by by eapply lookup_lt_Some. injection Hj' as <-.
      exists e. destruct (Hip Hf') as [? ?]. done.
    - rewrite list_lookup_insert_ne in Hj' by done. by exists f'. }
  destruct (Hback j f Hj Ef) as (f' & ? & ? & ?), (Hback k g Hk Eg) as (g' & ? & ? & ?).
  eapply Hu; try done. congruence.
Qed.

(** The entry is replaced, and what [l] names is freed from its queue. *)
Lemma put_mem_ok s i e e' m' l : arp_ok s -> arp_table s !! Z.to_nat i = Some e -> narrows e e' ->
  untouched (mem s) m' l -> (forall p, In p l -> In p (q e) /\ ~ In p (q e')) ->
  arp_ok (put_entry (set_mem s m') i e').
Proof.
  intros [Ht Hh Hnd HF Hbk] Hi Hn Hu Hl. pose proof Hn as (_ & Hsub & _).
  destruct (queues_insert _ _ _ e' Hi) as (l1 & l2 & E1 & E2).
  assert (queues (<[Z.to_nat i := e']> (arp_table s)) `sublist_of` queues (arp_table s)) as Hs.
  { rewrite E1, E2. apply sublist_app; [done|]. by apply sublist_app. }
  split; cbn; [by eapply put_table_ok|done|by eapply sublist_NoDup| |by apply Hu].
  rewrite Forall_forall in HF |- *. intros a Ha. eapply held_untouched; [exact Hu| |apply HF; by eapply elem_of_sublist].
  intros Hin. destruct (Hl a Hin) as [Hq Hnq]. rewrite E1 in Hnd. change (a ∈ queues (<[Z.to_nat i:=e']> (arp_table s))) in Ha. rewrite E2 in Ha.
  apply NoDup_app in Hnd as (_ & Hd1 & Hnd). apply NoDup_app in Hnd as (_ & Hd2 & _).
  rewrite <- list_elem_of_In in Hq, Hnq. rewrite !elem_of_app in Ha. destruct Ha as [Ha|[Ha|Ha]]; [|done|].
  - apply (Hd1 _ Ha), elem_of_app. by left.
  - by apply (Hd2 a Hq).
Qed.

Lemma set_mem_same s : set_mem s (mem s) = s.
Proof. by destruct s. Qed.

Lemma put_arp_ok s i e e' : arp_ok s -> arp_table s !! Z.to_nat i = Some e -> narrows e e' ->
  arp_ok (put_entry s i e').
Proof.
  intros Hs Hi Hn. rewrite <- (set_mem_same s).
  apply (put_mem_ok s i e e' (mem s) []); [done..|apply untouched_refl|by intros p []].
Qed.

Definition freed (e : etharp_entry) : etharp_entry := set_state (set_q e []) ETHARP_STATE_EMPTY.

Lemma queue_waiting s i e : arp_ok s -> arp_table s !! i = Some e -> NoDup (q e) /\ Forall (waiting (mem s)) (q e).
Proof.
  intros [_ _ Hnd HF _] Hi. destruct (queues_insert _ _ _ e Hi) as (l1 & l2 & E1 & _). rewrite E1 in Hnd, HF.
  apply NoDup_app in Hnd as (_ & _ & Hnd). apply NoDup_app in Hnd as (Hnd & _ & _).
  apply Forall_app in HF as [_ HF]. by apply Forall_app in HF as [HF _].
Qed.

Lemma put_same_entry s i e : arp_table s !! Z.to_nat i = Some e -> put_entry s i e = s.
Proof. intros He. unfold put_entry, set_table. rewrite list_insert_id by done. by destruct s. Qed.
Lemma put_put_entry s i e e' : put_entry (put_entry s i e) i e' = put_entry s i e'.
Proof. unfold put_entry, set_table. cbn. by rewrite list_insert_insert_eq. Qed.
Lemma put_at s i e : 0 <= i < zlen (arp_table s) -> entry_at (put_entry s i e) i = Ok e.
Proof. intros Hi. apply entry_in; [lia|]. cbn. apply list_lookup_insert_eq. unfold zlen in Hi. lia. Qed.
Lemma table_zlen s : table_ok (arp_table s) -> zlen (arp_table s) = ARP_TABLE_SIZE.
Proof. intros [Hs _ _]. unfold zlen. by rewrite Hs. Qed.
Lemma entry_range s i e : 0 <= i -> arp_table s !! Z.to_nat i = Some e -> 0 <= i < zlen (arp_table s).
Proof. intros Hi ?%lookup_lt_Some. unfold zlen. lia. Qed.

(** [free_entry] of an entry with the queue it had. *)
Lemma free_entry_put s i e e1 : arp_ok s -> 0 <= i -> arp_table s !! Z.to_nat i = Some e ->
  q e1 = q e -> 0 <= ctime e1 -> netif e1 = 0 ->
  exists m', free_entry (put_entry s i e1) i = Ok (put_entry (set_mem s m') i (freed e1)) /\
    arp_ok (put_entry (set_mem s m') i (freed e1)) /\ untouched (mem s) m' (q e).
Proof.
  intros Hs Hi He Hq Hc Hn. destruct (queue_waiting s _ e Hs He) as [Hnd HF]. pose proof Hs as [Ht _ _ _ Hbk].
  destruct (free_queue (q e) (mem s) Hnd HF Hbk) as (m' & E1 & Hu).
  exists m'. unfold free_entry. rewrite put_at by by eapply entry_range. cbn [rbind].
  change (mem (put_entry s i e1)) with (mem s). rewrite Hq, E1. cbn [rbind]. split.
  { f_equal. apply (put_put_entry (set_mem s m')). }
  split; [|done]. eapply put_mem_ok; try done; [|intros p Hp; cbn; tauto].
  split; [by split|]. split; [apply sublist_nil_l|done].
Qed.
Lemma free_entry_ok s i e : arp_ok s -> 0 <= i -> arp_table s !! Z.to_nat i = Some e ->
  exists m', free_entry s i = Ok (put_entry (set_mem s m') i (freed e)) /\
    arp_ok (put_entry (set_mem s m') i (freed e)) /\ untouched (mem s) m' (q e).
Proof.
  intros Hs Hi He. assert (entry_ok e) as (Hc & Hn & _) by (eapply Forall_lookup_1; [apply Hs|done]).
  destruct (free_entry_put s i e e) as (m' & E1 & Hr); try done. rewrite (put_same_entry s i e He) in E1. by exists m'.
Qed.

(** ** Ageing *)

(** An entry after one call of [etharp_tmr]. *)
Definition aged (e : etharp_entry) : etharp_entry :=
  match state e with
  | ETHARP_STATE_EMPTY => e
  | ETHARP_STATE_PENDING =>
      if ARP_MAXPENDING <=? ctime e + 1 then freed (set_ctime e (ctime e + 1)) else set_ctime e (ctime e + 1)
  | ETHARP_STATE_STABLE =>
      if ARP_MAXAGE <=? ctime e + 1 then freed (set_ctime e (ctime e + 1)) else set_ctime e (ctime e + 1)
  end.

Lemma age_entry_ok s i e : arp_ok s -> 0 <= i -> arp_table s !! Z.to_nat i = Some e ->
  exists m', age_entry s i = Ok (put_entry (set_mem s m') i (aged e)) /\
    arp_ok (put_entry (set_mem s m') i (aged e)) /\ untouched (mem s) m' (q e).
Proof.
  intros Hs Hi He. pose proof Hs as [Ht _ _ _ _].
  assert (entry_ok e) as Hok by (eapply Forall_lookup_1; [apply Ht|done]). pose proof Hok as (Hc & Hn & Hst).
  unfold age_entry, is_empty. rewrite (entry_in s i e) by done. cbn [rbind].
  case_bool_decide as Hemp.
  { exists (mem s). rewrite set_mem_same. unfold aged. rewrite Hemp, (put_same_entry s i e He).
    split; [done|]. split; [done|apply untouched_refl]. }
  assert (ctime e < 240) as Hlt by (destruct (state e); unfold ARP_MAXPENDING, ARP_MAXAGE in *; try done; lia).
  rewrite u8_small by (unfold is_byte; lia). set (e1 := set_ctime e (ctime e + 1)).
  change (ctime e1) with (ctime e + 1). change (state e1) with (state e).
  assert (aged e = if (ARP_MAXAGE <=? ctime e + 1) ||
    (bool_decide (state e = ETHARP_STATE_PENDING) && (ARP_MAXPENDING <=? ctime e + 1)) then freed e1 else e1) as Ha.
  { unfold aged. destruct (state e) eqn:Est; [done| |].
    - rewrite bool_decide_eq_true_2 by done. cbn [andb]. destruct (ARP_MAXPENDING <=? ctime e + 1) eqn:Ep.
      + by rewrite orb_true_r.
      + rewrite orb_false_r. apply Z.leb_gt in Ep. rewrite (proj2 (Z.leb_gt _ _)); [done|].
        unfold ARP_MAXPENDING, ARP_MAXAGE in *. lia.
    - rewrite bool_decide_eq_false_2 by done. by rewrite orb_false_r. }
  rewrite Ha. destruct (_ || _) eqn:Ex.
  - destruct (free_entry_put s i e e1) as (m' & E1 & Hr); try done; [cbn; lia|]. rewrite E1. by exists m'.
  - exists (mem s). rewrite set_mem_same. split; [done|]. split; [|apply untouched_refl].
    eapply put_arp_ok; [done|done|]. apply orb_false_iff in Ex as [E1 E2]. apply Z.leb_gt in E1.
    split; [|split; [done|by split]]. split; [cbn; lia|]. split; [done|]. cbn. destruct (state e); [done| |by destruct Hst as (? & _ & ?)].
    rewrite bool_decide_eq_true_2 in E2 by done. cbn [andb] in E2. by apply Z.leb_gt in E2.
Qed.

Lemma tmr_loop_ok n : forall s i, arp_ok s -> 0 <= i -> i + Z.of_nat n = ARP_TABLE_SIZE ->
  exists s', tmr_loop n s i = Ok s' /\ arp_ok s' /\ untouched (mem s) (mem s') (queues (drop (Z.to_nat i) (arp_table s))) /\
    arp_table s' = take (Z.to_nat i) (arp_table s) ++ map aged (drop (Z.to_nat i) (arp_table s)) /\
    etharp_cached_entry s' = etharp_cached_entry s /\ env s' = env s.
Proof.
  induction n as [|n IH]; intros s i Hs Hi Hn; cbn [tmr_loop].
  - exists s. split; [done|]. split; [done|]. split; [apply untouched_refl|]. split; [|done].
    pose proof (table_size _ (arp_table_ok _ Hs)) as Hlen. unfold ARP_TABLE_SIZE in Hn.
    rewrite drop_ge, firstn_all2 by lia. cbn. by rewrite app_nil_r.
  - destruct (entry_exists s i) as (e & He & _ & _); [apply Hs|lia|].
    destruct (age_entry_ok s i e Hs Hi He) as (m' & -> & Hs' & Hu). cbn [rbind].
    destruct (IH _ (i + 1) Hs') as (s2 & -> & Hs2 & Hu2 & Ht2 & Hh & Hev); [lia|lia|].
    exists s2. split; [done|]. split; [done|].
    cbn in Ht2, Hu2. replace (Z.to_nat (i + 1)) with (S (Z.to_nat i)) in * by lia.
    assert (Z.to_nat i < length (arp_table s))%nat as Hlt by by eapply lookup_lt_Some.
    rewrite drop_insert_lt in Hu2, Ht2 by lia. rewrite (drop_S _ e) by done. split; [|split; [|done]].
    + eapply untouched_trans; [eapply untouched_weaken; [|exact Hu]|eapply untouched_weaken; [|exact Hu2]];
        intros a Ha; cbn; apply in_app_iff; tauto.
    + rewrite Ht2. erewrite take_S_r by by apply list_lookup_insert_eq. rewrite take_insert_ge by lia.
      by rewrite <- app_assoc.
Qed.

Lemma tmr_ok s : arp_ok s ->
  exists s', etharp_tmr s = Ok s' /\ arp_ok s' /\ untouched (mem s) (mem s') (queues (arp_table s)) /\
    arp_table s' = map aged (arp_table s) /\ etharp_cached_entry s' = etharp_cached_entry s /\ env s' = env s.
Proof. intros Hs. by apply (tmr_loop_ok 10 s 0 Hs). Qed.

(** How many calls of [etharp_tmr] an entry outlives. *)
Definition life (e : etharp_entry) : Z :=
  match state e with
  | ETHARP_STATE_EMPTY => 0
  | ETHARP_STATE_PENDING => ARP_MAXPENDING - ctime e
  | ETHARP_STATE_STABLE => ARP_MAXAGE - ctime e
  end.

Lemma aged_life n : forall e, entry_ok e ->
  state (Nat.iter n aged e) = if life e <=? Z.of_nat n then ETHARP_STATE_EMPTY else state e.
Proof.
  induction n as [|n IH]; intros e Hok.
  - cbn. pose proof Hok as (_ & _ & Hst). unfold life. destruct (state e); [done| |destruct Hst as (_ & Hst & _)];
      by rewrite (proj2 (Z.leb_gt _ _)) by lia.
  - rewrite Nat.iter_succ_r. assert (entry_ok (aged e)) as Hok'.
    { pose proof Hok as (Hc & Hn & Hst). unfold aged. destruct (state e) eqn:Est; [done| |].
      - destruct (Z.leb_spec ARP_MAXPENDING (ctime e + 1)); split; cbn; rewrite ?Est; try lia; by split.
      - destruct Hst as (? & ? & ?). destruct (Z.leb_spec ARP_MAXAGE (ctime e + 1)); split; cbn; rewrite ?Est; try lia; by split. }
    rewrite IH by done. pose proof Hok as (Hc & _ & Hst). clear IH Hok Hok'.
    assert (life (aged e) = Z.max 0 (life e - 1) /\ (1 < life e -> state (aged e) = state e) /\
            (life e <= 1 -> state (aged e) = ETHARP_STATE_EMPTY)) as (E1 & E2 & E3).
    { unfold life, aged, freed. destruct (state e) eqn:Est.
      - rewrite Est. repeat split; lia || done.
      - destruct (Z.leb_spec ARP_MAXPENDING (ctime e + 1)); cbn; rewrite ?Est; repeat split; lia || done.
      - destruct Hst as (? & ? & ?). destruct (Z.leb_spec ARP_MAXAGE (ctime e + 1)); cbn; rewrite ?Est; repeat split; lia || done. }
    rewrite E1. destruct (Z.le_gt_cases (life e) 1).
    + rewrite E3 by done. rewrite (proj2 (Z.leb_le (life e) _)) by lia. by destruct (_ <=? Z.of_nat n).
    + rewrite E2 by lia. assert ((Z.max 0 (life e - 1) <=? Z.of_nat n) = (life e <=? Z.of_nat (S n))) as ->; [|done].
      destruct (Z.leb_spec (life e) (Z.of_nat (S n))); [apply Z.leb_le|apply Z.leb_gt]; lia.
Qed.

(** [n] calls of [etharp_tmr]. *)
Fixpoint ticks (n : nat) s : result (net E) :=
  match n with O => Ok s | S n => let! s := etharp_tmr s in ticks n s end.

Lemma ticks_ok n : forall s, arp_ok s ->
  exists s', ticks n s = Ok s' /\ arp_ok s' /\ arp_table s' = Nat.iter n (map aged) (arp_table s).
Proof.
  induction n as [|n IH]; intros s Hs; cbn [ticks]; [by exists s|].
  destruct (tmr_ok s Hs) as (s1 & -> & Hs1 & _ & Ht & _). cbn [rbind].
  destruct (IH s1 Hs1) as (s2 & -> & Hs2 & Ht2). exists s2. split; [done|]. split; [done|].
  by rewrite Ht2, Ht, Nat.iter_succ_r.
Qed.

Lemma aged_entry n : forall i e (t : list etharp_entry), t !! i = Some e ->
  Nat.iter n (map aged) t !! i = Some (Nat.iter n aged e).
Proof.
  induction n as [|n IH]; intros i e t He; [done|]. rewrite !Nat.iter_succ_r. apply IH.
  by rewrite list_lookup_fmap, He.
Qed.

(** C40: ageing.  [etharp_tmr] never faults and keeps the invariant of the table and of the queues; an entry that nothing renews is dropped, with the packets waiting on it, by exactly the call its state and age leave it: a pending one by the second at the latest, a stable one by the 240th. *)
Theorem etharp_entries_expire n s : arp_ok s ->
  exists s', ticks n s = Ok s' /\ arp_ok s' /\
    forall i e, arp_table s !! i = Some e -> exists e', arp_table s' !! i = Some e' /\
      state e' = (if life e <=? Z.of_nat n then ETHARP_STATE_EMPTY else state e) /\
      (state e' = ETHARP_STATE_EMPTY -> q e' = []) /\
      life e <= match state e with ETHARP_STATE_PENDING => 2 | _ => 240 end.
Proof.
  intros Hs. destruct (ticks_ok n s Hs) as (s' & E1 & Hs' & Ht). exists s'. split; [done|]. split; [done|].
  intros i e He. assert (entry_ok e) as Hok by (eapply Forall_lookup_1; [apply Hs|done]).
  pose proof (aged_entry n i e (arp_table s) He) as Hi.
  rewrite Ht. eexists. split; [exact Hi|]. rewrite aged_life by done. split; [done|]. split.
  - intros Hemp. rewrite <- Ht in Hi. assert (entry_ok (Nat.iter n aged e)) as (_ & _ & Hst)
      by (eapply Forall_lookup_1; [apply Hs'|done]). rewrite <- aged_life in Hemp by done. by rewrite Hemp in Hst.
  - pose proof Hok as (Hc & _ & _). unfold life, ARP_MAXPENDING, ARP_MAXAGE. destruct (state e); lia.
Qed.

(** ** The search for an entry *)

Definition stable (e : etharp_entry) : Prop := state e = ETHARP_STATE_STABLE.
Definition idle (e : etharp_entry) : Prop := state e = ETHARP_STATE_PENDING /\ q e = [].
Definition busy (e : etharp_entry) : Prop := state e = ETHARP_STATE_PENDING /\ q e <> [].

(** [slot] is the last of the oldest entries of [l] with [P], and [age] its age;
    [ARP_TABLE_SIZE] and 0 when there is none. *)
Definition oldest (P : etharp_entry -> Prop) (l : list etharp_entry) (slot age : Z) : Prop :=
  (slot = ARP_TABLE_SIZE /\ age = 0 /\ forall j f, l !! j = Some f -> ~ P f) \/
  (exists i e, slot = Z.of_nat i /\ l !! i = Some e /\ P e /\ age = ctime e /\
     forall j f, l !! j = Some f -> P f -> ctime f < age \/ ctime f = age /\ (j <= i)%nat).

(** [slot] is the first empty entry of [l]. *)
Definition first_free (l : list etharp_entry) (slot : Z) : Prop :=
  (slot = ARP_TABLE_SIZE /\ forall j f, l !! j = Some f -> is_empty f = false) \/
  (exists i e, slot = Z.of_nat i /\ l !! i = Some e /\ is_empty e = true /\
     forall j f, l !! j = Some f -> is_empty f = true -> (i <= j)%nat).

Lemma lookup_snoc (l : list etharp_entry) e j f : (l ++ [e]) !! j = Some f ->
  l !! j = Some f \/ j = length l /\ f = e.
Proof.
  intros [Hj|[Hj Hf]]%lookup_app_Some; [by left|]. right. destruct (j - length l)%nat eqn:Ej; [|done].
  injection Hf as <-. split; [lia|done].
Qed.

Lemma oldest_keep P l e slot age : ~ P e -> oldest P l slot age -> oldest P (l ++ [e]) slot age.
Proof.
  intros Hp [(-> & -> & Hn)|(i & f & -> & Hi & Hf & -> & Ho)]; [left|right].
  - do 2 (split; [done|]). intros j f [Hj|[_ ->]]%lookup_snoc; eauto.
  - exists i, f. split; [done|]. split; [by apply lookup_app_l_Some|]. do 2 (split; [done|]).
    intros j g [Hj|[_ ->]]%lookup_snoc Hg; [by apply Ho|done].
Qed.
Lemma oldest_next P l e slot age : P e -> 0 <= ctime e -> oldest P l slot age ->
  oldest P (l ++ [e]) (if age <=? ctime e then zlen l else slot) (if age <=? ctime e then ctime e else age).
Proof.
  intros Hp Hc Ho. right. destruct (Z.leb_spec age (ctime e)) as [Hle|Hgt].
  - exists (length l), e. split; [done|]. split; [by apply list_lookup_middle|]. do 2 (split; [done|]).
    intros j f [Hj|[-> ->]]%lookup_snoc Hf; [|right; lia]. apply lookup_lt_Some in Hj as Hlt.
    destruct Ho as [(_ & _ & Hn)|(i & g & _ & _ & _ & Ea & Ho)]; [by destruct (Hn j f Hj)|].
    destruct (Ho j f Hj Hf); lia.
  - destruct Ho as [(_ & -> & _)|(i & f & -> & Hi & Hf & -> & Ho)]; [lia|]. exists i, f. split; [done|].
    split; [by apply lookup_app_l_Some|]. do 2 (split; [done|]).
    intros j g [Hj|[_ ->]]%lookup_snoc Hg; [by apply Ho|left; lia].
Qed.

Record candidates_ok (l : list etharp_entry) (c : candidates) : Prop := {
  cand_empty : first_free l (first_empty c);
  cand_stable : oldest stable l (old_stable c) (age_stable c);
  cand_pending : oldest idle l (old_pending c) (age_pending c);
  cand_queue : oldest busy l (old_queue c) (age_queue c)
}.

Lemma no_candidates_ok : candidates_ok [] no_candidates.
Proof. split; left; cbn; by repeat split. Qed.

Lemma first_free_keep l e slot : is_empty e = false -> first_free l slot -> first_free (l ++ [e]) slot.
Proof.
  intros He [[-> Hn]|(i & f & -> & Hi & Hf & Ho)]; [left|right].
  - split; [done|]. intros j f [Hj|[_ ->]]%lookup_snoc; eauto.
  - exists i, f. split; [done|]. split; [by apply lookup_app_l_Some|]. split; [done|].
    intros j g [Hj|[_ ->]]%lookup_snoc Hg; [by eapply Ho|congruence].
Qed.

Lemma consider_ok l e c : is_empty e = false -> 0 <= ctime e -> candidates_ok l c ->
  candidates_ok (l ++ [e]) (consider (zlen l) e c).
Proof.
  intros He Hc [H1 H2 H3 H4]. unfold consider, is_empty in *. apply bool_decide_eq_false in He.
  assert (first_free (l ++ [e]) (first_empty c)) as F1
    by (apply first_free_keep; [by apply bool_decide_eq_false_2|done]).
  assert (forall P slot age, ~ P e -> oldest P l slot age -> oldest P (l ++ [e]) slot age) as K by by intros; apply oldest_keep.
  pose proof (fun P slot age Hp Ho => oldest_next P l e slot age Hp Hc Ho) as N. unfold stable, idle, busy in *.
  destruct (state e) eqn:Est; [done| |].
  - destruct (q e) as [|p ps] eqn:Eq.
    + specialize (N _ _ _ (conj Est Eq) H3). destruct (age_pending c <=? ctime e);
        split; cbn; try done; apply K; try done; unfold stable, busy; rewrite Est, ?Eq; try done; by intros [].
    + assert (q e <> []) as Hq by by rewrite Eq.
      specialize (N _ _ _ (conj Est Hq) H4). destruct (age_queue c <=? ctime e);
        split; cbn; try done; apply K; try done; unfold stable, idle; rewrite Est, ?Eq; try done; by intros [].
  - specialize (N _ _ _ Est H2). destruct (age_stable c <=? ctime e);
      split; cbn; try done; apply K; try done; unfold idle, busy; rewrite Est; by intros [].
Qed.

Lemma empty_ok l e c : is_empty e = true -> candidates_ok l c -> zlen l < ARP_TABLE_SIZE ->
  candidates_ok (l ++ [e]) (if first_empty c =? ARP_TABLE_SIZE
    then Candidates (zlen l) (old_pending c) (old_stable c) (old_queue c) (age_pending c) (age_stable c) (age_queue c)
    else c).
Proof.
  intros He [H1 H2 H3 H4] Hl.
  assert (state e = ETHARP_STATE_EMPTY) as Est by by eapply bool_decide_eq_true.
  assert (~ stable e /\ ~ idle e /\ ~ busy e) as (N1 & N2 & N3)
    by (unfold stable, idle, busy; rewrite Est; split; [done|split; by intros []]).
  destruct (Z.eqb_spec (first_empty c) ARP_TABLE_SIZE) as [E1|E1];
    split; try (by apply oldest_keep); cbn; right.
  - exists (length l), e. split; [done|]. split; [by apply list_lookup_middle|]. split; [done|].
    intros j f [Hj|[-> _]]%lookup_snoc Hf; [|lia]. destruct H1 as [[_ Hn]|(i & g & Ei & Hi & _)].
    + rewrite (Hn j f Hj) in Hf. done.
    + apply lookup_lt_Some in Hi. unfold zlen in Hl. lia.
  - destruct H1 as [[? _]|(i & f & Ei & Hi & Hf & Ho)]; [done|]. exists i, f. split; [done|].
    split; [by apply lookup_app_l_Some|]. split; [done|].
    intros j g [Hj|[-> ->]]%lookup_snoc Hg; [by eapply Ho|]. apply lookup_lt_Some in Hi. lia.
Qed.

Definition matches (ip : Z) (e : etharp_entry) : Prop := is_empty e = false /\ ipaddr e = ip.

Lemma scan_ok ip l : forall pre c, Forall (fun e => 0 <= ctime e) l -> zlen (pre ++ l) = ARP_TABLE_SIZE ->
  candidates_ok pre c -> (forall e, e ∈ pre -> ~ matches ip e) ->
  match scan ip l (zlen pre) c with
  | inl i => 0 <= i /\ exists e, (pre ++ l) !! Z.to_nat i = Some e /\ matches ip e
  | inr c => candidates_ok (pre ++ l) c /\ forall e, e ∈ pre ++ l -> ~ matches ip e
  end.
Proof.
  induction l as [|e l IH]; intros pre c HF Hlen Hc Hno; cbn [scan]; [by rewrite app_nil_r|].
  apply Forall_cons in HF as [He HF]. specialize (IH (pre ++ [e])). rewrite <- !app_assoc in IH.
  assert (zlen (pre ++ [e]) = zlen pre + 1) as Hz by by rewrite zlen_app.
  assert (zlen pre < ARP_TABLE_SIZE) as Hlt.
  { rewrite <- Hlen, zlen_app. unfold zlen. cbn [length]. lia. }
  rewrite Hz in IH. cbn [app] in IH.
  assert (is_empty e = true \/ ipaddr e <> ip -> forall f, f ∈ pre ++ [e] -> ~ matches ip f) as Hno'.
  { intros Hne f [Hf|Hf%list_elem_of_singleton]%elem_of_app; [by apply Hno|subst f].
    unfold matches. destruct Hne as [->|?]; [by intros []|by intros [_ ?]]. }
  destruct (is_empty e) eqn:Ee.
  - rewrite andb_true_r. pose proof (empty_ok pre e c Ee Hc Hlt) as Hc'.
    destruct (first_empty c =? ARP_TABLE_SIZE); apply IH; auto.
  - rewrite andb_false_r. destruct (Z.eqb_spec ip (ipaddr e)) as [->|Hne].
    + split; [apply zlen_nonneg|]. exists e. split; [|by split]. unfold zlen. rewrite Nat2Z.id. by apply list_lookup_middle.
    + apply IH; [done..|by apply consider_ok|auto].
Qed.

(** The order in which entries are given up. *)
Definition rank (e : etharp_entry) : Z :=
  match state e, q e with
  | ETHARP_STATE_EMPTY, _ => 0
  | ETHARP_STATE_STABLE, _ => 1
  | ETHARP_STATE_PENDING, [] => 2
  | ETHARP_STATE_PENDING, _ => 3
  end.

(** Entry [i] of [t] is the one to take: of the least rank; the first of the
    empty ones, the last of the oldest of the others. *)
Definition chosen (t : list etharp_entry) (i : nat) (e : etharp_entry) : Prop :=
  t !! i = Some e /\ forall j f, t !! j = Some f -> j <> i -> rank e < rank f \/ rank e = rank f /\
    if is_empty e then (i < j)%nat else ctime f < ctime e \/ ctime f = ctime e /\ (j < i)%nat.

Definition wants (flags bit : Z) : bool := negb (Z.land flags bit =? 0).

Lemma rank_cases e : (is_empty e = true /\ rank e = 0) \/ (stable e /\ is_empty e = false /\ rank e = 1) \/
  (idle e /\ is_empty e = false /\ rank e = 2) \/ (busy e /\ is_empty e = false /\ rank e = 3).
Proof. unfold stable, idle, busy, is_empty, rank. destruct (state e), (q e); cbn; naive_solver. Qed.

(** The last of the oldest entries with [P], the least class there is. *)
Lemma oldest_chosen P t slot age r : oldest P t slot age -> slot <> ARP_TABLE_SIZE ->
  (forall e, P e -> rank e = r /\ is_empty e = false) ->
  (forall j f, t !! j = Some f -> P f \/ r < rank f) ->
  exists i e, slot = Z.of_nat i /\ is_empty e = false /\ chosen t i e.
Proof.
  intros [[? _]|(i & e & -> & Hi & He & -> & Ho)] Hs Hr Hc; [done|].
  destruct (Hr e He) as [Er Ee]. exists i, e. split; [done|]. split; [done|]. split; [done|].
  intros j f Hj Hne. destruct (Hc j f Hj) as [Hf|?]; [|left; lia]. right. destruct (Hr f Hf) as [-> _].
  rewrite Er, Ee. split; [done|]. destruct (Ho j f Hj Hf) as [?|[? ?]]; [by left|right; lia].
Qed.

Lemma slot_lt l c : zlen l = ARP_TABLE_SIZE -> candidates_ok l c ->
  first_empty c <= ARP_TABLE_SIZE /\ old_stable c <= ARP_TABLE_SIZE /\ old_pending c <= ARP_TABLE_SIZE /\
  old_queue c <= ARP_TABLE_SIZE.
Proof.
  intros Hl [H1 H2 H3 H4]. unfold zlen in Hl.
  assert (forall P slot age, oldest P l slot age -> slot <= ARP_TABLE_SIZE) as Hle.
  { intros P slot age [[-> _]|(i & e & -> & Hi%lookup_lt_Some & _)]; lia. }
  split; [destruct H1 as [[-> _]|(i & e & -> & Hi%lookup_lt_Some & _)]; lia|].
  split; [by eapply Hle|]. split; by eapply Hle.
Qed.

Lemma none_left P l slot age : zlen l = ARP_TABLE_SIZE -> oldest P l slot age -> ARP_TABLE_SIZE <= slot ->
  forall j f, l !! j = Some f -> ~ P f.
Proof.
  unfold zlen. intros Hl [(_ & _ & Hn)|(i & e & -> & Hi%lookup_lt_Some & _)] Hs; [done|lia].
Qed.

Lemma class_rank e : (stable e -> rank e = 1 /\ is_empty e = false) /\ (idle e -> rank e = 2 /\ is_empty e = false) /\
  (busy e -> rank e = 3 /\ is_empty e = false).
Proof. unfold stable, idle, busy, is_empty, rank. destruct (state e), (q e); cbn; intuition congruence. Qed.

(** When no entry is empty, the three candidates are tried in their order. *)
Lemma recycle_ok l c : zlen l = ARP_TABLE_SIZE -> candidates_ok l c ->
  (forall j f, l !! j = Some f -> is_empty f = false) ->
  exists i e, is_empty e = false /\ chosen l i e /\
    (if old_stable c <? ARP_TABLE_SIZE then Some (old_stable c, true)
     else if old_pending c <? ARP_TABLE_SIZE then Some (old_pending c, true)
     else if old_queue c <? ARP_TABLE_SIZE then Some (old_queue c, true) else None) = Some (Z.of_nat i, true).
Proof.
  intros Hl [H1 H2 H3 H4] Hne.
  assert (forall j f, l !! j = Some f -> stable f \/ 1 < rank f) as C1.
  { intros j f Hj. pose proof (Hne j f Hj). destruct (rank_cases f) as [[? _]|[[? _]|[(_ & _ & ->)|(_ & _ & ->)]]];
      [congruence|by left|right; lia|right; lia]. }
  destruct (Z.ltb_spec (old_stable c) ARP_TABLE_SIZE) as [?|G2].
  { destruct (oldest_chosen _ _ _ _ 1 H2) as (i & e & -> & ? & ?); [lia|apply class_rank|done|]. by exists i, e. }
  pose proof (none_left _ _ _ _ Hl H2 G2) as N2.
  assert (forall j f, l !! j = Some f -> idle f \/ 2 < rank f) as C2.
  { intros j f Hj. destruct (C1 j f Hj) as [?|?]; [by destruct (N2 j f Hj)|].
    destruct (rank_cases f) as [[_ ?]|[(_ & _ & ?)|[(? & _)|(_ & _ & ->)]]]; [lia|lia|by left|right; lia]. }
  destruct (Z.ltb_spec (old_pending c) ARP_TABLE_SIZE) as [?|G3].
  { destruct (oldest_chosen _ _ _ _ 2 H3) as (i & e & -> & ? & ?); [lia|apply class_rank|done|]. by exists i, e. }
  pose proof (none_left _ _ _ _ Hl H3 G3) as N3.
  assert (forall j f, l !! j = Some f -> busy f \/ 3 < rank f) as C3.
  { intros j f Hj. destruct (C2 j f Hj) as [?|?]; [by destruct (N3 j f Hj)|].
    destruct (rank_cases f) as [[_ ?]|[(_ & _ & ?)|[(_ & _ & ?)|(? & _)]]]; [lia..|by left]. }
  destruct (Z.ltb_spec (old_queue c) ARP_TABLE_SIZE) as [?|G4].
  { destruct (oldest_chosen _ _ _ _ 3 H4) as (i & e & -> & ? & ?); [lia|apply class_rank|done|]. by exists i, e. }
  pose proof (none_left _ _ _ _ Hl H4 G4) as N4.
  destruct (lookup_lt_is_Some_2 l 0) as [f Hf]; [unfold zlen, ARP_TABLE_SIZE in Hl; lia|].
  destruct (C3 0%nat f Hf) as [?|?]; [by destruct (N4 0%nat f)|].
  destruct (rank_cases f) as [[_ ?]|[(_ & _ & ?)|[(_ & _ & ?)|(_ & _ & ?)]]]; lia.
Qed.

Lemma select_ok l c flags : zlen l = ARP_TABLE_SIZE -> candidates_ok l c ->
  match select c flags with
  | Some (i, occupied) => wants flags ETHARP_FLAG_FIND_ONLY = false /\
      exists n e, i = Z.of_nat n /\ occupied = negb (is_empty e) /\ chosen l n e /\
        (is_empty e = false -> wants flags ETHARP_FLAG_TRY_HARD = true)
  | None => wants flags ETHARP_FLAG_FIND_ONLY = true \/
      wants flags ETHARP_FLAG_TRY_HARD = false /\ forall j f, l !! j = Some f -> is_empty f = false
  end.
Proof.
  intros Hl Hc. destruct (slot_lt l c Hl Hc) as (B1 & _). pose proof Hc as [H1 _ _ _].
  unfold select, wants. destruct (Z.land flags ETHARP_FLAG_FIND_ONLY =? 0); cbn [negb orb]; [|by left].
  destruct (Z.eqb_spec (first_empty c) ARP_TABLE_SIZE) as [E1|E1]; cbn [andb].
  - assert (forall j f, l !! j = Some f -> is_empty f = false) as Hne.
    { destruct H1 as [[_ Hn]|(i & e & Ei & Hi%lookup_lt_Some & _)]; [done|]. unfold zlen in Hl. lia. }
    destruct (Z.land flags ETHARP_FLAG_TRY_HARD =? 0) eqn:Eh; cbn [andb]; [by right|].
    rewrite E1, Z.ltb_irrefl. destruct (recycle_ok l c Hl Hc Hne) as (i & e & Ee & Hch & ->).
    split; [done|]. exists i, e. by rewrite Ee.
  - rewrite (proj2 (Z.ltb_lt _ _)) by lia. split; [done|].
    destruct H1 as [[? _]|(i & e & -> & Hi & He & Ho)]; [done|]. exists i, e. split; [done|]. rewrite He. split; [done|].
    split; [|done]. split; [done|]. intros j f Hj Hji. rewrite He.
    assert (rank e = 0) as -> by (unfold rank, is_empty in *; by apply bool_decide_eq_true in He as ->).
    destruct (rank_cases f) as [[Hf ->]|[(_ & _ & ->)|[(_ & _ & ->)|(_ & _ & ->)]]]; [|left; lia..].
    right. split; [done|]. pose proof (Ho j f Hj Hf). lia.
Qed.

Definition claimed (e : etharp_entry) (ip : Z) : etharp_entry := EtharpEntry [] ip (ethaddr e) (netif e) ETHARP_STATE_EMPTY 0.

Lemma narrows_claimed e ip : netif e = 0 -> narrows e (claimed e ip).
Proof. intros Hn. split; [by split|]. split; [apply sublist_nil_l|done]. Qed.

Lemma claimed_ok s n e ip (occupied : bool) : arp_ok s -> arp_table s !! n = Some e ->
  occupied = negb (is_empty e) ->
  exists m', (let! s := (if occupied then free_entry s (Z.of_nat n) else Ok s) in
              let! e := entry_at s (Z.of_nat n) in
              Ok (Z.of_nat n, put_entry s (Z.of_nat n) (set_ctime (set_ipaddr e ip) 0))) =
    Ok (Z.of_nat n, put_entry (set_mem s m') (Z.of_nat n) (claimed e ip)) /\
    arp_ok (put_entry (set_mem s m') (Z.of_nat n) (claimed e ip)) /\ untouched (mem s) m' (q e).
Proof.
  intros Hs He ->. assert (entry_ok e) as (Hc & Hn & Hst) by (eapply Forall_lookup_1; [apply Hs|done]).
  assert (arp_table s !! Z.to_nat (Z.of_nat n) = Some e) as He' by by rewrite Nat2Z.id.
  destruct (is_empty e) eqn:Ee; cbn [negb].
  - exists (mem s). cbn [rbind]. rewrite (entry_in s (Z.of_nat n) e) by (done || lia). cbn [rbind]. rewrite set_mem_same.
    assert (set_ctime (set_ipaddr e ip) 0 = claimed e ip) as ->.
    { apply bool_decide_eq_true in Ee. rewrite Ee in Hst. destruct e; cbn in *. by subst. }
    split; [done|]. split; [|apply untouched_refl]. by eapply put_arp_ok, narrows_claimed.
  - destruct (free_entry_ok s (Z.of_nat n) e) as (m' & -> & Hs' & Hu); [done|lia|done|]. cbn [rbind].
    rewrite put_at by (change (arp_table (set_mem s m')) with (arp_table s); eapply entry_range; [lia|done]).
    cbn [rbind]. rewrite put_put_entry. exists m'. split; [done|]. split; [|done].
    eapply put_mem_ok; [done..| |done|intros p Hp; split; [done|by intros []]]. by apply narrows_claimed.
Qed.

(** The four ways [find_entry] ends. *)
Lemma find_entry_ok s ip flags : arp_ok s ->
  exists i s', find_entry s ip flags = Ok (i, s') /\ arp_ok s' /\
   ((exists n e, i = Z.of_nat n /\ s' = s /\ arp_table s !! n = Some e /\ matches ip e) \/
    (forall n e, arp_table s !! n = Some e -> ~ matches ip e) /\
    (i = ERR_MEM /\ s' = s /\
       (wants flags ETHARP_FLAG_FIND_ONLY = true \/
        wants flags ETHARP_FLAG_TRY_HARD = false /\ forall n e, arp_table s !! n = Some e -> is_empty e = false) \/
     wants flags ETHARP_FLAG_FIND_ONLY = false /\
     exists n e m', i = Z.of_nat n /\ chosen (arp_table s) n e /\
       (is_empty e = false -> wants flags ETHARP_FLAG_TRY_HARD = true) /\
       s' = put_entry (set_mem s m') i (claimed e ip) /\ untouched (mem s) m' (q e))).
Proof.
  intros Hs. pose proof Hs as [Ht _ _ _ _].
  assert (Forall (fun e => 0 <= ctime e) (arp_table s)) as HF
    by (eapply Forall_impl; [apply Ht|by intros e (? & _)]).
  pose proof (scan_ok ip (arp_table s) [] no_candidates HF (table_zlen s Ht) no_candidates_ok) as Hsc.
  unfold find_entry. change (zlen []) with 0 in Hsc. cbn [app] in Hsc.
  destruct (scan ip (arp_table s) 0 no_candidates) as [i|c].
  { destruct Hsc as (Hi & e & He & Hm); [by intros e ?%elem_of_nil|].
    exists i, s. split; [done|]. split; [done|]. left. exists (Z.to_nat i), e. split; [lia|done]. }
  destruct Hsc as (Hc & Hno); [by intros e ?%elem_of_nil|].
  assert (forall n e, arp_table s !! n = Some e -> ~ matches ip e) as Hno'
    by (intros n e He; apply Hno; by eapply list_elem_of_lookup_2).
  pose proof (select_ok (arp_table s) c flags (table_zlen s Ht) Hc) as Hsel.
  destruct (select c flags) as [[i occupied]|].
  - destruct Hsel as (Hfo & n & e & -> & Hocc & Hch & Hth). destruct (claimed_ok s n e ip occupied Hs) as (m' & -> & Hs' & Hu);
      [apply Hch|done|]. eexists _, _. split; [done|]. split; [done|]. right. split; [done|]. right. split; [done|].
    exists n, e, m'. done.
  - exists ERR_MEM, s. split; [done|]. split; [done|]. right. split; [done|]. by left.
Qed.
End table.

(** ** Theorems *)

Section theorems.
Context `{OsLaws} {E : Type}.
Implicit Type s : net E.

(** No entry records its interface, so removing those of an interface removes
    none. *)
Lemma cleanup_loop_nothing nif n : forall s i, arp_ok s -> nif <> 0 -> 0 <= i -> i + Z.of_nat n = ARP_TABLE_SIZE ->
  cleanup_loop n s i nif = Ok s.
Proof.
  induction n as [|n IH]; intros s i Hs Hnif Hi Hn; cbn [cleanup_loop]; [done|].
  destruct (entry_exists s i) as (e & _ & -> & (_ & Hn0 & _)); [apply Hs|lia|]. cbn [rbind].
  rewrite Hn0, (proj2 (Z.eqb_neq 0 nif)), andb_false_r by done. cbn [rbind]. apply IH; try done; lia.
Qed.
Lemma etharp_cleanup_nothing s nif : arp_ok s -> nif <> 0 -> etharp_cleanup_netif s nif = Ok s.
Proof. intros Hs Hnif. by apply (cleanup_loop_nothing nif 10 s 0). Qed.

(** The search for an entry.  [find_entry] never faults and keeps the invariant.  It returns the entry there is for the address; without one it fails when it may only search, or when every entry is in use and it is not told to try hard; otherwise it claims the first empty entry, else the last of the oldest stable ones, then of the pending ones without packets, then of those with packets, which are freed.  After it, no other entry is for the address. *)
Theorem find_entry_spec s ip flags : arp_ok s ->
  exists i s', find_entry s ip flags = Ok (i, s') /\ arp_ok s' /\
    (wants flags ETHARP_FLAG_FIND_ONLY = true -> s' = s) /\
    (wants flags ETHARP_FLAG_FIND_ONLY = false -> wants flags ETHARP_FLAG_TRY_HARD = true -> 0 <= i) /\
    ((i = ERR_MEM /\ s' = s /\ forall n e, arp_table s !! n = Some e -> ~ matches ip e) \/
     exists n e', i = Z.of_nat n /\ arp_table s' !! n = Some e' /\ ipaddr e' = ip /\
       (forall j f, j <> n -> arp_table s' !! j = Some f -> arp_table s !! j = Some f /\ ~ matches ip f) /\
       (s' = s /\ matches ip e' \/
        is_empty e' = true /\ q e' = [] /\ ctime e' = 0 /\
        exists e, chosen (arp_table s) n e /\ untouched (mem s) (mem s') (q e) /\
          forall j f, arp_table s !! j = Some f -> ~ matches ip f)).
Proof.
  intros Hs. destruct (find_entry_ok s ip flags Hs) as (i & s' & E1 & Hs' & Hcase). exists i, s'. split; [done|]. split; [done|].
  destruct Hcase as [(n & e & -> & -> & Hn & Hm)|(Hno & [(-> & -> & Hwhy)|(Hfo & n & e & m & -> & Hch & Hth & -> & Hu)])].
  - split; [done|]. split; [lia|]. right. exists n, e. split; [done|]. split; [done|]. split; [apply Hm|].
    split; [|by left]. intros j f Hj Hf. split; [done|]. intros [Hne Hip]. apply Hj. destruct Hm as [Hme Hmi].
    eapply (table_unique _ (arp_table_ok _ Hs)); try done. congruence.
  - split; [done|]. split; [|left; done]. intros Hfo Hth. destruct Hwhy as [Hwhy|[Hwhy _]]; congruence.
  - split; [congruence|]. split; [lia|]. right. pose proof Hch as [Hn _].
    exists n, (claimed e ip). assert (n < length (arp_table s))%nat as Hlt by by eapply lookup_lt_Some.
    cbn. rewrite Nat2Z.id. split; [done|]. split; [by apply list_lookup_insert_eq|]. split; [done|].
    split; [|right; do 3 (split; [done|]); by exists e].
    intros j f Hj Hf. rewrite list_lookup_insert_ne in Hf by done. split; [done|]. by eapply Hno.
Qed.
End theorems.

(** A table with a stable entry about to expire, a pending one with a packet,
    and eight empty ones. *)
Definition mac_of (n : Z) : list Z := [2; 0; 0; 0; 0; n].
Definition one_waiting : store :=
  Store (list_to_map [(500, Pbuf 0 (500, 20) 44 44 PBUF_RAM 0 1)]) (list_to_map [(500, replicate 64 0)]).
Definition some_entries : list etharp_entry :=
  EtharpEntry [] 100 (mac_of 1) 0 ETHARP_STATE_STABLE 238 :: EtharpEntry [500] 200 ethzero 0 ETHARP_STATE_PENDING 0 ::
  replicate 8 (EtharpEntry [] 0 ethzero 0 ETHARP_STATE_EMPTY 0).
Definition some_net {E} (e : E) : net E := Net some_entries 0 one_waiting e.

Lemma one_waiting_backed : backed one_waiting.
Proof.
  intros a [c Hc]. unfold one_waiting in *. cbn [cells blocks] in *.
  destruct (decide (a = 500)) as [->|Hne]; [by eexists|]. cbn in Hc. by rewrite lookup_insert_ne in Hc.
Qed.
Lemma waiting_500 : waiting one_waiting 500.
Proof.
  split; [done|]. eexists. split; [reflexivity|]. do 2 (split; [done|]). split; [|done].
  split; [done|]. split; [done|]. split; [by apply (bool_decide_unpack _)|].
  intros _. eexists. split; [reflexivity|]. done.
Qed.
Lemma some_net_ok {E} (e : E) : arp_ok (some_net e).
Proof.
  split; [|done|by apply (bool_decide_unpack _)|apply Forall_singleton, waiting_500|apply one_waiting_backed].
  assert (mac (mac_of 1)) as Hm by (split; [done|by apply (bool_decide_unpack _)]).
  split; [done| |].
  - repeat (apply Forall_cons_2; [done|]). apply Forall_nil_2.
  - intros i j f g Hi Hj Hf Hg Heq.
    assert (forall k h, some_entries !! k = Some h -> is_empty h = false -> k = 0%nat /\ ipaddr h = 100 \/ k = 1%nat /\ ipaddr h = 200) as Hc.
    { intros [|[|k]] h Hk Hh; cbn in Hk; [by simplify_eq; left|by simplify_eq; right|].
      do 8 (destruct k as [|k]; [by injection Hk as <-|cbn in Hk]). by destruct k. }
    destruct (Hc i f Hi Hf) as [[-> E1]|[-> E1]], (Hc j g Hj Hg) as [[-> E2]|[-> E2]]; try done; congruence.
Qed.

Lemma etharp_entries_expire_witness :
  arp_ok (some_net tt) /\
  exists s', ticks 2 (some_net tt) = Ok s' /\ arp_ok s' /\
    exists e', arp_table s' !! 1%nat = Some e' /\ state e' = ETHARP_STATE_EMPTY /\ q e' = [].
Proof.
  split; [apply some_net_ok|].
  destruct (etharp_entries_expire 2 (some_net tt) (some_net_ok tt)) as (s' & H1 & H2 & H3). exists s'. split; [done|]. split; [done|].
  destruct (H3 1%nat (EtharpEntry [500] 200 ethzero 0 ETHARP_STATE_PENDING 0) eq_refl) as (e' & H4 & H5 & H6 & _).
  exists e'. split; [done|]. split; [exact H5|exact (H6 H5)].
Defined.

Lemma find_entry_spec_witness :
  arp_ok (some_net tt) /\
  exists i s', find_entry (some_net tt) 300 ETHARP_FLAG_TRY_HARD = Ok (i, s') /\ arp_ok s' /\ 0 <= i.
Proof.
  split; [apply some_net_ok|].
  destruct (find_entry_spec (some_net tt) 300 ETHARP_FLAG_TRY_HARD (some_net_ok tt)) as (i & s' & H1 & H2 & _ & H3 & _).
  exists i, s'. split; [done|]. split; [done|]. by apply H3.
Defined.
