(* ===== verification/EtharpPackets.v ===== *)
(** * The packets of ARP: what [lwip/netif/etharp.c] sends and queues.

    The memory law of the driver's [linkoutput], the frames written in front
    of it, and the effect of [update_arp_entry], [etharp_raw] and
    [etharp_query] on the table, the queues and the driver. *)
From S2P Require Import Prelude Cobs Uart Comm Message Pbuf PbufChain PbufTrim PbufCopy InetChksum IpAddr Etharp EtharpTable.
From stdpp Require Import list gmap.
#[local] Open Scope Z_scope.

(** Every pbuf but those of [l] is as it was, up to references others took
    or gave back: one that is held stays held. *)
Definition stays (m m' : store) (l : list Z) : Prop :=
  (backed m -> backed m') /\ forall a c, ~ In a l -> cells m !! a = Some c ->
    blocks m' !! a = blocks m !! a /\
    exists n, cells m' !! a = Some (set_ref c n) /\ (1 <= ref c < 65536 -> 1 <= n < 65536).

Lemma set_ref_same c : set_ref c (ref c) = c.
Proof. by destruct c. Qed.
Lemma untouched_stays m m' l : untouched m m' l -> stays m m' l.
Proof.
  intros [B U]. split; [done|]. intros a c Ha Ec. destruct (U a Ha) as [E1 E2]. split; [done|].
  exists (ref c). by rewrite set_ref_same, E1.
Qed.
Lemma stays_refl m l : stays m m l.
Proof. apply untouched_stays, untouched_refl. Qed.
Lemma stays_trans m1 m2 m3 l : stays m1 m2 l -> stays m2 m3 l -> stays m1 m3 l.
Proof.
  intros [B1 S1] [B2 S2]. split; [by auto|]. intros a c Ha Ec.
  destruct (S1 a c Ha Ec) as (E1 & n & E2 & H1). destruct (S2 a _ Ha E2) as (E3 & k & E4 & H2).
  split; [congruence|]. exists k. split; [done|]. auto.
Qed.
Lemma stays_weaken m m' l l' : (forall a, In a l -> In a l') -> stays m m' l -> stays m m' l'.
Proof. intros Hl [B S]. split; [done|]. intros a c Ha. apply S. auto. Qed.

Lemma held_stays k m m' l p : stays m m' l -> ~ In p l -> held k m p ->
  held k m' p /\ data_of m' p = data_of m p.
Proof.
  intros [_ S] Hp (Hp0 & c & Ec & Hn & Hr & (Hl & Hrc & Hby & Hb) & Hpay & Hlen).
  destruct (S p c Hp Ec) as (E1 & n & E2 & Hn'). specialize (Hn' Hr).
  assert (cell_data m' (set_ref c n) = cell_data m c) as Hd by (unfold cell_data; cbn; by rewrite Hpay, E1).
  split; [|unfold data_of; by rewrite Ec, E2].
  split; [done|]. exists (set_ref c n). split; [done|]. split; [done|]. split; [done|]. split; [|done].
  split; [done|]. split; [cbn; unfold is_u16; lia|]. split; [by rewrite Hd|]. cbn. rewrite Hpay in *. by rewrite E1.
Qed.

(** ** Storing into a packet that waits *)
Lemma held_save k m p c off x : held k m p -> cells m !! p = Some c -> 0 <= off -> off + zlen x <= len c -> bytes x ->
  exists m', save m (payload c) off x = Ok m' /\ untouched m m' [p] /\ held k m' p /\ cells m' = cells m /\
    data_of m' p = splice (data_of m p) off x.
Proof.
  intros (Hp0 & c' & Ec' & Hn & Hr & Hok & Hpay & Hlen) Ec Ho Hx Hb. assert (c' = c) as -> by congruence.
  destruct (save_at m p c off x) as (m' & E1 & E2 & E3 & E4 & E5 & E6); try done.
  exists m'. split; [done|]. split; [|split; [|split; [done|]]].
  - split.
    + intros Hbk a Ha. rewrite E2 in Ha. apply E4. by apply Hbk.
    + intros a Ha. rewrite E2. split; [done|]. apply E3. intros ->. apply Ha. by left.
  - split; [done|]. exists c. by rewrite E2.
  - unfold data_of. by rewrite E2, Ec.
Qed.

(** The list of fields, stored one after the other. *)
Definition spliced (d : list Z) (l : list (Z * list Z)) : list Z := fold_left (fun d f => splice d f.1 f.2) l d.

Lemma put_fields_ok l : forall m k p c, held k m p -> cells m !! p = Some c ->
  Forall (fun f => 0 <= f.1 /\ f.1 + zlen f.2 <= len c /\ bytes f.2) l ->
  exists m', put_fields m (payload c) l = Ok m' /\ untouched m m' [p] /\ held k m' p /\ cells m' = cells m /\
    data_of m' p = spliced (data_of m p) l.
Proof.
  induction l as [|[off x] l IH]; intros m k p c Hw Ec HF; cbn [put_fields].
  { exists m. split; [done|]. split; [apply untouched_refl|done]. }
  apply Forall_cons in HF as [(Ho & Hx & Hb) HF]. cbn [fst snd] in *.
  destruct (held_save k m p c off x) as (m1 & -> & Hu & Hw1 & Hc1 & Hd1); try done. cbn [rbind].
  destruct (IH m1 k p c Hw1) as (m2 & -> & Hu2 & Hw2 & Hc2 & Hd2); [by rewrite Hc1|done|].
  exists m2. split; [done|]. split; [by eapply untouched_trans|]. split; [done|]. split; [congruence|].
  by rewrite Hd2, Hd1.
Qed.

(** The frame [etharp_send_ip] hands over. *)
Definition ip_frame (dst src d : list Z) : list Z := dst ++ src ++ be16 ETHTYPE_IP ++ drop 14 d.

Lemma header_spliced d dst src : mac dst -> mac src -> SIZEOF_ETH_HDR <= zlen d ->
  splice (splice (splice d 0 dst) 6 src) 12 (be16 ETHTYPE_IP) = ip_frame dst src d.
Proof.
  intros [Hd _] [Hs _] Hz. unfold SIZEOF_ETH_HDR, zlen in Hz.
  assert (splice d 0 dst = dst ++ drop 6 d) as -> by by (rewrite <- Hd; apply (splice_seam [] dst d); unfold zlen; lia).
  replace 6 with (zlen dst) by (unfold zlen; lia). rewrite splice_seam by (unfold zlen; rewrite length_drop; lia).
  replace 12 with (zlen (dst ++ src)) by (unfold zlen; rewrite length_app; lia). rewrite Hs, drop_drop.
  rewrite splice_seam by (unfold zlen; rewrite length_drop; cbn; lia). unfold ip_frame. rewrite drop_drop, <- !app_assoc. done.
Qed.

(** ** The table *)

(** [e'] may stand at [i]: it is well-formed and no other entry is for its address. *)
Definition fits (t : list etharp_entry) (i : nat) (e' : etharp_entry) : Prop :=
  entry_ok e' /\ (is_empty e' = false -> forall j f, j <> i -> t !! j = Some f -> ~ matches (ipaddr e') f).

Lemma fits_table_ok t i e e' : table_ok t -> t !! i = Some e -> fits t i e' -> table_ok (<[i := e']> t).
Proof.
  intros [Hs HF Hu] Hi (Hok & Hnew). split; [by rewrite length_insert|by apply Forall_insert|].
  intros j k f g Hj Hk Ef Eg Heq.
  assert (forall j f, <[i := e']> t !! j = Some f -> (j = i /\ f = e') \/ j <> i /\ t !! j = Some f) as Hcase.
  { intros j' f' Hj'. destruct (decide (j' = i)) as [->|Hne].
    - rewrite list_lookup_insert_eq in Hj' by by eapply lookup_lt_Some. injection Hj' as <-. by left.
    - rewrite list_lookup_insert_ne in Hj' by done. by right. }
  destruct (Hcase j f Hj) as [[-> ->]|[Hji Hj']], (Hcase k g Hk) as [[-> ->]|[Hki Hk']]; [done| | |by eapply Hu].
  - by destruct (Hnew Ef k g Hki Hk').
  - by destruct (Hnew Eg j f Hji Hj').
Qed.

Section packets.
Context `{OsLaws} {E : Type}.
Implicit Type s : net E.

(** An entry with its queue is replaced, and the memory changed at most at [l]. *)
Lemma put_ok s i e e' m' l : arp_ok s -> arp_table s !! Z.to_nat i = Some e -> fits (arp_table s) (Z.to_nat i) e' ->
  stays (mem s) m' l -> (forall p, In p l -> p ∉ queues (arp_table s) \/ p ∈ q e) ->
  NoDup (q e') -> Forall (waiting m') (q e') -> (forall p, p ∈ q e' -> p ∈ q e \/ p ∉ queues (arp_table s)) ->
  arp_ok (put_entry (set_mem s m') i e').
Proof.
  intros [Ht Hh Hnd HF Hbk] Hi Hfit Hst Hl Hq Hw Hnew.
  destruct (queues_insert _ _ _ e' Hi) as (l1 & l2 & E1 & E2).
  split; [by eapply fits_table_ok|done| | |by apply Hst];
    change (arp_table (put_entry _ _ _)) with (<[Z.to_nat i := e']> (arp_table s)); rewrite E2.
  all: rewrite E1 in Hnd, HF, Hl, Hnew; apply NoDup_app in Hnd as (N1 & D1 & Hnd);
    apply NoDup_app in Hnd as (Nq & D2 & N2).
  - apply NoDup_app. split; [done|]. split.
    + intros x Hx [Hxq|Hx2]%elem_of_app; [|by apply (D1 x Hx), elem_of_app; right].
      destruct (Hnew x Hxq) as [Hin|Hout]; [by apply (D1 x Hx), elem_of_app; left|].
      by apply Hout, elem_of_app; left.
    + apply NoDup_app. split; [done|]. split; [|done]. intros x Hx Hx2.
      destruct (Hnew x Hx) as [Hin|Hout]; [by apply (D2 x Hin)|].
      by apply Hout, elem_of_app; right; apply elem_of_app; right.
  - apply Forall_app in HF as [HF1 HF]. apply Forall_app in HF as [_ HF2].
    assert (forall x, x ∈ l1 \/ x ∈ l2 -> ~ In x l) as Hnl.
    { intros x Hx Hin. destruct (Hl x Hin) as [Hout|Hin'].
      - apply Hout. rewrite !elem_of_app. tauto.
      - destruct Hx as [Hx|Hx]; [by apply (D1 x Hx), elem_of_app; left|by apply (D2 x Hin')]. }
    rewrite !Forall_app. rewrite Forall_forall in HF1, HF2. split; [|split; [done|]]; rewrite Forall_forall; intros x Hx.
    + eapply held_stays; [exact Hst|apply Hnl; by left|by apply HF1].
    + eapply held_stays; [exact Hst|apply Hnl; by right|by apply HF2].
Qed.

Lemma arp_ok_env (E' : Type) s (e : E') : arp_ok s -> arp_ok (Net (arp_table s) (etharp_cached_entry s) (mem s) e).
Proof. by intros [? ? ? ? ?]. Qed.

(** ** Sending *)

Context (linkoutput : E -> store -> Z -> Z * store * E) (memp_malloc : E -> bool * E).

(** The driver keeps every pbuf it is given or that others hold. *)
Definition link_keeps : Prop := forall e m p,
  let '(_, m', _) := linkoutput e m p in stays m m' [].

(** The driver's state after it was handed the packets [l], each in its memory. *)
Definition handed (e : E) (l : list (Z * store)) : E := fold_left (fun e x => (linkoutput e x.2 x.1).2) l e.
(** The bytes of the packets [l], each in its memory. *)
Definition handed_bytes (l : list (Z * store)) : list (list Z) := map (fun x => data_of x.2 x.1) l.

Lemma send_held s k p src dst : link_keeps -> held k (mem s) p -> mac dst -> mac src ->
  exists st, etharp_send_ip linkoutput s p src dst =
    (let '(err, m, e) := linkoutput (env s) st p in Ok (err, Net (arp_table s) (etharp_cached_entry s) m e)) /\
    stays (mem s) st [p] /\ held k st p /\ data_of st p = ip_frame dst src (data_of (mem s) p) /\
    let '(_, m, _) := linkoutput (env s) st p in stays (mem s) m [p] /\ held k m p.
Proof.
  intros Hk Hw Hd Hs. pose proof Hw as (Hp0 & c & Ec & _ & _ & Hok & _ & Hlen).
  assert (bytes (be16 ETHTYPE_IP)) as Hb16 by by apply (bool_decide_unpack _).
  unfold etharp_send_ip. rewrite (deref_ok _ p c) by done. cbn [rbind]. unfold SIZEOF_ETH_HDR in Hlen.
  destruct (held_save k (mem s) p c 0 dst) as (m1 & -> & U1 & W1 & C1 & D1);
    [done|done|lia|unfold zlen; destruct Hd; lia|apply Hd|]. cbn [rbind].
  destruct (held_save k m1 p c 6 src) as (m2 & -> & U2 & W2 & C2 & D2);
    [done|by rewrite C1|lia|unfold zlen; destruct Hs; lia|apply Hs|]. cbn [rbind].
  destruct (held_save k m2 p c 12 (be16 ETHTYPE_IP)) as (m3 & -> & U3 & W3 & C3 & D3);
    [done|by rewrite C2, C1|lia|change (zlen (be16 ETHTYPE_IP)) with 2; lia|done|]. cbn [rbind].
  exists m3. split; [done|].
  assert (stays (mem s) m3 [p]) as Hst by by (apply untouched_stays; do 2 (eapply untouched_trans; [done|])).
  split; [done|]. split; [done|]. split.
  { rewrite D3, D2, D1. apply header_spliced; [done..|]. unfold data_of. rewrite Ec, cell_data_length by done. done. }
  specialize (Hk (env s) m3 p). destruct (linkoutput (env s) m3 p) as [[err m] e].
  split; [eapply stays_trans; [done|]; eapply stays_weaken; [|done]; by intros ? []|]. apply (held_stays k m3 m []); [done|by intros []|done].
Qed.

Lemma send_queue_ok l src dst : mac dst -> mac src -> link_keeps -> forall s i e, 0 <= i -> arp_table s !! Z.to_nat i = Some e ->
  q e = l -> NoDup l -> Forall (waiting (mem s)) l -> backed (mem s) ->
  exists m' ps, send_queue linkoutput (length l) s i src dst =
      Ok (Net (<[Z.to_nat i := set_q e []]> (arp_table s)) (etharp_cached_entry s) m' (handed (env s) ps)) /\
    stays (mem s) m' l /\ map fst ps = l /\
    handed_bytes ps = map (fun p => ip_frame dst src (data_of (mem s) p)) l.
Proof.
  intros Hd Hs Hk. induction l as [|p l IH]; intros s i e Hi He Hq Hnd HF Hbk.
  - exists (mem s), []. cbn [send_queue length]. rewrite (entry_in s i e) by done. cbn [rbind]. rewrite Hq.
    split; [|split; [apply stays_refl|done]]. rewrite list_insert_id by (rewrite He; destruct e; cbn in *; by subst).
    by destruct s.
  - apply NoDup_cons in Hnd as [Hp Hnd]. apply Forall_cons in HF as [Hw HF].
    assert (~ In p l) as Hp' by by rewrite <- list_elem_of_In.
    cbn [send_queue length]. rewrite (entry_in s i e) by done. cbn [rbind]. rewrite Hq.
    destruct (send_held (put_entry s i (set_q e l)) 0 p src dst Hk Hw Hd Hs) as (st & -> & Hst & Hwst & Hdat & Hout).
    change (env (put_entry s i (set_q e l))) with (env s) in *. change (mem (put_entry s i (set_q e l))) with (mem s) in *.
    destruct (linkoutput (env s) st p) as [[err m] e1] eqn:El. destruct Hout as [Hst1 Hw1]. cbn [rbind mem].
    destruct (free_waiting m p) as (k & m1 & -> & Hu); [done|by apply Hst1|]. cbn [rbind].
    assert (stays (mem s) m1 [p]) as Hst2 by (eapply stays_trans; [done|by apply untouched_stays]).
    assert (forall a, a ∈ l -> ~ In a [p]) as Hne by (intros a Ha [->|[]]; by rewrite list_elem_of_In in Ha).
    rewrite Forall_forall in HF.
    destruct (IH (set_mem (Net (arp_table (put_entry s i (set_q e l))) (etharp_cached_entry s) m e1) m1) i (set_q e l)) as
      (m' & ps & E1 & Hst3 & HF2 & HF3); try done.
    { cbn. apply list_lookup_insert_eq. by eapply lookup_lt_Some. }
    { rewrite Forall_forall. intros a Ha. eapply held_stays; [done|by apply Hne|by apply HF]. }
    { by apply Hst2. }
    exists m', ((p, st) :: ps). unfold set_mem in *. cbn in E1, Hst3, HF2, HF3 |- *. rewrite E1, list_insert_insert_eq. split; [|split].
    + unfold handed. cbn. by rewrite El.
    + eapply stays_trans; [eapply stays_weaken; [|exact Hst2]|eapply stays_weaken; [|exact Hst3]]; [|by right].
      intros a [->|[]]. by left.
    + rewrite HF2. split; [done|]. unfold handed_bytes in HF3 |- *. cbn. rewrite Hdat, HF3. f_equal.
      apply map_ext_in. intros a Ha. f_equal. apply (held_stays 0 (mem s) m1 [p]); [done|apply Hne|apply HF]; by apply list_elem_of_In.
Qed.

(** ** [update_arp_entry] *)

Definition not_unicast (ip : Z) (nif : ethif) : bool :=
  (ip =? IPADDR_ANY) || ip4_addr_isbroadcast ip (eth_if nif) || ip_addr_ismulticast ip.

Definition resolved (ip : Z) (eth : list Z) : etharp_entry := EtharpEntry [] ip eth 0 ETHARP_STATE_STABLE 0.

Lemma resolved_fits t n ip eth : mac eth -> (forall j f, j <> n -> t !! j = Some f -> ~ matches ip f) -> fits t n (resolved ip eth).
Proof. intros Hm Hno. split; [|by intros _]. split; [done|]. by do 2 (split; [done|]). Qed.

(** The packets that waited on an entry are handed over when it is resolved. *)
Lemma resolve_ok s nif n e ip eth : link_keeps -> arp_ok s -> mac eth -> mac (hwaddr nif) ->
  arp_table s !! n = Some e -> ipaddr e = ip -> netif e = 0 ->
  (forall j f, j <> n -> arp_table s !! j = Some f -> ~ matches ip f) ->
  exists s' ps, (let! e := entry_at s (Z.of_nat n) in
      let! s := send_queue linkoutput (length (q (set_ctime (set_ethaddr (set_state e ETHARP_STATE_STABLE) eth) 0)))
        (put_entry s (Z.of_nat n) (set_ctime (set_ethaddr (set_state e ETHARP_STATE_STABLE) eth) 0)) (Z.of_nat n) (hwaddr nif) eth in
      Ok (ERR_OK, s)) = Ok (ERR_OK, s') /\ arp_ok s' /\
    arp_table s' = <[n := resolved ip eth]> (arp_table s) /\ etharp_cached_entry s' = etharp_cached_entry s /\
    stays (mem s) (mem s') (q e) /\ env s' = handed (env s) ps /\ map fst ps = q e /\
    handed_bytes ps = map (fun p => ip_frame eth (hwaddr nif) (data_of (mem s) p)) (q e).
Proof.
  intros Hk Hs He Hh Hn Hip Hnif Hno. destruct (queue_waiting s n e Hs Hn) as [Hnd HF].
  assert (arp_table s !! Z.to_nat (Z.of_nat n) = Some e) as Hn' by by rewrite Nat2Z.id.
  rewrite (entry_in s (Z.of_nat n) e) by (done || lia). cbn [rbind].
  set (e1 := set_ctime (set_ethaddr (set_state e ETHARP_STATE_STABLE) eth) 0). change (q e1) with (q e).
  destruct (send_queue_ok (q e) (hwaddr nif) eth He Hh Hk (put_entry s (Z.of_nat n) e1) (Z.of_nat n) e1) as
    (m' & ps & -> & Hst & Hps & Hby); try done; [lia| |by apply Hs|].
  { cbn. apply list_lookup_insert_eq. by eapply lookup_lt_Some. }
  cbn [rbind]. assert (set_q e1 [] = resolved ip eth) as -> by (unfold resolved, e1, set_q, set_ctime, set_ethaddr, set_state; cbn; by rewrite Hip, Hnif).
  unfold put_entry, set_table in *. cbn [arp_table etharp_cached_entry env mem] in *. rewrite list_insert_insert_eq, Nat2Z.id in *.
  eexists _, ps. split; [reflexivity|]. cbn. split; [|done].
  rewrite <- (Nat2Z.id n) at 1.
  apply (arp_ok_env E (put_entry (set_mem s m') (Z.of_nat n) (resolved ip eth)) (handed (env s) ps)).
  apply (put_ok s (Z.of_nat n) e _ m' (q e)); rewrite ?Nat2Z.id; try done.
  - intros p Hp. right. by apply list_elem_of_In.
  - apply NoDup_nil_2.
  - by intros p ?%elem_of_nil.
Qed.

(** How [update_arp_entry] ends: with the table and the driver as they were, or
    with the entry resolved and its queue handed over in order. *)
Definition updated s (nif : ethif) (ip : Z) (eth : list Z) (flags r : Z) (s' : net E) : Prop :=
  (r = ERR_ARG /\ s' = s /\ not_unicast ip nif = true) \/
  not_unicast ip nif = false /\
  ((r = ERR_MEM /\ s' = s /\ (forall n e, arp_table s !! n = Some e -> ~ matches ip e) /\
     (wants flags ETHARP_FLAG_FIND_ONLY = true \/
      wants flags ETHARP_FLAG_TRY_HARD = false /\ forall n e, arp_table s !! n = Some e -> is_empty e = false)) \/
   r = ERR_OK /\ exists n e ps, arp_table s !! n = Some e /\
     arp_table s' = <[n := resolved ip eth]> (arp_table s) /\ etharp_cached_entry s' = etharp_cached_entry s /\
     stays (mem s) (mem s') (q e) /\ env s' = handed (env s) ps /\
     handed_bytes ps = map (fun p => ip_frame eth (hwaddr nif) (data_of (mem s) p)) (map fst ps) /\
     (matches ip e /\ map fst ps = q e \/
      ps = [] /\ wants flags ETHARP_FLAG_FIND_ONLY = false /\ chosen (arp_table s) n e /\
      forall j f, arp_table s !! j = Some f -> ~ matches ip f)).

Lemma update_ok s nif ip eth flags : link_keeps -> arp_ok s -> mac eth -> mac (hwaddr nif) ->
  exists r s', update_arp_entry linkoutput s nif ip eth flags = Ok (r, s') /\ arp_ok s' /\ updated s nif ip eth flags r s'.
Proof.
  intros Hk Hs He Hh. unfold update_arp_entry. fold (not_unicast ip nif).
  destruct (not_unicast ip nif) eqn:Enu; [exists ERR_ARG, s; split; [done|split; [done|by left]]|].
  destruct (find_entry_ok s ip flags Hs) as (i & s1 & -> & Hs1 & Hcase). cbn [rbind].
  destruct Hcase as [(n & e & -> & -> & Hn & Hm)|(Hno & [(-> & -> & Hwhy)|(Hfo & n & e & m' & -> & Hch & Hth & -> & Hu)])].
  - rewrite (proj2 (Z.ltb_ge _ _)) by lia. pose proof Hs as [Ht _ _ _ _]. pose proof Ht as [_ HF Huq].
    assert (entry_ok e) as (_ & Hnif & _) by by eapply Forall_lookup_1.
    destruct (resolve_ok s nif n e ip eth Hk Hs He Hh Hn) as (s' & ps & -> & Hs' & Ht' & Hc' & Hst & Hev & Hps & Hby); [apply Hm|done| |].
    { intros j f Hj Hf [Hfe Hfi]. apply Hj. destruct Hm as [? ?]. eapply Huq; try done. congruence. }
    exists ERR_OK, s'. split; [done|]. split; [done|]. right. split; [done|]. right. split; [done|].
    exists n, e, ps. rewrite Hps. do 6 (split; [done|]). by left.
  - change (ERR_MEM <? 0) with true. cbn iota. exists ERR_MEM, s. split; [done|]. split; [done|]. right. split; [done|]. left. done.
  - rewrite (proj2 (Z.ltb_ge _ _)) by lia. set (s1 := put_entry (set_mem s m') (Z.of_nat n) (claimed e ip)) in *.
    assert (n < length (arp_table s))%nat as Hlt by (eapply lookup_lt_Some; apply Hch).
    assert (arp_table s1 !! n = Some (claimed e ip)) as Hn1 by (cbn; rewrite Nat2Z.id; by apply list_lookup_insert_eq).
    assert (entry_ok e) as (_ & Hnif & _) by (eapply Forall_lookup_1; [apply Hs|apply Hch]).
    destruct (resolve_ok s1 nif n (claimed e ip) ip eth Hk Hs1 He Hh Hn1) as (s' & ps & -> & Hs' & Ht' & Hc' & Hst & Hev & Hps & _); try done.
    { intros j f Hj Hf. cbn in Hf. rewrite Nat2Z.id, list_lookup_insert_ne in Hf by done. by eapply Hno. }
    exists ERR_OK, s'. split; [done|]. split; [done|]. right. split; [done|]. right. split; [done|].
    destruct ps; [|done]. exists n, e, []. split; [apply Hch|]. split; [by rewrite Ht'; cbn; rewrite Nat2Z.id, list_insert_insert_eq|].
    split; [done|]. split; [|split; [done|split; [done|by right]]].
    eapply stays_trans; [by apply untouched_stays|]. eapply stays_weaken; [|exact Hst]. by intros ? [].
Qed.

(** ** ARP frames *)

(** The heap has no room for a packet of [n] bytes. *)
Definition no_memory (m : store) (n : Z) : Prop := pbuf_alloc m PBUF_RAW n PBUF_RAM = Ok (0, m).

Lemma alloc_waiting m n : backed m -> SIZEOF_ETH_HDR <= n < 65536 ->
  no_memory m n \/
  exists p m1 c, pbuf_alloc m PBUF_RAW n PBUF_RAM = Ok (p, m1) /\ cells m !! p = None /\ waiting m1 p /\
    stays m m1 [] /\ cells m1 !! p = Some c /\ len c = n /\ tot_len c = n.
Proof.
  intros Hbk Hn. unfold SIZEOF_ETH_HDR in Hn.
  destruct (alloc_ram_ok m PBUF_RAW n Hbk) as [?|(p & m1 & E1 & Hp & Hf & _ & Hpk & Hz & Hbk1 & Hown & Hr & Hsame & c & Ec & _ & _)];
    [unfold is_u16; lia|by left|]. right. exists p, m1, c.
  destruct Hpk as [(_ & _ & c' & Ec' & Hch) HF Htot _]. assert (c' = c) as -> by congruence.
  apply Forall_cons in HF as [Hok _]. unfold pbuf_ok, own, ref_of, contents in *. cbn [map concat] in Hz. rewrite app_nil_r in Hz.
  unfold totals_ok, contents in Htot. cbn [map concat] in Htot. rewrite app_nil_r in Htot.
  unfold data_of in *. rewrite Ec in *. rewrite (cell_data_length m1 c Hok) in *. destruct Htot as [Htot _].
  split; [done|]. split; [done|]. split; [|split; [|split; [done|split; [done|congruence]]]].
  - split; [done|]. exists c. split; [done|]. split; [exact Hch|]. split; [lia|]. split; [done|]. split; [done|].
    unfold SIZEOF_ETH_HDR. lia.
  - split; [done|]. intros a d _ Ed. destruct (decide (a = p)) as [->|Hne]; [congruence|].
    destruct (Hsame a Hne) as [E2 E3]. split; [done|]. exists (ref d). by rewrite set_ref_same, E2.
Qed.

Lemma held_length k m p c : held k m p -> cells m !! p = Some c -> zlen (data_of m p) = len c.
Proof.
  intros (_ & c' & Ec' & _ & _ & Hok & _) Ec. assert (c' = c) as -> by congruence. unfold data_of. rewrite Ec.
  by apply cell_data_length.
Qed.
(** What was not there before need not be excepted. *)
Lemma stays_drop m m' p : stays m m' [p] -> cells m !! p = None -> stays m m' [].
Proof.
  intros [B S] Hp. split; [done|]. intros a c _ Ec. apply S; [|done]. intros [<-|[]]. congruence.
Qed.
Lemma arp_ok_stays s m : arp_ok s -> stays (mem s) m [] -> arp_ok (set_mem s m).
Proof.
  intros [? ? ? HF ?] Hst. split; try done; [|by apply Hst]. cbn. rewrite Forall_forall in HF |- *. intros p Hp.
  apply (held_stays 0 (mem s) m []); [done|by intros []|by apply HF].
Qed.

Lemma u32_bytes_ok x : bytes (u32_bytes x).
Proof. unfold bytes, u32_bytes, is_byte. repeat constructor; apply Z.mod_pos_bound; lia. Qed.
Lemma be16_ok x : bytes (be16 x).
Proof. unfold bytes, be16, is_byte. repeat constructor; apply Z.mod_pos_bound; lia. Qed.

(** An ARP packet in its Ethernet frame. *)
Definition arp_frame (ethsrc ethdst hwsrc : list Z) (ipsrc : Z) (hwdst : list Z) (ipdst opcode : Z) : list Z :=
  ethdst ++ ethsrc ++ be16 ETHTYPE_ARP ++ be16 HWTYPE_ETHERNET ++ be16 ETHTYPE_IP ++ [ETHARP_HWADDR_LEN; 4] ++
  be16 opcode ++ hwsrc ++ u32_bytes ipsrc ++ hwdst ++ u32_bytes ipdst.

Ltac six l := do 6 (destruct l as [|? l]; [discriminate|]); destruct l; [|discriminate].

Lemma arp_frame_spliced d ethsrc ethdst hwsrc ipsrc hwdst ipdst opcode :
  length d = 42%nat -> mac ethsrc -> mac ethdst -> mac hwsrc -> mac hwdst ->
  spliced d (arp_fields ethsrc ethdst hwsrc ipsrc hwdst ipdst opcode) = arp_frame ethsrc ethdst hwsrc ipsrc hwdst ipdst opcode.
Proof.
  intros Hd [H1 _] [H2 _] [H3 _] [H4 _]. six ethsrc. six ethdst. six hwsrc. six hwdst.
  do 42 (destruct d as [|? d]; [discriminate|]). destruct d; [|discriminate]. reflexivity.
Qed.

Lemma arp_fields_fit ethsrc ethdst hwsrc ipsrc hwdst ipdst opcode :
  mac ethsrc -> mac ethdst -> mac hwsrc -> mac hwdst ->
  Forall (fun f => 0 <= f.1 /\ f.1 + zlen f.2 <= SIZEOF_ETHARP_PACKET /\ bytes f.2)
    (arp_fields ethsrc ethdst hwsrc ipsrc hwdst ipdst opcode).
Proof.
  intros [L1 ?] [L2 ?] [L3 ?] [L4 ?]. pose proof be16_ok. pose proof u32_bytes_ok.
  assert (SIZEOF_ETHARP_PACKET = 42) as -> by done. unfold arp_fields, zlen.
  repeat (apply Forall_cons_2; [cbn [fst snd]; rewrite ?L1, ?L2, ?L3, ?L4; split; [lia|split; [cbn; lia|]]|]);
    try done; by apply (bool_decide_unpack _).
Qed.

Lemma raw_ok s ethsrc ethdst hwsrc ipsrc hwdst ipdst opcode : link_keeps -> arp_ok s ->
  mac ethsrc -> mac ethdst -> mac hwsrc -> mac hwdst ->
  exists r s', etharp_raw linkoutput s ethsrc ethdst hwsrc ipsrc hwdst ipdst opcode = Ok (r, s') /\ arp_ok s' /\
    arp_table s' = arp_table s /\ etharp_cached_entry s' = etharp_cached_entry s /\ stays (mem s) (mem s') [] /\
    (r = ERR_MEM /\ s' = s /\ no_memory (mem s) SIZEOF_ETHARP_PACKET \/
     exists p st, cells (mem s) !! p = None /\ data_of st p = arp_frame ethsrc ethdst hwsrc ipsrc hwdst ipdst opcode /\
       (r, env s') = let '(err, _, e) := linkoutput (env s) st p in (err, e)).
Proof.
  intros Hk Hs H1 H2 H3 H4. unfold etharp_raw. pose proof Hs as [Ht Hh Hnd HF Hbk].
  destruct (alloc_waiting (mem s) SIZEOF_ETHARP_PACKET Hbk) as [Hno|(p & m1 & c & -> & Hf & Hw & Hst & Ec & Hlen & _)]; [done| |].
  { rewrite Hno. cbn [rbind Z.eqb]. rewrite set_mem_same. exists ERR_MEM, s. do 4 (split; [done|]). split; [apply stays_refl|by left]. }
  cbn [rbind]. pose proof Hw as [Hp0 _]. rewrite (proj2 (Z.eqb_neq _ _)), (deref_ok _ _ c) by done. cbn [rbind].
  pose proof (arp_fields_fit ethsrc ethdst hwsrc ipsrc hwdst ipdst opcode H1 H2 H3 H4) as Hfit. rewrite <- Hlen in Hfit.
  destruct (put_fields_ok _ m1 0 p c Hw Ec Hfit) as (m2 & -> & U2 & W2 & C2 & D2). cbn [rbind].
  rewrite arp_frame_spliced in D2; [|by pose proof (held_length 0 m1 p c Hw Ec); change SIZEOF_ETHARP_PACKET with 42 in Hlen; unfold zlen in *; lia|done..].
  pose proof (Hk (env s) m2 p) as Hko. destruct (linkoutput (env s) m2 p) as [[err m3] e3] eqn:El.
  assert (stays (mem s) m3 [p]) as Hst3.
  { eapply stays_trans; [eapply stays_weaken; [|exact Hst]; by intros ? []|].
    eapply stays_trans; [by apply untouched_stays|]. eapply stays_weaken; [|exact Hko]. by intros ? []. }
  assert (waiting m3 p) as W3 by (apply (held_stays 0 m2 m3 []); [done|by intros []|done]).
  destruct (free_waiting m3 p W3) as (k & m4 & -> & U4); [by apply Hst3|]. cbn [rbind].
  assert (stays (mem s) m4 []) as Hst4.
  { eapply stays_drop; [|exact Hf]. eapply stays_trans; [done|by apply untouched_stays]. }
  eexists _, _. split; [done|]. split; [by apply (arp_ok_env E (set_mem s m4)), arp_ok_stays|]. do 2 (split; [done|]).
  split; [done|]. right. exists p, m2. split; [done|]. split; [done|]. by rewrite El.
Qed.

(** ** Taking over a packet *)

(** A packet to send: pbufs with memory of their own, none of them empty,
    and an Ethernet header's room in the first. *)
Record outgoing (m : store) (pkt : Z) (l : list Z) : Prop := {
  out_packet : packet m pkt l;
  out_head : exists k, held k m pkt;
  out_cells : Forall (fun a => exists c, cells m !! a = Some c /\ (payload c).1 = a /\ 0 < len c /\ type c <> PBUF_ROM /\
    1 <= ref c < 65536) l
}.

Lemma data_stays m m' x a c : stays m m' x -> ~ In a x -> cells m !! a = Some c -> (payload c).1 = a ->
  exists n, cells m' !! a = Some (set_ref c n) /\ cell_data m' (set_ref c n) = cell_data m c /\
    (1 <= ref c < 65536 -> 1 <= n < 65536) /\ blocks m' !! a = blocks m !! a.
Proof.
  intros [_ S] Ha Ec Hp. destruct (S a c) as (Eb & n & En & Hn); [done..|]. exists n. split; [done|].
  split; [|done]. unfold cell_data. cbn. by rewrite Hp, Eb.
Qed.

Lemma chain_stays m m' x l : forall p, stays m m' x -> (forall a, In a l -> ~ In a x) -> is_chain m p l -> is_chain m' p l.
Proof.
  induction l as [|a l IH]; intros p S Hx; [done|]. intros (-> & Ha & c & Ec & Hch). split; [done|]. split; [done|].
  destruct (proj2 S a c) as (_ & n & En & _); [apply Hx; by left|done|]. exists (set_ref c n). split; [done|].
  apply IH; [done| |done]. intros b Hb. apply Hx. by right.
Qed.

Definition own_cell (m : store) (a : Z) : Prop := exists c, cells m !! a = Some c /\ (payload c).1 = a /\ 0 < len c /\
  type c <> PBUF_ROM /\ 1 <= ref c < 65536.

Lemma own_stays m m' x a : stays m m' x -> ~ In a x -> own_cell m a -> pbuf_ok m a ->
  own_cell m' a /\ pbuf_ok m' a /\ data_of m' a = data_of m a /\
  exists c c', cells m !! a = Some c /\ cells m' !! a = Some c' /\ tot_len c' = tot_len c.
Proof.
  intros S Ha (c & Ec & Hp & Hl & Ht & Hr) Hok. destruct (data_stays m m' x a c S Ha Ec Hp) as (n & En & Hd & Hn & Hb).
  unfold pbuf_ok, data_of in *. rewrite Ec in *. rewrite En. specialize (Hn Hr).
  destruct Hok as (Hlc & Hrc & Hby & Hbl). split; [by exists (set_ref c n)|]. split; [|split; [done|by exists c, (set_ref c n)]].
  split; [done|]. split; [unfold is_u16; cbn; lia|]. split; [by rewrite Hd|]. cbn. rewrite Hp, Hb in *. done.
Qed.

Lemma contents_stays m m' x l : stays m m' x -> (forall a, In a l -> ~ In a x) -> Forall (own_cell m) l -> Forall (pbuf_ok m) l ->
  Forall (own_cell m') l /\ Forall (pbuf_ok m') l /\ contents m' l = contents m l /\ (totals_ok m l -> totals_ok m' l).
Proof.
  intros S. induction l as [|a l IH]; intros Hx HF HP; [done|]. apply Forall_cons in HF as [Ha HF]. apply Forall_cons in HP as [Hp HP].
  destruct (IH (fun b Hb => Hx b (or_intror Hb)) HF HP) as (H1 & H2 & H3 & H4).
  destruct (own_stays m m' x a S (Hx a (or_introl eq_refl)) Ha Hp) as (A1 & A2 & A3 & c & c' & Ec & Ec' & A4).
  assert (contents m' (a :: l) = contents m (a :: l)) as Hc by (rewrite !contents_cons; congruence).
  split; [by constructor|]. split; [by constructor|]. split; [done|].
  intros [Ht Htot]. split; [|by apply H4]. rewrite Ec in Ht. rewrite Ec', Hc. lia.
Qed.

Lemma outgoing_stays m m' x pkt l : stays m m' x -> (forall a, In a l -> ~ In a x) -> outgoing m pkt l ->
  outgoing m' pkt l /\ contents m' l = contents m l.
Proof.
  intros S Hx [[Hch HP Htot Hsm] [k Hh] HF]. destruct (contents_stays m m' x l S Hx HF HP) as (H1 & H2 & H3 & H4).
  split; [|done]. split; [|exists k; eapply held_stays; [exact S| |done]|done].
  - split; [by eapply chain_stays|done|by apply H4|by rewrite H3].
  - apply Hx. destruct l as [|a l]; [by destruct Hh|]. destruct Hch as (-> & _). by left.
Qed.

Lemma take_over_ok m pkt l : backed m -> outgoing m pkt l ->
  (take_over m pkt = Ok (0, m) /\ no_memory m (zlen (contents m l))) \/
  exists p m', take_over m pkt = Ok (p, m') /\ p <> 0 /\ cells m !! p = None /\ waiting m' p /\
    data_of m' p = contents m l /\ stays m m' [].
Proof.
  intros Hbk Ho. pose proof Ho as [Hpk [k (Hp0 & c & Ec & _ & Hr & Hok & Hpay & Hlen)] HF].
  pose proof Hpk as [Hch HP Htot Hsm]. destruct l as [|a l]; [done|]. pose proof Hch as (<- & _).
  pose proof HF as [(c' & Ec' & _ & Hl & Hty & _) _]%Forall_cons. assert (c' = c) as -> by congruence.
  destruct Htot as [Htl Htot]. rewrite Ec in Htl.
  assert (SIZEOF_ETH_HDR <= zlen (contents m (pkt :: l)) < 65536) as Hz.
  { split; [|done]. rewrite contents_cons, zlen_app. unfold data_of. rewrite Ec, cell_data_length by done.
    pose proof (zlen_nonneg (contents m l)). lia. }
  unfold take_over, chain_fuel. cbn [first_not_rom]. rewrite (proj2 (Z.eqb_neq pkt 0)), (deref_ok m pkt c) by done.
  cbn [rbind]. rewrite bool_decide_eq_false_2 by done. cbn [rbind].
  rewrite (proj2 (Z.eqb_neq pkt 0)), (deref_ok m pkt c) by done. cbn [rbind]. rewrite Htl.
  destruct (alloc_waiting m (zlen (contents m (pkt :: l))) Hbk Hz) as [Hno|(p & m1 & tc & -> & Hf & Hw & S & Etc & Htlen & Htt)].
  { left. rewrite Hno. by split. }
  right. cbn [rbind]. pose proof Hw as (Hpn & tc' & Etc' & Htn & Htr & Htok & Htpay & Hteth). assert (tc' = tc) as -> by congruence.
  rewrite (proj2 (Z.eqb_neq p 0)) by done. destruct (outgoing_stays m m1 [] pkt (pkt :: l) S (fun _ _ Hin => Hin) Ho) as [Ho1 Hc1].
  destruct (copy_into m1 p tc pkt (pkt :: l)) as (m2 & -> & C2 & B2 & Bs2 & Hok2 & D2); try done; [apply Ho1| |congruence..|].
  { pose proof (out_cells _ _ _ Ho1) as HF1. rewrite Forall_forall in HF, HF1. apply Forall_forall. intros x Hx.
    destruct (HF x Hx) as (d0 & Ed0 & _), (HF1 x Hx) as (d & Ed & Hd & Hdl & _). unfold filled. rewrite Ed.
    split; [done|]. rewrite Hd. intros ->. congruence. }
  cbn [rbind Z.eqb ERR_OK]. exists p, m2. split; [done|]. split; [done|]. split; [done|].
  split; [|split; [unfold data_of; by rewrite C2, Etc, D2|]].
  - split; [done|]. exists tc. by rewrite C2.
  - eapply stays_drop; [|exact Hf]. eapply stays_trans; [eapply stays_weaken; [|exact S]; by intros ? []|].
    apply untouched_stays. split.
    + intros Hb x Hx. rewrite C2 in Hx. apply Bs2. by apply Hb.
    + intros x Hx. rewrite C2. split; [done|]. apply B2. intros ->. apply Hx. by left.
Qed.

(** ** Output *)
Lemma stays_put s m l : arp_ok s -> stays (mem s) m l -> (forall p, In p l -> p ∉ queues (arp_table s)) -> arp_ok (set_mem s m).
Proof.
  intros [? ? ? HF ?] Hst Hl. split; try done; [|by apply Hst]. cbn. rewrite Forall_forall in HF |- *. intros p Hp.
  apply (held_stays 0 (mem s) m l); [done| |by apply HF]. intros Hin. by apply (Hl p Hin).
Qed.

Lemma send_out_ok s pkt l src dst : link_keeps -> arp_ok s -> outgoing (mem s) pkt l -> pkt ∉ queues (arp_table s) ->
  mac dst -> mac src ->
  exists r s' st, etharp_send_ip linkoutput s pkt src dst = Ok (r, s') /\ arp_ok s' /\ arp_table s' = arp_table s /\
    etharp_cached_entry s' = etharp_cached_entry s /\ stays (mem s) (mem s') [pkt] /\
    contents st l = ip_frame dst src (contents (mem s) l) /\
    (r, env s') = let '(err, _, e) := linkoutput (env s) st pkt in (err, e).
Proof.
  intros Hk Hs Ho Hq Hd Hsrc. destruct (out_head _ _ _ Ho) as [k Hh].
  destruct (send_held s k pkt src dst Hk Hh Hd Hsrc) as (st & -> & Hst & Hhst & Hdat & Hout).
  assert (contents st l = ip_frame dst src (contents (mem s) l)) as Hc.
  { pose proof Ho as [[Hch HP _ _] _ HF]. pose proof (chain_nodup _ _ _ Hch) as Hnd.
    pose proof Hh as (Hp0 & c & Ec & _ & _ & Hok & _ & Hlen).
    destruct l as [|a l]; [done|]. pose proof Hch as (<- & _). apply NoDup_cons in Hnd as [Hnin _].
    apply Forall_cons in HF as [_ HF]. apply Forall_cons in HP as [_ HP].
    destruct (contents_stays (mem s) st [pkt] l Hst) as (_ & _ & Hcl & _); [|done..|].
    { intros x Hx [->|[]]. by rewrite list_elem_of_In in Hnin. }
    rewrite !contents_cons, Hcl, Hdat. unfold ip_frame. rewrite <- !app_assoc. do 3 f_equal.
    rewrite drop_app_le; [done|]. unfold data_of. rewrite Ec. pose proof (cell_data_length _ _ Hok) as Hz.
    unfold SIZEOF_ETH_HDR, zlen in *. lia. }
  destruct (linkoutput (env s) st pkt) as [[err m] e] eqn:El. destruct Hout as [Hm _].
  eexists _, _, st. split; [done|]. split; [|split; [done|split; [done|split; [done|split; [done|by rewrite El]]]]].
  apply (arp_ok_env E (set_mem s m)). eapply stays_put; [done..|]. by intros p [<-|[]].
Qed.

(** The request for [ip] that [etharp_query] sends, and the packet it queues. *)
Definition asked (nif : ethif) (ip : Z) (m : store) (e e' : E) : Prop :=
  (e' = e /\ no_memory m SIZEOF_ETHARP_PACKET) \/
  exists p st, data_of st p = arp_frame (hwaddr nif) ethbroadcast (hwaddr nif) (if_ip_addr (eth_if nif)) ethzero ip ARP_REQUEST /\
    e' = (linkoutput e st p).2.

Lemma ethbroadcast_ok : mac ethbroadcast.
Proof. split; [done|]. by apply (bool_decide_unpack _). Qed.
Lemma ethzero_ok : mac ethzero.
Proof. split; [done|]. by apply (bool_decide_unpack _). Qed.

Lemma request_ok s nif ip : link_keeps -> arp_ok s -> mac (hwaddr nif) ->
  exists r s', etharp_request linkoutput s nif ip = Ok (r, s') /\ arp_ok s' /\ arp_table s' = arp_table s /\
    etharp_cached_entry s' = etharp_cached_entry s /\ stays (mem s) (mem s') [] /\ asked nif ip (mem s) (env s) (env s').
Proof.
  intros Hk Hs Hh. destruct (raw_ok s (hwaddr nif) ethbroadcast (hwaddr nif) (if_ip_addr (eth_if nif)) ethzero ip ARP_REQUEST
    Hk Hs Hh ethbroadcast_ok Hh ethzero_ok) as (r & s' & E1 & Hs' & Ht & Hc & Hst & Hcase).
  exists r, s'. split; [exact E1|]. do 4 (split; [done|]).
  destruct Hcase as [(_ & -> & Hno)|(p & st & _ & Hd & Hr)]; [by left|]. right. exists p, st. split; [done|].
  by destruct (linkoutput (env s) st p) as [[err m] e]; simplify_eq.
Qed.

(** What [etharp_query] does with the packet [l] of [m] for the pending entry
    [e] at [n] of the table [t], when the driver is in state [d]. *)
Definition queued (t : list etharp_entry) (m : store) (d : E) (n : nat) (e : etharp_entry) (l : list Z) (r : Z) (s' : net E) : Prop :=
  (r = ERR_MEM /\ arp_table s' = t /\
     ((exists m1, stays m m1 [] /\ no_memory m1 (zlen (contents m l))) /\ env s' = d \/ memp_malloc d = (false, env s'))) \/
  (r = ERR_OK /\ memp_malloc d = (true, env s') /\
   exists p, cells m !! p = None /\ data_of (mem s') p = contents m l /\ arp_table s' = <[n := set_q e (q e ++ [p])]> t).

Lemma queue_ok s n e pkt l : arp_ok s -> outgoing (mem s) pkt l -> arp_table s !! n = Some e -> state e = ETHARP_STATE_PENDING ->
  exists r s', queue_packet memp_malloc s (Z.of_nat n) pkt = Ok (r, s') /\ arp_ok s' /\
    etharp_cached_entry s' = etharp_cached_entry s /\ stays (mem s) (mem s') [] /\
    queued (arp_table s) (mem s) (env s) n e l r s'.
Proof.
  intros Hs Ho Hn Hst. pose proof Hs as [Ht _ _ HF Hbk]. unfold queue_packet.
  destruct (take_over_ok (mem s) pkt l Hbk Ho) as [[-> Hno]|(p & m & -> & Hp & Hf & Hw & Hd & S)]; cbn [rbind].
  { rewrite set_mem_same. exists ERR_MEM, s. split; [done|]. split; [done|]. split; [done|]. split; [apply stays_refl|]. left.
    split; [done|]. split; [done|]. left. split; [|done]. exists (mem s). split; [apply stays_refl|done]. }
  rewrite (proj2 (Z.eqb_neq p 0)) by done. cbn [env set_mem]. destruct (memp_malloc (env s)) as [ok e1] eqn:Em.
  assert (arp_ok (set_mem s m)) as Hs1 by by apply arp_ok_stays.
  assert (p ∉ queues (arp_table s)) as Hq.
  { intros Hin. rewrite Forall_forall in HF. destruct (HF p Hin) as (_ & c & Ec & _). congruence. }
  destruct ok.
  - rewrite (entry_in _ (Z.of_nat n) e) by (lia || by rewrite Nat2Z.id). cbn [rbind]. eexists _, _. split; [done|].
    destruct (queue_waiting _ n e Hs Hn) as [Hnd HFq].
    split; [|split; [done|split; [done|right; split; [done|split; [done|]]]]].
    + apply (arp_ok_env E (put_entry (set_mem (set_mem s m) m) (Z.of_nat n) (set_q e (q e ++ [p])))).
      assert (p ∉ q e) as Hpq.
      { intros Hin%list_elem_of_In. apply Hq, list_elem_of_In. by eapply queues_in. }
      apply (put_ok (set_mem s m) (Z.of_nat n) e _ m []); rewrite ?Nat2Z.id; try done.
      * assert (entry_ok e) as (? & ? & Hs2) by (eapply Forall_lookup_1; [apply Ht|done]). rewrite Hst in Hs2.
        split; [split; [done|split; [done|]]; cbn; by rewrite Hst|]. intros _ j f Hj Hfj [Hne Hip]. apply Hj.
        eapply (table_unique _ Ht); try done. unfold is_empty. by rewrite Hst.
      * apply stays_refl.
      * apply NoDup_app. split; [done|]. split; [|apply NoDup_singleton]. by intros x Hx ->%list_elem_of_singleton.
      * apply Forall_app. split; [|by constructor]. rewrite Forall_forall in HFq |- *. intros x Hx.
        apply (held_stays 0 (mem s) m []); [done|by intros []|by apply HFq].
      * intros x [Hx| ->%list_elem_of_singleton]%elem_of_app; [by left|by right].
    + exists p. split; [done|]. split; [done|]. cbn. by rewrite Nat2Z.id.
  - cbn [mem set_mem]. destruct (free_waiting m p Hw) as (k & m1 & -> & U); [by apply S|]. cbn [rbind].
    assert (stays (mem s) m1 []) as S1.
    { eapply stays_drop; [|exact Hf]. eapply stays_trans; [eapply stays_weaken; [|exact S]; by intros ? []|by apply untouched_stays]. }
    eexists _, _. split; [done|]. split; [by apply (arp_ok_env E (set_mem s m1)), arp_ok_stays|].
    split; [done|]. split; [done|]. left. by repeat split; [..|right].
Qed.

Lemma none_before m m' x p : stays m m' x -> ~ In p x -> cells m' !! p = None -> cells m !! p = None.
Proof.
  intros [_ S] Hx Hp. destruct (cells m !! p) as [c|] eqn:Ec; [|done]. destruct (S p c Hx Ec) as (_ & n & En & _). congruence.
Qed.

Lemma query_pending_ok s nif ip n e pkt l : link_keeps -> arp_ok s -> mac (hwaddr nif) -> outgoing (mem s) pkt l ->
  arp_table s !! n = Some e -> state e = ETHARP_STATE_PENDING ->
  exists r s' d, query_entry linkoutput memp_malloc s nif ip pkt (Z.of_nat n) = Ok (r, s') /\ arp_ok s' /\
    etharp_cached_entry s' = etharp_cached_entry s /\ stays (mem s) (mem s') [] /\ asked nif ip (mem s) (env s) d /\
    queued (arp_table s) (mem s) d n e l r s'.
Proof.
  intros Hk Hs Hh Ho Hn Hst. unfold query_entry.
  assert (pkt <> 0) as Hp0 by (by destruct (out_head _ _ _ Ho) as (? & ? & _)).
  rewrite (entry_in s (Z.of_nat n) e) by (lia || by rewrite Nat2Z.id). cbn [rbind]. rewrite bool_decide_eq_true_2 by done.
  destruct (request_ok s nif ip Hk Hs Hh) as (r1 & s1 & -> & Hs1 & Ht1 & Hc1 & S1 & Hask). cbn [orb rbind].
  rewrite (proj2 (Z.eqb_neq pkt 0)) by done.
  assert (arp_table s1 !! n = Some e) as Hn1 by by rewrite Ht1.
  rewrite (entry_in s1 (Z.of_nat n) e) by (lia || by rewrite Nat2Z.id). cbn [rbind]. rewrite Hst.
  destruct (outgoing_stays _ _ _ _ _ S1 (fun _ _ Hin => Hin) Ho) as [Ho1 Hcont].
  destruct (queue_ok s1 n e pkt l Hs1 Ho1 Hn1 Hst) as (r & s' & -> & Hs' & Hc' & S' & Hq).
  exists r, s', (env s1). split; [done|]. split; [done|]. split; [congruence|]. split; [by eapply stays_trans|]. split; [done|].
  rewrite Ht1 in Hq. destruct Hq as [(-> & ? & Hw)|(-> & ? & p & Hf & Hd & ?)]; [left|right].
  - split; [done|]. split; [done|]. destruct Hw as [[(m1 & Sm & Hno) ?]|?]; [left|by right]. split; [|done].
    exists m1. rewrite <- Hcont. split; [by eapply stays_trans|done].
  - split; [done|]. split; [done|]. exists p. split; [|by rewrite <- Hcont].
    apply (none_before (mem s) (mem s1) []); [done|by intros []|done].
Qed.

Lemma query_stable_ok s nif ip n e pkt l : link_keeps -> arp_ok s -> mac (hwaddr nif) -> outgoing (mem s) pkt l ->
  pkt ∉ queues (arp_table s) -> arp_table s !! n = Some e -> stable e ->
  exists r s' st, query_entry linkoutput memp_malloc s nif ip pkt (Z.of_nat n) = Ok (r, s') /\ arp_ok s' /\
    arp_table s' = arp_table s /\ etharp_cached_entry s' = Z.of_nat n /\
    contents st l = ip_frame (ethaddr e) (hwaddr nif) (contents (mem s) l) /\
    (r, env s') = let '(err, _, d) := linkoutput (env s) st pkt in (err, d).
Proof.
  intros Hk Hs Hh Ho Hq Hn Hst. unfold query_entry, stable in *.
  assert (pkt <> 0) as Hp0 by (by destruct (out_head _ _ _ Ho) as (? & ? & _)).
  rewrite (entry_in s (Z.of_nat n) e) by (lia || by rewrite Nat2Z.id). cbn [rbind].
  rewrite bool_decide_eq_false_2 by by rewrite Hst. rewrite (proj2 (Z.eqb_neq pkt 0)) by done. cbn [orb rbind].
  rewrite (entry_in s (Z.of_nat n) e) by (lia || by rewrite Nat2Z.id). cbn [rbind]. rewrite Hst.
  assert (entry_ok e) as (_ & _ & He) by (eapply Forall_lookup_1; [apply Hs|done]). rewrite Hst in He.
  assert (arp_ok (set_hint s (Z.of_nat n))) as Hs1.
  { destruct Hs as [? ? ? ? ?]. split; try done. cbn. pose proof (lookup_lt_Some _ _ _ Hn).
    pose proof (table_zlen s ltac:(done)) as Hz. unfold zlen in Hz. lia. }
  destruct (send_out_ok (set_hint s (Z.of_nat n)) pkt l (hwaddr nif) (ethaddr e) Hk Hs1 Ho Hq) as
    (r & s' & st & -> & Hs' & Ht & Hc & _ & Hcont & Hr); [apply He|done|]. by exists r, s', st.
Qed.

(** A fresh entry that waits for its address. *)
Definition pending (ip : Z) (eth : list Z) : etharp_entry := EtharpEntry [] ip eth 0 ETHARP_STATE_PENDING 0.

Lemma pending_fits t n ip eth : (forall j f, j <> n -> t !! j = Some f -> ~ matches ip f) -> fits t n (pending ip eth).
Proof. intros Hno. split; [|by intros _]. by do 2 (split; [done|]). Qed.

(** The packet for an address no entry has. *)
Lemma query_new_ok s nif ip n old m pkt l : link_keeps -> arp_ok s -> mac (hwaddr nif) -> outgoing (mem s) pkt l ->
  (forall a, In a l -> a ∉ queues (arp_table s)) -> chosen (arp_table s) n old ->
  (forall j f, arp_table s !! j = Some f -> ~ matches ip f) -> untouched (mem s) m (q old) ->
  arp_ok (put_entry (set_mem s m) (Z.of_nat n) (claimed old ip)) ->
  exists r s' d, query_entry linkoutput memp_malloc
      (put_entry (set_mem s m) (Z.of_nat n) (pending ip (ethaddr old))) nif ip pkt (Z.of_nat n) = Ok (r, s') /\ arp_ok s' /\
    etharp_cached_entry s' = etharp_cached_entry s /\ asked nif ip m (env s) d /\ contents m l = contents (mem s) l /\
    queued (<[n := pending ip (ethaddr old)]> (arp_table s)) m d n (pending ip (ethaddr old)) l r s'.
Proof.
  intros Hk Hs Hh Ho Hl [Hn _] Hno Hu Hs1. assert (n < length (arp_table s))%nat as Hlt by by eapply lookup_lt_Some.
  destruct (outgoing_stays (mem s) m (q old) pkt l) as [Ho1 Hc1]; [by apply untouched_stays| |done|].
  { intros a Ha Hin. apply (Hl a Ha). apply list_elem_of_In. by eapply queues_in. }
  set (s2 := put_entry (set_mem s m) (Z.of_nat n) (pending ip (ethaddr old))).
  assert (arp_table s2 = <[n := pending ip (ethaddr old)]> (arp_table s)) as Ht2 by (cbn; by rewrite Nat2Z.id).
  assert (arp_ok s2) as Hs2.
  { assert (s2 = put_entry (set_mem (put_entry (set_mem s m) (Z.of_nat n) (claimed old ip)) m) (Z.of_nat n) (pending ip (ethaddr old))) as ->
      by (symmetry; apply (put_put_entry (set_mem s m))).
    eapply (put_ok _ _ (claimed old ip) _ m []); try done; cbn; rewrite ?Nat2Z.id; [by apply list_lookup_insert_eq| |apply stays_refl|..].
    - apply pending_fits. intros j f Hj Hf. rewrite list_lookup_insert_ne in Hf by done. by eapply Hno.
    - apply NoDup_nil_2.
    - by intros p ?%elem_of_nil. }
  destruct (query_pending_ok s2 nif ip n (pending ip (ethaddr old)) pkt l Hk Hs2 Hh Ho1) as (r & s' & d & -> & Hs' & Hc & _ & Ha & Hq);
    [rewrite Ht2; by apply list_lookup_insert_eq|done|].
  exists r, s', d. rewrite Ht2 in Hq. done.
Qed.

(** C5: address resolution.  A packet for a unicast address always finds an entry: it is sent at once with the Ethernet address of a stable entry, whose index becomes the hint; otherwise a request goes out for the address and a copy of the packet is queued behind those that wait already, on the pending entry there is or on the least important one of the table, unless memory or queue entries run out. *)
Theorem etharp_query_spec s nif ip pkt l : link_keeps -> arp_ok s -> mac (hwaddr nif) -> outgoing (mem s) pkt l ->
  (forall a, In a l -> a ∉ queues (arp_table s)) ->
  exists r s', etharp_query linkoutput memp_malloc s nif ip pkt = Ok (r, s') /\ arp_ok s' /\
    if not_unicast ip nif then r = ERR_ARG /\ s' = s
    else
     (exists n e st, arp_table s !! n = Some e /\ matches ip e /\ stable e /\ arp_table s' = arp_table s /\
        etharp_cached_entry s' = Z.of_nat n /\ contents st l = ip_frame (ethaddr e) (hwaddr nif) (contents (mem s) l) /\
        (r, env s') = let '(err, _, d) := linkoutput (env s) st pkt in (err, d)) \/
     (exists n t e m d, etharp_cached_entry s' = etharp_cached_entry s /\ asked nif ip m (env s) d /\
        queued t m d n e l r s' /\ contents m l = contents (mem s) l /\
        (arp_table s !! n = Some e /\ matches ip e /\ state e = ETHARP_STATE_PENDING /\ t = arp_table s /\ m = mem s \/
         exists old, (forall j f, arp_table s !! j = Some f -> ~ matches ip f) /\ chosen (arp_table s) n old /\
           e = pending ip (ethaddr old) /\ t = <[n := e]> (arp_table s) /\ untouched (mem s) m (q old))).
Proof.
  intros Hk Hs Hh Ho Hl. unfold etharp_query.
  assert (ip4_addr_isbroadcast ip (eth_if nif) || ip_addr_ismulticast ip || (ip =? IPADDR_ANY) = not_unicast ip nif) as ->.
  { unfold not_unicast. by rewrite orb_comm, orb_assoc. }
  destruct (not_unicast ip nif); [by exists ERR_ARG, s|].
  assert (pkt ∉ queues (arp_table s)) as Hpq.
  { apply Hl. pose proof (packet_chain _ _ _ (out_packet _ _ _ Ho)) as Hch. destruct (out_head _ _ _ Ho) as (k & Hp0 & _).
    destruct l; [done|]. destruct Hch as (-> & _). by left. }
  destruct (find_entry_ok s ip ETHARP_FLAG_TRY_HARD Hs) as (i & s1 & -> & Hs1 & Hcase). cbn [rbind].
  destruct Hcase as [(n & e & -> & -> & Hn & Hm)|(Hno & [(_ & _ & [?|[? _]])|(_ & n & old & m & -> & Hch & _ & -> & Hu)])]; [|done|done|].
  - rewrite (proj2 (Z.ltb_ge _ _)) by lia. rewrite (entry_in s (Z.of_nat n) e) by (lia || by rewrite Nat2Z.id). cbn [rbind].
    pose proof Hm as [-> _]. destruct (state e) eqn:Est; [destruct Hm as [Hm _]; unfold is_empty in Hm; by rewrite Est in Hm| |].
    + destruct (query_pending_ok s nif ip n e pkt l Hk Hs Hh Ho Hn Est) as (r & s' & d & -> & Hs' & Hc & _ & Ha & Hq).
      exists r, s'. split; [done|]. split; [done|]. right. exists n, (arp_table s), e, (mem s), d. do 4 (split; [done|]). by left.
    + destruct (query_stable_ok s nif ip n e pkt l Hk Hs Hh Ho Hpq Hn Est) as (r & s' & st & -> & Hs' & Ht & Hc & Hcont & Hr).
      exists r, s'. split; [done|]. split; [done|]. left. by exists n, e, st.
  - rewrite (proj2 (Z.ltb_ge _ _)) by lia. set (s1 := put_entry (set_mem s m) (Z.of_nat n) (claimed old ip)) in *.
    assert (n < length (arp_table s))%nat as Hlt by (eapply lookup_lt_Some; apply Hch).
    rewrite (entry_in s1 (Z.of_nat n) (claimed old ip)) by (lia || (cbn; rewrite Nat2Z.id; by apply list_lookup_insert_eq)).
    cbn [rbind]. change (is_empty (claimed old ip)) with true. cbn iota.
    assert (put_entry s1 (Z.of_nat n) (set_state (claimed old ip) ETHARP_STATE_PENDING) =
      put_entry (set_mem s m) (Z.of_nat n) (pending ip (ethaddr old))) as ->.
    { unfold s1. rewrite put_put_entry. unfold set_state, claimed, pending. cbn.
      assert (entry_ok old) as (_ & -> & _) by (eapply Forall_lookup_1; [apply Hs|apply Hch]). done. }
    destruct (query_new_ok s nif ip n old m pkt l Hk Hs Hh Ho Hl Hch Hno Hu Hs1) as (r & s' & d & -> & Hs' & Hc & Ha & Hcont & Hq).
    exists r, s'. split; [done|]. split; [done|]. right. eexists n, _, _, m, d. split; [done|]. split; [done|]. split; [exact Hq|].
    split; [done|]. right. by exists old.
Qed.

(** Resolution.  [update_arp_entry] never faults and keeps the invariant.  It refuses addresses that are not unicast, changes nothing when there is no entry and it may not create one, and otherwise makes the entry stable with the Ethernet address given; the packets that waited on it go to the driver, each once and in the order they were queued, with their first fourteen bytes replaced by the Ethernet header and nothing else changed, and the queue is empty. *)
Theorem update_arp_entry_resolves s nif ip eth flags : link_keeps -> arp_ok s -> mac eth -> mac (hwaddr nif) ->
  exists r s', update_arp_entry linkoutput s nif ip eth flags = Ok (r, s') /\ arp_ok s' /\ updated s nif ip eth flags r s'.
Proof. apply update_ok. Qed.

(** A request.  [etharp_request] hands the driver one fresh packet of 42 bytes, the broadcast of the question who has the address, and frees it again; the table, the queues and their packets are as before.  Without memory it returns [ERR_MEM] and does nothing. *)
Theorem etharp_request_frame s nif ip : link_keeps -> arp_ok s -> mac (hwaddr nif) ->
  exists r s', etharp_request linkoutput s nif ip = Ok (r, s') /\ arp_ok s' /\ arp_table s' = arp_table s /\
    etharp_cached_entry s' = etharp_cached_entry s /\ stays (mem s) (mem s') [] /\
    (r = ERR_MEM /\ s' = s /\ no_memory (mem s) 42 \/
     exists p st, cells (mem s) !! p = None /\ (r, env s') = (let '(err, _, e) := linkoutput (env s) st p in (err, e)) /\
       data_of st p = [255; 255; 255; 255; 255; 255] ++ hwaddr nif ++ [8; 6; 0; 1; 8; 0; 6; 4; 0; 1] ++
         hwaddr nif ++ u32_bytes (if_ip_addr (eth_if nif)) ++ [0; 0; 0; 0; 0; 0] ++ u32_bytes ip).
Proof.
  intros Hk Hs Hh. destruct (raw_ok s (hwaddr nif) ethbroadcast (hwaddr nif) (if_ip_addr (eth_if nif)) ethzero ip ARP_REQUEST
    Hk Hs Hh ethbroadcast_ok Hh ethzero_ok) as (r & s' & E1 & Hs' & Ht & Hc & Hst & Hcase).
  exists r, s'. split; [exact E1|]. do 4 (split; [done|]).
  destruct Hcase as [?|(p & st & Hf & Hd & Hr)]; [by left|]. right. exists p, st. by rewrite Hd.
Qed.
End packets.

(** A driver that logs the frames it is given, on a host 10.0.0.2. *)
Definition log_link (e : list (list Z)) (m : store) (p : Z) : Z * store * list (list Z) := (ERR_OK, m, e ++ [data_of m p]).
Definition no_log : list (list Z) := [].
Lemma log_link_keeps : link_keeps log_link.
Proof. intros e m p. cbn. apply stays_refl. Qed.
Definition eth0 : ethif := EthIf (Iface 0x22 (address_of 10 0 0 2) (address_of 255 255 255 0)) 0 (mac_of 9) 1.
Lemma eth0_mac : mac (hwaddr eth0).
Proof. split; [done|by apply (bool_decide_unpack _)]. Qed.
Lemma mac_of_7 : mac (mac_of 7).
Proof. split; [done|by apply (bool_decide_unpack _)]. Qed.

Lemma update_arp_entry_resolves_witness :
  arp_ok (some_net no_log) /\
  exists r s', update_arp_entry log_link (some_net no_log) eth0 200 (mac_of 7) ETHARP_FLAG_FIND_ONLY = Ok (r, s') /\ arp_ok s' /\
    updated log_link (some_net no_log) eth0 200 (mac_of 7) ETHARP_FLAG_FIND_ONLY r s'.
Proof.
  split; [apply some_net_ok|].
  apply (update_arp_entry_resolves log_link (some_net no_log) eth0 200 (mac_of 7) ETHARP_FLAG_FIND_ONLY log_link_keeps
    (some_net_ok no_log) mac_of_7 eth0_mac).
Defined.

Lemma etharp_request_frame_witness :
  arp_ok (some_net no_log) /\
  exists r s', etharp_request log_link (some_net no_log) eth0 300 = Ok (r, s') /\ arp_ok s' /\ arp_table s' = some_entries.
Proof.
  split; [apply some_net_ok|].
  destruct (etharp_request_frame log_link (some_net no_log) eth0 300 log_link_keeps (some_net_ok no_log) eth0_mac) as
    (r & s' & H1 & H2 & H3 & _).
  exists r, s'. split; [exact H1|]. split; [exact H2|exact H3].
Defined.

(** A packet with the bytes [d], apart from the queue. *)
Definition frame_pbuf (d : list Z) : pbuf := Pbuf 0 (600, 20) (zlen d) (zlen d) PBUF_RAM 0 1.
Definition with_frame (d : list Z) : store :=
  Store (<[600 := frame_pbuf d]> (cells one_waiting)) (<[600 := replicate 20 0 ++ d]> (blocks one_waiting)).
Definition frame_net {E} (d : list Z) (e : E) : net E := Net some_entries 0 (with_frame d) e.

Section frame.
Context (d : list Z) (Hd : bytes d) (Hl : SIZEOF_ETH_HDR <= zlen d < 65536).

Lemma frame_cell : cells (with_frame d) !! 600 = Some (frame_pbuf d).
Proof using Type. apply lookup_insert_eq. Qed.
Lemma frame_data : data_of (with_frame d) 600 = d.
Proof using Type.
  unfold data_of. rewrite frame_cell. unfold cell_data, frame_pbuf, with_frame. cbn [payload fst snd len blocks].
  rewrite lookup_insert_eq. cbn [default from_option]. unfold id, zlen. rewrite Nat2Z.id.
  by rewrite drop_app_length', firstn_all by done.
Qed.
Lemma frame_held : waiting (with_frame d) 600.
Proof using Type*.
  pose proof frame_data as Hdat. unfold data_of in Hdat. rewrite frame_cell in Hdat.
  split; [done|]. exists (frame_pbuf d). split; [apply frame_cell|]. do 2 (split; [done|]). split; [|by split; [|apply Hl]].
  split; [unfold is_u16; cbn; unfold SIZEOF_ETH_HDR in Hl; lia|]. split; [done|]. split; [by rewrite Hdat|]. intros _.
  eexists. split; [apply lookup_insert_eq|]. unfold frame_pbuf, zlen. cbn [payload snd len]. rewrite length_app. cbn. lia.
Qed.
Lemma frame_net_ok {E} (e : E) : arp_ok (frame_net d e).
Proof using Type.
  assert (untouched one_waiting (with_frame d) [600]) as Hu.
  { split.
    - intros Hbk a. unfold with_frame. cbn [cells blocks]. destruct (decide (a = 600)) as [->|Hne]; [intros _; rewrite lookup_insert_eq; by eexists|].
      rewrite !lookup_insert_ne by done. apply Hbk.
    - intros a Ha. unfold with_frame. cbn [cells blocks]. rewrite !lookup_insert_ne by (intros <-; apply Ha; by left). done. }
  apply (arp_ok_env _ (set_mem (some_net e) (with_frame d))). eapply stays_put; [apply some_net_ok|apply untouched_stays, Hu|].
  intros p [<-|[]]. by apply (bool_decide_unpack _).
Qed.
Lemma frame_outgoing : outgoing (with_frame d) 600 [600].
Proof using Type*.
  pose proof frame_held as Hh. pose proof Hh as (_ & c & Ec & _ & _ & Hok & _). rewrite frame_cell in Ec. injection Ec as <-.
  assert (contents (with_frame d) [600] = d) as Hc by (unfold contents; cbn [map concat]; by rewrite app_nil_r, frame_data).
  split; [|by exists 0|].
  - split; [| |split; [rewrite frame_cell; cbn [totals_ok]; by rewrite Hc|done]|rewrite Hc; lia].
    + split; [done|]. split; [done|]. eexists. split; [apply frame_cell|done].
    + apply Forall_singleton. unfold pbuf_ok. by rewrite frame_cell.
  - apply Forall_singleton. exists (frame_pbuf d). split; [apply frame_cell|]. split; [done|]. unfold SIZEOF_ETH_HDR in Hl.
    split; [cbn; lia|done].
Qed.
End frame.

Definition twenty : list Z := replicate 20 0.
Lemma twenty_bytes : bytes twenty.
Proof. by apply Forall_replicate. Qed.
Lemma twenty_long : SIZEOF_ETH_HDR <= zlen twenty < 65536.
Proof. done. Qed.

Lemma etharp_query_spec_witness :
  arp_ok (frame_net twenty no_log) /\ outgoing (with_frame twenty) 600 [600] /\
  exists r s', etharp_query log_link (fun e => (true, e)) (frame_net twenty no_log) eth0 100 600 = Ok (r, s') /\ arp_ok s'.
Proof.
  split; [apply frame_net_ok|]. split; [exact (frame_outgoing twenty twenty_bytes twenty_long)|].
  destruct (etharp_query_spec log_link (fun e => (true, e)) (frame_net twenty no_log) eth0 100 600 [600] log_link_keeps
    (frame_net_ok twenty no_log) eth0_mac (frame_outgoing twenty twenty_bytes twenty_long)) as (r & s' & H1 & H2 & _);
    [|exists r, s'; exact (conj H1 H2)].
  intros a [<-|[]]. by apply (bool_decide_unpack _).
Defined.
