(* ===== verification/EtharpInput.v ===== *)
(** * Received frames: the input side of [lwip/netif/etharp.c].

    [etharp_arp_input] on every frame, and the frames [ethernet_input] drops. *)
From S2P Require Import Prelude Cobs Uart Comm Message Pbuf PbufChain PbufTrim PbufCopy InetChksum IpAddr IpHdr Etharp EtharpTable EtharpPackets.
From stdpp Require Import list gmap.
#[local] Open Scope Z_scope.

(** A valid ARP frame: long enough, ARP over Ethernet for IP. *)
Definition arp_valid (d : list Z) : bool :=
  (SIZEOF_ETHARP_PACKET <=? zlen d) && bool_decide (part d 12 8 = [8; 6; 0; 1; 8; 0; 6; 4]).

Definition sender_ip (d : list Z) : Z := address_at d 28.
Definition target_ip (d : list Z) : Z := address_at d 38.
Definition sender_mac (d : list Z) : list Z := part d 22 6.
Definition is_for_us (d : list Z) (nif : ethif) : bool :=
  negb (if_ip_addr (eth_if nif) =? IPADDR_ANY) && (target_ip d =? if_ip_addr (eth_if nif)).
Definition opcode_of (d : list Z) : list Z := part d 20 2.

(** The answer to the request [d], written over it: both Ethernet addresses
    and both halves of the ARP packet change places. *)
Definition arp_answer (d : list Z) (nif : ethif) : list Z :=
  sender_mac d ++ hwaddr nif ++ part d 12 8 ++ [0; 2] ++
  hwaddr nif ++ u32_bytes (if_ip_addr (eth_if nif)) ++ sender_mac d ++ part d 28 4 ++ drop 42 d.

(** ** Reading fields *)
Lemma field_held k m p c off n : held k m p -> cells m !! p = Some c -> 0 <= off -> 0 <= n -> off + n <= len c ->
  field m c off n = Ok (part (data_of m p) (Z.to_nat off) (Z.to_nat n)).
Proof.
  intros (_ & c' & Ec' & _ & _ & Hok & _) Ec Ho Hn Hl. assert (c' = c) as -> by congruence.
  unfold field. rewrite load_ok by done. unfold data_of. by rewrite Ec.
Qed.

Lemma fields_are_held k m p c off l : held k m p -> cells m !! p = Some c -> 0 <= off -> off + zlen l <= len c ->
  fields_are m c off l = Ok (bool_decide (part (data_of m p) (Z.to_nat off) (length l) = l)).
Proof.
  intros Hh Ec Ho Hl. unfold fields_are. rewrite (field_held k m p c) by (done || apply zlen_nonneg). cbn [rbind].
  unfold zlen. by rewrite Nat2Z.id.
Qed.

Ltac forty_two d Hl :=
  do 42 (destruct d as [|? d]; [cbn in Hl; lia|]).

Lemma arp_header_held k m p c : held k m p -> cells m !! p = Some c -> SIZEOF_ETHARP_PACKET <= len c ->
  arp_header_ok m c = Ok (arp_valid (data_of m p)).
Proof.
  intros Hh Ec Hl. pose proof (held_length k m p c Hh Ec) as Hz. unfold arp_header_ok, arp_valid.
  rewrite (proj2 (Z.leb_le _ _)) by lia. change SIZEOF_ETHARP_PACKET with 42 in *.
  rewrite !(fields_are_held k m p c) by (done || unfold zlen; cbn; lia). cbn [rbind andb]. f_equal.
  set (d := data_of m p) in *. assert (42 <= length d)%nat as Hd by (unfold zlen in *; lia). clearbody d.
  change (be16 HWTYPE_ETHERNET) with [0; 1]. change (be16 ETHTYPE_IP) with [8; 0]. change (be16 ETHTYPE_ARP) with [8; 6].
  forty_two d Hd. apply Bool.eq_iff_eq_true. rewrite !andb_true_iff, !bool_decide_eq_true. clear. unfold part. simpl.
  unfold ETHARP_HWADDR_LEN. intuition congruence.
Qed.

(** ** The answer *)

(** The seven stores of [make_reply], on the bytes of the frame. *)
Definition replied (d : list Z) (nif : ethif) : list Z :=
  let d := splice d 20 (be16 ARP_REPLY) in
  let d := splice d 38 (part d 28 4) in
  let d := splice d 28 (u32_bytes (if_ip_addr (eth_if nif))) in
  let d := splice d 32 (part d 22 6) in
  let d := splice d 0 (part d 22 6) in
  splice (splice d 22 (hwaddr nif)) 6 (hwaddr nif).

Lemma replied_answer d nif : (42 <= length d)%nat -> mac (hwaddr nif) -> replied d nif = arp_answer d nif.
Proof.
  intros Hd [Hh _]. unfold arp_answer, sender_mac. unfold replied. destruct (hwaddr nif) as [|? h]; [done|].
  do 5 (destruct h as [|? h]; [done|]). destruct h; [|done]. forty_two d Hd. reflexivity.
Qed.

Section store.
Context (k : Z) (p : Z) (c : pbuf) (Hlen : SIZEOF_ETHARP_PACKET <= len c).

(** One store into the frame, and one after reading a field. *)
Lemma frame_save m off x : held k m p -> cells m !! p = Some c -> 0 <= off -> off + zlen x <= 42 -> bytes x ->
  exists m', save m (payload c) off x = Ok m' /\ untouched m m' [p] /\ held k m' p /\ cells m' !! p = Some c /\
    data_of m' p = splice (data_of m p) off x.
Proof.
  intros Hh Ec Ho Hx Hb. change SIZEOF_ETHARP_PACKET with 42 in Hlen.
  destruct (held_save k m p c off x) as (m' & E1 & E2 & E3 & E4 & E5); [done..|lia|done|]. exists m'. by rewrite E4.
Qed.

Lemma frame_field m off n : held k m p -> cells m !! p = Some c -> 0 <= off -> 0 <= n -> off + n <= 42 ->
  field m c off n = Ok (part (data_of m p) (Z.to_nat off) (Z.to_nat n)) /\
  bytes (part (data_of m p) (Z.to_nat off) (Z.to_nat n)) /\ zlen (part (data_of m p) (Z.to_nat off) (Z.to_nat n)) = n.
Proof.
  intros Hh Ec Ho Hn Hx. change SIZEOF_ETHARP_PACKET with 42 in Hlen.
  pose proof (held_length k m p c Hh Ec) as Hz. split; [apply (field_held k); done || lia|].
  split; [|unfold zlen in *; rewrite part_length; lia].
  apply part_bytes. destruct Hh as (_ & c' & Ec' & _ & _ & Hok & _). unfold data_of. rewrite Ec'. by apply cell_data_bytes.
Qed.

Lemma make_reply_ok m nif : held k m p -> cells m !! p = Some c -> mac (hwaddr nif) ->
  exists m', make_reply m c nif = Ok m' /\ untouched m m' [p] /\ held k m' p /\ cells m' !! p = Some c /\
    data_of m' p = arp_answer (data_of m p) nif.
Proof.
  intros Hh Ec Hm. pose proof Hm as [Hml Hmb]. unfold make_reply.
  destruct (frame_save m 20 (be16 ARP_REPLY)) as (m1 & -> & U1 & H1 & E1 & D1); [done..|done|apply be16_ok|]. cbn [rbind].
  destruct (frame_field m1 28 4) as (-> & B1 & L1); [done..|]. cbn [rbind].
  destruct (frame_save m1 38 (part (data_of m1 p) (Z.to_nat 28) (Z.to_nat 4))) as (m2 & -> & U2 & H2 & E2 & D2); [done..|rewrite L1; lia|done|]. cbn [rbind].
  destruct (frame_save m2 28 (u32_bytes (if_ip_addr (eth_if nif)))) as (m3 & -> & U3 & H3 & E3 & D3);
    [done..|done|apply u32_bytes_ok|]. cbn [rbind].
  destruct (frame_field m3 22 6) as (-> & B3 & L3); [done..|]. cbn [rbind].
  destruct (frame_save m3 32 (part (data_of m3 p) (Z.to_nat 22) (Z.to_nat 6))) as (m4 & -> & U4 & H4 & E4 & D4); [done..|rewrite L3; lia|done|]. cbn [rbind].
  destruct (frame_field m4 22 6) as (-> & B4 & L4); [done..|]. cbn [rbind].
  destruct (frame_save m4 0 (part (data_of m4 p) (Z.to_nat 22) (Z.to_nat 6))) as (m5 & -> & U5 & H5 & E5 & D5); [done..|rewrite L4; lia|done|]. cbn [rbind].
  destruct (frame_save m5 22 (hwaddr nif)) as (m6 & -> & U6 & H6 & E6 & D6); [done..|unfold zlen; lia|done|]. cbn [rbind].
  destruct (frame_save m6 6 (hwaddr nif)) as (m7 & -> & U7 & H7 & E7 & D7); [done..|unfold zlen; lia|done|].
  exists m7. split; [done|]. split; [by do 6 (eapply untouched_trans; [done|])|]. split; [done|]. split; [done|].
  rewrite <- replied_answer by (done || (pose proof (held_length k m p c Hh Ec); change SIZEOF_ETHARP_PACKET with 42 in Hlen; unfold zlen in *; lia)).
  by rewrite D7, D6, D5, D4, D3, D2, D1.
Qed.
End store.

(** ** Received packets *)

Section input.
Context `{OsLaws} {E : Type}.
Implicit Type s : net E.
Context (linkoutput : E -> store -> Z -> Z * store * E) (dhcp_arp_reply : net E -> Z -> result (net E)).

(** A frame of the driver's: no queue holds it. *)
Definition delivered s (p : Z) : Prop := waiting (mem s) p /\ p ∉ queues (arp_table s).

(** [dhcp_arp_reply] may send, but keeps the table and the frame. *)
Definition reply_keeps : Prop := forall s a p, arp_ok s -> delivered s p ->
  exists s', dhcp_arp_reply s a = Ok s' /\ arp_ok s' /\ delivered s' p.

Lemma free_delivered s p : arp_ok s -> delivered s p ->
  exists m, free_packet s p = Ok (set_mem s m) /\ arp_ok (set_mem s m) /\ stays (mem s) m [p].
Proof.
  intros Hs [Hw Hq]. unfold free_packet. destruct (free_waiting (mem s) p Hw) as (n & m & -> & U); [apply Hs|]. cbn [rbind].
  exists m. split; [done|]. apply untouched_stays in U. split; [|done]. eapply stays_put; [done..|]. by intros x [<-|[]].
Qed.

Lemma updated_delivered s nif ip eth flags r s1 p : updated linkoutput s nif ip eth flags r s1 -> delivered s p ->
  delivered s1 p /\ data_of (mem s1) p = data_of (mem s) p /\
  forall c, cells (mem s) !! p = Some c -> exists n, cells (mem s1) !! p = Some (set_ref c n).
Proof.
  intros Hu [Hw Hq].
  assert (s1 = s \/ exists n e, arp_table s !! n = Some e /\ arp_table s1 = <[n := resolved ip eth]> (arp_table s) /\
    stays (mem s) (mem s1) (q e)) as [->|(n & e & Hn & Ht & S)].
  { destruct Hu as [(_ & ? & _)|(_ & [(_ & ? & _)|(_ & n & e & ps & Hn & Ht & _ & S & _)])]; [by left..|]. right. by exists n, e. }
  { split; [done|]. split; [done|]. intros c Ec. exists (ref c). by rewrite set_ref_same. }
  assert (~ In p (q e)) as Hpq by (intros Hin; apply Hq, list_elem_of_In; by eapply queues_in).
  destruct (held_stays 0 (mem s) (mem s1) (q e) p S Hpq Hw) as [Hw1 Hd].
  split; [|split; [done|intros c Ec; destruct (proj2 S p c Hpq Ec) as (_ & k & Ek & _); by exists k]].
  split; [done|]. rewrite Ht.
  destruct (queues_insert _ _ _ (resolved ip eth) Hn) as (l1 & l2 & E1 & ->). rewrite E1 in Hq. cbn.
  rewrite !elem_of_app in *. tauto.
Qed.

(** What [etharp_arp_input] makes of the frame [d] at [p], before it frees it. *)
Definition arp_taken s (nif : ethif) (p : Z) (d : list Z) (s2 : net E) : Prop :=
  if arp_valid d then
    exists r s1, updated linkoutput s nif (sender_ip d) (sender_mac d)
        (if is_for_us d nif then ETHARP_FLAG_TRY_HARD else ETHARP_FLAG_FIND_ONLY) r s1 /\
      if bool_decide (opcode_of d = [0; 1]) then
        if is_for_us d nif then
          exists st, data_of st p = arp_answer d nif /\ stays (mem s1) st [p] /\
            s2 = let '(_, m, e) := linkoutput (env s1) st p in Net (arp_table s1) (etharp_cached_entry s1) m e
        else s2 = s1
      else if bool_decide (opcode_of d = [0; 2]) then dhcp_arp_reply s1 (sender_ip d) = Ok s2
      else s2 = s1
  else s2 = s.

Lemma answer_ok s nif p c : link_keeps linkoutput -> arp_ok s -> delivered s p -> mac (hwaddr nif) ->
  cells (mem s) !! p = Some c -> SIZEOF_ETHARP_PACKET <= len c ->
  exists st, make_reply (mem s) c nif = Ok st /\ data_of st p = arp_answer (data_of (mem s) p) nif /\ stays (mem s) st [p] /\
    let '(_, m, e) := linkoutput (env s) st p in
    arp_ok (Net (arp_table s) (etharp_cached_entry s) m e) /\ delivered (Net (arp_table s) (etharp_cached_entry s) m e) p.
Proof.
  intros Hk Hs [Hw Hq] Hm Ec Hl. destruct (make_reply_ok 0 p c Hl (mem s) nif Hw Ec Hm) as (st & E1 & U & H1 & _ & D1).
  exists st. split; [done|]. split; [done|]. apply untouched_stays in U. split; [done|].
  specialize (Hk (env s) st p). destruct (linkoutput (env s) st p) as [[err m] e].
  assert (stays (mem s) m [p]) as S by (eapply stays_trans; [exact U|]; eapply stays_weaken; [|exact Hk]; by intros ? []).
  split; [apply (arp_ok_env E (set_mem s m)); eapply stays_put; [done..|]; by intros x [<-|[]]|].
  split; [|done]. apply (held_stays 0 st m []); [done|by intros []|done].
Qed.

Abbreviation arp_input := (etharp_arp_input linkoutput dhcp_arp_reply).

(** The part of [etharp_arp_input] after the update. *)
Lemma acted_ok s nif p c d r s1 : link_keeps linkoutput -> reply_keeps -> arp_ok s1 -> mac (hwaddr nif) ->
  cells (mem s) !! p = Some c -> SIZEOF_ETHARP_PACKET <= len c -> arp_valid d = true ->
  updated linkoutput s nif (sender_ip d) (sender_mac d) (if is_for_us d nif then ETHARP_FLAG_TRY_HARD else ETHARP_FLAG_FIND_ONLY) r s1 ->
  delivered s1 p -> data_of (mem s1) p = d -> (exists n, cells (mem s1) !! p = Some (set_ref c n)) ->
  exists s2, (forall K : net E -> result (net E),
    (let! request := fields_are (mem s1) c 20 (be16 ARP_REQUEST) in
     let! reply := fields_are (mem s1) c 20 (be16 ARP_REPLY) in
     let! s := (if (request : bool) then
         if is_for_us d nif then
           let! m := make_reply (mem s1) c nif in
           let '(_, m, e) := linkoutput (env s1) m p in
           Ok (Net (arp_table s1) (etharp_cached_entry s1) m e)
         else Ok s1
       else if (reply : bool) then dhcp_arp_reply s1 (sender_ip d)
       else Ok s1) in K s) = K s2) /\ arp_ok s2 /\ delivered s2 p /\ arp_taken s nif p d s2.
Proof.
  intros Hk Hrk Hs1 Hm Ec Hl Hv Hu Hdel Hd [n Ec1]. pose proof Hdel as [Hw Hq].
  change SIZEOF_ETHARP_PACKET with 42 in Hl.
  change (fields_are (mem s1) c) with (fields_are (mem s1) (set_ref c n)).
  rewrite (fields_are_held 0 (mem s1) p (set_ref c n) 20 (be16 ARP_REQUEST) Hw Ec1) by (unfold zlen; cbn; lia). cbn [rbind].
  rewrite (fields_are_held 0 (mem s1) p (set_ref c n) 20 (be16 ARP_REPLY) Hw Ec1) by (unfold zlen; cbn; lia). cbn [rbind].
  rewrite Hd. unfold arp_taken. rewrite Hv. change (be16 ARP_REQUEST) with [0; 1]. change (be16 ARP_REPLY) with [0; 2].
  change (part d (Z.to_nat 20) (length [0; 1])) with (opcode_of d). change (part d (Z.to_nat 20) (length [0; 2])) with (opcode_of d).
  case_bool_decide as Hop.
  - destruct (is_for_us d nif) eqn:Efu; [|exists s1; repeat (split; [done|]); by exists r, s1].
    destruct (answer_ok s1 nif p (set_ref c n) Hk Hs1 Hdel Hm Ec1) as (st & Est & Hst & S & Hout); [done|].
    change (make_reply (mem s1) c nif) with (make_reply (mem s1) (set_ref c n) nif). rewrite Est. cbn [rbind].
    destruct (linkoutput (env s1) st p) as [[err m] e] eqn:El. destruct Hout as [Ho1 Ho2].
    eexists. split; [done|]. split; [done|]. split; [done|]. exists r, s1. split; [done|]. exists st.
    rewrite Hst, Hd, El. done.
  - case_bool_decide; [|exists s1; repeat (split; [done|]); by exists r, s1].
    destruct (Hrk s1 (sender_ip d) p Hs1 Hdel) as (s2 & Er & ? & ?). exists s2.
    split; [intros K; by rewrite Er|]. split; [done|]. split; [done|]. by exists r, s1.
Qed.

(** C6: received ARP frames.  [etharp_arp_input] takes any frame without a fault, keeps the invariant and frees the frame.  A frame that is too short or not ARP over Ethernet for IP changes nothing else.  Any other updates the entry of its sender, creating it only when the frame is for this host; a request for this host's address is answered with its addresses exchanged and this host's filled in, a reply is shown to DHCP, and nothing else happens. *)
Theorem etharp_arp_input_spec s nif p : link_keeps linkoutput -> reply_keeps -> arp_ok s -> delivered s p -> mac (hwaddr nif) ->
  exists s2 m, arp_input s nif p = Ok (set_mem s2 m) /\ arp_ok (set_mem s2 m) /\ stays (mem s2) m [p] /\
    arp_taken s nif p (data_of (mem s) p) s2.
Proof.
  intros Hk Hrk Hs Hdel Hm. pose proof Hdel as [Hw Hq]. pose proof Hw as (Hp0 & c & Ec & _ & _ & Hok & _).
  pose proof (held_length 0 (mem s) p c Hw Ec) as Hz. set (d := data_of (mem s) p) in *.
  assert (bytes d) as Hb by (unfold d, data_of; rewrite Ec; by apply cell_data_bytes).
  unfold etharp_arp_input. rewrite (deref_ok _ p c) by done. cbn [rbind].
  assert (forall s2, arp_ok s2 -> delivered s2 p -> arp_taken s nif p d s2 ->
    exists s3 m, free_packet s2 p = Ok (set_mem s3 m) /\ arp_ok (set_mem s3 m) /\ stays (mem s3) m [p] /\ arp_taken s nif p d s3) as Hend.
  { intros s2 Hs2 Hd2 Ht. destruct (free_delivered s2 p Hs2 Hd2) as (m & ? & ? & ?). by exists s2, m. }
  assert (arp_valid d = false -> exists s2 m, free_packet s p = Ok (set_mem s2 m) /\ arp_ok (set_mem s2 m) /\
    stays (mem s2) m [p] /\ arp_taken s nif p d s2) as Hbad.
  { intros Hv. destruct (free_delivered s p Hs Hdel) as (m & ? & ? & ?). exists s, m. unfold arp_taken. by rewrite Hv. }
  destruct (Z.ltb_spec (len c) SIZEOF_ETHARP_PACKET) as [Hlt|Hl].
  { apply Hbad. unfold arp_valid. by rewrite (proj2 (Z.leb_gt _ _)) by lia. }
  rewrite (arp_header_held 0 (mem s) p c) by done. cbn [rbind]. fold d. destruct (arp_valid d) eqn:Hv; [|by apply Hbad].
  cbn [negb]. pose proof Hl as Hl'. change SIZEOF_ETHARP_PACKET with 42 in Hl. assert (42 <= length d)%nat as Hd by (unfold zlen in Hz; lia).
  rewrite !(field_held 0 (mem s) p c) by (done || lia). cbn [rbind]. fold d.
  change (part d (Z.to_nat 28) (Z.to_nat 4)) with (part d 28 4). change (part d (Z.to_nat 38) (Z.to_nat 4)) with (part d 38 4).
  rewrite !address_read by (done || lia). cbn [rbind]. fold (sender_ip d) (target_ip d).
  change (part d (Z.to_nat 22) (Z.to_nat 6)) with (sender_mac d). fold (is_for_us d nif).
  assert (mac (sender_mac d)) as Hsm by (split; [apply part_length; lia|by apply part_bytes]).
  destruct (update_ok linkoutput s nif (sender_ip d) (sender_mac d) (if is_for_us d nif then ETHARP_FLAG_TRY_HARD else ETHARP_FLAG_FIND_ONLY)
    Hk Hs Hsm Hm) as (r & s1 & -> & Hs1 & Hu). cbn [rbind].
  destruct (updated_delivered s nif _ _ _ r s1 p Hu Hdel) as (Hdel1 & Hd1 & Hc1).
  destruct (acted_ok s nif p c d r s1 Hk Hrk Hs1 Hm Ec Hl' Hv Hu Hdel1 Hd1 (Hc1 c Ec)) as (s2 & Hact & Hs2 & Hdel2 & Ht).
  rewrite Hact. exact (Hend s2 Hs2 Hdel2 Ht).
Qed.

(** ** [ethernet_input] *)

Context (ip_input : net E -> Z -> result (net E)).
Abbreviation frame_input := (ethernet_input linkoutput ip_input dhcp_arp_reply).

Definition ethtype_of (d : list Z) : list Z := part d 12 2.
Definition speaks_arp (nif : ethif) : bool := negb (Z.land (if_flags (eth_if nif)) NETIF_FLAG_ETHARP =? 0).
(** The source address of the IP packet in a frame. *)
Definition ip_source (d : list Z) : Z := address_at d 26.

Lemma ip_input_ok s nif p c : link_keeps linkoutput -> arp_ok s -> delivered s p -> mac (hwaddr nif) ->
  cells (mem s) !! p = Some c -> 34 <= len c ->
  exists s1, etharp_ip_input linkoutput s nif p = Ok s1 /\ arp_ok s1 /\ delivered s1 p /\
    data_of (mem s1) p = data_of (mem s) p /\ (exists n, cells (mem s1) !! p = Some (set_ref c n)) /\
    if ip_addr_netcmp (ip_source (data_of (mem s) p)) (if_ip_addr (eth_if nif)) (if_netmask (eth_if nif))
    then exists r, updated linkoutput s nif (ip_source (data_of (mem s) p)) (part (data_of (mem s) p) 6 6) ETHARP_FLAG_FIND_ONLY r s1
    else s1 = s.
Proof.
  intros Hk Hs Hdel Hm Ec Hl. pose proof Hdel as [Hw Hq]. pose proof Hw as (Hp0 & c' & Ec' & _ & _ & Hok & _).
  assert (c' = c) as -> by congruence. pose proof (held_length 0 (mem s) p c Hw Ec) as Hz. set (d := data_of (mem s) p) in *.
  assert (bytes d) as Hb by (unfold d, data_of; rewrite Ec; by apply cell_data_bytes).
  unfold etharp_ip_input. rewrite (deref_ok _ p c) by done. cbn [rbind]. change (SIZEOF_ETH_HDR + 12) with 26.
  rewrite !(field_held 0 (mem s) p c) by (done || lia). cbn [rbind]. fold d.
  change (part d (Z.to_nat 26) (Z.to_nat 4)) with (part d 26 4). change (part d (Z.to_nat 6) (Z.to_nat 6)) with (part d 6 6).
  rewrite address_read by (done || (unfold zlen in Hz; lia)). cbn [rbind]. fold (ip_source d).
  destruct (ip_addr_netcmp (ip_source d) _ _) eqn:Enet; cbn [negb].
  - destruct (update_ok linkoutput s nif (ip_source d) (part d 6 6) ETHARP_FLAG_FIND_ONLY Hk Hs) as (r & s1 & -> & Hs1 & Hu);
      [split; [apply part_length; unfold zlen in Hz; lia|by apply part_bytes]|done|]. cbn [rbind].
    destruct (updated_delivered s nif _ _ _ r s1 p Hu Hdel) as (Hdel1 & Hd1 & Hc1).
    exists s1. do 4 (split; [done|]). split; [by apply Hc1|by exists r].
  - exists s. do 4 (split; [done|]). split; [|done]. exists (ref c). by rewrite set_ref_same.
Qed.

(** Dispatch of frames.  A frame of fourteen bytes or less, of a type other than IP and ARP, or for an interface that does not speak ARP, is freed and nothing else changes.  An ARP frame goes to [etharp_arp_input].  An IP frame that holds an IP header renews the entry of its source when that is on the local network, and reaches [ip_input] without its Ethernet header. *)
Theorem ethernet_input_dispatch s nif p c : link_keeps linkoutput -> arp_ok s -> delivered s p -> mac (hwaddr nif) ->
  cells (mem s) !! p = Some c -> has_area c -> tot_len c = len c ->
  let d := data_of (mem s) p in
  if (len c <=? SIZEOF_ETH_HDR) || negb (speaks_arp nif) ||
     negb (bool_decide (ethtype_of d = [8; 0]) || bool_decide (ethtype_of d = [8; 6])) then
    exists m, frame_input s nif p = Ok (set_mem s m) /\ arp_ok (set_mem s m) /\ stays (mem s) m [p]
  else if bool_decide (ethtype_of d = [8; 6]) then frame_input s nif p = arp_input s nif p
  else 34 <= len c ->
    exists s1 n, arp_ok s1 /\
      (if ip_addr_netcmp (ip_source d) (if_ip_addr (eth_if nif)) (if_netmask (eth_if nif))
       then exists r, updated linkoutput s nif (ip_source d) (part d 6 6) ETHARP_FLAG_FIND_ONLY r s1 else s1 = s) /\
      cells (mem s1) !! p = Some (set_ref c n) /\
      let m := put (mem s1) p (moved (set_ref c n) (- SIZEOF_ETH_HDR)) in
      data_of m p = drop 14 d /\ frame_input s nif p = ip_input (set_mem s1 m) p.
Proof.
  intros Hk Hs Hdel Hm Ec Harea Htot d. pose proof Hdel as [Hw Hq]. pose proof Hw as (Hp0 & c' & Ec' & _ & _ & Hok & _).
  assert (c' = c) as -> by congruence. destruct (free_delivered s p Hs Hdel) as (mf & Hfree & Hsf & Hst).
  unfold ethernet_input. rewrite (deref_ok _ p c) by done. cbn [rbind].
  destruct (Z.leb_spec (len c) SIZEOF_ETH_HDR) as [Hle|Hgt]; [by exists mf|]. cbn [orb]. change SIZEOF_ETH_HDR with 14 in *.
  rewrite !(fields_are_held 0 (mem s) p c) by (done || (unfold zlen; cbn; lia)). cbn [rbind]. fold d (speaks_arp nif).
  change (part d (Z.to_nat 12) (length (be16 ETHTYPE_IP))) with (ethtype_of d). change (be16 ETHTYPE_IP) with [8; 0].
  change (part d (Z.to_nat 12) (length (be16 ETHTYPE_ARP))) with (ethtype_of d). change (be16 ETHTYPE_ARP) with [8; 6].
  destruct (bool_decide_reflect (ethtype_of d = [8; 0])) as [Eip|]; cbn [orb].
  2:{ case_bool_decide; cbn [negb]; [rewrite orb_false_r|rewrite orb_true_r; by exists mf].
      destruct (speaks_arp nif); cbn [negb]; [done|by exists mf]. }
  cbn [negb]. rewrite orb_false_r. destruct (speaks_arp nif); cbn [negb]; [|by exists mf].
  rewrite bool_decide_eq_false_2 by by rewrite Eip. intros Hl.
  destruct (ip_input_ok s nif p c Hk Hs Hdel Hm Ec Hl) as (s1 & -> & Hs1 & Hdel1 & Hd1 & (n & Ec1) & Hcase). cbn [rbind].
  exists s1, n. split; [done|]. split; [done|]. split; [done|].
  pose proof Hdel1 as ((_ & c1 & Ec1' & _ & _ & Hok1 & _) & _). assert (c1 = set_ref c n) as -> by congruence.
  pose proof Hok as (Hlc & _). unfold is_u16 in Hlc. destruct Harea as [Hty Hpl].
  rewrite (header_ok (mem s1) p (set_ref c n)) by (done || cbn; lia). cbn [rbind Z.eqb negb]. split; [|done].
  destruct (moved_data (mem s1) p (set_ref c n) 14) as [Hmd _]; [done|cbn; lia|].
  rewrite data_of_put_eq. etransitivity; [exact Hmd|]. change (Z.to_nat 14) with 14%nat. f_equal.
  unfold d. rewrite <- Hd1. unfold data_of. by rewrite Ec1.
Qed.

(** Short IP frames.  [ethernet_input] checks that a frame is longer than its Ethernet header, and [etharp_ip_input] reads the source address of the IP header from it: the read leaves the memory of a frame whose buffer ends before the thirtieth byte. *)
Theorem ethernet_input_short_frame s nif p c b : p <> 0 -> cells (mem s) !! p = Some c -> cell_ok (mem s) c ->
  SIZEOF_ETH_HDR < len c -> ethtype_of (data_of (mem s) p) = [8; 0] -> speaks_arp nif = true ->
  blocks (mem s) !! (payload c).1 = Some b -> zlen b < (payload c).2 + 30 ->
  frame_input s nif p = Fault OutOfBounds.
Proof.
  intros Hp Ec Hok Hl Ht Hsp Eb Hz. unfold ethernet_input. rewrite (deref_ok _ p c) by done. cbn [rbind].
  rewrite (proj2 (Z.leb_gt _ _)) by done. change SIZEOF_ETH_HDR with 14 in Hl.
  unfold fields_are, field. rewrite !(load_ok (mem s) c) by (done || (unfold zlen; cbn; lia)). cbn [rbind].
  unfold data_of in Ht. rewrite Ec in Ht. unfold ethtype_of, part in Ht. change (Z.to_nat 12) with 12%nat.
  change (Z.to_nat (zlen (be16 ETHTYPE_IP))) with 2%nat. rewrite Ht. cbn [rbind]. rewrite bool_decide_eq_true_2 by done.
  fold (speaks_arp nif). rewrite Hsp. cbn [negb]. unfold etharp_ip_input. rewrite (deref_ok _ p c) by done. cbn [rbind].
  unfold field, load. rewrite (proj2 (Z.eqb_neq 4 0)), Eb by done. cbn [of_option rbind]. unfold mslice.
  rewrite (proj2 (Z.leb_gt _ (zlen b))) by (unfold SIZEOF_ETH_HDR; lia). by rewrite andb_false_r.
Qed.
End input.

(** The request of 10.0.0.1 for the address of the host, and two short frames. *)
Definition ask_us : list Z :=
  [255; 255; 255; 255; 255; 255] ++ mac_of 7 ++ [8; 6; 0; 1; 8; 0; 6; 4; 0; 1] ++ mac_of 7 ++ [10; 0; 0; 1] ++
  [0; 0; 0; 0; 0; 0] ++ [10; 0; 0; 2].
Definition short_ip : list Z := mac_of 9 ++ mac_of 7 ++ [8; 0; 69].
Lemma ask_us_bytes : bytes ask_us.
Proof. by apply (bool_decide_unpack _). Qed.
Lemma ask_us_long : SIZEOF_ETH_HDR <= zlen ask_us < 65536.
Proof. done. Qed.
Lemma short_ip_bytes : bytes short_ip.
Proof. by apply (bool_decide_unpack _). Qed.
Lemma short_ip_long : SIZEOF_ETH_HDR <= zlen short_ip < 65536.
Proof. done. Qed.
Lemma ask_us_delivered : delivered (frame_net ask_us no_log) 600.
Proof. split; [exact (frame_held ask_us ask_us_bytes ask_us_long)|by apply (bool_decide_unpack _)]. Qed.

(** A DHCP client that does not look. *)
Definition no_dhcp (s : net (list (list Z))) (a : Z) : result (net (list (list Z))) := Ok s.
Lemma no_dhcp_keeps : reply_keeps no_dhcp.
Proof. intros s a p Hs Hd. by exists s. Qed.

Lemma etharp_arp_input_spec_witness :
  arp_ok (frame_net ask_us no_log) /\ delivered (frame_net ask_us no_log) 600 /\
  exists s2 m, etharp_arp_input log_link no_dhcp (frame_net ask_us no_log) eth0 600 = Ok (set_mem s2 m) /\ arp_ok (set_mem s2 m).
Proof.
  split; [apply frame_net_ok|]. split; [exact ask_us_delivered|].
  destruct (etharp_arp_input_spec log_link no_dhcp (frame_net ask_us no_log) eth0 600 log_link_keeps no_dhcp_keeps
    (frame_net_ok ask_us no_log) ask_us_delivered eth0_mac) as (s2 & m & H1 & H2 & _). exists s2, m. exact (conj H1 H2).
Defined.

(** On that frame the answer is the last thing the driver was given. *)
Example ask_us_answered :
  match etharp_arp_input log_link no_dhcp (frame_net ask_us no_log) eth0 600 with
  | Ok s => env s = [mac_of 7 ++ mac_of 9 ++ [8; 6; 0; 1; 8; 0; 6; 4; 0; 2] ++ mac_of 9 ++ [10; 0; 0; 2] ++
                     mac_of 7 ++ [10; 0; 0; 1]]
  | Fault _ => False
  end.
Proof. vm_compute. reflexivity. Qed.

Lemma ethernet_input_dispatch_witness :
  arp_ok (frame_net ask_us no_log) /\ delivered (frame_net ask_us no_log) 600 /\
  ethernet_input log_link no_dhcp no_dhcp (frame_net ask_us no_log) eth0 600 =
  etharp_arp_input log_link no_dhcp (frame_net ask_us no_log) eth0 600.
Proof.
  split; [apply frame_net_ok|]. split; [exact ask_us_delivered|].
  assert (has_area (frame_pbuf ask_us)) as Ha by (split; [by left|done]).
  exact (ethernet_input_dispatch log_link no_dhcp no_dhcp (frame_net ask_us no_log) eth0 600 (frame_pbuf ask_us) log_link_keeps
    (frame_net_ok ask_us no_log) ask_us_delivered eth0_mac (frame_cell ask_us) Ha eq_refl).
Defined.

Lemma ethernet_input_short_frame_witness :
  SIZEOF_ETH_HDR < len (frame_pbuf short_ip) /\
  ethernet_input log_link no_dhcp no_dhcp (frame_net short_ip no_log) eth0 600 = Fault OutOfBounds.
Proof.
  split; [done|].
  assert (cell_ok (with_frame short_ip) (frame_pbuf short_ip)) as Hok.
  { destruct (frame_held short_ip short_ip_bytes short_ip_long) as (_ & c & Ec & _ & _ & Hok & _).
    rewrite frame_cell in Ec. by injection Ec as <-. }
  apply (ethernet_input_short_frame log_link no_dhcp no_dhcp (frame_net short_ip no_log) eth0 600 (frame_pbuf short_ip)
    (replicate 20 0 ++ short_ip)); [done|apply frame_cell|exact Hok|done|reflexivity|reflexivity|reflexivity|done].
Defined.
