(* ===== verification/Netif.v ===== *)
(** * Network interfaces: [lwip/core/netif.c] and [include/lwip/netif.h].

    The list of interfaces and the state of the stack it is part of.  A
    [struct netif] is a cell at an address.  What [netif.c] calls of IGMP,
    DHCP and TCP are parameters, which run on the whole state; of the TCP
    control blocks only the fields [netif_set_ipaddr] reads are modelled. *)
From S2P Require Import Prelude Cobs Uart Comm Message Pbuf InetChksum IpAddr Linked PbufChain PbufTrim Etharp EtharpTable EtharpPackets.
From stdpp Require Import list gmap.
#[local] Open Scope Z_scope.

Definition NETIF_FLAG_UP : Z := 0x01.
Definition NETIF_FLAG_LINK_UP : Z := 0x10.
Definition NETIF_FLAG_IGMP : Z := 0x80.

(** [struct netif], but for the pointers to the output functions, which are
    parameters, and [hostname], which the configuration leaves out; 0 is a
    NULL [dhcp] or [next]. *)
Record netif_struct := NetifStruct {
  nif_next : Z; nif_ip_addr : Z; nif_netmask : Z; nif_gw : Z; nif_input : Z; nif_state : Z; nif_dhcp : Z;
  nif_hwaddr : list Z; nif_flags : Z; nif_name : Z * Z; nif_num : Z; nif_igmp_mac_filter : Z; nif_mtu : Z; nif_hwaddr_len : Z
}.
Implicit Type n : netif_struct.
Definition set_nif_next n x := NetifStruct x (nif_ip_addr n) (nif_netmask n) (nif_gw n) (nif_input n) (nif_state n)
  (nif_dhcp n) (nif_hwaddr n) (nif_flags n) (nif_name n) (nif_num n) (nif_igmp_mac_filter n) (nif_mtu n) (nif_hwaddr_len n).
Definition set_nif_ip_addr n x := NetifStruct (nif_next n) x (nif_netmask n) (nif_gw n) (nif_input n) (nif_state n)
  (nif_dhcp n) (nif_hwaddr n) (nif_flags n) (nif_name n) (nif_num n) (nif_igmp_mac_filter n) (nif_mtu n) (nif_hwaddr_len n).
Definition set_nif_netmask n x := NetifStruct (nif_next n) (nif_ip_addr n) x (nif_gw n) (nif_input n) (nif_state n)
  (nif_dhcp n) (nif_hwaddr n) (nif_flags n) (nif_name n) (nif_num n) (nif_igmp_mac_filter n) (nif_mtu n) (nif_hwaddr_len n).
Definition set_nif_gw n x := NetifStruct (nif_next n) (nif_ip_addr n) (nif_netmask n) x (nif_input n) (nif_state n)
  (nif_dhcp n) (nif_hwaddr n) (nif_flags n) (nif_name n) (nif_num n) (nif_igmp_mac_filter n) (nif_mtu n) (nif_hwaddr_len n).
Definition set_nif_flags n x := NetifStruct (nif_next n) (nif_ip_addr n) (nif_netmask n) (nif_gw n) (nif_input n)
  (nif_state n) (nif_dhcp n) (nif_hwaddr n) x (nif_name n) (nif_num n) (nif_igmp_mac_filter n) (nif_mtu n) (nif_hwaddr_len n).

Definition set_nif_dhcp n x := NetifStruct (nif_next n) (nif_ip_addr n) (nif_netmask n) (nif_gw n) (nif_input n)
  (nif_state n) x (nif_hwaddr n) (nif_flags n) (nif_name n) (nif_num n) (nif_igmp_mac_filter n) (nif_mtu n) (nif_hwaddr_len n).

(** The fields the IP layer and ARP read. *)
Definition iface_of n : iface := Iface (nif_flags n) (nif_ip_addr n) (nif_netmask n).
Definition ethif_of (a : Z) n : ethif := EthIf (iface_of n) (nif_gw n) (nif_hwaddr n) a.
Definition has_flag (flags bit : Z) : bool := negb (Z.land flags bit =? 0).
Definition netif_is_up n : bool := has_flag (nif_flags n) NETIF_FLAG_UP.

(** The static variables of [netif.c], and the interfaces in memory. *)
Record interfaces := Interfaces { netif_list : Z; netif_default : Z; netifnum : Z; nifs : gmap Z netif_struct }.

(** [struct tcp_pcb] and [struct tcp_pcb_listen]: the fields read here. *)
Record tcp_pcb := TcpPcb { tcp_next : Z; tcp_local_ip : Z }.
Record tcp_lists := TcpLists {
  tcp_active_pcbs : Z; active_mem : gmap Z tcp_pcb; tcp_listen_pcbs : Z; listen_mem : gmap Z tcp_pcb
}.

(** The static variables of [ip.c]; 0 is a NULL interface, [None] a NULL
    header. *)
Record ip_vars := IpVars {
  current_netif : Z; current_header : option (Z * Z); current_iphdr_src : Z; current_iphdr_dest : Z; ip_id : Z
}.

(** The state of the stack next to the ARP table and the packets: [R] holds
    the raw control blocks, [X] is the rest, such as the driver's state. *)
Record stack (R X : Type) := Stack { ifs : interfaces; tcps : tcp_lists; ipv : ip_vars; raw_blocks : R; rest : X }.
Arguments Stack {R X}. Arguments ifs {R X}. Arguments tcps {R X}. Arguments ipv {R X}.
Arguments raw_blocks {R X}. Arguments rest {R X}.

Section netif.
Context `{Os} {R X : Type}.
Abbreviation state := (net (stack R X)).
Implicit Type s : state.

Definition set_env s (e : stack R X) : state := Net (arp_table s) (etharp_cached_entry s) (mem s) e.
Definition set_ifs s (i : interfaces) : state :=
  set_env s (Stack i (tcps (env s)) (ipv (env s)) (raw_blocks (env s)) (rest (env s))).
Definition set_tcps s (t : tcp_lists) : state :=
  set_env s (Stack (ifs (env s)) t (ipv (env s)) (raw_blocks (env s)) (rest (env s))).
Definition set_ipv s (v : ip_vars) : state :=
  set_env s (Stack (ifs (env s)) (tcps (env s)) v (raw_blocks (env s)) (rest (env s))).

Definition nif_at s (a : Z) : result netif_struct := cell (nifs (ifs (env s))) a.
Definition put_nif s (a : Z) n : state :=
  let i := ifs (env s) in
  set_ifs s (Interfaces (netif_list i) (netif_default i) (netifnum i) (<[a := n]> (nifs i))).
Definition upd_nif s (a : Z) (f : netif_struct -> netif_struct) : result state :=
  let! n := nif_at s a in Ok (put_nif s a (f n)).
Definition set_netif_list s (a : Z) : state :=
  let i := ifs (env s) in set_ifs s (Interfaces a (netif_default i) (netifnum i) (nifs i)).

(** The driver's [linkoutput], on the rest of the state. *)
Context (link : X -> store -> Z -> Z * store * X).
Definition linkoutput (e : stack R X) (m : store) (p : Z) : Z * store * stack R X :=
  let '(err, m, x) := link (rest e) m p in (err, m, Stack (ifs e) (tcps e) (ipv e) (raw_blocks e) x).

Context (igmp_start igmp_stop igmp_report_groups dhcp_network_changed tcp_abort : state -> Z -> result state).

(** ** Addresses *)

(** The loop of [netif_set_ipaddr] over the active connections. *)
Fixpoint abort_loop (fuel : nat) s (a p : Z) : result state :=
  match fuel with
  | O => Fault OutOfFuel
  | S fuel =>
      if p =? 0 then Ok s
      else
        let! c := cell (active_mem (tcps (env s))) p in
        let! n := nif_at s a in
        let next := tcp_next c in
        if tcp_local_ip c =? nif_ip_addr n
        then let! s := tcp_abort s p in abort_loop fuel s a next
        else abort_loop fuel s a next
  end.

(** Its loop over the listening control blocks. *)
Fixpoint rebind_loop (fuel : nat) s (a p ipaddr : Z) : result state :=
  match fuel with
  | O => Fault OutOfFuel
  | S fuel =>
      if p =? 0 then Ok s
      else
        let t := tcps (env s) in
        let! c := cell (listen_mem t) p in
        let! n := nif_at s a in
        let s := if negb (tcp_local_ip c =? IPADDR_ANY) && (tcp_local_ip c =? nif_ip_addr n)
                 then set_tcps s (TcpLists (tcp_active_pcbs t) (active_mem t) (tcp_listen_pcbs t)
                                    (<[p := TcpPcb (tcp_next c) ipaddr]> (listen_mem t)))
                 else s in
        rebind_loop fuel s a (tcp_next c) ipaddr
  end.

(** [None] is a NULL pointer to an address. *)
Definition netif_set_ipaddr s (a : Z) (ipaddr : option Z) : result state :=
  let! n := nif_at s a in
  let! s :=
    (match ipaddr with
     | Some ip =>
         if ip =? nif_ip_addr n then Ok s
         else
           let t := tcps (env s) in
           let! s := abort_loop (list_fuel (active_mem t)) s a (tcp_active_pcbs t) in
           let t := tcps (env s) in
           rebind_loop (list_fuel (listen_mem t)) s a (tcp_listen_pcbs t) ip
     | None => Ok s
     end) in
  upd_nif s a (fun n => set_nif_ip_addr n (default 0 ipaddr)).
Definition netif_set_gw s (a : Z) (gw : option Z) : result state :=
  upd_nif s a (fun n => set_nif_gw n (default 0 gw)).
Definition netif_set_netmask s (a : Z) (netmask : option Z) : result state :=
  upd_nif s a (fun n => set_nif_netmask n (default 0 netmask)).
Definition netif_set_addr s (a : Z) (ipaddr netmask gw : option Z) : result state :=
  let! s := netif_set_ipaddr s a ipaddr in
  let! s := netif_set_netmask s a netmask in
  netif_set_gw s a gw.

(** ** Up and down *)

(** What coming up with a link does: a gratuitous ARP request and the IGMP
    reports. *)
Definition announce s (a : Z) : result state :=
  let! n := nif_at s a in
  let! s := (if has_flag (nif_flags n) NETIF_FLAG_ETHARP
             then let! (_, s) := etharp_request linkoutput s (ethif_of a n) (nif_ip_addr n) in Ok s
             else Ok s) in
  let! n := nif_at s a in
  if has_flag (nif_flags n) NETIF_FLAG_IGMP then igmp_report_groups s a else Ok s.

Definition netif_set_up s (a : Z) : result state :=
  let! n := nif_at s a in
  if has_flag (nif_flags n) NETIF_FLAG_UP then Ok s
  else
    let! s := upd_nif s a (fun n => set_nif_flags n (Z.lor (nif_flags n) NETIF_FLAG_UP)) in
    let! n := nif_at s a in
    if has_flag (nif_flags n) NETIF_FLAG_LINK_UP then announce s a else Ok s.

Definition netif_set_down s (a : Z) : result state :=
  let! n := nif_at s a in
  if negb (has_flag (nif_flags n) NETIF_FLAG_UP) then Ok s
  else
    let! s := upd_nif s a (fun n => set_nif_flags n (Z.land (nif_flags n) (Z.lnot NETIF_FLAG_UP))) in
    let! n := nif_at s a in
    if has_flag (nif_flags n) NETIF_FLAG_ETHARP then etharp_cleanup_netif s a else Ok s.

Definition netif_set_link_up s (a : Z) : result state :=
  let! n := nif_at s a in
  if has_flag (nif_flags n) NETIF_FLAG_LINK_UP then Ok s
  else
    let! s := upd_nif s a (fun n => set_nif_flags n (Z.lor (nif_flags n) NETIF_FLAG_LINK_UP)) in
    let! n := nif_at s a in
    let! s := (if negb (nif_dhcp n =? 0) then dhcp_network_changed s a else Ok s) in
    let! n := nif_at s a in
    if has_flag (nif_flags n) NETIF_FLAG_UP then announce s a else Ok s.

Definition netif_set_link_down s (a : Z) : result state :=
  let! n := nif_at s a in
  if has_flag (nif_flags n) NETIF_FLAG_LINK_UP
  then upd_nif s a (fun n => set_nif_flags n (Z.land (nif_flags n) (Z.lnot NETIF_FLAG_LINK_UP)))
  else Ok s.

(** ** The list *)

Definition netif_set_default s (a : Z) : state :=
  let i := ifs (env s) in set_ifs s (Interfaces (netif_list i) a (netifnum i) (nifs i)).

(** The fields [netif_add] resets and sets before the addresses. *)
Definition reset_nif n (state num input : Z) : netif_struct :=
  NetifStruct (nif_next n) 0 0 0 input state 0 (nif_hwaddr n) 0 (nif_name n) num 0 (nif_mtu n) (nif_hwaddr_len n).

(** [netif_add]: the returned pointer; [init] is the function passed to it. *)
Definition netif_add s (a : Z) (ipaddr netmask gw : option Z) (state input : Z)
  (init : net (stack R X) -> Z -> result (Z * net (stack R X))) : result (Z * net (stack R X)) :=
  let num := netifnum (ifs (env s)) in
  let! s := upd_nif s a (fun n => reset_nif n state num input) in
  let i := ifs (env s) in
  let s := set_ifs s (Interfaces (netif_list i) (netif_default i) (u8 (num + 1)) (nifs i)) in
  let! s := netif_set_addr s a ipaddr netmask gw in
  let! (err, s) := init s a in
  if negb (err =? ERR_OK) then Ok (0, s)
  else
    let! s := upd_nif s a (fun n => set_nif_next n (netif_list (ifs (env s)))) in
    let s := set_netif_list s a in
    let! n := nif_at s a in
    let! s := (if has_flag (nif_flags n) NETIF_FLAG_IGMP then igmp_start s a else Ok s) in
    Ok (a, s).

(** The search of [netif_remove] behind the head: whether it found [a]. *)
Fixpoint unlink_nif (fuel : nat) s (tmp a : Z) : result (bool * state) :=
  match fuel with
  | O => Fault OutOfFuel
  | S fuel =>
      if tmp =? 0 then Ok (false, s)
      else
        let! t := nif_at s tmp in
        if nif_next t =? a then
          let! n := nif_at s a in
          let! s := upd_nif s tmp (fun t => set_nif_next t (nif_next n)) in
          Ok (true, s)
        else unlink_nif fuel s (nif_next t) a
  end.

(** Taking [a] out of the list: whether it was there. *)
Definition unlink s (a : Z) : result (bool * state) :=
  if netif_list (ifs (env s)) =? a
  then let! n := nif_at s a in Ok (true, set_netif_list s (nif_next n))
  else unlink_nif (list_fuel (nifs (ifs (env s)))) s (netif_list (ifs (env s))) a.

Definition netif_remove s (a : Z) : result state :=
  if a =? 0 then Ok s
  else
    let! n := nif_at s a in
    let! s := (if has_flag (nif_flags n) NETIF_FLAG_IGMP then igmp_stop s a else Ok s) in
    let! n := nif_at s a in
    let! s := (if netif_is_up n then netif_set_down s a else Ok s) in
    let! (found, s) := unlink s a in
    if negb found then Ok s
    else Ok (if netif_default (ifs (env s)) =? a then netif_set_default s 0 else s).

(** [netif_find]: [name] is the string behind the pointer, [None] a NULL;
    0 is no interface. *)
Fixpoint find_loop (fuel : nat) s (a : Z) (c0 c1 num : Z) : result Z :=
  match fuel with
  | O => Fault OutOfFuel
  | S fuel =>
      if a =? 0 then Ok 0
      else
        let! n := nif_at s a in
        if (num =? nif_num n) && (c0 =? (nif_name n).1) && (c1 =? (nif_name n).2) then Ok a
        else find_loop fuel s (nif_next n) c0 c1 num
  end.

Definition netif_find s (name : option (list Z)) : result Z :=
  match name with
  | None => Ok 0
  | Some name =>
      let! c2 := mread name 2 in
      let! c0 := mread name 0 in
      let! c1 := mread name 1 in
      find_loop (list_fuel (nifs (ifs (env s)))) s (netif_list (ifs (env s))) c0 c1 (u8 (c2 - 48))
  end.
End netif.

(** ** The list in memory *)

Definition nif_list (i : interfaces) (l : list Z) : Prop := linked nif_next (nifs i) (netif_list i) l.
(** An interface but for its link, and the interface [a]. *)
Definition unlinked n : netif_struct := set_nif_next n 0.
Definition bare (i : interfaces) (a : Z) : option netif_struct := unlinked <$> nifs i !! a.

(** The connections [l] of a list of control blocks. *)
Definition active_list (t : tcp_lists) (l : list Z) : Prop := linked tcp_next (active_mem t) (tcp_active_pcbs t) l.
Definition listen_list (t : tcp_lists) (l : list Z) : Prop := linked tcp_next (listen_mem t) (tcp_listen_pcbs t) l.
(** The local address of a connection. *)
Definition bound_to (t : tcp_lists) (p : Z) : option Z := tcp_local_ip <$> active_mem t !! p.

Lemma lseg_head {C} (nxt : C -> Z) m p l : linked nxt m p l -> p = default 0 (head l).
Proof. destruct l; [done|]. by intros (-> & _). Qed.

Section lists.
Context `{OsLaws} {R X : Type}.
Abbreviation state := (net (stack R X)).
Implicit Type s : state.

(** A call that leaves the interfaces alone, and the packets of ARP. *)
Definition quiet (f : state -> Z -> result state) : Prop := forall s a, arp_ok s ->
  exists s', f s a = Ok s' /\ ifs (env s') = ifs (env s) /\ arp_ok s'.

Lemma nif_at_ok s a n : a <> 0 -> nifs (ifs (env s)) !! a = Some n -> nif_at s a = Ok n.
Proof using Type. apply cell_ok. Qed.
Lemma put_nif_same s a n : nifs (ifs (env s)) !! a = Some n -> put_nif s a n = s.
Proof using Type.
  intros E. unfold put_nif, set_ifs, set_env. rewrite insert_id by done. by destruct s as [? ? ? [[] ? ? ? ?]].
Qed.
Lemma set_tcps_same s : set_tcps s (tcps (env s)) = s.
Proof using Type. by destruct s as [? ? ? []]. Qed.

(** ** Addresses *)

(** A listening block after the address [old] has become [ip]. *)
Definition rebound (old ip : Z) (c : tcp_pcb) : tcp_pcb :=
  if negb (tcp_local_ip c =? IPADDR_ANY) && (tcp_local_ip c =? old) then TcpPcb (tcp_next c) ip else c.

Lemma rebind_loop_ok a n ip l : a <> 0 -> forall fuel s p, nifs (ifs (env s)) !! a = Some n ->
  lseg tcp_next (listen_mem (tcps (env s))) p l 0 -> NoDup l -> (length l < fuel)%nat ->
  exists m, rebind_loop fuel s a p ip =
      Ok (set_tcps s (TcpLists (tcp_active_pcbs (tcps (env s))) (active_mem (tcps (env s))) (tcp_listen_pcbs (tcps (env s))) m)) /\
    forall x, m !! x = (if decide (x ∈ l) then rebound (nif_ip_addr n) ip <$> listen_mem (tcps (env s)) !! x
                        else listen_mem (tcps (env s)) !! x).
Proof using Type.
  intros Ha. induction l as [|b l IH]; intros fuel s p En Hl Hnd Hf; (destruct fuel as [|fuel]; [cbn in Hf; lia|]); cbn [rebind_loop].
  { rewrite Hl. cbn [Z.eqb]. exists (listen_mem (tcps (env s))). split; [|intros x; by rewrite decide_False by apply not_elem_of_nil].
    f_equal. symmetry. destruct s as [? ? ? [? [] ? ? ?]]. done. }
  destruct Hl as (-> & Hb0 & c & Ec & Hl). rewrite (proj2 (Z.eqb_neq b 0)) by done.
  rewrite (cell_ok _ b c), (nif_at_ok s a n) by done. cbn [rbind]. apply NoDup_cons in Hnd as [Hn Hnd]. cbn [length] in Hf.
  set (t := tcps (env s)) in Hl, Ec |- *. set (m1 := <[b := rebound (nif_ip_addr n) ip c]> (listen_mem t)).
  match goal with |- context [rebind_loop fuel ?s1] => assert (s1 =
    set_tcps s (TcpLists (tcp_active_pcbs t) (active_mem t) (tcp_listen_pcbs t) m1)) as -> end.
  { unfold m1, rebound. destruct (_ && _); [done|]. rewrite insert_id by done. unfold t. destruct s as [? ? ? [? [] ? ? ?]]. done. }
  destruct (IH fuel (set_tcps s (TcpLists (tcp_active_pcbs t) (active_mem t) (tcp_listen_pcbs t) m1)) (tcp_next c)) as (m & -> & Hm);
    [done| |done|lia|].
  - cbn. apply lseg_store; [by rewrite <- list_elem_of_In|done].
  - exists m. split; [done|]. intros x. rewrite Hm. cbn [listen_mem set_tcps set_env env tcps]. unfold m1.
    destruct (decide (x = b)) as [->|Hne].
    + rewrite (decide_False (P := b ∈ l)), (decide_True (P := b ∈ b :: l)) by (done || apply list_elem_of_here).
      by rewrite lookup_insert_eq, Ec.
    + rewrite lookup_insert_ne by done. destruct (decide (x ∈ l)) as [Hx|Hx].
      * by rewrite decide_True by by apply list_elem_of_further.
      * rewrite decide_False; [done|]. rewrite elem_of_cons. tauto.
Qed.

Context (tcp_abort : state -> Z -> result state).

(** [tcp_abort] takes the connection out of its list and does nothing else to
    the lists and the interfaces. *)
Definition aborts : Prop := forall s l p, arp_ok s -> active_list (tcps (env s)) l -> In p l ->
  exists s', tcp_abort s p = Ok s' /\ ifs (env s') = ifs (env s) /\ arp_ok s' /\
    active_list (tcps (env s')) (filter (fun x => x <> p) l) /\
    (forall x, x <> p -> bound_to (tcps (env s')) x = bound_to (tcps (env s)) x) /\
    tcp_listen_pcbs (tcps (env s')) = tcp_listen_pcbs (tcps (env s)) /\ listen_mem (tcps (env s')) = listen_mem (tcps (env s)).

Lemma abort_loop_ok a n (bound : Z -> option Z) l2 : aborts -> a <> 0 -> forall fuel s l1 p, arp_ok s ->
  nifs (ifs (env s)) !! a = Some n -> active_list (tcps (env s)) (l1 ++ l2) ->
  lseg tcp_next (active_mem (tcps (env s))) p l2 0 ->
  (forall x, In x (l1 ++ l2) -> bound_to (tcps (env s)) x = bound x) -> (length l2 < fuel)%nat ->
  exists s', abort_loop tcp_abort fuel s a p = Ok s' /\ ifs (env s') = ifs (env s) /\ arp_ok s' /\
    active_list (tcps (env s')) (l1 ++ filter (fun x => bound x <> Some (nif_ip_addr n)) l2) /\
    (forall x, In x (l1 ++ filter (fun x => bound x <> Some (nif_ip_addr n)) l2) -> bound_to (tcps (env s')) x = bound x) /\
    tcp_listen_pcbs (tcps (env s')) = tcp_listen_pcbs (tcps (env s)) /\ listen_mem (tcps (env s')) = listen_mem (tcps (env s)).
Proof using Type.
  intros Hab Ha. induction l2 as [|b l2 IH]; intros fuel s l1 p Hs En Hl Hp Hb Hf; (destruct fuel as [|fuel]; [cbn in Hf; lia|]);
    cbn [abort_loop].
  { rewrite Hp. cbn [Z.eqb]. by exists s. }
  destruct Hp as (-> & Hb0 & c & Ec & Hp). rewrite (proj2 (Z.eqb_neq b 0)) by done.
  rewrite (cell_ok _ b c), (nif_at_ok s a n) by done. cbn [rbind].
  assert (bound b = Some (tcp_local_ip c)) as Hbc by (rewrite <- Hb by (apply in_elt); unfold bound_to; by rewrite Ec).
  pose proof (linked_nodup _ _ _ _ Hl) as Hnd. cbn [length] in Hf.
  destruct (Z.eqb_spec (tcp_local_ip c) (nif_ip_addr n)) as [Eip|Hip].
  - rewrite filter_cons_False by (rewrite Hbc, Eip; tauto).
    destruct (Hab s (l1 ++ b :: l2) b Hs Hl) as (s1 & -> & Hi & Hs1 & Hl1 & Hb1 & Hh1 & Hm1); [apply in_elt|]. cbn [rbind].
    rewrite without_mid in Hl1 by done.
    destruct (IH fuel s1 l1 (tcp_next c) Hs1) as (s2 & -> & Hi2 & Hs2 & Hl2 & Hb2 & Hh2 & Hm2); [by rewrite Hi|done| | |lia|].
    + pose proof Hl1 as Hl1'. unfold active_list, linked in Hl1'. apply lseg_app in Hl1' as (r & _ & Hr).
      rewrite (lseg_head _ _ _ _ Hp). by rewrite <- (lseg_head _ _ _ _ Hr).
    + intros x Hx. rewrite Hb1; [apply Hb; rewrite in_app_iff in *; cbn; tauto|].
      intros ->. apply NoDup_app in Hnd as (_ & Hd & [Hn _]%NoDup_cons). rewrite in_app_iff, <- !list_elem_of_In in Hx.
      destruct Hx as [Hx|Hx]; [|done]. by apply (Hd _ Hx), list_elem_of_here.
    + exists s2. by rewrite Hi2, Hh2, Hm2.
  - rewrite filter_cons_True by (rewrite Hbc; congruence).
    specialize (IH fuel s (l1 ++ [b]) (tcp_next c)). rewrite <- !app_assoc in IH. apply IH; try done. lia.
Qed.

(** Interfaces with [n] at [a]. *)
Definition with_nif (i : interfaces) (a : Z) n : interfaces :=
  Interfaces (netif_list i) (netif_default i) (netifnum i) (<[a := n]> (nifs i)).

(** What giving up the address [old] for [ip] does to the connections [l] and
    the listening blocks [ll]. *)
Definition moved_connections (t t' : tcp_lists) (l ll : list Z) (old ip : Z) : Prop :=
  let l' := filter (fun x => bound_to t x <> Some old) l in
  active_list t' l' /\ (forall x, In x l' -> bound_to t' x = bound_to t x) /\
  forall x, listen_mem t' !! x = (if decide (x ∈ ll) then rebound old ip <$> listen_mem t !! x else listen_mem t !! x).

Lemma set_ipaddr_ok s a n l ll o : aborts -> arp_ok s -> a <> 0 -> nifs (ifs (env s)) !! a = Some n ->
  active_list (tcps (env s)) l -> listen_list (tcps (env s)) ll ->
  exists s', netif_set_ipaddr tcp_abort s a o = Ok s' /\
    ifs (env s') = with_nif (ifs (env s)) a (set_nif_ip_addr n (default 0 o)) /\ arp_ok s' /\
    match o with
    | Some ip => if ip =? nif_ip_addr n then tcps (env s') = tcps (env s)
                 else moved_connections (tcps (env s)) (tcps (env s')) l ll (nif_ip_addr n) ip
    | None => tcps (env s') = tcps (env s)
    end.
Proof using Type.
  intros Hab Hs Ha En Hl Hll. unfold netif_set_ipaddr, upd_nif. rewrite (nif_at_ok s a n) by done. cbn [rbind].
  assert (exists s', (let! n := nif_at s a in Ok (put_nif s a (set_nif_ip_addr n (default 0 o)))) = Ok s' /\
    ifs (env s') = with_nif (ifs (env s)) a (set_nif_ip_addr n (default 0 o)) /\ arp_ok s' /\ tcps (env s') = tcps (env s)) as Hno.
  { rewrite (nif_at_ok s a n) by done. cbn [rbind]. eexists. split; [reflexivity|]. split; [done|]. split; [by apply arp_ok_env|done]. }
  destruct o as [ip|]; [|exact Hno]. destruct (Z.eqb_spec ip (nif_ip_addr n)) as [->|Hne]; [exact Hno|]. clear Hno.
  destruct (abort_loop_ok a n (bound_to (tcps (env s))) l Hab Ha (list_fuel (active_mem (tcps (env s)))) s []
    (tcp_active_pcbs (tcps (env s)))) as (s1 & -> & Hi & Hs1 & Hl1 & Hb & Hh & Hm); try done; [by eapply list_fuel_enough|].
  cbn [rbind]. unfold listen_list, linked in Hll. rewrite <- Hm, <- Hh in Hll.
  destruct (rebind_loop_ok a n ip ll Ha (list_fuel (listen_mem (tcps (env s1)))) s1 (tcp_listen_pcbs (tcps (env s1)))) as (m & -> & Hmx);
    [by rewrite Hi|done|by eapply linked_nodup|by eapply list_fuel_enough|].
  cbn [rbind]. erewrite nif_at_ok by (done || (cbn; by rewrite Hi)). cbn [rbind]. eexists. split; [reflexivity|].
  split; [cbn; by rewrite Hi|]. split; [by do 2 apply arp_ok_env|]. split; [exact Hl1|]. split; [exact Hb|].
  intros x. cbn. rewrite Hmx. by rewrite Hm.
Qed.

(** The three addresses. *)
Definition addressed n (ip netmask gw : option Z) : netif_struct :=
  set_nif_gw (set_nif_netmask (set_nif_ip_addr n (default 0 ip)) (default 0 netmask)) (default 0 gw).

Lemma with_nif_twice i a n n' : with_nif (with_nif i a n) a n' = with_nif i a n'.
Proof using Type. unfold with_nif. cbn. by rewrite insert_insert_eq. Qed.

Lemma set_addr_ok s a n l ll ip netmask gw : aborts -> arp_ok s -> a <> 0 -> nifs (ifs (env s)) !! a = Some n ->
  active_list (tcps (env s)) l -> listen_list (tcps (env s)) ll ->
  exists s', netif_set_addr tcp_abort s a ip netmask gw = Ok s' /\
    ifs (env s') = with_nif (ifs (env s)) a (addressed n ip netmask gw) /\ arp_ok s'.
Proof using Type.
  intros Hab Hs Ha En Hl Hll. unfold netif_set_addr.
  destruct (set_ipaddr_ok s a n l ll ip Hab Hs Ha En Hl Hll) as (s1 & -> & Hi & Hs1 & _). cbn [rbind].
  unfold netif_set_netmask, netif_set_gw, upd_nif.
  erewrite nif_at_ok by (done || (rewrite Hi; apply lookup_insert_eq)). cbn [rbind].
  erewrite nif_at_ok by (done || (cbn; apply lookup_insert_eq)). cbn [rbind]. eexists. split; [reflexivity|].
  split; [|by do 2 apply arp_ok_env]. cbn. rewrite Hi. change (with_nif (with_nif (with_nif (ifs (env s)) a
    (set_nif_ip_addr n (default 0 ip))) a (set_nif_netmask (set_nif_ip_addr n (default 0 ip)) (default 0 netmask))) a
    (addressed n ip netmask gw) = with_nif (ifs (env s)) a (addressed n ip netmask gw)).
  by rewrite !with_nif_twice.
Qed.

(** Changing the address of an interface.  [netif_set_ipaddr] aborts exactly the active connections bound to the old address, leaves the others in their order and bound as they were, moves the listening control blocks bound to the old address to the new one and no others, and stores the address; when it stays the same the connections are not touched.  The loop goes on from the successor it read before a connection was aborted. *)
Theorem netif_set_ipaddr_connections s a n l ll ip : aborts -> arp_ok s -> a <> 0 -> nifs (ifs (env s)) !! a = Some n ->
  active_list (tcps (env s)) l -> listen_list (tcps (env s)) ll ->
  exists s', netif_set_ipaddr tcp_abort s a (Some ip) = Ok s' /\
    ifs (env s') = with_nif (ifs (env s)) a (set_nif_ip_addr n ip) /\ arp_ok s' /\
    if ip =? nif_ip_addr n then tcps (env s') = tcps (env s)
    else moved_connections (tcps (env s)) (tcps (env s')) l ll (nif_ip_addr n) ip.
Proof using Type. intros Hab Hs Ha En Hl Hll. by apply (set_ipaddr_ok s a n l ll (Some ip)). Qed.
(** ** The list *)

Context (igmp_start igmp_stop : state -> Z -> result state).

(** The function a driver gives [netif_add] sets fields of the interface. *)
Definition initialises (init : state -> Z -> result (Z * state)) (err : Z) (setup : netif_struct -> netif_struct) : Prop :=
  forall s a n, arp_ok s -> nifs (ifs (env s)) !! a = Some n ->
  exists s', init s a = Ok (err, s') /\ ifs (env s') = with_nif (ifs (env s)) a (setup n) /\ arp_ok s'.

(** An interface that has been set down. *)
Definition downed n : netif_struct :=
  if netif_is_up n then set_nif_flags n (Z.land (nif_flags n) (Z.lnot NETIF_FLAG_UP)) else n.

Lemma set_down_ok s a n : arp_ok s -> a <> 0 -> nifs (ifs (env s)) !! a = Some n ->
  exists s', netif_set_down s a = Ok s' /\ ifs (env s') = with_nif (ifs (env s)) a (downed n) /\ arp_ok s'.
Proof using Type.
  intros Hs Ha En. unfold netif_set_down, upd_nif. rewrite (nif_at_ok s a n) by done. cbn [rbind].
  unfold downed, netif_is_up. destruct (has_flag (nif_flags n) NETIF_FLAG_UP); cbn [negb].
  - erewrite nif_at_ok by (done || (cbn; apply lookup_insert_eq)). cbn [rbind].
    exists (put_nif s a (set_nif_flags n (Z.land (nif_flags n) (Z.lnot NETIF_FLAG_UP)))).
    split; [|split; [done|by apply arp_ok_env]]. destruct (has_flag _ _); [|done]. apply (cleanup_loop_nothing a 10); [by apply arp_ok_env|done..].
  - exists s. split; [done|]. split; [|done]. unfold with_nif. rewrite insert_id by done. by destruct (ifs (env s)).
Qed.

Lemma bare_links i i' l p q : (forall x, In x l -> nifs i' !! x = nifs i !! x) ->
  lseg nif_next (nifs i) p l q -> lseg nif_next (nifs i') p l q.
Proof using Type. apply lseg_frame. Qed.

Lemma bare_insert i a n n' x : nifs i !! a = Some n -> unlinked n' = unlinked n -> bare (with_nif i a n') x = bare i x.
Proof using Type.
  intros En Hu. unfold bare, with_nif. cbn. destruct (decide (x = a)) as [->|]; [|by rewrite lookup_insert_ne].
  rewrite lookup_insert_eq, En. cbn. by rewrite Hu.
Qed.

Lemma unlink_nif_none a l : forall fuel s q, a <> 0 -> lseg nif_next (nifs (ifs (env s))) q l 0 -> ~ In a (tail l) ->
  (length l < fuel)%nat -> unlink_nif fuel s q a = Ok (false, s).
Proof using Type.
  induction l as [|b l IH]; intros fuel s q Ha Hl Hn Hf; (destruct fuel as [|fuel]; [cbn in Hf; lia|]); cbn [unlink_nif].
  - by rewrite Hl.
  - destruct Hl as (-> & Hb & c & Ec & Hl). rewrite (proj2 (Z.eqb_neq b 0)), (nif_at_ok s b c) by done. cbn [rbind].
    rewrite (proj2 (Z.eqb_neq (nif_next c) a)).
    + cbn [length tail] in Hf, Hn. apply IH; [done|done| |lia]. destruct l; [done|]. cbn in Hn |- *. intros Hin. apply Hn. by right.
    + rewrite (lseg_head _ _ _ _ Hl). destruct l as [|x l]; cbn in Hn |- *; [by intros <-|]. intros ->. apply Hn. by left.
Qed.

Lemma unlink_nif_found a l1 : forall fuel s q b cb n l2, lseg nif_next (nifs (ifs (env s))) q (l1 ++ b :: a :: l2) 0 ->
  nifs (ifs (env s)) !! b = Some cb -> nifs (ifs (env s)) !! a = Some n -> (length (l1 ++ b :: a :: l2) < fuel)%nat ->
  unlink_nif fuel s q a = Ok (true, put_nif s b (set_nif_next cb (nif_next n))).
Proof using Type.
  induction l1 as [|x l1 IH]; intros fuel s q b cb n l2 Hl Eb En Hf;
    (destruct fuel as [|fuel]; [cbn in Hf; lia|]); cbn [unlink_nif app] in Hl, Hf |- *;
    pose proof (linked_nodup _ _ _ _ Hl) as Hnd; destruct Hl as (-> & Hb & c & Ec & Hl);
    rewrite (proj2 (Z.eqb_neq _ 0)), (nif_at_ok s _ c) by done; cbn [rbind].
  - destruct Hl as (Hnx & Ha & _). rewrite Hnx, Z.eqb_refl, (nif_at_ok s a n) by done. cbn [rbind].
    unfold upd_nif. by rewrite (nif_at_ok s b cb) by done.
  - rewrite (proj2 (Z.eqb_neq (nif_next c) a)).
    + eapply IH; [done..|]. cbn [length] in Hf. lia.
    + apply NoDup_cons in Hnd as [_ Hnd]. destruct l1 as [|y l1]; cbn [app] in Hl, Hnd; destruct Hl as (-> & _);
        apply NoDup_cons in Hnd as [Hn _]; intros ->; apply Hn; [by left|]. apply elem_of_app. right. right. by left.
Qed.
Lemma unlink_list_ok s l a n : nif_list (ifs (env s)) l -> a <> 0 -> nifs (ifs (env s)) !! a = Some n ->
  exists s', unlink s a = Ok (bool_decide (a ∈ l), s') /\ nif_list (ifs (env s')) (filter (fun x => x <> a) l) /\
    (forall x, bare (ifs (env s')) x = bare (ifs (env s)) x) /\ arp_table s' = arp_table s /\ mem s' = mem s /\
    etharp_cached_entry s' = etharp_cached_entry s /\ netif_default (ifs (env s')) = netif_default (ifs (env s)).
Proof using Type.
  intros Hl Ha En. unfold nif_list, linked in Hl. pose proof (linked_nodup _ _ _ _ Hl) as Hnd. unfold unlink.
  destruct (Z.eqb_spec (netif_list (ifs (env s))) a) as [E|Hne].
  - rewrite (nif_at_ok s a n) by done. cbn [rbind].
    destruct l as [|b l]; [exfalso; apply Ha; by rewrite <- E|]. destruct Hl as (Hb & _ & c & Ec & Hl).
    assert (b = a) as -> by congruence. rewrite bool_decide_eq_true_2 by apply list_elem_of_here. eexists. split; [reflexivity|].
    rewrite filter_cons_False by by intros []. apply NoDup_cons in Hnd as [Hn _]. rewrite list_elem_of_In in Hn. rewrite without_self by done.
    assert (c = n) as -> by congruence. split; [exact Hl|]. done.
  - destruct (decide (a ∈ l)) as [Hin|Hn].
    2:{ rewrite bool_decide_eq_false_2 by done. exists s. rewrite list_elem_of_In in Hn. rewrite without_self by done. split; [|done].
        apply (unlink_nif_none a l); [done|done| |by eapply list_fuel_enough]. destruct l; [done|]. intros ?. apply Hn. by right. }
    rewrite bool_decide_eq_true_2 by done. apply list_elem_of_split in Hin as (l1 & l2 & ->).
    destruct l1 as [|b l1 _] using rev_ind; [by destruct Hl as (? & _)|]. rewrite <- app_assoc in Hl, Hnd. cbn [app] in Hl, Hnd.
    destruct (lseg_in _ _ _ _ _ b Hl) as [Hb0 [cb Eb]]; [apply in_elt|].
    assert (b <> a) as Hba by (apply NoDup_app in Hnd as (_ & _ & [Hn _]%NoDup_cons); intros ->; by apply Hn, list_elem_of_here).
    eexists. split; [eapply unlink_nif_found; [exact Hl|done|done|by eapply list_fuel_enough]|]. split; [|split; [|done]].
    + rewrite without_mid by by rewrite <- app_assoc. rewrite <- app_assoc. unfold nif_list, linked. cbn. by eapply skip_link.
    + intros x. by apply (bare_insert _ b cb).
Qed.

(** What [netif_add] and [netif_remove] leave. *)
Definition added (i i' : interfaces) (l : list Z) (a : Z) n (ok : bool) : Prop :=
  nif_list i' (if ok then a :: l else l) /\ bare i' a = Some (unlinked n) /\
  (forall x, x <> a -> nifs i' !! x = nifs i !! x) /\ netif_default i' = netif_default i /\ netifnum i' = u8 (netifnum i + 1).
Definition removed (i i' : interfaces) (l : list Z) (a : Z) n : Prop :=
  nif_list i' (filter (fun x => x <> a) l) /\ bare i' a = Some (unlinked (downed n)) /\
  (forall x, x <> a -> bare i' x = bare i x) /\
  netif_default i' = (if bool_decide (a ∈ l) && (netif_default i =? a) then 0 else netif_default i).

Lemma add_ok s l la ll a n ip netmask gw st input init err setup : aborts -> quiet igmp_start -> arp_ok s ->
  nif_list (ifs (env s)) l -> active_list (tcps (env s)) la -> listen_list (tcps (env s)) ll ->
  a <> 0 -> ~ In a l -> nifs (ifs (env s)) !! a = Some n -> initialises init err setup ->
  exists s', netif_add igmp_start tcp_abort s a ip netmask gw st input init = Ok (if err =? ERR_OK then a else 0, s') /\ arp_ok s' /\
    added (ifs (env s)) (ifs (env s')) l a
      (setup (addressed (reset_nif n st (netifnum (ifs (env s))) input) ip netmask gw)) (err =? ERR_OK).
Proof using Type.
  intros Hab Hq Hs Hl Hla Hll Ha Hn En Hinit. unfold netif_add, upd_nif. rewrite (nif_at_ok s a n) by done. cbn [rbind].
  set (i0 := ifs (env s)) in Hl, En |- *. set (n0 := reset_nif n st (netifnum i0) input).
  set (i1 := Interfaces (netif_list i0) (netif_default i0) (u8 (netifnum i0 + 1)) (<[a := n0]> (nifs i0))).
  change (set_ifs (put_nif s a n0) _) with (set_ifs s i1).
  destruct (set_addr_ok (set_ifs s i1) a n0 la ll ip netmask gw Hab) as (s1 & -> & Hi1 & Hs1);
    [by apply arp_ok_env|done|apply lookup_insert_eq|done|done|]. cbn [rbind ifs env set_ifs set_env] in Hi1 |- *.
  destruct (Hinit s1 a (addressed n0 ip netmask gw) Hs1) as (s2 & -> & Hi2 & Hs2); [rewrite Hi1; apply lookup_insert_eq|].
  cbn [rbind]. rewrite Hi1, with_nif_twice in Hi2. set (n2 := setup _) in Hi2 |- *.
  assert (with_nif i1 a n2 = Interfaces (netif_list i0) (netif_default i0) (u8 (netifnum i0 + 1)) (<[a := n2]> (nifs i0))) as Ei
    by (unfold with_nif, i1; cbn; by rewrite insert_insert_eq).
  rewrite Ei in Hi2.
  assert (forall n', lseg nif_next (<[a := n']> (nifs i0)) (netif_list i0) l 0) as Hkeep by (intros n'; by apply lseg_store).
  destruct (err =? ERR_OK) eqn:Eerr; cbn [negb].
  - assert (nifs (ifs (env s2)) !! a = Some n2) as En2 by (rewrite Hi2; apply lookup_insert_eq).
    rewrite (nif_at_ok s2 a n2) by done. cbn [rbind].
    set (s3 := set_netif_list _ a).
    assert (ifs (env s3) = Interfaces a (netif_default i0) (u8 (netifnum i0 + 1)) (<[a := set_nif_next n2 (netif_list i0)]> (nifs i0))) as Hi3
      by (unfold s3; cbn; rewrite Hi2; cbn; by rewrite insert_insert_eq).
    erewrite (nif_at_ok s3 a) by (done || (rewrite Hi3; apply lookup_insert_eq)). cbn [rbind].
    assert (arp_ok s3) as Hs3 by by do 2 apply arp_ok_env.
    assert (exists s4, (if has_flag (nif_flags (set_nif_next n2 (netif_list i0))) NETIF_FLAG_IGMP then igmp_start s3 a else Ok s3) = Ok s4 /\
      ifs (env s4) = ifs (env s3) /\ arp_ok s4) as (s4 & -> & Hi4 & Hs4).
    { destruct (has_flag _ _); [by apply Hq|by exists s3]. }
    cbn [rbind]. exists s4. split; [done|]. split; [done|]. rewrite Hi4, Hi3. unfold added, bare. cbn. rewrite lookup_insert_eq.
    split; [|split; [done|split; [|done]]].
    + split; [done|]. split; [done|]. eexists. split; [reflexivity|]. exact (Hkeep (set_nif_next n2 (netif_list i0))).
    + intros x Hx. by rewrite lookup_insert_ne.
  - exists s2. split; [done|]. split; [done|]. rewrite Hi2. unfold added, bare. cbn. rewrite lookup_insert_eq. split; [apply Hkeep|].
    split; [done|]. split; [|done]. intros x Hx. by rewrite lookup_insert_ne.
Qed.

Lemma remove_nif_ok s l a n : quiet igmp_stop -> arp_ok s -> nif_list (ifs (env s)) l -> a <> 0 -> nifs (ifs (env s)) !! a = Some n ->
  exists s', netif_remove igmp_stop s a = Ok s' /\ arp_ok s' /\ removed (ifs (env s)) (ifs (env s')) l a n.
Proof using Type.
  intros Hq Hs Hl Ha En. unfold netif_remove. rewrite (proj2 (Z.eqb_neq a 0)), (nif_at_ok s a n) by done. cbn [rbind].
  assert (exists s1, (if has_flag (nif_flags n) NETIF_FLAG_IGMP then igmp_stop s a else Ok s) = Ok s1 /\
    ifs (env s1) = ifs (env s) /\ arp_ok s1) as (s1 & -> & Hi1 & Hs1) by (destruct (has_flag _ _); [by apply Hq|by exists s]).
  cbn [rbind]. rewrite <- Hi1 in En. rewrite (nif_at_ok s1 a n) by done. cbn [rbind].
  assert (exists s2, (if netif_is_up n then netif_set_down s1 a else Ok s1) = Ok s2 /\
    ifs (env s2) = with_nif (ifs (env s1)) a (downed n) /\ arp_ok s2) as (s2 & -> & Hi2 & Hs2).
  { destruct (netif_is_up n) eqn:Eup; [by apply set_down_ok|]. exists s1. split; [done|]. unfold downed. rewrite Eup.
    split; [|done]. unfold with_nif. rewrite insert_id by done. by destruct (ifs (env s1)). }
  cbn [rbind]. rewrite Hi1 in En, Hi2.
  assert (nif_next (downed n) = nif_next n) as Hnx by (unfold downed; by destruct (netif_is_up n)).
  assert (nif_list (ifs (env s2)) l) as Hl2.
  { rewrite Hi2. unfold nif_list, linked in Hl |- *. cbn. eapply lseg_links; [|exact Hl]. intros x c _ Ec.
    destruct (decide (x = a)) as [->|Hx]; [rewrite lookup_insert_eq|rewrite lookup_insert_ne by done; by exists c].
    eexists. split; [done|]. by replace c with n by congruence. }
  destruct (unlink_list_ok s2 l a (downed n) Hl2 Ha) as (s3 & -> & Hl3 & Hb & Ht & Hm & Hc & Hd); [rewrite Hi2; apply lookup_insert_eq|].
  cbn [rbind].
  assert (arp_ok s3) as Hs3.
  { pose proof (arp_ok_env (stack R X) s2 (env s3) Hs2) as Hx. rewrite <- Ht, <- Hm, <- Hc in Hx. by destruct s3. }
  assert (bare (ifs (env s3)) a = Some (unlinked (downed n)) /\ forall x, x <> a -> bare (ifs (env s3)) x = bare (ifs (env s)) x) as [Hba Hbx].
  { split; [|intros x Hx]; rewrite Hb, Hi2; unfold bare; cbn; [by rewrite lookup_insert_eq|by rewrite lookup_insert_ne]. }
  assert (netif_default (ifs (env s3)) = netif_default (ifs (env s))) as Hdd by (rewrite Hd, Hi2; done).
  assert (forall s', ifs (env s') = ifs (env s3) \/ (exists d, ifs (env s') = Interfaces (netif_list (ifs (env s3))) d
      (netifnum (ifs (env s3))) (nifs (ifs (env s3)))) -> nif_list (ifs (env s')) (filter (fun x => x <> a) l) /\
    bare (ifs (env s')) a = Some (unlinked (downed n)) /\ forall x, x <> a -> bare (ifs (env s')) x = bare (ifs (env s)) x) as Hend
    by by intros s' [->|[d ->]].
  unfold removed. destruct (bool_decide (a ∈ l)); cbn [negb andb].
  - rewrite Hdd. destruct (Z.eqb_spec (netif_default (ifs (env s))) a); (eexists; split; [reflexivity|]).
    + split; [by apply arp_ok_env|]. destruct (Hend (netif_set_default s3 0)) as (? & ? & ?); [right; by eexists|]. done.
    + split; [done|]. destruct (Hend s3) as (? & ? & ?); [by left|]. done.
  - eexists. split; [reflexivity|]. split; [done|]. destruct (Hend s3) as (? & ? & ?); [by left|]. done.
Qed.

(** The list of interfaces.  [netif_add] of an interface that is not in the list resets it, gives it the addresses, the next number modulo 256 and what the driver sets, and puts it in front of the list; when the driver fails it returns NULL and the list is as before.  [netif_remove] sets the interface down, takes it out of the list wherever it is, and leaves no default interface when it was the default and in the list; the other interfaces keep their order and all their fields.  Neither faults. *)
Theorem netif_list_ops s l la ll : aborts -> quiet igmp_start -> quiet igmp_stop -> arp_ok s ->
  nif_list (ifs (env s)) l -> active_list (tcps (env s)) la -> listen_list (tcps (env s)) ll ->
  forall a n, a <> 0 -> nifs (ifs (env s)) !! a = Some n ->
  (forall ip netmask gw st input init err setup, ~ In a l -> initialises init err setup ->
   exists s', netif_add igmp_start tcp_abort s a ip netmask gw st input init = Ok (if err =? ERR_OK then a else 0, s') /\ arp_ok s' /\
     added (ifs (env s)) (ifs (env s')) l a
       (setup (addressed (reset_nif n st (netifnum (ifs (env s))) input) ip netmask gw)) (err =? ERR_OK)) /\
  exists s', netif_remove igmp_stop s a = Ok s' /\ arp_ok s' /\ removed (ifs (env s)) (ifs (env s')) l a n.
Proof using Type. intros. split; [intros; by eapply add_ok|by apply remove_nif_ok]. Qed.
(** ** Names *)

(** The interface [a] has the name and the number. *)
Definition named (i : interfaces) (c0 c1 num a : Z) : bool :=
  match nifs i !! a with
  | Some n => (num =? nif_num n) && (c0 =? (nif_name n).1) && (c1 =? (nif_name n).2)
  | None => false
  end.

Lemma find_loop_ok c0 c1 num l : forall fuel s p, lseg nif_next (nifs (ifs (env s))) p l 0 -> (length l < fuel)%nat ->
  find_loop fuel s p c0 c1 num = Ok (default 0 (List.find (named (ifs (env s)) c0 c1 num) l)).
Proof using Type.
  induction l as [|b l IH]; intros fuel s p Hl Hf; (destruct fuel as [|fuel]; [cbn in Hf; lia|]); cbn [find_loop List.find].
  - by rewrite Hl.
  - destruct Hl as (-> & Hb & c & Ec & Hl). rewrite (proj2 (Z.eqb_neq b 0)), (nif_at_ok s b c) by done. cbn [rbind].
    unfold named at 1. rewrite Ec. destruct (_ && _ && _); [done|]. apply IH; [done|]. cbn [length] in Hf. lia.
Qed.

(** [netif_find] gives the first interface with the two letters whose number is the one digit behind them. *)
Lemma netif_find_first s l c0 c1 c2 rest : nif_list (ifs (env s)) l ->
  netif_find s (Some (c0 :: c1 :: c2 :: rest)) = Ok (default 0 (List.find (named (ifs (env s)) c0 c1 (u8 (c2 - 48))) l)).
Proof using Type. intros Hl. unfold netif_find. cbn [mread rbind]. apply find_loop_ok; [exact Hl|by eapply list_fuel_enough]. Qed.
End lists.

(** ** Up and down *)

Section updown.
Context `{OsLaws} {R X : Type}.
Abbreviation state := (net (stack R X)).
Implicit Type s : state.
Context (igmp_report_groups dhcp_network_changed : state -> Z -> result state) (link : X -> store -> Z -> Z * store * X).

Lemma linkoutput_keeps : link_keeps link -> link_keeps (linkoutput (R := R) link).
Proof using Type. intros Hk e m p. unfold linkoutput. specialize (Hk (rest e) m p). by destruct (link (rest e) m p) as [[err m'] x]. Qed.

(** The driver touches nothing of the stack. *)
Lemma linkoutput_ifs e m p : ifs (linkoutput (R := R) link e m p).2 = ifs e.
Proof using Type. unfold linkoutput. by destruct (link (rest e) m p) as [[err m'] x]. Qed.

(** What the interface [n] at [a] sends when it becomes both up and linked. *)
Definition announced s (a : Z) n s' : Prop := exists s1,
  (if has_flag (nif_flags n) NETIF_FLAG_ETHARP
   then arp_table s1 = arp_table s /\ stays (mem s) (mem s1) [] /\
     asked (linkoutput link) (ethif_of a n) (nif_ip_addr n) (mem s) (env s) (env s1)
   else s1 = s) /\
  (if has_flag (nif_flags n) NETIF_FLAG_IGMP then igmp_report_groups s1 a = Ok s' else s' = s1).

Lemma announce_ok s a n : link_keeps link -> quiet igmp_report_groups -> arp_ok s -> a <> 0 ->
  nifs (ifs (env s)) !! a = Some n -> mac (nif_hwaddr n) ->
  exists s', announce link igmp_report_groups s a = Ok s' /\ ifs (env s') = ifs (env s) /\ arp_ok s' /\ announced s a n s'.
Proof using Type*.
  intros Hk Hq Hs Ha En Hm. unfold announce. rewrite (nif_at_ok s a n) by done. cbn [rbind]. unfold announced.
  assert (exists s1, (if has_flag (nif_flags n) NETIF_FLAG_ETHARP
     then let! (_, s) := etharp_request (linkoutput link) s (ethif_of a n) (nif_ip_addr n) in Ok s else Ok s) = Ok s1 /\
    ifs (env s1) = ifs (env s) /\ arp_ok s1 /\
    if has_flag (nif_flags n) NETIF_FLAG_ETHARP
    then arp_table s1 = arp_table s /\ stays (mem s) (mem s1) [] /\
      asked (linkoutput link) (ethif_of a n) (nif_ip_addr n) (mem s) (env s) (env s1)
    else s1 = s) as (s1 & -> & Hi & Hs1 & Hcase).
  { destruct (has_flag (nif_flags n) NETIF_FLAG_ETHARP); [|by exists s].
    destruct (request_ok (linkoutput link) s (ethif_of a n) (nif_ip_addr n) (linkoutput_keeps Hk) Hs Hm) as
      (r & s1 & -> & Hs1 & Ht & _ & Hst & Hask). exists s1. split; [done|].
    split; [|split; [done|by split]]. destruct Hask as [[-> _]|(p & st & _ & ->)]; [done|apply linkoutput_ifs]. }
  cbn [rbind]. rewrite (nif_at_ok s1 a n) by (done || by rewrite Hi). cbn [rbind].
  destruct (has_flag (nif_flags n) NETIF_FLAG_IGMP).
  - destruct (Hq s1 a Hs1) as (s2 & E2 & Hi2 & Hs2). exists s2. rewrite Hi2, Hi. do 3 (split; [done|]). by exists s1.
  - exists s1. do 3 (split; [done|]). by exists s1.
Qed.

(** An interface announces itself once it is up and its link is up.  [netif_set_up] and [netif_set_link_up] change nothing when their flag is set already.  Otherwise they set it, and when the other flag is set too send a gratuitous ARP request for the interface's own address on an interface that speaks ARP and the IGMP reports on one that speaks IGMP; with a new link DHCP hears of it first. *)
Theorem netif_announces s a n : link_keeps link -> quiet igmp_report_groups -> quiet dhcp_network_changed -> arp_ok s -> a <> 0 ->
  nifs (ifs (env s)) !! a = Some n -> mac (nif_hwaddr n) ->
  (let n1 := set_nif_flags n (Z.lor (nif_flags n) NETIF_FLAG_UP) in
   if has_flag (nif_flags n) NETIF_FLAG_UP then netif_set_up link igmp_report_groups s a = Ok s
   else exists s', netif_set_up link igmp_report_groups s a = Ok s' /\ arp_ok s' /\ ifs (env s') = with_nif (ifs (env s)) a n1 /\
     if has_flag (nif_flags n1) NETIF_FLAG_LINK_UP then announced (put_nif s a n1) a n1 s' else s' = put_nif s a n1) /\
  (let n1 := set_nif_flags n (Z.lor (nif_flags n) NETIF_FLAG_LINK_UP) in
   if has_flag (nif_flags n) NETIF_FLAG_LINK_UP then netif_set_link_up link igmp_report_groups dhcp_network_changed s a = Ok s
   else exists s1 s', netif_set_link_up link igmp_report_groups dhcp_network_changed s a = Ok s' /\ arp_ok s' /\
     ifs (env s') = with_nif (ifs (env s)) a n1 /\
     (if nif_dhcp n =? 0 then s1 = put_nif s a n1 else dhcp_network_changed (put_nif s a n1) a = Ok s1) /\
     if has_flag (nif_flags n1) NETIF_FLAG_UP then announced s1 a n1 s' else s' = s1).
Proof using Type*.
  intros Hk Hq Hd Hs Ha En Hm. unfold netif_set_up, netif_set_link_up, upd_nif. rewrite (nif_at_ok s a n) by done. cbn [rbind].
  assert (forall n1, nifs (ifs (env (put_nif s a n1))) !! a = Some n1) as Hp by (intros n1; apply lookup_insert_eq).
  split.
  - destruct (has_flag (nif_flags n) NETIF_FLAG_UP); [done|]. cbn [rbind]. rewrite (nif_at_ok _ a _ Ha (Hp _)). cbn [rbind].
    set (n1 := set_nif_flags n _). change (nif_flags n1) with (Z.lor (nif_flags n) NETIF_FLAG_UP).
    assert (arp_ok (put_nif s a n1)) as Hpa by by apply arp_ok_env.
    destruct (has_flag _ NETIF_FLAG_LINK_UP); [|by exists (put_nif s a n1)].
    destruct (announce_ok (put_nif s a n1) a n1 Hk Hq) as (s' & E & Hi & Hs' & Han); [done|done|apply Hp|done|]. by exists s'.
  - destruct (has_flag (nif_flags n) NETIF_FLAG_LINK_UP); [done|]. cbn [rbind]. rewrite (nif_at_ok _ a _ Ha (Hp _)). cbn [rbind].
    set (n1 := set_nif_flags n _). change (nif_flags n1) with (Z.lor (nif_flags n) NETIF_FLAG_LINK_UP).
    change (nif_dhcp n1) with (nif_dhcp n).
    assert (exists s1, (if negb (nif_dhcp n =? 0) then dhcp_network_changed (put_nif s a n1) a else Ok (put_nif s a n1)) = Ok s1 /\
      ifs (env s1) = with_nif (ifs (env s)) a n1 /\ arp_ok s1 /\
      if nif_dhcp n =? 0 then s1 = put_nif s a n1 else dhcp_network_changed (put_nif s a n1) a = Ok s1) as (s1 & -> & Hi1 & Hs1 & Hc).
    { assert (arp_ok (put_nif s a n1)) as Hpa by by apply arp_ok_env. destruct (nif_dhcp n =? 0); cbn [negb]; [by eexists|].
      destruct (Hd (put_nif s a n1) a Hpa) as (s1 & E1 & Hi & ?). exists s1. by rewrite Hi. }
    cbn [rbind]. assert (nifs (ifs (env s1)) !! a = Some n1) as En1 by (rewrite Hi1; apply lookup_insert_eq).
    rewrite (nif_at_ok s1 a n1 Ha En1). cbn [rbind]. change (nif_flags n1) with (Z.lor (nif_flags n) NETIF_FLAG_LINK_UP).
    destruct (has_flag _ NETIF_FLAG_UP); [|by exists s1, s1].
    destruct (announce_ok s1 a n1 Hk Hq Hs1 Ha En1 Hm) as (s' & E & Hi & Hs' & Han). exists s1, s'. by rewrite Hi.
Qed.
End updown.


(** ** A stack with two interfaces *)

(** [tcp_abort] as far as the list is concerned: the links to [p] skip it. *)
Definition skip_pcb (p np : Z) (c : tcp_pcb) : tcp_pcb := if tcp_next c =? p then TcpPcb np (tcp_local_ip c) else c.
Definition drop_connection {R X} (s : net (stack R X)) (p : Z) : result (net (stack R X)) :=
  let t := tcps (env s) in
  let! c := cell (active_mem t) p in
  Ok (set_tcps s (TcpLists (if tcp_active_pcbs t =? p then tcp_next c else tcp_active_pcbs t)
    (skip_pcb p (tcp_next c) <$> active_mem t) (tcp_listen_pcbs t) (listen_mem t))).

Lemma skip_behind m p np l : forall q, p <> 0 -> ~ In p l -> lseg tcp_next m q l 0 -> lseg tcp_next (skip_pcb p np <$> m) q l 0.
Proof.
  induction l as [|b l IH]; intros q Hp Hn; [done|]. intros (-> & Hb & c & Ec & Hl). split; [done|]. split; [done|].
  exists (skip_pcb p np c). rewrite lookup_fmap, Ec. split; [done|].
  assert (tcp_next c <> p) as Hne.
  { rewrite (lseg_head _ _ _ _ Hl). destruct l as [|x l]; [done|]. intros <-. apply Hn. by right; left. }
  unfold skip_pcb. rewrite (proj2 (Z.eqb_neq _ _)) by done. apply IH; [done| |done]. intros ?. apply Hn. by right.
Qed.

Lemma skip_in m p c l1 : forall q l2, NoDup (l1 ++ p :: l2) -> m !! p = Some c -> lseg tcp_next m q (l1 ++ p :: l2) 0 ->
  lseg tcp_next (skip_pcb p (tcp_next c) <$> m) (if q =? p then tcp_next c else q) (l1 ++ l2) 0.
Proof.
  induction l1 as [|b l1 IH]; intros q l2 Hnd Ep; cbn [app].
  - intros (-> & Hp & c' & Ec & Hl). assert (c' = c) as -> by congruence. rewrite Z.eqb_refl.
    apply NoDup_cons in Hnd as [Hn _]. rewrite list_elem_of_In in Hn. by apply skip_behind.
  - intros (-> & Hb & cb & Ec & Hl). cbn [app] in Hnd. apply NoDup_cons in Hnd as [Hn Hnd].
    assert (b <> p) as Hbp by (intros ->; apply Hn, elem_of_app; right; by left). rewrite (proj2 (Z.eqb_neq b p)) by done.
    split; [done|]. split; [done|]. eexists. rewrite lookup_fmap, Ec. split; [done|]. specialize (IH (tcp_next cb) l2 Hnd Ep Hl).
    unfold skip_pcb at 2. destruct (Z.eqb_spec (tcp_next cb) p); exact IH.
Qed.

Lemma drop_connection_aborts {R X} : aborts (@drop_connection R X).
Proof.
  intros s l p Hs Hl Hin. destruct (lseg_in _ _ _ _ _ p Hl Hin) as [Hp [c Ec]]. unfold drop_connection.
  rewrite (cell_ok _ p c) by done. cbn [rbind]. eexists. split; [reflexivity|]. split; [done|]. split; [by apply arp_ok_env|].
  pose proof (linked_nodup _ _ _ _ Hl) as Hnd. apply in_split in Hin as (l1 & l2 & ->). rewrite without_mid by done.
  split; [by apply skip_in|]. split; [|done]. intros x Hx. unfold bound_to. cbn. rewrite lookup_fmap.
  destruct (active_mem _ !! x) as [cx|]; [|done]. cbn. unfold skip_pcb. by destruct (_ =? _).
Qed.

(** A call that does nothing. *)
Definition nothing {A} (s : A) (a : Z) : result A := Ok s.
Lemma nothing_quiet {R X} : quiet (@nothing (net (stack R X))).
Proof. intros s a Hs. by exists s. Qed.

(** The station at 1 is the default, the access point at 2 is in front of it. *)
Definition station : netif_struct :=
  NetifStruct 0 (address_of 10 0 0 2) (address_of 255 255 255 0) (address_of 10 0 0 1) 0 0 0 (mac_of 9) 0x33 (115, 116) 0 0 1500 6.
Definition access_point : netif_struct :=
  NetifStruct 1 (address_of 192 168 4 1) (address_of 255 255 255 0) (address_of 192 168 4 1) 0 0 0 (mac_of 8) 0x33 (97, 112) 1 0 1500 6.
Definition two_ifs : interfaces := Interfaces 2 1 2 (list_to_map [(1, station); (2, access_point); (3, set_nif_flags station 0x10)]).
Definition two_tcps : tcp_lists :=
  TcpLists 10 (list_to_map [(10, TcpPcb 11 (address_of 10 0 0 2)); (11, TcpPcb 0 (address_of 192 168 4 1))])
    12 (list_to_map [(12, TcpPcb 0 (address_of 10 0 0 2))]).
Definition no_ip : ip_vars := IpVars 0 None 0 0 1.
Definition two_stack {R X} (r : R) (x : X) : stack R X := Stack two_ifs two_tcps no_ip r x.

Lemma two_ifs_list : nif_list two_ifs [2; 1].
Proof. repeat split; try done. eexists. split; [reflexivity|]. repeat split; try done. eexists. by split. Qed.
Lemma two_active : active_list two_tcps [10; 11].
Proof. repeat split; try done. eexists. split; [reflexivity|]. repeat split; try done. eexists. by split. Qed.
Lemma two_listen : listen_list two_tcps [12].
Proof. repeat split; try done. eexists. by split. Qed.
Definition two_net : net (stack unit (list (list Z))) := some_net (two_stack tt no_log).
Lemma two_net_ok : arp_ok two_net.
Proof. apply some_net_ok. Qed.
Lemma mac_of_9 : mac (mac_of 9).
Proof. split; [done|by apply (bool_decide_unpack _)]. Qed.

Lemma netif_set_ipaddr_connections_witness :
  arp_ok two_net /\ active_list two_tcps [10; 11] /\
  exists s', netif_set_ipaddr drop_connection two_net 1 (Some (address_of 10 0 0 3)) = Ok s' /\
    active_list (tcps (env s')) [11] /\ listen_mem (tcps (env s')) !! 12 = Some (TcpPcb 0 (address_of 10 0 0 3)).
Proof.
  split; [exact two_net_ok|]. split; [exact two_active|].
  destruct (netif_set_ipaddr_connections drop_connection two_net 1 station [10; 11] [12] (address_of 10 0 0 3)
    drop_connection_aborts two_net_ok) as (s' & H1 & _ & _ & H2 & _ & H3);
    [discriminate|reflexivity|exact two_active|exact two_listen|].
  exists s'. split; [exact H1|]. split; [exact H2|]. rewrite H3. reflexivity.
Defined.

Lemma netif_list_ops_witness :
  arp_ok two_net /\ nif_list two_ifs [2; 1] /\
  exists s', netif_remove nothing two_net 1 = Ok s' /\ nif_list (ifs (env s')) [2] /\ netif_default (ifs (env s')) = 0.
Proof.
  split; [exact two_net_ok|]. split; [exact two_ifs_list|].
  destruct (netif_list_ops drop_connection nothing nothing two_net [2; 1] [10; 11] [12] drop_connection_aborts nothing_quiet
    nothing_quiet two_net_ok two_ifs_list two_active two_listen 1 station) as [_ (s' & H1 & _ & H2 & _ & _ & H3)];
    [discriminate|reflexivity|].
  exists s'. split; [exact H1|]. split; [exact H2|exact H3].
Defined.

Lemma netif_announces_witness :
  arp_ok two_net /\ has_flag 0x10 NETIF_FLAG_UP = false /\
  exists s', netif_set_up log_link nothing two_net 3 = Ok s' /\ arp_ok s'.
Proof.
  split; [exact two_net_ok|]. split; [reflexivity|].
  destruct (netif_announces nothing nothing log_link two_net 3 (set_nif_flags station 0x10) log_link_keeps nothing_quiet nothing_quiet
    two_net_ok) as [(s' & H1 & H2 & _) _]; [discriminate|reflexivity|exact mac_of_9|].
  exists s'. split; [exact H1|exact H2].
Defined.
