(* ===== verification/Ip.v ===== *)
(** * The IP layer: [lwip/core/ipv4/ip.c].

    Routing, input and output of IP packets.  The handlers of the protocols
    above, IGMP's groups and the [output] function of the interfaces are
    parameters that run on the whole state; the raw control blocks are those
    of [RawPcb]. *)
From S2P Require Import Prelude Cobs Uart Comm Message Pbuf InetChksum IpHdr IpAddr Linked RawPcb Etharp Netif.
From stdpp Require Import list gmap.
#[local] Open Scope Z_scope.

Definition DHCP_CLIENT_PORT : Z := 68.

Section ip.
Context `{Os} {F X : Type}.
Abbreviation state := (net (stack (raws F) X)).
Implicit Type s : state.

(** ** Routing: 0 is a NULL interface *)

Fixpoint route_loop (fuel : nat) s (a dest : Z) : result Z :=
  match fuel with
  | O => Fault OutOfFuel
  | S fuel =>
      if a =? 0 then Ok 0
      else
        let! n := nif_at s a in
        if netif_is_up n && ip_addr_netcmp dest (nif_ip_addr n) (nif_netmask n) then Ok a
        else if netif_is_up n && negb (ip4_addr_isbroadcast dest (iface_of n)) &&
                negb (a =? netif_default (ifs (env s))) then Ok a
        else route_loop fuel s (nif_next n) dest
  end.

(** What both functions return when the loop finds nothing. *)
Definition default_route s : result Z :=
  let d := netif_default (ifs (env s)) in
  if d =? 0 then Ok 0
  else let! n := nif_at s d in Ok (if netif_is_up n then d else 0).

Definition ip_route s (dest : Z) : result Z :=
  let! a := route_loop (list_fuel (nifs (ifs (env s)))) s (netif_list (ifs (env s))) dest in
  if negb (a =? 0) then Ok a else default_route s.

Fixpoint router_loop (fuel : nat) s (a dest source : Z) : result Z :=
  match fuel with
  | O => Fault OutOfFuel
  | S fuel =>
      if a =? 0 then Ok 0
      else
        let! n := nif_at s a in
        if netif_is_up n && ip_addr_netcmp dest (nif_ip_addr n) (nif_netmask n) then Ok a
        else if netif_is_up n && ip_addr_netcmp source (nif_ip_addr n) (nif_netmask n) then Ok a
        else router_loop fuel s (nif_next n) dest source
  end.
Definition ip_router s (dest source : Z) : result Z :=
  let! a := router_loop (list_fuel (nifs (ifs (env s)))) s (netif_list (ifs (env s))) dest source in
  if negb (a =? 0) then Ok a else default_route s.

(** ** Input *)

(** The raw control blocks and the state without them. *)
Definition split s : raws F * net (stack unit X) :=
  (raw_blocks (env s), Net (arp_table s) (etharp_cached_entry s) (mem s)
     (Stack (ifs (env s)) (tcps (env s)) (ipv (env s)) tt (rest (env s)))).
Definition join (st : raws F * net (stack unit X)) : state :=
  let '(r, s) := st in Net (arp_table s) (etharp_cached_entry s) (mem s)
     (Stack (ifs (env s)) (tcps (env s)) (ipv (env s)) r (rest (env s))).

(** The receive functions of raw control blocks, [igmp_lookfor_group], and
    what a packet is handed to: it, and the interface it came in on. *)
Context (call : F -> Z -> Z -> Z -> Z -> raws F * net (stack unit X) -> result (Z * (raws F * net (stack unit X))))
        (igmp_lookfor_group : X -> Z -> Z -> bool)
        (udp_input tcp_input icmp_input : state -> Z -> Z -> result state)
        (igmp_input : state -> Z -> Z -> Z -> result state)
        (icmp_dest_unreach : state -> Z -> Z -> result state).

Definition ICMP_DUR_PROTO : Z := 2.

(** [current_iphdr_dest] and [current_iphdr_src], and the other two. *)
Definition set_addresses s (src dest : Z) : state :=
  let v := ipv (env s) in set_ipv s (IpVars (current_netif v) (current_header v) src dest (ip_id v)).
Definition set_current s (nif : Z) (hdr : option (Z * Z)) : state :=
  let v := ipv (env s) in set_ipv s (IpVars nif hdr (current_iphdr_src v) (current_iphdr_dest v) (ip_id v)).

(** The address is one of the interface, or a broadcast there. *)
Definition addressed_to n (dest : Z) : bool :=
  netif_is_up n && negb (nif_ip_addr n =? IPADDR_ANY) &&
  ((dest =? nif_ip_addr n) || ip4_addr_isbroadcast dest (iface_of n)).

(** The search for the interface of a packet: first [inp], then the others in
    the order of the list. *)
Fixpoint match_loop (fuel : nat) s (inp a : Z) (first : bool) (dest : Z) : result Z :=
  match fuel with
  | O => Fault OutOfFuel
  | S fuel =>
      let! n := nif_at s a in
      if addressed_to n dest then Ok a
      else
        let a := if first then netif_list (ifs (env s)) else nif_next n in
        let! a := (if a =? inp then let! n := nif_at s a in Ok (nif_next n) else Ok a) in
        if a =? 0 then Ok 0 else match_loop fuel s inp a false dest
  end.

Definition find_netif s (inp dest : Z) : result Z :=
  if ip_addr_ismulticast dest then
    let! n := nif_at s inp in
    Ok (if has_flag (nif_flags n) NETIF_FLAG_IGMP && igmp_lookfor_group (rest (env s)) inp dest then inp else 0)
  else match_loop (S (list_fuel (nifs (ifs (env s))))) s inp inp true dest.

(** DHCP replies are taken whatever their address: the interface, and whether
    the source is checked. *)
Definition accept_dhcp (m : store) (hdr : Z * Z) (hlen nif inp : Z) : result (Z * bool) :=
  if negb (nif =? 0) then Ok (nif, true)
  else
    let! proto := hdr_u8 m hdr 9 in
    if proto =? IP_PROTO_UDP then
      let! port := hdr_u16 m hdr (hlen + 2) in
      Ok (if port =? ntohs DHCP_CLIENT_PORT then (inp, false) else (0, true))
    else Ok (0, true).

(** The end of [ip_input]: the raw control blocks and the protocols. *)
Definition hand_up s (p inp : Z) (hdr : Z * Z) : result state :=
  let! (eaten, st) :=
    raw_input Etharp.mem call (split s) p (current_iphdr_src (ipv (env s))) (current_iphdr_dest (ipv (env s))) in
  let s := join st in
  if negb (eaten =? 0) then Ok s
  else
    let! proto := hdr_u8 (mem s) hdr 9 in
    if proto =? IP_PROTO_UDP then udp_input s p inp
    else if proto =? IP_PROTO_TCP then tcp_input s p inp
    else if proto =? IP_PROTO_ICMP then icmp_input s p inp
    else if proto =? IP_PROTO_IGMP then igmp_input s p inp (current_iphdr_dest (ipv (env s)))
    else
      let! n := nif_at s inp in
      let dest := current_iphdr_dest (ipv (env s)) in
      let! s := (if negb (ip4_addr_isbroadcast dest (iface_of n)) && negb (ip_addr_ismulticast dest)
                 then let! c := deref (mem s) p in
                      icmp_dest_unreach (set_mem s (put (mem s) p (set_payload c hdr))) p ICMP_DUR_PROTO
                 else Ok s) in
      free_packet s p.

(** [ip_input] from the search for an interface on. *)
Definition ip_deliver s (p inp : Z) (hdr : Z * Z) (hlen : Z) : result state :=
  let! dest := hdr_u32 (mem s) hdr 16 in
  let! src := hdr_u32 (mem s) hdr 12 in
  let s := set_addresses s src dest in
  let! nif := find_netif s inp dest in
  let! (nif, check_ip_src) := accept_dhcp (mem s) hdr hlen nif inp in
  let! n := nif_at s inp in
  if check_ip_src && negb (src =? IPADDR_ANY) &&
     (ip4_addr_isbroadcast src (iface_of n) || ip_addr_ismulticast src) then free_packet s p
  else if nif =? 0 then free_packet s p
  else
    let! off := hdr_u16 (mem s) hdr 6 in
    if negb (Z.land off (htons (Z.lor IP_OFFMASK IP_MF)) =? 0) then free_packet s p
    else
      let! s := hand_up (set_current s inp (Some hdr)) p inp hdr in
      Ok (set_addresses (set_current s 0 None) IPADDR_ANY IPADDR_ANY).

(** [ip_input] always returns [ERR_OK]. *)
Definition ip_input s (p inp : Z) : result state :=
  let! c := deref (mem s) p in
  let hdr := payload c in
  let! w := hdr_u16 (mem s) hdr 0 in
  if negb (IPH_V w =? 4) then free_packet s p
  else
    let iphdr_hlen := IPH_HL w * 4 in
    let! l := hdr_u16 (mem s) hdr 2 in
    let iphdr_len := ntohs l in
    if (len c <? iphdr_hlen) || (tot_len c <? iphdr_len) then free_packet s p
    else
      let! d := load (mem s) hdr 0 iphdr_hlen in
      if negb (inet_chksum (Z.odd hdr.2) d =? 0) then free_packet s p
      else
        let! m := pbuf_realloc (mem s) p iphdr_len in
        ip_deliver (set_mem s m) p inp hdr iphdr_hlen.

(** ** Output *)

(** [netif->output(netif, p, ipaddr)]. *)
Context (output : state -> Z -> Z -> Z -> result (Z * state)).

(** The sum [ip_output_if_opt] keeps as it fills in the header: [sum] is that
    of the options. *)
Definition header_sum (sum proto ttl dest vht len id src : Z) : Z :=
  let sum := u32 (sum + Z.lor (Z.shiftl proto 8) ttl) in
  let sum := u32 (sum + Z.land dest 0xFFFF) in
  let sum := u32 (sum + Z.shiftr dest 16) in
  let sum := u32 (sum + vht) in
  let sum := u32 (sum + len) in
  let sum := u32 (sum + id) in
  let sum := u32 (sum + Z.land src 0xFFFF) in
  let sum := u32 (sum + Z.shiftr src 16) in
  let sum := u32 (Z.shiftr sum 16 + Z.land sum 0xFFFF) in
  let sum := u32 (Z.shiftr sum 16 + sum) in
  u16 (Z.lnot sum).

(** The fields of the header in the order of the stores; 16-bit values are as
    the processor holds them. *)
Definition ip_fields (sum proto ttl dest vht len id src : Z) : list (Z * list Z) :=
  [(8, [ttl]); (9, [proto]); (16, u32_bytes dest); (0, bytes_u16 vht); (2, bytes_u16 len); (6, bytes_u16 0);
   (4, bytes_u16 id); (12, u32_bytes src); (10, bytes_u16 (header_sum sum proto ttl dest vht len id src))].

(** The options in front of the packet: the flag of [pbuf_header], their size
    rounded up and their sum. *)
Definition put_options s (p : Z) (options : list Z) : result (Z * Z * Z * state) :=
  let optlen := zlen options in
  if optlen =? 0 then Ok (0, 0, 0, s)
  else
    let optlen_aligned := u16 (Z.land (optlen + 3) (Z.lnot 3)) in
    let! (fail, m) := pbuf_header (mem s) p (s16 optlen_aligned) in
    if negb (fail =? 0) then Ok (fail, optlen_aligned, 0, set_mem s m)
    else
      let! c := deref m p in
      let! m := save m (payload c) 0 options in
      let! m := save m (payload c) optlen (replicate (Z.to_nat (optlen_aligned - optlen)) 0) in
      let! d := load m (payload c) 0 (2 * (optlen_aligned / 2)) in
      Ok (0, optlen_aligned, (sum_words 0 d).1, set_mem s m).

(** [src] is 0 for a NULL pointer too; [dest] is [None] for [IP_HDRINCL];
    [options] are the [optlen] bytes at [ip_options]. *)
Definition ip_output_if_opt s (p src : Z) (dest : option Z) (ttl tos proto nif : Z) (options : list Z) : result (Z * state) :=
  match dest with
  | Some dest =>
      let! (fail, optlen_aligned, sum, s) := put_options s p options in
      if negb (fail =? 0) then Ok (ERR_BUF, s)
      else
        let ip_hlen := u16 (IP_HLEN + optlen_aligned) in
        let! (fail, m) := pbuf_header (mem s) p IP_HLEN in
        let s := set_mem s m in
        if negb (fail =? 0) then Ok (ERR_BUF, s)
        else
          let! c := deref (mem s) p in
          let! n := nif_at s nif in
          let v := ipv (env s) in
          let! m := put_fields (mem s) (payload c)
            (ip_fields sum proto ttl dest (vhltos 4 (ip_hlen / 4) tos) (htons (tot_len c)) (htons (ip_id v))
               (if src =? IPADDR_ANY then nif_ip_addr n else src)) in
          let s := set_ipv (set_mem s m) (IpVars (current_netif v) (current_header v) (current_iphdr_src v)
                     (current_iphdr_dest v) (u16 (ip_id v + 1))) in
          output s nif p dest
  | None =>
      let! c := deref (mem s) p in
      let! dest := hdr_u32 (mem s) (payload c) 16 in
      output s nif p dest
  end.

Definition ip_output_if s (p src : Z) (dest : option Z) (ttl tos proto nif : Z) : result (Z * state) :=
  ip_output_if_opt s p src dest ttl tos proto nif [].

(** [ip_output], with a destination. *)
Definition ip_output s (p src dest ttl tos proto : Z) : result (Z * state) :=
  let! nif := ip_route s dest in
  if nif =? 0 then Ok (ERR_RTE, s) else ip_output_if s p src (Some dest) ttl tos proto nif.
End ip.
