(* ===== verification/Icmp.v ===== *)
(** * ICMP: [lwip/core/ipv4/icmp.c].

    The answer to an echo request, and the message that a port or a protocol
    cannot be reached.  The [output] function of the interfaces is a
    parameter, as in [Ip]. *)
From S2P Require Import Prelude Cobs Uart Comm Message Pbuf InetChksum IpHdr IpAddr Linked RawPcb Etharp Netif Ip.
From stdpp Require Import list gmap.
#[local] Open Scope Z_scope.

Definition ICMP_ER : Z := 0.
Definition ICMP_DUR : Z := 3.
Definition ICMP_ECHO : Z := 8.
Definition ICMP_TTL : Z := 255.
Definition SIZEOF_ICMP_ECHO_HDR : Z := 8.
Definition ICMP_DEST_UNREACH_DATASIZE : Z := 8.

Section icmp.
Context `{Os} {F X : Type}.
Abbreviation state := (net (stack (raws F) X)).
Implicit Type s : state.
Context (output : state -> Z -> Z -> Z -> result (Z * state)).

(** ** Echo requests *)

(** The checksum after the type has changed from [ICMP_ECHO] to [ICMP_ER]; as
    the processor holds it. *)
Definition echo_chksum (chksum : Z) : Z :=
  if htons (0xffff - Z.shiftl ICMP_ECHO 8) <=? chksum then u16 (chksum + (htons (Z.shiftl ICMP_ECHO 8) + 1))
  else u16 (chksum + htons (Z.shiftl ICMP_ECHO 8)).

(** Room for the headers in front of the request: the packet itself, or a copy
    of it.  The flag is false for [memerr]; the result is the packet, which
    then starts at its ICMP header, and the place of its IP header. *)
Definition link_room s (p hlen : Z) (iphdr : Z * Z) : result (bool * Z * (Z * Z) * state) :=
  let! (full, m) := pbuf_header (mem s) p (PBUF_IP_HLEN + PBUF_LINK_HLEN) in
  if negb (full =? 0) then
    let! (fail, m) := pbuf_header m p hlen in
    if negb (fail =? 0) then Ok (false, p, iphdr, set_mem s m)
    else
      let! c := deref m p in
      let! (r, m) := pbuf_alloc m PBUF_LINK (tot_len c) PBUF_RAM in
      if r =? 0 then Ok (false, p, iphdr, set_mem s m)
      else
        let! (err, m) := pbuf_copy m r p in
        if negb (err =? ERR_OK) then Ok (false, p, iphdr, set_mem s m)
        else
          let! c := deref m r in
          let iphdr := payload c in
          let! (fail, m) := pbuf_header m r (- hlen) in
          if negb (fail =? 0) then Ok (false, p, iphdr, set_mem s m)
          else
            let! (_, m) := pbuf_free m p in
            Ok (true, r, iphdr, set_mem s m)
  else
    let! (fail, m) := pbuf_header m p (- (PBUF_IP_HLEN + PBUF_LINK_HLEN)) in
    Ok (fail =? 0, p, iphdr, set_mem s m).

(** The fields of the answer, with the IP header at [iphdr] and the ICMP header
    at [iecho]. *)
Definition make_echo_reply s (iphdr iecho : Z * Z) : result state :=
  let m := mem s in
  let! m := save m iphdr 12 (u32_bytes (current_iphdr_dest (ipv (env s)))) in
  let! m := save m iphdr 16 (u32_bytes (current_iphdr_src (ipv (env s)))) in
  let! m := save m iecho 0 [ICMP_ER] in
  let! chksum := hdr_u16 m iecho 2 in
  let! m := save m iecho 2 (bytes_u16 (echo_chksum chksum)) in
  let! m := save m iphdr 8 [ICMP_TTL] in
  let! m := save m iphdr 10 (bytes_u16 0) in
  let! d := load m iphdr 0 IP_HLEN in
  let! m := save m iphdr 10 (bytes_u16 (inet_chksum (Z.odd iphdr.2) d)) in
  Ok (set_mem s m).

(** The case [ICMP_ECHO], for a packet that starts at its ICMP header. *)
Definition echo_input s (p inp hlen : Z) (iphdr : Z * Z) : result state :=
  let! n := nif_at s inp in
  let dest := current_iphdr_dest (ipv (env s)) in
  if ip_addr_ismulticast dest || ip4_addr_isbroadcast dest (iface_of n) then free_packet s p
  else
    let! c := deref (mem s) p in
    if tot_len c <? SIZEOF_ICMP_ECHO_HDR then free_packet s p
    else
      let! sum := inet_chksum_pbuf (mem s) p in
      if negb (sum =? 0) then free_packet s p
      else
        let! (ok, p, iphdr, s) := link_room s p hlen iphdr in
        if negb (ok : bool) then free_packet s p
        else
          let! c := deref (mem s) p in
          let! s := make_echo_reply s iphdr (payload c) in
          let! (fail, m) := pbuf_header (mem s) p hlen in
          let s := set_mem s m in
          let! s := (if negb (fail =? 0) then Ok s
                     else let! (_, s) := ip_output_if output s p (current_iphdr_dest (ipv (env s))) None ICMP_TTL 0 IP_PROTO_ICMP inp in Ok s) in
          free_packet s p.

Definition icmp_input s (p inp : Z) : result state :=
  let! c := deref (mem s) p in
  let iphdr := payload c in
  let! w := hdr_u16 (mem s) iphdr 0 in
  let hlen := IPH_HL w * 4 in
  let! (fail, m) := pbuf_header (mem s) p (- hlen) in
  let s := set_mem s m in
  if negb (fail =? 0) then free_packet s p
  else
    let! c := deref m p in
    if tot_len c <? 4 then free_packet s p
    else
      let! type := hdr_u8 m (payload c) 0 in
      if type =? ICMP_ECHO then echo_input s p inp hlen iphdr
      else free_packet s p.

(** ** Errors *)

Definition icmp_send_response s (p type code : Z) : result state :=
  let! (q, m) := pbuf_alloc (mem s) PBUF_IP (SIZEOF_ICMP_ECHO_HDR + IP_HLEN + ICMP_DEST_UNREACH_DATASIZE) PBUF_RAM in
  if q =? 0 then Ok (set_mem s m)
  else
    let! c := deref m p in
    let! cq := deref m q in
    let hdr := payload cq in
    let! m := put_fields m hdr [(0, [type]); (1, [code]); (4, bytes_u16 0); (6, bytes_u16 0)] in
    let! d := load m (payload c) 0 (IP_HLEN + ICMP_DEST_UNREACH_DATASIZE) in
    let! m := save m hdr SIZEOF_ICMP_ECHO_HDR d in
    let! m := save m hdr 2 (bytes_u16 0) in
    let! d := load m hdr 0 (len cq) in
    let! m := save m hdr 2 (bytes_u16 (inet_chksum (Z.odd hdr.2) d)) in
    let! src := hdr_u32 m (payload c) 12 in
    let! (_, s) := ip_output output (set_mem s m) q 0 src ICMP_TTL 0 IP_PROTO_ICMP in
    free_packet s q.

Definition icmp_dest_unreach s (p t : Z) : result state := icmp_send_response s p ICMP_DUR t.
End icmp.
