(* ===== verification/IpOutput.v ===== *)
(** * Routing and output: theorems about [lwip/core/ipv4/ip.c]. *)
From S2P Require Import Prelude Cobs Uart Comm Message Pbuf PbufChain PbufCopy PbufTrim InetChksum IpHdr IpAddr.
From S2P Require Import Linked RawPcb Etharp EtharpTable EtharpPackets Netif Ip.
From stdpp Require Import list gmap.
#[local] Open Scope Z_scope.

(** ** Routing *)

(** The interface [a] is up and on the network of [dest], or may be used for
    it because it is not the default interface. *)
Definition is_up (i : interfaces) (a : Z) : bool :=
  match nifs i !! a with Some n => netif_is_up n | None => false end.
Definition on_network (i : interfaces) (a addr : Z) : bool :=
  match nifs i !! a with Some n => ip_addr_netcmp addr (nif_ip_addr n) (nif_netmask n) | None => false end.
Definition broadcasts (i : interfaces) (a addr : Z) : bool :=
  match nifs i !! a with Some n => ip4_addr_isbroadcast addr (iface_of n) | None => false end.
Definition routes (i : interfaces) (dest a : Z) : bool :=
  is_up i a && (on_network i a dest || negb (broadcasts i a dest) && negb (a =? netif_default i)).
(** The default interface if it is up. *)
Definition fallback (i : interfaces) : Z := if is_up i (netif_default i) then netif_default i else 0.
(** The default interface is NULL or one of the interfaces. *)
Definition default_ok (i : interfaces) : Prop := netif_default i = 0 \/ is_Some (nifs i !! netif_default i).

Section routing.
Context {F X : Type}.
Abbreviation state := (net (stack (raws F) X)).
Implicit Type s : state.

Lemma route_loop_ok dest l : forall fuel s p, lseg nif_next (nifs (ifs (env s))) p l 0 -> (length l < fuel)%nat ->
  route_loop fuel s p dest = Ok (default 0 (List.find (routes (ifs (env s)) dest) l)).
Proof.
  induction l as [|a l IH]; intros fuel s p Hl Hf; (destruct fuel as [|fuel]; [cbn in Hf; lia|]); cbn [route_loop List.find].
  - by rewrite Hl.
  - destruct Hl as (-> & Ha & n & En & Hl). rewrite (proj2 (Z.eqb_neq a 0)), (nif_at_ok s a n) by done. cbn [rbind].
    unfold routes, is_up, on_network, broadcasts. rewrite En. cbn [length] in Hf.
    destruct (netif_is_up n); cbn [andb]; [|apply IH; [done|lia]].
    destruct (ip_addr_netcmp dest (nif_ip_addr n) (nif_netmask n)); cbn [orb]; [done|].
    destruct (negb _ && negb _); [done|]. apply IH; [done|lia].
Qed.

Lemma router_loop_ok dest source l : forall fuel s p, lseg nif_next (nifs (ifs (env s))) p l 0 -> (length l < fuel)%nat ->
  router_loop fuel s p dest source =
  Ok (default 0 (List.find (fun a => is_up (ifs (env s)) a && (on_network (ifs (env s)) a dest || on_network (ifs (env s)) a source)) l)).
Proof.
  induction l as [|a l IH]; intros fuel s p Hl Hf; (destruct fuel as [|fuel]; [cbn in Hf; lia|]); cbn [router_loop List.find].
  - by rewrite Hl.
  - destruct Hl as (-> & Ha & n & En & Hl). rewrite (proj2 (Z.eqb_neq a 0)), (nif_at_ok s a n) by done. cbn [rbind].
    unfold is_up at 1, on_network at 1 2. rewrite En. cbn [length] in Hf.
    destruct (netif_is_up n); cbn [andb]; [|apply IH; [done|lia]].
    destruct (ip_addr_netcmp dest (nif_ip_addr n) (nif_netmask n)); cbn [orb]; [done|].
    destruct (ip_addr_netcmp source (nif_ip_addr n) (nif_netmask n)); [done|]. apply IH; [done|lia].
Qed.

Lemma default_route_ok s : default_ok (ifs (env s)) -> default_route s = Ok (fallback (ifs (env s))).
Proof.
  unfold default_route, fallback, is_up. intros Hd. destruct (Z.eqb_spec (netif_default (ifs (env s))) 0) as [E|E].
  - rewrite E. by destruct (match nifs _ !! 0 with Some _ => _ | None => _ end).
  - destruct Hd as [?|[n En]]; [done|]. rewrite (nif_at_ok s _ n), En by done. cbn [rbind]. by destruct (netif_is_up n).
Qed.

Lemma find_nonzero (i : interfaces) f l : nif_list i l ->
  match List.find f l with Some a => a <> 0 | None => True end.
Proof.
  intros Hl. destruct (List.find f l) as [a|] eqn:E; [|done]. apply List.find_some in E as [Hin _].
  by destruct (lseg_in _ _ _ _ _ a Hl Hin).
Qed.

Lemma route_ok s l dest : nif_list (ifs (env s)) l -> default_ok (ifs (env s)) ->
  ip_route s dest = Ok (default (fallback (ifs (env s))) (List.find (routes (ifs (env s)) dest) l)).
Proof.
  intros Hl Hd. unfold ip_route. rewrite (route_loop_ok dest l) by (done || by eapply list_fuel_enough). cbn [rbind].
  pose proof (find_nonzero (ifs (env s)) (routes (ifs (env s)) dest) l Hl) as Hf. destruct (List.find _ l) as [a|]; cbn.
  - by rewrite (proj2 (Z.eqb_neq a 0)).
  - by apply default_route_ok.
Qed.

(** Routing looks at the interfaces alone. *)
Lemma route_same s s' dest : ifs (env s') = ifs (env s) -> ip_route s' dest = ip_route s dest.
Proof using Type.
  intros E. unfold ip_route, default_route, nif_at. rewrite E.
  assert (forall fuel a, route_loop fuel s' a dest = route_loop fuel s a dest) as Hl.
  { induction fuel as [|fuel IH]; intros a; [done|]. cbn [route_loop]. unfold nif_at. rewrite E. destruct (a =? 0); [done|].
    destruct (cell _ a); [|done]. cbn [rbind]. by rewrite IH. }
  by rewrite Hl.
Qed.

(** The choice of the interface.  [ip_route] returns the first interface of the list that is up and either on the network of the destination or, for a destination that is no broadcast there, not the default interface; without one it returns the default interface if that is up, else none.  [ip_router] returns the first one that is up and on the network of the destination or of the source, with the same fallback.  Both run through the list without a fault. *)
Theorem ip_route_choice s l dest source : nif_list (ifs (env s)) l -> default_ok (ifs (env s)) ->
  ip_route s dest = Ok (default (fallback (ifs (env s))) (List.find (routes (ifs (env s)) dest) l)) /\
  ip_router s dest source = Ok (default (fallback (ifs (env s)))
    (List.find (fun a => is_up (ifs (env s)) a && (on_network (ifs (env s)) a dest || on_network (ifs (env s)) a source)) l)).
Proof.
  intros Hl Hd. split; [by apply route_ok|]. unfold ip_router. set (f := fun a => _ && _).
  rewrite (router_loop_ok dest source l) by (done || by eapply list_fuel_enough). cbn [rbind].
  pose proof (find_nonzero (ifs (env s)) f l Hl) as Hf. unfold f in Hf. destruct (List.find _ l) as [a|]; cbn.
  - by rewrite (proj2 (Z.eqb_neq a 0)).
  - by apply default_route_ok.
Qed.

(** The network of an interface does not decide.  An interface that is up, in front of the list and not the default takes every packet that is no broadcast there, also those for the networks of the interfaces behind it. *)
Theorem ip_route_shadows s a l dest : nif_list (ifs (env s)) (a :: l) -> default_ok (ifs (env s)) -> is_up (ifs (env s)) a = true ->
  a <> netif_default (ifs (env s)) -> broadcasts (ifs (env s)) a dest = false -> ip_route s dest = Ok a.
Proof.
  intros Hl Hd Hup Hnd Hb. rewrite (route_ok s (a :: l)) by done. cbn [List.find]. unfold routes at 1.
  by rewrite Hup, Hb, (proj2 (Z.eqb_neq a _)), orb_true_r by done.
Qed.
End routing.

(** ** The header *)
#[local] Transparent bytes_u16.

(** An IP header as it lies in memory, with [opts] behind it. *)
Definition ip_header (ttl tos proto len id src dest chk : Z) (opts : list Z) : list Z :=
  [0x45 + zlen opts / 4; tos] ++ be16 len ++ be16 id ++ [0; 0; ttl; proto] ++ bytes_u16 chk ++
  u32_bytes src ++ u32_bytes dest ++ opts.

Lemma bytes_u16_val x : is_u16 x -> wsum (bytes_u16 x) = x.
Proof. intros Hx. unfold bytes_u16. cbn [wsum]. width_lia. Qed.
Lemma be16_u16 v : is_u16 v -> bytes_u16 (htons v) = be16 v.
Proof. intros Hv. rewrite htons_eq by done. unfold bytes_u16, be16. f_equal; [|f_equal]; width_lia. Qed.
Lemma be16_val v : is_u16 v -> wsum (be16 v) = htons v.
Proof. intros Hv. rewrite htons_eq by done. unfold be16. cbn [wsum]. width_lia. Qed.

Lemma vhltos_eq hl tos : 0 <= hl < 16 -> is_byte tos -> vhltos 4 hl tos = 64 + hl + 256 * tos.
Proof.
  intros Hh Ht. unfold vhltos. change (Z.shiftl 4 12) with 16384. rewrite Z.shiftl_mul_pow2 by done. change (2 ^ 8) with 256.
  rewrite (lor_add 16384 _ 12) by (done || (change (2 ^ 12) with 4096; lia)).
  rewrite (lor_add _ tos 8) by (done || (change (2 ^ 8) with 256; first [exact Ht|rewrite Z.add_mod, Z.mod_mul by lia; done])).
  rewrite htons_eq by width_lia. width_lia.
Qed.

(** Even data has no byte left over. *)
Lemma sum_words_even l : forall sum, bytes l -> 0 <= sum -> sum + 65535 * zlen l < 4294967296 -> zlen l mod 2 = 0 ->
  sum_words sum l = (sum + wsum l, []).
Proof.
  induction l as [|b|a b l IH] using pair_ind; intros sum Hl Hs Hb He.
  - cbn. by rewrite Z.add_0_r.
  - done.
  - rewrite !bytes_cons in Hl. destruct Hl as (Ha & Hb' & Hl). zl. pose proof (zlen_nonneg l). unfold is_byte in *.
    cbn [sum_words wsum]. rewrite u32_small by width_lia. rewrite IH; [f_equal; lia|done|lia|lia|].
    rewrite <- He. replace (1 + (1 + zlen l)) with (zlen l + 1 * 2) by lia. by rewrite Z.mod_add.
Qed.

(** Two folds and the complement of a sum of a few words. *)
Lemma two_folds w : 0 < w < 65536 * 1000 ->
  u16 (Z.lnot (u32 (Z.shiftr (u32 (Z.shiftr w 16 + Z.land w 0xFFFF)) 16 + u32 (Z.shiftr w 16 + Z.land w 0xFFFF)))) = 65535 - canon w.
Proof.
  intros Hw. change 0xFFFF with 65535. rewrite land_65535, !Z.shiftr_div_pow2 by done. change (2 ^ 16) with 65536.
  set (s := w / 65536 + w mod 65536). assert (s mod 65535 = w mod 65535 /\ 0 < s < 66536) as [Hm Hs].
  { unfold s. split; [|Z.div_mod_to_equations; lia]. rewrite (Z.div_mod w 65536) at 3 by done.
    replace (65536 * (w / 65536) + w mod 65536) with (w / 65536 + w mod 65536 + w / 65536 * 65535) by lia. by rewrite Z.mod_add. }
  rewrite (u32_small s) by (unfold is_u32; lia). rewrite <- (canon_same s w) by (lia || (split; [exact Hm|lia])).
  clearbody s. clear Hm. unfold canon. rewrite (proj2 (Z.eqb_neq s 0)) by lia. unfold Z.lnot, u16.
  destruct (Z.lt_ge_cases s 65536) as [Hlt|Hge].
  - rewrite (Z.div_small s), Z.add_0_l, u32_small by (unfold is_u32; lia).
    destruct (Z.eq_dec s 65535) as [->|]; [done|]. rewrite (Z.mod_small (s - 1)) by lia.
    replace (Z.pred (- s)) with (65535 - s + -1 * 65536) by lia. rewrite Z.mod_add, Z.mod_small by lia. lia.
  - assert (s / 65536 = 1) as -> by (Z.div_mod_to_equations; lia). rewrite u32_small by (unfold is_u32; lia).
    replace (s - 1) with (s - 65536 + 1 * 65535) by lia. rewrite Z.mod_add, (Z.mod_small (s - 65536)) by lia.
    replace (Z.pred (- (1 + s))) with (131070 - s + -2 * 65536) by lia. rewrite Z.mod_add, Z.mod_small by lia. lia.
Qed.

Lemma halves x : is_u32 x -> Z.land x 0xFFFF + Z.shiftr x 16 = wsum (u32_bytes x) /\ 0 <= Z.land x 0xFFFF < 65536 /\ 0 <= Z.shiftr x 16 < 65536.
Proof.
  intros Hx. change 0xFFFF with 65535. rewrite land_65535, Z.shiftr_div_pow2 by done. change (2 ^ 16) with 65536. unfold u32_bytes.
  cbn [wsum]. widths. Z.div_mod_to_equations. lia.
Qed.

Section checksum.
Context (ttl tos proto len id src dest : Z) (opts : list Z).
Context (Httl : is_byte ttl) (Htos : is_byte tos) (Hproto : is_byte proto) (Hlen : is_u16 len) (Hid : is_u16 id)
  (Hsrc : is_u32 src) (Hdest : is_u32 dest) (Hopts : bytes opts) (Hfour : zlen opts mod 4 = 0) (Hforty : zlen opts <= 40).

(** The words of the header but for the checksum. *)
Definition header_words : Z := wsum (ip_header ttl tos proto len id src dest 0 opts).
Definition header_chksum : Z := header_sum (wsum opts) proto ttl dest (vhltos 4 (5 + zlen opts / 4) tos) (htons len) (htons id) src.

Lemma opts_words : 0 <= zlen opts / 4 <= 10.
Proof using Hfour Hforty. pose proof (zlen_nonneg opts). Z.div_mod_to_equations. lia. Qed.

Lemma header_words_eq chk : is_u16 chk -> wsum (ip_header ttl tos proto len id src dest chk opts) =
  wsum opts + (256 * proto + ttl) + wsum (u32_bytes dest) + (69 + zlen opts / 4 + 256 * tos) + htons len + htons id +
  wsum (u32_bytes src) + chk.
Proof using Hlen Hid.
  intros Hchk. pose proof (be16_val len Hlen) as E1. pose proof (be16_val id Hid) as E2. pose proof (bytes_u16_val chk Hchk) as E3.
  unfold be16, bytes_u16 in E1, E2, E3. cbn [wsum] in E1, E2, E3.
  unfold ip_header, be16, bytes_u16, u32_bytes. cbn [app wsum]. lia.
Qed.

Lemma header_chksum_eq : header_chksum = 65535 - canon header_words.
Proof using Type*.
  unfold header_words. rewrite header_words_eq by done. pose proof opts_words as Ho. unfold header_chksum.
  rewrite vhltos_eq by (done || lia). unfold header_sum. rewrite Z.shiftl_mul_pow2 by done. change (2 ^ 8) with 256.
  rewrite (lor_add _ ttl 8) by (done || (change (2 ^ 8) with 256; first [exact Httl|by rewrite Z.mod_mul])).
  destruct (halves src Hsrc) as (<- & Hs1 & Hs2). destruct (halves dest Hdest) as (<- & Hd1 & Hd2).
  pose proof (htons_range len) as Hl. pose proof (htons_range id) as Hi. pose proof (wsum_bound opts Hopts) as Hw.
  set (a := Z.land src _) in *. set (b := Z.shiftr src 16) in *. set (c := Z.land dest _) in *. set (d := Z.shiftr dest 16) in *.
  unfold is_byte, is_u16 in *. rewrite (u32_small (wsum opts + _)) by (unfold is_u32; lia).
  do 7 (match goal with |- context [u32 (?x + ?y)] =>
    lazymatch x with context [u32 _] => fail | Z.shiftr _ _ => fail | _ => rewrite (u32_small (x + y)) by (unfold is_u32; lia) end end).
  rewrite two_folds by lia. do 2 f_equal. lia.
Qed.

Lemma ip_header_bytes chk : is_u16 chk -> bytes (ip_header ttl tos proto len id src dest chk opts).
Proof using Type*.
  intros Hchk. pose proof opts_words as Ho. unfold ip_header. byte_list; try apply be16_ok; try apply u32_bytes_ok; try done;
    try (unfold is_byte in *; lia); try width_lia.
Qed.

Lemma ip_header_length chk : zlen (ip_header ttl tos proto len id src dest chk opts) = 20 + zlen opts.
Proof using Type. unfold ip_header. rewrite !zlen_app. unfold zlen. cbn. lia. Qed.

Lemma header_verifies odd : inet_chksum odd (ip_header ttl tos proto len id src dest header_chksum opts) = 0.
Proof using Type*.
  set (w := header_words). assert (0 < w) as Hw.
  { unfold w, header_words. rewrite header_words_eq by done. pose proof opts_words.
    pose proof (proj1 (wsum_bound opts Hopts)). pose proof (htons_range len). pose proof (htons_range id).
    pose proof (proj1 (wsum_bound _ (u32_bytes_ok src))). pose proof (proj1 (wsum_bound _ (u32_bytes_ok dest))).
    unfold is_byte, is_u16 in *. lia. }
  pose proof (canon_range w (Z.lt_le_incl _ _ Hw)) as Hc.
  assert (is_u16 header_chksum) as Hu by (rewrite header_chksum_eq; fold w; unfold is_u16; lia).
  pose proof (ip_header_bytes header_chksum Hu) as Hb. unfold inet_chksum.
  rewrite chksum_canon by (done || rewrite ip_header_length; lia).
  assert (canon (le_val (ip_header ttl tos proto len id src dest header_chksum opts)) = 65535) as ->; [|done].
  rewrite <- (canon_same (wsum (ip_header ttl tos proto len id src dest header_chksum opts)) (le_val _));
    [|by apply wsum_bound|by apply le_val_nonneg|by apply wsum_same].
  assert (wsum (ip_header ttl tos proto len id src dest header_chksum opts) = w + header_chksum) as ->.
  { unfold w, header_words. rewrite !header_words_eq by done. lia. }
  rewrite <- (canon_small 65535) by lia. apply canon_same; [unfold is_u16 in Hu; lia|lia|].
  rewrite header_chksum_eq. fold w. replace 65535 with (canon w + (65535 - canon w)) at 2 by lia.
  apply same_sum_add; [lia|lia|lia|lia|symmetry; apply canon_same_sum; lia|done].
Qed.
End checksum.

(** ** The packet *)

(** A packet of [p] and the pbufs [l] with room for [n] more bytes in front of
    the first one. *)
Record sendable (m : store) (p : Z) (l : list Z) (c : pbuf) (n : Z) : Prop := {
  send_packet : packet m p (p :: l);
  send_own : Forall (own m) (p :: l);
  send_cell : cells m !! p = Some c;
  send_area : has_area c;
  send_room : n <= (payload c).2 - SIZEOF_STRUCT_PBUF;
  send_small : zlen (contents m (p :: l)) + n < 65536;
  send_block : exists b, blocks m !! p = Some b /\ bytes b /\ (payload c).2 + len c <= zlen b
}.

Lemma save_block m a off x m' b : save m a off x = Ok m' -> blocks m !! a.1 = Some b -> bytes b -> bytes x ->
  exists b', blocks m' !! a.1 = Some b' /\ bytes b' /\ zlen b' = zlen b.
Proof.
  intros E Eb Hb Hx. unfold save in E. destruct (zlen x =? 0); [injection E as <-; by exists b|].
  rewrite Eb in E. cbn [of_option rbind] in E. unfold mcopy in E.
  destruct ((0 <=? a.2 + off) && (a.2 + off + zlen x <=? zlen b)) eqn:Ec; [|discriminate].
  apply andb_true_iff in Ec as [E1%Z.leb_le E2%Z.leb_le]. injection E as <-. eexists. cbn. rewrite lookup_insert_eq. split; [done|].
  split; [apply bytes_app; split; [by apply Forall_take|apply bytes_app; split; [done|by apply Forall_drop]]|].
  unfold zlen in *. rewrite !length_app, length_take, length_drop. lia.
Qed.

Lemma sendable_save m p l c n off x : sendable m p l c n -> 0 <= off -> off + zlen x <= len c -> bytes x ->
  exists m', save m (payload c) off x = Ok m' /\ sendable m' p l c n /\ data_of m' p = splice (data_of m p) off x /\
    contents m' l = contents m l /\ cells m' = cells m /\ untouched m m' [p].
Proof.
  intros [[Hch HF [Ht Htot] Hsm] Hown Ec Ha Hr Hs (b & Eb & Hbb & Hbl)] Ho Hx Hbx.
  pose proof (chain_nodup _ _ _ Hch) as [Hnin _]%NoDup_cons. rewrite list_elem_of_In in Hnin.
  pose proof HF as [Hok HFl]%Forall_cons. pose proof Hown as [Hp Hownl]%Forall_cons. unfold pbuf_ok in Hok. unfold own in Hp.
  rewrite Ec in Hok, Hp, Ht.
  destruct (save_at m p c off x Ec Hok Hp Ho Hx Hbx) as (m' & Esave & Hc & Hbo & Hbk & Hok' & Hd).
  exists m'. split; [done|].
  assert (data_of m' p = splice (data_of m p) off x) as Hdp by (unfold data_of; by rewrite Hc, Ec).
  destruct (data_frame m m' l Hc) as [Hcl Hokl]; [intros a Hin; apply Hbo; by intros ->|done|].
  assert (zlen (contents m' (p :: l)) = zlen (contents m (p :: l))) as Hz.
  { rewrite !contents_cons, !zlen_app, Hcl, Hdp. f_equal. apply splice_length; [done|].
    unfold data_of. rewrite Ec, cell_data_length by done. lia. }
  split; [|split; [done|split; [done|split; [done|]]]].
  - split; [|unfold own in *; by rewrite Hc|by rewrite Hc|done|done|by rewrite Hz|].
    + split; [eapply chain_frame; [|exact Hch]; intros a _; by rewrite Hc| | |by rewrite Hz].
      * constructor; [unfold pbuf_ok; by rewrite Hc, Ec|by apply Hokl].
      * split; [rewrite Hc, Ec; lia|]. clear - Htot Hc Hownl Hbo Hnin. revert Htot. induction l as [|a l IH]; [done|].
        intros [Ht Htot]. apply Forall_cons in Hownl as [Ha Hownl].
        split; [|apply IH; [intros ?; apply Hnin; by right|done|done]].
        destruct (data_frame m m' (a :: l) Hc) as [-> _]; [|by constructor|by rewrite Hc].
        intros y Hin. apply Hbo. by intros ->.
    + destruct (save_block m (payload c) off x m' b Esave) as (b' & Eb' & Hb' & Hz'); [by rewrite Hp|done|done|].
      exists b'. rewrite Hp in Eb'. split; [done|]. split; [done|lia].
  - split; [intros Hb0 a Has; rewrite Hc in Has; by apply Hbk, Hb0|]. intros a Ha'. rewrite Hc. split; [done|]. apply Hbo.
    intros ->. apply Ha'. by left.
Qed.

Lemma sendable_fields fs : forall m p l c n, sendable m p l c n ->
  Forall (fun f => 0 <= f.1 /\ f.1 + zlen f.2 <= len c /\ bytes f.2) fs ->
  exists m', put_fields m (payload c) fs = Ok m' /\ sendable m' p l c n /\ data_of m' p = spliced (data_of m p) fs /\
    contents m' l = contents m l /\ cells m' = cells m /\ untouched m m' [p].
Proof.
  induction fs as [|[off x] fs IH]; intros m p l c n Hs HF; cbn [put_fields].
  { exists m. do 4 (split; [done|]). split; [done|apply untouched_refl]. }
  apply Forall_cons in HF as [(H1 & H2 & H3) HF]. cbn [fst snd] in H1, H2, H3.
  destruct (sendable_save m p l c n off x Hs H1 H2 H3) as (m1 & -> & Hs1 & Hd1 & Hl1 & Hc1 & U1). cbn [rbind].
  destruct (IH m1 p l c n Hs1 HF) as (m2 & -> & Hs2 & Hd2 & Hl2 & Hc2 & U2). exists m2. split; [done|]. split; [done|].
  split; [by rewrite Hd2, Hd1|]. split; [congruence|]. split; [congruence|by eapply untouched_trans].
Qed.

(** A fresh packet. *)
Lemma alloc_sendable `{OsLaws} m layer n : backed m -> 0 < n -> n + layer_offset layer < 65536 ->
  pbuf_alloc m layer n PBUF_RAM = Ok (0, m) \/
  exists p m1 c, pbuf_alloc m layer n PBUF_RAM = Ok (p, m1) /\ sendable m1 p [] c (layer_offset layer) /\ zlen (data_of m1 p) = n /\
    cells m !! p = None /\ blocks m !! p = None /\ untouched m m1 [p] /\ next c = 0.
Proof.
  intros Hbk Hn0 Hn. pose proof (layer_offset_range layer) as Ho.
  destruct (alloc_ram_ok m layer n Hbk) as [?|(p & m1 & E & Hp & Hf & Hb & Hpk & Hz & Hbk1 & Hown & Hr & Hsame & c & Ec & Ha & Hroom)];
    [unfold is_u16; lia|by left|]. right. exists p, m1, c.
  assert (data_of m1 p = contents m1 [p]) as Ed by (unfold contents; cbn [map concat]; by rewrite app_nil_r).
  assert (exists b, blocks m1 !! p = Some b /\ bytes b) as (b & Eb & Hbb).
  { unfold pbuf_alloc in E. destruct (pbuf_malloc m _) as [[q m0]|] eqn:Em; [|congruence]. injection E as -> <-.
    apply malloc_ok in Em as (_ & _ & _ & _ & b & Eb & _ & Hbb); [|rewrite !align_eq by (change SIZEOF_STRUCT_PBUF with 20; lia); change SIZEOF_STRUCT_PBUF with 20; Z.div_mod_to_equations; lia|done].
    exists b. unfold put. cbn [blocks]. rewrite Eb, lookup_insert_eq. done. }
  pose proof (packet_cells _ _ _ Hpk) as [Hok _]%Forall_cons. unfold pbuf_ok in Hok. rewrite Ec in Hok.
  destruct Hok as (Hlen & _ & _ & Hblk). pose proof (packet_totals _ _ _ Hpk) as [Ht _]. rewrite Ec in Ht. cbn in Ht.
  assert ((payload c).1 = p) as Ep by (unfold own in Hown; by rewrite Ec in Hown).
  assert (len c = n) as El.
  { rewrite <- Hz, <- Ed. unfold data_of. rewrite Ec. symmetry. apply cell_data_length. pose proof (packet_cells _ _ _ Hpk) as [Hok _]%Forall_cons. unfold pbuf_ok in Hok. by rewrite Ec in Hok. }
  split; [done|]. split; [|split; [by rewrite Ed|split; [done|split; [done|split]]]].
  - split; try done.
    + apply List.Forall_cons; [done|apply List.Forall_nil].
    + rewrite Hz. lia.
    + exists b. split; [done|]. split; [done|]. destruct Hblk as (b' & Eb' & Hl); [lia|]. rewrite Ep in Eb'. assert (b' = b) as -> by congruence. lia.
  - split; [done|]. intros a Hna. apply Hsame. intros ->. apply Hna. by left.
  - pose proof (packet_chain _ _ _ Hpk) as Hch. destruct Hch as (_ & _ & c' & Ec' & Hch). assert (c' = c) as -> by congruence. by cbn in Hch.
Qed.

(** Revealing [k] bytes in front of the packet. *)
Lemma reveal m p l c n k : sendable m p l c n -> 0 < k <= n -> k < 32768 ->
  pbuf_header m p k = Ok (0, put m p (moved c k)) /\ sendable (put m p (moved c k)) p l (moved c k) (n - k) /\
  contents (put m p (moved c k)) l = contents m l /\
  exists x, zlen x = k /\ bytes x /\ data_of (put m p (moved c k)) p = x ++ data_of m p.
Proof.
  intros [[Hch HF [Ht Htot] Hsm] Hown Ec Ha Hr Hs (b & Eb & Hbb & Hbl)] Hk Hk16.
  pose proof (chain_nodup _ _ _ Hch) as [Hnin _]%NoDup_cons. rewrite list_elem_of_In in Hnin.
  pose proof HF as [Hok HFl]%Forall_cons. pose proof Hown as [Hp Hownl]%Forall_cons. unfold pbuf_ok in Hok. unfold own in Hp.
  rewrite Ec in Hok, Hp, Ht. destruct Hch as (_ & Hp0 & c' & Ec' & Hch). assert (c' = c) as -> by congruence.
  pose proof (cell_data_length m c Hok) as Hcl. pose proof (zlen_nonneg (contents m l)) as Hnn.
  assert (data_of m p = cell_data m c) as Hdp by (unfold data_of; by rewrite Ec).
  assert (len c <= tot_len c /\ tot_len c + n < 65536) as [Htl Htn] by (rewrite contents_cons, zlen_app, Hdp in *; lia).
  destruct Hok as (Hlc & Hrc & Hby & _). destruct Ha as [Hty Hpl]. change SIZEOF_STRUCT_PBUF with 20 in *. unfold is_u16 in Hlc.
  set (c1 := moved c k). set (m1 := put m p c1).
  assert (exists x, zlen x = k /\ bytes x /\ cell_data m1 c1 = x ++ cell_data m c) as (x & Hx & Hbx & Hd1).
  { exists (take (Z.to_nat k) (drop (Z.to_nat ((payload c).2 - k)) b)). split; [|split; [by apply Forall_take, Forall_drop|]].
    - unfold zlen in *. rewrite length_take, length_drop. lia.
    - unfold cell_data, c1, m1, moved. cbn. rewrite Hp, Eb. cbn. unfold id.
      replace (Z.to_nat (len c + k)) with (Z.to_nat k + Z.to_nat (len c))%nat by lia.
      rewrite <- (take_drop (Z.to_nat k) (drop (Z.to_nat ((payload c).2 - k)) b)) at 1.
      rewrite take_app_add', drop_drop by (rewrite length_take, length_drop; unfold zlen in *; lia). do 3 f_equal. lia. }
  assert (Pbuf.cell_ok m1 c1) as Hok1.
  { split; [unfold is_u16; cbn; lia|]. split; [done|]. split; [rewrite Hd1; by apply bytes_app|]. intros _. exists b. cbn. rewrite Hp. split; [done|lia]. }
  assert (data_of m1 p = x ++ data_of m p) as Hd by (unfold m1; by rewrite data_of_put_eq, Hdp).
  assert (zlen (contents m1 (p :: l)) = zlen (contents m (p :: l)) + k) as Hz.
  { unfold m1. rewrite !contents_cons, contents_put, !zlen_app by done. fold m1. rewrite Hd, zlen_app. lia. }
  assert (cells m1 !! p = Some c1) as Ec1 by apply lookup_insert_eq.
  assert (pbuf_header m p k = Ok (0, m1)) as -> by (apply header_ok; try done; try (change SIZEOF_STRUCT_PBUF with 20); lia).
  split; [done|]. split; [|split; [by apply contents_put|by exists x]].
  split; [|constructor; [unfold own; by rewrite Ec1|]|done|split; [done|change SIZEOF_STRUCT_PBUF with 20; cbn; lia]|change SIZEOF_STRUCT_PBUF with 20; cbn; lia|lia|exists b; cbn; split; [done|split; [done|lia]]].
  - split; [split; [done|split; [done|exists c1; split; [done|by apply chain_put]]]| | |lia].
    + constructor; [unfold pbuf_ok; by rewrite Ec1|by apply pbuf_ok_put].
    + split; [rewrite Ec1, Hz; change (tot_len c1) with (tot_len c + k); lia|by apply totals_put].
  - rewrite Forall_forall in Hownl |- *. intros y Hy. specialize (Hownl y Hy). unfold own, m1 in *. cbn.
    rewrite lookup_insert_ne; [done|]. intros <-. by rewrite list_elem_of_In in Hy.
Qed.

(** ** [ip_output_if_opt] *)

(** Options rounded up to whole words. *)
Definition aligned (n : Z) : Z := (n + 3) / 4 * 4.
Definition padded (opts : list Z) : list Z := opts ++ replicate (Z.to_nat (aligned (zlen opts) - zlen opts)) 0.

Lemma aligned_range n : 0 <= n -> n <= aligned n < n + 4 /\ aligned n mod 4 = 0.
Proof. intros Hn. unfold aligned. rewrite Z.mod_mul by done. split; [Z.div_mod_to_equations; lia|done]. Qed.
Lemma padded_length opts : zlen (padded opts) = aligned (zlen opts).
Proof.
  unfold padded. rewrite zlen_app. unfold zlen at 2. rewrite length_replicate.
  pose proof (aligned_range (zlen opts) (zlen_nonneg opts)). lia.
Qed.
Lemma padded_bytes opts : bytes opts -> bytes (padded opts).
Proof.
  intros Hb. apply bytes_app. split; [done|]. apply Forall_forall. intros x [-> _]%elem_of_replicate. unfold is_byte. lia.
Qed.
Lemma aligned_land n : 0 <= n <= 40 -> u16 (Z.land (n + 3) (Z.lnot 3)) = aligned n.
Proof.
  intros Hn. pose proof (align_eq n) as E. unfold LWIP_MEM_ALIGN_SIZE, MEM_ALIGNMENT in E. change (4 - 1) with 3 in E.
  replace (n + 3) with (n + 4 - 1) by lia. rewrite E by lia. replace (n + 3) with (n + 3) by lia. apply u16_small.
  pose proof (aligned_range n). unfold is_u16, aligned in *. lia.
Qed.

Section output.
Context `{OsLaws} {F X : Type}.
Abbreviation state := (net (stack (raws F) X)).
Implicit Type s : state.
(** The options at the front of what has been revealed. *)
Lemma options_stored (x o pad d : list Z) : zlen x = zlen o + zlen pad ->
  splice (splice (x ++ d) 0 o) (zlen o) pad = o ++ pad ++ d.
Proof using Type.
  intros Hx. pose proof (zlen_nonneg o). pose proof (zlen_nonneg pad). pose proof (zlen_nonneg d).
  pose proof (splice_seam [] o (x ++ d)) as E. cbn [app] in E. change (zlen (@nil Z)) with 0 in E. rewrite E by (rewrite zlen_app; lia).
  rewrite splice_seam.
  - rewrite <- app_assoc. do 2 f_equal. rewrite drop_drop, drop_app_ge by (unfold zlen in *; lia).
    replace (length o + length pad - length x)%nat with 0%nat by (unfold zlen in *; lia). done.
  - unfold zlen in *. rewrite length_drop, length_app. lia.
Qed.

Lemma put_options_ok s p l c n opts : sendable (mem s) p l c n -> aligned (zlen opts) <= n -> zlen opts <= 40 -> bytes opts ->
  exists m' c', put_options s p opts = Ok (0, aligned (zlen opts), wsum (padded opts), set_mem s m') /\
    sendable m' p l c' (n - aligned (zlen opts)) /\ data_of m' p = padded opts ++ data_of (mem s) p /\
    contents m' l = contents (mem s) l /\ untouched (mem s) m' [p].
Proof using Type.
  intros Hs Hn Hforty Hb. unfold put_options. pose proof (zlen_nonneg opts) as Hz. destruct (Z.eqb_spec (zlen opts) 0) as [E|E].
  { assert (opts = []) as -> by (destruct opts; [done|]; zl; zpos; lia). exists (mem s), c. rewrite set_mem_same.
    do 2 (split; [by rewrite ?Z.sub_0_r|]). do 2 (split; [done|]). apply untouched_refl. }
  pose proof (aligned_range (zlen opts) Hz) as [Hal Hm4]. rewrite aligned_land by lia. set (k := aligned (zlen opts)) in *.
  assert (s16 k = k) as -> by (unfold s16; rewrite Z.mod_small; lia).
  destruct (reveal (mem s) p l c n k Hs) as (-> & Hs1 & Hl1 & x & Hx & _ & Hd1); [lia|lia|]. cbn [rbind Z.eqb negb].
  assert (p <> 0) as Hp0 by (destruct Hs as [[(_ & ? & _) _ _ _] _ _ _ _ _ _]; done).
  rewrite (deref_ok _ p (moved c k)) by (done || apply lookup_insert_eq). cbn [rbind].
  set (pad := replicate (Z.to_nat (k - zlen opts)) 0).
  assert (zlen pad = k - zlen opts) as Hpad by (unfold pad, zlen in *; rewrite length_replicate; lia).
  pose proof (padded_bytes opts Hb) as [_ Hbp]%bytes_app. fold pad in Hbp.
  pose proof (send_packet _ _ _ _ _ Hs1) as [_ [Hok1 _]%Forall_cons _ _]. unfold pbuf_ok in Hok1. rewrite (send_cell _ _ _ _ _ Hs1) in Hok1.
  assert (k <= len (moved c k)) as Hlk.
  { pose proof (f_equal zlen Hd1) as Hz1. unfold data_of at 1 in Hz1. rewrite (send_cell _ _ _ _ _ Hs1), cell_data_length, zlen_app in Hz1 by done.
    pose proof (zlen_nonneg (data_of (mem s) p)). lia. }
  destruct (sendable_save _ p l _ (n - k) 0 opts Hs1) as (m2 & -> & Hs2 & Hd2 & Hl2 & Hc2 & U2); [lia|lia|done|]. cbn [rbind].
  destruct (sendable_save _ p l _ (n - k) (zlen opts) pad Hs2) as (m3 & -> & Hs3 & Hd3 & Hl3 & Hc3 & U3); [lia|lia|done|]. cbn [rbind].
  assert (data_of m3 p = padded opts ++ data_of (mem s) p) as Hd.
  { rewrite Hd3, Hd2, Hd1. unfold padded. fold k pad. rewrite <- app_assoc. apply options_stored. lia. }
  pose proof (send_packet _ _ _ _ _ Hs3) as [_ [Hok3 _]%Forall_cons _ _]. unfold pbuf_ok in Hok3. rewrite (send_cell _ _ _ _ _ Hs3) in Hok3.
  assert (2 * (k / 2) = k) as -> by (Z.div_mod_to_equations; lia).
  rewrite (load_ok m3 (moved c k)) by (done || lia). cbn [rbind].
  assert (cell_data m3 (moved c k) = padded opts ++ data_of (mem s) p) as -> by (rewrite <- Hd; unfold data_of; by rewrite (send_cell _ _ _ _ _ Hs3)).
  assert (take (Z.to_nat k) (drop (Z.to_nat 0) (padded opts ++ data_of (mem s) p)) = padded opts) as ->.
  { rewrite drop_0. unfold k. rewrite <- padded_length. unfold zlen. rewrite Nat2Z.id. apply take_app_length. }
  rewrite sum_words_even; [|by apply padded_bytes|done|rewrite padded_length; fold k; lia|rewrite padded_length; fold k; Z.div_mod_to_equations; lia].
  exists m3, (moved c k). split; [done|]. split; [done|]. split; [done|]. split; [congruence|].
  eapply untouched_trans; [|eapply untouched_trans; [exact U2|exact U3]]. apply untouched_put. rewrite (send_cell _ _ _ _ _ Hs). by eexists.
Qed.

(** The fields of the header over whatever was in front of the packet. *)
Lemma fields_header (x r : list Z) (hl : Z) ttl tos proto len id src dest sum : zlen x = 20 -> 0 <= hl <= 10 -> is_byte tos ->
  is_u16 len -> is_u16 id ->
  spliced (x ++ r) (ip_fields sum proto ttl dest (vhltos 4 (5 + hl) tos) (htons len) (htons id) src) =
  [0x45 + hl; tos] ++ be16 len ++ be16 id ++ [0; 0; ttl; proto] ++
  bytes_u16 (header_sum sum proto ttl dest (vhltos 4 (5 + hl) tos) (htons len) (htons id) src) ++ u32_bytes src ++ u32_bytes dest ++ r.
Proof using Type.
  intros Hx Hh Ht Hl Hi. rewrite <- (be16_u16 len), <- (be16_u16 id) by done.
  assert ([0x45 + hl; tos] = bytes_u16 (vhltos 4 (5 + hl) tos)) as ->.
  { rewrite vhltos_eq by (done || lia). unfold is_byte in Ht. unfold bytes_u16.
    replace (64 + (5 + hl) + 256 * tos) with (69 + hl + tos * 256) by lia.
    rewrite Z.mod_add, Z.div_add, (Z.mod_small (69 + hl)), (Z.div_small (69 + hl)) by lia. rewrite Z.mod_small by lia. done. }
  set (chk := header_sum _ _ _ _ _ _ _ _). unfold ip_fields. fold chk. clearbody chk.
  do 20 (destruct x as [|? x]; [discriminate|]). destruct x; [|unfold zlen in Hx; cbn in Hx; lia]. reflexivity.
Qed.

Lemma ip_fields_fit sum proto ttl dest vht len id src n : 20 <= n -> is_byte ttl -> is_byte proto ->
  Forall (fun f => 0 <= f.1 /\ f.1 + zlen f.2 <= n /\ bytes f.2) (ip_fields sum proto ttl dest vht len id src).
Proof using Type.
  intros Hn Ht Hp. pose proof u32_bytes_ok as H1. pose proof bytes_u16_bytes as H2. unfold ip_fields.
  repeat (apply Forall_cons_2; [cbn [fst snd]; split; [lia|split; [unfold zlen; cbn; lia|first [apply H1|apply H2|by apply Forall_singleton]]]|]). constructor.
Qed.

(** The state in which the packet is handed over. *)
Definition numbered s (m : store) : state :=
  let v := ipv (env s) in set_ipv (set_mem s m) (IpVars (current_netif v) (current_header v) (current_iphdr_src v)
    (current_iphdr_dest v) (u16 (ip_id v + 1))).

Lemma push_header_ok s p l c n ttl tos proto src dest k sum : sendable (mem s) p l c n -> 20 <= n -> 0 <= k <= 40 -> k mod 4 = 0 ->
  is_byte ttl -> is_byte tos -> is_byte proto -> is_u16 (ip_id (ipv (env s))) ->
  let len := zlen (contents (mem s) (p :: l)) + 20 in
  let id := ip_id (ipv (env s)) in
  exists c1, pbuf_header (mem s) p IP_HLEN = Ok (0, put (mem s) p c1) /\ cells (put (mem s) p c1) !! p = Some c1 /\ tot_len c1 = len /\
  exists m', put_fields (put (mem s) p c1) (payload c1) (ip_fields sum proto ttl dest (vhltos 4 (5 + k / 4) tos) (htons len) (htons id) src) = Ok m' /\
    packet m' p (p :: l) /\ untouched (mem s) m' [p] /\
    contents m' (p :: l) = [0x45 + k / 4; tos] ++ be16 len ++ be16 id ++ [0; 0; ttl; proto] ++
      bytes_u16 (header_sum sum proto ttl dest (vhltos 4 (5 + k / 4) tos) (htons len) (htons id) src) ++
      u32_bytes src ++ u32_bytes dest ++ contents (mem s) (p :: l).
Proof using Type.
  intros Hs Hn Hk Hk4 Ht Hto Hp Hi len id. destruct (reveal (mem s) p l c n 20 Hs) as (E & Hs1 & Hl1 & x & Hx & _ & Hd1); [lia|lia|].
  exists (moved c 20). split; [exact E|]. set (m1 := put (mem s) p (moved c 20)) in *. pose proof (send_cell _ _ _ _ _ Hs1) as Ec1.
  pose proof (send_packet _ _ _ _ _ Hs1) as [_ [Hok1 _]%Forall_cons [Ht1 _] Hsm1]. unfold pbuf_ok in Hok1. rewrite Ec1 in Hok1, Ht1.
  assert (tot_len (moved c 20) = len) as Htot.
  { rewrite Ht1. unfold len. rewrite !contents_cons, Hl1, Hd1, <- app_assoc, !zlen_app. lia. }
  split; [done|]. split; [done|].
  assert (20 <= Pbuf.len (moved c 20)) as Hlen.
  { pose proof (f_equal zlen Hd1) as Hz1. unfold data_of at 1 in Hz1. rewrite Ec1, cell_data_length, zlen_app in Hz1 by done.
    pose proof (zlen_nonneg (data_of (mem s) p)). lia. }
  destruct (sendable_fields (ip_fields sum proto ttl dest (vhltos 4 (5 + k / 4) tos) (htons len) (htons id) src) m1 p l (moved c 20) (n - 20) Hs1)
    as (m2 & -> & Hs2 & Hd2 & Hl2 & _ & U2); [by apply ip_fields_fit|].
  exists m2. split; [done|]. split; [apply Hs2|]. split.
  { eapply untouched_trans; [|exact U2]. apply untouched_put. rewrite (send_cell _ _ _ _ _ Hs). by eexists. }
  rewrite !contents_cons, Hd2, Hl2, Hl1, Hd1, fields_header; try done; [Z.div_mod_to_equations; lia|].
  rewrite <- Htot, Ht1. pose proof (zlen_nonneg (contents m1 (p :: l))). unfold is_u16. lia.
Qed.

Context (output : state -> Z -> Z -> Z -> result (Z * state)).

(** [ip_output_if_opt], for a packet with room in front. *)
Lemma header_written s p l c n src dest ttl tos proto nif ni opts : sendable (mem s) p l c n -> 20 + aligned (zlen opts) <= n ->
  zlen opts <= 40 -> bytes opts -> nif <> 0 -> nifs (ifs (env s)) !! nif = Some ni ->
  is_byte ttl -> is_byte tos -> is_byte proto -> is_u32 src -> is_u32 dest -> is_u32 (nif_ip_addr ni) -> is_u16 (ip_id (ipv (env s))) ->
  exists m' chk, ip_output_if_opt output s p src (Some dest) ttl tos proto nif opts = output (numbered s m') nif p dest /\
    packet m' p (p :: l) /\ untouched (mem s) m' [p] /\
    let hdr := ip_header ttl tos proto (20 + aligned (zlen opts) + zlen (contents (mem s) (p :: l))) (ip_id (ipv (env s)))
      (if src =? IPADDR_ANY then nif_ip_addr ni else src) dest chk (padded opts) in
    contents m' (p :: l) = hdr ++ contents (mem s) (p :: l) /\ forall odd, inet_chksum odd hdr = 0.
Proof using Type*.
  intros Hs Hn Hf Hb Hnz En Ht Hto Hp Hsrc Hd Hni Hi. pose proof (zlen_nonneg opts) as Hzo. pose proof (aligned_range (zlen opts) (zlen_nonneg opts)) as [Hal Hm4].
  destruct (put_options_ok s p l c n opts Hs) as (m1 & c1 & Eopt & Hs1 & Hd1 & Hl1 & U1); [lia|done|done|].
  set (k := aligned (zlen opts)) in *. set (src' := if src =? IPADDR_ANY then nif_ip_addr ni else src).
  assert (is_u32 src') as Hs' by (unfold src'; by destruct (src =? IPADDR_ANY)).
  assert (k <= 40) as Hk40 by (unfold k, aligned; Z.div_mod_to_equations; lia).
  destruct (push_header_ok (set_mem s m1) p l c1 (n - k) ttl tos proto src' dest k (wsum (padded opts)) Hs1) as
    (c2 & E2 & Ec2 & Htot & m2 & E3 & Hpk & U2 & Hc2); [lia|lia|done..|]. cbn [mem set_mem env] in E2, Ec2, Htot, E3, U2, Hc2.
  assert (contents m1 (p :: l) = padded opts ++ contents (mem s) (p :: l)) as Hc1 by (by rewrite !contents_cons, Hd1, Hl1, app_assoc).
  unfold ip_output_if_opt. rewrite Eopt. cbn [rbind Z.eqb negb mem set_mem]. rewrite E2. cbn [rbind Z.eqb negb mem set_mem].
  assert (p <> 0) as Hp0 by (destruct Hs as [[(_ & ? & _) _ _ _] _ _ _ _ _ _]; done).
  rewrite (deref_ok _ p c2) by done. cbn [rbind]. erewrite (nif_at_ok _ nif ni) by done. cbn [rbind env set_mem]. fold src'.
  assert (u16 (IP_HLEN + k) / 4 = 5 + k / 4) as ->.
  { unfold IP_HLEN. rewrite u16_small by (unfold is_u16; lia). Z.div_mod_to_equations. lia. }
  rewrite Htot, E3. cbn [rbind]. eexists m2, _. split; [reflexivity|]. split; [exact Hpk|]. split; [by eapply untouched_trans|].
  cbv zeta. rewrite Hc2, Hc1. split.
  - unfold ip_header. rewrite padded_length, zlen_app, padded_length. fold k. rewrite <- !app_assoc.
    replace (20 + k + zlen (contents (mem s) (p :: l))) with (k + zlen (contents (mem s) (p :: l)) + 20) by lia. done.
  - intros odd. pose proof (send_small _ _ _ _ _ Hs) as Hsm. pose proof (zlen_nonneg (contents (mem s) (p :: l))) as Hnn.
    assert (zlen (padded opts) = k) as Hpz by apply padded_length.
    pose proof (header_verifies ttl tos proto (20 + k + zlen (contents (mem s) (p :: l))) (ip_id (ipv (env s))) src' dest (padded opts)
      Ht Hto Hp) as Hv. unfold header_chksum in Hv. rewrite Hpz in Hv.
    replace (k + zlen (contents (mem s) (p :: l)) + 20) with (20 + k + zlen (contents (mem s) (p :: l))) by lia.
    apply Hv; try done; [unfold is_u16; lia|by apply padded_bytes].
Qed.

(** C9: the header of a sent packet.  With room in front of the packet [ip_output_if_opt] puts the options in front of it, padded with zeros to whole words, and in front of these an IP header with the given fields, the source of the interface when none is given, the length of the whole and the next identification; it hands exactly these bytes followed by the data to the interface, with the identification advanced modulo 65536.  The checksum verifies: [inet_chksum] of the header and the options is zero at any address. *)
Theorem ip_output_if_header s p l c n src dest ttl tos proto nif ni opts : sendable (mem s) p l c n -> 20 + aligned (zlen opts) <= n ->
  zlen opts <= 40 -> bytes opts -> nif <> 0 -> nifs (ifs (env s)) !! nif = Some ni ->
  is_byte ttl -> is_byte tos -> is_byte proto -> is_u32 src -> is_u32 dest -> is_u32 (nif_ip_addr ni) -> is_u16 (ip_id (ipv (env s))) ->
  exists m' chk, ip_output_if_opt output s p src (Some dest) ttl tos proto nif opts = output (numbered s m') nif p dest /\
    packet m' p (p :: l) /\ untouched (mem s) m' [p] /\
    let hdr := ip_header ttl tos proto (20 + aligned (zlen opts) + zlen (contents (mem s) (p :: l))) (ip_id (ipv (env s)))
      (if src =? IPADDR_ANY then nif_ip_addr ni else src) dest chk (padded opts) in
    contents m' (p :: l) = hdr ++ contents (mem s) (p :: l) /\ forall odd, inet_chksum odd hdr = 0.
Proof using Type*. apply header_written. Qed.

(** What output refuses.  Without room for the header in front of the packet [ip_output_if] returns [ERR_BUF], and without a route [ip_output] returns [ERR_RTE]; neither changes anything or calls the interface. *)
Theorem ip_output_refuses s p c src dest ttl tos proto : p <> 0 -> cells (mem s) !! p = Some c -> has_area c ->
  (forall nif, (payload c).2 - IP_HLEN < SIZEOF_STRUCT_PBUF ->
   ip_output_if output s p src (Some dest) ttl tos proto nif = Ok (ERR_BUF, s)) /\
  (forall l, nif_list (ifs (env s)) l -> default_ok (ifs (env s)) -> List.find (routes (ifs (env s)) dest) l = None ->
   is_up (ifs (env s)) (netif_default (ifs (env s))) = false -> ip_output output s p src dest ttl tos proto = Ok (ERR_RTE, s)).
Proof using Type*.
  intros Hp Ec [Hty Hpl]. split.
  - intros nif Hroom. unfold ip_output_if, ip_output_if_opt. change (put_options s p []) with (Ok (0, 0, 0, s)). cbn [rbind Z.eqb negb].
    unfold pbuf_header, IP_HLEN in *. rewrite (proj2 (Z.eqb_neq p 0)), (deref_ok _ p c) by done. cbn [orb Z.eqb rbind Z.ltb Z.compare andb snd].
    rewrite (proj2 (Z.ltb_lt _ _)) by lia. destruct Hty as [-> | ->]; cbn [rbind Z.eqb negb]; by rewrite set_mem_same.
  - intros l Hl Hd Hf Hup. unfold ip_output. rewrite (route_ok s l dest Hl Hd), Hf. cbn [default from_option rbind].
    unfold fallback. by rewrite Hup.
Qed.
End output.

(** ** Examples *)

(** A packet of four bytes with room for headers, on a stack with two
    interfaces. *)
Definition small_pbuf : pbuf := Pbuf 0 (600, 60) 4 4 PBUF_RAM 0 1.
Definition small_store : store :=
  Store (<[600 := small_pbuf]> (cells one_waiting)) (<[600 := replicate 60 0 ++ [1; 2; 3; 4]]> (blocks one_waiting)).
Definition small_net : net (stack (raws Z) (list (list Z))) := Net some_entries 0 small_store (two_stack (Raws 0 empty) no_log).
(** An interface that accepts everything. *)
Definition accept_all (s : net (stack (raws Z) (list (list Z)))) (nif p dest : Z) : result (Z * net (stack (raws Z) (list (list Z)))) :=
  Ok (ERR_OK, s).

Lemma small_sendable : sendable small_store 600 [] small_pbuf 40.
Proof.
  assert (cells small_store !! 600 = Some small_pbuf) as Ec by apply lookup_insert_eq.
  assert (data_of small_store 600 = [1; 2; 3; 4]) as Hd by (vm_compute; reflexivity).
  assert (contents small_store [600] = [1; 2; 3; 4]) as Hc by (unfold contents; cbn [map concat]; by rewrite Hd).
  split; [split| |exact Ec|split; [by left|done]|done|by rewrite Hc|].
  - split; [done|]. split; [done|]. by exists small_pbuf.
  - apply Forall_singleton. unfold pbuf_ok. rewrite Ec. split; [done|]. split; [done|].
    unfold data_of in Hd. rewrite Ec in Hd. rewrite Hd. split; [by apply (bool_decide_unpack _)|].
    intros _. eexists. split; [apply lookup_insert_eq|]. by split.
  - split; [|done]. rewrite Ec, Hc. done.
  - by rewrite Hc.
  - apply Forall_singleton. unfold own. by rewrite Ec.
  - eexists. split; [apply lookup_insert_eq|]. split; [by apply (bool_decide_unpack _)|done].
Qed.

Lemma two_default : default_ok two_ifs.
Proof. right. by eexists. Qed.

Lemma ip_route_choice_witness :
  nif_list two_ifs [2; 1] /\ ip_route small_net (address_of 192 168 4 7) = Ok 2.
Proof.
  split; [exact two_ifs_list|].
  exact (proj1 (ip_route_choice small_net [2; 1] (address_of 192 168 4 7) 0 two_ifs_list two_default)).
Defined.

(** A packet for the station's network leaves through the access point. *)
Lemma ip_route_shadows_witness :
  on_network two_ifs 1 (address_of 10 0 0 7) = true /\ ip_route small_net (address_of 10 0 0 7) = Ok 2.
Proof.
  split; [reflexivity|].
  apply (ip_route_shadows small_net 2 [1] (address_of 10 0 0 7) two_ifs_list two_default); [reflexivity|discriminate|reflexivity].
Defined.

Lemma ip_output_if_header_witness :
  sendable small_store 600 [] small_pbuf 40 /\
  exists m' hdr, ip_output_if_opt accept_all small_net 600 0 (Some (address_of 10 0 0 7)) 255 0 17 1 [7] = Ok (ERR_OK, numbered small_net m') /\
    contents m' [600] = hdr ++ [1; 2; 3; 4] /\ inet_chksum true hdr = 0.
Proof.
  split; [exact small_sendable|].
  assert (is_byte 255 /\ is_byte 0 /\ is_byte 17 /\ is_u32 0 /\ is_u32 (address_of 10 0 0 7) /\ is_u32 (nif_ip_addr station) /\
    is_u16 (ip_id no_ip) /\ bytes [7]) as (H1 & H2 & H3 & H4 & H5 & H6 & H7 & H8)
    by (repeat split; try (by apply (bool_decide_unpack _))).
  pose proof (ip_output_if_header accept_all small_net 600 [] small_pbuf 40 0 (address_of 10 0 0 7) 255 0 17 1 station [7] small_sendable
    ltac:(discriminate) ltac:(discriminate) H8 ltac:(discriminate) eq_refl H1 H2 H3 H4 H5 H6 H7) as Hx.
  destruct Hx as (m' & chk & H9 & _ & _ & Hx). cbv zeta in Hx. destruct Hx as [H10 H11].
  eexists m', _. split; [exact H9|]. split; [exact H10|exact (H11 true)].
Defined.

Definition full_pbuf : pbuf := Pbuf 0 (600, 30) 4 4 PBUF_RAM 0 1.
Definition full_net : net (stack (raws Z) (list (list Z))) := set_mem small_net (put small_store 600 full_pbuf).
Lemma full_cell : cells (mem full_net) !! 600 = Some full_pbuf.
Proof. apply lookup_insert_eq. Qed.
Lemma full_area : has_area full_pbuf.
Proof. split; [by left|done]. Qed.

Lemma ip_output_refuses_witness :
  (payload full_pbuf).2 - IP_HLEN < SIZEOF_STRUCT_PBUF /\
  ip_output_if accept_all full_net 600 0 (Some 0) 255 0 17 1 = Ok (ERR_BUF, full_net).
Proof.
  assert ((payload full_pbuf).2 - IP_HLEN < SIZEOF_STRUCT_PBUF) as Hroom by reflexivity. split; [exact Hroom|].
  destruct (ip_output_refuses accept_all full_net 600 full_pbuf 0 0 255 0 17 ltac:(discriminate) full_cell full_area) as [H _].
  exact (H 1 Hroom).
Defined.
