(* ===== verification/IpInput.v ===== *)
(** * Input: theorems about [ip_input] of [lwip/core/ipv4/ip.c].

    What happens to a packet, by the bytes of its header and the addresses of
    the interfaces, and the way from the output of one host to the input of
    another. *)
From S2P Require Import Prelude Cobs Uart Comm Message Pbuf PbufChain PbufCopy PbufTrim InetChksum IpHdr IpAddr.
From S2P Require Import Linked RawPcb Etharp EtharpTable EtharpPackets Netif Ip IpOutput.
From stdpp Require Import list gmap.
#[local] Open Scope Z_scope.

(** ** The header *)

(** The length of the header with its options, in bytes. *)
Definition header_length (d : list Z) : Z := 4 * (byte_at d 0 mod 16).
(** The tests on the header, for a packet of [tot] bytes whose first pbuf
    holds [d]. *)
Definition well_formed (d : list Z) (tot : Z) : bool :=
  (byte_at d 0 / 16 =? 4) && (header_length d <=? zlen d) && (word_at d 2 <=? tot) &&
  (inet_chksum false (take (Z.to_nat (header_length d)) d) =? 0).
Definition is_fragment (d : list Z) : bool := negb (word_at d 6 mod 16384 =? 0).
(** A UDP packet to the port of a DHCP client. *)
Definition to_dhcp_client (d : list Z) : bool :=
  (byte_at d 9 =? IP_PROTO_UDP) && (word_at d (Z.to_nat (header_length d) + 2) =? DHCP_CLIENT_PORT).

Definition host_of (i : interfaces) (dest a : Z) : bool :=
  match nifs i !! a with Some n => addressed_to n dest | None => false end.
(** The source address may be one: none, or a single host. *)
Definition source_ok (n : netif_struct) (src : Z) : bool :=
  (src =? IPADDR_ANY) || negb (ip4_addr_isbroadcast src (iface_of n)) && negb (ip_addr_ismulticast src).

(** Masks on 16-bit values as the processor reads them. *)
Definition all_bytes : list Z := map Z.of_nat (seq 0 256).
Lemma all_bytes_in x : is_byte x -> In x all_bytes.
Proof. intros Hx. apply in_map_iff. exists (Z.to_nat x). rewrite in_seq. unfold is_byte in Hx. lia. Qed.
Lemma offset_bits : forallb (fun a => forallb (fun b =>
  Bool.eqb (Z.land (a + 256 * b) (htons (Z.lor IP_OFFMASK IP_MF)) =? 0) ((256 * a + b) mod 16384 =? 0)) all_bytes) all_bytes = true.
Proof. vm_compute. reflexivity. Qed.

Lemma offset_test v w : is_u16 v -> ntohs v = w -> (Z.land v (htons (Z.lor IP_OFFMASK IP_MF)) =? 0) = (w mod 16384 =? 0).
Proof.
  intros Hv <-. rewrite (htons_eq v Hv). unfold is_u16 in Hv.
  assert (is_byte (v mod 256) /\ is_byte (v / 256)) as [Ha Hb] by (unfold is_byte; Z.div_mod_to_equations; lia).
  pose proof (proj1 (forallb_forall _ _) offset_bits _ (all_bytes_in _ Ha)) as H1.
  pose proof (proj1 (forallb_forall _ _) H1 _ (all_bytes_in _ Hb)) as H2.
  apply Bool.eqb_prop in H2. etransitivity; [|exact H2]. do 2 f_equal. Z.div_mod_to_equations; lia.
Qed.

Lemma chksum_any odd d : bytes d -> zlen d <= 65535 -> inet_chksum odd d = inet_chksum false d.
Proof. intros Hb Hl. unfold inet_chksum. by rewrite !chksum_canon. Qed.

(** Fields are read from the block only. *)
Lemma load_block m m' a off n : blocks m' !! a.1 = blocks m !! a.1 -> load m' a off n = load m a off n.
Proof. intros E. unfold load. by rewrite E. Qed.
Lemma hdr_block m m' a off : blocks m' !! a.1 = blocks m !! a.1 ->
  hdr_u8 m' a off = hdr_u8 m a off /\ hdr_u16 m' a off = hdr_u16 m a off /\ hdr_u32 m' a off = hdr_u32 m a off.
Proof. intros E. unfold hdr_u8, hdr_u16, hdr_u32. by rewrite !(load_block m m' a off). Qed.

(** ** The interface *)

Section interface.
Context {F X : Type}.
Implicit Type s : net (stack (raws F) X).

(** The interfaces in the order they are tried: [inp] first. *)
Definition tried (inp : Z) (l : list Z) : list Z := inp :: filter (fun a => a <> inp) l.

Lemma match_loop_ok dest inp : inp <> 0 -> forall k s (l : list Z), (length l <= k)%nat -> forall fuel a n (first : bool),
  a <> 0 -> nifs (ifs (env s)) !! a = Some n -> is_Some (nifs (ifs (env s)) !! inp) ->
  lseg nif_next (nifs (ifs (env s))) (if first then netif_list (ifs (env s)) else nif_next n) l 0 ->
  NoDup l -> (length l < fuel)%nat ->
  match_loop fuel s inp a first dest =
  Ok (default 0 (List.find (host_of (ifs (env s)) dest) (a :: filter (fun a => a <> inp) l))).
Proof.
  intros Hi. induction k as [|k IH]; intros s l Hk fuel a n first Ha En Hin Hl Hnd Hf;
    (destruct fuel as [|fuel]; [cbn in Hf; lia|]); cbn [match_loop List.find]; rewrite (nif_at_ok s a n) by done; cbn [rbind];
    unfold host_of at 1; rewrite En; (destruct (addressed_to n dest); [done|]).
  - destruct l; [|cbn in Hk; lia]. cbn [lseg] in Hl. rewrite !Hl, (proj2 (Z.eqb_neq 0 inp)) by done. done.
  - destruct l as [|b l]; [cbn [lseg] in Hl; rewrite !Hl, (proj2 (Z.eqb_neq 0 inp)) by done; done|].
    destruct Hl as (-> & Hb & nb & Eb & Hl). apply NoDup_cons in Hnd as [Hnb Hnd]. cbn [length] in Hk, Hf.
    destruct (Z.eqb_spec b inp) as [->|Hne].
    + rewrite (nif_at_ok s inp nb) by done. cbn [rbind]. rewrite filter_cons_False by naive_solver.
      destruct l as [|b' l]; [rewrite Hl; done|]. destruct Hl as (-> & Hb' & nb' & Eb' & Hl).
      rewrite (proj2 (Z.eqb_neq b' 0)) by done. apply NoDup_cons in Hnd as [Hnb' Hnd]. cbn [length] in Hk, Hf.
      rewrite filter_cons_True by (intros ->; apply Hnb, list_elem_of_here). apply (IH s l ltac:(lia) fuel b' nb' false); try done. lia.
    + cbn [rbind]. rewrite (proj2 (Z.eqb_neq b 0)), filter_cons_True by done. apply (IH s l ltac:(lia) fuel b nb false); try done. lia.
Qed.
End interface.

(** ** The decision *)

Section input.
Context {F X : Type}.
Abbreviation state := (net (stack (raws F) X)).
Implicit Type s : state.

(** A packet of the pbufs [p :: l] that came in on [inp]: its first pbuf holds
    the fixed header, and of a UDP packet also the ports. *)
Record incoming s (p : Z) (l : list Z) (c : pbuf) (inp : Z) (n : netif_struct) (nl : list Z) : Prop := {
  in_packet : packet (mem s) p (p :: l);
  in_own : Forall (own (mem s)) (p :: l);
  in_releasable : Forall (releasable (mem s)) (p :: l);
  in_cell : cells (mem s) !! p = Some c;
  in_header : IP_HLEN <= len c;
  in_ports : byte_at (cell_data (mem s) c) 9 = IP_PROTO_UDP -> header_length (cell_data (mem s) c) + 4 <= len c;
  in_netif : inp <> 0;
  in_iface : nifs (ifs (env s)) !! inp = Some n;
  in_list : nif_list (ifs (env s)) nl
}.

Context (igmp_lookfor_group : X -> Z -> Z -> bool).

(** The packet is for this host: a group [inp] is in, an address of an
    interface, or a broadcast there. *)
Definition for_us (e : stack (raws F) X) (inp : Z) (n : netif_struct) (nl : list Z) (dest : Z) : bool :=
  if ip_addr_ismulticast dest then has_flag (nif_flags n) NETIF_FLAG_IGMP && igmp_lookfor_group (rest e) inp dest
  else existsb (host_of (ifs e) dest) (tried inp nl).

Definition accepted (e : stack (raws F) X) (inp : Z) (n : netif_struct) (nl : list Z) (d : list Z) : bool :=
  (if for_us e inp n nl (address_at d 16) then source_ok n (address_at d 12) else to_dhcp_client d) && negb (is_fragment d).

Lemma find_existsb (f : Z -> bool) l : (forall a, In a l -> a <> 0) -> (default 0 (List.find f l) =? 0) = negb (existsb f l).
Proof.
  intros Hl. induction l as [|a l IH]; [done|]. cbn [List.find existsb]. destruct (f a); cbn.
  - apply Z.eqb_neq, Hl. by left.
  - apply IH. intros x Hx. apply Hl. by right.
Qed.

Lemma find_netif_ok s inp n nl dest : inp <> 0 -> nifs (ifs (env s)) !! inp = Some n -> nif_list (ifs (env s)) nl ->
  exists a, find_netif igmp_lookfor_group s inp dest = Ok a /\ (a =? 0) = negb (for_us (env s) inp n nl dest).
Proof.
  intros Hi En Hl. unfold find_netif, for_us. destruct (ip_addr_ismulticast dest).
  - rewrite (nif_at_ok s inp n) by done. cbn [rbind]. eexists. split; [done|]. destruct (_ && _); [by apply Z.eqb_neq|done].
  - eexists. split; [apply (match_loop_ok dest inp Hi (length nl)) with (l := nl) (n := n)|]; try done.
    + by eapply linked_nodup.
    + pose proof (list_fuel_enough _ _ _ _ Hl). lia.
    + apply find_existsb. intros a [<-|Ha]; [done|]. apply list_elem_of_In, list_elem_of_filter in Ha as [_ Ha].
      apply list_elem_of_In in Ha. by apply (lseg_in _ _ _ _ _ a Hl).
Qed.

(** The DHCP exception, for the bytes [d] of the header. *)
Lemma accept_dhcp_ok m c nif inp : Pbuf.cell_ok m c -> IP_HLEN <= len c -> inp <> 0 ->
  (byte_at (cell_data m c) 9 = IP_PROTO_UDP -> header_length (cell_data m c) + 4 <= len c) ->
  exists a b, accept_dhcp m (payload c) (header_length (cell_data m c)) nif inp = Ok (a, b) /\
    (if nif =? 0 then (a =? 0) = negb (to_dhcp_client (cell_data m c)) /\ (a <> 0 -> b = false) else a = nif /\ b = true).
Proof.
  intros Hok Hlen Hi Hp. change IP_HLEN with 20 in Hlen. unfold accept_dhcp, to_dhcp_client. destruct (Z.eqb_spec nif 0) as [->|Hn]; cbn [negb].
  2:{ eexists _, _. done. }
  change 9 with (Z.of_nat 9) at 1. rewrite (hdr_u8_ok m c) by (done || lia). cbn [rbind].
  destruct (Z.eqb_spec (byte_at (cell_data m c) 9) IP_PROTO_UDP) as [E|E]; cbn [andb].
  2:{ exists 0, true. done. }
  specialize (Hp E). assert (0 <= header_length (cell_data m c)) as H0 by (unfold header_length; Z.div_mod_to_equations; lia).
  replace (header_length (cell_data m c) + 2) with (Z.of_nat (Z.to_nat (header_length (cell_data m c)) + 2)) by lia.
  destruct (hdr_u16_ok m c Hok (Z.to_nat (header_length (cell_data m c)) + 2)) as (v & -> & Hv & <-); [lia|]. cbn [rbind].
  assert ((v =? ntohs DHCP_CLIENT_PORT) = (ntohs v =? DHCP_CLIENT_PORT)) as ->.
  { apply Bool.eq_iff_eq_true. rewrite !Z.eqb_eq. split; [intros ->; done|]. intros <-. symmetry. by apply ntohs_ntohs. }
  destruct (ntohs v =? DHCP_CLIENT_PORT); [exists inp, false; split; [done|]; split; [by apply Z.eqb_neq|done]|by exists 0, true].
Qed.

Lemma accept_dhcp_block m m' hdr hlen nif inp : blocks m' !! hdr.1 = blocks m !! hdr.1 ->
  accept_dhcp m' hdr hlen nif inp = accept_dhcp m hdr hlen nif inp.
Proof using Type.
  intros E. unfold accept_dhcp. destruct (hdr_block m m' hdr 9 E) as (-> & _). by destruct (hdr_block m m' hdr (hlen + 2) E) as (_ & -> & _).
Qed.

(** The protocols above. *)
Context (call : F -> Z -> Z -> Z -> Z -> raws F * net (stack unit X) -> result (Z * (raws F * net (stack unit X))))
        (udp_input tcp_input icmp_input : state -> Z -> Z -> result state)
        (igmp_input : state -> Z -> Z -> Z -> result state)
        (icmp_dest_unreach : state -> Z -> Z -> result state).
Abbreviation input := (ip_input call igmp_lookfor_group udp_input tcp_input icmp_input igmp_input icmp_dest_unreach).
Abbreviation deliver := (ip_deliver call igmp_lookfor_group udp_input tcp_input icmp_input igmp_input icmp_dest_unreach).
Abbreviation up := (hand_up call udp_input tcp_input icmp_input igmp_input icmp_dest_unreach).

(** The static variables after the packet has been handled. *)
Definition reset s : state := set_addresses (set_current s 0 None) IPADDR_ANY IPADDR_ANY.
(** What the protocols are handed the packet in. *)
Definition received s (m : store) (inp : Z) (c : pbuf) (d : list Z) : state :=
  set_current (set_addresses (set_mem s m) (address_at d 12) (address_at d 16)) inp (Some (payload c)).
(** The pbufs [l] are given back, and nothing else changes but the addresses
    that [ip.c] keeps. *)
Definition dropped s (l : list Z) (s' : state) : Prop := exists a b m', s' = set_mem (set_addresses s a b) m' /\ untouched (mem s) m' l /\
  (Forall (fun x => ref_of (mem s) x = 1) l -> forall x, In x l -> cells m' !! x = None).

Lemma set_addresses_same s : set_addresses s (current_iphdr_src (ipv (env s))) (current_iphdr_dest (ipv (env s))) = s.
Proof using Type. by destruct s as [? ? ? [? ? [] ? ?]]. Qed.

(** A packet whose header is not accepted. *)
Lemma drop_now s p l : is_chain (mem s) p (p :: l) -> Forall (releasable (mem s)) (p :: l) ->
  exists s', free_packet s p = Ok s' /\ dropped s (p :: l) s'.
Proof using Type.
  intros Hch Hr. destruct (free_chain (mem s) p (p :: l) Hch Hr) as (k & m' & E & U & Hg). unfold free_packet. rewrite E. cbn [rbind].
  eexists. split; [reflexivity|]. exists (current_iphdr_src (ipv (env s))), (current_iphdr_dest (ipv (env s))), m'.
  by rewrite set_addresses_same.
Qed.

Lemma deliver_ok s p l c inp n nl m : incoming s p l c inp n nl -> blocks m !! (payload c).1 = blocks (mem s) !! (payload c).1 ->
  let d := cell_data (mem s) c in
  deliver (set_mem s m) p inp (payload c) (header_length d) =
  if accepted (env s) inp n nl d then let! s := up (received s m inp c d) p inp (payload c) in Ok (reset s)
  else free_packet (set_addresses (set_mem s m) (address_at d 12) (address_at d 16)) p.
Proof using Type.
  intros [[_ [Hok _]%Forall_cons _ _] _ _ Ec Hlen Hports Hi En Hl] Hb d. unfold pbuf_ok in Hok. rewrite Ec in Hok.
  change IP_HLEN with 20 in Hlen. unfold ip_deliver, accepted. cbn [mem set_mem].
  destruct (hdr_block (mem s) m (payload c) 16 Hb) as (_ & _ & ->). destruct (hdr_block (mem s) m (payload c) 12 Hb) as (_ & _ & ->).
  change 16 with (Z.of_nat 16) at 1. rewrite (hdr_u32_ok (mem s) c) by (done || lia). cbn [rbind].
  change 12 with (Z.of_nat 12) at 1. rewrite (hdr_u32_ok (mem s) c) by (done || lia). cbn [rbind].
  fold d. set (src := address_at d 12). set (dest := address_at d 16). set (st := set_addresses (set_mem s m) src dest).
  destruct (find_netif_ok st inp n nl dest Hi En Hl) as (a & -> & Ea). cbn [rbind]. change (for_us (env st)) with (for_us (env s)) in Ea.
  rewrite accept_dhcp_block with (m := mem s) by done.
  destruct (accept_dhcp_ok (mem s) c a inp Hok Hlen Hi Hports) as (a' & check & Eacc & Ha). fold d in Eacc, Ha. rewrite Eacc. clear Eacc. cbn [rbind].
  rewrite (nif_at_ok st inp n) by done. cbn [rbind].
  change (mem st) with m. destruct (hdr_block (mem s) m (payload c) 6 Hb) as (_ & -> & _). change 6 with (Z.of_nat 6) at 1.
  destruct (hdr_u16_ok (mem s) c Hok 6) as (v & -> & Hv & Ew); [lia|]. fold d in Ew. cbn [rbind].
  rewrite (offset_test v _ Hv Ew). unfold is_fragment. unfold source_ok.
  destruct (for_us (env s) inp n nl dest); cbn [negb] in Ea; rewrite Ea in Ha.
  - destruct Ha as [-> ->]. rewrite Ea. destruct (src =? IPADDR_ANY); cbn [negb andb orb]; [by destruct (word_at d 6 mod 16384 =? 0)|].
    destruct (ip4_addr_isbroadcast src (iface_of n)); cbn [negb andb orb]; [done|]. destruct (ip_addr_ismulticast src); [done|].
    by destruct (word_at d 6 mod 16384 =? 0).
  - destruct Ha as [Ha Hc]. rewrite Ha. destruct (to_dhcp_client d); cbn [negb] in *.
    + rewrite Hc by by apply Z.eqb_neq. by destruct (word_at d 6 mod 16384 =? 0).
    + by destruct (check && _ && _).
Qed.

(** The tests on the header, for a packet of at least four bytes. *)
Lemma checks_ok s p c inp : p <> 0 -> cells (mem s) !! p = Some c -> Pbuf.cell_ok (mem s) c -> 4 <= len c ->
  let d := cell_data (mem s) c in
  input s p inp = if well_formed d (tot_len c)
    then let! m := pbuf_realloc (mem s) p (word_at d 2) in deliver (set_mem s m) p inp (payload c) (header_length d)
    else free_packet s p.
Proof using Type.
  intros Hp0 Ec Hok Hlen d. pose proof (cell_data_bytes (mem s) c Hok) as Hby. pose proof (cell_data_length (mem s) c Hok) as Hdl. fold d in Hby, Hdl.
  unfold ip_input, well_formed. rewrite (deref_ok _ p c) by done. cbn [rbind].
  destruct (hdr_u16_ok (mem s) c Hok 0) as (w & E0 & Hw & Ew); [lia|]. change (Z.of_nat 0) with 0 in E0. rewrite E0. cbn [rbind]. fold d in Ew.
  destruct (first_word w (byte_at d 0) (byte_at d 1)) as [-> ->]; [apply byte_at_range; [done|unfold zlen in *; lia]..|exact Ew|].
  rewrite (Z.mul_comm _ 4). fold (header_length d). destruct (byte_at d 0 / 16 =? 4); cbn [negb andb]; [|done].
  destruct (hdr_u16_ok (mem s) c Hok 2) as (v & E2 & Hv & Ev); [lia|]. change (Z.of_nat 2) with 2 in E2. rewrite E2. cbn [rbind]. fold d in Ev. rewrite Ev.
  rewrite Hdl. assert (0 <= header_length d) as H0 by (unfold header_length; Z.div_mod_to_equations; lia).
  destruct (Z.ltb_spec (len c) (header_length d)); [by rewrite (proj2 (Z.leb_gt _ _)) by done|].
  rewrite (proj2 (Z.leb_le (header_length d) _)) by done. cbn [orb andb].
  destruct (Z.ltb_spec (tot_len c) (word_at d 2)); [by rewrite (proj2 (Z.leb_gt _ _)) by done|].
  rewrite (proj2 (Z.leb_le (word_at d 2) _)) by done. cbn [andb].
  rewrite (load_ok (mem s) c) by (done || lia). cbn [rbind]. change (drop (Z.to_nat 0) (cell_data (mem s) c)) with d.
  rewrite (chksum_any (Z.odd (payload c).2)) by (by apply Forall_take || (unfold zlen in *; rewrite length_take; unfold Pbuf.cell_ok, is_u16 in Hok; lia)).
  by destruct (inet_chksum false _ =? 0).
Qed.

Lemma well_formed_length d tot : bytes d -> (4 <= length d)%nat -> well_formed d tot = true -> 0 <= word_at d 2 <= tot.
Proof using Type.
  intros Hb Hl Hw. unfold well_formed in Hw. rewrite !andb_true_iff in Hw. destruct Hw as [[[_ _] Ht%Z.leb_le] _]. split; [|done].
  pose proof (byte_at_range d 2 Hb ltac:(lia)). pose proof (byte_at_range d 3 Hb ltac:(lia)). unfold word_at, is_byte in *. lia.
Qed.

(** Trimming a packet with a well-formed header. *)
Lemma trim_ok s p l c tot : packet (mem s) p (p :: l) -> Forall (own (mem s)) (p :: l) -> Forall (releasable (mem s)) (p :: l) ->
  cells (mem s) !! p = Some c -> 4 <= len c -> tot = tot_len c -> let d := cell_data (mem s) c in well_formed d tot = true ->
  exists m l1 b l2, pbuf_realloc (mem s) p (word_at d 2) = Ok m /\ p :: l = l1 ++ b :: l2 /\ trimmed (mem s) m p (word_at d 2) (p :: l) l1 b /\
    (Forall (fun a => ref_of (mem s) a = 1) l2 -> forall a, In a l2 -> cells m !! a = None) /\
    blocks m !! (payload c).1 = blocks (mem s) !! (payload c).1.
Proof using Type.
  intros Hp Hown Hrel Ec Hlen -> d Hw. pose proof Hp as [_ [Hok _]%Forall_cons [Ht _] _]. unfold pbuf_ok in Hok. rewrite Ec in Hok, Ht.
  pose proof (cell_data_length (mem s) c Hok) as Hdl. fold d in Hdl.
  pose proof (well_formed_length d _ (cell_data_bytes _ _ Hok) ltac:(unfold zlen in Hdl; lia) Hw) as Hn. rewrite Ht in Hn.
  destruct (realloc_ok (mem s) p (p :: l) (word_at d 2) Hp) as (m & l1 & b & l2 & E & El & HT & Hg); [done..|].
  exists m, l1, b, l2. do 4 (split; [done|]). pose proof Hown as [Hpo _]%Forall_cons. unfold own in Hpo. rewrite Ec in Hpo. rewrite Hpo.
  destruct HT as (_ & _ & _ & Hk). apply Hk. destruct l1; injection El as <- _; by left.
Qed.

(** The decision about a packet. *)
Lemma input_decides s p l c inp n nl : incoming s p l c inp n nl ->
  let d := cell_data (mem s) c in
  if well_formed d (tot_len c) && accepted (env s) inp n nl d then
    exists m l1 b, trimmed (mem s) m p (word_at d 2) (p :: l) l1 b /\
      input s p inp = (let! s := up (received s m inp c d) p inp (payload c) in Ok (reset s))
  else exists s', input s p inp = Ok s' /\ dropped s (p :: l) s'.
Proof using Type.
  intros Hin d. pose proof Hin as [Hp Hown Hrel Ec Hlen _ _ _ _]. pose proof Hp as [Hch [Hok _]%Forall_cons _ _].
  unfold pbuf_ok in Hok. rewrite Ec in Hok. change IP_HLEN with 20 in Hlen. assert (p <> 0) as Hp0 by by destruct Hch as (_ & ? & _).
  rewrite (checks_ok s p c inp Hp0 Ec Hok) by lia. fold d. destruct (well_formed d (tot_len c)) eqn:Hw; cbn [andb]; [|by apply drop_now].
  destruct (trim_ok s p l c (tot_len c) Hp Hown Hrel Ec) as (m & l1 & b & l2 & E & El & HT & Hg & Hb); [lia|done|exact Hw|].
  fold d in E, HT. rewrite E. cbn [rbind]. pose proof (deliver_ok s p l c inp n nl m Hin Hb) as Ed. cbv zeta in Ed. fold d in Ed. rewrite Ed.
  destruct (accepted (env s) inp n nl d); [by exists m, l1, b|].
  destruct (free_trimmed _ _ _ _ _ _ _ _ El HT Hrel Hg) as (k & m' & Ef & U & Hgone). unfold free_packet. cbn [mem set_addresses set_ipv set_env set_mem].
  rewrite Ef. cbn [rbind]. eexists. split; [reflexivity|]. by exists (address_at d 12), (address_at d 16), m'.
Qed.

(** C7: what [ip_input] decides.  Given a packet whose fixed header is in its first pbuf, it drops the packet unless the header is well-formed (version, lengths within the pbuf and the packet, checksum), the destination is one of this host's (a multicast group of the incoming interface, or the address or a broadcast of an interface that is up), or else it is a UDP packet to the DHCP client port, the source is not a broadcast or multicast, and the packet is no fragment.  A dropped packet is given back whole and nothing outside of it changes but the two addresses.  An accepted one is trimmed to the length the header says and handed up, with the interface, the header and both addresses in the static variables, which are reset behind. *)
Theorem ip_input_decides s p l c inp n nl : incoming s p l c inp n nl ->
  let d := cell_data (mem s) c in
  if well_formed d (tot_len c) && accepted (env s) inp n nl d then
    exists m l1 b, trimmed (mem s) m p (word_at d 2) (p :: l) l1 b /\
      input s p inp = (let! s := up (received s m inp c d) p inp (payload c) in Ok (reset s))
  else exists s', input s p inp = Ok s' /\ dropped s (p :: l) s'.
Proof using Type. apply input_decides. Qed.

(** A header shorter than twenty bytes is not refused.  The length in the first byte is only compared with the first pbuf; when the checksum over that length verifies, the addresses are read from behind it, and outside of the memory of a packet that ends there. *)
Theorem ip_input_short_header s p l c inp b : packet (mem s) p (p :: l) -> Forall (own (mem s)) (p :: l) -> Forall (releasable (mem s)) (p :: l) ->
  cells (mem s) !! p = Some c -> 4 <= len c -> well_formed (cell_data (mem s) c) (tot_len c) = true ->
  blocks (mem s) !! (payload c).1 = Some b -> zlen b < (payload c).2 + IP_HLEN -> input s p inp = Fault OutOfBounds.
Proof using Type.
  intros Hp Hown Hrel Ec Hlen Hw Eb Hz. pose proof Hp as [Hch [Hok _]%Forall_cons _ _]. unfold pbuf_ok in Hok. rewrite Ec in Hok.
  assert (p <> 0) as Hp0 by by destruct Hch as (_ & ? & _). rewrite (checks_ok s p c inp Hp0 Ec Hok) by done. rewrite Hw.
  destruct (trim_ok s p l c (tot_len c) Hp Hown Hrel Ec Hlen) as (m & l1 & b' & l2 & -> & _ & _ & _ & Hb); [done|exact Hw|]. cbn [rbind].
  unfold ip_deliver, hdr_u32 at 1. cbn [mem set_mem]. unfold load. rewrite Hb, Eb. cbn [Z.eqb of_option rbind]. unfold mslice. change IP_HLEN with 20 in Hz.
  rewrite (proj2 (Z.leb_gt _ (zlen b))) by lia. by rewrite andb_false_r.
Qed.

(** ** Handing up *)
Context (work : F -> Z -> Z -> Z -> Z -> net (stack unit X) -> Z * net (stack unit X)).

(** The order of the protocols.  The packet is first offered to the raw control blocks of its protocol, in the order of the list, which does not change unless one takes it; that block then moves to the front and nothing else is called.  Otherwise the handler of the protocol byte gets it.  A packet of a protocol without a handler is given back, after [icmp_dest_unreach] has seen it from its IP header on, if it was sent to this host alone. *)
Theorem ip_input_protocols s p c inp n hdr bl b proto : leaves_list work call -> raw_list (raw_blocks (env s)) bl ->
  deref (mem s) p = Ok c -> load (mem s) (payload c) 9 1 = Ok b -> mread b 0 = Ok proto ->
  match offer work (raw_blocks (env s)) bl p proto (current_iphdr_src (ipv (env s))) (current_iphdr_dest (ipv (env s))) (Ip.split s).2 with
  | (Some a, w) => exists r, up s p inp hdr = Ok (Ip.join (r, w)) /\ raw_list r (a :: filter (fun x => x <> a) bl) /\
      forall x, bodies r x = bodies (raw_blocks (env s)) x
  | (None, w) => let s' := Ip.join (raw_blocks (env s), w) in let dest := current_iphdr_dest (ipv (env s')) in
      nif_at s' inp = Ok n -> hdr_u8 (mem s') hdr 9 = Ok proto ->
      (proto = IP_PROTO_UDP -> up s p inp hdr = udp_input s' p inp) /\
      (proto = IP_PROTO_TCP -> up s p inp hdr = tcp_input s' p inp) /\
      (proto = IP_PROTO_ICMP -> up s p inp hdr = icmp_input s' p inp) /\
      (proto = IP_PROTO_IGMP -> up s p inp hdr = igmp_input s' p inp dest) /\
      (~ In proto [IP_PROTO_UDP; IP_PROTO_TCP; IP_PROTO_ICMP; IP_PROTO_IGMP] -> up s p inp hdr =
        if ip4_addr_isbroadcast dest (iface_of n) || ip_addr_ismulticast dest then free_packet s' p
        else let! c := deref (mem s') p in
             let! s'' := icmp_dest_unreach (set_mem s' (put (mem s') p (set_payload c hdr))) p ICMP_DUR_PROTO in free_packet s'' p)
  end.
Proof using Type.
  intros Hcall Hl Hd Hld Hb. unfold hand_up, raw_input, Ip.split. cbn [fst snd Etharp.mem]. rewrite Hd. cbn [rbind]. rewrite Hld. cbn [rbind]. rewrite Hb. cbn [rbind].
  pose proof (deliver_loop work call (raw_blocks (env s)) p proto (current_iphdr_src (ipv (env s))) (current_iphdr_dest (ipv (env s))) bl
    (list_fuel (pcbs (raw_blocks (env s)))) [] (raw_pcbs (raw_blocks (env s))) (Ip.split s).2 Hcall Hl Hl (list_fuel_enough _ _ _ _ Hl)) as Ho.
  unfold Ip.split in Ho. cbn [fst snd] in Ho. simpl (default 0 _) in Ho. destruct (offer _ _ _ _ _ _ _ _) as [[a|] w].
  - destruct Ho as (r & -> & Hr & Hbod). cbn [rbind Z.eqb negb]. by exists r.
  - set (s' := Ip.join (raw_blocks (env s), w)). set (dest := current_iphdr_dest (ipv (env s'))). intros Hn Hpr. rewrite Ho. cbn [rbind Z.eqb negb]. fold s'. rewrite Hpr. cbn [rbind].
    repeat (split; [by intros ->|]). intros Hnot. cbn [In] in Hnot.
    rewrite !(proj2 (Z.eqb_neq _ _)) by (intros ->; apply Hnot; tauto). rewrite Hn. cbn [rbind]. fold dest.
    destruct (ip4_addr_isbroadcast dest (iface_of n)); cbn [negb andb orb]; [done|]. destruct (ip_addr_ismulticast dest); cbn [negb]; [done|].
    by destruct (deref (mem s') p).
Qed.
End input.

(** ** From output to input *)
Lemma address_of_bytes x : is_u32 x -> match u32_bytes x with [a; b; c; e] => address_of a b c e | _ => 0 end = x.
Proof. intros Hx. unfold u32_bytes, address_of, is_u32 in *. Z.div_mod_to_equations. lia. Qed.

Section back.
Context (ttl tos proto len id src dest chk : Z) (opts data : list Z).
Context (Hopts : zlen opts mod 4 = 0) (Hforty : zlen opts <= 40) (Hlen : is_u16 len) (Hsrc : is_u32 src) (Hdest : is_u32 dest).
Abbreviation d := (ip_header ttl tos proto len id src dest chk opts ++ data).

Lemma header_length_back : header_length d = 20 + zlen opts.
Proof using Hopts Hforty.
  pose proof (zlen_nonneg opts). unfold header_length, byte_at. cbn [ip_header app nth].
  assert (zlen opts = 4 * (zlen opts / 4)) as E by (Z.div_mod_to_equations; lia). set (k := zlen opts / 4) in *.
  replace (0x45 + k) with (5 + k + 4 * 16) by lia. rewrite Z.mod_add, Z.mod_small by lia. lia.
Qed.

Lemma header_take : take (Z.to_nat (20 + zlen opts)) d = ip_header ttl tos proto len id src dest chk opts.
Proof using Type.
  rewrite <- (ip_header_length ttl tos proto len id src dest opts chk). unfold zlen. rewrite Nat2Z.id. apply take_app_length.
Qed.

(** A header that verifies, in front of data: it passes the tests on the header
    of a packet that is long enough, and its fields are read back. *)
Lemma header_read_back : inet_chksum false (ip_header ttl tos proto len id src dest chk opts) = 0 ->
  (forall tot, len <= tot -> well_formed d tot = true) /\ word_at d 2 = len /\ byte_at d 9 = proto /\
  address_at d 12 = src /\ address_at d 16 = dest /\ is_fragment d = false.
Proof using Type*.
  intros Hchk. pose proof header_length_back as Hh. pose proof (zlen_nonneg opts) as Hz.
  assert (word_at d 2 = len) as Hw.
  { unfold word_at, byte_at. cbn [ip_header app nth be16]. unfold is_u16 in Hlen. Z.div_mod_to_equations. lia. }
  assert (address_at d 12 = src) as Es by exact (address_of_bytes src Hsrc).
  assert (address_at d 16 = dest) as Ed by exact (address_of_bytes dest Hdest).
  split; [|by do 4 (split; [done|])]. intros tot Ht.
  unfold well_formed. rewrite Hh, Hw, header_take, Hchk, (proj2 (Z.leb_le _ _) Ht). cbn [Z.eqb]. rewrite !andb_true_r. apply andb_true_iff. split.
  - unfold byte_at. cbn [ip_header app nth]. apply Z.eqb_eq. pose proof (opts_words opts Hopts Hforty). Z.div_mod_to_equations. lia.
  - apply Z.leb_le. rewrite zlen_app, ip_header_length. pose proof (zlen_nonneg data). lia.
Qed.
End back.

Section transfer.
Context {F X F2 X2 : Type}.
Implicit Type s : net (stack (raws F) X).
Implicit Type w : net (stack (raws F2) X2).
Context (output : net (stack (raws F) X) -> Z -> Z -> Z -> result (Z * net (stack (raws F) X))).
Context (igmp_lookfor_group : X2 -> Z -> Z -> bool)
        (call : F2 -> Z -> Z -> Z -> Z -> raws F2 * net (stack unit X2) -> result (Z * (raws F2 * net (stack unit X2))))
        (udp_input tcp_input icmp_input : net (stack (raws F2) X2) -> Z -> Z -> result (net (stack (raws F2) X2)))
        (igmp_input : net (stack (raws F2) X2) -> Z -> Z -> Z -> result (net (stack (raws F2) X2)))
        (icmp_dest_unreach : net (stack (raws F2) X2) -> Z -> Z -> result (net (stack (raws F2) X2))).
Abbreviation input := (ip_input call igmp_lookfor_group udp_input tcp_input icmp_input igmp_input icmp_dest_unreach).
Abbreviation up := (hand_up call udp_input tcp_input icmp_input igmp_input icmp_dest_unreach).

(** The first pbuf of a packet that begins with [h], when it is long enough. *)
Lemma first_holds m p l c h t : packet m p (p :: l) -> cells m !! p = Some c -> contents m (p :: l) = h ++ t -> zlen h <= len c ->
  exists t', cell_data m c = h ++ t'.
Proof using Type.
  intros [_ [Hok _]%Forall_cons _ _] Ec Hc Hl. unfold pbuf_ok in Hok. rewrite Ec in Hok. pose proof (cell_data_length m c Hok) as Hd.
  rewrite contents_cons in Hc. unfold data_of in Hc. rewrite Ec in Hc. apply app_eq_inv in Hc as [(t' & E & _)|(t' & E & _)]; [by exists t'|].
  exists []. rewrite E, zlen_app, Hd in Hl. pose proof (zlen_nonneg t'). destruct t'; [by rewrite app_nil_r in *|]. revert Hl. zl. pose proof (zlen_nonneg t'). lia.
Qed.

(** The header of a trimmed packet lies where it was. *)
Lemma trimmed_first w q l2 c2 inp n2 nl2 m2 l3 b : incoming w q l2 c2 inp n2 nl2 -> packet m2 q (l3 ++ [b]) ->
  (forall a, In a (l3 ++ [b]) -> blocks m2 !! a = blocks (mem w) !! a /\ exists c c', cells (mem w) !! a = Some c /\ cells m2 !! a = Some c' /\
    payload c' = payload c /\ ref c' = ref c /\ type c' = type c /\ len c' <= len c) ->
  blocks m2 !! (payload c2).1 = blocks (mem w) !! (payload c2).1.
Proof using Type.
  intros [_ [Ho _]%Forall_cons _ Ec _ _ _ _ _] [Hch _ _ _] Hk. unfold own in Ho. rewrite Ec in Ho. rewrite Ho. apply Hk.
  destruct l3 as [|a l3]; cbn [app] in *; destruct Hch as (-> & _); by left.
Qed.

(** C8: from the output of one host to the input of another.  A packet with room
    for its header, sent by [ip_output_if_opt], is handed to the driver of the
    interface.  Take any other host to which a packet of the same bytes comes
    in, perhaps with padding behind it and in other pbufs, the first of which
    holds the header.  When the destination is this host's, by address,
    broadcast or group, and the source may be one, then [ip_input] hands the
    packet to the protocols: with the padding taken off, the protocol the sender
    gave where they look for it, behind the header the data that was sent, and
    the two addresses in the static variables, which are reset behind. *)
Theorem ip_sent_received s p l c n src dest ttl tos proto nif ni opts : sendable (mem s) p l c n -> 20 + aligned (zlen opts) <= n ->
  zlen opts <= 40 -> bytes opts -> nif <> 0 -> nifs (ifs (env s)) !! nif = Some ni ->
  is_byte ttl -> is_byte tos -> is_byte proto -> is_u32 src -> is_u32 dest -> is_u32 (nif_ip_addr ni) -> is_u16 (ip_id (ipv (env s))) ->
  exists m', ip_output_if_opt output s p src (Some dest) ttl tos proto nif opts = output (numbered s m') nif p dest /\
  forall w q l2 c2 inp n2 nl2 pad, let from := if src =? IPADDR_ANY then nif_ip_addr ni else src in
    incoming w q l2 c2 inp n2 nl2 -> contents (mem w) (q :: l2) = contents m' (p :: l) ++ pad -> 20 + aligned (zlen opts) <= len c2 ->
    for_us igmp_lookfor_group (env w) inp n2 nl2 dest = true -> source_ok n2 from = true ->
    exists m2 l3 b, packet m2 q (l3 ++ [b]) /\ hdr_u8 m2 (payload c2) 9 = Ok proto /\
      drop (Z.to_nat (20 + aligned (zlen opts))) (contents m2 (l3 ++ [b])) = contents (mem s) (p :: l) /\
      input w q inp = let! w := up (set_current (set_addresses (set_mem w m2) from dest) inp (Some (payload c2))) q inp (payload c2) in Ok (reset w).
Proof using Type.
  intros Hs Hn Hf Hb Hnz En Ht Hto Hp Hsrc Hd Hni Hi.
  destruct (header_written output s p l c n src dest ttl tos proto nif ni opts) as (m' & chk & E & Hpk & _ & Hc & Hv); [done..|].
  exists m'. split; [exact E|]. intros w q l2 c2 inp n2 nl2 pad from Hin Hc2 Hlen Hus Hso. cbv zeta in Hc, Hv. fold from in Hc, Hv.
  pose proof (padded_length opts) as Hpl. destruct (aligned_range (zlen opts) (zlen_nonneg opts)) as [Hal Hm4].
  set (tot := 20 + aligned (zlen opts) + zlen (contents (mem s) (p :: l))) in *. set (hdr := ip_header _ _ _ _ _ _ _ _ _) in *.
  assert (zlen hdr = 20 + aligned (zlen opts)) as Hh by (unfold hdr; by rewrite ip_header_length, Hpl).
  assert (zlen (contents m' (p :: l)) = tot) as Htot by (rewrite Hc, zlen_app, Hh; done).
  pose proof Hin as [Hp2 _ _ Ec2 _ _ _ _ _]. rewrite Hc, <- app_assoc in Hc2.
  destruct (first_holds _ _ _ _ _ _ Hp2 Ec2 Hc2) as [t Ecd]; [by rewrite Hh|].
  assert (is_u16 tot) as Hu by (rewrite <- Htot; destruct Hpk as [_ _ _ ?]; pose proof (zlen_nonneg (contents m' (p :: l))); unfold is_u16; lia).
  assert (is_u32 from) as Hfr by (unfold from; by destruct (src =? IPADDR_ANY)).
  assert (zlen (padded opts) <= 40) as H40 by (rewrite Hpl; unfold aligned; Z.div_mod_to_equations; lia).
  assert (zlen (padded opts) mod 4 = 0) as H4 by by rewrite Hpl.
  destruct (header_read_back ttl tos proto tot (ip_id (ipv (env s))) from dest chk (padded opts) t H4 H40 Hu Hfr Hd (Hv false)) as (Hw & Hwl & Hpr & Es & Ed & Efr).
  fold hdr in Hw, Hwl, Hpr, Es, Ed, Efr. rewrite <- Ecd in Hw, Hwl, Hpr, Es, Ed, Efr.
  pose proof (input_decides igmp_lookfor_group call udp_input tcp_input icmp_input igmp_input icmp_dest_unreach _ _ _ _ _ _ _ Hin) as Hdec. cbv zeta in Hdec.
  unfold accepted in Hdec. rewrite Hw in Hdec.
  2:{ destruct Hp2 as [_ _ [Ht2 _] _]. rewrite Ec2 in Ht2. rewrite Ht2, Hc2, !zlen_app, Hh. pose proof (zlen_nonneg pad). unfold tot. lia. }
  rewrite Ed, Es, Hus, Hso, Efr in Hdec. cbn [andb negb] in Hdec. destruct Hdec as (m2 & l3 & b & (Hpk2 & Hct & _ & Hk) & Ei).
  exists m2, l3, b. split; [exact Hpk2|]. split; [|split].
  - rewrite (proj1 (hdr_block (mem w) m2 (payload c2) 9 (trimmed_first w q l2 c2 inp n2 nl2 m2 l3 b Hin Hpk2 Hk))).
    change 9 with (Z.of_nat 9). destruct Hp2 as [_ [Hok _]%Forall_cons _ _]. unfold pbuf_ok in Hok. rewrite Ec2 in Hok.
    pose proof (zlen_nonneg opts). rewrite (hdr_u8_ok _ _ Hok) by lia. by rewrite Hpr.
  - rewrite Hct, Hwl, Hc2, app_assoc, <- Hc, <- Htot. unfold zlen at 2. rewrite Nat2Z.id, take_app_length, Hc, <- Hh. unfold zlen. by rewrite Nat2Z.id, drop_app_length.
  - rewrite Ei. unfold received. by rewrite Es, Ed.
Qed.
End transfer.

(** ** A packet for the station *)

(** From 10.0.0.7 to 10.0.0.2, with the eight bytes of a UDP header and two
    bytes of padding. *)
Definition from_host : Z := address_of 10 0 0 7.
Definition to_station : Z := address_of 10 0 0 2.
Definition for_station (proto : Z) : list Z :=
  ip_header 64 0 proto 28 1 from_host to_station (header_chksum 64 0 proto 28 1 from_host to_station []) [] ++
  [0; 7; 0; 9; 0; 8; 0; 0; 0; 0].
(** The stack of the examples with such a packet. *)
Definition packet_net (d : list Z) : net (stack (raws Z) (list (list Z))) := frame_net d (two_stack (Raws 0 empty) no_log).

Section packet.
Context (d : list Z) (Hd : bytes d) (Hl : SIZEOF_ETH_HDR <= zlen d < 65536).

Lemma frame_cell_ok : Pbuf.cell_ok (with_frame d) (frame_pbuf d).
Proof using Type*.
  destruct (frame_held d Hd Hl) as (_ & c & Ec & _ & _ & Hok & _). rewrite frame_cell in Ec. by injection Ec as <-.
Qed.
Lemma frame_cell_data : cell_data (with_frame d) (frame_pbuf d) = d.
Proof using Type. pose proof (frame_data d) as H. unfold data_of in H. by rewrite frame_cell in H. Qed.
Lemma frame_packet : packet (with_frame d) 600 [600].
Proof using Type*.
  assert (contents (with_frame d) [600] = d) as Hc by (unfold contents; cbn [map concat]; by rewrite frame_data, app_nil_r).
  split; [|constructor; [|done]| |rewrite Hc; apply Hl].
  - split; [done|]. split; [done|]. eexists. by split; [apply frame_cell|].
  - unfold pbuf_ok. rewrite frame_cell. apply frame_cell_ok.
  - split; [|done]. by rewrite frame_cell, Hc.
Qed.
Lemma frame_own : Forall (own (with_frame d)) [600].
Proof using Type. constructor; [|done]. unfold own. by rewrite frame_cell. Qed.
Lemma frame_releasable : Forall (releasable (with_frame d)) [600].
Proof using Type. constructor; [|done]. eexists. split; [apply frame_cell|]. split; [eexists; apply lookup_insert_eq|cbn; lia]. Qed.
End packet.

(** Handlers that free the packet, raw callbacks that take none, no groups. *)
Definition not_ours (f arg p pkt src : Z) (w : net (stack unit (list (list Z)))) : Z * net (stack unit (list (list Z))) := (0, w).
Definition call_none (f arg p pkt src : Z) (st : raws Z * net (stack unit (list (list Z)))) :
  result (Z * (raws Z * net (stack unit (list (list Z))))) := Ok (0, st).
Definition no_groups (x : list (list Z)) (inp dest : Z) : bool := false.
Definition frees {E} (s : net E) (p inp : Z) : result (net E) := free_packet s p.
Definition frees_igmp {E} (s : net E) (p inp dest : Z) : result (net E) := free_packet s p.
Definition no_unreach {E} (s : net E) (p code : Z) : result (net E) := Ok s.
Abbreviation example_input := (ip_input call_none no_groups frees frees frees frees_igmp no_unreach).

Lemma for_station_bytes : bytes (for_station 17) /\ SIZEOF_ETH_HDR <= zlen (for_station 17) < 65536.
Proof. by split; [apply (bool_decide_unpack _); vm_compute|]. Qed.

Lemma for_station_incoming : incoming (packet_net (for_station 17)) 600 [] (frame_pbuf (for_station 17)) 1 station [2; 1].
Proof.
  destruct for_station_bytes as [Hb Hl].
  split; [by apply frame_packet|by apply frame_own|by apply frame_releasable|by apply frame_cell|done| |done|done|exact two_ifs_list].
  change (mem (packet_net (for_station 17))) with (with_frame (for_station 17)). by rewrite frame_cell_data.
Qed.

Lemma for_station_accepted : well_formed (for_station 17) (zlen (for_station 17)) &&
  accepted no_groups (two_stack (Raws 0 (empty : gmap Z (raw_pcb Z))) no_log) 1 station [2; 1] (for_station 17) = true.
Proof. vm_compute. reflexivity. Qed.

Lemma ip_input_decides_witness :
  incoming (packet_net (for_station 17)) 600 [] (frame_pbuf (for_station 17)) 1 station [2; 1] /\
  exists m l1 b, trimmed (with_frame (for_station 17)) m 600 28 [600] l1 b /\
    example_input (packet_net (for_station 17)) 600 1 =
    (let! s := hand_up call_none frees frees frees frees_igmp no_unreach
       (received (packet_net (for_station 17)) m 1 (frame_pbuf (for_station 17)) (for_station 17)) 600 1 (600, 20) in Ok (reset s)).
Proof.
  split; [exact for_station_incoming|].
  pose proof (ip_input_decides no_groups call_none frees frees frees frees_igmp no_unreach _ _ _ _ _ _ _ for_station_incoming) as Hx.
  cbv zeta in Hx. change (mem (packet_net (for_station 17))) with (with_frame (for_station 17)) in Hx.
  change (env (packet_net (for_station 17))) with (two_stack (Raws 0 (empty : gmap Z (raw_pcb Z))) no_log) in Hx.
  rewrite frame_cell_data in Hx. change (tot_len (frame_pbuf (for_station 17))) with (zlen (for_station 17)) in Hx.
  rewrite for_station_accepted in Hx. exact Hx.
Defined.

(** Nobody takes the packet, and the handler of its protocol gets it. *)
Lemma frame_protocol : load (with_frame (for_station 17)) (600, 20) 9 1 = Ok [17].
Proof. vm_compute. reflexivity. Qed.

Lemma ip_input_protocols_witness :
  leaves_list not_ours call_none /\
  hand_up call_none frees frees frees frees_igmp no_unreach (packet_net (for_station 17)) 600 1 (600, 20) =
  free_packet (packet_net (for_station 17)) 600.
Proof.
  assert (leaves_list not_ours call_none) as Hc by (intros ? ? ? ? ? ? ?; reflexivity). split; [exact Hc|].
  assert (raw_list (Raws 0 (empty : gmap Z (raw_pcb Z))) []) as Hl by reflexivity.
  assert (deref (with_frame (for_station 17)) 600 = Ok (frame_pbuf (for_station 17))) as Hd
    by (rewrite (deref_ok _ 600 (frame_pbuf (for_station 17))) by (done || apply frame_cell); done).
  assert (hdr_u8 (with_frame (for_station 17)) (600, 20) 9 = Ok 17) as Hp by (unfold hdr_u8; by rewrite frame_protocol).
  pose proof (ip_input_protocols call_none frees frees frees frees_igmp no_unreach not_ours (packet_net (for_station 17)) 600
    (frame_pbuf (for_station 17)) 1 station (600, 20) [] [17] 17 Hc Hl Hd frame_protocol eq_refl eq_refl Hp) as [Hx _].
  exact (Hx eq_refl).
Defined.

(** Four bytes that 10.0.0.7 sends to the station, and two bytes of padding. *)
Definition sent_bytes : list Z := ip_header 64 0 253 24 (ip_id no_ip) from_host to_station (header_chksum 64 0 253 24 (ip_id no_ip) from_host to_station []) [] ++ [1; 2; 3; 4].
Definition padded_net : net (stack (raws Z) (list (list Z))) := packet_net (sent_bytes ++ [0; 0]).
Lemma padded_bytes_ok : bytes (sent_bytes ++ [0; 0]) /\ SIZEOF_ETH_HDR <= zlen (sent_bytes ++ [0; 0]) < 65536.
Proof. by split; [apply (bool_decide_unpack _); vm_compute|]. Qed.
Lemma padded_contents : contents (with_frame (sent_bytes ++ [0; 0])) [600] = sent_bytes ++ [0; 0].
Proof. unfold contents. cbn [map concat]. by rewrite frame_data, app_nil_r. Qed.
Lemma padded_incoming : incoming padded_net 600 [] (frame_pbuf (sent_bytes ++ [0; 0])) 1 station [2; 1].
Proof.
  destruct padded_bytes_ok as [Hb Hl]. split; [by apply frame_packet|by apply frame_own|by apply frame_releasable|by apply frame_cell|done| |done|done|exact two_ifs_list].
  change (mem padded_net) with (with_frame (sent_bytes ++ [0; 0])). by rewrite frame_cell_data.
Qed.

Lemma ip_sent_received_witness :
  sendable small_store 600 [] small_pbuf 40 /\
  exists m2 l3 b, drop 20 (contents m2 (l3 ++ [b])) = [1; 2; 3; 4] /\
    example_input padded_net 600 1 =
    (let! s := hand_up call_none frees frees frees frees_igmp no_unreach
       (set_current (set_addresses (set_mem padded_net m2) from_host to_station) 1 (Some (600, 20))) 600 1 (600, 20) in Ok (reset s)).
Proof.
  split; [exact small_sendable|].
  assert (is_byte 64 /\ is_byte 0 /\ is_byte 253 /\ is_u32 from_host /\ is_u32 to_station /\ is_u32 (nif_ip_addr station) /\ is_u16 (ip_id no_ip)) as
    (H1 & H2 & H3 & H4 & H5 & H6 & H7) by (repeat split; try (by apply (bool_decide_unpack _))).
  destruct (ip_sent_received accept_all no_groups call_none frees frees frees frees_igmp no_unreach small_net 600 [] small_pbuf 40 from_host to_station 64 0 253 1 station []
    small_sendable ltac:(discriminate) ltac:(discriminate) (Forall_nil_2 _) ltac:(discriminate) eq_refl H1 H2 H3 H4 H5 H6 H7) as (m' & E & Hr).
  pose proof (f_equal (fun r => match r with Ok (_, s) => contents (mem s) [600] | Fault _ => [] end) E) as Hc.
  change (sent_bytes = contents m' [600]) in Hc.
  destruct (Hr padded_net 600 [] (frame_pbuf (sent_bytes ++ [0; 0])) 1 station [2; 1] [0; 0] padded_incoming
    ltac:(rewrite <- Hc; exact padded_contents) ltac:(discriminate) ltac:(vm_compute; reflexivity) ltac:(vm_compute; reflexivity)) as (m2 & l3 & b & _ & _ & Hd & Ei).
  exists m2, l3, b. split; [exact Hd|exact Ei].
Defined.

(** Sixteen bytes that say the header is eight bytes long. *)
Definition eight_bytes : list Z := [0x42; 0; 0; 16; 0xbd; 0xef; 0; 0; 64; 17; 0; 0; 10; 0; 0; 7].
Lemma eight_bytes_bytes : bytes eight_bytes /\ SIZEOF_ETH_HDR <= zlen eight_bytes < 65536.
Proof. by split; [apply (bool_decide_unpack _)|]. Qed.

Lemma ip_input_short_header_witness :
  well_formed eight_bytes 16 = true /\ example_input (packet_net eight_bytes) 600 1 = Fault OutOfBounds.
Proof.
  assert (well_formed eight_bytes 16 = true) as Hw by (vm_compute; reflexivity). split; [exact Hw|]. destruct eight_bytes_bytes as [Hb Hl].
  apply (ip_input_short_header no_groups call_none frees frees frees frees_igmp no_unreach (packet_net eight_bytes) 600 [] (frame_pbuf eight_bytes)
    1 (replicate 20 0 ++ eight_bytes)); [exact (frame_packet _ Hb Hl)|exact (frame_own _)|exact (frame_releasable _)|exact (frame_cell _)|discriminate| |apply lookup_insert_eq|reflexivity].
  change (mem (packet_net eight_bytes)) with (with_frame eight_bytes). rewrite frame_cell_data. exact Hw.
Defined.
