(* ===== verification/IcmpEcho.v ===== *)
(** * The answer to echo requests: theorems about [lwip/core/ipv4/icmp.c]. *)
From S2P Require Import Prelude Cobs Uart Comm Message Pbuf PbufChain PbufCopy PbufTrim InetChksum IpHdr IpAddr.
From S2P Require Import Linked RawPcb Etharp EtharpTable EtharpPackets Netif Ip IpOutput IpInput Icmp.
From stdpp Require Import list gmap.
#[local] Open Scope Z_scope.
#[local] Transparent bytes_u16.

(** ** The checksum *)

(** A checksum verifies when the sum of the words is a multiple of 65535, but
    not zero. *)
Lemma verifies_iff e : bytes e -> zlen e <= 65535 -> (inet_chksum false e = 0 <-> 0 < wsum e /\ wsum e mod 65535 = 0).
Proof.
  intros Hb Hl. unfold inet_chksum. rewrite chksum_canon by done. pose proof (wsum_bound e Hb) as [Hw _].
  rewrite <- (canon_same (wsum e) (le_val e)) by (done || by apply le_val_nonneg || by apply wsum_same).
  pose proof (canon_range _ Hw) as Hc. rewrite lnot16 by done. unfold canon. destruct (Z.eqb_spec (wsum e) 0) as [->|Hn]; [split; lia|].
  split; [intros H; split; [lia|]|intros [_ H]]; Z.div_mod_to_equations; lia.
Qed.

(** The bytes of an echo message behind its code: the checksum and the rest. *)
Definition echo_message (type code chksum : Z) (r : list Z) : list Z := [type; code] ++ bytes_u16 chksum ++ r.

Lemma echo_message_sum type code chksum r : is_u16 chksum -> wsum (echo_message type code chksum r) = type + 256 * code + chksum + wsum r.
Proof. intros Hc. unfold echo_message, bytes_u16. cbn [app wsum]. unfold is_u16 in Hc. Z.div_mod_to_equations. lia. Qed.

Lemma echo_message_bytes type code chksum r : is_byte type -> is_byte code -> bytes r -> bytes (echo_message type code chksum r).
Proof. intros Ht Hc Hr. apply bytes_app. split; [by byte_list|]. apply bytes_app. split; [apply bytes_u16_bytes|done]. Qed.

Lemma echo_bytes : is_byte ICMP_ECHO /\ is_byte ICMP_ER /\ is_byte 0 /\ is_u16 0xfff7.
Proof. done. Qed.

Lemma wsum_zero r : bytes r -> wsum r = 0 -> Forall (eq 0) r.
Proof.
  induction r as [|b|a b r IH] using pair_ind; intros Hb Hw; [constructor|cbn in Hw; by constructor|].
  rewrite !bytes_cons in Hb. destruct Hb as (Ha & Hb & Hr). pose proof (wsum_bound r Hr) as [H0 _]. cbn [wsum] in Hw. unfold is_byte in *.
  constructor; [lia|]. constructor; [lia|]. apply IH; [done|lia].
Qed.

Lemma echo_chksum_eq c : is_u16 c -> echo_chksum c = (if 0xfff7 <=? c then c - 65527 else c + 8) /\ is_u16 (echo_chksum c).
Proof.
  intros Hc. unfold echo_chksum. change (htons (0xffff - Z.shiftl ICMP_ECHO 8)) with 0xfff7. change (htons (Z.shiftl ICMP_ECHO 8)) with 8.
  unfold is_u16, u16 in *. destruct (Z.leb_spec 0xfff7 c).
  - replace (c + (8 + 1)) with (c - 65527 + 1 * 65536) by lia. rewrite Z.mod_add, Z.mod_small by lia. lia.
  - rewrite Z.mod_small by lia. lia.
Qed.

Lemma echo_verifies code c r : is_byte code -> is_u16 c -> bytes r -> zlen r <= 65531 ->
  inet_chksum false (echo_message ICMP_ECHO code c r) = 0 ->
  ~ Forall (eq 0) (code :: r) -> inet_chksum false (echo_message ICMP_ER code (echo_chksum c) r) = 0.
Proof.
  intros Hcode Hc Hr Hl Hv Hnz. destruct echo_bytes as (B1 & B2 & _). destruct (echo_chksum_eq c Hc) as [Ec Hc'].
  assert (forall t x, zlen (echo_message t code x r) = 4 + zlen r) as Hz by (intros; unfold echo_message, bytes_u16, zlen; cbn; lia).
  apply verifies_iff in Hv; [|by apply echo_message_bytes|rewrite Hz; lia].
  apply verifies_iff; [by apply echo_message_bytes|rewrite Hz; lia|]. rewrite echo_message_sum in * by done.
  pose proof (wsum_bound r Hr) as [Hw _]. change ICMP_ECHO with 8 in Hv. change ICMP_ER with 0. rewrite Ec.
  assert (code <> 0 \/ wsum r <> 0) as Hpos.
  { destruct (Z.eq_dec code 0) as [->|]; [right|by left]. intros E. apply Hnz. constructor; [done|by apply wsum_zero]. }
  unfold is_byte, is_u16 in *. destruct (Z.leb_spec 0xfff7 c); split; try lia.
  - replace (0 + 256 * code + (c - 65527) + wsum r) with (8 + 256 * code + c + wsum r + (-1) * 65535) by lia. rewrite Z.mod_add by done. apply Hv.
  - rewrite <- (proj2 Hv). f_equal. lia.
Qed.

(** An answer without a single bit does not verify: the request of all zeros
    has the checksum 0xfff7, which becomes 0 and not 0xffff. *)
Theorem echo_reply_all_zero r : bytes r -> zlen r <= 65531 -> Forall (eq 0) r ->
  inet_chksum false (echo_message ICMP_ECHO 0 0xfff7 r) = 0 /\
  inet_chksum false (echo_message ICMP_ER 0 (echo_chksum 0xfff7) r) = 0xffff.
Proof.
  intros Hb Hl Hz. destruct echo_bytes as (B1 & B2 & B3 & B4). assert (forall t x, zlen (echo_message t 0 x r) = 4 + zlen r) as Hzl by (intros; unfold echo_message, bytes_u16, zlen; cbn; lia).
  assert (wsum r = 0) as Hw.
  { clear - Hz. induction r as [|b|a b r IH] using pair_ind; [done|by apply Forall_cons in Hz as [<- _]|].
    apply Forall_cons in Hz as [<- [<- Hz]%Forall_cons]. cbn [wsum]. by rewrite IH. }
  split.
  - apply verifies_iff; [by apply echo_message_bytes|rewrite Hzl; lia|]. rewrite echo_message_sum, Hw by done. done.
  - assert (bytes (echo_message ICMP_ER 0 (echo_chksum 0xfff7) r)) as Hb2 by by apply echo_message_bytes.
    unfold inet_chksum. rewrite chksum_canon by (done || rewrite Hzl; lia).
    rewrite <- (canon_same (wsum (echo_message ICMP_ER 0 (echo_chksum 0xfff7) r)) (le_val _)) by (by apply wsum_bound || by apply le_val_nonneg || by apply wsum_same).
    rewrite echo_message_sum, Hw by (apply echo_chksum_eq; done). reflexivity.
Qed.

(** ** Memory *)

(** Stores and loads do not look at the cells. *)
Lemma save_put m p x a off l : save (put m p x) a off l = let! m' := save m a off l in Ok (put m' p x).
Proof.
  unfold save. destruct (zlen l =? 0); [done|]. cbn [put blocks cells]. destruct (blocks m !! a.1); [|done]. cbn [of_option rbind].
  by destruct (mcopy _ _ _).
Qed.
Lemma save_shift m (a : Z * Z) h off l : save m (a.1, a.2 + h) off l = save m a (h + off) l.
Proof. unfold save. cbn [fst snd]. by rewrite Z.add_assoc. Qed.
Lemma load_shift m (a : Z * Z) h off n : load m (a.1, a.2 + h) off n = load m a (h + off) n.
Proof. unfold load. cbn [fst snd]. by rewrite Z.add_assoc. Qed.

Lemma moved_forth c n : moved (moved c (- n)) n = c.
Proof. rewrite <- (moved_back c (- n)) at 2. f_equal. lia. Qed.

(** A 16-bit field as the processor holds it. *)
Lemma hdr_u16_held m c off : Pbuf.cell_ok m c -> (S off < Z.to_nat (len c))%nat ->
  hdr_u16 m (payload c) (Z.of_nat off) = Ok (byte_at (cell_data m c) off + 256 * byte_at (cell_data m c) (S off)).
Proof.
  intros Hok Hl. unfold hdr_u16. change 2 with (Z.of_nat 2). rewrite (part_load m c Hok) by lia. cbn [rbind].
  by rewrite word_at_part by (rewrite (cell_data_nat m c Hok); lia).
Qed.

(** The first pbuf of a sendable packet. *)
Lemma sendable_cell m p l c n : sendable m p l c n -> p <> 0 /\ ~ In p l /\ Pbuf.cell_ok m c /\ cell_data m c = data_of m p /\ len c = zlen (data_of m p) /\
  tot_len c = zlen (contents m (p :: l)).
Proof.
  intros [[Hch [Hok _]%Forall_cons [Ht _] _] _ Ec _ _ _ _]. unfold pbuf_ok in Hok. rewrite Ec in Hok, Ht.
  pose proof (chain_nodup _ _ _ Hch) as [Hnin _]%NoDup_cons. rewrite list_elem_of_In in Hnin.
  assert (cell_data m c = data_of m p) as E by (unfold data_of; by rewrite Ec).
  split; [by destruct Hch as (_ & ? & _)|]. split; [done|]. split; [done|]. split; [done|]. split; [|done].
  rewrite <- E. symmetry. by apply cell_data_length.
Qed.

(** Hiding [h] bytes at the front of a packet. *)
Lemma hide m p l c n h : sendable m p l c n -> 0 < h <= len c -> h < 32768 ->
  pbuf_header m p (- h) = Ok (0, put m p (moved c (- h))) /\
  contents (put m p (moved c (- h))) (p :: l) = drop (Z.to_nat h) (data_of m p) ++ contents m l /\
  is_chain (put m p (moved c (- h))) p (p :: l) /\ Forall (pbuf_ok (put m p (moved c (- h)))) (p :: l).
Proof.
  intros Hs Hh Hk. destruct (sendable_cell _ _ _ _ _ Hs) as (Hp & Hn & Hok & Hd & Hl & Ht). destruct Hs as [[Hch HF _ Hsm] _ Ec [Hty Hpl] _ _ _].
  destruct (moved_data m p c h Hok) as [Hd' Hok']; [lia|]. pose proof (proj1 Hok) as Hu. unfold is_u16 in Hu.
  rewrite contents_cons, zlen_app in Ht, Hsm. pose proof (zlen_nonneg (contents m l)).
  change SIZEOF_STRUCT_PBUF with 20 in Hpl. split.
  { apply header_ok; try done; try (split; [done|change SIZEOF_STRUCT_PBUF with 20; lia]); try (change SIZEOF_STRUCT_PBUF with 20); lia. }
  split; [rewrite contents_cons, contents_put by done; f_equal; rewrite data_of_put_eq; etransitivity; [exact Hd'|by rewrite Hd]|].
  destruct Hch as (_ & _ & c' & Ec' & Hch). assert (c' = c) as -> by congruence. split.
  - split; [done|]. split; [done|]. exists (moved c (- h)). split; [apply lookup_insert_eq|]. by apply chain_put.
  - constructor; [unfold pbuf_ok; cbn [put cells]; by rewrite lookup_insert_eq|]. apply pbuf_ok_put; [done|]. by apply Forall_cons in HF as [_ HF].
Qed.

(** The header length, as it is read from memory. *)
Lemma header_word m p l c n hd r : sendable m p l c n -> data_of m p = hd ++ r -> (20 <= length hd)%nat -> header_length hd = zlen hd ->
  exists w, hdr_u16 m (payload c) 0 = Ok w /\ IPH_HL w * 4 = zlen hd.
Proof.
  intros Hs Hd Hl Hh. destruct (sendable_cell _ _ _ _ _ Hs) as (_ & _ & Hok & Hcd & Hlen & _). rewrite Hd, zlen_app in Hlen. pose proof (zlen_nonneg r).
  pose proof (hdr_u16_ok m c Hok 0 ltac:(unfold zlen in *; lia)) as (w & E0 & _ & Ew). change (Z.of_nat 0) with 0 in E0. exists w. split; [done|].
  rewrite Hcd, Hd in Ew. pose proof (cell_data_bytes _ _ Hok) as Hby. rewrite Hcd, Hd in Hby. apply bytes_app in Hby as [Hby _].
  assert (forall i, (i < 20)%nat -> byte_at (hd ++ r) i = byte_at hd i) as Hb by (intros i Hi; unfold byte_at; apply app_nth1; lia).
  unfold word_at in Ew. rewrite !Hb in Ew by lia.
  destruct (first_word w (byte_at hd 0) (byte_at hd 1)) as [_ ->]; [apply byte_at_range; [done|lia]..|exact Ew|].
  rewrite (Z.mul_comm _ 4). exact Hh.
Qed.

(** ** The answer *)

(** The IP header [hd] of the request turned into that of the answer: the
    addresses, the time to live and the checksum are new. *)
Definition reply_header (hd : list Z) (sum src dest : Z) : list Z :=
  take 8 hd ++ [ICMP_TTL; byte_at hd 9] ++ bytes_u16 sum ++ u32_bytes src ++ u32_bytes dest ++ drop 20 hd.

Ltac twenty hd Hl := do 20 (destruct hd as [|? hd]; [cbn in Hl; exfalso; lia|]).

Lemma reply_header_length hd sum src dest : (20 <= length hd)%nat -> zlen (reply_header hd sum src dest) = zlen hd.
Proof. intros Hl. unfold reply_header, bytes_u16, u32_bytes, zlen. rewrite !length_app, length_take, length_drop. cbn [length]. lia. Qed.

Lemma splice_app_l d r off x : 0 <= off -> off + zlen x <= zlen d -> splice (d ++ r) off x = splice d off x ++ r.
Proof.
  intros Ho Hl. unfold splice, zlen in *. rewrite take_app_le, drop_app_le by lia. by rewrite !app_assoc.
Qed.
Lemma splice_app_r d r off x : 0 <= off -> splice (d ++ r) (zlen d + off) x = d ++ splice r off x.
Proof.
  intros Ho. unfold splice, zlen. rewrite take_app_ge, drop_app_ge by lia. rewrite <- !app_assoc. do 3 f_equal; [f_equal; lia|f_equal; lia].
Qed.

(** The first stores, and those behind the checksum of the message. *)
Lemma addresses_spliced hd r src dest : (20 <= length hd)%nat ->
  spliced (hd ++ ICMP_ECHO :: r) [(12, u32_bytes src); (16, u32_bytes dest); (zlen hd, [ICMP_ER])] =
  (take 12 hd ++ u32_bytes src ++ u32_bytes dest ++ drop 20 hd) ++ ICMP_ER :: r.
Proof.
  intros Hl. unfold spliced. cbn [fold_left fst snd].
  assert (zlen (splice hd 12 (u32_bytes src)) = zlen hd) as H1 by (apply splice_length; unfold zlen, u32_bytes; cbn [length]; lia).
  assert (zlen (splice (splice hd 12 (u32_bytes src)) 16 (u32_bytes dest)) = zlen hd) as H2
    by (rewrite splice_length; [done|done|rewrite H1; unfold zlen, u32_bytes; cbn [length]; lia]).
  rewrite (splice_app_l hd), (splice_app_l (splice hd 12 _)) by (done || rewrite ?H1; unfold zlen, u32_bytes; cbn [length]; lia).
  rewrite <- H2, <- (Z.add_0_r (zlen _)), splice_app_r by done. f_equal. twenty hd Hl. reflexivity.
Qed.

Lemma header_spliced_back hd src dest type code c c' r sum : (20 <= length hd)%nat ->
  spliced ((take 12 hd ++ u32_bytes src ++ u32_bytes dest ++ drop 20 hd) ++ echo_message type code c r)
    [(zlen hd + 2, bytes_u16 c'); (8, [ICMP_TTL]); (10, bytes_u16 sum)] =
  reply_header hd sum src dest ++ echo_message type code c' r.
Proof.
  intros Hl. set (a := take 12 hd ++ _). assert (zlen a = zlen hd) as Ha
    by (unfold a, zlen, u32_bytes; rewrite !length_app, length_take, length_drop; cbn [length]; lia).
  assert (forall x off y, zlen x = zlen hd -> 0 <= off -> off + zlen y <= 20 -> zlen (splice x off y) = zlen hd) as Hs
    by (intros x off y Hx ? ?; rewrite splice_length; unfold zlen in *; lia).
  assert (zlen [ICMP_TTL] = 1 /\ forall v, zlen (bytes_u16 v) = 2) as [L1 L2] by done. assert (20 <= zlen hd) as H20 by (unfold zlen; lia).
  pose proof (Hs a 8 [ICMP_TTL] Ha ltac:(done) ltac:(rewrite L1; done)) as Hs1.
  unfold spliced. cbn [fold_left fst snd]. rewrite <- Ha, splice_app_r, (splice_app_l a), (splice_app_l (splice a 8 _))
    by (rewrite ?Hs1, ?L1, ?L2; lia).
  f_equal. unfold a. twenty hd Hl. reflexivity.
Qed.
Lemma checksum_spliced hd src dest v sum r : (20 <= length hd)%nat ->
  splice (reply_header hd v src dest ++ r) 10 (bytes_u16 sum) = reply_header hd sum src dest ++ r.
Proof.
  intros Hl. assert (zlen (bytes_u16 sum) = 2) as L2 by done.
  rewrite splice_app_l by (rewrite ?L2, ?reply_header_length by done; unfold zlen; lia). f_equal. twenty hd Hl. reflexivity.
Qed.

Lemma zlen_u32 x : zlen (u32_bytes x) = 4. Proof. done. Qed.
Lemma zlen_u16 x : zlen (bytes_u16 x) = 2. Proof. done. Qed.
Lemma zlen_one (x : Z) : zlen [x] = 1. Proof. done. Qed.
(** Fields of a header lie in the packet. *)
Ltac fields_fit := repeat (apply Forall_cons_2; [cbn [fst snd]; split; [lia|split; [rewrite ?zlen_u32, ?zlen_u16, ?zlen_one; lia
  |first [apply u32_bytes_ok|apply bytes_u16_bytes|by apply Forall_singleton]]]|]); constructor.

Section echo.
Context `{OsLaws} {F X : Type}.
Abbreviation state := (net (stack (raws F) X)).
Implicit Type s : state.

(** The stores of the answer relative to the IP header, [h] bytes in front of
    the message. *)
Lemma make_reply_fields s a h : make_echo_reply s a (a.1, a.2 + h) =
  let! m := put_fields (mem s) a [(12, u32_bytes (current_iphdr_dest (ipv (env s)))); (16, u32_bytes (current_iphdr_src (ipv (env s)))); (h, [ICMP_ER])] in
  let! chksum := hdr_u16 m a (h + 2) in
  let! m := put_fields m a [(h + 2, bytes_u16 (echo_chksum chksum)); (8, [ICMP_TTL]); (10, bytes_u16 0)] in
  let! d := load m a 0 IP_HLEN in
  let! m := save m a 10 (bytes_u16 (inet_chksum (Z.odd a.2) d)) in Ok (set_mem s m).
Proof using Type.
  unfold make_echo_reply, hdr_u16. cbn [put_fields].
  destruct (save (mem s) a 12 _) as [m1|]; [|done]. cbn [rbind]. destruct (save m1 a 16 _) as [m2|]; [|done]. cbn [rbind].
  rewrite save_shift, Z.add_0_r. destruct (save m2 a h _) as [m3|]; [|done]. cbn [rbind]. rewrite load_shift.
  destruct (load m3 a (h + 2) 2) as [b|]; [|done]. cbn [rbind]. destruct (read_u16 b 0) as [v|]; [|done]. cbn [rbind].
  rewrite save_shift. destruct (save m3 a (h + 2) _) as [m4|]; [|done]. cbn [rbind]. destruct (save m4 a 8 _) as [m5|]; [|done]. cbn [rbind].
  by destruct (save m5 a 10 _).
Qed.

Lemma make_reply_put s m p x a h : make_echo_reply (set_mem s (put m p x)) a (a.1, a.2 + h) =
  let! s' := make_echo_reply (set_mem s m) a (a.1, a.2 + h) in Ok (set_mem s' (put (mem s') p x)).
Proof using Type.
  rewrite !make_reply_fields. cbn [mem set_mem env put_fields]. rewrite save_put.
  destruct (save m a 12 _) as [m1|]; [|done]. cbn [rbind]. rewrite save_put. destruct (save m1 a 16 _) as [m2|]; [|done]. cbn [rbind].
  rewrite save_put. destruct (save m2 a h _) as [m3|]; [|done]. cbn [rbind]. unfold hdr_u16. rewrite (load_block m3 (put m3 p x)) by done.
  destruct (load m3 a (h + 2) 2) as [b|]; [|done]. cbn [rbind]. destruct (read_u16 b 0) as [v|]; [|done]. cbn [rbind]. rewrite save_put.
  destruct (save m3 a (h + 2) _) as [m4|]; [|done]. cbn [rbind]. rewrite save_put. destruct (save m4 a 8 _) as [m5|]; [|done]. cbn [rbind]. rewrite save_put.
  destruct (save m5 a 10 _) as [m6|]; [|done]. cbn [rbind]. rewrite (load_block m6 (put m6 p x)) by done.
  destruct (load m6 a 0 IP_HLEN) as [d|]; [|done]. cbn [rbind]. rewrite save_put. by destruct (save m6 a 10 _).
Qed.

(** The checksum of the new IP header. *)
Definition reply_sum (hd : list Z) (src dest : Z) : Z := inet_chksum false (take 20 (reply_header hd 0 src dest)).

Lemma reply_sum_verifies hd src dest : (20 <= length hd)%nat -> bytes hd ->
  inet_chksum false (take 20 (reply_header hd (reply_sum hd src dest) src dest)) = 0.
Proof using Type.
  intros Hl Hb. assert (forall v, is_u16 v -> take 20 (reply_header hd v src dest) =
    (take 8 hd ++ [ICMP_TTL; byte_at hd 9]) ++ [v mod 256; v / 256] ++ (u32_bytes src ++ u32_bytes dest)) as E.
  { intros v Hv. assert (bytes_u16 v = [v mod 256; v / 256]) as E by (unfold bytes_u16; rewrite (Z.mod_small (v / 256)) by (unfold is_u16 in Hv; Z.div_mod_to_equations; lia); done).
    unfold reply_header. rewrite E. twenty hd Hl. reflexivity. }
  pose proof (take_drop 8 hd) as Hd. assert (bytes (take 8 hd ++ [ICMP_TTL; byte_at hd 9])) as Hb1.
  { apply bytes_app. split; [by apply Forall_take|]. assert (is_byte (byte_at hd 9)) as H9 by (apply byte_at_range; [done|lia]).
    constructor; [done|]. by constructor. }
  assert (zlen (take 8 hd ++ [ICMP_TTL; byte_at hd 9]) = 10) as Hz by (unfold zlen; rewrite length_app, length_take; cbn [length]; lia).
  assert (is_u16 (reply_sum hd src dest)) as Hv by (unfold is_u16, reply_sum, inet_chksum, u16; apply Z.mod_pos_bound; done).
  rewrite (E _ Hv). unfold reply_sum. rewrite (E 0) by done. apply inet_chksum_verifies; [done|apply bytes_app; split; apply u32_bytes_ok|by rewrite Hz|].
  rewrite Hz. unfold zlen, u32_bytes. cbn. lia.
Qed.

Lemma echo_reply_ok s m p l c n hd code chk r : sendable m p l c n -> data_of m p = hd ++ echo_message ICMP_ECHO code chk r ->
  (20 <= length hd)%nat -> is_u16 chk ->
  let src := current_iphdr_src (ipv (env s)) in let dest := current_iphdr_dest (ipv (env s)) in
  exists m', make_echo_reply (set_mem s m) (payload c) ((payload c).1, (payload c).2 + zlen hd) = Ok (set_mem s m') /\
    sendable m' p l c n /\ data_of m' p = reply_header hd (reply_sum hd dest src) dest src ++ echo_message ICMP_ER code (echo_chksum chk) r /\
    contents m' l = contents m l /\ cells m' = cells m /\ untouched m m' [p].
Proof using Type.
  intros Hs Hd Hl Hc src dest. pose proof (sendable_cell _ _ _ _ _ Hs) as (_ & _ & _ & _ & Hlen & _). rewrite Hd, zlen_app in Hlen.
  assert (zlen (echo_message ICMP_ECHO code chk r) = 4 + zlen r) as Hz by (unfold echo_message, zlen; cbn; lia). rewrite Hz in Hlen.
  pose proof (zlen_nonneg r) as Hr0. assert (20 <= zlen hd) as H20 by (unfold zlen; lia). rewrite make_reply_fields. cbn [mem set_mem env]. fold src dest.
  destruct (sendable_fields [(12, u32_bytes dest); (16, u32_bytes src); (zlen hd, [ICMP_ER])] m p l c n Hs) as (m1 & -> & Hs1 & Hd1 & Hl1 & Hc1 & U1).
  { fields_fit. }
  cbn [rbind]. rewrite Hd in Hd1. change (echo_message ICMP_ECHO code chk r) with (ICMP_ECHO :: (code :: bytes_u16 chk ++ r)) in Hd1.
  rewrite addresses_spliced in Hd1 by done. set (a := take 12 hd ++ _) in Hd1. assert (length a = length hd) as Hal
    by (unfold a, u32_bytes; rewrite !length_app, length_take, length_drop; cbn [length]; lia).
  pose proof (sendable_cell _ _ _ _ _ Hs1) as (_ & _ & Hok1 & Hcd1 & _ & _).
  pose proof (hdr_u16_held m1 c (length a + 2) Hok1 ltac:(unfold zlen in *; lia)) as Eh.
  replace (Z.of_nat (length a + 2)) with (zlen hd + 2) in Eh by (unfold zlen; lia). rewrite Eh, Hcd1, Hd1. cbn [rbind].
  assert (forall i, byte_at (a ++ ICMP_ER :: code :: bytes_u16 chk ++ r) (length a + i) = byte_at (ICMP_ER :: code :: bytes_u16 chk ++ r) i) as Hb.
  { intros i. unfold byte_at. rewrite app_nth2 by lia. f_equal. lia. }
  rewrite <- Nat.add_succ_r, !Hb. cbn [byte_at nth app bytes_u16].
  assert (chk mod 256 + 256 * ((chk / 256) mod 256) = chk) as -> by (unfold is_u16 in Hc; Z.div_mod_to_equations; lia).
  destruct (sendable_fields [(zlen hd + 2, bytes_u16 (echo_chksum chk)); (8, [ICMP_TTL]); (10, bytes_u16 0)] m1 p l c n Hs1) as (m2 & -> & Hs2 & Hd2 & Hl2 & Hc2 & U2).
  { fields_fit. }
  cbn [rbind]. rewrite Hd1 in Hd2. change (ICMP_ER :: code :: bytes_u16 chk ++ r) with (echo_message ICMP_ER code chk r) in Hd2.
  unfold a in Hd2. rewrite header_spliced_back in Hd2 by done.
  pose proof (sendable_cell _ _ _ _ _ Hs2) as (_ & _ & Hok2 & Hcd2 & Hlen2 & _).
  rewrite (load_ok m2 c) by (done || (change IP_HLEN with 20; lia)). cbn [rbind]. rewrite Hcd2, Hd2.
  rewrite drop_0, take_app_le by (pose proof (reply_header_length hd 0 dest src Hl); unfold zlen in *; change (Z.to_nat IP_HLEN) with 20%nat; lia).
  pose proof (cell_data_bytes _ _ Hok2) as Hby. rewrite Hcd2, Hd2 in Hby. apply bytes_app in Hby as [Hby _].
  rewrite chksum_any by (by apply Forall_take || (unfold zlen; rewrite length_take; change (Z.to_nat IP_HLEN) with 20%nat; lia)).
  change (take (Z.to_nat IP_HLEN) (reply_header hd 0 dest src)) with (take 20 (reply_header hd 0 dest src)). fold (reply_sum hd dest src).
  destruct (sendable_save m2 p l c n 10 (bytes_u16 (reply_sum hd dest src)) Hs2) as (m3 & -> & Hs3 & Hd3 & Hl3 & Hc3 & U3);
    [lia|change (zlen (bytes_u16 (reply_sum hd dest src))) with 2; lia|apply bytes_u16_bytes|]. cbn [rbind].
  exists m3. split; [done|]. split; [done|]. split; [by rewrite Hd3, Hd2, checksum_spliced|].
  split; [congruence|]. split; [congruence|]. eapply untouched_trans; [exact U1|]. by eapply untouched_trans.
Qed.

Context (output : state -> Z -> Z -> Z -> result (Z * state)).
Abbreviation input := (icmp_input output).

(** The packet from its ICMP header on. *)
Definition at_message (m : store) (p : Z) (c : pbuf) (h : Z) : store := put m p (moved c (- h)).

(** The beginning of [icmp_input], for a packet with the IP header [hd]. *)
Lemma to_message s p l c n hd r inp : sendable (mem s) p l c n -> data_of (mem s) p = hd ++ r -> (20 <= length hd)%nat -> header_length hd = zlen hd ->
  let m := at_message (mem s) p c (zlen hd) in
  contents m (p :: l) = r ++ contents (mem s) l /\ is_chain m p (p :: l) /\ Forall (pbuf_ok m) (p :: l) /\
  input s p inp = (if zlen (r ++ contents (mem s) l) <? 4 then free_packet (set_mem s m) p
    else let! type := hdr_u8 (mem s) (payload c) (zlen hd) in
         if type =? ICMP_ECHO then echo_input output (set_mem s m) p inp (zlen hd) (payload c) else free_packet (set_mem s m) p).
Proof using Type*.
  intros Hs Hd Hl Hh m. destruct (sendable_cell _ _ _ _ _ Hs) as (Hp0 & Hn & Hok & Hcd & Hlen & Htot). rewrite Hd, zlen_app in Hlen.
  assert (20 <= zlen hd <= 60) as H20.
  { split; [unfold zlen; lia|]. rewrite <- Hh. unfold header_length. Z.div_mod_to_equations. lia. }
  pose proof (zlen_nonneg r). destruct (hide (mem s) p l c n (zlen hd) Hs) as (E & Hc & Hch & HF); [lia|lia|]. fold (at_message (mem s) p c (zlen hd)) in E, Hc, Hch, HF. fold m in E, Hc, Hch, HF.
  rewrite Hd in Hc. unfold zlen in Hc. rewrite Nat2Z.id, drop_app_length in Hc. do 3 (split; [done|]). pose proof (send_cell _ _ _ _ _ Hs) as Ec.
  unfold icmp_input. rewrite (deref_ok _ p c) by done. cbn [rbind].
  destruct (header_word (mem s) p l c n hd r Hs Hd Hl Hh) as (w & -> & Ew). cbn [rbind]. rewrite Ew. rewrite E. cbn [rbind Z.eqb negb].
  rewrite (deref_ok m p (moved c (- zlen hd))) by (done || apply lookup_insert_eq). cbn [rbind].
  assert (tot_len (moved c (- zlen hd)) = zlen (r ++ contents (mem s) l)) as ->.
  { change (tot_len (moved c (- zlen hd))) with (tot_len c + - zlen hd). rewrite Htot, contents_cons, Hd, !zlen_app. lia. }
  destruct (_ <? 4); [done|]. unfold hdr_u8. change (payload (moved c (- zlen hd))) with ((payload c).1, (payload c).2 - - zlen hd).
  rewrite Z.sub_opp_r, load_shift, Z.add_0_r. by rewrite (load_block (mem s) m) by done.
Qed.

(** Nothing is sent: the packet is given back. *)
Definition ignored s (p : Z) (l : list Z) (res : result state) : Prop := exists m', res = Ok (set_mem s m') /\ untouched (mem s) m' (p :: l) /\
  (Forall (fun x => ref_of (mem s) x = 1) (p :: l) -> forall x, In x (p :: l) -> cells m' !! x = None).

Lemma free_ignored s p l c n h : sendable (mem s) p l c n -> Forall (releasable (mem s)) (p :: l) -> 0 < h <= len c -> h < 32768 ->
  ignored s p l (free_packet (set_mem s (at_message (mem s) p c h)) p).
Proof using Type*.
  intros Hs Hr Hh Hk. destruct (sendable_cell _ _ _ _ _ Hs) as (_ & Hn & _). destruct (hide (mem s) p l c n h Hs Hh Hk) as (_ & _ & Hch & _).
  fold (at_message (mem s) p c h) in Hch. set (m := at_message (mem s) p c h) in *. pose proof (send_cell _ _ _ _ _ Hs) as Ec.
  assert (forall x, ref_of m x = ref_of (mem s) x) as Href.
  { intros x. unfold ref_of, m, at_message. cbn [put cells]. destruct (decide (x = p)) as [->|Hx]; [by rewrite lookup_insert_eq, Ec|by rewrite lookup_insert_ne]. }
  assert (Forall (releasable m) (p :: l)) as Hr'.
  { rewrite Forall_forall in Hr |- *. intros x Hx. destruct (Hr x Hx) as (cx & Ex & Hb & Hc). unfold releasable, m, at_message. cbn [put cells blocks].
    destruct (decide (x = p)) as [->|Hxp]; [|rewrite lookup_insert_ne by done; by exists cx]. rewrite lookup_insert_eq. eexists. split; [done|].
    assert (cx = c) as -> by congruence. done. }
  destruct (free_chain m p (p :: l) Hch Hr') as (k & m' & E & U & Hg). exists m'. unfold free_packet. cbn [mem set_mem]. rewrite E. cbn [rbind].
  split; [done|]. split.
  - eapply untouched_trans; [|exact U]. eapply untouched_weaken; [|apply untouched_put; by rewrite Ec]. intros x [->|[]]. by left.
  - intros Hones. apply Hg. rewrite Forall_forall in Hones |- *. intros x Hx. rewrite Href. by apply Hones.
Qed.

(** There is room for the headers in front of the message. *)
Lemma room_ok s m p l c h : sendable m p l c PBUF_LINK_HLEN -> IP_HLEN <= h <= len c -> h < 32768 ->
  link_room (set_mem s (at_message m p c h)) p h (payload c) = Ok (true, p, payload c, set_mem s (at_message m p c h)).
Proof using Type*.
  intros Hs Hh Hk. destruct (sendable_cell _ _ _ _ _ Hs) as (Hp0 & _ & Hok & _ & Hlen & Htot). change IP_HLEN with 20 in Hh.
  pose proof (packet_small _ _ _ (send_packet _ _ _ _ _ Hs)) as Hsm. pose proof (send_room _ _ _ _ _ Hs) as Hr. pose proof (send_small _ _ _ _ _ Hs) as Hs14.
  destruct (send_area _ _ _ _ _ Hs) as [Hty Hpl]. change SIZEOF_STRUCT_PBUF with 20 in *. change PBUF_LINK_HLEN with 14 in *.
  pose proof (zlen_nonneg (contents m l)). rewrite contents_cons, zlen_app in Htot, Hsm, Hs14.
  unfold link_room. cbn [mem set_mem]. change (PBUF_IP_HLEN + PBUF_LINK_HLEN) with 34. unfold at_message.
  set (c1 := moved c (- h)). assert (len c1 = len c - h /\ tot_len c1 = tot_len c - h /\ (payload c1).2 = (payload c).2 + h) as (L1 & L2 & L3) by (cbn; lia).
  assert (has_area c1) as Ha1 by (split; [done|rewrite L3; change SIZEOF_STRUCT_PBUF with 20; lia]).
  rewrite (header_ok (put m p c1) p c1) by (done || apply lookup_insert_eq || rewrite ?L1, ?L2, ?L3; change SIZEOF_STRUCT_PBUF with 20; lia).
  cbn [rbind Z.eqb negb]. rewrite put_put. set (c2 := moved c1 34).
  assert (len c2 = len c1 + 34 /\ tot_len c2 = tot_len c1 + 34 /\ (payload c2).2 = (payload c1).2 - 34) as (M1 & M2 & M3) by (cbn; lia).
  assert (has_area c2) as Ha2 by (split; [done|rewrite M3, L3; change SIZEOF_STRUCT_PBUF with 20; lia]).
  rewrite (header_ok (put m p c2) p c2) by (done || apply lookup_insert_eq || rewrite ?M1, ?M2, ?M3, ?L1, ?L2, ?L3; change SIZEOF_STRUCT_PBUF with 20; lia).
  cbn [rbind Z.eqb negb]. rewrite put_put. unfold c2. change (- (34)) with (-(34)). rewrite moved_back. done.
Qed.

(** Sending the answer, when its fields are in place. *)
Lemma send_reply s m p l c k h dest inp : sendable m p l c k -> cells m !! p = Some c -> 0 < h <= len c -> h < 32768 ->
  (20 <= len c) -> address_at (data_of m p) 16 = dest ->
  (let! (fail, m') := pbuf_header (at_message m p c h) p h in
   let s := set_mem s m' in
   let! s := (if negb (fail =? 0) then Ok s
              else let! (_, s) := ip_output_if output s p (current_iphdr_dest (ipv (env s))) None ICMP_TTL 0 IP_PROTO_ICMP inp in Ok s) in
   free_packet s p) = (let! (_, s) := output (set_mem s m) inp p dest in free_packet s p).
Proof using Type*.
  intros Hs Ec Hh Hk Hlen Ha. destruct (sendable_cell _ _ _ _ _ Hs) as (Hp0 & _ & Hok & Hcd & _ & Htot).
  pose proof (packet_small _ _ _ (send_packet _ _ _ _ _ Hs)) as Hsm. destruct (send_area _ _ _ _ _ Hs) as [Hty Hpl].
  pose proof (proj1 Hok) as Hu. unfold is_u16 in Hu. change SIZEOF_STRUCT_PBUF with 20 in Hpl. pose proof (zlen_nonneg (contents m l)).
  destruct (hide m p l c k h Hs Hh Hk) as (_ & _ & _ & _). unfold at_message. set (c1 := moved c (- h)).
  assert (len c1 = len c - h /\ tot_len c1 = tot_len c - h /\ (payload c1).2 = (payload c).2 + h) as (L1 & L2 & L3) by (cbn; lia).
  assert (len c <= tot_len c) as Hlt by (rewrite Htot, contents_cons, zlen_app; rewrite <- Hcd, cell_data_length by done; lia).
  rewrite (header_ok (put m p c1) p c1) by (done || apply lookup_insert_eq || (split; [done|rewrite L3; change SIZEOF_STRUCT_PBUF with 20; lia]) ||
    rewrite ?L1, ?L2, ?L3; change SIZEOF_STRUCT_PBUF with 20; lia).
  cbn [rbind Z.eqb negb]. unfold c1. rewrite moved_forth, put_put, (put_same m p c Ec).
  unfold ip_output_if, ip_output_if_opt. cbn [mem set_mem]. rewrite (deref_ok m p c) by done. cbn [rbind].
  change 16 with (Z.of_nat 16). rewrite (hdr_u32_ok m c Hok) by lia. rewrite Hcd, Ha. cbn [rbind]. by destruct (output _ _ _ _) as [[e s']|].
Qed.

(** [echo_input] for an acceptable request. *)
Lemma echo_accepted s p l c inp n hd code chksum r : sendable (mem s) p l c PBUF_LINK_HLEN -> inp <> 0 -> nifs (ifs (env s)) !! inp = Some n ->
  data_of (mem s) p = hd ++ echo_message ICMP_ECHO code chksum r -> 20 <= zlen hd <= 60 -> is_u16 chksum -> is_u32 (current_iphdr_src (ipv (env s))) ->
  let src := current_iphdr_src (ipv (env s)) in let dest := current_iphdr_dest (ipv (env s)) in
  let data := r ++ contents (mem s) l in
  let m := at_message (mem s) p c (zlen hd) in
  4 <= zlen data -> zlen data <= 65531 -> inet_chksum false (contents m (p :: l)) = 0 -> contents m (p :: l) = echo_message ICMP_ECHO code chksum data ->
  is_chain m p (p :: l) -> Forall (pbuf_ok m) (p :: l) ->
  ip_addr_ismulticast dest = false -> ip4_addr_isbroadcast dest (iface_of n) = false ->
  exists m', echo_input output (set_mem s m) p inp (zlen hd) (payload c) = (let! (_, s') := output (set_mem s m') inp p src in free_packet s' p) /\
     packet m' p (p :: l) /\ untouched (mem s) m' [p] /\
     contents m' (p :: l) = reply_header hd (reply_sum hd dest src) dest src ++ echo_message ICMP_ER code (echo_chksum chksum) data.
Proof using Type*.
  intros Hs Hi En Hd Hh Hc Hsrc src dest data m H4 Hbd Hv Hcm Hch HF Hmc Hbc. assert (20 <= length hd)%nat as Hl by (unfold zlen in Hh; lia).
  destruct (sendable_cell _ _ _ _ _ Hs) as (Hp0 & Hn & Hok & Hcd & Hlen & Htot).
  assert (forall x, zlen (echo_message ICMP_ECHO code chksum x) = 4 + zlen x) as Hzm by (intros; unfold echo_message, zlen; cbn; lia).
  rewrite Hd, zlen_app, Hzm in Hlen. pose proof (zlen_nonneg r) as Hr0.
  unfold echo_input. rewrite (nif_at_ok _ inp n) by done. cbn [rbind].
  change (env (set_mem s m)) with (env s). change (mem (set_mem s m)) with m. fold dest. rewrite Hmc, Hbc. cbn [orb].
  rewrite (deref_ok m p (moved c (- zlen hd))) by (done || apply lookup_insert_eq). cbn [rbind].
  assert (tot_len (moved c (- zlen hd)) = 4 + zlen data) as ->.
  { change (tot_len (moved c (- zlen hd))) with (tot_len c + - zlen hd). rewrite Htot, contents_cons, Hd, !zlen_app, Hzm. unfold data. rewrite zlen_app. lia. }
  change SIZEOF_ICMP_ECHO_HDR with 8. rewrite (proj2 (Z.ltb_ge _ _)) by lia.
  rewrite (inet_chksum_pbuf_flat m p (p :: l) Hch HF) by (rewrite Hcm, Hzm; lia).
  cbn [rbind]. rewrite Hv. cbn [Z.eqb negb].
  unfold m. rewrite (room_ok s (mem s) p l c (zlen hd) Hs) by (change IP_HLEN with 20; lia). fold m. cbn [rbind negb]. change (mem (set_mem s m)) with m.
  rewrite (deref_ok m p (moved c (- zlen hd))) by (done || apply lookup_insert_eq). cbn [rbind].
  change (payload (moved c (- zlen hd))) with ((payload c).1, (payload c).2 - - zlen hd). rewrite Z.sub_opp_r. unfold m, at_message. rewrite make_reply_put.
  destruct (echo_reply_ok s (mem s) p l c PBUF_LINK_HLEN hd code chksum r Hs Hd Hl Hc) as (m' & -> & Hs' & Hd' & Hl' & Hc' & U).
  fold src dest in Hd'. cbn [rbind mem set_mem env]. exists m'. split; [|split; [apply Hs'|split; [done|]]].
  - apply (send_reply s m' p l c PBUF_LINK_HLEN (zlen hd) src inp Hs'); [apply Hs'|lia|lia|lia|]. rewrite Hd'.
    transitivity (match u32_bytes src with [a; b; c; e] => address_of a b c e | _ => 0 end); [|by apply address_of_bytes].
    pose proof (reply_header_length hd (reply_sum hd dest src) dest src Hl).
    unfold address_at, part. rewrite drop_app_le, take_app_le by (unfold zlen in *; rewrite ?length_drop; lia).
    unfold reply_header. clear -Hl. twenty hd Hl. reflexivity.
  - rewrite contents_cons, Hd', Hl'. unfold echo_message, data. by rewrite <- !app_assoc.
Qed.

(** C10: the answer to an echo request.  A request that fits its first pbuf, with
    the room of a link header in front, whose checksum verifies and that was not
    sent to many hosts is answered in place: the packet handed to the interface
    holds the request with the addresses exchanged, time to live 255, the type of
    a reply and everything behind the checksums as it was, and it is given back
    afterwards.  The checksum of the message verifies, but for a message that is
    all zero behind its type and checksum.  The checksum of the header is that of
    its first twenty bytes alone: it verifies for a request without options; with
    options, which are sent back, nothing is said of the whole header. *)
Theorem icmp_echo_reply s p l c inp n hd code chksum r : sendable (mem s) p l c PBUF_LINK_HLEN -> inp <> 0 -> nifs (ifs (env s)) !! inp = Some n ->
  data_of (mem s) p = hd ++ echo_message ICMP_ECHO code chksum r -> IP_HLEN <= zlen hd -> header_length hd = zlen hd -> is_u16 chksum ->
  is_u32 (current_iphdr_src (ipv (env s))) ->
  let src := current_iphdr_src (ipv (env s)) in let dest := current_iphdr_dest (ipv (env s)) in
  let data := r ++ contents (mem s) l in
  4 <= zlen data -> inet_chksum false (echo_message ICMP_ECHO code chksum data) = 0 ->
  ip_addr_ismulticast dest = false -> ip4_addr_isbroadcast dest (iface_of n) = false ->
  let reply := reply_header hd (reply_sum hd dest src) dest src in
  (exists m', input s p inp = (let! (_, s') := output (set_mem s m') inp p src in free_packet s' p) /\
     packet m' p (p :: l) /\ untouched (mem s) m' [p] /\
     contents m' (p :: l) = reply ++ echo_message ICMP_ER code (echo_chksum chksum) data) /\
  inet_chksum false (take 20 reply) = 0 /\
  (~ Forall (eq 0) (code :: data) -> inet_chksum false (echo_message ICMP_ER code (echo_chksum chksum) data) = 0).
Proof using Type*.
  intros Hs Hi En Hd H20 Hh Hc Hsrc src dest data H4 Hv Hmc Hbc reply. change IP_HLEN with 20 in H20. assert (20 <= length hd)%nat as Hl by (unfold zlen in H20; lia).
  assert (zlen hd <= 60) as H60 by (rewrite <- Hh; unfold header_length; Z.div_mod_to_equations; lia).
  destruct (sendable_cell _ _ _ _ _ Hs) as (Hp0 & Hn & Hok & Hcd & Hlen & _). pose proof (cell_data_bytes _ _ Hok) as Hby. rewrite Hcd, Hd in Hby.
  pose proof (packet_small _ _ _ (send_packet _ _ _ _ _ Hs)) as Hsm. rewrite contents_cons, zlen_app, Hd, zlen_app in Hsm.
  assert (forall x, zlen (echo_message ICMP_ECHO code chksum x) = 4 + zlen x) as Hzm by (intros; unfold echo_message, zlen; cbn; lia).
  rewrite Hd, zlen_app, Hzm in Hlen. rewrite Hzm in Hsm. pose proof (zlen_nonneg r) as Hr0. pose proof (zlen_nonneg (contents (mem s) l)) as Hc0.
  apply bytes_app in Hby as [Hhb Hmb]. unfold echo_message in Hmb. apply bytes_app in Hmb as [Hcb Hmb]. apply bytes_app in Hmb as [_ Hrb].
  assert (bytes data) as Hdb.
  { apply bytes_app. split; [done|]. apply contents_bytes. pose proof (send_packet _ _ _ _ _ Hs) as [_ HF _ _]. by apply Forall_cons in HF as [_ HF]. }
  assert (is_byte code) as Hcode by by apply Forall_cons in Hcb as [_ [Hcb _]%Forall_cons].
  assert (zlen data <= 65531) as Hbd by (unfold data; rewrite zlen_app; lia).
  split; [|split; [by apply reply_sum_verifies|intros Hnz; by apply echo_verifies]].
  destruct (to_message s p l c PBUF_LINK_HLEN hd _ inp Hs Hd Hl Hh) as (Hcm & Hch & HF & ->).
  assert (echo_message ICMP_ECHO code chksum r ++ contents (mem s) l = echo_message ICMP_ECHO code chksum data) as Em by (unfold echo_message, data; by rewrite <- !app_assoc).
  rewrite Em in Hcm |- *. rewrite Hzm. rewrite (proj2 (Z.ltb_ge _ _)) by lia.
  pose proof (hdr_u8_ok (mem s) c Hok (length hd) ltac:(unfold zlen in *; lia)) as E8. change (Z.of_nat (length hd)) with (zlen hd) in E8. rewrite E8, Hcd, Hd. cbn [rbind].
  assert (byte_at (hd ++ echo_message ICMP_ECHO code chksum r) (length hd) = ICMP_ECHO) as -> by (unfold byte_at; by rewrite app_nth2, Nat.sub_diag by lia).
  rewrite Z.eqb_refl. by apply (echo_accepted s p l c inp n hd code chksum r); try done; try lia; try rewrite Hcm.
Qed.
(** Everything else is dropped without an answer: a message of less than four bytes, another type, a request sent to many hosts, one of less than eight bytes or one whose checksum does not verify.  Only the pbufs of the packet change, and they are given back. *)
Theorem icmp_input_ignores s p l c inp n hd r : sendable (mem s) p l c PBUF_LINK_HLEN -> Forall (releasable (mem s)) (p :: l) ->
  inp <> 0 -> nifs (ifs (env s)) !! inp = Some n -> data_of (mem s) p = hd ++ r -> IP_HLEN <= zlen hd -> header_length hd = zlen hd ->
  let data := r ++ contents (mem s) l in let dest := current_iphdr_dest (ipv (env s)) in
  zlen data < 4 \/ 0 < zlen r /\
    (byte_at r 0 <> ICMP_ECHO \/ ip_addr_ismulticast dest || ip4_addr_isbroadcast dest (iface_of n) = true \/
     zlen data < SIZEOF_ICMP_ECHO_HDR \/ inet_chksum false data <> 0) ->
  ignored s p l (input s p inp).
Proof using Type*.
  intros Hs Hr Hi En Hd H20 Hh data dest Hbad. change IP_HLEN with 20 in H20. assert (20 <= length hd)%nat as Hl by (unfold zlen in H20; lia).
  assert (zlen hd <= 60) as H60 by (rewrite <- Hh; unfold header_length; Z.div_mod_to_equations; lia).
  destruct (sendable_cell _ _ _ _ _ Hs) as (Hp0 & Hn & Hok & Hcd & Hlen & Htot). rewrite Hd, zlen_app in Hlen. pose proof (zlen_nonneg r) as Hr0.
  pose proof (packet_small _ _ _ (send_packet _ _ _ _ _ Hs)) as Hsm. rewrite contents_cons, zlen_app, Hd, zlen_app in Hsm.
  assert (zlen data = zlen r + zlen (contents (mem s) l)) as Hz by apply zlen_app.
  destruct (to_message s p l c PBUF_LINK_HLEN hd r inp Hs Hd Hl Hh) as (Hcm & Hch & HF & ->). fold data in Hcm |- *. set (m := at_message (mem s) p c (zlen hd)) in *.
  pose proof (free_ignored s p l c PBUF_LINK_HLEN (zlen hd) Hs Hr ltac:(lia) ltac:(lia)) as Hfree. fold m in Hfree.
  destruct (Z.ltb_spec (zlen data) 4) as [|H4]; [done|]. destruct Hbad as [|[Hr1 Hbad]]; [lia|].
  pose proof (hdr_u8_ok (mem s) c Hok (length hd) ltac:(unfold zlen in *; lia)) as E8. change (Z.of_nat (length hd)) with (zlen hd) in E8. rewrite E8, Hcd, Hd. cbn [rbind].
  assert (byte_at (hd ++ r) (length hd) = byte_at r 0) as -> by (unfold byte_at; by rewrite app_nth2, Nat.sub_diag by lia).
  destruct (Z.eqb_spec (byte_at r 0) ICMP_ECHO) as [He|]; [|done]. destruct Hbad as [|Hbad]; [done|].
  unfold echo_input. rewrite (nif_at_ok _ inp n) by done. cbn [rbind].
  change (env (set_mem s m)) with (env s). change (mem (set_mem s m)) with m. fold dest.
  destruct (_ || _); [done|]. rewrite (deref_ok m p (moved c (- zlen hd))) by (done || apply lookup_insert_eq). cbn [rbind].
  assert (tot_len (moved c (- zlen hd)) = zlen data) as ->.
  { change (tot_len (moved c (- zlen hd))) with (tot_len c + - zlen hd). rewrite Htot, contents_cons, Hd, !zlen_app. lia. }
  destruct (Z.ltb_spec (zlen data) SIZEOF_ICMP_ECHO_HDR) as [|H8]; [done|].
  rewrite (inet_chksum_pbuf_flat m p (p :: l) Hch HF) by (rewrite Hcm; lia). rewrite Hcm. cbn [rbind].
  destruct (Z.eqb_spec (inet_chksum false data) 0) as [E|]; [|done]. destruct Hbad as [|[|]]; done || lia.
Qed.
End echo.

(** ** Examples *)

(** A pbuf with the bytes [d] and sixty bytes in front of them. *)
Definition room_pbuf (d : list Z) : pbuf := Pbuf 0 (600, 60) (zlen d) (zlen d) PBUF_RAM 0 1.
Definition room_store (d : list Z) : store :=
  Store (<[600 := room_pbuf d]> (cells one_waiting)) (<[600 := replicate 60 0 ++ d]> (blocks one_waiting)).
Lemma room_cell d : cells (room_store d) !! 600 = Some (room_pbuf d).
Proof. apply lookup_insert_eq. Qed.
Lemma room_block d : blocks (room_store d) !! 600 = Some (replicate 60 0 ++ d).
Proof. apply lookup_insert_eq. Qed.
Lemma room_held d : data_of (room_store d) 600 = d.
Proof.
  unfold data_of. rewrite room_cell. unfold cell_data. cbn [payload room_pbuf fst snd len]. rewrite room_block.
  unfold zlen. rewrite Nat2Z.id. cbn -[take]. apply take_ge. lia.
Qed.

Lemma room_sendable d : bytes d -> 0 < zlen d < 65000 -> sendable (room_store d) 600 [] (room_pbuf d) PBUF_LINK_HLEN.
Proof.
  intros Hb Hl. pose proof (room_cell d) as Ec. pose proof (room_held d) as Hd. change PBUF_LINK_HLEN with 14.
  assert (contents (room_store d) [600] = d) as Hc by (unfold contents; cbn [map concat]; by rewrite Hd, app_nil_r).
  assert ((payload (room_pbuf d)).2 + len (room_pbuf d) <= zlen (replicate 60 0 ++ d)) as Hin by (rewrite zlen_app; change (60 + zlen d <= 60 + zlen d); lia).
  split; [split| |exact Ec|split; [by left|done]|done|rewrite Hc; lia|].
  - split; [done|]. split; [done|]. by exists (room_pbuf d).
  - apply Forall_singleton. unfold pbuf_ok. rewrite Ec. split; [unfold is_u16; cbn [len room_pbuf]; lia|]. split; [done|].
    unfold data_of in Hd. rewrite Ec in Hd. rewrite Hd. split; [done|]. intros _. eexists. split; [apply room_block|]. by split.
  - split; [|done]. rewrite Ec, Hc. done.
  - rewrite Hc. lia.
  - apply Forall_singleton. unfold own. by rewrite Ec.
  - eexists. split; [apply room_block|]. split; [apply bytes_app; split; [by apply (bool_decide_unpack _)|done]|done].
Qed.
Lemma room_releasable d : Forall (releasable (room_store d)) [600].
Proof. constructor; [|done]. eexists. split; [apply room_cell|]. split; [eexists; apply room_block|cbn; lia]. Qed.

(** A request of the host for the station, and one with a bit of it changed. *)
Definition ping_header : list Z := ip_header 64 0 IP_PROTO_ICMP 32 1 from_host to_station (header_chksum 64 0 IP_PROTO_ICMP 32 1 from_host to_station []) [].
Definition ping_data : list Z := [0; 7; 0; 1; 0x61; 0x62; 0x63; 0x64].
Definition noise_data : list Z := [0; 7; 0; 1; 0x61; 0x62; 0x63; 0x65].
Definition ping_chksum : Z := inet_chksum false (echo_message ICMP_ECHO 0 0 ping_data).
Definition ping (data : list Z) : list Z := ping_header ++ echo_message ICMP_ECHO 0 ping_chksum data.
Definition ping_net (data : list Z) : net (stack (raws Z) (list (list Z))) :=
  Net some_entries 0 (room_store (ping data)) (Stack two_ifs two_tcps (IpVars 1 (Some (600, 60)) from_host to_station 1) (Raws 0 empty) no_log).

Lemma ping_sendable : sendable (room_store (ping ping_data)) 600 [] (room_pbuf (ping ping_data)) PBUF_LINK_HLEN /\
  sendable (room_store (ping noise_data)) 600 [] (room_pbuf (ping noise_data)) PBUF_LINK_HLEN.
Proof. split; (apply room_sendable; [by apply (bool_decide_unpack _); vm_compute|by vm_compute]). Qed.
Lemma ping_header_ok : header_length ping_header = zlen ping_header.
Proof. by vm_compute. Qed.

Lemma icmp_echo_reply_witness :
  sendable (room_store (ping ping_data)) 600 [] (room_pbuf (ping ping_data)) PBUF_LINK_HLEN /\
  exists m', icmp_input accept_all (ping_net ping_data) 600 1 =
      (let! (_, s') := accept_all (set_mem (ping_net ping_data) m') 1 600 from_host in free_packet s' 600) /\
    contents m' [600] = reply_header ping_header (reply_sum ping_header to_station from_host) to_station from_host ++
      echo_message ICMP_ER 0 (echo_chksum ping_chksum) ping_data.
Proof.
  split; [exact (proj1 ping_sendable)|].
  assert (is_u16 ping_chksum /\ is_u32 from_host) as [H1 H2] by (split; by apply (bool_decide_unpack _)).
  assert (inet_chksum false (echo_message ICMP_ECHO 0 ping_chksum ping_data) = 0) as H3 by (vm_compute; reflexivity).
  assert (ip4_addr_isbroadcast to_station (iface_of station) = false) as H5 by (vm_compute; reflexivity).
  destruct (icmp_echo_reply accept_all (ping_net ping_data) 600 [] _ 1 station ping_header 0 ping_chksum ping_data (proj1 ping_sendable)
    ltac:(discriminate) eq_refl (room_held _) ltac:(discriminate) ping_header_ok H1 H2 ltac:(discriminate) H3 eq_refl H5) as [(m' & Hx & _ & _ & Hy) _].
  exists m'. split; [exact Hx|exact Hy].
Defined.

Lemma icmp_input_ignores_witness :
  inet_chksum false (echo_message ICMP_ECHO 0 ping_chksum noise_data) <> 0 /\
  ignored (ping_net noise_data) 600 [] (icmp_input accept_all (ping_net noise_data) 600 1).
Proof.
  assert (inet_chksum false (echo_message ICMP_ECHO 0 ping_chksum noise_data) <> 0) as H1 by (vm_compute; discriminate).
  split; [exact H1|].
  apply (icmp_input_ignores accept_all (ping_net noise_data) 600 [] (room_pbuf (ping noise_data)) 1 station ping_header
    (echo_message ICMP_ECHO 0 ping_chksum noise_data) (proj2 ping_sendable) (room_releasable _));
    [discriminate|reflexivity|apply room_held|discriminate|exact ping_header_ok|].
  right. split; [reflexivity|]. right. right. right. exact H1.
Defined.
