(* ===== verification/Udp.v ===== *)
(** * UDP: [lwip/core/udp.c].

    The control blocks and their ports, the delivery of received datagrams and
    sending.  The receive callbacks, the [output] function of the interfaces
    and what is kept of the DHCP client are parameters that run on the whole
    state; IP output and ICMP are those of [Ip] and [Icmp]. *)
From S2P Require Import Prelude Cobs Uart Comm Message Pbuf InetChksum IpHdr IpAddr Linked RawPcb Etharp Netif Ip Icmp.
From stdpp Require Import list gmap.
#[local] Open Scope Z_scope.

Definition UDP_HLEN : Z := 8.
Definition UDP_TTL : Z := 255.
Definition UDP_FLAGS_NOCHKSUM : Z := 0x01.
Definition UDP_FLAGS_CONNECTED : Z := 0x04.
Definition UDP_FLAGS_MULTICAST_LOOP : Z := 0x08.
Definition UDP_LOCAL_PORT_RANGE_START : Z := 4096.
Definition UDP_LOCAL_PORT_RANGE_END : Z := 0x7fff.
Definition DHCP_SERVER_PORT : Z := 67.
Definition PBUF_FLAG_MCASTLOOP : Z := 0x04.
Definition ICMP_DUR_PORT : Z := 3.
Definition ERR_USE : Z := -13.

(** [struct udp_pcb] with the fields of [IP_PCB]; [None] is a NULL callback. *)
Record udp_pcb (G : Type) := UdpPcb {
  udp_local_ip : Z; udp_remote_ip : Z; udp_so_options : Z; udp_tos : Z; udp_ttl : Z;
  udp_next : Z; udp_flags : Z; local_port : Z; remote_port : Z; multicast_ip : Z;
  udp_recv_fn : option G; udp_recv_arg : Z
}.
Arguments UdpPcb {G}. Arguments udp_local_ip {G}. Arguments udp_remote_ip {G}. Arguments udp_so_options {G}.
Arguments udp_tos {G}. Arguments udp_ttl {G}. Arguments udp_next {G}. Arguments udp_flags {G}.
Arguments local_port {G}. Arguments remote_port {G}. Arguments multicast_ip {G}.
Arguments udp_recv_fn {G}. Arguments udp_recv_arg {G}.

(** [udp_pcbs] and the memory of the control blocks. *)
Record udps (G : Type) := Udps { udp_pcbs : Z; udp_mem : gmap Z (udp_pcb G) }.
Arguments Udps {G}. Arguments udp_pcbs {G}. Arguments udp_mem {G}.

Section blocks.
Context {G : Type}.
Abbreviation pcb := (udp_pcb G).
Implicit Type u : udps G.

Definition set_udp_next (c : pcb) (n : Z) : pcb :=
  UdpPcb (udp_local_ip c) (udp_remote_ip c) (udp_so_options c) (udp_tos c) (udp_ttl c) n (udp_flags c)
    (local_port c) (remote_port c) (multicast_ip c) (udp_recv_fn c) (udp_recv_arg c).
Definition set_udp_local_ip (c : pcb) (a : Z) : pcb :=
  UdpPcb a (udp_remote_ip c) (udp_so_options c) (udp_tos c) (udp_ttl c) (udp_next c) (udp_flags c)
    (local_port c) (remote_port c) (multicast_ip c) (udp_recv_fn c) (udp_recv_arg c).
Definition set_local_port (c : pcb) (p : Z) : pcb :=
  UdpPcb (udp_local_ip c) (udp_remote_ip c) (udp_so_options c) (udp_tos c) (udp_ttl c) (udp_next c) (udp_flags c)
    p (remote_port c) (multicast_ip c) (udp_recv_fn c) (udp_recv_arg c).
Definition set_remote (c : pcb) (a p fl : Z) : pcb :=
  UdpPcb (udp_local_ip c) a (udp_so_options c) (udp_tos c) (udp_ttl c) (udp_next c) fl
    (local_port c) p (multicast_ip c) (udp_recv_fn c) (udp_recv_arg c).
Definition set_udp_so_options (c : pcb) (o : Z) : pcb :=
  UdpPcb (udp_local_ip c) (udp_remote_ip c) o (udp_tos c) (udp_ttl c) (udp_next c) (udp_flags c)
    (local_port c) (remote_port c) (multicast_ip c) (udp_recv_fn c) (udp_recv_arg c).
Definition set_udp_recv (c : pcb) (f : option G) (a : Z) : pcb :=
  UdpPcb (udp_local_ip c) (udp_remote_ip c) (udp_so_options c) (udp_tos c) (udp_ttl c) (udp_next c) (udp_flags c)
    (local_port c) (remote_port c) (multicast_ip c) f a.

Definition udp_at u (p : Z) : result pcb := cell (udp_mem u) p.
Definition put_udp u (p : Z) (c : pcb) : udps G := Udps (udp_pcbs u) (<[p := c]> (udp_mem u)).
Definition upd_udp u (p : Z) (f : pcb -> pcb) : result (udps G) :=
  let! c := udp_at u p in Ok (put_udp u p (f c)).

(** ** Binding *)

(** The other block holds the port, and the addresses meet. *)
Definition taken_by (c : pcb) (ipaddr port : Z) : bool :=
  (local_port c =? port) && ((udp_local_ip c =? IPADDR_ANY) || (ipaddr =? IPADDR_ANY) || (udp_local_ip c =? ipaddr)).

(** The first loop of [udp_bind]: whether the block is in the list already, or
    [None] when another one is bound to the port. *)
Fixpoint bind_loop (fuel : nat) u (ipcb pcb ipaddr port : Z) (rebind : bool) : result (option bool) :=
  match fuel with
  | O => Fault OutOfFuel
  | S fuel =>
      if ipcb =? 0 then Ok (Some rebind)
      else if pcb =? ipcb then
        let! c := udp_at u ipcb in bind_loop fuel u (udp_next c) pcb ipaddr port true
      else
        let! c := udp_at u ipcb in
        if taken_by c ipaddr port then Ok None
        else bind_loop fuel u (udp_next c) pcb ipaddr port rebind
  end.

(** The search for a free port: the block it ended at, 0 when the port is
    free, and the port. *)
Fixpoint port_loop (fuel : nat) u (ipcb port : Z) : result (Z * Z) :=
  match fuel with
  | O => Fault OutOfFuel
  | S fuel =>
      if negb (ipcb =? 0) && negb (port =? UDP_LOCAL_PORT_RANGE_END) then
        let! c := udp_at u ipcb in
        if local_port c =? port then port_loop fuel u (udp_pcbs u) (u16 (port + 1))
        else port_loop fuel u (udp_next c) port
      else Ok (ipcb, port)
  end.
(** Each restart passes a port that some block holds. *)
Definition port_fuel u : nat := list_fuel (udp_mem u) * list_fuel (udp_mem u).

Definition udp_bind u (pcb ipaddr port : Z) : result (Z * udps G) :=
  let! rebind := bind_loop (list_fuel (udp_mem u)) u (udp_pcbs u) pcb ipaddr port false in
  match rebind with
  | None => Ok (ERR_USE, u)
  | Some rebind =>
      let! u := upd_udp u pcb (fun c => set_udp_local_ip c ipaddr) in
      let! (ipcb, port) := (if port =? 0 then port_loop (port_fuel u) u (udp_pcbs u) UDP_LOCAL_PORT_RANGE_START
                            else Ok (0, port)) in
      if negb (ipcb =? 0) then Ok (ERR_USE, u)
      else
        let! u := upd_udp u pcb (fun c => set_local_port c port) in
        if rebind then Ok (ERR_OK, u)
        else
          let! u := upd_udp u pcb (fun c => set_udp_next c (udp_pcbs u)) in
          Ok (ERR_OK, Udps pcb (udp_mem u))
  end.

(** ** The other operations on a block *)

(** The block is in the list from [ipcb] on. *)
Fixpoint listed_loop (fuel : nat) u (ipcb pcb : Z) : result bool :=
  match fuel with
  | O => Fault OutOfFuel
  | S fuel =>
      if ipcb =? 0 then Ok false
      else if pcb =? ipcb then Ok true
      else let! c := udp_at u ipcb in listed_loop fuel u (udp_next c) pcb
  end.

Definition udp_connect u (pcb ipaddr port : Z) : result (Z * udps G) :=
  let! c := udp_at u pcb in
  let! (err, u) := (if local_port c =? 0 then udp_bind u pcb (udp_local_ip c) (local_port c) else Ok (ERR_OK, u)) in
  if negb (err =? ERR_OK) then Ok (err, u)
  else
    let! u := upd_udp u pcb (fun c => set_remote c ipaddr port (Z.lor (udp_flags c) UDP_FLAGS_CONNECTED)) in
    let! listed := listed_loop (list_fuel (udp_mem u)) u (udp_pcbs u) pcb in
    if listed then Ok (ERR_OK, u)
    else
      let! u := upd_udp u pcb (fun c => set_udp_next c (udp_pcbs u)) in
      Ok (ERR_OK, Udps pcb (udp_mem u)).

Definition udp_disconnect u (pcb : Z) : result (udps G) :=
  upd_udp u pcb (fun c => set_remote c IPADDR_ANY 0 (Z.land (udp_flags c) (Z.lnot UDP_FLAGS_CONNECTED))).

Definition udp_recv u (pcb : Z) (f : option G) (arg : Z) : result (udps G) :=
  upd_udp u pcb (fun c => set_udp_recv c f arg).

Definition udp_remove u (pcb : Z) : result (udps G) :=
  let! (head, m) := unlink_cell udp_next set_udp_next (udp_mem u) (udp_pcbs u) pcb in
  let! _ := cell m pcb in
  Ok (Udps head (delete pcb m)).

(** [memp_malloc(MEMP_UDP_PCB)], [None] when there is no memory. *)
Context (memp_malloc : gmap Z pcb -> option Z).

(** [udp_new]: the address, 0 for NULL; the block is not in the list yet. *)
Definition udp_new u : Z * udps G :=
  match memp_malloc (udp_mem u) with
  | None => (0, u)
  | Some p => (p, put_udp u p (UdpPcb 0 0 0 0 UDP_TTL 0 0 0 0 0 None 0))
  end.

(** ** The block of a datagram *)

(** Bound to the port and to the destination, where a broadcast or a multicast
    is for every address. *)
Definition local_match (c : pcb) (broadcast : bool) (dest dest_ip : Z) : bool :=
  (local_port c =? dest) &&
  ((negb broadcast && (udp_local_ip c =? IPADDR_ANY)) || (udp_local_ip c =? dest_ip) || ip_addr_ismulticast dest_ip || broadcast).
Definition remote_match (c : pcb) (src src_ip : Z) : bool :=
  (remote_port c =? src) && ((udp_remote_ip c =? IPADDR_ANY) || (udp_remote_ip c =? src_ip)).

(** The loop of [udp_input] and what follows it: the block, 0 for NULL.  A
    block that matches fully moves to the front. *)
Fixpoint demux_loop (fuel : nat) u (prev a uncon : Z) (broadcast : bool) (src dest src_ip dest_ip : Z) : result (Z * udps G) :=
  match fuel with
  | O => Fault OutOfFuel
  | S fuel =>
      if a =? 0 then Ok (uncon, u)
      else
        let! c := udp_at u a in
        let here := local_match c broadcast dest dest_ip in
        let uncon := if here && (uncon =? 0) && (Z.land (udp_flags c) UDP_FLAGS_CONNECTED =? 0) then a else uncon in
        if here && remote_match c src src_ip then
          let! (head, m) := move_front udp_next set_udp_next (udp_mem u) (udp_pcbs u) prev a in
          Ok (a, Udps head m)
        else demux_loop fuel u a (udp_next c) uncon broadcast src dest src_ip dest_ip
  end.
End blocks.

(** The flags of a pbuf. *)
Definition set_flags (c : pbuf) (f : Z) : pbuf := Pbuf (next c) (payload c) (tot_len c) (len c) (type c) f (ref c).

Section udp.
Context `{Os} {F G X : Type}.
Abbreviation state := (net (stack (raws F) (udps G * X))).
Implicit Type s : state.

Definition blocks_of s : udps G := (rest (env s)).1.
Definition set_blocks s (u : udps G) : state :=
  set_env s (Stack (ifs (env s)) (tcps (env s)) (ipv (env s)) (raw_blocks (env s)) (u, (rest (env s)).2)).

(** [netif->output], the callbacks with their argument, block, packet, source
    address and source port, and the field [pcb] of the [struct dhcp] at an
    address. *)
Context (output : state -> Z -> Z -> Z -> result (Z * state))
        (call : G -> Z -> Z -> Z -> Z -> Z -> state -> result state)
        (dhcp_pcb : X -> Z -> Z).

(** ** Receiving *)

(** The block the DHCP client takes a datagram with. *)
Definition dhcp_block s (dhcp src src_ip : Z) : result Z :=
  if negb (src =? DHCP_SERVER_PORT) then Ok 0
  else
    let b := dhcp_pcb (rest (env s)).2 dhcp in
    if (dhcp =? 0) || (b =? 0) then Ok 0
    else
      let! c := udp_at (blocks_of s) b in
      Ok (if (udp_remote_ip c =? IPADDR_ANY) || (udp_remote_ip c =? src_ip) then b else 0).

(** The block of a datagram, 0 for NULL. *)
Definition find_block s n (src dest : Z) (broadcast : bool) : result (Z * state) :=
  let src_ip := current_iphdr_src (ipv (env s)) in
  let dest_ip := current_iphdr_dest (ipv (env s)) in
  if dest =? DHCP_CLIENT_PORT then let! b := dhcp_block s (nif_dhcp n) src src_ip in Ok (b, s)
  else
    let u := blocks_of s in
    let! (b, u) := demux_loop (list_fuel (udp_mem u)) u 0 (udp_pcbs u) 0 broadcast src dest src_ip dest_ip in
    Ok (b, set_blocks s u).

(** The datagram behind its IP header: to the block [pcb], or back. *)
Definition udp_deliver s (p inp pcb src : Z) (broadcast : bool) (iphdr udphdr : Z * Z) : result state :=
  let src_ip := current_iphdr_src (ipv (env s)) in
  let dest_ip := current_iphdr_dest (ipv (env s)) in
  let! n := nif_at s inp in
  if negb (negb (pcb =? 0) || (nif_ip_addr n =? dest_ip)) then free_packet s p
  else
    let! chksum := hdr_u16 (mem s) udphdr 6 in
    let! c := deref (mem s) p in
    let! sum := (if negb (chksum =? 0) then inet_chksum_pseudo (mem s) p src_ip dest_ip IP_PROTO_UDP (tot_len c) else Ok 0) in
    if negb (sum =? 0) then free_packet s p
    else
      let! (fail, m) := pbuf_header (mem s) p (- UDP_HLEN) in
      let s := set_mem s m in
      if negb (fail =? 0) then free_packet s p
      else if negb (pcb =? 0) then
        let! c := udp_at (blocks_of s) pcb in
        match udp_recv_fn c with
        | Some f => call f (udp_recv_arg c) pcb p src_ip src s
        | None => free_packet s p
        end
      else
        let! s := (if negb broadcast && negb (ip_addr_ismulticast dest_ip)
                   then let! w := hdr_u16 (mem s) iphdr 0 in
                        let! (_, m) := pbuf_header (mem s) p (IPH_HL w * 4 + UDP_HLEN) in
                        icmp_dest_unreach output (set_mem s m) p ICMP_DUR_PORT
                   else Ok s) in
        free_packet s p.

Definition udp_input s (p inp : Z) : result state :=
  let! c := deref (mem s) p in
  let iphdr := payload c in
  let! w := hdr_u16 (mem s) iphdr 0 in
  if tot_len c <? IPH_HL w * 4 + UDP_HLEN then free_packet s p
  else
    let! (fail, m) := pbuf_header (mem s) p (- (IPH_HL w * 4)) in
    let s := set_mem s m in
    if negb (fail =? 0) then free_packet s p
    else
      let! c := deref (mem s) p in
      let udphdr := payload c in
      let! n := nif_at s inp in
      let broadcast := ip4_addr_isbroadcast (current_iphdr_dest (ipv (env s))) (iface_of n) in
      let! src := hdr_u16 (mem s) udphdr 0 in
      let! dest := hdr_u16 (mem s) udphdr 2 in
      let! (pcb, s) := find_block s n (ntohs src) (ntohs dest) broadcast in
      udp_deliver s p inp pcb (ntohs src) broadcast iphdr udphdr.

(** ** Sending *)

(** Room for the header: the pbuf to send, 0 when there is no memory. *)
Definition udp_header (m : store) (p : Z) : result (Z * store) :=
  let! (full, m) := pbuf_header m p UDP_HLEN in
  if negb (full =? 0) then
    let! (q, m) := pbuf_alloc m PBUF_IP UDP_HLEN PBUF_RAM in
    if q =? 0 then Ok (0, m)
    else
      let! c := deref m p in
      let! m := (if negb (tot_len c =? 0) then pbuf_chain m q p else Ok m) in
      Ok (q, m)
  else Ok (p, m).

(** The packet [q] with its header goes to IP. *)
Definition udp_emit s (c : udp_pcb G) (q src_ip dst_ip netif : Z) (udphdr : Z * Z) : result (Z * state) :=
  let m := mem s in
  let! cq := deref m q in
  let! m := save m udphdr 4 (bytes_u16 (htons (tot_len cq))) in
  let! m := (if Z.land (udp_flags c) UDP_FLAGS_NOCHKSUM =? 0 then
               let! sum := inet_chksum_pseudo m q src_ip dst_ip IP_PROTO_UDP (tot_len cq) in
               save m udphdr 6 (bytes_u16 (if sum =? 0 then 0xffff else sum))
             else Ok m) in
  ip_output_if output (set_mem s m) q src_ip (Some dst_ip) (udp_ttl c) (udp_tos c) IP_PROTO_UDP netif.

Definition udp_sendto_if s (pcb p dst_ip dst_port netif : Z) : result (Z * state) :=
  let! c := udp_at (blocks_of s) pcb in
  let! (err, u) := (if local_port c =? 0 then udp_bind (blocks_of s) pcb (udp_local_ip c) (local_port c)
                    else Ok (ERR_OK, blocks_of s)) in
  let s := set_blocks s u in
  if negb (err =? ERR_OK) then Ok (err, s)
  else
    let! (q, m) := udp_header (mem s) p in
    let s := set_mem s m in
    if q =? 0 then Ok (ERR_MEM, s)
    else
      let! c := udp_at (blocks_of s) pcb in
      let! cq := deref (mem s) q in
      let udphdr := payload cq in
      let! m := put_fields (mem s) udphdr
        [(0, bytes_u16 (htons (local_port c))); (2, bytes_u16 (htons dst_port)); (6, bytes_u16 0)] in
      let m := (if ip_addr_ismulticast dst_ip && negb (Z.land (udp_flags c) UDP_FLAGS_MULTICAST_LOOP =? 0)
                then put m q (set_flags cq (Z.lor (flags cq) PBUF_FLAG_MCASTLOOP)) else m) in
      let s := set_mem s m in
      let release s : result state := if negb (q =? p) then free_packet s q else Ok s in
      let! n := nif_at s netif in
      if negb (udp_local_ip c =? IPADDR_ANY) && negb (udp_local_ip c =? nif_ip_addr n) then
        let! s := release s in Ok (ERR_VAL, s)
      else
        let src_ip := if udp_local_ip c =? IPADDR_ANY then nif_ip_addr n else udp_local_ip c in
        let! (err, s) := udp_emit s c q src_ip dst_ip netif udphdr in
        let! s := release s in
        Ok (err, s).

Definition udp_sendto s (pcb p dst_ip dst_port : Z) : result (Z * state) :=
  let! c := udp_at (blocks_of s) pcb in
  let! netif := ip_route s (if ip_addr_ismulticast dst_ip then multicast_ip c else dst_ip) in
  if netif =? 0 then Ok (ERR_RTE, s) else udp_sendto_if s pcb p dst_ip dst_port netif.

Definition udp_send s (pcb p : Z) : result (Z * state) :=
  let! c := udp_at (blocks_of s) pcb in udp_sendto s pcb p (udp_remote_ip c) (remote_port c).
End udp.
