(* ===== verification/UdpPorts.v ===== *)
(** * UDP ports: theorems about the list of control blocks of
    [lwip/core/udp.c]. *)
From S2P Require Import Prelude Cobs Uart Comm Message Pbuf InetChksum IpHdr IpAddr Linked RawPcb Etharp Netif Ip Icmp Udp.
From stdpp Require Import list gmap.
#[local] Open Scope Z_scope.

Section ports.
Context {G : Type}.
Implicit Types (u : udps G) (l : list Z).
Abbreviation lseg := (lseg (@udp_next G)).

#[export] Instance udp_links : LinkLaws (@udp_next G) set_udp_next.
Proof. by split. Qed.

(** The blocks of the list, in order. *)
Definition udp_list u l : Prop := linked udp_next (udp_mem u) (udp_pcbs u) l.

(** A property of the block at an address. *)
Definition holds u (f : udp_pcb G -> bool) (a : Z) : bool := match udp_mem u !! a with Some c => f c | None => false end.
(** Another block of the list is in the way of binding [pcb]. *)
Definition taken u l (pcb ipaddr port : Z) : bool :=
  existsb (fun a => negb (pcb =? a) && holds u (fun c => taken_by c ipaddr port) a) l.
(** Some block of the list has the port. *)
Definition held u l (port : Z) : bool := existsb (holds u (fun c => local_port c =? port)) l.
Definition member l (a : Z) : bool := existsb (Z.eqb a) l.

Lemma member_in l a : member l a = true <-> In a l.
Proof. unfold member. rewrite existsb_exists. split; [by intros (x & ? & ->%Z.eqb_eq)|]. intros ?. exists a. by rewrite Z.eqb_refl. Qed.

Lemma udp_at_ok u a c : a <> 0 -> udp_mem u !! a = Some c -> udp_at u a = Ok c.
Proof. apply cell_ok. Qed.
Lemma holds_at u f a c : udp_mem u !! a = Some c -> holds u f a = f c.
Proof. intros E. unfold holds. by rewrite E. Qed.

(** ** The loops *)
Lemma bind_loop_ok u pcb ipaddr port l : forall fuel q rebind, lseg (udp_mem u) q l 0 -> (length l < fuel)%nat ->
  bind_loop fuel u q pcb ipaddr port rebind = Ok (if taken u l pcb ipaddr port then None else Some (rebind || member l pcb)).
Proof.
  induction l as [|a l IH]; intros fuel q rebind Hl Hf; (destruct fuel as [|fuel]; [cbn in Hf; lia|]); cbn [bind_loop].
  - rewrite Hl. cbn. by rewrite orb_false_r.
  - destruct Hl as (-> & Ha & c & Ec & Hl). rewrite (proj2 (Z.eqb_neq a 0)), (udp_at_ok u a c) by done. cbn [rbind].
    unfold taken, member. cbn [existsb]. rewrite (holds_at u _ a c Ec). cbn [length] in Hf.
    destruct (pcb =? a); cbn [negb andb orb].
    + rewrite IH by (done || lia). by rewrite orb_true_r.
    + destruct (taken_by c ipaddr port); cbn [orb]; [done|]. apply IH; [done|lia].
Qed.

Lemma listed_loop_ok u pcb l : forall fuel q, lseg (udp_mem u) q l 0 -> (length l < fuel)%nat ->
  listed_loop fuel u q pcb = Ok (member l pcb).
Proof.
  induction l as [|a l IH]; intros fuel q Hl Hf; (destruct fuel as [|fuel]; [cbn in Hf; lia|]); cbn [listed_loop].
  - by rewrite Hl.
  - destruct Hl as (-> & Ha & c & Ec & Hl). rewrite (proj2 (Z.eqb_neq a 0)), (udp_at_ok u a c) by done. cbn [rbind].
    unfold member. cbn [existsb length] in *. destruct (pcb =? a); [done|]. apply IH; [done|lia].
Qed.

(** Blocks with a port from [port] on: what bounds the number of restarts. *)
Definition above u l (port : Z) : nat := length (List.filter (holds u (fun c => port <=? local_port c)) l).
Lemma above_all u l port : (above u l port <= length l)%nat.
Proof. unfold above. induction l as [|a l IH]; cbn; [done|]. destruct (holds u _ a); cbn; lia. Qed.
Lemma above_le u l port : (above u l (port + 1) <= above u l port)%nat.
Proof.
  unfold above. induction l as [|a l IH]; cbn; [done|]. unfold holds in *. destruct (udp_mem u !! a) as [c|]; [|done].
  destruct (Z.leb_spec (port + 1) (local_port c)), (Z.leb_spec port (local_port c)); cbn; lia.
Qed.
Lemma above_held u l port : held u l port = true -> (above u l (port + 1) < above u l port)%nat.
Proof.
  unfold above, held. induction l as [|a l IH]; cbn; [done|]. pose proof (above_le u l port) as Hle. unfold above in Hle.
  unfold holds in *. destruct (udp_mem u !! a) as [c|]; [|done].
  destruct (Z.eqb_spec (local_port c) port) as [E|]; cbn [orb]; intros Hh.
  - rewrite (proj2 (Z.leb_gt (port + 1) _)), (proj2 (Z.leb_le port _)) by lia. cbn. lia.
  - specialize (IH Hh). destruct (Z.leb_spec (port + 1) (local_port c)), (Z.leb_spec port (local_port c)); cbn; lia.
Qed.

(** The search ends: at the first port from [port] on that no block has, or at
    the end of the range. *)
Lemma port_loop_ok u l : udp_list u l -> forall fuel l1 l2 q port, l = l1 ++ l2 -> lseg (udp_mem u) q l2 0 -> held u l1 port = false ->
  0 <= port <= UDP_LOCAL_PORT_RANGE_END -> (port < UDP_LOCAL_PORT_RANGE_END \/ l2 <> []) ->
  (above u l port * S (length l) + length l2 < fuel)%nat ->
  exists p ipcb, port_loop fuel u q port = Ok (ipcb, p) /\ port <= p <= UDP_LOCAL_PORT_RANGE_END /\
    (forall p', port <= p' < p -> held u l p' = true) /\
    (if ipcb =? 0 then p < UDP_LOCAL_PORT_RANGE_END /\ held u l p = false else p = UDP_LOCAL_PORT_RANGE_END).
Proof.
  intros Hlist. induction fuel as [|fuel IH]; intros l1 l2 q port -> Hl Hh Hp Hend Hf; [lia|]. cbn [port_loop].
  destruct l2 as [|a l2].
  { rewrite Hl. cbn [Z.eqb negb andb]. exists port, 0. rewrite app_nil_r. split; [done|]. split; [lia|]. split; [lia|]. split; [by destruct Hend|done]. }
  pose proof Hl as (-> & Ha & c & Ec & Hl2). rewrite (proj2 (Z.eqb_neq a 0)) by done. cbn [negb andb].
  destruct (Z.eqb_spec port UDP_LOCAL_PORT_RANGE_END) as [E|Hne]; cbn [negb].
  { exists port, a. rewrite (proj2 (Z.eqb_neq a 0)) by done. split; [done|]. split; [lia|]. split; [lia|done]. }
  rewrite (udp_at_ok u a c) by done. cbn [rbind]. unfold UDP_LOCAL_PORT_RANGE_END in *. destruct (Z.eqb_spec (local_port c) port) as [E|Hport].
  - assert (held u (l1 ++ a :: l2) port = true) as Hheld.
    { unfold held. rewrite existsb_app. cbn [existsb]. rewrite (holds_at u _ a c Ec), E, Z.eqb_refl. by rewrite orb_true_r. }
    pose proof (above_held u _ port Hheld) as Hab. rewrite u16_small by (unfold is_u16; lia).
    destruct (IH [] (l1 ++ a :: l2) (udp_pcbs u) (port + 1) eq_refl Hlist eq_refl) as (p & ipcb & -> & Hr & Hall & Hlast);
      [lia|right; by destruct l1|cbn [length] in Hf; nia|].
    exists p, ipcb. split; [done|]. split; [lia|]. split; [|done]. intros p' Hp'. destruct (Z.eq_dec p' port) as [->|]; [done|]. apply Hall. lia.
  - assert (l1 ++ a :: l2 = (l1 ++ [a]) ++ l2) as Eapp by by rewrite <- app_assoc. rewrite Eapp in *.
    apply (IH (l1 ++ [a]) l2 (udp_next c) port eq_refl Hl2); [|lia|left; lia|cbn [length] in Hf; lia].
    unfold held in *. rewrite existsb_app, Hh. cbn [existsb orb]. rewrite (holds_at u _ a c Ec), orb_false_r. by apply Z.eqb_neq.
Qed.

(** ** Binding *)
Lemma held_same u u' l port : (forall a, local_port <$> udp_mem u' !! a = local_port <$> udp_mem u !! a) -> held u' l port = held u l port.
Proof.
  intros Hs. unfold held. induction l as [|a l IH]; cbn; [done|]. rewrite IH. f_equal. unfold holds. specialize (Hs a).
  destruct (udp_mem u' !! a), (udp_mem u !! a); cbn in Hs; try done. by injection Hs as ->.
Qed.

Lemma store_list u l pcb c c' : udp_list u l -> udp_mem u !! pcb = Some c -> udp_next c' = udp_next c -> udp_list (put_udp u pcb c') l.
Proof.
  intros Hl Ec En. eapply lseg_links; [|exact Hl]. intros a ca _ Ea. cbn. destruct (decide (a = pcb)) as [->|Hne].
  - exists c'. rewrite lookup_insert_eq. split; [done|]. congruence.
  - exists ca. by rewrite lookup_insert_ne.
Qed.
Lemma push_list u l pcb c' : udp_list u l -> pcb <> 0 -> ~ In pcb l -> udp_next c' = udp_pcbs u ->
  udp_list (Udps pcb (<[pcb := c']> (udp_mem u))) (pcb :: l).
Proof.
  intros Hl Hp Hn En. split; [done|]. split; [done|]. exists c'. cbn. rewrite lookup_insert_eq. split; [done|]. rewrite En. by apply lseg_store.
Qed.
(** The list with a block that may be in it already. *)
Definition listing l (pcb : Z) : list Z := if member l pcb then l else pcb :: l.

(** The first free port of the range. *)
Definition first_free u l (p : Z) : Prop :=
  UDP_LOCAL_PORT_RANGE_START <= p < UDP_LOCAL_PORT_RANGE_END /\ held u l p = false /\
  forall p', UDP_LOCAL_PORT_RANGE_START <= p' < p -> held u l p' = true.
(** Every port of the range is held. *)
Definition ports_full u l : Prop := forall p, UDP_LOCAL_PORT_RANGE_START <= p < UDP_LOCAL_PORT_RANGE_END -> held u l p = true.

Lemma choose_port u l : udp_list u l ->
  exists p ipcb, port_loop (port_fuel u) u (udp_pcbs u) UDP_LOCAL_PORT_RANGE_START = Ok (ipcb, p) /\
    if ipcb =? 0 then first_free u l p else ports_full u l.
Proof.
  intros Hl. pose proof (linked_length _ _ _ _ Hl) as Hsz. pose proof (above_all u l UDP_LOCAL_PORT_RANGE_START) as Hab.
  destruct (port_loop_ok u l Hl (port_fuel u) [] l (udp_pcbs u) UDP_LOCAL_PORT_RANGE_START eq_refl Hl eq_refl) as (p & ipcb & E & Hp & Hall & Hend);
    [done|by left|unfold port_fuel, list_fuel; nia|].
  exists p, ipcb. rewrite E. split; [done|]. destruct (ipcb =? 0); [|subst p; exact Hall]. split; [lia|]. by split; [apply Hend|].
Qed.

(** What [udp_bind] leaves of the block. *)
Definition bound_as (c c' : udp_pcb G) (ipaddr port : Z) : Prop :=
  erased set_udp_next c' = erased set_udp_next (set_local_port (set_udp_local_ip c ipaddr) port).

(** The three ends of [udp_bind]: the port is in the way, no port is free, or
    the block has the port. *)
Definition bind_ends u l (pcb : Z) c (ipaddr port : Z) (P : udps G -> Prop) : Prop :=
  taken u l pcb ipaddr port = true /\ udp_bind u pcb ipaddr port = Ok (ERR_USE, u) \/
  taken u l pcb ipaddr port = false /\ port = 0 /\ ports_full u l /\
    udp_bind u pcb ipaddr port = Ok (ERR_USE, put_udp u pcb (set_udp_local_ip c ipaddr)) \/
  taken u l pcb ipaddr port = false /\ exists p c' u', udp_bind u pcb ipaddr port = Ok (ERR_OK, u') /\ udp_mem u' = <[pcb := c']> (udp_mem u) /\
    bound_as c c' ipaddr p /\ P u' /\ (if port =? 0 then first_free u l p else p = port).

(** The address is stored before the search for a port. *)
Lemma readdressed u l pcb c ipaddr : udp_list u l -> udp_mem u !! pcb = Some c ->
  let u1 := put_udp u pcb (set_udp_local_ip c ipaddr) in udp_list u1 l /\ forall x, held u1 l x = held u l x.
Proof.
  intros Hl Ec u1. split; [by apply (store_list u l pcb c)|]. intros x. apply held_same. intros a. cbn.
  destruct (decide (a = pcb)) as [->|Hne]; [by rewrite lookup_insert_eq, Ec|by rewrite lookup_insert_ne].
Qed.

Lemma udp_bind_ok u l pcb c ipaddr port : udp_list u l -> pcb <> 0 -> udp_mem u !! pcb = Some c ->
  bind_ends u l pcb c ipaddr port (fun u' => udp_list u' (listing l pcb)).
Proof.
  intros Hl Hp Ec. unfold bind_ends, udp_bind. rewrite (bind_loop_ok u pcb ipaddr port l) by (done || by eapply list_fuel_enough). cbn [rbind orb].
  destruct (taken u l pcb ipaddr port); [by left|right]. cbn [rbind]. unfold upd_udp. rewrite (udp_at_ok u pcb c) by done. cbn [rbind].
  destruct (readdressed u l pcb c ipaddr Hl Ec) as (Hl1 & Hh).
  set (c1 := set_udp_local_ip c ipaddr) in *. set (u1 := put_udp u pcb c1) in *. assert (udp_mem u1 !! pcb = Some c1) as Ec1 by apply lookup_insert_eq.
  assert (exists p ipcb, (if port =? 0 then port_loop (port_fuel u1) u1 (udp_pcbs u1) UDP_LOCAL_PORT_RANGE_START else Ok (0, port)) = Ok (ipcb, p) /\
    if ipcb =? 0 then (if port =? 0 then first_free u l p else p = port) else port = 0 /\ ports_full u l) as (p & ipcb & -> & Hport).
  { destruct (Z.eqb_spec port 0) as [E|]; [|by exists port, 0].
    destruct (choose_port u1 l Hl1) as (p & ipcb & Ep & Hend). exists p, ipcb. split; [done|]. destruct (ipcb =? 0).
    - destruct Hend as (H1 & H2 & H3). split; [done|]. split; [by rewrite <- Hh|]. intros p' Hp'. rewrite <- Hh. by apply H3.
    - split; [done|]. intros p' Hp'. rewrite <- Hh. by apply Hend. }
  cbn [rbind]. destruct (ipcb =? 0); cbn [negb]; [right|left; by destruct Hport]. split; [done|].
  rewrite (udp_at_ok u1 pcb c1) by done. cbn [rbind]. set (c2 := set_local_port c1 p). unfold listing.
  assert (put_udp u1 pcb c2 = put_udp u pcb c2) as Eput by (unfold put_udp; cbn; by rewrite insert_insert_eq). rewrite Eput.
  exists p. destruct (member l pcb) eqn:Em.
  - exists c2, (put_udp u pcb c2). split; [done|]. split; [done|]. split; [done|]. split; [by apply (store_list u l pcb c)|done].
  - rewrite (udp_at_ok (put_udp u pcb c2) pcb c2) by (done || apply lookup_insert_eq). cbn [rbind].
    exists (set_udp_next c2 (udp_pcbs u)), (Udps pcb (<[pcb := set_udp_next c2 (udp_pcbs u)]> (udp_mem u))).
    split; [unfold put_udp; cbn; by rewrite insert_insert_eq|]. split; [done|]. split; [done|]. split; [|done].
    apply push_list; try done. intros Hin%member_in. congruence.
Qed.

(** ** The block of a datagram *)

Definition full_match u (broadcast : bool) (src dest src_ip dest_ip : Z) : Z -> bool :=
  holds u (fun c => local_match c broadcast dest dest_ip && remote_match c src src_ip).
Definition open_match u (broadcast : bool) (dest dest_ip : Z) : Z -> bool :=
  holds u (fun c => local_match c broadcast dest dest_ip && (Z.land (udp_flags c) UDP_FLAGS_CONNECTED =? 0)).

Lemma demux_loop_ok u broadcast src dest src_ip dest_ip l2 : forall fuel l1 q uncon, udp_list u (l1 ++ l2) -> lseg (udp_mem u) q l2 0 ->
  (length l2 < fuel)%nat ->
  match List.find (full_match u broadcast src dest src_ip dest_ip) l2 with
  | Some a => exists h m, demux_loop fuel u (default 0 (last l1)) q uncon broadcast src dest src_ip dest_ip = Ok (a, Udps h m) /\
      udp_list (Udps h m) (a :: filter (fun x => x <> a) (l1 ++ l2)) /\ same_cells set_udp_next (udp_mem u) m
  | None => demux_loop fuel u (default 0 (last l1)) q uncon broadcast src dest src_ip dest_ip =
      Ok (if uncon =? 0 then default 0 (List.find (open_match u broadcast dest dest_ip) l2) else uncon, u)
  end.
Proof.
  induction l2 as [|a l2 IH]; intros fuel l1 q uncon Hl Hq Hf; (destruct fuel as [|fuel]; [cbn in Hf; lia|]); cbn [demux_loop List.find].
  - rewrite Hq. cbn. by destruct (Z.eqb_spec uncon 0) as [->|].
  - destruct Hq as (-> & Ha & c & Ec & Hq). rewrite (proj2 (Z.eqb_neq a 0)), (udp_at_ok u a c) by done. cbn [rbind].
    assert (full_match u broadcast src dest src_ip dest_ip a = local_match c broadcast dest dest_ip && remote_match c src src_ip) as -> by exact (holds_at u _ a c Ec).
    assert (open_match u broadcast dest dest_ip a = local_match c broadcast dest dest_ip && (Z.land (udp_flags c) UDP_FLAGS_CONNECTED =? 0)) as -> by exact (holds_at u _ a c Ec).
    destruct (local_match c broadcast dest dest_ip && remote_match c src src_ip) eqn:Efull.
    + destruct (front_at udp_next set_udp_next _ _ l1 a l2 Hl) as (h & m & -> & Hl' & Hs). cbn [rbind]. by exists h, m.
    + match goal with |- context [demux_loop fuel u a _ ?x] => set (uncon' := x) end. specialize (IH fuel (l1 ++ [a]) (udp_next c) uncon'). rewrite <- app_assoc, last_behind in IH.
      specialize (IH Hl Hq ltac:(cbn in Hf; lia)). destruct (List.find (full_match _ _ _ _ _ _) l2); [done|]. rewrite IH. do 2 f_equal.
      unfold uncon'. destruct (Z.eqb_spec uncon 0) as [->|Hu]; destruct (local_match c broadcast dest dest_ip); cbn [andb]; try done.
      * destruct (Z.land (udp_flags c) UDP_FLAGS_CONNECTED =? 0); [by rewrite (proj2 (Z.eqb_neq a 0))|done].
      * by rewrite (proj2 (Z.eqb_neq uncon 0)).
      * by rewrite (proj2 (Z.eqb_neq uncon 0)).
Qed.

(** ** The invariant *)

(** Listed blocks have a port, and two of them never the same one for
    addresses that meet; blocks that are not listed have none. *)
Record udp_ok u l : Prop := {
  ok_list : udp_list u l;
  ok_ports : forall a c, In a l -> udp_mem u !! a = Some c -> 0 < local_port c < 65536;
  ok_apart : forall a b ca cb, In a l -> In b l -> a <> b -> udp_mem u !! a = Some ca -> udp_mem u !! b = Some cb ->
    taken_by cb (udp_local_ip ca) (local_port ca) = false;
  ok_unlisted : forall a c, ~ In a l -> udp_mem u !! a = Some c -> local_port c = 0;
  ok_null : udp_mem u !! 0 = None
}.

Lemma ok_member u l a c : udp_ok u l -> udp_mem u !! a = Some c -> a <> 0 /\ (local_port c <> 0 <-> In a l).
Proof.
  intros Hok Ec. split; [intros ->; by rewrite (ok_null _ _ Hok) in Ec|]. split.
  - intros Hp. destruct (in_dec Z.eq_dec a l) as [|Hn]; [done|]. by apply (ok_unlisted _ _ Hok a c) in Hn.
  - intros Hin. pose proof (ok_ports _ _ Hok a c Hin Ec). lia.
Qed.

(** What the invariant looks at. *)
Definition view (c : udp_pcb G) : Z * Z := (udp_local_ip c, local_port c).
Lemma view_erased (c c' : udp_pcb G) : erased set_udp_next c' = erased set_udp_next c -> view c' = view c.
Proof. unfold erased, set_udp_next, view. by intros [= -> _ _ _ _ _ -> _ _ _ _]. Qed.

Lemma taken_view (c1 c2 : udp_pcb G) ipaddr port : view c1 = view c2 -> taken_by c1 ipaddr port = taken_by c2 ipaddr port.
Proof. intros [= E1 E2]. unfold taken_by. by rewrite E1, E2. Qed.
Lemma taken_sym (c1 c2 : udp_pcb G) : taken_by c1 (udp_local_ip c2) (local_port c2) = taken_by c2 (udp_local_ip c1) (local_port c1).
Proof.
  unfold taken_by. rewrite (Z.eqb_sym (local_port c1)), (Z.eqb_sym (udp_local_ip c1) (udp_local_ip c2)).
  destruct (local_port c2 =? local_port c1), (udp_local_ip c1 =? IPADDR_ANY), (udp_local_ip c2 =? IPADDR_ANY); done.
Qed.

Lemma ok_view u u' l l' : udp_ok u l -> udp_list u' l' -> (forall a, In a l' <-> In a l) ->
  (forall a, view <$> udp_mem u' !! a = view <$> udp_mem u !! a) -> udp_ok u' l'.
Proof.
  intros [Hl Hp Ha Hu Hn] Hl' Hin Hv.
  assert (forall a c', udp_mem u' !! a = Some c' -> exists c, udp_mem u !! a = Some c /\ view c' = view c) as Hback.
  { intros a c' E. specialize (Hv a). rewrite E in Hv. destruct (udp_mem u !! a) as [c|]; [|done]. exists c. split; [done|]. cbn in Hv. by apply (inj Some) in Hv. }
  split; [done| | | |].
  - intros a c' Hia E. apply Hback in E as (c & E & [= _ ->]). by apply (Hp a); [apply Hin|].
  - intros a b ca' cb' Hia Hib Hab Ea Eb. apply Hback in Ea as (ca & Ea & [= -> ->]). apply Hback in Eb as (cb & Eb & Evb).
    rewrite (taken_view cb' cb) by done. apply (Ha a b); try done; by apply Hin.
  - intros a c' Hia E. apply Hback in E as (c & E & [= _ ->]). apply (Hu a); [by rewrite <- Hin|done].
  - specialize (Hv 0). rewrite Hn in Hv. by destruct (udp_mem u' !! 0).
Qed.

(** Storing a block with the same address and port. *)
Lemma ok_store u l pcb c c' : udp_ok u l -> udp_mem u !! pcb = Some c -> udp_next c' = udp_next c -> view c' = view c -> udp_ok (put_udp u pcb c') l.
Proof.
  intros Hok Ec En Ev. apply (ok_view u _ l); [done|apply (store_list u l pcb c); [apply Hok|done|done]|done|].
  intros a. cbn. destruct (decide (a = pcb)) as [->|Hne]; [by rewrite lookup_insert_eq, Ec; cbn; rewrite Ev|by rewrite lookup_insert_ne].
Qed.

Lemma holds_false u (f : udp_pcb G -> bool) l a c : existsb (holds u f) l = false -> In a l -> udp_mem u !! a = Some c -> f c = false.
Proof.
  intros Hf Hin Ec. destruct (f c) eqn:E; [|done]. rewrite <- Hf. symmetry. apply existsb_exists. exists a. split; [done|]. by rewrite (holds_at u f a c).
Qed.
Lemma taken_false u l pcb ipaddr port a c : taken u l pcb ipaddr port = false -> In a l -> a <> pcb -> udp_mem u !! a = Some c -> taken_by c ipaddr port = false.
Proof.
  intros Hf Hin Hne Ec. destruct (taken_by c ipaddr port) eqn:E; [|done]. rewrite <- Hf. symmetry. apply existsb_exists. exists a. split; [done|].
  rewrite (holds_at u _ a c) by done. by rewrite (proj2 (Z.eqb_neq pcb a)) by done.
Qed.
Lemma listing_in l pcb a : In a (listing l pcb) <-> a = pcb \/ In a l.
Proof.
  unfold listing. destruct (member l pcb) eqn:E; [|cbn; naive_solver]. apply member_in in E. split; [tauto|]. by intros [->|].
Qed.

(** The port chosen meets no other block. *)
Lemma chosen_apart u l pcb ipaddr port p a c : udp_ok u l -> taken u l pcb ipaddr port = false ->
  (if port =? 0 then first_free u l p else p = port) -> In a l -> a <> pcb -> udp_mem u !! a = Some c -> taken_by c ipaddr p = false.
Proof.
  intros Hok Ht Hp Hin Hne Ec. destruct (port =? 0); [|subst p; by eapply taken_false].
  destruct Hp as (_ & Hh & _). apply (holds_false u _ l a c Hh Hin) in Ec. unfold taken_by. by rewrite Ec.
Qed.

Lemma bind_keeps u l pcb c ipaddr port : udp_ok u l -> udp_mem u !! pcb = Some c -> is_u16 port ->
  bind_ends u l pcb c ipaddr port (fun u' => udp_ok u' (listing l pcb)).
Proof.
  intros Hok Ec Hpt. destruct (ok_member u l pcb c Hok Ec) as [Hp0 _].
  destruct (udp_bind_ok u l pcb c ipaddr port (ok_list _ _ Hok) Hp0 Ec) as [Hb|[Hb|(Et & p & c' & u' & E & Em & Hc' & Hl' & Hport)]]; [by left|by right; left|].
  right. right. split; [done|]. exists p, c', u'. split; [done|]. split; [done|]. split; [done|]. split; [|done].
  assert (view c' = (ipaddr, p)) as [= Eip Epo] by (apply view_erased in Hc'; by rewrite Hc').
  assert (0 < p < 65536) as Hpr.
  { unfold is_u16 in Hpt. destruct (Z.eqb_spec port 0); [|lia]. destruct Hport as (Hr & _). unfold UDP_LOCAL_PORT_RANGE_START, UDP_LOCAL_PORT_RANGE_END in Hr. lia. }
  pose proof (fun a ca => chosen_apart u l pcb ipaddr port p a ca Hok Et Hport) as Hap.
  assert (forall a ca, In a (listing l pcb) -> a <> pcb -> <[pcb := c']> (udp_mem u) !! a = Some ca -> In a l /\ udp_mem u !! a = Some ca) as Hother.
  { intros a ca [->|Hin]%listing_in Hne Ea; [done|]. by rewrite lookup_insert_ne in Ea. }
  split; rewrite ?Em.
  - done.
  - intros a ca Hin Ea. destruct (decide (a = pcb)) as [->|Hne]; [rewrite lookup_insert_eq in Ea; simplify_eq; lia|].
    destruct (Hother a ca Hin Hne Ea). by apply (ok_ports _ _ Hok a).
  - intros a b ca cb Ha Hb Hab Ea Eb. destruct (decide (a = pcb)) as [->|Hna]; destruct (decide (b = pcb)) as [->|Hnb]; try done.
    + rewrite lookup_insert_eq in Ea. injection Ea as <-. destruct (Hother b cb Hb Hnb Eb). rewrite Eip, Epo. by apply (Hap b).
    + rewrite lookup_insert_eq in Eb. injection Eb as <-. destruct (Hother a ca Ha Hna Ea). rewrite taken_sym, Eip, Epo. by apply (Hap a).
    + destruct (Hother a ca Ha Hna Ea), (Hother b cb Hb Hnb Eb). by apply (ok_apart _ _ Hok a b).
  - intros a ca Hn Ea. rewrite listing_in in Hn. rewrite lookup_insert_ne in Ea by (intros ->; tauto). apply (ok_unlisted _ _ Hok a); [tauto|done].
  - rewrite lookup_insert_ne by done. apply Hok.
Qed.

(** A block not in the list may get another address. *)
Lemma ok_readdress u l pcb c ipaddr : udp_ok u l -> udp_mem u !! pcb = Some c -> local_port c = 0 ->
  udp_ok (put_udp u pcb (set_udp_local_ip c ipaddr)) l.
Proof.
  intros Hok Ec Hp. destruct (ok_member u l pcb c Hok Ec) as [Hp0 Hin]. assert (~ In pcb l) as Hn by tauto.
  assert (forall a, In a l -> a <> pcb) as Hne by (by intros a Ha ->).
  split; [apply (readdressed u l pcb c); [apply Hok|done]| | | |]; cbn [udp_mem put_udp].
  - intros a ca Ha Ea. rewrite lookup_insert_ne in Ea by (intros <-; by apply (Hne pcb)). by apply (ok_ports _ _ Hok a).
  - intros a b ca cb Ha Hb Hab Ea Eb. rewrite lookup_insert_ne in Ea, Eb by (intros <-; by apply (Hne pcb)). by apply (ok_apart _ _ Hok a b).
  - intros a ca Ha Ea. destruct (decide (a = pcb)) as [->|Hap]; [rewrite lookup_insert_eq in Ea; by injection Ea as <-|].
    rewrite lookup_insert_ne in Ea by done. by apply (ok_unlisted _ _ Hok a).
  - rewrite lookup_insert_ne by done. apply Hok.
Qed.

(** No listed block has port 0. *)
Lemma taken_none u l pcb ipaddr : udp_ok u l -> taken u l pcb ipaddr 0 = false.
Proof.
  intros Hok. destruct (taken u l pcb ipaddr 0) eqn:Et; [|done]. apply existsb_exists in Et as (a & Hin & Ha).
  apply andb_true_iff in Ha as [_ Ha]. unfold holds in Ha. destruct (udp_mem u !! a) as [ca|] eqn:Ea; [|done].
  pose proof (ok_ports _ _ Hok a ca Hin Ea). unfold taken_by in Ha. rewrite (proj2 (Z.eqb_neq _ 0)) in Ha by lia. done.
Qed.

(** The block has a port, or finds one. *)
Definition has_port u l (c : udp_pcb G) : Prop := local_port c <> 0 \/ exists p, UDP_LOCAL_PORT_RANGE_START <= p < UDP_LOCAL_PORT_RANGE_END /\ held u l p = false.

(** A block without a port gets one. *)
Lemma auto_bind u l pcb c : udp_ok u l -> udp_mem u !! pcb = Some c -> has_port u l c ->
  exists u1 c1, (if local_port c =? 0 then udp_bind u pcb (udp_local_ip c) (local_port c) else Ok (ERR_OK, u)) = Ok (ERR_OK, u1) /\
    udp_ok u1 (listing l pcb) /\ udp_mem u1 !! pcb = Some c1 /\ (local_port c <> 0 -> u1 = u /\ c1 = c) /\
    erased set_udp_next c1 = erased set_udp_next (set_local_port c (local_port c1)).
Proof.
  intros Hok Ec Hfree. destruct (ok_member u l pcb c Hok Ec) as [Hp0 Hmem]. destruct (Z.eqb_spec (local_port c) 0) as [E|Hne].
  - rewrite E. pose proof (bind_keeps u l pcb c (udp_local_ip c) 0 Hok Ec ltac:(done)) as Hb. unfold bind_ends in Hb. rewrite (taken_none u l) in Hb by done.
    destruct Hfree as [Hfree|(q & Hq & Hfree)]; [by rewrite E in Hfree|].
    destruct Hb as [[? _]|[(_ & _ & Hf & _)|(_ & p & c' & u' & -> & Em & Hc' & Hok' & _)]]; [done|by rewrite Hf in Hfree|]. exists u', c'. split; [done|]. split; [done|].
    rewrite Em, lookup_insert_eq. split; [done|]. split; [done|]. unfold bound_as in Hc'. pose proof (f_equal local_port Hc') as Ep. cbn in Ep.
    rewrite Hc', Ep. by destruct c.
  - exists u, c. split; [done|]. split; [|split; [done|split; [done|by destruct c]]]. unfold listing.
    assert (member l pcb = true) as -> by (by apply member_in, Hmem). done.
Qed.

Lemma connect_keeps u l pcb c ipaddr port : udp_ok u l -> udp_mem u !! pcb = Some c ->
  exists err u' l', udp_connect u pcb ipaddr port = Ok (err, u') /\ udp_ok u' l'.
Proof.
  intros Hok Ec. destruct (ok_member u l pcb c Hok Ec) as [Hp0 Hmem]. unfold udp_connect. rewrite (udp_at_ok u pcb c) by done. cbn [rbind].
  assert (exists err u1, (if local_port c =? 0 then udp_bind u pcb (udp_local_ip c) (local_port c) else Ok (ERR_OK, u)) = Ok (err, u1) /\
    if err =? ERR_OK then udp_ok u1 (listing l pcb) /\ is_Some (udp_mem u1 !! pcb) else udp_ok u1 l) as (err & u1 & -> & Hu1).
  { destruct (Z.eqb_spec (local_port c) 0) as [E|Hne].
    - rewrite E. destruct (bind_keeps u l pcb c (udp_local_ip c) 0 Hok Ec ltac:(done)) as [[_ ->]|[(_ & _ & _ & ->)|(_ & p & c' & u' & -> & Em & _ & Hok' & _)]].
      + by exists ERR_USE, u.
      + eexists ERR_USE, _. split; [reflexivity|]. by apply ok_readdress.
      + exists ERR_OK, u'. split; [done|]. split; [done|]. rewrite Em, lookup_insert_eq. by eexists.
    - exists ERR_OK, u. split; [done|]. split; [|by eexists]. unfold listing. by rewrite (proj2 (member_in l pcb)) by tauto. }
  cbn [rbind]. destruct (err =? ERR_OK); cbn [negb]; [|by eexists _, _, l]. destruct Hu1 as [Hok1 [c1 Ec1]].
  unfold upd_udp. rewrite (udp_at_ok u1 pcb c1) by done. cbn [rbind]. set (c2 := set_remote c1 ipaddr port _).
  pose proof (ok_store u1 _ pcb c1 c2 Hok1 Ec1 eq_refl eq_refl) as Hok2.
  rewrite (listed_loop_ok _ pcb (listing l pcb)) by (apply Hok2 || by eapply list_fuel_enough, Hok2). cbn [rbind].
  rewrite (proj2 (member_in _ pcb)) by (rewrite listing_in; by left). eexists _, _, _. by split; [reflexivity|].
Qed.

(** The block has a port already. *)
Lemma connect_bound u l pcb c ipaddr port : udp_ok u l -> udp_mem u !! pcb = Some c -> local_port c <> 0 ->
  let c' := set_remote c ipaddr port (Z.lor (udp_flags c) UDP_FLAGS_CONNECTED) in
  udp_connect u pcb ipaddr port = Ok (ERR_OK, put_udp u pcb c') /\ udp_ok (put_udp u pcb c') l.
Proof.
  intros Hok Ec Hlp c'. destruct (ok_member u l pcb c Hok Ec) as [Hp0 [Hin _]]. specialize (Hin Hlp).
  assert (udp_ok (put_udp u pcb c') l) as Hok' by (by apply (ok_store u l pcb c)). split; [|done].
  unfold udp_connect. rewrite (udp_at_ok u pcb c) by done. cbn [rbind]. rewrite (proj2 (Z.eqb_neq _ 0)) by done. cbn [rbind Z.eqb negb].
  unfold upd_udp. rewrite (udp_at_ok u pcb c) by done. cbn [rbind]. fold c'.
  rewrite (listed_loop_ok _ pcb l) by (apply Hok' || by eapply list_fuel_enough, Hok'). cbn [rbind]. by rewrite (proj2 (member_in _ pcb)).
Qed.

Lemma remove_keeps u l pcb c : udp_ok u l -> udp_mem u !! pcb = Some c ->
  exists u', udp_remove u pcb = Ok u' /\ udp_ok u' (filter (fun a => a <> pcb) l) /\ udp_mem u' !! pcb = None.
Proof.
  intros Hok Ec. destruct (ok_member u l pcb c Hok Ec) as [Hp0 _]. unfold udp_remove.
  destruct (unlink_ok udp_next set_udp_next _ _ l pcb c (ok_list _ _ Hok) Hp0 Ec) as (h & m & -> & Hl & Hn & Em & Hs).
  cbn [rbind]. rewrite (cell_ok m pcb c) by done. cbn [rbind]. eexists. split; [reflexivity|]. split; [|apply lookup_delete_eq].
  assert (forall a ca, delete pcb m !! a = Some ca -> a <> pcb /\ exists ca', udp_mem u !! a = Some ca' /\ view ca = view ca') as Hback.
  { intros a ca [Hne Ea]%lookup_delete_Some. split; [done|]. specialize (Hs a). rewrite Ea in Hs. destruct (udp_mem u !! a) as [ca'|]; [|done].
    exists ca'. split; [done|]. cbn in Hs. apply (inj Some) in Hs. by apply view_erased. }
  assert (forall a, In a (filter (fun a => a <> pcb) l) <-> a <> pcb /\ In a l) as Hin by (intros a; rewrite <- !list_elem_of_In, list_elem_of_filter; done).
  split; cbn [udp_mem udp_pcbs].
  - eapply lseg_frame; [|exact Hl]. intros a Ha. apply lookup_delete_ne. by intros <-.
  - intros a ca [_ Hia]%Hin (_ & ca' & E & [= _ ->])%Hback. by apply (ok_ports _ _ Hok a).
  - intros a b ca cb [_ Ha]%Hin [_ Hb]%Hin Hab (_ & ca' & Ea & [= -> ->])%Hback (_ & cb' & Eb & Ev)%Hback.
    rewrite (taken_view cb cb') by done. by apply (ok_apart _ _ Hok a b).
  - intros a ca Hna (Hne & ca' & Ea & [= _ ->])%Hback. apply (ok_unlisted _ _ Hok a); [|done]. intros Hi. apply Hna, Hin. done.
  - rewrite lookup_delete_ne by done. specialize (Hs 0). rewrite (ok_null _ _ Hok) in Hs. by destruct (m !! 0).
Qed.

(** A block found by [List.find] moves to the front. *)
Lemma front_in l a x : In a l -> In x (a :: filter (fun y => y <> a) l) <-> In x l.
Proof.
  intros Ha. cbn. rewrite <- !list_elem_of_In, list_elem_of_filter in *. split; [by intros [<-|[_ ?]]|].
  intros Hx. destruct (decide (x = a)) as [->|Hne]; [by left|by right].
Qed.
Lemma reorder_keeps u l h m l' : udp_ok u l -> udp_list (Udps h m) l' -> (forall x, In x l' <-> In x l) ->
  same_cells set_udp_next (udp_mem u) m -> udp_ok (Udps h m) l'.
Proof.
  intros Hok Hl Hin Hs. apply (ok_view u _ l); try done. intros a. specialize (Hs a). cbn.
  destruct (m !! a), (udp_mem u !! a); try done. cbn in Hs |- *. apply (inj Some) in Hs. f_equal. by apply view_erased.
Qed.

(** The loop from the head of the list. *)
Lemma demux_keeps u l broadcast src dest src_ip dest_ip : udp_ok u l ->
  let full := List.find (full_match u broadcast src dest src_ip dest_ip) l in
  exists u', demux_loop (list_fuel (udp_mem u)) u 0 (udp_pcbs u) 0 broadcast src dest src_ip dest_ip =
      Ok (default (default 0 (List.find (open_match u broadcast dest dest_ip) l)) full, u') /\
    udp_ok u' (match full with Some a => a :: filter (fun x => x <> a) l | None => l end) /\
    same_cells set_udp_next (udp_mem u) (udp_mem u').
Proof.
  intros Hok full. pose proof (demux_loop_ok u broadcast src dest src_ip dest_ip l (list_fuel (udp_mem u)) [] (udp_pcbs u) 0 (ok_list _ _ Hok) (ok_list _ _ Hok)
    (list_fuel_enough _ _ _ _ (ok_list _ _ Hok))) as Hd. fold full in Hd. cbn [default last app] in Hd. change (default 0 (last [])) with 0 in Hd.
  destruct full as [a|] eqn:Ef.
  - destruct Hd as (h & m & -> & Hl & Hs). exists (Udps h m). split; [done|]. split; [|done].
    apply (reorder_keeps u l); try done. intros x. apply front_in. unfold full in Ef. by apply find_some in Ef as [? _].
  - rewrite Hd. by exists u.
Qed.

Section allocated.
Context (memp_malloc : gmap Z (udp_pcb G) -> option Z).
Hypothesis fresh : forall m p, memp_malloc m = Some p -> p <> 0 /\ m !! p = None.

Lemma new_keeps u l : udp_ok u l -> udp_ok (udp_new memp_malloc u).2 l.
Proof using fresh.
  intros Hok. unfold udp_new. destruct (memp_malloc (udp_mem u)) as [p|] eqn:Em; [|done]. apply fresh in Em as (Hp & Hn).
  assert (~ In p l) as Hnin by (intros Hin; destruct (lseg_in _ _ _ _ _ p (ok_list _ _ Hok) Hin) as [_ [c Ec]]; congruence).
  assert (forall a, In a l -> a <> p) as Hne by (intros a Hin ->; done). cbn [snd]. split; cbn [udp_mem udp_pcbs put_udp].
  - apply lseg_store; [done|apply Hok].
  - intros a c Hin Ea. rewrite lookup_insert_ne in Ea by (intros <-; by apply (Hne p)). by apply (ok_ports _ _ Hok a).
  - intros a b ca cb Ha Hb Hab Ea Eb. rewrite lookup_insert_ne in Ea by (intros <-; by apply (Hne p)).
    rewrite lookup_insert_ne in Eb by (intros <-; by apply (Hne p)). by apply (ok_apart _ _ Hok a b).
  - intros a c Hna Ea. destruct (decide (a = p)) as [->|Hap]; [rewrite lookup_insert_eq in Ea; by injection Ea as <-|].
    rewrite lookup_insert_ne in Ea by done. by apply (ok_unlisted _ _ Hok a).
  - rewrite lookup_insert_ne by done. apply Hok.
Qed.

(** ** All that happens to the blocks *)

(** The calls of the interface, and the search for the block of a datagram. *)
Inductive udp_op :=
  | Op_new
  | Op_bind (pcb ipaddr port : Z)
  | Op_connect (pcb ipaddr port : Z)
  | Op_disconnect (pcb : Z)
  | Op_recv (pcb : Z) (f : option G) (arg : Z)
  | Op_remove (pcb : Z)
  | Op_input (broadcast : bool) (src dest src_ip dest_ip : Z).

Definition run u (op : udp_op) : result (udps G) :=
  match op with
  | Op_new => Ok (udp_new memp_malloc u).2
  | Op_bind pcb ipaddr port => let! (_, u) := udp_bind u pcb ipaddr port in Ok u
  | Op_connect pcb ipaddr port => let! (_, u) := udp_connect u pcb ipaddr port in Ok u
  | Op_disconnect pcb => udp_disconnect u pcb
  | Op_recv pcb f arg => udp_recv u pcb f arg
  | Op_remove pcb => udp_remove u pcb
  | Op_input broadcast src dest src_ip dest_ip =>
      let! (_, u) := demux_loop (list_fuel (udp_mem u)) u 0 (udp_pcbs u) 0 broadcast src dest src_ip dest_ip in Ok u
  end.

(** Some port of the range is free. *)
Definition free_port u : Prop := exists p, UDP_LOCAL_PORT_RANGE_START <= p < UDP_LOCAL_PORT_RANGE_END /\
  forall a c, udp_mem u !! a = Some c -> local_port c <> p.
Lemma free_port_full u l : free_port u -> ~ ports_full u l.
Proof using Type.
  intros (p & Hp & Hfree) Hf. apply Hf in Hp as Hh. apply existsb_exists in Hh as (a & _ & Ha). unfold holds in Ha.
  destruct (udp_mem u !! a) as [c|] eqn:Ec; [|done]. apply Z.eqb_eq in Ha. by destruct (Hfree a c Ec).
Qed.

(** Calls are for blocks that [udp_new] gave and [udp_remove] has not taken
    back.  A block that has a port is bound to any port only while one is free:
    without one its address would change and its port stay. *)
Definition live u (op : udp_op) : Prop :=
  match op with
  | Op_new | Op_input _ _ _ _ _ => True
  | Op_bind pcb _ port => is_u16 port /\ exists c, udp_mem u !! pcb = Some c /\ (port = 0 -> local_port c = 0 \/ free_port u)
  | Op_connect pcb _ _ | Op_disconnect pcb | Op_recv pcb _ _ | Op_remove pcb => is_Some (udp_mem u !! pcb)
  end.

Inductive udp_reachable : udps G -> Prop :=
  | reach_start : udp_reachable (Udps 0 empty)
  | reach_op u op u' : udp_reachable u -> live u op -> run u op = Ok u' -> udp_reachable u'.

Lemma run_keeps u l op : udp_ok u l -> live u op -> exists u' l', run u op = Ok u' /\ udp_ok u' l'.
Proof using fresh.
  intros Hok Hlive. destruct op as [|pcb ip port|pcb ip port|pcb|pcb f arg|pcb|b src dest sip dip]; cbn [run live] in *.
  - eexists _, l. split; [done|]. by apply new_keeps.
  - destruct Hlive as (Hp & c & Ec & Hfree).
    destruct (bind_keeps u l pcb c ip port Hok Ec Hp) as [[_ ->]|[(_ & E & Hf & ->)|(_ & p & c' & u' & -> & _ & _ & Hok' & _)]]; [by exists u, l| |by exists u', (listing l pcb)].
    eexists _, l. split; [reflexivity|]. apply ok_readdress; [done..|]. destruct (Hfree E) as [|Hx]; [done|]. by destruct (free_port_full u l Hx).
  - destruct Hlive as [c Ec]. destruct (connect_keeps u l pcb c ip port Hok Ec) as (err & u' & l' & -> & Hok'). by exists u', l'.
  - destruct Hlive as [c Ec]. destruct (ok_member u l pcb c Hok Ec) as [Hp0 _]. unfold udp_disconnect, upd_udp.
    rewrite (udp_at_ok u pcb c) by done. eexists _, l. split; [reflexivity|]. by apply (ok_store u l pcb c).
  - destruct Hlive as [c Ec]. destruct (ok_member u l pcb c Hok Ec) as [Hp0 _]. unfold udp_recv, upd_udp.
    rewrite (udp_at_ok u pcb c) by done. eexists _, l. split; [reflexivity|]. by apply (ok_store u l pcb c).
  - destruct Hlive as [c Ec]. destruct (remove_keeps u l pcb c Hok Ec) as (u' & -> & Hok' & _). by exists u', (filter (fun a => a <> pcb) l).
  - destruct (demux_keeps u l b src dest sip dip Hok) as (u' & -> & Hok' & _). by eexists u', _.
Qed.

(** C11: the ports of UDP.  However the calls of the interface and datagrams follow each other, however many blocks [memp_malloc] grants, the list of control blocks stays well formed, every listed block has a port, and no two of them have the same port for addresses that meet (equal, or one of them any address); blocks not listed have no port; and the next call for an allocated block does not fault and ends.  One call is excepted: binding a block that has a port to any free port (port 0) while all 28671 ports from 4096 to 32766 are held, which leaves its port and changes its address (udp.c:744). *)
Theorem udp_ports_apart u : udp_reachable u ->
  exists l, udp_ok u l /\ forall op, live u op -> exists u' l', run u op = Ok u' /\ udp_ok u' l'.
Proof using fresh.
  intros Hr. assert (exists l, udp_ok u l) as [l Hok].
  { induction Hr as [|u op u' Hr [l Hok] Hlive E].
    - exists []. by split; cbn.
    - destruct (run_keeps u l op Hok Hlive) as (u1 & l1 & E1 & Hok1). assert (u' = u1) as -> by congruence. by exists l1. }
  exists l. split; [done|]. intros op Hlive. by apply (run_keeps u l).
Qed.
End allocated.

(** C14: binding, for any number of blocks.  [udp_bind] refuses with [ERR_USE], and changes nothing, when another listed block has the port for an address that meets the new one.  It refuses port 0 when listed blocks hold every port from 4096 to 32766; then the block's address has changed already and nothing else.  Otherwise the block gets the address and the port, keeps its other fields and is listed, and no other block changes; for port 0 the port is the first of 4096 to 32766 that no listed block has.  The search ends in each case. *)
Theorem udp_bind_spec u l pcb c ipaddr port : udp_ok u l -> udp_mem u !! pcb = Some c -> is_u16 port ->
  taken u l pcb ipaddr port = true /\ udp_bind u pcb ipaddr port = Ok (ERR_USE, u) \/
  taken u l pcb ipaddr port = false /\ port = 0 /\ (forall p, 4096 <= p < 0x7fff -> held u l p = true) /\
    udp_bind u pcb ipaddr port = Ok (ERR_USE, put_udp u pcb (set_udp_local_ip c ipaddr)) \/
  taken u l pcb ipaddr port = false /\ exists p c' u', udp_bind u pcb ipaddr port = Ok (ERR_OK, u') /\ udp_mem u' = <[pcb := c']> (udp_mem u) /\
    bound_as c c' ipaddr p /\ udp_ok u' (listing l pcb) /\
    (if port =? 0 then 4096 <= p < 0x7fff /\ held u l p = false /\ forall p', 4096 <= p' < p -> held u l p' = true else p = port).
Proof. exact (bind_keeps u l pcb c ipaddr port). Qed.

(** The block of a datagram.  The search takes the first block of the list bound to the destination and connected to the source, or to any, and moves it to the front; without one it takes the first unconnected block bound to the destination, or none, and leaves the list as it is.  The blocks keep all their fields. *)
Theorem udp_demux u l broadcast src dest src_ip dest_ip : udp_ok u l ->
  let full := List.find (full_match u broadcast src dest src_ip dest_ip) l in
  exists u', demux_loop (list_fuel (udp_mem u)) u 0 (udp_pcbs u) 0 broadcast src dest src_ip dest_ip =
      Ok (default (default 0 (List.find (open_match u broadcast dest dest_ip) l)) full, u') /\
    udp_list u' (match full with Some a => a :: filter (fun x => x <> a) l | None => l end) /\
    forall a, erased set_udp_next <$> udp_mem u' !! a = erased set_udp_next <$> udp_mem u !! a.
Proof.
  intros Hok full. destruct (demux_keeps u l broadcast src dest src_ip dest_ip Hok) as (u' & E & Hok' & Hs). exists u'.
  split; [exact E|]. split; [apply Hok'|exact Hs].
Qed.
End ports.

(** ** Examples *)

(** A pool of four addresses. *)
Definition four_blocks {C} (m : gmap Z C) : option Z :=
  if (size m <? 4)%nat then List.find (fun p => match m !! p with None => true | Some _ => false end) [100; 200; 300; 400] else None.
Lemma four_blocks_pool {C} (m : gmap Z C) p : four_blocks m = Some p -> p <> 0 /\ m !! p = None.
Proof.
  unfold four_blocks. destruct (Nat.ltb_spec (size m) 4) as [Hs|]; [|done]. intros [Hin Hn]%find_some. split; [|by destruct (m !! p)].
  intros ->. cbn in Hin. lia.
Qed.

(** A server on port 5000 of every address and one on port 53 of 10.0.0.2,
    connected to port 1053 of 10.0.0.7; the third block is new. *)
Definition server : udp_pcb Z := UdpPcb 0 0 0 0 UDP_TTL 0 0 5000 0 0 (Some 1) 0.
Definition peer : udp_pcb Z := UdpPcb (address_of 10 0 0 2) (address_of 10 0 0 7) 0 0 UDP_TTL 100 UDP_FLAGS_CONNECTED 53 1053 0 (Some 2) 0.
Definition fresh_block : udp_pcb Z := UdpPcb 0 0 0 0 UDP_TTL 0 0 0 0 0 None 0.
Definition three_udps : udps Z := Udps 200 (list_to_map [(100, server); (200, peer); (300, fresh_block)]).

Lemma three_cases a c : udp_mem three_udps !! a = Some c -> a = 100 /\ c = server \/ a = 200 /\ c = peer \/ a = 300 /\ c = fresh_block.
Proof.
  cbn. intros [[<- <-]|[? [[<- <-]|[? [[<- <-]|[? H]]%lookup_insert_Some]]%lookup_insert_Some]]%lookup_insert_Some; [tauto..|done].
Qed.
Lemma three_udps_ok : udp_ok three_udps [200; 100].
Proof.
  split; [| | | |done].
  - split; [done|]. split; [done|]. exists peer. split; [reflexivity|]. split; [done|]. split; [done|]. exists server. by split.
  - intros a c [<-|[<-|[]]] E; vm_compute in E; injection E as <-; cbn; lia.
  - intros a b ca cb [<-|[<-|[]]] [<-|[<-|[]]] Hab Ea Eb; try done; vm_compute in Ea, Eb; injection Ea as <-; injection Eb as <-; reflexivity.
  - intros a c Hn [[-> ->]|[[-> ->]|[-> ->]]]%three_cases; cbn in Hn; [tauto..|done].
Qed.

Lemma udp_ports_apart_witness :
  udp_reachable four_blocks (put_udp (Udps (G := Z) 0 empty) 100 fresh_block) /\
  exists l, udp_ok (put_udp (Udps (G := Z) 0 empty) 100 fresh_block) l /\
    exists u' l', run four_blocks (put_udp (Udps 0 empty) 100 fresh_block) (Op_bind 100 0 5000) = Ok u' /\ udp_ok u' l'.
Proof.
  assert (udp_reachable four_blocks (put_udp (Udps (G := Z) 0 empty) 100 fresh_block)) as Hr
    by (eapply (reach_op _ _ Op_new); [apply reach_start|exact I|reflexivity]).
  split; [exact Hr|]. destruct (udp_ports_apart four_blocks four_blocks_pool _ Hr) as (l & Hok & Hop). exists l. split; [exact Hok|].
  apply (Hop (Op_bind 100 0 5000)). split; [by apply (bool_decide_unpack _)|]. exists fresh_block. by split.
Defined.

(** Port 5000 is taken for every address, and port 53 is not for 10.0.0.3. *)
Lemma udp_bind_spec_witness :
  udp_ok three_udps [200; 100] /\ udp_bind three_udps 300 (address_of 10 0 0 3) 5000 = Ok (ERR_USE, three_udps) /\
  exists c' u', udp_bind three_udps 300 (address_of 10 0 0 3) 53 = Ok (ERR_OK, u') /\ bound_as fresh_block c' (address_of 10 0 0 3) 53 /\
    udp_ok u' [300; 200; 100].
Proof.
  assert (is_u16 5000 /\ is_u16 53) as [H1 H2] by (split; by apply (bool_decide_unpack _)). split; [exact three_udps_ok|]. split.
  - destruct (udp_bind_spec three_udps [200; 100] 300 fresh_block (address_of 10 0 0 3) 5000 three_udps_ok eq_refl H1)
      as [[_ H]|[[H _]|[H _]]]; [exact H|vm_compute in H; discriminate H..].
  - destruct (udp_bind_spec three_udps [200; 100] 300 fresh_block (address_of 10 0 0 3) 53 three_udps_ok eq_refl H2)
      as [[H _]|[(_ & H & _)|(_ & p & c' & u' & Ha & _ & Hb & Hc & Hp)]]; [vm_compute in H; discriminate H|discriminate H|].
    cbn in Hp. subst p. by exists c', u'.
Defined.

(** A datagram of the peer for its block, and one of another host, which the
    block is connected away from. *)
Lemma udp_demux_witness :
  udp_ok three_udps [200; 100] /\
  (exists u', demux_loop (list_fuel (udp_mem three_udps)) three_udps 0 200 0 false 1053 53 (address_of 10 0 0 7) (address_of 10 0 0 2) = Ok (200, u') /\
     udp_list u' [200; 100]) /\
  exists u', demux_loop (list_fuel (udp_mem three_udps)) three_udps 0 200 0 false 9 5000 (address_of 10 0 0 9) (address_of 10 0 0 2) = Ok (100, u') /\
     udp_list u' [200; 100].
Proof.
  split; [exact three_udps_ok|]. split.
  - destruct (udp_demux three_udps [200; 100] false 1053 53 (address_of 10 0 0 7) (address_of 10 0 0 2) three_udps_ok) as (u' & H1 & H2 & _). by exists u'.
  - destruct (udp_demux three_udps [200; 100] false 9 5000 (address_of 10 0 0 9) (address_of 10 0 0 2) three_udps_ok) as (u' & H1 & H2 & _). by exists u'.
Defined.
