(* ===== verification/UdpInput.v ===== *)
(** * Received datagrams: theorems about [udp_input] of [lwip/core/udp.c]. *)
From S2P Require Import Prelude Cobs Uart Comm Message Pbuf PbufChain PbufCopy PbufTrim InetChksum IpHdr IpAddr.
From S2P Require Import Linked RawPcb Etharp EtharpTable EtharpPackets Netif Ip IpOutput IpInput Icmp IcmpEcho Udp UdpPorts.
From stdpp Require Import list gmap.
#[local] Open Scope Z_scope.

Section input.
Context `{OsLaws} {F G X : Type}.
Abbreviation state := (net (stack (raws F) (udps G * X))).
Implicit Type s : state.
Context (output : state -> Z -> Z -> Z -> result (Z * state))
        (call : G -> Z -> Z -> Z -> Z -> Z -> state -> result state)
        (dhcp_pcb : X -> Z -> Z).
Abbreviation input := (udp_input output call dhcp_pcb).

(** The block for a datagram: the DHCP client's on its port, which only takes
    what its server sent; on other ports the first connected to the source, or
    else the first open one. *)
Definition block_for (u : udps G) (l : list Z) (dhcp d : Z) (broadcast : bool) (src dest src_ip dest_ip : Z) : Z :=
  if dest =? DHCP_CLIENT_PORT then
    if (src =? DHCP_SERVER_PORT) && negb (dhcp =? 0) && negb (d =? 0) &&
       holds u (fun c => (udp_remote_ip c =? IPADDR_ANY) || (udp_remote_ip c =? src_ip)) d then d else 0
  else default (default 0 (List.find (open_match u broadcast dest dest_ip) l)) (List.find (full_match u broadcast src dest src_ip dest_ip) l).

Lemma find_block_ok s n l src dest broadcast : udp_ok (blocks_of s) l ->
  let d := dhcp_pcb (rest (env s)).2 (nif_dhcp n) in
  (d <> 0 -> is_Some (udp_mem (blocks_of s) !! d)) ->
  let src_ip := current_iphdr_src (ipv (env s)) in let dest_ip := current_iphdr_dest (ipv (env s)) in
  exists u' l', find_block dhcp_pcb s n src dest broadcast =
      Ok (block_for (blocks_of s) l (nif_dhcp n) d broadcast src dest src_ip dest_ip, set_blocks s u') /\
    udp_ok u' l' /\ same_cells set_udp_next (udp_mem (blocks_of s)) (udp_mem u').
Proof using Type.
  intros Hok d Hd src_ip dest_ip. unfold find_block, block_for. fold src_ip dest_ip.
  destruct (Z.eqb_spec dest DHCP_CLIENT_PORT) as [|_].
  - exists (blocks_of s), l. assert (set_blocks s (blocks_of s) = s) as ->.
    { destruct s as [? ? ? [? ? ? ? [? ?]]]. done. }
    split; [|done]. unfold dhcp_block. fold d. destruct (src =? DHCP_SERVER_PORT); [|done]. cbn [negb andb].
    destruct (Z.eqb_spec (nif_dhcp n) 0); [done|]. cbn [negb andb orb]. destruct (Z.eqb_spec d 0) as [|Hd0]; [done|]. cbn [negb andb].
    destruct (Hd Hd0) as [c Ec]. rewrite (udp_at_ok _ d c), (holds_at _ _ d c) by done. done.
  - destruct (demux_keeps (blocks_of s) l broadcast src dest src_ip dest_ip Hok) as (u' & -> & Hok' & Hs). cbn [rbind]. by eexists u', _.
Qed.

(** The packet from behind its first [h] bytes, which lie in the first pbuf. *)
Lemma hide_two m p l c n h k : sendable m p l c n -> 0 < h -> 0 < k -> h + k <= len c -> h + k < 32768 ->
  pbuf_header (at_message m p c h) p (- k) = Ok (0, at_message m p c (h + k)) /\
  pbuf_header (at_message m p c (h + k)) p (h + k) = Ok (0, m).
Proof using Type.
  intros Hs Hh Hk Hl Hsm. destruct (sendable_cell _ _ _ _ _ Hs) as (Hp0 & _ & Hok & Hcd & Hlen & Htot). destruct (send_area _ _ _ _ _ Hs) as [Hty Hpl].
  pose proof (packet_small _ _ _ (send_packet _ _ _ _ _ Hs)) as Hz. pose proof (zlen_nonneg (contents m l)). rewrite contents_cons, zlen_app in Htot, Hz.
  change SIZEOF_STRUCT_PBUF with 20 in *. unfold at_message. set (c1 := moved c (- h)).
  assert (len c1 = len c - h /\ tot_len c1 = tot_len c - h /\ (payload c1).2 = (payload c).2 + h) as (L1 & L2 & L3) by (cbn; lia).
  set (c2 := moved c (- (h + k))).
  assert (len c2 = len c - (h + k) /\ tot_len c2 = tot_len c - (h + k) /\ (payload c2).2 = (payload c).2 + (h + k)) as (M1 & M2 & M3) by (cbn; lia).
  assert (moved c1 (- k) = c2) as Emv.
  { unfold c1, c2. destruct c as [? [o j] ? ? ? ? ?]. unfold moved, set_tot_len, set_len, set_payload. cbn. f_equal; [f_equal| |]; lia. }
  split.
  - rewrite (header_ok (put m p c1) p c1) by (done || apply lookup_insert_eq || (split; [done|rewrite L3; change SIZEOF_STRUCT_PBUF with 20; lia]) ||
      rewrite ?L1, ?L2, ?L3; change SIZEOF_STRUCT_PBUF with 20; lia). by rewrite put_put, Emv.
  - rewrite (header_ok (put m p c2) p c2) by (done || apply lookup_insert_eq || (split; [done|rewrite M3; change SIZEOF_STRUCT_PBUF with 20; lia]) ||
      rewrite ?M1, ?M2, ?M3; change SIZEOF_STRUCT_PBUF with 20; lia).
    rewrite put_put. unfold c2. rewrite moved_forth, (put_same m p c (send_cell _ _ _ _ _ Hs)). done.
Qed.

Lemma hidden_packet m p l c n h : sendable m p l c n -> 0 < h <= len c -> h < 32768 ->
  packet (at_message m p c h) p (p :: l) /\ contents (at_message m p c h) (p :: l) = drop (Z.to_nat h) (data_of m p) ++ contents m l /\
  untouched m (at_message m p c h) [p] /\ tot_len (moved c (- h)) = zlen (drop (Z.to_nat h) (data_of m p) ++ contents m l).
Proof using Type.
  intros Hs Hh Hk. destruct (sendable_cell _ _ _ _ _ Hs) as (Hp0 & Hn & Hok & Hcd & Hlen & Htot).
  destruct (hide m p l c n h Hs Hh Hk) as (_ & Hc & Hch & HF). fold (at_message m p c h) in Hc, Hch, HF.
  pose proof (packet_small _ _ _ (send_packet _ _ _ _ _ Hs)) as Hsm. destruct (packet_totals _ _ _ (send_packet _ _ _ _ _ Hs)) as [_ Htl].
  rewrite contents_cons, zlen_app in Htot, Hsm.
  assert (zlen (drop (Z.to_nat h) (data_of m p) ++ contents m l) = zlen (data_of m p) + zlen (contents m l) - h) as Hz.
  { rewrite zlen_app. unfold zlen in *. rewrite length_drop. lia. }
  assert (tot_len (moved c (- h)) = tot_len c - h) as Ht by (cbn; lia).
  split; [|split; [done|split; [apply untouched_put; by rewrite (send_cell _ _ _ _ _ Hs)|lia]]].
  split; [done|done| |rewrite Hc; lia]. split; [|by apply totals_put].
  unfold at_message. cbn [cells put]. rewrite lookup_insert_eq. fold (at_message m p c h). rewrite Hc. lia.
Qed.

Lemma hdr_u16_shift m (a : Z * Z) h off : hdr_u16 m (a.1, a.2 + h) off = hdr_u16 m a (h + off).
Proof using Type. unfold hdr_u16. by rewrite load_shift. Qed.

(** A field of the datagram, read behind the IP header. *)
Lemma port_field m p l c n hd r i : sendable m p l c n -> data_of m p = hd ++ r -> (S i < length r)%nat ->
  exists v, hdr_u16 m ((payload c).1, (payload c).2 + zlen hd) (Z.of_nat i) = Ok v /\ ntohs v = word_at r i /\
    v = byte_at r i + 256 * byte_at r (S i).
Proof using Type.
  intros Hs Hd Hl. destruct (sendable_cell _ _ _ _ _ Hs) as (_ & _ & Hok & Hcd & Hlen & _). rewrite Hd, zlen_app in Hlen.
  rewrite hdr_u16_shift. unfold zlen. rewrite <- Nat2Z.inj_add.
  assert (forall j, byte_at (hd ++ r) (length hd + j) = byte_at r j) as Hb by (intros j; unfold byte_at; rewrite app_nth2 by lia; f_equal; lia).
  assert (S (length hd + i) < Z.to_nat (len c))%nat as Hin by (unfold zlen in Hlen; lia).
  destruct (hdr_u16_ok m c Hok (length hd + i) Hin) as (v & E & _ & Ev). pose proof (hdr_u16_held m c (length hd + i) Hok Hin) as Eh.
  exists v. split; [exact E|]. rewrite E in Eh. injection Eh as Eh. rewrite Hcd, Hd, <- Nat.add_succ_r, !Hb in Eh.
  split; [|done]. rewrite Ev, Hcd, Hd. unfold word_at. by rewrite <- Nat.add_succ_r, !Hb.
Qed.

(** The checksum of the datagram [d] verifies, or there is none. *)
Definition udp_sum_ok (src_ip dest_ip : Z) (d : list Z) : bool :=
  (byte_at d 6 + 256 * byte_at d 7 =? 0) || (inet_chksum false (pseudo_header src_ip dest_ip IP_PROTO_UDP (zlen d) ++ d) =? 0).

(** [udp_deliver] for the block [b]. *)
Lemma udp_deliver_ok s p l c k hd r inp n b src broadcast : sendable (mem s) p l c k -> Forall (releasable (mem s)) (p :: l) ->
  inp <> 0 -> nifs (ifs (env s)) !! inp = Some n -> data_of (mem s) p = hd ++ r -> IP_HLEN <= zlen hd -> header_length hd = zlen hd ->
  let src_ip := current_iphdr_src (ipv (env s)) in let dest_ip := current_iphdr_dest (ipv (env s)) in
  is_u32 src_ip -> is_u32 dest_ip -> UDP_HLEN <= zlen r -> (b <> 0 -> is_Some (udp_mem (blocks_of s) !! b)) ->
  let d := r ++ contents (mem s) l in
  let m2 := at_message (mem s) p c (zlen hd + UDP_HLEN) in
  let res := udp_deliver output call (set_mem s (at_message (mem s) p c (zlen hd))) p inp b src broadcast (payload c) ((payload c).1, (payload c).2 + zlen hd) in
  if (b =? 0) && negb (nif_ip_addr n =? dest_ip) || negb (udp_sum_ok src_ip dest_ip d) then ignored s p l res
  else if b =? 0 then
    if broadcast || ip_addr_ismulticast dest_ip then ignored s p l res
    else res = (let! s' := icmp_dest_unreach output s p ICMP_DUR_PORT in free_packet s' p)
  else match udp_mem (blocks_of s) !! b with
       | Some cb => match udp_recv_fn cb with
                    | Some f => res = call f (udp_recv_arg cb) b p src_ip src (set_mem s m2)
                    | None => ignored s p l res
                    end
       | None => False
       end.
Proof using Type*.
  intros Hs Hr Hi En Hd H20 Hh src_ip dest_ip Hsrc Hdst H8 Hb d m2 res. change IP_HLEN with 20 in H20. change UDP_HLEN with 8 in *.
  assert (20 <= length hd)%nat as Hl by (unfold zlen in H20; lia).
  assert (zlen hd <= 60) as H60 by (rewrite <- Hh; unfold header_length; Z.div_mod_to_equations; lia).
  destruct (sendable_cell _ _ _ _ _ Hs) as (Hp0 & _ & Hok & Hcd & Hlen & _). rewrite Hd, zlen_app in Hlen.
  pose proof (packet_small _ _ _ (send_packet _ _ _ _ _ Hs)) as Hsm. rewrite contents_cons, Hd, <- app_assoc, zlen_app in Hsm. fold d in Hsm.
  destruct (hidden_packet (mem s) p l c k (zlen hd) Hs) as ([Hch HF _ _] & Hc & _ & Ht); [lia|lia|].
  assert (drop (Z.to_nat (zlen hd)) (data_of (mem s) p) ++ contents (mem s) l = d) as Edr.
  { rewrite Hd. unfold zlen. by rewrite Nat2Z.id, drop_app_length. }
  rewrite Edr in Hc, Ht. set (m := at_message (mem s) p c (zlen hd)) in *.
  pose proof (free_ignored output s p l c k (zlen hd) Hs Hr ltac:(lia) ltac:(lia)) as Hfree. fold m in Hfree.
  pose proof (free_ignored output s p l c k (zlen hd + 8) Hs Hr ltac:(lia) ltac:(lia)) as Hfree2. fold m2 in Hfree2.
  destruct (hide_two (mem s) p l c k (zlen hd) 8 Hs) as [E1 E2]; [lia|lia|lia|lia|]. fold m m2 in E1, E2.
  unfold res, udp_deliver. change (env (set_mem s m)) with (env s). change (mem (set_mem s m)) with m. fold src_ip dest_ip.
  rewrite (nif_at_ok _ inp n) by done. cbn [rbind]. rewrite negb_orb, negb_involutive.
  destruct ((b =? 0) && negb (nif_ip_addr n =? dest_ip)); cbn [orb]; [done|].
  destruct (port_field (mem s) p l c k hd r 6 Hs Hd) as (v & Ev & _ & Hv); [unfold zlen in H8; lia|]. change (Z.of_nat 6) with 6 in Ev.
  assert (hdr_u16 m ((payload c).1, (payload c).2 + zlen hd) 6 = Ok v) as -> by (rewrite <- Ev; by apply hdr_block). cbn [rbind].
  rewrite (deref_ok m p (moved c (- zlen hd))) by (done || apply lookup_insert_eq). cbn [rbind]. rewrite Ht.
  assert (byte_at r 6 = byte_at d 6 /\ byte_at r 7 = byte_at d 7) as [B6 B7] by (unfold d, byte_at, zlen in *; rewrite !app_nth1 by lia; done).
  rewrite B6, B7 in Hv. assert ((let! sum := (if negb (v =? 0) then inet_chksum_pseudo m p src_ip dest_ip IP_PROTO_UDP (zlen d) else Ok 0) in Ok (negb (sum =? 0))) =
    Ok (negb (udp_sum_ok src_ip dest_ip d))) as Esum.
  { unfold udp_sum_ok. rewrite <- Hv. destruct (v =? 0); [done|]. cbn [negb orb]. pose proof (zlen_nonneg d).
    unfold inet_chksum_pseudo. rewrite (pseudo_value m p (p :: l)) by (try done; cbn [cut]; rewrite ?Hc; unfold is_u16; lia).
    cbn [rbind cut]. by rewrite Hc. }
  destruct (if negb (v =? 0) then _ else _) as [sum|]; [|done]. cbn [rbind] in Esum |- *. injection Esum as ->.
  destruct (udp_sum_ok src_ip dest_ip d); cbn [negb]; [|done]. change (- UDP_HLEN) with (- (8)). rewrite E1. cbn [rbind Z.eqb negb]. fold m2.
  change (blocks_of (set_mem (set_mem s m) m2)) with (blocks_of s). change (set_mem (set_mem s m) m2) with (set_mem s m2).
  destruct (Z.eqb_spec b 0) as [->|Hb0]; cbn [negb].
  - destruct broadcast; cbn [negb andb orb rbind]; [done|]. destruct (ip_addr_ismulticast dest_ip); cbn [negb rbind]; [done|].
    change (mem (set_mem s m2)) with m2. destruct (header_word (mem s) p l c k hd r Hs Hd Hl Hh) as (w & Ew & Ehl).
    assert (hdr_u16 m2 (payload c) 0 = Ok w) as -> by (rewrite <- Ew; by apply hdr_block). cbn [rbind]. change UDP_HLEN with 8. rewrite Ehl, E2. cbn [rbind].
    change (set_mem (set_mem s m2) (mem s)) with (set_mem s (mem s)). by rewrite set_mem_same.
  - destruct (Hb Hb0) as [cb Ecb]. rewrite (udp_at_ok _ b cb), Ecb by done. cbn [rbind]. by destruct (udp_recv_fn cb).
Qed.

Lemma holds_some (u : udps G) f a : holds u f a = true -> is_Some (udp_mem u !! a).
Proof using Type. unfold holds. destruct (udp_mem u !! a); [by eexists|done]. Qed.
Lemma block_some (u : udps G) l dhcp d broadcast src dest src_ip dest_ip : (d <> 0 -> is_Some (udp_mem u !! d)) ->
  let b := block_for u l dhcp d broadcast src dest src_ip dest_ip in b <> 0 -> is_Some (udp_mem u !! b).
Proof using Type.
  intros Hd b. unfold b, block_for. destruct (dest =? DHCP_CLIENT_PORT).
  - destruct (_ && _) eqn:E; [|done]. intros Hd0. by apply Hd.
  - destruct (List.find (full_match _ _ _ _ _ _) l) as [a|] eqn:Ef; [|destruct (List.find (open_match _ _ _ _) l) as [a|] eqn:Eo; [|done]]; intros _; cbn [default].
    + apply find_some in Ef as [_ Ef]. by eapply holds_some.
    + apply find_some in Eo as [_ Eo]. by eapply holds_some.
Qed.

(** The beginning of [udp_input], for a datagram with a whole header in the first
    pbuf. *)
Lemma udp_input_found s p l c k hd r inp n b u' : sendable (mem s) p l c k -> inp <> 0 -> nifs (ifs (env s)) !! inp = Some n ->
  data_of (mem s) p = hd ++ r -> IP_HLEN <= zlen hd -> header_length hd = zlen hd -> UDP_HLEN <= zlen r ->
  let broadcast := ip4_addr_isbroadcast (current_iphdr_dest (ipv (env s))) (iface_of n) in
  find_block dhcp_pcb s n (word_at r 0) (word_at r 2) broadcast = Ok (b, set_blocks s u') ->
  input s p inp = udp_deliver output call (set_mem (set_blocks s u') (at_message (mem s) p c (zlen hd))) p inp b (word_at r 0) broadcast
    (payload c) ((payload c).1, (payload c).2 + zlen hd).
Proof using Type*.
  intros Hs Hi En Hd H20 Hh H8 broadcast Eb. change UDP_HLEN with 8 in H8.
  assert (20 <= zlen hd <= 60) as H60 by (split; [exact H20|rewrite <- Hh; unfold header_length; Z.div_mod_to_equations; lia]).
  assert (20 <= length hd)%nat as Hl by (unfold zlen in H60; lia).
  destruct (sendable_cell _ _ _ _ _ Hs) as (Hp0 & _ & _ & _ & Hlen & Htot). rewrite Hd, zlen_app in Hlen.
  rewrite contents_cons, Hd, !zlen_app in Htot. pose proof (zlen_nonneg (contents (mem s) l)) as Hcl.
  destruct (header_word (mem s) p l c k hd r Hs Hd Hl Hh) as (w & Ew & Ehl). unfold udp_input.
  rewrite (deref_ok _ p c) by (done || apply Hs). cbn [rbind]. rewrite Ew. cbn [rbind]. rewrite Ehl, Htot.
  rewrite (proj2 (Z.ltb_ge _ _)) by (change UDP_HLEN with 8; lia). destruct (hide (mem s) p l c k (zlen hd) Hs) as (-> & _); [lia|lia|]. cbn [rbind Z.eqb negb].
  rewrite (deref_ok _ p (moved c (- zlen hd))) by (done || apply lookup_insert_eq). cbn [rbind].
  change (payload (moved c (- zlen hd))) with ((payload c).1, (payload c).2 - - zlen hd). rewrite Z.sub_opp_r.
  rewrite (nif_at_ok _ inp n) by done. cbn [rbind]. change (mem (set_mem s (put (mem s) p (moved c (- zlen hd))))) with (put (mem s) p (moved c (- zlen hd))).
  destruct (port_field (mem s) p l c k hd r 0 Hs Hd) as (v0 & E0 & Ev0 & _); [unfold zlen in H8; lia|]. change (Z.of_nat 0) with 0 in E0.
  destruct (port_field (mem s) p l c k hd r 2 Hs Hd) as (v2 & E2 & Ev2 & _); [unfold zlen in H8; lia|]. change (Z.of_nat 2) with 2 in E2.
  destruct (hdr_block (mem s) (put (mem s) p (moved c (- zlen hd))) ((payload c).1, (payload c).2 + zlen hd) 0) as (_ & -> & _); [done|].
  destruct (hdr_block (mem s) (put (mem s) p (moved c (- zlen hd))) ((payload c).1, (payload c).2 + zlen hd) 2) as (_ & -> & _); [done|].
  rewrite E0. cbn [rbind]. rewrite E2. cbn [rbind]. rewrite Ev0, Ev2. unfold find_block in Eb |- *. fold broadcast.
  change (blocks_of (set_mem s _)) with (blocks_of s). change (env (set_mem s _)) with (env s).
  destruct (word_at r 2 =? DHCP_CLIENT_PORT).
  - change (dhcp_block dhcp_pcb (set_mem s _)) with (dhcp_block dhcp_pcb s). destruct (dhcp_block dhcp_pcb s _ _ _) as [b0|]; [|done].
    cbn [rbind] in Eb |- *. injection Eb as -> Es. by rewrite <- Es.
  - destruct (demux_loop _ _ _ _ _ _ _ _ _ _) as [[b0 u0]|]; [|done]. cbn [rbind] in Eb |- *. injection Eb as -> Es. by rewrite <- Es.
Qed.

(** C12: received datagrams.  One shorter than its header is dropped.  Otherwise the block is that of [block_for]; without one a datagram to another address than the interface's is dropped, and so is one with a checksum that does not verify over the pseudo header and all its bytes; a zero checksum is not looked at.  The callback of the block gets exactly the bytes behind the header, the source address and the source port, and the packet with them; a block without a callback drops it.  When no block takes what was sent to the interface's own address alone, the packet is turned back to its IP header for a port unreachable message and freed; every drop changes the pbufs of the packet only. *)
Theorem udp_input_decides s p l c k hd r inp n ul : sendable (mem s) p l c k -> Forall (releasable (mem s)) (p :: l) ->
  inp <> 0 -> nifs (ifs (env s)) !! inp = Some n -> udp_ok (blocks_of s) ul -> let dhcp := dhcp_pcb (rest (env s)).2 (nif_dhcp n) in
  (dhcp <> 0 -> is_Some (udp_mem (blocks_of s) !! dhcp)) ->
  data_of (mem s) p = hd ++ r -> IP_HLEN <= zlen hd -> header_length hd = zlen hd ->
  let src_ip := current_iphdr_src (ipv (env s)) in let dest_ip := current_iphdr_dest (ipv (env s)) in
  is_u32 src_ip -> is_u32 dest_ip ->
  let d := r ++ contents (mem s) l in
  (zlen d < UDP_HLEN -> input s p inp = free_packet s p) /\
  (UDP_HLEN <= zlen r ->
   let broadcast := ip4_addr_isbroadcast dest_ip (iface_of n) in
   let b := block_for (blocks_of s) ul (nif_dhcp n) dhcp broadcast (word_at d 0) (word_at d 2) src_ip dest_ip in
   exists u' ul' m, udp_ok u' ul' /\ same_cells set_udp_next (udp_mem (blocks_of s)) (udp_mem u') /\
     packet m p (p :: l) /\ untouched (mem s) m [p] /\ contents m (p :: l) = drop 8 d /\
     let s' := set_blocks s u' in
     if (b =? 0) && negb (nif_ip_addr n =? dest_ip) || negb (udp_sum_ok src_ip dest_ip d) then ignored s' p l (input s p inp)
     else if b =? 0 then
       if broadcast || ip_addr_ismulticast dest_ip then ignored s' p l (input s p inp)
       else input s p inp = (let! s'' := icmp_dest_unreach output s' p ICMP_DUR_PORT in free_packet s'' p)
     else match udp_mem u' !! b with
          | Some cb => match udp_recv_fn cb with
                       | Some f => input s p inp = call f (udp_recv_arg cb) b p src_ip (word_at d 0) (set_mem s' m)
                       | None => ignored s' p l (input s p inp)
                       end
          | None => False
          end).
Proof using Type*.
  intros Hs Hr Hi En Hok dhcp Hdhcp Hd H20 Hh src_ip dest_ip Hsrc Hdst d. change UDP_HLEN with 8.
  assert (20 <= zlen hd <= 60) as H60 by (split; [exact H20|rewrite <- Hh; unfold header_length; Z.div_mod_to_equations; lia]).
  assert (20 <= length hd)%nat as Hl by (unfold zlen in H60; lia).
  destruct (sendable_cell _ _ _ _ _ Hs) as (Hp0 & _ & _ & _ & Hlen & Htot). rewrite Hd, zlen_app in Hlen.
  rewrite contents_cons, Hd, <- app_assoc, zlen_app in Htot. fold d in Htot.
  destruct (header_word (mem s) p l c k hd r Hs Hd Hl Hh) as (w & Ew & Ehl).
  assert (input s p inp = if zlen d <? 8 then free_packet s p else input s p inp) as Eshort.
  { destruct (Z.ltb_spec (zlen d) 8); [|done]. unfold udp_input. rewrite (deref_ok _ p c) by (done || apply Hs). cbn [rbind]. rewrite Ew. cbn [rbind].
    by rewrite Ehl, Htot, (proj2 (Z.ltb_lt _ _)) by (change UDP_HLEN with 8; lia). }
  split; [intros H8; rewrite Eshort; by rewrite (proj2 (Z.ltb_lt _ _))|]. intros H8 broadcast b.
  assert (8 <= zlen d) as Hd8 by (unfold d; rewrite zlen_app; pose proof (zlen_nonneg (contents (mem s) l)); lia).
  assert (forall i, (i < 8)%nat -> byte_at d i = byte_at r i) as Hby by (intros i ?; unfold d, byte_at, zlen in *; apply app_nth1; lia).
  destruct (find_block_ok s n ul (word_at d 0) (word_at d 2) broadcast Hok Hdhcp) as (u' & ul' & Eb & Hok' & Hsame). fold dhcp src_ip dest_ip b in Eb.
  set (s' := set_blocks s u').
  destruct (hidden_packet (mem s) p l c k (zlen hd + 8) Hs) as (Hpk & Hc & Hu & _); [lia|lia|].
  exists u', ul', (at_message (mem s) p c (zlen hd + 8)). split; [done|]. split; [done|]. split; [done|]. split; [done|]. split.
  { rewrite Hc, Hd. unfold zlen in *. rewrite drop_app_ge by lia. unfold d. rewrite drop_app_le by lia. do 2 f_equal. lia. }
  assert (input s p inp = udp_deliver output call (set_mem s' (at_message (mem s) p c (zlen hd))) p inp b (word_at d 0) broadcast
    (payload c) ((payload c).1, (payload c).2 + zlen hd)) as ->.
  { assert (word_at r 0 = word_at d 0 /\ word_at r 2 = word_at d 2) as [E0 E2] by (unfold word_at; rewrite !Hby by lia; done).
    rewrite <- E0. rewrite <- E0, <- E2 in Eb. by apply (udp_input_found s p l c k hd r inp n b u'). }
  apply (udp_deliver_ok s' p l c k hd r inp n b (word_at d 0) broadcast); try done.
  intros Hb0. destruct (block_some (blocks_of s) ul (nif_dhcp n) dhcp broadcast (word_at d 0) (word_at d 2) src_ip dest_ip Hdhcp Hb0) as [cb Ecb].
  fold b in Ecb. destruct (same_cells_at _ _ _ _ _ Hsame Ecb) as (cb' & Ecb' & _). by eexists.
Qed.
End input.

(** ** An example *)

(** A datagram of the peer of [three_udps] to the station. *)
Definition datagram (chk : list Z) (data : list Z) : list Z := be16 1053 ++ be16 53 ++ be16 (8 + zlen data) ++ chk ++ data.
Definition datagram_sum (data : list Z) : Z :=
  inet_chksum false (pseudo_header from_host to_station IP_PROTO_UDP (8 + zlen data) ++ datagram [0; 0] data).
Definition for_peer : list Z := datagram (bytes_u16 (datagram_sum [1; 2; 3])) [1; 2; 3].
Definition peer_header : list Z := ip_header 64 0 IP_PROTO_UDP 31 1 from_host to_station (header_chksum 64 0 IP_PROTO_UDP 31 1 from_host to_station []) [].
Definition peer_net : net (stack (raws Z) (udps Z * list (list Z))) :=
  Net some_entries 0 (room_store (peer_header ++ for_peer))
    (Stack two_ifs two_tcps (IpVars 1 (Some (600, 60)) from_host to_station 1) (Raws 0 empty) (three_udps, no_log)).
(** A callback that leaves everything as it is. *)
Definition look (f arg pcb p src port : Z) (s : net (stack (raws Z) (udps Z * list (list Z)))) : result (net (stack (raws Z) (udps Z * list (list Z)))) := Ok s.
Definition no_client (x : list (list Z)) (dhcp : Z) : Z := 0.
Definition accept_datagrams (s : net (stack (raws Z) (udps Z * list (list Z)))) (nif p dest : Z) :
  result (Z * net (stack (raws Z) (udps Z * list (list Z)))) := Ok (ERR_OK, s).

Lemma peer_sendable : sendable (room_store (peer_header ++ for_peer)) 600 [] (room_pbuf (peer_header ++ for_peer)) PBUF_LINK_HLEN.
Proof. apply room_sendable; [by apply (bool_decide_unpack _); vm_compute|by vm_compute]. Qed.

Lemma udp_input_decides_witness :
  udp_ok three_udps [200; 100] /\ udp_sum_ok from_host to_station for_peer = true /\
  exists u' ul' m, udp_ok u' ul' /\ contents m [600] = [1; 2; 3] /\
    exists cb f, udp_mem u' !! 200 = Some cb /\ udp_recv_fn cb = Some f /\
    udp_input accept_datagrams look no_client peer_net 600 1 = look f (udp_recv_arg cb) 200 600 from_host 1053 (set_mem (set_blocks peer_net u') m).
Proof.
  split; [exact three_udps_ok|]. split; [vm_compute; reflexivity|].
  assert (is_u32 from_host /\ is_u32 to_station) as [H1 H2] by (split; by apply (bool_decide_unpack _)).
  assert (header_length peer_header = zlen peer_header) as H3 by (vm_compute; reflexivity).
  destruct (udp_input_decides accept_datagrams look no_client peer_net 600 [] _ PBUF_LINK_HLEN peer_header for_peer 1 station [200; 100] peer_sendable
    (room_releasable _) ltac:(discriminate) eq_refl three_udps_ok ltac:(intros []; reflexivity) (room_held _) ltac:(discriminate) H3 H1 H2)
    as [_ Hx].
  destruct (Hx ltac:(discriminate)) as (u' & ul' & m & Hok & Hs & _ & _ & Hc & Hd). exists u', ul', m. split; [exact Hok|]. split; [exact Hc|].
  destruct (same_cells_at _ _ _ 200 peer Hs eq_refl) as (cb & Ecb & Ecb'). exists cb, 2. split; [exact Ecb|].
  assert (udp_recv_fn cb = Some 2) as Ef by exact (f_equal udp_recv_fn Ecb'). split; [exact Ef|].
  cbv zeta in Hd. change (contents (mem peer_net) []) with (@nil Z) in Hd. rewrite app_nil_r in Hd.
  change (block_for _ _ _ _ _ _ _ _ _) with 200 in Hd. change (udp_sum_ok _ _ _) with true in Hd. cbn [Z.eqb andb orb negb] in Hd.
  rewrite Ecb, Ef in Hd. exact Hd.
Defined.
