(* ===== verification/UdpOutput.v ===== *)
(** * Sent datagrams: theorems about [udp_sendto_if] of [lwip/core/udp.c]. *)
From S2P Require Import Prelude Cobs Uart Comm Message Pbuf PbufChain PbufCopy PbufTrim InetChksum IpHdr IpAddr.
From S2P Require Import Linked RawPcb Etharp EtharpTable EtharpPackets Netif Ip IpOutput IpInput Icmp IcmpEcho Udp UdpPorts UdpInput.
From stdpp Require Import list gmap.
#[local] Open Scope Z_scope.
#[local] Transparent bytes_u16.

(** ** The checksum *)
Lemma wsum_app a b : zlen a mod 2 = 0 -> wsum (a ++ b) = wsum a + wsum b.
Proof.
  induction a as [|x|x y a IH] using pair_ind; intros He; [done|done|]. cbn [app wsum]. rewrite IH; [lia|].
  unfold zlen in *. cbn [length] in He. Z.div_mod_to_equations. lia.
Qed.

(** The checksum of [udp_sendto_if], where 0 is sent as 0xffff, verifies. *)
Definition sent_sum (sum : Z) : Z := if sum =? 0 then 0xffff else sum.
Lemma sent_sum_verifies a b : bytes a -> bytes b -> zlen a mod 2 = 0 -> zlen a + zlen b <= 65533 ->
  let c := inet_chksum false (a ++ [0; 0] ++ b) in
  is_u16 (sent_sum c) /\ sent_sum c <> 0 /\ inet_chksum false (a ++ bytes_u16 (sent_sum c) ++ b) = 0.
Proof.
  intros Ha Hb He Hl c. assert (is_u16 c) as Hc by (unfold c, is_u16, inet_chksum, u16; apply Z.mod_pos_bound; done).
  unfold sent_sum. destruct (Z.eqb_spec c 0) as [E|Hne].
  - split; [done|]. split; [done|]. assert (zlen (a ++ [0; 0] ++ b) <= 65535 /\ zlen (a ++ [255; 255] ++ b) <= 65535) as [L1 L2]
      by (rewrite !zlen_app; change (zlen [0; 0]) with 2; change (zlen [255; 255]) with 2; lia).
    apply verifies_iff in E; [|repeat (apply bytes_app; split); try done; by apply (bool_decide_unpack _)|done].
    apply verifies_iff; [repeat (apply bytes_app; split); try done; by apply (bool_decide_unpack _)|done|].
    rewrite wsum_app in * by done. cbn [app wsum bytes_u16] in *. change (65535 mod 256) with 255. change ((65535 / 256) mod 256) with 255.
    replace (wsum a + (255 + 256 * 255 + wsum b)) with (wsum a + (0 + 256 * 0 + wsum b) + 1 * 65535) by lia. rewrite Z.mod_add by done. lia.
  - split; [done|]. split; [done|]. unfold bytes_u16. rewrite (Z.mod_small (c / 256)) by (unfold is_u16 in Hc; Z.div_mod_to_equations; lia).
    by apply inet_chksum_verifies.
Qed.

(** Shortening a packet that has room in front. *)
Lemma sendable_trim m p c n k : sendable m p [] c n -> 1 <= ref c -> is_Some (blocks m !! p) -> 0 < k <= len c ->
  exists m' c', pbuf_realloc m p k = Ok m' /\ sendable m' p [] c' n /\ data_of m' p = take (Z.to_nat k) (data_of m p) /\
    untouched m m' [p] /\ ref c' = ref c.
Proof.
  intros Hs Hr1 Hbk Hk. destruct (sendable_cell _ _ _ _ _ Hs) as (Hp0 & _ & Hok & Hcd & Hlen & _). pose proof (send_cell _ _ _ _ _ Hs) as Ec.
  destruct Hok as (Hl16 & Href & _ & _). unfold is_u16 in Href.
  assert (contents m [p] = data_of m p) as Ed by (unfold contents; cbn [map concat]; by rewrite app_nil_r).
  destruct (realloc_ok m p [p] k (send_packet _ _ _ _ _ Hs)) as (m' & l1 & b & l2 & E & El & (Hpk & Hc & U & Hkeep) & _);
    [done|apply Hs|constructor; [exists c; split; [done|split; [done|lia]]|done]|rewrite Ed; lia|].
  assert (l1 = [] /\ b = p /\ l2 = []) as (-> & -> & ->).
  { destruct l1 as [|? l1]; [by injection El as <- <-|]. injection El as _ El. by destruct l1. }
  cbn [app] in *. destruct (Hkeep p) as (Hb & c1 & c' & Ec1 & Ec' & Epl & Er & Ety & _); [by left|]. assert (c1 = c) as -> by congruence.
  assert (data_of m' p = contents m' [p]) as Ed' by (unfold contents; cbn [map concat]; by rewrite app_nil_r).
  rewrite Ed in Hc. assert (len c' = k) as Ek.
  { pose proof (packet_cells _ _ _ Hpk) as [Hok _]%Forall_cons. unfold pbuf_ok in Hok. rewrite Ec' in Hok.
    pose proof (cell_data_length m' c' Hok) as Hz. unfold data_of in Ed'. rewrite Ec' in Ed'. rewrite Ed', Hc in Hz.
    unfold zlen in *. rewrite length_take in Hz. lia. }
  exists m', c'. split; [done|]. split; [|split; [by rewrite Ed', Hc|split; [done|done]]].
  pose proof (send_area _ _ _ _ _ Hs) as Ha. pose proof (send_room _ _ _ _ _ Hs). pose proof (send_small _ _ _ _ _ Hs) as Hsm.
  destruct (send_block _ _ _ _ _ Hs) as (bl & Eb & Hbb & Hbl). pose proof (send_own _ _ _ _ _ Hs) as [Ho _]%Forall_cons. unfold own in Ho. rewrite Ec in Ho.
  split; [done|constructor; [unfold own; rewrite Ec', Epl; exact Ho|done]|done|unfold has_area in *; by rewrite Ety, Epl|by rewrite Epl| |].
  - rewrite Hc. rewrite Ed in Hsm. unfold zlen in *. rewrite length_take. lia.
  - exists bl. rewrite Hb, Epl. split; [done|]. split; [done|lia].
Qed.

Section send.
Context `{OsLaws} {F G X : Type}.
Abbreviation state := (net (stack (raws F) (udps G * X))).
Implicit Type s : state.
Context (output : state -> Z -> Z -> Z -> result (Z * state)).

(** A datagram with the checksum field [chk]. *)
Definition udp_datagram (src dest : Z) (chk data : list Z) : list Z := be16 src ++ be16 dest ++ be16 (8 + zlen data) ++ chk ++ data.

Lemma udp_spliced (x r : list Z) src dest len chk : zlen x = 8 -> is_u16 src -> is_u16 dest -> is_u16 len ->
  let d := spliced (x ++ r) [(0, bytes_u16 (htons src)); (2, bytes_u16 (htons dest)); (6, bytes_u16 0)] in
  splice d 4 (bytes_u16 (htons len)) = be16 src ++ be16 dest ++ be16 len ++ [0; 0] ++ r /\
  splice (be16 src ++ be16 dest ++ be16 len ++ [0; 0] ++ r) 6 (bytes_u16 chk) = be16 src ++ be16 dest ++ be16 len ++ bytes_u16 chk ++ r.
Proof using Type.
  intros Hx Hs Hd Hl. rewrite !be16_u16 by done. do 8 (destruct x as [|? x]; [discriminate|]). destruct x; [split; reflexivity|unfold zlen in Hx; cbn in Hx; lia].
Qed.

Lemma be16_bytes v : bytes (be16 v).
Proof using Type. unfold be16. apply bytes_cons. split; [apply Z.mod_pos_bound; done|]. apply bytes_cons. split; [apply Z.mod_pos_bound; done|constructor]. Qed.

(** What is sent: the datagram with an IP header in front; and its checksum,
    which is 0 when the block wants none. *)
Definition sent_as s (m' : store) (p : Z) (l : list Z) (cb : udp_pcb G) (dest src_ip dst_ip : Z) (data : list Z) : Prop :=
  exists hchk chk, let d := udp_datagram (local_port cb) dest (bytes_u16 chk) data in
    contents m' (p :: l) = ip_header (udp_ttl cb) (udp_tos cb) IP_PROTO_UDP (20 + zlen d) (ip_id (ipv (env s))) src_ip dst_ip hchk [] ++ d /\
    inet_chksum false (ip_header (udp_ttl cb) (udp_tos cb) IP_PROTO_UDP (20 + zlen d) (ip_id (ipv (env s))) src_ip dst_ip hchk []) = 0 /\
    if Z.land (udp_flags cb) UDP_FLAGS_NOCHKSUM =? 0
    then is_u16 chk /\ chk <> 0 /\ inet_chksum false (pseudo_header src_ip dst_ip IP_PROTO_UDP (zlen d) ++ d) = 0
    else chk = 0.

(** A block with fields of their widths. *)
Definition pcb_wide (cb : udp_pcb G) : Prop :=
  is_byte (udp_ttl cb) /\ is_byte (udp_tos cb) /\ is_u16 (local_port cb) /\ is_u32 (udp_local_ip cb).

(** The length and the checksum, with the ports in place. *)
Lemma udp_summed m p l c n cb dest src_ip dst_ip x r : sendable m p l c n -> 20 <= n -> zlen x = 8 -> pcb_wide cb -> is_u16 dest ->
  is_u32 src_ip -> is_u32 dst_ip ->
  data_of m p = spliced (x ++ r) [(0, bytes_u16 (htons (local_port cb))); (2, bytes_u16 (htons dest)); (6, bytes_u16 0)] ->
  let data := r ++ contents m l in
  exists m' chk, (let! m1 := save m (payload c) 4 (bytes_u16 (htons (tot_len c))) in
      if Z.land (udp_flags cb) UDP_FLAGS_NOCHKSUM =? 0 then
        let! sum := inet_chksum_pseudo m1 p src_ip dst_ip IP_PROTO_UDP (tot_len c) in save m1 (payload c) 6 (bytes_u16 (sent_sum sum))
      else Ok m1) = Ok m' /\
    sendable m' p l c n /\ untouched m m' [p] /\ contents m' (p :: l) = udp_datagram (local_port cb) dest (bytes_u16 chk) data /\
    if Z.land (udp_flags cb) UDP_FLAGS_NOCHKSUM =? 0
    then is_u16 chk /\ chk <> 0 /\
      inet_chksum false (pseudo_header src_ip dst_ip IP_PROTO_UDP (8 + zlen data) ++ udp_datagram (local_port cb) dest (bytes_u16 chk) data) = 0
    else chk = 0.
Proof using Type*.
  intros Hs Hn Hx (_ & _ & Hlp & _) Hdp Hsrc Hdst Hd data.
  destruct (sendable_cell _ _ _ _ _ Hs) as (Hp0 & _ & Hok & Hcd & Hlen & Htot). pose proof (send_small _ _ _ _ _ Hs) as Hsm.
  rewrite contents_cons, Hd in Htot, Hsm. rewrite Hd in Hlen. set (d0 := spliced _ _) in *.
  assert (zlen d0 = 8 + zlen r) as Hz0.
  { unfold d0. do 8 (destruct x as [|? x]; [discriminate|]). destruct x; [|unfold zlen in Hx; cbn in Hx; lia]. change (zlen ([z; z0; z1; z2; z3; z4; z5; z6] ++ r) = 8 + zlen r). rewrite zlen_app. done. }
  assert (zlen data = zlen r + zlen (contents m l)) as Hzd by apply zlen_app. pose proof (zlen_nonneg r) as Hr0. pose proof (zlen_nonneg (contents m l)) as Hc0.
  rewrite zlen_app in Htot, Hsm. assert (tot_len c = 8 + zlen data) as Et by lia. rewrite Et.
  destruct (udp_spliced x r (local_port cb) dest (8 + zlen data) 0 Hx Hlp Hdp) as [E4 _]; [unfold is_u16; lia|]. fold d0 in E4.
  destruct (sendable_save m p l c n 4 (bytes_u16 (htons (8 + zlen data))) Hs) as (m1 & -> & Hs1 & Hd1 & Hl1 & Hc1 & U1);
    [lia|rewrite zlen_u16; lia|apply bytes_u16_bytes|]. cbn [rbind]. rewrite Hd, E4 in Hd1.
  assert (contents m1 (p :: l) = udp_datagram (local_port cb) dest [0; 0] data) as Hcon1.
  { rewrite contents_cons, Hd1, Hl1. unfold udp_datagram, data. by rewrite <- !app_assoc. }
  destruct (Z.land (udp_flags cb) UDP_FLAGS_NOCHKSUM =? 0); [|exists m1, 0; done].
  assert (zlen (udp_datagram (local_port cb) dest [0; 0] data) = 8 + zlen data) as Hzu by (unfold udp_datagram; rewrite !zlen_app; change (2 + (2 + (2 + (2 + zlen data))) = 8 + zlen data); lia).
  pose proof (send_packet _ _ _ _ _ Hs1) as [Hch1 HF1 _ _]. unfold inet_chksum_pseudo.
  rewrite (pseudo_value m1 p (p :: l)) by (try done; cbn [cut]; rewrite ?Hcon1, ?Hzu; unfold is_u16; lia). cbn [rbind cut]. rewrite Hcon1.
  set (sum := inet_chksum false _).
  destruct (udp_spliced x r (local_port cb) dest (8 + zlen data) (sent_sum sum) Hx Hlp Hdp) as [_ E6]; [unfold is_u16; lia|].
  destruct (sendable_save m1 p l c n 6 (bytes_u16 (sent_sum sum)) Hs1) as (m2 & -> & Hs2 & Hd2 & Hl2 & Hc2 & U2);
    [lia|rewrite zlen_u16; lia|apply bytes_u16_bytes|]. rewrite Hd1, E6 in Hd2. exists m2, (sent_sum sum). split; [done|]. split; [done|].
  split; [by eapply untouched_trans|]. split; [rewrite contents_cons, Hd2, Hl2, Hl1; unfold udp_datagram, data; by rewrite <- !app_assoc|].
  pose proof (contents_bytes m1 (p :: l) HF1) as Hb1. rewrite Hcon1 in Hb1. unfold udp_datagram in Hb1. rewrite !bytes_app in Hb1.
  set (a := pseudo_header src_ip dst_ip IP_PROTO_UDP (8 + zlen data) ++ be16 (local_port cb) ++ be16 dest ++ be16 (8 + zlen data)).
  assert (forall chk, pseudo_header src_ip dst_ip IP_PROTO_UDP (8 + zlen data) ++ udp_datagram (local_port cb) dest chk data = a ++ chk ++ data) as Ea
    by (intros chk; unfold a, udp_datagram; by rewrite <- !app_assoc).
  rewrite Ea. unfold sum. rewrite Ea. apply sent_sum_verifies; [|tauto|done|change (zlen a) with 18; lia].
  apply bytes_app. split; [apply pseudo_header_bytes; try done; unfold is_u16; lia|]. repeat (apply bytes_app; split); apply be16_bytes.
Qed.

Lemma udp_emit_ok s cb p l c n x r dest src_ip dst_ip netif ni : sendable (mem s) p l c n -> 20 <= n -> zlen x = 8 -> pcb_wide cb -> is_u16 dest ->
  is_u32 src_ip -> is_u32 dst_ip -> src_ip <> IPADDR_ANY \/ src_ip = nif_ip_addr ni -> netif <> 0 -> nifs (ifs (env s)) !! netif = Some ni ->
  is_u32 (nif_ip_addr ni) -> is_u16 (ip_id (ipv (env s))) ->
  data_of (mem s) p = spliced (x ++ r) [(0, bytes_u16 (htons (local_port cb))); (2, bytes_u16 (htons dest)); (6, bytes_u16 0)] ->
  exists m', udp_emit output s cb p src_ip dst_ip netif (payload c) = output (numbered s m') netif p dst_ip /\
    packet m' p (p :: l) /\ untouched (mem s) m' [p] /\ sent_as s m' p l cb dest src_ip dst_ip (r ++ contents (mem s) l).
Proof using Type*.
  intros Hs Hn Hx Hw Hdp Hsrc Hdst Hany Hnz En Hni Hid Hd. destruct (sendable_cell _ _ _ _ _ Hs) as (Hp0 & _).
  destruct (udp_summed (mem s) p l c n cb dest src_ip dst_ip x r Hs Hn Hx Hw Hdp Hsrc Hdst Hd) as (m1 & chk & E & Hs1 & U1 & Hc1 & Hchk).
  set (data := r ++ contents (mem s) l) in *. destruct Hw as (Htt & Hto & _ & _).
  destruct (header_written output (set_mem s m1) p l c n src_ip dst_ip (udp_ttl cb) (udp_tos cb) IP_PROTO_UDP netif ni [] Hs1) as
    (m2 & hchk & E2 & Hpk & U2 & Hc2 & Hv); try done; [constructor|].
  cbn [mem set_mem env] in U2, Hc2, Hv, E2. change (padded []) with (@nil Z) in Hc2, Hv. change (20 + aligned (zlen (@nil Z))) with 20 in Hc2, Hv.
  assert ((if src_ip =? IPADDR_ANY then nif_ip_addr ni else src_ip) = src_ip) as Esrc.
  { destruct (Z.eqb_spec src_ip IPADDR_ANY); [|done]. by destruct Hany. }
  rewrite Esrc, Hc1 in Hc2. rewrite Esrc, Hc1 in Hv. exists m2. split; [|split; [done|split; [by eapply untouched_trans|]]].
  - unfold udp_emit. rewrite (deref_ok _ p c) by (done || apply Hs). cbn [rbind]. unfold ip_output_if.
    destruct (save (mem s) (payload c) 4 _) as [m0|]; [|done]. cbn [rbind] in E |- *. unfold sent_sum in E. rewrite E. cbn [rbind]. exact E2.
  - exists hchk, chk. cbv zeta. split; [exact Hc2|]. split; [apply Hv|].
    assert (zlen (udp_datagram (local_port cb) dest (bytes_u16 chk) data) = 8 + zlen data) as ->; [|exact Hchk].
    unfold udp_datagram. rewrite !zlen_app. change (2 + (2 + (2 + (2 + zlen data))) = 8 + zlen data). lia.
Qed.

Lemma sendto_if_ok s pcb cb ul p l c n dst_ip dst_port netif ni : udp_ok (blocks_of s) ul -> udp_mem (blocks_of s) !! pcb = Some cb ->
  has_port (blocks_of s) ul cb -> pcb_wide cb -> sendable (mem s) p l c n -> UDP_HLEN + IP_HLEN <= n -> is_u16 dst_port -> is_u32 dst_ip -> ip_addr_ismulticast dst_ip = false ->
  netif <> 0 -> nifs (ifs (env s)) !! netif = Some ni -> is_u32 (nif_ip_addr ni) -> is_u16 (ip_id (ipv (env s))) ->
  exists u' cb', udp_ok u' (listing ul pcb) /\ udp_mem u' !! pcb = Some cb' /\ local_port cb' <> 0 /\
    (local_port cb <> 0 -> u' = blocks_of s /\ cb' = cb) /\ erased set_udp_next cb' = erased set_udp_next (set_local_port cb (local_port cb')) /\
    let src_ip := if udp_local_ip cb =? IPADDR_ANY then nif_ip_addr ni else udp_local_ip cb in
    exists m', packet m' p (p :: l) /\ untouched (mem s) m' [p] /\
      if src_ip =? nif_ip_addr ni then
        udp_sendto_if output s pcb p dst_ip dst_port netif = output (numbered (set_blocks s u') m') netif p dst_ip /\
        sent_as s m' p l cb' dst_port src_ip dst_ip (contents (mem s) (p :: l))
      else udp_sendto_if output s pcb p dst_ip dst_port netif = Ok (ERR_VAL, set_mem (set_blocks s u') m').
Proof using Type*.
  intros Hok Ecb Hfree Hw Hs Hn Hdp Hdst Hmc Hnz En Hni Hid. change (8 + 20 <= n) in Hn. destruct (ok_member _ _ _ _ Hok Ecb) as [Hb0 _].
  destruct (auto_bind (blocks_of s) ul pcb cb Hok Ecb Hfree) as (u' & cb' & Ebind & Hok' & Ecb' & Hsame & Her).
  assert (0 < local_port cb' < 65536) as Hlp by (apply (ok_ports _ _ Hok' pcb); [apply listing_in; by left|done]).
  assert (udp_local_ip cb' = udp_local_ip cb /\ udp_ttl cb' = udp_ttl cb /\ udp_tos cb' = udp_tos cb) as (Eip & Ett & Eto)
    by (split; [exact (f_equal udp_local_ip Her)|split; [exact (f_equal udp_ttl Her)|exact (f_equal udp_tos Her)]]).
  assert (pcb_wide cb') as Hw' by (destruct Hw as (? & ? & _ & ?); unfold pcb_wide, is_u16; rewrite Eip, Ett, Eto; split; [done|split; [done|split; [lia|done]]]).
  exists u', cb'. split; [done|]. split; [done|]. split; [lia|]. split; [done|]. split; [done|]. intros src_ip.
  destruct (reveal (mem s) p l c n 8 Hs) as (E8 & Hs1 & Hl1 & x & Hx & _ & Hd1); [lia|lia|]. set (m1 := put (mem s) p (moved c 8)) in *.
  destruct (sendable_cell _ _ _ _ _ Hs1) as (Hp0 & _ & _ & _ & Hlen1 & _). rewrite Hd1, zlen_app in Hlen1. pose proof (zlen_nonneg (data_of (mem s) p)).
  destruct (sendable_fields [(0, bytes_u16 (htons (local_port cb'))); (2, bytes_u16 (htons dst_port)); (6, bytes_u16 0)] m1 p l (moved c 8) (n - 8) Hs1)
    as (m2 & E2 & Hs2 & Hd2 & Hl2 & Hc2 & U2); [fields_fit|]. rewrite Hd1 in Hd2.
  assert (untouched (mem s) m2 [p]) as U by (eapply untouched_trans; [apply untouched_put; by rewrite (send_cell _ _ _ _ _ Hs)|exact U2]).
  assert (udp_sendto_if output s pcb p dst_ip dst_port netif =
    if negb (udp_local_ip cb =? IPADDR_ANY) && negb (udp_local_ip cb =? nif_ip_addr ni) then Ok (ERR_VAL, set_mem (set_blocks s u') m2)
    else udp_emit output (set_mem (set_blocks s u') m2) cb' p src_ip dst_ip netif (payload (moved c 8))) as ->.
  { unfold udp_sendto_if. rewrite (udp_at_ok _ pcb cb) by done. cbn [rbind]. rewrite Ebind. cbn [rbind Z.eqb negb].
    change (mem (set_blocks s u')) with (mem s). unfold udp_header. change (pbuf_header (mem s) p UDP_HLEN) with (pbuf_header (mem s) p 8). rewrite E8. cbn [rbind Z.eqb negb].
    rewrite (proj2 (Z.eqb_neq p 0)) by done. fold m1. change (mem (set_mem (set_blocks s u') m1)) with m1.
    change (blocks_of (set_mem (set_blocks s u') m1)) with u'. rewrite (udp_at_ok u' pcb cb') by done. cbn [rbind].
    rewrite (deref_ok m1 p (moved c 8)) by (done || apply lookup_insert_eq). cbn [rbind]. rewrite E2. cbn [rbind]. rewrite Hmc. cbn [andb].
    change (set_mem (set_mem (set_blocks s u') m1) m2) with (set_mem (set_blocks s u') m2). rewrite (nif_at_ok _ netif ni) by done. cbn [rbind].
    rewrite Eip. rewrite !(Z.eqb_refl p). cbn [negb rbind]. fold src_ip. destruct (_ && _); [done|]. destruct (udp_emit _ _ _ _ _ _ _ _) as [[]|]; [|done]. cbn [rbind]. by rewrite Z.eqb_refl. }
  assert ((src_ip =? nif_ip_addr ni) = negb (negb (udp_local_ip cb =? IPADDR_ANY) && negb (udp_local_ip cb =? nif_ip_addr ni))) as ->.
  { unfold src_ip. destruct (udp_local_ip cb =? IPADDR_ANY); cbn [negb andb]; [apply Z.eqb_refl|by rewrite negb_involutive]. }
  destruct (_ && _) eqn:Eany; cbn [negb]; [exists m2; split; [apply Hs2|by split]|].
  assert (src_ip <> IPADDR_ANY \/ src_ip = nif_ip_addr ni) as Hany by (unfold src_ip; destruct (Z.eqb_spec (udp_local_ip cb) IPADDR_ANY); [by right|by left]).
  assert (is_u32 src_ip) as Hsrc by (unfold src_ip; destruct (udp_local_ip cb =? IPADDR_ANY); [exact Hni|apply Hw]).
  destruct (udp_emit_ok (set_mem (set_blocks s u') m2) cb' p l (moved c 8) (n - 8) x (data_of (mem s) p) dst_port src_ip dst_ip netif ni Hs2)
    as (m3 & E3 & Hpk & U3 & Hsent); try done; [lia|].
  exists m3. split; [done|]. split; [by eapply untouched_trans|]. split; [exact E3|]. cbn [mem set_mem] in Hsent. rewrite Hl2, Hl1 in Hsent.
  by rewrite contents_cons.
Qed.

(** C13: sent datagrams.  With room for the headers in front of the packet [udp_sendto_if] binds a block without a port to a free one (while there is one), puts a UDP header with the ports, the length and the checksum, and an IP header with the time to live and the service of the block, in front of the data, and hands exactly that to the interface; the source is the address the block is bound to, or the interface's.  Both checksums verify, and that of the datagram is not 0, which would say there is none, unless the block wants none.  A block bound to another address than the interface's gets [ERR_VAL] and the interface is not called. *)
Theorem udp_sendto_if_sends s pcb cb ul p l c n dst_ip dst_port netif ni : udp_ok (blocks_of s) ul -> udp_mem (blocks_of s) !! pcb = Some cb ->
  has_port (blocks_of s) ul cb -> pcb_wide cb -> sendable (mem s) p l c n -> UDP_HLEN + IP_HLEN <= n -> is_u16 dst_port -> is_u32 dst_ip -> ip_addr_ismulticast dst_ip = false ->
  netif <> 0 -> nifs (ifs (env s)) !! netif = Some ni -> is_u32 (nif_ip_addr ni) -> is_u16 (ip_id (ipv (env s))) ->
  exists u' cb', udp_ok u' (listing ul pcb) /\ udp_mem u' !! pcb = Some cb' /\ local_port cb' <> 0 /\
    (local_port cb <> 0 -> u' = blocks_of s /\ cb' = cb) /\ erased set_udp_next cb' = erased set_udp_next (set_local_port cb (local_port cb')) /\
    let src_ip := if udp_local_ip cb =? IPADDR_ANY then nif_ip_addr ni else udp_local_ip cb in
    exists m', packet m' p (p :: l) /\ untouched (mem s) m' [p] /\
      if src_ip =? nif_ip_addr ni then
        udp_sendto_if output s pcb p dst_ip dst_port netif = output (numbered (set_blocks s u') m') netif p dst_ip /\
        sent_as s m' p l cb' dst_port src_ip dst_ip (contents (mem s) (p :: l))
      else udp_sendto_if output s pcb p dst_ip dst_port netif = Ok (ERR_VAL, set_mem (set_blocks s u') m').
Proof using Type*. apply sendto_if_ok. Qed.
End send.

(** A datagram as [udp_sendto_if] builds it is one [udp_input] takes: its checksum passes, and the ports, the length and the data are read back as they were given. *)
Theorem udp_datagram_roundtrip src dest chk data src_ip dst_ip : is_u16 src -> is_u16 dest -> is_u16 (8 + zlen data) -> is_u16 chk ->
  let d := udp_datagram src dest (bytes_u16 chk) data in
  chk = 0 \/ inet_chksum false (pseudo_header src_ip dst_ip IP_PROTO_UDP (zlen d) ++ d) = 0 ->
  udp_sum_ok src_ip dst_ip d = true /\ word_at d 0 = src /\ word_at d 2 = dest /\ word_at d 4 = zlen d /\ drop 8 d = data.
Proof.
  intros Hs Hd Hl Hc d Hsum.
  assert (zlen d = 8 + zlen data) as Hz by (unfold d, udp_datagram; rewrite !zlen_app; change (2 + (2 + (2 + (2 + zlen data))) = 8 + zlen data); lia).
  assert (forall v, is_u16 v -> 256 * ((v / 256) mod 256) + v mod 256 = v) as Hw by (intros v Hv; unfold is_u16 in Hv; Z.div_mod_to_equations; lia).
  split; [|split; [by apply Hw|split; [by apply Hw|split; [rewrite Hz; by apply Hw|done]]]].
  unfold udp_sum_ok. apply orb_true_iff. destruct Hsum as [->|Hsum]; [by left|right]. by apply Z.eqb_eq.
Qed.

(** ** Examples *)

(** The server of [three_udps] sends four bytes to 10.0.0.7. *)
Definition sending_net : net (stack (raws Z) (udps Z * list (list Z))) :=
  Net some_entries 0 small_store (Stack two_ifs two_tcps no_ip (Raws 0 empty) (three_udps, no_log)).

Lemma udp_sendto_if_sends_witness :
  udp_ok three_udps [200; 100] /\ sendable small_store 600 [] small_pbuf 40 /\
  exists u' m', udp_sendto_if accept_datagrams sending_net 100 600 (address_of 10 0 0 7) 9 1 =
      Ok (ERR_OK, numbered (set_blocks sending_net u') m') /\
    exists cb', udp_mem u' !! 100 = Some cb' /\
      sent_as sending_net m' 600 [] cb' 9 (nif_ip_addr station) (address_of 10 0 0 7) (contents small_store [600]).
Proof.
  split; [exact three_udps_ok|]. split; [exact small_sendable|].
  assert (pcb_wide server) as H1 by (repeat split; by apply (bool_decide_unpack _)).
  assert (is_u16 9 /\ is_u32 (address_of 10 0 0 7) /\ is_u32 (nif_ip_addr station) /\ is_u16 (ip_id no_ip)) as (H2 & H3 & H4 & H5)
    by (repeat split; by apply (bool_decide_unpack _)).
  destruct (udp_sendto_if_sends accept_datagrams sending_net 100 server [200; 100] 600 [] small_pbuf 40 (address_of 10 0 0 7) 9 1 station
    three_udps_ok eq_refl ltac:(left; discriminate) H1 small_sendable ltac:(discriminate) H2 H3 eq_refl ltac:(discriminate) eq_refl H4 H5)
    as (u' & cb' & _ & Ecb & _ & _ & _ & Hx). cbv zeta in Hx. destruct Hx as (m' & _ & _ & Hx).
  change (udp_local_ip server =? IPADDR_ANY) with true in Hx. cbv iota in Hx. rewrite Z.eqb_refl in Hx. destruct Hx as [Ha Hb].
  exists u', m'. split; [exact Ha|]. exists cb'. split; [exact Ecb|exact Hb].
Defined.

Lemma udp_datagram_roundtrip_witness :
  let d := udp_datagram 1053 53 (bytes_u16 (sent_sum (datagram_sum [1; 2; 3]))) [1; 2; 3] in
  inet_chksum false (pseudo_header from_host to_station IP_PROTO_UDP (zlen d) ++ d) = 0 /\
  udp_sum_ok from_host to_station d = true /\ drop 8 d = [1; 2; 3].
Proof.
  intros d. assert (inet_chksum false (pseudo_header from_host to_station IP_PROTO_UDP (zlen d) ++ d) = 0) as H1 by (vm_compute; reflexivity).
  split; [exact H1|].
  assert (is_u16 1053 /\ is_u16 53 /\ is_u16 (8 + zlen [1; 2; 3]) /\ is_u16 (sent_sum (datagram_sum [1; 2; 3]))) as (H2 & H3 & H4 & H5)
    by (repeat split; by apply (bool_decide_unpack _)).
  destruct (udp_datagram_roundtrip 1053 53 (sent_sum (datagram_sum [1; 2; 3])) [1; 2; 3] from_host to_station H2 H3 H4 H5 (or_intror H1))
    as (Ha & _ & _ & _ & Hb). exact (conj Ha Hb).
Defined.
