(* ===== verification/Dhcps.v ===== *)
(** * The DHCP server of the access point: [lwip/app/dhcpserver.c].

    The pool of leases, the parsing of requests and the answers, on top of the
    UDP of [Udp].  The allocator and the station table of the SDK are
    parameters. *)
From S2P Require Import Prelude Cobs Uart Comm Message Pbuf InetChksum IpHdr IpAddr Linked RawPcb Etharp Netif Ip Icmp Udp.
From stdpp Require Import list gmap.
#[local] Open Scope Z_scope.

Definition DHCPS_LEASE_TIMER : Z := 0x05A0.
Definition DHCPS_MAX_LEASE : Z := 0x64.
Definition BOOTP_BROADCAST : Z := 0x8000.
Definition DHCP_REPLY : Z := 2.
Definition DHCP_HTYPE_ETHERNET : Z := 1.
Definition DHCPS_SERVER_PORT : Z := 67.
Definition DHCPS_CLIENT_PORT : Z := 68.
Definition DHCPDISCOVER : Z := 1.
Definition DHCPOFFER : Z := 2.
Definition DHCPREQUEST : Z := 3.
Definition DHCPDECLINE : Z := 4.
Definition DHCPACK : Z := 5.
Definition DHCPNAK : Z := 6.
Definition DHCPRELEASE : Z := 7.
Definition DHCP_OPTION_SUBNET_MASK : Z := 1.
Definition DHCP_OPTION_ROUTER : Z := 3.
Definition DHCP_OPTION_INTERFACE_MTU : Z := 26.
Definition DHCP_OPTION_BROADCAST_ADDRESS : Z := 28.
Definition DHCP_OPTION_PERFORM_ROUTER_DISCOVERY : Z := 31.
Definition DHCP_OPTION_REQ_IPADDR : Z := 50.
Definition DHCP_OPTION_LEASE_TIME : Z := 51.
Definition DHCP_OPTION_MSG_TYPE : Z := 53.
Definition DHCP_OPTION_SERVER_ID : Z := 54.
Definition DHCP_OPTION_END : Z := 255.
Definition DHCPS_STATE_OFFER : Z := 1.
Definition DHCPS_STATE_ACK : Z := 3.
Definition DHCPS_STATE_NAK : Z := 4.
Definition DHCPS_STATE_IDLE : Z := 5.

(** [struct dhcps_pool] and [list_node]; 0 is NULL. *)
Record dhcps_pool := DhcpsPool { pool_ip : Z; pool_mac : list Z; lease_timer : Z }.
Record list_node := ListNode { pnode : Z; pnext : Z }.
Definition set_pnext (n : list_node) (a : Z) : list_node := ListNode (pnode n) a.

(** The bytes of [struct dhcps_msg] and the places of its fields. *)
Definition SIZEOF_DHCPS_MSG : Z := 548.
Definition MSG_XID : Z := 4.
Definition MSG_CHADDR : Z := 28.
Definition MSG_OPTIONS : Z := 236.

Definition magic_cookie : list Z := [99; 130; 83; 99].

(** The static variables, and the memory of the nodes and the pool entries;
    [s_state] is the field of [s]. *)
Record dhcps := Dhcps {
  xid : list Z; old_xid : list Z; pcb_dhcps : Z; broadcast_dhcps : Z; server_address : Z; client_address : Z;
  client_address_plus : Z; msg_dhcps : list Z; s_state : Z; lease_start : Z; lease_end : Z; dhcps_lease_flag : bool;
  plist : Z; nodes : gmap Z list_node; pools : gmap Z dhcps_pool
}.
Implicit Type d : dhcps.

Definition set_xid d x := Dhcps x (old_xid d) (pcb_dhcps d) (broadcast_dhcps d) (server_address d) (client_address d)
  (client_address_plus d) (msg_dhcps d) (s_state d) (lease_start d) (lease_end d) (dhcps_lease_flag d) (plist d) (nodes d) (pools d).
Definition set_old_xid d x := Dhcps (xid d) x (pcb_dhcps d) (broadcast_dhcps d) (server_address d) (client_address d)
  (client_address_plus d) (msg_dhcps d) (s_state d) (lease_start d) (lease_end d) (dhcps_lease_flag d) (plist d) (nodes d) (pools d).
Definition set_client d x := Dhcps (xid d) (old_xid d) (pcb_dhcps d) (broadcast_dhcps d) (server_address d) x
  (client_address_plus d) (msg_dhcps d) (s_state d) (lease_start d) (lease_end d) (dhcps_lease_flag d) (plist d) (nodes d) (pools d).
Definition set_plus d x := Dhcps (xid d) (old_xid d) (pcb_dhcps d) (broadcast_dhcps d) (server_address d) (client_address d)
  x (msg_dhcps d) (s_state d) (lease_start d) (lease_end d) (dhcps_lease_flag d) (plist d) (nodes d) (pools d).
Definition set_msg d x := Dhcps (xid d) (old_xid d) (pcb_dhcps d) (broadcast_dhcps d) (server_address d) (client_address d)
  (client_address_plus d) x (s_state d) (lease_start d) (lease_end d) (dhcps_lease_flag d) (plist d) (nodes d) (pools d).
Definition set_s_state d x := Dhcps (xid d) (old_xid d) (pcb_dhcps d) (broadcast_dhcps d) (server_address d) (client_address d)
  (client_address_plus d) (msg_dhcps d) x (lease_start d) (lease_end d) (dhcps_lease_flag d) (plist d) (nodes d) (pools d).
Definition set_lease d x y f := Dhcps (xid d) (old_xid d) (pcb_dhcps d) (broadcast_dhcps d) (server_address d) (client_address d)
  (client_address_plus d) (msg_dhcps d) (s_state d) x y f (plist d) (nodes d) (pools d).
Definition set_list d h n p := Dhcps (xid d) (old_xid d) (pcb_dhcps d) (broadcast_dhcps d) (server_address d) (client_address d)
  (client_address_plus d) (msg_dhcps d) (s_state d) (lease_start d) (lease_end d) (dhcps_lease_flag d) h n p.

(** ** The list of nodes *)

Fixpoint tail_loop (fuel : nat) (m : gmap Z list_node) (a : Z) : result Z :=
  match fuel with
  | O => Fault OutOfFuel
  | S fuel => let! n := cell m a in if pnext n =? 0 then Ok a else tail_loop fuel m (pnext n)
  end.

(** The new head and the nodes. *)
Definition node_insert_to_list (m : gmap Z list_node) (head pinsert : Z) : result (Z * gmap Z list_node) :=
  let! (head, m) := (if head =? 0 then Ok (pinsert, m)
                     else
                       let! a := tail_loop (list_fuel m) m head in
                       let! n := cell m a in
                       Ok (head, <[a := set_pnext n pinsert]> m)) in
  let! n := cell m pinsert in
  Ok (head, <[pinsert := set_pnext n 0]> m).

Fixpoint remove_loop (fuel : nat) (m : gmap Z list_node) (a pdelete : Z) : result (gmap Z list_node) :=
  match fuel with
  | O => Fault OutOfFuel
  | S fuel =>
      if a =? 0 then Ok m
      else
        let! n := cell m a in
        let! m := (if pnext n =? pdelete then let! nd := cell m pdelete in Ok (<[a := set_pnext n (pnext nd)]> m) else Ok m) in
        let! n := cell m a in
        remove_loop fuel m (pnext n) pdelete
  end.

Definition node_remove_from_list (m : gmap Z list_node) (head pdelete : Z) : result (Z * gmap Z list_node) :=
  if head =? 0 then Ok (0, m)
  else if head =? pdelete then let! n := cell m head in Ok (pnext n, m)
  else let! m := remove_loop (list_fuel m) m head pdelete in Ok (head, m).

(** ** The message *)

(** Options at [optptr]: the message and the place behind them. *)
Definition add_bytes (m : list Z) (optptr : Z) (l : list Z) : result (list Z * Z) :=
  let! m := mcopy m optptr l in Ok (m, optptr + zlen l).
Definition add_msg_type (m : list Z) (optptr type : Z) : result (list Z * Z) :=
  add_bytes m optptr [DHCP_OPTION_MSG_TYPE; 1; type].
Definition add_offer_options d (m : list Z) (optptr : Z) : result (list Z * Z) :=
  let ip := u32_bytes (server_address d) in
  add_bytes m optptr
    ([DHCP_OPTION_SUBNET_MASK; 4; 255; 255; 255; 0] ++ [DHCP_OPTION_LEASE_TIME; 4; 0x00; 0x01; 0x51; 0x80] ++
     [DHCP_OPTION_SERVER_ID; 4] ++ ip ++ [DHCP_OPTION_ROUTER; 4] ++ ip ++
     [DHCP_OPTION_BROADCAST_ADDRESS; 4] ++ take 3 ip ++ [255] ++ [DHCP_OPTION_INTERFACE_MTU; 2; 0x02; 0x40] ++
     [DHCP_OPTION_PERFORM_ROUTER_DISCOVERY; 1; 0x00] ++ [43; 6; 0x01; 4; 0x00; 0x00; 0x00; 0x02]).
Definition add_end (m : list Z) (optptr : Z) : result (list Z * Z) := add_bytes m optptr [DHCP_OPTION_END].

Fixpoint mfields (m : list Z) (l : list (Z * list Z)) : result (list Z) :=
  match l with
  | [] => Ok m
  | (off, x) :: l => let! m := mcopy m off x in mfields m l
  end.

(** [create_msg(&msg_dhcps)]: the transaction is copied out of the message, to
    [xid], which the source declares constant. *)
Definition create_msg d : result dhcps :=
  let m := msg_dhcps d in
  let! m := mfields m [(0, [DHCP_REPLY]); (1, [DHCP_HTYPE_ETHERNET]); (2, [6]); (3, [0])] in
  let! x := mslice m MSG_XID 4 in
  let d := set_xid d x in
  let! m := mfields m [(8, bytes_u16 0); (10, bytes_u16 (htons BOOTP_BROADCAST)); (16, u32_bytes (client_address d));
    (12, replicate 4 0); (20, replicate 4 0); (24, replicate 4 0); (44, replicate 64 0); (108, replicate 128 0);
    (MSG_OPTIONS, replicate 312 0); (MSG_OPTIONS, magic_cookie)] in
  Ok (set_msg d m).

(** ** Requests *)

(** The options from [optptr] to [fin]: the type of the message and the
    state. *)
Fixpoint options_loop (fuel : nat) (m : list Z) (client optptr fin type st : Z) : result (Z * Z) :=
  match fuel with
  | O => Fault OutOfFuel
  | S fuel =>
      if optptr <? fin then
        let! code := mread m optptr in
        let! (type, st) :=
          (if code =? DHCP_OPTION_MSG_TYPE then let! t := mread m (optptr + 2) in Ok (t, st)
           else if code =? DHCP_OPTION_REQ_IPADDR then
             let! a := mslice m (optptr + 2) 4 in
             Ok (type, if bool_decide (a = u32_bytes client) then DHCPS_STATE_ACK else DHCPS_STATE_NAK)
           else Ok (type, st)) in
        if code =? DHCP_OPTION_END then Ok (type, st)
        else let! n := mread m (optptr + 1) in options_loop fuel m client (optptr + n + 2) fin type st
      else Ok (type, st)
  end.
(** Every round passes two bytes of the message. *)
Definition options_fuel : nat := 549.

Definition parse_options d (optptr len : Z) : result (Z * dhcps) :=
  let! (type, st) := options_loop options_fuel (msg_dhcps d) (client_address d) optptr (optptr + len) 0 DHCPS_STATE_IDLE in
  let st :=
    if type =? DHCPDISCOVER then DHCPS_STATE_OFFER
    else if type =? DHCPREQUEST then
      if negb ((st =? DHCPS_STATE_ACK) || (st =? DHCPS_STATE_NAK)) then DHCPS_STATE_NAK else st
    else if (type =? DHCPDECLINE) || (type =? DHCPRELEASE) then DHCPS_STATE_IDLE
    else st in
  Ok (st, set_s_state d st).

(** The next address. *)
Definition next_ip (a : Z) : Z := htonl (u32 (htonl a + 1)).

(** The search of [parse_msg] for the device: whether it has a lease. *)
Fixpoint search_loop (fuel : nat) d (a : Z) (mac : list Z) : result (bool * dhcps) :=
  match fuel with
  | O => Fault OutOfFuel
  | S fuel =>
      if a =? 0 then Ok (false, d)
      else
        let! n := cell (nodes d) a in
        let! p := cell (pools d) (pnode n) in
        if bool_decide (pool_mac p = mac) then
          let d := set_client d (pool_ip p) in
          Ok (true, set_list d (plist d) (nodes d) (<[pnode n := DhcpsPool (pool_ip p) (pool_mac p) DHCPS_LEASE_TIMER]> (pools d)))
        else if pool_ip p =? client_address_plus d then
          let d := set_plus d (next_ip (client_address_plus d)) in
          search_loop fuel (set_client d (client_address_plus d)) (pnext n) mac
        else search_loop fuel d (pnext n) mac
  end.

Section leases.
(** [os_zalloc] of an entry and of a node, [None] when there is no memory. *)
Context (zalloc_pool : gmap Z dhcps_pool -> option Z) (zalloc_node : gmap Z list_node -> option Z).

(** From [POOL_START] to [POOL_CHECK]. *)
Definition find_lease d (mac : list Z) : result dhcps :=
  let d := set_client d (client_address_plus d) in
  let! (found, d) := search_loop (list_fuel (nodes d)) d (plist d) mac in
  if (found : bool) then Ok d
  else
    let! p := of_option NullDeref (zalloc_pool (pools d)) in
    let pools' := <[p := DhcpsPool (client_address d) mac DHCPS_LEASE_TIMER]> (pools d) in
    let! n := of_option NullDeref (zalloc_node (nodes d)) in
    let! (head, nodes') := node_insert_to_list (<[n := ListNode p 0]> (nodes d)) (plist d) n in
    Ok (set_list d head nodes' pools').

(** [POOL_CHECK], with the jump back to [POOL_START]. *)
Fixpoint pool_loop (fuel : nat) d (mac : list Z) : result dhcps :=
  match fuel with
  | O => Fault OutOfFuel
  | S fuel =>
      let! d := find_lease d mac in
      if (lease_end d <? client_address_plus d) || (client_address d =? IPADDR_ANY)
      then pool_loop fuel (set_plus d (lease_start d)) mac
      else Ok d
  end.
(** A second round after the end of the range finds what the first one left;
    a third one would do the same again, and the code goes on for ever. *)
Definition pool_fuel : nat := 2.
End leases.

(** ** The range of addresses *)

Definition wifi_softap_init_dhcps_lease d (ip : Z) : dhcps :=
  let d :=
    if dhcps_lease_flag d then
      let local_ip := Z.land (htonl ip) 0xFF in
      let softap_ip := Z.land (htonl ip) 0xFFFFFF00 in
      let local_ip := if 0x80 <=? local_ip then u32 (local_ip - DHCPS_MAX_LEASE) else u32 (local_ip + 1) in
      set_lease d (Z.lor softap_ip local_ip) (Z.lor softap_ip (u32 (local_ip + DHCPS_MAX_LEASE))) (dhcps_lease_flag d)
    else d in
  set_lease d (htonl (lease_start d)) (htonl (lease_end d)) (dhcps_lease_flag d).

(** [wifi_softap_set_dhcps_lease(&please)] with the address of the access
    point: what it returns, the two fields of [please] and the state. *)
Definition wifi_softap_set_dhcps_lease d (softap_ip start_ip end_ip : Z) : bool * (Z * Z) * dhcps :=
  let softap_ip := htonl softap_ip in
  let please := (htonl start_ip, htonl end_ip) in
  let '(start_ip, end_ip) := please in
  if (start_ip <=? softap_ip) && (softap_ip <=? end_ip) then (false, please, d)
  else
    let softap_ip := Z.shiftr softap_ip 8 in
    if negb (Z.shiftr start_ip 8 =? softap_ip) || negb (Z.shiftr end_ip 8 =? softap_ip) then (false, please, d)
    else if DHCPS_MAX_LEASE <? u32 (end_ip - start_ip) then (false, please, d)
    else (true, please, set_lease d start_ip end_ip false).

(** ** Ends of leases *)

(** Take a node out of the list and free its entry and it. *)
Definition drop_node d (a : Z) : result dhcps :=
  let! (head, m) := node_remove_from_list (nodes d) (plist d) a in
  let! n := cell m a in
  let! _ := cell (pools d) (pnode n) in
  Ok (set_list d head (delete a m) (delete (pnode n) (pools d))).

Fixpoint stop_loop (fuel : nat) d (a : Z) : result dhcps :=
  match fuel with
  | O => Fault OutOfFuel
  | S fuel =>
      if a =? 0 then Ok d
      else
        let! n := cell (nodes d) a in
        let! d := drop_node d a in
        stop_loop fuel d (pnext n)
  end.

Fixpoint tmr_loop (fuel : nat) d (a : Z) : result dhcps :=
  match fuel with
  | O => Fault OutOfFuel
  | S fuel =>
      if a =? 0 then Ok d
      else
        let! n := cell (nodes d) a in
        let! p := cell (pools d) (pnode n) in
        let t := u32 (lease_timer p - 1) in
        let d := set_list d (plist d) (nodes d) (<[pnode n := DhcpsPool (pool_ip p) (pool_mac p) t]> (pools d)) in
        let! d := (if t =? 0 then drop_node d a else Ok d) in
        tmr_loop fuel d (pnext n)
  end.
Definition dhcps_coarse_tmr d : result dhcps := tmr_loop (list_fuel (nodes d)) d (plist d).

(** ** The server *)

Section server.
Context `{Os} {F G X : Type}.
Abbreviation state := (net (stack (raws F) (udps G * (dhcps * X)))).
Implicit Type s : state.
Context (zalloc_pool : gmap Z dhcps_pool -> option Z) (zalloc_node : gmap Z list_node -> option Z)
        (memp_malloc : gmap Z (udp_pcb G) -> option Z)
        (wifi_softap_set_station_info : X -> list Z -> Z -> bool * X)
        (output : state -> Z -> Z -> Z -> result (Z * state)).

Definition dhcps_of s : dhcps := (rest (env s)).2.1.
Definition sdk_of s : X := (rest (env s)).2.2.
Definition set_dhcps s d : state :=
  set_env s (Stack (ifs (env s)) (tcps (env s)) (ipv (env s)) (raw_blocks (env s)) (blocks_of s, (d, sdk_of s))).
Definition set_sdk s (x : X) : state :=
  set_env s (Stack (ifs (env s)) (tcps (env s)) (ipv (env s)) (raw_blocks (env s)) (blocks_of s, (dhcps_of s, x))).

(** The loop that fills the packet. *)
Fixpoint fill_loop (fuel : nat) (m : store) (q : Z) (msg : list Z) (cnt : Z) : result store :=
  match fuel with
  | O => Fault OutOfFuel
  | S fuel =>
      if q =? 0 then Ok m
      else
        let! c := deref m q in
        let! x := mslice msg cnt (len c) in
        let! m := save m (payload c) 0 x in
        fill_loop fuel m (next c) msg (u16 (cnt + len c))
  end.

(** The end of [send_offer], [send_nak] and [send_ack]. *)
Definition send_msg s : result state :=
  let! (p, m) := pbuf_alloc (mem s) PBUF_TRANSPORT SIZEOF_DHCPS_MSG PBUF_RAM in
  let s := set_mem s m in
  if p =? 0 then Ok s
  else
    let d := dhcps_of s in
    let! m := fill_loop (chain_fuel m) m p (msg_dhcps d) 0 in
    let! (_, s) := udp_sendto output (set_mem s m) (pcb_dhcps d) p (broadcast_dhcps d) DHCPS_CLIENT_PORT in
    let! c := deref (mem s) p in
    if negb (ref c =? 0) then free_packet s p else Ok s.

Definition offer_msg d (type : Z) : result dhcps :=
  let! d := create_msg d in
  let! (m, fin) := add_msg_type (msg_dhcps d) (MSG_OPTIONS + 4) type in
  let! (m, fin) := add_offer_options d m fin in
  let! (m, fin) := add_end m fin in
  Ok (set_msg d m).
Definition nak_msg d : result dhcps :=
  let! d := create_msg d in
  let! (m, fin) := add_msg_type (msg_dhcps d) (MSG_OPTIONS + 4) DHCPNAK in
  let! (m, fin) := add_end m fin in
  Ok (set_msg d m).

Definition send_offer s : result state := let! d := offer_msg (dhcps_of s) DHCPOFFER in send_msg (set_dhcps s d).
Definition send_nak s : result state := let! d := nak_msg (dhcps_of s) in send_msg (set_dhcps s d).
Definition send_ack s : result state := let! d := offer_msg (dhcps_of s) DHCPACK in send_msg (set_dhcps s d).

(** [parse_msg(&msg_dhcps, len)]. *)
Definition parse_msg s (len : Z) : result (Z * state) :=
  let d := dhcps_of s in
  let! magic := mslice (msg_dhcps d) MSG_OPTIONS 4 in
  if bool_decide (magic = magic_cookie) then
    let! x := mslice (msg_dhcps d) MSG_XID 4 in
    let! mac := mslice (msg_dhcps d) MSG_CHADDR 6 in
    let! d := pool_loop zalloc_pool zalloc_node pool_fuel (set_old_xid d x) mac in
    let '(ok, x) := wifi_softap_set_station_info (sdk_of s) mac (client_address d) in
    let s := set_sdk (set_dhcps s d) x in
    if negb ok then Ok (0, s)
    else
      let! (st, d) := parse_options d (MSG_OPTIONS + 4) (s16 len) in
      Ok (st, set_dhcps s d)
  else Ok (0, s).

(** [handle_dhcp(arg, pcb, p, addr, port)] looks at [p] alone. *)
Definition handle_dhcp s (p : Z) : result state :=
  if p =? 0 then Ok s
  else
    let! c := deref (mem s) p in
    let tlen := s16 (tot_len c) in
    let! x := load (mem s) (payload c) 0 (len c) in
    let! msg := mcopy (replicate (Z.to_nat SIZEOF_DHCPS_MSG) 0) 0 x in
    let! msg :=
      (if negb (next c =? 0) then
         let! c2 := deref (mem s) (next c) in
         let! y := load (mem s) (payload c2) 0 (len c2) in
         mcopy msg (len c) y
       else Ok msg) in
    let! (st, s) := parse_msg (set_dhcps s (set_msg (dhcps_of s) msg)) (u16 (tlen - 240)) in
    let! s := (if st =? DHCPS_STATE_OFFER then send_offer s
               else if st =? DHCPS_STATE_ACK then send_ack s
               else if st =? DHCPS_STATE_NAK then send_nak s
               else Ok s) in
    free_packet s p.

(** [dhcps_start(&info)] with [info->ip]; [handler] is the pointer to
    [handle_dhcp]. *)
Definition dhcps_start s (handler : G) (ip : Z) : result state :=
  let d := set_msg (dhcps_of s) (replicate (Z.to_nat SIZEOF_DHCPS_MSG) 0) in
  let '(pcb, u) := udp_new memp_malloc (blocks_of s) in
  let d := Dhcps (xid d) (old_xid d) pcb (address_of 255 255 255 255) ip (client_address d) (client_address_plus d) (msg_dhcps d)
    (s_state d) (lease_start d) (lease_end d) (dhcps_lease_flag d) (plist d) (nodes d) (pools d) in
  let d := wifi_softap_init_dhcps_lease d ip in
  let d := set_plus d (lease_start d) in
  let! (_, u) := udp_bind u pcb IPADDR_ANY DHCPS_SERVER_PORT in
  let! u := udp_recv u pcb (Some handler) 0 in
  Ok (set_dhcps (set_blocks s u) d).

Definition dhcps_stop s : result state :=
  let d := dhcps_of s in
  let! u := udp_disconnect (blocks_of s) (pcb_dhcps d) in
  let! u := udp_remove u (pcb_dhcps d) in
  let! d := stop_loop (list_fuel (nodes d)) d (plist d) in
  Ok (set_dhcps (set_blocks s u) d).
End server.
