(* ===== verification/DhcpsLease.v ===== *)
(** * The leases of the DHCP server: theorems about [lwip/app/dhcpserver.c]. *)
From S2P Require Import Prelude Cobs Uart Comm Message Pbuf InetChksum IpHdr IpAddr Linked RawPcb Etharp Netif Ip Icmp Udp Dhcps.
From stdpp Require Import list gmap.
#[local] Open Scope Z_scope.

#[export] Instance node_links : LinkLaws pnext set_pnext.
Proof. by split. Qed.

(** ** What the list holds *)

(** A lease in the list: its node, its pool entry and what the entry says. *)
Abbreviation lease := (Z * Z * dhcps_pool)%type.
Definition node_at (e : lease) : Z := e.1.1.
Definition pool_at (e : lease) : Z := e.1.2.
Definition entry (e : lease) : dhcps_pool := e.2.
Definition mac_of (e : lease) : list Z := pool_mac (entry e).
Definition ip_of (e : lease) : Z := pool_ip (entry e).
Definition with_timer (t : Z) (e : lease) : lease :=
  (node_at e, pool_at e, DhcpsPool (ip_of e) (mac_of e) t).

Definition stored (d : dhcps) (e : lease) : Prop :=
  (exists n, nodes d !! node_at e = Some n /\ pnode n = pool_at e) /\ pool_at e <> 0 /\ pools d !! pool_at e = Some (entry e).
(** The list and the memory hold the leases [T], in this order. *)
Definition holds (d : dhcps) (T : list lease) : Prop :=
  linked pnext (nodes d) (plist d) (map node_at T) /\ NoDup (map pool_at T) /\
  Forall (stored d) T.

(** The address a search that starts with [a] ends with. *)
Definition bump (T : list lease) (a : Z) : Z := fold_left (fun a e => if ip_of e =? a then next_ip a else a) T a.

(** ** The list of nodes *)
Lemma tail_loop_ok m a l : forall fuel q, lseg pnext m q (l ++ [a]) 0 -> (length l < fuel)%nat -> tail_loop fuel m q = Ok a.
Proof.
  induction l as [|b l IH]; intros fuel q Hl Hf; (destruct fuel as [|fuel]; [cbn in Hf; lia|]); cbn [tail_loop app] in *.
  - destruct Hl as (-> & Ha & n & En & Hn). rewrite (cell_ok m a n) by done. cbn [rbind]. cbn in Hn. by rewrite Hn.
  - destruct Hl as (-> & Hb & n & En & Hl). rewrite (cell_ok m b n) by done. cbn [rbind]. cbn [length] in Hf.
    assert (pnext n <> 0) as Hn by (destruct l; by destruct Hl as (-> & ? & _)). rewrite (proj2 (Z.eqb_neq _ 0)) by done. apply IH; [done|lia].
Qed.

(** A new node goes to the end. *)
Lemma node_insert_ok m h l p n : linked pnext m h l -> p <> 0 -> m !! p = Some n -> ~ In p l ->
  exists h' m', node_insert_to_list m h p = Ok (h', m') /\ linked pnext m' h' (l ++ [p]) /\ same_cells set_pnext m m'.
Proof.
  intros Hl Hp Ep Hn. unfold node_insert_to_list. destruct l as [|b l _] using rev_ind.
  - cbn in Hl. subst h. cbn [Z.eqb rbind]. rewrite (cell_ok m p n) by done. cbn [rbind]. eexists _, _. split; [reflexivity|].
    split; [|by apply (same_cells_set pnext)]. split; [done|]. split; [done|]. eexists. by rewrite lookup_insert_eq.
  - assert (h <> 0) as Hh by (destruct l; by destruct Hl as (-> & ? & _)). rewrite (proj2 (Z.eqb_neq h 0)) by done.
    rewrite (tail_loop_ok m b l) by (done || (apply list_fuel_enough in Hl; rewrite length_app in Hl; lia)). cbn [rbind].
    pose proof (linked_nodup _ _ _ _ Hl) as Hnd. apply NoDup_app in Hnd as (_ & Hd & _).
    pose proof Hl as Hl2. apply lseg_app in Hl2 as (r & H1 & (-> & Hb & nb & Eb & H2)). rewrite (cell_ok m b nb) by done. cbn [rbind].
    assert (b <> p) as Hbp by (intros ->; apply Hn, in_app_iff; right; by left).
    set (m1 := <[b := set_pnext nb p]> m). assert (m1 !! p = Some n) as Ep1 by (unfold m1; by rewrite lookup_insert_ne).
    rewrite (cell_ok m1 p n) by done. cbn [rbind]. eexists _, _. split; [reflexivity|]. split.
    + rewrite <- app_assoc. apply lseg_app. exists b. split.
      * unfold m1. apply lseg_store; [intros Hin; apply Hn, in_app_iff; by left|]. apply lseg_store; [|done].
        rewrite <- list_elem_of_In. intros Hin. by apply (Hd b Hin), list_elem_of_here.
      * split; [done|]. split; [done|]. exists (set_pnext nb p). rewrite lookup_insert_ne by done. split; [apply lookup_insert_eq|].
        split; [done|]. split; [done|]. eexists. by rewrite lookup_insert_eq.
    + eapply same_cells_trans; by apply (same_cells_set pnext).
Qed.

(** [node_remove_from_list] is [unlink_cell], for what is not NULL. *)
Lemma remove_loop_eq p : p <> 0 -> forall fuel m a, remove_loop fuel m a p = unlink_loop pnext set_pnext fuel m a p.
Proof.
  intros Hp. induction fuel as [|fuel IH]; intros m a; [done|]. cbn [remove_loop unlink_loop]. destruct (a =? 0); [done|].
  destruct (cell m a) as [n|]; [|done]. cbn [rbind].
  assert (negb (pnext n =? 0) && (pnext n =? p) = (pnext n =? p)) as ->.
  { destruct (Z.eqb_spec (pnext n) p) as [->|]; [by rewrite (proj2 (Z.eqb_neq p 0))|by rewrite andb_false_r]. }
  destruct (if pnext n =? p then _ else _) as [m'|]; [|done]. cbn [rbind]. destruct (cell m' a); [|done]. cbn [rbind]. apply IH.
Qed.
Lemma node_remove_ok m h l p n : linked pnext m h l -> p <> 0 -> m !! p = Some n ->
  exists h' m', node_remove_from_list m h p = Ok (h', m') /\ linked pnext m' h' (filter (fun a => a <> p) l) /\
    ~ In p (filter (fun a => a <> p) l) /\ m' !! p = Some n /\ same_cells set_pnext m m'.
Proof.
  intros Hl Hp Ep. destruct (unlink_ok pnext set_pnext m h l p n Hl Hp Ep) as (h' & m' & E & Hl' & Hn & Ep' & Hs).
  unfold node_remove_from_list, unlink_cell in *. destruct (Z.eqb_spec h 0) as [->|Hh].
  - rewrite (proj2 (Z.eqb_neq 0 p)) in E by done. exists 0, m. split; [done|].
    assert (l = []) as -> by (destruct l; [done|by destruct Hl as (<- & ? & _)]). by split.
  - exists h', m'. split; [|done]. destruct (h =? p); [done|]. rewrite remove_loop_eq by done. exact E.
Qed.

(** ** Addresses of the network *)

Section network.
Context (a b c : Z) (Ha : is_byte a) (Hb : is_byte b) (Hc : is_byte c).
Abbreviation addr := (address_of a b c).

Lemma addr_lt k k' : (addr k <? addr k') = (k <? k').
Proof using Type. unfold address_of. destruct (Z.ltb_spec k k'); [apply Z.ltb_lt|apply Z.ltb_ge]; lia. Qed.
Lemma addr_eq k k' : (addr k =? addr k') = (k =? k').
Proof using Type. unfold address_of. destruct (Z.eqb_spec k k') as [->|]; [by rewrite Z.eqb_refl|apply Z.eqb_neq; lia]. Qed.
Lemma addr_some k : 1 <= k -> (addr k =? 0) = false.
Proof using Ha Hb Hc. unfold address_of, is_byte in *. intros. apply Z.eqb_neq. lia. Qed.
Lemma addr_next k : 0 <= k < 255 -> next_ip (addr k) = addr (k + 1).
Proof using Ha Hb Hc.
  intros Hk. unfold next_ip. replace (addr k) with (a + 256 * b + 65536 * c + 16777216 * k) by (unfold address_of; lia).
  rewrite (htonl_bytes k c b a) by (done || unfold is_byte; lia). unfold is_byte in *.
  rewrite u32_small by (unfold address_of, is_u32; lia).
  replace (address_of k c b a + 1) with (k + 1 + 256 * c + 65536 * b + 16777216 * a) by (unfold address_of; lia).
  apply htonl_bytes; unfold is_byte; lia.
Qed.
End network.

(** ** The search for a device *)
Lemma search_loop_found mac e T2 T1 : forall fuel d q,
  lseg pnext (nodes d) q (map node_at (T1 ++ e :: T2)) 0 -> Forall (stored d) (T1 ++ e :: T2) ->
  Forall (fun x => mac_of x <> mac) T1 -> mac_of e = mac -> (length T1 < fuel)%nat ->
  search_loop fuel d q mac = Ok (true, set_list (set_client (set_plus d (bump T1 (client_address_plus d))) (ip_of e))
    (plist d) (nodes d) (<[pool_at e := entry (with_timer DHCPS_LEASE_TIMER e)]> (pools d))).
Proof.
  induction T1 as [|x T1 IH]; intros fuel d q Hl Hs Hm He Hf; (destruct fuel as [|fuel]; [cbn in Hf; lia|]);
    cbn [app map lseg] in Hl; destruct Hl as (-> & Hx & n & En & Hl); cbn [app] in Hs; inversion Hs as [|? ? [(n' & En' & Pn) (Hp & Ep)] Hs']; subst;
    cbn [search_loop]; rewrite (proj2 (Z.eqb_neq _ 0)) by done; erewrite cell_ok by done; cbn [rbind];
    assert (n' = n) as -> by congruence; rewrite Pn; erewrite cell_ok by done; cbn [rbind].
  - change (pool_mac (entry e)) with (mac_of e). rewrite bool_decide_true by done. by destruct d.
  - apply Forall_cons in Hm as [Hx' Hm]. change (pool_mac (entry x)) with (mac_of x). rewrite bool_decide_false by done.
    change (pool_ip (entry x)) with (ip_of x). unfold bump. cbn [fold_left length] in *.
    destruct (ip_of x =? client_address_plus d); rewrite (IH fuel) by (done || lia); done.
Qed.

Lemma search_loop_missing mac T : forall fuel d q,
  lseg pnext (nodes d) q (map node_at T) 0 -> Forall (stored d) T -> Forall (fun x => mac_of x <> mac) T ->
  client_address d = client_address_plus d -> (length T < fuel)%nat ->
  search_loop fuel d q mac = Ok (false, set_client (set_plus d (bump T (client_address_plus d))) (bump T (client_address_plus d))).
Proof.
  induction T as [|x T IH]; intros fuel d q Hl Hs Hm Hc Hf; (destruct fuel as [|fuel]; [cbn in Hf; lia|]); cbn [search_loop].
  - cbn in Hl. subst q. cbn. rewrite <- Hc at 2. by destruct d.
  - cbn [map lseg] in Hl. destruct Hl as (-> & Hx & n & En & Hl). inversion Hs as [|? ? [(n' & En' & Pn) (Hp & Ep)] Hs']; subst.
    rewrite (proj2 (Z.eqb_neq _ 0)) by done. erewrite cell_ok by done. cbn [rbind].
    assert (n' = n) as -> by congruence. rewrite Pn. erewrite cell_ok by done. cbn [rbind].
    apply Forall_cons in Hm as [Hx' Hm]. change (pool_mac (entry x)) with (mac_of x). rewrite bool_decide_false by done.
    change (pool_ip (entry x)) with (ip_of x). unfold bump. cbn [fold_left length] in *.
    destruct (ip_of x =? client_address_plus d); rewrite (IH fuel) by (done || lia); done.
Qed.

(** ** Finding a lease *)

(** Nodes that keep their entry, and entries that are not touched. *)
Definition same_entry (m m' : gmap Z list_node) (a : Z) : Prop :=
  forall n, m !! a = Some n -> exists n', m' !! a = Some n' /\ pnode n' = pnode n.
Lemma stored_all d d' T : Forall (stored d) T -> (forall e, In e T -> same_entry (nodes d) (nodes d') (node_at e)) ->
  (forall e, In e T -> pools d' !! pool_at e = pools d !! pool_at e) -> Forall (stored d') T.
Proof.
  rewrite !List.Forall_forall. intros Hs Hn Hp e He. destruct (Hs e He) as ((n & En & Pn) & H0 & Ep).
  destruct (Hn e He n En) as (n' & En' & Pn'). split; [exists n'; by rewrite Pn'|]. by rewrite Hp.
Qed.
Lemma same_entry_refl m a : same_entry m m a.
Proof. intros n E. by exists n. Qed.
Lemma same_entry_cells m m' a : same_cells set_pnext m m' -> same_entry m m' a.
Proof.
  intros H n E. destruct (same_cells_at set_pnext m m' a n H E) as (n' & E' & He). exists n'. split; [done|].
  by destruct n, n'; injection He.
Qed.
Lemma pool_other d T q p : ~ In q (map pool_at T) -> forall e, In e T -> <[q := p]> (pools d) !! pool_at e = pools d !! pool_at e.
Proof. intros Hn e He. apply lookup_insert_ne. intros ->. by apply Hn, in_map. Qed.

(** A lease gets another timer. *)
Lemma holds_timer d T1 e T2 t : holds d (T1 ++ e :: T2) ->
  holds (set_list d (plist d) (nodes d) (<[pool_at e := entry (with_timer t e)]> (pools d))) (T1 ++ with_timer t e :: T2).
Proof.
  intros (Hl & Hnd & Hs). unfold holds. rewrite !map_app in *. split; [exact Hl|]. split; [exact Hnd|].
  apply Forall_app in Hs as [Hs1 Hs2]. apply Forall_cons in Hs2 as [(Hn & H0 & Hp) Hs2].
  apply NoDup_app in Hnd as (_ & Hd & Hnd). cbn [map] in Hnd, Hd. apply NoDup_cons in Hnd as [Hn2 _].
  rewrite list_elem_of_In in Hn2. apply Forall_app. split; [|apply Forall_cons; split].
  - eapply stored_all; [exact Hs1|intros; apply same_entry_refl|]. apply pool_other. intros Hin%list_elem_of_In.
    by apply (Hd _ Hin), list_elem_of_here.
  - split; [done|]. split; [done|]. cbn. apply lookup_insert_eq.
  - eapply stored_all; [exact Hs2|intros; apply same_entry_refl|]. by apply pool_other.
Qed.

Section leases.
Context (zalloc_pool : gmap Z dhcps_pool -> option Z) (zalloc_node : gmap Z list_node -> option Z).
Abbreviation find_lease := (find_lease zalloc_pool zalloc_node).
Implicit Types (d : dhcps) (T : list lease).

(** A device of the list keeps its address, and its lease is renewed. *)
Lemma find_lease_known d T1 e T2 : holds d (T1 ++ e :: T2) -> Forall (fun x => mac_of x <> mac_of e) T1 ->
  let p := bump T1 (client_address_plus d) in
  exists d', find_lease d (mac_of e) = Ok d' /\ holds d' (T1 ++ with_timer DHCPS_LEASE_TIMER e :: T2) /\
    client_address d' = ip_of e /\ client_address_plus d' = p /\ lease_start d' = lease_start d /\ lease_end d' = lease_end d.
Proof using Type.
  intros (Hl & Hnd & Hs) Hm p. unfold Dhcps.find_lease.
  rewrite (search_loop_found (mac_of e) e T2 T1) by
    (done || (apply list_fuel_enough in Hl; rewrite length_map, length_app in Hl; cbn in *; lia)).
  cbn [rbind]. eexists. split; [reflexivity|]. split; [|done]. by apply (holds_timer d).
Qed.

(** A new device gets the address the search ends with. *)
Lemma find_lease_new d T mac q n : holds d T -> Forall (fun x => mac_of x <> mac) T ->
  zalloc_pool (pools d) = Some q -> q <> 0 -> pools d !! q = None ->
  zalloc_node (nodes d) = Some n -> n <> 0 -> nodes d !! n = None ->
  let p := bump T (client_address_plus d) in
  exists d', find_lease d mac = Ok d' /\ holds d' (T ++ [(n, q, DhcpsPool p mac DHCPS_LEASE_TIMER)]) /\
    client_address d' = p /\ client_address_plus d' = p /\ lease_start d' = lease_start d /\ lease_end d' = lease_end d.
Proof using Type.
  intros (Hl & Hnd & Hs) Hm Zp Hq Fq Zn Hn Fn p. unfold Dhcps.find_lease.
  rewrite (search_loop_missing mac T) by (done || (apply list_fuel_enough in Hl; by rewrite length_map in Hl)). fold p.
  cbn [rbind]. cbn [set_client set_plus pools nodes plist client_address client_address_plus]. rewrite Zp. cbn [of_option rbind]. rewrite Zn. cbn [of_option rbind].
  assert (~ In n (map node_at T)) as Hni.
  { intros Hin. destruct (lseg_in pnext _ _ _ _ n Hl Hin) as (_ & x & E). by rewrite Fn in E. }
  assert (linked pnext (<[n := ListNode q 0]> (nodes d)) (plist d) (map node_at T)) as Hl1 by by apply lseg_store.
  destruct (node_insert_ok _ _ _ n (ListNode q 0) Hl1 Hn (lookup_insert_eq _ _ _) Hni) as (h' & m' & E & Hl' & Hc).
  rewrite E. cbn [rbind]. eexists. split; [reflexivity|]. split; [|done]. unfold holds. cbn. rewrite !map_app.
  assert (~ In q (map pool_at T)) as Hqi.
  { intros (x & <- & Hx)%in_map_iff. rewrite List.Forall_forall in Hs. destruct (Hs x Hx) as (_ & _ & E'). by rewrite Fq in E'. }
  split; [exact Hl'|]. split.
  { apply NoDup_app. split; [done|]. split; [|apply NoDup_singleton]. intros x Hx ->%list_elem_of_singleton. by apply Hqi, list_elem_of_In. }
  apply Forall_app. split.
  - eapply stored_all; [exact Hs| |by apply pool_other]. intros e He k Ek. apply (same_entry_cells _ _ _ Hc).
    rewrite lookup_insert_ne; [done|]. intros ->. by apply Hni, in_map.
  - apply Forall_singleton. split; [|split; [done|apply lookup_insert_eq]].
    destruct (same_entry_cells _ _ n Hc _ (lookup_insert_eq _ _ _)) as (n' & En' & Pn'). by exists n'.
Qed.
End leases.

(** ** The end of a lease *)
Lemma holds_mid d T1 e T2 : holds d (T1 ++ e :: T2) -> exists n, node_at e <> 0 /\ nodes d !! node_at e = Some n /\
  pnode n = pool_at e /\ lseg pnext (nodes d) (pnext n) (map node_at T2) 0.
Proof.
  intros (Hl & _ & Hs). apply Forall_app in Hs as [_ Hs]. apply Forall_cons in Hs as [((n & En & Pn) & _) _].
  rewrite map_app in Hl. apply lseg_app in Hl as (r & _ & (-> & H0 & n' & En' & Hl)). exists n.
  assert (n' = n) as -> by congruence. done.
Qed.
Lemma same_head m q q' l : lseg pnext m q l 0 -> forall m', lseg pnext m' q' l 0 -> q' = q.
Proof. destruct l; [by intros -> ? ->|]. by intros (-> & _) ? (-> & _). Qed.

Lemma drop_node_ok d T1 e T2 : holds d (T1 ++ e :: T2) ->
  exists h m, let d' := set_list d h m (delete (pool_at e) (pools d)) in
  drop_node d (node_at e) = Ok d' /\ holds d' (T1 ++ T2) /\ size (nodes d) = S (size m).
Proof.
  intros H. destruct (holds_mid d T1 e T2 H) as (n & H0 & En & Pn & _). destruct H as (Hl & Hnd & Hs).
  destruct (node_remove_ok _ _ _ (node_at e) n Hl H0 En) as (h & m & E & Hl' & Hni & En' & Hc).
  unfold drop_node. rewrite E. cbn [rbind]. rewrite (cell_ok m _ n) by done. cbn [rbind]. rewrite Pn.
  apply Forall_app in Hs as [Hs1 Hs2]. apply Forall_cons in Hs2 as [(_ & Hq & Eq) Hs2]. rewrite (cell_ok _ _ (entry e)) by done. cbn [rbind].
  exists h, (delete (node_at e) m). split; [done|].
  assert (filter (fun a => a <> node_at e) (map node_at (T1 ++ e :: T2)) = map node_at (T1 ++ T2)) as Ef.
  { rewrite !map_app. cbn [map]. apply without_mid. apply linked_nodup in Hl. by rewrite map_app in Hl. }
  rewrite Ef in Hl', Hni. split.
  - split; [|split].
    + eapply lseg_frame; [|exact Hl']. intros x Hx. apply lookup_delete_ne. by intros <-.
    + rewrite map_app in *. cbn [map] in Hnd. apply NoDup_app in Hnd as (N1 & Hd & [_ N2]%NoDup_cons). apply NoDup_app. split; [done|]. split; [|done].
      intros x Hx Hx2. apply (Hd x Hx). by apply list_elem_of_further.
    + assert (NoDup (pool_at e :: map pool_at T1 ++ map pool_at T2)) as [Hn _]%NoDup_cons by by rewrite map_app in Hnd; cbn [map] in Hnd; rewrite Permutation_middle.
      rewrite list_elem_of_In, <- map_app in Hn. eapply (stored_all d); [by apply Forall_app| |].
      * intros x Hx k Ek. cbn. destruct (same_entry_cells _ _ _ Hc k Ek) as (k' & Ek' & Pk). exists k'.
        rewrite lookup_delete_ne; [done|]. intros E'. apply Hni. rewrite E'. by apply in_map.
      * intros x Hx. cbn. apply lookup_delete_ne. intros E'. rewrite E' in Hn. by apply Hn, in_map.
  - pose proof (same_cells_size set_pnext _ _ Hc) as Hsz. rewrite map_size_delete, En'. cbn.
    assert (size m <> 0)%nat; [|lia]. intros E0. apply map_size_empty_inv in E0. by rewrite E0 in En'.
Qed.

(** What a call of the timer leaves of a list. *)
Definition tick (T : list lease) : list lease :=
  filter (fun e => lease_timer (entry e) <> 0) (map (fun e => with_timer (lease_timer (entry e) - 1) e) T).

Lemma tick_loop_ok T2 : forall fuel d a T1, holds d (T1 ++ T2) -> lseg pnext (nodes d) a (map node_at T2) 0 ->
  Forall (fun e => 1 <= lease_timer (entry e) < 4294967296) T2 -> (length T2 < fuel)%nat ->
  exists h m p, let d' := set_list d h m p in tmr_loop fuel d a = Ok d' /\ holds d' (T1 ++ tick T2).
Proof.
  induction T2 as [|e T2 IH]; intros fuel d a T1 H Hl Ht Hf; (destruct fuel as [|fuel]; [cbn in Hf; lia|]); cbn [tmr_loop].
  - cbn in Hl. subst a. exists (plist d), (nodes d), (pools d). split; [by destruct d|exact H].
  - destruct (holds_mid d T1 e T2 H) as (n & H0 & En & Pn & Hl'). pose proof H as (_ & _ & Hs).
    apply Forall_app in Hs as [_ Hs]. apply Forall_cons in Hs as [(_ & Hq & Eq) _]. apply Forall_cons in Ht as [Ht Ht'].
    assert (a = node_at e) as -> by by destruct Hl. rewrite (proj2 (Z.eqb_neq _ 0)), (cell_ok _ _ n) by done. cbn [rbind].
    rewrite Pn, (cell_ok _ _ (entry e)) by done. cbn [rbind]. rewrite u32_small by (unfold is_u32; lia).
    set (t := lease_timer (entry e) - 1). pose proof (holds_timer d T1 e T2 t H) as H1. cbn [length] in Hf.
    change (tick (e :: T2)) with (filter (fun e => lease_timer (entry e) <> 0) (with_timer t e :: map (fun e => with_timer (lease_timer (entry e) - 1) e) T2)).
    destruct (Z.eqb_spec t 0) as [E0|E0].
    + destruct (drop_node_ok _ T1 _ T2 H1) as (h & m & E & Hd & _).
      change (DhcpsPool (pool_ip (entry e)) (pool_mac (entry e)) t) with (entry (with_timer t e)).
      change (node_at (with_timer t e)) with (node_at e) in E. rewrite E. cbn [rbind].
      rewrite filter_cons_False by (cbn; lia).
      edestruct (IH fuel _ (pnext n) T1 Hd) as (h' & m' & p' & E' & H'); [|done|lia|by exists h', m', p'].
      destruct Hd as (Hd & _). rewrite map_app in Hd. apply lseg_app in Hd as (r & _ & Hr).
      by rewrite (same_head _ _ _ _ Hr _ Hl').
    + rewrite filter_cons_True by done. cbn [rbind]. change (with_timer t e :: T2) with ([with_timer t e] ++ T2) in H1. rewrite app_assoc in H1.
      destruct (IH fuel _ (pnext n) _ H1 Hl' Ht') as (h' & m' & p' & E' & H'); [lia|].
      exists h', m', p'. split; [exact E'|]. by rewrite <- app_assoc in H'.
Qed.

Lemma stop_loop_ok T : forall fuel d a, holds d T -> lseg pnext (nodes d) a (map node_at T) 0 -> (length T < fuel)%nat ->
  exists m p, let d' := set_list d 0 m p in stop_loop fuel d a = Ok d' /\ size (nodes d) = (length T + size m)%nat.
Proof.
  induction T as [|e T IH]; intros fuel d a H Hl Hf; (destruct fuel as [|fuel]; [cbn in Hf; lia|]); cbn [stop_loop].
  - cbn in Hl. subst a. destruct H as (H & _). unfold linked in H. cbn in H. exists (nodes d), (pools d). split; [|done]. f_equal. destruct d; cbn in *. by subst.
  - destruct (holds_mid d [] e T H) as (n & H0 & En & _ & Hl'). assert (a = node_at e) as -> by by destruct Hl.
    rewrite (proj2 (Z.eqb_neq _ 0)), (cell_ok _ _ n) by done. cbn [rbind].
    destruct (drop_node_ok d [] e T H) as (h & m & E & Hd & Hsz). rewrite E. cbn [rbind app length] in *.
    edestruct (IH fuel _ (pnext n) Hd) as (m' & p' & E' & Hs'); [|lia|].
    + destruct Hd as (Hd & _). unfold linked in Hd. by rewrite (same_head _ _ _ _ Hd _ Hl').
    + exists m', p'. split; [exact E'|]. cbn in Hs'. lia.
Qed.
