(* ===== verification/DhcpsRange.v ===== *)
(** * The addresses the DHCP server gives: theorems about [pool_loop],
    [dhcps_coarse_tmr] and the range of [lwip/app/dhcpserver.c]. *)
From S2P Require Import Prelude Cobs Uart Comm Message Pbuf InetChksum IpHdr IpAddr Linked RawPcb Etharp Netif Ip Icmp Udp Dhcps DhcpsLease.
From stdpp Require Import list gmap sorting.
#[local] Open Scope Z_scope.

(** The lease of a device is renewed. *)
Definition renew (mac : list Z) (T : list lease) : list lease :=
  map (fun e => if bool_decide (mac_of e = mac) then with_timer DHCPS_LEASE_TIMER e else e) T.

(** What [k] calls of the timer leave. *)
Definition expire (k : nat) (T : list lease) : list lease :=
  map (fun e => with_timer (lease_timer (entry e) - Z.of_nat k) e) (filter (fun e => Z.of_nat k < lease_timer (entry e)) T).

(** The address of a new device: the last one given, or the next. *)
Definition next_octet (a b c z : Z) (T : list lease) : Z :=
  if bool_decide (last (map ip_of T) = Some (address_of a b c z)) then z + 1 else z.

(** The server of the network [a.b.c] gives the hosts [x] to [y] and is at
    [z]: it has the leases [T], one per device and one per address. *)
Record served (a b c x y : Z) (d : dhcps) (T : list lease) (z : Z) : Prop := {
  sv_bytes : is_byte a /\ is_byte b /\ is_byte c;
  sv_octets : 1 <= x /\ x <= z <= y /\ y <= 254;
  sv_holds : holds d T;
  sv_start : lease_start d = address_of a b c x;
  sv_end : lease_end d = address_of a b c y;
  sv_plus : client_address_plus d = address_of a b c z;
  sv_sorted : StronglySorted Z.lt (map ip_of T);
  sv_in : Forall (fun e => exists k, x <= k <= z /\ ip_of e = address_of a b c k) T;
  sv_macs : NoDup (map mac_of T);
  sv_timers : Forall (fun e => 1 <= lease_timer (entry e) <= DHCPS_LEASE_TIMER) T
}.

(** Requests and calls of the timer. *)
Inductive op := Request (mac : list Z) | Tick.
Section run.
Context (zalloc_pool : gmap Z dhcps_pool -> option Z) (zalloc_node : gmap Z list_node -> option Z).
Definition step (o : op) (d : dhcps) : result dhcps :=
  match o with Request mac => pool_loop zalloc_pool zalloc_node pool_fuel d mac | Tick => dhcps_coarse_tmr d end.
Fixpoint run (l : list op) (d : dhcps) : result dhcps :=
  match l with [] => Ok d | o :: l => let! d := step o d in run l d end.
End run.

(** The memory [os_zalloc] gives, if it gives any, nobody has. *)
Definition fresh_memory {C} (zalloc : gmap Z C -> option Z) : Prop :=
  forall m p, zalloc m = Some p -> p <> 0 /\ m !! p = None.
(** It has none for a lease or for its node. *)
Definition no_memory (zalloc_pool : gmap Z dhcps_pool -> option Z) (zalloc_node : gmap Z list_node -> option Z) (d : dhcps) : Prop :=
  zalloc_pool (pools d) = None \/ zalloc_node (nodes d) = None.
(** A new device asks while the newest lease has the last address of the
    range. *)
Definition spent (d : dhcps) (T : list lease) (mac : list Z) : Prop :=
  ~ In mac (map mac_of T) /\ last (map ip_of T) = Some (lease_end d).

(** ** The search on addresses *)
Lemma bump_below T p : Forall (fun e => ip_of e < p) T -> bump T p = p.
Proof.
  induction T as [|e T IH]; [done|]. intros [H1 H2]%Forall_cons. unfold bump. cbn [fold_left].
  rewrite (proj2 (Z.eqb_neq _ p)) by lia. by apply IH.
Qed.
Lemma bump_app T1 T2 p : bump (T1 ++ T2) p = bump T2 (bump T1 p).
Proof. apply fold_left_app. Qed.

Lemma sorted_below (T1 : list lease) e T2 : StronglySorted Z.lt (map ip_of (T1 ++ e :: T2)) -> Forall (fun x => ip_of x < ip_of e) T1.
Proof.
  induction T1 as [|x T1 IH]; [constructor|]. cbn [map app]. intros [H1 H2]%StronglySorted_inv. constructor; [|by apply IH].
  rewrite Forall_map, List.Forall_forall in H2. apply H2, in_app_iff. right. by left.
Qed.

(** The search passes the leases in order, so that it moves once at most. *)
Lemma bump_sorted T p : StronglySorted Z.lt (map ip_of T) -> Forall (fun e => ip_of e <= p) T ->
  bump T p = if bool_decide (last (map ip_of T) = Some p) then next_ip p else p.
Proof.
  intros Hs Hp. destruct T as [|e T _] using rev_ind; [done|]. rewrite map_app. cbn [map]. rewrite last_snoc, bump_app.
  apply sorted_below in Hs. apply Forall_app in Hp as [_ [Hp _]%Forall_cons].
  rewrite (bump_below T) by (eapply Forall_impl; [exact Hs|]; cbn; lia). unfold bump. cbn [fold_left].
  destruct (Z.eqb_spec (ip_of e) p) as [->|]; [by rewrite bool_decide_true|]. rewrite bool_decide_false; [done|congruence].
Qed.

(** ** The invariant *)

Section served.
Context (a b c x y : Z).
Abbreviation addr := (address_of a b c).
Abbreviation served := (served a b c x y).
Implicit Types (d : dhcps) (T : list lease) (z : Z).

Lemma served_le d T z : served d T z -> Forall (fun e => ip_of e <= addr z) T.
Proof using Type.
  intros H. eapply Forall_impl; [apply (sv_in _ _ _ _ _ _ _ _ H)|]. intros e (k & Hk & ->). unfold address_of. lia.
Qed.
Lemma served_bump d T z : served d T z -> bump T (addr z) = addr (next_octet a b c z T).
Proof using Type.
  intros H. pose proof (sv_octets _ _ _ _ _ _ _ _ H). destruct (sv_bytes _ _ _ _ _ _ _ _ H) as (Ha & Hb & Hc).
  rewrite bump_sorted by (apply (sv_sorted _ _ _ _ _ _ _ _ H) || by apply (served_le d)). unfold next_octet.
  destruct (bool_decide _); [|done]. apply addr_next; (done || lia).
Qed.

Lemma map_renew {B} (f : lease -> B) mac T : (forall t e, f (with_timer t e) = f e) -> map f (renew mac T) = map f T.
Proof using Type. intros Hf. unfold renew. rewrite map_map. apply map_ext. intros e. destruct (bool_decide _); [apply Hf|done]. Qed.
Lemma renew_missing mac T : Forall (fun e => mac_of e <> mac) T -> renew mac T = T.
Proof using Type.
  unfold renew. induction T as [|e T IH]; [done|]. intros [H1 H2]%Forall_cons. cbn. rewrite bool_decide_false, IH by done. done.
Qed.
Lemma renew_at T1 e T2 : NoDup (map mac_of (T1 ++ e :: T2)) ->
  Forall (fun x => mac_of x <> mac_of e) T1 /\
  renew (mac_of e) (T1 ++ e :: T2) = T1 ++ with_timer DHCPS_LEASE_TIMER e :: T2.
Proof using Type.
  rewrite map_app. cbn [map]. intros (_ & Hd & [Hn _]%NoDup_cons)%NoDup_app.
  assert (Forall (fun x => mac_of x <> mac_of e) T1) as H1.
  { apply List.Forall_forall. intros u Hu E. apply (Hd (mac_of u)); [apply list_elem_of_In, in_map, Hu|]. rewrite E. apply list_elem_of_here. }
  assert (Forall (fun x => mac_of x <> mac_of e) T2) as H2.
  { apply List.Forall_forall. intros u Hu E. apply Hn. rewrite <- E. apply list_elem_of_In, in_map, Hu. }
  split; [done|]. unfold renew. rewrite map_app. cbn [map]. rewrite bool_decide_true by done. f_equal; [by apply renew_missing|].
  f_equal. by apply renew_missing.
Qed.

Lemma served_renew d d' T z mac : served d T z -> holds d' (renew mac T) -> lease_start d' = lease_start d ->
  lease_end d' = lease_end d -> client_address_plus d' = addr z -> served d' (renew mac T) z.
Proof using Type.
  intros [Hb Ho Hh Hs He Hp Hss Hin Hm Ht] Hh' Es Ee Ep. split; try done; try congruence.
  - by rewrite map_renew.
  - unfold renew. apply Forall_map. eapply Forall_impl; [exact Hin|]. intros e Hk. cbn. by destruct (bool_decide _).
  - by rewrite map_renew.
  - unfold renew. apply Forall_map. eapply Forall_impl; [exact Ht|]. intros e Hk. cbn. destruct (bool_decide _); [|done]. cbn. unfold DHCPS_LEASE_TIMER. lia.
Qed.

Lemma served_next d T z : served d T z -> z <= next_octet a b c z T <= z + 1 /\
  Forall (fun e => ip_of e < addr (next_octet a b c z T)) T.
Proof using Type.
  intros H. unfold next_octet. pose proof (served_le d T z H) as Hle. case_bool_decide as Hl; (split; [lia|]).
  - eapply Forall_impl; [exact Hle|]. intros e. cbn. unfold address_of. lia.
  - destruct T as [|e T _] using rev_ind; [constructor|]. rewrite map_app in Hl. cbn [map] in Hl. rewrite last_snoc in Hl.
    pose proof (sorted_below T e [] (sv_sorted _ _ _ _ _ _ _ _ H)) as Hb. apply Forall_app in Hle as [_ [Hle _]%Forall_cons].
    assert (ip_of e <> addr z) by congruence. apply Forall_app. split; [|apply Forall_singleton; lia].
    eapply Forall_impl; [exact Hb|]. intros u. cbn. lia.
Qed.

Lemma sorted_snoc (l : list Z) p : StronglySorted Z.lt l -> Forall (fun q => q < p) l -> StronglySorted Z.lt (l ++ [p]).
Proof using Type.
  induction l as [|q l IH]; [intros _ _; repeat constructor|]. intros [H1 H2]%StronglySorted_inv [H3 H4]%Forall_cons.
  cbn. constructor; [by apply IH|]. apply Forall_app. split; [done|]. by apply Forall_singleton.
Qed.
Lemma served_new d d' T z n q mac : served d T z -> let z' := next_octet a b c z T in z' <= y -> ~ In mac (map mac_of T) ->
  holds d' (T ++ [(n, q, DhcpsPool (addr z') mac DHCPS_LEASE_TIMER)]) -> lease_start d' = lease_start d ->
  lease_end d' = lease_end d -> client_address_plus d' = addr z' -> served d' (T ++ [(n, q, DhcpsPool (addr z') mac DHCPS_LEASE_TIMER)]) z'.
Proof using Type.
  intros H z' Hy Hmac Hh' Es Ee Ep. destruct (served_next d T z H) as [Hz Hlt]. fold z' in Hz, Hlt. destruct H as [Hb Ho Hh Hs He Hp Hss Hin Hm Ht].
  split; [done|lia|done|congruence|congruence|done|..].
  - rewrite map_app. apply sorted_snoc; [done|]. by rewrite Forall_map.
  - apply Forall_app. split; [|apply Forall_singleton; exists z'; split; [lia|done]]. eapply Forall_impl; [exact Hin|].
    intros e (k & Hk & E). exists k. split; [lia|done].
  - rewrite map_app. apply NoDup_app. split; [done|]. split; [|apply NoDup_singleton]. intros m Hi ->%list_elem_of_singleton.
    by apply Hmac, list_elem_of_In.
  - apply Forall_app. split; [done|]. apply Forall_singleton. cbn. unfold DHCPS_LEASE_TIMER. lia.
Qed.

(** The end of the timer's work. *)
Lemma tick_expire T : Forall (fun e => 1 <= lease_timer (entry e) <= DHCPS_LEASE_TIMER) T -> tick T = expire 1 T.
Proof using Type.
  unfold tick, expire. induction T as [|e T IH]; [done|]. intros [H1 H2]%Forall_cons. cbn [map]. specialize (IH H2).
  destruct (decide (lease_timer (entry e) = 1)) as [E|E].
  - rewrite !filter_cons_False by (cbn; lia). exact IH.
  - rewrite !filter_cons_True by (cbn; lia). cbn [map]. f_equal. exact IH.
Qed.
Lemma expire_map {B} (f : lease -> B) k T : (forall t e, f (with_timer t e) = f e) ->
  map f (expire k T) = map f (filter (fun e => Z.of_nat k < lease_timer (entry e)) T).
Proof using Type. intros Hf. unfold expire. rewrite map_map. apply map_ext. intros e. apply Hf. Qed.
Lemma expire_in (P : lease -> Prop) k T : (forall e, In e T -> Z.of_nat k < lease_timer (entry e) -> P (with_timer (lease_timer (entry e) - Z.of_nat k) e)) ->
  Forall P (expire k T).
Proof using Type.
  intros H. apply List.Forall_forall. unfold expire. intros u (e & <- & He)%in_map_iff. apply list_elem_of_In, list_elem_of_filter in He as [Hk He].
  apply H; [by apply list_elem_of_In|done].
Qed.
Lemma sublist_filter_map {A B} (f : A -> B) (P : A -> Prop) `{!forall x, Decision (P x)} (l : list A) : sublist (map f (filter P l)) (map f l).
Proof using Type. apply (fmap_sublist f), sublist_filter. Qed.
Lemma sorted_sublist (l k : list Z) : sublist l k -> StronglySorted Z.lt k -> StronglySorted Z.lt l.
Proof using Type.
  induction 1 as [|q l k Hl IH|q l k Hl IH]; intros Hs; [done| |].
  - apply StronglySorted_inv in Hs as [H1 H2]. constructor; [by apply IH|]. rewrite List.Forall_forall in H2 |- *.
    intros r Hr. apply H2. rewrite <- list_elem_of_In in Hr |- *. by eapply elem_of_sublist.
  - apply StronglySorted_inv in Hs as [H1 H2]. by apply IH.
Qed.
Lemma served_tick d T z : served d T z -> exists d', dhcps_coarse_tmr d = Ok d' /\ served d' (expire 1 T) z.
Proof using Type.
  intros [Hb Ho Hh Hs He Hp Hss Hin Hm Ht]. destruct (tick_loop_ok T (list_fuel (nodes d)) d (plist d) [] Hh) as (h & m & p & E & H').
  - by destruct Hh.
  - eapply Forall_impl; [exact Ht|]. cbn. unfold DHCPS_LEASE_TIMER. lia.
  - destruct Hh as (Hl & _). apply list_fuel_enough in Hl. by rewrite length_map in Hl.
  - unfold dhcps_coarse_tmr. rewrite E. eexists. split; [done|]. cbn [app] in H'. rewrite tick_expire in H' by done.
    assert (Forall (fun e => exists k, x <= k <= z /\ ip_of e = addr k) (expire 1 T)) as Hi.
    { apply expire_in. intros e Hi _. rewrite List.Forall_forall in Hin. exact (Hin e Hi). }
    split; try done.
    + rewrite (expire_map ip_of) by done. eapply sorted_sublist; [apply sublist_filter_map|done].
    + rewrite (expire_map mac_of) by done. eapply sublist_NoDup; [exact Hm|apply sublist_filter_map].
    + apply expire_in. intros e Hi' Hk. rewrite List.Forall_forall in Ht. specialize (Ht e Hi'). cbn. lia.
Qed.

(** The counter stays in the range until a new device asks with the last
    address given. *)
Lemma not_spent d T z mac : served d T z -> ~ In mac (map mac_of T) -> ~ spent d T mac -> next_octet a b c z T <= y.
Proof using Type.
  intros H Hm Hns. pose proof (sv_octets _ _ _ _ _ _ _ _ H) as Ho. unfold next_octet. case_bool_decide as Hl; [|lia].
  destruct (Z.eq_dec z y) as [->|]; [|lia]. destruct Hns. split; [done|]. by rewrite (sv_end _ _ _ _ _ _ _ _ H).
Qed.
Lemma spent_counter d T z mac : served d T z -> spent d T mac -> client_address_plus d = lease_end d.
Proof using Type.
  intros H [_ Hl]. rewrite (sv_end _ _ _ _ _ _ _ _ H) in Hl |- *. rewrite (sv_plus _ _ _ _ _ _ _ _ H).
  apply last_Some_elem_of, list_elem_of_In, in_map_iff in Hl as (e & Ee & He). pose proof (served_le d T z H) as Hle.
  rewrite List.Forall_forall in Hle. specialize (Hle e He). rewrite Ee in Hle. pose proof (sv_octets _ _ _ _ _ _ _ _ H). unfold address_of in *. lia.
Qed.

Context (zalloc_pool : gmap Z dhcps_pool -> option Z) (zalloc_node : gmap Z list_node -> option Z)
        (Gp : fresh_memory zalloc_pool) (Gn : fresh_memory zalloc_node).
Abbreviation pool_loop := (pool_loop zalloc_pool zalloc_node).

Lemma in_range d T z k : served d T z -> x <= k <= y -> client_address_plus d = addr k -> forall e, ip_of e <> 0 -> client_address d = ip_of e ->
  (lease_end d <? client_address_plus d) || (client_address d =? IPADDR_ANY) = false.
Proof using Type.
  intros H Hk Ep e Hip Ec. rewrite Ep, Ec, (sv_end _ _ _ _ _ _ _ _ H), addr_lt. apply orb_false_iff. split; [lia|by apply Z.eqb_neq].
Qed.

(** A device with a lease gets its address again. *)
Lemma request_known d T z e : served d T z -> In e T ->
  exists d', pool_loop pool_fuel d (mac_of e) = Ok d' /\ client_address d' = ip_of e /\ served d' (renew (mac_of e) T) z.
Proof using Type.
  intros H He. apply in_split in He as (T1 & T2 & ->). destruct (renew_at T1 e T2 (sv_macs _ _ _ _ _ _ _ _ H)) as [Hm Er].
  destruct (find_lease_known zalloc_pool zalloc_node d T1 e T2 (sv_holds _ _ _ _ _ _ _ _ H) Hm) as (d' & E & Hh & Ec & Ep & Es & Ee).
  pose proof (sv_in _ _ _ _ _ _ _ _ H) as Hin. apply Forall_app in Hin as [_ [(k & Hk & Ek) _]%Forall_cons].
  pose proof (sv_octets _ _ _ _ _ _ _ _ H) as Ho. destruct (sv_bytes _ _ _ _ _ _ _ _ H) as (Ha & Hb & Hc).
  rewrite (bump_below T1) in Ep.
  2:{ eapply Forall_impl; [exact (sorted_below T1 e T2 (sv_sorted _ _ _ _ _ _ _ _ H))|]. intros u Hu. cbn in Hu |- *.
      rewrite Ek in Hu. rewrite (sv_plus _ _ _ _ _ _ _ _ H). unfold address_of in *. lia. }
  assert (served d' (renew (mac_of e) (T1 ++ e :: T2)) z) as H'.
  { apply (served_renew d); [done|by rewrite Er|done|done|]. rewrite Ep. apply (sv_plus _ _ _ _ _ _ _ _ H). }
  exists d'. split; [|by split]. unfold pool_fuel. cbn [Dhcps.pool_loop]. rewrite E. cbn [rbind].
  rewrite (in_range d' _ z z H') with (e := e); [done|lia|apply (sv_plus _ _ _ _ _ _ _ _ H')|rewrite Ek; apply Z.eqb_neq, addr_some; (done || lia)|done].
Qed.

(** A new device without memory for its lease. *)
Lemma request_fails d T z mac : served d T z -> ~ In mac (map mac_of T) -> no_memory zalloc_pool zalloc_node d -> pool_loop pool_fuel d mac = Fault NullDeref.
Proof using Type.
  intros H Hm Hno. assert (Forall (fun e => mac_of e <> mac) T) as Hm' by (apply List.Forall_forall; intros e He <-; by apply Hm, in_map).
  destruct (sv_holds _ _ _ _ _ _ _ _ H) as (Hl & _ & Hs). unfold pool_fuel. cbn [Dhcps.pool_loop]. unfold find_lease.
  rewrite (search_loop_missing mac T) by (done || (apply list_fuel_enough in Hl; by rewrite length_map in Hl)).
  cbn [rbind set_client set_plus pools nodes plist]. destruct Hno as [E|E]; rewrite E; [done|]. by destruct (zalloc_pool (pools d)).
Qed.

(** A new device gets an address nobody has while there is one. *)
Lemma request_new d T z mac : served d T z -> ~ In mac (map mac_of T) -> ~ no_memory zalloc_pool zalloc_node d ->
  let z' := next_octet a b c z T in z' <= y ->
  exists d' n q, let T' := T ++ [(n, q, DhcpsPool (addr z') mac DHCPS_LEASE_TIMER)] in
  pool_loop pool_fuel d mac = Ok d' /\ client_address d' = addr z' /\ ~ In (addr z') (map ip_of T) /\ served d' T' z'.
Proof using Gp Gn.
  intros H Hm Hmem z' Hz. unfold no_memory in Hmem.
  destruct (zalloc_pool (pools d)) as [q|] eqn:Zp; [|tauto]. destruct (zalloc_node (nodes d)) as [n|] eqn:Zn; [|tauto].
  destruct (Gp _ _ Zp) as (Hq & Fq). destruct (Gn _ _ Zn) as (Hn & Fn).
  assert (Forall (fun e => mac_of e <> mac) T) as Hm'.
  { apply List.Forall_forall. intros e He <-. by apply Hm, in_map. }
  destruct (find_lease_new zalloc_pool zalloc_node d T mac q n (sv_holds _ _ _ _ _ _ _ _ H) Hm' Zp Hq Fq Zn Hn Fn) as (d' & E & Hh & Ec & Ep & Es & Ee).
  rewrite (sv_plus _ _ _ _ _ _ _ _ H), (served_bump d T z H) in Hh, Ec, Ep. fold z' in Hh, Ec, Ep.
  assert (served d' (T ++ [(n, q, DhcpsPool (addr z') mac DHCPS_LEASE_TIMER)]) z') as H' by by apply (served_new d).
  destruct (served_next d T z H) as [Hz' Hlt]. fold z' in Hz', Hlt. pose proof (sv_octets _ _ _ _ _ _ _ _ H) as Ho.
  destruct (sv_bytes _ _ _ _ _ _ _ _ H) as (Ha & Hb & Hc).
  exists d', n, q. split; [|split; [done|split; [|done]]].
  - unfold pool_fuel. cbn [Dhcps.pool_loop]. rewrite E. cbn [rbind].
    rewrite (in_range d' _ z' z' H') with (e := (n, q, DhcpsPool (addr z') mac DHCPS_LEASE_TIMER)); [done|lia|done| |done].
    apply Z.eqb_neq, addr_some; (done || lia).
  - intros (e & Ee' & He)%in_map_iff. rewrite List.Forall_forall in Hlt. specialize (Hlt e He). cbn in Hlt. lia.
Qed.
End served.

(** ** What the search leaves alone *)

Definition others (d : dhcps) :=
  (xid d, old_xid d, pcb_dhcps d, broadcast_dhcps d, server_address d, msg_dhcps d, s_state d, dhcps_lease_flag d).
Lemma search_others mac : forall fuel d a found d', search_loop fuel d a mac = Ok (found, d') -> others d' = others d.
Proof.
  induction fuel as [|fuel IH]; intros d a found d'; cbn [search_loop]; [done|]. destruct (a =? 0); [by intros [= _ <-]|].
  destruct (cell (nodes d) a) as [n|]; [|done]. cbn [rbind]. destruct (cell (pools d) (pnode n)) as [p|]; [|done]. cbn [rbind].
  case_bool_decide; [by intros [= _ <-]|]. destruct (pool_ip p =? client_address_plus d); [|apply IH]. intros E%IH. by rewrite E.
Qed.
Lemma pool_others zalloc_pool zalloc_node mac : forall fuel d d', pool_loop zalloc_pool zalloc_node fuel d mac = Ok d' -> others d' = others d.
Proof.
  induction fuel as [|fuel IH]; intros d d'; cbn [pool_loop]; [done|]. intros (d1 & E & Hd)%rbind_ok.
  assert (others d1 = others d) as <-.
  { unfold find_lease in E. apply rbind_ok in E as ([found d2] & E & Hd2). apply search_others in E. change (others (set_client d _)) with (others d) in E. rewrite <- E.
    destruct found; [by injection Hd2 as <-|]. apply rbind_ok in Hd2 as (q & _ & Hd2). apply rbind_ok in Hd2 as (n & _ & Hd2).
    apply rbind_ok in Hd2 as ([h m] & _ & Hd2). by injection Hd2 as <-. }
  destruct (_ || _); [apply IH in Hd; by rewrite Hd|by injection Hd as <-].
Qed.
(** The invariant looks at the leases and the range. *)
Lemma served_frame a b c x y d d' T z : nodes d' = nodes d -> pools d' = pools d -> plist d' = plist d -> lease_start d' = lease_start d ->
  lease_end d' = lease_end d -> client_address_plus d' = client_address_plus d -> served a b c x y d T z -> served a b c x y d' T z.
Proof.
  intros En Ep El Es Ee Epl [Hb Ho Hh Hs He Hp Hss Hin Hm Ht]. split; try done; try congruence.
  destruct Hh as (Hl & Hnd & HF). split; [by rewrite En, El|]. split; [done|]. eapply stored_all; [exact HF| |by intros; rewrite Ep].
  intros e _. rewrite En. apply same_entry_refl.
Qed.

(** ** What devices get *)

(** A concrete allocator and a server without leases, which gives [10.0.0.x]. *)
Definition fresh_zalloc {C} (m : gmap Z C) : option Z := Some (fresh ({[ 0 ]} ∪ dom m : gset Z)).
Lemma fresh_grants {C} : fresh_memory (C:=C) fresh_zalloc.
Proof.
  intros m p [= <-]. pose proof (is_fresh ({[ 0 ]} ∪ dom m : gset Z)) as Hf. split; [set_solver|].
  apply not_elem_of_dom. set_solver.
Qed.
Lemma fresh_enough d : ~ no_memory fresh_zalloc fresh_zalloc d.
Proof. by intros [?|?]. Qed.
Definition idle_server (x y : Z) : dhcps :=
  Dhcps [] [] 1 0 (address_of 10 0 0 254) 0 (address_of 10 0 0 x) [] DHCPS_STATE_IDLE (address_of 10 0 0 x) (address_of 10 0 0 y) true 0 ∅ ∅.
Lemma idle_serves x y : 1 <= x <= y /\ y <= 254 -> served 10 0 0 x y (idle_server x y) [] x.
Proof. intros H. split; try done; try lia; try constructor; repeat constructor. Qed.
Definition mac1 : list Z := [2; 0; 0; 0; 0; 1].
Definition mac2 : list Z := [2; 0; 0; 0; 0; 2].
Definition mac3 : list Z := [2; 0; 0; 0; 0; 3].

(** A device that has a lease gets the same address again, and its lease
    is renewed; a new device gets the address behind the last one given, or
    that one when its lease has ended, which no lease in the list has, unless
    it is behind the range; the other leases are left alone.  Without memory
    for a new lease the code writes through NULL. *)
Theorem dhcps_lease_request zalloc_pool zalloc_node a b c x y d T z mac :
  fresh_memory zalloc_pool -> fresh_memory zalloc_node -> served a b c x y d T z ->
  let z' := next_octet a b c z T in
  (forall e, In e T -> mac_of e = mac ->
    exists d', pool_loop zalloc_pool zalloc_node pool_fuel d mac = Ok d' /\ client_address d' = ip_of e /\
      served a b c x y d' (renew mac T) z) /\
  (~ In mac (map mac_of T) -> no_memory zalloc_pool zalloc_node d -> pool_loop zalloc_pool zalloc_node pool_fuel d mac = Fault NullDeref) /\
  (~ In mac (map mac_of T) -> ~ no_memory zalloc_pool zalloc_node d -> ~ spent d T mac ->
    exists d' n q, let T' := T ++ [(n, q, DhcpsPool (address_of a b c z') mac DHCPS_LEASE_TIMER)] in
      pool_loop zalloc_pool zalloc_node pool_fuel d mac = Ok d' /\ client_address d' = address_of a b c z' /\
      ~ In (address_of a b c z') (map ip_of T) /\ served a b c x y d' T' z').
Proof.
  intros Gp Gn H z'. split; [|split].
  - intros e He <-. by apply request_known.
  - by apply (request_fails a b c x y _ _ d T z).
  - intros Hm Hmem Hz. apply request_new; try done. by apply (not_spent a b c x y d T z mac).
Qed.
Lemma dhcps_lease_request_witness : exists d' n q,
  pool_loop fresh_zalloc fresh_zalloc pool_fuel (idle_server 1 9) mac1 = Ok d' /\ client_address d' = address_of 10 0 0 1 /\
  served 10 0 0 1 9 d' [(n, q, DhcpsPool (address_of 10 0 0 1) mac1 DHCPS_LEASE_TIMER)] 1.
Proof.
  destruct (dhcps_lease_request fresh_zalloc fresh_zalloc 10 0 0 1 9 (idle_server 1 9) [] 1 mac1 fresh_grants fresh_grants) as (_ & _ & H);
    [apply idle_serves; lia|].
  destruct H as (d' & n & q & E & Ec & _ & H'); [by intros []|apply fresh_enough|by intros [_ ?]|]. by exists d', n, q.
Defined.

(** [e] is the lease of the device in the new list: the one it has, renewed, or
    a new one at the end, for an address that no lease has. *)
Definition lease_for (T : list lease) (mac : list Z) (T' : list lease) (e : lease) : Prop :=
  In e T' /\ mac_of e = mac /\
  (In mac (map mac_of T) /\ T' = renew mac T \/ ~ In mac (map mac_of T) /\ T' = T ++ [e] /\ ~ In (ip_of e) (map ip_of T)).

(** The lease of a device, old or new. *)
Lemma lease_found zalloc_pool zalloc_node a b c x y d T z mac :
  fresh_memory zalloc_pool -> fresh_memory zalloc_node -> served a b c x y d T z -> ~ spent d T mac ->
  ~ In mac (map mac_of T) /\ no_memory zalloc_pool zalloc_node d /\ pool_loop zalloc_pool zalloc_node pool_fuel d mac = Fault NullDeref \/
  exists d' T' z' e, pool_loop zalloc_pool zalloc_node pool_fuel d mac = Ok d' /\ served a b c x y d' T' z' /\
    lease_for T mac T' e /\ ip_of e = client_address d'.
Proof.
  intros Gp Gn H Hr. destruct (in_dec (List.list_eq_dec Z.eq_dec) mac (map mac_of T)) as [(e & <- & He)%in_map_iff|Hn].
  - right. destruct (request_known a b c x y zalloc_pool zalloc_node d T z e H He) as (d' & E & Ec & H').
    exists d', (renew (mac_of e) T), z, (with_timer DHCPS_LEASE_TIMER e). split; [done|]. split; [done|]. split; [|done].
    split; [|split; [done|left; split; [by apply in_map|done]]]. unfold renew. apply in_map_iff. exists e. split; [|done]. by rewrite bool_decide_true.
  - pose proof (not_spent a b c x y d T z mac H Hn Hr) as Hz.
    assert (no_memory zalloc_pool zalloc_node d \/ ~ no_memory zalloc_pool zalloc_node d) as [Hno|Hmem].
    { unfold no_memory. destruct (zalloc_pool (pools d)), (zalloc_node (nodes d)); tauto || (right; by intros [?|?]). }
    { left. split; [done|]. split; [done|]. by apply (request_fails a b c x y _ _ d T z). }
    right. destruct (request_new a b c x y zalloc_pool zalloc_node Gp Gn d T z mac H Hn Hmem Hz) as (d' & n & q & E & Ec & Hnew & H').
    exists d', (T ++ [(n, q, DhcpsPool (address_of a b c (next_octet a b c z T)) mac DHCPS_LEASE_TIMER)]), (next_octet a b c z T), (n, q, DhcpsPool (address_of a b c (next_octet a b c z T)) mac DHCPS_LEASE_TIMER).
    split; [done|]. split; [done|]. split; [|done]. split; [apply in_app_iff; right; by left|]. split; [done|]. by right.
Qed.

Lemma served_addresses a b c x y d T z : served a b c x y d T z -> NoDup (map ip_of T).
Proof.
  intros H. pose proof (sv_sorted _ _ _ _ _ _ _ _ H) as Hs. induction (map ip_of T) as [|p l IH]; [constructor|].
  apply StronglySorted_inv in Hs as [H1 H2]. apply NoDup_cons. split; [|by apply IH]. intros Hi%list_elem_of_In.
  rewrite List.Forall_forall in H2. specialize (H2 p Hi). lia.
Qed.

(** No request of the run is from a new device that finds the last address of
    the range given to the newest lease. *)
Fixpoint unspent zalloc_pool zalloc_node (a b c x y : Z) (l : list op) (d : dhcps) : Prop :=
  match l with
  | [] => True
  | o :: l =>
      match o with Request mac => forall T z, served a b c x y d T z -> ~ spent d T mac | Tick => True end /\
      forall d', step zalloc_pool zalloc_node o d = Ok d' -> unspent zalloc_pool zalloc_node a b c x y l d'
  end.
(** The counter says so. *)
Lemma unspent_counter a b c x y d mac : client_address_plus d <> lease_end d -> forall T z, served a b c x y d T z -> ~ spent d T mac.
Proof. intros Hne T z H Hs. by apply Hne, (spent_counter a b c x y d T z mac). Qed.

(** A run that met a request without memory. *)
Definition starved zalloc_pool zalloc_node (l : list op) (d : dhcps) : Prop :=
  exists l1 mac l2 d1, l = l1 ++ Request mac :: l2 /\ run zalloc_pool zalloc_node l1 d = Ok d1 /\ no_memory zalloc_pool zalloc_node d1.

Lemma step_serves zalloc_pool zalloc_node a b c x y d T z o :
  fresh_memory zalloc_pool -> fresh_memory zalloc_node -> served a b c x y d T z -> match o with Request mac => ~ spent d T mac | Tick => True end ->
  (exists mac, o = Request mac /\ no_memory zalloc_pool zalloc_node d /\ step zalloc_pool zalloc_node o d = Fault NullDeref) \/
  exists d' T' z', step zalloc_pool zalloc_node o d = Ok d' /\ served a b c x y d' T' z'.
Proof.
  intros Gp Gn H Hs. destruct o as [mac|].
  - destruct (lease_found zalloc_pool zalloc_node a b c x y d T z mac Gp Gn H Hs) as [(_ & Hno & E)|(d' & T' & z' & _ & E & H' & _)];
      [left; by exists mac|right; by exists d', T', z'].
  - right. destruct (served_tick _ _ _ _ _ _ _ _ H) as (d' & E & H'). by exists d', (expire 1 T), z.
Qed.

(** C27: the leases.  However requests and timer calls follow each other, until
    a new device asks when the newest lease has the last address of the range,
    no two devices have one address, no device has two leases, and every address
    is in the range.  Renewals do not count.  The only fault is that of a new
    device when [os_zalloc] has no memory for its lease, which the code writes
    through NULL (dhcpserver.c:605).  What the exception excludes goes wrong:
    the counter starts over, see [wrapped_run_given]. *)
Theorem dhcps_leases_apart zalloc_pool zalloc_node a b c x y l : forall d T z,
  fresh_memory zalloc_pool -> fresh_memory zalloc_node -> served a b c x y d T z -> unspent zalloc_pool zalloc_node a b c x y l d ->
  starved zalloc_pool zalloc_node l d /\ run zalloc_pool zalloc_node l d = Fault NullDeref \/
  exists d' T' z', run zalloc_pool zalloc_node l d = Ok d' /\ holds d' T' /\ NoDup (map ip_of T') /\ NoDup (map mac_of T') /\
    Forall (fun e => exists k, x <= k <= y /\ ip_of e = address_of a b c k) T' /\ served a b c x y d' T' z'.
Proof.
  induction l as [|o l IH]; intros d T z Gp Gn H Hun.
  - right. exists d, T, z. split; [done|]. split; [apply H|]. split; [by eapply served_addresses|]. split; [apply H|]. split; [|done].
    eapply Forall_impl; [apply (sv_in _ _ _ _ _ _ _ _ H)|]. intros e (k & Hk & E). exists k. split; [|done].
    pose proof (sv_octets _ _ _ _ _ _ _ _ H). lia.
  - destruct Hun as [Ho Hun]. cbn [run].
    destruct (step_serves zalloc_pool zalloc_node a b c x y d T z o Gp Gn H) as [(mac & -> & Hno & E)|(d1 & T1 & z1 & E & H1)].
    + destruct o; [|done]. by apply (Ho T z).
    + left. split; [by exists [], mac, l, d|]. by rewrite E.
    + rewrite E. cbn [rbind]. destruct (IH d1 T1 z1 Gp Gn H1 (Hun d1 E)) as [[(l1 & mac & l2 & d2 & -> & E1 & Hno) Ef]|Hr]; [left|by right].
      split; [|done]. exists (o :: l1), mac, l2, d2. split; [done|]. split; [|done]. cbn [run]. by rewrite E.
Qed.
Lemma dhcps_leases_apart_witness : exists d' T' z',
  run fresh_zalloc fresh_zalloc [Request mac1; Request mac2; Tick; Request mac1] (idle_server 1 4) = Ok d' /\ holds d' T' /\
  NoDup (map ip_of T') /\ served 10 0 0 1 4 d' T' z'.
Proof.
  destruct (dhcps_leases_apart fresh_zalloc fresh_zalloc 10 0 0 1 4 [Request mac1; Request mac2; Tick; Request mac1] (idle_server 1 4) [] 1
    fresh_grants fresh_grants) as [[(l1 & mac & l2 & d1 & _ & _ & Hno) _]|(d' & T' & z' & E & Hh & Hn & _ & _ & H)].
  - apply idle_serves. lia.
  - split; [apply unspent_counter; vm_compute; discriminate|]. intros d1 E1. vm_compute in E1. injection E1 as <-.
    split; [apply unspent_counter; vm_compute; discriminate|]. intros d2 E2. vm_compute in E2. injection E2 as <-.
    split; [exact I|]. intros d3 E3. vm_compute in E3. injection E3 as <-.
    split; [apply unspent_counter; vm_compute; discriminate|]. intros d4 _. exact I.
  - by destruct (fresh_enough d1).
  - by exists d', T', z'.
Defined.

(** ** The end of leases *)
Lemma timer_with t e : lease_timer (entry (with_timer t e)) = t.
Proof. done. Qed.
Lemma expire_add T k : expire 1 (expire k T) = expire (S k) T.
Proof.
  unfold expire. induction T as [|e T IH]; [done|]. destruct (decide (Z.of_nat k < lease_timer (entry e))) as [Hk|Hk].
  - rewrite (filter_cons_True _ e) by done. cbn [map]. destruct (decide (Z.of_nat (S k) < lease_timer (entry e))).
    + rewrite !filter_cons_True by (rewrite ?timer_with; lia). cbn [map]. f_equal; [|exact IH]. unfold with_timer. cbn [node_at pool_at entry ip_of mac_of fst snd pool_ip pool_mac lease_timer]. do 2 f_equal. lia.
    + rewrite !filter_cons_False by (rewrite ?timer_with; lia). exact IH.
  - rewrite !filter_cons_False by lia. exact IH.
Qed.
Lemma expire_zero T : Forall (fun e => 1 <= lease_timer (entry e) <= DHCPS_LEASE_TIMER) T -> expire 0 T = T.
Proof.
  unfold expire. induction T as [|e T IH]; [done|]. intros [H1 H2]%Forall_cons. rewrite filter_cons_True by (cbn; lia). cbn [map].
  f_equal; [|by apply IH]. destruct e as [[n q] [ip mac t]]. unfold with_timer. cbn. do 2 f_equal. lia.
Qed.

(** C28: [k] calls of the timer end exactly the leases of at most [k] units,
    take [k] from the others and keep their order and addresses; a lease that
    nobody renews is gone with its 1440th call. *)
Theorem dhcps_leases_expire zalloc_pool zalloc_node a b c x y d T z k : served a b c x y d T z ->
  exists d', run zalloc_pool zalloc_node (replicate k Tick) d = Ok d' /\ served a b c x y d' (expire k T) z /\
    (DHCPS_LEASE_TIMER <= Z.of_nat k -> plist d' = 0).
Proof.
  intros H. assert (exists d', run zalloc_pool zalloc_node (replicate k Tick) d = Ok d' /\ served a b c x y d' (expire k T) z) as (d' & E & H').
  { replace (expire k T) with (Nat.iter k (expire 1) T).
    - clear -H. revert d T H. induction k as [|k IH]; intros d T H; [by exists d|]. cbn [replicate run].
      destruct (served_tick _ _ _ _ _ _ _ _ H) as (d1 & E & H1). cbn [step]. rewrite E. cbn [rbind]. rewrite Nat.iter_succ_r. by apply IH.
    - pose proof (sv_timers _ _ _ _ _ _ _ _ H) as Ht. clear -Ht. induction k as [|k IH]; [by rewrite expire_zero|].
      rewrite Nat.iter_succ, IH. apply expire_add. }
  exists d'. split; [done|]. split; [done|]. intros Hk. destruct (sv_holds _ _ _ _ _ _ _ _ H') as (Hl & _).
  assert (expire k T = []) as E0; [|by rewrite E0 in Hl].
  pose proof (sv_timers _ _ _ _ _ _ _ _ H) as Ht. unfold expire. induction T as [|e T IH] in Ht |- *; [done|].
  apply Forall_cons in Ht as [H1 H2]. rewrite filter_cons_False by (cbn; lia). by apply IH.
Qed.
Lemma dhcps_leases_expire_witness : exists d', run fresh_zalloc fresh_zalloc (replicate 3 Tick) (idle_server 1 4) = Ok d' /\ served 10 0 0 1 4 d' [] 1.
Proof.
  destruct (dhcps_leases_expire fresh_zalloc fresh_zalloc 10 0 0 1 4 (idle_server 1 4) [] 1 3) as (d' & E & H & _); [apply idle_serves; lia|].
  exists d'. split; [exact E|exact H].
Defined.

(** ** The end of the range *)

Section full.
Context (a b c x y : Z) (Ha : is_byte a) (Hb : is_byte b) (Hc : is_byte c) (Hx : 1 <= x) (Hxy : x <= y <= 254).
Context (zalloc_pool : gmap Z dhcps_pool -> option Z) (zalloc_node : gmap Z list_node -> option Z).
Abbreviation addr := (address_of a b c).

Lemma bump_run T : forall k, x <= k -> k + zlen T <= 255 -> map ip_of T = map addr (seqZ k (zlen T)) -> bump T (addr k) = addr (k + zlen T).
Proof using Ha Hb Hc Hx.
  induction T as [|e T IH]; intros k Hk Hl E; [by rewrite zlen_nil, Z.add_0_r|]. zl. pose proof (zlen_nonneg T).
  rewrite seqZ_cons in E by lia. cbn [map] in E. replace (Z.pred (1 + zlen T)) with (zlen T) in E by lia. unfold bump. cbn [fold_left].
  assert (ip_of e = addr k) as -> by congruence. rewrite Z.eqb_refl, addr_next by (done || lia).
  replace (Z.succ k) with (k + 1) in E by lia. fold (bump T (addr (k + 1))). rewrite IH; [f_equal; lia|lia|lia|congruence].
Qed.

(** A lease behind the range and all of the range taken. *)
Lemma full_loop fuel : forall d T e, holds d (T ++ [e]) -> Forall (fun u => mac_of u <> mac_of e) T ->
  map ip_of T = map addr (seqZ x (y - x + 1)) -> lease_start d = addr x -> lease_end d = addr y -> client_address_plus d = addr x ->
  pool_loop zalloc_pool zalloc_node fuel d (mac_of e) = Fault OutOfFuel.
Proof using Ha Hb Hc Hx Hxy.
  induction fuel as [|fuel IH]; intros d T e Hh Hm Hip Es Ee Ep; [done|]. cbn [pool_loop].
  assert (zlen T = y - x + 1) as Hl.
  { pose proof (f_equal length Hip) as HL. rewrite !length_map, length_seqZ in HL. unfold zlen. lia. }
  destruct (find_lease_known zalloc_pool zalloc_node d T e [] Hh Hm) as (d' & E & Hh' & _ & Ep' & Es' & Ee').
  rewrite E. cbn [rbind]. rewrite Ep, (bump_run T x) in Ep' by (try lia; rewrite Hl; done).
  assert ((lease_end d' <? client_address_plus d') = true) as ->.
  { rewrite Ep', Ee', Ee, addr_lt. lia. }
  cbn [orb]. apply (IH _ T (with_timer DHCPS_LEASE_TIMER e)); [exact Hh'|done|done|by rewrite <- Es, <- Es'|by rewrite <- Ee, <- Ee'|by rewrite <- Es, <- Es'].
Qed.
End full.

(** When all addresses of the range are taken, the search for an address
    for one more device does not end, however long it runs. *)
Theorem dhcps_full_range_hangs zalloc_pool zalloc_node a b c x y d T z mac fuel :
  fresh_memory zalloc_pool -> fresh_memory zalloc_node -> ~ no_memory zalloc_pool zalloc_node d -> served a b c x y d T z ->
  map ip_of T = map (address_of a b c) (seqZ x (y - x + 1)) -> ~ In mac (map mac_of T) ->
  pool_loop zalloc_pool zalloc_node fuel d mac = Fault OutOfFuel.
Proof.
  intros Gp Gn Hmem H Hip Hm. destruct fuel as [|fuel]; [done|]. cbn [pool_loop]. unfold no_memory in Hmem.
  destruct (zalloc_pool (pools d)) as [q|] eqn:Zp; [|tauto]. destruct (zalloc_node (nodes d)) as [n|] eqn:Zn; [|tauto].
  destruct (Gp _ _ Zp) as (Hq & Fq). destruct (Gn _ _ Zn) as (Hn & Fn).
  assert (Forall (fun e => mac_of e <> mac) T) as Hm' by (apply List.Forall_forall; intros e He <-; by apply Hm, in_map).
  destruct (find_lease_new zalloc_pool zalloc_node d T mac q n (sv_holds _ _ _ _ _ _ _ _ H) Hm' Zp Hq Fq Zn Hn Fn) as (d' & E & Hh & _ & Ep & Es & Ee).
  pose proof (sv_octets _ _ _ _ _ _ _ _ H) as Ho. destruct (sv_bytes _ _ _ _ _ _ _ _ H) as (Ha & Hb & Hc).
  assert (last (map ip_of T) = Some (address_of a b c y)) as Hlast.
  { rewrite Hip. replace (y - x + 1) with ((y - x) + 1) by lia. rewrite seqZ_app, map_app by lia.
    change (map (address_of a b c) (seqZ (x + (y - x)) 1)) with [address_of a b c (0 + (x + (y - x)))]. rewrite last_snoc. do 2 f_equal. lia. }
  assert (z = y) as ->.
  { pose proof (served_le _ _ _ _ _ _ _ _ H) as Hle. assert (In (address_of a b c y) (map ip_of T)) as (e & Ee' & He)%in_map_iff.
    { apply list_elem_of_In. by apply last_Some_elem_of. }
    rewrite List.Forall_forall in Hle. specialize (Hle e He). rewrite Ee' in Hle. unfold address_of in Hle. lia. }
  rewrite (sv_plus _ _ _ _ _ _ _ _ H), (served_bump _ _ _ _ _ _ _ _ H) in Hh, Ep. unfold next_octet in Hh, Ep. rewrite bool_decide_true in Hh, Ep by done.
  rewrite E. cbn [rbind]. rewrite Ep, Ee, (sv_end _ _ _ _ _ _ _ _ H), addr_lt, (proj2 (Z.ltb_lt y (y + 1))) by lia. cbn [orb].
  set (e := (n, q, DhcpsPool (address_of a b c (y + 1)) mac DHCPS_LEASE_TIMER)) in *. change mac with (mac_of e).
  apply (full_loop a b c x y Ha Hb Hc) with (T := T); (done || lia || idtac).
  - exact (eq_trans Es (sv_start _ _ _ _ _ _ _ _ H)).
  - exact (eq_trans Ee (sv_end _ _ _ _ _ _ _ _ H)).
  - exact (eq_trans Es (sv_start _ _ _ _ _ _ _ _ H)).
Qed.
Lemma dhcps_full_range_hangs_witness : exists d', pool_loop fresh_zalloc fresh_zalloc pool_fuel (idle_server 7 7) mac1 = Ok d' /\
  forall fuel, pool_loop fresh_zalloc fresh_zalloc fuel d' mac2 = Fault OutOfFuel.
Proof.
  destruct (request_new 10 0 0 7 7 fresh_zalloc fresh_zalloc fresh_grants fresh_grants (idle_server 7 7) [] 7 mac1) as (d' & n & q & E & _ & _ & H);
    [apply idle_serves; lia|by intros []|apply fresh_enough|vm_compute; congruence|].
  exists d'. split; [exact E|]. intros fuel. eapply (dhcps_full_range_hangs fresh_zalloc fresh_zalloc 10 0 0 7 7);
    [apply fresh_grants|apply fresh_grants|apply fresh_enough|exact H|reflexivity|]. intros [E2|[]]. discriminate E2.
Defined.

(** Three devices have the range; one of them goes, and three new ones come:
    the first gets an address behind the range, the third one that is in
    use. *)
Definition mac4 : list Z := [2; 0; 0; 0; 0; 4].
Definition mac5 : list Z := [2; 0; 0; 0; 0; 5].
Definition mac6 : list Z := [2; 0; 0; 0; 0; 6].
Definition wrapped_run : list op :=
  [Request mac1; Request mac2; Request mac3] ++ replicate 1000 Tick ++ [Request mac2; Request mac3] ++ replicate 440 Tick.
Definition given (l : list op) (d : dhcps) : option Z :=
  match run fresh_zalloc fresh_zalloc l d with Ok d => Some (client_address d) | Fault _ => None end.
Example wrapped_run_given :
  let d := idle_server 1 3 in
  given (wrapped_run ++ [Request mac4]) d = Some (address_of 10 0 0 4) /\
  given (wrapped_run ++ [Request mac4; Request mac5]) d = Some (address_of 10 0 0 1) /\
  given (wrapped_run ++ [Request mac4; Request mac5; Request mac6]) d = Some (address_of 10 0 0 2) /\
  given (wrapped_run ++ [Request mac4; Request mac5; Request mac6; Request mac2]) d = Some (address_of 10 0 0 2).
Proof. vm_compute. repeat split. Qed.
