(* ===== verification/DhcpsMsg.v ===== *)
(** * The messages of the DHCP server: theorems about [parse_options],
    [create_msg] and the options of [lwip/app/dhcpserver.c]. *)
From S2P Require Import Prelude Cobs Uart Comm Message Pbuf PbufChain InetChksum IpHdr IpAddr Linked RawPcb Etharp Netif Ip Icmp Udp Dhcps.
From stdpp Require Import list gmap.
#[local] Open Scope Z_scope.

(** An option is a code and data; it is sent as the code, the length and the
    data. *)
Abbreviation option_tlv := (Z * list Z)%type.
Definition encode (o : option_tlv) : list Z := o.1 :: zlen o.2 :: o.2.
Definition encodes (l : list option_tlv) : list Z := concat (map encode l).

(** What the server needs of an option: no end mark, one byte of a message
    type and four of an address. *)
Definition option_ok (o : option_tlv) : Prop :=
  0 <= o.1 < 255 /\ zlen o.2 < 256 /\ bytes o.2 /\ (o.1 = DHCP_OPTION_MSG_TYPE -> 1 <= zlen o.2) /\ (o.1 = DHCP_OPTION_REQ_IPADDR -> 4 <= zlen o.2).

(** The data of the last option with a code. *)
Definition last_option (code : Z) (l : list option_tlv) : option (list Z) :=
  snd <$> last (filter (fun o => o.1 = code) l).

(** The type of a message with these options, 0 when it has none. *)
Definition type_of (l : list option_tlv) : Z := default 0 (last_option DHCP_OPTION_MSG_TYPE l ≫= head).
(** The answer to a request: the address asked for is the client's or not. *)
Definition asks_for (client : Z) (l : list option_tlv) : option bool :=
  (fun d => bool_decide (take 4 d = u32_bytes client)) <$> last_option DHCP_OPTION_REQ_IPADDR l.
Definition asked_state (o : option bool) : Z :=
  match o with None => DHCPS_STATE_IDLE | Some true => DHCPS_STATE_ACK | Some false => DHCPS_STATE_NAK end.

(** The state a message puts the server in. *)
Definition verdict (client : Z) (l : list option_tlv) : Z :=
  let type := type_of l in
  if type =? DHCPDISCOVER then DHCPS_STATE_OFFER
  else if type =? DHCPREQUEST then match asks_for client l with Some true => DHCPS_STATE_ACK | _ => DHCPS_STATE_NAK end
  else if (type =? DHCPDECLINE) || (type =? DHCPRELEASE) then DHCPS_STATE_IDLE
  else asked_state (asks_for client l).

(** ** The options of a request *)
Lemma zlen_encode o : zlen (encode o) = 2 + zlen o.2.
Proof. unfold encode. zl. lia. Qed.
Lemma encodes_cons o l : encodes (o :: l) = encode o ++ encodes l.
Proof. done. Qed.

(** Reading at a place behind a prefix. *)
Lemma mread_at pre x m i : i = zlen pre -> mread (pre ++ x :: m) i = Ok x.
Proof. intros ->. rewrite mread_skip by lia. apply mread_here. lia. Qed.
Lemma mslice_at pre l m i n : i = zlen pre -> n = zlen l -> mslice (pre ++ l ++ m) i n = Ok l.
Proof. intros -> ->. rewrite mslice_skip by lia. rewrite mslice_here; [done|lia|done]. Qed.

Lemma last_option_cons code o l : last_option code (o :: l) =
  match last_option code l with Some d => Some d | None => if bool_decide (o.1 = code) then Some o.2 else None end.
Proof.
  unfold last_option. case_bool_decide as E.
  - rewrite filter_cons_True by done. rewrite last_cons. by destruct (last _).
  - rewrite filter_cons_False by done. by destruct (last _).
Qed.

Lemma mslice_part pre l m i n : i = zlen pre -> 0 <= n -> n <= zlen l -> mslice (pre ++ l ++ m) i n = Ok (take (Z.to_nat n) l).
Proof.
  intros Hi Hn Hl. rewrite <- (take_drop (Z.to_nat n) l) at 1. rewrite <- app_assoc. apply mslice_at; [done|]. unfold zlen in *. rewrite length_take. lia.
Qed.

Lemma mslice_val m i n : 0 <= i -> 0 <= n -> i + n <= zlen m -> mslice m i n = Ok (take (Z.to_nat n) (drop (Z.to_nat i) m)).
Proof. intros. unfold mslice. by rewrite !(proj2 (Z.leb_le _ _)) by lia. Qed.

(** What one option changes. *)
Definition take_option (client : Z) (o : option_tlv) (ts : Z * Z) : Z * Z :=
  if o.1 =? DHCP_OPTION_MSG_TYPE then (default 0 (head o.2), ts.2)
  else if o.1 =? DHCP_OPTION_REQ_IPADDR then (ts.1, asked_state (Some (bool_decide (take 4 o.2 = u32_bytes client))))
  else ts.
Lemma take_options client l : forall ts, Forall option_ok l ->
  fold_left (fun ts o => take_option client o ts) l ts =
  (default ts.1 (last_option DHCP_OPTION_MSG_TYPE l ≫= head), match asks_for client l with None => ts.2 | o => asked_state o end).
Proof.
  induction l as [|[code d] l IH]; intros [type st] HF; [done|]. apply Forall_cons in HF as [(_ & _ & _ & Ht & _) HF]. cbn [fold_left fst snd] in *.
  rewrite IH by done. unfold asks_for. rewrite !last_option_cons. unfold take_option. cbn [fst snd].
  destruct (Z.eqb_spec code DHCP_OPTION_MSG_TYPE) as [->|H1]; cbn [fst snd].
  - rewrite (bool_decide_true (DHCP_OPTION_MSG_TYPE = DHCP_OPTION_MSG_TYPE)), bool_decide_false by done. f_equal.
    + destruct (last_option DHCP_OPTION_MSG_TYPE l) as [d'|] eqn:E; cbn.
      * destruct (head d') eqn:Eh; [done|]. destruct d'; [|done]. exfalso. unfold last_option in E.
        destruct (last _) as [o|] eqn:El; [|done]. injection E as E. apply last_Some_elem_of, list_elem_of_filter in El as [Ec Ho%list_elem_of_In].
        rewrite List.Forall_forall in HF. destruct (HF o Ho) as (_ & _ & _ & Hl & _). specialize (Hl Ec). rewrite E in Hl. done.
      * specialize (Ht eq_refl). by destruct d.
    + by destruct (last_option DHCP_OPTION_REQ_IPADDR l).
  - rewrite (bool_decide_false (code = DHCP_OPTION_MSG_TYPE)) by done. f_equal.
    + destruct (code =? DHCP_OPTION_REQ_IPADDR); cbn [fst]; by destruct (last_option DHCP_OPTION_MSG_TYPE l).
    + destruct (Z.eqb_spec code DHCP_OPTION_REQ_IPADDR) as [->|H2]; cbn [snd].
      * rewrite (bool_decide_true (DHCP_OPTION_REQ_IPADDR = DHCP_OPTION_REQ_IPADDR)) by done. destruct (last_option DHCP_OPTION_REQ_IPADDR l); [done|]. cbn. by case_bool_decide.
      * rewrite (bool_decide_false (code = DHCP_OPTION_REQ_IPADDR)) by done. by destruct (last_option DHCP_OPTION_REQ_IPADDR l).
Qed.

Lemma options_loop_ok client l : forall fuel pre rest fin ts, Forall option_ok l ->
  zlen pre + zlen (encodes l) < fin -> (length l < fuel)%nat ->
  options_loop fuel (pre ++ encodes l ++ DHCP_OPTION_END :: rest) client (zlen pre) fin ts.1 ts.2 =
  Ok (fold_left (fun ts o => take_option client o ts) l ts).
Proof.
  induction l as [|[code d] l IH]; intros fuel pre rest fin [type st] HF Hf Hfuel; (destruct fuel as [|fuel]; [cbn in Hfuel; lia|]); cbn [options_loop fst snd].
  - change (encodes []) with (@nil Z) in *. zl. rewrite (proj2 (Z.ltb_lt _ _)) by lia. cbn [app]. by rewrite mread_at.
  - apply Forall_cons in HF as [(Hc & Hd & Hb & Ht & Ha) HF]. cbn [fst snd] in *. rewrite encodes_cons in *. zl. rewrite zlen_encode in Hf. cbn [snd] in Hf.
    pose proof (zlen_nonneg (encodes l)). pose proof (zlen_nonneg d). pose proof (zlen_nonneg pre).
    rewrite (proj2 (Z.ltb_lt _ _)) by lia.
    assert (forall X, (pre ++ (encode (code, d) ++ encodes l) ++ X) = (pre ++ encode (code, d)) ++ encodes l ++ X) as Ea by (intros; by rewrite <- !app_assoc).
    set (m := pre ++ _). set (X := encodes l ++ DHCP_OPTION_END :: rest).
    assert (m = pre ++ code :: zlen d :: d ++ X) as E0 by (unfold m, X; by rewrite <- app_assoc).
    assert (m = (pre ++ [code]) ++ zlen d :: d ++ X) as E1 by (by rewrite E0, <- app_assoc).
    assert (m = (pre ++ [code; zlen d]) ++ d ++ X) as E2 by (by rewrite E0, <- app_assoc).
    assert (mread m (zlen pre) = Ok code) as -> by (rewrite E0; by apply mread_at). cbn [rbind].
    assert (mread m (zlen pre + 1) = Ok (zlen d)) as -> by (rewrite E1; apply mread_at; zl; lia).
    assert ((if code =? DHCP_OPTION_MSG_TYPE then let! t := mread m (zlen pre + 2) in Ok (t, st)
             else if code =? DHCP_OPTION_REQ_IPADDR then
               let! a := mslice m (zlen pre + 2) 4 in Ok (type, if bool_decide (a = u32_bytes client) then DHCPS_STATE_ACK else DHCPS_STATE_NAK)
             else Ok (type, st)) = Ok (take_option client (code, d) (type, st))) as ->.
    { unfold take_option. cbn [fst snd]. rewrite E2. destruct (Z.eqb_spec code DHCP_OPTION_MSG_TYPE) as [E|_].
      - specialize (Ht E). destruct d as [|t d]; [done|]. cbn [app]. by rewrite mread_at by (zl; lia).
      - destruct (Z.eqb_spec code DHCP_OPTION_REQ_IPADDR) as [E|_]; [|done]. specialize (Ha E).
        assert (mslice ((pre ++ [code; zlen d]) ++ d ++ X) (zlen pre + 2) 4 = Ok (take 4 d)) as ->; [|cbn [rbind asked_state]; by case_bool_decide].
        apply mslice_part; [zl; lia|done|done]. }
    cbn [rbind]. destruct (take_option client (code, d) (type, st)) as [type' st'] eqn:Et.
    rewrite (proj2 (Z.eqb_neq code DHCP_OPTION_END)) by (unfold DHCP_OPTION_END; lia). cbn [fold_left length] in *. rewrite Et.
    unfold m. rewrite Ea. replace (zlen pre + zlen d + 2) with (zlen (pre ++ encode (code, d))) by (zl; rewrite zlen_encode; cbn; lia).
    apply (IH fuel _ rest fin (type', st') HF); [zl; rewrite zlen_encode; cbn; lia|lia].
Qed.

Lemma encodes_length l : (2 * length l <= length (encodes l))%nat.
Proof.
  induction l as [|o l IH]; [done|]. rewrite encodes_cons, length_app. unfold encode. cbn [length]. lia.
Qed.

Lemma parse_ok d pre l rest len : msg_dhcps d = pre ++ encodes l ++ DHCP_OPTION_END :: rest ->
  zlen (msg_dhcps d) = SIZEOF_DHCPS_MSG -> Forall option_ok l -> zlen (encodes l) < len ->
  let v := verdict (client_address d) l in
  parse_options d (zlen pre) len = Ok (v, set_s_state d v).
Proof.
  intros Em Hz HF Hl v. assert (length l < options_fuel)%nat as Hf.
  { pose proof (encodes_length l). rewrite Em in Hz. zl. pose proof (zlen_nonneg pre). pose proof (zlen_nonneg rest).
    unfold SIZEOF_DHCPS_MSG, options_fuel, zlen in *. lia. }
  pose proof (options_loop_ok (client_address d) l options_fuel pre rest (zlen pre + len) (0, DHCPS_STATE_IDLE) HF ltac:(lia) Hf) as E.
  rewrite take_options in E by done. cbn [fst snd] in E. unfold parse_options. rewrite Em, E. cbn [rbind fst snd]. change (default 0 (last_option DHCP_OPTION_MSG_TYPE l ≫= head)) with (type_of l).
  unfold v, verdict. destruct (type_of l =? DHCPDISCOVER); [done|].
  destruct (type_of l =? DHCPREQUEST); [by destruct (asks_for (client_address d) l) as [[]|]|].
  destruct (_ || _); [done|]. by destruct (asks_for (client_address d) l).
Qed.

(** What the server makes of a request.  Of options that end with the end
    mark before the message does, the last message type counts and the last
    requested address: a discovery is answered with an offer; a request is
    acknowledged when it asks for the address found for the device, and
    refused when it asks for another or names none; a decline or a release is
    not answered.  The answer is kept in the state. *)
Theorem parse_options_verdict d pre l rest len : msg_dhcps d = pre ++ encodes l ++ DHCP_OPTION_END :: rest ->
  zlen (msg_dhcps d) = SIZEOF_DHCPS_MSG -> Forall option_ok l -> zlen (encodes l) < len ->
  let v := verdict (client_address d) l in
  parse_options d (zlen pre) len = Ok (v, set_s_state d v).
Proof. apply parse_ok. Qed.
Definition a_request : list option_tlv := [(53, [3]); (50, [10; 0; 0; 7]); (55, [1; 3])].
Definition with_request (client : Z) : dhcps :=
  Dhcps [] [] 1 0 0 client 0 (replicate 240 0 ++ encodes a_request ++ 255 :: replicate 294 0) DHCPS_STATE_IDLE 0 0 true 0 ∅ ∅.
Lemma parse_options_verdict_witness :
  let d := with_request (address_of 10 0 0 7) in parse_options d 240 60 = Ok (DHCPS_STATE_ACK, set_s_state d DHCPS_STATE_ACK).
Proof.
  intros d. apply (parse_options_verdict d (replicate 240 0) a_request (replicate 294 0) 60); [reflexivity|reflexivity| |vm_compute; reflexivity].
  repeat constructor; cbn; try (discriminate || lia); by apply (bool_decide_unpack _).
Defined.

Lemma options_loop_stops m client : bytes m -> zlen m = SIZEOF_DHCPS_MSG -> forall fuel i fin type st, 0 <= i ->
  SIZEOF_DHCPS_MSG + 2 <= i + 2 * Z.of_nat fuel -> (1 <= fuel)%nat ->
  options_loop fuel m client i fin type st = Fault OutOfBounds \/ exists ts, options_loop fuel m client i fin type st = Ok ts.
Proof.
  intros Hb Hz. unfold SIZEOF_DHCPS_MSG in *.
  assert (forall i, mread m i = Fault OutOfBounds \/ exists x, mread m i = Ok x /\ 0 <= x /\ i < 548) as Hr.
  { intros i. unfold mread. destruct (Z.leb_spec 0 i); [|by left]. destruct (m !! Z.to_nat i) as [x|] eqn:E; [|by left].
    right. exists x. split; [done|]. pose proof (lookup_lt_Some _ _ _ E). unfold zlen in Hz. unfold bytes in Hb. rewrite Forall_lookup in Hb.
    specialize (Hb _ _ E). unfold is_byte in Hb. lia. }
  assert (forall i, mslice m i 4 = Fault OutOfBounds \/ exists x, mslice m i 4 = Ok x) as Hs.
  { intros i. unfold mslice. destruct (_ && _); [right; by eexists|by left]. }
  induction fuel as [|fuel IH]; intros i fin type st Hi Hf Hf1; [lia|]. cbn [options_loop]. destruct (i <? fin); [|right; by eexists].
  destruct (Hr i) as [->|(code & -> & _ & Hc)]; [by left|]. cbn [rbind].
  assert (forall ts : Z * Z, (let! (type, st) := Ok ts in
      if code =? DHCP_OPTION_END then Ok (type, st)
      else let! n := mread m (i + 1) in options_loop fuel m client (i + n + 2) fin type st) = Fault OutOfBounds \/
    exists ts', (let! (type, st) := Ok ts in
      if code =? DHCP_OPTION_END then Ok (type, st)
      else let! n := mread m (i + 1) in options_loop fuel m client (i + n + 2) fin type st) = Ok ts') as Hgo.
  { intros [t st']. cbn [rbind]. destruct (code =? DHCP_OPTION_END); [right; by eexists|].
    destruct (Hr (i + 1)) as [->|(n & -> & Hn & Hc1)]; [by left|]. cbn [rbind]. apply IH; lia. }
  destruct (code =? DHCP_OPTION_MSG_TYPE).
  - destruct (Hr (i + 2)) as [->|(t & -> & _)]; [by left|]. cbn [rbind] in *. apply (Hgo (t, st)).
  - destruct (code =? DHCP_OPTION_REQ_IPADDR); [|apply (Hgo (type, st))].
    destruct (Hs (i + 2)) as [->|(a & ->)]; [by left|]. cbn [rbind] in *. apply (Hgo (type, _)).
Qed.
(** Whatever the message holds, the options end or the loop leaves the
    message behind. *)
Lemma parse_options_stops d i len : bytes (msg_dhcps d) -> zlen (msg_dhcps d) = SIZEOF_DHCPS_MSG -> 0 <= i ->
  parse_options d i len = Fault OutOfBounds \/ exists st d', parse_options d i len = Ok (st, d').
Proof.
  intros Hb Hz Hi. unfold parse_options.
  destruct (options_loop_stops (msg_dhcps d) (client_address d) Hb Hz options_fuel i (i + len) 0 DHCPS_STATE_IDLE Hi) as [->|([t st] & ->)].
  - unfold SIZEOF_DHCPS_MSG, options_fuel. lia.
  - unfold options_fuel. lia.
  - by left.
  - right. by eexists _, _.
Qed.

(** ** The answers *)

Definition be32 (v : Z) : list Z := be16 (v / 65536) ++ be16 (v mod 65536).
(** The options of an offer or an acknowledgement; the lease time is a day. *)
Definition offer_options (server type : Z) : list option_tlv :=
  [(DHCP_OPTION_MSG_TYPE, [type]); (DHCP_OPTION_SUBNET_MASK, [255; 255; 255; 0]); (DHCP_OPTION_LEASE_TIME, be32 86400);
   (DHCP_OPTION_SERVER_ID, u32_bytes server); (DHCP_OPTION_ROUTER, u32_bytes server);
   (DHCP_OPTION_BROADCAST_ADDRESS, take 3 (u32_bytes server) ++ [255]); (DHCP_OPTION_INTERFACE_MTU, be16 576);
   (DHCP_OPTION_PERFORM_ROUTER_DISCOVERY, [0]); (43, [1; 4; 0; 0; 0; 2])].
Definition nak_options : list option_tlv := [(DHCP_OPTION_MSG_TYPE, [DHCPNAK])].

(** The answer to the request [m] for the address [client]. *)
Definition answer (m : list Z) (client : Z) (l : list option_tlv) : list Z :=
  [DHCP_REPLY; DHCP_HTYPE_ETHERNET; 6; 0] ++ take 4 (drop 4 m) ++ [0; 0] ++ be16 BOOTP_BROADCAST ++
  replicate 4 0 ++ u32_bytes client ++ replicate 8 0 ++ take 16 (drop 28 m) ++ replicate 192 0 ++
  magic_cookie ++ encodes l ++ DHCP_OPTION_END :: replicate (307 - length (encodes l)) 0.

(** Writing one of several fields that lie behind each other. *)
Lemma mcopy_field (fs : list (list Z)) k x old off : fs !! k = Some old -> zlen old = zlen x -> off = zlen (concat (take k fs)) ->
  mcopy (concat fs) off x = Ok (concat (<[k := x]> fs)).
Proof.
  intros E Hl ->. rewrite <- (take_drop_middle fs k old E) at 1. rewrite concat_app. cbn [concat].
  rewrite mcopy_seam by (zl; pose proof (zlen_nonneg (concat (drop (S k) fs))); lia).
  assert (drop (length x) (old ++ concat (drop (S k) fs)) = concat (drop (S k) fs)) as ->.
  { replace (length x) with (length old) by (unfold zlen in Hl; lia). apply drop_app_length. }
  f_equal. rewrite insert_take_drop by (by eapply lookup_lt_Some). by rewrite concat_app.
Qed.
(** A message cut into fields of the sizes [ns]. *)
Fixpoint fields (ns : list nat) (m : list Z) : list (list Z) :=
  match ns with [] => [] | n :: ns => take n m :: fields ns (drop n m) end.
Lemma concat_fields ns : forall m, (sum_list ns = length m)%nat -> concat (fields ns m) = m.
Proof.
  induction ns as [|n ns IH]; intros m Hl; cbn in *; [by destruct m|]. rewrite IH by (rewrite length_drop; lia). apply take_drop.
Qed.
Lemma sum_list_take k ns : (sum_list (take k ns) <= sum_list ns)%nat.
Proof. revert k. induction ns as [|n ns IH]; intros [|k]; cbn; try lia. specialize (IH k). lia. Qed.
(** The sizes of the fields, which writing whole fields keeps. *)
Definition sized (ns : list nat) (fs : list (list Z)) : Prop := map length fs = ns.
Lemma fields_sized ns : forall m, (sum_list ns <= length m)%nat -> sized ns (fields ns m).
Proof.
  unfold sized. induction ns as [|n ns IH]; intros m Hl; [done|]. cbn in *. rewrite length_take, IH by (rewrite length_drop; lia). f_equal. lia.
Qed.
Lemma sized_offset ns fs k : sized ns fs -> zlen (concat (take k fs)) = Z.of_nat (sum_list (take k ns)).
Proof.
  intros <-. revert k. induction fs as [|f fs IH]; intros [|k]; try done. cbn [take map concat]. zl. rewrite IH. cbn. unfold zlen. lia.
Qed.
Lemma mfields_ok ns (ws : list (nat * list Z)) : forall fs, sized ns fs -> Forall (fun w => ns !! w.1 = Some (length w.2)) ws ->
  mfields (concat fs) (map (fun w => (Z.of_nat (sum_list (take w.1 ns)), w.2)) ws) = Ok (concat (foldl (fun fs w => <[w.1 := w.2]> fs) fs ws)) /\
  sized ns (foldl (fun fs w => <[w.1 := w.2]> fs) fs ws).
Proof.
  induction ws as [|[k x] ws IH]; intros fs Hs HF; [done|]. apply Forall_cons in HF as [Hk HF]. cbn [map mfields foldl fst snd] in *.
  pose proof Hk as Hk2. rewrite <- Hs in Hk2. apply list_lookup_fmap_Some in Hk2 as (old & Hl & E).
  rewrite (mcopy_field fs k x old) by (done || (unfold zlen; by rewrite Hl) || by rewrite (sized_offset ns)). cbn [rbind].
  apply IH; [|done]. unfold sized. change (map length (<[k:=x]> fs)) with (length <$> <[k:=x]> fs). rewrite list_fmap_insert. change (length <$> fs) with (map length fs). rewrite Hs.
  by apply list_insert_id.
Qed.
Lemma mfields_app l1 : forall m l2, mfields m (l1 ++ l2) = (let! m := mfields m l1 in mfields m l2).
Proof. induction l1 as [|[off x] l1 IH]; intros m l2; [done|]. cbn [app mfields]. destruct (mcopy m off x); [|done]. cbn [rbind]. apply IH. Qed.

Definition msg_sizes : list nat := [1; 1; 1; 1; 4; 2; 2; 4; 4; 4; 4; 16; 64; 128; 312]%nat.

Lemma create_msg_ok d : zlen (msg_dhcps d) = SIZEOF_DHCPS_MSG ->
  let m := msg_dhcps d in
  create_msg d = Ok (set_msg (set_xid d (take 4 (drop 4 m)))
    (([DHCP_REPLY; DHCP_HTYPE_ETHERNET; 6; 0] ++ take 4 (drop 4 m) ++ [0; 0] ++ be16 BOOTP_BROADCAST ++
     replicate 4 0 ++ u32_bytes (client_address d) ++ replicate 8 0 ++ take 16 (drop 28 m) ++ replicate 192 0) ++ magic_cookie ++ replicate 308 0)).
Proof.
  intros Hz m. unfold create_msg. fold m. assert (length m = 548%nat) as Hlen by (unfold zlen, SIZEOF_DHCPS_MSG in Hz; unfold m; lia).
  pose proof (fields_sized msg_sizes m ltac:(rewrite Hlen; done)) as Hs. pose proof (concat_fields msg_sizes m ltac:(by rewrite Hlen)) as Ec.
  assert (drop 4 (drop 4 (drop 4 (drop 4 (drop 2 (drop 2 (drop 4 (drop 1 (drop 1 (drop 1 (drop 1 m)))))))))) = drop 28 m) as E28 by by rewrite !drop_drop.
  assert (drop 1 (drop 1 (drop 1 (drop 1 m))) = drop 4 m) as E4 by by rewrite !drop_drop.
  destruct (mfields_ok msg_sizes [(0%nat, [DHCP_REPLY]); (1%nat, [DHCP_HTYPE_ETHERNET]); (2%nat, [6]); (3%nat, [0])] _ Hs) as [E1 Hs1]; [repeat constructor|].
  rewrite Ec in E1. set (fs1 := foldl _ _ _) in *.
  change (mfields m [(0, [DHCP_REPLY]); (1, [DHCP_HTYPE_ETHERNET]); (2, [6]); (3, [0])] = Ok (concat fs1)) in E1. rewrite E1. cbn [rbind].
  assert (exists r, concat fs1 = [DHCP_REPLY; DHCP_HTYPE_ETHERNET; 6; 0] ++ take 4 (drop 4 m) ++ r) as (r & Er).
  { unfold fs1, msg_sizes. cbn [foldl fields insert list_insert fst snd concat]. rewrite E4. by eexists. }
  assert (mslice (concat fs1) MSG_XID 4 = Ok (take 4 (drop 4 m))) as ->.
  { rewrite Er. apply mslice_at; [done|]. unfold zlen. rewrite length_take, length_drop, Hlen. done. }
  cbn [rbind]. change (client_address (set_xid d _)) with (client_address d).
  destruct (mfields_ok msg_sizes [(5%nat, bytes_u16 0); (6%nat, bytes_u16 (htons BOOTP_BROADCAST)); (8%nat, u32_bytes (client_address d)); (7%nat, replicate 4 0);
    (9%nat, replicate 4 0); (10%nat, replicate 4 0); (12%nat, replicate 64 0); (13%nat, replicate 128 0); (14%nat, replicate 312 0)] fs1 Hs1) as [E2 Hs2]; [repeat constructor|].
  set (fs2 := foldl _ fs1 _) in *.
  match goal with |- context [mfields _ ?l] => change l with ([(8, bytes_u16 0); (10, bytes_u16 (htons BOOTP_BROADCAST)); (16, u32_bytes (client_address d));
    (12, replicate 4 0); (20, replicate 4 0); (24, replicate 4 0); (44, replicate 64 0); (108, replicate 128 0); (MSG_OPTIONS, replicate 312 0)] ++ [(MSG_OPTIONS, magic_cookie)]) end.
  match type of E2 with mfields _ ?l = _ => change l with [(8, bytes_u16 0); (10, bytes_u16 (htons BOOTP_BROADCAST)); (16, u32_bytes (client_address d));
    (12, replicate 4 0); (20, replicate 4 0); (24, replicate 4 0); (44, replicate 64 0); (108, replicate 128 0); (MSG_OPTIONS, replicate 312 0)] in E2 end.
  rewrite mfields_app, E2. cbn [rbind mfields]. set (H := [DHCP_REPLY; DHCP_HTYPE_ETHERNET; 6; 0] ++ _).
  assert (concat fs2 = H ++ replicate 312 0) as ->.
  { unfold fs2, fs1, msg_sizes. cbn [foldl fields insert list_insert fst snd concat]. rewrite E28, E4, app_nil_r. unfold H. by rewrite <- !app_assoc. }
  assert (zlen H = 236) as Hh.
  { unfold H. zl. assert (zlen (take 4 (drop 4 m)) = 4 /\ zlen (take 16 (drop 28 m)) = 16) as [-> ->]; [|done].
    unfold zlen. rewrite !length_take, !length_drop, Hlen. done. }
  change MSG_OPTIONS with 236. rewrite <- Hh, mcopy_seam by done. done.
Qed.

(** Options go behind what is there. *)
Lemma add_bytes_ok H n l : (length l <= n)%nat ->
  add_bytes (H ++ replicate n 0) (zlen H) l = Ok ((H ++ l) ++ replicate (n - length l) 0, zlen (H ++ l)).
Proof.
  intros Hl. unfold add_bytes. rewrite mcopy_seam by (unfold zlen; rewrite length_replicate; lia). cbn [rbind]. rewrite zlen_app.
  by rewrite drop_replicate, app_assoc.
Qed.
Lemma answer_head m : zlen m = SIZEOF_DHCPS_MSG -> forall client,
  zlen (([DHCP_REPLY; DHCP_HTYPE_ETHERNET; 6; 0] ++ take 4 (drop 4 m) ++ [0; 0] ++ be16 BOOTP_BROADCAST ++
     replicate 4 0 ++ u32_bytes client ++ replicate 8 0 ++ take 16 (drop 28 m) ++ replicate 192 0) ++ magic_cookie) = 240.
Proof.
  intros Hz client. unfold SIZEOF_DHCPS_MSG, zlen in *. rewrite !length_app, !length_take, !length_drop. cbn [length be16 u32_bytes magic_cookie].
  rewrite !length_replicate. lia.
Qed.

(** What a client finds in a message. *)
Definition field_xid (m : list Z) : list Z := take 4 (drop 4 m).
Definition field_yiaddr (m : list Z) : list Z := take 4 (drop 16 m).
Definition field_chaddr (m : list Z) : list Z := take 16 (drop 28 m).

Ltac small_nat := apply Nat.leb_le; reflexivity.
Lemma offer_tail d H type : zlen H = 240 ->
  (let! (m, fin) := add_msg_type (H ++ replicate 308 0) (MSG_OPTIONS + 4) type in
   let! (m, fin) := add_offer_options d m fin in
   let! (m, fin) := add_end m fin in Ok m) =
  let l := offer_options (server_address d) type in Ok (H ++ encodes l ++ DHCP_OPTION_END :: replicate (307 - length (encodes l)) 0).
Proof.
  intros Hh. change (MSG_OPTIONS + 4) with 240. rewrite <- Hh. unfold add_msg_type, add_offer_options, add_end.
  rewrite add_bytes_ok by small_nat. cbn [rbind]. rewrite add_bytes_ok by small_nat. cbn [rbind]. rewrite add_bytes_ok by small_nat. cbn [rbind].
  by rewrite <- !app_assoc.
Qed.
Lemma nak_tail H : zlen H = 240 ->
  (let! (m, fin) := add_msg_type (H ++ replicate 308 0) (MSG_OPTIONS + 4) DHCPNAK in
   let! (m, fin) := add_end m fin in Ok m) = Ok (H ++ encodes nak_options ++ DHCP_OPTION_END :: replicate (307 - length (encodes nak_options)) 0).
Proof.
  intros Hh. change (MSG_OPTIONS + 4) with 240. rewrite <- Hh. unfold add_msg_type, add_end.
  rewrite add_bytes_ok by small_nat. cbn [rbind]. rewrite add_bytes_ok by small_nat. cbn [rbind]. by rewrite <- !app_assoc.
Qed.

Lemma ok_inj {A} (x y : A) : Ok x = Ok y -> x = y.
Proof. congruence. Qed.

(** The message of the server answers the one it got. *)
Definition answered d (l : list option_tlv) : dhcps :=
  set_msg (set_xid d (field_xid (msg_dhcps d))) (answer (msg_dhcps d) (client_address d) l).
Lemma offer_msg_eq d type : zlen (msg_dhcps d) = SIZEOF_DHCPS_MSG -> offer_msg d type = Ok (answered d (offer_options (server_address d) type)).
Proof.
  intros Hz. unfold offer_msg. rewrite create_msg_ok by done. pose proof (answer_head (msg_dhcps d) Hz (client_address d)) as Hh.
  cbn [rbind]. rewrite (app_assoc _ magic_cookie). unfold answered, answer. cbv zeta.
  match type of Hh with zlen (?A ++ _) = _ => set (A' := A) in * end.
  pose proof (offer_tail d _ type Hh) as E. cbv zeta in E. cbn [msg_dhcps set_msg].
  change (add_offer_options (set_msg _ _)) with (add_offer_options d).
  destruct (add_msg_type _ _ _) as [[m1 f1]|]; [|done]. cbn [rbind] in *. destruct (add_offer_options d m1 f1) as [[m2 f2]|]; [|done]. cbn [rbind] in *.
  destruct (add_end m2 f2) as [[m3 f3]|]; [|done]. cbn [rbind] in *. apply ok_inj in E as ->. unfold A'. by rewrite <- !app_assoc.
Qed.
Lemma nak_msg_eq d : zlen (msg_dhcps d) = SIZEOF_DHCPS_MSG -> nak_msg d = Ok (answered d nak_options).
Proof.
  intros Hz. unfold nak_msg. rewrite create_msg_ok by done. pose proof (answer_head (msg_dhcps d) Hz (client_address d)) as Hh.
  cbn [rbind]. rewrite (app_assoc _ magic_cookie). unfold answered, answer. cbv zeta.
  match type of Hh with zlen (?A ++ _) = _ => set (A' := A) in * end.
  pose proof (nak_tail _ Hh) as E. cbv zeta in E. cbn [msg_dhcps set_msg].
  destruct (add_msg_type _ _ _) as [[m1 f1]|]; [|done]. cbn [rbind] in *.
  destruct (add_end m1 f1) as [[m3 f3]|]; [|done]. cbn [rbind] in *. apply ok_inj in E as ->. unfold A'. by rewrite <- !app_assoc.
Qed.

Lemma answer_fields m client l : zlen m = SIZEOF_DHCPS_MSG -> zlen (encodes l) <= 307 ->
  let m' := answer m client l in
  zlen m' = SIZEOF_DHCPS_MSG /\ take 3 m' = [DHCP_REPLY; DHCP_HTYPE_ETHERNET; 6] /\ field_xid m' = field_xid m /\
  field_yiaddr m' = u32_bytes client /\ field_chaddr m' = field_chaddr m /\
  exists pre rest, m' = pre ++ magic_cookie ++ encodes l ++ DHCP_OPTION_END :: rest /\ zlen pre = MSG_OPTIONS.
Proof.
  intros Hz Hl m'. pose proof (answer_head m Hz client) as Hh. unfold zlen, SIZEOF_DHCPS_MSG in Hz.
  assert (length (take 4 (drop 4 m)) = 4%nat) as H4 by (rewrite length_take, length_drop; lia).
  assert (length (take 16 (drop 28 m)) = 16%nat) as H16 by (rewrite length_take, length_drop; lia).
  unfold m', answer, field_xid, field_yiaddr, field_chaddr in *. set (x := take 4 (drop 4 m)) in *. set (y := take 16 (drop 28 m)) in *.
  do 4 (destruct x as [|? x]; [discriminate|]). destruct x; [|discriminate]. split; [|split; [done|split; [done|split; [done|split]]]].
  - unfold zlen, SIZEOF_DHCPS_MSG in *. rewrite !length_app in *. cbn [length be16 u32_bytes magic_cookie] in *. rewrite !length_replicate in *. lia.
  - do 16 (destruct y as [|? y]; [discriminate|]). destruct y; [done|discriminate].
  - match type of Hh with zlen (?A ++ magic_cookie) = _ => exists A, (replicate (307 - length (encodes l)) 0) end.
    split; [by rewrite <- !app_assoc|]. rewrite zlen_app in Hh. change (zlen magic_cookie) with 4 in Hh. change MSG_OPTIONS with 236. lia.
Qed.

(** The answers.  Whatever the message received, an offer, an
    acknowledgement and a refusal are written without a fault into the 548
    bytes of the message: a reply with its transaction and its hardware
    address, the address of the client, and the magic cookie with the options
    behind it and the end mark. *)
Theorem dhcps_answer d type : zlen (msg_dhcps d) = SIZEOF_DHCPS_MSG ->
  (offer_msg d type = Ok (answered d (offer_options (server_address d) type)) /\ nak_msg d = Ok (answered d nak_options)) /\
  forall l, l = offer_options (server_address d) type \/ l = nak_options ->
  let m := msg_dhcps d in let m' := msg_dhcps (answered d l) in
  zlen m' = SIZEOF_DHCPS_MSG /\ take 3 m' = [DHCP_REPLY; DHCP_HTYPE_ETHERNET; 6] /\ field_xid m' = field_xid m /\
  field_yiaddr m' = u32_bytes (client_address d) /\ field_chaddr m' = field_chaddr m /\
  exists pre rest, m' = pre ++ magic_cookie ++ encodes l ++ DHCP_OPTION_END :: rest /\ zlen pre = MSG_OPTIONS.
Proof.
  intros Hz. split; [split; [by apply offer_msg_eq|by apply nak_msg_eq]|].
  intros l Hl. apply answer_fields; [done|]. by destruct Hl as [->| ->].
Qed.
Lemma dhcps_answer_witness : let d := with_request (address_of 10 0 0 7) in
  nak_msg d = Ok (answered d nak_options) /\ field_yiaddr (msg_dhcps (answered d nak_options)) = [10; 0; 0; 7].
Proof.
  intros d. destruct (dhcps_answer d DHCPACK eq_refl) as [[_ E] H]. split; [exact E|].
  destruct (H nak_options (or_intror eq_refl)) as (_ & _ & _ & Hy & _). rewrite Hy. reflexivity.
Defined.
