(* ===== verification/DhcpsSend.v ===== *)
(** * The DHCP server at work: theorems about [handle_dhcp] and what it sends,
    of [lwip/app/dhcpserver.c]. *)
From S2P Require Import Prelude Cobs Uart Comm Message Pbuf PbufChain PbufCopy PbufTrim InetChksum IpHdr IpAddr.
From S2P Require Import Linked RawPcb Etharp EtharpTable EtharpPackets Netif Ip IpOutput IpInput Icmp IcmpEcho Udp UdpPorts UdpInput UdpOutput.
From S2P Require Import Dhcps DhcpsLease DhcpsRange DhcpsMsg.
From stdpp Require Import list gmap.
#[local] Open Scope Z_scope.

Definition broadcast_ip : Z := address_of 255 255 255 255.

Section sending.
Context `{OsLaws} {F G X : Type}.
Abbreviation state := (net (stack (raws F) (udps G * (dhcps * X)))).
Implicit Type s : state.
Context (output : state -> Z -> Z -> Z -> result (Z * state)).

(** The packet is filled with the message. *)
Lemma fill_ok fuel m p c n msg : sendable m p [] c n -> next c = 0 -> zlen msg = zlen (data_of m p) -> bytes msg -> (2 <= fuel)%nat ->
  exists m', fill_loop fuel m p msg 0 = Ok m' /\ sendable m' p [] c n /\ data_of m' p = msg /\ untouched m m' [p].
Proof using Type*.
  intros Hs Hnx Hz Hb Hf. destruct (sendable_cell _ _ _ _ _ Hs) as (Hp0 & _ & _ & _ & Hlen & _).
  destruct fuel as [|[|fuel]]; [lia|lia|]. cbn [fill_loop]. rewrite (proj2 (Z.eqb_neq p 0)), (deref_ok m p c) by (done || apply Hs). cbn [rbind].
  rewrite Hlen, <- Hz. pose proof (mslice_prefix msg []) as E. rewrite app_nil_r in E. rewrite E. cbn [rbind].
  destruct (sendable_save m p [] c n 0 msg Hs) as (m' & -> & Hs' & Hd & _ & _ & U); [lia|lia|done|]. cbn [rbind]. rewrite Hnx.
  cbn [Z.eqb]. exists m'. split; [done|]. split; [done|]. split; [|done]. rewrite Hd. unfold splice.
  rewrite drop_ge by (unfold zlen in *; lia). cbn [Z.to_nat take app]. apply app_nil_r.
Qed.

Lemma chain_fuel_some m p : is_Some (cells m !! p) -> (2 <= chain_fuel m)%nat.
Proof using Type.
  intros [c Ec]. unfold chain_fuel. assert (size (cells m) <> 0)%nat; [|lia]. intros E. apply map_size_empty_inv in E. by rewrite E in Ec.
Qed.

(** The message of the server is handed to the interface [netif] in a packet
    of its own, which the server gives back. *)

(** What the server sends.  When there is memory for a packet, its message
    goes to the interface of the broadcast address in a packet of its own, as
    the data of a datagram from the port and address of the server's block to
    port 68 of everybody, with the checksums that verify; the packet is given
    back afterwards unless somebody has freed it.  Nothing else of the memory is
    touched.  Without memory nothing happens. *)
Theorem dhcps_message_sent s ul cb netif ni : let d := dhcps_of s in
  backed (mem s) -> zlen (msg_dhcps d) = SIZEOF_DHCPS_MSG -> bytes (msg_dhcps d) -> broadcast_dhcps d = broadcast_ip ->
  udp_ok (blocks_of s) ul -> udp_mem (blocks_of s) !! pcb_dhcps d = Some cb -> pcb_wide cb -> local_port cb <> 0 -> udp_local_ip cb = IPADDR_ANY ->
  ip_route s broadcast_ip = Ok netif -> netif <> 0 -> nifs (ifs (env s)) !! netif = Some ni -> is_u32 (nif_ip_addr ni) -> is_u16 (ip_id (ipv (env s))) ->
  send_msg output s = Ok s \/
  exists p m', cells (mem s) !! p = None /\ untouched (mem s) m' [p] /\ packet m' p [p] /\
    sent_as s m' p [] cb DHCPS_CLIENT_PORT (nif_ip_addr ni) broadcast_ip (msg_dhcps d) /\
    send_msg output s = (let! (_, s2) := output (numbered s m') netif p broadcast_ip in
                         let! c := deref (mem s2) p in if negb (ref c =? 0) then free_packet s2 p else Ok s2).
Proof using Type*.
  intros d Hbk Hz Hb Hbc Hok Ecb Hw Hlp Hany Hrt Hnz En Hni Hid. unfold send_msg. fold d.
  destruct (alloc_sendable (mem s) PBUF_TRANSPORT SIZEOF_DHCPS_MSG Hbk) as [E|(p & m1 & c & E & Hs & Hl & Hc0 & Hb0 & U1 & Hnx)]; [done|done|..]; rewrite E; cbn [rbind].
  - left. by destruct s.
  - right. destruct (sendable_cell _ _ _ _ _ Hs) as (Hp & _). rewrite (proj2 (Z.eqb_neq p 0)) by done. cbn [mem set_mem].
    change (dhcps_of (set_mem s m1)) with d.
    destruct (fill_ok (chain_fuel m1) m1 p c (layer_offset PBUF_TRANSPORT) (msg_dhcps d) Hs Hnx) as (m2 & -> & Hs2 & Hd2 & U2); [by rewrite Hz|done|apply (chain_fuel_some m1 p); rewrite (send_cell _ _ _ _ _ Hs); by eexists|].
    cbn [rbind]. rewrite Hbc. set (s2 := set_mem (set_mem s m1) m2).
    destruct (sendto_if_ok output s2 (pcb_dhcps d) cb ul p [] c (layer_offset PBUF_TRANSPORT) broadcast_ip DHCPS_CLIENT_PORT netif ni)
      as (u' & cb' & _ & _ & _ & Hsame & _ & Hx); try done; [by left|].
    destruct (Hsame Hlp) as [-> ->]. cbv zeta in Hx. rewrite Hany, Z.eqb_refl in Hx. cbv iota in Hx. destruct Hx as (m' & Hpk & U & Hx). rewrite Z.eqb_refl in Hx.
    destruct Hx as [Es Hsent]. exists p, m'. split; [done|]. split; [eapply untouched_trans; [exact U1|]; by eapply untouched_trans|]. split; [done|].
    assert (contents (mem s2) [p] = msg_dhcps d) as Ed by (unfold contents; cbn [map concat]; by rewrite app_nil_r).
    rewrite Ed in Hsent. split; [exact Hsent|]. unfold udp_sendto. change (blocks_of s2) with (blocks_of s). rewrite (udp_at_ok _ _ cb) by (done || by destruct (ok_member _ _ _ _ Hok Ecb)).
    cbn [rbind]. change (ip_addr_ismulticast broadcast_ip) with false. cbv iota. rewrite (route_same s s2) by done.
    rewrite Hrt. cbn [rbind]. rewrite (proj2 (Z.eqb_neq netif 0)) by done. rewrite Es.
    assert (numbered (set_blocks s2 (blocks_of s2)) m' = numbered s m') as -> by (by destruct s as [? ? ? [? ? ? ? []]]). done.
Qed.

(** ** A request and its answer *)

Context (zalloc_pool : gmap Z dhcps_pool -> option Z) (zalloc_node : gmap Z list_node -> option Z)
        (station : X -> list Z -> Z -> bool * X).

(** The state of the server with the answer to a message that puts it in the
    state [v]. *)
Definition reply_of (d : dhcps) (v : Z) : option dhcps :=
  if v =? DHCPS_STATE_OFFER then Some (answered d (offer_options (server_address d) DHCPOFFER))
  else if v =? DHCPS_STATE_ACK then Some (answered d (offer_options (server_address d) DHCPACK))
  else if v =? DHCPS_STATE_NAK then Some (answered d nak_options)
  else None.

(** A message with the options [l] in a packet of one pbuf. *)
Record request_in (m : store) (p : Z) (xs pre rest : list Z) (l : list option_tlv) : Prop := {
  req_cell : exists c, p <> 0 /\ cells m !! p = Some c /\ next c = 0 /\ tot_len c = len c /\ zlen xs = len c /\
    load m (payload c) 0 (len c) = Ok xs;
  req_bytes : xs = pre ++ magic_cookie ++ encodes l ++ DHCP_OPTION_END :: rest;
  req_place : zlen pre = MSG_OPTIONS;
  req_small : zlen xs <= SIZEOF_DHCPS_MSG;
  req_options : Forall option_ok l
}.
Definition padded (xs : list Z) : list Z := xs ++ replicate (548 - length xs) 0.

Lemma served_reply d v : zlen (msg_dhcps d) = SIZEOF_DHCPS_MSG -> forall s, dhcps_of s = d ->
  (if v =? DHCPS_STATE_OFFER then send_offer output s else if v =? DHCPS_STATE_ACK then send_ack output s
   else if v =? DHCPS_STATE_NAK then send_nak output s else Ok s) =
  match reply_of d v with Some d2 => send_msg output (set_dhcps s d2) | None => Ok s end.
Proof using Type.
  intros Hz s <-. unfold reply_of, send_offer, send_ack, send_nak. destruct (v =? DHCPS_STATE_OFFER); [by rewrite offer_msg_eq|].
  destruct (v =? DHCPS_STATE_ACK); [by rewrite offer_msg_eq|]. destruct (v =? DHCPS_STATE_NAK); [by rewrite nak_msg_eq|done].
Qed.

(** The lease of the device, and the message with what the options say. *)
Lemma parse_msg_ok s a b c x y T z xs pre rest l : let d := dhcps_of s in let mac := take 6 (drop 28 xs) in
  fresh_memory zalloc_pool -> fresh_memory zalloc_node -> served a b c x y d T z -> ~ spent d T mac ->
  xs = pre ++ magic_cookie ++ encodes l ++ DHCP_OPTION_END :: rest -> zlen pre = MSG_OPTIONS -> zlen xs <= SIZEOF_DHCPS_MSG ->
  Forall option_ok l -> msg_dhcps d = padded xs ->
  ~ In mac (map mac_of T) /\ no_memory zalloc_pool zalloc_node d /\ parse_msg zalloc_pool zalloc_node station s (zlen xs - 240) = Fault NullDeref \/
  exists d1 T' z' e, served a b c x y d1 T' z' /\ lease_for T mac T' e /\ ip_of e = client_address d1 /\
    msg_dhcps d1 = padded xs /\ server_address d1 = server_address d /\ broadcast_dhcps d1 = broadcast_dhcps d /\ pcb_dhcps d1 = pcb_dhcps d /\
    parse_msg zalloc_pool zalloc_node station s (zlen xs - 240) =
      let '(ok, sx) := station (sdk_of s) mac (client_address d1) in
      let v := verdict (client_address d1) l in
      if ok then Ok (v, set_sdk (set_dhcps s (set_s_state d1 v)) sx) else Ok (0, set_sdk (set_dhcps s d1) sx).
Proof using Type.
  intros d mac Gp Gn Hsv Hroom Ex Hp Hx HF Em. unfold parse_msg. fold d. rewrite Em.
  assert (240 <= zlen xs) as Hx2.
  { rewrite Ex, !zlen_app, Hp, zlen_cons. change (zlen magic_cookie) with 4. change MSG_OPTIONS with 236. pose proof (zlen_nonneg (encodes l)). pose proof (zlen_nonneg rest). lia. }
  assert (zlen (padded xs) = SIZEOF_DHCPS_MSG) as Hz by (unfold padded, SIZEOF_DHCPS_MSG, zlen in *; rewrite length_app, length_replicate; lia).
  set (rest' := rest ++ replicate (548 - length xs) 0).
  assert (padded xs = pre ++ magic_cookie ++ encodes l ++ DHCP_OPTION_END :: rest') as Ep.
  { unfold padded, rest'. rewrite Ex at 1. by rewrite <- !app_assoc. }
  assert (mslice (padded xs) MSG_OPTIONS 4 = Ok magic_cookie) as -> by (rewrite Ep, <- Hp; by apply mslice_at).
  cbn [rbind]. rewrite bool_decide_true by done. rewrite !mslice_val by (rewrite ?Hz; done). cbn [rbind].
  change (Z.to_nat MSG_CHADDR) with 28%nat. change (Z.to_nat 6) with 6%nat.
  assert (take 6 (drop 28 (padded xs)) = mac) as ->.
  { unfold padded, mac, zlen in *. rewrite drop_app_le by lia. rewrite take_app_le by (rewrite length_drop; lia). done. }
  set (d0 := set_old_xid d _). assert (served a b c x y d0 T z) as Hsv0 by by apply (served_frame _ _ _ _ _ d).
  destruct (lease_found zalloc_pool zalloc_node a b c x y d0 T z mac Gp Gn Hsv0 Hroom) as [(Hn & Hno & E)|(d1 & T' & z' & e & E & Hsv1 & He & Hip)];
    [left; by rewrite E|right]. rewrite E. cbn [rbind]. apply pool_others in E. injection E as Ex1 Eo1 Epc Ebc Ese Emsg Est Efl. change (msg_dhcps d0) with (msg_dhcps d) in Emsg. rewrite Em in Emsg.
  exists d1, T', z', e. do 7 (split; [done|]).
  destruct (station (sdk_of s) mac (client_address d1)) as [ok sx]. destruct ok; cbn [negb]; [|done].
  assert (s16 (zlen xs - 240) = zlen xs - 240) as -> by (unfold s16, SIZEOF_DHCPS_MSG in *; rewrite Z.mod_small by lia; lia).
  change (dhcps_of (set_sdk (set_dhcps s d1) sx)) with d1. replace (MSG_OPTIONS + 4) with (zlen (pre ++ magic_cookie)) by (rewrite zlen_app, Hp; done).
  rewrite (parse_ok d1 (pre ++ magic_cookie) l rest'); [done| |by rewrite Emsg|done|].
  - rewrite Emsg, Ep. by rewrite <- app_assoc.
  - rewrite Ex, !zlen_app, Hp, zlen_cons. change (zlen magic_cookie) with 4. change MSG_OPTIONS with 236. pose proof (zlen_nonneg rest). lia.
Qed.

(** C26: a request at work.  A message in one pbuf of at most 548 bytes, with
    options that end in it, gets its device a lease: the one it has, or a new
    one, unless the newest lease has the last address of the range (then see
    [dhcps_full_range_hangs] and [wrapped_run_given]).  The SDK is told, and the
    message sent back is an offer, an acknowledgement or a refusal as [verdict]
    says for the address of the lease, or none; it answers the message received.
    When the SDK refuses the device nothing is sent.  The packet is given back.
    For a new device without memory for its lease the code writes through NULL
    instead (dhcpserver.c:605). *)
Theorem dhcps_handles_request s a b c x y T z p xs pre rest l : let d := dhcps_of s in let mac := take 6 (drop 28 xs) in
  fresh_memory zalloc_pool -> fresh_memory zalloc_node -> served a b c x y d T z -> ~ spent d T mac ->
  request_in (mem s) p xs pre rest l ->
  ~ In mac (map mac_of T) /\ no_memory zalloc_pool zalloc_node d /\ handle_dhcp zalloc_pool zalloc_node station output s p = Fault NullDeref \/
  exists d1 T' z' e, served a b c x y d1 T' z' /\ lease_for T mac T' e /\ ip_of e = client_address d1 /\
    msg_dhcps d1 = padded xs /\ server_address d1 = server_address d /\ broadcast_dhcps d1 = broadcast_dhcps d /\ pcb_dhcps d1 = pcb_dhcps d /\
    let v := verdict (client_address d1) l in
    let d2 := set_s_state d1 v in
    handle_dhcp zalloc_pool zalloc_node station output s p =
      let '(ok, sx) := station (sdk_of s) mac (client_address d1) in
      let! s1 := (if ok then match reply_of d2 v with
                             | Some d3 => send_msg output (set_dhcps (set_sdk s sx) d3)
                             | None => Ok (set_dhcps (set_sdk s sx) d2)
                             end
                  else Ok (set_dhcps (set_sdk s sx) d1)) in
      free_packet s1 p.
Proof using Type.
  intros d mac Gp Gn Hsv Hroom [(cp & Hp & Ec & Hnx & Ht & Hl & Eld) Ex Hpre Hsm HF].
  set (d0 := set_msg d (padded xs)). assert (served a b c x y d0 T z) as Hsv0 by by apply (served_frame _ _ _ _ _ d).
  pose proof (parse_msg_ok (set_dhcps s d0) a b c x y T z xs pre rest l Gp Gn Hsv0 Hroom Ex Hpre Hsm HF eq_refl) as Hparse.
  cbv zeta in Hparse |- *. unfold handle_dhcp. rewrite (proj2 (Z.eqb_neq p 0)), (deref_ok _ p cp) by done. cbn [rbind].
  rewrite Eld. cbn [rbind]. rewrite Ht, <- Hl.
  assert (mcopy (replicate (Z.to_nat SIZEOF_DHCPS_MSG) 0) 0 xs = Ok (padded xs)) as ->.
  { change (mcopy ([] ++ replicate 548 0) (zlen (@nil Z)) xs = Ok (padded xs)).
    rewrite mcopy_seam by (unfold SIZEOF_DHCPS_MSG, zlen in *; rewrite length_replicate; lia). by rewrite drop_replicate. }
  cbn [rbind]. rewrite Hnx. cbn [Z.eqb negb rbind].
  assert (240 <= zlen xs) as Hx2.
  { rewrite Ex, !zlen_app, Hpre, zlen_cons. change (zlen magic_cookie) with 4. change MSG_OPTIONS with 236. pose proof (zlen_nonneg (encodes l)). pose proof (zlen_nonneg rest). lia. }
  assert (s16 (zlen xs) = zlen xs) as -> by (unfold s16, SIZEOF_DHCPS_MSG in *; rewrite Z.mod_small by lia; lia).
  rewrite u16_small by (unfold is_u16, SIZEOF_DHCPS_MSG in *; lia). fold d d0.
  destruct Hparse as [(Hn & Hno & E)|(d1 & T' & z' & e & Hsv1 & He & Hip & Emsg & Ese & Ebc & Epc & E)]; [left; split; [exact Hn|]; split; [exact Hno|]; by rewrite E|right].
  exists d1, T', z', e. do 7 (split; [done|]). rewrite E.
  change (sdk_of (set_dhcps s d0)) with (sdk_of s). unfold mac. destruct (station (sdk_of s) (take 6 (drop 28 xs)) (client_address d1)) as [[] sx]; cbn [rbind]; [|reflexivity].
  rewrite (served_reply (set_s_state d1 (verdict (client_address d1) l))); [|cbn [msg_dhcps set_s_state]; rewrite Emsg|done].
  - destruct (reply_of _ _); done.
  - unfold padded, SIZEOF_DHCPS_MSG, zlen in *. rewrite length_app, length_replicate. lia.
Qed.
End sending.

(** ** Start *)

(** The range for a server at the host [e]: its first and its last host. *)
Definition range_of (e : Z) : Z * Z := if e <? 128 then (e + 1, e + 101) else (e - 100, e).

Lemma lease_range d a b c e : dhcps_lease_flag d = true -> is_byte a -> is_byte b -> is_byte c -> 1 <= e <= 254 ->
  let d' := wifi_softap_init_dhcps_lease d (address_of a b c e) in
  lease_start d' = address_of a b c (range_of e).1 /\ lease_end d' = address_of a b c (range_of e).2.
Proof.
  intros Hf Ha Hb Hc He. unfold wifi_softap_init_dhcps_lease. rewrite Hf.
  assert (htonl (address_of a b c e) = e + 256 * c + 65536 * b + 16777216 * a) as Eh.
  { replace (address_of a b c e) with (a + 256 * b + 65536 * c + 16777216 * e) by (unfold address_of; lia).
    rewrite (htonl_bytes e c b a) by (done || (unfold is_byte; lia)). unfold address_of. lia. }
  set (base := 256 * c + 65536 * b + 16777216 * a). assert (Z.land (htonl (address_of a b c e)) 0xFF = e) as E1.
  { rewrite Eh, land_255. unfold is_byte in *. Z.div_mod_to_equations. lia. }
  assert (Z.land (htonl (address_of a b c e)) 0xFFFFFF00 = base) as E2.
  { rewrite Eh. replace (e + 256 * c + 65536 * b + 16777216 * a) with (Z.lor base e).
    2:{ rewrite (lor_add base e 8); [unfold base; lia|lia|unfold base; change (2 ^ 8) with 256; Z.div_mod_to_equations; lia|change (2 ^ 8) with 256; lia]. }
    change 0xFFFFFF00 with (Z.shiftl (Z.ones 24) 8). apply Z.bits_inj'. intros i Hi. rewrite Z.land_spec, Z.lor_spec, Z.shiftl_spec by done.
    destruct (Z.lt_ge_cases i 8).
    - rewrite (Z.testbit_neg_r _ (i - 8)), andb_false_r by lia. unfold base. replace (256 * c + 65536 * b + 16777216 * a) with ((c + 256 * b + 65536 * a) * 2 ^ 8) by lia.
      symmetry. by apply Z.mul_pow2_bits_low.
    - rewrite (testbit_high e 8 i) by (done || (change (2 ^ 8) with 256; lia)). rewrite orb_false_r.
      destruct (Z.lt_ge_cases (i - 8) 24); [rewrite Z.ones_spec_low by lia; apply andb_true_r|].
      rewrite (testbit_high base 32 i); [done|unfold base; change (2 ^ 32) with 4294967296; unfold is_byte in *; lia|lia]. }
  rewrite E1, E2.
  assert (forall k, 0 <= k < 256 -> htonl (Z.lor base k) = address_of a b c k) as El.
  { intros k Hk. rewrite (lor_add base k 8); [|lia|unfold base; change (2 ^ 8) with 256; Z.div_mod_to_equations; lia|change (2 ^ 8) with 256; lia].
    replace (base + k) with (k + 256 * c + 65536 * b + 16777216 * a) by (unfold base; lia). by rewrite htonl_bytes. }
  unfold range_of, DHCPS_MAX_LEASE. destruct (Z.leb_spec 0x80 e), (Z.ltb_spec e 128); try lia; cbn [fst snd lease_start lease_end set_lease];
    rewrite !u32_small by (unfold is_u32; lia); rewrite !El by lia; split; f_equal; lia.
Qed.

Lemma range_serves d a b c e : dhcps_lease_flag d = true -> plist d = 0 -> is_byte a -> is_byte b -> is_byte c -> 1 <= e <= 254 ->
  let (x, y) := range_of e in
  let d' := wifi_softap_init_dhcps_lease d (address_of a b c e) in
  lease_start d' = address_of a b c x /\ lease_end d' = address_of a b c y /\ y = x + DHCPS_MAX_LEASE /\
  (x <= e <= y <-> 128 <= e) /\ served a b c x y (set_plus d' (lease_start d')) [] x.
Proof.
  intros Hf Hp Ha Hb Hc He. destruct (lease_range d a b c e Hf Ha Hb Hc He) as [Hs Hl]. cbv zeta in Hs, Hl.
  destruct (range_of e) as [x y] eqn:Er. cbn [fst snd] in *. unfold DHCPS_MAX_LEASE.
  assert (y = x + 100 /\ (x <= e <= y <-> 128 <= e) /\ 1 <= x /\ y <= 254) as (Hy & Hi & Hx & Hy2).
  { unfold range_of in Er. destruct (Z.ltb_spec e 128); injection Er as <- <-; lia. }
  split; [done|]. split; [done|]. split; [done|]. split; [done|]. split; try done; try lia; try constructor.
  - unfold linked. cbn. unfold wifi_softap_init_dhcps_lease. by destruct (dhcps_lease_flag d).
  - by split; constructor.
Qed.

(** The range of addresses.  For a server at the host [e] of its network
    it is the 101 hosts behind it when [e < 128]; otherwise the 101 hosts that
    end with [e], the server's own address among them.  With it the server
    starts without leases and with the first address next, as the invariant
    of the leases asks. *)
Theorem dhcps_range d a b c e : dhcps_lease_flag d = true -> plist d = 0 -> is_byte a -> is_byte b -> is_byte c -> 1 <= e <= 254 ->
  let (x, y) := range_of e in
  let d' := wifi_softap_init_dhcps_lease d (address_of a b c e) in
  lease_start d' = address_of a b c x /\ lease_end d' = address_of a b c y /\ y = x + DHCPS_MAX_LEASE /\
  (x <= e <= y <-> 128 <= e) /\ served a b c x y (set_plus d' (lease_start d')) [] x.
Proof. apply range_serves. Qed.
Lemma dhcps_range_witness : let d := wifi_softap_init_dhcps_lease (idle_server 1 1) (address_of 192 168 4 1) in
  lease_start d = address_of 192 168 4 2 /\ lease_end d = address_of 192 168 4 102.
Proof.
  assert (is_byte 192 /\ is_byte 168 /\ is_byte 4) as (H1 & H2 & H3) by (repeat split; by apply (bool_decide_unpack _)).
  destruct (dhcps_range (idle_server 1 1) 192 168 4 1 eq_refl eq_refl H1 H2 H3) as (Hs & He & _); [lia|]. split; [exact Hs|exact He].
Defined.

Section start.
Context `{Os} {F G X : Type}.
Abbreviation state := (net (stack (raws F) (udps G * (dhcps * X)))).
Implicit Type s : state.
Context (memp_malloc : gmap Z (udp_pcb G) -> option Z).
Hypothesis fresh : forall m p, memp_malloc m = Some p -> p <> 0 /\ m !! p = None.

(** The block of the server: of port 67, for every address, with its
    callback. *)
Definition server_block (cb : udp_pcb G) (handler : G) : Prop :=
  local_port cb = DHCPS_SERVER_PORT /\ udp_local_ip cb = IPADDR_ANY /\ udp_recv_fn cb = Some handler.

(** No block of the list has the port of the server. *)
Lemma port_free (u : udps G) l p : udp_ok u l -> (forall a cb, In a l -> udp_mem u !! a = Some cb -> local_port cb <> DHCPS_SERVER_PORT) ->
  taken u l p IPADDR_ANY DHCPS_SERVER_PORT = false.
Proof using Type.
  intros Hok Hfree. unfold taken. apply not_true_iff_false. intros (a & Ha & Hh)%existsb_exists. apply andb_true_iff in Hh as [_ Hh].
  destruct (lseg_in _ _ _ _ _ a (ok_list _ _ Hok) Ha) as [_ [ca Ea]]. rewrite (holds_at u _ a ca) in Hh by done. unfold taken_by in Hh.
  apply andb_true_iff in Hh as [Hh%Z.eqb_eq _]. by apply (Hfree a ca).
Qed.
Lemma server_bound (u : udps G) l handler p : udp_ok u l -> (forall a cb, In a l -> udp_mem u !! a = Some cb -> local_port cb <> DHCPS_SERVER_PORT) ->
  memp_malloc (udp_mem u) = Some p ->
  exists u1 u2 cb, udp_bind (udp_new memp_malloc u).2 p IPADDR_ANY DHCPS_SERVER_PORT = Ok (ERR_OK, u1) /\ udp_recv u1 p (Some handler) 0 = Ok u2 /\
    udp_ok u2 (p :: l) /\ udp_mem u2 !! p = Some cb /\ server_block cb handler.
Proof using fresh.
  intros Hok Hfree Em. pose proof (new_keeps memp_malloc fresh u l Hok) as Hok1. pose proof (fresh _ _ Em) as (Hp & Hn).
  assert (~ In p l) as Hnin by (intros Hin; destruct (lseg_in _ _ _ _ _ p (ok_list _ _ Hok) Hin) as [_ [c Ec]]; congruence).
  unfold udp_new in *. rewrite Em in *. cbn [snd] in *. set (c0 := UdpPcb _ _ _ _ _ _ _ _ _ _ _ _) in *. set (u0 := put_udp u p c0) in *.
  assert (udp_mem u0 !! p = Some c0) as Ec0 by apply lookup_insert_eq.
  pose proof (bind_keeps u0 l p c0 IPADDR_ANY DHCPS_SERVER_PORT Hok1 Ec0 ltac:(done)) as Hb.
  assert (taken u0 l p IPADDR_ANY DHCPS_SERVER_PORT = false) as Ht.
  { apply (port_free u0 l p Hok1). intros a ca Hin Ea. unfold u0 in Ea. cbn in Ea. rewrite lookup_insert_ne in Ea by (by intros ->). by apply (Hfree a). }
  unfold bind_ends in Hb. rewrite Ht in Hb. destruct Hb as [[? _]|[(_ & ? & _)|(_ & q & c1 & u1 & Eb & Em1 & Hc1 & Hok2 & Hq)]]; [done..|]. cbn in Hq. subst q.
  assert (udp_mem u1 !! p = Some c1) as Ec1 by (rewrite Em1; apply lookup_insert_eq).
  exists u1, (put_udp u1 p (set_udp_recv c1 (Some handler) 0)), (set_udp_recv c1 (Some handler) 0).
  split; [done|]. split; [unfold udp_recv, upd_udp; by rewrite (udp_at_ok u1 p c1)|].
  assert (listing l p = p :: l) as El.
  { unfold listing. destruct (member l p) eqn:E; [|done]. by apply member_in in E. }
  rewrite El in Hok2. split; [by apply (ok_store u1 _ p c1)|]. split; [apply lookup_insert_eq|].
  split; [exact (f_equal local_port Hc1)|]. split; [exact (f_equal udp_local_ip Hc1)|done].
Qed.

(** A block that is disconnected keeps its place. *)
Lemma disconnect_keeps (u : udps G) l p cb : udp_ok u l -> udp_mem u !! p = Some cb ->
  exists u' cb', udp_disconnect u p = Ok u' /\ udp_ok u' l /\ udp_mem u' !! p = Some cb'.
Proof using Type.
  intros Hok Ec. unfold udp_disconnect, upd_udp. rewrite (udp_at_ok u p cb) by (done || by destruct (ok_member _ _ _ _ Hok Ec)). cbn [rbind].
  eexists _, _. split; [reflexivity|]. split; [by apply (ok_store u l p cb)|apply lookup_insert_eq].
Qed.

(** The end of the server: its block is gone, the list is empty, and the
    memory of every node is given back. *)
Theorem dhcps_stops s ul cb T : let d := dhcps_of s in DhcpsLease.holds d T -> udp_ok (blocks_of s) ul ->
  udp_mem (blocks_of s) !! pcb_dhcps d = Some cb ->
  exists s', dhcps_stop s = Ok s' /\ udp_ok (blocks_of s') (filter (fun a => a <> pcb_dhcps d) ul) /\ udp_mem (blocks_of s') !! pcb_dhcps d = None /\
    plist (dhcps_of s') = 0 /\ size (nodes d) = (length T + size (nodes (dhcps_of s')))%nat.
Proof using Type.
  intros d Hh Hok Ec. unfold dhcps_stop. fold d. destruct (disconnect_keeps _ _ _ _ Hok Ec) as (u1 & c1 & -> & Hok1 & Ec1). cbn [rbind].
  destruct (remove_keeps u1 ul _ c1 Hok1 Ec1) as (u2 & -> & Hok2 & En). cbn [rbind].
  destruct (stop_loop_ok T (list_fuel (nodes d)) d (plist d) Hh) as (m & p & E & Hsz); [apply Hh| |].
  - destruct Hh as (Hl & _). apply list_fuel_enough in Hl. by rewrite length_map in Hl.
  - rewrite E. cbn [rbind]. by eexists.
Qed.

(** The start of the server.  Its block is bound to port 67, nobody else's
    port, with the callback, and the leases begin with the range of its
    address; when there is no memory for the block the code complains and
    then goes on with the NULL pointer. *)
Theorem dhcps_starts s ul handler a b c e : let d := dhcps_of s in dhcps_lease_flag d = true -> plist d = 0 -> is_byte a -> is_byte b -> is_byte c -> 1 <= e <= 254 ->
  udp_ok (blocks_of s) ul -> (forall p cb, In p ul -> udp_mem (blocks_of s) !! p = Some cb -> local_port cb <> DHCPS_SERVER_PORT) ->
  match memp_malloc (udp_mem (blocks_of s)) with
  | None => dhcps_start memp_malloc s handler (address_of a b c e) = Fault NullDeref
  | Some p => exists s' cb, dhcps_start memp_malloc s handler (address_of a b c e) = Ok s' /\ udp_ok (blocks_of s') (p :: ul) /\
      udp_mem (blocks_of s') !! p = Some cb /\ server_block cb handler /\ pcb_dhcps (dhcps_of s') = p /\
      server_address (dhcps_of s') = address_of a b c e /\ broadcast_dhcps (dhcps_of s') = broadcast_ip /\
      served a b c (range_of e).1 (range_of e).2 (dhcps_of s') [] (range_of e).1
  end.
Proof using fresh.
  intros d Hf Hp Ha Hb Hc He Hok Hfree. unfold dhcps_start. destruct (memp_malloc (udp_mem (blocks_of s))) as [p|] eqn:Em.
  - destruct (server_bound (blocks_of s) ul handler p Hok Hfree Em) as (u1 & u2 & cb & E1 & E2 & Hok2 & Ecb & Hcb).
    destruct (udp_new memp_malloc (blocks_of s)) as [pcb u] eqn:En. assert (pcb = p) as -> by (unfold udp_new in En; rewrite Em in En; congruence).
    cbn [snd] in E1. rewrite E1. cbn [rbind]. rewrite E2. cbn [rbind]. eexists _, cb. split; [reflexivity|]. split; [exact Hok2|]. split; [exact Ecb|]. split; [done|].
    cbv zeta. set (d1 := Dhcps _ _ _ _ _ _ _ _ _ _ _ _ _ _ _).
    pose proof (range_serves d1 a b c e Hf Hp Ha Hb Hc He) as Hr. destruct (range_of e) as [x y]. destruct Hr as (_ & _ & _ & _ & Hsv).
    change (dhcps_of (set_dhcps _ ?dd)) with dd. split; [|split; [|split; [|exact Hsv]]];
      cbn [set_plus pcb_dhcps server_address broadcast_dhcps]; unfold wifi_softap_init_dhcps_lease; by destruct (dhcps_lease_flag d1).
  - unfold udp_new. rewrite Em. cbn [rbind]. unfold udp_bind.
    rewrite (bind_loop_ok _ 0 IPADDR_ANY DHCPS_SERVER_PORT ul) by (apply Hok || by eapply list_fuel_enough, Hok). by rewrite (port_free _ ul 0 Hok Hfree).
Qed.
End start.

(** ** The range the application asks for *)

Definition host_order (a b c k : Z) : Z := k + 256 * c + 65536 * b + 16777216 * a.
Lemma htonl_address a b c k : is_byte a -> is_byte b -> is_byte c -> is_byte k -> htonl (address_of a b c k) = host_order a b c k.
Proof.
  intros Ha Hb Hc Hk. replace (address_of a b c k) with (a + 256 * b + 65536 * c + 16777216 * k) by (unfold address_of; lia).
  rewrite (htonl_bytes k c b a) by done. unfold address_of, host_order. lia.
Qed.
Lemma host_net a b c k : is_byte k -> Z.shiftr (host_order a b c k) 8 = c + 256 * b + 65536 * a.
Proof. intros Hk. unfold is_byte in Hk. rewrite Z.shiftr_div_pow2 by done. change (2 ^ 8) with 256. unfold host_order. Z.div_mod_to_equations. lia. Qed.

(** The range an application asks for, of addresses in network order.  It
    is taken exactly when it lies in the network of the access point without
    its address, begins before it ends and has 101 addresses at most; it is
    kept in host order and no longer chosen by the server.  Otherwise nothing
    changes but the argument, whose addresses are swapped in either case. *)
Theorem dhcps_set_range d a b c e a1 b1 c1 x a2 b2 c2 y : Forall is_byte [a; b; c; e; a1; b1; c1; x; a2; b2; c2; y] ->
  let good := bool_decide ((a1, b1, c1) = (a, b, c) /\ (a2, b2, c2) = (a, b, c) /\ x <= y <= x + DHCPS_MAX_LEASE /\ ~ (x <= e <= y)) in
  let please := (host_order a1 b1 c1 x, host_order a2 b2 c2 y) in
  wifi_softap_set_dhcps_lease d (address_of a b c e) (address_of a1 b1 c1 x) (address_of a2 b2 c2 y) =
    (good, please, if good then set_lease d please.1 please.2 false else d).
Proof.
  intros HF good please. rewrite !List.Forall_cons_iff in HF. destruct HF as (Ha & Hb & Hc & He & Ha1 & Hb1 & Hc1 & Hx & Ha2 & Hb2 & Hc2 & Hy & _).
  unfold wifi_softap_set_dhcps_lease. rewrite !htonl_address by done. rewrite !host_net by done. unfold please, good.
  assert (forall p q r p' q' r', is_byte p -> is_byte q -> is_byte r -> is_byte p' -> is_byte q' -> is_byte r' ->
    (r + 256 * q + 65536 * p =? r' + 256 * q' + 65536 * p') = bool_decide ((p, q, r) = (p', q', r'))) as Hnet.
  { unfold is_byte. intros p q r p' q' r' Hp Hq Hr Hp' Hq' Hr'. case_bool_decide as E; [injection E as -> -> ->; apply Z.eqb_refl|].
    apply Z.eqb_neq. intros E2. apply E. assert (p = p') as -> by lia. assert (q = q') as -> by lia. assert (r = r') as -> by lia. done. }
  rewrite !Hnet by done. destruct (decide ((a1, b1, c1) = (a, b, c))) as [E1|E1].
  2:{ rewrite (bool_decide_false ((a1, b1, c1) = (a, b, c))), (bool_decide_false (_ /\ _)) by tauto. by destruct (_ && _). }
  destruct (decide ((a2, b2, c2) = (a, b, c))) as [E2|E2].
  2:{ rewrite (bool_decide_false ((a2, b2, c2) = (a, b, c))), (bool_decide_false (_ /\ _)) by tauto. rewrite orb_true_r. by destruct (_ && _). }
  injection E1 as -> -> ->. injection E2 as -> -> ->. rewrite !bool_decide_true by done. cbn [negb orb]. unfold is_byte, host_order, DHCPS_MAX_LEASE in *.
  replace (y + _ + _ + _ - _) with (y - x) by lia. destruct (Z.le_gt_cases x y) as [Hxy|Hxy].
  - rewrite u32_small by (unfold is_u32; lia). case_bool_decide as G.
    + destruct G as (_ & _ & G1 & G2). rewrite (proj2 (andb_false_iff _ _)) by (rewrite !Z.leb_gt; lia). by rewrite (proj2 (Z.ltb_ge 100 (y - x))) by lia.
    + assert (~ (x <= y <= x + 100 /\ ~ (x <= e <= y))) as G' by tauto. destruct (_ && _) eqn:Ei; [done|]. apply andb_false_iff in Ei. rewrite !Z.leb_gt in Ei. by rewrite (proj2 (Z.ltb_lt 100 (y - x))) by lia.
  - rewrite bool_decide_false by (intros (_ & _ & G1 & _); lia). destruct (_ && _); [done|].
    replace (u32 (y - x)) with (y - x + 4294967296) by (unfold u32; Z.div_mod_to_equations; lia). by rewrite (proj2 (Z.ltb_lt 100 _)) by lia.
Qed.
Lemma dhcps_set_range_witness :
  wifi_softap_set_dhcps_lease (idle_server 1 1) (address_of 10 0 0 254) (address_of 10 0 0 9) (address_of 10 0 0 20) =
    (true, (host_order 10 0 0 9, host_order 10 0 0 20), set_lease (idle_server 1 1) (host_order 10 0 0 9) (host_order 10 0 0 20) false).
Proof.
  assert (Forall is_byte [10; 0; 0; 254; 10; 0; 0; 9; 10; 0; 0; 20]) as HF by (repeat constructor; by apply (bool_decide_unpack _)).
  exact (dhcps_set_range (idle_server 1 1) 10 0 0 254 10 0 0 9 10 0 0 20 HF).
Defined.

(** A range the application asked for is swapped at every start: the second
    start of the server has it in host order. *)
Example second_start_swaps :
  let d := set_lease (idle_server 1 1) (host_order 10 0 0 9) (host_order 10 0 0 20) false in
  let once := wifi_softap_init_dhcps_lease d (address_of 10 0 0 254) in
  let twice := wifi_softap_init_dhcps_lease once (address_of 10 0 0 254) in
  lease_start once = address_of 10 0 0 9 /\ lease_start twice = host_order 10 0 0 9 /\ lease_start twice = address_of 9 0 0 10.
Proof. vm_compute. repeat split. Qed.

(** A pbuf of more bytes than the message has is copied past its end. *)
Lemma handle_dhcp_overflows `{Os} {F G X : Type} zalloc_pool zalloc_node station output (s : net (stack (raws F) (udps G * (dhcps * X)))) p c xs :
  p <> 0 -> cells (mem s) !! p = Some c -> load (mem s) (payload c) 0 (len c) = Ok xs -> SIZEOF_DHCPS_MSG < zlen xs ->
  handle_dhcp zalloc_pool zalloc_node station output s p = Fault OutOfBounds.
Proof.
  intros Hp Ec El Hx. unfold handle_dhcp. rewrite (proj2 (Z.eqb_neq p 0)), (deref_ok _ p c) by done. cbn [rbind]. rewrite El. cbn [rbind].
  assert (mcopy (replicate (Z.to_nat SIZEOF_DHCPS_MSG) 0) 0 xs = Fault OutOfBounds) as ->; [|done].
  unfold mcopy. rewrite (proj2 (Z.leb_gt (0 + zlen xs) _)); [done|]. unfold SIZEOF_DHCPS_MSG, zlen in *. rewrite length_replicate. lia.
Qed.

(** ** Examples *)

(** A discovery of the first device, in the memory of a server on the station
    interface. *)
Definition discovery_head : list Z := replicate 28 0 ++ mac1 ++ replicate 202 0.
Definition discovery : list Z := discovery_head ++ magic_cookie ++ encodes [(DHCP_OPTION_MSG_TYPE, [DHCPDISCOVER])] ++ [DHCP_OPTION_END].
Definition discovery_store : store :=
  Store (<[600 := Pbuf 0 (600, 20) 244 244 PBUF_RAM 0 1]> empty) (<[600 := replicate 20 0 ++ discovery]> empty).
Definition serving (msg : list Z) : dhcps :=
  Dhcps [] [] 100 broadcast_ip (address_of 10 0 0 254) 0 (address_of 10 0 0 1) msg DHCPS_STATE_IDLE (address_of 10 0 0 1) (address_of 10 0 0 9) true 0 empty empty.
Definition serving_net (m : store) (msg : list Z) : net (stack (raws Z) (udps Z * (dhcps * unit))) :=
  Net some_entries 0 m (Stack two_ifs two_tcps no_ip (Raws 0 empty) (three_udps, (serving msg, tt))).
Definition take_it (s : net (stack (raws Z) (udps Z * (dhcps * unit)))) (nif p dest : Z) : result (Z * net (stack (raws Z) (udps Z * (dhcps * unit)))) :=
  Ok (ERR_OK, s).
Definition any_station (x : unit) (mac : list Z) (ip : Z) : bool * unit := (true, x).

Lemma dhcps_message_sent_witness : let s := serving_net discovery_store (replicate 548 7) in
  send_msg take_it s = Ok s \/
  exists p m', cells (mem s) !! p = None /\ sent_as s m' p [] server DHCPS_CLIENT_PORT (address_of 10 0 0 2) broadcast_ip (replicate 548 7).
Proof.
  intros s. assert (backed (mem s)) as H1.
  { intros a [x Hx]. cbn in Hx |- *. apply lookup_insert_Some in Hx as [[<- _]|[_ Hx]]; [by eexists|discriminate Hx]. }
  assert (bytes (replicate 548 7)) as H2 by (apply (bool_decide_unpack _); vm_compute; reflexivity).
  assert (pcb_wide server) as H3 by (repeat split; by apply (bool_decide_unpack _)).
  assert (is_u32 (nif_ip_addr Netif.station) /\ is_u16 1) as [H4 H5] by (split; by apply (bool_decide_unpack _)).
  destruct (dhcps_message_sent take_it s [200; 100] server 1 Netif.station H1 eq_refl H2 eq_refl three_udps_ok eq_refl H3 ltac:(discriminate) eq_refl
    eq_refl ltac:(discriminate) eq_refl H4 H5) as [E|(p & m' & Hp & _ & _ & Hs & _)]; [by left|right]. by exists p, m'.
Defined.

Lemma dhcps_handles_request_witness : let s := serving_net discovery_store [] in
  exists d1 T' z', served 10 0 0 1 9 d1 T' z' /\ server_address d1 = address_of 10 0 0 254 /\
    handle_dhcp fresh_zalloc fresh_zalloc any_station take_it s 600 =
      (let d2 := set_s_state d1 DHCPS_STATE_OFFER in
       let! s1 := send_msg take_it (set_dhcps s (answered d2 (offer_options (server_address d2) DHCPOFFER))) in free_packet s1 600).
Proof.
  intros s. assert (served 10 0 0 1 9 (dhcps_of s) [] 1) as Hsv.
  { eapply served_frame; [..|exact (idle_serves 1 9 ltac:(lia))]; reflexivity. }
  assert (request_in (mem s) 600 discovery discovery_head [] [(DHCP_OPTION_MSG_TYPE, [DHCPDISCOVER])]) as Hr.
  { split; [|reflexivity|reflexivity|vm_compute; congruence|].
    - eexists. split; [lia|]. split; [reflexivity|]. split; [reflexivity|]. split; [reflexivity|]. split; [reflexivity|]. vm_compute. reflexivity.
    - repeat constructor; cbn; try (discriminate || lia). }
  destruct (dhcps_handles_request take_it fresh_zalloc fresh_zalloc any_station s 10 0 0 1 9 [] 1 600 discovery discovery_head [] [(DHCP_OPTION_MSG_TYPE, [DHCPDISCOVER])]
    fresh_grants fresh_grants Hsv ltac:(intros [_ ?]; discriminate) Hr) as [(_ & Hno & _)|(d1 & T' & z' & e & H1 & _ & _ & _ & H2 & _ & _ & E)];
    [by destruct (fresh_enough (dhcps_of s))|]. exists d1, T', z'. split; [exact H1|]. split; [exact H2|exact E].
Defined.

Lemma dhcps_starts_witness : let s := serving_net discovery_store [] in
  exists s' cb, dhcps_start four_blocks s 5 (address_of 10 0 0 254) = Ok s' /\ udp_mem (blocks_of s') !! 400 = Some cb /\ server_block cb 5 /\
    served 10 0 0 154 254 (dhcps_of s') [] 154.
Proof.
  intros s. assert (is_byte 10 /\ is_byte 0) as [H1 H2] by (split; by apply (bool_decide_unpack _)).
  destruct (dhcps_starts four_blocks four_blocks_pool s [200; 100] 5 10 0 0 254 eq_refl eq_refl H1 H2 H2 ltac:(lia) three_udps_ok) as (s' & cb & E & _ & Ecb & Hcb & _ & _ & _ & Hsv).
  - intros p cb [<-|[<-|[]]] E; vm_compute in E; injection E as <-; vm_compute; discriminate.
  - exists s', cb. split; [exact E|]. split; [exact Ecb|]. split; [exact Hcb|exact Hsv].
Defined.
