(* ===== verification/Dns.v ===== *)
(** * The DNS resolver: [lwip/core/dns.c].

    The table of names with its timer, queries over the UDP of [Udp], and the
    parsing of responses.  The callbacks of the application are a parameter,
    which may change the whole state.  There is no list of local hosts in the
    configuration. *)
From S2P Require Import Prelude Cobs Uart Comm Message Pbuf InetChksum IpHdr IpAddr Linked RawPcb Etharp Netif Ip Icmp Udp.
From stdpp Require Import list gmap.
#[local] Open Scope Z_scope.

Definition DNS_SERVER_PORT : Z := 53.
Definition DNS_MAX_RETRIES : Z := 4.
Definition DNS_MAX_TTL : Z := 604800.
Definition DNS_FLAG1_RESPONSE : Z := 0x80.
Definition DNS_FLAG1_RD : Z := 0x01.
Definition DNS_FLAG2_ERR_MASK : Z := 0x0f.
Definition DNS_STATE_UNUSED : Z := 0.
Definition DNS_STATE_NEW : Z := 1.
Definition DNS_STATE_ASKING : Z := 2.
Definition DNS_STATE_DONE : Z := 3.
Definition SIZEOF_DNS_HDR : Z := 12.
Definition SIZEOF_DNS_QUERY : Z := 4.
Definition SIZEOF_DNS_ANSWER : Z := 10.
Definition DNS_RRTYPE_A : Z := 1.
Definition DNS_RRCLASS_IN : Z := 1.
Definition DNS_TABLE_SIZE : Z := 4.
Definition DNS_MAX_NAME_LENGTH : Z := 256.
Definition DNS_MAX_SERVERS : Z := 2.
Definition DNS_MSG_SIZE : Z := 512.
(** [208.67.222.222]. *)
Definition DNS_SERVER_ADDRESS : Z := address_of 208 67 222 222.
Definition ERR_INPROGRESS : Z := -5.

Section table.
Context {K : Type}.

(** [struct dns_table_entry]; [ent_found] is [None] for a NULL pointer. *)
Record dns_table_entry := DnsEntry {
  ent_state : Z; ent_numdns : Z; ent_tmr : Z; ent_retries : Z; ent_seqno : Z; ent_err : Z; ent_ttl : Z;
  ent_name : list Z; ent_ipaddr : Z; ent_found : option K; ent_arg : Z
}.
Implicit Type e : dns_table_entry.
Definition set_state e x := DnsEntry x (ent_numdns e) (ent_tmr e) (ent_retries e) (ent_seqno e) (ent_err e) (ent_ttl e) (ent_name e) (ent_ipaddr e) (ent_found e) (ent_arg e).
(** The server that is asked, the timer and the retries. *)
Definition set_asking e numdns tmr retries := DnsEntry (ent_state e) numdns tmr retries (ent_seqno e) (ent_err e) (ent_ttl e) (ent_name e) (ent_ipaddr e) (ent_found e) (ent_arg e).
Definition set_err e x := DnsEntry (ent_state e) (ent_numdns e) (ent_tmr e) (ent_retries e) (ent_seqno e) x (ent_ttl e) (ent_name e) (ent_ipaddr e) (ent_found e) (ent_arg e).
Definition set_answer e ttl ip := DnsEntry (ent_state e) (ent_numdns e) (ent_tmr e) (ent_retries e) (ent_seqno e) (ent_err e) ttl (ent_name e) ip (ent_found e) (ent_arg e).
Definition set_ttl e ttl := set_answer e ttl (ent_ipaddr e).
Definition set_found e f := DnsEntry (ent_state e) (ent_numdns e) (ent_tmr e) (ent_retries e) (ent_seqno e) (ent_err e) (ent_ttl e) (ent_name e) (ent_ipaddr e) f (ent_arg e).
(** The flush of an entry. *)
Definition flush e := set_found (set_state e DNS_STATE_UNUSED) None.

(** The static variables; [dns_payload] is the buffer of [DNS_MSG_SIZE]
    bytes. *)
Record dns := Dns { dns_pcb : Z; dns_seqno : Z; dns_table : list dns_table_entry; dns_servers : list Z; dns_payload : list Z }.
Implicit Type d : dns.
Definition set_dns_table d t := Dns (dns_pcb d) (dns_seqno d) t (dns_servers d) (dns_payload d).

Definition dns_entry_at d (i : Z) : result dns_table_entry :=
  if 0 <=? i then of_option OutOfBounds (dns_table d !! Z.to_nat i) else Fault OutOfBounds.
Definition put_dns_entry d (i : Z) e : dns := set_dns_table d (<[Z.to_nat i := e]> (dns_table d)).
Definition server_at d (i : Z) : result Z := if 0 <=? i then of_option OutOfBounds (dns_servers d !! Z.to_nat i) else Fault OutOfBounds.

(** ** Servers *)

Definition dns_setserver d (numdns : Z) (dnsserver : option Z) : dns :=
  match dnsserver with
  | Some ip => if (numdns <? DNS_MAX_SERVERS) && negb (dns_pcb d =? 0) && negb (ip =? IPADDR_ANY)
               then Dns (dns_pcb d) (dns_seqno d) (dns_table d) (<[Z.to_nat numdns := ip]> (dns_servers d)) (dns_payload d) else d
  | None => d
  end.
Definition dns_getserver d (numdns : Z) : result Z := if numdns <? DNS_MAX_SERVERS then server_at d numdns else Ok IPADDR_ANY.

(** ** Names *)

(** [strcmp], with 0 for equal strings. *)
Fixpoint strcmp (a b : list Z) : result Z :=
  match a, b with
  | x :: a, y :: b => if x =? y then if x =? 0 then Ok 0 else strcmp a b else Ok (x - y)
  | _, _ => Fault OutOfBounds
  end.

(** [dns_lookup], which nobody calls. *)
Fixpoint lookup_loop (t : list dns_table_entry) (name : list Z) : result Z :=
  match t with
  | [] => Ok IPADDR_NONE
  | e :: t =>
      let! same := (if ent_state e =? DNS_STATE_DONE then let! c := strcmp name (ent_name e) in Ok (c =? 0) else Ok false) in
      if (same : bool) then Ok (ent_ipaddr e) else lookup_loop t name
  end.
Definition dns_lookup d (name : list Z) : result Z := lookup_loop (dns_table d) name.

(** The bytes of a label: the places behind it, or [None] when they differ. *)
Fixpoint compare_label (n : nat) (qm : list Z) (q : Z) (rm : list Z) (r : Z) : result (option (Z * Z)) :=
  match n with
  | O => Ok (Some (q, r))
  | S n =>
      let! a := mread qm q in
      let! b := mread rm r in
      if negb (a =? b) then Ok None else compare_label n qm (q + 1) rm (r + 1)
  end.
Fixpoint compare_loop (fuel : nat) (qm : list Z) (q : Z) (rm : list Z) (r : Z) : result Z :=
  match fuel with
  | O => Fault OutOfFuel
  | S fuel =>
      let! n := mread rm r in
      if Z.land n 0xc0 =? 0xc0 then Ok 0
      else
        let! o := compare_label (Z.to_nat n) qm q rm (r + 1) in
        match o with
        | None => Ok 1
        | Some (q, r) =>
            let! x := mread rm r in
            if negb (x =? 0) then compare_loop fuel qm (q + 1) rm r else Ok 0
        end
  end.
(** Each round passes a byte of the response. *)
Definition dns_compare_name (query rm : list Z) (r : Z) : result Z := compare_loop (S (length rm)) query 0 rm r.

Fixpoint parse_name_loop (fuel : nat) (m : list Z) (q : Z) : result Z :=
  match fuel with
  | O => Fault OutOfFuel
  | S fuel =>
      let! n := mread m q in
      if Z.land n 0xc0 =? 0xc0 then Ok (q + 2)
      else
        let q := q + 1 + n in
        let! x := mread m q in
        if negb (x =? 0) then parse_name_loop fuel m q else Ok (q + 1)
  end.
Definition dns_parse_name (m : list Z) (q : Z) : result Z := parse_name_loop (S (length m)) m q.

(** The name of a query: each label behind its length, and a zero.  [lab] has
    the bytes of the label so far, the last one first. *)
Fixpoint encode_loop (m lab : list Z) : result (list Z) :=
  match m with
  | [] => Fault OutOfBounds
  | c :: m =>
      if negb (c =? 46) && negb (c =? 0) then encode_loop m (c :: lab)
      else
        let label := u8 (zlen lab) :: reverse lab in
        if c =? 0 then Ok (label ++ [0]) else let! l := encode_loop m [] in Ok (label ++ l)
  end.
Definition encode_name (m : list Z) : result (list Z) := encode_loop m [].
End table.
Arguments dns_table_entry : clear implicits.
Arguments dns : clear implicits.

(** ** The resolver *)

Section resolver.
Context `{Os} {F G K X : Type}.
Abbreviation state := (net (stack (raws F) (udps G * (dns K * X)))).
Implicit Type s : state.
Context (output : state -> Z -> Z -> Z -> result (Z * state))
        (memp_malloc : gmap Z (udp_pcb G) -> option Z).
(** A callback with the name, the address or NULL, and its argument. *)
Context (call : K -> list Z -> option Z -> Z -> state -> result state).

Definition dns_of s : dns K := (rest (env s)).2.1.
Definition set_dns s (d : dns K) : state :=
  set_env s (Stack (ifs (env s)) (tcps (env s)) (ipv (env s)) (raw_blocks (env s)) (blocks_of s, (d, (rest (env s)).2.2))).
Definition upd_entry s (i : Z) (f : dns_table_entry K -> dns_table_entry K) : result state :=
  let! e := dns_entry_at (dns_of s) i in Ok (set_dns s (put_dns_entry (dns_of s) i (f e))).

(** [dns_init]; [handler] is the pointer to [dns_recv]. *)
Definition dns_init s (handler : G) : result state :=
  let d := dns_of s in
  if dns_pcb d =? 0 then
    let '(pcb, u) := udp_new memp_malloc (blocks_of s) in
    let d := Dns pcb (dns_seqno d) (dns_table d) (dns_servers d) (dns_payload d) in
    let s := set_dns (set_blocks s u) d in
    if negb (pcb =? 0) then
      let! (_, u) := udp_bind u pcb IPADDR_ANY 0 in
      let! u := udp_recv u pcb (Some handler) 0 in
      Ok (set_dns (set_blocks s u) (dns_setserver d 0 (Some DNS_SERVER_ADDRESS)))
    else Ok s
  else Ok s.

Definition dns_send s (numdns : Z) (name : list Z) (id : Z) : result (Z * state) :=
  let! (p, m) := pbuf_alloc (mem s) PBUF_TRANSPORT (SIZEOF_DNS_HDR + DNS_MAX_NAME_LENGTH + SIZEOF_DNS_QUERY) PBUF_RAM in
  let s := set_mem s m in
  if p =? 0 then Ok (ERR_MEM, s)
  else
    let! c := deref (mem s) p in
    let! m := put_fields (mem s) (payload c) [(0, replicate 12 0); (0, bytes_u16 (htons id)); (2, [DNS_FLAG1_RD]); (4, bytes_u16 (htons 1))] in
    let! query := encode_name name in
    let! m := put_fields m (payload c) [(SIZEOF_DNS_HDR, query);
      (SIZEOF_DNS_HDR + zlen query, bytes_u16 (htons DNS_RRTYPE_A) ++ bytes_u16 (htons DNS_RRCLASS_IN))] in
    let! m := pbuf_realloc m p (u16 (SIZEOF_DNS_HDR + zlen query + SIZEOF_DNS_QUERY)) in
    let s := set_mem s m in
    let d := dns_of s in
    let! server := server_at d numdns in
    let! (_, u) := udp_connect (blocks_of s) (dns_pcb d) server DNS_SERVER_PORT in
    let s := set_blocks s u in
    let! (err, s) := udp_sendto output s (dns_pcb d) p server DNS_SERVER_PORT in
    let! s := free_packet s p in
    Ok (err, s).

(** The callback of an entry, when it has one. *)
Definition tell s (e : dns_table_entry K) (ip : option Z) : result state :=
  match ent_found e with Some f => call f (ent_name e) ip (ent_arg e) s | None => Ok s end.

Definition dns_check_entry s (i : Z) : result state :=
  let! e := dns_entry_at (dns_of s) i in
  if ent_state e =? DNS_STATE_NEW then
    let! s := upd_entry s i (fun e => set_asking (set_state e DNS_STATE_ASKING) 0 1 0) in
    let! (_, s) := dns_send s 0 (ent_name e) i in Ok s
  else if ent_state e =? DNS_STATE_ASKING then
    let tmr := u8 (ent_tmr e - 1) in
    if negb (tmr =? 0) then upd_entry s i (fun e => set_asking e (ent_numdns e) tmr (ent_retries e))
    else
      let retries := u8 (ent_retries e + 1) in
      let ask s := (let! s := upd_entry s i (fun e => set_asking e (ent_numdns e) retries retries) in
                    let! (_, s) := dns_send s (ent_numdns e) (ent_name e) i in Ok s) in
      if retries =? DNS_MAX_RETRIES then
        let! more := (if ent_numdns e + 1 <? DNS_MAX_SERVERS
                      then let! ip := server_at (dns_of s) (ent_numdns e + 1) in Ok (negb (ip =? IPADDR_ANY)) else Ok false) in
        if (more : bool) then upd_entry s i (fun e => set_asking e (u8 (ent_numdns e + 1)) 1 0)
        else
          let! s := upd_entry s i (fun e => set_asking e (ent_numdns e) tmr retries) in
          let! s := tell s e None in
          upd_entry s i flush
      else ask s
  else if ent_state e =? DNS_STATE_DONE then
    let ttl := u32 (ent_ttl e - 1) in
    upd_entry s i (fun e => let e := set_ttl e ttl in if ttl =? 0 then flush e else e)
  else Ok s.

Fixpoint check_each (n : nat) s (i : Z) : result state :=
  match n with O => Ok s | S n => let! s := dns_check_entry s i in check_each n s (i + 1) end.
Definition dns_check_entries s : result state := check_each (Z.to_nat DNS_TABLE_SIZE) s 0.
Definition dns_tmr s : result state := if negb (dns_pcb (dns_of s) =? 0) then dns_check_entries s else Ok s.

(** ** Responses *)

(** The loop over the answers from the place [q]: the time to live and the
    address of the first one that has an address. *)
Fixpoint answer_loop (n : nat) (m : list Z) (q : Z) : result (option (Z * Z)) :=
  match n with
  | O => Ok None
  | S n =>
      let! q := dns_parse_name m q in
      let! ans := mslice m q SIZEOF_DNS_ANSWER in
      let! type := read_u16 ans 0 in
      let! cls := read_u16 ans 2 in
      let! ttl := read_u32 ans 4 in
      let! len := read_u16 ans 8 in
      if (type =? htons DNS_RRTYPE_A) && (cls =? htons DNS_RRCLASS_IN) && (len =? htons 4) then
        let ttl := htonl ttl in
        let! ip := mslice m (q + SIZEOF_DNS_ANSWER) 4 in
        let! ip := read_u32 ip 0 in
        Ok (Some (if DNS_MAX_TTL <? ttl then DNS_MAX_TTL else ttl, ip))
      else answer_loop n m (q + SIZEOF_DNS_ANSWER + htons len)
  end.

(** What the response [m] says about the name: [None] is the label
    [responseerr]. *)
Definition read_response (m : list Z) (name : list Z) : result (option (Z * Z)) :=
  let! flags1 := mread m 2 in
  let! flags2 := mread m 3 in
  let! nquestions := read_u16 m 4 in
  let! nanswers := read_u16 m 6 in
  if (Z.land flags1 DNS_FLAG1_RESPONSE =? 0) || negb (Z.land flags2 DNS_FLAG2_ERR_MASK =? 0) || negb (htons nquestions =? 1) then Ok None
  else
    let! differ := dns_compare_name name m SIZEOF_DNS_HDR in
    if negb (differ =? 0) then Ok None
    else
      let! q := dns_parse_name m SIZEOF_DNS_HDR in
      answer_loop (Z.to_nat (htons nanswers)) m (q + SIZEOF_DNS_QUERY).

(** [dns_recv(arg, pcb, p, addr, port)] looks at [p] alone. *)
Definition dns_recv s (p : Z) : result state :=
  let! c := deref (mem s) p in
  if (DNS_MSG_SIZE <? tot_len c) || (tot_len c <? SIZEOF_DNS_HDR + SIZEOF_DNS_QUERY + SIZEOF_DNS_ANSWER) then free_packet s p
  else
    let d := dns_of s in
    let! (n, m) := pbuf_copy_partial (mem s) p (dns_payload d) (tot_len c) 0 in
    let d := Dns (dns_pcb d) (dns_seqno d) (dns_table d) (dns_servers d) m in
    let s := set_dns s d in
    if negb (n =? tot_len c) then free_packet s p
    else
      let! id := read_u16 m 0 in
      let i := htons id in
      if negb (i <? DNS_TABLE_SIZE) then free_packet s p
      else
        let! e := dns_entry_at d i in
        if negb (ent_state e =? DNS_STATE_ASKING) then free_packet s p
        else
          let! flags2 := mread m 3 in
          let e := set_err (set_state e DNS_STATE_DONE) (Z.land flags2 DNS_FLAG2_ERR_MASK) in
          let s := set_dns s (put_dns_entry d i e) in
          let! r := read_response m (ent_name e) in
          let! s := (match r with
                     | Some (ttl, ip) =>
                         let e := set_answer e ttl ip in
                         let s := set_dns s (put_dns_entry d i e) in
                         tell s e (Some ip)
                     | None => let! s := tell s e None in upd_entry s i flush
                     end) in
          free_packet s p.

(** ** Queries of the application *)

(** The search of [dns_enqueue]: the first unused entry, or the age and the
    place of the oldest completed one. *)
Fixpoint unused_loop (n : nat) (d : dns K) (i lseq lseqi : Z) : result (option Z * Z) :=
  match n with
  | O => Ok (None, lseqi)
  | S n =>
      let! e := dns_entry_at d i in
      if ent_state e =? DNS_STATE_UNUSED then Ok (Some i, lseqi)
      else if (ent_state e =? DNS_STATE_DONE) && (lseq <? dns_seqno d - ent_seqno e)
      then unused_loop n d (i + 1) (u8 (dns_seqno d - ent_seqno e)) i
      else unused_loop n d (i + 1) lseq lseqi
  end.

Definition dns_enqueue s (name : list Z) (found : option K) (arg : Z) : result (Z * state) :=
  let d := dns_of s in
  let! (free, lseqi) := unused_loop (Z.to_nat DNS_TABLE_SIZE) d 0 0 0 in
  let! place := (match free with
                 | Some i => Ok (Some i)
                 | None => let! e := dns_entry_at d lseqi in Ok (if ent_state e =? DNS_STATE_DONE then Some lseqi else None)
                 end) in
  match place with
  | None => Ok (ERR_MEM, s)
  | Some i =>
      let! e := dns_entry_at d i in
      let! n := strlen name in
      let namelen := Z.min n (DNS_MAX_NAME_LENGTH - 1) in
      let! x := mslice name 0 namelen in
      let! buf := mcopy (ent_name e) 0 x in
      let! buf := mwrite buf namelen 0 in
      let e := DnsEntry DNS_STATE_NEW (ent_numdns e) (ent_tmr e) (ent_retries e) (dns_seqno d) (ent_err e) (ent_ttl e) buf (ent_ipaddr e) found arg in
      let d := put_dns_entry d i e in
      let s := set_dns s (Dns (dns_pcb d) (u8 (dns_seqno d + 1)) (dns_table d) (dns_servers d) (dns_payload d)) in
      let! s := dns_check_entry s i in
      Ok (ERR_INPROGRESS, s)
  end.

(** [dns_gethostbyname(hostname, &addr, found, arg)]: what it returns, and the
    address it stores.  The table is not looked at. *)
Definition dns_gethostbyname s (hostname : list Z) (found : option K) (arg : Z) : result (Z * option Z * state) :=
  if dns_pcb (dns_of s) =? 0 then Ok (ERR_ARG, None, s)
  else
    let! first := mread hostname 0 in
    let! bad := (if first =? 0 then Ok true else let! n := strlen hostname in Ok (DNS_MAX_NAME_LENGTH <=? n)) in
    if (bad : bool) then Ok (ERR_ARG, None, s)
    else
      let! ipaddr := ipaddr_addr hostname in
      if negb (ipaddr =? IPADDR_NONE) then Ok (ERR_OK, Some ipaddr, s)
      else let! (err, s) := dns_enqueue s hostname found arg in Ok (err, None, s).
End resolver.
