(* ===== verification/DnsNames.v ===== *)
(** * Names and responses of the DNS resolver: theorems about
    [dns_compare_name], [dns_parse_name], the names of queries and the reading
    of responses of [lwip/core/dns.c]. *)
From S2P Require Import Prelude Cobs Uart Comm Message Pbuf PbufChain InetChksum IpHdr IpAddr Linked RawPcb Etharp Netif Ip Icmp Udp Dns.
From stdpp Require Import list gmap.
#[local] Open Scope Z_scope.

(** ** Names *)

(** A label can be looked for: it has between one and 191 bytes, none of them
    a dot or zero. *)
Definition label_ok (l : list Z) : Prop := 1 <= zlen l < 192 /\ Forall (fun c => c <> 0 /\ c <> 46) l.
(** The name as the application writes it, with its zero, and as a message has
    it. *)
Fixpoint host_name (ls : list (list Z)) : list Z :=
  match ls with [] => [0] | [l] => l ++ [0] | l :: ls => l ++ 46 :: host_name ls end.
Definition labels (ls : list (list Z)) : list Z := concat (map (fun l => zlen l :: l) ls).
Definition encoded (ls : list (list Z)) : list Z := labels ls ++ [0].

(** A name in an answer: written out, or labels with a pointer behind. *)
Inductive owner := Written (ls : list (list Z)) | Pointed (ls : list (list Z)) (hi lo : Z).
Definition owner_bytes (o : owner) : list Z := match o with Written ls => encoded ls | Pointed ls hi lo => labels ls ++ [hi; lo] end.
Definition owner_ok (o : owner) : Prop :=
  match o with
  | Written ls => ls <> [] /\ Forall label_ok ls
  | Pointed ls hi lo => Forall label_ok ls /\ 192 <= hi < 256
  end.

Lemma labels_cons l ls : labels (l :: ls) = zlen l :: l ++ labels ls.
Proof. done. Qed.
Lemma host_name_cons l ls : host_name (l :: ls) = l ++ (match ls with [] => [0] | _ => 46 :: host_name ls end).
Proof. by destruct ls. Qed.

Lemma zlen_labels l ls : zlen (labels (l :: ls)) = 1 + zlen l + zlen (labels ls).
Proof. rewrite labels_cons. zl. lia. Qed.

(** The name of a query. *)
Lemma encode_label c l : Forall (fun c => c <> 0 /\ c <> 46) l -> forall lab k, c = 0 \/ c = 46 ->
  encode_loop (l ++ c :: k) lab =
  (let label := u8 (zlen lab + zlen l) :: reverse lab ++ l in
   if c =? 0 then Ok (label ++ [0]) else let! r := encode_loop k [] in Ok (label ++ r)).
Proof.
  induction l as [|x l IH]; intros HF lab k Hc; cbn [app encode_loop].
  - assert (negb (c =? 46) && negb (c =? 0) = false) as -> by (by destruct Hc as [-> | ->]). zl. by rewrite Z.add_0_r, app_nil_r.
  - apply Forall_cons in HF as [[H1 H2] HF]. rewrite (proj2 (Z.eqb_neq x 46)), (proj2 (Z.eqb_neq x 0)) by done. cbn [negb andb].
    rewrite IH by done. zl. replace (1 + zlen lab + zlen l) with (zlen lab + (1 + zlen l)) by lia. rewrite reverse_cons, <- app_assoc. done.
Qed.
Lemma encode_name_ok ls : ls <> [] -> Forall label_ok ls -> forall k, encode_name (host_name ls ++ k) = Ok (encoded ls).
Proof.
  intros Hne HF k. unfold encode_name. induction ls as [|l ls IH]; [done|]. apply Forall_cons in HF as [[Hl Hc] HF].
  assert (u8 (zlen (@nil Z) + zlen l) = zlen l) as Eu by (rewrite u8_small; zl; [done|unfold is_byte; lia]).
  rewrite host_name_cons. destruct ls as [|l2 ls].
  - rewrite <- app_assoc. cbn [app]. rewrite encode_label by (done || by left). rewrite Eu. cbn [Z.eqb]. change (reverse [] ++ l) with l. unfold encoded, labels. cbn [map concat app]. by rewrite app_nil_r.
  - rewrite <- app_assoc. cbn [app]. rewrite encode_label by (done || by right). rewrite Eu. cbn [Z.eqb reverse app].
    rewrite IH by done. cbn [rbind]. change (reverse [] ++ l) with l. unfold encoded. rewrite (labels_cons l). cbn [app]. by rewrite <- app_assoc.
Qed.

(** Reading in the middle of a message. *)
Lemma mread_mid pre x m i : i = zlen pre -> mread (pre ++ x :: m) i = Ok x.
Proof. intros ->. rewrite mread_skip by lia. apply mread_here. lia. Qed.
Lemma pointer_bits n : 0 <= n < 256 -> (Z.land n 0xc0 =? 0xc0) = (192 <=? n).
Proof.
  intros H. apply eqb_prop. exact (check_range (fun n => Bool.eqb (Z.land n 0xc0 =? 0xc0) (192 <=? n)) 256 ltac:(vm_compute; reflexivity) n H).
Qed.

(** What [dns_compare_name] takes for the name [q]: labels that are at its
    beginning one byte apart, whatever this byte is; more of it may follow. *)
Fixpoint passes (ls : list (list Z)) (q : list Z) : bool :=
  match ls with [] => true | l :: ls => bool_decide (take (length l) q = l) && passes ls (drop (S (length l)) q) end.
Lemma passes_own ls k : passes ls (host_name ls ++ k) = true.
Proof.
  induction ls as [|l ls IH]; [done|]. cbn [passes]. rewrite host_name_cons. rewrite <- app_assoc, take_app_length, bool_decide_true by done. cbn [andb].
  destruct ls as [|l2 ls]; [done|]. rewrite drop_app_ge by lia. replace (S (length l) - length l)%nat with 1%nat by lia. exact IH.
Qed.

Lemma compare_label_ok l : forall q pq pr kr, (length l <= length q)%nat -> compare_label (length l) (pq ++ q) (zlen pq) (pr ++ l ++ kr) (zlen pr) =
  Ok (if bool_decide (take (length l) q = l) then Some (zlen pq + zlen l, zlen pr + zlen l) else None).
Proof.
  induction l as [|x l IH]; intros q pq pr kr Hl; cbn [length compare_label]; [rewrite bool_decide_true by done; zl; do 3 f_equal; lia|].
  destruct q as [|y q]; [cbn in Hl; lia|]. cbn [app]. rewrite !mread_mid by done. cbn [rbind take]. destruct (Z.eqb_spec y x) as [->|Hne]; cbn [negb].
  - specialize (IH q (pq ++ [x]) (pr ++ [x]) kr). rewrite <- !app_assoc in IH. cbn [app] in IH. rewrite !zlen_app in IH. change (zlen [x]) with 1 in IH.
    rewrite IH by (cbn in Hl; lia). zl. destruct (decide (take (length l) q = l)) as [E|E].
    + rewrite !bool_decide_true by congruence. do 3 f_equal; lia.
    + rewrite !bool_decide_false by congruence. done.
  - by rewrite bool_decide_false by congruence.
Qed.

Lemma compare_passes ls : ls <> [] -> Forall label_ok ls -> forall fuel q pq pr kr, (length ls < fuel)%nat -> zlen (host_name ls) <= zlen q ->
  compare_loop fuel (pq ++ q) (zlen pq) (pr ++ encoded ls ++ kr) (zlen pr) = Ok (if passes ls q then 0 else 1).
Proof.
  intros Hne HF. induction ls as [|l ls IH]; [done|]. intros fuel q pq pr kr Hf Hq. destruct fuel as [|fuel]; [lia|].
  apply Forall_cons in HF as [[Hl _] HF]. cbn [compare_loop passes]. unfold encoded. rewrite labels_cons. cbn [app].
  rewrite mread_mid by done. cbn [rbind]. rewrite pointer_bits by lia. rewrite (proj2 (Z.leb_gt 192 _)) by lia.
  replace (Z.to_nat (zlen l)) with (length l) by (unfold zlen; lia). rewrite host_name_cons, zlen_app in Hq.
  assert (pr ++ zlen l :: ((l ++ labels ls) ++ [0]) ++ kr = (pr ++ [zlen l]) ++ l ++ labels ls ++ [0] ++ kr) as -> by (by rewrite <- !app_assoc).
  replace (zlen pr + 1) with (zlen (pr ++ [zlen l])) by (zl; done).
  match type of Hq with _ + zlen ?x <= _ => pose proof (zlen_nonneg x) end. rewrite compare_label_ok by (unfold zlen in *; lia). cbn [rbind].
  destruct (bool_decide_reflect (take (length l) q = l)) as [E|]; cbn [andb]; [|done]. destruct ls as [|l2 ls].
  - cbn [labels concat map app passes]. rewrite app_assoc, mread_mid by (zl; lia). done.
  - set (ls2 := l2 :: ls) in *. pose proof HF as [[Hl2 _] _]%Forall_cons.
    assert (mread ((pr ++ [zlen l]) ++ l ++ labels ls2 ++ [0] ++ kr) (zlen (pr ++ [zlen l]) + zlen l) = Ok (zlen l2)) as ->.
    { rewrite (app_assoc (pr ++ [zlen l]) l). unfold ls2. rewrite labels_cons. apply mread_mid. zl. lia. }
    cbn [rbind]. rewrite (proj2 (Z.eqb_neq (zlen l2) 0)) by lia. cbn [negb]. change (zlen (46 :: host_name ls2)) with (zlen ([46] ++ host_name ls2)) in Hq. rewrite zlen_app in Hq. change (zlen [46]) with 1 in Hq.
    pose proof (zlen_nonneg (host_name ls2)).
    destruct (drop (length l) q) as [|x q'] eqn:Ed; [apply (f_equal length) in Ed; rewrite length_drop in Ed; cbn in Ed; unfold zlen in *; lia|].
    assert (q = l ++ x :: q') as -> by (by rewrite <- (take_drop (length l) q), E, Ed).
    replace (drop (S (length l)) (l ++ x :: q')) with q' by (rewrite drop_app_ge by lia; by replace (S (length l) - length l)%nat with 1%nat by lia).
    specialize (IH ltac:(done) HF fuel q' (pq ++ l ++ [x]) ((pr ++ [zlen l]) ++ l) kr).
    replace (((pr ++ [zlen l]) ++ l) ++ encoded ls2 ++ kr) with ((pr ++ [zlen l]) ++ l ++ labels ls2 ++ [0] ++ kr) in IH by (unfold encoded; by rewrite <- !app_assoc).
    replace (pq ++ l ++ x :: q') with ((pq ++ l ++ [x]) ++ q') by (by rewrite <- !app_assoc).
    replace (zlen pq + zlen l + 1) with (zlen (pq ++ l ++ [x])) by (zl; lia).
    replace (zlen (pr ++ [zlen l]) + zlen l) with (zlen ((pr ++ [zlen l]) ++ l)) by (zl; lia).
    apply IH; [cbn [length] in *; lia|]. rewrite zlen_app, zlen_cons in Hq. lia.
Qed.

Lemma zlen_encoded ls : zlen (encoded ls) = zlen (labels ls) + 1.
Proof. unfold encoded. zl. lia. Qed.
Lemma labels_length ls : Forall label_ok ls -> (length ls <= length (labels ls))%nat.
Proof. induction 1 as [|l ls _ _ IH]; [done|]. rewrite labels_cons. cbn [length]. rewrite length_app. lia. Qed.

(** The end of a name. *)
Lemma parse_label l pre rest fuel : label_ok l -> rest <> [] ->
  parse_name_loop (S fuel) (pre ++ (zlen l :: l) ++ rest) (zlen pre) =
  if negb (hd 0 rest =? 0) then parse_name_loop fuel ((pre ++ zlen l :: l) ++ rest) (zlen (pre ++ zlen l :: l)) else Ok (zlen (pre ++ zlen l :: l) + 1).
Proof.
  intros [Hl _] Hr. cbn [parse_name_loop app]. rewrite mread_mid by done. cbn [rbind]. rewrite pointer_bits by lia.
  rewrite (proj2 (Z.leb_gt 192 _)) by lia. replace (zlen pre + 1 + zlen l) with (zlen (pre ++ zlen l :: l)) by (zl; lia).
  replace (pre ++ zlen l :: l ++ rest) with ((pre ++ zlen l :: l) ++ rest) by (by rewrite <- app_assoc).
  destruct rest as [|x rest]; [done|]. by rewrite mread_mid.
Qed.
Lemma parse_labels tail k : tail = [0] \/ (exists hi lo, 192 <= hi < 256 /\ tail = [hi; lo]) -> forall ls fuel pre, Forall label_ok ls ->
  (ls = [] -> tail <> [0]) -> (length (labels ls) < fuel)%nat ->
  parse_name_loop fuel (pre ++ labels ls ++ tail ++ k) (zlen pre) = Ok (zlen pre + zlen (labels ls ++ tail)).
Proof.
  intros Ht. induction ls as [|l ls IH]; intros fuel pre HF Hne Hf; (destruct fuel as [|fuel]; [lia|]).
  - destruct Ht as [Ht|(hi & lo & Hh & ->)]; [by destruct (Hne eq_refl)|]. cbn [labels map concat app parse_name_loop].
    rewrite mread_mid by done. cbn [rbind]. rewrite pointer_bits by lia. by rewrite (proj2 (Z.leb_le 192 _)) by lia.
  - apply Forall_cons in HF as [Hl HF]. rewrite labels_cons in *. change (zlen l :: l ++ labels ls) with ((zlen l :: l) ++ labels ls) in *.
    rewrite <- (app_assoc (zlen l :: l)). rewrite parse_label by (done || by destruct ls; destruct Ht as [->|(? & ? & _ & ->)]).
    rewrite length_app in Hf. cbn [length] in Hf. destruct (decide (ls = [] /\ tail = [0])) as [[-> ->]|Hd].
    + cbn. zl. f_equal. lia.
    + assert ((hd 0 (labels ls ++ tail ++ k) =? 0) = false) as ->.
      { apply Z.eqb_neq. destruct ls as [|l2 ls]; [|apply Forall_cons in HF as [[? _] _]; rewrite labels_cons; cbn; lia].
        destruct Ht as [->|(hi & lo & ? & ->)]; [naive_solver|cbn; lia]. }
      cbn [negb]. rewrite IH; [|done|intros -> ->; by apply Hd|lia]. zl. f_equal. lia.
Qed.
Lemma parse_owner o pre k : owner_ok o -> dns_parse_name (pre ++ owner_bytes o ++ k) (zlen pre) = Ok (zlen pre + zlen (owner_bytes o)).
Proof.
  intros Ho. unfold dns_parse_name. destruct o as [ls|ls hi lo]; cbn [owner_bytes owner_ok] in *; unfold encoded; rewrite <- (app_assoc (labels ls)).
  - apply parse_labels; [by left|apply Ho|by destruct Ho|rewrite !length_app; lia].
  - apply parse_labels; [right; exists hi, lo; by split; [apply Ho|]|apply Ho|done|rewrite !length_app; lia].
Qed.

(** ** Responses *)

(** An answer of a response: its owner, its type and class, its time to live
    and its data. *)
Record answer := Answer { a_owner : owner; a_type : Z; a_class : Z; a_ttl : Z; a_data : list Z }.
Definition word32 (v : Z) : list Z := be16 (v / 65536) ++ be16 (v mod 65536).
Definition answer_bytes (a : answer) : list Z :=
  owner_bytes (a_owner a) ++ (be16 (a_type a) ++ be16 (a_class a) ++ word32 (a_ttl a) ++ be16 (zlen (a_data a))) ++ a_data a.
Definition answer_ok (a : answer) : Prop :=
  owner_ok (a_owner a) /\ is_u16 (a_type a) /\ is_u16 (a_class a) /\ is_u32 (a_ttl a) /\ is_u16 (zlen (a_data a)) /\ bytes (a_data a).
(** It has an address of the Internet. *)
Definition is_address (a : answer) : bool := (a_type a =? DNS_RRTYPE_A) && (a_class a =? DNS_RRCLASS_IN) && (zlen (a_data a) =? 4).
Definition address_in (a : answer) : Z * Z := (Z.min (a_ttl a) DNS_MAX_TTL, match a_data a with [b0; b1; b2; b3] => address_of b0 b1 b2 b3 | _ => 0 end).

Lemma swapped_word v : is_u16 v -> v / 256 mod 256 + 256 * (v mod 256) = htons v.
Proof. intros Hv. rewrite htons_eq by done. width_lia. Qed.
Lemma htons_twice v : is_u16 v -> htons (htons v) = v.
Proof. intros Hv. rewrite (htons_eq v) by done. rewrite htons_eq; width_lia. Qed.
Lemma htons_inj v w : is_u16 v -> is_u16 w -> (htons v =? htons w) = (v =? w).
Proof.
  intros Hv Hw. destruct (Z.eqb_spec v w) as [->|Hne]; [apply Z.eqb_refl|]. apply Z.eqb_neq. intros E. apply Hne.
  rewrite <- (htons_twice v), <- (htons_twice w), E by done. done.
Qed.
Lemma word32_read v : is_u32 v ->
  htonl (((v / 65536) / 256) mod 256 + 256 * ((v / 65536) mod 256) + 65536 * ((v mod 65536 / 256) mod 256 + 256 * ((v mod 65536) mod 256))) = v.
Proof.
  intros Hv. assert (forall x, is_byte (x mod 256)) as Hb by (intros x; unfold is_byte; apply Z.mod_pos_bound; lia).
  set (b3 := (v / 65536 / 256) mod 256). set (b2 := (v / 65536) mod 256). set (b1 := (v mod 65536 / 256) mod 256). set (b0 := (v mod 65536) mod 256).
  replace (b3 + 256 * b2 + 65536 * (b1 + 256 * b0)) with (b3 + 256 * b2 + 65536 * b1 + 16777216 * b0) by lia.
  rewrite htonl_bytes by apply Hb. unfold address_of, b0, b1, b2, b3. width_lia.
Qed.

Lemma mslice_mid pre l m i n : i = zlen pre -> n = zlen l -> mslice (pre ++ l ++ m) i n = Ok l.
Proof. intros -> ->. rewrite mslice_skip by lia. rewrite mslice_here; [done|lia|done]. Qed.

Lemma zlen_answer a : zlen (answer_bytes a) = zlen (owner_bytes (a_owner a)) + 10 + zlen (a_data a).
Proof. unfold answer_bytes. rewrite !zlen_app. change (zlen (be16 (a_type a))) with 2. change (zlen (be16 (a_class a))) with 2.
  change (zlen (word32 (a_ttl a))) with 4. change (zlen (be16 (zlen (a_data a)))) with 2. lia. Qed.

Lemma answer_loop_ok l : forall pre k, Forall answer_ok l ->
  answer_loop (length l) (pre ++ concat (map answer_bytes l) ++ k) (zlen pre) = Ok (address_in <$> List.find is_address l).
Proof.
  induction l as [|a l IH]; intros pre k HF; [done|]. apply Forall_cons in HF as [(Ho & Ht & Hc & Hl & Hn & Hb) HF].
  cbn [length answer_loop map concat List.find]. set (o := owner_bytes (a_owner a)). set (rest := concat (map answer_bytes l)).
  set (hdr := be16 (a_type a) ++ be16 (a_class a) ++ word32 (a_ttl a) ++ be16 (zlen (a_data a))).
  assert (pre ++ (answer_bytes a ++ rest) ++ k = pre ++ o ++ (hdr ++ a_data a ++ rest ++ k)) as Em.
  { unfold answer_bytes. fold o hdr. by rewrite <- !app_assoc. }
  rewrite Em at 1. unfold o at 1. rewrite parse_owner by done. cbn [rbind]. fold o.
  assert (mslice (pre ++ (answer_bytes a ++ rest) ++ k) (zlen pre + zlen o) SIZEOF_DNS_ANSWER = Ok hdr) as ->.
  { rewrite Em, app_assoc. apply mslice_mid; [zl; lia|done]. }
  cbn [rbind].
  assert (read_u16 hdr 0 = Ok (htons (a_type a))) as -> by (rewrite <- swapped_word by done; reflexivity).
  assert (read_u16 hdr 2 = Ok (htons (a_class a))) as -> by (rewrite <- swapped_word by done; reflexivity).
  assert (read_u16 hdr 8 = Ok (htons (zlen (a_data a)))) as -> by (rewrite <- swapped_word by done; reflexivity).
  assert (exists t, read_u32 hdr 4 = Ok t /\ htonl t = a_ttl a) as (t & -> & Et) by (eexists; split; [reflexivity|by apply word32_read]).
  cbn [rbind]. rewrite !htons_inj by (done || by apply (bool_decide_unpack _)). fold (is_address a).
  destruct (is_address a) eqn:Ea.
  - apply andb_true_iff in Ea as [_ E4%Z.eqb_eq].
    destruct (a_data a) as [|b0 [|b1 [|b2 [|b3 [|]]]]] eqn:Ed; try (unfold zlen in E4; cbn in E4; lia).
    assert (mslice (pre ++ (answer_bytes a ++ rest) ++ k) (zlen pre + zlen o + SIZEOF_DNS_ANSWER) 4 = Ok [b0; b1; b2; b3]) as ->.
    { rewrite Em, (app_assoc o), (app_assoc pre). apply mslice_mid; [|done]. rewrite !zlen_app. change (zlen hdr) with 10. change SIZEOF_DNS_ANSWER with 10. lia. }
    cbn [rbind]. change (read_u32 [b0; b1; b2; b3] 0) with (Ok (b0 + 256 * b1 + 65536 * (b2 + 256 * b3)) : result Z). cbn [rbind fmap option_fmap option_map].
    rewrite Et. unfold address_in. rewrite Ed. do 3 f_equal; [destruct (Z.ltb_spec DNS_MAX_TTL (a_ttl a)); lia|unfold address_of; lia].
  - rewrite htons_twice by done. specialize (IH (pre ++ answer_bytes a) k HF). fold rest in IH.
    replace (pre ++ (answer_bytes a ++ rest) ++ k) with ((pre ++ answer_bytes a) ++ rest ++ k) by (by rewrite <- !app_assoc).
    replace (zlen pre + zlen o + SIZEOF_DNS_ANSWER + zlen (a_data a)) with (zlen (pre ++ answer_bytes a)); [exact IH|].
    rewrite zlen_app, zlen_answer. change SIZEOF_DNS_ANSWER with 10. unfold o. lia.
Qed.

(** A response: its identification, flags and number of questions, the name
    asked for with its type and class, the answers, and what comes behind. *)
Record response := Response {
  r_id : Z; r_flags1 : Z; r_flags2 : Z; r_questions : Z; r_counts : list Z;
  r_name : list (list Z); r_query : list Z; r_answers : list answer; r_more : list Z
}.
Definition response_bytes (r : response) : list Z :=
  be16 (r_id r) ++ [r_flags1 r; r_flags2 r] ++ be16 (r_questions r) ++ be16 (zlen (r_answers r)) ++ r_counts r ++
  encoded (r_name r) ++ r_query r ++ concat (map answer_bytes (r_answers r)) ++ r_more r.
Record response_ok (r : response) : Prop := {
  r_words : is_u16 (r_id r) /\ is_u16 (r_questions r) /\ is_u16 (zlen (r_answers r));
  r_sizes : zlen (r_counts r) = 4 /\ zlen (r_query r) = 4;
  r_labels : r_name r <> [] /\ Forall label_ok (r_name r);
  r_good : Forall answer_ok (r_answers r)
}.
(** It answers one question without an error. *)
Definition accepted (r : response) : bool :=
  negb (Z.land (r_flags1 r) DNS_FLAG1_RESPONSE =? 0) && (Z.land (r_flags2 r) DNS_FLAG2_ERR_MASK =? 0) && (r_questions r =? 1).
Definition result_of (r : response) : option (Z * Z) :=
  if accepted r then address_in <$> List.find is_address (r_answers r) else None.

Lemma read_response_ok r k name : response_ok r -> zlen (host_name (r_name r)) <= zlen name ->
  read_response (response_bytes r ++ k) name = Ok (if passes (r_name r) name then result_of r else None).
Proof.
  intros [(Hid & Hq & Hn) [Hcn Hqr] [Hne HF] Hans] Hname. set (m := response_bytes r ++ k).
  set (hdr := be16 (r_id r) ++ [r_flags1 r; r_flags2 r] ++ be16 (r_questions r) ++ be16 (zlen (r_answers r)) ++ r_counts r).
  set (tail := r_more r ++ k). set (answers := concat (map answer_bytes (r_answers r))).
  assert (zlen hdr = 12) as Hh by (unfold hdr; rewrite !zlen_app, Hcn; done).
  assert (m = hdr ++ encoded (r_name r) ++ r_query r ++ answers ++ tail) as Em.
  { unfold m, response_bytes, hdr, tail, answers. by rewrite <- !app_assoc. }
  unfold read_response, result_of, accepted.
  assert (mread m 2 = Ok (r_flags1 r)) as -> by done. assert (mread m 3 = Ok (r_flags2 r)) as -> by done.
  assert (read_u16 m 4 = Ok (htons (r_questions r))) as -> by (rewrite <- swapped_word by done; reflexivity).
  assert (read_u16 m 6 = Ok (htons (zlen (r_answers r)))) as -> by (rewrite <- swapped_word by done; reflexivity).
  cbn [rbind]. rewrite !htons_twice by done.
  assert (forall a b c : bool, a || negb b || negb c = negb (negb a && b && c)) as Hbool by (by intros [] [] []). rewrite Hbool.
  destruct (negb _ && _ && _); [|by destruct (passes _ _)]. cbn [negb].
  assert (dns_compare_name name m SIZEOF_DNS_HDR = Ok (if passes (r_name r) name then 0 else 1)) as ->.
  { unfold dns_compare_name. rewrite Em. change SIZEOF_DNS_HDR with 12. rewrite <- Hh.
    apply (compare_passes (r_name r) Hne HF _ name [] hdr); [|done]. pose proof (labels_length (r_name r) HF) as Hl. unfold encoded. rewrite !length_app. lia. }
  cbn [rbind]. destruct (passes (r_name r) name); [|done]. change (negb (0 =? 0)) with false. cbv iota.
  assert (dns_parse_name m SIZEOF_DNS_HDR = Ok (12 + zlen (encoded (r_name r)))) as ->.
  { rewrite Em. change SIZEOF_DNS_HDR with 12. rewrite <- Hh. by apply (parse_owner (Written (r_name r)) hdr). }
  cbn [rbind]. rewrite Em. replace (12 + zlen (encoded (r_name r)) + SIZEOF_DNS_QUERY) with (zlen (hdr ++ encoded (r_name r) ++ r_query r))
    by (rewrite !zlen_app, Hh, Hqr; change SIZEOF_DNS_QUERY with 4; lia).
  replace (hdr ++ encoded (r_name r) ++ r_query r ++ answers ++ tail) with ((hdr ++ encoded (r_name r) ++ r_query r) ++ answers ++ tail) by (by rewrite <- !app_assoc).
  replace (Z.to_nat (zlen (r_answers r))) with (length (r_answers r)) by (unfold zlen; lia). by apply answer_loop_ok.
Qed.

Lemma compare_name_own ls k m r : ls <> [] -> Forall label_ok ls -> dns_compare_name (host_name ls ++ k) (m ++ encoded ls ++ r) (zlen m) = Ok 0.
Proof.
  intros Hne HF. unfold dns_compare_name. rewrite (compare_passes ls Hne HF _ (host_name ls ++ k) [] m r); [by rewrite passes_own| |].
  - pose proof (labels_length ls HF). unfold encoded. rewrite !length_app. lia.
  - rewrite zlen_app. pose proof (zlen_nonneg k). lia.
Qed.

(** Names.  A name of the table, as [dns_gethostbyname] takes it, is sent
    as its labels; the name comes back equal to [dns_compare_name], wherever a
    message has it, and [dns_parse_name] finds its end, also behind a
    pointer. *)
Theorem dns_name_roundtrip ls k pre rest o : ls <> [] -> Forall label_ok ls -> owner_ok o ->
  encode_name (host_name ls ++ k) = Ok (encoded ls) /\
  dns_compare_name (host_name ls ++ k) (pre ++ encoded ls ++ rest) (zlen pre) = Ok 0 /\
  dns_parse_name (pre ++ owner_bytes o ++ rest) (zlen pre) = Ok (zlen pre + zlen (owner_bytes o)).
Proof.
  intros Hne HF Ho. split; [by apply encode_name_ok|]. split; [by apply compare_name_own|by apply parse_owner].
Qed.
Definition example_com : list (list Z) := [[119; 119; 119]; [101; 120]; [99; 111; 109]].
Lemma example_ok : example_com <> [] /\ Forall label_ok example_com.
Proof. split; [done|]. repeat constructor; try (vm_compute; congruence); lia. Qed.
Lemma dns_name_roundtrip_witness :
  encode_name [119; 119; 119; 46; 101; 120; 46; 99; 111; 109; 0; 7] = Ok [3; 119; 119; 119; 2; 101; 120; 3; 99; 111; 109; 0] /\
  dns_parse_name [9; 9; 0xc0; 12; 0; 1] 2 = Ok 4.
Proof.
  destruct example_ok as [Hne HF]. destruct (dns_name_roundtrip example_com [7] [9; 9] [0; 1] (Pointed [] 0xc0 12) Hne HF) as (H1 & _ & H3);
    [split; [constructor|lia]|]. split; [exact H1|exact H3].
Defined.

(** The end of the name is not compared: a response for [www] is taken for
    [www.ex.com], and one for a name of letters that agree. *)
Example compare_name_takes_prefix :
  dns_compare_name (host_name example_com) (encoded [[119; 119; 119]]) 0 = Ok 0 /\
  dns_compare_name (host_name example_com) (encoded [[119]; [119]; [101; 120]]) 0 = Ok 0.
Proof. vm_compute. repeat split. Qed.
