(* ===== verification/DnsRecv.v ===== *)
(** * Responses at the DNS resolver: theorems about [dns_recv] of
    [lwip/core/dns.c]. *)
From S2P Require Import Prelude Cobs Uart Comm Message Pbuf PbufChain PbufTrim InetChksum IpHdr IpAddr Linked RawPcb Etharp EtharpTable EtharpPackets EtharpInput Netif Ip IpOutput Icmp IcmpEcho Udp UdpPorts Dns DnsNames.
From stdpp Require Import list gmap.
#[local] Open Scope Z_scope.

Section recv.
Context `{Os} {F G K X : Type}.
Abbreviation state := (net (stack (raws F) (udps G * (dns K * X)))).
Implicit Type s : state.
Context (call : K -> list Z -> option Z -> Z -> state -> result state).

(** The buffer after a message of [m] bytes has been copied to it. *)
Definition buffered (d : dns K) (m : list Z) : dns K := Dns (dns_pcb d) (dns_seqno d) (dns_table d) (dns_servers d) (m ++ drop (length m) (dns_payload d)).

Lemma packet_head m p l : packet m p l -> p <> 0 -> exists c, deref m p = Ok c /\ tot_len c = zlen (contents m l).
Proof using Type.
  intros [Hch _ Ht _] Hp. destruct l as [|a l]; [done|]. destruct Hch as (-> & _ & c & Ec & _). destruct Ht as [Ht _]. rewrite Ec in Ht.
  exists c. split; [by apply deref_ok|done].
Qed.
Lemma copy_message m p l buf : packet m p l -> zlen buf = DNS_MSG_SIZE -> zlen (contents m l) <= DNS_MSG_SIZE ->
  pbuf_copy_partial m p buf (zlen (contents m l)) 0 = Ok (zlen (contents m l), contents m l ++ drop (length (contents m l)) buf).
Proof using Type.
  intros [Hch HF Ht Hsm] Hz Hl. pose proof (zlen_nonneg (contents m l)).
  pose proof (copy_partial_ok m p l buf (zlen (contents m l)) 0 Hch HF ltac:(lia) ltac:(unfold is_u16, DNS_MSG_SIZE in *; lia) ltac:(done)) as E. cbv zeta in E.
  rewrite drop_0, take_ge in E by (unfold zlen; lia). exact E.
Qed.

(** The query of the entry [e] at [i] ends with an address and the time it may
    be kept, or without. *)
Definition resolved s (p i : Z) (e : dns_table_entry K) (err : Z) (answer : option (Z * Z)) : result state :=
  let e1 := set_err (Dns.set_state e DNS_STATE_DONE) err in
  match answer with
  | Some (ttl, ip) =>
      let e2 := set_answer e1 ttl ip in
      let! s := tell call (set_dns s (put_dns_entry (dns_of s) i e2)) e2 (Some ip) in free_packet s p
  | None =>
      let! s := tell call (set_dns s (put_dns_entry (dns_of s) i e1)) e1 None in
      let! s := upd_entry s i flush in free_packet s p
  end.

End recv.

(** The answer for [www.ex.com], behind a pointer, to the second query of a
    table with three entries in use. *)
Definition example_response : response :=
  Response 1 0x81 0x80 1 [0; 0; 0; 0] example_com [0; 1; 0; 1] [Answer (Pointed [] 0xc0 12) 1 1 300 [10; 0; 0; 9]] [].
Definition waiting_entry (state : Z) (name : list Z) : dns_table_entry Z := DnsEntry state 0 1 0 0 0 0 name 0 (Some 7) 8.
Definition waiting_dns : dns Z :=
  Dns 100 3 [waiting_entry DNS_STATE_DONE [0]; waiting_entry DNS_STATE_ASKING (host_name example_com); waiting_entry DNS_STATE_ASKING [97; 0]; waiting_entry DNS_STATE_UNUSED [0]]
    [address_of 10 0 0 7; 0] (replicate 512 0).
Definition dns_net (m : store) : net (stack (raws Z) (udps Z * (dns Z * list (list Z)))) :=
  Net some_entries 0 m (Stack two_ifs two_tcps no_ip (Raws 0 empty) (three_udps, (waiting_dns, no_log))).
Definition quiet (f : Z) (name : list Z) (ip : option Z) (arg : Z) (s : net (stack (raws Z) (udps Z * (dns Z * list (list Z))))) :
  result (net (stack (raws Z) (udps Z * (dns Z * list (list Z))))) := Ok s.

(** The same answer to another name. *)
Definition other_response : response :=
  Response 1 0x81 0x80 1 [0; 0; 0; 0] [[119; 119; 119]; [101; 121]] [0; 1; 0; 1] [Answer (Pointed [] 0xc0 12) 1 1 300 [10; 0; 0; 9]] [].

Lemma example_response_ok ls : ls <> [] -> Forall label_ok ls -> response_ok (Response 1 0x81 0x80 1 [0; 0; 0; 0] ls [0; 1; 0; 1] [Answer (Pointed [] 0xc0 12) 1 1 300 [10; 0; 0; 9]] []).
Proof.
  intros Hne HF. split; [repeat split; by apply (bool_decide_unpack _)|done|by split|].
  constructor; [|done]. repeat split; try (by apply (bool_decide_unpack _)); try (repeat constructor; by apply (bool_decide_unpack _)).
Qed.
Lemma held_packet r : bytes (response_bytes r) -> 0 < zlen (response_bytes r) < 60000 -> let s := dns_net (room_store (response_bytes r)) in
  packet (mem s) 600 [600] /\ contents (mem s) [600] = response_bytes r.
Proof.
  intros Hb Hl s. split; [exact (send_packet _ _ _ _ _ (room_sendable (response_bytes r) Hb ltac:(lia)))|].
  unfold contents. cbn [map concat]. change (mem s) with (room_store (response_bytes r)). by rewrite room_held, app_nil_r.
Qed.

