(* ===== verification/DnsSend.v ===== *)
(** * Queries of the DNS resolver: theorems about [dns_send] of
    [lwip/core/dns.c]. *)
From S2P Require Import Prelude Cobs Uart Comm Message Pbuf PbufChain PbufCopy PbufTrim InetChksum IpHdr IpAddr.
From S2P Require Import Linked RawPcb Etharp EtharpTable EtharpPackets EtharpInput Netif Ip IpOutput IpInput Icmp IcmpEcho Udp UdpPorts UdpInput UdpOutput.
From S2P Require Import Dns DnsNames DnsRecv.
From stdpp Require Import list gmap.
#[local] Open Scope Z_scope.

(** ** Packets of one pbuf *)
Section query.
Context `{OsLaws} {F G K X : Type}.
Abbreviation state := (net (stack (raws F) (udps G * (dns K * X)))).
Implicit Type s : state.
Context (output : state -> Z -> Z -> Z -> result (Z * state)).

(** A query: the identification, recursion wanted, one question, the name, and
    that the Internet address is asked for. *)
Definition query_bytes (id : Z) (ls : list (list Z)) : list Z :=
  be16 id ++ [DNS_FLAG1_RD; 0] ++ be16 1 ++ replicate 6 0 ++ encoded ls ++ be16 DNS_RRTYPE_A ++ be16 DNS_RRCLASS_IN.

(** The fields of the query over the fresh bytes of the packet. *)
Lemma query_written x id q : is_u16 id -> zlen x = 272 -> 0 < zlen q <= 256 ->
  take (Z.to_nat (16 + zlen q)) (spliced (spliced x [(0, replicate 12 0); (0, bytes_u16 (htons id)); (2, [DNS_FLAG1_RD]); (4, bytes_u16 (htons 1))])
    [(12, q); (12 + zlen q, be16 DNS_RRTYPE_A ++ be16 DNS_RRCLASS_IN)]) =
  be16 id ++ [DNS_FLAG1_RD; 0] ++ be16 1 ++ replicate 6 0 ++ q ++ be16 DNS_RRTYPE_A ++ be16 DNS_RRCLASS_IN.
Proof using Type.
  intros Hid Hx Hq. set (tail := be16 DNS_RRTYPE_A ++ be16 DNS_RRCLASS_IN).
  assert (exists a b d r, x = a ++ b ++ d ++ r /\ zlen a = 12 /\ zlen b = zlen q /\ zlen d = 4) as (a & b & d & r & -> & Ha & Hb & Hd).
  { exists (take 12 x), (take (length q) (drop 12 x)), (take 4 (drop (length q) (drop 12 x))), (drop 4 (drop (length q) (drop 12 x))).
    rewrite !take_drop. split; [done|]. unfold zlen in *. rewrite !length_take, !length_drop. lia. }
  unfold spliced. cbn [fold_left fst snd]. rewrite be16_u16 by done. change (bytes_u16 (htons 1)) with (be16 1).
  assert (forall y, splice (splice (splice (splice (a ++ y) 0 (replicate 12 0)) 0 (be16 id)) 2 [DNS_FLAG1_RD]) 4 (be16 1) =
    (be16 id ++ [DNS_FLAG1_RD; 0] ++ be16 1 ++ replicate 6 0) ++ y) as ->.
  { intros y. do 12 (destruct a as [|? a]; [discriminate|]). destruct a; [|unfold zlen in Ha; cbn in Ha; lia]. reflexivity. }
  set (hdr := be16 id ++ [DNS_FLAG1_RD; 0] ++ be16 1 ++ replicate 6 0).
  rewrite (splice_mid hdr b (d ++ r)) by done. rewrite (app_assoc hdr q).
  rewrite (splice_mid (hdr ++ q) d r) by (done || by rewrite zlen_app).
  rewrite app_assoc, take_app_length'; [unfold hdr; by rewrite <- !app_assoc|].
  rewrite !length_app. change (length hdr) with 12%nat. change (length tail) with 4%nat. unfold zlen. lia.
Qed.

(** The block of the resolver, connected to a server. *)
Definition asking (cb : udp_pcb G) (server : Z) : udp_pcb G :=
  set_remote cb server DNS_SERVER_PORT (Z.lor (udp_flags cb) UDP_FLAGS_CONNECTED).
(** The interface has a block with an address. *)
Definition if_known s (netif : Z) : Prop := netif <> 0 -> exists ni, nifs (ifs (env s)) !! netif = Some ni /\ is_u32 (nif_ip_addr ni).

(** The packet with the query. *)
Lemma query_packet m id ls : backed m -> is_u16 id -> ls <> [] -> Forall label_ok ls -> bytes (encoded ls) -> zlen (encoded ls) <= DNS_MAX_NAME_LENGTH ->
  forall junk, pbuf_alloc m PBUF_TRANSPORT (SIZEOF_DNS_HDR + DNS_MAX_NAME_LENGTH + SIZEOF_DNS_QUERY) PBUF_RAM = Ok (0, m) \/
  exists p m1 c, pbuf_alloc m PBUF_TRANSPORT (SIZEOF_DNS_HDR + DNS_MAX_NAME_LENGTH + SIZEOF_DNS_QUERY) PBUF_RAM = Ok (p, m1) /\
    p <> 0 /\ deref m1 p = Ok c /\ cells m !! p = None /\
    exists m2 m3 m4 c4, put_fields m1 (payload c) [(0, replicate 12 0); (0, bytes_u16 (htons id)); (2, [DNS_FLAG1_RD]); (4, bytes_u16 (htons 1))] = Ok m2 /\
    encode_name (host_name ls ++ junk) = Ok (encoded ls) /\
    put_fields m2 (payload c) [(SIZEOF_DNS_HDR, encoded ls);
      (SIZEOF_DNS_HDR + zlen (encoded ls), bytes_u16 (htons DNS_RRTYPE_A) ++ bytes_u16 (htons DNS_RRCLASS_IN))] = Ok m3 /\
    pbuf_realloc m3 p (u16 (SIZEOF_DNS_HDR + zlen (encoded ls) + SIZEOF_DNS_QUERY)) = Ok m4 /\
    sendable m4 p [] c4 (layer_offset PBUF_TRANSPORT) /\ contents m4 [p] = query_bytes id ls /\ untouched m m4 [p].
Proof using Type*.
  intros Hbk Hid Hne HF Hb Hz junk. change (SIZEOF_DNS_HDR + DNS_MAX_NAME_LENGTH + SIZEOF_DNS_QUERY) with 272. change DNS_MAX_NAME_LENGTH with 256 in Hz.
  pose proof (zlen_encoded ls) as Hze. pose proof (zlen_nonneg (labels ls)). set (q := encoded ls) in *.
  destruct (alloc_sendable m PBUF_TRANSPORT 272 Hbk) as [E|(p & m1 & c & E & Hs & Hl & Hc0 & Hb0 & U1 & Hnx)]; [done|done|by left|]. right.
  destruct (sendable_cell _ _ _ _ _ Hs) as (Hp & _ & _ & _ & Hlen & _). rewrite Hl in Hlen.
  assert (ref c = 1) as Hr.
  { destruct (alloc_ram_ok m PBUF_TRANSPORT 272 Hbk) as [E'|(p' & m1' & E' & _ & _ & _ & _ & _ & _ & _ & Hr & _)]; [done|rewrite E' in E; by injection E as <- <-|].
    rewrite E in E'. injection E' as <- <-. unfold ref_of in Hr. by rewrite (send_cell _ _ _ _ _ Hs) in Hr. }
  destruct (sendable_fields [(0, replicate 12 0); (0, bytes_u16 (htons id)); (2, [DNS_FLAG1_RD]); (4, bytes_u16 (htons 1))] m1 p [] c _ Hs)
    as (m2 & E2 & Hs2 & Hd2 & _ & Hcl2 & U2).
  { repeat (apply List.Forall_cons; [cbn [fst snd]; rewrite Hlen; rewrite ?zlen_u16; (split; [lia|split; [vm_compute; congruence|]])|]);
      [..|apply List.Forall_nil]; first [apply bytes_u16_bytes|by apply (bool_decide_unpack _)]. }
  destruct (sendable_fields [(12, q); (12 + zlen q, be16 DNS_RRTYPE_A ++ be16 DNS_RRCLASS_IN)] m2 p [] c _ Hs2) as (m3 & E3 & Hs3 & Hd3 & _ & Hcl3 & U3).
  { repeat (apply List.Forall_cons; [cbn [fst snd]; rewrite Hlen|]); [split; [lia|split; [lia|done]]|..|apply List.Forall_nil].
    split; [lia|]. split; [change (zlen (be16 _ ++ be16 _)) with 4; lia|by apply (bool_decide_unpack _)]. }
  destruct (send_block _ _ _ _ _ Hs3) as (bl & Ebl & _).
  destruct (sendable_trim m3 p c _ (16 + zlen q) Hs3) as (m4 & c4 & E4 & Hs4 & Hd4 & U4 & _); [lia|by eexists|lia|].
  exists p, m1, c. split; [done|]. split; [done|]. split; [apply deref_ok; [done|apply Hs]|]. split; [done|]. exists m2, m3, m4, c4.
  split; [exact E2|]. split; [by apply encode_name_ok|]. split; [exact E3|]. split; [|split; [done|split]].
  - change (SIZEOF_DNS_HDR + zlen q + SIZEOF_DNS_QUERY) with (12 + zlen q + 4). rewrite u16_small by (unfold is_u16; lia). rewrite <- E4. f_equal. lia.
  - unfold contents. cbn [map concat]. rewrite app_nil_r, Hd4, Hd3, Hd2. apply query_written; [done|by rewrite Hl|lia].
  - eapply untouched_trans; [exact U1|]. eapply untouched_trans; [exact U2|]. by eapply untouched_trans.
Qed.

Lemma dns_send_ok s ul cb numdns server id ls junk netif : let d := dns_of s in
  backed (mem s) -> is_u16 id -> ls <> [] -> Forall label_ok ls -> bytes (encoded ls) -> zlen (encoded ls) <= DNS_MAX_NAME_LENGTH ->
  server_at d numdns = Ok server -> is_u32 server -> ip_addr_ismulticast server = false -> is_u16 (ip_id (ipv (env s))) ->
  udp_ok (blocks_of s) ul -> udp_mem (blocks_of s) !! dns_pcb d = Some cb -> pcb_wide cb -> local_port cb <> 0 -> udp_local_ip cb = IPADDR_ANY ->
  ip_route s server = Ok netif -> if_known s netif ->
  pbuf_alloc (mem s) PBUF_TRANSPORT 272 PBUF_RAM = Ok (0, mem s) /\ dns_send output s numdns (host_name ls ++ junk) id = Ok (ERR_MEM, s) \/
  exists p m, cells (mem s) !! p = None /\ untouched (mem s) m [p] /\ packet m p [p] /\
    let u := put_udp (blocks_of s) (dns_pcb d) (asking cb server) in
    udp_ok u ul /\
    if netif =? 0 then dns_send output s numdns (host_name ls ++ junk) id = (let! s := free_packet (set_mem (set_blocks s u) m) p in Ok (ERR_RTE, s))
    else exists ni, nifs (ifs (env s)) !! netif = Some ni /\
      sent_as s m p [] (asking cb server) DNS_SERVER_PORT (nif_ip_addr ni) server (query_bytes id ls) /\
      dns_send output s numdns (host_name ls ++ junk) id =
        (let! (err, s) := output (numbered (set_blocks s u) m) netif p server in let! s := free_packet s p in Ok (err, s)).
Proof using Type*.
  intros d Hbk Hid Hne HF Hb Hz Esv Hsv Hmc Hipid Hok Ecb Hw Hlp Hany Hrt Hif. unfold dns_send.
  destruct (query_packet (mem s) id ls Hbk Hid Hne HF Hb Hz junk) as [E|(p & m1 & c & E & Hp & Ed & Hc0 & m2 & m3 & m4 & c4 & E2 & Eq & E3 & E4 & Hs & Hc & U)];
    rewrite E; cbn [rbind].
  { left. split; [exact E|]. by destruct s. }
  right. rewrite (proj2 (Z.eqb_neq p 0)) by done. cbn [mem set_mem]. rewrite Ed. cbn [rbind]. rewrite E2. cbn [rbind]. rewrite Eq. cbn [rbind]. rewrite E3. cbn [rbind]. rewrite E4. cbn [rbind].
  change (dns_of (set_mem (set_mem s m1) m4)) with d. rewrite Esv. cbn [rbind]. change (blocks_of (set_mem (set_mem s m1) m4)) with (blocks_of s).
  destruct (connect_bound (blocks_of s) ul (dns_pcb d) cb server DNS_SERVER_PORT Hok Ecb Hlp) as [-> Hok']. cbn [rbind]. fold (asking cb server) in *.
  set (u := put_udp (blocks_of s) (dns_pcb d) (asking cb server)) in *. set (s2 := set_blocks (set_mem (set_mem s m1) m4) u).
  assert (udp_mem u !! dns_pcb d = Some (asking cb server)) as Ecb' by apply lookup_insert_eq.
  assert (ip_route s2 server = Ok netif) as Hrt2 by (by rewrite <- Hrt; apply route_same).
  unfold udp_sendto. change (blocks_of s2) with u. destruct (ok_member _ _ _ _ Hok' Ecb') as [Hb0 _]. rewrite (udp_at_ok _ _ _ Hb0 Ecb'). cbn [rbind]. rewrite Hmc, Hrt2. cbn [rbind].
  destruct (Z.eqb_spec netif 0) as [->|Hnz].
  - exists p, m4. split; [done|]. split; [done|]. split; [apply Hs|]. split; [done|]. cbn [Z.eqb]. reflexivity.
  - destruct (Hif Hnz) as (ni & En & Hni).
    destruct (sendto_if_ok output s2 (dns_pcb d) (asking cb server) ul p [] c4 (layer_offset PBUF_TRANSPORT) server DNS_SERVER_PORT netif ni)
      as (u' & cb' & _ & _ & _ & Hsame & _ & Hx); try done; [by left|].
    destruct (Hsame Hlp) as [-> ->]. cbv zeta in Hx. change (udp_local_ip (asking cb server)) with (udp_local_ip cb) in Hx. rewrite Hany, Z.eqb_refl in Hx. cbv iota in Hx.
    destruct Hx as (m' & Hpk & U' & Hx). rewrite Z.eqb_refl in Hx. destruct Hx as [Es Hsent]. change (mem s2) with m4 in Hsent, U'. rewrite Hc in Hsent.
    exists p, m'. split; [done|]. split; [by eapply untouched_trans|]. split; [done|]. split; [done|]. exists ni. split; [done|]. split; [exact Hsent|].
    rewrite Es. reflexivity.
Qed.

(** C33: a query.  When there is memory for a packet, the query for a name, with
    the number of the entry as its identification, goes to the server from the
    block of the resolver: over the interface for the server, in a datagram to
    port 53 whose checksums verify, from a packet of its own that is given
    back.  Without a route only the packet is given back, and when [pbuf_alloc]
    has no memory for the packet nothing happens at all.  The name, with a length
    in front of each label and a zero behind the last, takes 256 bytes at most. *)
Theorem dns_query_sent s ul cb numdns server id ls junk netif : let d := dns_of s in
  backed (mem s) -> is_u16 id -> ls <> [] -> Forall label_ok ls -> bytes (encoded ls) -> zlen (encoded ls) <= DNS_MAX_NAME_LENGTH ->
  server_at d numdns = Ok server -> is_u32 server -> ip_addr_ismulticast server = false -> is_u16 (ip_id (ipv (env s))) ->
  udp_ok (blocks_of s) ul -> udp_mem (blocks_of s) !! dns_pcb d = Some cb -> pcb_wide cb -> local_port cb <> 0 -> udp_local_ip cb = IPADDR_ANY ->
  ip_route s server = Ok netif -> if_known s netif ->
  pbuf_alloc (mem s) PBUF_TRANSPORT 272 PBUF_RAM = Ok (0, mem s) /\ dns_send output s numdns (host_name ls ++ junk) id = Ok (ERR_MEM, s) \/
  exists p m, cells (mem s) !! p = None /\ untouched (mem s) m [p] /\ packet m p [p] /\
    let u := put_udp (blocks_of s) (dns_pcb d) (asking cb server) in
    udp_ok u ul /\
    if netif =? 0 then dns_send output s numdns (host_name ls ++ junk) id = (let! s := free_packet (set_mem (set_blocks s u) m) p in Ok (ERR_RTE, s))
    else exists ni, nifs (ifs (env s)) !! netif = Some ni /\
      sent_as s m p [] (asking cb server) DNS_SERVER_PORT (nif_ip_addr ni) server (query_bytes id ls) /\
      dns_send output s numdns (host_name ls ++ junk) id =
        (let! (err, s) := output (numbered (set_blocks s u) m) netif p server in let! s := free_packet s p in Ok (err, s)).
Proof using Type*. apply dns_send_ok. Qed.
End query.

Definition take_query (s : net (stack (raws Z) (udps Z * (dns Z * list (list Z))))) (nif p dest : Z) :
  result (Z * net (stack (raws Z) (udps Z * (dns Z * list (list Z))))) := Ok (ERR_OK, s).

Lemma dns_query_sent_witness : let s := dns_net (Store empty empty) in
  dns_send take_query s 0 (host_name example_com) 1 = Ok (ERR_MEM, s) \/
  exists p m, sent_as s m p [] (asking server (address_of 10 0 0 7)) 53 (nif_ip_addr access_point) (address_of 10 0 0 7)
    [0; 1; 1; 0; 0; 1; 0; 0; 0; 0; 0; 0; 3; 119; 119; 119; 2; 101; 120; 3; 99; 111; 109; 0; 0; 1; 0; 1].
Proof.
  intros s. assert (backed (mem s)) as H1 by (intros a [x Hx]; discriminate Hx). destruct example_ok as [H2 H3].
  assert (bytes (encoded example_com) /\ is_u16 1 /\ is_u32 (address_of 10 0 0 7) /\ is_u16 (ip_id no_ip)) as (H4 & H5 & H6 & H7) by (repeat split; by apply (bool_decide_unpack _)).
  assert (pcb_wide server) as H8 by (repeat split; by apply (bool_decide_unpack _)).
  assert (if_known s 2) as H9 by (intros _; exists access_point; split; [reflexivity|by apply (bool_decide_unpack _)]).
  destruct (dns_query_sent take_query s [200; 100] server 0 (address_of 10 0 0 7) 1 example_com [] 2 H1 H5 H2 H3 H4 ltac:(vm_compute; congruence) eq_refl H6 eq_refl H7
    three_udps_ok eq_refl H8 ltac:(discriminate) eq_refl eq_refl H9) as [[_ E]|(p & m & _ & _ & _ & _ & ni & En & Hs & _)]; [left; exact E|right].
  exists p, m. injection En as <-. exact Hs.
Defined.

(** A name of 255 characters, the longest one that [dns_gethostbyname] takes,
    does not fit: the query has 273 bytes in a packet of 272. *)
Definition long_name : list (list Z) := replicate 4 (replicate 63 97).
Example long_name_overflows : zlen (host_name long_name) = 256 /\ Forall label_ok long_name /\
  dns_send take_query (dns_net (Store empty empty)) 0 (host_name long_name) 1 = Fault OutOfBounds.
Proof.
  split; [vm_compute; reflexivity|]. split; [|vm_compute; reflexivity].
  apply Forall_replicate. split; [vm_compute; split; congruence|]. apply Forall_replicate. lia.
Qed.
