(* ===== verification/DnsTable.v ===== *)
(** * The table of the DNS resolver: theorems about its timer and the queries
    of the application, of [lwip/core/dns.c]. *)
From S2P Require Import Prelude Cobs Uart Comm Message Pbuf PbufChain PbufCopy PbufTrim InetChksum IpHdr IpAddr.
From S2P Require Import Linked RawPcb Etharp EtharpTable EtharpPackets EtharpInput Netif Ip IpOutput IpInput Icmp IcmpEcho Udp UdpPorts UdpInput UdpOutput.
From S2P Require Import Dns DnsNames DnsRecv DnsSend.
From stdpp Require Import list gmap.
#[local] Open Scope Z_scope.

(** ** Giving back a packet *)
Lemma free_packet_any {E} (s : net E) p l : is_chain (mem s) p l -> backed (mem s) -> exists m, free_packet s p = Ok (set_mem s m) /\ backed m.
Proof.
  intros Hch Hbk. unfold free_packet, pbuf_free.
  destruct (free_any l (chain_fuel (mem s)) (mem s) p 0 Hch) as (k & m & -> & Hm); [|done|by apply (chain_enough _ p)|by exists m].
  apply Forall_forall. intros a Ha. apply Hbk. rewrite list_elem_of_In in Ha.
  clear Hbk. revert p Hch. induction l as [|b l IH]; [done|]. intros p (-> & _ & c & Ec & Hch). destruct Ha as [->|Ha]; [by eexists|]. by eapply IH.
Qed.

Section table.
Context `{OsLaws} {F G K X : Type}.
Abbreviation state := (net (stack (raws F) (udps G * (dns K * X)))).
Implicit Type s : state.
Implicit Type e : dns_table_entry K.

(** ** The invariant *)

(** The names that are asked for have labels, of at most 254 characters with
    the dots. *)
Definition asked_name (name : list Z) : Prop :=
  exists ls junk, name = host_name ls ++ junk /\ ls <> [] /\ Forall label_ok ls /\ bytes (encoded ls) /\ zlen (encoded ls) <= DNS_MAX_NAME_LENGTH.
Definition entry_ok e : Prop :=
  zlen (ent_name e) = DNS_MAX_NAME_LENGTH /\ is_byte (ent_seqno e) /\ (ent_state e = DNS_STATE_NEW \/ ent_state e = DNS_STATE_ASKING -> asked_name (ent_name e)).
(** The counters of a query between two ticks. *)
Definition counters_ok e : Prop :=
  ent_state e <> DNS_STATE_NEW /\
  (ent_state e = DNS_STATE_ASKING -> 0 <= ent_numdns e < DNS_MAX_SERVERS /\ 0 <= ent_retries e < DNS_MAX_RETRIES /\ 1 <= ent_tmr e <= Z.max 1 (ent_retries e)).

Definition server_ok (a : Z) : Prop := is_u32 a /\ ip_addr_ismulticast a = false.
Definition block_ok (c : udp_pcb G) : Prop := pcb_wide c /\ local_port c <> 0 /\ udp_local_ip c = IPADDR_ANY.

(** The resolver after [dns_init], among the other parts of the stack. *)
Record wired s : Prop := {
  w_backed : backed (mem s);
  w_number : is_u16 (ip_id (ipv (env s)));
  w_udp : exists ul, udp_ok (blocks_of s) ul;
  w_pcb : exists c, udp_mem (blocks_of s) !! dns_pcb (dns_of s) = Some c /\ block_ok c;
  w_servers : zlen (dns_servers (dns_of s)) = DNS_MAX_SERVERS /\ Forall server_ok (dns_servers (dns_of s));
  w_ifs : exists l, nif_list (ifs (env s)) l /\ default_ok (ifs (env s));
  w_addresses : map_Forall (fun _ n => is_u32 (nif_ip_addr n)) (nifs (ifs (env s)));
  w_seqno : is_byte (dns_seqno (dns_of s));
  w_table : zlen (dns_table (dns_of s)) = DNS_TABLE_SIZE /\ Forall entry_ok (dns_table (dns_of s))
}.

(** What callbacks may do: open new queries, but leave those that wait for
    an answer and the servers as they are. *)
Record keeps s s' : Prop := {
  k_pcb : dns_pcb (dns_of s') = dns_pcb (dns_of s);
  k_servers : dns_servers (dns_of s') = dns_servers (dns_of s);
  k_asking : forall j e, dns_table (dns_of s) !! j = Some e -> ent_state e = DNS_STATE_ASKING -> dns_table (dns_of s') !! j = Some e;
  k_new : forall j e, dns_table (dns_of s') !! j = Some e -> counters_ok e \/ dns_table (dns_of s) !! j = Some e
}.

Context (output : state -> Z -> Z -> Z -> result (Z * state)) (call : K -> list Z -> option Z -> Z -> state -> result state).
(** The interfaces take any packet and leave it to its owner. *)
Context (output_law : forall s netif p dest l, backed (mem s) -> is_chain (mem s) p l -> exists err s', output s netif p dest = Ok (err, s') /\
  backed (mem s') /\ is_chain (mem s') p l /\ dns_of s' = dns_of s /\ blocks_of s' = blocks_of s /\ ifs (env s') = ifs (env s) /\ ipv (env s') = ipv (env s)).
Context (call_law : forall f name ip arg s, wired s -> exists s', call f name ip arg s = Ok s' /\ wired s' /\ keeps s s').

(** ** A query is sent *)
Lemma fallback_known i l dest : nif_list i l -> default_ok i -> let a := default (fallback i) (List.find (routes i dest) l) in
  a <> 0 -> is_Some (nifs i !! a).
Proof using Type.
  intros Hl Hd. destruct (List.find _ l) as [a|] eqn:E; cbn.
  - intros _. apply List.find_some in E as [Hin _]. by destruct (lseg_in _ _ _ _ _ a Hl Hin) as (_ & ?).
  - unfold fallback. destruct (is_up i (netif_default i)); [|done]. intros Hne. by destruct Hd.
Qed.
Lemma wired_route s dest : wired s -> exists netif, ip_route s dest = Ok netif /\ if_known s netif.
Proof using Type.
  intros Hw. destruct (w_ifs _ Hw) as (l & Hl & Hd). eexists. split; [by apply (route_ok s l)|]. intros Hne.
  destruct (fallback_known _ l dest Hl Hd Hne) as [ni En]. exists ni. split; [done|]. exact (w_addresses _ Hw _ _ En).
Qed.

(** Everything but the memory and the blocks. *)
Lemma wired_same s s' : wired s -> backed (mem s') -> dns_of s' = dns_of s -> ifs (env s') = ifs (env s) -> is_u16 (ip_id (ipv (env s'))) ->
  (exists ul, udp_ok (blocks_of s') ul) -> (exists c, udp_mem (blocks_of s') !! dns_pcb (dns_of s) = Some c /\ block_ok c) -> wired s'.
Proof using Type. intros [] Hb Hd Hi Hn Hu Hp. split; by rewrite ?Hd, ?Hi. Qed.

Lemma server_known s i : wired s -> 0 <= i < DNS_MAX_SERVERS -> exists a, server_at (dns_of s) i = Ok a /\ server_ok a.
Proof using Type.
  intros Hw Hi. destruct (w_servers _ Hw) as [Hz HF]. unfold server_at. rewrite (proj2 (Z.leb_le 0 i)) by lia.
  destruct (lookup_lt_is_Some_2 (dns_servers (dns_of s)) (Z.to_nat i)) as [a Ea]; [unfold zlen, DNS_MAX_SERVERS in *; lia|].
  rewrite Ea. exists a. split; [done|]. by apply (Forall_lookup_1 _ _ _ _ HF Ea).
Qed.

Lemma send_total s numdns name id : wired s -> 0 <= numdns < DNS_MAX_SERVERS -> asked_name name -> is_u16 id ->
  exists err s', dns_send output s numdns name id = Ok (err, s') /\ wired s' /\ dns_of s' = dns_of s.
Proof using Type*.
  intros Hw Hi (ls & junk & -> & Hne & HF & Hb & Hz) Hid. destruct (server_known s numdns Hw Hi) as (server & Esv & Hsv & Hmc).
  destruct (wired_route s server Hw) as (netif & Hrt & Hif). destruct (w_udp _ Hw) as (ul & Hok). destruct (w_pcb _ Hw) as (cb & Ecb & Hcw & Hlp & Hany).
  destruct (dns_send_ok output s ul cb numdns server id ls junk netif (w_backed _ Hw) Hid Hne HF Hb Hz Esv Hsv Hmc (w_number _ Hw) Hok Ecb Hcw Hlp Hany Hrt Hif)
    as [[_ E]|(p & m & _ & U & Hpk & Hok' & E)]; [by exists ERR_MEM, s|].
  set (u := put_udp _ _ _) in *. assert (exists c, udp_mem u !! dns_pcb (dns_of s) = Some c /\ block_ok c) as Hblk.
  { exists (asking cb server). split; [apply lookup_insert_eq|]. by split. }
  pose proof (proj1 U (w_backed _ Hw)) as Hbm. destruct (netif =? 0).
  - destruct (free_packet_any (set_mem (set_blocks s u) m) p [p] (packet_chain _ _ _ Hpk) Hbm) as (m' & Ef & Hb'). rewrite E, Ef. cbn [rbind].
    eexists _, _. split; [reflexivity|]. split; [|done]. apply (wired_same s); try done; [apply Hw|by exists ul].
  - destruct E as (ni & _ & _ & E). rewrite E.
    destruct (output_law (numbered (set_blocks s u) m) netif p server [p] Hbm (packet_chain _ _ _ Hpk)) as (err & s' & -> & Hb' & Hch & Ed & Eu & Ei & Ev). cbn [rbind].
    destruct (free_packet_any s' p [p] Hch Hb') as (m' & -> & Hb2). cbn [rbind]. exists err, (set_mem s' m'). split; [done|].
    assert (dns_of (set_mem s' m') = dns_of s) as Ed' by (etransitivity; [exact Ed|reflexivity]). split; [|done].
    apply (wired_same s); try done.
    + change (is_u16 (ip_id (ipv (env s')))). rewrite Ev. apply u16_range.
    + exists ul. change (udp_ok (blocks_of s') ul). by rewrite Eu.
    + change (exists c, udp_mem (blocks_of s') !! dns_pcb (dns_of s) = Some c /\ block_ok c). by rewrite Eu.
Qed.

(** ** The timer *)
Lemma entry_known s i : wired s -> 0 <= i < DNS_TABLE_SIZE -> exists e, dns_entry_at (dns_of s) i = Ok e /\ dns_table (dns_of s) !! Z.to_nat i = Some e /\ entry_ok e.
Proof using Type.
  intros Hw Hi. destruct (w_table _ Hw) as [Hz HF]. unfold dns_entry_at. rewrite (proj2 (Z.leb_le 0 i)) by lia.
  destruct (lookup_lt_is_Some_2 (dns_table (dns_of s)) (Z.to_nat i)) as [e Ee]; [unfold zlen, DNS_TABLE_SIZE in *; lia|].
  rewrite Ee. exists e. split; [done|]. split; [done|]. by apply (Forall_lookup_1 _ _ _ _ HF Ee).
Qed.
Lemma put_known s i e e' : wired s -> dns_table (dns_of s) !! Z.to_nat i = Some e -> entry_ok e' -> wired (set_dns s (put_dns_entry (dns_of s) i e')).
Proof using Type.
  intros [] Ee He'. split; try done. split.
  - cbn. unfold zlen. rewrite length_insert. apply w_table0.
  - apply Forall_insert; [apply w_table0|done].
Qed.
Lemma upd_known s i e f : 0 <= i -> dns_table (dns_of s) !! Z.to_nat i = Some e -> upd_entry s i f = Ok (set_dns s (put_dns_entry (dns_of s) i (f e))).
Proof using Type. intros Hi Ee. unfold upd_entry, dns_entry_at. by rewrite (proj2 (Z.leb_le 0 i)), Ee. Qed.

(** Another server can be asked. *)
Definition another (d : dns K) (numdns : Z) : bool := (numdns + 1 <? DNS_MAX_SERVERS) && negb (default 0 (dns_servers d !! Z.to_nat (numdns + 1)) =? IPADDR_ANY).
(** The ticks until the query [e] is given up. *)
Definition ticks_left (d : dns K) e : Z :=
  ent_tmr e + (if ent_retries e =? 0 then 6 else if ent_retries e =? 1 then 5 else if ent_retries e =? 2 then 3 else 0) + (if another d (ent_numdns e) then 7 else 0).
(** The same question of the same client. *)
Definition same_query e e' : Prop :=
  ent_state e' = ent_state e /\ ent_name e' = ent_name e /\ ent_found e' = ent_found e /\ ent_arg e' = ent_arg e /\ ent_seqno e' = ent_seqno e.
Definition waiting e : Prop := ent_state e = DNS_STATE_ASKING /\ counters_ok e.

Lemma same_query_ok e e' : same_query e e' -> entry_ok e -> entry_ok e'.
Proof using Type. unfold same_query, entry_ok. intros (-> & -> & _ & _ & ->). done. Qed.

Lemma send_entry s i e e' numdns : wired s -> 0 <= i < DNS_TABLE_SIZE -> dns_table (dns_of s) !! Z.to_nat i = Some e -> entry_ok e' ->
  0 <= numdns < DNS_MAX_SERVERS -> asked_name (ent_name e) ->
  exists s', (let! (_, s) := dns_send output (set_dns s (put_dns_entry (dns_of s) i e')) numdns (ent_name e) i in Ok s) = Ok s' /\
    wired s' /\ dns_of s' = put_dns_entry (dns_of s) i e'.
Proof using Type*.
  intros Hw Hi Ee He' Hn Ha. pose proof (put_known s i e e' Hw Ee He') as Hw'.
  destruct (send_total _ numdns (ent_name e) i Hw' Hn Ha) as (err & s' & -> & Hws & Hd); [unfold is_u16, DNS_TABLE_SIZE in *; lia|].
  exists s'. split; [done|]. split; [done|]. by rewrite Hd.
Qed.

(** The search for another server. *)
Lemma another_read s numdns : wired s -> 0 <= numdns ->
  (if numdns + 1 <? DNS_MAX_SERVERS then let! ip := server_at (dns_of s) (numdns + 1) in Ok (negb (ip =? IPADDR_ANY)) else Ok false) = Ok (another (dns_of s) numdns).
Proof using Type.
  intros Hw Hn. unfold another. destruct (Z.ltb_spec (numdns + 1) DNS_MAX_SERVERS); [|done].
  destruct (server_known s (numdns + 1) Hw) as (a & E & _); [lia|]. rewrite E. cbn [rbind andb].
  unfold server_at in E. rewrite (proj2 (Z.leb_le 0 _)) in E by lia. by destruct (dns_servers (dns_of s) !! Z.to_nat (numdns + 1)); [injection E as ->|].
Qed.
Lemma set_asking_waits e numdns tmr retries : ent_state e = DNS_STATE_ASKING -> entry_ok e -> 0 <= numdns < 2 -> 0 <= retries < 4 -> 1 <= tmr <= Z.max 1 retries ->
  let e' := set_asking e numdns tmr retries in same_query e e' /\ entry_ok e' /\ waiting e'.
Proof using Type.
  intros Ha Hok H1 H2 H3 e'. assert (same_query e e') as Hq by done. split; [done|]. split; [by eapply same_query_ok|].
  split; [done|]. split; [cbn; by rewrite Ha|by intros _].
Qed.
Lemma ticks_range d e : waiting e -> 1 <= ticks_left d e <= 14 /\
  (ent_tmr e <> 1 \/ ent_retries e <> 3 \/ another d (ent_numdns e) = true <-> ticks_left d e <> 1).
Proof using Type.
  intros [Ha [_ Hc]]. destruct (Hc Ha) as (_ & Hr & Ht). change DNS_MAX_RETRIES with 4 in Hr. unfold ticks_left.
  destruct (another d _), (Z.eqb_spec (ent_retries e) 0), (Z.eqb_spec (ent_retries e) 1), (Z.eqb_spec (ent_retries e) 2); lia.
Qed.
(** A query that is asked again. *)
Lemma asked_again s i e : wired s -> 0 <= i < DNS_TABLE_SIZE -> dns_table (dns_of s) !! Z.to_nat i = Some e -> entry_ok e -> waiting e ->
  ent_tmr e = 1 -> ent_retries e <> 3 ->
  exists s' e', (let! s := upd_entry s i (fun e0 => set_asking e0 (ent_numdns e0) (ent_retries e + 1) (ent_retries e + 1)) in
                 let! (_, s) := dns_send output s (ent_numdns e) (ent_name e) i in Ok s) = Ok s' /\
    wired s' /\ dns_of s' = put_dns_entry (dns_of s) i e' /\ same_query e e' /\ waiting e' /\ ticks_left (dns_of s) e' = ticks_left (dns_of s) e - 1.
Proof using Type*.
  intros Hw Hi Ee Hok [Ha [_ Hc]] Et Hr3. destruct (Hc Ha) as (Hn & Hr & _). change DNS_MAX_RETRIES with 4 in Hr.
  rewrite (upd_known s i e) by (done || lia). cbn [rbind].
  destruct (set_asking_waits e (ent_numdns e) (ent_retries e + 1) (ent_retries e + 1) Ha Hok) as (Hq & Hok' & Hwt); [change DNS_MAX_SERVERS with 2 in Hn; lia|lia..|].
  destruct (send_entry s i e _ (ent_numdns e) Hw Hi Ee Hok' Hn) as (s' & -> & Hw' & Ed); [apply Hok; by right|].
  eexists s', _. split; [reflexivity|]. split; [done|]. split; [exact Ed|]. split; [exact Hq|]. split; [exact Hwt|].
  unfold ticks_left. cbn [ent_tmr ent_retries ent_numdns set_asking]. rewrite Et.
  assert (ent_retries e = 0 \/ ent_retries e = 1 \/ ent_retries e = 2) as [-> | [-> | ->]] by lia;
    [change (0 + 1) with 1|change (1 + 1) with 2|change (2 + 1) with 3]; cbn [Z.eqb Pos.eqb]; lia.
Qed.

(** A tick of a query: it waits on, or its time is over. *)
Lemma check_waiting s i e : wired s -> 0 <= i < DNS_TABLE_SIZE -> dns_table (dns_of s) !! Z.to_nat i = Some e -> waiting e ->
  if ticks_left (dns_of s) e =? 1 then
    exists e1, same_query e e1 /\ entry_ok e1 /\
      dns_check_entry output call s i = (let! s := tell call (set_dns s (put_dns_entry (dns_of s) i e1)) e None in upd_entry s i flush)
  else exists s' e', dns_check_entry output call s i = Ok s' /\ wired s' /\ dns_of s' = put_dns_entry (dns_of s) i e' /\ same_query e e' /\ waiting e' /\
    ticks_left (dns_of s) e' = ticks_left (dns_of s) e - 1.
Proof using Type*.
  intros Hw Hi Ee Hwt. pose proof Hwt as [Ha [_ Hc]]. destruct (Hc Ha) as (Hn & Hr & Ht). change DNS_MAX_RETRIES with 4 in Hr. change DNS_MAX_SERVERS with 2 in Hn.
  destruct (entry_known s i Hw Hi) as (e0 & Eat & Ee0 & Hok). assert (e0 = e) as -> by congruence. destruct (ticks_range (dns_of s) e Hwt) as [_ Hone].
  unfold dns_check_entry. rewrite Eat. cbn [rbind]. rewrite Ha. change (DNS_STATE_ASKING =? DNS_STATE_NEW) with false. change (DNS_STATE_ASKING =? DNS_STATE_ASKING) with true. cbv iota.
  rewrite (u8_small (ent_tmr e - 1)), (u8_small (ent_retries e + 1)) by (unfold is_byte; lia).
  destruct (Z.eqb_spec (ent_tmr e - 1) 0) as [Et|Et]; cbn [negb].
  2:{ rewrite (proj2 (Z.eqb_neq _ _) (proj1 Hone ltac:(left; lia))), (upd_known s i e) by (done || lia).
      destruct (set_asking_waits e (ent_numdns e) (ent_tmr e - 1) (ent_retries e) Ha Hok) as (Hq & Hok' & Hwt'); [lia..|].
      eexists _, _. split; [reflexivity|]. split; [by eapply put_known|]. split; [done|]. split; [exact Hq|]. split; [exact Hwt'|].
      unfold ticks_left. cbn [ent_tmr ent_retries ent_numdns set_asking]. lia. }
  destruct (Z.eqb_spec (ent_retries e + 1) DNS_MAX_RETRIES) as [Er|Er]; change DNS_MAX_RETRIES with 4 in Er.
  - assert (ent_retries e = 3) as Er3 by lia. rewrite another_read by (done || lia). cbn [rbind].
    destruct (another (dns_of s) (ent_numdns e)) eqn:Ean; cbn [negb].
    + rewrite (proj2 (Z.eqb_neq _ _) (proj1 Hone ltac:(right; by right))).
      assert (ent_numdns e = 0) as En0 by (unfold another in Ean; change DNS_MAX_SERVERS with 2 in Ean; destruct (Z.ltb_spec (ent_numdns e + 1) 2); [lia|done]).
      rewrite (upd_known s i e), En0 by (done || lia). change (u8 (0 + 1)) with 1. destruct (set_asking_waits e 1 1 0 Ha Hok) as (Hq & Hok' & Hwt'); [lia..|].
      eexists _, _. split; [reflexivity|]. split; [by eapply put_known|]. split; [done|]. split; [exact Hq|]. split; [exact Hwt'|].
      unfold ticks_left. cbn [ent_tmr ent_retries ent_numdns set_asking]. rewrite Er3, En0 in *. rewrite Ean. change (another (dns_of s) 1) with false. cbn [Z.eqb Pos.eqb]. lia.
    + rewrite (proj2 (Z.eqb_eq _ _)) by (unfold ticks_left; rewrite Er3, Ean; cbn [Z.eqb Pos.eqb]; lia).
      rewrite (upd_known s i e) by (done || lia). exists (set_asking e (ent_numdns e) (ent_tmr e - 1) (ent_retries e + 1)).
      assert (same_query e (set_asking e (ent_numdns e) (ent_tmr e - 1) (ent_retries e + 1))) as Hq by done. split; [exact Hq|]. split; [by eapply same_query_ok|reflexivity].
  - rewrite (proj2 (Z.eqb_neq _ _) (proj1 Hone ltac:(right; left; lia))). apply asked_again; try done; lia.
Qed.

(** Between two ticks. *)
Definition steady s : Prop := wired s /\ Forall counters_ok (dns_table (dns_of s)).
(** What a tick of the entry [i] leaves alone. *)
Definition beside (i : Z) s s' : Prop :=
  dns_pcb (dns_of s') = dns_pcb (dns_of s) /\ dns_servers (dns_of s') = dns_servers (dns_of s) /\
  forall j e, j <> Z.to_nat i -> dns_table (dns_of s) !! j = Some e -> ent_state e = DNS_STATE_ASKING -> dns_table (dns_of s') !! j = Some e.

Lemma tell_total s e ip : wired s -> exists s', tell call s e ip = Ok s' /\ wired s' /\ keeps s s'.
Proof using Type*.
  intros Hw. unfold tell. destruct (ent_found e); [by apply call_law|]. exists s. split; [done|]. split; [done|]. split; try done. by right.
Qed.
Lemma put_steady s i e e' : steady s -> dns_table (dns_of s) !! Z.to_nat i = Some e -> entry_ok e' -> counters_ok e' ->
  let s' := set_dns s (put_dns_entry (dns_of s) i e') in steady s' /\ beside i s s'.
Proof using Type.
  intros [Hw HF] Ee Hok Hc s'. split; [split; [by eapply put_known|by apply Forall_insert]|].
  split; [done|]. split; [done|]. intros j e2 Hj Ej _. cbn. by rewrite list_lookup_insert_ne.
Qed.
Lemma flush_ok e : entry_ok e -> entry_ok (flush e) /\ counters_ok (flush e).
Proof using Type. intros (Hz & Hb & _). split; [split; [done|split; [done|by intros [|]]]|by split]. Qed.

(** The end of a query. *)
Lemma told s i e e1 ip : steady s -> 0 <= i < DNS_TABLE_SIZE -> dns_table (dns_of s) !! Z.to_nat i = Some e -> entry_ok e1 ->
  exists s2 s', tell call (set_dns s (put_dns_entry (dns_of s) i e1)) e ip = Ok s2 /\ upd_entry s2 i flush = Ok s' /\ steady s' /\ beside i s s' /\
    exists e2, dns_table (dns_of s') !! Z.to_nat i = Some e2 /\ ent_state e2 = DNS_STATE_UNUSED.
Proof using Type*.
  intros [Hw HF] Hi Ee Hok1. pose proof (put_known s i e e1 Hw Ee Hok1) as Hw1.
  destruct (tell_total _ e ip Hw1) as (s2 & -> & Hw2 & [Kp Ks Ka Kn]). exists s2. destruct (entry_known s2 i Hw2 Hi) as (e2 & _ & Ee2 & Hok2).
  rewrite (upd_known s2 i e2) by (done || lia). eexists. split; [done|]. split; [reflexivity|].
  destruct (flush_ok e2 Hok2) as [Hfo Hfc]. split; [split; [by eapply put_known|]|split].
  - apply Forall_lookup. intros j x Hx. cbn in Hx. apply list_lookup_insert_Some in Hx as [(<- & <- & _)|[Hj Hx]]; [done|].
    destruct (Kn j x Hx) as [?|Hx']; [done|]. cbn in Hx'. rewrite list_lookup_insert_ne in Hx' by done. by apply (Forall_lookup_1 _ _ _ _ HF Hx').
  - split; [exact Kp|]. split; [exact Ks|]. intros j x Hj Hx Ha. cbn. rewrite list_lookup_insert_ne by done. apply Ka; [|done]. cbn. by rewrite list_lookup_insert_ne.
  - exists (flush e2). split; [|done]. cbn. apply list_lookup_insert_eq. by eapply lookup_lt_Some.
Qed.

Lemma check_any s i : steady s -> 0 <= i < DNS_TABLE_SIZE -> exists s', dns_check_entry output call s i = Ok s' /\ steady s' /\ beside i s s'.
Proof using Type*.
  intros Hst Hi. pose proof Hst as [Hw HF]. destruct (entry_known s i Hw Hi) as (e & Eat & Ee & Hok). pose proof (Forall_lookup_1 _ _ _ _ HF Ee) as Hc.
  destruct (Z.eqb_spec (ent_state e) DNS_STATE_ASKING) as [Ha|Ha].
  - pose proof (check_waiting s i e Hw Hi Ee (conj Ha Hc)) as Hck. destruct (ticks_left (dns_of s) e =? 1).
    + destruct Hck as (e1 & _ & Hok1 & ->). destruct (told s i e e1 None Hst Hi Ee Hok1) as (s2 & s' & -> & E & Hst' & Hb & _). by exists s'.
    + destruct Hck as (s' & e' & -> & Hw' & Ed & Hq & [_ Hc'] & _). exists s'. split; [done|]. split; [split; [done|rewrite Ed; by apply Forall_insert]|].
      unfold beside. rewrite Ed. split; [done|]. split; [done|]. intros j x Hj Hx _. cbn. by rewrite list_lookup_insert_ne.
  - unfold dns_check_entry. rewrite Eat. cbn [rbind]. rewrite (proj2 (Z.eqb_neq _ DNS_STATE_NEW)) by apply Hc. rewrite (proj2 (Z.eqb_neq _ DNS_STATE_ASKING)) by done.
    destruct (Z.eqb_spec (ent_state e) DNS_STATE_DONE) as [Hd|Hd]; [|exists s; split; [done|]; split; [done|]; by split].
    rewrite (upd_known s i e) by (done || lia). eexists. split; [reflexivity|].
    assert (entry_ok (set_ttl e (u32 (ent_ttl e - 1))) /\ counters_ok (set_ttl e (u32 (ent_ttl e - 1)))) as [H1 H2] by done.
    destruct (u32 (ent_ttl e - 1) =? 0); apply (put_steady s i e); try done; by apply flush_ok.
Qed.

Lemma check_many n : forall s i, steady s -> 0 <= i -> i + Z.of_nat n <= DNS_TABLE_SIZE ->
  exists s', check_each output call n s i = Ok s' /\ steady s' /\ dns_servers (dns_of s') = dns_servers (dns_of s) /\ dns_pcb (dns_of s') = dns_pcb (dns_of s) /\
    forall j e, (j < Z.to_nat i \/ Z.to_nat i + n <= j)%nat -> dns_table (dns_of s) !! j = Some e -> ent_state e = DNS_STATE_ASKING -> dns_table (dns_of s') !! j = Some e.
Proof using Type*.
  induction n as [|n IH]; intros s i Hst Hi0 Hi; cbn [check_each]; [by exists s|].
  destruct (check_any s i Hst) as (s1 & -> & Hst1 & Hp & Hsv & Hb); [lia|]. cbn [rbind].
  destruct (IH s1 (i + 1) Hst1) as (s' & -> & Hst' & Hsv' & Hp' & Hb'); [lia..|]. exists s'. split; [done|]. split; [done|].
  split; [congruence|]. split; [congruence|]. intros j e Hj Ej Ha. apply Hb'; [lia|apply Hb; [lia|done|done]|done].
Qed.
Lemma check_each_split a b : forall s i, check_each output call (a + b) s i = (let! s := check_each output call a s i in check_each output call b s (i + Z.of_nat a)).
Proof using Type.
  induction a as [|a IH]; intros s i; cbn [Nat.add check_each rbind]; [by rewrite Z.add_0_r|].
  rewrite rbind_assoc. destruct (dns_check_entry output call s i) as [s1|]; [|done]. cbn [rbind]. rewrite IH. replace (i + 1 + Z.of_nat a) with (i + Z.of_nat (S a)) by lia. done.
Qed.

Lemma steady_tmr s : steady s -> dns_tmr output call s = check_each output call 4 s 0.
Proof using Type.
  intros [Hw _]. destruct (w_pcb _ Hw) as (c & Ec & _), (w_udp _ Hw) as (ul & Hok). unfold dns_tmr.
  by rewrite (proj2 (Z.eqb_neq _ 0)) by by destruct (ok_member _ _ _ _ Hok Ec).
Qed.
(** The entries up to [i] in a tick. *)
Lemma tmr_reaches s i e : steady s -> 0 <= i < DNS_TABLE_SIZE -> dns_table (dns_of s) !! Z.to_nat i = Some e -> waiting e ->
  exists s1, check_each output call (Z.to_nat i) s 0 = Ok s1 /\ steady s1 /\ dns_servers (dns_of s1) = dns_servers (dns_of s) /\
    dns_table (dns_of s1) !! Z.to_nat i = Some e /\
    dns_tmr output call s = (let! s := dns_check_entry output call s1 i in check_each output call (3 - Z.to_nat i) s (i + 1)).
Proof using Type*.
  intros Hst Hi Ee Hwt. change DNS_TABLE_SIZE with 4 in Hi. rewrite steady_tmr by done.
  replace 4%nat with (Z.to_nat i + S (3 - Z.to_nat i))%nat by lia. rewrite check_each_split.
  destruct (check_many (Z.to_nat i) s 0 Hst) as (s1 & -> & Hst1 & Hsv & _ & Hk); [lia|change DNS_TABLE_SIZE with 4; lia|]. exists s1.
  split; [done|]. split; [done|]. split; [done|]. split; [apply Hk; [lia|done|apply Hwt]|]. cbn [rbind check_each]. by replace (0 + Z.of_nat (Z.to_nat i)) with i by lia.
Qed.
Lemma ticks_same d d' e : dns_servers d' = dns_servers d -> ticks_left d' e = ticks_left d e.
Proof using Type. intros E. unfold ticks_left, another. by rewrite E. Qed.

Lemma tmr_waits s i e : steady s -> 0 <= i < DNS_TABLE_SIZE -> dns_table (dns_of s) !! Z.to_nat i = Some e -> waiting e -> ticks_left (dns_of s) e <> 1 ->
  exists s' e', dns_tmr output call s = Ok s' /\ steady s' /\ dns_table (dns_of s') !! Z.to_nat i = Some e' /\ same_query e e' /\ waiting e' /\
    ticks_left (dns_of s') e' = ticks_left (dns_of s) e - 1.
Proof using Type*.
  intros Hst Hi Ee Hwt Hne. destruct (tmr_reaches s i e Hst Hi Ee Hwt) as (s1 & _ & Hst1 & Hsv & Ee1 & ->).
  pose proof (check_waiting s1 i e (proj1 Hst1) Hi Ee1 Hwt) as Hck. rewrite (ticks_same (dns_of s) (dns_of s1)) in Hck by done. rewrite (proj2 (Z.eqb_neq _ 1) Hne) in Hck.
  destruct Hck as (s2 & e' & -> & Hw2 & Ed & Hq & Hwt' & Ht). cbn [rbind]. change DNS_TABLE_SIZE with 4 in Hi.
  assert (steady s2) as Hst2 by (split; [done|rewrite Ed; apply Forall_insert; [apply Hst1|apply Hwt']]).
  destruct (check_many (3 - Z.to_nat i) s2 (i + 1) Hst2) as (s' & -> & Hst' & Hsv' & _ & Hk); [lia|change DNS_TABLE_SIZE with 4; lia|].
  exists s', e'. split; [done|]. split; [done|]. split; [|split; [done|split; [done|]]].
  - apply Hk; [lia| |apply Hwt']. rewrite Ed. cbn. apply list_lookup_insert_eq. by eapply lookup_lt_Some.
  - assert (dns_servers (dns_of s') = dns_servers (dns_of s)) as E by (rewrite Hsv', Ed; exact Hsv).
    rewrite (ticks_same _ _ _ E), <- Ht. symmetry. by apply ticks_same.
Qed.

Fixpoint ticks (n : nat) s : result state :=
  match n with O => Ok s | S n => let! s := dns_tmr output call s in ticks n s end.

Lemma ticks_wait n : forall s i e, steady s -> 0 <= i < DNS_TABLE_SIZE -> dns_table (dns_of s) !! Z.to_nat i = Some e -> waiting e ->
  Z.of_nat n < ticks_left (dns_of s) e ->
  exists s' e', ticks n s = Ok s' /\ steady s' /\ dns_table (dns_of s') !! Z.to_nat i = Some e' /\ same_query e e' /\ waiting e' /\
    ticks_left (dns_of s') e' = ticks_left (dns_of s) e - Z.of_nat n.
Proof using Type*.
  induction n as [|n IH]; intros s i e Hst Hi Ee Hwt Hn; cbn [ticks].
  - exists s, e. split; [done|]. split; [done|]. split; [done|]. split; [done|]. split; [done|lia].
  - destruct (tmr_waits s i e Hst Hi Ee Hwt) as (s1 & e1 & -> & Hst1 & Ee1 & Hq1 & Hwt1 & Ht1); [lia|]. cbn [rbind].
    destruct (IH s1 i e1 Hst1 Hi Ee1 Hwt1) as (s' & e' & -> & Hst' & Ee' & Hq' & Hwt' & Ht'); [lia|]. exists s', e'.
    split; [done|]. split; [done|]. split; [done|]. split; [|split; [done|lia]].
    destruct Hq1 as (? & ? & ? & ? & ?), Hq' as (? & ? & ? & ? & ?). unfold same_query. repeat split; congruence.
Qed.

(** C31: a query ends.  A query that waits for an answer has at most 14 ticks of
    the timer left: seven for each server from its own on.  Until then it
    keeps waiting; in its last tick its callback is called, with its name, its
    argument and no address, and its entry is free.  The timer itself never
    fails, whatever the other entries do. *)
Theorem dns_query_ends s i e : steady s -> 0 <= i < DNS_TABLE_SIZE -> dns_table (dns_of s) !! Z.to_nat i = Some e -> waiting e ->
  exists n s0 s1 s2 s3 s' e0 e1, (n < 14)%nat /\ Z.of_nat (S n) = ticks_left (dns_of s) e /\
    ticks n s = Ok s0 /\ dns_table (dns_of s0) !! Z.to_nat i = Some e0 /\ same_query e e0 /\ waiting e0 /\
    check_each output call (Z.to_nat i) s0 0 = Ok s1 /\
    match ent_found e with Some f => call f (ent_name e) None (ent_arg e) (set_dns s1 (put_dns_entry (dns_of s1) i e1)) | None => Ok (set_dns s1 (put_dns_entry (dns_of s1) i e1)) end = Ok s2 /\
    upd_entry s2 i flush = Ok s3 /\ check_each output call (3 - Z.to_nat i) s3 (i + 1) = Ok s' /\
    ticks (S n) s = Ok s' /\ steady s'.
Proof using Type*.
  intros Hst Hi Ee Hwt. destruct (ticks_range (dns_of s) e Hwt) as [Hr _]. set (n := Z.to_nat (ticks_left (dns_of s) e - 1)).
  destruct (ticks_wait n s i e Hst Hi Ee Hwt) as (s0 & e0 & Et & Hst0 & Ee0 & Hq & Hwt0 & Hl); [lia|].
  destruct (tmr_reaches s0 i e0 Hst0 Hi Ee0 Hwt0) as (s1 & E1 & Hst1 & Hsv & Ee1 & E0).
  pose proof (check_waiting s1 i e0 (proj1 Hst1) Hi Ee1 Hwt0) as Hck. rewrite (ticks_same (dns_of s0) (dns_of s1)), Hl in Hck by done.
  rewrite (proj2 (Z.eqb_eq _ 1)) in Hck by lia. destruct Hck as (e1 & _ & Hok1 & Eck).
  destruct (told s1 i e0 e1 None Hst1 Hi Ee1 Hok1) as (s2 & s3 & Etell & Eup & Hst3 & _). rewrite Eck, Etell in E0. cbn [rbind] in E0. rewrite Eup in E0. cbn [rbind] in E0.
  destruct (check_many (3 - Z.to_nat i) s3 (i + 1) Hst3) as (s' & E3 & Hst' & _); [lia|change DNS_TABLE_SIZE with 4 in *; lia|].
  exists n, s0, s1, s2, s3, s', e0, e1. split; [lia|]. split; [lia|]. split; [done|]. split; [done|]. split; [done|]. split; [done|]. split; [done|].
  split; [|split; [done|split; [done|split; [|done]]]].
  - unfold tell in Etell. destruct Hq as (_ & En & Ef & Ea & _). by rewrite <- En, <- Ef, <- Ea.
  - rewrite E3 in E0. assert (forall k s, ticks (k + 1) s = let! s := ticks k s in dns_tmr output call s) as Hsplit.
    { clear. induction k as [|k IH]; intros s; cbn [Nat.add ticks rbind]; [by destruct (dns_tmr _ _ s)|].
      rewrite rbind_assoc. destruct (dns_tmr _ _ s) as [s1|]; [|done]. cbn [rbind]. apply IH. }
    replace (S n) with (n + 1)%nat by lia. by rewrite Hsplit, Et.
Qed.

(** ** Queries of the application *)

(** The first unused entry; without one, the completed one with the greatest
    age above zero, or the first entry when there is none. *)
Definition age (d : dns K) e : Z := dns_seqno d - ent_seqno e.
Definition unused_at (d : dns K) (i : Z) : Prop := exists e, dns_table d !! Z.to_nat i = Some e /\ ent_state e = DNS_STATE_UNUSED.
Definition completed_at (d : dns K) (i : Z) e : Prop := dns_table d !! Z.to_nat i = Some e /\ ent_state e = DNS_STATE_DONE.

Lemma unused_loop_ok n : forall d i lseq lseqi, 0 <= i -> (Z.to_nat i + n <= length (dns_table d))%nat -> 0 <= lseq ->
  (forall j e, completed_at d j e -> age d e < 256) ->
  exists o k, unused_loop n d i lseq lseqi = Ok (o, k) /\
    match o with
    | Some j => i <= j < i + Z.of_nat n /\ unused_at d j /\ forall j', i <= j' < j -> ~ unused_at d j'
    | None => (forall j, i <= j < i + Z.of_nat n -> ~ unused_at d j) /\
        exists best, lseq <= best /\ (best = lseq /\ k = lseqi \/ i <= k < i + Z.of_nat n /\ exists e, completed_at d k e /\ age d e = best) /\
          forall j e, i <= j < i + Z.of_nat n -> completed_at d j e -> age d e <= best
    end.
Proof using Type.
  induction n as [|n IH]; intros d i lseq lseqi Hi Hn Hl Hage; cbn [unused_loop].
  { eexists None, _. split; [reflexivity|]. split; [intros j ?; lia|]. exists lseq. split; [lia|]. split; [by left|intros; lia]. }
  destruct (lookup_lt_is_Some_2 (dns_table d) (Z.to_nat i)) as [e Ee]; [lia|]. unfold dns_entry_at. rewrite (proj2 (Z.leb_le 0 i)), Ee by lia. cbn [of_option rbind].
  assert (forall j, i <= j < i + Z.of_nat (S n) -> j = i \/ i + 1 <= j < i + 1 + Z.of_nat n) as Hsp by lia.
  destruct (Z.eqb_spec (ent_state e) DNS_STATE_UNUSED) as [Hu|Hu].
  { eexists (Some i), _. split; [reflexivity|]. split; [lia|]. split; [by exists e|]. intros; lia. }
  assert (~ unused_at d i) as Hnu by (intros (e' & Ee' & ?); congruence).
  assert (forall (lseq' lseqi' : Z), lseq <= lseq' -> (lseq' = lseq /\ lseqi' = lseqi \/ lseqi' = i /\ completed_at d i e /\ age d e = lseq') ->
    (completed_at d i e -> age d e <= lseq') ->
    exists o k, unused_loop n d (i + 1) lseq' lseqi' = Ok (o, k) /\
    match o with
    | Some j => i <= j < i + Z.of_nat (S n) /\ unused_at d j /\ forall j', i <= j' < j -> ~ unused_at d j'
    | None => (forall j, i <= j < i + Z.of_nat (S n) -> ~ unused_at d j) /\
        exists best, lseq <= best /\ (best = lseq /\ k = lseqi \/ i <= k < i + Z.of_nat (S n) /\ exists e, completed_at d k e /\ age d e = best) /\
          forall j e, i <= j < i + Z.of_nat (S n) -> completed_at d j e -> age d e <= best
    end) as Hstep.
  { intros lseq' lseqi' Hle Hk Hb. destruct (IH d (i + 1) lseq' lseqi') as (o & k & -> & Ho); [lia|lia|lia|done|]. exists o, k. split; [done|].
    destruct o as [j|].
    - destruct Ho as (Hj & Hju & Hmin). split; [lia|]. split; [done|]. intros j' Hj'. destruct (Hsp j') as [->|]; [lia|done|]. apply Hmin. lia.
    - destruct Ho as (Hno & best & Hbl & Hbk & Hbm). split; [intros j Hj; destruct (Hsp j Hj) as [->|?]; [done|by apply Hno]|].
      exists best. split; [lia|]. split.
      + destruct Hbk as [[-> ->]|(Hkr & Hke)]; [|right; split; [lia|done]]. destruct Hk as [[-> ->]|(-> & Hd & Ha)]; [by left|right; split; [lia|by exists e]].
      + intros j x Hj Hd. destruct (Hsp j Hj) as [->|Hj']; [|by apply (Hbm j)]. assert (x = e) as -> by (destruct Hd; congruence). specialize (Hb Hd). lia. }
  destruct (Z.eqb_spec (ent_state e) DNS_STATE_DONE) as [Hd|Hd]; cbn [andb].
  - assert (completed_at d i e) as Hc by done. pose proof (Hage i e Hc) as Ha. fold (age d e) in *. destruct (Z.ltb_spec lseq (age d e)).
    + rewrite u8_small by (unfold is_byte; lia). apply Hstep; [lia|by right|lia].
    + apply Hstep; [lia|by left|lia].
  - apply Hstep; [lia|by left|]. by intros [_ ?].
Qed.

(** The characters of a name. *)
Lemma host_text ls : ls <> [] -> Forall label_ok ls -> exists t, host_name ls = t ++ [0] /\ ~ In 0 t /\ zlen (encoded ls) = zlen t + 2.
Proof using Type.
  intros Hne HF. induction ls as [|l ls IH]; [done|]. apply Forall_cons in HF as [[Hl Hc] HF].
  assert (~ In 0 l) as H0l by (intros Hin; rewrite Forall_forall in Hc; by destruct (Hc 0 (proj2 (list_elem_of_In _ _) Hin))).
  rewrite host_name_cons. destruct ls as [|l2 ls].
  - exists l. split; [done|]. split; [done|]. unfold encoded. rewrite labels_cons. cbn [labels map concat]. zl. lia.
  - destruct (IH ltac:(done) HF) as (t & Et & Hn & Hz). exists (l ++ 46 :: t). rewrite Et, <- app_assoc. split; [done|]. split.
    + rewrite in_app_iff. by intros [?|[?|?]].
    + unfold encoded in *. rewrite labels_cons. zl. lia.
Qed.
Lemma strlen_text t k : ~ In 0 t -> strlen (t ++ 0 :: k) = Ok (zlen t).
Proof using Type.
  induction t as [|c t IH]; intros Hn; [done|]. cbn [app strlen]. rewrite (proj2 (Z.eqb_neq c 0)) by (intros ->; apply Hn; by left).
  rewrite IH by (intros ?; apply Hn; by right). cbn [rbind]. by rewrite zlen_cons.
Qed.
(** The name is copied over the old one. *)
Lemma name_stored buf t : zlen t + 1 <= zlen buf -> (let! b := mcopy buf 0 t in mwrite b (zlen t) 0) = Ok ((t ++ [0]) ++ drop (S (length t)) buf).
Proof using Type.
  intros Hz. pose proof (zlen_nonneg t). unfold mcopy. rewrite (proj2 (Z.leb_le 0 0)), (proj2 (Z.leb_le _ (zlen buf))) by lia. cbn [andb rbind]. change (Z.to_nat 0) with O. rewrite take_0. cbn [app Nat.add].
  destruct (drop (length t) buf) as [|x r] eqn:Ed.
  { apply (f_equal length) in Ed. rewrite length_drop in Ed. unfold zlen in *. cbn in Ed. lia. }
  rewrite mwrite_seam, <- app_assoc. cbn [app]. do 3 f_equal. replace (S (length t)) with (length t + 1)%nat by lia. by rewrite <- drop_drop, Ed.
Qed.

(** The query of the name [ls] at the place [i]. *)
Definition query_at (d : dns K) (i : Z) (ls : list (list Z)) (found : option K) (arg seqno : Z) e : Prop :=
  dns_table d !! Z.to_nat i = Some e /\ waiting e /\ (exists junk, ent_name e = host_name ls ++ junk) /\ ent_found e = found /\ ent_arg e = arg /\
  ent_seqno e = seqno /\ (ticks_left d e = 7 \/ ticks_left d e = 14).

Lemma enqueue_at s i e ls k found arg : steady s -> 0 <= i < DNS_TABLE_SIZE -> dns_table (dns_of s) !! Z.to_nat i = Some e ->
  ls <> [] -> Forall label_ok ls -> bytes (encoded ls) -> zlen (encoded ls) <= DNS_MAX_NAME_LENGTH ->
  exists s' e', (let! n := strlen (host_name ls ++ k) in
      let namelen := Z.min n (DNS_MAX_NAME_LENGTH - 1) in
      let! x := mslice (host_name ls ++ k) 0 namelen in
      let! buf := mcopy (ent_name e) 0 x in
      let! buf := mwrite buf namelen 0 in
      let e := DnsEntry DNS_STATE_NEW (ent_numdns e) (ent_tmr e) (ent_retries e) (dns_seqno (dns_of s)) (ent_err e) (ent_ttl e) buf (ent_ipaddr e) found arg in
      let d := put_dns_entry (dns_of s) i e in
      let s := set_dns s (Dns (dns_pcb d) (u8 (dns_seqno d + 1)) (dns_table d) (dns_servers d) (dns_payload d)) in
      let! s := dns_check_entry output call s i in
      Ok (ERR_INPROGRESS, s)) = Ok (ERR_INPROGRESS, s') /\ steady s' /\ beside i s s' /\
    query_at (dns_of s') i ls found arg (dns_seqno (dns_of s)) e' /\ dns_seqno (dns_of s') = u8 (dns_seqno (dns_of s) + 1).
Proof using Type*.
  intros [Hw HF] Hi Ee Hne HL Hb Hz. destruct (host_text ls Hne HL) as (t & Et & Hn0 & Hzt). destruct (entry_known s i Hw Hi) as (e0 & _ & Ee0 & (Hzn & _ & _)).
  assert (e0 = e) as -> by congruence. change DNS_MAX_NAME_LENGTH with 256 in *. rewrite Et, <- app_assoc. cbn [app]. rewrite strlen_text by done. cbn [rbind].
  rewrite Z.min_l by lia. rewrite mslice_prefix. cbn [rbind]. pose proof (name_stored (ent_name e) t ltac:(lia)) as En.
  destruct (mcopy (ent_name e) 0 t) as [b|]; [|done]. cbn [rbind] in En |- *. rewrite En. cbn [rbind]. set (buf := (t ++ [0]) ++ _).
  set (e1 := DnsEntry DNS_STATE_NEW _ _ _ _ _ _ buf _ _ _).
  assert (asked_name buf) as Hasked by (exists ls, (drop (S (length t)) (ent_name e)); rewrite Et; by split).
  assert (zlen buf = 256) as Hzb by (unfold buf, zlen in *; rewrite !length_app, length_drop; cbn [length]; lia).
  assert (entry_ok e1) as Hok1 by (split; [done|split; [apply Hw|done]]).
  set (s1 := set_dns s _). assert (wired s1) as Hw1.
  { destruct (put_known s i e e1 Hw Ee Hok1). split; try done. apply u8_range. }
  assert (dns_table (dns_of s1) !! Z.to_nat i = Some e1) as Ee1 by (cbn; apply list_lookup_insert_eq; by eapply lookup_lt_Some).
  unfold dns_check_entry. unfold dns_entry_at. rewrite (proj2 (Z.leb_le 0 i)), Ee1 by lia. cbn [of_option rbind]. change (ent_state e1 =? DNS_STATE_NEW) with true. cbv iota.
  rewrite (upd_known s1 i e1) by (done || lia). cbn [rbind]. set (e2 := set_asking (set_state e1 DNS_STATE_ASKING) 0 1 0).
  assert (waiting e2) as Hwt by (split; [done|split; [done|by intros _]]). assert (entry_ok e2) as Hok2 by (split; [done|split; [apply Hw|done]]).
  destruct (send_entry s1 i e1 e2 0 Hw1 Hi Ee1 Hok2) as (s' & -> & Hw' & Ed'); [done|exact Hasked|]. cbn [rbind]. exists s', e2. split; [done|].
  split; [split; [done|rewrite Ed'; cbn; rewrite list_insert_insert_eq; apply Forall_insert; [done|apply Hwt]]|].
  assert (dns_table (dns_of s') = <[Z.to_nat i := e2]> (dns_table (dns_of s))) as Etab by (rewrite Ed'; cbn; by rewrite list_insert_insert_eq).
  split; [|split; [|by rewrite Ed']].
  - unfold beside. rewrite Etab, Ed'. split; [done|]. split; [done|]. intros j x Hj Hx _. by rewrite list_lookup_insert_ne.
  - split; [rewrite Etab; apply list_lookup_insert_eq; by eapply lookup_lt_Some|]. split; [done|].
    split; [exists (drop (S (length t)) (ent_name e)); by rewrite Et|]. split; [done|]. split; [done|]. split; [done|].
    unfold ticks_left. cbn [ent_tmr ent_retries e2 set_asking Z.eqb]. destruct (another _ _); [by right|by left].
Qed.

(** The completed entry that is given up for a new query. *)
Definition oldest_at (d : dns K) (i : Z) : Prop :=
  exists e, completed_at d i e /\ forall j e', 0 <= j < DNS_TABLE_SIZE -> completed_at d j e' -> age d e' <= Z.max 0 (age d e).
Definition first_unused (d : dns K) (i : Z) : Prop := unused_at d i /\ forall j, 0 <= j < i -> ~ unused_at d j.
Definition none_unused (d : dns K) : Prop := forall j, 0 <= j < DNS_TABLE_SIZE -> ~ unused_at d j.

Lemma enqueue_ok s ls k found arg : steady s -> ls <> [] -> Forall label_ok ls -> bytes (encoded ls) -> zlen (encoded ls) <= DNS_MAX_NAME_LENGTH ->
  let d := dns_of s in let name := host_name ls ++ k in
  (exists i s' e, 0 <= i < DNS_TABLE_SIZE /\ (first_unused d i \/ none_unused d /\ oldest_at d i) /\
    dns_enqueue output call s name found arg = Ok (ERR_INPROGRESS, s') /\ steady s' /\ beside i s s' /\
    query_at (dns_of s') i ls found arg (dns_seqno d) e /\ dns_seqno (dns_of s') = u8 (dns_seqno d + 1)) \/
  (none_unused d /\ (forall j e, 0 <= j < DNS_TABLE_SIZE -> completed_at d j e -> age d e <= 0)) /\
    dns_enqueue output call s name found arg = Ok (ERR_MEM, s).
Proof using Type*.
  intros Hst Hne HL Hb Hz d name. pose proof Hst as [Hw HF]. destruct (w_table _ Hw) as [Hzt HT]. fold d in Hzt, HT.
  destruct (unused_loop_ok 4 d 0 0 0) as (o & k0 & E & Ho); [lia|unfold zlen, DNS_TABLE_SIZE in Hzt; lia|lia| |].
  { intros j e [Ej _]. destruct (Forall_lookup_1 _ _ _ _ HT Ej) as (_ & Hs & _). pose proof (w_seqno _ Hw) as Hq. fold d in Hq. unfold age, is_byte in *. lia. }
  unfold dns_enqueue. fold d. change (Z.to_nat DNS_TABLE_SIZE) with 4%nat. rewrite E. cbn [rbind]. change (0 + Z.of_nat 4) with DNS_TABLE_SIZE in Ho.
  destruct o as [i|].
  - cbn [rbind]. destruct Ho as (Hi & Hu & Hmin). destruct (entry_known s i Hw Hi) as (e & Eat & Ee & _). fold d in Eat, Ee. rewrite Eat. cbn [rbind].
    destruct (enqueue_at s i e ls k found arg Hst Hi Ee Hne HL Hb Hz) as (s' & e' & Eq & H1 & H2 & H3 & H4). fold d in Eq, H3, H4. left.
    exists i, s', e'. split; [done|]. split; [left; by split|]. split; [exact Eq|]. by split.
  - destruct Ho as (Hnu & best & Hb0 & Hk & Hmax).
    assert (0 <= k0 < DNS_TABLE_SIZE) as Hkr by (destruct Hk as [[_ ->]|[? _]]; [by split|done]).
    destruct (entry_known s k0 Hw Hkr) as (e & Eat & Ee & _). fold d in Eat, Ee. rewrite Eat. cbn [rbind]. destruct (Z.eqb_spec (ent_state e) DNS_STATE_DONE) as [Hd|Hd]; cbn [rbind].
    + rewrite Eat. cbn [rbind]. destruct (enqueue_at s k0 e ls k found arg Hst Hkr Ee Hne HL Hb Hz) as (s' & e' & Eq & H1 & H2 & H3 & H4). fold d in Eq, H3, H4. left.
      exists k0, s', e'. split; [done|]. split; [right; split; [exact Hnu|]|split; [exact Eq|by split]]. exists e. split; [done|]. intros j x Hj Hc. specialize (Hmax j x Hj Hc).
      destruct Hk as [[-> _]|(_ & e2 & [E2 _] & Ha)]; [lia|]. assert (e2 = e) as -> by congruence. lia.
    + right. split; [split; [exact Hnu|]|done]. intros j x Hj Hc. specialize (Hmax j x Hj Hc). destruct Hk as [[-> _]|(_ & e2 & [E2 Hd2] & _)]; [done|congruence].
Qed.

(** C32: a new query.  A name with labels that is no address in dots takes the
    first unused entry of the table, or without one the completed entry of the
    greatest age above zero, and waits for an answer there, with seven or
    fourteen ticks of the timer left; no other query that waits is disturbed.
    When no entry is unused and no completed one has an age above zero it fails
    with [ERR_MEM] and changes nothing.  The age is the one the code computes,
    the counter of queries less the number of the entry, which is not taken
    modulo 256: after the counter has wrapped, older entries have ages below
    zero, so that the entry taken need not be the oldest and there may be none
    to take, see [wrapped_is_full]. *)
Theorem dns_gethostbyname_asks s ls k found arg : steady s -> ls <> [] -> Forall label_ok ls -> bytes (encoded ls) -> zlen (encoded ls) <= DNS_MAX_NAME_LENGTH ->
  let d := dns_of s in let name := host_name ls ++ k in
  ipaddr_addr name = Ok IPADDR_NONE ->
  (exists i s' e, 0 <= i < DNS_TABLE_SIZE /\ (first_unused d i \/ none_unused d /\ oldest_at d i) /\
    dns_gethostbyname output call s name found arg = Ok (ERR_INPROGRESS, None, s') /\ steady s' /\ beside i s s' /\
    query_at (dns_of s') i ls found arg (dns_seqno d) e /\ dns_seqno (dns_of s') = u8 (dns_seqno d + 1)) \/
  (none_unused d /\ (forall j e, 0 <= j < DNS_TABLE_SIZE -> completed_at d j e -> age d e <= 0)) /\
    dns_gethostbyname output call s name found arg = Ok (ERR_MEM, None, s).
Proof using Type*.
  intros Hst Hne HL Hb Hz d name Hip. pose proof (enqueue_ok s ls k found arg Hst Hne HL Hb Hz) as Hq. fold name d in Hq.
  assert (dns_gethostbyname output call s name found arg = (let! (err, s) := dns_enqueue output call s name found arg in Ok (err, None, s))) as ->.
  { unfold dns_gethostbyname. destruct (w_pcb _ (proj1 Hst)) as (c & Ec & _), (w_udp _ (proj1 Hst)) as (ul & Hok). fold d in Ec.
    fold d. rewrite (proj2 (Z.eqb_neq (dns_pcb d) 0)) by by destruct (ok_member _ _ _ _ Hok Ec).
    destruct (host_text ls Hne HL) as (t & Et & Hn & Hzt). assert (name = t ++ 0 :: k) as En by (unfold name; by rewrite Et, <- app_assoc).
    destruct t as [|c0 t]; [change (zlen (@nil Z)) with 0 in Hzt; pose proof (zlen_encoded ls); destruct ls as [|l ls]; [done|]; apply Forall_cons in HL as [[? _] _]; rewrite zlen_labels in *; pose proof (zlen_nonneg (labels ls)); lia|].
    assert (mread name 0 = Ok c0) as -> by (by rewrite En). cbn [rbind]. rewrite (proj2 (Z.eqb_neq c0 0)) by (intros ->; apply Hn; by left).
    rewrite En, strlen_text, <- En by done. cbn [rbind]. rewrite (proj2 (Z.leb_gt DNS_MAX_NAME_LENGTH _)) by lia. rewrite Hip. done. }
  destruct Hq as [(i & s' & e & Hi & Hc & -> & H1)|[H1 ->]]; [left; exists i, s', e; by split|by right].
Qed.
End table.

(** ** Examples *)

(** A resolver with one completed name, one query and two unused entries. *)
Definition named (state : Z) (ls : list (list Z)) : dns_table_entry Z :=
  DnsEntry state 0 1 0 9 0 0 (host_name ls ++ replicate (256 - length (host_name ls)) 0) 0 (Some 7) 8.
Definition asking_dns : dns Z :=
  Dns 100 3 [named DNS_STATE_DONE example_com; named DNS_STATE_ASKING example_com; named DNS_STATE_UNUSED []; named DNS_STATE_UNUSED []]
    [address_of 10 0 0 7; 0] (replicate 512 0).
Definition asking_net : net (stack (raws Z) (udps Z * (dns Z * list (list Z)))) :=
  Net some_entries 0 (Store empty empty) (Stack two_ifs two_tcps no_ip (Raws 0 empty) (three_udps, (asking_dns, no_log))).

Lemma asking_steady : steady asking_net.
Proof.
  assert (bytes (encoded example_com) /\ pcb_wide server) as [Hb Hp] by (repeat split; by apply (bool_decide_unpack _)). split; [split|].
  - intros a [x Hx]. discriminate Hx.
  - by apply (bool_decide_unpack _).
  - exists [200; 100]. exact three_udps_ok.
  - exists server. split; [reflexivity|]. by repeat split; try apply Hp.
  - split; [reflexivity|]. repeat constructor; try (by apply (bool_decide_unpack _)).
  - exists [2; 1]. split; [exact two_ifs_list|]. right. by eexists.
  - by apply (bool_decide_unpack _).
  - by apply (bool_decide_unpack _).
  - split; [reflexivity|]. repeat constructor; try (by apply (bool_decide_unpack _)); try (intros [?|?]; discriminate).
    exists example_com, (replicate 245 0). split; [reflexivity|]. split; [apply example_ok|]. split; [apply example_ok|]. split; [done|]. vm_compute. congruence.
  - repeat (apply List.Forall_cons; [split; [discriminate|intros Ea; try discriminate Ea; repeat split; vm_compute; congruence]|]). apply List.Forall_nil.
Qed.
Lemma quiet_law : forall (f : Z) name ip arg (s : net (stack (raws Z) (udps Z * (dns Z * list (list Z))))), wired s ->
  exists s', quiet f name ip arg s = Ok s' /\ wired s' /\ keeps s s'.
Proof. intros f name ip arg s Hw. exists s. split; [done|]. split; [done|]. split; try done. by right. Qed.
Lemma take_law : forall (s : net (stack (raws Z) (udps Z * (dns Z * list (list Z))))) netif p dest l, backed (mem s) -> is_chain (mem s) p l ->
  exists err s', take_query s netif p dest = Ok (err, s') /\
  backed (mem s') /\ is_chain (mem s') p l /\ dns_of s' = dns_of s /\ blocks_of s' = blocks_of s /\ ifs (env s') = ifs (env s) /\ ipv (env s') = ipv (env s).
Proof. intros s netif p dest l Hb Hc. by exists ERR_OK, s. Qed.

Lemma dns_query_ends_witness : exists s', ticks take_query quiet 7 asking_net = Ok s' /\ steady s'.
Proof.
  destruct (dns_query_ends take_query quiet take_law quiet_law asking_net 1 (named DNS_STATE_ASKING example_com) asking_steady ltac:(split; done) eq_refl)
    as (n & s0 & s1 & s2 & s3 & s' & e0 & e1 & _ & Hn & _ & _ & _ & _ & _ & _ & _ & _ & Ht & Hst).
  - split; [reflexivity|]. split; [discriminate|]. intros _. repeat split; vm_compute; congruence.
  - change (ticks_left _ _) with 7 in Hn. replace 7%nat with (S n) by lia. exists s'. split; [exact Ht|exact Hst].
Defined.

Lemma dns_gethostbyname_asks_witness : exists s' e, dns_gethostbyname take_query quiet asking_net (host_name [[97; 98]; [99]]) (Some 1) 2 = Ok (ERR_INPROGRESS, None, s') /\
  steady s' /\ query_at (dns_of s') 2 [[97; 98]; [99]] (Some 1) 2 3 e.
Proof.
  assert (Forall label_ok [[97; 98]; [99]]) as H1 by (repeat constructor; try (vm_compute; congruence); lia).
  assert (bytes (encoded [[97; 98]; [99]])) as H2 by (by apply (bool_decide_unpack _)).
  destruct (dns_gethostbyname_asks take_query quiet take_law quiet_law asking_net [[97; 98]; [99]] [] (Some 1) 2 asking_steady ltac:(discriminate) H1 H2 ltac:(vm_compute; congruence) eq_refl)
    as [(i & s' & e & Hi & Hc & E & Hst & _ & Hq & _)|[[Hno _] _]].
  - assert (i = 2) as ->; [|exists s', e; rewrite app_nil_r in E; split; [exact E|split; [exact Hst|exact Hq]]].
    destruct Hc as [[(e' & E' & Hu) Hmin]|[Hno _]].
    + clear E Hq Hst. change DNS_TABLE_SIZE with 4 in Hi. assert (i = 0 \/ i = 1 \/ i = 2 \/ i = 3) as [-> | [-> | [-> | ->]]] by lia.
      * cbn in E'. injection E' as <-. discriminate Hu.
      * cbn in E'. injection E' as <-. discriminate Hu.
      * reflexivity.
      * destruct (Hmin 2); [lia|]. exists (named DNS_STATE_UNUSED []). split; reflexivity.
    + destruct (Hno 2); [split; vm_compute; congruence|]. exists (named DNS_STATE_UNUSED []). split; reflexivity.
  - destruct (Hno 2); [split; vm_compute; congruence|]. exists (named DNS_STATE_UNUSED []). split; reflexivity.
Defined.

(** Once the sequence number has wrapped the completed entries are no longer
    older than a new one, and none of them is given up. *)
Definition wrapped_dns : dns Z :=
  Dns 100 2 (named DNS_STATE_ASKING example_com :: replicate 3 (named DNS_STATE_DONE example_com)) [address_of 10 0 0 7; 0] (replicate 512 0).
Example wrapped_is_full : unused_loop 4 wrapped_dns 0 0 0 = Ok (None, 0) /\ age wrapped_dns (named DNS_STATE_DONE example_com) = -7.
Proof. split; vm_compute; reflexivity. Qed.
