(* ===== verification/Igmp.v ===== *)
(** * IGMP: [lwip/core/ipv4/igmp.c] and [include/lwip/igmp.h].

    The groups the interfaces have joined, the reports about them with their
    timers, and the queries and reports of others.  The groups are a list of
    cells; where they are in the rest of the stack is an interface, [Groups],
    so that the other protocols need not know.  [rand], the MAC filters of the
    drivers and the allocator are parameters. *)
From S2P Require Import Prelude Cobs Uart Comm Message Pbuf InetChksum IpHdr IpAddr Linked RawPcb Etharp Netif Ip.
From stdpp Require Import list gmap.
#[local] Open Scope Z_scope.

Definition IGMP_TTL : Z := 1.
Definition IGMP_MINLEN : Z := 8.
Definition ROUTER_ALERT : Z := 0x9404.
Definition ROUTER_ALERTLEN : Z := 4.
Definition IGMP_MEMB_QUERY : Z := 0x11.
Definition IGMP_V2_MEMB_REPORT : Z := 0x16.
Definition IGMP_LEAVE_GROUP : Z := 0x17.
Definition IGMP_GROUP_NON_MEMBER : Z := 0.
Definition IGMP_GROUP_DELAYING_MEMBER : Z := 1.
Definition IGMP_GROUP_IDLE_MEMBER : Z := 2.
Definition IGMP_TMR_INTERVAL : Z := 100.
Definition IGMP_V1_DELAYING_MEMBER_TMR : Z := 1000 / IGMP_TMR_INTERVAL.
Definition IGMP_JOIN_DELAYING_MEMBER_TMR : Z := 500 / IGMP_TMR_INTERVAL.
Definition IGMP_DEL_MAC_FILTER : Z := 0.
Definition IGMP_ADD_MAC_FILTER : Z := 1.

(** [struct igmp_group]; 0 is a NULL [next]. *)
Record igmp_group := IgmpGroup {
  grp_next : Z; grp_netif : Z; group_address : Z; last_reporter_flag : Z; group_state : Z; grp_timer : Z; grp_use : Z
}.
Implicit Type g : igmp_group.
Definition set_grp_next g x := IgmpGroup x (grp_netif g) (group_address g) (last_reporter_flag g) (group_state g) (grp_timer g) (grp_use g).
Definition set_reporter g x := IgmpGroup (grp_next g) (grp_netif g) (group_address g) x (group_state g) (grp_timer g) (grp_use g).
Definition set_group_state g x := IgmpGroup (grp_next g) (grp_netif g) (group_address g) (last_reporter_flag g) x (grp_timer g) (grp_use g).
Definition set_grp_timer g x := IgmpGroup (grp_next g) (grp_netif g) (group_address g) (last_reporter_flag g) (group_state g) x (grp_use g).
Definition set_grp_use g x := IgmpGroup (grp_next g) (grp_netif g) (group_address g) (last_reporter_flag g) (group_state g) (grp_timer g) x.

(** The static variables, and the groups in memory. *)
Record igmp := Igmp { igmp_group_list : Z; group_mem : gmap Z igmp_group; allsystems : Z; allrouters : Z }.
Implicit Type v : igmp.
Definition set_groups v (head : Z) (m : gmap Z igmp_group) : igmp := Igmp head m (allsystems v) (allrouters v).

(** The part of a state that holds them. *)
Class Groups (Y : Type) := { groups_of : Y -> igmp; with_groups : Y -> igmp -> Y }.
Class GroupsLaws (Y : Type) `{Groups Y} : Prop := {
  groups_with : forall (y : Y) v, groups_of (with_groups y v) = v;
  with_with : forall (y : Y) v v', with_groups (with_groups y v) v' = with_groups y v';
  with_same : forall y : Y, with_groups y (groups_of y) = y
}.
#[export] Instance groups_here {X} : Groups (igmp * X) := {| groups_of y := y.1; with_groups y v := (v, y.2) |}.
#[export] Instance groups_there {A Y} `{Groups Y} : Groups (A * Y) | 10 :=
  {| groups_of y := groups_of y.2; with_groups y v := (y.1, with_groups y.2 v) |}.

(** [IP4_ADDR]. *)
Definition IP4_ADDR (a b c d : Z) : Z :=
  Z.lor (Z.lor (Z.lor (Z.shiftl (Z.land d 0xff) 24) (Z.shiftl (Z.land c 0xff) 16)) (Z.shiftl (Z.land b 0xff) 8)) (Z.land a 0xff).
Definition igmp_init v : igmp := Igmp (igmp_group_list v) (group_mem v) (IP4_ADDR 224 0 0 1) (IP4_ADDR 224 0 0 2).

(** ** The list *)

(** The search of [igmp_lookfor_group]: 0 is NULL. *)
Fixpoint lookfor_loop (fuel : nat) (m : gmap Z igmp_group) (a ifp addr : Z) : result Z :=
  match fuel with
  | O => Fault OutOfFuel
  | S fuel =>
      if a =? 0 then Ok 0
      else
        let! g := cell m a in
        if (grp_netif g =? ifp) && (group_address g =? addr) then Ok a else lookfor_loop fuel m (grp_next g) ifp addr
  end.
Definition igmp_lookfor_group v (ifp addr : Z) : result Z := lookfor_loop (list_fuel (group_mem v)) (group_mem v) (igmp_group_list v) ifp addr.

(** The search of [igmp_remove_group] for the group in front; whether there
    is one. *)
Fixpoint remove_loop (fuel : nat) (m : gmap Z igmp_group) (a group : Z) : result (bool * gmap Z igmp_group) :=
  match fuel with
  | O => Fault OutOfFuel
  | S fuel =>
      if a =? 0 then Ok (false, m)
      else
        let! g := cell m a in
        if grp_next g =? group then
          let! h := cell m group in Ok (true, <[a := set_grp_next g (grp_next h)]> m)
        else remove_loop fuel m (grp_next g) group
  end.
Definition igmp_remove_group v (group : Z) : result (Z * igmp) :=
  let! (err, v) :=
    (if igmp_group_list v =? group then let! g := cell (group_mem v) group in Ok (ERR_OK, set_groups v (grp_next g) (group_mem v))
     else
       let! (found, m) := remove_loop (list_fuel (group_mem v)) (group_mem v) (igmp_group_list v) group in
       Ok (if (found : bool) then ERR_OK else ERR_ARG, set_groups v (igmp_group_list v) m)) in
  Ok (err, set_groups v (igmp_group_list v) (delete group (group_mem v))).

Section igmp.
Context `{Os} {F Y : Type} `{Groups Y}.
Abbreviation state := (net (stack (raws F) Y)).
Implicit Type s : state.

(** [netif->output], [memp_malloc(MEMP_IGMP_GROUP)], [rand], and the function
    [netif->igmp_mac_filter] points to, for an interface, an address and an
    action. *)
Context (output : state -> Z -> Z -> Z -> result (Z * state)) (memp_malloc : gmap Z igmp_group -> option Z)
        (rand : Y -> Z * Y) (mac_filter : Z -> Z -> Z -> Z -> Y -> Y).

Definition igmp_of s : igmp := groups_of (rest (env s)).
Definition set_rest s (y : Y) : state := set_env s (Stack (ifs (env s)) (tcps (env s)) (ipv (env s)) (raw_blocks (env s)) y).
Definition set_igmp s v : state := set_rest s (with_groups (rest (env s)) v).

Definition group_at s (a : Z) : result igmp_group := cell (group_mem (igmp_of s)) a.
Definition upd_group s (a : Z) (f : igmp_group -> igmp_group) : result state :=
  let! g := group_at s a in
  Ok (set_igmp s (set_groups (igmp_of s) (igmp_group_list (igmp_of s)) (<[a := f g]> (group_mem (igmp_of s))))).

(** The address of the group, 0 for NULL. *)
Definition igmp_lookup_group s (ifp addr : Z) : result (Z * state) :=
  let v := igmp_of s in
  let! a := igmp_lookfor_group v ifp addr in
  if negb (a =? 0) then Ok (a, s)
  else
    match memp_malloc (group_mem v) with
    | None => Ok (0, s)
    | Some a => Ok (a, set_igmp s (set_groups v a (<[a := IgmpGroup (igmp_group_list v) ifp addr 0 IGMP_GROUP_NON_MEMBER 0 0]> (group_mem v))))
    end.

(** The MAC filter of the interface, if it has one. *)
Definition filter_mac s (netif addr action : Z) : result state :=
  let! n := nif_at s netif in
  Ok (if negb (nif_igmp_mac_filter n =? 0) then set_rest s (mac_filter (nif_igmp_mac_filter n) netif addr action (rest (env s))) else s).

(** ** Timers *)

(** [LWIP_RAND() % (max_time - 1)] divides by zero for a time of one. *)
Definition igmp_start_timer s (group max_time : Z) : result state :=
  let max_time := if max_time =? 0 then 1 else max_time in
  let '(r, y) := rand (rest (env s)) in
  if max_time - 1 =? 0 then Fault DivByZero
  else upd_group (set_rest s y) group (fun g => set_grp_timer g (u16 (Z.rem r (max_time - 1) + 1))).
Definition igmp_stop_timer s (group : Z) : result state := upd_group s group (fun g => set_grp_timer g 0).

Definition igmp_delaying_member s (group maxresp : Z) : result state :=
  let! g := group_at s group in
  if (group_state g =? IGMP_GROUP_IDLE_MEMBER) ||
     ((group_state g =? IGMP_GROUP_DELAYING_MEMBER) && ((grp_timer g =? 0) || (maxresp <? grp_timer g))) then
    let! s := igmp_start_timer s group maxresp in
    upd_group s group (fun g => set_group_state g IGMP_GROUP_DELAYING_MEMBER)
  else Ok s.

(** ** Sending *)

Definition igmp_ip_output_if s (p src dest netif : Z) : result (Z * state) :=
  ip_output_if_opt output s p src (Some dest) IGMP_TTL 0 IP_PROTO_IGMP netif (bytes_u16 (htons ROUTER_ALERT) ++ bytes_u16 0x0000).

(** The message of [igmp_send] at [msg]. *)
Definition put_msg (m : store) (msg : Z * Z) (type : Z) : result store :=
  let! m := save m msg 0 [type] in
  let! m := save m msg 1 [0] in
  let! m := save m msg 2 (bytes_u16 0) in
  let! d := load m msg 0 IGMP_MINLEN in
  save m msg 2 (bytes_u16 (inet_chksum (Z.odd msg.2) d)).

Definition igmp_send s (group type : Z) : result state :=
  let! (p, m) := pbuf_alloc (mem s) PBUF_TRANSPORT IGMP_MINLEN PBUF_RAM in
  let s := set_mem s m in
  if p =? 0 then Ok s
  else
    let! c := deref (mem s) p in
    let msg := payload c in
    let! g := group_at s group in
    let! n := nif_at s (grp_netif g) in
    let src := nif_ip_addr n in
    let! (dest, s) :=
      (if type =? IGMP_V2_MEMB_REPORT then
         let! m := save (mem s) msg 4 (u32_bytes (group_address g)) in
         let! s := upd_group (set_mem s m) group (fun g => set_reporter g 1) in
         Ok (group_address g, s)
       else if type =? IGMP_LEAVE_GROUP then
         let! m := save (mem s) msg 4 (u32_bytes (group_address g)) in Ok (allrouters (igmp_of s), set_mem s m)
       else Ok (0, s)) in
    let! s :=
      (if (type =? IGMP_V2_MEMB_REPORT) || (type =? IGMP_LEAVE_GROUP) then
         let! m := put_msg (mem s) msg type in
         let! (_, s) := igmp_ip_output_if (set_mem s m) p src dest (grp_netif g) in Ok s
       else Ok s) in
    free_packet s p.

Definition igmp_timeout s (group : Z) : result state :=
  let! g := group_at s group in
  if group_state g =? IGMP_GROUP_DELAYING_MEMBER then igmp_send s group IGMP_V2_MEMB_REPORT else Ok s.

(** One round of the timer for a group. *)
Definition tick_group s (group : Z) : result state :=
  let! g := group_at s group in
  if 0 <? grp_timer g then
    let! s := upd_group s group (fun g => set_grp_timer g (grp_timer g - 1)) in
    if grp_timer g - 1 =? 0 then igmp_timeout s group else Ok s
  else Ok s.

(** A loop over the list from [a] on, which does [f] to each group. *)
Fixpoint groups_loop (f : state -> Z -> result state) (fuel : nat) s (a : Z) : result state :=
  match fuel with
  | O => Fault OutOfFuel
  | S fuel =>
      if a =? 0 then Ok s
      else
        let! s := f s a in
        let! g := group_at s a in
        groups_loop f fuel s (grp_next g)
  end.
Definition each_group (f : state -> Z -> result state) s : result state :=
  groups_loop f (list_fuel (group_mem (igmp_of s))) s (igmp_group_list (igmp_of s)).

Definition igmp_tmr s : result state := each_group tick_group s.

(** ** Interfaces *)

Definition igmp_start s (netif : Z) : result (Z * state) :=
  let! (group, s) := igmp_lookup_group s netif (allsystems (igmp_of s)) in
  if negb (group =? 0) then
    let! s := upd_group s group (fun g => set_group_state g IGMP_GROUP_IDLE_MEMBER) in
    let! s := upd_group s group (fun g => set_grp_use g (u8 (grp_use g + 1))) in
    let! s := filter_mac s netif (allsystems (igmp_of s)) IGMP_ADD_MAC_FILTER in
    Ok (ERR_OK, s)
  else Ok (ERR_MEM, s).

(** The loop of [igmp_stop] with the group in front, 0 for NULL. *)
Fixpoint stop_loop (fuel : nat) s (a prev netif : Z) : result state :=
  match fuel with
  | O => Fault OutOfFuel
  | S fuel =>
      if a =? 0 then Ok s
      else
        let! g := group_at s a in
        let next := grp_next g in
        if grp_netif g =? netif then
          let v := igmp_of s in
          let s := (if a =? igmp_group_list v then set_igmp s (set_groups v next (group_mem v)) else s) in
          let! s := (if negb (prev =? 0) then upd_group s prev (fun g => set_grp_next g next) else Ok s) in
          let! g := group_at s a in
          let! s := filter_mac s netif (group_address g) IGMP_DEL_MAC_FILTER in
          let v := igmp_of s in
          stop_loop fuel (set_igmp s (set_groups v (igmp_group_list v) (delete a (group_mem v)))) next prev netif
        else stop_loop fuel s next a netif
  end.
(** Returns [ERR_OK] always. *)
Definition igmp_stop s (netif : Z) : result state :=
  stop_loop (list_fuel (group_mem (igmp_of s))) s (igmp_group_list (igmp_of s)) 0 netif.

Definition igmp_report_groups s (netif : Z) : result state :=
  each_group (fun s a => let! g := group_at s a in
    if grp_netif g =? netif then igmp_delaying_member s a IGMP_JOIN_DELAYING_MEMBER_TMR else Ok s) s.

(** ** Joining and leaving *)

(** The interface takes part: 0 is [IP_ADDR_ANY] and NULL. *)
Definition concerned n (ifaddr : Z) : bool :=
  has_flag (nif_flags n) NETIF_FLAG_IGMP && ((ifaddr =? IPADDR_ANY) || (nif_ip_addr n =? ifaddr)).

(** A group one interface joins. *)
Definition join_one s (netif groupaddr group : Z) : result state :=
  let! g := group_at s group in
  let! s :=
    (if negb (group_state g =? IGMP_GROUP_NON_MEMBER) then Ok s
     else
       let! s := (if grp_use g =? 0 then filter_mac s netif groupaddr IGMP_ADD_MAC_FILTER else Ok s) in
       let! s := igmp_send s group IGMP_V2_MEMB_REPORT in
       let! s := igmp_start_timer s group IGMP_JOIN_DELAYING_MEMBER_TMR in
       upd_group s group (fun g => set_group_state g IGMP_GROUP_DELAYING_MEMBER)) in
  upd_group s group (fun g => set_grp_use g (u8 (grp_use g + 1))).

Fixpoint join_loop (fuel : nat) s (netif ifaddr groupaddr err : Z) : result (Z * state) :=
  match fuel with
  | O => Fault OutOfFuel
  | S fuel =>
      if netif =? 0 then Ok (err, s)
      else
        let! n := nif_at s netif in
        if concerned n ifaddr then
          let! (group, s) := igmp_lookup_group s netif groupaddr in
          if group =? 0 then Ok (ERR_MEM, s)
          else
            let! s := join_one s netif groupaddr group in
            let! n := nif_at s netif in
            join_loop fuel s (nif_next n) ifaddr groupaddr ERR_OK
        else join_loop fuel s (nif_next n) ifaddr groupaddr err
  end.
Definition igmp_joingroup s (ifaddr groupaddr : Z) : result (Z * state) :=
  if negb (ip_addr_ismulticast groupaddr) then Ok (ERR_VAL, s)
  else if groupaddr =? allsystems (igmp_of s) then Ok (ERR_VAL, s)
  else join_loop (list_fuel (nifs (ifs (env s)))) s (netif_list (ifs (env s))) ifaddr groupaddr ERR_VAL.

(** A group one interface leaves. *)
Definition leave_one s (netif groupaddr group : Z) : result state :=
  let! g := group_at s group in
  if grp_use g <=? 1 then
    let! s := (if negb (last_reporter_flag g =? 0) then igmp_send s group IGMP_LEAVE_GROUP else Ok s) in
    let! s := filter_mac s netif groupaddr IGMP_DEL_MAC_FILTER in
    let! (_, v) := igmp_remove_group (igmp_of s) group in
    Ok (set_igmp s v)
  else upd_group s group (fun g => set_grp_use g (grp_use g - 1)).

Fixpoint leave_loop (fuel : nat) s (netif ifaddr groupaddr err : Z) : result (Z * state) :=
  match fuel with
  | O => Fault OutOfFuel
  | S fuel =>
      if netif =? 0 then Ok (err, s)
      else
        let! n := nif_at s netif in
        if concerned n ifaddr then
          let! group := igmp_lookfor_group (igmp_of s) netif groupaddr in
          let! (err, s) := (if negb (group =? 0) then let! s := leave_one s netif groupaddr group in Ok (ERR_OK, s) else Ok (err, s)) in
          let! n := nif_at s netif in
          leave_loop fuel s (nif_next n) ifaddr groupaddr err
        else leave_loop fuel s (nif_next n) ifaddr groupaddr err
  end.
Definition igmp_leavegroup s (ifaddr groupaddr : Z) : result (Z * state) :=
  if negb (ip_addr_ismulticast groupaddr) then Ok (ERR_VAL, s)
  else if groupaddr =? allsystems (igmp_of s) then Ok (ERR_VAL, s)
  else leave_loop (list_fuel (nifs (ifs (env s)))) s (netif_list (ifs (env s))) ifaddr groupaddr ERR_VAL.

(** ** Receiving *)

(** A query, for the message at [msg] and the group of its destination. *)
Definition input_query s (inp dest group : Z) (msg : Z * Z) : result state :=
  let! addr := hdr_u32 (mem s) msg 4 in
  if (dest =? allsystems (igmp_of s)) && (addr =? IPADDR_ANY) then
    let! maxresp := hdr_u8 (mem s) msg 1 in
    let! m := (if maxresp =? 0 then save (mem s) msg 1 [IGMP_V1_DELAYING_MEMBER_TMR] else Ok (mem s)) in
    each_group (fun s a =>
      let! g := group_at s a in
      if (grp_netif g =? inp) && negb (group_address g =? allsystems (igmp_of s)) then
        let! maxresp := hdr_u8 (mem s) msg 1 in igmp_delaying_member s a maxresp
      else Ok s) (set_mem s m)
  else if negb (addr =? IPADDR_ANY) then
    let! group := (if dest =? allsystems (igmp_of s) then igmp_lookfor_group (igmp_of s) inp addr else Ok group) in
    if negb (group =? 0) then let! maxresp := hdr_u8 (mem s) msg 1 in igmp_delaying_member s group maxresp
    else Ok s
  else Ok s.

(** A report of somebody else for the group. *)
Definition input_report s (group : Z) : result state :=
  let! g := group_at s group in
  if group_state g =? IGMP_GROUP_DELAYING_MEMBER then
    upd_group s group (fun g => set_reporter (set_group_state (set_grp_timer g 0) IGMP_GROUP_IDLE_MEMBER) 0)
  else Ok s.

Definition igmp_input s (p inp dest : Z) : result state :=
  let! c := deref (mem s) p in
  let! w := hdr_u16 (mem s) (payload c) 0 in
  let! (fail, m) := pbuf_header (mem s) p (- (IPH_HL w * 4)) in
  let s := set_mem s m in
  let! c := deref m p in
  if negb (fail =? 0) || (len c <? IGMP_MINLEN) then free_packet s p
  else
    let msg := payload c in
    let! d := load m msg 0 (len c) in
    if negb (inet_chksum (Z.odd msg.2) d =? 0) then free_packet s p
    else
      let! group := igmp_lookfor_group (igmp_of s) inp dest in
      if group =? 0 then free_packet s p
      else
        let! type := hdr_u8 m msg 0 in
        let! s := (if type =? IGMP_MEMB_QUERY then input_query s inp dest group msg
                   else if type =? IGMP_V2_MEMB_REPORT then input_report s group
                   else Ok s) in
        free_packet s p.
End igmp.
