(* ===== verification/IgmpGroups.v ===== *)
(** * Groups of IGMP: theorems about [lwip/core/ipv4/igmp.c].

    The list of groups as a list of addresses and groups without links, its
    search and removal, and the invariant of the state. *)
From S2P Require Import Prelude Cobs Uart Comm Message Pbuf PbufChain PbufCopy PbufTrim InetChksum IpHdr IpAddr.
From S2P Require Import Linked RawPcb Etharp EtharpTable EtharpPackets Netif Ip IpOutput IpInput Icmp IcmpEcho Udp UdpPorts UdpInput UdpOutput.
From S2P Require Import Dns DnsNames DnsRecv DnsSend DnsTable Igmp.
From stdpp Require Import list gmap.
#[local] Open Scope Z_scope.

(** ** The list *)

Implicit Types (g : igmp_group) (v : igmp) (gs : list (Z * igmp_group)).

(** A group but for its link. *)
Definition loose g : igmp_group := set_grp_next g 0.
Lemma loose_loose g : loose (loose g) = loose g.
Proof. done. Qed.
(** The groups [gs] are those of the list, in its order. *)
Record listed v gs : Prop := {
  l_linked : linked grp_next (group_mem v) (igmp_group_list v) (map fst gs);
  l_groups : Forall (fun e => loose <$> group_mem v !! e.1 = Some e.2) gs
}.

Lemma listed_at v gs a g : listed v gs -> In (a, g) gs -> a <> 0 /\ exists g', group_mem v !! a = Some g' /\ loose g' = g.
Proof.
  intros [Hl HF] Hin. rewrite List.Forall_forall in HF. specialize (HF _ Hin). cbn in HF. apply fmap_Some in HF as (g' & Eg & ->).
  split; [|by exists g']. apply (lseg_in _ _ _ _ _ a Hl). by apply (in_map fst) in Hin.
Qed.
Lemma listed_nodup v gs : listed v gs -> NoDup (map fst gs).
Proof. intros [Hl _]. by eapply linked_nodup. Qed.
Lemma listed_split v gs a g g' : listed v gs -> In (a, g) gs -> In (a, g') gs -> g = g'.
Proof. intros Hl H1 H2. destruct (listed_at _ _ _ _ Hl H1) as (_ & x & Ex & <-). destruct (listed_at _ _ _ _ Hl H2) as (_ & y & Ey & <-). congruence. Qed.

(** What does not look at the links. *)
Class Unlinked (f : igmp_group -> igmp_group) : Prop := { unlinked_next : forall g, grp_next (f g) = grp_next g; unlinked_loose : forall g, loose (f g) = f (loose g);
  unlinked_key : forall g, grp_netif (f g) = grp_netif g /\ group_address (f g) = group_address g }.
#[export] Instance unlinked_timer t : Unlinked (fun g => set_grp_timer g t). Proof. done. Qed.
#[export] Instance unlinked_state x : Unlinked (fun g => set_group_state g x). Proof. done. Qed.
#[export] Instance unlinked_use (h : Z -> Z) : Unlinked (fun g => set_grp_use g (h (grp_use g))). Proof. done. Qed.
#[export] Instance unlinked_reporter x : Unlinked (fun g => set_reporter g x). Proof. done. Qed.
#[export] Instance unlinked_tick : Unlinked (fun g => set_grp_timer g (grp_timer g - 1)). Proof. done. Qed.
#[export] Instance unlinked_idle : Unlinked (fun g => set_reporter (set_group_state (set_grp_timer g 0) IGMP_GROUP_IDLE_MEMBER) 0). Proof. done. Qed.

Lemma listed_upd v gs1 a g gs2 f g' : Unlinked f -> listed v (gs1 ++ (a, g) :: gs2) -> group_mem v !! a = Some g' ->
  listed (set_groups v (igmp_group_list v) (<[a := f g']> (group_mem v))) (gs1 ++ (a, f g) :: gs2).
Proof.
  intros [Hn Hf _] Hl Eg. pose proof (listed_nodup _ _ Hl) as Hnd. destruct Hl as [Hl HF]. split; cbn [group_mem igmp_group_list set_groups].
  - rewrite map_app in *. cbn [map fst] in *. apply (lseg_links _ (group_mem v)); [|done]. intros x c Hx Ex.
    destruct (decide (x = a)) as [->|Hne]; [|rewrite lookup_insert_ne by done; by exists c]. rewrite lookup_insert_eq. eexists. split; [done|].
    assert (c = g') as -> by congruence. apply Hn.
  - rewrite map_app in Hnd. cbn [map fst] in Hnd. apply NoDup_app in Hnd as (_ & Hd & [Hn2 _]%NoDup_cons). apply Forall_app in HF as [HF1 HF2]. apply Forall_cons in HF2 as [Ha HF2].
    assert (forall l, ~ In a (map fst l) -> Forall (fun e => loose <$> group_mem v !! e.1 = Some e.2) l ->
      Forall (fun e => loose <$> <[a:=f g']> (group_mem v) !! e.1 = Some e.2) l) as Hs.
    { intros l Hni. rewrite !List.Forall_forall. intros HFl e He. rewrite lookup_insert_ne; [by apply HFl|]. intros ->. apply Hni. by apply in_map. }
    apply Forall_app. split; [|apply Forall_cons; split].
    + apply Hs; [|done]. intros Hin. apply (Hd a); [by rewrite list_elem_of_In|by apply list_elem_of_here].
    + cbn [fst snd]. rewrite lookup_insert_eq. cbn. rewrite Hf. cbn [fst snd] in Ha. rewrite Eg in Ha. cbn in Ha. by injection Ha as ->.
    + apply Hs; [|done]. by rewrite <- list_elem_of_In.
Qed.

Lemma listed_add v gs a g : listed v gs -> a <> 0 -> group_mem v !! a = None -> grp_next g = igmp_group_list v ->
  listed (set_groups v a (<[a := g]> (group_mem v))) ((a, loose g) :: gs).
Proof.
  intros [Hl HF] Ha En Eg. assert (~ In a (map fst gs)) as Hni.
  { intros Hin. destruct (lseg_in _ _ _ _ _ a Hl Hin) as [_ [x Ex]]. congruence. }
  split; cbn [group_mem igmp_group_list set_groups map fst].
  - split; [done|]. split; [done|]. exists g. rewrite lookup_insert_eq, Eg. split; [done|]. by apply lseg_store.
  - apply Forall_cons. split; [cbn [fst snd]; by rewrite lookup_insert_eq|]. rewrite List.Forall_forall in HF |- *. intros e He. rewrite lookup_insert_ne; [by apply HF|].
    intros ->. by apply Hni, in_map.
Qed.

(** The group of an interface and an address. *)
Definition has_key (ifp addr : Z) (e : Z * igmp_group) : bool := (grp_netif e.2 =? ifp) && (group_address e.2 =? addr).
Definition group_of gs (ifp addr : Z) : option (Z * igmp_group) := List.find (has_key ifp addr) gs.
Definition key (e : Z * igmp_group) : Z * Z := (grp_netif e.2, group_address e.2).

Lemma lookfor_loop_ok ifp addr gs : forall fuel m a, lseg grp_next m a (map fst gs) 0 -> Forall (fun e => loose <$> m !! e.1 = Some e.2) gs -> (length gs < fuel)%nat ->
  lookfor_loop fuel m a ifp addr = Ok (default 0 (fst <$> group_of gs ifp addr)).
Proof.
  induction gs as [|[b g] gs IH]; intros fuel m a Hl HF Hf; (destruct fuel as [|fuel]; [cbn in Hf; lia|]); cbn [lookfor_loop map fst] in *.
  - by rewrite Hl.
  - destruct Hl as (-> & Hb & g' & Eg & Hl). apply Forall_cons in HF as [Hg HF]. cbn [fst snd] in Hg. rewrite Eg in Hg. injection Hg as <-.
    rewrite (proj2 (Z.eqb_neq b 0)), (cell_ok m b g') by done. cbn [rbind]. unfold group_of. cbn [List.find]. unfold has_key at 1. cbn [snd loose set_grp_next grp_netif group_address].
    destruct (_ && _); [done|]. apply IH; [done|done|cbn in Hf; lia].
Qed.
Lemma lookfor_ok v gs ifp addr : listed v gs -> igmp_lookfor_group v ifp addr = Ok (default 0 (fst <$> group_of gs ifp addr)).
Proof.
  intros [Hl HF]. unfold igmp_lookfor_group. apply lookfor_loop_ok; [done|done|]. pose proof (list_fuel_enough _ _ _ _ Hl) as Hf. by rewrite length_map in Hf.
Qed.
Lemma group_of_some gs ifp addr e : group_of gs ifp addr = Some e -> exists gs1 gs2, gs = gs1 ++ e :: gs2 /\ key e = (ifp, addr).
Proof.
  intros E. apply find_some in E as [Hin Hk]. apply in_split in Hin as (gs1 & gs2 & ->). exists gs1, gs2. split; [done|].
  unfold has_key in Hk. unfold key. apply andb_true_iff in Hk as [?%Z.eqb_eq ?%Z.eqb_eq]. by f_equal.
Qed.
Lemma group_of_none gs ifp addr e : group_of gs ifp addr = None -> In e gs -> key e <> (ifp, addr).
Proof.
  intros E Hin Hk. apply (find_none _ _ E) in Hin. unfold has_key in Hin. unfold key in Hk. injection Hk as <- <-. by rewrite !Z.eqb_refl in Hin.
Qed.
(** With one group for each key the search finds the group of the key. *)
Lemma group_of_key gs e : NoDup (map key gs) -> In e gs -> group_of gs (key e).1 (key e).2 = Some e.
Proof.
  intros Hnd Hin. destruct (group_of gs (key e).1 (key e).2) as [e'|] eqn:E; [|by destruct (group_of_none _ _ _ e E Hin (surjective_pairing _))].
  destruct (group_of_some _ _ _ _ E) as (gs1 & gs2 & -> & Hk). rewrite <- surjective_pairing in Hk. f_equal.
  rewrite map_app in Hnd. apply NoDup_app in Hnd as (_ & Hd & Hnd). cbn [map] in Hnd, Hd. apply NoDup_cons in Hnd as [Hn _]. rewrite list_elem_of_In in Hn.
  rewrite in_app_iff in Hin. destruct Hin as [Hin|[<-|Hin]]; [|done|].
  - destruct (Hd (key e)); [rewrite list_elem_of_In; by apply in_map|]. rewrite <- Hk. apply list_elem_of_here.
  - destruct Hn. rewrite Hk. by apply in_map.
Qed.

(** Taking a group out. *)
Lemma remove_loop_ok m p gs1 : forall fuel a b gb gp l2, lseg grp_next m a (map fst gs1 ++ b :: p :: l2) 0 -> m !! b = Some gb -> m !! p = Some gp ->
  ~ In p (map fst gs1) -> (length gs1 + 1 < fuel)%nat -> remove_loop fuel m a p = Ok (true, <[b := set_grp_next gb (grp_next gp)]> m).
Proof.
  induction gs1 as [|[x g] gs1 IH]; intros fuel a b gb gp l2 Hl Eb Ep Hn Hf; (destruct fuel as [|fuel]; [cbn in Hf; lia|]); cbn [remove_loop map fst app In] in *.
  - destruct Hl as (-> & Hb & g & Eg & (En & Hp & _)). assert (g = gb) as -> by congruence. rewrite (proj2 (Z.eqb_neq b 0)), (cell_ok m b gb) by done. cbn [rbind].
    rewrite En, Z.eqb_refl, (cell_ok m p gp) by done. done.
  - destruct Hl as (-> & Hx & g' & Eg & Hl). rewrite (proj2 (Z.eqb_neq x 0)), (cell_ok m x g') by done. cbn [rbind].
    rewrite (proj2 (Z.eqb_neq (grp_next g') p)); [apply (IH fuel _ b gb gp l2); [done|done|done|tauto|cbn in Hf; lia]|].
    intros Hnx. rewrite Hnx in Hl. destruct gs1 as [|[y gy] gs1]; cbn [map fst app] in *.
    + pose proof (linked_nodup _ _ _ _ Hl) as Hnd. destruct Hl as (-> & _). apply NoDup_cons in Hnd as [Hnd _]. apply Hnd, list_elem_of_here.
    + destruct Hl as (-> & _). cbn [In] in Hn. tauto.
Qed.

(** The list after a group is given back. *)
Lemma listed_delete v gs head m a : linked grp_next m head (map fst gs) -> ~ In a (map fst gs) ->
  (forall e, In e gs -> loose <$> m !! e.1 = Some e.2) -> listed (set_groups v head (delete a m)) gs.
Proof.
  intros Hl Hn HF. assert (forall x, In x (map fst gs) -> delete a m !! x = m !! x) as Hs by (intros x Hx; apply lookup_delete_ne; by intros ->).
  split; cbn [group_mem igmp_group_list set_groups].
  - by apply (lseg_frame _ m).
  - rewrite List.Forall_forall. intros e He. rewrite Hs by by apply in_map. by apply HF.
Qed.
Lemma listed_head v a g gs g' : listed v ((a, g) :: gs) -> group_mem v !! a = Some g' -> listed (set_groups v (grp_next g') (delete a (group_mem v))) gs.
Proof.
  intros Hv Eg. pose proof (listed_nodup _ _ Hv) as Hnd. cbn [map fst] in Hnd. apply NoDup_cons in Hnd as [Hn _]. rewrite list_elem_of_In in Hn.
  destruct Hv as [(_ & _ & c & Ec & Hl) HF]. cbn [fst] in Ec, Hl. assert (c = g') as -> by congruence. apply listed_delete; [done|done|].
  rewrite List.Forall_forall in HF. intros e He. apply HF. by right.
Qed.
Lemma listed_mid v gs1 b gb a g gs2 cb g' : listed v (gs1 ++ (b, gb) :: (a, g) :: gs2) -> group_mem v !! b = Some cb -> group_mem v !! a = Some g' ->
  listed (set_groups v (igmp_group_list v) (delete a (<[b := set_grp_next cb (grp_next g')]> (group_mem v)))) (gs1 ++ (b, gb) :: gs2).
Proof.
  intros Hv Eb Eg. pose proof (listed_nodup _ _ Hv) as Hnd. destruct Hv as [Hl HF]. rewrite map_app in Hl, Hnd. cbn [map fst] in Hl, Hnd.
  rewrite List.Forall_forall in HF. apply (listed_delete v _ _ (<[b := set_grp_next cb (grp_next g')]> (group_mem v))).
  - rewrite map_app. cbn [map fst]. by apply (skip_link grp_next _ _ (map fst gs1) b cb a g').
  - rewrite map_app, in_app_iff. cbn [map fst In]. apply NoDup_app in Hnd as (_ & Hd & [Hb [Ha _]%NoDup_cons]%NoDup_cons). rewrite list_elem_of_In in Ha, Hb. cbn in Hb.
    intros [Hin|[->|Hin]]; [|tauto|done]. apply (Hd a); [by rewrite list_elem_of_In|]. apply list_elem_of_further, list_elem_of_here.
  - intros e He. destruct (decide (e.1 = b)) as [Eb'|Hne].
    + rewrite Eb', lookup_insert_eq. cbn. rewrite <- (HF e); [by rewrite Eb', Eb|]. rewrite in_app_iff in He |- *. cbn in *. tauto.
    + rewrite lookup_insert_ne by done. apply HF. rewrite in_app_iff in He |- *. cbn in *. tauto.
Qed.

Lemma remove_group_ok v gs1 a g gs2 : listed v (gs1 ++ (a, g) :: gs2) -> exists v', igmp_remove_group v a = Ok (ERR_OK, v') /\ listed v' (gs1 ++ gs2) /\
  allsystems v' = allsystems v /\ allrouters v' = allrouters v.
Proof.
  intros Hv. pose proof (listed_nodup _ _ Hv) as Hnd. destruct (listed_at v _ a g Hv) as (Ha & g' & Eg & _); [apply in_elt|].
  unfold igmp_remove_group. destruct gs1 as [|[b gb] gs1 _] using rev_ind.
  - pose proof Hv as [(-> & _) _]. rewrite Z.eqb_refl, (cell_ok _ _ g') by done. cbn [rbind]. eexists. split; [reflexivity|]. split; [|done]. by apply (listed_head v _ g).
  - rewrite <- app_assoc in Hv |- *. cbn [app] in Hv |- *. destruct (listed_at v _ b gb Hv) as (Hb & cb & Eb & _); [apply in_elt|].
    pose proof (l_linked _ _ Hv) as Hl. rewrite map_app in Hl. cbn [map fst] in Hl. pose proof (linked_nodup _ _ _ _ Hl) as Hnd'.
    apply NoDup_app in Hnd' as (_ & Hd & [Hba _]%NoDup_cons). rewrite list_elem_of_In in Hba. cbn in Hba.
    assert (~ In a (map fst gs1)) as Hn1.
    { intros Hin. apply (Hd a); [by rewrite list_elem_of_In|]. apply list_elem_of_further, list_elem_of_here. }
    rewrite (proj2 (Z.eqb_neq _ a)).
    2:{ intros He. unfold linked in Hl. rewrite He in Hl. destruct gs1 as [|[x gx] gs1]; cbn in Hl, Hn1; destruct Hl as (-> & _); tauto. }
    rewrite (remove_loop_ok (group_mem v) a gs1 _ _ b cb g' _ Hl Eb Eg Hn1).
    2:{ pose proof (list_fuel_enough _ _ _ _ Hl) as Hf. rewrite length_app, length_map in Hf. cbn in Hf. lia. }
    cbn [rbind]. eexists. split; [reflexivity|]. split; [|done]. by apply (listed_mid v gs1 b gb a g gs2).
Qed.

(** ** The state *)
Section world.
Context `{OsLaws} {F Y : Type} `{GY : Groups Y} `{!GroupsLaws Y}.
Abbreviation state := (net (stack (raws F) Y)).
Implicit Type s : state.
Context (output : state -> Z -> Z -> Z -> result (Z * state)) (memp_malloc : gmap Z igmp_group -> option Z)
        (rand : Y -> Z * Y) (mac_filter : Z -> Z -> Z -> Z -> Y -> Y).

(** What is outside leaves the groups alone; interfaces take packets, which
    they do not own. *)
Record outside : Prop := {
  o_output : forall s netif p dest l, backed (mem s) -> is_chain (mem s) p l -> exists err s', output s netif p dest = Ok (err, s') /\
    backed (mem s') /\ is_chain (mem s') p l /\ igmp_of s' = igmp_of s /\ ifs (env s') = ifs (env s) /\ ipv (env s') = ipv (env s);
  o_malloc : forall m a, memp_malloc m = Some a -> a <> 0 /\ m !! a = None;
  o_rand : forall y, groups_of (rand y).2 = groups_of y /\ 0 <= (rand y).1;
  o_filter : forall f netif addr action y, groups_of (mac_filter f netif addr action y) = groups_of y
}.

(** The invariant: the groups are listed, one for each interface and address,
    their interfaces exist, and the rest of the state is sound. *)
Record sound s gs : Prop := {
  s_listed : listed (igmp_of s) gs;
  s_keys : NoDup (map key gs);
  s_known : Forall (fun e => (key e).1 <> 0 /\ is_Some (nifs (ifs (env s)) !! (key e).1) /\ is_u32 (key e).2) gs;
  s_systems : allsystems (igmp_of s) = IP4_ADDR 224 0 0 1 /\ allrouters (igmp_of s) = IP4_ADDR 224 0 0 2;
  s_backed : backed (mem s);
  s_number : is_u16 (ip_id (ipv (env s)));
  s_wide : forall a n, nifs (ifs (env s)) !! a = Some n -> is_u32 (nif_ip_addr n)
}.
(** Another state with the groups [gs]. *)
Definition turns s gs s' : Prop := sound s' gs /\ ifs (env s') = ifs (env s).

Lemma igmp_of_set s v : igmp_of (set_igmp s v) = v.
Proof using GroupsLaws0. apply groups_with. Qed.
Lemma sound_keys s gs gs' s' : sound s gs -> map key gs' = map key gs -> listed (igmp_of s') gs' ->
  allsystems (igmp_of s') = allsystems (igmp_of s) -> allrouters (igmp_of s') = allrouters (igmp_of s) ->
  backed (mem s') -> ifs (env s') = ifs (env s) -> is_u16 (ip_id (ipv (env s'))) -> turns s gs' s'.
Proof using Type.
  intros [_ Hk Hn [H1 H2] _ _ Hw] Ek Hl E1 E2 Hb Ei Hi. split; [|done]. constructor; try done; rewrite ?Ek, ?E1, ?E2, ?Ei; try done.
  assert (forall l, Forall (fun e => (key e).1 <> 0 /\ is_Some (nifs (ifs (env s)) !! (key e).1) /\ is_u32 (key e).2) l <->
    Forall (fun k => k.1 <> 0 /\ is_Some (nifs (ifs (env s)) !! k.1) /\ is_u32 k.2) (map key l)) as E by (intros l; by rewrite List.Forall_map).
  apply E. rewrite Ek. by apply E.
Qed.
Lemma turns_trans s gs s1 gs1 s2 : turns s gs s1 -> turns s1 gs1 s2 -> turns s gs1 s2.
Proof using Type. intros [_ E1] [Hs E2]. split; [done|congruence]. Qed.
Lemma turns_refl s gs : sound s gs -> turns s gs s.
Proof using Type. done. Qed.

Lemma group_at_ok s gs1 a g gs2 : sound s (gs1 ++ (a, g) :: gs2) -> exists g', group_at s a = Ok g' /\ loose g' = g.
Proof using Type.
  intros Hs. destruct (listed_at _ _ a g (s_listed _ _ Hs)) as (Ha & g' & Eg & El); [apply in_elt|]. exists g'. split; [|done]. by apply cell_ok.
Qed.
Lemma upd_ok s gs1 a g gs2 f : Unlinked f -> sound s (gs1 ++ (a, g) :: gs2) ->
  exists v', upd_group s a f = Ok (set_igmp s v') /\ turns s (gs1 ++ (a, f g) :: gs2) (set_igmp s v') /\ listed v' (gs1 ++ (a, f g) :: gs2) /\
    allsystems v' = allsystems (igmp_of s) /\ allrouters v' = allrouters (igmp_of s).
Proof using GroupsLaws0.
  intros Hf Hs. destruct (listed_at _ _ a g (s_listed _ _ Hs)) as (Ha & g' & Eg & <-); [apply in_elt|]. unfold upd_group, group_at. rewrite (cell_ok _ a g') by done. cbn [rbind].
  eexists. split; [reflexivity|]. pose proof (listed_upd _ _ _ _ _ f g' Hf (s_listed _ _ Hs) Eg) as Hl. split; [|by split; [exact Hl|]].
  apply (sound_keys s (gs1 ++ (a, loose g') :: gs2)); rewrite ?igmp_of_set; try done; [|apply Hs|apply Hs].
  rewrite !map_app. cbn [map]. unfold key. cbn [snd]. destruct (unlinked_key (loose g')) as [-> ->]. done.
Qed.
Lemma upd_turns s gs1 a g gs2 f : Unlinked f -> sound s (gs1 ++ (a, g) :: gs2) -> wp never (upd_group s a f) (turns s (gs1 ++ (a, f g) :: gs2)).
Proof using GroupsLaws0. intros Hf Hs. destruct (upd_ok _ _ _ _ _ f Hf Hs) as (v' & -> & Ht & _). exact Ht. Qed.
End world.
