(* ===== verification/IgmpSend.v ===== *)
(** * Messages of IGMP: theorems about [igmp_send] of
    [lwip/core/ipv4/igmp.c]. *)
From S2P Require Import Prelude Cobs Uart Comm Message Pbuf PbufChain PbufCopy PbufTrim InetChksum IpHdr IpAddr.
From S2P Require Import Linked RawPcb Etharp EtharpTable EtharpPackets Netif Ip IpOutput IpInput Icmp IcmpEcho Udp UdpPorts UdpInput UdpOutput.
From S2P Require Import Dns DnsNames DnsRecv DnsSend DnsTable Igmp IgmpGroups.
From stdpp Require Import list gmap.
#[local] Open Scope Z_scope.
#[local] Transparent bytes_u16.

(** The eight bytes of a message. *)
Definition igmp_bytes (type sum addr : Z) : list Z := [type; 0] ++ [sum mod 256; sum / 256] ++ u32_bytes addr.
Definition igmp_sum (type addr : Z) : Z := inet_chksum false (igmp_bytes type 0 addr).
Definition igmp_message (type addr : Z) : list Z := igmp_bytes type (igmp_sum type addr) addr.
(** The router alert option. *)
Definition router_alert : list Z := [148; 4; 0; 0].

Lemma igmp_bytes_ok type addr : is_byte type -> bytes (igmp_bytes type 0 addr).
Proof. intros Ht. unfold igmp_bytes. repeat (apply bytes_app; split); [|by repeat constructor|apply u32_bytes_ok]. constructor; [done|]. by repeat constructor. Qed.
Lemma igmp_verifies type addr : is_byte type -> inet_chksum false (igmp_message type addr) = 0.
Proof.
  intros Ht. unfold igmp_message, igmp_bytes, igmp_sum. apply inet_chksum_verifies; [|apply u32_bytes_ok|reflexivity|done].
  constructor; [done|]. by repeat constructor.
Qed.

Section send.
Context `{OsLaws} {F Y : Type} `{GY : Groups Y} `{!GroupsLaws Y}.
Abbreviation state := (net (stack (raws F) Y)).
Implicit Types (s : state) (g : igmp_group) (v : igmp) (gs : list (Z * igmp_group)).

Lemma put_msg_ok m p c n type addr x : sendable m p [] c n -> is_byte type -> zlen x = 4 -> data_of m p = x ++ u32_bytes addr ->
  exists m', put_msg m (payload c) type = Ok m' /\ sendable m' p [] c n /\ data_of m' p = igmp_message type addr /\ untouched m m' [p] /\ cells m' = cells m.
Proof using Type.
  intros Hs Ht Hx Hd. pose proof (sendable_cell _ _ _ _ _ Hs) as (_ & _ & _ & _ & Hlen & _). rewrite Hd, zlen_app, Hx in Hlen. change (zlen (u32_bytes addr)) with 4 in Hlen.
  assert (put_msg m (payload c) type = let! m := put_fields m (payload c) [(0, [type]); (1, [0]); (2, bytes_u16 0)] in
    let! d := load m (payload c) 0 IGMP_MINLEN in save m (payload c) 2 (bytes_u16 (inet_chksum (Z.odd (payload c).2) d))) as ->.
  { unfold put_msg. cbn [put_fields]. destruct (save m (payload c) 0 [type]) as [m1|]; [|done]. cbn [rbind]. destruct (save m1 (payload c) 1 [0]) as [m2|]; [|done]. cbn [rbind].
    by destruct (save m2 (payload c) 2 (bytes_u16 0)). }
  destruct (sendable_fields [(0, [type]); (1, [0]); (2, bytes_u16 0)] m p [] c n Hs) as (m1 & -> & Hs1 & Hd1 & _ & Hc1 & U1).
  { repeat (apply List.Forall_cons; [cbn [fst snd]; change (zlen [type]) with 1; change (zlen [0]) with 1; change (zlen (bytes_u16 0)) with 2; split; [lia|split; [lia|]]|]);
      [by constructor|by repeat constructor|apply bytes_u16_bytes|constructor]. }
  cbn [rbind]. assert (data_of m1 p = igmp_bytes type 0 addr) as Hd1'.
  { rewrite Hd1, Hd. destruct x as [|x0 [|x1 [|x2 [|x3 [|]]]]]; try (unfold zlen in Hx; cbn in Hx; lia). reflexivity. }
  pose proof (sendable_cell _ _ _ _ _ Hs1) as (_ & _ & Hok1 & Hcd1 & _ & _).
  rewrite (load_ok m1 c) by (done || (change IGMP_MINLEN with 8; lia)). cbn [rbind]. rewrite Hcd1, Hd1'.
  change (take (Z.to_nat IGMP_MINLEN) (drop (Z.to_nat 0) (igmp_bytes type 0 addr))) with (igmp_bytes type 0 addr).
  rewrite chksum_any by (by apply igmp_bytes_ok || done). fold (igmp_sum type addr).
  destruct (sendable_save m1 p [] c n 2 (bytes_u16 (igmp_sum type addr)) Hs1) as (m2 & -> & Hs2 & Hd2 & _ & Hc2 & U2);
    [lia|change (zlen (bytes_u16 (igmp_sum type addr))) with 2; lia|apply bytes_u16_bytes|].
  exists m2. split; [done|]. split; [done|]. split; [|split; [by eapply untouched_trans|congruence]].
  rewrite Hd2, Hd1'. assert (is_u16 (igmp_sum type addr)) as Hu by (unfold is_u16, igmp_sum, inet_chksum, u16; apply Z.mod_pos_bound; done).
  unfold igmp_message, igmp_bytes. assert (bytes_u16 (igmp_sum type addr) = [igmp_sum type addr mod 256; igmp_sum type addr / 256]) as ->
    by (unfold bytes_u16; rewrite (Z.mod_small (_ / 256)) by (unfold is_u16 in Hu; Z.div_mod_to_equations; lia); done). reflexivity.
Qed.

Context (output : state -> Z -> Z -> Z -> result (Z * state)).

(** What a message does to its group, and where it goes. *)
Definition reported (type : Z) g : igmp_group := if type =? IGMP_V2_MEMB_REPORT then set_reporter g 1 else g.
Definition msg_dest (type : Z) g : Z := if type =? IGMP_V2_MEMB_REPORT then group_address g else IP4_ADDR 224 0 0 2.

Lemma set_igmp_same s : set_igmp s (igmp_of s) = s.
Proof using GroupsLaws0. destruct s as [? ? ? [? ? ? ? y]]. unfold set_igmp, set_rest, igmp_of, set_env. cbn. by rewrite with_same. Qed.

(** The part of [igmp_send] that depends on the type. *)
Lemma address_stored s m gs1 a g gs2 msg type : sound s (gs1 ++ (a, g) :: gs2) -> type = IGMP_V2_MEMB_REPORT \/ type = IGMP_LEAVE_GROUP ->
  exists v, turns s (gs1 ++ (a, reported type g) :: gs2) (set_igmp s v) /\ forall m', save m msg 4 (u32_bytes (group_address g)) = Ok m' ->
  (if type =? IGMP_V2_MEMB_REPORT then
     let! m' := save (mem (set_mem s m)) msg 4 (u32_bytes (group_address g)) in
     let! s := upd_group (set_mem (set_mem s m) m') a (fun g => set_reporter g 1) in Ok (group_address g, s)
   else if type =? IGMP_LEAVE_GROUP then
     let! m' := save (mem (set_mem s m)) msg 4 (u32_bytes (group_address g)) in Ok (allrouters (igmp_of (set_mem s m)), set_mem (set_mem s m) m')
   else Ok (0, set_mem s m)) = Ok (msg_dest type g, set_mem (set_igmp s v) m').
Proof using GroupsLaws0.
  intros Hs [-> | ->]; unfold reported, msg_dest; cbn [Z.eqb].
  - rewrite Z.eqb_refl. destruct (upd_ok s gs1 a g gs2 (fun g => set_reporter g 1) _ Hs) as (v & E & Ht & _). exists v. split; [done|]. intros m' Em. cbn [mem set_mem]. rewrite Em. cbn [rbind].
    unfold upd_group in E |- *. change (group_at (set_mem (set_mem s m) m') a) with (group_at s a). destruct (group_at s a) as [g0|]; [|done]. cbn [rbind] in E |- *.
    injection E as E. do 2 f_equal. exact (f_equal (fun y => set_mem (set_rest s y) m') E).
  - change (IGMP_LEAVE_GROUP =? IGMP_V2_MEMB_REPORT) with false. cbv iota. rewrite Z.eqb_refl. exists (igmp_of s). rewrite set_igmp_same. split; [done|]. intros m' Em. cbn [mem set_mem]. rewrite Em. cbn [rbind].
    change (allrouters (igmp_of (set_mem s m))) with (allrouters (igmp_of s)). by rewrite (proj2 (s_systems _ _ Hs)).
Qed.

Lemma send_ok s gs1 a g gs2 n type : sound s (gs1 ++ (a, g) :: gs2) -> type = IGMP_V2_MEMB_REPORT \/ type = IGMP_LEAVE_GROUP ->
  nifs (ifs (env s)) !! grp_netif g = Some n ->
  pbuf_alloc (mem s) PBUF_TRANSPORT IGMP_MINLEN PBUF_RAM = Ok (0, mem s) /\ igmp_send output s a type = Ok s \/
  exists p m v chk, cells (mem s) !! p = None /\ untouched (mem s) m [p] /\ packet m p [p] /\ turns s (gs1 ++ (a, reported type g) :: gs2) (set_igmp s v) /\
    let hdr := ip_header IGMP_TTL 0 IP_PROTO_IGMP 32 (ip_id (ipv (env s))) (nif_ip_addr n) (msg_dest type g) chk router_alert in
    contents m [p] = hdr ++ igmp_message type (group_address g) /\ (forall odd, inet_chksum odd hdr = 0) /\
    igmp_send output s a type = (let! (_, s') := output (numbered (set_igmp s v) m) (grp_netif g) p (msg_dest type g) in free_packet s' p).
Proof using Type*.
  intros Hs Hty En. unfold igmp_send. change IGMP_MINLEN with 8.
  destruct (alloc_sendable (mem s) PBUF_TRANSPORT 8 (s_backed _ _ Hs)) as [E|(p & m1 & c & E & Hsd & Hl & Hc0 & _ & U1 & _)]; [done|done|left; split; [exact E|]; rewrite E; cbn [rbind Z.eqb]; by rewrite set_mem_same|].
  right. rewrite E. cbn [rbind]. clear E. destruct (sendable_cell _ _ _ _ _ Hsd) as (Hp & _ & _ & _ & Hlen & _). rewrite Hl in Hlen. rewrite (proj2 (Z.eqb_neq p 0)) by done.
  rewrite (deref_ok _ p c) by (done || apply Hsd). cbn [rbind].
  destruct (group_at_ok s gs1 a g gs2 Hs) as (g' & Eg & Hg). change (group_at (set_mem s m1) a) with (group_at s a). rewrite Eg. cbn [rbind].
  assert (grp_netif g' = grp_netif g /\ group_address g' = group_address g) as [-> ->] by (by rewrite <- Hg).
  pose proof (s_known _ _ Hs) as HF. apply Forall_app in HF as [_ [(Hn0 & _ & Hw) _]%Forall_cons]. unfold key in Hn0, Hw. cbn [fst snd] in Hn0, Hw.
  change (nif_at (set_mem s m1)) with (nif_at s). rewrite (nif_at_ok s _ n) by done. cbn [rbind].
  destruct (sendable_save m1 p [] c _ 4 (u32_bytes (group_address g)) Hsd) as (m2 & E2 & Hs2 & Hd2 & _ & _ & U2);
    [lia|change (zlen (u32_bytes (group_address g))) with 4; lia|apply u32_bytes_ok|].
  assert (zlen (take 4 (data_of m1 p)) = 4 /\ data_of m2 p = take 4 (data_of m1 p) ++ u32_bytes (group_address g)) as [Hx Hd2'].
  { unfold zlen in *. split; [rewrite length_take; lia|]. rewrite Hd2. unfold splice. f_equal.
    rewrite drop_ge by (unfold u32_bytes; cbn [length]; lia). by rewrite app_nil_r. }
  assert (is_byte type /\ is_u32 (msg_dest type g)) as [Htb Hdb] by (unfold msg_dest; destruct Hty as [-> | ->]; done).
  destruct (put_msg_ok m2 p c _ type (group_address g) _ Hs2 Htb Hx Hd2') as (m3 & E3 & Hs3 & Hd3 & U3 & _).
  destruct (address_stored s m1 gs1 a g gs2 (payload c) type Hs Hty) as (v & Ht & Ev). rewrite (Ev m2 E2). cbn [rbind]. clear Ev.
  cbn [mem set_mem]. rewrite E3.
  assert ((type =? IGMP_V2_MEMB_REPORT) || (type =? IGMP_LEAVE_GROUP) = true) as -> by (by destruct Hty as [-> | ->]). cbn [rbind]. unfold igmp_ip_output_if.
  change (bytes_u16 (htons ROUTER_ALERT) ++ bytes_u16 0) with router_alert.
  change (set_mem (set_mem (set_igmp s v) m2) m3) with (set_mem (set_igmp s v) m3).
  destruct (header_written output (set_mem (set_igmp s v) m3) p [] c _ (nif_ip_addr n) (msg_dest type g) IGMP_TTL 0 IP_PROTO_IGMP (grp_netif g) n router_alert Hs3)
    as (m4 & chk & E4 & Hpk & U4 & Hc4 & Hv); try done; [by repeat constructor|apply (s_wide _ _ Hs _ _ En)|apply (s_wide _ _ Hs _ _ En)|apply Hs|].
  rewrite E4. exists p, m4, v, chk. split; [done|]. split.
  { eapply untouched_trans; [exact U1|]. eapply untouched_trans; [exact U2|]. by eapply untouched_trans. }
  split; [done|]. split; [done|]. change (padded router_alert) with router_alert in Hc4, Hv. change (mem (set_mem (set_igmp s v) m3)) with m3 in Hc4, Hv.
  assert (contents m3 [p] = igmp_message type (group_address g)) as E8 by (rewrite contents_cons, Hd3; apply app_nil_r).
  rewrite E8 in Hc4, Hv. cbv zeta in *.
  change (20 + aligned (zlen router_alert) + zlen (igmp_message type (group_address g))) with 32 in Hc4, Hv.
  assert ((if nif_ip_addr n =? IPADDR_ANY then nif_ip_addr n else nif_ip_addr n) = nif_ip_addr n) as Esrc by by destruct (_ =? _). rewrite Esrc in Hc4, Hv.
  split; [exact Hc4|]. split; [exact Hv|]. change (numbered (set_mem (set_igmp s v) m3) m4) with (numbered (set_igmp s v) m4). by destruct (output _ _ _ _) as [[e s']|].
Qed.
End send.
