(* ===== verification/IgmpLife.v ===== *)
(** * The life of groups: theorems about the timers and the delayed reports
    of [lwip/core/ipv4/igmp.c]. *)
From S2P Require Import Prelude Cobs Uart Comm Message Pbuf PbufChain PbufCopy PbufTrim InetChksum IpHdr IpAddr.
From S2P Require Import Linked RawPcb Etharp EtharpTable EtharpPackets Netif Ip IpOutput IpInput Icmp IcmpEcho Udp UdpPorts UdpInput UdpOutput.
From S2P Require Import Dns DnsNames DnsRecv DnsSend DnsTable Igmp IgmpGroups IgmpSend.
From stdpp Require Import list gmap.
#[local] Open Scope Z_scope.

Section life.
Context `{OsLaws} {F Y : Type} `{GY : Groups Y} `{!GroupsLaws Y}.
Abbreviation state := (net (stack (raws F) Y)).
Implicit Types (s : state) (g : igmp_group) (v : igmp) (gs : list (Z * igmp_group)).
Context (output : state -> Z -> Z -> Z -> result (Z * state)) (memp_malloc : gmap Z igmp_group -> option Z)
        (rand : Y -> Z * Y) (mac_filter : Z -> Z -> Z -> Z -> Y -> Y).
Context (Hout : outside output memp_malloc rand mac_filter).

(** ** One group *)
Lemma group_known s gs1 a g gs2 : sound s (gs1 ++ (a, g) :: gs2) -> grp_netif g <> 0 /\ exists n, nifs (ifs (env s)) !! grp_netif g = Some n.
Proof using Type.
  intros Hs. pose proof (s_known _ _ Hs) as HF. apply Forall_app in HF as [_ [(Hn & [n En] & _) _]%Forall_cons]. split; [done|by exists n].
Qed.

(** There is always memory for a message. *)
Definition plenty : Prop := forall m m', pbuf_alloc m PBUF_TRANSPORT IGMP_MINLEN PBUF_RAM <> Ok (0, m').

Lemma send_turns s gs1 a g gs2 type : sound s (gs1 ++ (a, g) :: gs2) -> type = IGMP_V2_MEMB_REPORT \/ type = IGMP_LEAVE_GROUP ->
  wp never (igmp_send output s a type) (fun s' => exists sent : bool, (sent = false -> ~ plenty) /\ turns s (gs1 ++ (a, if sent then reported type g else g) :: gs2) s').
Proof using All.
  intros Hs Hty. destruct (group_known _ _ _ _ _ Hs) as (_ & n & En).
  destruct (send_ok output s gs1 a g gs2 n type Hs Hty En) as [[Hno E]|(p & m & v & chk & _ & U & Hpk & Ht & _ & _ & E)].
  { rewrite E. exists false. split; [|by apply turns_refl]. intros _ Hp. by apply (Hp _ _ Hno). }
  rewrite E. destruct (o_output _ _ _ _ Hout (numbered (set_igmp s v) m) (grp_netif g) p (msg_dest type g) [p]) as (err & s2 & -> & Hb & Hch & Ei & Ef & Ev).
  { apply (proj1 U), (s_backed _ _ Hs). }
  { apply (packet_chain _ _ _ Hpk). }
  cbn [rbind]. destruct (free_packet_any s2 p [p] Hch Hb) as (m2 & -> & Hb2). exists true. split; [done|]. eapply turns_trans; [exact Ht|]. destruct Ht as [Ht _].
  apply (sound_keys (set_igmp s v) _ _ (set_mem s2 m2) Ht); try done.
  - change (igmp_of (set_mem s2 m2)) with (igmp_of s2). rewrite Ei. apply Ht.
  - change (allsystems (igmp_of s2) = allsystems (igmp_of (set_igmp s v))). by rewrite Ei.
  - change (allrouters (igmp_of s2) = allrouters (igmp_of (set_igmp s v))). by rewrite Ei.
  - change (is_u16 (ip_id (ipv (env s2)))). rewrite Ev. apply u16_range.
Qed.

(** Another rest of the state with the same groups. *)
Lemma rest_turns s gs y : sound s gs -> groups_of y = igmp_of s -> turns s gs (set_rest s y).
Proof using Type.
  intros Hs Ey. apply (sound_keys s gs gs (set_rest s y) Hs); try done; try apply Hs; change (igmp_of (set_rest s y)) with (groups_of y); rewrite Ey; try done. apply Hs.
Qed.
Lemma filter_turns s gs netif addr action : sound s gs -> netif <> 0 -> is_Some (nifs (ifs (env s)) !! netif) ->
  wp never (filter_mac mac_filter s netif addr action) (turns s gs).
Proof using Hout.
  intros Hs Hn [n En]. unfold filter_mac. rewrite (nif_at_ok s netif n) by done. cbn [rbind]. destruct (negb _); [|by apply turns_refl].
  apply rest_turns; [done|]. apply (o_filter _ _ _ _ Hout).
Qed.

(** The fault of a timer of no length. *)
Definition too_quick (m : Z) (f : fault) : Prop := f = DivByZero /\ m <= 1.
Lemma start_turns s gs1 a g gs2 m : sound s (gs1 ++ (a, g) :: gs2) -> 0 <= m < 256 ->
  wp (too_quick m) (igmp_start_timer rand s a m) (fun s' => exists t, 1 <= t <= m - 1 /\ mem s' = mem s /\ turns s (gs1 ++ (a, set_grp_timer g t) :: gs2) s').
Proof using GroupsLaws0 Hout.
  intros Hs Hm. unfold igmp_start_timer. set (k := if m =? 0 then 1 else m). destruct (rand (rest (env s))) as [r y] eqn:Er.
  pose proof (o_rand _ _ _ _ Hout (rest (env s))) as [Ey Hr]. rewrite Er in Ey, Hr. cbn [fst snd] in Ey, Hr.
  destruct (Z.eqb_spec (k - 1) 0) as [Hk|Hk]; [split; [done|]; unfold k in Hk; destruct (Z.eqb_spec m 0); lia|].
  assert (k = m /\ 2 <= m) as [-> Hm2] by (unfold k in *; destruct (Z.eqb_spec m 0); lia).
  set (t := u16 (Z.rem r (m - 1) + 1)). assert (1 <= t <= m - 1) as Ht.
  { unfold t. rewrite Z.rem_mod_nonneg by lia. pose proof (Z.mod_pos_bound r (m - 1) ltac:(lia)). rewrite u16_small by (unfold is_u16; lia). lia. }
  destruct (rest_turns s _ y Hs Ey) as [Hs1 E1].
  destruct (upd_ok (set_rest s y) gs1 a g gs2 (fun g => set_grp_timer g t) _ Hs1) as (v' & -> & Hv & _). exists t. split; [done|]. split; [done|]. by eapply turns_trans.
Qed.

(** Whether a query to be answered in the time [m] starts the timer of a
    group, and the group behind it. *)
Definition must_delay (m : Z) g : bool :=
  (group_state g =? IGMP_GROUP_IDLE_MEMBER) || ((group_state g =? IGMP_GROUP_DELAYING_MEMBER) && ((grp_timer g =? 0) || (m <? grp_timer g))).
Definition delayed (m : Z) g g' : Prop :=
  if must_delay m g then exists t, 1 <= t <= m - 1 /\ g' = set_group_state (set_grp_timer g t) IGMP_GROUP_DELAYING_MEMBER else g' = g.

Lemma delaying_turns s gs1 a g gs2 m : sound s (gs1 ++ (a, g) :: gs2) -> 0 <= m < 256 ->
  wp (too_quick m) (igmp_delaying_member rand s a m) (fun s' => exists g', delayed m g g' /\ mem s' = mem s /\ turns s (gs1 ++ (a, g') :: gs2) s').
Proof using GroupsLaws0 Hout.
  intros Hs Hm. unfold igmp_delaying_member. destruct (group_at_ok _ _ _ _ _ Hs) as (g' & -> & Eg). cbn [rbind].
  assert ((group_state g' =? IGMP_GROUP_IDLE_MEMBER) || ((group_state g' =? IGMP_GROUP_DELAYING_MEMBER) && ((grp_timer g' =? 0) || (m <? grp_timer g'))) = must_delay m g) as ->
    by (by rewrite <- Eg). unfold delayed. destruct (must_delay m g); [|by exists g].
  eapply wp_bind; [by apply start_turns|]. intros s1 (t & Ht & Em & Hs1 & Ei). cbn beta.
  destruct (upd_ok s1 gs1 a _ gs2 (fun g => set_group_state g IGMP_GROUP_DELAYING_MEMBER) _ Hs1) as (v' & -> & Hv & _).
  eexists. split; [by exists t|]. split; [done|]. by eapply turns_trans.
Qed.
(** A query with a time of at most one divides by zero. *)
Lemma delaying_faults s gs1 a g gs2 m : sound s (gs1 ++ (a, g) :: gs2) -> 0 <= m <= 1 -> must_delay m g = true -> igmp_delaying_member rand s a m = Fault DivByZero.
Proof using Type.
  intros Hs Hm Hd. unfold igmp_delaying_member. destruct (group_at_ok _ _ _ _ _ Hs) as (g' & -> & Eg). cbn [rbind]. unfold must_delay in Hd. rewrite <- Eg in Hd.
  cbn [loose set_grp_next group_state grp_timer] in Hd. rewrite Hd. unfold igmp_start_timer. destruct (rand _) as [r y].
  assert ((if m =? 0 then 1 else m) = 1) as -> by (destruct (Z.eqb_spec m 0); lia). done.
Qed.

(** ** All groups *)

(** Behind a tick of the timer; a group whose time is over reports, unless
    memory is [short]. *)
Definition counted g : igmp_group := set_grp_timer g (grp_timer g - 1).
Definition ticked (short : Prop) g g' : Prop :=
  if 0 <? grp_timer g then
    g' = counted g /\ (grp_timer g = 1 -> group_state g = IGMP_GROUP_DELAYING_MEMBER -> short) \/ grp_timer g = 1 /\ group_state g = IGMP_GROUP_DELAYING_MEMBER /\ g' = set_reporter (counted g) 1
  else g' = g.

Lemma tick_turns s gs1 a g gs2 : sound s (gs1 ++ (a, g) :: gs2) ->
  wp never (tick_group output s a) (fun s' => exists g', ticked (~ plenty) g g' /\ turns s (gs1 ++ (a, g') :: gs2) s').
Proof using All.
  intros Hs. unfold tick_group. destruct (group_at_ok _ _ _ _ _ Hs) as (g' & -> & Eg). cbn [rbind].
  assert (grp_timer g' = grp_timer g) as -> by by rewrite <- Eg. unfold ticked. destruct (0 <? grp_timer g); [|by exists g].
  destruct (upd_ok s gs1 a g gs2 (fun g => set_grp_timer g (grp_timer g - 1)) _ Hs) as (v' & -> & Ht & _). cbn [rbind]. fold (counted g) in Ht.
  destruct (Z.eqb_spec (grp_timer g - 1) 0) as [Hz|]; [|exists (counted g); split; [left; split; [done|lia]|done]].
  pose proof Ht as [Hs1 _]. unfold igmp_timeout. destruct (group_at_ok _ _ _ _ _ Hs1) as (g1 & -> & Eg1). cbn [rbind].
  assert (group_state g1 = group_state g) as -> by exact (f_equal group_state Eg1).
  destruct (Z.eqb_spec (group_state g) IGMP_GROUP_DELAYING_MEMBER) as [Hst|]; [|exists (counted g); split; [by left|done]].
  eapply wp_weaken; [apply (send_turns _ gs1 a (counted g) gs2 IGMP_V2_MEMB_REPORT); [exact Hs1|by left]|done|]. intros s' (sent & Hsent & Hs2).
  exists (if sent then reported IGMP_V2_MEMB_REPORT (counted g) else counted g). split; [|exact (turns_trans _ _ _ _ _ Ht Hs2)].
  destruct sent; [right; split; [lia|by split]|left; split; [done|by intros _ _; apply Hsent]].
Qed.

(** A step for each group, which keeps [I]. *)
Section each.
Context (f : state -> Z -> result state) (R : igmp_group -> igmp_group -> Prop) (E : fault -> Prop) (I : state -> Prop).
Context (Hf : forall s gs1 a g gs2, sound s (gs1 ++ (a, g) :: gs2) -> I s ->
  wp E (f s a) (fun s' => exists g', R g g' /\ I s' /\ turns s (gs1 ++ (a, g') :: gs2) s')).
Definition changed (e e' : Z * igmp_group) : Prop := e'.1 = e.1 /\ R e.2 e'.2.

Lemma groups_loop_ok gs2 : forall fuel s gs1 p, sound s (gs1 ++ gs2) -> I s -> lseg grp_next (group_mem (igmp_of s)) p (map fst gs2) 0 -> (length gs2 < fuel)%nat ->
  wp E (groups_loop f fuel s p) (fun s' => exists gs2', Forall2 changed gs2 gs2' /\ I s' /\ turns s (gs1 ++ gs2') s').
Proof using Hf.
  induction gs2 as [|[a g] gs2 IH]; intros fuel s gs1 p Hs Hi Hl Hfu; (destruct fuel as [|fuel]; [cbn in Hfu; lia|]); cbn [groups_loop map fst] in *.
  - rewrite Hl. exists []. split; [constructor|]. by split.
  - destruct Hl as (-> & Ha & _). rewrite (proj2 (Z.eqb_neq a 0)) by done. eapply wp_bind; [by apply (Hf s gs1 a g gs2)|].
    intros s1 (g' & Hr & Hi1 & Hs1 & E1). cbn beta. pose proof (l_linked _ _ (s_listed _ _ Hs1)) as Hl1. rewrite map_app in Hl1. cbn [map fst] in Hl1.
    apply lseg_app in Hl1 as (q & _ & (_ & _ & c & Ec & Hl1)). unfold group_at. rewrite (cell_ok _ a c) by done. cbn [rbind].
    eapply wp_weaken; [apply (IH fuel s1 (gs1 ++ [(a, g')]) (grp_next c)); [by rewrite <- app_assoc|done|done|cbn in Hfu; lia]|done|].
    intros s2 (gs2' & HF & Hi2 & Hs2 & E2). rewrite <- app_assoc in Hs2. exists ((a, g') :: gs2'). split; [constructor; [by split|done]|]. split; [done|]. split; [exact Hs2|congruence].
Qed.
Lemma each_ok s gs : sound s gs -> I s -> wp E (each_group f s) (fun s' => exists gs', Forall2 changed gs gs' /\ I s' /\ turns s gs' s').
Proof using Hf.
  intros Hs Hi. pose proof (l_linked _ _ (s_listed _ _ Hs)) as Hl. apply (groups_loop_ok gs _ s [] _ Hs Hi Hl).
  pose proof (list_fuel_enough _ _ _ _ Hl) as Hn. by rewrite length_map in Hn.
Qed.
End each.

Lemma tmr_turns s gs : sound s gs -> wp never (igmp_tmr output s) (fun s' => exists gs', Forall2 (changed (ticked (~ plenty))) gs gs' /\ turns s gs' s').
Proof using All.
  intros Hs. unfold igmp_tmr. eapply wp_weaken; [apply (each_ok _ (ticked (~ plenty)) never (fun _ => True)); [|done|done]|done|].
  - intros s1 gs1 a g gs2 Hs1 _. eapply wp_weaken; [by apply tick_turns|done|]. intros s' (g' & Hg & Ht). by exists g'.
  - intros s' (gs' & HF & _ & Ht). by exists gs'.
Qed.

(** The groups of an interface that are asked to report. *)
Definition asked_if (c : igmp_group -> bool) (m : Z) g g' : Prop := if c g then delayed m g g' else g' = g.
Lemma report_turns s gs netif : sound s gs ->
  wp never (igmp_report_groups rand s netif) (fun s' => exists gs', Forall2 (changed (asked_if (fun g => grp_netif g =? netif) IGMP_JOIN_DELAYING_MEMBER_TMR)) gs gs' /\ turns s gs' s').
Proof using All.
  intros Hs. unfold igmp_report_groups. eapply wp_weaken; [apply (each_ok _ (asked_if (fun g => grp_netif g =? netif) IGMP_JOIN_DELAYING_MEMBER_TMR) never (fun _ => True)); [|done|done]|done|].
  - intros s1 gs1 a g gs2 Hs1 _. destruct (group_at_ok _ _ _ _ _ Hs1) as (g1 & -> & Eg). cbn [rbind]. assert (grp_netif g1 = grp_netif g) as -> by by rewrite <- Eg.
    unfold asked_if. destruct (grp_netif g =? netif); [|by exists g].
    eapply wp_weaken; [by apply (delaying_turns s1 gs1 a g gs2)|intros f [_ Hm]; by change IGMP_JOIN_DELAYING_MEMBER_TMR with 5 in Hm|]. intros s' (g' & Hg & _ & Ht). by exists g'.
  - intros s' (gs' & HF & _ & Ht). by exists gs'.
Qed.
End life.
