(* ===== verification/IgmpMember.v ===== *)
(** * Membership: theorems about joining and leaving groups, and starting and
    stopping interfaces, in [lwip/core/ipv4/igmp.c].

    What the list of groups promises is a number of uses for each interface
    and address; each operation changes it as a map. *)
From S2P Require Import Prelude Cobs Uart Comm Message Pbuf PbufChain PbufCopy PbufTrim InetChksum IpHdr IpAddr.
From S2P Require Import Linked RawPcb Etharp EtharpTable EtharpPackets Netif Ip IpOutput IpInput Icmp IcmpEcho Udp UdpPorts UdpInput UdpOutput.
From S2P Require Import Dns DnsNames DnsRecv DnsSend DnsTable Igmp IgmpGroups IgmpSend IgmpLife.
From stdpp Require Import list gmap.
#[local] Open Scope Z_scope.

(** ** Uses *)

Implicit Types (g : igmp_group) (v : igmp) (gs : list (Z * igmp_group)) (i x : Z).

(** How often the interface uses the group of the address. *)
Definition uses gs i x : option Z := (fun e => grp_use e.2) <$> group_of gs i x.

Lemma has_key_spec i x e : has_key i x e = bool_decide ((i, x) = key e).
Proof.
  unfold has_key, key. destruct (Z.eqb_spec (grp_netif e.2) i) as [<-|]; destruct (Z.eqb_spec (group_address e.2) x) as [<-|]; cbn [andb];
    symmetry; (apply bool_decide_eq_true_2; done) || (apply bool_decide_eq_false_2; congruence).
Qed.
Lemma group_of_cons e gs i x : group_of (e :: gs) i x = if decide ((i, x) = key e) then Some e else group_of gs i x.
Proof. unfold group_of. cbn [List.find]. rewrite has_key_spec. by destruct (decide _) as [Hd|Hd]; [rewrite bool_decide_eq_true_2|rewrite bool_decide_eq_false_2]. Qed.
Lemma group_of_absent gs i x : ~ In (i, x) (map key gs) -> group_of gs i x = None.
Proof.
  induction gs as [|e gs IH]; intros Hn; [done|]. cbn [map In] in Hn. rewrite group_of_cons, decide_False by (intros E; apply Hn; left; congruence). apply IH. tauto.
Qed.
Lemma group_of_present gs i x : group_of gs i x = None -> ~ In (i, x) (map key gs).
Proof. intros E Hin. apply in_map_iff in Hin as (e & Ek & Hin). by destruct (group_of_none _ _ _ e E Hin Ek). Qed.
Lemma group_of_mid gs1 e gs2 i x : ~ In (key e) (map key gs1) ->
  group_of (gs1 ++ e :: gs2) i x = if decide ((i, x) = key e) then Some e else group_of (gs1 ++ gs2) i x.
Proof.
  induction gs1 as [|f gs1 IH]; intros Hn; cbn [app]; [apply group_of_cons|]. cbn [map In] in Hn. rewrite !group_of_cons.
  destruct (decide ((i, x) = key f)) as [E|]; [rewrite decide_False by (intros E'; apply Hn; left; congruence); done|]. apply IH. tauto.
Qed.
Lemma mid_keys gs1 e gs2 : NoDup (map key (gs1 ++ e :: gs2)) -> ~ In (key e) (map key gs1) /\ ~ In (key e) (map key (gs1 ++ gs2)).
Proof.
  rewrite map_app. cbn [map]. intros Hnd. apply NoDup_app in Hnd as (_ & Hd & [Hn _]%NoDup_cons). rewrite list_elem_of_In in Hn.
  assert (~ In (key e) (map key gs1)) as H1 by (intros Hin; apply (Hd (key e)); [by rewrite list_elem_of_In|apply list_elem_of_here]).
  split; [done|]. rewrite map_app, in_app_iff. tauto.
Qed.

Lemma uses_mid gs1 a g gs2 i x : NoDup (map key (gs1 ++ (a, g) :: gs2)) ->
  uses (gs1 ++ (a, g) :: gs2) i x = if decide ((i, x) = key (a, g)) then Some (grp_use g) else uses (gs1 ++ gs2) i x.
Proof. intros Hnd. unfold uses. rewrite group_of_mid by by apply (mid_keys gs1 (a, g) gs2). by destruct (decide _). Qed.
Lemma uses_absent gs1 a g gs2 i x : NoDup (map key (gs1 ++ (a, g) :: gs2)) -> (i, x) = key (a, g) -> uses (gs1 ++ gs2) i x = None.
Proof. intros Hnd E. unfold uses. rewrite group_of_absent; [done|]. rewrite E. by apply (mid_keys gs1 (a, g) gs2). Qed.

(** The uses after those of one interface and address are [u]. *)
Definition now gs i x (u : option Z) gs' : Prop := forall i' x', uses gs' i' x' = if decide ((i', x') = (i, x)) then u else uses gs i' x'.
Lemma now_upd gs1 a g g' gs2 : NoDup (map key (gs1 ++ (a, g) :: gs2)) -> key (a, g') = key (a, g) ->
  now (gs1 ++ (a, g) :: gs2) (key (a, g)).1 (key (a, g)).2 (Some (grp_use g')) (gs1 ++ (a, g') :: gs2).
Proof.
  intros Hnd Ek i x. assert (NoDup (map key (gs1 ++ (a, g') :: gs2))) as Hnd' by (rewrite map_app in *; cbn [map] in *; by rewrite Ek).
  rewrite (uses_mid _ _ _ _ _ _ Hnd'), (uses_mid _ _ _ _ _ _ Hnd), Ek, <- surjective_pairing. by destruct (decide _).
Qed.
Lemma now_add gs a g : group_of gs (key (a, g)).1 (key (a, g)).2 = None -> now gs (key (a, g)).1 (key (a, g)).2 (Some (grp_use g)) ((a, g) :: gs).
Proof. intros E i x. unfold uses at 1. rewrite group_of_cons, <- surjective_pairing. by destruct (decide _). Qed.
Lemma now_drop gs1 a g gs2 : NoDup (map key (gs1 ++ (a, g) :: gs2)) -> now (gs1 ++ (a, g) :: gs2) (key (a, g)).1 (key (a, g)).2 None (gs1 ++ gs2).
Proof.
  intros Hnd i x. rewrite (uses_mid _ _ _ _ _ _ Hnd), <- surjective_pairing. destruct (decide _) as [E|]; [|done]. by apply (uses_absent gs1 a g gs2).
Qed.
Lemma uses_here gs1 a g gs2 : NoDup (map key (gs1 ++ (a, g) :: gs2)) -> uses (gs1 ++ (a, g) :: gs2) (key (a, g)).1 (key (a, g)).2 = Some (grp_use g).
Proof. intros Hnd. rewrite (uses_mid _ _ _ _ _ _ Hnd), <- surjective_pairing. by rewrite decide_True. Qed.
Lemma now_twice gs i x u gs1 u' gs2 : now gs i x u gs1 -> now gs1 i x u' gs2 -> now gs i x u' gs2.
Proof. intros H1 H2 i' x'. rewrite H2, H1. by destruct (decide _). Qed.
Lemma now_same gs i x u : uses gs i x = u -> now gs i x u gs.
Proof. intros E i' x'. destruct (decide _) as [Ek|]; [|done]. by injection Ek as -> ->. Qed.

Section member.
Context `{OsLaws} {F Y : Type} `{GY : Groups Y} `{!GroupsLaws Y}.
Abbreviation state := (net (stack (raws F) Y)).
Implicit Types s : state.
Context (output : state -> Z -> Z -> Z -> result (Z * state)) (memp_malloc : gmap Z igmp_group -> option Z)
        (rand : Y -> Z * Y) (mac_filter : Z -> Z -> Z -> Z -> Y -> Y).
Context (Hout : outside output memp_malloc rand mac_filter).

(** The interface exists. *)
Definition there s i : Prop := i <> 0 /\ is_Some (nifs (ifs (env s)) !! i).
Lemma there_known s gs1 a g gs2 : sound s (gs1 ++ (a, g) :: gs2) -> there s (grp_netif g).
Proof using Type. intros Hs. by destruct (group_known _ _ _ _ _ Hs) as (? & ? & ?). Qed.

Lemma sound_add s gs a i x : sound s gs -> there s i -> is_u32 x -> group_of gs i x = None -> memp_malloc (group_mem (igmp_of s)) = Some a ->
  let v := igmp_of s in let g := IgmpGroup (igmp_group_list v) i x 0 IGMP_GROUP_NON_MEMBER 0 0 in
  turns s ((a, loose g) :: gs) (set_igmp s (set_groups v a (<[a := g]> (group_mem v)))).
Proof using GroupsLaws0 Hout.
  intros Hs [Hi Hn] Hx Eg Em v g. destruct (o_malloc _ _ _ _ Hout _ _ Em) as [Ha Ea]. destruct Hs as [Hl Hk HF Hc Hb Hid Hw]. split; [|done].
  constructor; rewrite ?igmp_of_set; try done.
  - by apply listed_add.
  - cbn [map]. apply NoDup_cons. split; [|done]. rewrite list_elem_of_In. by apply group_of_present.
  - by apply Forall_cons.
Qed.

Lemma lookup_ok s gs i x : sound s gs -> there s i -> is_u32 x ->
  (igmp_lookup_group memp_malloc s i x = Ok (0, s) /\ uses gs i x = None) \/
  exists a s' gs1 g gs2, igmp_lookup_group memp_malloc s i x = Ok (a, s') /\ a <> 0 /\ turns s (gs1 ++ (a, g) :: gs2) s' /\ key (a, g) = (i, x) /\
    grp_use g = default 0 (uses gs i x) /\ now gs i x (Some (grp_use g)) (gs1 ++ (a, g) :: gs2).
Proof using GroupsLaws0 Hout.
  intros Hs Hi Hx. unfold igmp_lookup_group. rewrite (lookfor_ok _ gs) by apply Hs. cbn [rbind]. destruct (group_of gs i x) as [[a g]|] eqn:Eg; [change (default 0 (fst <$> Some (a, g))) with a|change (default 0 (fst <$> None)) with 0].
  - right. destruct (group_of_some _ _ _ _ Eg) as (gs1 & gs2 & -> & Ek). destruct (listed_at _ _ a g (s_listed _ _ Hs)) as (Ha & _); [apply in_elt|].
    rewrite (proj2 (Z.eqb_neq a 0)) by done. cbn [negb]. exists a, s, gs1, g, gs2. split; [done|]. split; [done|]. split; [by apply turns_refl|]. split; [done|].
    assert (uses (gs1 ++ (a, g) :: gs2) i x = Some (grp_use g)) as Eu by (unfold uses; by rewrite Eg). rewrite Eu. split; [done|]. by apply now_same.
  - change (negb (0 =? 0)) with false. cbv iota. assert (uses gs i x = None) as Eu by (unfold uses; by rewrite Eg).
    destruct (memp_malloc (group_mem (igmp_of s))) as [a|] eqn:Em; [right|by left]. destruct (o_malloc _ _ _ _ Hout _ _ Em) as [Ha _].
    eexists a, _, [], _, gs. split; [reflexivity|]. split; [done|]. split; [by apply (sound_add s gs a i x)|]. split; [done|]. rewrite Eu. split; [done|].
    by apply (now_add gs a (loose (IgmpGroup (igmp_group_list (igmp_of s)) i x 0 IGMP_GROUP_NON_MEMBER 0 0))).
Qed.

(** The uses of one group more. *)
Definition one_more (u : option Z) : option Z := Some (u8 (default 0 u + 1)).

Lemma start_turns_ok s gs i : sound s gs -> there s i -> let x := IP4_ADDR 224 0 0 1 in
  wp never (igmp_start memp_malloc mac_filter s i) (fun '(err, s') => exists gs', turns s gs' s' /\
    (err = ERR_MEM /\ uses gs i x = None /\ gs' = gs \/ err = ERR_OK /\ now gs i x (one_more (uses gs i x)) gs')).
Proof using All.
  intros Hs Hi x. unfold igmp_start. rewrite (proj1 (s_systems _ _ Hs)). fold x.
  destruct (lookup_ok s gs i x Hs Hi) as [[-> Eu]|(a & s1 & gs1 & g & gs2 & -> & Ha & Ht1 & Ek & Eu & Hn)]; [done| |].
  { cbn [rbind]. exists gs. split; [by apply turns_refl|]. by left. }
  cbn [rbind]. rewrite (proj2 (Z.eqb_neq a 0)) by done. cbn [negb]. eapply wp_bind; [apply (upd_turns s1 gs1 a g gs2); [exact _|apply Ht1]|]. intros s2 Ht2. cbn beta in Ht2 |- *.
  eapply wp_bind; [apply (upd_turns s2 gs1 a (set_group_state g IGMP_GROUP_IDLE_MEMBER) gs2 (fun g => set_grp_use g (u8 (grp_use g + 1)))); [exact (unlinked_use (fun u => u8 (u + 1)))|apply Ht2]|]. intros s3 Ht3. cbn beta in Ht3 |- *.
  pose proof (turns_trans _ _ _ _ _ Ht1 (turns_trans _ _ _ _ _ Ht2 Ht3)) as Ht. eapply wp_bind; [eapply (filter_turns output memp_malloc rand mac_filter Hout s3 _ i); [exact (proj1 Ht3)|apply Hi|rewrite (proj2 Ht); apply Hi]|].
  intros s4 Ht4. cbn beta. eexists. split; [exact (turns_trans _ _ _ _ _ Ht Ht4)|]. right. split; [done|]. eapply now_twice; [exact Hn|].
  pose proof (now_upd gs1 a g (set_grp_use (set_group_state g IGMP_GROUP_IDLE_MEMBER) (u8 (grp_use g + 1))) gs2 (s_keys _ _ (proj1 Ht1)) eq_refl) as Hu.
  rewrite Ek in Hu. unfold one_more. rewrite <- Eu. exact Hu.
Qed.

(** ** Joining *)
Lemma join_one_turns s gs1 a g gs2 i x : sound s (gs1 ++ (a, g) :: gs2) -> key (a, g) = (i, x) ->
  wp never (join_one output rand mac_filter s i x a) (fun s' => exists g', key (a, g') = key (a, g) /\ grp_use g' = u8 (grp_use g + 1) /\ turns s (gs1 ++ (a, g') :: gs2) s').
Proof using All.
  intros Hs Ek. assert (grp_netif g = i) as Ei by (by injection Ek). pose proof (there_known _ _ _ _ _ Hs) as [Hi0 Hi]. rewrite Ei in Hi0, Hi.
  unfold join_one. destruct (group_at_ok _ _ _ _ _ Hs) as (g0 & -> & Eg). cbn [rbind].
  apply (wp_bind _ _ _ (fun s' => exists g', key (a, g') = key (a, g) /\ grp_use g' = grp_use g /\ turns s (gs1 ++ (a, g') :: gs2) s')).
  - destruct (negb _); [by exists g|]. apply (wp_bind _ _ _ (turns s (gs1 ++ (a, g) :: gs2))).
    { destruct (_ =? 0); [by apply (filter_turns output memp_malloc rand mac_filter Hout)|by apply turns_refl]. }
    intros s1 Ht1. eapply wp_bind; [apply (send_turns output memp_malloc rand mac_filter Hout s1 gs1 a g gs2 IGMP_V2_MEMB_REPORT); [apply Ht1|by left]|].
    intros s2 (sent & _ & Ht2). cbn beta. set (g1 := if sent then reported IGMP_V2_MEMB_REPORT g else g) in *.
    assert (key (a, g1) = key (a, g) /\ grp_use g1 = grp_use g) as [Ek1 Eu1] by (unfold g1; by destruct sent).
    eapply wp_bind; [eapply wp_weaken; [apply (start_turns output memp_malloc rand mac_filter Hout s2 gs1 a g1 gs2 IGMP_JOIN_DELAYING_MEMBER_TMR); [apply Ht2|done]|
      intros f [_ Hm]; by change IGMP_JOIN_DELAYING_MEMBER_TMR with 5 in Hm|intros s' Hx; exact Hx]|].
    intros s3 (t & _ & _ & Ht3). cbn beta. eapply wp_weaken; [apply (upd_turns s3 gs1 a (set_grp_timer g1 t) gs2 (fun g => set_group_state g IGMP_GROUP_DELAYING_MEMBER)); [exact _|apply Ht3]|done|].
    intros s4 Ht4. cbn beta in Ht4. eexists. split; [|split; [|exact (turns_trans _ _ _ _ _ Ht1 (turns_trans _ _ _ _ _ Ht2 (turns_trans _ _ _ _ _ Ht3 Ht4)))]]; [exact Ek1|exact Eu1].
  - intros s1 (g1 & Ek1 & Eu1 & Ht1). eapply wp_weaken; [apply (upd_turns s1 gs1 a g1 gs2 (fun g => set_grp_use g (u8 (grp_use g + 1)))); [exact (unlinked_use (fun u => u8 (u + 1)))|apply Ht1]|done|].
    intros s2 Ht2. cbn beta in Ht2. eexists. split; [|split; [|exact (turns_trans _ _ _ _ _ Ht1 Ht2)]]; [exact Ek1|cbn; by rewrite Eu1].
Qed.

(** The interface at [i] takes part in a call for [ifaddr]. *)
Definition takes_part s ifaddr i : bool := match nifs (ifs (env s)) !! i with Some n => concerned n ifaddr | None => false end.
#[export] Instance in_decision i (l : list Z) : Decision (In i l) := in_dec Z.eq_dec i l.
(** The uses behind a call of [f] for the address [x] on the interfaces [l]. *)
Definition over gs (l : list Z) (part : Z -> bool) x (f : option Z -> option Z) gs' : Prop :=
  forall i' x', uses gs' i' x' = if decide (x' = x /\ In i' l /\ part i' = true) then f (uses gs i' x') else uses gs i' x'.
Lemma over_nil gs part x f : over gs [] part x f gs.
Proof using Type. intros i' x'. rewrite decide_False by (intros (_ & [] & _)). done. Qed.
Lemma over_skip gs i l part x f gs' : part i = false -> over gs l part x f gs' -> over gs (i :: l) part x f gs'.
Proof using Type.
  intros Hp Ho i' x'. rewrite Ho. destruct (decide (x' = x /\ In i' l /\ part i' = true)) as [(? & ? & ?)|Hn]; [rewrite decide_True by (split; [done|split; [by right|done]]); done|].
  rewrite decide_False; [done|]. intros (? & [<-|?] & ?); [congruence|tauto].
Qed.
Lemma over_step gs i l part x f gs1 gs2 : part i = true -> ~ In i l -> now gs i x (f (uses gs i x)) gs1 -> over gs1 l part x f gs2 -> over gs (i :: l) part x f gs2.
Proof using Type.
  intros Hp Hn H1 H2 i' x'. rewrite H2, H1. destruct (decide ((i', x') = (i, x))) as [E|Hne].
  - injection E as -> ->. rewrite decide_False by tauto. rewrite decide_True by (split; [done|split; [by left|done]]). done.
  - destruct (decide (x' = x /\ In i' l /\ part i' = true)) as [(? & ? & ?)|Hx]; [rewrite decide_True by (split; [done|split; [by right|done]]); done|].
    rewrite decide_False; [done|]. intros (-> & [<-|?] & ?); [done|tauto].
Qed.

Lemma join_loop_ok ifaddr x l : forall fuel s gs p err, sound s gs -> is_u32 x -> lseg nif_next (nifs (ifs (env s))) p l 0 -> (length l < fuel)%nat ->
  wp never (join_loop output memp_malloc rand mac_filter fuel s p ifaddr x err) (fun '(err', s') => exists gs' l1 l2, l = l1 ++ l2 /\ turns s gs' s' /\
    over gs l1 (takes_part s ifaddr) x one_more gs' /\
    (err' = ERR_MEM /\ l2 <> [] \/ l2 = [] /\ err' = if existsb (takes_part s ifaddr) l then ERR_OK else err)).
Proof using All.
  induction l as [|i l IH]; intros fuel s gs p err Hs Hx Hl Hf; (destruct fuel as [|fuel]; [cbn in Hf; lia|]); cbn [join_loop].
  - rewrite Hl. exists gs, [], []. split; [done|]. split; [by apply turns_refl|]. split; [apply over_nil|]. by right.
  - pose proof (linked_nodup _ _ _ _ Hl) as Hnd. apply NoDup_cons in Hnd as [Hni _]. rewrite list_elem_of_In in Hni. destruct Hl as (-> & Hi & n & En & Hl).
    rewrite (proj2 (Z.eqb_neq i 0)), (nif_at_ok s i n) by done. cbn [rbind]. assert (takes_part s ifaddr i = concerned n ifaddr) as Ep by (unfold takes_part; by rewrite En).
    cbn [existsb]. rewrite Ep. destruct (concerned n ifaddr) eqn:Ec; cbn [orb].
    + assert (there s i) as Hth by (split; [done|by exists n]).
      destruct (lookup_ok s gs i x Hs Hth Hx) as [[-> _]|(a & s1 & gs1 & g & gs2 & -> & Ha & Ht1 & Ek & Eu & Hn)]; cbn [rbind].
      { exists gs, [], (i :: l). split; [done|]. split; [by apply turns_refl|]. split; [apply over_nil|]. by left. }
      rewrite (proj2 (Z.eqb_neq a 0)) by done. eapply wp_bind; [by apply (join_one_turns s1 gs1 a g gs2 i x); [apply Ht1|]|]. intros s2 (g' & Ek' & Eu' & Ht2). cbn beta.
      pose proof (turns_trans _ _ _ _ _ Ht1 Ht2) as Ht. destruct Ht as [Hs2 E2]. rewrite (nif_at_ok s2 i n) by (done || by rewrite E2). cbn [rbind].
      eapply wp_weaken; [apply (IH fuel s2 _ (nif_next n) ERR_OK Hs2 Hx); [by rewrite E2|cbn in Hf; lia]|done|]. intros [err' s'] (gs' & l1 & l2 & -> & [Hs' E'] & Ho & He).
      assert (takes_part s2 ifaddr = takes_part s ifaddr) as Et by (unfold takes_part; by rewrite E2). rewrite Et in Ho, He.
      exists gs', (i :: l1), l2. split; [done|]. split; [split; [done|congruence]|]. split; [|destruct He as [He|[-> ->]]; [by left|right; split; [done|by destruct (existsb _ _)]]].
      eapply over_step; [by rewrite Ep|rewrite in_app_iff in Hni; tauto| |exact Ho]. eapply now_twice; [exact Hn|].
      pose proof (now_upd gs1 a g g' gs2 (s_keys _ _ (proj1 Ht1)) Ek') as Hu. rewrite Ek in Hu. unfold one_more. by rewrite <- Eu, <- Eu'.
    + eapply wp_weaken; [apply (IH fuel s gs (nif_next n) err Hs Hx Hl); cbn in Hf; lia|done|]. intros [err' s'] (gs' & l1 & l2 & -> & Ht & Ho & He).
      exists gs', (i :: l1), l2. split; [done|]. split; [done|]. split; [by apply over_skip|done].
Qed.
End member.
