(* ===== verification/IgmpLeave.v ===== *)
(** * Leaving groups: theorems about [igmp_leavegroup] and [igmp_stop] of
    [lwip/core/ipv4/igmp.c]. *)
From S2P Require Import Prelude Cobs Uart Comm Message Pbuf PbufChain PbufCopy PbufTrim InetChksum IpHdr IpAddr.
From S2P Require Import Linked RawPcb Etharp EtharpTable EtharpPackets Netif Ip IpOutput IpInput Icmp IcmpEcho Udp UdpPorts UdpInput UdpOutput.
From S2P Require Import Dns DnsNames DnsRecv DnsSend DnsTable Igmp IgmpGroups IgmpSend IgmpLife IgmpMember.
From stdpp Require Import list gmap.
#[local] Open Scope Z_scope.

Implicit Types (g : igmp_group) (v : igmp) (gs : list (Z * igmp_group)) (i x : Z).

(** The uses of one group less: the last use takes the group away. *)
Definition one_less (u : option Z) : option Z := match u with Some u => if u <=? 1 then None else Some (u - 1) | None => None end.

Section leave.
Context `{OsLaws} {F Y : Type} `{GY : Groups Y} `{!GroupsLaws Y}.
Abbreviation state := (net (stack (raws F) Y)).
Implicit Types s : state.
Context (output : state -> Z -> Z -> Z -> result (Z * state)) (memp_malloc : gmap Z igmp_group -> option Z)
        (rand : Y -> Z * Y) (mac_filter : Z -> Z -> Z -> Z -> Y -> Y).
Context (Hout : outside output memp_malloc rand mac_filter).

(** A state without one of the groups. *)
Lemma sound_drop s gs1 a g gs2 s' : sound s (gs1 ++ (a, g) :: gs2) -> listed (igmp_of s') (gs1 ++ gs2) ->
  allsystems (igmp_of s') = allsystems (igmp_of s) -> allrouters (igmp_of s') = allrouters (igmp_of s) ->
  mem s' = mem s -> ifs (env s') = ifs (env s) -> ipv (env s') = ipv (env s) -> turns s (gs1 ++ gs2) s'.
Proof using Type.
  intros [_ Hk HF [H1 H2] Hb Hid Hw] Hl E1 E2 Em Ei Ev. split; [|done]. constructor; rewrite ?E1, ?E2, ?Em, ?Ei, ?Ev; try done.
  - destruct (mid_keys _ _ _ Hk) as [_ _]. rewrite map_app in *. cbn [map] in Hk. apply NoDup_app in Hk as (Hk1 & Hd & [_ Hk2]%NoDup_cons).
    apply NoDup_app. split; [done|]. split; [|done]. intros k H1' H2'. apply (Hd k H1'). by apply list_elem_of_further.
  - apply Forall_app in HF as [HF1 [_ HF2]%Forall_cons]. by apply Forall_app.
Qed.

(** ** Leaving *)
Lemma leave_one_turns s gs1 a g gs2 i x : sound s (gs1 ++ (a, g) :: gs2) -> key (a, g) = (i, x) ->
  wp never (leave_one output mac_filter s i x a) (fun s' => exists gs', turns s gs' s' /\ now (gs1 ++ (a, g) :: gs2) i x (one_less (Some (grp_use g))) gs').
Proof using All.
  intros Hs Ek. assert (grp_netif g = i) as Ei by (by injection Ek). pose proof (there_known _ _ _ _ _ Hs) as [Hi0 Hi]. rewrite Ei in Hi0, Hi.
  unfold leave_one. destruct (group_at_ok _ _ _ _ _ Hs) as (g0 & -> & Eg). cbn [rbind]. assert (grp_use g0 = grp_use g) as Eu by by rewrite <- Eg. rewrite Eu. unfold one_less.
  destruct (grp_use g <=? 1).
  - apply (wp_bind _ _ _ (fun s' => exists g', key (a, g') = key (a, g) /\ grp_use g' = grp_use g /\ turns s (gs1 ++ (a, g') :: gs2) s')).
    { destruct (negb _); [|by exists g]. eapply wp_weaken; [apply (send_turns output memp_malloc rand mac_filter Hout s gs1 a g gs2 IGMP_LEAVE_GROUP Hs); by right|done|].
      intros s1 (sent & _ & Ht). exists (if sent then reported IGMP_LEAVE_GROUP g else g). split; [by destruct sent|]. split; [by destruct sent|exact Ht]. }
    intros s1 (g1 & Ek1 & _ & Ht1). eapply wp_bind; [eapply (filter_turns output memp_malloc rand mac_filter Hout s1 _ i); [exact (proj1 Ht1)|done|by rewrite (proj2 Ht1)]|].
    intros s2 Ht2. cbn beta. pose proof (proj1 Ht2) as Hs2. destruct (remove_group_ok _ _ _ _ _ (s_listed _ _ Hs2)) as (v' & -> & Hl & E1 & E2). cbn [rbind].
    exists (gs1 ++ gs2). split.
    + refine (turns_trans _ _ _ _ _ (turns_trans _ _ _ _ _ Ht1 Ht2) _). by apply (sound_drop s2 gs1 a g1 gs2); rewrite ?igmp_of_set.
    + pose proof (now_drop gs1 a g gs2 (s_keys _ _ Hs)) as Hn. by rewrite Ek in Hn.
  - eapply wp_weaken; [apply (upd_turns s gs1 a g gs2 (fun g => set_grp_use g (grp_use g - 1))); [exact (unlinked_use (fun u => u - 1))|done]|done|].
    intros s' Ht. eexists. split; [exact Ht|]. pose proof (now_upd gs1 a g (set_grp_use g (grp_use g - 1)) gs2 (s_keys _ _ Hs) eq_refl) as Hn. by rewrite Ek in Hn.
Qed.

(** The interface uses the group. *)
Definition joined gs x (part : Z -> bool) i : bool := part i && bool_decide (is_Some (uses gs i x)).
Lemma joined_now gs i x u gs' part l : now gs i x u gs' -> ~ In i l -> existsb (joined gs' x part) l = existsb (joined gs x part) l.
Proof using Type.
  intros Hn Hi. induction l as [|j l IH]; [done|]. cbn [existsb In] in *. rewrite IH by tauto. f_equal. unfold joined. rewrite Hn.
  by rewrite decide_False by (intros E; apply Hi; left; congruence).
Qed.

Lemma leave_loop_ok ifaddr x l : forall fuel s gs p err, sound s gs -> lseg nif_next (nifs (ifs (env s))) p l 0 -> (length l < fuel)%nat ->
  wp never (leave_loop output mac_filter fuel s p ifaddr x err) (fun '(err', s') => exists gs', turns s gs' s' /\
    over gs l (takes_part s ifaddr) x one_less gs' /\ err' = if existsb (joined gs x (takes_part s ifaddr)) l then ERR_OK else err).
Proof using All.
  induction l as [|i l IH]; intros fuel s gs p err Hs Hl Hf; (destruct fuel as [|fuel]; [cbn in Hf; lia|]); cbn [leave_loop].
  - rewrite Hl. exists gs. split; [by apply turns_refl|]. split; [apply over_nil|done].
  - pose proof (linked_nodup _ _ _ _ Hl) as Hnd. apply NoDup_cons in Hnd as [Hni _]. rewrite list_elem_of_In in Hni. destruct Hl as (-> & Hi & n & En & Hl).
    rewrite (proj2 (Z.eqb_neq i 0)), (nif_at_ok s i n) by done. cbn [rbind]. assert (takes_part s ifaddr i = concerned n ifaddr) as Ep by (unfold takes_part; by rewrite En).
    cbn [existsb]. unfold joined at 1. rewrite Ep. destruct (concerned n ifaddr) eqn:Ec; cbn [andb orb].
    2:{ eapply wp_weaken; [apply (IH fuel s gs (nif_next n) err Hs Hl); cbn in Hf; lia|done|]. intros [err' s'] (gs' & Ht & Ho & He). exists gs'. split; [done|]. split; [by apply over_skip|done]. }
    rewrite (lookfor_ok _ gs) by apply Hs. cbn [rbind].
    apply (wp_bind _ _ _ (fun '(err', s') => exists gs', turns s gs' s' /\ now gs i x (one_less (uses gs i x)) gs' /\ err' = if bool_decide (is_Some (uses gs i x)) then ERR_OK else err)).
    + destruct (group_of gs i x) as [[a g]|] eqn:Eg; [change (default 0 (fst <$> Some (a, g))) with a|change (default 0 (fst <$> None)) with 0].
      * assert (uses gs i x = Some (grp_use g)) as Eu by (unfold uses; by rewrite Eg). rewrite Eu. destruct (group_of_some _ _ _ _ Eg) as (gs1 & gs2 & -> & Ek).
        destruct (listed_at _ _ a g (s_listed _ _ Hs)) as (Ha & _); [apply in_elt|]. rewrite (proj2 (Z.eqb_neq a 0)) by done. cbn [negb].
        eapply wp_bind; [by apply (leave_one_turns s gs1 a g gs2)|]. intros s1 (gs' & Ht & Hn). by exists gs'.
      * assert (uses gs i x = None) as Eu by (unfold uses; by rewrite Eg). rewrite Eu. exists gs. split; [by apply turns_refl|]. split; [by apply now_same|done].
    + intros [err1 s1] (gs1 & [Hs1 E1] & Hn & ->). cbn beta iota. rewrite (nif_at_ok s1 i n) by (done || by rewrite E1). cbn [rbind].
      eapply wp_weaken; [eapply (IH fuel s1 gs1 (nif_next n)); [done|by rewrite E1|cbn in Hf; lia]|done|]. intros [err' s'] (gs' & [Hs' E'] & Ho & ->).
      assert (takes_part s1 ifaddr = takes_part s ifaddr) as Et by (unfold takes_part; by rewrite E1). rewrite Et in Ho |- *.
      exists gs'. split; [split; [done|congruence]|]. split; [by eapply over_step|]. rewrite (joined_now gs i x _ gs1 _ l Hn Hni).
      by destruct (bool_decide _), (existsb _ _).
Qed.

(** ** Stopping *)
Lemma filter_rest s netif addr action : netif <> 0 -> is_Some (nifs (ifs (env s)) !! netif) ->
  exists y, filter_mac mac_filter s netif addr action = Ok (set_rest s y) /\ groups_of y = igmp_of s.
Proof using Hout.
  intros Hn [n En]. unfold filter_mac. rewrite (nif_at_ok s netif n) by done. cbn [rbind]. destruct (negb _).
  - eexists. split; [done|]. apply (o_filter _ _ _ _ Hout).
  - exists (rest (env s)). split; [|done]. by destruct s as [? ? ? []].
Qed.

(** The groups before [a] linked around it. *)
Lemma unlink_group_ok s gs1 a g gs2 c : listed (igmp_of s) (gs1 ++ (a, g) :: gs2) -> group_mem (igmp_of s) !! a = Some c ->
  let prev := default 0 (fst <$> last gs1) in
  exists v1, (let s0 := if a =? igmp_group_list (igmp_of s) then set_igmp s (set_groups (igmp_of s) (grp_next c) (group_mem (igmp_of s))) else s in
      if negb (prev =? 0) then upd_group s0 prev (fun g => set_grp_next g (grp_next c)) else Ok s0) = Ok (set_igmp s v1) /\
    group_mem v1 !! a = Some c /\ listed (set_groups v1 (igmp_group_list v1) (delete a (group_mem v1))) (gs1 ++ gs2) /\
    lseg grp_next (delete a (group_mem v1)) (grp_next c) (map fst gs2) 0 /\ allsystems v1 = allsystems (igmp_of s) /\ allrouters v1 = allrouters (igmp_of s).
Proof using GroupsLaws0.
  intros Hv Ec prev. pose proof (listed_nodup _ _ Hv) as Hnd. rewrite map_app in Hnd. cbn [map fst] in Hnd. apply NoDup_app in Hnd as (Hnd1 & Hd & [Ha2 _]%NoDup_cons).
  rewrite list_elem_of_In in Ha2. pose proof (l_linked _ _ Hv) as Hl. rewrite map_app in Hl. cbn [map fst] in Hl.
  assert (lseg grp_next (group_mem (igmp_of s)) (grp_next c) (map fst gs2) 0) as Hl2.
  { apply lseg_app in Hl as (q & _ & _ & _ & c' & Ec' & Hl'). by assert (c' = c) as -> by congruence. }
  destruct gs1 as [|[b gb] gs1 _] using rev_ind.
  - cbn in prev. subst prev. cbn [Z.eqb negb]. pose proof Hl as (-> & _). rewrite Z.eqb_refl. eexists. split; [reflexivity|]. split; [done|].
    split; [exact (listed_head (igmp_of s) a g gs2 c Hv Ec)|]. split; [|done]. eapply lseg_frame; [|exact Hl2]. intros y Hy. apply lookup_delete_ne. by intros ->.
  - assert (prev = b) as -> by (unfold prev; by rewrite last_snoc). rewrite <- app_assoc in Hv |- *. cbn [app] in Hv |- *.
    destruct (listed_at _ _ b gb Hv) as (Hb & cb & Eb & _); [apply in_elt|]. rewrite (proj2 (Z.eqb_neq b 0)) by done. cbn [negb].
    assert (~ In a (map fst (gs1 ++ [(b, gb)]))) as Hn1 by (intros Hin; apply (Hd a); [by rewrite list_elem_of_In|apply list_elem_of_here]).
    assert (~ In b (map fst gs2)) as Hb2.
    { intros Hin. apply (Hd b); [rewrite list_elem_of_In, map_app, in_app_iff; right; by left|]. apply list_elem_of_further. by rewrite list_elem_of_In. }
    rewrite (proj2 (Z.eqb_neq a _)).
    2:{ intros He. unfold linked in Hl. rewrite <- He in Hl. rewrite map_app in Hl, Hn1. destruct gs1 as [|[y gy] gs1]; cbn in Hl, Hn1; destruct Hl as (-> & _); tauto. }
    unfold upd_group, group_at. rewrite (cell_ok _ b cb) by done. cbn [rbind]. eexists. split; [reflexivity|]. cbn [group_mem set_groups igmp_group_list].
    assert (b <> a) as Hba by (intros ->; apply Hn1; rewrite map_app, in_app_iff; right; by left).
    split; [by rewrite lookup_insert_ne|]. split; [by apply (listed_mid (igmp_of s) gs1 b gb a g gs2)|]. split; [|done].
    eapply lseg_frame; [|exact Hl2]. intros y Hy. rewrite lookup_delete_ne by (by intros ->). apply lookup_insert_ne. by intros ->.
Qed.

Definition elsewhere netif (e : Z * igmp_group) : bool := negb (grp_netif e.2 =? netif).
Lemma stop_loop_turns netif gs2 : forall fuel s gs1 a, sound s (gs1 ++ gs2) -> there s netif -> lseg grp_next (group_mem (igmp_of s)) a (map fst gs2) 0 ->
  (length gs2 < fuel)%nat -> wp never (stop_loop mac_filter fuel s a (default 0 (fst <$> last gs1)) netif) (turns s (gs1 ++ List.filter (elsewhere netif) gs2)).
Proof using All.
  induction gs2 as [|[b g] gs2 IH]; intros fuel s gs1 a Hs Hi Hl Hf; (destruct fuel as [|fuel]; [cbn in Hf; lia|]); cbn [stop_loop map fst List.filter] in *.
  - rewrite Hl. by apply turns_refl.
  - destruct Hl as (-> & Hb & c & Ec & Hl). rewrite (proj2 (Z.eqb_neq b 0)) by done. unfold group_at at 1. rewrite (cell_ok _ b c) by done. cbn [rbind].
    destruct (group_at_ok _ _ _ _ _ Hs) as (c' & Ec' & Eg). unfold group_at in Ec'. rewrite (cell_ok _ b c) in Ec' by done. injection Ec' as <-.
    assert (grp_netif c = grp_netif g) as -> by by rewrite <- Eg. unfold elsewhere at 1. cbn [snd]. destruct (Z.eqb_spec (grp_netif g) netif) as [<-|Hne]; cbn [negb].
    + destruct (unlink_group_ok s gs1 b g gs2 c (s_listed _ _ Hs) Ec) as (v1 & Eu & Ec1 & Hl1 & Hl2 & E1 & E2). cbv zeta in Eu |- *. rewrite Eu. cbn [rbind].
      unfold group_at. rewrite igmp_of_set, (cell_ok _ b c) by done. cbn [rbind]. destruct Hi as [Hi0 Hi].
      destruct (filter_rest (set_igmp s v1) (grp_netif g) (group_address c) IGMP_DEL_MAC_FILTER Hi0 Hi) as (y & -> & Ey). cbn [rbind]. rewrite igmp_of_set in Ey.
      change (igmp_of (set_rest (set_igmp s v1) y)) with (groups_of y). rewrite Ey.
      assert (turns s (gs1 ++ gs2) (set_igmp (set_rest (set_igmp s v1) y) (set_groups v1 (igmp_group_list v1) (delete b (group_mem v1))))) as Ht.
      { by apply (sound_drop s gs1 b g gs2); rewrite ?igmp_of_set. }
      pose proof (fun Hi' Hl' => IH fuel _ gs1 (grp_next c) (proj1 Ht) Hi' Hl' ltac:(cbn in Hf; lia)) as IH'.
      eapply wp_weaken; [apply IH'; [by split|by rewrite igmp_of_set]|done|]. intros s' Ht'. exact (turns_trans _ _ _ _ _ Ht Ht').
    + pose proof (IH fuel s (gs1 ++ [(b, g)]) (grp_next c)) as IH'. rewrite last_snoc, <- !app_assoc in IH'. cbn [app] in IH'. apply IH'; [done|done|done|cbn in Hf; lia].
Qed.

Lemma group_of_filter netif gs i x : group_of (List.filter (elsewhere netif) gs) i x = if decide (i = netif) then None else group_of gs i x.
Proof using Type.
  induction gs as [|[a g] gs IH]; cbn [List.filter]; [by destruct (decide _)|]. unfold elsewhere at 1. cbn [snd]. destruct (Z.eqb_spec (grp_netif g) netif) as [E|E]; cbn [negb]; rewrite ?group_of_cons, IH.
  - destruct (decide (i = netif)); [done|]. rewrite decide_False; [done|]. unfold key. cbn [snd]. congruence.
  - destruct (decide (i = netif)) as [->|]; [|done]. rewrite decide_False; [done|]. unfold key. cbn [snd]. congruence.
Qed.
Lemma stop_turns s gs netif : sound s gs -> there s netif ->
  wp never (igmp_stop mac_filter s netif) (fun s' => exists gs', turns s gs' s' /\ forall i x, uses gs' i x = if decide (i = netif) then None else uses gs i x).
Proof using All.
  intros Hs Hi. pose proof (l_linked _ _ (s_listed _ _ Hs)) as Hl. pose proof (list_fuel_enough _ _ _ _ Hl) as Hf. rewrite length_map in Hf.
  eapply wp_weaken; [apply (stop_loop_turns netif gs _ s [] _ Hs Hi Hl Hf)|done|]. intros s' Ht. eexists. split; [exact Ht|].
  intros i x. unfold uses. cbn [app]. rewrite group_of_filter. by destruct (decide _).
Qed.
End leave.
