(* ===== verification/IgmpInput.v ===== *)
(** * Queries and reports of others: theorems about [igmp_input] of
    [lwip/core/ipv4/igmp.c]. *)
From S2P Require Import Prelude Cobs Uart Comm Message Pbuf PbufChain PbufCopy PbufTrim InetChksum IpHdr IpAddr.
From S2P Require Import Linked RawPcb Etharp EtharpTable EtharpPackets Netif Ip IpOutput IpInput Icmp IcmpEcho Udp UdpPorts UdpInput UdpOutput.
From S2P Require Import Dns DnsNames DnsRecv DnsSend DnsTable Igmp IgmpGroups IgmpSend IgmpLife IgmpMember.
From stdpp Require Import list gmap.
#[local] Open Scope Z_scope.

Implicit Types (g : igmp_group) (v : igmp) (gs : list (Z * igmp_group)) (i x : Z).

Definition ALL_SYSTEMS : Z := IP4_ADDR 224 0 0 1.
(** The fields of the message [r]. *)
Definition msg_type (r : list Z) : Z := byte_at r 0.
Definition msg_time (r : list Z) : Z := byte_at r 1.
Definition msg_group (r : list Z) : Z := address_at r 4.
(** The time a general query asks for; version 1 has none. *)
Definition general_time (r : list Z) : Z := if msg_time r =? 0 then IGMP_V1_DELAYING_MEMBER_TMR else msg_time r.

Definition keyed i x g : bool := (grp_netif g =? i) && (group_address g =? x).
Definition general dest (r : list Z) : bool := (dest =? ALL_SYSTEMS) && (msg_group r =? IPADDR_ANY).
(** The groups a query asks, and in which time they have to report. *)
Definition asks inp dest (r : list Z) g : bool :=
  if general dest r then (grp_netif g =? inp) && negb (group_address g =? ALL_SYSTEMS)
  else negb (msg_group r =? IPADDR_ANY) && keyed inp (if dest =? ALL_SYSTEMS then msg_group r else dest) g.
Definition asks_within dest (r : list Z) : Z := if general dest r then general_time r else msg_time r.

(** A group somebody else reported. *)
Definition quieted g : igmp_group :=
  if group_state g =? IGMP_GROUP_DELAYING_MEMBER then set_reporter (set_group_state (set_grp_timer g 0) IGMP_GROUP_IDLE_MEMBER) 0 else g.

(** The message is taken: it is complete and sound, and the interface is in
    the group it was sent to. *)
Definition taken gs inp dest (r : list Z) : bool :=
  (IGMP_MINLEN <=? zlen r) && (inet_chksum false r =? 0) && bool_decide (is_Some (group_of gs inp dest)).
(** What becomes of one group when a message is taken. *)
Definition heard inp dest (r : list Z) g g' : Prop :=
  if msg_type r =? IGMP_MEMB_QUERY then asked_if (asks inp dest r) (asks_within dest r) g g'
  else if msg_type r =? IGMP_V2_MEMB_REPORT then g' = if keyed inp dest g then quieted g else g
  else g' = g.
(** The fault of a query that leaves no time. *)
Definition hasty dest (r : list Z) (f : fault) : Prop := f = DivByZero /\ msg_type r = IGMP_MEMB_QUERY /\ asks_within dest r <= 1.

Lemma changed_all (R : igmp_group -> igmp_group -> Prop) gs : (forall e, In e gs -> R e.2 e.2) -> Forall2 (changed R) gs gs.
Proof. induction gs as [|e gs IH]; intros Hr; [constructor|]. constructor; [split; [done|by apply Hr; left]|]. apply IH. intros e' He'. apply Hr. by right. Qed.
(** Only the group of a key changes. *)
Lemma changed_one (R R' : igmp_group -> igmp_group -> Prop) gs1 a g g' gs2 i x : NoDup (map key (gs1 ++ (a, g) :: gs2)) -> key (a, g) = (i, x) -> R g g' ->
  (forall h h', R' h h' <-> if keyed i x h then R h h' else h' = h) -> Forall2 (changed R') (gs1 ++ (a, g) :: gs2) (gs1 ++ (a, g') :: gs2).
Proof.
  intros Hnd Ek Hr HR. pose proof (mid_keys _ _ _ Hnd) as [_ Hn]. rewrite Ek in Hn.
  assert (keyed i x g = true) as Hk by (injection Ek as <- <-; unfold keyed; by rewrite !Z.eqb_refl).
  assert (forall e, In e (gs1 ++ gs2) -> R' e.2 e.2) as Ho.
  { intros e He. apply HR. assert (keyed i x e.2 = false) as ->; [|done]. destruct (keyed i x e.2) eqn:E; [|done]. destruct Hn.
    unfold keyed in E. apply andb_true_iff in E as [<-%Z.eqb_eq <-%Z.eqb_eq]. by apply (in_map key) in He. }
  apply Forall2_app; [|constructor; [split; [done|apply HR; cbn [snd]; by rewrite Hk]|]]; apply changed_all; intros e He; apply Ho; rewrite in_app_iff; tauto.
Qed.

Section input.
Context `{OsLaws} {F Y : Type} `{GY : Groups Y} `{!GroupsLaws Y}.
Abbreviation state := (net (stack (raws F) Y)).
Implicit Types s : state.
Context (output : state -> Z -> Z -> Z -> result (Z * state)) (memp_malloc : gmap Z igmp_group -> option Z)
        (rand : Y -> Z * Y) (mac_filter : Z -> Z -> Z -> Z -> Y -> Y).
Context (Hout : outside output memp_malloc rand mac_filter).

Lemma mem_turns s gs m : sound s gs -> backed m -> turns s gs (set_mem s m).
Proof using Type. intros Hs Hb. apply (sound_keys s gs gs); try done; apply Hs. Qed.

(** A packet that was received into [m0] and is held in [m]. *)
Record held (m0 m : store) (p : Z) (l : list Z) : Prop := {
  h_chain : is_chain m p (p :: l);
  h_release : Forall (releasable m) (p :: l);
  h_rest : untouched m0 m (p :: l);
  h_refs : forall a, ref_of m a = ref_of m0 a
}.
(** The packet was given back. *)
Definition given_back (m0 m : store) (p : Z) (l : list Z) : Prop := untouched m0 m (p :: l) /\
  (Forall (fun x => ref_of m0 x = 1) (p :: l) -> forall x, In x (p :: l) -> cells m !! x = None).

Lemma free_held m0 s p l : held m0 (mem s) p l -> exists m', free_packet s p = Ok (set_mem s m') /\ given_back m0 m' p l.
Proof using Type.
  intros [Hch Hr U Href]. destruct (free_chain (mem s) p (p :: l) Hch Hr) as (k & m' & E & U' & Hg). exists m'. unfold free_packet. rewrite E. split; [done|].
  split; [by eapply untouched_trans|]. intros Hones. apply Hg. eapply Forall_impl; [exact Hones|]. intros y Hy. by rewrite Href.
Qed.
Lemma free_sound m0 s gs p l : sound s gs -> held m0 (mem s) p l ->
  wp never (free_packet s p) (fun s' => turns s gs s' /\ given_back m0 (mem s') p l).
Proof using Type.
  intros Hs Hh. destruct (free_held _ _ _ _ Hh) as (m' & E & Hg). destruct (free_packet_any s p (p :: l) (h_chain _ _ _ _ Hh) (s_backed _ _ Hs)) as (m2 & E2 & Hb).
  rewrite E. split; [|done]. apply mem_turns; [done|]. rewrite E in E2. assert (set_mem s m' = set_mem s m2) as Em by congruence. exact (eq_ind_r backed Hb (f_equal mem Em)).
Qed.

(** ** A query *)

(** The message [r] in the first pbuf [c]. *)
Definition message_at (m : store) (c : pbuf) (r : list Z) : Prop := Pbuf.cell_ok m c /\ cell_data m c = r /\ IGMP_MINLEN <= len c.

Lemma lone_turns s gs i x inp dest r a g gs1 gs2 : sound s gs -> gs = gs1 ++ (a, g) :: gs2 -> key (a, g) = (i, x) -> msg_type r = IGMP_MEMB_QUERY ->
  asks_within dest r = msg_time r -> (forall h, asks inp dest r h = keyed i x h) -> 0 <= msg_time r < 256 ->
  wp (hasty dest r) (igmp_delaying_member rand s a (msg_time r)) (fun s' => exists gs', Forall2 (changed (heard inp dest r)) gs gs' /\ mem s' = mem s /\ turns s gs' s').
Proof using GroupsLaws0 Hout.
  intros Hs -> Ek Ht Ew Ha Hm. eapply wp_weaken; [by apply (delaying_turns output memp_malloc rand mac_filter Hout s gs1 a g gs2)| |].
  - intros f [-> Hq]. split; [done|]. split; [done|]. by rewrite Ew.
  - intros s' (g' & Hd & Em & Htu). exists (gs1 ++ (a, g') :: gs2). split; [|done]. apply (changed_one (delayed (msg_time r)) _ _ _ _ _ _ i x (s_keys _ _ Hs) Ek Hd).
    intros h h'. unfold heard, asked_if. rewrite Ht, Z.eqb_refl, Ha, Ew. done.
Qed.

Lemma same_heard inp dest r gs : (forall g, heard inp dest r g g) -> Forall2 (changed (heard inp dest r)) gs gs.
Proof using Type. intros Hh. apply changed_all. intros e _. apply Hh. Qed.


Lemma message_fields m c r : message_at m c r ->
  hdr_u8 m (payload c) 0 = Ok (msg_type r) /\ hdr_u8 m (payload c) 1 = Ok (msg_time r) /\ hdr_u32 m (payload c) 4 = Ok (msg_group r) /\ 0 <= msg_time r < 256.
Proof using Type.
  intros (Hok & <- & Hl). change IGMP_MINLEN with 8 in Hl. pose proof (cell_data_length m c Hok) as Hz.
  pose proof (hdr_u8_ok m c Hok 0 ltac:(lia)) as E0. pose proof (hdr_u8_ok m c Hok 1 ltac:(lia)) as E1. pose proof (hdr_u32_ok m c Hok 4 ltac:(lia)) as E4.
  do 3 (split; [done|]). apply byte_at_range; [by apply cell_data_bytes|]. unfold zlen in Hz. lia.
Qed.

(** The time of a general query, as it is read for each group. *)
Lemma time_stored m0 m p l c r : held m0 m p l -> cells m !! p = Some c -> (payload c).1 = p -> message_at m c r ->
  exists m2, (if msg_time r =? 0 then save m (payload c) 1 [IGMP_V1_DELAYING_MEMBER_TMR] else Ok m) = Ok m2 /\ held m0 m2 p l /\ (backed m -> backed m2) /\
    hdr_u8 m2 (payload c) 1 = Ok (general_time r).
Proof using Type.
  intros Hh Ec Hown Hm. unfold general_time. destruct (message_fields m c r Hm) as (_ & E1 & _). destruct (msg_time r =? 0); [|by exists m].
  destruct Hm as (Hok & Hd & Hl). change IGMP_MINLEN with 8 in Hl.
  destruct (save_at m p c 1 [IGMP_V1_DELAYING_MEMBER_TMR] Ec Hok Hown) as (m2 & E & Hc & Hbo & Hbk & Hok2 & Hd2); [lia|change (zlen [IGMP_V1_DELAYING_MEMBER_TMR]) with 1; lia|by repeat constructor|].
  exists m2. split; [done|]. assert (backed m -> backed m2) as Hb by (intros Hb a; rewrite Hc; intros Ha; by apply Hbk, Hb). split; [|split; [done|]].
  - destruct Hh as [Hch Hr [Hub U] Href]. split.
    + eapply chain_frame; [|exact Hch]. intros a _. by rewrite Hc.
    + eapply Forall_impl; [exact Hr|]. intros a (ca & Ea & Hba & Hra). exists ca. rewrite Hc. split; [done|]. split; [by apply Hbk|done].
    + split; [by auto|]. intros a Ha. rewrite Hc. destruct (U a Ha) as [-> E2]. split; [done|]. rewrite Hbo; [done|]. intros ->. apply Ha. by left.
    + intros a. rewrite <- Href. unfold ref_of. by rewrite Hc.
  - pose proof (hdr_u8_ok m2 c Hok2 1 ltac:(lia)) as E2. change (Z.of_nat 1) with 1 in E2. rewrite E2, Hd2. f_equal.
    pose proof (cell_data_length m c Hok) as Hz. destruct (cell_data m c) as [|x [|y d]]; try (unfold zlen in Hz; cbn in Hz; lia). done.
Qed.

Lemma query_turns s gs inp dest r c m0 p l a : sound s gs -> held m0 (mem s) p l -> cells (mem s) !! p = Some c -> (payload c).1 = p -> message_at (mem s) c r ->
  igmp_lookfor_group (igmp_of s) inp dest = Ok a -> msg_type r = IGMP_MEMB_QUERY ->
  wp (hasty dest r) (input_query rand s inp dest a (payload c))
    (fun s' => exists gs', Forall2 (changed (heard inp dest r)) gs gs' /\ held m0 (mem s') p l /\ turns s gs' s').
Proof using GroupsLaws0 Hout.
  intros Hs Hh Ec Hown Hm Ea Ht. destruct (message_fields _ _ _ Hm) as (_ & E1 & E4 & Hr). pose proof (s_systems _ _ Hs) as [Esys _]. fold ALL_SYSTEMS in Esys.
  unfold input_query. rewrite E4. cbn [rbind]. rewrite Esys, E1. fold (general dest r). destruct (general dest r) eqn:Eg.
  - cbn [rbind]. destruct (time_stored m0 (mem s) p l c r Hh Ec Hown Hm) as (m2 & -> & Hh2 & Hb2 & E2). cbn [rbind].
    pose proof (mem_turns s gs m2 Hs (Hb2 (s_backed _ _ Hs))) as Htu.
    eapply wp_weaken; [apply (each_ok _ (heard inp dest r) (hasty dest r) (fun s => mem s = m2)); [|apply Htu|done]|done|].
    + intros s1 gs1 b g gs2 Hs1 Em. destruct (group_at_ok _ _ _ _ _ Hs1) as (g1 & -> & Eg1). cbn [rbind]. rewrite (proj1 (s_systems _ _ Hs1)). fold ALL_SYSTEMS.
      assert ((grp_netif g1 =? inp) && negb (group_address g1 =? ALL_SYSTEMS) = asks inp dest r g) as -> by (rewrite <- Eg1; unfold asks; by rewrite Eg).
      unfold heard, asked_if. rewrite Ht, Z.eqb_refl. unfold asks_within. rewrite Eg. destruct (asks inp dest r g); [|by exists g]. rewrite Em, E2. cbn [rbind].
      eapply wp_weaken; [apply (delaying_turns output memp_malloc rand mac_filter Hout s1 gs1 b g gs2 (general_time r) Hs1)| |].
      * unfold general_time. by destruct (_ =? 0).
      * intros f [-> Hq]. split; [done|]. split; [done|]. unfold asks_within. by rewrite Eg.
      * intros s' (g' & Hd & Em' & Ht'). exists g'. split; [done|]. split; [congruence|done].
    + intros s' (gs' & HF & Em & Ht'). exists gs'. split; [done|]. split; [by rewrite Em|]. exact (turns_trans _ _ _ _ _ Htu Ht').
  - destruct (msg_group r =? IPADDR_ANY) eqn:Ez; cbn [negb].
    { exists gs. split; [|split; [done|by apply turns_refl]]. apply same_heard. intros g. unfold heard, asked_if, asks. by rewrite Ht, Eg, Ez. }
    set (x := if dest =? ALL_SYSTEMS then msg_group r else dest).
    assert (forall h, asks inp dest r h = keyed inp x h) as Hask by (intros h; unfold asks; by rewrite Eg, Ez).
    assert ((if dest =? ALL_SYSTEMS then igmp_lookfor_group (igmp_of s) inp (msg_group r) else Ok a) = Ok (default 0 (fst <$> group_of gs inp x))) as ->.
    { unfold x. destruct (dest =? ALL_SYSTEMS); [by apply lookfor_ok, s_listed|]. rewrite <- Ea. by apply lookfor_ok, s_listed. }
    cbn [rbind]. destruct (group_of gs inp x) as [[b g]|] eqn:Eo; [change (default 0 (fst <$> Some (b, g))) with b|change (default 0 (fst <$> None)) with 0].
    + destruct (group_of_some _ _ _ _ Eo) as (gs1 & gs2 & Egs & Ek). destruct (listed_at _ gs b g (s_listed _ _ Hs)) as (Hb & _); [rewrite Egs; apply in_elt|].
      rewrite (proj2 (Z.eqb_neq b 0)) by done. cbn [negb rbind].
      eapply wp_weaken; [apply (lone_turns s gs inp x inp dest r b g gs1 gs2 Hs Egs Ek Ht); [unfold asks_within; by rewrite Eg|done|done]|done|].
      intros s' (gs' & HF & Em & Ht'). exists gs'. split; [done|]. split; [by rewrite Em|done].
    + exists gs. split; [|split; [done|by apply turns_refl]]. apply changed_all. intros e He. unfold heard, asked_if. rewrite Ht, Hask. cbn [Z.eqb].
      assert (keyed inp x e.2 = false) as ->; [|done]. destruct (keyed inp x e.2) eqn:E; [|done]. destruct (group_of_none _ _ _ e Eo He).
      unfold keyed in E. apply andb_true_iff in E as [<-%Z.eqb_eq <-%Z.eqb_eq]. done.
Qed.

(** ** A report *)
Lemma report_heard s gs1 a g gs2 i x : sound s (gs1 ++ (a, g) :: gs2) -> key (a, g) = (i, x) ->
  wp never (input_report s a) (fun s' => mem s' = mem s /\ turns s (gs1 ++ (a, quieted g) :: gs2) s').
Proof using GroupsLaws0.
  intros Hs Ek. unfold input_report. destruct (group_at_ok _ _ _ _ _ Hs) as (g1 & -> & Eg). cbn [rbind]. assert (group_state g1 = group_state g) as -> by by rewrite <- Eg.
  unfold quieted. destruct (_ =? _); [|by split; [|apply turns_refl]].
  destruct (upd_ok s gs1 a g gs2 _ unlinked_idle Hs) as (v' & -> & Ht & _). by split.
Qed.

(** ** A message *)

(** The packet behind its IP header. *)
Lemma message_held m p l c k hd r : sendable m p l c k -> Forall (releasable m) (p :: l) -> data_of m p = hd ++ r -> IP_HLEN <= zlen hd <= 60 ->
  let m1 := at_message m p c (zlen hd) in let c1 := moved c (- zlen hd) in
  pbuf_header m p (- zlen hd) = Ok (0, m1) /\ held m m1 p l /\ cells m1 !! p = Some c1 /\ (payload c1).1 = p /\ len c1 = zlen r /\ Pbuf.cell_ok m1 c1 /\ cell_data m1 c1 = r.
Proof using Type.
  intros Hs Hr Hd H20 m1 c1. change IP_HLEN with 20 in H20. destruct (sendable_cell _ _ _ _ _ Hs) as (_ & _ & Hok & Hcd & Hlen & _). pose proof (send_cell _ _ _ _ _ Hs) as Ec.
  rewrite Hd, zlen_app in Hlen. pose proof (zlen_nonneg r). destruct (hide m p l c k (zlen hd) Hs) as (E & _ & Hch & _); [lia|lia|]. split; [exact E|].
  destruct (moved_data m p c (zlen hd) Hok) as [Hd1 Hok1]; [lia|]. rewrite Hcd, Hd in Hd1. unfold zlen in Hd1 at 3. rewrite Nat2Z.id, drop_app_length in Hd1.
  split; [|split; [apply lookup_insert_eq|split; [|split; [cbn; lia|done]]]].
  - split; [exact Hch| | |].
    + rewrite Forall_forall in Hr |- *. intros x Hx. destruct (Hr x Hx) as (cx & Ex & Hb & Hc). unfold releasable, m1, at_message. cbn [put cells blocks].
      destruct (decide (x = p)) as [->|Hxp]; [|rewrite lookup_insert_ne by done; by exists cx]. rewrite lookup_insert_eq. eexists. split; [done|].
      assert (cx = c) as -> by congruence. done.
    + eapply untouched_weaken; [|apply untouched_put; by rewrite Ec]. intros x [->|[]]. by left.
    + intros x. unfold ref_of, m1, at_message. cbn [put cells]. destruct (decide (x = p)) as [->|Hx]; [by rewrite lookup_insert_eq, Ec|by rewrite lookup_insert_ne].
  - pose proof (List.Forall_inv (send_own _ _ _ _ _ Hs)) as Ho. unfold own in Ho. by rewrite Ec in Ho.
Qed.

(** The groups behind a message, and the fault of one. *)
Definition listens gs inp dest (r : list Z) gs' : Prop := if taken gs inp dest r then Forall2 (changed (heard inp dest r)) gs gs' else gs' = gs.
Definition input_fault gs inp dest (r : list Z) (f : fault) : Prop := taken gs inp dest r = true /\ hasty dest r f.

(** The beginning of [igmp_input]: the group, when the message is taken. *)
Lemma to_group s gs p l c k hd r inp dest : sound s gs -> sendable (mem s) p l c k -> Forall (releasable (mem s)) (p :: l) ->
  data_of (mem s) p = hd ++ r -> IP_HLEN <= zlen hd -> header_length hd = zlen hd ->
  let s1 := set_mem s (at_message (mem s) p c (zlen hd)) in let c1 := moved c (- zlen hd) in let a := default 0 (fst <$> group_of gs inp dest) in
  turns s gs s1 /\ held (mem s) (mem s1) p l /\ cells (mem s1) !! p = Some c1 /\ (payload c1).1 = p /\
  (taken gs inp dest r = true -> message_at (mem s1) c1 r) /\
  igmp_input rand s p inp dest =
    if taken gs inp dest r then
      let! s := (if msg_type r =? IGMP_MEMB_QUERY then input_query rand s1 inp dest a (payload c1)
                 else if msg_type r =? IGMP_V2_MEMB_REPORT then input_report s1 a else Ok s1) in free_packet s p
    else free_packet s1 p.
Proof using Type.
  intros Hs Hsd Hr Hd H20 Hhl s1 c1 a. assert (zlen hd <= 60) as H60 by (rewrite <- Hhl; unfold header_length; Z.div_mod_to_equations; lia).
  destruct (message_held _ _ _ _ _ _ _ Hsd Hr Hd (conj H20 H60)) as (E & Hh & Ec & Hown & Hlen & Hok & Hcd). fold c1 in Ec, Hown, Hlen, Hok, Hcd.
  set (m1 := at_message (mem s) p c (zlen hd)) in *.
  assert (turns s gs s1) as Ht1 by (apply mem_turns; [done|]; apply (h_rest _ _ _ _ Hh), (s_backed _ _ Hs)). do 4 (split; [done|]).
  unfold igmp_input. pose proof (sendable_cell _ _ _ _ _ Hsd) as (Hp0 & _). rewrite (deref_ok _ p c) by (done || apply Hsd). cbn [rbind].
  destruct (header_word (mem s) p l c k hd r Hsd Hd) as (w & -> & Ew); [change IP_HLEN with 20 in H20; unfold zlen in H20; lia|done|]. cbn [rbind]. rewrite Ew, E. cbn [rbind].
  rewrite (deref_ok m1 p c1) by done. cbn [rbind Z.eqb negb orb]. rewrite Hlen.
  unfold taken. rewrite Z.ltb_antisym. destruct (Z.leb_spec IGMP_MINLEN (zlen r)) as [H8|]; cbn [negb andb]; [|done].
  assert (message_at m1 c1 r) as Hm by (split; [done|split; [done|by rewrite Hlen]]). split; [done|].
  pose proof (proj1 Hok) as Hsm. rewrite Hlen in Hsm. pose proof (zlen_nonneg r).
  rewrite (load_ok m1 c1) by (done || lia). cbn [rbind]. rewrite Hcd. change (Z.to_nat 0) with 0%nat. rewrite drop_0, take_ge by (unfold zlen; lia).
  rewrite chksum_any by ((rewrite <- Hcd; by apply cell_data_bytes) || (unfold is_u16 in Hsm; lia)).
  destruct (inet_chksum false r =? 0); cbn [negb andb]; [|done].
  change (igmp_of (set_mem s m1)) with (igmp_of s). rewrite (lookfor_ok _ gs) by apply Hs. cbn [rbind]. fold a.
  destruct (message_fields _ _ _ Hm) as (-> & _). cbn [rbind].
  destruct (group_of gs inp dest) as [[b g]|] eqn:Eo; [|done]. rewrite bool_decide_eq_true_2 by by eexists.
  destruct (group_of_some _ _ _ _ Eo) as (gs1 & gs2 & Egs & Ek). destruct (listed_at _ gs b g (s_listed _ _ Hs)) as (Ha & _); [rewrite Egs; apply in_elt|].
  by rewrite (proj2 (Z.eqb_neq a 0)).
Qed.

Lemma taken_group gs inp dest r : taken gs inp dest r = true -> exists a g gs1 gs2, group_of gs inp dest = Some (a, g) /\ gs = gs1 ++ (a, g) :: gs2 /\ key (a, g) = (inp, dest).
Proof using Type.
  unfold taken. rewrite !andb_true_iff. intros [_ Hg%bool_decide_eq_true]. destruct Hg as [[a g] Eo]. destruct (group_of_some _ _ _ _ Eo) as (gs1 & gs2 & Egs & Ek).
  by exists a, g, gs1, gs2.
Qed.

Lemma input_turns s gs p l c k hd r inp dest : sound s gs -> sendable (mem s) p l c k -> Forall (releasable (mem s)) (p :: l) ->
  data_of (mem s) p = hd ++ r -> IP_HLEN <= zlen hd -> header_length hd = zlen hd ->
  wp (input_fault gs inp dest r) (igmp_input rand s p inp dest) (fun s' => exists gs', listens gs inp dest r gs' /\ turns s gs' s' /\ given_back (mem s) (mem s') p l).
Proof using GroupsLaws0 Hout.
  intros Hs Hsd Hr Hd H20 Hhl. destruct (to_group s gs p l c k hd r inp dest Hs Hsd Hr Hd H20 Hhl) as (Ht1 & Hh & Ec & Hown & Hm & ->). cbv zeta in *.
  set (s1 := set_mem s _) in *. set (c1 := moved _ _) in *. unfold listens. destruct (taken gs inp dest r) eqn:Htk.
  2:{ apply wp_never. eapply wp_weaken; [apply (free_sound (mem s) s1 gs p l (proj1 Ht1) Hh)|done|]. intros s' [Ht Hg]. exists gs.
      split; [done|]. split; [exact (turns_trans _ _ _ _ _ Ht1 Ht)|done]. }
  specialize (Hm eq_refl). destruct (taken_group _ _ _ _ Htk) as (a & g & gs1 & gs2 & Eo & Egs & Ek). rewrite Eo. change (default 0 (fst <$> Some (a, g))) with a.
  apply (wp_bind _ _ _ (fun s' => exists gs', Forall2 (changed (heard inp dest r)) gs gs' /\ held (mem s) (mem s') p l /\ turns s1 gs' s')).
  - destruct (Z.eqb_spec (msg_type r) IGMP_MEMB_QUERY) as [Et|Hq].
    + eapply wp_weaken; [apply (query_turns s1 gs inp dest r c1 (mem s) p l a (proj1 Ht1) Hh Ec Hown Hm)|by split|done]; [|done].
      change (igmp_of s1) with (igmp_of s). rewrite (lookfor_ok _ gs) by apply Hs. by rewrite Eo.
    + apply wp_never. destruct (Z.eqb_spec (msg_type r) IGMP_V2_MEMB_REPORT) as [Et|Hn].
      * pose proof (s_keys _ _ Hs) as Hk. rewrite Egs in Ht1, Hk. eapply wp_weaken; [by apply (report_heard s1 gs1 a g gs2 inp dest (proj1 Ht1))|done|]. intros s' [Em Ht].
        exists (gs1 ++ (a, quieted g) :: gs2). split; [|by split; [rewrite Em|]]. rewrite Egs.
        apply (changed_one (fun g g' => g' = quieted g) _ _ _ _ _ _ inp dest Hk Ek eq_refl). intros h h'. unfold heard.
        rewrite Et. change (IGMP_V2_MEMB_REPORT =? IGMP_MEMB_QUERY) with false. rewrite Z.eqb_refl. by destruct (keyed inp dest h).
      * exists gs. split; [|by split]. apply same_heard. intros h. unfold heard. by rewrite (proj2 (Z.eqb_neq _ _) Hq), (proj2 (Z.eqb_neq _ _) Hn).
  - intros s2 (gs2' & HF & Hh2 & Ht2). cbn beta. apply wp_never. eapply wp_weaken; [apply (free_sound (mem s) s2 gs2' p l (proj1 Ht2) Hh2)|done|]. intros s' [Ht Hg].
    exists gs2'. split; [done|]. split; [exact (turns_trans _ _ _ _ _ Ht1 (turns_trans _ _ _ _ _ Ht2 Ht))|done].
Qed.

(** A query for a group the interface is an idle member of, with a time of at
    most one tick, divides by zero. *)
Lemma query_faults s gs p l c k hd r inp dest b g : sound s gs -> sendable (mem s) p l c k -> Forall (releasable (mem s)) (p :: l) ->
  data_of (mem s) p = hd ++ r -> IP_HLEN <= zlen hd -> header_length hd = zlen hd ->
  taken gs inp dest r = true -> msg_type r = IGMP_MEMB_QUERY -> msg_group r <> IPADDR_ANY ->
  group_of gs inp (if dest =? ALL_SYSTEMS then msg_group r else dest) = Some (b, g) -> must_delay (msg_time r) g = true -> msg_time r <= 1 ->
  igmp_input rand s p inp dest = Fault DivByZero.
Proof using Type.
  intros Hs Hsd Hr Hd H20 Hhl Htk Ht Hx Eb Hmd Hq. destruct (to_group s gs p l c k hd r inp dest Hs Hsd Hr Hd H20 Hhl) as (Ht1 & Hh & Ec & Hown & Hm & ->). cbv zeta in *.
  set (s1 := set_mem s _) in *. set (c1 := moved _ _) in *. rewrite Htk, Ht, Z.eqb_refl. specialize (Hm Htk). destruct (message_fields _ _ _ Hm) as (_ & E1 & E4 & Hr1).
  destruct (taken_group _ _ _ _ Htk) as (a & ga & _ & _ & Eo & _). rewrite Eo. change (default 0 (fst <$> Some (a, ga))) with a.
  unfold input_query. rewrite E4, (proj1 (s_systems _ _ (proj1 Ht1))), E1. cbn [rbind]. fold ALL_SYSTEMS. rewrite (proj2 (Z.eqb_neq _ _) Hx), andb_false_r. cbn [negb].
  assert ((if dest =? ALL_SYSTEMS then igmp_lookfor_group (igmp_of s1) inp (msg_group r) else Ok a) = Ok b) as ->.
  { destruct (dest =? ALL_SYSTEMS); [rewrite (lookfor_ok _ gs) by apply Hs; by rewrite Eb|]. rewrite Eo in Eb. congruence. }
  cbn [rbind]. destruct (group_of_some _ _ _ _ Eb) as (gs1 & gs2 & Egs & _). destruct (listed_at _ gs b g (s_listed _ _ Hs)) as (Hb & _); [rewrite Egs; apply in_elt|].
  rewrite (proj2 (Z.eqb_neq b 0)) by done. cbn [negb]. destruct Ht1 as [Hs1 _]. rewrite Egs in Hs1. by rewrite (delaying_faults rand s1 gs1 b g gs2 _ Hs1 (conj (proj1 Hr1) Hq) Hmd).
Qed.
End input.
