(* ===== verification/IgmpCalls.v ===== *)
(** * The promises of IGMP: theorems about [lwip/core/ipv4/igmp.c].

    Any sequence of calls refines a map from interfaces and addresses to
    numbers of uses; a query is answered within its time. *)
From S2P Require Import Prelude Cobs Uart Comm Message Pbuf PbufChain PbufCopy PbufTrim InetChksum IpHdr IpAddr.
From S2P Require Import Linked RawPcb Etharp EtharpTable EtharpPackets Netif Ip IpOutput IpInput Icmp IcmpEcho Udp UdpPorts UdpInput UdpOutput.
From S2P Require Import Dns DnsNames DnsRecv DnsSend DnsTable Igmp IgmpGroups IgmpSend IgmpLife IgmpMember IgmpLeave IgmpInput.
From stdpp Require Import list gmap.
#[local] Open Scope Z_scope.
#[local] Transparent bytes_u16.

Implicit Types (g : igmp_group) (v : igmp) (gs : list (Z * igmp_group)) (i x : Z).

(** ** The specification *)

(** The calls of the rest of the stack. *)
Inductive group_call := Start (netif : Z) | Stop (netif : Z) | Join (ifaddr groupaddr : Z) | Leave (ifaddr groupaddr : Z) | Report (netif : Z) | Tick.

(** The uses of each interface and address. *)
Definition membership := Z -> Z -> option Z.
Implicit Types U : membership.
Definition at_key U i x (u : option Z) U' : Prop := forall i' x', U' i' x' = if decide ((i', x') = (i, x)) then u else U i' x'.
Definition on_all U (l : list Z) (part : Z -> bool) x (f : option Z -> option Z) U' : Prop :=
  forall i' x', U' i' x' = if decide (x' = x /\ In i' l /\ part i' = true) then f (U i' x') else U i' x'.
Definition unchanged U U' : Prop := forall i x, U' i x = U i x.
(** A group one can join and leave. *)
Definition open_group x : bool := ip_addr_ismulticast x && negb (x =? ALL_SYSTEMS).

(** What a call may do, on the interfaces [l]; those with [part ifaddr] take
    part in a call for [ifaddr].  A call that runs out of memory has joined
    the first of them only. *)
Definition allowed (l : list Z) (part : Z -> Z -> bool) (c : group_call) U (err : Z) U' : Prop :=
  match c with
  | Start i => err = ERR_MEM /\ U i ALL_SYSTEMS = None /\ unchanged U U' \/ err = ERR_OK /\ at_key U i ALL_SYSTEMS (one_more (U i ALL_SYSTEMS)) U'
  | Stop i => err = ERR_OK /\ forall i' x, U' i' x = if decide (i' = i) then None else U i' x
  | Join ifaddr x =>
      if open_group x then exists l1 l2, l = l1 ++ l2 /\ on_all U l1 (part ifaddr) x one_more U' /\
        (err = ERR_MEM /\ l2 <> [] \/ l2 = [] /\ err = if existsb (part ifaddr) l then ERR_OK else ERR_VAL)
      else err = ERR_VAL /\ unchanged U U'
  | Leave ifaddr x =>
      if open_group x then on_all U l (part ifaddr) x one_less U' /\
        err = if existsb (fun i => part ifaddr i && bool_decide (is_Some (U i x))) l then ERR_OK else ERR_VAL
      else err = ERR_VAL /\ unchanged U U'
  | Report _ | Tick => err = ERR_OK /\ unchanged U U'
  end.
Inductive trace (l : list Z) (part : Z -> Z -> bool) : list group_call -> membership -> list Z -> membership -> Prop :=
  | trace_nil U : trace l part [] U [] U
  | trace_cons c cs U err U1 errs U2 : allowed l part c U err U1 -> trace l part cs U1 errs U2 -> trace l part (c :: cs) U (err :: errs) U2.

(** ** Uses and timers *)
Lemma changed_uses (R : igmp_group -> igmp_group -> Prop) gs gs' :
  (forall g g', R g g' -> grp_netif g' = grp_netif g /\ group_address g' = group_address g /\ grp_use g' = grp_use g) ->
  Forall2 (changed R) gs gs' -> unchanged (uses gs) (uses gs').
Proof.
  intros HR. induction 1 as [|[a g] [a' g'] gs gs' [Ea Hr] HF IH]; [done|]. cbn [fst snd] in Ea, Hr. destruct (HR _ _ Hr) as (E1 & E2 & E3).
  intros i x. unfold uses. rewrite !group_of_cons. unfold key. cbn [snd]. rewrite E1, E2. destruct (decide _); [cbn; by rewrite E3|apply IH].
Qed.
Lemma ticked_same short g g' : ticked short g g' -> grp_netif g' = grp_netif g /\ group_address g' = group_address g /\ grp_use g' = grp_use g.
Proof. unfold ticked. destruct (_ <? _); [intros [[-> _]|(_ & _ & ->)]|intros ->]; done. Qed.
Lemma delayed_same m g g' : delayed m g g' -> grp_netif g' = grp_netif g /\ group_address g' = group_address g /\ grp_use g' = grp_use g.
Proof. unfold delayed. destruct (must_delay m g); [intros (t & _ & ->)|intros ->]; done. Qed.
Lemma asked_same c m g g' : asked_if c m g g' -> grp_netif g' = grp_netif g /\ group_address g' = group_address g /\ grp_use g' = grp_use g.
Proof. unfold asked_if. destruct (c g); [apply delayed_same|by intros ->]. Qed.

(** Behind [n] ticks of the timer: a group whose time ran out has reported,
    unless memory is [short]. *)
Definition elapsed (short : Prop) (n : Z) g g' : Prop :=
  grp_timer g' = (if 0 <? grp_timer g then Z.max 0 (grp_timer g - n) else grp_timer g) /\ group_state g' = group_state g /\
  (grp_netif g' = grp_netif g /\ group_address g' = group_address g /\ grp_use g' = grp_use g) /\
  (last_reporter_flag g' = last_reporter_flag g /\ (group_state g = IGMP_GROUP_DELAYING_MEMBER -> 1 <= grp_timer g <= n -> short) \/
   last_reporter_flag g' = 1 /\ group_state g = IGMP_GROUP_DELAYING_MEMBER /\ 1 <= grp_timer g <= n).
Lemma elapsed_none short g : elapsed short 0 g g.
Proof. split; [destruct (Z.ltb_spec 0 (grp_timer g)); lia|]. split; [done|]. split; [done|left; split; [done|lia]]. Qed.
Lemma elapsed_tick short n g g1 g2 : 0 <= n -> ticked short g g1 -> elapsed short n g1 g2 -> elapsed short (n + 1) g g2.
Proof.
  intros Hn Ht (E1 & E2 & (E3 & E4 & E5) & E6). destruct (ticked_same _ _ _ Ht) as (K1 & K2 & K3). unfold ticked in Ht. destruct (Z.ltb_spec 0 (grp_timer g)) as [Hp|Hp].
  - assert (grp_timer g1 = grp_timer g - 1 /\ group_state g1 = group_state g) as [Et Es] by (destruct Ht as [[-> _]|(_ & _ & ->)]; done).
    assert (last_reporter_flag g1 = last_reporter_flag g /\ (grp_timer g = 1 -> group_state g = IGMP_GROUP_DELAYING_MEMBER -> short) \/
      last_reporter_flag g1 = 1 /\ grp_timer g = 1 /\ group_state g = IGMP_GROUP_DELAYING_MEMBER) as Hf
      by (destruct Ht as [[-> ?]|(? & ? & ->)]; [by left|by right]).
    split; [rewrite E1, Et, (proj2 (Z.ltb_lt 0 (grp_timer g)) Hp); destruct (Z.ltb_spec 0 (grp_timer g - 1)); lia|]. split; [congruence|]. split; [split; [congruence|split; congruence]|].
    rewrite Et, Es in E6. destruct E6 as [[-> Hs]|(-> & ? & ?)]; [|right; split; [done|split; [done|lia]]].
    destruct Hf as [[-> Hs1]|(-> & ? & ?)]; [left|right; split; [done|split; [done|lia]]]. split; [done|]. intros Hst Hr.
    destruct (Z.eq_dec (grp_timer g) 1) as [E|Hne]; [by apply Hs1|apply Hs; [done|lia]].
  - subst g1. split; [rewrite E1; destruct (Z.ltb_spec 0 (grp_timer g)); lia|]. split; [done|]. split; [done|]. destruct E6 as [[? _]|(? & ? & ?)]; [left; split; [done|lia]|lia].
Qed.

Section calls.
Context `{OsLaws} {F Y : Type} `{GY : Groups Y} `{!GroupsLaws Y}.
Abbreviation state := (net (stack (raws F) Y)).
Implicit Types s : state.
Context (output : state -> Z -> Z -> Z -> result (Z * state)) (memp_malloc : gmap Z igmp_group -> option Z)
        (rand : Y -> Z * Y) (mac_filter : Z -> Z -> Z -> Z -> Y -> Y).

Definition make s (c : group_call) : result (Z * state) :=
  match c with
  | Start netif => igmp_start memp_malloc mac_filter s netif
  | Stop netif => let! s := igmp_stop mac_filter s netif in Ok (ERR_OK, s)
  | Join ifaddr groupaddr => igmp_joingroup output memp_malloc rand mac_filter s ifaddr groupaddr
  | Leave ifaddr groupaddr => igmp_leavegroup output mac_filter s ifaddr groupaddr
  | Report netif => let! s := igmp_report_groups rand s netif in Ok (ERR_OK, s)
  | Tick => let! s := igmp_tmr output s in Ok (ERR_OK, s)
  end.
Fixpoint calls s (cs : list group_call) : result (list Z * state) :=
  match cs with
  | [] => Ok ([], s)
  | c :: cs => let! (err, s) := make s c in let! (errs, s) := calls s cs in Ok (err :: errs, s)
  end.
(** The interfaces and addresses of a call exist. *)
Definition call_ok s (c : group_call) : Prop :=
  match c with Start i | Stop i => there s i | Join _ x => is_u32 x | _ => True end.

Context (Hout : outside output memp_malloc rand mac_filter).

Lemma make_turns s gs l c : sound s gs -> linked nif_next (nifs (ifs (env s))) (netif_list (ifs (env s))) l -> call_ok s c ->
  wp never (make s c) (fun '(err, s') => exists gs', turns s gs' s' /\ allowed l (takes_part s) c (uses gs) err (uses gs')).
Proof using All.
  intros Hs Hl Hc. pose proof (s_systems _ _ Hs) as [Esys _]. fold ALL_SYSTEMS in Esys. pose proof (list_fuel_enough _ _ _ _ Hl) as Hf. destruct c as [i|i|ifaddr x|ifaddr x|i|]; cbn [make allowed call_ok] in *.
  - eapply wp_weaken; [apply (start_turns_ok output memp_malloc rand mac_filter Hout s gs i Hs Hc)|done|]. intros [err s'] (gs' & Ht & [(He & Hn & ->)|(He & Hn)]); eexists; (split; [exact Ht|]); [by left|by right].
  - eapply wp_bind; [apply (stop_turns output memp_malloc rand mac_filter Hout s gs i Hs Hc)|]. intros s' (gs' & Ht & Hu). by exists gs'.
  - unfold igmp_joingroup, open_group. rewrite Esys. destruct (ip_addr_ismulticast x); cbn [negb andb]; [destruct (x =? ALL_SYSTEMS); cbn [negb]|]; [by exists gs| |by exists gs].
    eapply wp_weaken; [apply (join_loop_ok output memp_malloc rand mac_filter Hout ifaddr x l _ s gs _ ERR_VAL Hs Hc Hl Hf)|done|].
    intros [err s'] (gs' & l1 & l2 & El & Ht & Ho & He). exists gs'. split; [done|]. by exists l1, l2.
  - unfold igmp_leavegroup, open_group. rewrite Esys. destruct (ip_addr_ismulticast x); cbn [negb andb]; [destruct (x =? ALL_SYSTEMS); cbn [negb]|]; [by exists gs| |by exists gs].
    eapply wp_weaken; [apply (leave_loop_ok output memp_malloc rand mac_filter Hout ifaddr x l _ s gs _ ERR_VAL Hs Hl Hf)|done|].
    intros [err s'] (gs' & Ht & Ho & He). by exists gs'.
  - eapply wp_bind; [apply (report_turns output memp_malloc rand mac_filter Hout s gs i Hs)|]. intros s' (gs' & HF & Ht). exists gs'. split; [done|]. split; [done|].
    eapply changed_uses; [|exact HF]. intros g g'. apply asked_same.
  - eapply wp_bind; [apply (tmr_turns output memp_malloc rand mac_filter Hout s gs Hs)|]. intros s' (gs' & HF & Ht). exists gs'. split; [done|]. split; [done|].
    eapply changed_uses; [|exact HF]. apply ticked_same.
Qed.

(** C21: any sequence of [igmp_start], [igmp_stop], [igmp_joingroup],
    [igmp_leavegroup], [igmp_report_groups] and ticks of [igmp_tmr] runs
    without a fault, keeps the invariant, and refines the map from interfaces
    and addresses to numbers of uses: each call returns the error, and
    changes the uses, as the specification allows. *)
Theorem igmp_refines_membership cs : forall s gs l, sound s gs -> linked nif_next (nifs (ifs (env s))) (netif_list (ifs (env s))) l -> Forall (call_ok s) cs ->
  wp never (calls s cs) (fun '(errs, s') => exists gs', turns s gs' s' /\ trace l (takes_part s) cs (uses gs) errs (uses gs')).
Proof using All.
  induction cs as [|c cs IH]; intros s gs l Hs Hl Hcs; cbn [calls].
  - exists gs. split; [by apply turns_refl|constructor].
  - apply Forall_cons in Hcs as [Hc Hcs]. eapply wp_bind; [by apply make_turns|]. intros [err s1] (gs1 & [Hs1 E1] & Ha). cbn beta iota.
    assert (takes_part s1 = takes_part s) as Ep by (unfold takes_part; by rewrite E1).
    eapply wp_bind; [apply (IH s1 gs1 l Hs1); [by rewrite E1|]|].
    + eapply Forall_impl; [exact Hcs|]. intros [] Hd; cbn [call_ok] in *; unfold there in *; by rewrite ?E1.
    + intros [errs s2] (gs2 & [Hs2 E2] & Ht). cbn beta iota. rewrite Ep in Ht. exists gs2. split; [split; [done|congruence]|]. by econstructor.
Qed.

(** ** Time *)

Fixpoint igmp_ticks (n : nat) s : result state :=
  match n with O => Ok s | S n => let! s := igmp_tmr output s in igmp_ticks n s end.
Lemma ticks_turns n : forall s gs, sound s gs -> wp never (igmp_ticks n s) (fun s' => exists gs', Forall2 (changed (elapsed (~ plenty) (Z.of_nat n))) gs gs' /\ turns s gs' s').
Proof using All.
  induction n as [|n IH]; intros s gs Hs; cbn [igmp_ticks].
  - exists gs. split; [|by apply turns_refl]. apply changed_all. intros e _. apply elapsed_none.
  - eapply wp_bind; [by apply (tmr_turns output memp_malloc rand mac_filter Hout)|]. intros s1 (gs1 & HF1 & Ht1). cbn beta. eapply wp_weaken; [apply (IH s1 gs1 (proj1 Ht1))|done|].
    intros s2 (gs2 & HF2 & Ht2). exists gs2. split; [|exact (turns_trans _ _ _ _ _ Ht1 Ht2)]. rewrite Nat2Z.inj_succ. unfold Z.succ.
    clear -HF1 HF2. revert gs2 HF2. induction HF1 as [|e e1 gs gs1 [Ea Ht] HF1 IH]; intros gs2 HF2; inversion HF2 as [|? e2 ? gs2' [Eb He] HF2']; subst; constructor; [|by apply IH].
    split; [congruence|]. eapply elapsed_tick; [lia|exact Ht|exact He].
Qed.

(** ** Messages *)

(** C24: a report goes to the group and a leave message to all routers, with
    TTL 1 and the router alert option, from the interface of the group; the
    header and the message verify, and a report marks the group as reported
    by this host.  Only when [pbuf_alloc] has
    no memory nothing happens. *)
Theorem igmp_send_reports s gs1 a g gs2 n type : sound s (gs1 ++ (a, g) :: gs2) -> type = IGMP_V2_MEMB_REPORT \/ type = IGMP_LEAVE_GROUP ->
  nifs (ifs (env s)) !! grp_netif g = Some n ->
  pbuf_alloc (mem s) PBUF_TRANSPORT IGMP_MINLEN PBUF_RAM = Ok (0, mem s) /\ igmp_send output s a type = Ok s \/
  exists p m v chk, cells (mem s) !! p = None /\ untouched (mem s) m [p] /\ packet m p [p] /\
    turns s (gs1 ++ (a, reported type g) :: gs2) (set_igmp s v) /\
    let dest := if type =? IGMP_V2_MEMB_REPORT then group_address g else IP4_ADDR 224 0 0 2 in
    let hdr := ip_header IGMP_TTL 0 IP_PROTO_IGMP 32 (ip_id (ipv (env s))) (nif_ip_addr n) dest chk router_alert in
    let msg := igmp_message type (group_address g) in
    contents m [p] = hdr ++ msg /\ (forall odd, inet_chksum odd hdr = 0) /\ inet_chksum false msg = 0 /\
    igmp_send output s a type = (let! (_, s') := output (numbered (set_igmp s v) m) (grp_netif g) p dest in free_packet s' p).
Proof using GroupsLaws0 H0.
  intros Hs Hty En. destruct (send_ok output s gs1 a g gs2 n type Hs Hty En) as [?|(p & m & v & chk & Hf & U & Hpk & Ht & Hc & Hv & E)]; [by left|right].
  exists p, m, v, chk. split; [exact Hf|]. split; [exact U|]. split; [exact Hpk|]. split; [exact Ht|]. split; [exact Hc|]. split; [exact Hv|]. split; [|exact E].
  apply igmp_verifies. by destruct Hty as [-> | ->].
Qed.

(** C22: [igmp_input] gives the packet back, and takes a message that is
    complete, verifies and went to a group of the interface: a query starts
    the timers of the groups it asks within its time, a report of somebody
    else silences the group, and everything else changes nothing.  It faults
    only by a query that leaves no time. *)
Theorem igmp_input_heard s gs p l c k hd r inp dest : sound s gs -> sendable (mem s) p l c k -> Forall (releasable (mem s)) (p :: l) ->
  data_of (mem s) p = hd ++ r -> IP_HLEN <= zlen hd -> header_length hd = zlen hd ->
  wp (fun f => taken gs inp dest r = true /\ hasty dest r f) (igmp_input rand s p inp dest)
     (fun s' => exists gs', (if taken gs inp dest r then Forall2 (changed (heard inp dest r)) gs gs' else gs' = gs) /\
        turns s gs' s' /\ given_back (mem s) (mem s') p l).
Proof using GroupsLaws0 Hout. exact (input_turns output memp_malloc rand mac_filter Hout s gs p l c k hd r inp dest). Qed.

(** A member of a group that was asked. *)
Definition a_member g : Prop := group_state g = IGMP_GROUP_IDLE_MEMBER \/ group_state g = IGMP_GROUP_DELAYING_MEMBER.
Definition answered inp dest (r : list Z) g g' : Prop :=
  asks inp dest r g = true -> a_member g -> grp_timer g' = 0 /\ group_state g' = IGMP_GROUP_DELAYING_MEMBER /\
    (last_reporter_flag g' = 1 \/ last_reporter_flag g' = last_reporter_flag g /\ ~ plenty).
Lemma asked_elapsed inp dest r n g g1 g2 : asks_within dest r <= n -> msg_type r = IGMP_MEMB_QUERY -> is_u16 (grp_timer g) ->
  heard inp dest r g g1 -> elapsed (~ plenty) n g1 g2 -> answered inp dest r g g2.
Proof using Type.
  intros Hn Ht Hg Hh (E1 & E2 & _ & E4) Hask Hmem. unfold heard, asked_if in Hh. rewrite Ht, Z.eqb_refl, Hask in Hh. unfold delayed in Hh. set (m := asks_within dest r) in *.
  assert (exists t, 0 < t <= m /\ grp_timer g1 = t /\ group_state g1 = IGMP_GROUP_DELAYING_MEMBER /\ last_reporter_flag g1 = last_reporter_flag g) as (t & Hb & Et & Es & Ef).
  { unfold must_delay in Hh. destruct Hmem as [Em|Em]; rewrite Em in Hh; cbn [Z.eqb orb andb] in Hh.
    - destruct Hh as (t & Hb & ->). exists t. split; [lia|done].
    - change (IGMP_GROUP_DELAYING_MEMBER =? IGMP_GROUP_IDLE_MEMBER) with false in Hh. rewrite Z.eqb_refl in Hh. cbn [orb andb] in Hh.
      unfold is_u16 in Hg. destruct (Z.eqb_spec (grp_timer g) 0) as [Hz|Hz]; [|destruct (Z.ltb_spec m (grp_timer g)) as [Hl|Hl]]; cbn [orb] in Hh;
        [destruct Hh as (t & Hb & ->); exists t; (split; [lia|done])..|subst g1; exists (grp_timer g); split; [lia|done]]. }
  rewrite Et in E1, E4. rewrite (proj2 (Z.ltb_lt 0 t)) in E1 by lia. split; [lia|]. split; [congruence|]. rewrite Ef in E4. destruct E4 as [[? Hs]|(? & _)]; [right|by left].
  split; [done|]. apply Hs; [done|lia].
Qed.


(** C25: a query for one group, with a response time of at most a tenth of a
    second, divides by zero when the interface is an idle member of it:
    [igmp_start_timer] reduces a random number modulo [max_time - 1]. *)
Theorem igmp_query_divides s gs p l c k hd r inp dest b g : sound s gs -> sendable (mem s) p l c k -> Forall (releasable (mem s)) (p :: l) ->
  data_of (mem s) p = hd ++ r -> IP_HLEN <= zlen hd -> header_length hd = zlen hd ->
  taken gs inp dest r = true -> msg_type r = IGMP_MEMB_QUERY -> msg_group r <> IPADDR_ANY -> msg_time r <= 1 ->
  group_of gs inp (if dest =? ALL_SYSTEMS then msg_group r else dest) = Some (b, g) -> group_state g = IGMP_GROUP_IDLE_MEMBER ->
  igmp_input rand s p inp dest = Fault DivByZero.
Proof using Type.
  intros Hs Hsd Hr Hd H20 Hhl Htk Ht Hx Hm Eb Hg. eapply (query_faults rand s gs p l c k hd r inp dest b g); try done. unfold must_delay. by rewrite Hg.
Qed.
End calls.

(** ** Examples *)

#[export] Instance groups_here_laws {X} : GroupsLaws (igmp * X).
Proof. split; by intros []. Qed.

Abbreviation small_state := (net (stack (raws Z) (igmp * list (list Z)))).
(** Interfaces that take every packet, a pool of two groups, and a random
    number. *)
Definition take_report (s : small_state) (nif p dest : Z) : result (Z * small_state) := Ok (ERR_OK, s).
Definition two_groups (m : gmap Z igmp_group) : option Z :=
  if bool_decide (is_Some (m !! 4096)) then if bool_decide (is_Some (m !! 4128)) then None else Some 4128 else Some 4096.
Definition roll (y : igmp * list (list Z)) : Z * (igmp * list (list Z)) := (7, y).
Definition no_filter (f netif addr action : Z) (y : igmp * list (list Z)) : igmp * list (list Z) := y.
Lemma small_outside : outside take_report two_groups roll no_filter.
Proof.
  split.
  - intros s netif p dest l Hb Hch. by exists ERR_OK, s.
  - intros m a. unfold two_groups. destruct (bool_decide_reflect (is_Some (m !! 4096))) as [|H1]; [destruct (bool_decide_reflect (is_Some (m !! 4128))) as [|H1]|]; intros E; try done;
      injection E as <-; (split; [done|]); by apply eq_None_not_Some.
  - done.
  - done.
Qed.

Definition igmp_station : netif_struct := set_nif_flags station 0xb3.
Definition igmp_ifs : interfaces := Interfaces 2 1 2 (list_to_map [(1, igmp_station); (2, access_point)]).
Definition some_group : Z := IP4_ADDR 239 1 2 3.
Definition idle_group : igmp_group := IgmpGroup 0 1 some_group 0 IGMP_GROUP_IDLE_MEMBER 0 1.
Definition one_group : igmp := Igmp 4096 (list_to_map [(4096, idle_group)]) ALL_SYSTEMS (IP4_ADDR 224 0 0 2).
Definition group_net (m : store) : small_state :=
  Net some_entries 0 m (Stack igmp_ifs two_tcps (IpVars 1 None 0 0 1) (Raws 0 empty) (one_group, no_log)).

Lemma igmp_ifs_list : linked nif_next (nifs igmp_ifs) (netif_list igmp_ifs) [2; 1].
Proof. repeat split; try done. eexists. split; [reflexivity|]. repeat split; try done. eexists. by split. Qed.
Lemma group_net_sound m : backed m -> sound (group_net m) [(4096, idle_group)].
Proof.
  intros Hb. split; try done.
  - split; [|by constructor]. split; [done|]. split; [done|]. by exists idle_group.
  - by apply NoDup_singleton.
  - constructor; [|done]. split; [done|]. split; [by eexists|]. by apply (bool_decide_unpack _).
  - intros a n Ha. revert a n Ha. change (map_Forall (fun _ n => is_u32 (nif_ip_addr n)) (nifs igmp_ifs)). by apply (bool_decide_unpack _).
Qed.

(** Another use of the group, one less, and the interface stops. *)
Definition some_calls : list group_call := [Join 0 some_group; Leave 0 some_group; Start 1; Tick; Join 0 5; Stop 1].
Lemma some_calls_ok m : Forall (call_ok (group_net m)) some_calls.
Proof. repeat constructor; try done; try (by eexists); by apply (bool_decide_unpack _). Qed.
Lemma igmp_refines_membership_witness :
  sound (group_net one_waiting) [(4096, idle_group)] /\
  exists errs s' gs', calls take_report two_groups roll no_filter (group_net one_waiting) some_calls = Ok (errs, s') /\ sound s' gs' /\
    trace [2; 1] (takes_part (group_net one_waiting)) some_calls (uses [(4096, idle_group)]) errs (uses gs').
Proof.
  pose proof (group_net_sound one_waiting one_waiting_backed) as Hs. split; [exact Hs|].
  pose proof (igmp_refines_membership take_report two_groups roll no_filter small_outside some_calls (group_net one_waiting) [(4096, idle_group)] [2; 1] Hs igmp_ifs_list (some_calls_ok _)) as Hx.
  destruct (proj1 (wp_ok _ _) Hx) as ([errs s'] & E & gs' & [Hs' _] & Ht). exists errs, s', gs'. split; [exact E|]. split; [exact Hs'|exact Ht].
Defined.
Example some_calls_errors : (let! (errs, _) := calls take_report two_groups roll no_filter (group_net one_waiting) some_calls in Ok errs) = Ok [ERR_OK; ERR_OK; ERR_OK; ERR_OK; ERR_VAL; ERR_OK].
Proof. vm_compute. reflexivity. Qed.

Lemma igmp_send_reports_witness :
  sound (group_net one_waiting) [(4096, idle_group)] /\
  (igmp_send take_report (group_net one_waiting) 4096 IGMP_V2_MEMB_REPORT = Ok (group_net one_waiting) \/
   exists p m v, contents m [p] <> [] /\ inet_chksum false (igmp_message IGMP_V2_MEMB_REPORT some_group) = 0 /\
     igmp_send take_report (group_net one_waiting) 4096 IGMP_V2_MEMB_REPORT = free_packet (numbered (set_igmp (group_net one_waiting) v) m) p).
Proof.
  pose proof (group_net_sound one_waiting one_waiting_backed) as Hs. split; [exact Hs|].
  destruct (igmp_send_reports take_report (group_net one_waiting) [] 4096 idle_group [] igmp_station IGMP_V2_MEMB_REPORT Hs (or_introl eq_refl) eq_refl) as [[_ E]|(p & m & v & chk & _ & _ & _ & _ & Hc & _ & Hv & E)]; [left; exact E|right].
  exists p, m, v. split; [|split; [exact Hv|exact E]]. rewrite Hc. discriminate.
Defined.

(** A query of the host for the group, to be answered within a time. *)
Definition query_header : list Z := ip_header 1 0 IP_PROTO_IGMP 28 1 from_host some_group (header_chksum 1 0 IP_PROTO_IGMP 28 1 from_host some_group []) [].
Definition query (time : Z) : list Z :=
  [IGMP_MEMB_QUERY; time] ++ bytes_u16 (inet_chksum false ([IGMP_MEMB_QUERY; time; 0; 0] ++ u32_bytes some_group)) ++ u32_bytes some_group.
Definition query_net (time : Z) : small_state := group_net (room_store (query_header ++ query time)).
Lemma room_backed d : backed (room_store d).
Proof.
  intros a. unfold room_store. cbn [cells blocks]. destruct (decide (a = 600)) as [->|Hn]; [rewrite !lookup_insert_eq; intros _; by eexists|].
  rewrite !lookup_insert_ne by done. apply one_waiting_backed.
Qed.
Lemma query_sendable time : 0 <= time < 256 -> bytes (query time) ->
  sendable (room_store (query_header ++ query time)) 600 [] (room_pbuf (query_header ++ query time)) PBUF_LINK_HLEN.
Proof.
  intros Ht Hb. apply room_sendable; [apply bytes_app; split; [by apply (bool_decide_unpack _); vm_compute|done]|]. rewrite zlen_app. change (zlen (query time)) with 8. change (zlen query_header) with 20. lia.
Qed.
Lemma query_header_ok : header_length query_header = zlen query_header.
Proof. by vm_compute. Qed.
Lemma queries_bytes : bytes (query 100) /\ bytes (query 1).
Proof. split; by apply (bool_decide_unpack _); vm_compute. Qed.

Lemma igmp_input_heard_witness :
  taken [(4096, idle_group)] 1 some_group (query 100) = true /\
  exists s' gs', igmp_input roll (query_net 100) 600 1 some_group = Ok s' /\ Forall2 (changed (heard 1 some_group (query 100))) [(4096, idle_group)] gs' /\ sound s' gs' /\
    cells (mem s') !! 600 = None.
Proof.
  assert (taken [(4096, idle_group)] 1 some_group (query 100) = true) as Htk by (vm_compute; reflexivity). split; [exact Htk|].
  pose proof (group_net_sound _ (room_backed (query_header ++ query 100))) as Hs. pose proof (query_sendable 100 ltac:(lia) (proj1 queries_bytes)) as Hsd.
  pose proof (igmp_input_heard take_report two_groups roll no_filter small_outside (query_net 100) [(4096, idle_group)] 600 [] _ PBUF_LINK_HLEN query_header (query 100) 1 some_group
    Hs Hsd (room_releasable _) (room_held _) ltac:(discriminate) query_header_ok) as Hx. rewrite Htk in Hx.
  destruct (igmp_input roll (query_net 100) 600 1 some_group) as [s'|f] eqn:E; cbn [wp] in Hx.
  - destruct Hx as (gs' & HF & [Hs' _] & _ & Hg). exists s', gs'. split; [reflexivity|]. split; [exact HF|]. split; [exact Hs'|].
    apply Hg; [|left; reflexivity]. constructor; [unfold ref_of; cbn [mem query_net group_net]; rewrite room_cell; reflexivity|constructor].
  - destruct Hx as (_ & _ & _ & Hq). exfalso. apply Hq. vm_compute. reflexivity.
Defined.

Lemma igmp_query_divides_witness :
  taken [(4096, idle_group)] 1 some_group (query 1) = true /\ igmp_input roll (query_net 1) 600 1 some_group = Fault DivByZero.
Proof.
  assert (taken [(4096, idle_group)] 1 some_group (query 1) = true) as Htk by (vm_compute; reflexivity). split; [exact Htk|].
  pose proof (group_net_sound _ (room_backed (query_header ++ query 1))) as Hs. pose proof (query_sendable 1 ltac:(lia) (proj2 queries_bytes)) as Hsd.
  apply (igmp_query_divides roll (query_net 1) [(4096, idle_group)] 600 [] _ PBUF_LINK_HLEN query_header (query 1) 1 some_group 4096 idle_group
    Hs Hsd (room_releasable _) (room_held _) ltac:(discriminate) query_header_ok Htk); [vm_compute; reflexivity|vm_compute; discriminate|vm_compute; discriminate|vm_compute; reflexivity|reflexivity].
Defined.

(** With memory for every report the group reports. *)
Module Plenty.
#[local] Instance os : Os := {
  os_malloc h n := Some (fresh ({[ 0 ]} ∪ dom h : gset Z), replicate (Z.to_nat n) 0xA5);
  system_get_free_heap_size h := 30000;
  os_sprintf f args := []
}.
#[local] Instance laws : OsLaws.
Proof.
  split. intros h n p b Hn [= <- <-]. pose proof (is_fresh ({[ 0 ]} ∪ dom h : gset Z)) as Hf. rewrite elem_of_union, elem_of_singleton in Hf.
  split; [apply not_elem_of_dom; tauto|]. split; [tauto|]. split; [unfold zlen; rewrite length_replicate; lia|]. apply Forall_replicate. unfold is_byte. lia.
Qed.
Lemma has_plenty : plenty.
Proof.
  intros m m' E. unfold pbuf_alloc, pbuf_malloc in E. cbn in E. injection E as E _.
  pose proof (is_fresh ({[ 0 ]} ∪ dom (blocks m) : gset Z)) as Hf. rewrite E in Hf. set_solver.
Qed.

End Plenty.
