(* ===== verification/Dhcp.v ===== *)
(** * The DHCP client: [lwip/core/dhcp.c] and [include/lwip/dhcp.h].

    The client of each interface with its state machine and timers, the
    messages it sends through the UDP of [Udp], and the parsing of replies.
    What it calls of the interfaces, of ARP and of the resolver are [Netif],
    [Etharp] and [Dns]; the allocator, the report of the address to the SDK and
    what [Netif] leaves open are parameters.  The configuration has no AutoIP,
    no host names and no boot files. *)
From S2P Require Import Prelude Cobs Uart Comm Message Pbuf InetChksum IpHdr IpAddr Linked RawPcb Etharp Netif Ip Icmp Udp Dns.
From stdpp Require Import list gmap.
#[local] Open Scope Z_scope.

Definition DHCP_COARSE_TIMER_SECS : Z := 60.
Definition DHCP_FINE_MSECS : Z := 500.
Definition DHCP_CHADDR_LEN : Z := 16.
Definition DHCP_SNAME_LEN : Z := 64.
Definition DHCP_FILE_LEN : Z := 128.
Definition DHCP_MIN_OPTIONS_LEN : Z := 68.
Definition DHCP_OPTIONS_LEN : Z := DHCP_MIN_OPTIONS_LEN.
Definition DHCP_SNAME_OFS : Z := 44.
Definition DHCP_FILE_OFS : Z := 108.
Definition DHCP_MSG_LEN : Z := 236.
Definition DHCP_OPTIONS_OFS : Z := DHCP_MSG_LEN + 4.
Definition SIZEOF_DHCP_MSG : Z := DHCP_OPTIONS_OFS + DHCP_OPTIONS_LEN.
Definition DHCP_MIN_REPLY_LEN : Z := 44.
Definition DHCP_MAX_MSG_LEN_MIN_REQUIRED : Z := 576.
Definition REBOOT_TRIES : Z := 2.

Definition DHCP_OFF : Z := 0.
Definition DHCP_REQUESTING : Z := 1.
Definition DHCP_REBOOTING : Z := 3.
Definition DHCP_REBINDING : Z := 4.
Definition DHCP_RENEWING : Z := 5.
Definition DHCP_SELECTING : Z := 6.
Definition DHCP_CHECKING : Z := 8.
Definition DHCP_BOUND : Z := 10.
Definition DHCP_BACKING_OFF : Z := 12.

Definition DHCP_BOOTREQUEST : Z := 1.
Definition DHCP_BOOTREPLY : Z := 2.
Definition DHCP_DISCOVER : Z := 1.
Definition DHCP_OFFER : Z := 2.
Definition DHCP_REQUEST : Z := 3.
Definition DHCP_DECLINE : Z := 4.
Definition DHCP_ACK : Z := 5.
Definition DHCP_NAK : Z := 6.
Definition DHCP_RELEASE : Z := 7.
Definition DHCP_INFORM : Z := 8.
Definition DHCP_HTYPE_ETH : Z := 1.
Definition DHCP_MAGIC_COOKIE : Z := 0x63825363.

Definition DHCP_OPTION_PAD : Z := 0.
Definition DHCP_OPTION_SUBNET_MASK : Z := 1.
Definition DHCP_OPTION_ROUTER : Z := 3.
Definition DHCP_OPTION_DNS_SERVER : Z := 6.
Definition DHCP_OPTION_BROADCAST : Z := 28.
Definition DHCP_OPTION_END : Z := 255.
Definition DHCP_OPTION_REQUESTED_IP : Z := 50.
Definition DHCP_OPTION_LEASE_TIME : Z := 51.
Definition DHCP_OPTION_OVERLOAD : Z := 52.
Definition DHCP_OPTION_MESSAGE_TYPE : Z := 53.
Definition DHCP_OPTION_MESSAGE_TYPE_LEN : Z := 1.
Definition DHCP_OPTION_SERVER_ID : Z := 54.
Definition DHCP_OPTION_PARAMETER_REQUEST_LIST : Z := 55.
Definition DHCP_OPTION_MAX_MSG_SIZE : Z := 57.
Definition DHCP_OPTION_MAX_MSG_SIZE_LEN : Z := 2.
Definition DHCP_OPTION_T1 : Z := 58.
Definition DHCP_OPTION_T2 : Z := 59.
Definition DHCP_OVERLOAD_FILE : Z := 1.
Definition DHCP_OVERLOAD_SNAME : Z := 2.
Definition DHCP_OVERLOAD_SNAME_FILE : Z := 3.

Definition DHCP_OPTION_IDX_OVERLOAD : Z := 0.
Definition DHCP_OPTION_IDX_MSG_TYPE : Z := 1.
Definition DHCP_OPTION_IDX_SERVER_ID : Z := 2.
Definition DHCP_OPTION_IDX_LEASE_TIME : Z := 3.
Definition DHCP_OPTION_IDX_T1 : Z := 4.
Definition DHCP_OPTION_IDX_T2 : Z := 5.
Definition DHCP_OPTION_IDX_SUBNET_MASK : Z := 6.
Definition DHCP_OPTION_IDX_ROUTER : Z := 7.
Definition DHCP_OPTION_IDX_DNS_SERVER : Z := 8.
Definition DHCP_OPTION_IDX_MAX : Z := DHCP_OPTION_IDX_DNS_SERVER + DNS_MAX_SERVERS.

Definition NETIF_FLAG_DHCP : Z := 0x08.
Definition NETIF_MAX_HWADDR_LEN : Z := 6.
Definition SOF_BROADCAST : Z := 0x20.

(** [struct dhcp]; [msg_in] and [msg_out] are pointers into pbufs, [(0, 0)]
    for NULL, and [p_out] and [dhcp_pcb] addresses, 0 for NULL. *)
Record dhcp := Dhcp {
  xid : Z; dhcp_pcb : Z; msg_in : Z * Z; dhcp_state : Z; tries : Z; subnet_mask_given : Z;
  p_out : Z; msg_out : Z * Z; options_out_len : Z; request_timeout : Z; t1_timeout : Z; t2_timeout : Z;
  server_ip_addr : Z; offered_ip_addr : Z; offered_sn_mask : Z; offered_gw_addr : Z;
  offered_t0_lease : Z; offered_t1_renew : Z; offered_t2_rebind : Z
}.
Implicit Type d : dhcp.
(** Filled with zeros. *)
Definition zero_dhcp : dhcp := Dhcp 0 0 (0, 0) 0 0 0 0 (0, 0) 0 0 0 0 0 0 0 0 0 0 0.

Definition set_xid d x := Dhcp x (dhcp_pcb d) (msg_in d) (dhcp_state d) (tries d) (subnet_mask_given d) (p_out d) (msg_out d) (options_out_len d)
  (request_timeout d) (t1_timeout d) (t2_timeout d) (server_ip_addr d) (offered_ip_addr d) (offered_sn_mask d) (offered_gw_addr d)
  (offered_t0_lease d) (offered_t1_renew d) (offered_t2_rebind d).
Definition set_dhcp_pcb d x := Dhcp (xid d) x (msg_in d) (dhcp_state d) (tries d) (subnet_mask_given d) (p_out d) (msg_out d) (options_out_len d)
  (request_timeout d) (t1_timeout d) (t2_timeout d) (server_ip_addr d) (offered_ip_addr d) (offered_sn_mask d) (offered_gw_addr d)
  (offered_t0_lease d) (offered_t1_renew d) (offered_t2_rebind d).
Definition set_msg_in d x := Dhcp (xid d) (dhcp_pcb d) x (dhcp_state d) (tries d) (subnet_mask_given d) (p_out d) (msg_out d) (options_out_len d)
  (request_timeout d) (t1_timeout d) (t2_timeout d) (server_ip_addr d) (offered_ip_addr d) (offered_sn_mask d) (offered_gw_addr d)
  (offered_t0_lease d) (offered_t1_renew d) (offered_t2_rebind d).
(** The state, the tries and the time of the request. *)
Definition set_progress d st n t := Dhcp (xid d) (dhcp_pcb d) (msg_in d) st n (subnet_mask_given d) (p_out d) (msg_out d) (options_out_len d)
  t (t1_timeout d) (t2_timeout d) (server_ip_addr d) (offered_ip_addr d) (offered_sn_mask d) (offered_gw_addr d)
  (offered_t0_lease d) (offered_t1_renew d) (offered_t2_rebind d).
(** The message under construction. *)
Definition set_out d p msg len := Dhcp (xid d) (dhcp_pcb d) (msg_in d) (dhcp_state d) (tries d) (subnet_mask_given d) p msg len
  (request_timeout d) (t1_timeout d) (t2_timeout d) (server_ip_addr d) (offered_ip_addr d) (offered_sn_mask d) (offered_gw_addr d)
  (offered_t0_lease d) (offered_t1_renew d) (offered_t2_rebind d).
Definition set_timeouts d t1 t2 := Dhcp (xid d) (dhcp_pcb d) (msg_in d) (dhcp_state d) (tries d) (subnet_mask_given d) (p_out d) (msg_out d) (options_out_len d)
  (request_timeout d) t1 t2 (server_ip_addr d) (offered_ip_addr d) (offered_sn_mask d) (offered_gw_addr d)
  (offered_t0_lease d) (offered_t1_renew d) (offered_t2_rebind d).
(** The server, and the address, mask and gateway it offers. *)
Definition set_offer d given server ip sn gw := Dhcp (xid d) (dhcp_pcb d) (msg_in d) (dhcp_state d) (tries d) given (p_out d) (msg_out d) (options_out_len d)
  (request_timeout d) (t1_timeout d) (t2_timeout d) server ip sn gw (offered_t0_lease d) (offered_t1_renew d) (offered_t2_rebind d).
Definition set_lease d t0 t1 t2 := Dhcp (xid d) (dhcp_pcb d) (msg_in d) (dhcp_state d) (tries d) (subnet_mask_given d) (p_out d) (msg_out d) (options_out_len d)
  (request_timeout d) (t1_timeout d) (t2_timeout d) (server_ip_addr d) (offered_ip_addr d) (offered_sn_mask d) (offered_gw_addr d) t0 t1 t2.

(** The static variables: the clients in memory, [xid] of [dhcp_create_msg],
    and the options of the reply that is handled. *)
Record dhcp_vars := DhcpVars { dhcp_mem : gmap Z dhcp; last_xid : Z; rx_options_val : list Z; rx_options_given : list Z }.
Implicit Type v : dhcp_vars.
Definition set_rx v vals given : dhcp_vars := DhcpVars (dhcp_mem v) (last_xid v) vals given.

Definition option_given v (idx : Z) : result bool := let! g := mread (rx_options_given v) idx in Ok (negb (g =? 0)).
Definition option_value v (idx : Z) : result Z := mread (rx_options_val v) idx.
(** [dhcp_got_option] and [dhcp_set_option_value]. *)
Definition got_option v (idx value : Z) : result dhcp_vars :=
  let! given := mwrite (rx_options_given v) idx 1 in
  let! vals := mwrite (rx_options_val v) idx value in
  Ok (set_rx v vals given).
Definition clear_option v (idx : Z) : result dhcp_vars :=
  let! given := mwrite (rx_options_given v) idx 0 in Ok (set_rx v (rx_options_val v) given).
Definition clear_all_options v : dhcp_vars := set_rx v (rx_options_val v) (replicate (Z.to_nat DHCP_OPTION_IDX_MAX) 0).

Definition dhcp_set_state d (new_state : Z) : dhcp := if negb (new_state =? dhcp_state d) then set_progress d new_state 0 0 else d.

(** [lwip_ntohl]. *)
Definition ntohl (n : Z) : Z := htonl n.

(** ** Messages *)

(** The message under construction and the memory it is in. *)
Definition builder : Type := store * dhcp -> result (store * dhcp).
Definition put_option (value : Z) : builder := fun '(m, d) =>
  let! m := save m (msg_out d) (DHCP_OPTIONS_OFS + options_out_len d) [u8 value] in
  Ok (m, set_out d (p_out d) (msg_out d) (u16 (options_out_len d + 1))).
Fixpoint build (l : list builder) : builder := fun x => match l with [] => Ok x | f :: l => let! x := f x in build l x end.

Definition dhcp_option (option_type option_len : Z) : builder := build [put_option option_type; put_option option_len].
Definition dhcp_option_byte (value : Z) : builder := put_option value.
Definition dhcp_option_short (value : Z) : builder := build [put_option (Z.shiftr (Z.land value 0xff00) 8); put_option (Z.land value 0x00ff)].
Definition dhcp_option_long (value : Z) : builder :=
  build [put_option (Z.shiftr (Z.land value 0xff000000) 24); put_option (Z.shiftr (Z.land value 0x00ff0000) 16);
         put_option (Z.shiftr (Z.land value 0x0000ff00) 8); put_option (Z.land value 0x000000ff)].

Fixpoint trailer_loop (fuel : nat) : builder := fun '(m, d) =>
  match fuel with
  | O => Fault OutOfFuel
  | S fuel =>
      let n := options_out_len d in
      if ((n <? DHCP_MIN_OPTIONS_LEN) || negb (Z.land n 3 =? 0)) && (n <? DHCP_OPTIONS_LEN)
      then build [put_option 0; trailer_loop fuel] (m, d) else Ok (m, d)
  end.
Definition dhcp_option_trailer : builder := build [put_option DHCP_OPTION_END; trailer_loop (S (Z.to_nat DHCP_OPTIONS_LEN))].

(** The hardware address of a message. *)
Fixpoint chaddr_loop (n : nat) (i : Z) (hwaddr : list Z) (hwaddr_len : Z) : result (list Z) :=
  match n with
  | O => Ok []
  | S n =>
      let! x := (if (i <? hwaddr_len) && (i <? NETIF_MAX_HWADDR_LEN) then mread hwaddr i else Ok 0) in
      let! l := chaddr_loop n (i + 1) hwaddr hwaddr_len in Ok (x :: l)
  end.

(** ** Replies *)

(** The pbuf that holds the byte [idx], and the places in it. *)
Fixpoint skip_loop (fuel : nat) (m : store) (q idx max : Z) : result (Z * Z * Z) :=
  match fuel with
  | O => Fault OutOfFuel
  | S fuel =>
      if q =? 0 then Ok (q, idx, max)
      else
        let! c := deref m q in
        if len c <=? idx then skip_loop fuel m (next c) (u16 (idx - len c)) (u16 (max - len c)) else Ok (q, idx, max)
  end.

(** What an option is decoded to: how many bytes, and the first of the
    values; for the pad option the length is 0. *)
Definition decode_as (op len : Z) : Z * Z :=
  if op =? DHCP_OPTION_PAD then (0, -1)
  else if op =? DHCP_OPTION_SUBNET_MASK then (len, DHCP_OPTION_IDX_SUBNET_MASK)
  else if op =? DHCP_OPTION_ROUTER then (4, DHCP_OPTION_IDX_ROUTER)
  else if op =? DHCP_OPTION_DNS_SERVER then (Z.min len (4 * DNS_MAX_SERVERS), DHCP_OPTION_IDX_DNS_SERVER)
  else if op =? DHCP_OPTION_LEASE_TIME then (len, DHCP_OPTION_IDX_LEASE_TIME)
  else if op =? DHCP_OPTION_OVERLOAD then (len, DHCP_OPTION_IDX_OVERLOAD)
  else if op =? DHCP_OPTION_MESSAGE_TYPE then (len, DHCP_OPTION_IDX_MSG_TYPE)
  else if op =? DHCP_OPTION_SERVER_ID then (len, DHCP_OPTION_IDX_SERVER_ID)
  else if op =? DHCP_OPTION_T1 then (len, DHCP_OPTION_IDX_T1)
  else if op =? DHCP_OPTION_T2 then (len, DHCP_OPTION_IDX_T2)
  else (0, -1).

(** From the label [decode_next] on; [buf] is the memory of [value]. *)
Fixpoint decode_loop (fuel : nat) (m : store) (q : Z) (buf : list Z) (decode_len decode_idx val_offset : Z) v : result dhcp_vars :=
  match fuel with
  | O => Fault OutOfFuel
  | S fuel =>
      let! (_, buf) := pbuf_copy_partial m q buf (Z.min decode_len 4) val_offset in
      let! value := read_u32 buf 0 in
      if 4 <? decode_len then
        let! v := got_option v decode_idx (htonl value) in
        decode_loop fuel m q buf (decode_len - 4) (decode_idx + 1) (u16 (val_offset + 4)) v
      else
        let! value := (if decode_len =? 4 then Ok (ntohl value) else mread buf 0) in
        got_option v decode_idx value
  end.

(** The loop over the options from the byte [offset] of [q] on. *)
Fixpoint options_loop (fuel : nat) (m : store) (q offset offset_max : Z) v : result dhcp_vars :=
  match fuel with
  | O => Fault OutOfFuel
  | S fuel =>
      let! c := deref m q in
      let! op := load m (payload c) offset 1 in
      let! op := mread op 0 in
      if (op =? DHCP_OPTION_END) || negb (offset <? offset_max) then Ok v
      else
        let val_offset := u16 (offset + 2) in
        let! len :=
          (if offset + 1 <? Pbuf.len c then let! l := load m (payload c) (offset + 1) 1 in mread l 0
           else if negb (next c =? 0) then let! nx := deref m (next c) in let! l := load m (payload nx) 0 1 in mread l 0
           else Ok 0) in
        let '(decode_len, decode_idx) := decode_as op len in
        let pad := op =? DHCP_OPTION_PAD in
        let offset := u16 ((if pad then u16 (offset - 1) else offset) + (if pad then 0 else len) + 2) in
        let! v := (if 0 <? decode_len then decode_loop 64 m q [0; 0; 0; 0] decode_len decode_idx val_offset v else Ok v) in
        if Pbuf.len c <=? offset then
          let offset := u16 (offset - Pbuf.len c) in
          let offset_max := u16 (offset_max - Pbuf.len c) in
          if (offset <? offset_max) && negb (offset_max =? 0) then options_loop fuel m (next c) offset offset_max v else Ok v
        else options_loop fuel m q offset offset_max v
  end.

(** From the label [again] on: the areas of options one after the other. *)
Fixpoint areas_loop (fuel : nat) (m : store) (p idx max : Z) (parse_file parse_sname : bool) v : result (Z * dhcp_vars) :=
  match fuel with
  | O => Fault OutOfFuel
  | S fuel =>
      let! (q, offset, offset_max) := skip_loop (chain_fuel m) m p idx max in
      if q =? 0 then Ok (ERR_BUF, v)
      else
        let! v := options_loop (S (Z.to_nat offset_max)) m q offset offset_max v in
        let! given := option_given v DHCP_OPTION_IDX_OVERLOAD in
        let! (v, parse_file, parse_sname) :=
          (if (given : bool) then
             let! overload := option_value v DHCP_OPTION_IDX_OVERLOAD in
             let! v := clear_option v DHCP_OPTION_IDX_OVERLOAD in
             Ok (v, parse_file || (overload =? DHCP_OVERLOAD_FILE) || (overload =? DHCP_OVERLOAD_SNAME_FILE),
                 parse_sname || (overload =? DHCP_OVERLOAD_SNAME) || (overload =? DHCP_OVERLOAD_SNAME_FILE))
           else Ok (v, parse_file, parse_sname)) in
        if (parse_file : bool) then areas_loop fuel m p DHCP_FILE_OFS (DHCP_FILE_OFS + DHCP_FILE_LEN) false parse_sname v
        else if (parse_sname : bool) then areas_loop fuel m p DHCP_SNAME_OFS (DHCP_SNAME_OFS + DHCP_SNAME_LEN) parse_file false v
        else Ok (ERR_OK, v)
  end.

(** [dhcp_parse_reply] with [areas] rounds for the areas: the options field,
    [file] and [sname] have at most one turn each in a reply that ends. *)
Definition dhcp_parse_reply (areas : nat) (m : store) d v (p : Z) : result (Z * dhcp * dhcp_vars) :=
  let v := clear_all_options v in
  let! c := deref m p in
  if len c <? DHCP_SNAME_OFS then Ok (ERR_BUF, d, v)
  else
    let d := set_msg_in d (payload c) in
    let! (err, v) := areas_loop areas m p DHCP_OPTIONS_OFS (tot_len c) false false v in
    Ok (err, d, v).

(** ** The client *)

(** Milliseconds as ticks of the fine timer. *)
Definition fine_ticks (msecs : Z) : Z := u16 ((u16 msecs + DHCP_FINE_MSECS - 1) / DHCP_FINE_MSECS).
(** The delays behind the messages, for the number of tries. *)
Definition discover_msecs (n : Z) : Z := (if n <? 6 then Z.shiftl 1 n else 60) * 1000.
Definition renew_msecs (n : Z) : Z := if n <? 10 then n * 2000 else 20 * 1000.
Definition rebind_msecs (n : Z) : Z := if n <? 10 then n * 1000 else 10 * 1000.

(** The four options a client asks for. *)
Definition wanted_options : list builder :=
  [dhcp_option DHCP_OPTION_PARAMETER_REQUEST_LIST 4; dhcp_option_byte DHCP_OPTION_SUBNET_MASK; dhcp_option_byte DHCP_OPTION_ROUTER;
   dhcp_option_byte DHCP_OPTION_BROADCAST; dhcp_option_byte DHCP_OPTION_DNS_SERVER].
Definition max_msg_size (n : Z) : list builder := [dhcp_option DHCP_OPTION_MAX_MSG_SIZE DHCP_OPTION_MAX_MSG_SIZE_LEN; dhcp_option_short n].
(** An option with an address. *)
Definition address_option (op a : Z) : list builder := [dhcp_option op 4; dhcp_option_long (ntohl a)].

Section client.
Context `{Os} {F G K X : Type}.
Abbreviation state := (net (stack (raws F) (udps G * (dns K * (dhcp_vars * X))))).
Implicit Type s : state.
Context (output : state -> Z -> Z -> Z -> result (Z * state))
        (link : udps G * (dns K * (dhcp_vars * X)) -> store -> Z -> Z * store * (udps G * (dns K * (dhcp_vars * X))))
        (igmp_report_groups tcp_abort : state -> Z -> result state)
        (queue_malloc : stack (raws F) (udps G * (dns K * (dhcp_vars * X))) -> bool * stack (raws F) (udps G * (dns K * (dhcp_vars * X))))
        (memp_malloc : gmap Z (udp_pcb G) -> option Z) (mem_malloc : gmap Z dhcp -> option Z)
        (system_station_got_ip_set : X -> Z -> Z -> Z -> X).

Definition vars_of s : dhcp_vars := (rest (env s)).2.2.1.
Definition station_of s : X := (rest (env s)).2.2.2.
Definition set_client s v (x : X) : state :=
  set_env s (Stack (ifs (env s)) (tcps (env s)) (ipv (env s)) (raw_blocks (env s)) (blocks_of s, (dns_of s, (v, x)))).
Definition set_vars s v : state := set_client s v (station_of s).

Definition dhcp_at s (a : Z) : result dhcp := cell (dhcp_mem (vars_of s)) a.
Definition put_dhcp s (a : Z) d : state :=
  let v := vars_of s in set_vars s (DhcpVars (<[a := d]> (dhcp_mem v)) (last_xid v) (rx_options_val v) (rx_options_given v)).
Definition upd_dhcp s (a : Z) (f : dhcp -> dhcp) : result state := let! d := dhcp_at s a in Ok (put_dhcp s a (f d)).
(** [netif->dhcp]. *)
Definition client_of s (netif : Z) : result Z := let! n := nif_at s netif in Ok (nif_dhcp n).

(** [dhcp_create_msg]: the error, the client with its message, and the
    state. *)
Definition dhcp_create_msg s (n : netif_struct) d (message_type : Z) : result (Z * dhcp * state) :=
  let! (p, m) := pbuf_alloc (mem s) PBUF_TRANSPORT SIZEOF_DHCP_MSG PBUF_RAM in
  let s := set_mem s m in
  let d := set_out d p (msg_out d) (options_out_len d) in
  if p =? 0 then Ok (ERR_MEM, d, s)
  else
    let '(d, s) :=
      (if negb (message_type =? DHCP_REQUEST) then
         let v := vars_of s in
         let x := if tries d =? 0 then u32 (last_xid v + 1) else last_xid v in
         (set_xid d x, set_vars s (DhcpVars (dhcp_mem v) x (rx_options_val v) (rx_options_given v)))
       else (d, s)) in
    let! c := deref (mem s) p in
    let ciaddr := if (message_type =? DHCP_INFORM) || (message_type =? DHCP_DECLINE) ||
      ((message_type =? DHCP_REQUEST) && ((dhcp_state d =? DHCP_RENEWING) || (dhcp_state d =? DHCP_REBINDING))) then nif_ip_addr n else 0 in
    let! chaddr := chaddr_loop (Z.to_nat DHCP_CHADDR_LEN) 0 (nif_hwaddr n) (nif_hwaddr_len n) in
    let! m := put_fields (mem s) (payload c)
      [(0, [DHCP_BOOTREQUEST]); (1, [DHCP_HTYPE_ETH]); (2, [nif_hwaddr_len n]); (3, [0]); (4, u32_bytes (htonl (xid d)));
       (8, [0; 0]); (10, [0; 0]); (12, u32_bytes ciaddr); (16, u32_bytes 0); (20, u32_bytes 0); (24, u32_bytes 0); (28, chaddr);
       (DHCP_SNAME_OFS, replicate (Z.to_nat DHCP_SNAME_LEN) 0); (DHCP_FILE_OFS, replicate (Z.to_nat DHCP_FILE_LEN) 0);
       (DHCP_MSG_LEN, u32_bytes (htonl DHCP_MAGIC_COOKIE)); (DHCP_OPTIONS_OFS, map Z.of_nat (seq 0 (Z.to_nat DHCP_OPTIONS_LEN)))] in
    let! (m, d) := build [dhcp_option DHCP_OPTION_MESSAGE_TYPE DHCP_OPTION_MESSAGE_TYPE_LEN; dhcp_option_byte message_type]
      (m, set_out d p (payload c) 0) in
    Ok (ERR_OK, d, set_mem s m).

(** The options behind the type, the trailer, and the packet as long as the
    message. *)
Definition finish_msg s d (options : list builder) : result (dhcp * state) :=
  let! (m, d) := build (options ++ [dhcp_option_trailer]) (mem s, d) in
  let! m := pbuf_realloc m (p_out d) (SIZEOF_DHCP_MSG - DHCP_OPTIONS_LEN + options_out_len d) in
  Ok (d, set_mem s m).

Definition dhcp_delete_msg s d : result (dhcp * state) :=
  let! s := (if negb (p_out d =? 0) then free_packet s (p_out d) else Ok s) in
  Ok (set_out d 0 (0, 0) (options_out_len d), s).

(** The common course of the functions that send a message: the options and
    the address they are for come from the client and its interface. *)
Definition send_request s (netif message_type : Z) (options : netif_struct -> dhcp -> list builder) (dest : dhcp -> Z) : result (Z * state) :=
  let! n := nif_at s netif in
  let a := nif_dhcp n in
  let! d := dhcp_at s a in
  let! (result, d, s) := dhcp_create_msg s n d message_type in
  let s := put_dhcp s a d in
  if result =? ERR_OK then
    let! (d, s) := finish_msg s d (options n d) in
    let s := put_dhcp s a d in
    let! (_, s) := udp_sendto_if output s (dhcp_pcb d) (p_out d) (dest d) DHCP_SERVER_PORT netif in
    let! d := dhcp_at s a in
    let! (d, s) := dhcp_delete_msg s d in
    Ok (result, put_dhcp s a d)
  else Ok (result, s).
(** The tries and the time until the next one. *)
Definition next_try s (a : Z) (msecs : Z -> Z) : result state :=
  upd_dhcp s a (fun d => let n := u8 (tries d + 1) in set_progress d (dhcp_state d) n (fine_ticks (msecs n))).

Definition everyone (d : dhcp) : Z := IPADDR_BROADCAST.

Definition dhcp_select s (netif : Z) : result (Z * state) :=
  let! a := client_of s netif in
  let! s := upd_dhcp s a (fun d => dhcp_set_state d DHCP_REQUESTING) in
  let! (result, s) := send_request s netif DHCP_REQUEST
    (fun n d => max_msg_size (nif_mtu n) ++ address_option DHCP_OPTION_REQUESTED_IP (offered_ip_addr d) ++
                address_option DHCP_OPTION_SERVER_ID (server_ip_addr d) ++ wanted_options) everyone in
  let! s := next_try s a discover_msecs in
  Ok (result, s).

Definition dhcp_discover s (netif : Z) : result (Z * state) :=
  let! a := client_of s netif in
  let! s := upd_dhcp s a (fun d => dhcp_set_state (set_offer d (subnet_mask_given d) (server_ip_addr d) IPADDR_ANY (offered_sn_mask d) (offered_gw_addr d)) DHCP_SELECTING) in
  let! (result, s) := send_request s netif DHCP_DISCOVER (fun n d => max_msg_size (nif_mtu n) ++ wanted_options) everyone in
  let! s := next_try s a discover_msecs in
  Ok (result, s).

Definition dhcp_decline s (netif : Z) : result (Z * state) :=
  let! a := client_of s netif in
  let! s := upd_dhcp s a (fun d => dhcp_set_state d DHCP_BACKING_OFF) in
  let! (result, s) := send_request s netif DHCP_DECLINE (fun n d => address_option DHCP_OPTION_REQUESTED_IP (offered_ip_addr d)) everyone in
  let! s := next_try s a (fun _ => 10 * 1000) in
  Ok (result, s).

Definition dhcp_renew s (netif : Z) : result (Z * state) :=
  let! a := client_of s netif in
  let! s := upd_dhcp s a (fun d => dhcp_set_state d DHCP_RENEWING) in
  let! (result, s) := send_request s netif DHCP_REQUEST (fun n d => max_msg_size (nif_mtu n)) server_ip_addr in
  let! s := next_try s a renew_msecs in
  Ok (result, s).

Definition dhcp_rebind s (netif : Z) : result (Z * state) :=
  let! a := client_of s netif in
  let! s := upd_dhcp s a (fun d => dhcp_set_state d DHCP_REBINDING) in
  let! (result, s) := send_request s netif DHCP_REQUEST (fun n d => max_msg_size (nif_mtu n)) everyone in
  let! s := next_try s a rebind_msecs in
  Ok (result, s).

Definition dhcp_reboot s (netif : Z) : result (Z * state) :=
  let! a := client_of s netif in
  let! s := upd_dhcp s a (fun d => dhcp_set_state d DHCP_REBOOTING) in
  let! (result, s) := send_request s netif DHCP_REQUEST
    (fun n d => max_msg_size 576 ++ address_option DHCP_OPTION_REQUESTED_IP (offered_ip_addr d)) everyone in
  let! s := next_try s a rebind_msecs in
  Ok (result, s).

(** The interface loses its addresses. *)
Definition unconfigure s (netif : Z) : result state :=
  let! s := netif_set_down s netif in
  let! s := netif_set_ipaddr tcp_abort s netif (Some IPADDR_ANY) in
  let! s := netif_set_gw s netif (Some IPADDR_ANY) in
  netif_set_netmask s netif (Some IPADDR_ANY).

Definition dhcp_release s (netif : Z) : result (Z * state) :=
  let! a := client_of s netif in
  if a =? 0 then Ok (ERR_ARG, s)
  else
    let! s := upd_dhcp s a (fun d => set_lease (set_offer (dhcp_set_state d DHCP_OFF) (subnet_mask_given d) 0 0 0 0) 0 0 0) in
    let! (result, s) := send_request s netif DHCP_RELEASE (fun n d => []) server_ip_addr in
    let! s := next_try s a rebind_msecs in
    let! s := unconfigure s netif in
    Ok (result, s).

Definition dhcp_handle_nak s (netif : Z) : result state :=
  let! a := client_of s netif in
  let! s := unconfigure s netif in
  let! s := upd_dhcp s a (fun d => dhcp_set_state d DHCP_BACKING_OFF) in
  let! (_, s) := dhcp_discover s netif in Ok s.

Definition dhcp_check s (netif : Z) : result state :=
  let! a := client_of s netif in
  let! s := upd_dhcp s a (fun d => dhcp_set_state d DHCP_CHECKING) in
  let! n := nif_at s netif in
  let! d := dhcp_at s a in
  let! (_, s) := etharp_query (linkoutput link) queue_malloc s (ethif_of netif n) (offered_ip_addr d) 0 in
  next_try s a (fun _ => 500).

(** The address a pointer to a message of the client has at [off]. *)
Definition msg_address s d (off : Z) : result Z := let! b := load (mem s) (msg_in d) off 4 in read_u32 b 0.

Definition dhcp_handle_offer s (netif : Z) : result state :=
  let! a := client_of s netif in
  let! given := option_given (vars_of s) DHCP_OPTION_IDX_SERVER_ID in
  if (given : bool) then
    let! server := option_value (vars_of s) DHCP_OPTION_IDX_SERVER_ID in
    let! d := dhcp_at s a in
    let! yiaddr := msg_address s d 16 in
    let s := put_dhcp s a (set_offer d (subnet_mask_given d) (htonl server) yiaddr (offered_sn_mask d) (offered_gw_addr d)) in
    let! (_, s) := dhcp_select s netif in Ok s
  else Ok s.

(** The DNS servers of an acknowledgement. *)
Fixpoint dns_loop (fuel : nat) s (n : Z) : result state :=
  match fuel with
  | O => Fault OutOfFuel
  | S fuel =>
      let! given := option_given (vars_of s) (DHCP_OPTION_IDX_DNS_SERVER + n) in
      if (given : bool) && (n <? DNS_MAX_SERVERS) then
        let! value := option_value (vars_of s) (DHCP_OPTION_IDX_DNS_SERVER + n) in
        dns_loop fuel (set_dns s (dns_setserver (dns_of s) n (Some (htonl value)))) (n + 1)
      else Ok s
  end.

(** The value of an option, or [other] without it. *)
Definition option_or v (idx other : Z) : result Z :=
  let! given := option_given v idx in if (given : bool) then option_value v idx else Ok other.

Definition dhcp_handle_ack s (netif : Z) : result state :=
  let! a := client_of s netif in
  let! d := dhcp_at s a in
  let v := vars_of s in
  let! t0 := option_or v DHCP_OPTION_IDX_LEASE_TIME (offered_t0_lease d) in
  let! t1 := option_or v DHCP_OPTION_IDX_T1 (t0 / 2) in
  let! t2 := option_or v DHCP_OPTION_IDX_T2 t0 in
  let! yiaddr := msg_address s d 16 in
  let! given := option_given v DHCP_OPTION_IDX_SUBNET_MASK in
  let! mask := (if (given : bool) then let! x := option_value v DHCP_OPTION_IDX_SUBNET_MASK in Ok (htonl x) else Ok 0) in
  let! router := option_given v DHCP_OPTION_IDX_ROUTER in
  let! gw := (if (router : bool) then let! x := option_value v DHCP_OPTION_IDX_ROUTER in Ok (htonl x) else Ok 0) in
  let s := put_dhcp s a (set_lease (set_offer d (if given then 1 else 0) (server_ip_addr d) yiaddr mask gw) t0 t1 t2) in
  dns_loop (S (Z.to_nat DNS_MAX_SERVERS)) s 0.

(** Seconds as ticks of the coarse timer, at least one and at most the
    largest. *)
Definition coarse_ticks (secs : Z) : Z :=
  let t := u32 (secs + DHCP_COARSE_TIMER_SECS / 2) / DHCP_COARSE_TIMER_SECS in
  let t := if 0xffff <? t then 0xffff else t in if t =? 0 then 1 else t.
(** The first byte of an address. *)
Definition ip4_addr1 (a : Z) : Z := a mod 256.
(** The mask of the class of an address. *)
Definition class_mask (a : Z) : Z :=
  let first_octet := ip4_addr1 a in
  if first_octet <=? 127 then htonl 0xff000000 else if 192 <=? first_octet then htonl 0xffffff00 else htonl 0xffff0000.
(** The timers of a lease, and what is configured. *)
Definition lease_timers d : Z * Z :=
  let t1 := if negb (offered_t1_renew d =? 0xffffffff) then coarse_ticks (offered_t1_renew d) else t1_timeout d in
  let t2 := if negb (offered_t2_rebind d =? 0xffffffff) then coarse_ticks (offered_t2_rebind d) else t2_timeout d in
  (if (t2 <=? t1) && (0 <? t2) then 0 else t1, t2).
Definition lease_mask d : Z := if negb (subnet_mask_given d =? 0) then offered_sn_mask d else class_mask (offered_ip_addr d).
Definition lease_gateway d : Z :=
  if offered_gw_addr d =? IPADDR_ANY then Z.lor (Z.land (offered_ip_addr d) (lease_mask d)) (htonl 0x00000001) else offered_gw_addr d.

Definition dhcp_bind s (netif : Z) : result state :=
  let! a := (if netif =? 0 then Ok 0 else client_of s netif) in
  if a =? 0 then Ok s
  else
    let! d := dhcp_at s a in
    let '(t1, t2) := lease_timers d in
    let s := put_dhcp s a (set_timeouts d t1 t2) in
    let sn_mask := lease_mask d in
    let gw_addr := lease_gateway d in
    let! s := netif_set_ipaddr tcp_abort s netif (Some (offered_ip_addr d)) in
    let! s := netif_set_netmask s netif (Some sn_mask) in
    let s := set_client s (vars_of s) (system_station_got_ip_set (station_of s) (offered_ip_addr d) sn_mask gw_addr) in
    let! s := netif_set_gw s netif (Some gw_addr) in
    let! s := netif_set_up link igmp_report_groups s netif in
    upd_dhcp s a (fun d => dhcp_set_state d DHCP_BOUND).

(** ** Timers *)

Definition dhcp_timeout s (netif : Z) : result state :=
  let! a := client_of s netif in
  let! d := dhcp_at s a in
  let st := dhcp_state d in
  if (st =? DHCP_BACKING_OFF) || (st =? DHCP_SELECTING) then let! (_, s) := dhcp_discover s netif in Ok s
  else if st =? DHCP_REQUESTING then
    if tries d <=? 5 then let! (_, s) := dhcp_select s netif in Ok s
    else let! (_, s) := dhcp_release s netif in let! (_, s) := dhcp_discover s netif in Ok s
  else if st =? DHCP_CHECKING then
    if tries d <=? 1 then dhcp_check s netif else dhcp_bind s netif
  else if st =? DHCP_RENEWING then let! (_, s) := dhcp_renew s netif in Ok s
  else if st =? DHCP_REBINDING then
    if tries d <=? 8 then let! (_, s) := dhcp_rebind s netif in Ok s
    else let! (_, s) := dhcp_release s netif in let! (_, s) := dhcp_discover s netif in Ok s
  else if st =? DHCP_REBOOTING then
    if tries d <? REBOOT_TRIES then let! (_, s) := dhcp_reboot s netif in Ok s
    else let! (_, s) := dhcp_discover s netif in Ok s
  else Ok s.

(** The lease of a client in one of these states runs. *)
Definition leased d : bool := (dhcp_state d =? DHCP_REQUESTING) || (dhcp_state d =? DHCP_BOUND) || (dhcp_state d =? DHCP_RENEWING).
Definition dhcp_t1_timeout s (netif : Z) : result state :=
  let! a := client_of s netif in
  let! d := dhcp_at s a in
  if leased d then let! (_, s) := dhcp_renew s netif in Ok s else Ok s.
Definition dhcp_t2_timeout s (netif : Z) : result state :=
  let! a := client_of s netif in
  let! d := dhcp_at s a in
  if leased d then let! (_, s) := dhcp_rebind s netif in Ok s else Ok s.

(** The rounds of the two timers for one interface. *)
Definition coarse_step s (netif a : Z) : result state :=
  let! d := dhcp_at s a in
  let t2 := t2_timeout d in
  let d := set_timeouts d (t1_timeout d) (u16 (t2 - 1)) in
  let s := put_dhcp s a d in
  if t2 =? 1 then dhcp_t2_timeout s netif
  else
    let t1 := t1_timeout d in
    let s := put_dhcp s a (set_timeouts d (u16 (t1 - 1)) (t2_timeout d)) in
    if t1 =? 1 then dhcp_t1_timeout s netif else Ok s.
Definition fine_step s (netif a : Z) : result state :=
  let! d := dhcp_at s a in
  let t := request_timeout d in
  if 1 <? t then Ok (put_dhcp s a (set_progress d (dhcp_state d) (tries d) (t - 1)))
  else if t =? 1 then dhcp_timeout (put_dhcp s a (set_progress d (dhcp_state d) (tries d) (t - 1))) netif
  else Ok s.

Fixpoint clients_loop (step : state -> Z -> Z -> result state) (fuel : nat) s (netif : Z) : result state :=
  match fuel with
  | O => Fault OutOfFuel
  | S fuel =>
      if netif =? 0 then Ok s
      else
        let! a := client_of s netif in
        let! s := (if negb (a =? 0) then step s netif a else Ok s) in
        let! n := nif_at s netif in
        clients_loop step fuel s (nif_next n)
  end.
Definition dhcp_coarse_tmr s : result state := clients_loop coarse_step (list_fuel (nifs (ifs (env s)))) s (netif_list (ifs (env s))).
Definition dhcp_fine_tmr s : result state := clients_loop fine_step (list_fuel (nifs (ifs (env s)))) s (netif_list (ifs (env s))).

(** ** Start and stop *)

Definition dhcp_set_struct s (netif a : Z) : result state := upd_nif (put_dhcp s a zero_dhcp) netif (fun n => set_nif_dhcp n a).
Definition dhcp_cleanup s (netif : Z) : result state :=
  let! a := client_of s netif in
  if negb (a =? 0) then
    let! _ := dhcp_at s a in
    let v := vars_of s in
    let s := set_vars s (DhcpVars (delete a (dhcp_mem v)) (last_xid v) (rx_options_val v) (rx_options_given v)) in
    upd_nif s netif (fun n => set_nif_dhcp n 0)
  else Ok s.

Definition dhcp_stop s (netif : Z) : result state :=
  if netif =? 0 then Ok s
  else
    let! a := client_of s netif in
    let! s := upd_nif s netif (fun n => set_nif_flags n (Z.land (nif_flags n) (Z.lnot NETIF_FLAG_DHCP))) in
    if negb (a =? 0) then
      let! d := dhcp_at s a in
      let! s := (if negb (dhcp_pcb d =? 0) then let! u := udp_remove (blocks_of s) (dhcp_pcb d) in Ok (set_blocks s u) else Ok s) in
      upd_dhcp s a (fun d => dhcp_set_state (set_dhcp_pcb d 0) DHCP_OFF)
    else Ok s.

(** A block for the client, bound to its port. *)
Definition bind_client (u : udps G) (pcb : Z) : result (udps G) :=
  let! u := upd_udp u pcb (fun c => set_udp_so_options c (Z.lor (udp_so_options c) SOF_BROADCAST)) in
  let! (_, u) := udp_bind u pcb IPADDR_ANY DHCP_CLIENT_PORT in Ok u.

(** [handler] is the pointer to [dhcp_recv]. *)
Definition dhcp_start s (netif : Z) (handler : G) : result (Z * state) :=
  if netif =? 0 then Ok (ERR_ARG, s)
  else
    let! s := upd_nif s netif (fun n => set_nif_flags n (Z.land (nif_flags n) (Z.lnot NETIF_FLAG_DHCP))) in
    let! n := nif_at s netif in
    if negb (has_flag (nif_flags n) NETIF_FLAG_ETHARP) then Ok (ERR_ARG, s)
    else if nif_mtu n <? DHCP_MAX_MSG_LEN_MIN_REQUIRED then Ok (ERR_MEM, s)
    else
      let! (a, s) :=
        (if nif_dhcp n =? 0 then
           match mem_malloc (dhcp_mem (vars_of s)) with
           | None => Ok (0, s)
           | Some a => let! s := upd_nif s netif (fun n => set_nif_dhcp n a) in Ok (a, s)
           end
         else
           let! d := dhcp_at s (nif_dhcp n) in
           let! s := (if negb (dhcp_pcb d =? 0) then let! u := udp_remove (blocks_of s) (dhcp_pcb d) in Ok (set_blocks s u) else Ok s) in
           Ok (nif_dhcp n, s)) in
      if a =? 0 then Ok (ERR_MEM, s)
      else
        let '(pcb, u) := udp_new memp_malloc (blocks_of s) in
        let s := put_dhcp (set_blocks s u) a (set_dhcp_pcb zero_dhcp pcb) in
        if pcb =? 0 then Ok (ERR_MEM, s)
        else
          let! u := bind_client (blocks_of s) pcb in
          let! (_, u) := udp_connect u pcb IPADDR_ANY DHCP_SERVER_PORT in
          let! u := udp_recv u pcb (Some handler) netif in
          let! (result, s) := dhcp_discover (set_blocks s u) netif in
          if negb (result =? ERR_OK) then let! s := dhcp_stop s netif in Ok (ERR_MEM, s)
          else
            let! s := upd_nif s netif (fun n => set_nif_flags n (Z.lor (nif_flags n) NETIF_FLAG_DHCP)) in
            Ok (result, s).

(** [dhcp_inform] works on a client of its own, and with the block of the
    client of the interface when there is one. *)
Definition dhcp_inform s (netif : Z) : result state :=
  if netif =? 0 then Ok s
  else
    let d := dhcp_set_state zero_dhcp DHCP_INFORM in
    let! n := nif_at s netif in
    let! there := (if negb (nif_dhcp n =? 0) then let! c := dhcp_at s (nif_dhcp n) in Ok (dhcp_pcb c) else Ok 0) in
    let! (pcb, d, s) :=
      (if negb (there =? 0) then Ok (there, d, s)
       else
         let '(pcb, u) := udp_new memp_malloc (blocks_of s) in
         if pcb =? 0 then Ok (0, d, set_blocks s u)
         else let! u := bind_client u pcb in Ok (pcb, set_dhcp_pcb d pcb, set_blocks s u)) in
    if pcb =? 0 then Ok s
    else
      let! (result, d, s) := dhcp_create_msg s n d DHCP_INFORM in
      let! (d, s) :=
        (if result =? ERR_OK then
           let! (d, s) := finish_msg s d (max_msg_size (nif_mtu n)) in
           let! (_, s) := udp_sendto_if output s pcb (p_out d) IPADDR_BROADCAST DHCP_SERVER_PORT netif in
           dhcp_delete_msg s d
         else Ok (d, s)) in
      if negb (dhcp_pcb d =? 0) then let! u := udp_remove (blocks_of s) (dhcp_pcb d) in Ok (set_blocks s u) else Ok s.

Definition dhcp_network_changed s (netif : Z) : result state :=
  let! a := client_of s netif in
  if a =? 0 then Ok s
  else
    let! d := dhcp_at s a in
    let st := dhcp_state d in
    if (st =? DHCP_REBINDING) || (st =? DHCP_RENEWING) || (st =? DHCP_BOUND) || (st =? DHCP_REBOOTING) then
      let! s := netif_set_down s netif in
      let! s := upd_dhcp s a (fun d => set_progress d (dhcp_state d) 0 (request_timeout d)) in
      let! (_, s) := dhcp_reboot s netif in Ok s
    else if st =? DHCP_OFF then Ok s
    else
      let! s := upd_dhcp s a (fun d => set_progress d (dhcp_state d) 0 (request_timeout d)) in
      let! (_, s) := dhcp_discover s netif in Ok s.

(** ** Input *)

Definition dhcp_arp_reply s (netif addr : Z) : result state :=
  if netif =? 0 then Ok s
  else
    let! a := client_of s netif in
    if a =? 0 then Ok s
    else
      let! d := dhcp_at s a in
      if (dhcp_state d =? DHCP_CHECKING) && (addr =? offered_ip_addr d) then let! (_, s) := dhcp_decline s netif in Ok s
      else Ok s.

(** The hardware address of the interface is that of the message. *)
Fixpoint same_hwaddr (n : nat) (i : Z) (m : store) (msg : Z * Z) (hwaddr : list Z) : result bool :=
  match n with
  | O => Ok true
  | S n =>
      let! x := mread hwaddr i in
      let! b := load m msg (28 + i) 1 in
      let! y := mread b 0 in
      if negb (x =? y) then Ok false else same_hwaddr n (i + 1) m msg hwaddr
  end.

(** Enough rounds for the areas of a reply that ends. *)
Definition REPLY_AREAS : nat := 8.

(** What a message of the type [msg_type] does. *)
Definition handle_reply s (netif msg_type : Z) : result state :=
  let! a := client_of s netif in
  let! d := dhcp_at s a in
  let st := dhcp_state d in
  let asked := (st =? DHCP_REBOOTING) || (st =? DHCP_REBINDING) || (st =? DHCP_RENEWING) in
  if msg_type =? DHCP_ACK then
    if st =? DHCP_REQUESTING then let! s := dhcp_handle_ack s netif in dhcp_check s netif
    else if asked then dhcp_bind s netif else Ok s
  else if (msg_type =? DHCP_NAK) && (asked || (st =? DHCP_REQUESTING)) then dhcp_handle_nak s netif
  else if (msg_type =? DHCP_OFFER) && (st =? DHCP_SELECTING) then
    let! s := upd_dhcp s a (fun d => set_progress d (dhcp_state d) (tries d) 0) in dhcp_handle_offer s netif
  else Ok s.

(** [dhcp_recv(netif, pcb, p, addr, port)] looks at the interface and the
    packet alone. *)
Definition dhcp_recv s (netif p : Z) : result state :=
  let! n := nif_at s netif in
  let a := nif_dhcp n in
  let! c := deref (mem s) p in
  let msg := payload c in
  let finish s := (let! s := upd_dhcp s a (fun d => set_msg_in d (0, 0)) in free_packet s p) in
  if len c <? DHCP_MIN_REPLY_LEN then finish s
  else
    let! op := load (mem s) msg 0 1 in
    let! op := mread op 0 in
    if negb (op =? DHCP_BOOTREPLY) then finish s
    else
      let! same := same_hwaddr (Z.to_nat (nif_hwaddr_len n)) 0 (mem s) msg (nif_hwaddr n) in
      if negb same then finish s
      else
        let! d := dhcp_at s a in
        let! x := load (mem s) msg 4 4 in
        let! x := read_u32 x 0 in
        if negb (ntohl x =? xid d) then finish s
        else
          let! (err, d, v) := dhcp_parse_reply REPLY_AREAS (mem s) d (vars_of s) p in
          let s := put_dhcp (set_vars s v) a d in
          if negb (err =? ERR_OK) then finish s
          else
            let! given := option_given v DHCP_OPTION_IDX_MSG_TYPE in
            if negb given then finish s
            else
              let! t := option_value v DHCP_OPTION_IDX_MSG_TYPE in
              let! s := handle_reply s netif (u8 t) in
              finish s.
End client.
