(* ===== verification/DhcpSend.v ===== *)
(** * Messages of the DHCP client: theorems about the functions of
    [lwip/core/dhcp.c] that build and send them. *)
From S2P Require Import Prelude Cobs Uart Comm Message Pbuf PbufChain PbufCopy PbufTrim InetChksum IpHdr IpAddr.
From S2P Require Import Linked RawPcb Etharp EtharpTable EtharpPackets EtharpInput Netif Ip IpOutput IpInput Icmp IcmpEcho Udp UdpPorts UdpInput UdpOutput.
From S2P Require Import Dns DnsNames DnsRecv DnsSend DnsTable Dhcp.
From stdpp Require Import list gmap.
#[local] Open Scope Z_scope.

(** ** Bytes over bytes *)
Lemma splice_next x off a b : 0 <= off -> off + zlen a + zlen b <= zlen x -> splice (splice x off a) (off + zlen a) b = splice x off (a ++ b).
Proof.
  intros Ho Hx. unfold splice, zlen in *. replace (Z.to_nat (off + Z.of_nat (length a))) with (Z.to_nat off + length a)%nat by lia.
  assert (length (take (Z.to_nat off) x) = Z.to_nat off) as Ht by (rewrite length_take; lia).
  rewrite !app_assoc, take_app_le by (rewrite length_app, Ht; lia). rewrite (take_ge (_ ++ a)) by (rewrite length_app, Ht; lia). f_equal.
  rewrite drop_app_ge by (rewrite length_app, Ht; lia). rewrite drop_drop, length_app, Ht, length_app. f_equal. lia.
Qed.

(** Fields that follow each other from [off] on. *)
Fixpoint tiles (off : Z) (fs : list (Z * list Z)) : Prop :=
  match fs with [] => True | (o, x) :: fs => o = off /\ tiles (off + zlen x) fs end.
Lemma spliced_tiles fs : forall pre x off, off = zlen pre -> tiles off fs -> zlen x = zlen (concat (map snd fs)) ->
  spliced (pre ++ x) fs = pre ++ concat (map snd fs).
Proof.
  induction fs as [|[o y] fs IH]; intros pre x off Ho Ht Hx; cbn [map concat snd] in *.
  { destruct x; [done|]. unfold zlen in Hx. cbn in Hx. lia. }
  destruct Ht as [-> Ht]. unfold spliced. cbn [fold_left fst snd]. fold (spliced (splice (pre ++ x) off y) fs).
  assert (x = take (length y) x ++ drop (length y) x) as Ex by (by rewrite take_drop).
  rewrite zlen_app in Hx. assert (zlen (take (length y) x) = zlen y) as Hy by (unfold zlen in *; rewrite length_take; lia).
  rewrite Ex, (splice_mid pre) by (done || by rewrite Hy). rewrite (app_assoc pre).
  rewrite (IH (pre ++ y) _ (off + zlen y)); [by rewrite <- app_assoc|by rewrite zlen_app, Ho|done|]. unfold zlen in *. rewrite length_drop. lia.
Qed.

(** ** Options *)
Section builders.
Context `{OsLaws}.
Implicit Type d : dhcp.

(** The builder stores these bytes behind the options there are. *)
Definition emits (f : builder) (bs : list Z) : Prop := forall m d p c n, sendable m p [] c n -> p_out d = p -> msg_out d = payload c ->
  0 <= options_out_len d -> options_out_len d + zlen bs <= DHCP_OPTIONS_LEN -> SIZEOF_DHCP_MSG <= len c ->
  exists m', f (m, d) = Ok (m', set_out d p (payload c) (options_out_len d + zlen bs)) /\ sendable m' p [] c n /\
    data_of m' p = splice (data_of m p) (DHCP_OPTIONS_OFS + options_out_len d) bs /\ untouched m m' [p] /\ cells m' = cells m.

Lemma set_out_same d : set_out d (p_out d) (msg_out d) (options_out_len d) = d.
Proof. by destruct d. Qed.

Lemma emits_nil : emits (build []) [].
Proof using Type*.
  intros m d p c n Hs Hp Hm Hn _ Hl. exists m. change (zlen []) with 0. rewrite Z.add_0_r. cbn [build]. subst p. rewrite <- Hm, set_out_same. split; [done|].
  split; [done|]. split; [|split; [apply untouched_refl|done]]. unfold splice. cbn [app length]. by rewrite Nat.add_0_r, take_drop.
Qed.
Lemma emits_then f g a b : emits f a -> emits g b -> emits (fun x => let! x := f x in g x) (a ++ b).
Proof using Type*.
  intros Hf Hl m d p c n Hs Hp Hm Hn Hle Hc. rewrite zlen_app in *. pose proof (zlen_nonneg a). pose proof (zlen_nonneg b).
  destruct (Hf m d p c n Hs Hp Hm Hn) as (m1 & E1 & Hs1 & Hd1 & U1 & C1); [lia|done|]. rewrite E1. cbn [rbind].
  destruct (Hl m1 (set_out d p (payload c) (options_out_len d + zlen a)) p c n Hs1) as (m2 & E2 & Hs2 & Hd2 & U2 & C2); cbn [p_out msg_out options_out_len set_out]; try (done || lia).
  exists m2. cbn [options_out_len set_out] in *. split; [rewrite E2; by rewrite Z.add_assoc|]. split; [done|]. split; [|split; [by eapply untouched_trans|congruence]].
  rewrite Hd2, Hd1. destruct (sendable_cell _ _ _ _ _ Hs) as (_ & _ & _ & _ & Hlen & _).
  rewrite Z.add_assoc, splice_next; [done|change DHCP_OPTIONS_OFS with 240; lia|rewrite <- Hlen; change DHCP_OPTIONS_OFS with 240; change SIZEOF_DHCP_MSG with 308 in Hc; change DHCP_OPTIONS_LEN with 68 in Hle; lia].
Qed.
Lemma emits_put v : emits (put_option v) [u8 v].
Proof using Type*.
  intros m d p c n Hs Hp Hm Hn Hle Hc. change (zlen [u8 v]) with 1 in *. change DHCP_OPTIONS_LEN with 68 in Hle. change SIZEOF_DHCP_MSG with 308 in Hc.
  destruct (sendable_save m p [] c n (DHCP_OPTIONS_OFS + options_out_len d) [u8 v] Hs) as (m' & E & Hs' & Hd & _ & C & U);
    [change DHCP_OPTIONS_OFS with 240; lia|change DHCP_OPTIONS_OFS with 240; change (zlen [u8 v]) with 1; lia|apply bytes_cons; split; [apply Z.mod_pos_bound; done|constructor]|].
  exists m'. unfold put_option. rewrite Hm, E. cbn [rbind]. rewrite u16_small by (unfold is_u16; lia). by rewrite Hp.
Qed.
Lemma emits_cons f l a b : emits f a -> emits (build l) b -> emits (build (f :: l)) (a ++ b).
Proof using Type*. exact (emits_then f (build l) a b). Qed.
Lemma emits_app l l' a b : emits (build l) a -> emits (build l') b -> emits (build (l ++ l')) (a ++ b).
Proof using Type*.
  intros Ha Hb m d p c n Hs. replace (build (l ++ l') (m, d)) with (let! x := build l (m, d) in build l' x); [by apply emits_then|].
  generalize (m, d). clear. induction l as [|f l IH]; intros x; cbn [build app rbind]; [done|]. destruct (f x) as [y|]; [apply IH|done].
Qed.
Lemma emits_one f a : emits f a -> emits (build [f]) a.
Proof using Type*. intros Hf. rewrite <- (app_nil_r a). apply emits_cons; [done|apply emits_nil]. Qed.

(** The bytes of a number, the first one first. *)
Lemma byte_field v k : 0 <= k -> u8 (Z.shiftr (Z.land v (Z.shiftl 255 k)) k) = v / 2 ^ k mod 256.
Proof using Type.
  intros Hk. rewrite Z.shiftr_land, Z.shiftr_shiftl_l, Z.sub_diag, Z.shiftl_0_r, land_255, Z.shiftr_div_pow2 by lia.
  apply Z.mod_small, Z.mod_pos_bound. done.
Qed.
Definition be32 (v : Z) : list Z := [v / 16777216 mod 256; v / 65536 mod 256; v / 256 mod 256; v mod 256].
Lemma be32_htonl a : is_u32 a -> be32 (ntohl a) = u32_bytes a.
Proof using Type.
  intros Ha. rewrite <- (address_of_bytes a Ha) at 1. unfold u32_bytes, ntohl, is_u32 in *.
  pose proof (Z.mod_pos_bound a 256 eq_refl). pose proof (Z.mod_pos_bound (a / 256) 256 eq_refl).
  pose proof (Z.mod_pos_bound (a / 65536) 256 eq_refl). pose proof (Z.mod_pos_bound (a / 16777216) 256 eq_refl).
  set (w := a mod 256) in *. set (x := a / 256 mod 256) in *. set (y := a / 65536 mod 256) in *. set (z := a / 16777216 mod 256) in *. clearbody w x y z.
  replace (address_of w x y z) with (w + 256 * x + 65536 * y + 16777216 * z) by (unfold address_of; lia).
  rewrite (htonl_bytes z y x w) by done. unfold be32, address_of. repeat f_equal; Z.div_mod_to_equations; lia.
Qed.

Lemma emits_option op n : emits (dhcp_option op n) [u8 op; u8 n].
Proof using Type*. apply (emits_cons _ _ [_] [_]); [apply emits_put|apply emits_one, emits_put]. Qed.
Lemma emits_short v : emits (dhcp_option_short v) (be16 v).
Proof using Type*.
  unfold be16. pose proof (byte_field v 8) as E1. pose proof (byte_field v 0) as E0.
  change (2 ^ 8) with 256 in E1. change (2 ^ 0) with 1 in E0. rewrite Z.div_1_r in E0. rewrite <- E1, <- E0, Z.shiftr_0_r by done. apply (emits_cons _ _ [_] [_]); [apply emits_put|apply emits_one, emits_put].
Qed.
Lemma emits_long v : emits (dhcp_option_long v) (be32 v).
Proof using Type*.
  unfold be32. pose proof (byte_field v 24) as E3. pose proof (byte_field v 16) as E2. pose proof (byte_field v 8) as E1. pose proof (byte_field v 0) as E0.
  change (2 ^ 24) with 16777216 in E3. change (2 ^ 16) with 65536 in E2. change (2 ^ 8) with 256 in E1. change (2 ^ 0) with 1 in E0. rewrite Z.div_1_r in E0.
  rewrite <- E3, <- E2, <- E1, <- E0, Z.shiftr_0_r by done.
  apply (emits_cons _ _ [_]); [apply emits_put|]. apply (emits_cons _ _ [_]); [apply emits_put|]. apply (emits_cons _ _ [_]); [apply emits_put|].
  apply emits_one, emits_put.
Qed.

(** The options of the requests. *)
Definition max_size_bytes (n : Z) : list Z := [57; 2] ++ be16 n.
Definition address_bytes (op a : Z) : list Z := [op; 4] ++ u32_bytes a.
Definition wanted_bytes : list Z := [55; 4; 1; 3; 28; 6].
Lemma emits_max_size n : emits (build (max_msg_size n)) (max_size_bytes n).
Proof using Type*. apply emits_cons; [apply (emits_option 57 2)|apply emits_one, emits_short]. Qed.
Lemma emits_address op a : is_byte op -> is_u32 a -> emits (build (address_option op a)) (address_bytes op a).
Proof using Type*.
  intros Ho Ha. unfold address_bytes. rewrite <- be32_htonl by done. replace op with (u8 op) at 2 by (apply Z.mod_small; exact Ho).
  apply emits_cons; [apply (emits_option op 4)|apply emits_one, emits_long].
Qed.
Lemma emits_wanted : emits (build wanted_options) wanted_bytes.
Proof using Type*.
  apply (emits_cons _ _ [55; 4]); [apply emits_option|]. do 3 (apply (emits_cons _ _ [_]); [apply emits_put|]). apply emits_one, emits_put.
Qed.

(** The end of the options and the padding. *)
Definition trailer_bytes (n : Z) : list Z := 255 :: replicate (Z.to_nat (68 - n - 1)) 0.
Lemma trailer_loop_ok k : forall fuel m d p c n, sendable m p [] c n -> p_out d = p -> msg_out d = payload c -> 0 <= options_out_len d ->
  options_out_len d + Z.of_nat k = DHCP_OPTIONS_LEN -> SIZEOF_DHCP_MSG <= len c -> (k < fuel)%nat ->
  exists m', trailer_loop fuel (m, d) = Ok (m', set_out d p (payload c) DHCP_OPTIONS_LEN) /\ sendable m' p [] c n /\
    data_of m' p = splice (data_of m p) (DHCP_OPTIONS_OFS + options_out_len d) (replicate k 0) /\ untouched m m' [p] /\ cells m' = cells m.
Proof using Type*.
  induction k as [|k IH]; intros fuel m d p c n Hs Hp Hm Hn Hk Hc Hf; (destruct fuel as [|fuel]; [lia|]); cbn [trailer_loop].
  - replace (options_out_len d) with DHCP_OPTIONS_LEN by lia. change (DHCP_OPTIONS_LEN <? DHCP_OPTIONS_LEN) with false. rewrite andb_false_r.
    destruct (emits_nil m d p c n Hs Hp Hm Hn) as (m' & E & Hx); [change (zlen []) with 0; lia|done|]. cbn [build] in E. injection E as <- Ed.
    change (zlen []) with 0 in Ed. rewrite Z.add_0_r in Ed. exists m. replace (options_out_len d) with DHCP_OPTIONS_LEN in * by lia. rewrite <- Ed. by split.
  - change DHCP_OPTIONS_LEN with 68 in *. change DHCP_MIN_OPTIONS_LEN with 68. rewrite (proj2 (Z.ltb_lt (options_out_len d) 68)) by lia. cbn [orb andb].
    destruct (emits_put 0 m d p c n Hs Hp Hm Hn) as (m1 & E1 & Hs1 & Hd1 & U1 & C1); [change (zlen [u8 0]) with 1; change DHCP_OPTIONS_LEN with 68; lia|done|].
    change (zlen [u8 0]) with 1 in E1. change [u8 0] with [0] in Hd1. cbn [build]. rewrite E1. cbn [rbind].
    destruct (IH fuel m1 (set_out d p (payload c) (options_out_len d + 1)) p c n Hs1) as (m2 & E2 & Hs2 & Hd2 & U2 & C2); cbn [p_out msg_out options_out_len set_out]; try (done || lia).
    rewrite E2. cbn [rbind]. exists m2. split; [done|]. split; [done|]. split; [|split; [by eapply untouched_trans|congruence]].
    rewrite Hd2, Hd1. cbn [options_out_len set_out]. destruct (sendable_cell _ _ _ _ _ Hs) as (_ & _ & _ & _ & Hlen & _).
    change SIZEOF_DHCP_MSG with 308 in Hc. change DHCP_OPTIONS_OFS with 240. rewrite Z.add_assoc. change 1 with (zlen [0]) at 1. rewrite splice_next; [done|lia|].
    rewrite <- Hlen. change (zlen [0]) with 1. unfold zlen. rewrite length_replicate. lia.
Qed.
Lemma trailer_ok m d p c n : sendable m p [] c n -> p_out d = p -> msg_out d = payload c -> 0 <= options_out_len d < DHCP_OPTIONS_LEN -> SIZEOF_DHCP_MSG <= len c ->
  exists m', dhcp_option_trailer (m, d) = Ok (m', set_out d p (payload c) DHCP_OPTIONS_LEN) /\ sendable m' p [] c n /\
    data_of m' p = splice (data_of m p) (DHCP_OPTIONS_OFS + options_out_len d) (trailer_bytes (options_out_len d)) /\ untouched m m' [p] /\ cells m' = cells m.
Proof using Type*.
  intros Hs Hp Hm Hn Hc. destruct (emits_put DHCP_OPTION_END m d p c n Hs Hp Hm) as (m1 & E1 & Hs1 & Hd1 & U1 & C1); [lia|change (zlen [u8 DHCP_OPTION_END]) with 1; lia|done|].
  change (zlen [u8 DHCP_OPTION_END]) with 1 in E1. change [u8 DHCP_OPTION_END] with [DHCP_OPTION_END] in Hd1. unfold dhcp_option_trailer. cbn [build]. rewrite E1. cbn [rbind].
  destruct (trailer_loop_ok (Z.to_nat (DHCP_OPTIONS_LEN - options_out_len d - 1)) (S (Z.to_nat DHCP_OPTIONS_LEN)) m1 (set_out d p (payload c) (options_out_len d + 1)) p c n Hs1)
    as (m2 & E2 & Hs2 & Hd2 & U2 & C2); cbn [p_out msg_out options_out_len set_out]; try (done || lia).
  rewrite E2. cbn [rbind]. exists m2. split; [done|]. split; [done|]. split; [|split; [by eapply untouched_trans|congruence]].
  rewrite Hd2, Hd1. cbn [options_out_len set_out]. destruct (sendable_cell _ _ _ _ _ Hs) as (_ & _ & _ & _ & Hlen & _).
  change SIZEOF_DHCP_MSG with 308 in Hc. change DHCP_OPTIONS_OFS with 240. change DHCP_OPTIONS_LEN with 68 in *.
  rewrite Z.add_assoc. change 1 with (zlen [DHCP_OPTION_END]) at 1. rewrite splice_next; [done|lia|].
  rewrite <- Hlen. change (zlen [DHCP_OPTION_END]) with 1. unfold zlen. rewrite length_replicate. lia.
Qed.
End builders.

(** ** The message *)

(** The fixed part with the magic number, for an interface with an Ethernet
    address, and the first option, the type of the message. *)
Definition request_header (hwaddr : list Z) (x ciaddr : Z) : list Z :=
  [1; 1; 6; 0] ++ u32_bytes (htonl x) ++ [0; 0; 0; 0] ++ u32_bytes ciaddr ++ replicate 12 0 ++
  (hwaddr ++ replicate 10 0) ++ replicate 64 0 ++ replicate 128 0 ++ [99; 130; 83; 99].
Definition type_option (message_type : Z) : list Z := [53; 1; message_type].
(** A whole message with the options [opts]. *)
Definition request_bytes (hwaddr : list Z) (x ciaddr message_type : Z) (opts : list Z) : list Z :=
  request_header hwaddr x ciaddr ++ type_option message_type ++ opts ++ trailer_bytes (3 + zlen opts).
(** The address a client claims to have. *)
Definition claimed (n : netif_struct) (d : dhcp) (message_type : Z) : Z :=
  if (message_type =? DHCP_INFORM) || (message_type =? DHCP_DECLINE) ||
     ((message_type =? DHCP_REQUEST) && ((dhcp_state d =? DHCP_RENEWING) || (dhcp_state d =? DHCP_REBINDING))) then nif_ip_addr n else 0.

Lemma zlen_header hwaddr x ciaddr : length hwaddr = 6%nat -> zlen (request_header hwaddr x ciaddr) = DHCP_OPTIONS_OFS.
Proof.
  intros Hl. unfold request_header, zlen. rewrite !length_app, !length_replicate, Hl. reflexivity.
Qed.

(** An Ethernet interface. *)
Definition ethernet (n : netif_struct) : Prop := nif_hwaddr_len n = 6 /\ length (nif_hwaddr n) = 6%nat /\ bytes (nif_hwaddr n).
Lemma chaddr_ok n : ethernet n -> chaddr_loop (Z.to_nat DHCP_CHADDR_LEN) 0 (nif_hwaddr n) (nif_hwaddr_len n) = Ok (nif_hwaddr n ++ replicate 10 0).
Proof.
  intros (-> & Hl & _). destruct (nif_hwaddr n) as [|x0 [|x1 [|x2 [|x3 [|x4 [|x5 [|]]]]]]]; try discriminate Hl. reflexivity.
Qed.

(** The fields of the message, one behind the other. *)
Lemma header_tiles data hwaddr x ciaddr : length hwaddr = 6%nat -> zlen data = SIZEOF_DHCP_MSG ->
  spliced data [(0, [DHCP_BOOTREQUEST]); (1, [DHCP_HTYPE_ETH]); (2, [6]); (3, [0]); (4, u32_bytes (htonl x));
    (8, [0; 0]); (10, [0; 0]); (12, u32_bytes ciaddr); (16, u32_bytes 0); (20, u32_bytes 0); (24, u32_bytes 0); (28, hwaddr ++ replicate 10 0);
    (DHCP_SNAME_OFS, replicate (Z.to_nat DHCP_SNAME_LEN) 0); (DHCP_FILE_OFS, replicate (Z.to_nat DHCP_FILE_LEN) 0);
    (DHCP_MSG_LEN, u32_bytes (htonl DHCP_MAGIC_COOKIE)); (DHCP_OPTIONS_OFS, map Z.of_nat (seq 0 (Z.to_nat DHCP_OPTIONS_LEN)))] =
  request_header hwaddr x ciaddr ++ map Z.of_nat (seq 0 (Z.to_nat DHCP_OPTIONS_LEN)).
Proof.
  intros Hl Hd. assert (zlen (hwaddr ++ replicate 10 0) = 16) as H16 by (unfold zlen; rewrite length_app, Hl; reflexivity).
  etransitivity; [refine (spliced_tiles _ [] data 0 eq_refl _ _)|].
  - cbn [tiles]. rewrite H16. repeat split.
  - cbn [map concat snd]. rewrite Hd. unfold zlen. rewrite !length_app, Hl. reflexivity.
  - cbn [map concat snd app]. rewrite app_nil_r. unfold request_header. rewrite <- !app_assoc. reflexivity.
Qed.

Section request.
Context `{OsLaws} {F G K X : Type}.
Abbreviation state := (net (stack (raws F) (udps G * (dns K * (dhcp_vars * X))))).
Implicit Type s : state.
Implicit Type d : dhcp.

(** The transaction of a message, and the state after it has been chosen. *)
Definition request_xid s d (message_type : Z) : Z :=
  if negb (message_type =? DHCP_REQUEST) then (if tries d =? 0 then u32 (last_xid (vars_of s) + 1) else last_xid (vars_of s)) else xid d.
Definition with_xid s d (message_type : Z) : state :=
  if negb (message_type =? DHCP_REQUEST)
  then set_vars s (DhcpVars (dhcp_mem (vars_of s)) (request_xid s d message_type) (rx_options_val (vars_of s)) (rx_options_given (vars_of s)))
  else s.

Lemma create_ok s n d t : backed (mem s) -> ethernet n -> is_byte t -> 
  pbuf_alloc (mem s) PBUF_TRANSPORT SIZEOF_DHCP_MSG PBUF_RAM = Ok (0, mem s) /\
    dhcp_create_msg s n d t = Ok (ERR_MEM, set_out d 0 (msg_out d) (options_out_len d), s) \/
  exists p m c, cells (mem s) !! p = None /\ untouched (mem s) m [p] /\ sendable m p [] c (layer_offset PBUF_TRANSPORT) /\
    ref c = 1 /\ is_Some (blocks m !! p) /\ p <> 0 /\
    len c = SIZEOF_DHCP_MSG /\ (exists rest, zlen rest = 65 /\ data_of m p = request_header (nif_hwaddr n) (request_xid s d t) (claimed n d t) ++ type_option t ++ rest) /\
    dhcp_create_msg s n d t = Ok (ERR_OK, set_out (set_xid d (request_xid s d t)) p (payload c) 3, set_mem (with_xid s d t) m).
Proof using Type*.
  intros Hbk He Ht. unfold dhcp_create_msg. change SIZEOF_DHCP_MSG with 308.
  destruct (alloc_sendable (mem s) PBUF_TRANSPORT 308 Hbk) as [E|(p & m1 & c & E & Hs & Hl & Hc0 & Hb0 & U1 & Hnx)]; [done|done|left; rewrite E; split; [done|by destruct s]|].
  right. rewrite E. cbn [rbind]. destruct (sendable_cell _ _ _ _ _ Hs) as (Hp & _ & _ & _ & Hlen & _). rewrite Hl in Hlen. rewrite (proj2 (Z.eqb_neq p 0)) by done.
  assert (ref c = 1) as Hr.
  { destruct (alloc_ram_ok (mem s) PBUF_TRANSPORT 308 Hbk) as [E'|(p' & m1' & E' & _ & _ & _ & _ & _ & _ & _ & Hr & _)]; [done|rewrite E' in E; by injection E as <- <-|].
    rewrite E in E'. injection E' as <- <-. unfold ref_of in Hr. by rewrite (send_cell _ _ _ _ _ Hs) in Hr. }
  set (s1 := set_mem s m1). set (d1 := set_out d p (msg_out d) (options_out_len d)).
  match goal with |- context [if negb (t =? DHCP_REQUEST) then ?a else ?b] =>
    assert ((if negb (t =? DHCP_REQUEST) then a else b) = (set_xid d1 (request_xid s d t), set_mem (with_xid s d t) m1)) as -> end.
  { unfold with_xid, request_xid. destruct (negb (t =? DHCP_REQUEST)); [reflexivity|by destruct d]. }
  cbn [mem set_mem]. rewrite (deref_ok m1 p c) by (done || apply Hs). cbn [rbind]. rewrite chaddr_ok by done. cbn [rbind].
  destruct He as (Hl6 & Hh & Hhb). rewrite Hl6. change (xid (set_xid d1 (request_xid s d t))) with (request_xid s d t).
  change (dhcp_state (set_xid d1 (request_xid s d t))) with (dhcp_state d). fold (claimed n d t). set (ci := claimed n d t). set (x := request_xid s d t).
  set (fs := (_ :: _)). destruct (sendable_fields fs m1 p [] c _ Hs) as (m2 & -> & Hs2 & Hd2 & _ & Hcl2 & U2).
  { unfold fs. rewrite Hlen. assert (zlen (nif_hwaddr n ++ replicate 10 0) = 16) as H16 by (unfold zlen; rewrite length_app, Hh; reflexivity).
    assert (bytes (nif_hwaddr n ++ replicate 10 0)) as Hb16 by (apply bytes_app; split; [done|by apply (bool_decide_unpack _)]).
    repeat (apply List.Forall_cons; [cbn [fst snd]; rewrite ?H16; (split; [done|split; [vm_compute; congruence|]])|]);
      [..|apply List.Forall_nil]; first [exact Hb16|apply u32_bytes_ok|by apply (bool_decide_unpack _)]. }
  cbn [rbind]. unfold fs in Hd2. rewrite (header_tiles _ (nif_hwaddr n) x ci) in Hd2 by done.
  assert (emits (build [dhcp_option DHCP_OPTION_MESSAGE_TYPE DHCP_OPTION_MESSAGE_TYPE_LEN; dhcp_option_byte t]) (type_option t)) as Hem.
  { apply (emits_cons _ _ [53; 1] [t]); [apply emits_option|]. apply emits_one. replace t with (u8 t) at 2 by (apply Z.mod_small; exact Ht). apply emits_put. }
  destruct (Hem m2 (set_out (set_xid d1 x) p (payload c) 0) p c _ Hs2) as (m3 & E3 & Hs3 & Hd3 & U3 & C3);
    [reflexivity|reflexivity|cbn; lia|change (0 + 3 <= 68); lia|change SIZEOF_DHCP_MSG with 308; lia|]. rewrite E3.
  cbn [rbind options_out_len set_out] in *. exists p, m3, c. split; [done|]. split; [eapply untouched_trans; [exact U1|by eapply untouched_trans]|].
  split; [done|]. split; [done|]. destruct (send_block _ _ _ _ _ Hs3) as (bl & Ebl & _). split; [by eexists|]. split; [done|]. split; [by rewrite Hlen|]. split; [|reflexivity].
  exists (map Z.of_nat (seq 3 65)). split; [reflexivity|]. rewrite Hd3, Hd2. change (DHCP_OPTIONS_OFS + 0) with DHCP_OPTIONS_OFS.
  change (map Z.of_nat (seq 0 (Z.to_nat DHCP_OPTIONS_LEN))) with ([0; 1; 2] ++ map Z.of_nat (seq 3 65)).
  apply splice_mid; [by rewrite zlen_header|done].
Qed.

Lemma build_app l l' x : build (l ++ l') x = let! x := build l x in build l' x.
Proof using Type. revert x. induction l as [|f l IH]; intros x; cbn [build app rbind]; [done|]. destruct (f x) as [y|]; [apply IH|done]. Qed.

(** The options and the trailer behind the fixed part: the packet keeps its
    length, since the options are padded to the end. *)
Lemma finish_ok s d p c k hdr t rest options bs : sendable (mem s) p [] c k -> ref c = 1 -> is_Some (blocks (mem s) !! p) ->
  p_out d = p -> msg_out d = payload c -> options_out_len d = 3 -> len c = SIZEOF_DHCP_MSG ->
  data_of (mem s) p = hdr ++ type_option t ++ rest -> zlen hdr = DHCP_OPTIONS_OFS -> zlen rest = 65 ->
  emits (build options) bs -> zlen bs < 65 ->
  exists m c', finish_msg s d options = Ok (set_out d p (payload c) DHCP_OPTIONS_LEN, set_mem s m) /\
    sendable m p [] c' k /\ data_of m p = hdr ++ type_option t ++ bs ++ trailer_bytes (3 + zlen bs) /\ untouched (mem s) m [p].
Proof using Type*.
  intros Hs Hr Hb Hp Hm Hn Hl Hd Hh Hrest He Hbs. pose proof (zlen_nonneg bs) as Hb0. unfold finish_msg. rewrite build_app.
  destruct (He (mem s) d p c k Hs Hp Hm) as (m1 & E1 & Hs1 & Hd1 & U1 & C1); [lia|rewrite Hn; change DHCP_OPTIONS_LEN with 68; lia|lia|].
  rewrite E1. cbn [rbind build]. rewrite Hn in *.
  destruct (trailer_ok m1 (set_out d p (payload c) (3 + zlen bs)) p c k Hs1) as (m2 & E2 & Hs2 & Hd2 & U2 & C2);
    [reflexivity|reflexivity|cbn [options_out_len set_out]; change DHCP_OPTIONS_LEN with 68; lia|lia|].
  rewrite E2. cbn [rbind options_out_len p_out set_out] in *.
  assert (data_of m2 p = hdr ++ type_option t ++ bs ++ trailer_bytes (3 + zlen bs)) as Hdata.
  { rewrite Hd2, Hd1, Hd. set (u := type_option t). change 3 with (zlen u). assert (zlen (trailer_bytes (zlen u + zlen bs)) = 65 - zlen bs) as Ht.
    { unfold trailer_bytes, zlen. cbn [length]. rewrite length_replicate. change (Z.of_nat (length u)) with 3. change DHCP_OPTIONS_LEN with 68. unfold zlen in *. lia. }
    rewrite Z.add_assoc, splice_next.
    - assert (exists old, rest = old ++ [] /\ zlen (bs ++ trailer_bytes (zlen u + zlen bs)) = zlen old) as (old & -> & Ho).
      { exists rest. rewrite app_nil_r, zlen_app, Ht. split; [done|lia]. }
      rewrite (app_assoc hdr u), (splice_mid (hdr ++ u) old []) by (done || by rewrite zlen_app, Hh). by rewrite app_nil_r, <- !app_assoc.
    - change DHCP_OPTIONS_OFS with 240. change (zlen u) with 3. lia.
    - rewrite Ht, !zlen_app, Hh, Hrest. lia. }
  destruct (sendable_trim m2 p c k SIZEOF_DHCP_MSG Hs2) as (m3 & c3 & E3 & Hs3 & Hd3 & U3 & _); [lia| |rewrite Hl; change SIZEOF_DHCP_MSG with 308; lia|].
  { destruct (send_block _ _ _ _ _ Hs2) as (bl & Ebl & _). by exists bl. }
  change (SIZEOF_DHCP_MSG - DHCP_OPTIONS_LEN + DHCP_OPTIONS_LEN) with SIZEOF_DHCP_MSG. rewrite E3. cbn [rbind].
  exists m3, c3. split; [reflexivity|]. split; [done|]. split; [|eapply untouched_trans; [exact U1|by eapply untouched_trans]].
  rewrite Hd3, <- Hdata. apply take_ge. destruct (sendable_cell _ _ _ _ _ Hs2) as (_ & _ & _ & _ & Hlen & _). unfold zlen in Hlen. lia.
Qed.

(** ** The course of a message *)

(** The block of a client: bound to the port of clients on every address. *)
Definition client_block (c : udp_pcb G) : Prop := pcb_wide c /\ local_port c <> 0 /\ udp_local_ip c = IPADDR_ANY.
Context (output : state -> Z -> Z -> Z -> result (Z * state)).

(** What the options and the destination may depend on. *)
Definition same_offer d d' : Prop := offered_ip_addr d' = offered_ip_addr d /\ server_ip_addr d' = server_ip_addr d.

Lemma put_dhcp_twice s a d d' : put_dhcp (put_dhcp s a d) a d' = put_dhcp s a d'.
Proof using Type. unfold put_dhcp, set_vars, set_client, vars_of, station_of. cbn. by rewrite insert_insert_eq. Qed.
Lemma set_blocks_same s : set_blocks s (blocks_of s) = s.
Proof using Type. by destruct s as [? ? ? [? ? ? ? [? ?]]]. Qed.
Lemma dhcp_at_put s a d : a <> 0 -> dhcp_at (put_dhcp s a d) a = Ok d.
Proof using Type. intros Ha. unfold dhcp_at, cell. rewrite (proj2 (Z.eqb_neq a 0)) by done. cbn. by rewrite lookup_insert_eq. Qed.

Lemma send_request_ok s ul cb netif n d t options dest bs dst : let a := nif_dhcp n in let x := request_xid s d t in
  backed (mem s) -> netif <> 0 -> nifs (ifs (env s)) !! netif = Some n -> ethernet n -> is_u32 (nif_ip_addr n) -> is_u16 (ip_id (ipv (env s))) ->
  a <> 0 -> dhcp_mem (vars_of s) !! a = Some d -> udp_ok (blocks_of s) ul -> udp_mem (blocks_of s) !! dhcp_pcb d = Some cb -> client_block cb ->
  is_byte t -> (forall d', same_offer d d' -> emits (build (options n d')) bs /\ dest d' = dst) -> zlen bs < 65 ->
  is_u32 dst -> ip_addr_ismulticast dst = false ->
  pbuf_alloc (mem s) PBUF_TRANSPORT SIZEOF_DHCP_MSG PBUF_RAM = Ok (0, mem s) /\
    send_request output s netif t options dest = Ok (ERR_MEM, put_dhcp s a (set_out d 0 (msg_out d) (options_out_len d))) \/
  exists p m msg, cells (mem s) !! p = None /\ untouched (mem s) m [p] /\ packet m p [p] /\
    sent_as s m p [] cb DHCP_SERVER_PORT (nif_ip_addr n) dst (request_bytes (nif_hwaddr n) x (claimed n d t) t bs) /\
    send_request output s netif t options dest =
      (let! (_, s) := output (numbered (put_dhcp (with_xid s d t) a (set_out (set_xid d x) p msg DHCP_OPTIONS_LEN)) m) netif p dst in
       let! d := dhcp_at s a in let! (d, s) := dhcp_delete_msg s d in Ok (ERR_OK, put_dhcp s a d)).
Proof using Type*.
  intros a x Hbk Hnz En He Hip Hid Ha Ed Hok Ecb (Hw & Hlp & Hany) Ht Hopt Hbs Hdst Hmc. unfold send_request.
  rewrite (nif_at_ok s netif n) by done. cbn [rbind]. fold a.
  assert (dhcp_at s a = Ok d) as Eat by (unfold dhcp_at, cell; by rewrite (proj2 (Z.eqb_neq a 0)), Ed by done). rewrite Eat. cbn [rbind].
  destruct (create_ok s n d t Hbk He Ht) as [[Hno E]|(p & m1 & c & Hc0 & U1 & Hs1 & Hr & Hb & Hp & Hl & (rest & Hrest & Hd1) & E)]; rewrite E; cbn [rbind]; [left; by split|right].
  fold x. fold x in Hd1. change (ERR_OK =? ERR_OK) with true. cbv iota. set (d1 := set_out (set_xid d x) p (payload c) 3). set (s1 := with_xid s d t).
  destruct (Hopt d1) as [Hem _]; [by split|].
  destruct (finish_ok (put_dhcp (set_mem s1 m1) a d1) d1 p c _ (request_header (nif_hwaddr n) x (claimed n d t)) t rest (options n d1) bs Hs1 Hr Hb)
    as (m2 & c2 & -> & Hs2 & Hd2 & U2); [reflexivity|reflexivity|reflexivity|done|done|by apply zlen_header, He|done|done|done|]. cbn [rbind mem set_mem put_dhcp] in *.
  change (set_out d1 p (payload c) DHCP_OPTIONS_LEN) with (set_out (set_xid d x) p (payload c) DHCP_OPTIONS_LEN). set (d2 := set_out (set_xid d x) p (payload c) DHCP_OPTIONS_LEN).
  change (put_dhcp (set_mem (put_dhcp (set_mem s1 m1) a d1) m2) a d2) with (set_mem (put_dhcp (put_dhcp s1 a d1) a d2) m2). rewrite put_dhcp_twice.
  change (dhcp_pcb d2) with (dhcp_pcb d). change (p_out d2) with p. destruct (Hopt d2) as [_ Edst]; [by split|]. rewrite Edst. set (s2 := put_dhcp s1 a d2).
  assert (blocks_of (set_mem s2 m2) = blocks_of s /\ ifs (env (set_mem s2 m2)) = ifs (env s) /\ ipv (env (set_mem s2 m2)) = ipv (env s)) as (Eb & Ei & Ev)
    by (unfold s2, s1, with_xid; by destruct (negb _)).
  destruct (sendto_if_ok output (set_mem s2 m2) (dhcp_pcb d) cb ul p [] c2 (layer_offset PBUF_TRANSPORT) dst DHCP_SERVER_PORT netif n)
    as (u' & cb' & _ & _ & _ & Hsame & _ & Hx); try done; rewrite ?Eb, ?Ei, ?Ev; try done; [by left|].
  destruct (Hsame Hlp) as [-> ->]. cbv zeta in Hx. rewrite Hany, !Z.eqb_refl in Hx. destruct Hx as (m' & Hpk & U' & -> & Hsent).
  exists p, m', (payload c). split; [done|]. split; [eapply untouched_trans; [exact U1|]; eapply untouched_trans; [exact U2|exact U']|]. split; [done|].
  rewrite set_blocks_same. split; [|reflexivity]. unfold sent_as in *. rewrite Ev in Hsent. unfold request_bytes.
  replace (contents (mem (set_mem s2 m2)) [p]) with (data_of m2 p) in Hsent by (unfold contents; cbn [map concat mem set_mem]; by rewrite app_nil_r). by rewrite Hd2 in Hsent.
Qed.

(** ** A client that can send *)

Record ready s (netif : Z) (n : netif_struct) d : Prop := {
  r_backed : backed (mem s);
  r_netif : netif <> 0 /\ nifs (ifs (env s)) !! netif = Some n;
  r_ethernet : ethernet n /\ is_u32 (nif_ip_addr n);
  r_number : is_u16 (ip_id (ipv (env s)));
  r_client : nif_dhcp n <> 0 /\ dhcp_mem (vars_of s) !! nif_dhcp n = Some d;
  r_udp : exists ul, udp_ok (blocks_of s) ul;
  r_pcb : exists cb, udp_mem (blocks_of s) !! dhcp_pcb d = Some cb /\ client_block cb;
  r_offer : is_u32 (offered_ip_addr d) /\ is_u32 (server_ip_addr d) /\ ip_addr_ismulticast (server_ip_addr d) = false
}.
Lemma ready_at s netif n d : ready s netif n d -> dhcp_at s (nif_dhcp n) = Ok d /\ client_of s netif = Ok (nif_dhcp n).
Proof using Type*.
  intros Hr. destruct (r_netif _ _ _ _ Hr) as [Hz En]. destruct (r_client _ _ _ _ Hr) as [Ha Ed].
  unfold dhcp_at, cell, client_of. rewrite (proj2 (Z.eqb_neq _ 0)), Ed, (nif_at_ok s netif n) by done. done.
Qed.
(** Another client at the same place, with the same block. *)
Lemma ready_put s netif n d d' : ready s netif n d -> dhcp_pcb d' = dhcp_pcb d -> is_u32 (offered_ip_addr d') -> server_ip_addr d' = server_ip_addr d ->
  ready (put_dhcp s (nif_dhcp n) d') netif n d'.
Proof using Type*.
  intros [? ? ? ? [Ha Ed] ? ? (? & ? & ?)] Hp Ho Hs. constructor; try done; [split; [done|apply lookup_insert_eq]|by rewrite Hp|by rewrite Hs].
Qed.

(** What an output function does with a packet it does not own. *)
Definition lends (f : state -> Z -> Z -> Z -> result (Z * state)) : Prop := forall s netif p dest l, backed (mem s) -> is_chain (mem s) p l ->
  exists err s', f s netif p dest = Ok (err, s') /\ backed (mem s') /\ is_chain (mem s') p l /\ vars_of s' = vars_of s /\ blocks_of s' = blocks_of s /\
    ifs (env s') = ifs (env s) /\ ipv (env s') = ipv (env s).

(** The parts of the state a message may not change. *)
Record undisturbed s s' : Prop := {
  u_backed : backed (mem s'); u_blocks : blocks_of s' = blocks_of s; u_ifs : ifs (env s') = ifs (env s); u_number : is_u16 (ip_id (ipv (env s')))
}.
(** The client after the attempt to send a message. *)
Definition after_request s d t (sent : bool) : dhcp :=
  if sent then set_out (set_xid d (request_xid s d t)) 0 (0, 0) DHCP_OPTIONS_LEN else set_out d 0 (msg_out d) (options_out_len d).

Lemma request_returns s netif n d t options dest bs dst : lends output -> ready s netif n d ->
  is_byte t -> (forall d', same_offer d d' -> emits (build (options n d')) bs /\ dest d' = dst) -> zlen bs < 65 ->
  is_u32 dst -> ip_addr_ismulticast dst = false ->
  exists r s', send_request output s netif t options dest = Ok (r, s') /\ (r = ERR_OK \/ r = ERR_MEM) /\ undisturbed s s' /\
    dhcp_mem (vars_of s') = <[nif_dhcp n := after_request s d t (r =? ERR_OK)]> (dhcp_mem (vars_of s)).
Proof using Type*.
  intros Hout Hr Ht Hopt Hbs Hdst Hmc. destruct Hr as [Hbk [Hnz En] [He Hip] Hid [Ha Ed] (ul & Hok) (cb & Ecb & Hcb) _].
  destruct (send_request_ok s ul cb netif n d t options dest bs dst Hbk Hnz En He Hip Hid Ha Ed Hok Ecb Hcb Ht Hopt Hbs Hdst Hmc)
    as [[_ E]|(p & m & msg & Hc0 & U & Hpk & _ & E)]; rewrite E.
  { eexists _, _. split; [reflexivity|]. split; [by right|]. split; [by constructor|reflexivity]. }
  set (d2 := set_out _ _ _ _). set (s2 := put_dhcp _ _ d2).
  assert (blocks_of s2 = blocks_of s /\ ifs (env s2) = ifs (env s) /\ ipv (env s2) = ipv (env s)) as (Eb & Ei & Ev) by (unfold s2, with_xid; by destruct (negb _)).
  assert (dhcp_mem (vars_of s2) = <[nif_dhcp n := d2]> (dhcp_mem (vars_of s))) as Em by (unfold s2, with_xid; by destruct (negb _)).
  destruct (Hout (numbered s2 m) netif p dst [p] (proj1 U Hbk) (packet_chain _ _ _ Hpk)) as (err & s3 & -> & Hbk3 & Hch3 & Ev3 & Eb3 & Ei3 & Ep3). cbn [rbind].
  assert (dhcp_at s3 (nif_dhcp n) = Ok d2) as ->.
  { unfold dhcp_at. rewrite Ev3. change (vars_of (numbered s2 m)) with (vars_of s2). rewrite Em. unfold cell. rewrite (proj2 (Z.eqb_neq _ 0)) by done. by rewrite lookup_insert_eq. }
  cbn [rbind]. unfold dhcp_delete_msg. change (p_out d2) with p. destruct (Z.eqb_spec p 0) as [->|Hp].
  { destruct (packet_chain _ _ _ Hpk) as (_ & H00 & _). by destruct H00. }
  cbn [negb]. destruct (free_packet_any s3 p [p] Hch3 Hbk3) as (m4 & -> & Hbk4). cbn [rbind].
  exists ERR_OK. eexists. split; [reflexivity|]. split; [by left|]. split.
  - constructor; [done|change (blocks_of s3 = blocks_of s); by rewrite Eb3|change (ifs (env s3) = ifs (env s)); by rewrite Ei3|].
    change (is_u16 (ip_id (ipv (env s3)))). rewrite Ep3. apply u16_range.
  - change (<[nif_dhcp n := set_out d2 0 (0, 0) (options_out_len d2)]> (dhcp_mem (vars_of s3)) = <[nif_dhcp n := after_request s d t true]> (dhcp_mem (vars_of s))).
    rewrite Ev3. change (vars_of (numbered s2 m)) with (vars_of s2). rewrite Em, insert_insert_eq. reflexivity.
Qed.

(** The functions that send a message set the state, send, and wait. *)
Definition attempt (st t : Z) (options : netif_struct -> dhcp -> list builder) (dest : dhcp -> Z) (msecs : Z -> Z) s (netif : Z) : result (Z * state) :=
  let! a := client_of s netif in
  let! s := upd_dhcp s a (fun d => dhcp_set_state d st) in
  let! (result, s) := send_request output s netif t options dest in
  let! s := next_try s a msecs in
  Ok (result, s).
(** The client behind a message of the state [st]. *)
Record asked d st (msecs : Z -> Z) d' : Prop := {
  a_state : dhcp_state d' = st;
  a_tries : tries d' = u8 ((if st =? dhcp_state d then tries d else 0) + 1);
  a_timeout : request_timeout d' = fine_ticks (msecs (tries d'));
  a_pcb : dhcp_pcb d' = dhcp_pcb d;
  a_message : p_out d' = 0;
  a_timers : t1_timeout d' = t1_timeout d /\ t2_timeout d' = t2_timeout d;
  a_offer : same_offer d d'
}.

Lemma message_returns s netif n d st t options dest msecs bs dst : lends output -> ready s netif n d ->
  is_byte t -> (forall d', same_offer d d' -> emits (build (options n d')) bs /\ dest d' = dst) -> zlen bs < 65 -> is_u32 dst -> ip_addr_ismulticast dst = false ->
  exists r s' d', attempt st t options dest msecs s netif = Ok (r, s') /\ (r = ERR_OK \/ r = ERR_MEM) /\ ready s' netif n d' /\ asked d st msecs d' /\
    dhcp_mem (vars_of s') = <[nif_dhcp n := d']> (dhcp_mem (vars_of s)).
Proof using Type*.
  intros Hout Hr Ht Hopt Hbs Hdst Hmc. destruct (ready_at _ _ _ _ Hr) as [Eat Ecl]. pose proof Hr as [_ [Hnz En] _ _ [Ha Ed] _ _ (Ho1 & Ho2 & Ho3)].
  unfold attempt, upd_dhcp. rewrite Ecl. cbn [rbind]. rewrite Eat. cbn [rbind]. set (d1 := dhcp_set_state d st). set (s1 := put_dhcp s (nif_dhcp n) d1).
  assert (same_offer d d1 /\ dhcp_pcb d1 = dhcp_pcb d /\ dhcp_state d1 = st /\ tries d1 = (if st =? dhcp_state d then tries d else 0) /\ p_out d1 = p_out d /\
    t1_timeout d1 = t1_timeout d /\ t2_timeout d1 = t2_timeout d) as ((Hs1 & Hs2) & Hpc & Hst & Htr & Hpo & Ht1 & Ht2).
  { unfold d1, dhcp_set_state. destruct (Z.eqb_spec st (dhcp_state d)) as [->|]; by repeat split. }
  assert (ready s1 netif n d1) as Hr1 by (apply (ready_put s netif n d d1); [done|done|by rewrite Hs1|done]).
  destruct (request_returns s1 netif n d1 t options dest bs dst Hout Hr1 Ht) as (r & s2 & E & Hre & Hu & Em); try done.
  { intros d' [Hd1 Hd2]. apply Hopt. split; congruence. }
  rewrite E. cbn [rbind]. set (d2 := after_request s1 d1 t (r =? ERR_OK)) in *.
  assert (dhcp_at s2 (nif_dhcp n) = Ok d2) as E2 by (unfold dhcp_at, cell; rewrite (proj2 (Z.eqb_neq _ 0)), Em, lookup_insert_eq; done).
  unfold next_try, upd_dhcp. rewrite E2. cbn [rbind]. set (d3 := set_progress d2 _ _ _).
  assert (same_offer d1 d2 /\ dhcp_pcb d2 = dhcp_pcb d1 /\ dhcp_state d2 = dhcp_state d1 /\ tries d2 = tries d1 /\ (p_out d2 = 0) /\
    t1_timeout d2 = t1_timeout d1 /\ t2_timeout d2 = t2_timeout d1) as ((Hs3 & Hs4) & Hpc2 & Hst2 & Htr2 & Hpo2 & Ht12 & Ht22)
    by (unfold d2, after_request; destruct (r =? ERR_OK); by repeat split).
  exists r, (put_dhcp s2 (nif_dhcp n) d3), d3. split; [reflexivity|]. split; [done|]. split.
  - destruct Hu as [Hb2 Eb2 Ei2 Hi2]. destruct Hr1 as [_ _ ? _ _ Hudp Hpcb _]. constructor; try done.
    + change (netif <> 0 /\ nifs (ifs (env s2)) !! netif = Some n). by rewrite Ei2.
    + split; [done|]. change ((<[nif_dhcp n := d3]> (dhcp_mem (vars_of s2))) !! nif_dhcp n = Some d3). apply lookup_insert_eq.
    + change (exists ul, udp_ok (blocks_of s2) ul). by rewrite Eb2.
    + change (exists cb, udp_mem (blocks_of s2) !! dhcp_pcb d2 = Some cb /\ client_block cb). by rewrite Eb2, Hpc2.
    + change (is_u32 (offered_ip_addr d2) /\ is_u32 (server_ip_addr d2) /\ ip_addr_ismulticast (server_ip_addr d2) = false). by rewrite Hs3, Hs4, Hs1, Hs2.
  - split; [constructor; unfold d3; cbn [dhcp_state tries request_timeout dhcp_pcb p_out t1_timeout t2_timeout set_progress]|].
    + congruence.
    + by rewrite Htr2, Htr.
    + done.
    + congruence.
    + done.
    + split; congruence.
    + split; cbn; congruence.
    + change (dhcp_mem (vars_of (put_dhcp s2 (nif_dhcp n) d3))) with (<[nif_dhcp n := d3]> (dhcp_mem (vars_of s2))). rewrite Em.
      change (dhcp_mem (vars_of s1)) with (<[nif_dhcp n := d1]> (dhcp_mem (vars_of s))). by rewrite !insert_insert_eq.
Qed.

(** ** The six requests *)

Inductive request := Discover | Select | Decline | Renew | Rebind | Reboot.
Implicit Type r : request.
Definition run r : state -> Z -> result (Z * state) :=
  match r with
  | Discover => dhcp_discover output | Select => dhcp_select output | Decline => dhcp_decline output
  | Renew => dhcp_renew output | Rebind => dhcp_rebind output | Reboot => dhcp_reboot output
  end.
Definition request_state r : Z :=
  match r with
  | Discover => DHCP_SELECTING | Select => DHCP_REQUESTING | Decline => DHCP_BACKING_OFF
  | Renew => DHCP_RENEWING | Rebind => DHCP_REBINDING | Reboot => DHCP_REBOOTING
  end.
Definition request_type r : Z := match r with Discover => DHCP_DISCOVER | Decline => DHCP_DECLINE | _ => DHCP_REQUEST end.
Definition request_options r (n : netif_struct) d : list builder :=
  match r with
  | Discover => max_msg_size (nif_mtu n) ++ wanted_options
  | Select => max_msg_size (nif_mtu n) ++ address_option DHCP_OPTION_REQUESTED_IP (offered_ip_addr d) ++
              address_option DHCP_OPTION_SERVER_ID (server_ip_addr d) ++ wanted_options
  | Decline => address_option DHCP_OPTION_REQUESTED_IP (offered_ip_addr d)
  | Renew | Rebind => max_msg_size (nif_mtu n)
  | Reboot => max_msg_size 576 ++ address_option DHCP_OPTION_REQUESTED_IP (offered_ip_addr d)
  end.
Definition option_bytes r (n : netif_struct) d : list Z :=
  match r with
  | Discover => max_size_bytes (nif_mtu n) ++ wanted_bytes
  | Select => max_size_bytes (nif_mtu n) ++ address_bytes 50 (offered_ip_addr d) ++ address_bytes 54 (server_ip_addr d) ++ wanted_bytes
  | Decline => address_bytes 50 (offered_ip_addr d)
  | Renew | Rebind => max_size_bytes (nif_mtu n)
  | Reboot => max_size_bytes 576 ++ address_bytes 50 (offered_ip_addr d)
  end.
(** Only a renewal goes to the server itself. *)
Definition request_dest r d : Z := match r with Renew => server_ip_addr d | _ => IPADDR_BROADCAST end.
Definition request_msecs r : Z -> Z :=
  match r with Discover | Select => discover_msecs | Decline => fun _ => 10 * 1000 | Renew => renew_msecs | Rebind | Reboot => rebind_msecs end.
(** A discovery forgets what was offered. *)
Definition before r d : dhcp :=
  match r with Discover => set_offer d (subnet_mask_given d) (server_ip_addr d) IPADDR_ANY (offered_sn_mask d) (offered_gw_addr d) | _ => d end.

Lemma request_emits r n d : is_u32 (offered_ip_addr d) -> is_u32 (server_ip_addr d) ->
  forall d', same_offer d d' -> emits (build (request_options r n d')) (option_bytes r n d) /\ request_dest r d' = request_dest r d.
Proof using Type*.
  intros Ho Hs d' [Eo Es]. split; [|unfold request_dest; destruct r; done].
  pose proof (emits_max_size (nif_mtu n)) as Hm. assert (emits (build (address_option DHCP_OPTION_REQUESTED_IP (offered_ip_addr d))) (address_bytes 50 (offered_ip_addr d))) as Hr
    by (apply emits_address; [by apply (bool_decide_unpack _)|done]).
  assert (emits (build (address_option DHCP_OPTION_SERVER_ID (server_ip_addr d))) (address_bytes 54 (server_ip_addr d))) as Hv
    by (apply emits_address; [by apply (bool_decide_unpack _)|done]).
  destruct r; cbn [request_options option_bytes]; rewrite ?Eo, ?Es.
  - apply emits_app; [done|apply emits_wanted].
  - apply emits_app; [done|]. apply emits_app; [done|]. apply emits_app; [done|apply emits_wanted].
  - done.
  - done.
  - done.
  - apply emits_app; [apply emits_max_size|done].
Qed.
Lemma option_bytes_small r n d : zlen (option_bytes r n d) < 65.
Proof using Type. by destruct r. Qed.
Lemma request_type_byte r : is_byte (request_type r).
Proof using Type. destruct r; by apply (bool_decide_unpack _). Qed.
Lemma request_dest_ok s netif n d r : ready s netif n d -> is_u32 (request_dest r d) /\ ip_addr_ismulticast (request_dest r d) = false.
Proof using Type*. intros [_ _ _ _ _ _ _ (? & ? & ?)]. destruct r; cbn [request_dest]; try done; (split; [by apply (bool_decide_unpack _)|reflexivity]). Qed.

(** The six functions are of one kind. *)
Lemma run_message s netif n d r : ready s netif n d ->
  run r s netif = attempt (request_state r) (request_type r) (request_options r) (request_dest r) (request_msecs r) (put_dhcp s (nif_dhcp n) (before r d)) netif /\
  ready (put_dhcp s (nif_dhcp n) (before r d)) netif n (before r d).
Proof using Type*.
  intros Hr. destruct (ready_at _ _ _ _ Hr) as [Eat Ecl]. pose proof Hr as [_ _ _ _ [Ha Ed] _ _ (Ho & _ & _)].
  assert (ready (put_dhcp s (nif_dhcp n) (before r d)) netif n (before r d)) as Hr'.
  { apply (ready_put s netif n d); [done| | |]; by destruct r. }
  split; [|done]. destruct (ready_at _ _ _ _ Hr') as [Eat' Ecl']. unfold attempt, upd_dhcp. rewrite Ecl'. cbn [rbind]. rewrite Eat'. cbn [rbind]. rewrite put_dhcp_twice.
  destruct r; cbn [run]; unfold dhcp_discover, dhcp_select, dhcp_decline, dhcp_renew, dhcp_rebind, dhcp_reboot, upd_dhcp; rewrite Ecl; cbn [rbind]; rewrite Eat; reflexivity.
Qed.

Lemma run_returns s netif n d r : lends output -> ready s netif n d ->
  exists err s' d', run r s netif = Ok (err, s') /\ (err = ERR_OK \/ err = ERR_MEM) /\ ready s' netif n d' /\ asked (before r d) (request_state r) (request_msecs r) d' /\
    dhcp_mem (vars_of s') = <[nif_dhcp n := d']> (dhcp_mem (vars_of s)).
Proof using Type*.
  intros Hout Hr. destruct (run_message s netif n d r Hr) as [-> Hr']. pose proof Hr' as [_ _ _ _ _ _ _ (Ho & Hs & _)].
  destruct (request_dest_ok _ _ _ _ r Hr') as [Hd1 Hd2].
  destruct (message_returns _ netif n (before r d) (request_state r) (request_type r) (request_options r) (request_dest r) (request_msecs r) (option_bytes r n (before r d))
    (request_dest r (before r d)) Hout Hr' (request_type_byte r) (request_emits r n _ Ho Hs) (option_bytes_small r n _) Hd1 Hd2)
    as (err & s' & d' & E & He & Hre & Has & Em).
  exists err, s', d'. split; [done|]. split; [done|]. split; [done|]. split; [done|]. rewrite Em. apply insert_insert_eq.
Qed.

(** ** What goes out *)

(** The message [out] sends for the client at [nif_dhcp n], which is [d1] by
    then: a packet of its own with one datagram of 308 bytes from the block
    [cb] to port 67 of [dst], given to the interface once and released.  The
    client waits for the time that [msecs] says for the number of its tries.
    Without memory for the packet only an error is returned. *)
Definition goes_out s (netif : Z) (n : netif_struct) (cb : udp_pcb G) (out : result (Z * state)) (d1 : dhcp)
  (t x ciaddr : Z) (opts : list Z) (dst : Z) (msecs : Z -> Z) : Prop :=
  let a := nif_dhcp n in
  pbuf_alloc (mem s) PBUF_TRANSPORT 308 PBUF_RAM = Ok (0, mem s) /\
    out = (let! s1 := next_try (put_dhcp s a (set_out d1 0 (msg_out d1) (options_out_len d1))) a msecs in Ok (ERR_MEM, s1)) \/
  exists p m msg, cells (mem s) !! p = None /\ untouched (mem s) m [p] /\ packet m p [p] /\
    sent_as s m p [] cb 67 (nif_ip_addr n) dst (request_bytes (nif_hwaddr n) x ciaddr t opts) /\
    out =
      (let v := vars_of s in
       let s0 := if t =? 3 then s else set_vars s (DhcpVars (dhcp_mem v) x (rx_options_val v) (rx_options_given v)) in
       let! (_, s1) := output (numbered (put_dhcp s0 a (set_out (set_xid d1 x) p msg 68)) m) netif p dst in
       let! d2 := dhcp_at s1 a in let! (d2, s1) := dhcp_delete_msg s1 d2 in
       let! s2 := next_try (put_dhcp s1 a d2) a msecs in Ok (ERR_OK, s2)).

Lemma state_set d st : dhcp_state (dhcp_set_state d st) = st.
Proof using Type. unfold dhcp_set_state. by destruct (Z.eqb_spec st (dhcp_state d)) as [->|]. Qed.
Lemma out_set d st : p_out (dhcp_set_state d st) = p_out d /\ same_offer d (dhcp_set_state d st) /\ dhcp_pcb (dhcp_set_state d st) = dhcp_pcb d /\
  xid (dhcp_set_state d st) = xid d /\ tries (dhcp_set_state d st) = if st =? dhcp_state d then tries d else 0.
Proof using Type. unfold dhcp_set_state. destruct (Z.eqb_spec st (dhcp_state d)) as [->|]; by repeat split. Qed.
(** The address claimed: only by a renewal, or to decline it. *)
Definition request_claims r (n : netif_struct) : Z := match r with Decline | Renew | Rebind => nif_ip_addr n | _ => 0 end.
Lemma request_claimed r n d : claimed n (dhcp_set_state d (request_state r)) (request_type r) = request_claims r n.
Proof using Type. unfold claimed. rewrite state_set. by destruct r. Qed.
(** The transaction: that of the offer, or a new one for a first try. *)
Definition transaction s d (st : Z) : Z :=
  if (dhcp_state d =? st) && negb (tries d =? 0) then last_xid (vars_of s) else u32 (last_xid (vars_of s) + 1).
Lemma request_transaction s r d : request_xid s (dhcp_set_state d (request_state r)) (request_type r) =
  match r with Discover | Decline => transaction s d (request_state r) | _ => xid d end.
Proof using Type.
  unfold request_xid, transaction. destruct (out_set d (request_state r)) as (_ & _ & _ & -> & ->). rewrite (Z.eqb_sym (request_state r)).
  destruct r; cbn [request_state request_type]; try done; destruct (dhcp_state d =? _); cbn [andb]; try done; by destruct (tries d =? 0).
Qed.

Lemma run_goes s netif n d cb r : ready s netif n d -> udp_mem (blocks_of s) !! dhcp_pcb d = Some cb -> client_block cb ->
  goes_out s netif n cb (run r s netif) (dhcp_set_state (before r d) (request_state r)) (request_type r)
    (match r with Discover | Decline => transaction s d (request_state r) | _ => xid d end) (request_claims r n)
    (option_bytes r n (before r d)) (request_dest r d) (request_msecs r).
Proof using Type*.
  intros Hr Ecb Hcb. destruct (run_message s netif n d r Hr) as [-> Hr']. set (d0 := before r d) in *. set (s0 := put_dhcp s (nif_dhcp n) d0) in *.
  destruct (ready_at _ _ _ _ Hr') as [Eat Ecl]. unfold attempt, upd_dhcp. rewrite Ecl. cbn [rbind]. rewrite Eat. cbn [rbind]. unfold s0. rewrite put_dhcp_twice.
  set (d1 := dhcp_set_state d0 (request_state r)). destruct (out_set d0 (request_state r)) as (_ & [Eo Es] & Epc & _).
  pose proof Hr' as [_ _ _ _ _ _ _ (Ho & Hs & Hm)].
  assert (ready (put_dhcp s0 (nif_dhcp n) d1) netif n d1) as Hr1 by (apply (ready_put s0 netif n d0 d1 Hr'); [done|unfold d1; by rewrite Eo|done]).
  unfold s0 in Hr1. rewrite put_dhcp_twice in Hr1. set (s1 := put_dhcp s (nif_dhcp n) d1) in *.
  pose proof Hr1 as [Hbk [Hnz En] [He Hip] Hid [Ha Ed] (ul & Hok) _ (Ho1 & Hs1 & Hm1)].
  destruct (request_dest_ok _ _ _ _ r Hr1) as [Hd1 Hd2].
  assert (dhcp_pcb d1 = dhcp_pcb d) as Epc1 by (unfold d1; rewrite Epc; unfold d0; by destruct r).
  assert (request_dest r d1 = request_dest r d /\ option_bytes r n d1 = option_bytes r n d0) as [Edest Eopt].
  { split; [|unfold d1; unfold option_bytes; by rewrite Eo, Es]. unfold request_dest, d1. rewrite Es. unfold d0. by destruct r. }
  assert (request_xid s1 d1 (request_type r) = match r with Discover | Decline => transaction s d (request_state r) | _ => xid d end) as Ex.
  { unfold s1, d1. etransitivity; [apply (request_transaction _ r d0)|]. unfold d0. by destruct r. }
  destruct (send_request_ok s1 ul cb netif n d1 (request_type r) (request_options r) (request_dest r) (option_bytes r n d1) (request_dest r d1) Hbk Hnz En He Hip Hid Ha Ed Hok)
    as [[Hno E]|(p & m & msg & Hc0 & U & Hpk & Hsent & E)]; try done; [by rewrite Epc1|apply request_type_byte|by apply request_emits|apply option_bytes_small| |].
  - left. split; [exact Hno|]. rewrite E. cbn [rbind]. unfold s1. by rewrite put_dhcp_twice.
  - right. exists p, m, msg. split; [exact Hc0|]. split; [exact U|]. split; [exact Hpk|]. cbv zeta in Hsent, E.
    rewrite Edest, Eopt, Ex in Hsent. rewrite Edest, Ex in E. unfold d1 in Hsent. rewrite request_claimed in Hsent. split; [exact Hsent|].
    rewrite E. set (x := match r with Discover | Decline => _ | _ => _ end) in *.
    assert (forall dx, put_dhcp (with_xid s1 d1 (request_type r)) (nif_dhcp n) dx =
      put_dhcp (if request_type r =? 3 then s else set_vars s (DhcpVars (dhcp_mem (vars_of s)) x (rx_options_val (vars_of s)) (rx_options_given (vars_of s)))) (nif_dhcp n) dx) as ->.
    { intros dx. unfold with_xid. rewrite Ex. change DHCP_REQUEST with 3. destruct (request_type r =? 3); cbn [negb]; unfold s1; [apply put_dhcp_twice|].
      unfold put_dhcp, set_vars, set_client, vars_of, station_of. cbn. by rewrite insert_insert_eq. }
    cbv zeta. change DHCP_OPTIONS_LEN with 68. fold x. match goal with |- context [output ?a ?b ?c ?e] => destruct (output a b c e) as [[err s3]|] end; cbn [rbind]; [|reflexivity]. destruct (dhcp_at s3 (nif_dhcp n)) as [d3|]; [|done]. cbn [rbind].
    by destruct (dhcp_delete_msg s3 d3) as [[d4 s4]|].
Qed.

(** C17: the messages of the client.  Each of the six functions sends one datagram of 308 bytes from the block of the client, over its interface, to port 67: the fixed part with the transaction, the hardware address and the address the client claims, the type of the message, its options, the end and the padding; its checksums verify, it is handed to the interface once and the packet is given back.  A discovery (type 1, state 6) asks for mask, router, broadcast address and name server and forgets the address offered before; a selection (type 3, state 1) names the offered address and the server and asks for the same; a refusal (type 4, state 12) names the offered address and claims that of the interface; a renewal (type 3, state 5) and a rebinding (type 3, state 4) claim the address of the interface, the renewal goes to the server alone and all others are broadcast; a reboot (type 3, state 3) names the address of before.  All but the refusal say how long a message may be, a reboot 576.  A first discovery and refusal take a new transaction, requests keep that of the client.  Afterwards the client waits: 2, 4, 8, 16, 32 and then 60 seconds, 10 seconds for a refusal, 2 seconds more with each renewal up to 20, and 1 second more with each rebinding or reboot up to 10.  Only when [pbuf_alloc] has no memory nothing is sent, and [ERR_MEM] is returned after the same wait. *)
Theorem dhcp_request_sent s netif n d cb : ready s netif n d -> udp_mem (blocks_of s) !! dhcp_pcb d = Some cb -> client_block cb ->
  let go := goes_out s netif n cb in
  let everybody := address_of 255 255 255 255 in
  let mtu := [57; 2] ++ be16 (nif_mtu n) in
  let address := [50; 4] ++ u32_bytes (offered_ip_addr d) in
  let wanted := [55; 4; 1; 3; 28; 6] in
  let first st := if (dhcp_state d =? st) && negb (tries d =? 0) then last_xid (vars_of s) else u32 (last_xid (vars_of s) + 1) in
  let doubling k := (if k <? 6 then Z.shiftl 1 k else 60) * 1000 in
  let slowly k := if k <? 10 then k * 1000 else 10000 in
  go (dhcp_discover output s netif) (dhcp_set_state (set_offer d (subnet_mask_given d) (server_ip_addr d) 0 (offered_sn_mask d) (offered_gw_addr d)) 6)
    1 (first 6) 0 (mtu ++ wanted) everybody doubling /\
  go (dhcp_select output s netif) (dhcp_set_state d 1) 3 (xid d) 0 (mtu ++ address ++ ([54; 4] ++ u32_bytes (server_ip_addr d)) ++ wanted) everybody doubling /\
  go (dhcp_decline output s netif) (dhcp_set_state d 12) 4 (first 12) (nif_ip_addr n) address everybody (fun _ => 10000) /\
  go (dhcp_renew output s netif) (dhcp_set_state d 5) 3 (xid d) (nif_ip_addr n) mtu (server_ip_addr d) (fun k => if k <? 10 then k * 2000 else 20000) /\
  go (dhcp_rebind output s netif) (dhcp_set_state d 4) 3 (xid d) (nif_ip_addr n) mtu everybody slowly /\
  go (dhcp_reboot output s netif) (dhcp_set_state d 3) 3 (xid d) 0 ([57; 2; 2; 64] ++ address) everybody slowly.
Proof using Type*.
  intros Hr Ecb Hcb. pose proof (fun r => run_goes s netif n d cb r Hr Ecb Hcb) as Hgo.
  exact (conj (Hgo Discover) (conj (Hgo Select) (conj (Hgo Decline) (conj (Hgo Renew) (conj (Hgo Rebind) (Hgo Reboot)))))).
Qed.

(** The requests always come back.  With interfaces that take packets, each
    of the six requests returns, with or without memory for its message, in
    the state of the request and with the packet given back; the tries are
    counted from the entry to the state on, and the client waits the time for
    this number of tries before [dhcp_fine_tmr] calls it again.  No other
    client changes. *)
Theorem dhcp_request_waits s netif n d r : lends output -> ready s netif n d ->
  exists err s' d', run r s netif = Ok (err, s') /\ (err = ERR_OK \/ err = ERR_MEM) /\ ready s' netif n d' /\ asked (before r d) (request_state r) (request_msecs r) d' /\
    dhcp_mem (vars_of s') = <[nif_dhcp n := d']> (dhcp_mem (vars_of s)).
Proof using Type*. apply run_returns. Qed.
End request.

(** ** Examples *)

(** The client at 900 of the station sends through the block at 100. *)
Definition station_client (st : Z) : dhcp :=
  set_offer (set_progress (set_dhcp_pcb zero_dhcp 100) st 1 4) 0 (address_of 10 0 0 1) (address_of 10 0 0 77) 0 0.
Definition client_ifs : interfaces := with_nif two_ifs 1 (set_nif_dhcp station 900).
Abbreviation client_state := (net (stack (raws Z) (udps Z * (dns Z * (dhcp_vars * list Z))))).
Definition client_net (m : store) (d : dhcp) : client_state :=
  Net some_entries 0 m (Stack client_ifs two_tcps no_ip (Raws 0 empty)
    (three_udps, (waiting_dns, (DhcpVars {[900 := d]} 0xABCD0000 (replicate 10 0) (replicate 10 0), [])))).
Definition take_request (s : client_state) (nif p dest : Z) : result (Z * client_state) := Ok (ERR_OK, s).
Lemma take_request_lends : lends take_request.
Proof. intros s netif p dest l Hb Hc. by exists ERR_OK, s. Qed.

Lemma client_ready st m : backed m -> ready (client_net m (station_client st)) 1 (set_nif_dhcp station 900) (station_client st).
Proof.
  intros Hb. constructor.
  - exact Hb.
  - split; [discriminate|reflexivity].
  - split; [split; [reflexivity|split; [reflexivity|by apply (bool_decide_unpack _)]]|by apply (bool_decide_unpack _)].
  - by apply (bool_decide_unpack _).
  - split; [discriminate|reflexivity].
  - exists [200; 100]. exact three_udps_ok.
  - exists server. split; [reflexivity|]. split; [repeat split; by apply (bool_decide_unpack _)|]. split; [discriminate|reflexivity].
  - split; [by apply (bool_decide_unpack _)|]. split; [by apply (bool_decide_unpack _)|reflexivity].
Qed.

(** A renewal without memory for anything, and one of a client with memory. *)
Lemma dhcp_request_sent_witness : let s := client_net (Store empty empty) (station_client DHCP_RENEWING) in
  goes_out take_request s 1 (set_nif_dhcp station 900) server (dhcp_renew take_request s 1) (dhcp_set_state (station_client DHCP_RENEWING) 5)
    3 0 (address_of 10 0 0 2) [57; 2; 5; 220] (address_of 10 0 0 1) (fun k => if k <? 10 then k * 2000 else 20000).
Proof.
  intros s. assert (backed (mem s)) as H1 by (intros a [x Hx]; discriminate Hx).
  assert (client_block server) as H2 by (split; [repeat split; by apply (bool_decide_unpack _)|split; [discriminate|reflexivity]]).
  destruct (dhcp_request_sent take_request s 1 (set_nif_dhcp station 900) (station_client DHCP_RENEWING) server (client_ready DHCP_RENEWING _ H1) eq_refl H2)
    as (_ & _ & _ & H & _). exact H.
Defined.

Lemma dhcp_request_waits_witness : let s := client_net (Store empty empty) (station_client DHCP_RENEWING) in
  exists err s' d', dhcp_renew take_request s 1 = Ok (err, s') /\ dhcp_state d' = DHCP_RENEWING /\ tries d' = 2 /\ request_timeout d' = 8 /\
    dhcp_mem (vars_of s') = {[900 := d']}.
Proof.
  intros s. assert (backed (mem s)) as H1 by (intros a [x Hx]; discriminate Hx).
  destruct (dhcp_request_waits take_request s 1 (set_nif_dhcp station 900) (station_client DHCP_RENEWING) Renew take_request_lends (client_ready DHCP_RENEWING _ H1))
    as (err & s' & d' & E & _ & _ & [Ha Hb Hc _ _ _ _] & Em).
  exists err, s', d'. split; [exact E|]. split; [exact Ha|]. split; [exact Hb|]. rewrite Hb in Hc. split; [exact Hc|]. rewrite Em. apply insert_singleton_eq.
Defined.
