(* ===== verification/DhcpReply.v ===== *)
(** * Replies to the DHCP client: theorems about [dhcp_parse_reply] of
    [lwip/core/dhcp.c]. *)
From S2P Require Import Prelude Cobs Uart Comm Message Pbuf PbufChain PbufCopy PbufTrim InetChksum IpHdr IpAddr.
From S2P Require Import Linked RawPcb Etharp EtharpTable EtharpPackets EtharpInput Netif Ip IpOutput IpInput Icmp IcmpEcho Udp UdpPorts UdpInput UdpOutput.
From S2P Require Import Dns DnsNames DnsRecv DnsSend DnsTable Dhcp DhcpSend.
From stdpp Require Import list gmap.
#[local] Open Scope Z_scope.

Implicit Type v : dhcp_vars.

(** ** Options *)

(** An option is its number and its data; [None] is the pad byte. *)
Definition item : Type := option (Z * list Z).
Definition encoded_item (x : item) : list Z := match x with None => [DHCP_OPTION_PAD] | Some (op, data) => op :: zlen data :: data end.
Definition encoded_items (l : list item) : list Z := concat (map encoded_item l).

(** The options that are one word, and those that are one byte, with their
    places among the values. *)
Definition word_option (op : Z) : option Z :=
  if op =? 1 then Some 6 else if op =? 51 then Some 3 else if op =? 54 then Some 2 else if op =? 58 then Some 4 else if op =? 59 then Some 5 else None.
Definition byte_option (op : Z) : option Z := if op =? 52 then Some 0 else if op =? 53 then Some 1 else None.
Definition option_ok (op : Z) (data : list Z) : Prop :=
  is_byte op /\ op <> DHCP_OPTION_PAD /\ op <> DHCP_OPTION_END /\ bytes data /\ zlen data < 256 /\
  (is_Some (word_option op) -> zlen data = 4) /\ (is_Some (byte_option op) -> zlen data = 1) /\
  (op = DHCP_OPTION_ROUTER -> 4 <= zlen data) /\ (op = DHCP_OPTION_DNS_SERVER -> zlen data = 4 \/ 8 <= zlen data).
Definition item_ok (x : item) : Prop := match x with None => True | Some (op, data) => option_ok op data end.
#[export] Instance item_ok_dec x : Decision (item_ok x).
Proof. destruct x as [[op data]|]; cbn; unfold option_ok; apply _. Defined.

(** The number in network order at the start of the data. *)
Definition be_value (data : list Z) : Z := 16777216 * byte_at data 0 + 65536 * byte_at data 1 + 256 * byte_at data 2 + byte_at data 3.
(** What the client takes from an option: the first router, and the first two
    servers for names. *)
Definition decoded (x : item) : list (Z * Z) :=
  match x with
  | None => []
  | Some (op, data) =>
      match word_option op, byte_option op with
      | Some i, _ => [(i, be_value data)]
      | None, Some i => [(i, byte_at data 0)]
      | None, None =>
          if op =? DHCP_OPTION_ROUTER then [(7, be_value data)]
          else if op =? DHCP_OPTION_DNS_SERVER then
            (8, be_value data) :: (if zlen data =? 4 then [] else [(9, be_value (drop 4 data))])
          else []
      end
  end.
Definition put_value v (x : Z * Z) : dhcp_vars := set_rx v (<[Z.to_nat x.1 := x.2]> (rx_options_val v)) (<[Z.to_nat x.1 := 1]> (rx_options_given v)).
Definition settle v (l : list item) : dhcp_vars := fold_left put_value (concat (map decoded l)) v.

(** The two arrays have room for all values. *)
Definition rx_ok v : Prop := length (rx_options_val v) = 10%nat /\ length (rx_options_given v) = 10%nat.
Lemma rx_ok_put v x : rx_ok v -> rx_ok (put_value v x).
Proof. unfold rx_ok, put_value. cbn. by rewrite !length_insert. Qed.
Lemma rx_ok_settle l v : rx_ok v -> rx_ok (settle v l).
Proof.
  unfold settle. generalize (concat (map decoded l)) as xs. intros xs. revert v. induction xs as [|x xs IH]; intros v Hv; [done|]. apply IH. by apply rx_ok_put.
Qed.
Lemma got_ok v i x : rx_ok v -> 0 <= i < 10 -> got_option v i x = Ok (put_value v (i, x)).
Proof.
  intros [Hv Hg] Hi. unfold got_option. rewrite !mwrite_ok by (unfold zlen; lia). reflexivity.
Qed.

(** ** Reading a packet of one pbuf *)
Section reply.
Context `{OsLaws}.

(** The packet [q] is the pbuf [c] with these bytes. *)
Record single (m : store) (q : Z) (c : pbuf) (data : list Z) : Prop := {
  s_cell : q <> 0 /\ cells m !! q = Some c /\ next c = 0;
  s_ok : pbuf_ok m q;
  s_data : data_of m q = data;
  s_small : zlen data < 65536
}.
Lemma single_len m q c data : single m q c data -> len c = zlen data /\ deref m q = Ok c /\ Pbuf.cell_ok m c /\ cell_data m c = data /\ bytes data.
Proof using Type.
  intros [(Hq & Ec & Hn) Hok Hd Hs]. unfold pbuf_ok in Hok. unfold data_of in Hd. rewrite Ec in Hok, Hd.
  pose proof (cell_data_length _ _ Hok) as Hl. rewrite Hd in Hl. split; [by rewrite <- Hl|]. split; [by apply deref_ok|]. split; [done|]. split; [done|].
  rewrite <- Hd. by apply cell_data_bytes.
Qed.
Lemma single_byte m q c pre x post : single m q c (pre ++ x :: post) -> load m (payload c) (zlen pre) 1 = Ok [x].
Proof using Type.
  intros Hs. destruct (single_len _ _ _ _ Hs) as (Hl & _ & Hok & Hd & _). pose proof (zlen_nonneg pre). pose proof (zlen_nonneg post).
  rewrite load_ok; [|done|lia|lia|rewrite Hl, zlen_app, zlen_cons; lia]. rewrite Hd. unfold zlen. rewrite Nat2Z.id, drop_app_length. done.
Qed.
Lemma single_copy m q c pre x post dst n : single m q c (pre ++ x ++ post) -> zlen x = n -> n <= zlen dst -> n <= 4 ->
  pbuf_copy_partial m q dst n (zlen pre) = Ok (n, x ++ drop (length x) dst).
Proof using Type.
  intros Hs Hx Hn H4. destruct (single_len _ _ _ _ Hs) as (_ & _ & _ & _ & _). destruct Hs as [(Hq & Ec & Hnx) Hok Hd Hsm].
  pose proof (zlen_nonneg pre). pose proof (zlen_nonneg post). pose proof (zlen_nonneg x). rewrite !zlen_app in Hsm.
  assert (is_chain m q [q]) as Hch by (repeat split; try done; exists c; by rewrite Hnx).
  pose proof (copy_partial_ok m q [q] dst n (zlen pre) Hch ltac:(by constructor) ltac:(lia) ltac:(unfold is_u16; lia) ltac:(unfold is_u16; lia)) as E. cbv zeta in E.
  assert (contents m [q] = pre ++ x ++ post) as Ed by (unfold contents; cbn [map concat]; by rewrite app_nil_r).
  rewrite Ed in E. assert (drop (Z.to_nat (zlen pre)) (pre ++ x ++ post) = x ++ post) as E1 by (unfold zlen; rewrite Nat2Z.id; apply drop_app_length).
  rewrite E1, take_app_length' in E by (unfold zlen in Hx; lia). by rewrite Hx in E.
Qed.

Lemma word_value x r : zlen x = 4 -> bytes x -> exists w, read_u32 (x ++ r) 0 = Ok w /\ htonl w = be_value x.
Proof using Type.
  intros Hx Hb. assert (length x = 4%nat) as Hl by (unfold zlen in Hx; lia). destruct x as [|a [|b [|e [|f [|]]]]]; try discriminate Hl. exists (a + 256 * b + 65536 * (e + 256 * f)). split; [reflexivity|].
  apply bytes_cons in Hb as [Ha Hb]. apply bytes_cons in Hb as [Hb' Hb]. apply bytes_cons in Hb as [He Hb]. apply bytes_cons in Hb as [Hf _].
  replace (a + 256 * b + 65536 * (e + 256 * f)) with (a + 256 * b + 65536 * e + 16777216 * f) by lia. rewrite htonl_bytes by done.
  unfold be_value, address_of. cbn. lia.
Qed.

(** ** Decoding *)
Lemma decode_word m q c pre x post buf fuel idx v : single m q c (pre ++ x ++ post) -> zlen x = 4 -> zlen buf = 4 -> rx_ok v -> 0 <= idx < 10 ->
  decode_loop (S fuel) m q buf 4 idx (zlen pre) v = Ok (put_value v (idx, be_value x)).
Proof using Type*.
  intros Hs Hx Hb Hv Hi. cbn [decode_loop]. change (Z.min 4 4) with 4. rewrite (single_copy m q c pre x post) by (done || lia). cbn [rbind].
  destruct (single_len _ _ _ _ Hs) as (_ & _ & _ & _ & Hby). apply bytes_app in Hby as [_ Hby]. apply bytes_app in Hby as [Hby _].
  destruct (word_value x (drop (length x) buf) Hx Hby) as (w & -> & Ew). cbn [rbind]. change (4 <? 4) with false. change (4 =? 4) with true. cbn [rbind].
  unfold ntohl. rewrite Ew. by apply got_ok.
Qed.
(** A longer option is decoded word by word. *)
Lemma decode_more m q c pre x post buf fuel n idx v : single m q c (pre ++ x ++ post) -> zlen x = 4 -> zlen buf = 4 -> rx_ok v -> 0 <= idx < 10 -> 4 < n ->
  decode_loop (S fuel) m q buf n idx (zlen pre) v = decode_loop fuel m q x (n - 4) (idx + 1) (zlen (pre ++ x)) (put_value v (idx, be_value x)).
Proof using Type*.
  intros Hs Hx Hb Hv Hi Hn. cbn [decode_loop]. rewrite Z.min_r by lia. rewrite (single_copy m q c pre x post) by (done || lia). cbn [rbind].
  destruct (single_len _ _ _ _ Hs) as (_ & _ & _ & _ & Hby). apply bytes_app in Hby as [_ Hby]. apply bytes_app in Hby as [Hby _].
  destruct (word_value x (drop (length x) buf) Hx Hby) as (w & -> & Ew). cbn [rbind]. rewrite (proj2 (Z.ltb_lt 4 n)) by lia. rewrite Ew, got_ok by done. cbn [rbind].
  rewrite (drop_ge buf), app_nil_r by (unfold zlen in *; lia). pose proof (s_small _ _ _ _ Hs) as Hsm. rewrite !zlen_app in Hsm.
  pose proof (zlen_nonneg pre). pose proof (zlen_nonneg post). rewrite u16_small by (unfold is_u16; lia). by rewrite zlen_app, Hx.
Qed.
Lemma decode_byte m q c pre x post fuel idx v : single m q c (pre ++ [x] ++ post) -> rx_ok v -> 0 <= idx < 10 ->
  decode_loop (S fuel) m q [0; 0; 0; 0] 1 idx (zlen pre) v = Ok (put_value v (idx, x)).
Proof using Type*.
  intros Hs Hv Hi. cbn [decode_loop]. change (Z.min 1 4) with 1. rewrite (single_copy m q c pre [x] post) by (done || (vm_compute; congruence)). cbn [rbind].
  change ([x] ++ drop (length [x]) [0; 0; 0; 0]) with [x; 0; 0; 0]. change (read_u32 [x; 0; 0; 0] 0) with (Ok (x + 256 * 0 + 65536 * (0 + 256 * 0))).
  cbn [rbind]. change (4 <? 1) with false. change (1 =? 4) with false. change (mread [x; 0; 0; 0] 0) with (Ok x). cbn [rbind]. by apply got_ok.
Qed.

(** What the loop decodes of one option. *)
Definition decode_item m q op n off v : result dhcp_vars :=
  let '(decode_len, decode_idx) := decode_as op n in if 0 <? decode_len then decode_loop 64 m q [0; 0; 0; 0] decode_len decode_idx off v else Ok v.

Lemma word_option_some op i : word_option op = Some i -> decode_as op 4 = (4, i) /\ 0 <= i < 10.
Proof using Type.
  unfold word_option, decode_as. repeat match goal with |- context [op =? ?k] => destruct (Z.eqb_spec op k) as [->|]; [intros [= <-]; split; [reflexivity|lia]|] end. done.
Qed.
Lemma byte_option_some op i : byte_option op = Some i -> decode_as op 1 = (1, i) /\ 0 <= i < 10.
Proof using Type.
  unfold byte_option, decode_as. repeat match goal with |- context [op =? ?k] => destruct (Z.eqb_spec op k) as [->|]; [intros [= <-]; split; [reflexivity|lia]|] end. done.
Qed.
Lemma other_option op n : word_option op = None -> byte_option op = None -> op <> 0 -> op <> 3 -> op <> 6 -> decode_as op n = (0, -1).
Proof using Type.
  unfold word_option, byte_option, decode_as. intros Hw Hb H0' H3 H6.
  repeat match goal with |- context [op =? ?k] => destruct (Z.eqb_spec op k) as [->|]; [done|] end. done.
Qed.
Lemma be_value_take data : be_value (take 4 data) = be_value data.
Proof using Type. unfold be_value, byte_at. by destruct data as [|? [|? [|? [|? ?]]]]. Qed.

Lemma decode_item_ok m q c pre op data post v : single m q c (pre ++ data ++ post) -> option_ok op data -> rx_ok v ->
  decode_item m q op (zlen data) (zlen pre) v = Ok (fold_left put_value (decoded (Some (op, data))) v).
Proof using Type*.
  intros Hs (Hop & Hp & He & Hb & Hl & Hw & Hb1 & Hr & Hd) Hv. unfold decode_item, decoded.
  destruct (word_option op) as [i|] eqn:Ew.
  { destruct (word_option_some _ _ Ew) as [E Hi]. rewrite (Hw ltac:(by eexists)), E. change (0 <? 4) with true. cbv iota.
    rewrite (decode_word m q c pre data post) by (done || by apply Hw; eexists). done. }
  destruct (byte_option op) as [i|] eqn:Eb.
  { destruct (byte_option_some _ _ Eb) as [E Hi]. pose proof (Hb1 ltac:(by eexists)) as H1. rewrite H1, E.
    assert (length data = 1%nat) as Hn by (unfold zlen in H1; lia). destruct data as [|x [|]]; try discriminate Hn.
    change (0 <? 1) with true. cbv iota. by rewrite (decode_byte m q c pre x post). }
  destruct (Z.eqb_spec op DHCP_OPTION_ROUTER) as [->|H3].
  { change (decode_as DHCP_OPTION_ROUTER (zlen data)) with (4, 7). change (0 <? 4) with true. cbv iota. pose proof (Hr eq_refl) as H4.
    rewrite <- (take_drop 4 data) in Hs. rewrite <- (app_assoc (take 4 data)) in Hs. rewrite (decode_word m q c pre (take 4 data) (drop 4 data ++ post)) by (done || (unfold zlen in *; rewrite length_take; lia)).
    by rewrite be_value_take. }
  destruct (Z.eqb_spec op DHCP_OPTION_DNS_SERVER) as [->|H6].
  2: { by rewrite (other_option op). }
  change (decode_as DHCP_OPTION_DNS_SERVER (zlen data)) with (Z.min (zlen data) 8, 8). destruct (Hd eq_refl) as [H4|H8].
  { rewrite H4. change (Z.min 4 8) with 4. change (0 <? 4) with true. change (4 =? 4) with true. cbv iota. by rewrite (decode_word m q c pre data post). }
  rewrite Z.min_r by lia. change (0 <? 8) with true. rewrite (proj2 (Z.eqb_neq (zlen data) 4)) by lia. cbv iota.
  set (x := take 4 data) in *. set (y := take 4 (drop 4 data)). set (z := drop 4 (drop 4 data)).
  assert (data = x ++ y ++ z) as Edat by (unfold x, y, z; by rewrite !take_drop).
  assert (zlen x = 4 /\ zlen y = 4) as [Hx Hy] by (unfold x, y, zlen in *; rewrite !length_take, ?length_drop; lia).
  rewrite Edat, <- !app_assoc in Hs. rewrite (decode_more m q c pre x (y ++ z ++ post)) by (done || lia). change (8 - 4) with 4. change (8 + 1) with 9.
  rewrite (decode_word m q c (pre ++ x) y (z ++ post)); [|by rewrite <- app_assoc|done|done|by apply rx_ok_put|done].
  cbn [fold_left]. rewrite <- (be_value_take data), <- (be_value_take (drop 4 data)). reflexivity.
Qed.

(** ** The loop over the options *)
Lemma loop_item m q c pre x post fuel max v : single m q c (pre ++ encoded_item x ++ post) -> post <> [] -> item_ok x -> rx_ok v -> zlen pre < max ->
  options_loop (S fuel) m q (zlen pre) max v = options_loop fuel m q (zlen (pre ++ encoded_item x)) max (fold_left put_value (decoded x) v).
Proof using Type*.
  intros Hs Hpost Hx Hv Hmax. destruct (single_len _ _ _ _ Hs) as (Hl & Ed & _ & _ & _). pose proof (s_small _ _ _ _ Hs) as Hsm.
  pose proof (zlen_nonneg pre) as Hpre. assert (1 <= zlen post) as Hpo by (destruct post; [done|]; rewrite zlen_cons; pose proof (zlen_nonneg post); lia).
  rewrite !zlen_app in Hsm, Hl. cbn [options_loop]. rewrite Ed. cbn [rbind]. destruct x as [[op data]|]; cbn [encoded_item item_ok] in *.
  - pose proof Hx as (_ & Hp0 & Hend & _). rewrite !zlen_cons in Hsm, Hl. pose proof (zlen_nonneg data) as Hdn. assert (zlen data < 256) as Hd by apply Hx.
    rewrite (single_byte m q c pre op (zlen data :: data ++ post)) by exact Hs. cbn [rbind]. change (mread [op] 0) with (Ok op). cbn [rbind].
    rewrite (proj2 (Z.eqb_neq op DHCP_OPTION_END)), (proj2 (Z.ltb_lt _ max)) by done. cbn [negb orb].
    rewrite (proj2 (Z.ltb_lt (zlen pre + 1) (len c))) by lia. replace (zlen pre + 1) with (zlen (pre ++ [op])) by (by rewrite zlen_app).
    rewrite (single_byte m q c (pre ++ [op]) (zlen data) (data ++ post)) by (by rewrite <- app_assoc). cbn [rbind]. change (mread [zlen data] 0) with (Ok (zlen data)). cbn [rbind].
    rewrite (proj2 (Z.eqb_neq op DHCP_OPTION_PAD)) by done. rewrite (u16_small (zlen pre + 2)) by (unfold is_u16; lia).
    pose proof (decode_item_ok m q c (pre ++ [op; zlen data]) op data post v) as Edec. rewrite <- app_assoc in Edec. specialize (Edec Hs Hx Hv). unfold decode_item in Edec.
    rewrite zlen_app in Edec. change (zlen [op; zlen data]) with 2 in Edec. destruct (decode_as op (zlen data)) as [dl di]. rewrite Edec. cbn [rbind].
    rewrite u16_small by (unfold is_u16; lia). rewrite (proj2 (Z.leb_gt (len c) (zlen pre + zlen data + 2))) by lia.
    f_equal. rewrite zlen_app, !zlen_cons. lia.
  - change (zlen [DHCP_OPTION_PAD]) with 1 in Hsm, Hl. rewrite (single_byte m q c pre DHCP_OPTION_PAD post) by exact Hs. cbn [rbind].
    change (mread [DHCP_OPTION_PAD] 0) with (Ok 0). cbn [rbind]. change (0 =? DHCP_OPTION_END) with false. rewrite (proj2 (Z.ltb_lt _ max)) by done. cbn [negb orb].
    rewrite (proj2 (Z.ltb_lt (zlen pre + 1) (len c))) by lia. replace (zlen pre + 1) with (zlen (pre ++ [DHCP_OPTION_PAD])) by (by rewrite zlen_app).
    destruct post as [|y post]; [done|]. rewrite (single_byte m q c (pre ++ [DHCP_OPTION_PAD]) y post) by (by rewrite <- app_assoc). cbn [rbind].
    change (mread [y] 0) with (Ok y). cbn [rbind]. change (decode_as 0 y) with (0, -1). change (0 <? 0) with false. cbn [rbind].
    change (0 =? DHCP_OPTION_PAD) with true. cbv iota. change (fold_left put_value (decoded None) v) with v.
    assert (u16 (u16 (zlen pre - 1) + 0 + 2) = zlen (pre ++ [DHCP_OPTION_PAD])) as ->.
    { rewrite zlen_app. change (zlen [DHCP_OPTION_PAD]) with 1. unfold u16. rewrite Z.add_0_r, Zplus_mod_idemp_l. rewrite Z.mod_small; lia. }
    rewrite (proj2 (Z.leb_gt (len c) _)); [done|]. rewrite zlen_app. change (zlen [DHCP_OPTION_PAD]) with 1. lia.
Qed.

Lemma encoded_item_length x : 1 <= zlen (encoded_item x).
Proof using Type. destruct x as [[op data]|]; cbn; [|done]. rewrite !zlen_cons. pose proof (zlen_nonneg data). lia. Qed.
Lemma encoded_items_cons x l : encoded_items (x :: l) = encoded_item x ++ encoded_items l.
Proof using Type. done. Qed.
Lemma settle_cons v x l : settle v (x :: l) = settle (fold_left put_value (decoded x) v) l.
Proof using Type. unfold settle. cbn [map concat]. apply fold_left_app. Qed.

(** Options up to the end marker, or up to the end of their area. *)
Lemma options_parsed l : forall m q c pre post fuel max v, single m q c (pre ++ encoded_items l ++ post) -> post <> [] -> Forall item_ok l -> rx_ok v ->
  zlen pre + zlen (encoded_items l) <= max -> (head post = Some DHCP_OPTION_END \/ max = zlen pre + zlen (encoded_items l)) -> (length l < fuel)%nat ->
  options_loop fuel m q (zlen pre) max v = Ok (settle v l).
Proof using Type*.
  induction l as [|x l IH]; intros m q c pre post fuel max v Hs Hpost HF Hv Hmax Hend Hf; (destruct fuel as [|fuel]; [cbn in Hf; lia|]).
  - destruct post as [|y post]; [done|]. cbn [options_loop]. destruct (single_len _ _ _ _ Hs) as (_ & Ed & _). rewrite Ed. cbn [rbind].
    rewrite (single_byte m q c pre y post) by exact Hs. cbn [rbind]. change (mread [y] 0) with (Ok y). cbn [rbind].
    change (zlen (encoded_items [])) with 0 in *. assert ((y =? DHCP_OPTION_END) || negb (zlen pre <? max) = true) as ->; [|done].
    destruct Hend as [Hy| ->]; [injection Hy as ->; done|]. rewrite Z.add_0_r, Z.ltb_irrefl. apply orb_true_r.
  - apply Forall_cons in HF as [Hx HF]. rewrite encoded_items_cons in *. rewrite zlen_app in *. pose proof (encoded_item_length x). pose proof (zlen_nonneg (encoded_items l)).
    rewrite <- app_assoc in Hs. rewrite (loop_item m q c pre x (encoded_items l ++ post)); [|done|by destruct (encoded_items l)|done|done|lia]. rewrite settle_cons.
    apply (IH m q c (pre ++ encoded_item x) post); [by rewrite <- app_assoc|done|done| | | |cbn in Hf; lia].
    + generalize (decoded x) as xs. intros xs. clear -Hv. revert v Hv. induction xs as [|y xs IH]; intros v Hv; [done|]. apply IH. by apply rx_ok_put.
    + rewrite zlen_app. lia.
    + destruct Hend as [?| ->]; [by left|right]. rewrite zlen_app. lia.
Qed.

(** ** The areas *)

(** No option says that there are more areas. *)
Definition plain (x : item) : Prop := match x with Some (op, _) => op <> DHCP_OPTION_OVERLOAD | None => True end.
Lemma plain_first l v : Forall plain l -> rx_options_given (settle v l) !! 0%nat = rx_options_given v !! 0%nat.
Proof using Type.
  intros HF. revert v. induction l as [|x l IH]; intros v; [done|]. apply Forall_cons in HF as [Hx HF]. rewrite settle_cons, (IH HF). clear IH HF.
  assert (Forall (fun y => Z.to_nat y.1 <> 0%nat) (decoded x)) as Hd.
  { destruct x as [[op data]|]; [|constructor]. unfold plain in Hx. cbn [decoded]. destruct (word_option op) as [i|] eqn:Ew.
    { assert (i <> 0 /\ 0 <= i < 10) as [Hi1 Hi2].
      { split; [|by apply (word_option_some op)]. unfold word_option in Ew. repeat case_match; congruence. }
      constructor; [cbn; lia|constructor]. }
    destruct (byte_option op) as [i|] eqn:Eb.
    { unfold byte_option in Eb. rewrite (proj2 (Z.eqb_neq op 52)) in Eb by exact Hx. destruct (op =? 53); [|done]. injection Eb as <-. constructor; [cbn; lia|constructor]. }
    repeat case_match; repeat (constructor; [cbn; lia|]); constructor. }
  revert v Hd. generalize (decoded x) as xs. intros xs. induction xs as [|y xs IH]; intros v Hd; [done|]. apply Forall_cons in Hd as [Hy Hd].
  cbn [fold_left]. rewrite IH by done. unfold put_value. cbn. by apply list_lookup_insert_ne.
Qed.

(** The overload option among the values, and the values without it. *)
Definition overload_of v : option Z :=
  match rx_options_given v !! 0%nat, rx_options_val v !! 0%nat with Some g, Some k => if g =? 0 then None else Some k | _, _ => None end.
Definition without_overload v : dhcp_vars := set_rx v (rx_options_val v) (<[0%nat := 0]> (rx_options_given v)).

Lemma overload_reads v : rx_ok v -> exists k, option_value v DHCP_OPTION_IDX_OVERLOAD = Ok k /\
  option_given v DHCP_OPTION_IDX_OVERLOAD = Ok (bool_decide (is_Some (overload_of v))) /\ clear_option v DHCP_OPTION_IDX_OVERLOAD = Ok (without_overload v) /\
  (overload_of v = None \/ overload_of v = Some k).
Proof using Type.
  intros [Hv Hg]. unfold option_value, option_given, clear_option, overload_of, without_overload. destruct (rx_options_val v) as [|k vs]; [done|].
  destruct (rx_options_given v) as [|g gs]; [done|]. exists k. rewrite mwrite_ok by (unfold zlen; rewrite Hg; vm_compute; done).
  split; [reflexivity|]. change (mread (g :: gs) DHCP_OPTION_IDX_OVERLOAD) with (Ok g). cbn [rbind lookup list_lookup]. split; [|split; [reflexivity|]].
  - f_equal. destruct (g =? 0); [by rewrite bool_decide_false by (intros [? ?]; done)|by rewrite bool_decide_true by (by eexists)].
  - destruct (g =? 0); [by left|by right].
Qed.

(** One turn: the options of the area that starts behind [pre]. *)
Lemma area_turn m q c pre l post fuel max pf ps v : single m q c (pre ++ encoded_items l ++ post) -> post <> [] -> Forall item_ok l -> rx_ok v ->
  zlen pre + zlen (encoded_items l) <= max -> (head post = Some DHCP_OPTION_END \/ max = zlen pre + zlen (encoded_items l)) ->
  areas_loop (S fuel) m q (zlen pre) max pf ps v =
    let v := settle v l in let k := default 0 (overload_of v) in
    let pf := pf || (k =? DHCP_OVERLOAD_FILE) || (k =? DHCP_OVERLOAD_SNAME_FILE) in
    let ps := ps || (k =? DHCP_OVERLOAD_SNAME) || (k =? DHCP_OVERLOAD_SNAME_FILE) in
    let v := match overload_of v with Some _ => without_overload v | None => v end in
    if pf then areas_loop fuel m q DHCP_FILE_OFS (DHCP_FILE_OFS + DHCP_FILE_LEN) false ps v
    else if ps then areas_loop fuel m q DHCP_SNAME_OFS (DHCP_SNAME_OFS + DHCP_SNAME_LEN) pf false v
    else Ok (ERR_OK, v).
Proof using Type*.
  intros Hs Hpost HF Hv Hmax Hend. destruct (single_len _ _ _ _ Hs) as (Hl & Ed & _). pose proof (s_cell _ _ _ _ Hs) as (Hq & _).
  cbn [areas_loop]. assert (skip_loop (chain_fuel m) m q (zlen pre) max = Ok (q, zlen pre, max)) as ->.
  { unfold chain_fuel. cbn [skip_loop]. rewrite (proj2 (Z.eqb_neq q 0)), Ed by done. cbn [rbind]. rewrite (proj2 (Z.leb_gt (len c) (zlen pre))); [done|].
    rewrite Hl, !zlen_app. pose proof (zlen_nonneg (encoded_items l)). destruct post; [done|]. rewrite zlen_cons. pose proof (zlen_nonneg post). lia. }
  cbn [rbind]. rewrite (proj2 (Z.eqb_neq q 0)) by done.
  assert (length l <= Z.to_nat (zlen (encoded_items l)))%nat as Hll.
  { clear. induction l as [|x l IH]; [cbn; lia|]. rewrite encoded_items_cons, zlen_app. pose proof (encoded_item_length x). pose proof (zlen_nonneg (encoded_items l)). cbn [length]. lia. }
  pose proof (zlen_nonneg pre). rewrite (options_parsed l m q c pre post) by (done || lia). cbn [rbind].
  destruct (overload_reads (settle v l)) as (k & Ek & Eg & Ec & Eo); [by apply rx_ok_settle|]. rewrite Eg. cbn [rbind].
  destruct Eo as [Eo|Eo]; rewrite Eo; cbn [bool_decide is_Some default].
  - rewrite bool_decide_false by (intros [? ?]; done). cbn [rbind]. change (0 =? DHCP_OVERLOAD_FILE) with false. change (0 =? DHCP_OVERLOAD_SNAME) with false.
    change (0 =? DHCP_OVERLOAD_SNAME_FILE) with false. by rewrite !orb_false_r.
  - rewrite bool_decide_true by (by eexists). rewrite Ek. cbn [rbind]. rewrite Ec. reflexivity.
Qed.

(** A reply: the fixed part up to the hardware address, the two fields that may
    hold options, the magic number, and the options. *)
Record reply := Reply { fixed : list Z; sname : list Z; file : list Z; cookie : list Z; options : list item; behind : list Z }.
Definition reply_bytes (r : reply) : list Z := fixed r ++ sname r ++ file r ++ cookie r ++ encoded_items (options r) ++ DHCP_OPTION_END :: behind r.
(** A field holds options, with an end marker unless it is full. *)
Definition holds (field : list Z) (l : list item) : Prop :=
  exists post, field = encoded_items l ++ post /\ (post = [] \/ head post = Some DHCP_OPTION_END) /\ Forall item_ok l /\ Forall plain l.
Definition reply_wf (r : reply) : Prop :=
  zlen (fixed r) = DHCP_SNAME_OFS /\ zlen (sname r) = DHCP_SNAME_LEN /\ zlen (file r) = DHCP_FILE_LEN /\ zlen (cookie r) = 4 /\ Forall item_ok (options r).

(** The values of a reply whose fields hold [in_file] and [in_sname]: first the
    options, then the file name, then the server name. *)
Definition reply_values v (r : reply) (in_file in_sname : list item) : dhcp_vars :=
  let v := settle (clear_all_options v) (options r) in
  match overload_of v with
  | None => v
  | Some k =>
      let v := without_overload v in
      let v := if (k =? DHCP_OVERLOAD_FILE) || (k =? DHCP_OVERLOAD_SNAME_FILE) then settle v in_file else v in
      if (k =? DHCP_OVERLOAD_SNAME) || (k =? DHCP_OVERLOAD_SNAME_FILE) then settle v in_sname else v
  end.

(** A field as an area, among the bytes of the message. *)
Lemma field_turn m q c pre field l post fuel max pf ps v : single m q c (pre ++ field ++ post) -> post <> [] -> holds field l -> rx_ok v ->
  rx_options_given v !! 0%nat = Some 0 -> max = zlen pre + zlen field ->
  areas_loop (S fuel) m q (zlen pre) max pf ps v =
    if pf then areas_loop fuel m q DHCP_FILE_OFS (DHCP_FILE_OFS + DHCP_FILE_LEN) false ps (settle v l)
    else if ps then areas_loop fuel m q DHCP_SNAME_OFS (DHCP_SNAME_OFS + DHCP_SNAME_LEN) pf false (settle v l)
    else Ok (ERR_OK, settle v l).
Proof using Type*.
  intros Hs Hpost (rest & -> & Hend & HF & Hpl) Hv Hg ->. rewrite <- app_assoc in Hs. rewrite zlen_app.
  pose proof (zlen_nonneg rest). rewrite (area_turn m q c pre l (rest ++ post)); [|done|by destruct rest|done|done|lia|].
  2: { destruct Hend as [->|He]; [right; change (zlen []) with 0; lia|left]. by destruct rest. }
  cbv zeta. pose proof (plain_first l v Hpl) as Eg. rewrite Hg in Eg. assert (overload_of (settle v l) = None) as -> by (unfold overload_of; rewrite Eg; by destruct (rx_options_val _ !! _)).
  cbn [default]. change (0 =? DHCP_OVERLOAD_FILE) with false. change (0 =? DHCP_OVERLOAD_SNAME) with false. change (0 =? DHCP_OVERLOAD_SNAME_FILE) with false.
  by rewrite !orb_false_r.
Qed.

(** The turn over the options themselves. *)
Lemma first_turn m q c r areas d v : single m q c (reply_bytes r) -> reply_wf r -> tot_len c = len c -> length (rx_options_val v) = 10%nat ->
  let v1 := settle (clear_all_options v) (options r) in rx_ok v1 /\
  dhcp_parse_reply (S areas) m d v q = let! (err, v') :=
    match overload_of v1 with
    | None => Ok (ERR_OK, v1)
    | Some k =>
        if (k =? DHCP_OVERLOAD_FILE) || (k =? DHCP_OVERLOAD_SNAME_FILE)
        then areas_loop areas m q DHCP_FILE_OFS (DHCP_FILE_OFS + DHCP_FILE_LEN) false ((k =? DHCP_OVERLOAD_SNAME) || (k =? DHCP_OVERLOAD_SNAME_FILE)) (without_overload v1)
        else if (k =? DHCP_OVERLOAD_SNAME) || (k =? DHCP_OVERLOAD_SNAME_FILE)
        then areas_loop areas m q DHCP_SNAME_OFS (DHCP_SNAME_OFS + DHCP_SNAME_LEN) false false (without_overload v1)
        else Ok (ERR_OK, without_overload v1)
    end in Ok (err, set_msg_in d (payload c), v').
Proof using Type*.
  intros Hs (Hfx & Hsn & Hfi & Hck & HF) Ht Hv v1. assert (rx_ok (clear_all_options v)) as Hv0 by (split; [exact Hv|reflexivity]).
  split; [by apply rx_ok_settle|]. destruct (single_len _ _ _ _ Hs) as (Hl & Ed & _). unfold dhcp_parse_reply. rewrite Ed. cbn [rbind].
  set (pre3 := fixed r ++ sname r ++ file r ++ cookie r).
  assert (zlen pre3 = DHCP_OPTIONS_OFS) as H3 by (unfold pre3; rewrite !zlen_app, Hfx, Hsn, Hfi, Hck; reflexivity).
  assert (reply_bytes r = pre3 ++ encoded_items (options r) ++ DHCP_OPTION_END :: behind r) as E3 by (unfold reply_bytes, pre3; by rewrite <- !app_assoc).
  assert (zlen (reply_bytes r) = 240 + zlen (encoded_items (options r)) + 1 + zlen (behind r)) as Hz
    by (rewrite E3, !zlen_app, zlen_cons, H3; change DHCP_OPTIONS_OFS with 240; lia).
  pose proof (zlen_nonneg (encoded_items (options r))). pose proof (zlen_nonneg (behind r)).
  rewrite (proj2 (Z.ltb_ge (len c) DHCP_SNAME_OFS)) by (change DHCP_SNAME_OFS with 44; lia). rewrite <- H3, Ht, Hl.
  rewrite (area_turn m q c pre3 (options r) (DHCP_OPTION_END :: behind r)); [|by rewrite <- E3|done|done|done|change DHCP_OPTIONS_OFS with 240 in H3; lia|by left].
  fold v1. cbv zeta. cbn [orb]. destruct (overload_of v1) as [k|]; cbn [default id]; [|reflexivity].
  destruct ((k =? DHCP_OVERLOAD_FILE) || (k =? DHCP_OVERLOAD_SNAME_FILE)); reflexivity.
Qed.

Lemma reply_parsed m q c r in_file in_sname areas d v : single m q c (reply_bytes r) -> reply_wf r -> holds (file r) in_file -> holds (sname r) in_sname ->
  tot_len c = len c -> length (rx_options_val v) = 10%nat -> (3 <= areas)%nat ->
  dhcp_parse_reply areas m d v q = Ok (ERR_OK, set_msg_in d (payload c), reply_values v r in_file in_sname).
Proof using Type*.
  intros Hs Hwf Hhf Hhs Ht Hv Ha. destruct areas as [|[|[|areas]]]; [lia..|]. clear Ha.
  destruct (first_turn m q c r (S (S areas)) d v Hs Hwf Ht Hv) as [Hv1 ->]. destruct Hwf as (Hfx & Hsn & Hfi & Hck & HF). unfold reply_values.
  set (v1 := settle (clear_all_options v) (options r)) in *. destruct (overload_of v1) as [k|] eqn:Eo; [|reflexivity]. set (v2 := without_overload v1).
  assert (rx_ok v2 /\ rx_options_given v2 !! 0%nat = Some 0) as [Hv2 Hg2].
  { destruct Hv1 as [? Hg]. split; [split; cbn; [done|by rewrite length_insert]|]. cbn. apply list_lookup_insert_eq. lia. }
  assert (forall fuel ps v, rx_ok v -> rx_options_given v !! 0%nat = Some 0 -> areas_loop (S fuel) m q DHCP_FILE_OFS (DHCP_FILE_OFS + DHCP_FILE_LEN) false ps v =
    if ps then areas_loop fuel m q DHCP_SNAME_OFS (DHCP_SNAME_OFS + DHCP_SNAME_LEN) false false (settle v in_file) else Ok (ERR_OK, settle v in_file)) as Hfile.
  { intros fuel ps w Hw Hg. assert (zlen (fixed r ++ sname r) = DHCP_FILE_OFS) as E by (rewrite zlen_app, Hfx, Hsn; reflexivity).
    pose proof (field_turn m q c (fixed r ++ sname r) (file r) in_file (cookie r ++ encoded_items (options r) ++ DHCP_OPTION_END :: behind r)
      fuel (DHCP_FILE_OFS + DHCP_FILE_LEN) false ps w) as T. rewrite E in T. cbv iota in T. apply T; try done.
    - unfold reply_bytes in Hs. by rewrite <- app_assoc.
    - destruct (cookie r); [done|]. done.
    - by rewrite Hfi. }
  assert (forall fuel v, rx_ok v -> rx_options_given v !! 0%nat = Some 0 -> areas_loop (S fuel) m q DHCP_SNAME_OFS (DHCP_SNAME_OFS + DHCP_SNAME_LEN) false false v =
    Ok (ERR_OK, settle v in_sname)) as Hsname.
  { intros fuel w Hw Hg.
    pose proof (field_turn m q c (fixed r) (sname r) in_sname (file r ++ cookie r ++ encoded_items (options r) ++ DHCP_OPTION_END :: behind r)
      fuel (DHCP_SNAME_OFS + DHCP_SNAME_LEN) false false w) as T. rewrite Hfx in T. cbv iota in T. apply T; try done.
    - destruct (file r); done.
    - by rewrite Hsn. }
  assert (rx_options_given (settle v2 in_file) !! 0%nat = Some 0) as Hg3 by (destruct Hhf as (? & _ & _ & _ & Hpl); by rewrite plain_first).
  destruct ((k =? DHCP_OVERLOAD_FILE) || (k =? DHCP_OVERLOAD_SNAME_FILE)) eqn:Ek1; destruct ((k =? DHCP_OVERLOAD_SNAME) || (k =? DHCP_OVERLOAD_SNAME_FILE)) eqn:Ek2.
  - rewrite Hfile by done. by rewrite Hsname by (done || by apply rx_ok_settle).
  - by rewrite Hfile.
  - by rewrite Hsname.
  - reflexivity.
Qed.

(** C16: replies are read as they are written.  For a reply in one pbuf with
    well-formed options, and options in the fields for the file and the server
    name, [dhcp_parse_reply] succeeds and leaves exactly the values of the
    options: words and bytes in the byte order of the network, the first
    router and the first two servers for names, later options over earlier
    ones; the two fields count only when an overload option says so.  Three
    turns over the areas are enough. *)
Theorem dhcp_reply_roundtrip m q c r in_file in_sname areas d v : single m q c (reply_bytes r) -> reply_wf r -> holds (file r) in_file -> holds (sname r) in_sname ->
  tot_len c = len c -> length (rx_options_val v) = 10%nat -> (3 <= areas)%nat ->
  dhcp_parse_reply areas m d v q = Ok (ERR_OK, set_msg_in d (payload c), reply_values v r in_file in_sname).
Proof using Type*. apply reply_parsed. Qed.

(** An overload option in the field for the file sends the client back to this
    field each time it has read it: it never ends. *)
Definition again : item := Some (DHCP_OPTION_OVERLOAD, [DHCP_OVERLOAD_FILE]).
Lemma again_ok : item_ok again.
Proof using Type. by apply (bool_decide_unpack _). Qed.
Theorem overloaded_file_loops m q c r x areas d v : single m q c (reply_bytes r) -> reply_wf r -> tot_len c = len c -> length (rx_options_val v) = 10%nat ->
  overload_of (settle (clear_all_options v) (options r)) = Some DHCP_OVERLOAD_FILE -> file r = encoded_items [again] ++ DHCP_OPTION_END :: x ->
  dhcp_parse_reply areas m d v q = Fault OutOfFuel.
Proof using Type*.
  intros Hs Hwf Ht Hv Eo Hf. pose proof Hwf as (Hfx & Hsn & _).
  assert (forall n ps w, rx_ok w -> areas_loop n m q DHCP_FILE_OFS (DHCP_FILE_OFS + DHCP_FILE_LEN) false ps w = Fault OutOfFuel) as Hloop.
  { assert (zlen (fixed r ++ sname r) = DHCP_FILE_OFS) as E by (rewrite zlen_app, Hfx, Hsn; reflexivity).
    induction n as [|n IH]; intros ps w Hw; [done|].
    pose proof (area_turn m q c (fixed r ++ sname r) [again] ((DHCP_OPTION_END :: x) ++ cookie r ++ encoded_items (options r) ++ DHCP_OPTION_END :: behind r)
      n (DHCP_FILE_OFS + DHCP_FILE_LEN) false ps w) as T. rewrite E in T. rewrite T; clear T.
    - cbv zeta. assert (overload_of (settle w [again]) = Some DHCP_OVERLOAD_FILE) as ->.
      { destruct Hw as [Hw1 Hw2]. unfold overload_of, settle. cbn. destruct (rx_options_val w); [done|]. by destruct (rx_options_given w). }
      cbn [default id orb]. change (DHCP_OVERLOAD_FILE =? DHCP_OVERLOAD_FILE) with true. cbn [orb]. apply IH.
      destruct (rx_ok_settle [again] w Hw) as [? ?]. split; cbn -[settle]; [done|]. by rewrite length_insert.
    - unfold reply_bytes in Hs. rewrite Hf in Hs. by rewrite <- !app_assoc in *.
    - done.
    - constructor; [apply again_ok|constructor].
    - done.
    - vm_compute. congruence.
    - by left. }
  destruct areas as [|areas].
  - unfold dhcp_parse_reply. destruct (single_len _ _ _ _ Hs) as (Hl & Ed & _). rewrite Ed. cbn [rbind]. assert (DHCP_SNAME_OFS <= len c) as H44.
    { rewrite Hl. unfold reply_bytes. rewrite !zlen_app, Hfx. pose proof (zlen_nonneg (sname r)). pose proof (zlen_nonneg (file r)). pose proof (zlen_nonneg (cookie r)).
      pose proof (zlen_nonneg (encoded_items (options r))). pose proof (zlen_nonneg (DHCP_OPTION_END :: behind r)). lia. }
    by rewrite (proj2 (Z.ltb_ge (len c) DHCP_SNAME_OFS)) by done.
  - destruct (first_turn m q c r areas d v Hs Hwf Ht Hv) as [Hv1 ->]. rewrite Eo. change (DHCP_OVERLOAD_FILE =? DHCP_OVERLOAD_FILE) with true. cbn [orb].
    rewrite Hloop; [done|]. destruct Hv1 as [? ?]. split; cbn -[settle]; [done|]. by rewrite length_insert.
Qed.
End reply.

(** ** Examples *)

(** A reply for the client of the station, with a router in the field for the
    file. *)
Definition fixed_part (x : list Z) : list Z :=
  [DHCP_BOOTREPLY; 1; 6; 0] ++ x ++ replicate 8 0 ++ [10; 0; 0; 77] ++ replicate 8 0 ++ mac_of 9 ++ replicate 10 0.
Definition router_field : list Z := encoded_items [Some (DHCP_OPTION_ROUTER, [10; 0; 0; 1])] ++ DHCP_OPTION_END :: replicate 121 0.
Definition message_option (t : Z) : item := Some (DHCP_OPTION_MESSAGE_TYPE, [t]).
Definition server_option : item := Some (DHCP_OPTION_SERVER_ID, [10; 0; 0; 1]).
Definition reply_with (l : list item) (field : list Z) : reply := Reply (fixed_part [0; 0; 0; 0]) (replicate 64 0) field [99; 130; 83; 99] l [0; 0; 0].
Definition example_options : list item :=
  [message_option DHCP_ACK; server_option; None; Some (DHCP_OPTION_LEASE_TIME, [0; 0; 14; 16]); Some (DHCP_OPTION_OVERLOAD, [DHCP_OVERLOAD_FILE]);
   Some (12, [104; 105]); Some (DHCP_OPTION_DNS_SERVER, [10; 0; 0; 2; 10; 0; 0; 3; 10; 0; 0; 4])].
Definition no_values : dhcp_vars := DhcpVars empty 0 (replicate 10 0) (replicate 10 0).

Lemma room_single d : bytes d -> 0 < zlen d < 65000 -> single (room_store d) 600 (room_pbuf d) d.
Proof.
  intros Hb Hz. pose proof (room_sendable d Hb Hz) as Hs. constructor.
  - split; [done|]. split; [apply room_cell|reflexivity].
  - pose proof (packet_cells _ _ _ (send_packet _ _ _ _ _ Hs)) as HF. by apply Forall_cons in HF as [? _].
  - apply room_held.
  - lia.
Qed.

Lemma example_options_ok : Forall item_ok example_options.
Proof.
  by apply (bool_decide_unpack _).
Qed.
Lemma router_field_holds : holds router_field [Some (DHCP_OPTION_ROUTER, [10; 0; 0; 1])].
Proof.
  exists (DHCP_OPTION_END :: replicate 121 0). split; [reflexivity|]. split; [right; reflexivity|]. split; [|constructor; [discriminate|constructor]].
  by apply (bool_decide_unpack _).
Qed.
Lemma pads_hold n : holds (replicate n 0) (replicate n None).
Proof.
  exists []. split; [|split; [by left|split; by apply Forall_replicate]]. rewrite app_nil_r. induction n as [|n IH]; [done|]. cbn [replicate].
  rewrite encoded_items_cons, <- IH. reflexivity.
Qed.

Lemma dhcp_reply_roundtrip_witness : let r := reply_with example_options router_field in let m := room_store (reply_bytes r) in
  dhcp_parse_reply REPLY_AREAS m zero_dhcp no_values 600 =
    Ok (ERR_OK, set_msg_in zero_dhcp (600, 60), DhcpVars empty 0
      [1; 5; 167772161; 3600; 0; 0; 0; 167772161; 167772162; 167772163] [0; 1; 1; 1; 0; 0; 0; 1; 1; 1]).
Proof.
  intros r m. assert (bytes (reply_bytes r)) as H1 by (by apply (bool_decide_unpack _)). assert (0 < zlen (reply_bytes r) < 65000) as H2 by (vm_compute; split; reflexivity).
  assert (reply_wf r) as H3 by (split; [reflexivity|split; [reflexivity|split; [reflexivity|split; [reflexivity|exact example_options_ok]]]]).
  refine (eq_trans (dhcp_reply_roundtrip m 600 (room_pbuf (reply_bytes r)) r _ _ REPLY_AREAS zero_dhcp no_values (room_single _ H1 H2) H3 router_field_holds (pads_hold 64) eq_refl eq_refl _) _).
  - unfold REPLY_AREAS. lia.
  - vm_compute. reflexivity.
Defined.

(** Replies that harm the client: an overload option in the field for the
    file, for which no number of turns is enough, and a mask of 255 bytes, which
    is stored over the end of the two arrays. *)
Example endless_reply : forall areas, let r := reply_with [Some (DHCP_OPTION_OVERLOAD, [DHCP_OVERLOAD_FILE])] (encoded_items [again] ++ DHCP_OPTION_END :: replicate 124 0) in
  dhcp_parse_reply areas (room_store (reply_bytes r)) zero_dhcp no_values 600 = Fault OutOfFuel.
Proof.
  intros areas r. assert (bytes (reply_bytes r)) as H1 by (by apply (bool_decide_unpack _)). assert (0 < zlen (reply_bytes r) < 65000) as H2 by (vm_compute; split; reflexivity).
  apply (overloaded_file_loops _ _ (room_pbuf (reply_bytes r)) r (replicate 124 0)).
  - by apply room_single.
  - repeat split. constructor; [exact again_ok|constructor].
  - reflexivity.
  - reflexivity.
  - vm_compute. reflexivity.
  - reflexivity.
Qed.
Example long_mask_overflows : let r := reply_with [Some (DHCP_OPTION_SUBNET_MASK, replicate 255 1)] (replicate 128 0) in
  dhcp_parse_reply REPLY_AREAS (room_store (reply_bytes r)) zero_dhcp no_values 600 = Fault OutOfBounds.
Proof. vm_compute. reflexivity. Qed.
