(* ===== verification/DhcpState.v ===== *)
(** * The states of the DHCP client: theorems about the handlers and timers of
    [lwip/core/dhcp.c]. *)
From S2P Require Import Prelude Cobs Uart Comm Message Pbuf PbufChain PbufCopy PbufTrim InetChksum IpHdr IpAddr.
From S2P Require Import Linked RawPcb Etharp EtharpTable EtharpPackets EtharpInput Netif Ip IpOutput IpInput Icmp IcmpEcho Udp UdpPorts UdpInput UdpOutput.
From S2P Require Import Dns DnsNames DnsRecv DnsSend DnsTable Dhcp DhcpSend DhcpReply.
From stdpp Require Import list gmap.
#[local] Open Scope Z_scope.

(** ** What ARP leaves alone *)
Section arp.
Context `{Os} {E : Type} (linkoutput : E -> store -> Z -> Z * store * E) (queue_malloc : E -> bool * E) (P : E -> Prop).
Context (link_keeps : forall e m p, P e -> P (linkoutput e m p).2).
Implicit Type s : net E.

Lemma free_entry_keeps s i : P (env s) -> yields (free_entry s i) (fun s' => P (env s')).
Proof using Type. intros Hp. unfold free_entry. repeat yields_step; done. Qed.
#[local] Hint Resolve free_entry_keeps : keeps.
Lemma find_entry_keeps s ip flags : P (env s) -> yields (find_entry s ip flags) (fun r => P (env r.2)).
Proof using Type. intros Hp. unfold find_entry. repeat yields_step; done. Qed.
Lemma request_keeps s nif ip : P (env s) -> yields (etharp_request linkoutput s nif ip) (fun r => P (env r.2)).
Proof using link_keeps.
  intros Hp. unfold etharp_request, etharp_raw. repeat yields_step; [done|].
  match goal with E : linkoutput ?e ?m ?p = _ |- _ => pose proof (link_keeps e m p Hp) as Hl; by rewrite E in Hl end.
Qed.
#[local] Hint Resolve find_entry_keeps request_keeps : keeps.
Lemma query_keeps s nif ip : P (env s) -> yields (etharp_query linkoutput queue_malloc s nif ip 0) (fun r => P (env r.2)).
Proof using Type*.
  intros Hp. unfold etharp_query. do 6 (try yields_step; try done). match goal with |- yields (query_entry _ _ ?x _ _ _ _) _ => set (s2 := x) end.
  assert (P (env s2)) as Hs2 by (unfold s2; by destruct (is_empty _)). clearbody s2. unfold query_entry. change (0 =? 0) with true. cbv iota.
  repeat yields_step; done.
Qed.
Lemma cleanup_keeps s nif : P (env s) -> yields (etharp_cleanup_netif s nif) (fun s' => P (env s')).
Proof using Type.
  unfold etharp_cleanup_netif. generalize (Z.to_nat ARP_TABLE_SIZE) 0. intros n i. revert s i. induction n as [|n IH]; intros s i Hp; cbn [cleanup_loop]; repeat yields_step; eauto.
Qed.
End arp.

(** ** What the other parts leave alone *)
Section client.
Context `{Os} {F G K X : Type}.
Abbreviation world := (udps G * (dns K * (dhcp_vars * X)))%type.
Abbreviation state := (net (stack (raws F) world)).
Implicit Type s : state.
Implicit Type d : dhcp.
Implicit Type n : netif_struct.

(** The clients, and the client of each interface. *)
Definition memory (e : stack (raws F) world) : gmap Z dhcp * gmap Z Z := (dhcp_mem (rest e).2.2.1, nif_dhcp <$> nifs (ifs e)).
Definition clients s : gmap Z dhcp := (memory (env s)).1.
Definition pointers s : gmap Z Z := (memory (env s)).2.
Definition kept s s' : Prop := memory (env s') = memory (env s).

Context (output : state -> Z -> Z -> Z -> result (Z * state)) (link : world -> store -> Z -> Z * store * world)
        (igmp_report_groups tcp_abort : state -> Z -> result state) (queue_malloc : stack (raws F) world -> bool * stack (raws F) world)
        (system_station_got_ip_set : X -> Z -> Z -> Z -> X).

(** The other parts of the stack have no business with the clients. *)
Record outsiders : Prop := {
  o_output : forall s netif p dest, yields (output s netif p dest) (fun r => kept s r.2);
  o_link : forall x m p, dhcp_mem (link x m p).2.2.2.1 = dhcp_mem x.2.2.1;
  o_igmp : forall s a, yields (igmp_report_groups s a) (kept s);
  o_abort : forall s a, yields (tcp_abort s a) (kept s)
}.
Context (Hout : outsiders).

Lemma kept_trans s1 s2 s3 : kept s1 s2 -> kept s2 s3 -> kept s1 s3.
Proof using Type. unfold kept. congruence. Qed.
Lemma upd_nif_keeps s0 s a f : kept s0 s -> (forall n, nif_dhcp (f n) = nif_dhcp n) -> yields (upd_nif s a f) (kept s0).
Proof using Type.
  intros Hk Hf. unfold upd_nif, nif_at, cell. destruct (a =? 0); [apply yields_fault|]. destruct (nifs (ifs (env s)) !! a) as [n|] eqn:E; [|apply yields_fault].
  apply yields_ok. unfold kept in *. rewrite <- Hk. unfold memory. cbn. f_equal. rewrite fmap_insert, Hf. apply insert_id. by rewrite lookup_fmap, E.
Qed.
#[local] Hint Resolve upd_nif_keeps : keeps.

Lemma from_keeps {A} (x : result A) (st : A -> state) s0 s : kept s0 s -> yields x (fun r => kept s (st r)) -> yields x (fun r => kept s0 (st r)).
Proof using Type. intros Hk Hx. eapply yields_weaken; [exact Hx|]. intros r Hr. by eapply kept_trans. Qed.
Lemma output_keeps s0 s netif p dest : kept s0 s -> yields (output s netif p dest) (fun r => kept s0 r.2).
Proof using Hout. intros Hk. apply (from_keeps _ snd s0 s Hk), (o_output Hout). Qed.
Lemma igmp_keeps s0 s a : kept s0 s -> yields (igmp_report_groups s a) (kept s0).
Proof using Hout. intros Hk. apply (from_keeps _ id s0 s Hk), (o_igmp Hout). Qed.
Lemma abort_keeps s0 s a : kept s0 s -> yields (tcp_abort s a) (kept s0).
Proof using Hout. intros Hk. apply (from_keeps _ id s0 s Hk), (o_abort Hout). Qed.
#[local] Hint Resolve output_keeps igmp_keeps abort_keeps : keeps.

Lemma abort_loop_keeps fuel : forall s0 s a p, kept s0 s -> yields (abort_loop tcp_abort fuel s a p) (kept s0).
Proof using Hout.
  induction fuel as [|fuel IH]; intros s0 s a p Hk; cbn [abort_loop]; repeat yields_step; try done; by apply IH.
Qed.
Lemma rebind_loop_keeps fuel : forall s0 s a p ip, kept s0 s -> yields (rebind_loop fuel s a p ip) (kept s0).
Proof using Type.
  induction fuel as [|fuel IH]; intros s0 s a p ip Hk; cbn [rebind_loop]; repeat yields_step; try done; apply IH; by case_match.
Qed.
#[local] Hint Resolve abort_loop_keeps rebind_loop_keeps : keeps.
Lemma set_ipaddr_keeps s0 s a ip : kept s0 s -> yields (netif_set_ipaddr tcp_abort s a ip) (kept s0).
Proof using Hout. intros Hk. unfold netif_set_ipaddr. repeat yields_step; eauto with keeps. Qed.
Lemma set_gw_keeps s0 s a gw : kept s0 s -> yields (netif_set_gw s a gw) (kept s0).
Proof using Type. intros Hk. unfold netif_set_gw. eauto with keeps. Qed.
Lemma set_netmask_keeps s0 s a m : kept s0 s -> yields (netif_set_netmask s a m) (kept s0).
Proof using Type. intros Hk. unfold netif_set_netmask. eauto with keeps. Qed.
Lemma free_keeps s0 s p : kept s0 s -> yields (free_packet s p) (kept s0).
Proof using Type. intros Hk. unfold free_packet. repeat yields_step. done. Qed.

(** ARP sends through the interfaces. *)
Lemma lo_keeps s0 e m p : memory e = memory (env s0) -> memory (linkoutput link e m p).2 = memory (env s0).
Proof using Hout.
  intros <-. pose proof (o_link Hout (rest e) m p) as E. unfold linkoutput. destruct (link (rest e) m p) as [[err m'] x]. unfold memory in *. cbn in *. by rewrite E.
Qed.
Lemma arp_query_keeps s0 s nif ip : kept s0 s -> yields (etharp_query (linkoutput link) queue_malloc s nif ip 0) (fun r => kept s0 r.2).
Proof using Hout. intros Hk. apply (query_keeps _ _ (fun e => memory e = memory (env s0))); [apply lo_keeps|exact Hk]. Qed.
Lemma arp_request_keeps s0 s nif ip : kept s0 s -> yields (etharp_request (linkoutput link) s nif ip) (fun r => kept s0 r.2).
Proof using Hout. intros Hk. apply (request_keeps _ (fun e => memory e = memory (env s0))); [apply lo_keeps|exact Hk]. Qed.
Lemma arp_cleanup_keeps s0 s a : kept s0 s -> yields (etharp_cleanup_netif s a) (kept s0).
Proof using Type. intros Hk. apply (cleanup_keeps (fun e => memory e = memory (env s0))). exact Hk. Qed.
#[local] Hint Resolve set_ipaddr_keeps set_gw_keeps set_netmask_keeps free_keeps arp_query_keeps arp_request_keeps arp_cleanup_keeps : keeps.
Lemma set_down_keeps s0 s a : kept s0 s -> yields (netif_set_down s a) (kept s0).
Proof using Type. intros Hk. unfold netif_set_down. repeat yields_step; eauto with keeps. Qed.
Lemma set_up_keeps s0 s a : kept s0 s -> yields (netif_set_up link igmp_report_groups s a) (kept s0).
Proof using Hout. intros Hk. unfold netif_set_up, announce. repeat yields_step; eauto with keeps. Qed.
#[local] Hint Resolve set_down_keeps set_up_keeps : keeps.
Lemma unconfigure_keeps s0 s a : kept s0 s -> yields (unconfigure tcp_abort s a) (kept s0).
Proof using Hout. intros Hk. unfold unconfigure. repeat yields_step. Qed.
#[local] Hint Resolve unconfigure_keeps : keeps.

(** UDP and IP in front of the interfaces. *)
Lemma ip_output_keeps s0 s p src dest ttl tos proto nif : kept s0 s -> yields (ip_output_if output s p src (Some dest) ttl tos proto nif) (fun r => kept s0 r.2).
Proof using Hout. intros Hk. unfold ip_output_if, ip_output_if_opt, put_options. repeat yields_step; eauto with keeps. Qed.
#[local] Hint Resolve ip_output_keeps : keeps.
Lemma emit_keeps s0 s c q src dst netif h : kept s0 s -> yields (udp_emit output s c q src dst netif h) (fun r => kept s0 r.2).
Proof using Hout. intros Hk. unfold udp_emit. do 3 (apply (yields_bind _ _ _ _ (yields_any _)); intros ? _). by apply ip_output_keeps. Qed.
#[local] Hint Resolve emit_keeps : keeps.
Lemma sendto_keeps s0 s pcb p dst port netif : kept s0 s -> yields (udp_sendto_if output s pcb p dst port netif) (fun r => kept s0 r.2).
Proof using Hout.
  intros Hk. unfold udp_sendto_if. apply (yields_bind _ _ _ _ (yields_any _)); intros c _. apply (yields_bind _ _ _ _ (yields_any _)); intros [err u] _. 
  destruct (negb _); [by apply yields_ok|]. apply (yields_bind _ _ _ _ (yields_any _)); intros [q m] _. destruct (q =? 0); [by apply yields_ok|].
  do 4 (apply (yields_bind _ _ _ _ (yields_any _)); intros ? _). destruct (negb _ && negb _).
  - destruct (negb (q =? p)); [|by apply yields_ok]. eapply yields_bind; [by apply (free_keeps s0)|]. intros s' Hs. by apply yields_ok.
  - eapply yields_bind; [by apply (emit_keeps s0)|]. intros [e s'] Hs. destruct (negb (q =? p)); [|by apply yields_ok].
    eapply yields_bind; [by apply (free_keeps s0)|]. intros s2 Hs2. by apply yields_ok.
Qed.

(** ** Moves *)

(** Of all clients only that of the interface changes, as [R] says. *)
Definition moves s (netif : Z) (R : dhcp -> dhcp -> Prop) s' : Prop :=
  pointers s' = pointers s /\ exists a d d', pointers s !! netif = Some a /\ clients s !! a = Some d /\ clients s' = <[a := d']> (clients s) /\ R d d'.
Lemma moves_weaken s netif (R R' : dhcp -> dhcp -> Prop) s' : moves s netif R s' -> (forall d d', R d d' -> R' d d') -> moves s netif R' s'.
Proof using Type. intros (Hp & a & d & d' & Ha & Hd & Hc & Hr) Hi. split; [done|]. exists a, d, d'. eauto. Qed.
Lemma kept_eq s s' : kept s s' -> pointers s' = pointers s /\ clients s' = clients s.
Proof using Type. unfold kept, pointers, clients. by intros ->. Qed.
Lemma moves_kept s0 s netif R s' : kept s0 s -> moves s netif R s' -> moves s0 netif R s'.
Proof using Type. unfold kept, moves, clients, pointers. by intros ->. Qed.
Lemma kept_moves s netif R s1 s' : moves s netif R s1 -> kept s1 s' -> moves s netif R s'.
Proof using Type. unfold kept, moves, clients, pointers. by intros Hm ->. Qed.
Lemma moves_then s netif R R' s1 s' : moves s netif R s1 -> moves s1 netif R' s' -> moves s netif (fun d d' => exists d1, R d d1 /\ R' d1 d') s'.
Proof using Type.
  intros (Hp & a & d & d1 & Ha & Hd & Hc & Hr) (Hp' & a' & d1' & d' & Ha' & Hd' & Hc' & Hr'). rewrite Hp, Ha in Ha'. injection Ha' as <-.
  rewrite Hc, lookup_insert_eq in Hd'. injection Hd' as <-. split; [congruence|]. exists a, d, d'. split; [done|]. split; [done|]. split; [by rewrite Hc', Hc, insert_insert_eq|by exists d1].
Qed.
(** What a step whose result is of no interest does. *)
Lemma then_moves {A B} s netif R R' R'' (x : result A) (k : A -> result B) (st : A -> state) (st' : B -> state) :
  yields x (fun r => moves s netif R (st r)) -> (forall r, moves s netif R (st r) -> yields (k r) (fun r' => moves (st r) netif R' (st' r'))) ->
  (forall d d1 d', R d d1 -> R' d1 d' -> R'' d d') -> yields (rbind x k) (fun r' => moves s netif R'' (st' r')).
Proof using Type.
  intros Hx Hk Hr. eapply yields_bind; [exact Hx|]. intros a Ha. eapply yields_weaken; [by apply Hk|]. intros b Hb.
  eapply moves_weaken; [exact (moves_then _ _ _ _ _ _ Ha Hb)|]. intros d d' (d1 & H1 & H2). by eapply Hr.
Qed.
Lemma then_same {A B} s netif R (x : result A) (k : A -> result B) (st : A -> state) (st' : B -> state) :
  yields x (fun r => moves s netif R (st r)) -> (forall r, moves s netif R (st r) -> yields (k r) (fun r' => kept (st r) (st' r'))) ->
  yields (rbind x k) (fun r' => moves s netif R (st' r')).
Proof using Type. intros Hx Hk. eapply yields_bind; [exact Hx|]. intros a Ha. eapply yields_weaken; [by apply Hk|]. intros b Hb. exact (kept_moves _ _ _ _ _ Ha Hb). Qed.

Lemma client_of_yields s netif : yields (client_of s netif) (fun a => pointers s !! netif = Some a).
Proof using Type.
  unfold client_of, nif_at, cell. destruct (netif =? 0); [apply yields_fault|]. destruct (nifs (ifs (env s)) !! netif) as [n|] eqn:E; [|apply yields_fault].
  apply yields_ok. unfold pointers, memory. cbn. by rewrite lookup_fmap, E.
Qed.
Lemma dhcp_at_yields s a : yields (dhcp_at s a) (fun d => clients s !! a = Some d).
Proof using Type. unfold dhcp_at, cell. destruct (a =? 0); [apply yields_fault|]. change (clients s) with (dhcp_mem (vars_of s)). destruct (dhcp_mem (vars_of s) !! a); [by apply yields_ok|apply yields_fault]. Qed.
Lemma put_moves s netif a d d' : pointers s !! netif = Some a -> clients s !! a = Some d -> moves s netif (fun x x' => x = d /\ x' = d') (put_dhcp s a d').
Proof using Type. intros Ha Hd. split; [done|]. exists a, d, d'. by repeat split. Qed.
Lemma upd_moves s netif a f : pointers s !! netif = Some a -> yields (upd_dhcp s a f) (moves s netif (fun d d' => d' = f d)).
Proof using Type.
  intros Ha. unfold upd_dhcp. eapply yields_bind; [apply dhcp_at_yields|]. intros d Hd. apply yields_ok.
  eapply moves_weaken; [exact (put_moves s netif a d (f d) Ha Hd)|]. by intros ? ? [-> ->].
Qed.

(** ** Messages *)

(** A client without the message under construction and its transaction. *)
Definition core d : dhcp := set_out (set_xid d 0) 0 (0, 0) 0.
Definition core_builder (f : builder) : Prop := forall m d, yields (f (m, d)) (fun r => core r.2 = core d).
Lemma put_core v : core_builder (put_option v).
Proof using Type. intros m d. unfold put_option. apply (yields_bind _ _ _ _ (yields_any _)). intros m' _. by apply yields_ok. Qed.
Lemma build_core l : Forall core_builder l -> core_builder (build l).
Proof using Type.
  intros HF m d. assert (forall d', core d' = core d -> forall m, yields (build l (m, d')) (fun r => core r.2 = core d)) as Hl; [|by apply Hl].
  induction HF as [|f l Hf HF IH]; intros d' Hd m'; cbn [build]; [by apply yields_ok|].
  eapply yields_bind; [apply Hf|]. intros [m2 d2] H2. apply IH. cbn in H2. congruence.
Qed.
Lemma option_core op len : core_builder (dhcp_option op len).
Proof using Type. apply build_core. repeat constructor; apply put_core. Qed.
Lemma short_core v : core_builder (dhcp_option_short v).
Proof using Type. apply build_core. repeat constructor; apply put_core. Qed.
Lemma long_core v : core_builder (dhcp_option_long v).
Proof using Type. apply build_core. repeat constructor; apply put_core. Qed.
Lemma trailer_core : core_builder dhcp_option_trailer.
Proof using Type.
  apply build_core. constructor; [apply put_core|]. constructor; [|constructor]. generalize (S (Z.to_nat DHCP_OPTIONS_LEN)). intros fuel.
  induction fuel as [|fuel IH]; intros m d; cbn [trailer_loop]; [apply yields_fault|]. destruct (_ && _); [|by apply yields_ok].
  apply (build_core [put_option 0; trailer_loop fuel]). repeat constructor; [apply put_core|exact IH].
Qed.
#[local] Hint Resolve put_core option_core short_core long_core trailer_core : core.
Lemma request_options_core r n d : Forall core_builder (request_options r n d).
Proof using Type. destruct r; cbn [request_options]; unfold max_msg_size, address_option, wanted_options, dhcp_option_byte; cbn [app]; repeat constructor; auto with core. Qed.

Lemma create_keeps s n d t : yields (dhcp_create_msg s n d t) (fun r => kept s r.2 /\ core r.1.2 = core d /\ (r.1.1 = ERR_OK \/ r.1.1 = ERR_MEM /\ p_out r.1.2 = 0)).
Proof using Type.
  unfold dhcp_create_msg. apply (yields_bind _ _ _ _ (yields_any _)). intros [p m] _. destruct (Z.eqb_spec p 0) as [->|Hp]; [apply yields_ok; cbn; split; [done|split; [done|by right]]|].
  set (d0 := set_out d p (msg_out d) (options_out_len d)). match goal with |- yields (let '(_, _) := ?x in _) _ => assert (exists d1 s1, x = (d1, s1) /\ core d1 = core d /\ kept s s1) as (d1 & s1 & -> & Hd1 & Hs1) end.
  { destruct (negb (t =? DHCP_REQUEST)); by eexists _, _. }
  apply (yields_bind _ _ _ _ (yields_any _)). intros c _. apply (yields_bind _ _ _ _ (yields_any _)). intros ch _. apply (yields_bind _ _ _ _ (yields_any _)). intros m' _.
  eapply yields_bind; [eapply build_core; repeat constructor; auto with core|]. intros [m2 d2] H2. apply yields_ok. cbn in *. split; [done|]. split; [by rewrite H2|by left].
Qed.
Lemma finish_keeps s d opts : Forall core_builder opts -> yields (finish_msg s d opts) (fun r => kept s r.2 /\ core r.1 = core d).
Proof using Type.
  intros HF. unfold finish_msg. eapply yields_bind; [eapply build_core; apply Forall_app; split; [exact HF|repeat constructor; auto with core]|].
  intros [m d'] Hd. apply (yields_bind _ _ _ _ (yields_any _)). intros m' _. by apply yields_ok.
Qed.
Lemma delete_keeps s d : yields (dhcp_delete_msg s d) (fun r => kept s r.2 /\ core r.1 = core d /\ p_out r.1 = 0).
Proof using Type.
  unfold dhcp_delete_msg. apply (yields_bind _ _ (kept s)); [destruct (negb _); [by apply free_keeps|by apply yields_ok]|]. intros s' Hs. by apply yields_ok.
Qed.

(** The client after the attempt to send a message: only the message and the
    transaction are new. *)
Definition sent d d' : Prop := core d' = core d /\ p_out d' = 0.
Lemma send_moves s netif t opts dest : (forall n d, Forall core_builder (opts n d)) ->
  yields (send_request output s netif t opts dest) (fun r => moves s netif sent r.2).
Proof using Hout.
  intros Ho. unfold send_request. apply (yields_bind _ _ (fun n => pointers s !! netif = Some (nif_dhcp n))).
  { pose proof (client_of_yields s netif) as Hc. unfold client_of in Hc. intros n E. apply Hc. by rewrite E. }
  intros n Ha. set (a := nif_dhcp n) in *. eapply yields_bind; [apply dhcp_at_yields|]. intros d Hd.
  eapply yields_bind; [apply create_keeps|]. intros [[result d1] s1] (Hs1 & Hd1 & Hr). cbn [fst snd] in *.
  assert (moves s netif (fun x x' => x = d /\ x' = d1) (put_dhcp s1 a d1)) as Hm1.
  { destruct (kept_eq _ _ Hs1) as [Ep Ec]. apply (moves_kept s s1 netif _ _ Hs1). apply put_moves; congruence. }
  destruct (Z.eqb_spec result ERR_OK) as [->|Hne].
  2: { apply yields_ok. eapply moves_weaken; [exact Hm1|]. intros ? ? [-> ->]. destruct Hr as [->|[_ Hp]]; [done|by split]. }
  eapply yields_bind; [by apply finish_keeps|]. intros [d2 s2] [Hs2 Hd2]. cbn [fst snd] in *.
  set (s3 := put_dhcp s2 a d2). assert (pointers s3 = pointers s /\ clients s3 = <[a := d2]> (clients s)) as [Hp3 Hc3].
  { unfold kept in *. assert (memory (env s2) = (<[a := d1]> (clients s), pointers s)) as E2.
    { rewrite Hs2. change (memory (env (put_dhcp s1 a d1))) with (<[a := d1]> (clients s1), pointers s1). unfold clients, pointers. by rewrite Hs1. }
    unfold s3. change (pointers (put_dhcp s2 a d2)) with (memory (env s2)).2. change (clients (put_dhcp s2 a d2)) with (<[a := d2]> (memory (env s2)).1).
    rewrite E2. cbn. by rewrite insert_insert_eq. }
  apply (yields_bind _ _ (fun r => kept s3 r.2)); [by apply sendto_keeps|]. intros [err s4] Hs4. cbn [fst snd] in *.
  eapply yields_bind; [apply dhcp_at_yields|]. intros d4 Hd4.
  assert (pointers s4 = pointers s /\ clients s4 = <[a := d2]> (clients s)) as [Hp4 Hc4] by (destruct (kept_eq _ _ Hs4); split; congruence).
  rewrite Hc4, lookup_insert_eq in Hd4. injection Hd4 as <-.
  eapply yields_bind; [apply delete_keeps|]. intros [d5 s5] (Hs5 & Hd5 & Hp5). cbn [fst snd] in *. apply yields_ok. cbn [snd].
  assert (pointers s5 = pointers s /\ clients s5 = <[a := d2]> (clients s)) as [Hp6 Hc6] by (destruct (kept_eq _ _ Hs5); split; congruence).
  split; [exact Hp6|]. exists a, d, d5. split; [done|]. split; [done|]. split; [|split; [congruence|done]].
  change (clients (put_dhcp s5 a d5)) with (<[a := d5]> (clients s5)). by rewrite Hc6, insert_insert_eq.
Qed.

(** ** The functions that send *)
(** One more try behind [d]. *)
Definition progressed d (msecs : Z -> Z) d' : Prop :=
  core d' = core (let k := u8 (tries d + 1) in set_progress d (dhcp_state d) k (fine_ticks (msecs k))) /\ p_out d' = 0.
Lemma core_eq d d' : core d' = core d -> exists x p m o, d' = set_out (set_xid d x) p m o.
Proof using Type. intros E. exists (xid d'), (p_out d'), (msg_out d'), (options_out_len d'). destruct d, d'. injection E. intros. subst. reflexivity. Qed.

Lemma course_moves s netif a f t opts dest msecs : pointers s !! netif = Some a -> (forall n d, Forall core_builder (opts n d)) ->
  yields (let! s := upd_dhcp s a f in let! (result, s) := send_request output s netif t opts dest in let! s := next_try s a msecs in Ok (result, s))
    (fun r => moves s netif (fun d d' => progressed (f d) msecs d') r.2).
Proof using Hout.
  intros Ha Ho. set (try := fun d => let k := u8 (tries d + 1) in set_progress d (dhcp_state d) k (fine_ticks (msecs k))).
  apply (then_moves s netif (fun d d' => d' = f d) (fun d d' => exists d1, sent d d1 /\ d' = try d1) _ _ _ id snd); [by apply upd_moves| |].
  - intros s1 [Hp1 _]. apply (then_moves s1 netif sent (fun d d' => d' = try d) _ _ _ snd snd).
    + by apply send_moves.
    + intros [result s2] [Hp2 _]. cbn [id snd] in *. eapply yields_bind; [apply (upd_moves s2 netif a try); by rewrite Hp2, Hp1|]. intros s3 Hs3. by apply yields_ok.
    + intros d d1 d' H1 ->. by exists d1.
  - intros d d1 d' -> (d2 & [Hc Hp] & ->). destruct (core_eq _ _ Hc) as (x & p & m & o & ->). by split.
Qed.

(** *** The control state *)

(** The state, the tries, and the ticks until [dhcp_timeout]. *)
Record machine := Machine { m_state : Z; m_tries : Z; m_wait : Z }.
Definition machine_of d : machine := Machine (dhcp_state d) (tries d) (request_timeout d).
(** The state entered, or kept, with one more try. *)
Definition enter (st : Z) (msecs : Z -> Z) (x : machine) : machine :=
  let k := u8 ((if st =? m_state x then m_tries x else 0) + 1) in Machine st k (fine_ticks (msecs k)).
(** The state alone. *)
Definition turn (st : Z) (x : machine) : machine := if st =? m_state x then x else Machine st 0 0.
(** The client is controlled by [g]; its two long timers go on. *)
Definition controls (g : machine -> machine) d d' : Prop :=
  machine_of d' = g (machine_of d) /\ t1_timeout d' = t1_timeout d /\ t2_timeout d' = t2_timeout d /\ (p_out d = 0 -> p_out d' = 0).
Lemma controls_then g h d d1 d' : controls g d d1 -> controls h d1 d' -> controls (fun x => h (g x)) d d'.
Proof using Type. intros (E1 & F1 & G1 & H1) (E2 & F2 & G2 & H2). split; [by rewrite E2, E1|]. split; [congruence|]. split; [congruence|auto]. Qed.
Lemma progressed_enter f d st msecs d' : machine_of (f d) = turn st (machine_of d) -> t1_timeout (f d) = t1_timeout d -> t2_timeout (f d) = t2_timeout d ->
  progressed (f d) msecs d' -> controls (enter st msecs) d d'.
Proof using Type.
  intros Em E1 E2 [Hc Hp]. destruct (core_eq _ _ Hc) as (x & p & m & o & ->). clear Hc. split; [|done].
  unfold machine_of, turn, enter in *. cbn in *. destruct (st =? dhcp_state d) eqn:Es; injection Em as -> -> _; [|done]. apply Z.eqb_eq in Es as ->. done.
Qed.
Lemma turned d st : machine_of (dhcp_set_state d st) = turn st (machine_of d).
Proof using Type. unfold dhcp_set_state, turn. cbn. destruct (st =? dhcp_state d); reflexivity. Qed.

(** A call of a function of one interface in the middle of another. *)
Lemma client_known s netif a : pointers s !! netif = Some a -> yields (client_of s netif) (fun a' => a' = a).
Proof using Type. intros Ha. eapply yields_weaken; [apply client_of_yields|]. intros a' Ha'. congruence. Qed.
Lemma pointer_after s netif R s' a : moves s netif R s' -> pointers s !! netif = Some a -> pointers s' !! netif = Some a.
Proof using Type. intros [-> _]. done. Qed.

Lemma course_enters s netif a f st t opts dest msecs : pointers s !! netif = Some a -> (forall n d, Forall core_builder (opts n d)) ->
  (forall d, machine_of (f d) = turn st (machine_of d) /\ t1_timeout (f d) = t1_timeout d /\ t2_timeout (f d) = t2_timeout d) ->
  yields (let! s := upd_dhcp s a f in let! (result, s) := send_request output s netif t opts dest in let! s := next_try s a msecs in Ok (result, s))
    (fun r => moves s netif (controls (enter st msecs)) r.2).
Proof using Hout.
  intros Ha Ho Hf. eapply yields_weaken; [apply course_moves; [exact Ha|exact Ho]|]. intros x Hx. eapply moves_weaken; [exact Hx|].
  intros d d' Hd. destruct (Hf d) as (E & E1 & E2). by apply (progressed_enter f).
Qed.
Lemma run_enters s netif r : yields (run output r s netif) (fun x => moves s netif (controls (enter (request_state r) (request_msecs r))) x.2).
Proof using Hout.
  assert (forall a, pointers s !! netif = Some a -> yields (let! s := upd_dhcp s a (fun d => dhcp_set_state (before r d) (request_state r)) in
    let! (result, s) := send_request output s netif (request_type r) (request_options r) (request_dest r) in let! s := next_try s a (request_msecs r) in Ok (result, s))
    (fun x => moves s netif (controls (enter (request_state r) (request_msecs r))) x.2)) as Hc.
  { intros a Ha. apply course_enters; [exact Ha|intros; apply request_options_core|]. intros d. rewrite turned.
    unfold dhcp_set_state. destruct (negb _); destruct r; done. }
  destruct r; exact (yields_bind _ _ _ _ (client_of_yields s netif) Hc).
Qed.

(** The way of a release: the interface loses its addresses too. *)
Lemma release_enters s netif a : pointers s !! netif = Some a -> a <> 0 ->
  yields (dhcp_release output tcp_abort s netif) (fun x => moves s netif (controls (enter DHCP_OFF rebind_msecs)) x.2).
Proof using Hout.
  intros Ha Hne. unfold dhcp_release. eapply yields_bind; [by apply client_known|]. intros a' ->. rewrite (proj2 (Z.eqb_neq a 0)) by done.
  set (f := fun d => set_lease _ 0 0 0). set (opts := fun (n : netif_struct) (d : dhcp) => @nil builder).
  assert (yields (let! x := (let! s := upd_dhcp s a f in let! (result, s) := send_request output s netif DHCP_RELEASE opts server_ip_addr in
    let! s := next_try s a rebind_msecs in Ok (result, s)) in let! s' := unconfigure tcp_abort x.2 netif in Ok (x.1, s'))
    (fun x => moves s netif (controls (enter DHCP_OFF rebind_msecs)) x.2)) as Hx.
  { eapply (then_same s netif _ _ _ snd snd).
    - apply course_enters; [exact Ha|by constructor|]. intros d. change (machine_of (f d)) with (machine_of (dhcp_set_state d DHCP_OFF)). rewrite turned.
      unfold f, dhcp_set_state. by destruct (negb _).
    - intros [r s1] Hs1. cbn [fst snd]. eapply yields_bind; [by apply (unconfigure_keeps s1)|]. intros s2 Hs2. by apply yields_ok. }
  intros x E. apply Hx. rewrite <- E. destruct (upd_dhcp s a f) as [s0|]; [|done]. cbn [rbind]. destruct (send_request _ _ _ _ _ _) as [[r s1]|]; [|done]. cbn [rbind].
  by destruct (next_try s1 a rebind_msecs).
Qed.

(** The check of the address offered, by ARP. *)
Lemma dhcp_check_enters s netif : yields (dhcp_check link queue_malloc s netif) (moves s netif (controls (enter DHCP_CHECKING (fun _ => 500)))).
Proof using Hout.
  unfold dhcp_check. eapply yields_bind; [apply client_of_yields|]. intros a Ha.
  apply (then_moves s netif (controls (turn DHCP_CHECKING)) (controls (fun x => let k := u8 (m_tries x + 1) in Machine (m_state x) k (fine_ticks 500))) _ _ _ id id).
  - eapply yields_weaken; [exact (upd_moves s netif a _ Ha)|]. intros s1 Hs1. eapply moves_weaken; [exact Hs1|]. intros d d' ->. unfold controls. rewrite turned.
    unfold dhcp_set_state. by destruct (negb _).
  - intros s1 Hs1. unfold id in *. apply (yields_bind _ _ _ _ (yields_any _)). intros n _. apply (yields_bind _ _ _ _ (yields_any _)). intros d _.
    apply (yields_bind _ _ (fun r => kept s1 r.2)); [by apply arp_query_keeps|]. intros [r s2] Hs2. cbn [snd] in *.
    eapply yields_weaken; [apply (upd_moves s2 netif a)|].
    + destruct (kept_eq _ _ Hs2) as [-> _]. by eapply pointer_after.
    + intros s3 Hs3. apply (moves_kept s1 s2 _ _ _ Hs2). eapply moves_weaken; [exact Hs3|]. by intros d1 d' ->.
  - intros d d1 d' H1 H2. destruct (controls_then _ _ _ _ _ H1 H2) as (E & ?). split; [|done]. rewrite E. unfold turn, enter.
    destruct (Z.eqb_spec DHCP_CHECKING (m_state (machine_of d))) as [E0|]; [by rewrite E0|reflexivity].
Qed.

(** ** The lease *)

(** The long timers go on, or are those of a lease. *)
Definition timers_of d d' : Prop :=
  (t1_timeout d' = t1_timeout d /\ t2_timeout d' = t2_timeout d) \/
  exists x, t1_timeout x = t1_timeout d /\ t2_timeout x = t2_timeout d /\ (t1_timeout d', t2_timeout d') = lease_timers x.
Definition obeys (g : machine -> machine) d d' : Prop := machine_of d' = g (machine_of d) /\ timers_of d d' /\ (p_out d = 0 -> p_out d' = 0).
Lemma controls_obeys g d d' : controls g d d' -> obeys g d d'.
Proof using Type. intros (E & E1 & E2 & Hp). split; [done|]. split; [by left|done]. Qed.
Lemma controls_then_obeys g h d d1 d' : controls g d d1 -> obeys h d1 d' -> obeys (fun x => h (g x)) d d'.
Proof using Type.
  intros (E1 & F1 & G1 & P1) (E2 & T & P2). split; [by rewrite E2, E1|]. split; [|auto].
  destruct T as [[T1 T2]|(x & X1 & X2 & X3)]; [left; split; congruence|right; exists x; repeat split; congruence].
Qed.

Lemma client_netif s netif : yields (client_of s netif) (fun a => pointers s !! netif = Some a /\ netif <> 0).
Proof using Type.
  intros a E. split; [by apply (client_of_yields s netif)|]. intros ->. discriminate E.
Qed.
Lemma at_nonzero s a : yields (dhcp_at s a) (fun d => clients s !! a = Some d /\ a <> 0).
Proof using Type. intros d E. split; [by apply (dhcp_at_yields s a)|]. intros ->. discriminate E. Qed.
Lemma bind_enters s netif a : pointers s !! netif = Some a -> a <> 0 -> netif <> 0 ->
  yields (dhcp_bind link igmp_report_groups tcp_abort system_station_got_ip_set s netif) (moves s netif (obeys (turn DHCP_BOUND))).
Proof using Hout.
  intros Ha Hne Hn. unfold dhcp_bind. rewrite (proj2 (Z.eqb_neq netif 0)) by done. eapply yields_bind; [by apply client_known|]. intros a' ->.
  rewrite (proj2 (Z.eqb_neq a 0)) by done. eapply yields_bind; [apply dhcp_at_yields|]. intros d Hd. destruct (lease_timers d) as [t1 t2] eqn:Et.
  set (s1 := put_dhcp s a (set_timeouts d t1 t2)). pose proof (put_moves s netif a d (set_timeouts d t1 t2) Ha Hd) as Hm.
  eapply yields_bind; [by apply (set_ipaddr_keeps s1)|]. intros s2 Hs2. eapply yields_bind; [by apply (set_netmask_keeps s1)|]. intros s3 Hs3.
  set (s4 := set_client _ _ _). assert (kept s1 s4) as Hs4 by exact Hs3. eapply yields_bind; [by apply (set_gw_keeps s1)|]. intros s5 Hs5.
  eapply yields_bind; [by apply (set_up_keeps s1)|]. intros s6 Hs6. destruct (kept_eq _ _ Hs6) as [Ep _].
  eapply yields_weaken; [apply (upd_moves s6 netif a); by rewrite Ep|]. intros s7 Hs7. apply (moves_kept s1 s6 _ _ _ Hs6) in Hs7.
  eapply moves_weaken; [exact (moves_then _ _ _ _ _ _ Hm Hs7)|]. intros d0 d' (d1 & [-> ->] & ->). split; [by rewrite turned|]. split.
  - right. exists d. rewrite Et. unfold dhcp_set_state. by destruct (negb _).
  - unfold dhcp_set_state. by destruct (negb _).
Qed.

(** ** Offers and answers *)
Lemma dns_loop_keeps fuel : forall s0 s k, kept s0 s -> yields (dns_loop fuel s k) (kept s0).
Proof using Type. induction fuel as [|fuel IH]; intros s0 s k Hk; cbn [dns_loop]; repeat yields_step; try done; by apply IH. Qed.
Lemma ack_enters s netif : yields (dhcp_handle_ack s netif) (moves s netif (controls (fun x => x))).
Proof using Type.
  unfold dhcp_handle_ack. eapply yields_bind; [apply client_of_yields|]. intros a Ha. eapply yields_bind; [apply dhcp_at_yields|]. intros d Hd.
  do 8 (apply (yields_bind _ _ _ _ (yields_any _)); intros ? _). match goal with |- yields (dns_loop _ (put_dhcp s a ?d') _) _ => pose proof (put_moves s netif a d d' Ha Hd) as Hm end.
  eapply yields_weaken; [by apply dns_loop_keeps|]. intros s1 Hs1. eapply moves_weaken; [exact (kept_moves _ _ _ _ _ Hm Hs1)|]. by intros ? ? [-> ->].
Qed.

Lemma nak_enters s netif : yields (dhcp_handle_nak output tcp_abort s netif) (moves s netif (controls (fun x => enter DHCP_SELECTING discover_msecs (turn DHCP_BACKING_OFF x)))).
Proof using Hout.
  unfold dhcp_handle_nak. eapply yields_bind; [apply client_of_yields|]. intros a Ha. eapply yields_bind; [by apply (unconfigure_keeps s)|]. intros s1 Hs1.
  destruct (kept_eq _ _ Hs1) as [Ep _]. eapply yields_bind; [apply (upd_moves s1 netif a); by rewrite Ep|]. intros s2 Hs2.
  eapply yields_bind; [apply (run_enters s2 netif Discover)|]. intros [r s3] Hs3. apply yields_ok. apply (moves_kept s s1 _ _ _ Hs1).
  eapply moves_weaken; [exact (moves_then _ _ _ _ _ _ Hs2 Hs3)|]. intros d d' (d1 & -> & Hc). eapply controls_then; [|exact Hc].
  split; [by rewrite turned|]. unfold dhcp_set_state. by destruct (negb _).
Qed.

(** An offer is taken only with the identity of its server. *)
Definition take_offer (given : bool) (x : machine) : machine := if given then enter DHCP_REQUESTING discover_msecs x else x.
Lemma offer_enters s netif given a d : yields (option_given (vars_of s) DHCP_OPTION_IDX_SERVER_ID) (fun g => g = given) -> pointers s !! netif = Some a -> clients s !! a = Some d ->
  yields (dhcp_handle_offer output s netif) (moves s netif (controls (take_offer given))).
Proof using Hout.
  intros Eg Ha Hd. unfold dhcp_handle_offer. eapply yields_bind; [by apply client_known|]. intros a' ->. eapply yields_bind; [exact Eg|]. intros g ->. destruct given.
  - apply (yields_bind _ _ _ _ (yields_any _)). intros server _. eapply yields_bind; [apply dhcp_at_yields|]. intros d' Hd'.
    apply (yields_bind _ _ _ _ (yields_any _)). intros ip _. match goal with |- yields (let! (_, _) := dhcp_select _ (put_dhcp s a ?x) _ in _) _ =>
      pose proof (put_moves s netif a d' x Ha Hd') as Hm end.
    eapply yields_bind; [apply (run_enters _ netif Select)|]. intros [r s2] Hs2. apply yields_ok.
    eapply moves_weaken; [exact (moves_then _ _ _ _ _ _ Hm Hs2)|]. intros d0 d2 (d1 & [-> ->] & Hc). exact Hc.
  - apply yields_ok. split; [done|]. exists a, d, d. split; [done|]. split; [done|]. split; [by rewrite insert_id|done].
Qed.

(** ** The abstract machine *)

Definition discover (x : machine) : machine := enter DHCP_SELECTING discover_msecs x.
Definition abandon (x : machine) : machine := discover (enter DHCP_OFF rebind_msecs x).
(** The time for an answer is over. *)
Definition on_timeout (x : machine) : machine :=
  let st := m_state x in
  if (st =? DHCP_BACKING_OFF) || (st =? DHCP_SELECTING) then discover x
  else if st =? DHCP_REQUESTING then if m_tries x <=? 5 then enter DHCP_REQUESTING discover_msecs x else abandon x
  else if st =? DHCP_CHECKING then if m_tries x <=? 1 then enter DHCP_CHECKING (fun _ => 500) x else turn DHCP_BOUND x
  else if st =? DHCP_RENEWING then enter DHCP_RENEWING renew_msecs x
  else if st =? DHCP_REBINDING then if m_tries x <=? 8 then enter DHCP_REBINDING rebind_msecs x else abandon x
  else if st =? DHCP_REBOOTING then if m_tries x <? REBOOT_TRIES then enter DHCP_REBOOTING rebind_msecs x else discover x
  else x.
(** A reply came; [given] says whether it names its server. *)
Definition on_reply (given : bool) (msg_type : Z) (x : machine) : machine :=
  let st := m_state x in
  let asked := (st =? DHCP_REBOOTING) || (st =? DHCP_REBINDING) || (st =? DHCP_RENEWING) in
  if msg_type =? DHCP_ACK then
    if st =? DHCP_REQUESTING then enter DHCP_CHECKING (fun _ => 500) x else if asked then turn DHCP_BOUND x else x
  else if (msg_type =? DHCP_NAK) && (asked || (st =? DHCP_REQUESTING)) then discover (turn DHCP_BACKING_OFF x)
  else if (msg_type =? DHCP_OFFER) && (st =? DHCP_SELECTING) then take_offer given (Machine st (m_tries x) 0)
  else x.
(** The address that is checked is in use. *)
Definition on_conflict (x : machine) : machine := enter DHCP_BACKING_OFF (fun _ => 10 * 1000) x.

Lemma same_moves s netif a d : pointers s !! netif = Some a -> clients s !! a = Some d -> moves s netif (obeys (fun x => x)) s.
Proof using Type. intros Ha Hd. split; [done|]. exists a, d, d. split; [done|]. split; [done|]. split; [by rewrite insert_id|]. split; [done|]. split; [by left|done]. Qed.
(** Where the course depends on the client, it is this one. *)
Lemma obeys_here s netif g h a d s' : pointers s !! netif = Some a -> clients s !! a = Some d -> g (machine_of d) = h (machine_of d) ->
  moves s netif (obeys g) s' -> moves s netif (obeys h) s'.
Proof using Type.
  intros Ha Hd E (Hp & a' & d0 & d' & Ha' & Hd0 & Hc & (Em & Hr)). split; [done|]. exists a', d0, d'. split; [done|]. split; [done|]. split; [done|]. split; [|done].
  rewrite Ha in Ha'. injection Ha' as <-. rewrite Hd in Hd0. injection Hd0 as <-. congruence.
Qed.
Lemma obeys_control s netif g h a d (x : result (Z * state)) : pointers s !! netif = Some a -> clients s !! a = Some d -> g (machine_of d) = h (machine_of d) ->
  yields x (fun r => moves s netif (controls g) r.2) -> yields (let! (_, s) := x in Ok s) (moves s netif (obeys h)).
Proof using Type.
  intros Ha Hd E Hx. eapply yields_bind; [exact Hx|]. intros [r s'] Hs. apply yields_ok. apply (obeys_here s netif g h a d s' Ha Hd E).
  eapply moves_weaken; [exact Hs|]. apply controls_obeys.
Qed.
(** A release and a new discovery. *)
Lemma abandon_moves s netif a : pointers s !! netif = Some a -> a <> 0 ->
  yields (let! (_, s) := dhcp_release output tcp_abort s netif in dhcp_discover output s netif) (fun r => moves s netif (controls abandon) r.2).
Proof using Hout.
  intros Ha Hne. apply (then_moves s netif (controls (enter DHCP_OFF rebind_msecs)) (controls discover) _ _ _ snd snd).
  - by eapply release_enters.
  - intros [r s1] Hs1. exact (run_enters s1 netif Discover).
  - intros d d1 d' H1 H2. exact (controls_then _ _ _ _ _ H1 H2).
Qed.

Lemma run_obeys s netif r h a d : pointers s !! netif = Some a -> clients s !! a = Some d ->
  enter (request_state r) (request_msecs r) (machine_of d) = h (machine_of d) -> yields (let! (_, s) := run output r s netif in Ok s) (moves s netif (obeys h)).
Proof using Hout. intros Ha Hd E. apply (obeys_control s netif _ h a d _ Ha Hd E), run_enters. Qed.
Lemma abandon_obeys s netif h a d : pointers s !! netif = Some a -> clients s !! a = Some d -> a <> 0 -> abandon (machine_of d) = h (machine_of d) ->
  yields (let! (_, s) := dhcp_release output tcp_abort s netif in let! (_, s) := dhcp_discover output s netif in Ok s) (moves s netif (obeys h)).
Proof using Hout.
  intros Ha Hd Hne E. pose proof (obeys_control s netif abandon h a d _ Ha Hd E (abandon_moves s netif a Ha Hne)) as Hg. rewrite rbind_assoc in Hg.
  intros s' Es. apply Hg. rewrite <- Es. by destruct (dhcp_release _ _ _ _) as [[r s1]|].
Qed.
Lemma bind_obeys s netif h a d : pointers s !! netif = Some a -> clients s !! a = Some d -> a <> 0 -> netif <> 0 -> turn DHCP_BOUND (machine_of d) = h (machine_of d) ->
  yields (dhcp_bind link igmp_report_groups tcp_abort system_station_got_ip_set s netif) (moves s netif (obeys h)).
Proof using Hout.
  intros Ha Hd Hne Hn E. eapply yields_weaken; [by apply (bind_enters s netif a)|]. intros s'. by apply (obeys_here s netif _ h a d).
Qed.
Lemma check_obeys s netif h a d : pointers s !! netif = Some a -> clients s !! a = Some d -> enter DHCP_CHECKING (fun _ => 500) (machine_of d) = h (machine_of d) ->
  yields (dhcp_check link queue_malloc s netif) (moves s netif (obeys h)).
Proof using Hout.
  intros Ha Hd E. eapply yields_weaken; [by apply dhcp_check_enters|]. intros s' Hs. apply (obeys_here s netif _ h a d s' Ha Hd E).
  eapply moves_weaken; [exact Hs|apply controls_obeys].
Qed.
Lemma stay_obeys s netif (h : machine -> machine) a d : pointers s !! netif = Some a -> clients s !! a = Some d -> machine_of d = h (machine_of d) -> yields (Ok s) (moves s netif (obeys h)).
Proof using Type. intros Ha Hd E. apply yields_ok. apply (obeys_here s netif (fun x => x) h a d s Ha Hd E). by eapply same_moves. Qed.

Ltac same_branch := unfold on_timeout, on_reply; cbn [m_state m_tries machine_of];
  repeat match goal with E : ?b = _ |- context [?b] => rewrite E end; reflexivity.
Lemma timeout_obeys s netif : yields (dhcp_timeout output link igmp_report_groups tcp_abort queue_malloc system_station_got_ip_set s netif)
  (moves s netif (obeys on_timeout)).
Proof using Hout.
  unfold dhcp_timeout. eapply yields_bind; [apply client_netif|]. intros a [Ha Hn]. eapply yields_bind; [apply at_nonzero|]. intros d [Hd Hne].
  destruct ((dhcp_state d =? DHCP_BACKING_OFF) || (dhcp_state d =? DHCP_SELECTING)) eqn:E1; [apply (run_obeys s netif Discover on_timeout a d); [done..|same_branch]|].
  destruct (dhcp_state d =? DHCP_REQUESTING) eqn:E2.
  { destruct (tries d <=? 5) eqn:Et; [apply (run_obeys s netif Select on_timeout a d)|apply (abandon_obeys s netif on_timeout a d)]; try done; same_branch. }
  destruct (dhcp_state d =? DHCP_CHECKING) eqn:E3.
  { destruct (tries d <=? 1) eqn:Et; [apply (check_obeys s netif on_timeout a d)|apply (bind_obeys s netif on_timeout a d)]; try done; same_branch. }
  destruct (dhcp_state d =? DHCP_RENEWING) eqn:E4; [apply (run_obeys s netif Renew on_timeout a d); [done..|same_branch]|].
  destruct (dhcp_state d =? DHCP_REBINDING) eqn:E5.
  { destruct (tries d <=? 8) eqn:Et; [apply (run_obeys s netif Rebind on_timeout a d)|apply (abandon_obeys s netif on_timeout a d)]; try done; same_branch. }
  destruct (dhcp_state d =? DHCP_REBOOTING) eqn:E6; [|apply (stay_obeys s netif on_timeout a d); [done..|same_branch]].
  destruct (tries d <? REBOOT_TRIES) eqn:Et; [apply (run_obeys s netif Reboot on_timeout a d)|apply (run_obeys s netif Discover on_timeout a d)]; try done; same_branch.
Qed.

Lemma reply_obeys s netif t given : yields (option_given (vars_of s) DHCP_OPTION_IDX_SERVER_ID) (fun g => g = given) ->
  yields (handle_reply output link igmp_report_groups tcp_abort queue_malloc system_station_got_ip_set s netif t) (moves s netif (obeys (on_reply given t))).
Proof using Hout.
  intros Eg. unfold handle_reply. eapply yields_bind; [apply client_netif|]. intros a [Ha Hn]. eapply yields_bind; [apply at_nonzero|]. intros d [Hd Hne].
  set (asked := _ || _ || _). destruct (t =? DHCP_ACK) eqn:Et.
  { destruct (dhcp_state d =? DHCP_REQUESTING) eqn:E2; [|destruct asked eqn:E3].
    - eapply yields_bind; [apply ack_enters|]. intros s1 Hs1. eapply yields_weaken; [apply dhcp_check_enters|]. intros s2 Hs2.
      apply (obeys_here s netif (enter DHCP_CHECKING (fun _ => 500)) _ a d); [done..|same_branch|].
      eapply moves_weaken; [exact (moves_then _ _ _ _ _ _ Hs1 Hs2)|]. intros d0 d' (d1 & H1 & H2). apply controls_obeys. exact (controls_then _ _ _ _ _ H1 H2).
    - apply (bind_obeys s netif _ a d); try done. unfold asked in E3. same_branch.
    - apply (stay_obeys s netif _ a d); [done..|]. unfold asked in E3. same_branch. }
  destruct ((t =? DHCP_NAK) && (asked || (dhcp_state d =? DHCP_REQUESTING))) eqn:E4.
  { eapply yields_weaken; [apply nak_enters|]. intros s1 Hs1. apply (obeys_here s netif (fun x => discover (turn DHCP_BACKING_OFF x)) _ a d); [done..| |].
    - unfold asked in E4. same_branch.
    - eapply moves_weaken; [exact Hs1|apply controls_obeys]. }
  destruct ((t =? DHCP_OFFER) && (dhcp_state d =? DHCP_SELECTING)) eqn:E5; [|apply (stay_obeys s netif _ a d); [done..|unfold asked in E4; same_branch]].
  unfold upd_dhcp. rewrite rbind_assoc. eapply yields_bind; [apply dhcp_at_yields|]. intros d' Hd'. cbn [rbind]. replace d' with d by congruence.
  set (d1 := set_progress d _ _ 0). pose proof (put_moves s netif a d d1 Ha Hd) as Hm.
  eapply yields_weaken; [apply (offer_enters (put_dhcp s a d1) netif given a d1); [exact Eg|exact Ha|apply lookup_insert_eq]|]. intros s2 Hs2.
  apply (obeys_here s netif (fun x => take_offer given (Machine (m_state x) (m_tries x) 0)) _ a d); [done..|unfold asked in E4; same_branch|].
  eapply moves_weaken; [exact (moves_then _ _ _ _ _ _ Hm Hs2)|]. intros d0 d2 (d3 & [-> ->] & Hc). apply controls_obeys. exact Hc.
Qed.

Lemma conflict_obeys s netif addr a d : netif <> 0 -> pointers s !! netif = Some a -> clients s !! a = Some d -> a <> 0 ->
  yields (dhcp_arp_reply output s netif addr)
    (moves s netif (obeys (fun x => if (m_state x =? DHCP_CHECKING) && (addr =? offered_ip_addr d) then on_conflict x else x))).
Proof using Hout.
  intros Hn Ha Hd Hne. unfold dhcp_arp_reply. rewrite (proj2 (Z.eqb_neq netif 0)) by done. eapply yields_bind; [by apply client_known|]. intros a' ->.
  rewrite (proj2 (Z.eqb_neq a 0)) by done. eapply yields_bind; [apply dhcp_at_yields|]. intros d' Hd'. replace d' with d by congruence. clear d' Hd'.
  destruct ((dhcp_state d =? DHCP_CHECKING) && (addr =? offered_ip_addr d)) eqn:E.
  - apply (run_obeys s netif Decline _ a d); [done..|]. cbn [m_state machine_of]. by rewrite E.
  - apply (stay_obeys s netif _ a d); [done..|]. cbn [m_state machine_of]. by rewrite E.
Qed.

(** A tick of the fine timer. *)
Definition on_tick (x : machine) : machine :=
  if 1 <? m_wait x then Machine (m_state x) (m_tries x) (m_wait x - 1)
  else if m_wait x =? 1 then on_timeout (Machine (m_state x) (m_tries x) 0) else x.
Lemma tick_obeys s netif a : pointers s !! netif = Some a ->
  yields (fine_step output link igmp_report_groups tcp_abort queue_malloc system_station_got_ip_set s netif a) (moves s netif (obeys on_tick)).
Proof using Hout.
  intros Ha. unfold fine_step. eapply yields_bind; [apply dhcp_at_yields|]. intros d Hd.
  destruct (1 <? request_timeout d) eqn:E1; [|destruct (request_timeout d =? 1) eqn:E2].
  - apply yields_ok. eapply moves_weaken; [exact (put_moves s netif a d _ Ha Hd)|]. intros ? ? [-> ->]. split; [|by split; [left|]].
    unfold on_tick. cbn [m_wait machine_of]. by rewrite E1.
  - set (d1 := set_progress d _ _ _). pose proof (put_moves s netif a d d1 Ha Hd) as Hm.
    eapply yields_weaken; [apply timeout_obeys|]. intros s' Hs. eapply moves_weaken; [exact (moves_then _ _ _ _ _ _ Hm Hs)|].
    intros d0 d' (d2 & [-> ->] & Em & Ht & Hp). split; [|by split]. rewrite Em. unfold on_tick. cbn [m_wait machine_of]. rewrite E1, E2. apply Z.eqb_eq in E2.
    unfold d1, machine_of. cbn. by rewrite E2.
  - apply (stay_obeys s netif _ a d); [done..|]. unfold on_tick. cbn [m_wait machine_of]. by rewrite E1, E2.
Qed.

(** ** Types *)

Definition client_states : list Z :=
  [DHCP_OFF; DHCP_REQUESTING; DHCP_REBOOTING; DHCP_REBINDING; DHCP_RENEWING; DHCP_SELECTING; DHCP_CHECKING; DHCP_BOUND; DHCP_BACKING_OFF].
Definition machine_typed (x : machine) : Prop := In (m_state x) client_states /\ is_byte (m_tries x) /\ is_u16 (m_wait x).
Definition typed d : Prop := machine_typed (machine_of d) /\ is_u16 (t1_timeout d) /\ is_u16 (t2_timeout d) /\ p_out d = 0.
Definition all_typed s : Prop := map_Forall (fun _ => typed) (clients s).

Lemma enter_typed st msecs x : In st client_states -> machine_typed (enter st msecs x).
Proof using Type. intros Hs. split; [exact Hs|]. split; [apply u8_range|apply u16_range]. Qed.
Lemma turn_typed st x : In st client_states -> machine_typed x -> machine_typed (turn st x).
Proof using Type. intros Hs Hx. unfold turn. destruct (st =? m_state x); [done|]. by split; [|split]. Qed.
Ltac listed := cbn; tauto.
Lemma timeout_typed x : machine_typed x -> machine_typed (on_timeout x).
Proof using Type. intros Hx. unfold on_timeout, abandon, discover. repeat case_match; try done; first [apply enter_typed; listed|apply turn_typed; [listed|done]]. Qed.
Lemma reply_typed given t x : machine_typed x -> machine_typed (on_reply given t x).
Proof using Type.
  intros Hx. unfold on_reply, take_offer, discover. repeat case_match; try done; try (apply enter_typed; listed); try (apply turn_typed; [listed|done]).
  split; [apply Hx|]. by split; [apply Hx|].
Qed.
Lemma conflict_typed x : machine_typed (on_conflict x).
Proof using Type. apply enter_typed. listed. Qed.
Lemma tick_typed x : machine_typed x -> machine_typed (on_tick x).
Proof using Type.
  intros (Hs & Ht & Hw). unfold on_tick. destruct (Z.ltb_spec 1 (m_wait x)); [|destruct (m_wait x =? 1); [apply timeout_typed|]]; (split; [exact Hs|split; [exact Ht|]]); cbn; unfold is_u16 in *; lia.
Qed.
Lemma coarse_ticks_range secs : 1 <= coarse_ticks secs <= 65535.
Proof using Type.
  unfold coarse_ticks. assert (0 <= u32 (secs + DHCP_COARSE_TIMER_SECS / 2) / DHCP_COARSE_TIMER_SECS) as Hp.
  { apply Z.div_pos; [apply Z.mod_pos_bound; done|done]. }
  destruct (Z.ltb_spec 0xffff (u32 (secs + DHCP_COARSE_TIMER_SECS / 2) / DHCP_COARSE_TIMER_SECS)); [cbn; lia|].
  destruct (Z.eqb_spec (u32 (secs + DHCP_COARSE_TIMER_SECS / 2) / DHCP_COARSE_TIMER_SECS) 0); lia.
Qed.
Lemma lease_timers_typed d : is_u16 (t1_timeout d) -> is_u16 (t2_timeout d) -> is_u16 (lease_timers d).1 /\ is_u16 (lease_timers d).2.
Proof using Type.
  intros H1 H2. unfold lease_timers, is_u16 in *. pose proof (coarse_ticks_range (offered_t1_renew d)). pose proof (coarse_ticks_range (offered_t2_rebind d)).
  destruct (negb (offered_t1_renew d =? _)), (negb (offered_t2_rebind d =? _)); cbn [fst snd]; (split; [destruct (_ && _)|]; lia).
Qed.
Lemma obeys_typed g d d' : (forall x, machine_typed x -> machine_typed (g x)) -> obeys g d d' -> typed d -> typed d'.
Proof using Type.
  intros Hg (Em & Ht & Hp) (Hm & H1 & H2 & H3). split; [rewrite Em; by apply Hg|]. destruct Ht as [[-> ->]|(x & X1 & X2 & E)]; [split; [done|split; auto]|].
  destruct (lease_timers_typed x) as [L1 L2]; [by rewrite X1|by rewrite X2|]. rewrite <- E in L1, L2. split; [exact L1|split; [exact L2|auto]].
Qed.
Lemma moves_typed s netif (R : dhcp -> dhcp -> Prop) s' : (forall d d', R d d' -> typed d -> typed d') -> moves s netif R s' -> all_typed s -> all_typed s'.
Proof using Type.
  intros HR (_ & a & d & d' & _ & Hd & Hc & Hr) Ht. unfold all_typed. rewrite Hc. apply map_Forall_insert_2; [|exact Ht]. apply (HR d d' Hr). exact (Ht a d Hd).
Qed.
End client.
