(* ===== verification/DhcpLife.v ===== *)
(** * The life of a DHCP client: theorems about the calls of
    [lwip/core/dhcp.c] from outside, and how they follow the machine of
    [DhcpState]. *)
From S2P Require Import Prelude Cobs Uart Comm Message Pbuf PbufChain PbufCopy PbufTrim InetChksum IpHdr IpAddr.
From S2P Require Import Linked RawPcb Etharp EtharpTable EtharpPackets EtharpInput Netif Ip IpOutput IpInput Icmp IcmpEcho Udp UdpPorts UdpInput UdpOutput.
From S2P Require Import Dns DnsNames DnsRecv DnsSend DnsTable Dhcp DhcpSend DhcpReply DhcpState.
From stdpp Require Import list gmap.
#[local] Open Scope Z_scope.

(** ** The machine alone *)

(** A client that wants something has a time to wait, so that the fine timer
    calls it again; the tries of a renewal, which are not bounded, wrap. *)
Definition awake (x : machine) : Prop :=
  In (m_state x) [DHCP_OFF; DHCP_BOUND] \/ 1 <= m_wait x \/ m_state x = DHCP_RENEWING /\ m_tries x = 0.

Lemma fine_ticks_positive m : 1 <= m <= 65000 -> 1 <= fine_ticks m.
Proof.
  intros Hm. unfold fine_ticks, DHCP_FINE_MSECS. rewrite (u16_small m) by (unfold is_u16; lia). rewrite u16_small by (unfold is_u16; Z.div_mod_to_equations; lia).
  Z.div_mod_to_equations. lia.
Qed.
Lemma discover_range k : is_byte k -> 1 <= discover_msecs k <= 65000.
Proof.
  intros Hk. unfold discover_msecs, is_byte in *. destruct (Z.ltb_spec k 6); [|lia]. rewrite Z.shiftl_mul_pow2 by lia.
  assert (2 ^ k <= 2 ^ 5) by (apply Z.pow_le_mono_r; lia). pose proof (Z.pow_pos_nonneg 2 k ltac:(lia) ltac:(lia)). change (2 ^ 5) with 32 in *. lia.
Qed.
Lemma enter_awake st msecs x : (forall k, is_byte k -> k = u8 ((if st =? m_state x then m_tries x else 0) + 1) -> 1 <= msecs k <= 65000) -> awake (enter st msecs x).
Proof. intros Hm. right. left. unfold enter. cbn [m_wait]. apply fine_ticks_positive, Hm; [apply u8_range|done]. Qed.
Lemma discover_awake x : awake (discover x).
Proof. apply enter_awake. intros k Hk _. by apply discover_range. Qed.
(** Tries that are bounded do not wrap. *)
Lemma few_awake st msecs x n : 0 <= m_tries x <= n -> n < 255 -> (forall k, 1 <= k <= n + 1 -> 1 <= msecs k <= 65000) -> awake (enter st msecs x).
Proof.
  intros Ht Hn Hm. apply enter_awake. intros k _ ->. apply Hm. unfold u8. destruct (st =? m_state x); rewrite Z.mod_small; lia.
Qed.
Lemma rebind_range k : 1 <= k <= 9 -> 1 <= rebind_msecs k <= 65000.
Proof. intros Hk. unfold rebind_msecs. rewrite (proj2 (Z.ltb_lt k 10)) by lia. lia. Qed.
Lemma renew_awake x : is_byte (m_tries x) -> awake (enter DHCP_RENEWING renew_msecs x).
Proof.
  intros Ht. destruct (decide (u8 ((if DHCP_RENEWING =? m_state x then m_tries x else 0) + 1) = 0)) as [E|Hne]; [right; right; split; [done|exact E]|].
  apply enter_awake. intros k Hk ->. unfold renew_msecs, is_byte in *. destruct (Z.ltb_spec (u8 ((if DHCP_RENEWING =? m_state x then m_tries x else 0) + 1)) 10); lia.
Qed.
Lemma timeout_awake x : machine_typed x -> awake (on_timeout x).
Proof.
  intros (Hs & Ht & _). unfold on_timeout, abandon. repeat match goal with |- awake (if ?b then _ else _) => destruct b eqn:? end;
    try apply discover_awake; try (apply enter_awake; intros k Hk _; by apply discover_range); try (by apply renew_awake).
  - by apply enter_awake.
  - left. unfold turn. destruct (DHCP_BOUND =? m_state x) eqn:E; [apply Z.eqb_eq in E; rewrite <- E|]; cbn; tauto.
  - apply (few_awake _ _ _ 8); [unfold is_byte in *; lia|done|]. intros k Hk. apply rebind_range. lia.
  - apply (few_awake _ _ _ 1); [unfold is_byte, REBOOT_TRIES in *; lia|done|]. intros k Hk. apply rebind_range. lia.
  - left. unfold client_states in Hs. cbn in Hs. rewrite orb_false_iff in *. rewrite !Z.eqb_neq in *.
    destruct Hs as [E|[E|[E|[E|[E|[E|[E|[E|[E|[]]]]]]]]]]; rewrite <- E in *; cbn; try tauto; exfalso; tauto.
Qed.
Lemma tick_awake x : machine_typed x -> awake x -> awake (on_tick x).
Proof.
  intros Hx Ha. unfold on_tick. destruct (Z.ltb_spec 1 (m_wait x)); [right; left; cbn; lia|]. destruct (m_wait x =? 1); [|done].
  apply timeout_awake. destruct Hx as (? & ? & _). by split; [|split].
Qed.
Lemma reply_awake t x : machine_typed x -> awake x -> awake (on_reply true t x).
Proof.
  intros (Hs & Ht & _) Ha. unfold on_reply, take_offer. repeat match goal with |- awake (if ?b then _ else _) => destruct b eqn:? end; try done; try apply discover_awake.
  - by apply enter_awake.
  - left. unfold turn. destruct (DHCP_BOUND =? m_state x) eqn:E; [apply Z.eqb_eq in E; rewrite <- E|]; cbn; tauto.
  - apply enter_awake. intros k Hk _. by apply discover_range.
Qed.
(** The ticks until the time is over. *)
Lemma ticks_reach n : forall x, m_wait x = Z.of_nat (S n) -> Nat.iter (S n) on_tick x = on_timeout (Machine (m_state x) (m_tries x) 0).
Proof.
  induction n as [|n IH]; intros x Hx.
  - change (Nat.iter 1 on_tick x) with (on_tick x). unfold on_tick. rewrite Hx. done.
  - rewrite Nat.iter_succ_r. assert (on_tick x = Machine (m_state x) (m_tries x) (Z.of_nat (S n))) as ->.
    { unfold on_tick. rewrite (proj2 (Z.ltb_lt 1 (m_wait x))) by lia. f_equal. lia. }
    by rewrite IH.
Qed.

Section life.
Context `{Os} {F G K X : Type}.
Abbreviation world := (udps G * (dns K * (dhcp_vars * X)))%type.
Abbreviation state := (net (stack (raws F) world)).
Implicit Type s : state.
Implicit Type d : dhcp.
Context (output : state -> Z -> Z -> Z -> result (Z * state)) (link : world -> store -> Z -> Z * store * world)
        (igmp_report_groups tcp_abort : state -> Z -> result state) (queue_malloc : stack (raws F) world -> bool * stack (raws F) world)
        (memp_malloc : gmap Z (udp_pcb G) -> option Z) (mem_malloc : gmap Z dhcp -> option Z)
        (system_station_got_ip_set : X -> Z -> Z -> Z -> X) (Hout : outsiders output link igmp_report_groups tcp_abort).

Abbreviation typed_after := (fun s' => all_typed s').
Lemma typed_kept s s' : kept s s' -> all_typed s -> all_typed s'.
Proof using Type. intros Hk Ht. destruct (kept_eq _ _ Hk) as [_ Ec]. unfold all_typed. by rewrite Ec. Qed.
Lemma typed_obeys s netif g s' : (forall x, machine_typed x -> machine_typed (g x)) -> moves s netif (obeys g) s' -> all_typed s -> all_typed s'.
Proof using Type. intros Hg. apply moves_typed. intros d d'. by apply obeys_typed. Qed.
Lemma typed_controls s netif g s' : (forall x, machine_typed x -> machine_typed (g x)) -> moves s netif (controls g) s' -> all_typed s -> all_typed s'.
Proof using Type. intros Hg Hm. apply (typed_obeys s netif g); [done|]. eapply moves_weaken; [exact Hm|apply controls_obeys]. Qed.

Lemma run_typed s netif r : all_typed s -> yields (run output r s netif) (fun x => all_typed x.2).
Proof using Hout.
  intros Ht. eapply yields_weaken; [by eapply run_enters|]. intros x Hx. eapply (typed_controls s netif); [|exact Hx|exact Ht].
  intros y _. apply enter_typed. destruct r; cbn; tauto.
Qed.
Lemma release_typed s netif : all_typed s -> yields (dhcp_release output tcp_abort s netif) (fun x => all_typed x.2).
Proof using Hout.
  intros Ht. destruct (client_of s netif) as [a|] eqn:Ea.
  2: { unfold dhcp_release. rewrite Ea. apply yields_fault. }
  destruct (Z.eqb_spec a 0) as [->|Hne]; [unfold dhcp_release; rewrite Ea; by apply yields_ok|].
  eapply yields_weaken; [eapply release_enters; [exact Hout|by apply (client_of_yields s netif)|exact Hne]|]. intros x Hx.
  eapply (typed_controls s netif); [|exact Hx|exact Ht]. intros y _. apply enter_typed. cbn; tauto.
Qed.
Lemma fine_typed s netif a : pointers s !! netif = Some a -> all_typed s ->
  yields (fine_step output link igmp_report_groups tcp_abort queue_malloc system_station_got_ip_set s netif a) (fun s' => all_typed s').
Proof using Hout.
  intros Ha Ht. eapply yields_weaken; [by eapply tick_obeys|]. intros s' Hs. by eapply (typed_obeys s netif on_tick); [apply tick_typed|exact Hs|].
Qed.

(** The two long timers count down before anything else happens. *)
Lemma coarse_typed s netif a : pointers s !! netif = Some a -> all_typed s -> yields (coarse_step output s netif a) (fun s' => all_typed s').
Proof using Hout.
  intros Ha Ht. unfold coarse_step. eapply yields_bind; [apply dhcp_at_yields|]. intros d Hd.
  assert (forall d', machine_of d' = machine_of d -> is_u16 (t1_timeout d') -> is_u16 (t2_timeout d') -> p_out d' = p_out d -> all_typed (put_dhcp s a d')) as Hput.
  { intros d' Em H1 H2 Hp. apply map_Forall_insert_2; [|exact Ht]. destruct (Ht a d Hd) as (Hm & _ & _ & Hp'). split; [by rewrite Em|]. by rewrite Hp. }
  destruct (Ht a d Hd) as (_ & H1 & H2 & _).
  assert (forall s1, all_typed s1 -> yields (dhcp_t2_timeout output s1 netif) (fun s' => all_typed s')) as Ht2.
  { intros s1 Hs1. unfold dhcp_t2_timeout. apply (yields_bind _ _ _ _ (yields_any _)). intros a1 _. apply (yields_bind _ _ _ _ (yields_any _)). intros d1 _.
    destruct (leased d1); [|by apply yields_ok]. eapply yields_bind; [by apply (run_typed s1 netif Rebind)|]. intros [r s2] Hs2. by apply yields_ok. }
  assert (forall s1, all_typed s1 -> yields (dhcp_t1_timeout output s1 netif) (fun s' => all_typed s')) as Ht1.
  { intros s1 Hs1. unfold dhcp_t1_timeout. apply (yields_bind _ _ _ _ (yields_any _)). intros a1 _. apply (yields_bind _ _ _ _ (yields_any _)). intros d1 _.
    destruct (leased d1); [|by apply yields_ok]. eapply yields_bind; [by apply (run_typed s1 netif Renew)|]. intros [r s2] Hs2. by apply yields_ok. }
  destruct (t2_timeout d =? 1); [apply Ht2, Hput; done || apply u16_range|].
  assert (all_typed (put_dhcp (put_dhcp s a (set_timeouts d (t1_timeout d) (u16 (t2_timeout d - 1)))) a
    (set_timeouts (set_timeouts d (t1_timeout d) (u16 (t2_timeout d - 1))) (u16 (t1_timeout d - 1)) (u16 (t2_timeout d - 1))))) as H12
    by (rewrite put_dhcp_twice; apply Hput; done || apply u16_range).
  cbn [t1_timeout t2_timeout set_timeouts] in *. destruct (t1_timeout d =? 1); [by apply Ht1|by apply yields_ok].
Qed.

(** The rounds of a timer over the interfaces. *)
Lemma loop_typed (step : state -> Z -> Z -> result state) : (forall s netif a, pointers s !! netif = Some a -> all_typed s -> yields (step s netif a) (fun s' => all_typed s')) ->
  forall fuel s netif, all_typed s -> yields (clients_loop step fuel s netif) (fun s' => all_typed s').
Proof using Type.
  intros Hstep. induction fuel as [|fuel IH]; intros s netif Ht; cbn [clients_loop]; [apply yields_fault|]. destruct (netif =? 0); [by apply yields_ok|].
  eapply yields_bind; [apply client_of_yields|]. intros a Ha. apply (yields_bind _ _ (fun s' => all_typed s')).
  - destruct (negb (a =? 0)); [by apply Hstep|by apply yields_ok].
  - intros s' Hs'. apply (yields_bind _ _ _ _ (yields_any _)). intros n _. by apply IH.
Qed.

(** ** Replies *)

(** Parsing writes only the values of the options. *)
Lemma got_mem v i x : yields (got_option v i x) (fun v' => dhcp_mem v' = dhcp_mem v).
Proof using Type. unfold got_option. do 2 (apply (yields_bind _ _ _ _ (yields_any _)); intros ? _). by apply yields_ok. Qed.
Lemma decode_mem fuel : forall m q buf n i off v, yields (decode_loop fuel m q buf n i off v) (fun v' => dhcp_mem v' = dhcp_mem v).
Proof using Type.
  induction fuel as [|fuel IH]; intros m q buf n i off v; cbn [decode_loop]; [apply yields_fault|].
  apply (yields_bind _ _ _ _ (yields_any _)). intros [k b] _. apply (yields_bind _ _ _ _ (yields_any _)). intros w _. destruct (4 <? n).
  - eapply yields_bind; [apply got_mem|]. intros v' E. rewrite <- E. apply IH.
  - apply (yields_bind _ _ _ _ (yields_any _)). intros x _. apply got_mem.
Qed.
Lemma options_mem fuel : forall m q off max v, yields (options_loop fuel m q off max v) (fun v' => dhcp_mem v' = dhcp_mem v).
Proof using Type.
  induction fuel as [|fuel IH]; intros m q off max v; cbn [options_loop]; [apply yields_fault|].
  do 3 (apply (yields_bind _ _ _ _ (yields_any _)); intros ? _). destruct (_ || _); [by apply yields_ok|]. apply (yields_bind _ _ _ _ (yields_any _)). intros n _.
  destruct (decode_as _ _) as [dl di]. apply (yields_bind _ _ (fun v' => dhcp_mem v' = dhcp_mem v)).
  - destruct (0 <? dl); [apply decode_mem|by apply yields_ok].
  - intros v' E. rewrite <- E. repeat case_match; try apply IH; by apply yields_ok.
Qed.
Lemma areas_mem fuel : forall m p i max pf ps v, yields (areas_loop fuel m p i max pf ps v) (fun r => dhcp_mem r.2 = dhcp_mem v).
Proof using Type.
  induction fuel as [|fuel IH]; intros m p i max pf ps v; cbn [areas_loop]; [apply yields_fault|].
  apply (yields_bind _ _ _ _ (yields_any _)). intros [[q off] mx] _. destruct (q =? 0); [by apply yields_ok|].
  eapply yields_bind; [apply options_mem|]. intros v1 E1. apply (yields_bind _ _ _ _ (yields_any _)). intros given _.
  apply (yields_bind _ _ (fun r => dhcp_mem r.1.1 = dhcp_mem v)).
  - destruct given; [|by apply yields_ok]. apply (yields_bind _ _ _ _ (yields_any _)). intros k _. unfold clear_option. rewrite rbind_assoc.
    apply (yields_bind _ _ _ _ (yields_any _)). intros g _. by apply yields_ok.
  - intros [[v2 pf'] ps'] E2. cbn [fst] in E2. rewrite <- E2. destruct pf'; [apply IH|]. destruct ps'; [apply IH|by apply yields_ok].
Qed.
Lemma parse_yields areas m d v p : yields (dhcp_parse_reply areas m d v p) (fun r => (r.1.2 = d \/ exists x, r.1.2 = set_msg_in d x) /\ dhcp_mem r.2 = dhcp_mem v).
Proof using Type.
  unfold dhcp_parse_reply. apply (yields_bind _ _ _ _ (yields_any _)). intros c _. destruct (len c <? DHCP_SNAME_OFS); [apply yields_ok; by split; [left|]|].
  eapply yields_bind; [apply areas_mem|]. intros [err v'] E. apply yields_ok. cbn in *. split; [right; by eexists|done].
Qed.

(** The control state and the long timers are the same. *)
Definition same_control d d' : Prop := machine_of d' = machine_of d /\ t1_timeout d' = t1_timeout d /\ t2_timeout d' = t2_timeout d /\ p_out d' = p_out d.
Lemma typed_same s a d d' : clients s !! a = Some d -> same_control d d' -> all_typed s -> all_typed (put_dhcp s a d').
Proof using Type.
  intros Hd (Em & E1 & E2 & Ep) Ht. apply map_Forall_insert_2; [|exact Ht]. destruct (Ht a d Hd) as (? & ? & ? & ?). unfold typed. by rewrite Em, E1, E2, Ep.
Qed.
Lemma upd_typed s a f : (forall d, same_control d (f d)) -> all_typed s -> yields (upd_dhcp s a f) (fun s' => all_typed s').
Proof using Type. intros Hf Ht. unfold upd_dhcp. eapply yields_bind; [apply dhcp_at_yields|]. intros d Hd. apply yields_ok. by apply (typed_same s a d). Qed.

Lemma recv_typed s netif p : all_typed s ->
  yields (dhcp_recv output link igmp_report_groups tcp_abort queue_malloc system_station_got_ip_set s netif p) (fun s' => all_typed s').
Proof using Hout.
  intros Ht. unfold dhcp_recv. apply (yields_bind _ _ _ _ (yields_any _)). intros n _. set (a := nif_dhcp n). apply (yields_bind _ _ _ _ (yields_any _)). intros c _.
  cbv zeta. assert (forall s1, all_typed s1 -> yields (let! s := upd_dhcp s1 a (fun d => set_msg_in d (0, 0)) in free_packet s p) (fun s' => all_typed s')) as Hfin.
  { intros s1 H1. eapply yields_bind; [by apply upd_typed|]. intros s2 H2. eapply yields_weaken; [by apply (free_keeps s2)|]. intros s3 Hk. by eapply typed_kept. }
  destruct (_ <? _); [by apply Hfin|]. do 2 (apply (yields_bind _ _ _ _ (yields_any _)); intros ? _). destruct (negb _); [by apply Hfin|].
  apply (yields_bind _ _ _ _ (yields_any _)). intros same _. destruct (negb _); [by apply Hfin|]. eapply yields_bind; [apply dhcp_at_yields|]. intros d Hd.
  do 2 (apply (yields_bind _ _ _ _ (yields_any _)); intros ? _). destruct (negb _); [by apply Hfin|]. eapply yields_bind; [apply parse_yields|]. intros [[err d'] v] [Hd' Ev].
  cbn [fst snd] in *. set (s1 := put_dhcp (set_vars s v) a d'). assert (all_typed s1) as H1.
  { assert (clients (set_vars s v) = clients s) as Ec by exact Ev. apply (typed_same (set_vars s v) a d); [by rewrite Ec|by destruct Hd' as [->|[x ->]]|]. unfold all_typed. by rewrite Ec. }
  clearbody s1. destruct (negb _); [by apply Hfin|]. apply (yields_bind _ _ _ _ (yields_any _)). intros given _. destruct (negb _); [by apply Hfin|].
  apply (yields_bind _ _ _ _ (yields_any _)). intros t _. apply (yields_bind _ _ (fun s' => all_typed s')); [|exact Hfin].
  assert (exists g, yields (option_given (vars_of s1) DHCP_OPTION_IDX_SERVER_ID) (fun x => x = g)) as [g Hg].
  { destruct (option_given (vars_of s1) DHCP_OPTION_IDX_SERVER_ID) as [g|]; [exists g; by apply yields_ok|exists true; apply yields_fault]. }
  eapply yields_weaken; [by apply reply_obeys|]. intros s2 Hs2. by eapply (typed_obeys s1 netif); [apply (reply_typed g)|exact Hs2|].
Qed.

(** ** The other calls *)
Lemma then_typed {A} s (x : result A) (st : A -> state) : yields x (fun r => all_typed (st r)) -> yields (let! r := x in Ok (st r)) (fun s' => all_typed s').
Proof using Type. intros Hx. eapply yields_bind; [exact Hx|]. intros r Hr. by apply yields_ok. Qed.
Lemma call_typed s netif r : all_typed s -> yields (let! (_, s) := run output r s netif in Ok s) (fun s' => all_typed s').
Proof using Hout. intros Ht. eapply yields_bind; [by apply (run_typed s netif r)|]. intros [e s'] Hs. by apply yields_ok. Qed.
Lemma arp_typed s netif addr : all_typed s -> yields (dhcp_arp_reply output s netif addr) (fun s' => all_typed s').
Proof using Hout.
  intros Ht. unfold dhcp_arp_reply. destruct (netif =? 0); [by apply yields_ok|]. apply (yields_bind _ _ _ _ (yields_any _)). intros a _. destruct (a =? 0); [by apply yields_ok|].
  apply (yields_bind _ _ _ _ (yields_any _)). intros d _. destruct (_ && _); [|by apply yields_ok]. by apply (call_typed s netif Decline).
Qed.
Lemma restart_typed s a : all_typed s -> yields (upd_dhcp s a (fun d => set_progress d (dhcp_state d) 0 (request_timeout d))) (fun s' => all_typed s').
Proof using Type.
  intros Ht. unfold upd_dhcp. eapply yields_bind; [apply dhcp_at_yields|]. intros d Hd. apply yields_ok. apply map_Forall_insert_2; [|exact Ht].
  destruct (Ht a d Hd) as ((? & _ & ?) & ?). split; [split; [done|split; [done|done]]|done].
Qed.
Lemma changed_typed s netif : all_typed s -> yields (dhcp_network_changed output s netif) (fun s' => all_typed s').
Proof using Hout.
  intros Ht. unfold dhcp_network_changed. apply (yields_bind _ _ _ _ (yields_any _)). intros a _. destruct (a =? 0); [by apply yields_ok|].
  apply (yields_bind _ _ _ _ (yields_any _)). intros d _. destruct (_ || _).
  - eapply yields_bind; [by apply (set_down_keeps s)|]. intros s1 Hs1. eapply yields_bind; [apply restart_typed; by apply (typed_kept s)|]. intros s2 Hs2.
    by apply (call_typed s2 netif Reboot).
  - destruct (dhcp_state d =? DHCP_OFF); [by apply yields_ok|]. eapply yields_bind; [by apply restart_typed|]. intros s2 Hs2. by apply (call_typed s2 netif Discover).
Qed.

(** What concerns interfaces and blocks alone. *)
Lemma same_clients s s' : clients s' = clients s -> all_typed s -> all_typed s'.
Proof using Type. unfold all_typed. by intros ->. Qed.
Lemma upd_nif_typed s a f : all_typed s -> yields (upd_nif s a f) (fun s' => all_typed s').
Proof using Type. intros Ht. unfold upd_nif. apply (yields_bind _ _ _ _ (yields_any _)). intros n _. by apply yields_ok. Qed.
Lemma unblock_typed s pcb : all_typed s ->
  yields (if negb (pcb =? 0) then let! u := udp_remove (blocks_of s) pcb in Ok (set_blocks s u) else Ok s) (fun s' => all_typed s').
Proof using Type. intros Ht. destruct (negb _); [|by apply yields_ok]. apply (yields_bind _ _ _ _ (yields_any _)). intros u _. by apply yields_ok. Qed.

Lemma stop_typed s netif : all_typed s -> yields (dhcp_stop s netif) (fun s' => all_typed s').
Proof using Type.
  intros Ht. unfold dhcp_stop. destruct (netif =? 0); [by apply yields_ok|]. apply (yields_bind _ _ _ _ (yields_any _)). intros a _.
  eapply yields_bind; [by apply upd_nif_typed|]. intros s1 H1. destruct (negb (a =? 0)); [|by apply yields_ok]. apply (yields_bind _ _ _ _ (yields_any _)). intros d _.
  eapply yields_bind; [by apply unblock_typed|]. intros s2 H2. unfold upd_dhcp. eapply yields_bind; [apply dhcp_at_yields|]. intros d2 Hd2. apply yields_ok.
  apply map_Forall_insert_2; [|exact H2]. destruct (H2 a d2 Hd2) as (Hm & Hr). split; [rewrite turned; apply turn_typed; [cbn; tauto|exact Hm]|].
  unfold dhcp_set_state. by destruct (negb _).
Qed.
Lemma zero_typed p : typed (set_dhcp_pcb zero_dhcp p).
Proof using Type. split; [split; [by left|split; by apply (bool_decide_unpack _)]|]. split; [by apply (bool_decide_unpack _)|split; [by apply (bool_decide_unpack _)|done]]. Qed.
Lemma put_typed s a d : typed d -> all_typed s -> all_typed (put_dhcp s a d).
Proof using Type. intros Hd Ht. by apply map_Forall_insert_2. Qed.

Lemma start_typed s netif handler : all_typed s -> yields (dhcp_start output memp_malloc mem_malloc s netif handler) (fun r => all_typed r.2).
Proof using Hout.
  intros Ht. unfold dhcp_start. destruct (netif =? 0); [by apply yields_ok|]. eapply yields_bind; [by apply upd_nif_typed|]. intros s1 H1.
  apply (yields_bind _ _ _ _ (yields_any _)). intros n _. destruct (negb _); [by apply yields_ok|]. destruct (_ <? _); [by apply yields_ok|].
  apply (yields_bind _ _ (fun r => all_typed r.2)).
  { destruct (nif_dhcp n =? 0).
    - destruct (mem_malloc _); [|by apply yields_ok]. eapply yields_bind; [by apply upd_nif_typed|]. intros s2 H2. by apply yields_ok.
    - apply (yields_bind _ _ _ _ (yields_any _)). intros d _. eapply yields_bind; [by apply unblock_typed|]. intros s2 H2. by apply yields_ok. }
  intros [a s2] H2. cbn [snd] in H2. destruct (a =? 0); [by apply yields_ok|]. destruct (udp_new _ _) as [pcb u].
  pose proof (put_typed (set_blocks s2 u) a (set_dhcp_pcb zero_dhcp pcb) (zero_typed pcb) H2) as H3. set (s3 := put_dhcp _ _ _) in *. clearbody s3.
  destruct (pcb =? 0); [by apply yields_ok|]. apply (yields_bind _ _ _ _ (yields_any _)). intros u1 _. apply (yields_bind _ _ _ _ (yields_any _)). intros [e u2] _.
  apply (yields_bind _ _ _ _ (yields_any _)). intros u3 _. eapply yields_bind; [by apply (run_typed (set_blocks s3 u3) netif Discover)|]. intros [res s4] H4. cbn [snd] in H4.
  destruct (negb _).
  - eapply yields_bind; [by apply stop_typed|]. intros s5 H5. by apply yields_ok.
  - eapply yields_bind; [by apply upd_nif_typed|]. intros s5 H5. by apply yields_ok.
Qed.

Lemma inform_typed s netif : all_typed s -> yields (dhcp_inform output memp_malloc s netif) (fun s' => all_typed s').
Proof using Hout.
  intros Ht. unfold dhcp_inform. destruct (netif =? 0); [by apply yields_ok|]. apply (yields_bind _ _ _ _ (yields_any _)). intros n _.
  apply (yields_bind _ _ _ _ (yields_any _)). intros there _. apply (yields_bind _ _ (fun r => all_typed r.2)).
  { destruct (negb _); [by apply yields_ok|]. destruct (udp_new _ _) as [pcb u]. destruct (pcb =? 0); [by apply yields_ok|].
    apply (yields_bind _ _ _ _ (yields_any _)). intros u' _. by apply yields_ok. }
  intros [[pcb d] s1] H1. cbn [snd] in H1. destruct (pcb =? 0); [by apply yields_ok|]. eapply yields_bind; [apply create_keeps|]. intros [[res d1] s2] (Hk & _). cbn [fst snd] in Hk.
  pose proof (typed_kept _ _ Hk H1) as H2. apply (yields_bind _ _ (fun r => all_typed r.2)).
  { destruct (res =? ERR_OK); [|by apply yields_ok]. eapply yields_bind; [apply finish_keeps|].
    { unfold max_msg_size. repeat constructor; auto using option_core, short_core. }
    intros [d2 s3] [Hk3 _]. cbn [fst snd] in Hk3. eapply yields_bind; [by eapply (sendto_keeps output link igmp_report_groups tcp_abort Hout s3)|]. intros [e s4] Hk4. cbn [snd] in Hk4.
    eapply yields_weaken; [apply delete_keeps|]. intros [d5 s5] (Hk5 & _). cbn [snd] in *. eapply typed_kept; [exact Hk5|]. eapply typed_kept; [exact Hk4|]. by eapply typed_kept. }
  intros [d2 s3] H3. cbn [snd] in H3. by apply unblock_typed.
Qed.

Lemma struct_typed s netif a : all_typed s -> yields (dhcp_set_struct s netif a) (fun s' => all_typed s').
Proof using Type. intros Ht. unfold dhcp_set_struct. apply upd_nif_typed. apply put_typed; [apply (zero_typed 0)|done]. Qed.
Lemma cleanup_typed s netif : all_typed s -> yields (dhcp_cleanup s netif) (fun s' => all_typed s').
Proof using Type.
  intros Ht. unfold dhcp_cleanup. apply (yields_bind _ _ _ _ (yields_any _)). intros a _. destruct (negb _); [|by apply yields_ok].
  apply (yields_bind _ _ _ _ (yields_any _)). intros d _. apply upd_nif_typed. by apply map_Forall_delete.
Qed.

(** A call from outside, or a step of another part that leaves the clients
    alone. *)
Inductive call : state -> state -> Prop :=
| call_fine s s' : dhcp_fine_tmr output link igmp_report_groups tcp_abort queue_malloc system_station_got_ip_set s = Ok s' -> call s s'
| call_coarse s s' : dhcp_coarse_tmr output s = Ok s' -> call s s'
| call_recv s s' netif p : dhcp_recv output link igmp_report_groups tcp_abort queue_malloc system_station_got_ip_set s netif p = Ok s' -> call s s'
| call_arp s s' netif addr : dhcp_arp_reply output s netif addr = Ok s' -> call s s'
| call_changed s s' netif : dhcp_network_changed output s netif = Ok s' -> call s s'
| call_start s s' netif handler r : dhcp_start output memp_malloc mem_malloc s netif handler = Ok (r, s') -> call s s'
| call_stop s s' netif : dhcp_stop s netif = Ok s' -> call s s'
| call_inform s s' netif : dhcp_inform output memp_malloc s netif = Ok s' -> call s s'
| call_renew s s' netif r : dhcp_renew output s netif = Ok (r, s') -> call s s'
| call_release s s' netif r : dhcp_release output tcp_abort s netif = Ok (r, s') -> call s s'
| call_struct s s' netif a : dhcp_set_struct s netif a = Ok s' -> call s s'
| call_cleanup s s' netif : dhcp_cleanup s netif = Ok s' -> call s s'
| call_other s s' : clients s' = clients s -> call s s'.

Lemma call_keeps_types s s' : call s s' -> all_typed s -> all_typed s'.
Proof using Hout.
  intros Hc Ht. destruct Hc as [s s' E|s s' E|s s' nif p E|s s' nif ad E|s s' nif E|s s' nif h r E|s s' nif E|s s' nif E|s s' nif r E|s s' nif r E|s s' nif a E|s s' nif E|s s' E].
  - exact (loop_typed _ (fun s netif a Ha H => fine_typed s netif a Ha H) _ _ _ Ht s' E).
  - exact (loop_typed _ (fun s netif a Ha H => coarse_typed s netif a Ha H) _ _ _ Ht s' E).
  - exact (recv_typed s nif p Ht s' E).
  - exact (arp_typed s nif ad Ht s' E).
  - exact (changed_typed s nif Ht s' E).
  - exact (start_typed s nif h Ht (r, s') E).
  - exact (stop_typed s nif Ht s' E).
  - exact (inform_typed s nif Ht s' E).
  - exact (run_typed s nif Renew Ht (r, s') E).
  - exact (release_typed s nif Ht (r, s') E).
  - exact (struct_typed s nif a Ht s' E).
  - exact (cleanup_typed s nif Ht s' E).
  - by apply (same_clients s).
Qed.

(** C19: the fields of the clients keep their types.  Whatever calls come in
    whatever order, with other parts of the stack in between that leave the
    clients alone, every client is in one of the nine states the client uses,
    its tries fit in 8 bits and its three timers in 16, and no message is
    left under construction. *)
Theorem dhcp_types s s' : all_typed s -> rtc call s s' -> all_typed s'.
Proof using Hout. intros Ht Hs. induction Hs as [|s1 s2 s3 Hc _ IH]; [done|]. apply IH. by apply (call_keeps_types s1). Qed.

(** ** The machine *)

(** C15: the client follows its machine.  Handling a timeout, a reply, the
    answer of a host with the address that is checked, and a tick of the fine
    timer each change only the client of the interface, and its state, tries
    and waiting time exactly as [on_timeout], [on_reply], [on_conflict] and
    [on_tick] say; the long timers go on, or are those of the lease that is
    bound. *)
Theorem dhcp_follows_machine s netif :
  yields (dhcp_timeout output link igmp_report_groups tcp_abort queue_malloc system_station_got_ip_set s netif) (moves s netif (obeys on_timeout)) /\
  (forall t given, option_given (vars_of s) DHCP_OPTION_IDX_SERVER_ID = Ok given ->
    yields (handle_reply output link igmp_report_groups tcp_abort queue_malloc system_station_got_ip_set s netif t) (moves s netif (obeys (on_reply given t)))) /\
  (forall a addr d, netif <> 0 -> a <> 0 -> pointers s !! netif = Some a -> clients s !! a = Some d -> yields (dhcp_arp_reply output s netif addr)
    (moves s netif (obeys (fun x => if (m_state x =? DHCP_CHECKING) && (addr =? offered_ip_addr d) then on_conflict x else x)))) /\
  (forall a, pointers s !! netif = Some a ->
    yields (fine_step output link igmp_report_groups tcp_abort queue_malloc system_station_got_ip_set s netif a) (moves s netif (obeys on_tick))).
Proof using Hout.
  split; [by apply timeout_obeys|]. split; [|split].
  - intros t given Eg. apply reply_obeys; [done|]. rewrite Eg. by apply yields_ok.
  - intros a addr d Hn Hne Ha Hd. by eapply conflict_obeys.
  - intros a Ha. by apply tick_obeys.
Qed.

(** [k] times the part of [dhcp_fine_tmr] that is for the client at [a] of the
    interface [netif], with steps in between that leave this client alone: the
    parts for other clients, and what else happens. *)
Inductive ticks (netif a : Z) : nat -> state -> state -> Prop :=
| ticks_none s : ticks netif a 0 s s
| ticks_own k s s1 s2 : fine_step output link igmp_report_groups tcp_abort queue_malloc system_station_got_ip_set s netif a = Ok s1 ->
    ticks netif a k s1 s2 -> ticks netif a (S k) s s2
| ticks_other k s s1 s2 : pointers s1 !! netif = pointers s !! netif -> clients s1 !! a = clients s !! a -> ticks netif a k s1 s2 -> ticks netif a k s s2.

Lemma ticks_machine netif a k s s' : ticks netif a k s s' -> forall d, pointers s !! netif = Some a -> clients s !! a = Some d ->
  exists d', clients s' !! a = Some d' /\ machine_of d' = Nat.iter k on_tick (machine_of d).
Proof using Hout.
  induction 1 as [s|k s s1 s2 E _ IH|k s s1 s2 Ep Ec _ IH]; intros d Ha Hd.
  - by exists d.
  - destruct (tick_obeys output link igmp_report_groups tcp_abort queue_malloc system_station_got_ip_set Hout s netif a Ha s1 E)
      as (Hp & a' & d0 & d1 & Ha' & Hd0 & Hc & Em & _).
    rewrite Ha in Ha'. injection Ha' as <-. rewrite Hd in Hd0. injection Hd0 as <-.
    destruct (IH d1) as (d' & Hd' & Em'); [by rewrite Hp|rewrite Hc; apply lookup_insert_eq|]. exists d'. split; [done|].
    by rewrite Em', Em, <- Nat.iter_succ_r.
  - apply IH; congruence.
Qed.
Lemma iter_tick x k : Z.of_nat k < m_wait x -> Nat.iter k on_tick x = Machine (m_state x) (m_tries x) (m_wait x - Z.of_nat k).
Proof using Type.
  induction k as [|k IH]; intros Hk; [destruct x; cbn; f_equal; lia|]. rewrite Nat.iter_succ, IH by lia. unfold on_tick. cbn [m_wait m_state m_tries].
  rewrite (proj2 (Z.ltb_lt 1 _)) by lia. f_equal. lia.
Qed.

(** C20: a client does not fall asleep.  A client that is neither off nor bound
    and has a time to wait has one again after a tick of the fine timer, after a
    reply that names its server, and after the conflict of an address.  When
    the time is [request_timeout] ticks, fewer ticks count it down and change
    nothing else, and with the last of them the client handles the timeout, as
    [on_timeout] says, whatever happens to other clients in between.  Two cases
    are excepted: an offer that does not name its server takes the time away
    and sends nothing (dhcp.c:1621, see [nameless_offer_stops]), and so does a
    renewal when the 8-bit number of its tries wraps to 0 (dhcp.c:1072, see
    [renewal_stops]), which [awake] allows. *)
Theorem dhcp_stays_awake s netif a d : netif <> 0 -> a <> 0 -> pointers s !! netif = Some a -> clients s !! a = Some d -> typed d -> awake (machine_of d) ->
  yields (fine_step output link igmp_report_groups tcp_abort queue_malloc system_station_got_ip_set s netif a) (moves s netif (fun _ d' => awake (machine_of d'))) /\
  (forall t, option_given (vars_of s) DHCP_OPTION_IDX_SERVER_ID = Ok true ->
    yields (handle_reply output link igmp_report_groups tcp_abort queue_malloc system_station_got_ip_set s netif t) (moves s netif (fun _ d' => awake (machine_of d')))) /\
  (forall addr, yields (dhcp_arp_reply output s netif addr) (moves s netif (fun _ d' => awake (machine_of d')))) /\
  (forall k s', ticks netif a k s s' -> 1 <= request_timeout d -> Z.of_nat k <= request_timeout d -> exists d', clients s' !! a = Some d' /\
    (dhcp_state d', tries d', request_timeout d') =
      if Z.of_nat k <? request_timeout d then (dhcp_state d, tries d, request_timeout d - Z.of_nat k)
      else let x := on_timeout (Machine (dhcp_state d) (tries d) 0) in (m_state x, m_tries x, m_wait x)).
Proof using Hout.
  intros Hn Hne Ha Hd (Ht & _) Haw.
  assert (forall g s', awake (g (machine_of d)) -> moves s netif (obeys g) s' -> moves s netif (fun _ d' => awake (machine_of d')) s') as Hto.
  { intros g s' Hg (Hp & a' & d0 & d' & Ha' & Hd0 & Hc & Em & _). split; [done|]. exists a', d0, d'. split; [done|]. split; [done|]. split; [done|].
    rewrite Ha in Ha'. injection Ha' as <-. rewrite Hd in Hd0. injection Hd0 as <-. by rewrite Em. }
  split; [|split; [|split]].
  - eapply yields_weaken; [by apply tick_obeys|]. intros s'. apply Hto. by apply tick_awake.
  - intros t Eg. eapply yields_weaken; [apply (reply_obeys _ _ _ _ _ _ Hout s netif t true); rewrite Eg; by apply yields_ok|]. intros s'. apply Hto. by apply reply_awake.
  - intros addr. eapply yields_weaken; [by eapply conflict_obeys|]. intros s'. apply Hto. destruct (_ && _); [|done]. by apply enter_awake.
  - intros k s' Hk H1 Hle. destruct (ticks_machine netif a k s s' Hk d Ha Hd) as (d' & Hd' & Em). exists d'. split; [done|].
    change (dhcp_state d') with (m_state (machine_of d')). change (tries d') with (m_tries (machine_of d')). change (request_timeout d') with (m_wait (machine_of d')).
    rewrite Em. destruct (Z.ltb_spec (Z.of_nat k) (request_timeout d)) as [Hlt|Hge].
    + by rewrite (iter_tick (machine_of d) k Hlt).
    + destruct k as [|k]; [lia|]. rewrite (ticks_reach k (machine_of d)) by (cbn; lia). done.
Qed.
End life.

(** ** The lease is bound *)
Section bind.
Context `{OsLaws} {F G K X : Type}.
Abbreviation world := (udps G * (dns K * (dhcp_vars * X)))%type.
Abbreviation state := (net (stack (raws F) world)).
Implicit Type s : state.
Implicit Type d : dhcp.
Context (output : state -> Z -> Z -> Z -> result (Z * state)) (link : world -> store -> Z -> Z * store * world)
        (igmp_report_groups tcp_abort : state -> Z -> result state) (system_station_got_ip_set : X -> Z -> Z -> Z -> X)
        (Hout : outsiders output link igmp_report_groups tcp_abort).

(** The interface with the addresses of a lease, and up. *)
Definition bound_nif (n : netif_struct) d : netif_struct :=
  let n := set_nif_gw (set_nif_netmask (set_nif_ip_addr n (offered_ip_addr d)) (lease_mask d)) (lease_gateway d) in
  if has_flag (nif_flags n) NETIF_FLAG_UP then n else set_nif_flags n (Z.lor (nif_flags n) NETIF_FLAG_UP).

Lemma set_up_ok s a n : link_keeps link -> Netif.quiet igmp_report_groups -> arp_ok s -> a <> 0 -> nifs (ifs (env s)) !! a = Some n -> mac (nif_hwaddr n) ->
  exists s', netif_set_up link igmp_report_groups s a = Ok s' /\ arp_ok s' /\
    ifs (env s') = with_nif (ifs (env s)) a (if has_flag (nif_flags n) NETIF_FLAG_UP then n else set_nif_flags n (Z.lor (nif_flags n) NETIF_FLAG_UP)).
Proof using Type*.
  intros Hk Hq Hs Ha En Hm. unfold netif_set_up, upd_nif. rewrite (nif_at_ok s a n) by done. cbn [rbind]. destruct (has_flag (nif_flags n) NETIF_FLAG_UP).
  - exists s. split; [done|]. split; [done|]. unfold with_nif. rewrite insert_id by done. by destruct (ifs (env s)).
  - cbn [rbind]. set (n1 := set_nif_flags n _). rewrite (nif_at_ok _ a n1) by (done || apply lookup_insert_eq). cbn [rbind].
    assert (arp_ok (put_nif s a n1)) as Hpa by by apply arp_ok_env. destruct (has_flag _ NETIF_FLAG_LINK_UP); [|by eexists].
    destruct (announce_ok igmp_report_groups igmp_report_groups link (put_nif s a n1) a n1 Hk Hq Hpa Ha ltac:(apply lookup_insert_eq) Hm) as (s' & E & Hi & Hs' & _).
    exists s'. split; [done|]. split; [done|]. by rewrite Hi.
Qed.

Lemma bind_ok s netif n a d l ll : aborts tcp_abort -> link_keeps link -> Netif.quiet igmp_report_groups -> arp_ok s ->
  netif <> 0 -> nifs (ifs (env s)) !! netif = Some n -> nif_dhcp n = a -> a <> 0 -> clients s !! a = Some d -> mac (nif_hwaddr n) ->
  active_list (tcps (env s)) l -> listen_list (tcps (env s)) ll ->
  exists s', dhcp_bind link igmp_report_groups tcp_abort system_station_got_ip_set s netif = Ok s' /\ arp_ok s' /\
    ifs (env s') = with_nif (ifs (env s)) netif (bound_nif n d) /\
    clients s' = <[a := dhcp_set_state (set_timeouts d (lease_timers d).1 (lease_timers d).2) DHCP_BOUND]> (clients s).
Proof using Type*.
  intros Hab Hk Hq Hs Hn En Ea Hne Hd Hm Hl Hll. unfold dhcp_bind. rewrite (proj2 (Z.eqb_neq netif 0)) by done. unfold client_of. rewrite (nif_at_ok s netif n) by done.
  cbn [rbind]. rewrite Ea, (proj2 (Z.eqb_neq a 0)) by done. assert (dhcp_at s a = Ok d) as -> by (unfold dhcp_at, cell; rewrite (proj2 (Z.eqb_neq a 0)) by done; change (dhcp_mem (vars_of s)) with (clients s); by rewrite Hd).
  cbn [rbind]. destruct (lease_timers d) as [t1 t2] eqn:Et. cbn [fst snd]. set (s1 := put_dhcp s a (set_timeouts d t1 t2)).
  assert (arp_ok s1) as Hs1 by (by apply arp_ok_env).
  destruct (set_ipaddr_ok tcp_abort s1 netif n l ll (Some (offered_ip_addr d)) Hab Hs1 Hn En Hl Hll) as (s2 & E2 & Hi2 & Hs2 & _). rewrite E2. cbn [rbind].
  pose proof (set_ipaddr_keeps output link igmp_report_groups tcp_abort Hout s1 s1 netif (Some (offered_ip_addr d)) ltac:(done) s2 E2) as Hk2.
  unfold netif_set_netmask, netif_set_gw, upd_nif at 1. rewrite (nif_at_ok s2 netif (set_nif_ip_addr n (offered_ip_addr d))) by (done || (rewrite Hi2; apply lookup_insert_eq)). cbn [rbind default id].
  set (n2 := set_nif_netmask _ _). set (s3 := put_nif s2 netif n2). set (s4 := set_client s3 _ _). unfold upd_nif at 1.
  rewrite (nif_at_ok s4 netif n2) by (done || apply lookup_insert_eq). cbn [rbind default id]. set (n3 := set_nif_gw n2 _). set (s5 := put_nif s4 netif n3).
  assert (ifs (env s5) = with_nif (ifs (env s)) netif n3) as Hi5.
  { change (ifs (env s5)) with (with_nif (with_nif (ifs (env s2)) netif n2) netif n3). rewrite Hi2. by rewrite !with_nif_twice. }
  assert (kept s1 s5) as Hk5.
  { destruct (kept_eq _ _ Hk2) as [Ep Ec]. unfold kept, memory. f_equal; [exact Ec|]. change (ifs (env s1)) with (ifs (env s)). rewrite Hi5. cbn. rewrite fmap_insert. apply insert_id. by rewrite lookup_fmap, En. }
  assert (arp_ok s5) as Hs5 by (apply (arp_ok_env _ s2); exact Hs2).
  destruct (set_up_ok s5 netif n3 Hk Hq Hs5 Hn ltac:(apply lookup_insert_eq) Hm) as (s6 & E6 & Hs6 & Hi6). rewrite E6. cbn [rbind].
  pose proof (set_up_keeps output link igmp_report_groups tcp_abort Hout s1 s5 netif Hk5 s6 E6) as Hk6. destruct (kept_eq _ _ Hk6) as [_ Ec6].
  assert (clients s6 = <[a := set_timeouts d t1 t2]> (clients s)) as Hc6 by exact Ec6.
  unfold upd_dhcp. assert (dhcp_at s6 a = Ok (set_timeouts d t1 t2)) as ->.
  { unfold dhcp_at, cell. rewrite (proj2 (Z.eqb_neq a 0)) by done. change (dhcp_mem (vars_of s6)) with (clients s6). by rewrite Hc6, lookup_insert_eq. }
  cbn [rbind]. eexists. split; [reflexivity|]. split; [by apply arp_ok_env|]. split.
  - change (ifs (env s6) = with_nif (ifs (env s)) netif (bound_nif n d)). rewrite Hi6, Hi5. by rewrite with_nif_twice.
  - change (<[a := dhcp_set_state (set_timeouts d t1 t2) DHCP_BOUND]> (clients s6) = <[a := dhcp_set_state (set_timeouts d t1 t2) DHCP_BOUND]> (clients s)).
    by rewrite Hc6, insert_insert_eq.
Qed.

(** The times of a lease in minutes, rounded, at least one. *)
Definition minutes (secs : Z) : Z := Z.max 1 (Z.min 65535 ((secs + 30) mod 4294967296 / 60)).
Lemma coarse_minutes secs : coarse_ticks secs = minutes secs.
Proof using Type.
  unfold coarse_ticks, minutes, u32. change (secs + DHCP_COARSE_TIMER_SECS / 2) with (secs + 30). change DHCP_COARSE_TIMER_SECS with 60.
  pose proof (Z.mod_pos_bound (secs + 30) 4294967296 ltac:(lia)) as Hm. pose proof (Z.div_pos _ 60 (proj1 Hm) ltac:(lia)) as Hp. cbv zeta.
  destruct (Z.ltb_spec 0xffff ((secs + 30) mod 4294967296 / 60)); [cbn [Z.eqb]; lia|]. destruct (Z.eqb_spec ((secs + 30) mod 4294967296 / 60) 0); lia.
Qed.
Lemma class_masks a : class_mask a = if a mod 256 <? 128 then address_of 255 0 0 0 else if a mod 256 <? 192 then address_of 255 255 0 0 else address_of 255 255 255 0.
Proof using Type.
  unfold class_mask, ip4_addr1. destruct (Z.leb_spec (a mod 256) 127), (Z.ltb_spec (a mod 256) 128); try lia; [reflexivity|].
  destruct (Z.leb_spec 192 (a mod 256)), (Z.ltb_spec (a mod 256) 192); try lia; reflexivity.
Qed.
(** A gateway that was not offered is on the network of the address. *)
Lemma gateway_near mask ip : In mask [address_of 255 0 0 0; address_of 255 255 0 0; address_of 255 255 255 0] ->
  Z.land (Z.lor (Z.land ip mask) (address_of 0 0 0 1)) mask = Z.land ip mask.
Proof using Type.
  intros Hm. rewrite Z.land_lor_distr_l, <- Z.land_assoc, Z.land_diag.
  assert (Z.land (address_of 0 0 0 1) mask = 0) as ->; [|apply Z.lor_0_r]. by destruct Hm as [<-|[<-|[<-|[]]]].
Qed.

(** C18: a lease is bound.  [dhcp_bind] gives the interface the address of the
    lease, its mask, or without one 255.0.0.0 when the first byte of the address
    is below 128, 255.255.0.0 when it is below 192 and 255.255.255.0 otherwise,
    and its gateway, or without one the host 1 of the network of the address,
    and sets it up.  The client is bound, and waits the times to renew and to
    rebind, in minutes, rounded to the nearest (in 32 bits), at least 1 and at
    most 65535; an infinite time leaves the timer as it was.  When rebinding does
    not come after renewing, renewing is off.  So of a limited lease renewing
    comes before rebinding or not at all, and a gateway that was not offered is
    on the network of the address.  Nothing else of the interface and of the
    client changes. *)
Theorem dhcp_bind_configures s netif n a d l ll : aborts tcp_abort -> link_keeps link -> Netif.quiet igmp_report_groups -> arp_ok s ->
  netif <> 0 -> nifs (ifs (env s)) !! netif = Some n -> nif_dhcp n = a -> a <> 0 -> clients s !! a = Some d -> mac (nif_hwaddr n) ->
  active_list (tcps (env s)) l -> listen_list (tcps (env s)) ll ->
  let ip := offered_ip_addr d in
  let mask := if subnet_mask_given d =? 0
    then (if ip mod 256 <? 128 then address_of 255 0 0 0 else if ip mod 256 <? 192 then address_of 255 255 0 0 else address_of 255 255 255 0)
    else offered_sn_mask d in
  let gw := if offered_gw_addr d =? 0 then Z.lor (Z.land ip mask) (address_of 0 0 0 1) else offered_gw_addr d in
  let minutes secs := Z.max 1 (Z.min 65535 ((secs + 30) mod 4294967296 / 60)) in
  let renew := if offered_t1_renew d =? 0xffffffff then t1_timeout d else minutes (offered_t1_renew d) in
  let t2 := if offered_t2_rebind d =? 0xffffffff then t2_timeout d else minutes (offered_t2_rebind d) in
  let t1 := if (t2 <=? renew) && (0 <? t2) then 0 else renew in
  (exists s', dhcp_bind link igmp_report_groups tcp_abort system_station_got_ip_set s netif = Ok s' /\ arp_ok s' /\
    (let n' := set_nif_gw (set_nif_netmask (set_nif_ip_addr n ip) mask) gw in
     ifs (env s') = with_nif (ifs (env s)) netif (if has_flag (nif_flags n) 1 then n' else set_nif_flags n' (Z.lor (nif_flags n) 1))) /\
    clients s' = <[a := dhcp_set_state (set_timeouts d t1 t2) 10]> (clients s)) /\
  (offered_t1_renew d <> 0xffffffff -> offered_t2_rebind d <> 0xffffffff -> 0 <= t1 < t2 /\ t2 <= 65535) /\
  (subnet_mask_given d = 0 -> offered_gw_addr d = 0 -> Z.land gw mask = Z.land ip mask).
Proof using Type*.
  intros Hab Hk Hq Hs Hn En Ea Hne Hd Hm Hl Hll ip mask gw minutes renew t2 t1.
  assert (lease_mask d = mask) as Emask by (unfold lease_mask, mask; rewrite class_masks; by destruct (subnet_mask_given d =? 0)).
  assert (lease_gateway d = gw) as Egw by (unfold lease_gateway; rewrite Emask; reflexivity).
  assert (lease_timers d = (t1, t2)) as Et.
  { unfold lease_timers. rewrite !coarse_minutes. unfold t1, t2, renew. by destruct (offered_t1_renew d =? _), (offered_t2_rebind d =? _). }
  split; [|split].
  - destruct (bind_ok s netif n a d l ll Hab Hk Hq Hs Hn En Ea Hne Hd Hm Hl Hll) as (s' & E & Hs' & Ei & Ec). exists s'. split; [exact E|]. split; [exact Hs'|].
    rewrite Et in Ec. split; [|exact Ec]. rewrite Ei. unfold bound_nif. rewrite Emask, Egw. reflexivity.
  - intros H1 H2. unfold t1, t2, renew. rewrite (proj2 (Z.eqb_neq _ _) H1), (proj2 (Z.eqb_neq _ _) H2).
    assert (forall secs, 1 <= minutes secs <= 65535) as Hr by (intros secs; unfold minutes; lia).
    pose proof (Hr (offered_t1_renew d)). pose proof (Hr (offered_t2_rebind d)). clearbody minutes.
    destruct ((minutes (offered_t2_rebind d) <=? minutes (offered_t1_renew d)) && (0 <? minutes (offered_t2_rebind d))) eqn:E; lia.
  - intros H1 H2. unfold gw. rewrite H2. cbn [Z.eqb]. apply gateway_near. unfold mask. rewrite H1. cbn [Z.eqb].
    destruct (ip mod 256 <? 128); [by left|]. destruct (ip mod 256 <? 192); [by right; left|by right; right; left].
Qed.
End bind.

(** ** Examples *)

Definition silent_link (x : udps Z * (dns Z * (dhcp_vars * list Z))) (m : store) (p : Z) : Z * store * (udps Z * (dns Z * (dhcp_vars * list Z))) := (ERR_OK, m, x).
Definition no_room (e : stack (raws Z) (udps Z * (dns Z * (dhcp_vars * list Z)))) : bool * stack (raws Z) (udps Z * (dns Z * (dhcp_vars * list Z))) := (false, e).
Definition report (x : list Z) (ip mask gw : Z) : list Z := x ++ [ip; mask; gw].
Lemma silent_outsiders : outsiders take_request silent_link nothing nothing.
Proof.
  constructor; try done.
  - intros s netif p dest. by apply yields_ok.
  - intros s a. by apply yields_ok.
  - intros s a. by apply yields_ok.
Qed.
Definition one_client (st : Z) : client_state := client_net (Store empty empty) (station_client st).
Lemma one_ready st : ready (one_client st) 1 (set_nif_dhcp station 900) (station_client st).
Proof. apply client_ready. intros a [x Hx]. discriminate Hx. Qed.
Lemma one_typed st : In st client_states -> all_typed (one_client st).
Proof.
  intros Hs. apply map_Forall_singleton. split; [split; [exact Hs|split; by apply (bool_decide_unpack _)]|]. repeat split; by apply (bool_decide_unpack _).
Qed.

Lemma dhcp_types_witness : let s := one_client DHCP_RENEWING in
  exists err s' d', dhcp_renew take_request s 1 = Ok (err, s') /\ clients s' !! 900 = Some d' /\ typed d'.
Proof.
  intros s. destruct (run_returns take_request s 1 (set_nif_dhcp station 900) (station_client DHCP_RENEWING) Renew take_request_lends (one_ready DHCP_RENEWING))
    as (err & s' & d' & E & _ & _ & _ & Em).
  assert (clients s' !! 900 = Some d') as Hd by (change (clients s') with (dhcp_mem (vars_of s')); rewrite Em; apply lookup_insert_eq).
  exists err, s', d'. split; [exact E|]. split; [exact Hd|].
  refine (dhcp_types take_request silent_link nothing nothing no_room (fun _ => None) (fun _ => None) report silent_outsiders s s' (one_typed DHCP_RENEWING _) _ 900 d' Hd).
  - cbn. tauto.
  - apply rtc_once. exact (call_renew take_request silent_link nothing nothing no_room (fun _ => None) (fun _ => None) report s s' 1 err E).
Defined.

(** A request of an address that is not answered is repeated, with a longer
    time to wait. *)
Lemma dhcp_follows_machine_witness : let s := one_client DHCP_REQUESTING in
  exists s' d', dhcp_timeout take_request silent_link nothing nothing no_room report s 1 = Ok s' /\ clients s' = {[900 := d']} /\ machine_of d' = Machine DHCP_REQUESTING 2 8.
Proof.
  intros s. destruct (run_returns take_request s 1 (set_nif_dhcp station 900) (station_client DHCP_REQUESTING) Select take_request_lends (one_ready DHCP_REQUESTING))
    as (err & s' & d' & E & _).
  assert (dhcp_timeout take_request silent_link nothing nothing no_room report s 1 = Ok s') as Et.
  { unfold dhcp_timeout. assert (client_of s 1 = Ok 900) as -> by reflexivity. cbn [rbind]. assert (dhcp_at s 900 = Ok (station_client DHCP_REQUESTING)) as -> by reflexivity.
    cbn [rbind]. set (d := station_client DHCP_REQUESTING). cbv zeta. assert ((dhcp_state d =? DHCP_BACKING_OFF) || (dhcp_state d =? DHCP_SELECTING) = false) as -> by reflexivity.
    assert ((dhcp_state d =? DHCP_REQUESTING) = true) as -> by reflexivity. assert ((tries d <=? 5) = true) as -> by reflexivity. cbv iota.
    cbn [run] in E. rewrite E. reflexivity. }
  destruct (proj1 (dhcp_follows_machine take_request silent_link nothing nothing no_room report silent_outsiders s 1) s' Et) as (_ & a & d0 & d1 & Ha & Hd & Hc & Em & _).
  injection Ha as <-. injection Hd as <-. exists s', d1. split; [exact Et|]. split; [rewrite Hc; apply insert_singleton_eq|exact Em].
Defined.

(** Four ticks after a selection it is repeated. *)
Lemma dhcp_stays_awake_witness : let s := one_client DHCP_REQUESTING in
  exists s' d', fine_step take_request silent_link nothing nothing no_room report s 1 900 = Ok s' /\ clients s' = {[900 := d']} /\ awake (machine_of d') /\
  forall s4, ticks take_request silent_link nothing nothing no_room report 1 900 4 s s4 ->
    exists d4, clients s4 !! 900 = Some d4 /\ (dhcp_state d4, tries d4, request_timeout d4) = (DHCP_REQUESTING, 2, 8).
Proof.
  intros s. set (d := station_client DHCP_REQUESTING). set (s' := put_dhcp s 900 (set_progress d DHCP_REQUESTING 1 3)).
  assert (fine_step take_request silent_link nothing nothing no_room report s 1 900 = Ok s') as E by reflexivity.
  assert (typed d) as Ht by exact (one_typed DHCP_REQUESTING ltac:(cbn; tauto) 900 d eq_refl).
  assert (awake (machine_of d)) as Ha by (right; left; vm_compute; congruence).
  destruct (dhcp_stays_awake take_request silent_link nothing nothing no_room report silent_outsiders s 1 900 d ltac:(discriminate) ltac:(discriminate) eq_refl eq_refl Ht Ha)
    as (Hs & _ & _ & Hk).
  destruct (Hs s' E) as (_ & a & d0 & d' & Ha' & Hd & Hc & Haw). injection Ha' as <-. exists s', d'. split; [exact E|]. split; [rewrite Hc; apply insert_singleton_eq|].
  split; [exact Haw|]. intros s4 H4. exact (Hk 4%nat s4 H4 ltac:(vm_compute; congruence) ltac:(vm_compute; congruence)).
Defined.

(** A lease of an hour without a mask and a gateway. *)
Definition hour_client : dhcp := set_lease (station_client DHCP_CHECKING) 3600 1800 3600.
Definition hour_net : client_state := client_net one_waiting hour_client.
Lemma drop_outsiders : outsiders take_request silent_link nothing drop_connection.
Proof.
  destruct silent_outsiders as [H1 H2 H3 _]. constructor; [exact H1|exact H2|exact H3|]. intros s a. unfold drop_connection. apply (yields_bind _ _ _ _ (yields_any _)). intros c _. by apply yields_ok.
Qed.
Lemma dhcp_bind_configures_witness : exists s', dhcp_bind silent_link nothing drop_connection report hour_net 1 = Ok s' /\
  (exists n, nifs (ifs (env s')) !! 1 = Some n /\ nif_ip_addr n = address_of 10 0 0 77 /\ nif_netmask n = address_of 255 0 0 0 /\ nif_gw n = address_of 10 0 0 1) /\
  exists d, clients s' !! 900 = Some d /\ dhcp_state d = DHCP_BOUND /\ t1_timeout d = 30 /\ t2_timeout d = 60.
Proof.
  assert (link_keeps silent_link) as Hk by (intros e m p; apply stays_refl). assert (arp_ok hour_net) as Hs by exact (arp_ok_env _ two_net _ two_net_ok).
  destruct (dhcp_bind_configures take_request silent_link nothing drop_connection report drop_outsiders hour_net 1 (set_nif_dhcp station 900) 900 hour_client [10; 11] [12]
    drop_connection_aborts Hk nothing_quiet Hs ltac:(discriminate) eq_refl eq_refl ltac:(discriminate) eq_refl mac_of_9 two_active two_listen) as [(s' & E & _ & Ei & Ec) _].
  exists s'. split; [exact E|]. rewrite Ei, Ec. split; eexists; (split; [apply lookup_insert_eq|]); repeat split; vm_compute; reflexivity.
Defined.

(** ** What goes wrong *)

(** An offer without the identity of its server stops the client: it stays in
    its state with no time to wait, and no tick changes that. *)
Example nameless_offer_stops : let s := one_client DHCP_SELECTING in exists d',
  handle_reply take_request silent_link nothing nothing no_room report s 1 DHCP_OFFER = Ok (put_dhcp s 900 d') /\
  machine_of d' = Machine DHCP_SELECTING 1 0 /\ on_tick (machine_of d') = machine_of d' /\ ~ awake (machine_of d').
Proof.
  intros s. exists (set_progress (station_client DHCP_SELECTING) DHCP_SELECTING 1 0). split; [reflexivity|]. split; [reflexivity|]. split; [reflexivity|].
  intros [[E|[E|[]]]|[E|[E _]]]; [discriminate E|discriminate E|by apply E|discriminate E].
Qed.
(** The tries of a renewal wrap after 256, and with them the time to wait: no
    tick renews the lease again. *)
Example renewal_stops : let x := enter DHCP_RENEWING renew_msecs (Machine DHCP_RENEWING 255 0) in x = Machine DHCP_RENEWING 0 0 /\ on_tick x = x.
Proof. split; reflexivity. Qed.
(** A long timer that is 0 is not off: it is over 65536 minutes later. *)
Example idle_timers_run : coarse_step take_request (one_client DHCP_BOUND) 1 900 = Ok (put_dhcp (one_client DHCP_BOUND) 900 (set_timeouts (station_client DHCP_BOUND) 65535 65535)).
Proof. reflexivity. Qed.
(** Almost the longest time that is not infinite becomes a minute. *)
Example long_lease_wraps : coarse_ticks 0xfffffffe = 1.
Proof. reflexivity. Qed.
(** With all options given, the loop over the servers for names looks behind
    the end of the array. *)
Example two_servers_overrun : let s := one_client DHCP_REQUESTING in
  dns_loop (S (Z.to_nat DNS_MAX_SERVERS)) (set_vars s (set_rx (vars_of s) (replicate 10 1) (replicate 10 1))) 0 = Fault OutOfBounds.
Proof. vm_compute. reflexivity. Qed.
(** The message that gives an address back does not go to the server: its
    address is cleared before. *)
Definition note_dest (s : client_state) (nif p dest : Z) : result (Z * client_state) := Ok (ERR_OK, set_client s (vars_of s) (station_of s ++ [dest])).
Example release_goes_nowhere : let s := one_client DHCP_BOUND in server_ip_addr (station_client DHCP_BOUND) = address_of 10 0 0 1 /\
  (let! (_, s) := dhcp_release note_dest nothing s 1 in Ok (station_of s)) = Ok [0].
Proof. split; vm_compute; reflexivity. Qed.
(** An acknowledgement of a renewal binds the old lease again, whatever times
    it brings. *)
Lemma renewal_binds_old {F G K X} `{Os} output link igmp tcp_abort queue_malloc got_ip (s : net (stack (raws F) (udps G * (dns K * (dhcp_vars * X))))) netif a d :
  client_of s netif = Ok a -> dhcp_at s a = Ok d -> dhcp_state d = DHCP_RENEWING ->
  handle_reply output link igmp tcp_abort queue_malloc got_ip s netif DHCP_ACK = dhcp_bind link igmp tcp_abort got_ip s netif.
Proof. intros Ea Ed Es. unfold handle_reply. rewrite Ea. cbn [rbind]. rewrite Ed. cbn [rbind]. by rewrite Es. Qed.
