(* ===== verification/Timers.v ===== *)
(** * Timeouts: [lwip/core/timers.c].

    The list of pending timeouts, each with its delay after the one before,
    the handling of expired ones, and the timers of the protocols that rearm
    themselves.  The list is linked through its entries and owned by this
    file alone, so it is a list here. *)
From S2P Require Import Prelude Igmp.

Section timers.
(** The callbacks, of type [sys_timeout_handler]; [None] is NULL. *)
Context {handler : Type} `{!EqDecision handler}.

Record sys_timeo := SysTimeo { time : Z; h : option handler; arg : Z }.

(** [next_timeout] and [timeouts_last_time]. *)
Record timers := Timers { next_timeout : list sys_timeo; timeouts_last_time : Z }.

Definition set_time (t : sys_timeo) (v : Z) : sys_timeo := SysTimeo v (h t) (arg t).

(** The pool [MEMP_SYS_TIMEOUT] and the rest of the program. *)
Context {W : Type} (memp_malloc : W -> bool * W) (memp_free : W -> W).
Abbreviation state := (timers * W)%type.

(** ** [sys_timeout] and [sys_untimeout] *)

(** The [for] loop of [sys_timeout]: the new timeout's delay shrinks by each
    delay it passes. *)
Fixpoint insert_loop (l : list sys_timeo) (new : sys_timeo) : list sys_timeo :=
  match l with
  | [] => []
  | t :: l =>
      let new := set_time new (u32 (time new - time t)) in
      match l with
      | [] => [t; new]
      | n :: l' =>
          if time new <? time n then t :: new :: set_time n (u32 (time n - time new)) :: l'
          else t :: insert_loop l new
      end
  end.

Definition insert (l : list sys_timeo) (new : sys_timeo) : list sys_timeo :=
  match l with
  | [] => [new]
  | t :: l' =>
      if time new <? time t then new :: set_time t (u32 (time t - time new)) :: l'
      else insert_loop l new
  end.

Definition sys_timeout (st : state) (msecs : Z) (hd : option handler) (a : Z) : state :=
  let '(tm, w) := st in
  let '(ok, w) := memp_malloc w in
  if (ok : bool) then (Timers (insert (next_timeout tm) (SysTimeo msecs hd a)) (timeouts_last_time tm), w)
  else (tm, w).

(** The first timeout that matches is taken out; its delay goes to the next. *)
Fixpoint remove (l : list sys_timeo) (hd : option handler) (a : Z) : option (list sys_timeo) :=
  match l with
  | [] => None
  | t :: l =>
      if bool_decide (h t = hd) && (arg t =? a) then
        Some match l with [] => [] | n :: l' => set_time n (u32 (time n + time t)) :: l' end
      else option_map (cons t) (remove l hd a)
  end.

Definition sys_untimeout (st : state) (hd : option handler) (a : Z) : state :=
  let '(tm, w) := st in
  match remove (next_timeout tm) hd a with
  | Some l => (Timers l (timeouts_last_time tm), memp_free w)
  | None => st
  end.

(** ** [sys_check_timeouts] *)

Definition LWIP_U32_DIFF (a b : Z) : Z := if b <=? a then u32 (a - b) else u32 (u32 (a + Z.lxor b 0xFFFFFFFF) + 1).

(** The callbacks run on the list and the rest of the program. *)
Context (call : handler -> Z -> state -> result state).

(** The [do] loop; [diff] is what has not been used up. *)
Fixpoint check_loop (fuel : nat) (now diff : Z) (st : state) : result state :=
  match fuel with
  | O => Fault OutOfFuel
  | S fuel =>
      let '(tm, w) := st in
      match next_timeout tm with
      | [] => Fault NullDeref
      | t :: l =>
          if time t <=? diff then
            let diff := u32 (diff - time t) in
            let st := (Timers l now, memp_free w) in
            let! st := (match h t with Some f => call f (arg t) st | None => Ok st end) in
            check_loop fuel now diff st
          else Ok st
      end
  end.

(** [now] is [NOW()], [flag] [timer2_ms_flag], [clk] [CPU_CLK_FREQ]. *)
Definition sys_check_timeouts (fuel : nat) (now flag clk : Z) (st : state) : result state :=
  match next_timeout st.1 with
  | [] => Ok st
  | _ =>
      let ticks := Z.shiftr clk (if flag =? 0 then 4 else 8) / 1000 in
      if ticks =? 0 then Fault DivByZero
      else check_loop fuel now (LWIP_U32_DIFF now (timeouts_last_time st.1) / ticks) st
  end.

Definition sys_restart_timeouts (now : Z) (st : state) : state :=
  (Timers (next_timeout st.1) now, st.2).
End timers.
Arguments sys_timeo : clear implicits.
Arguments timers : clear implicits.

(** ** The timers of the protocols

    The callbacks of this file in the configuration of [lwipopts.h] (no
    reassembly, no AutoIP); [tcpip_tcp_timer] is armed from [TCP_REG]. *)
Inductive protocol_timer :=
  | arp_timer | dhcp_timer_coarse | dhcp_timer_fine | igmp_timer | dns_timer | tcp_timer_coarse
  | tcpip_tcp_timer.
#[export] Instance protocol_timer_eq_dec : EqDecision protocol_timer.
Proof. solve_decision. Defined.

Definition ARP_TMR_INTERVAL : Z := 5000.
Definition DHCP_COARSE_TIMER_MSECS : Z := 60 * 1000.
Definition DHCP_FINE_TIMER_MSECS : Z := 500.
Definition DNS_TMR_INTERVAL : Z := 1000.
Definition TCP_TMR_INTERVAL : Z := 125.

Definition interval (t : protocol_timer) : Z :=
  match t with
  | arp_timer => ARP_TMR_INTERVAL
  | dhcp_timer_coarse => DHCP_COARSE_TIMER_MSECS
  | dhcp_timer_fine => DHCP_FINE_TIMER_MSECS
  | igmp_timer => IGMP_TMR_INTERVAL
  | dns_timer => DNS_TMR_INTERVAL
  | tcp_timer_coarse => TCP_TMR_INTERVAL
  | tcpip_tcp_timer => TCP_TMR_INTERVAL
  end.

Section protocols.
Context {W : Type} (memp_malloc : W -> bool * W) (memp_free : W -> W).
(** The work of a timer: [etharp_tmr()], [dhcp_coarse_tmr()] with
    [dhcps_coarse_tmr()], and so on.  It may fault, and may set timeouts. *)
Context (tmr : protocol_timer -> timers protocol_timer * W -> result (timers protocol_timer * W)).
(** [tcp_active_pcbs || tcp_tw_pcbs], and [tcpip_tcp_timer_active]. *)
Context (tcp_pcbs : W -> bool) (tcp_active : W -> bool) (set_tcp_active : W -> bool -> W).
Abbreviation state := (timers protocol_timer * W)%type.

(** The callbacks: the work, and the timer armed again. *)
Definition run_timer (t : protocol_timer) (a : Z) (st : state) : result state :=
  let! st := tmr t st in
  Ok match t with
     | tcpip_tcp_timer =>
         if tcp_pcbs st.2 then sys_timeout memp_malloc st TCP_TMR_INTERVAL (Some tcpip_tcp_timer) 0
         else (st.1, set_tcp_active st.2 false)
     | t => sys_timeout memp_malloc st (interval t) (Some t) 0
     end.

Definition tcp_timer_needed (st : state) : state :=
  if negb (tcp_active st.2) && tcp_pcbs st.2 then
    sys_timeout memp_malloc (st.1, set_tcp_active st.2 true) TCP_TMR_INTERVAL (Some tcpip_tcp_timer) 0
  else st.

(** The calls of [sys_timeouts_init] in order. *)
Definition armed_at_init : list protocol_timer :=
  [arp_timer; dhcp_timer_coarse; dhcp_timer_fine; igmp_timer; dns_timer; tcp_timer_coarse].

Definition sys_timeouts_init (now : Z) (st : state) : state :=
  let st := fold_left (fun st t => sys_timeout memp_malloc st (interval t) (Some t) 0) armed_at_init st in
  (Timers (next_timeout st.1) now, st.2).
End protocols.

(** ** When a timeout expires *)

Section lemmas.
Context {handler : Type} `{!EqDecision handler}.
Abbreviation timeo := (sys_timeo handler).
Implicit Types (l : list timeo) (t new : timeo).

(** What is pending, with the time from [base] to its expiry. *)
Definition event : Type := Z * (option handler * Z).
Definition event_of (e : Z) t : event := (e, (h t, arg t)).
Fixpoint expiries (base : Z) l : list event :=
  match l with
  | [] => []
  | t :: l => event_of (base + time t) t :: expiries (base + time t) l
  end.

(** The delay of the last one. *)
Fixpoint total l : Z := match l with [] => 0 | t :: l => time t + total l end.

(** Delays that add up within 32 bits. *)
Definition timers_ok l : Prop := Forall (fun t => 0 <= time t) l /\ total l < 4294967296.

(** Behind everything that expires no later. *)
Fixpoint add_event (x : event) (l : list event) : list event :=
  match l with
  | [] => [x]
  | y :: l' => if x.1 <? y.1 then x :: l else y :: add_event x l'
  end.

Fixpoint remove_event (hd : option handler) (a : Z) (l : list event) : option (list event) :=
  match l with
  | [] => None
  | y :: l =>
      if bool_decide (y.2.1 = hd) && (y.2.2 =? a) then Some l
      else option_map (cons y) (remove_event hd a l)
  end.

Lemma timers_ok_cons t l : timers_ok (t :: l) <-> 0 <= time t /\ timers_ok l /\ time t + total l < 4294967296.
Proof.
  unfold timers_ok. rewrite List.Forall_cons_iff. cbn [total]. split; [|tauto]. intros [[? ?] ?].
  repeat split; try done. lia.
Qed.
Lemma total_nonneg l : timers_ok l -> 0 <= total l.
Proof. induction l as [|t l IH]; [done|]. intros (? & ?%IH & _)%timers_ok_cons. cbn [total]. lia. Qed.

Lemma insert_loop_cons t n l new (x := u32 (time new - time t)) :
  insert_loop (t :: n :: l) new =
    if x <? time n then t :: set_time new x :: set_time n (u32 (time n - x)) :: l
    else t :: insert_loop (n :: l) (set_time new x).
Proof. done. Qed.

Lemma insert_loop_ok l : forall t new base, timers_ok (t :: l) -> time t <= time new < 4294967296 ->
  timers_ok (insert_loop (t :: l) new) /\
  total (insert_loop (t :: l) new) = Z.max (total (t :: l)) (time new) /\
  expiries base (insert_loop (t :: l) new) =
    add_event (event_of (base + time new) new) (expiries base (t :: l)).
Proof.
  induction l as [|n l IH]; intros t new base Hok Hn;
    apply timers_ok_cons in Hok as (Ht & Hok & Htot).
  - cbn [insert_loop]. rewrite u32_small by (unfold is_u32; lia). cbn [expiries time h arg set_time total].
    split; [apply timers_ok_cons; cbn; split; [done|]; split; [|lia];
            apply timers_ok_cons; cbn; repeat split; try lia; constructor|].
    split; [lia|]. cbn [add_event event_of fst]. rewrite (proj2 (Z.ltb_ge _ _)) by lia.
    cbn [add_event]. unfold event_of. cbn. do 3 f_equal. lia.
  - rewrite insert_loop_cons. rewrite u32_small by (unfold is_u32; lia).
    pose proof Hok as Hok'. apply timers_ok_cons in Hok' as (Hn0 & Hokl & Hnt). cbn [total] in Htot.
    pose proof (total_nonneg l Hokl).
    cbn [expiries add_event event_of fst]. rewrite (proj2 (Z.ltb_ge (base + time new) (base + time t))) by lia.
    destruct (Z.ltb_spec (time new - time t) (time n)) as [Hlt|Hge].
    + rewrite u32_small by (unfold is_u32; lia). cbn [expiries time h arg set_time total add_event event_of fst].
      rewrite (proj2 (Z.ltb_lt _ _)) by lia.
      split; [repeat (apply timers_ok_cons; cbn [time set_time total]; split; [lia|]; split; [|lia]); exact Hokl|].
      split; [lia|]. unfold event_of. cbn. do 2 f_equal; [f_equal; lia|].
      f_equal; [f_equal; lia|f_equal; lia].
    + destruct (IH n (set_time new (time new - time t)) (base + time t) Hok) as (IH1 & IH2 & IH3); [cbn; lia|].
      cbn [total] in *. cbn [time set_time] in IH2, IH3.
      split; [apply timers_ok_cons; split; [done|]; split; [done|lia]|]. split; [lia|].
      cbn [expiries]. f_equal. rewrite IH3. replace (base + time t + (time new - time t)) with (base + time new) by lia.
      done.
Qed.

Lemma insert_ok l new base : timers_ok l -> 0 <= time new < 4294967296 ->
  timers_ok (insert l new) /\ total (insert l new) = Z.max (total l) (time new) /\
  expiries base (insert l new) = add_event (event_of (base + time new) new) (expiries base l).
Proof.
  intros Hok Hn. destruct l as [|t l]; cbn [insert].
  - cbn [total expiries add_event]. split; [|split; [lia|done]]. apply timers_ok_cons. split; [lia|].
    split; [by split|cbn; lia].
  - destruct (Z.ltb_spec (time new) (time t)) as [Hlt|Hge]; [|apply insert_loop_ok; [done|lia]].
    apply timers_ok_cons in Hok as (Ht & Hok & Htot). pose proof (total_nonneg l Hok).
    rewrite u32_small by (unfold is_u32; lia).
    cbn [total time set_time expiries add_event event_of fst]. rewrite (proj2 (Z.ltb_lt _ _)) by lia.
    split; [repeat (apply timers_ok_cons; cbn [time set_time total]; split; [lia|]; split; [|lia]); exact Hok|].
    split; [lia|]. unfold event_of. cbn. f_equal. f_equal; [f_equal; lia|f_equal; lia].
Qed.

Lemma remove_ok hd a l : forall base, timers_ok l ->
  match remove l hd a with
  | Some l' => timers_ok l' /\ remove_event hd a (expiries base l) = Some (expiries base l')
  | None => remove_event hd a (expiries base l) = None
  end.
Proof.
  induction l as [|t l IH]; intros base Hok; [done|]. apply timers_ok_cons in Hok as (Ht & Hok & Htot).
  pose proof (total_nonneg l Hok). cbn [remove expiries remove_event event_of snd fst].
  destruct (bool_decide (h t = hd) && (arg t =? a)).
  - destruct l as [|n l]; [by split|]. apply timers_ok_cons in Hok as (Hn & Hok & Hnt). cbn [total] in Htot.
    pose proof (total_nonneg l Hok). rewrite u32_small by (unfold is_u32; lia). split.
    + apply timers_ok_cons. cbn [time set_time]. split; [lia|]. split; [done|lia].
    + cbn [expiries time h arg set_time]. unfold event_of. cbn. do 2 f_equal; [f_equal; lia|f_equal; lia].
  - specialize (IH (base + time t) Hok). destruct (remove l hd a) as [l'|] eqn:Er; cbn [option_map].
    + destruct IH as [Hok' ->]. split; [|done]. apply timers_ok_cons. split; [done|]. split; [done|].
      enough (total l' <= total l) by lia. clear -Er Hok. revert l' Er Hok.
      induction l as [|x l IH]; intros l' Er Hok; [done|]. apply timers_ok_cons in Hok as (Hx & Hok & _).
      cbn [remove] in Er. destruct (_ && _).
      * injection Er as <-. destruct l as [|n l]; [cbn; lia|]. cbn [total time set_time].
        pose proof (total_nonneg _ Hok) as Hp. cbn [total] in Hp.
        assert (u32 (time n + time x) <= time n + time x); [|lia].
        apply timers_ok_cons in Hok as (? & _ & _). unfold u32. apply Z.mod_le; lia.
      * destruct (remove l hd a) as [l2|]; [|done]. injection Er as <-. cbn [total].
        specialize (IH l2 eq_refl Hok). lia.
    + by rewrite IH.
Qed.
End lemmas.

(** ** The list against its specification

    The list of delays implements the list of pending callbacks sorted by
    expiry: the operations below say so of [expiries]. *)

Section list_spec.
Context {handler : Type} `{!EqDecision handler} {W : Type}.
Context (memp_malloc : W -> bool * W) (memp_free : W -> W).
Implicit Types tm : timers handler.

(** [sys_timeout] on delays that fit 32 bits adds the callback [msecs] after the current base, behind everything that expires no later, and changes the expiry of nothing else; without memory for the entry it changes nothing. *)
Theorem sys_timeout_inserts tm w msecs hd a base :
  timers_ok (next_timeout tm) -> is_u32 msecs ->
  let '(tm', w') := sys_timeout memp_malloc (tm, w) msecs hd a in
  timers_ok (next_timeout tm') /\ timeouts_last_time tm' = timeouts_last_time tm /\
  w' = (memp_malloc w).2 /\
  expiries base (next_timeout tm') =
    if (memp_malloc w).1 then add_event (base + msecs, (hd, a)) (expiries base (next_timeout tm))
    else expiries base (next_timeout tm).
Proof.
  intros Hok Hm. unfold sys_timeout. destruct (memp_malloc w) as [[|] w']; cbn [fst snd]; [|done].
  destruct (insert_ok (next_timeout tm) (SysTimeo msecs hd a) base Hok Hm) as (Hok' & _ & He).
  done.
Qed.

(** [sys_untimeout] takes out the first entry with that callback and argument, leaving the expiry of every other one as it was, and frees it; without such an entry nothing changes. *)
Theorem sys_untimeout_removes tm w hd a base :
  timers_ok (next_timeout tm) ->
  let '(tm', w') := sys_untimeout memp_free (tm, w) hd a in
  timers_ok (next_timeout tm') /\ timeouts_last_time tm' = timeouts_last_time tm /\
  match remove_event hd a (expiries base (next_timeout tm)) with
  | Some evs => expiries base (next_timeout tm') = evs /\ w' = memp_free w
  | None => tm' = tm /\ w' = w
  end.
Proof.
  intros Hok. unfold sys_untimeout. pose proof (remove_ok hd a (next_timeout tm) base Hok) as Hr.
  destruct (remove (next_timeout tm) hd a) as [l|]; cbn [next_timeout timeouts_last_time].
  - destruct Hr as [Hl ->]. done.
  - by rewrite Hr.
Qed.
End list_spec.

(** ** Time that has passed *)
Lemma ticks_passed a b : is_u32 a -> is_u32 b -> LWIP_U32_DIFF a b = (a - b) mod 4294967296.
Proof.
  intros Ha Hb. unfold LWIP_U32_DIFF. destruct (Z.leb_spec b a) as [|Hlt]; [done|].
  assert (Z.lxor b 0xFFFFFFFF = 4294967295 - b) as ->.
  { assert (b + Z.lxor b (Z.ones 32) = Z.ones 32) as He; [|change (Z.ones 32) with 4294967295 in He; lia].
    rewrite Z.add_nocarry_lxor; [by rewrite <- Z.lxor_assoc, Z.lxor_nilpotent, Z.lxor_0_l|].
    apply Z.bits_inj'. intros i Hi. rewrite Z.land_spec, Z.lxor_spec, Z.bits_0.
    destruct (Z.ltb_spec i 32).
    - rewrite Z.ones_spec_low by lia. by destruct (Z.testbit b i).
    - by rewrite (testbit_high b 32). }
  unfold u32. rewrite Zplus_mod_idemp_l. rewrite <- (Z.mod_add (a - b) 1) by lia. f_equal. lia.
Qed.

(** The milliseconds [sys_check_timeouts] finds gone. *)
Definition elapsed (now flag clk last : Z) : Z :=
  (now - last) mod 4294967296 / (Z.shiftr clk (if flag =? 0 then 4 else 8) / 1000).

(** Clock settings the division of the code can work with. *)
Definition clock_ok (flag clk : Z) : Prop := 0 < Z.shiftr clk (if flag =? 0 then 4 else 8) / 1000.

Section check.
Context {handler : Type} `{!EqDecision handler} {W : Type}.
Context (memp_free : W -> W).
Abbreviation state := (timers handler * W)%type.
Context (call : handler -> Z -> state -> result state).
Abbreviation sys_check_timeouts := (sys_check_timeouts memp_free call).
Abbreviation check_loop := (check_loop memp_free call).

Lemma elapsed_bound now flag clk last : clock_ok flag clk -> 0 <= elapsed now flag clk last < 4294967296.
Proof.
  intros Hc. pose proof (Z.mod_pos_bound (now - last) 4294967296 ltac:(lia)).
  split; [apply Z.div_pos; [lia|apply Hc]|].
  apply Z.div_lt_upper_bound; [apply Hc|]. unfold clock_ok in Hc. nia.
Qed.

Lemma check_enters fuel now flag clk tm w :
  is_u32 now -> is_u32 (timeouts_last_time tm) -> clock_ok flag clk -> next_timeout tm <> [] ->
  sys_check_timeouts fuel now flag clk (tm, w) =
    check_loop fuel now (elapsed now flag clk (timeouts_last_time tm)) (tm, w).
Proof.
  intros Hn Hl Hc Hne. unfold Timers.sys_check_timeouts, elapsed, clock_ok in *. cbn [fst].
  destruct (next_timeout tm) as [|t l]; [done|]. rewrite (proj2 (Z.eqb_neq _ _)) by lia.
  by rewrite ticks_passed.
Qed.

(** One round of the loop. *)
Lemma check_loop_due fuel now diff t l last w :
  0 <= time t <= diff -> diff < 4294967296 ->
  check_loop (S fuel) now diff (Timers (t :: l) last, w) =
    let! st := (match h t with
                | Some f => call f (arg t) (Timers l now, memp_free w)
                | None => Ok (Timers l now, memp_free w)
                end) in
    check_loop fuel now (diff - time t) st.
Proof.
  intros Ht Hd. cbn [Timers.check_loop next_timeout]. rewrite (proj2 (Z.leb_le _ _)) by lia.
  by rewrite u32_small by (unfold is_u32; lia).
Qed.
Lemma check_loop_done fuel now diff t l last w :
  diff < time t ->
  check_loop (S fuel) now diff (Timers (t :: l) last, w) = Ok (Timers (t :: l) last, w).
Proof. intros Ht. cbn [Timers.check_loop next_timeout]. by rewrite (proj2 (Z.leb_gt _ _)) by lia. Qed.

(** *** Callbacks that leave the timeouts alone *)

Context (work : handler -> Z -> W -> W).

(** How many expire within [d]. *)
Fixpoint due (d : Z) (evs : list (event (handler := handler))) : nat :=
  match evs with e :: evs => if e.1 <=? d then S (due d evs) else O | [] => O end.
Definition fire (w : W) (e : event (handler := handler)) : W :=
  match e.2.1 with Some f => work f e.2.2 (memp_free w) | None => memp_free w end.

Lemma check_loop_fires fuel now d l : forall b last w,
  (forall f a tm w, call f a (tm, w) = Ok (tm, work f a w)) ->
  timers_ok l -> 0 <= d - b < 4294967296 -> (length l < fuel)%nat ->
  let k := due d (expiries b l) in
  check_loop fuel now (d - b) (Timers l last, w) =
    match drop k l with
    | [] => Fault NullDeref
    | rest => Ok (Timers rest (if (k =? 0)%nat then last else now),
                  fold_left fire (take k (expiries b l)) w)
    end.
Proof.
  revert l. induction fuel as [|fuel IH]; intros l b last w Hcall Hok Hd Hf; [lia|].
  destruct l as [|t l]; [done|]. apply timers_ok_cons in Hok as (Ht & Hok & _).
  cbn [expiries due event_of fst]. destruct (Z.leb_spec (b + time t) d) as [Hle|Hgt].
  - rewrite check_loop_due by lia. cbn [length] in Hf. cbn zeta in IH.
    replace (d - b - time t) with (d - (b + time t)) by lia.
    assert (match h t with Some f => call f (arg t) (Timers l now, memp_free w)
            | None => Ok (Timers l now, memp_free w) end = Ok (Timers l now, fire w (event_of (b + time t) t))) as ->.
    { unfold fire. cbn. destruct (h t); [apply Hcall|done]. }
    cbn [rbind]. rewrite IH by (done || lia). cbn [drop take fold_left Nat.eqb]. destruct (drop _ l); [done|]. by case_match.
  - rewrite check_loop_done by lia. done.
Qed.

(** When the callbacks set no timeouts of their own, [sys_check_timeouts] calls exactly those that have expired, in the order of expiry, and keeps the others with the delays they had; but it dereferences NULL when every pending timeout has expired. *)
Theorem sys_check_timeouts_fires fuel now flag clk tm w :
  (forall f a tm w, call f a (tm, w) = Ok (tm, work f a w)) ->
  is_u32 now -> is_u32 (timeouts_last_time tm) -> clock_ok flag clk ->
  timers_ok (next_timeout tm) -> (length (next_timeout tm) < fuel)%nat ->
  let d := elapsed now flag clk (timeouts_last_time tm) in
  let k := due d (expiries 0 (next_timeout tm)) in
  sys_check_timeouts fuel now flag clk (tm, w) =
    match next_timeout tm with
    | [] => Ok (tm, w)
    | _ =>
        match drop k (next_timeout tm) with
        | [] => Fault NullDeref
        | rest => Ok (Timers rest (if (k =? 0)%nat then timeouts_last_time tm else now),
                      fold_left fire (take k (expiries 0 (next_timeout tm))) w)
        end
    end.
Proof.
  intros Hcall Hn Hl Hc Hok Hf d k. destruct (next_timeout tm) as [|t l] eqn:El.
  - unfold Timers.sys_check_timeouts. cbn [fst]. by rewrite El.
  - rewrite check_enters by (done || by rewrite El). destruct tm as [l0 last]. cbn in El. subst l0.
    cbn [timeouts_last_time next_timeout] in *. fold d. rewrite <- (Z.sub_0_r d) at 1.
    apply check_loop_fires; try done. rewrite Z.sub_0_r. by apply elapsed_bound.
Qed.
End check.

(** ** The timers of the protocols keep running *)

Section rearm.
Context {W : Type} (memp_malloc : W -> bool * W) (memp_free : W -> W).
Context (tmr : protocol_timer -> timers protocol_timer * W -> result (timers protocol_timer * W)).
Context (tcp_pcbs tcp_active : W -> bool) (set_tcp_active : W -> bool -> W).
Abbreviation call := (run_timer memp_malloc tmr tcp_pcbs set_tcp_active).
Abbreviation check := (check_loop memp_free call).
Abbreviation ev := (event (handler := protocol_timer)).

(** The timers that always rearm themselves, with their expiries. *)
Definition core (evs : list ev) : list (Z * protocol_timer) :=
  omap (fun e : ev => match e.2.1 with
                      | Some tcpip_tcp_timer | None => None
                      | Some p => Some (e.1, p)
                      end) evs.

(** Where a timer that expires at [e] stands once [d] is past. *)
Definition catch_up (d : Z) (e : Z * protocol_timer) : Z * protocol_timer :=
  (e.1 + interval e.2 * Z.max 0 ((d - e.1) / interval e.2 + 1), e.2).

(** Every entry is a timer of the protocols, and one at least rearms itself. *)
Definition armed (l : list (sys_timeo protocol_timer)) : Prop :=
  Forall (fun f => f <> None) (map h l) /\
  Exists (fun f => f <> None /\ f <> Some tcpip_tcp_timer) (map h l).

(** ** What the work of the timers may do *)

(** The list after the work of a timer: the work has left it alone, or opened a
    connection and so armed [tcpip_tcp_timer], once at most since the flag is
    set then. *)
Definition did (st st' : timers protocol_timer * W) : Prop :=
  exists w1 w2, st' = (st.1, w2) \/ st' = ((tcp_timer_needed memp_malloc tcp_pcbs tcp_active set_tcp_active (st.1, w1)).1, w2).

(** A round of the loop, on the milliseconds left and the state. *)
Definition round (now : Z) (x y : Z * (timers protocol_timer * W)) : Prop :=
  exists t l p st, next_timeout x.2.1 = t :: l /\ time t <= x.1 /\ h t = Some p /\
    call p (arg t) (Timers l now, memp_free x.2.2) = Ok st /\ y = (x.1 - time t, st).

(** In every round the loop gets to the work of the timer ends, and leaves
    memory for the entry when the timer is armed again. *)
Definition served (now : Z) (x : Z * (timers protocol_timer * W)) : Prop :=
  forall y, rtc (round now) x y -> forall t l p, next_timeout y.2.1 = t :: l -> time t <= y.1 -> h t = Some p ->
  exists st, tmr p (Timers l now, memp_free y.2.2) = Ok st /\ did (Timers l now, memp_free y.2.2) st /\
    ((p = tcpip_tcp_timer -> tcp_pcbs st.2 = true) -> (memp_malloc st.2).1 = true).

(** What bounds the rounds that are left: a round replaces an expiry by two
    later ones at most. *)
Definition weight (d e : Z) : Z := if e <=? d then 3 ^ (d - e + 1) else 0.
Fixpoint load (d : Z) (evs : list ev) : Z :=
  match evs with [] => 0 | e :: evs => weight d e.1 + load d evs end.

Lemma interval_pos p : 0 < interval p < 4294967296.
Proof. by destruct p. Qed.

Lemma weight_nonneg d e : 0 <= weight d e.
Proof. unfold weight. destruct (e <=? d); [by apply Z.pow_nonneg|done]. Qed.
Lemma weight_less d e e' : e <= d -> e < e' -> weight d e' <= 3 ^ (d - e).
Proof.
  intros He Hl. unfold weight. destruct (Z.leb_spec e' d); [apply Z.pow_le_mono_r; lia|by apply Z.pow_nonneg].
Qed.
Lemma weight_here d e : e <= d -> weight d e = 3 * 3 ^ (d - e).
Proof. intros He. unfold weight. rewrite (proj2 (Z.leb_le _ _)), Z.pow_add_r by lia. lia. Qed.
Lemma load_nonneg d evs : 0 <= load d evs.
Proof. induction evs as [|e evs IH]; [done|]. cbn [load]. pose proof (weight_nonneg d e.1). lia. Qed.

Lemma load_add d x evs : load d (add_event x evs) = weight d x.1 + load d evs.
Proof. induction evs as [|y evs IH]; [done|]. cbn [add_event]. case_match; cbn [load]; lia. Qed.

Lemma add_event_perm (x : ev) evs : add_event x evs ≡ₚ x :: evs.
Proof.
  induction evs as [|y evs IH]; [done|]. cbn [add_event]. case_match; [done|].
  rewrite IH. apply Permutation_swap.
Qed.

Lemma core_add p e a evs :
  p <> tcpip_tcp_timer -> core (add_event (e, (Some p, a)) evs) ≡ₚ (e, p) :: core evs.
Proof.
  intros Hp. unfold core. rewrite (omap_Permutation _ _ _ (add_event_perm _ _)). by destruct p.
Qed.

Lemma catch_up_step d e p : e <= d -> catch_up d (e + interval p, p) = catch_up d (e, p).
Proof.
  intros He. unfold catch_up. cbn [fst snd]. f_equal. pose proof (interval_pos p).
  replace (d - (e + interval p)) with (d - e + -1 * interval p) by lia.
  rewrite Z.div_add by lia. pose proof (Z.div_pos (d - e) (interval p) ltac:(lia) ltac:(lia)). lia.
Qed.
Lemma core_step d e p a a' evs : e <= d ->
  map (catch_up d) (core (add_event (e + interval p, (Some p, a)) evs)) ≡ₚ
  map (catch_up d) (core ((e, (Some p, a')) :: evs)).
Proof.
  intros He. pose proof (catch_up_step d e p He) as Hs.
  destruct (decide (p = tcpip_tcp_timer)) as [->|Hp].
  - unfold core. by rewrite (omap_Permutation _ _ _ (add_event_perm _ _)).
  - rewrite (core_add _ _ _ _ Hp). cbn [map]. rewrite Hs. by destruct p.
Qed.
Lemma catch_up_late d e p : d < e -> catch_up d (e, p) = (e, p).
Proof.
  intros He. unfold catch_up. cbn [fst snd]. f_equal. pose proof (interval_pos p).
  assert ((d - e) / interval p < 0) by (apply Z.div_lt_upper_bound; lia). lia.
Qed.

Lemma expiries_above b d l :
  timers_ok l -> d < b -> Forall (fun e : ev => d < e.1) (expiries b l).
Proof.
  revert b. induction l as [|t l IH]; intros b; [constructor|].
  intros (Ht & Hok & _)%timers_ok_cons Hb. cbn [expiries]. constructor; [cbn; lia|]. apply IH; [done|lia].
Qed.

Lemma catch_up_all d evs : Forall (fun e : ev => d < e.1) evs -> map (catch_up d) (core evs) = core evs.
Proof.
  induction 1 as [|e evs He _ IH]; [done|]. destruct e as [e [[p|] a]]; cbn [fst] in He; [|apply IH].
  destruct p; cbn [core omap list_omap fst snd map]; try apply IH; (rewrite catch_up_late by done; f_equal; apply IH).
Qed.

Lemma insert_perm l (new : sys_timeo protocol_timer) : map h (insert l new) ≡ₚ h new :: map h l.
Proof.
  destruct l as [|t l]; [done|]. cbn [insert]. destruct (time new <? time t); [done|].
  revert t new. induction l as [|n l IH]; intros t new; [apply Permutation_swap|].
  rewrite insert_loop_cons. destruct (_ <? _); [apply Permutation_swap|].
  cbn [map]. rewrite IH. apply Permutation_swap.
Qed.

Lemma armed_tl t l : armed (t :: l) -> h t = Some tcpip_tcp_timer -> armed l.
Proof.
  intros [Hf He] Ht. inversion Hf; subst. split; [done|]. inversion He; subst; [naive_solver|done].
Qed.
Lemma armed_again t l new p :
  armed (t :: l) -> h new = Some p -> p <> tcpip_tcp_timer \/ h t = Some tcpip_tcp_timer ->
  armed (insert l new).
Proof.
  intros [Hf He] Hp Hnt. inversion Hf; subst. unfold armed. rewrite !insert_perm, Hp.
  split; [by constructor|]. destruct Hnt as [Hnt|Ht]; [apply Exists_cons_hd; naive_solver|].
  apply Exists_cons_tl. inversion He; subst; [naive_solver|done].
Qed.

(** What the work leaves of the list [l]. *)
Definition after_work (l l' : list (sys_timeo protocol_timer)) : Prop :=
  l' = l \/ l' = insert l (SysTimeo TCP_TMR_INTERVAL (Some tcpip_tcp_timer) 0).

Lemma did_list l now w st : did (Timers l now, w) st -> exists l' w', st = (Timers l' now, w') /\ after_work l l'.
Proof.
  intros (w1 & w2 & [-> | ->]); [exists l, w2; by split; [|left]|].
  unfold tcp_timer_needed, sys_timeout. cbn [fst snd next_timeout timeouts_last_time].
  destruct (_ && _); [|exists l, w2; by split; [|left]]. destruct (memp_malloc _) as [[|] w3]; cbn [fst]; eexists _, _; (split; [reflexivity|]); [by right|by left].
Qed.

(** A callback arms its timer again, but for [tcpip_tcp_timer] without
    connections. *)
Lemma run_timer_rearms now diff t l last w p : served now (diff, (Timers (t :: l) last, w)) -> time t <= diff -> h t = Some p ->
  exists l1 l2 w2, call p (arg t) (Timers l now, memp_free w) = Ok (Timers l2 now, w2) /\ after_work l l1 /\
    (l2 = insert l1 (SysTimeo (interval p) (Some p) 0) \/ p = tcpip_tcp_timer /\ l2 = l1).
Proof.
  intros Hs Ht Hp. destruct (Hs _ (rtc_refl _ _) t l p) as (st & Ew & Hd & Hm); [done..|].
  cbn [snd] in Ew, Hd. destruct (did_list _ _ _ _ Hd) as (l1 & w1 & -> & Hl). unfold run_timer, sys_timeout. rewrite Ew. cbn [rbind fst snd next_timeout timeouts_last_time] in *.
  destruct (memp_malloc w1) as [m w2] eqn:Em. cbn [fst] in Hm.
  destruct (decide (p <> tcpip_tcp_timer)) as [Hne | ->%dec_stable].
  - rewrite Hm by done. exists l1, (insert l1 (SysTimeo (interval p) (Some p) 0)), w2. split; [by destruct p|]. split; [done|by left].
  - destruct (tcp_pcbs w1).
    + rewrite Hm by done. eexists l1, _, w2. split; [reflexivity|]. split; [done|by left].
    + eexists l1, l1, _. split; [reflexivity|]. split; [done|by right].
Qed.

(** The list after the work, against the one before. *)
Lemma after_work_ok l l1 b : after_work l l1 -> timers_ok l -> timers_ok l1 /\ core (expiries b l1) ≡ₚ core (expiries b l) /\
  (forall d, b <= d -> load d (expiries b l1) <= 3 ^ (d - b) + load d (expiries b l)) /\
  forall t, armed (t :: l) -> armed (t :: l1).
Proof.
  intros [-> | ->] Hok.
  - repeat (split; [done|]). split; [|done]. intros d Hd. pose proof (Z.pow_nonneg 3 (d - b)). lia.
  - destruct (insert_ok l (SysTimeo TCP_TMR_INTERVAL (Some tcpip_tcp_timer) 0) b Hok) as (Hok' & _ & He); [done|]. split; [done|]. rewrite He.
    split; [unfold core; by rewrite (omap_Permutation _ _ _ (add_event_perm _ _))|]. split.
    + intros d Hd. rewrite load_add. cbn [event_of fst time]. pose proof (weight_less d b (b + TCP_TMR_INTERVAL) Hd ltac:(unfold TCP_TMR_INTERVAL; lia)). lia.
    + intros t [Hf Hx]. unfold armed. cbn [map] in *. rewrite insert_perm. cbn [h]. inversion Hf; subst. split; [by repeat constructor|].
      inversion Hx; subst; [by constructor|]. by do 2 apply Exists_cons_tl.
Qed.

(** One round: the list is as good as before, there is less to do, and the
    expiries are those of before, one of them moved on. *)
Lemma round_ok t l l1 l2 p b d : armed (t :: l) -> timers_ok l -> h t = Some p -> after_work l l1 ->
  l2 = insert l1 (SysTimeo (interval p) (Some p) 0) \/ p = tcpip_tcp_timer /\ l2 = l1 -> b <= d ->
  timers_ok l2 /\ armed l2 /\ load d (expiries b l2) < weight d b + load d (expiries b l) /\
  map (catch_up d) (core (expiries b l2)) ≡ₚ map (catch_up d) (core (event_of b t :: expiries b l)).
Proof.
  intros Harm Hok Ep Hl1 Hl2 Hb. destruct (after_work_ok l l1 b Hl1 Hok) as (Hok1 & Hc1 & Hload & Ha). specialize (Ha _ Harm).
  specialize (Hload d Hb). pose proof (weight_here d b Hb) as Hw. pose proof (Z.pow_pos_nonneg 3 (d - b) ltac:(lia) ltac:(lia)) as Hpos.
  unfold event_of. rewrite Ep. destruct Hl2 as [-> | [-> ->]].
  - set (new := SysTimeo (interval p) (Some p) 0). pose proof (interval_pos p) as Hi.
    destruct (insert_ok l1 new b Hok1) as (Hok2 & _ & He); [cbn; lia|]. cbn [time new] in He. split; [done|].
    split; [apply (armed_again t l1 new p Ha); [done|]; rewrite Ep; clear; destruct p; naive_solver|].
    rewrite He. unfold event_of, new. cbn [h arg]. split.
    + rewrite load_add. cbn [fst]. pose proof (weight_less d b (b + interval p) Hb ltac:(lia)). lia.
    + rewrite (core_step d b p 0 (arg t)) by done. apply Permutation_map. destruct p; cbn [core omap list_omap snd fst]; by rewrite ?Hc1 || (apply perm_skip; exact Hc1) || exact Hc1.
  - split; [done|]. split; [by apply (armed_tl t)|]. split; [lia|]. apply Permutation_map. exact Hc1.
Qed.

(** More fuel changes nothing. *)
Lemma check_fuel n now diff st r : check n now diff st = Ok r -> forall fuel, (n <= fuel)%nat -> check fuel now diff st = Ok r.
Proof.
  revert diff st. induction n as [|n IH]; intros diff [tm w] E fuel Hf; [done|]. destruct fuel as [|fuel]; [lia|].
  cbn [Timers.check_loop] in *. destruct (next_timeout tm) as [|t l]; [done|]. destruct (time t <=? diff); [|done].
  destruct (match h t with Some _ => _ | None => _ end) as [st|]; [|done]. cbn [rbind] in *. apply IH; [done|lia].
Qed.

Lemma check_runs fuel now d : forall b l last w,
  served now (d - b, (Timers l last, w)) ->
  timers_ok l -> armed l -> 0 <= d - b < 4294967296 -> load d (expiries b l) < Z.of_nat fuel ->
  exists tm' w' b', check fuel now (d - b) (Timers l last, w) = Ok (tm', w') /\
    timers_ok (next_timeout tm') /\ armed (next_timeout tm') /\ b <= b' <= d /\
    Forall (fun e : ev => d < e.1) (expiries b' (next_timeout tm')) /\
    core (expiries b' (next_timeout tm')) ≡ₚ map (catch_up d) (core (expiries b l)).
Proof.
  induction fuel as [|fuel IH]; intros b l last w Hs Hok Harm Hd Hload.
  { pose proof (load_nonneg d (expiries b l)). lia. }
  destruct l as [|t l]; [by destruct Harm as [_ He]; inversion He|].
  pose proof Hok as Hok0. apply timers_ok_cons in Hok as (Ht & Hok & _).
  destruct (Z.le_gt_cases (time t) (d - b)) as [Hle|Hgt].
  2:{ rewrite check_loop_done by lia. exists (Timers (t :: l) last), w, b.
      assert (Forall (fun e : ev => d < e.1) (expiries b (t :: l))) as Hall.
      { cbn [expiries]. constructor; [cbn; lia|]. apply expiries_above; [done|lia]. }
      do 4 (split; [done || lia|]). split; [done|]. cbn [next_timeout]. by rewrite catch_up_all. }
  rewrite check_loop_due by lia. cbn [expiries load event_of fst] in Hload.
  destruct (h t) as [p|] eqn:Ep; [|destruct Harm as [Hf _]; inversion Hf; naive_solver].
  replace (d - b - time t) with (d - (b + time t)) by lia.
  destruct (run_timer_rearms now (d - b) t l last w p Hs Hle Ep) as (l1 & l2 & w2 & Hrun & Hl1 & Hl2).
  rewrite Hrun. cbn [rbind].
  destruct (round_ok t l l1 l2 p (b + time t) d Harm Hok Ep Hl1 Hl2) as (Hok2 & Harm2 & Hload2 & Hcore); [lia|].
  destruct (IH (b + time t) l2 now w2) as (tm' & w' & b' & H1 & H2 & H3 & H4 & H5 & H6); [|done|done|lia|lia|].
  { intros y Hy. apply Hs. eapply rtc_l; [|exact Hy]. exists t, l, p, (Timers l2 now, w2). cbn [fst snd next_timeout].
    do 4 (split; [done|]). f_equal. lia. }
  exists tm', w', b'. do 3 (split; [done|]). split; [lia|]. split; [done|]. rewrite H6, Hcore. done.
Qed.


Lemma sys_timeout_alloc l last w ms hd a :
  (forall w, (memp_malloc w).1 = true) ->
  sys_timeout (handler := protocol_timer) memp_malloc (Timers l last, w) ms hd a =
    (Timers (insert l (SysTimeo ms hd a)) last, (memp_malloc w).2).
Proof. intros Hm. unfold sys_timeout. specialize (Hm w). by destruct (memp_malloc w) as [[|] w']. Qed.

(** [sys_timeouts_init] arms each timer of [armed_at_init] at its interval; [tcp_timer_needed], once there are connections, arms a second timer of the same interval that runs [tcp_tmr], next to [tcp_timer_coarse]. *)
Theorem tcp_timer_armed_twice now w :
  (forall w, (memp_malloc w).1 = true) ->
  let pending st := map (fun e : ev => (e.1, e.2.1)) (expiries 0 (next_timeout st.1)) in
  let st := sys_timeouts_init memp_malloc now (Timers [] 0, w) in
  pending st =
    [(100, Some igmp_timer); (125, Some tcp_timer_coarse); (500, Some dhcp_timer_fine);
     (1000, Some dns_timer); (5000, Some arp_timer); (60000, Some dhcp_timer_coarse)] /\
  (tcp_active st.2 = false -> tcp_pcbs st.2 = true ->
   pending (tcp_timer_needed memp_malloc tcp_pcbs tcp_active set_tcp_active st) =
    [(100, Some igmp_timer); (125, Some tcp_timer_coarse); (125, Some tcpip_tcp_timer);
     (500, Some dhcp_timer_fine); (1000, Some dns_timer); (5000, Some arp_timer);
     (60000, Some dhcp_timer_coarse)]).
Proof.
  intros Hm pending st.
  assert (st.1 = Timers [SysTimeo 100 (Some igmp_timer) 0; SysTimeo 25 (Some tcp_timer_coarse) 0;
    SysTimeo 375 (Some dhcp_timer_fine) 0; SysTimeo 500 (Some dns_timer) 0;
    SysTimeo 4000 (Some arp_timer) 0; SysTimeo 55000 (Some dhcp_timer_coarse) 0] now) as Hst.
  { subst st. unfold sys_timeouts_init, armed_at_init. cbn [fold_left].
    rewrite !(sys_timeout_alloc _ _ _ _ _ _ Hm). done. }
  unfold pending. rewrite Hst. split; [done|]. intros Ha Hp. unfold tcp_timer_needed. rewrite Ha, Hp, Hst.
  cbn [negb andb]. by rewrite (sys_timeout_alloc _ _ _ _ _ _ Hm).
Qed.
End rearm.

(** ** Witnesses

    A pool of [w] entries that frees one and takes one; callbacks are
    numbers, and the work is to log them. *)
Definition pool_malloc (w : nat * list Z) : bool * (nat * list Z) :=
  match w with (S n, l) => (true, (n, l)) | (O, l) => (false, (O, l)) end.
Definition pool_free (w : nat * list Z) : nat * list Z := (S w.1, w.2).
Definition log_work (f a : Z) (w : nat * list Z) : nat * list Z := (w.1, w.2 ++ [f + a]).
Definition log_call (f a : Z) (st : timers Z * (nat * list Z)) := Ok (st.1, log_work f a st.2).
Definition three : timers Z := Timers [SysTimeo 10 (Some 1) 0; SysTimeo 5 (Some 2) 0; SysTimeo 20 (Some 3) 0] 0.

Lemma sys_timeout_inserts_witness :
  timers_ok (next_timeout three) /\
  let '(tm', w') := sys_timeout pool_malloc (three, (1%nat, [])) 15 (Some 9) 0 in
  expiries 0 (next_timeout tm') = [(10, (Some 1, 0)); (15, (Some 2, 0)); (15, (Some 9, 0)); (35, (Some 3, 0))].
Proof.
  assert (timers_ok (next_timeout three)) as Hok by (split; [repeat constructor|]; vm_compute; congruence).
  split; [done|]. pose proof (sys_timeout_inserts pool_malloc three (1%nat, []) 15 (Some 9) 0 0 Hok
    ltac:(unfold is_u32; lia)) as H. destruct (sys_timeout _ _ _ _ _) as [tm' w']. destruct H as (_ & _ & _ & ->).
  reflexivity.
Defined.

Lemma sys_untimeout_removes_witness :
  let '(tm', w') := sys_untimeout pool_free (three, (0%nat, [])) (Some 2) 0 in
  expiries 0 (next_timeout tm') = [(10, (Some 1, 0)); (35, (Some 3, 0))] /\ w' = (1%nat, []).
Proof.
  assert (timers_ok (next_timeout three)) as Hok by (split; [repeat constructor|]; vm_compute; congruence).
  pose proof (sys_untimeout_removes pool_free three (0%nat, []) (Some 2) 0 0 Hok) as H.
  destruct (sys_untimeout _ _ _ _) as [tm' w']. destruct H as (_ & _ & ->  & ->). split; reflexivity.
Defined.

(** At a clock of 80 MHz, 312 ticks are a millisecond. *)
Lemma sys_check_timeouts_fires_witness :
  clock_ok 1 80000000 /\
  sys_check_timeouts pool_free log_call 4 (312 * 16) 1 80000000 (three, (0%nat, [])) =
    Ok (Timers [SysTimeo 20 (Some 3) 0] (312 * 16), (2%nat, [1; 2])) /\
  sys_check_timeouts pool_free log_call 4 (312 * 35) 1 80000000 (three, (0%nat, [])) = Fault NullDeref.
Proof.
  assert (timers_ok (next_timeout three)) as Hok by (split; [repeat constructor|]; vm_compute; congruence).
  split; [vm_compute; reflexivity|].
  split; rewrite (sys_check_timeouts_fires pool_free log_call log_work); try done;
    try (cbn; unfold is_u32; lia); try (cbn; lia).
Defined.

(** The program of the example: whether there is memory, whether there are
    connections, the flag, and the log.  The fine timer of DHCP opens a
    connection. *)
Record prog := Prog { room : bool; conns : bool; active : bool; ran : list protocol_timer }.
Definition prog_malloc (w : prog) : bool * prog := (room w, w).
Definition prog_free (w : prog) : prog := w.
Definition set_active (w : prog) (b : bool) : prog := Prog (room w) (conns w) b (ran w).
Abbreviation prog_needed := (tcp_timer_needed prog_malloc conns active set_active).
Definition prog_tmr (t : protocol_timer) (st : timers protocol_timer * prog) : result (timers protocol_timer * prog) :=
  let w := st.2 in
  match t with
  | dhcp_timer_fine => Ok (prog_needed (st.1, Prog (room w) true (active w) (ran w ++ [t])))
  | _ => Ok (st.1, Prog (room w) (conns w) (active w) (ran w ++ [t]))
  end.
Definition at_boot : timers protocol_timer * prog := sys_timeouts_init prog_malloc 0 (Timers [] 0, Prog true false false []).
Abbreviation prog_check := (sys_check_timeouts prog_free (run_timer prog_malloc prog_tmr conns set_active)).
Abbreviation prog_served := (served prog_malloc prog_free prog_tmr conns active set_active).

(** Memory stays, so every round is served. *)
Lemma prog_round now x y : room x.2.2 = true -> round prog_malloc prog_free prog_tmr conns set_active now x y -> room y.2.2 = true.
Proof.
  intros Hr (t & l & p & st & _ & _ & _ & E & ->). cbn [snd]. destruct x as [diff [tm w]]. cbn [snd] in *. destruct w as [m c a r]. cbn [room] in Hr. subst m.
  revert E. by destruct p, c, a; intros [= <-].
Qed.
Lemma prog_served_ok now x : room x.2.2 = true -> prog_served now x.
Proof.
  intros Hr y Hxy. assert (room y.2.2 = true) as Hy by (revert Hr; induction Hxy as [|x z y Hxz _ IH]; [done|intros Hr; by apply IH, (prog_round now x)]).
  intros t l p _ _ _. destruct y as [diff [tm w]]. cbn [snd] in *. destruct w as [m c a r]. cbn [room] in Hy. subst m.
  destruct (decide (p = dhcp_timer_fine)) as [->|Hp].
  - eexists. split; [reflexivity|]. split; [eexists _, _; right; apply surjective_pairing|by destruct c, a].
  - exists (Timers l now, Prog true c a (r ++ [p])). split; [by destruct p|]. split; [|done]. exists (Prog true c a r), (Prog true c a (r ++ [p])). left. reflexivity.
Qed.


(** Without memory the callback loses its timer; when it was the last one, the
    list is empty and the next round reads through NULL. *)
Example no_memory_no_timer :
  prog_check 2 (312 * 100) 1 80000000 (Timers [SysTimeo 100 (Some igmp_timer) 0] 0, Prog false false false []) = Fault NullDeref.
Proof. vm_compute. reflexivity. Qed.

Definition sure_malloc (w : list protocol_timer) : bool * list protocol_timer := (true, w).
Lemma tcp_timer_armed_twice_witness :
  map (fun e : event => (e.1, e.2.1)) (expiries 0 (next_timeout (sys_timeouts_init sure_malloc 7 (Timers [] 0, [])).1)) =
    [(100, Some igmp_timer); (125, Some tcp_timer_coarse); (500, Some dhcp_timer_fine);
     (1000, Some dns_timer); (5000, Some arp_timer); (60000, Some dhcp_timer_coarse)].
Proof.
  apply (tcp_timer_armed_twice sure_malloc (fun _ => true) (fun _ => false) (fun w _ => w) 7 []). done.
Defined.
