(* ===== verification/UserMain.v ===== *)
(** * The application: [user_main/user_main.c].

    Forwarding of packets between the host link and the network stack in both
    directions, the interception of the interface's functions, and the
    handlers of the host's commands.  The calls into the SDK and the network
    stack of the SDK are the class [Sdk] over the state [E] they keep. *)
From S2P Require Import Prelude Crc16 Cobs Uart Comm Message Pbuf InetChksum IpHdr.

(** ** The SDK *)

Inductive opmode := NULL_MODE | STATION_MODE | SOFTAP_MODE | STATIONAP_MODE.
Inductive sleep_type := NONE_SLEEP_T | LIGHT_SLEEP_T | MODEM_SLEEP_T.
Inductive dhcp_status := DHCP_STOPPED | DHCP_STARTED.
Inductive interface := STATION_IF | SOFTAP_IF.
Inductive station_status := STATION_IDLE | STATION_CONNECTING | STATION_WRONG_PASSWORD
  | STATION_NO_AP_FOUND | STATION_CONNECT_FAIL | STATION_GOT_IP | STATION_OTHER (z : Z).

(** [wifi_get_opmode() & STATION_MODE] and [& SOFTAP_MODE]. *)
Definition has_station (m : opmode) : bool :=
  match m with STATION_MODE | STATIONAP_MODE => true | _ => false end.
Definition has_softap (m : opmode) : bool :=
  match m with SOFTAP_MODE | STATIONAP_MODE => true | _ => false end.

Record ip_info := IpInfo { ip : Z; ip_netmask : Z; gw : Z }.
Record station_config := StationConfig { st_ssid : list Z; st_password : list Z; bssid_set : Z; st_bssid : list Z }.
Record scan_config := ScanConfig { scan_ssid : option (list Z); scan_bssid : option (list Z); scan_channel : Z; scan_hidden : Z }.
Record softap_config := SoftapConfig {
  ap_ssid : list Z; ap_password : list Z; ap_ssid_len : Z; ap_channel : Z; ap_authmode : Z;
  ap_ssid_hidden : Z; ap_max_connection : Z; ap_beacon_interval : Z
}.
Record dhcps_lease := DhcpsLease { start_ip : Z; end_ip : Z }.

(** A result of a scan; the SSID is the memory from its field on. *)
Record bss_info := BssInfo {
  bss_ssid : list Z; bss_bssid : list Z; bss_channel : Z; bss_authmode : Z; bss_rssi : Z; bss_is_hidden : Z
}.

(** Pointers to functions of the types [netif_input_fn], [netif_output_fn]
    and [netif_linkoutput_fn]. *)
Inductive fnptr := FN_NULL | FN_INPUT_MITM | FN_OUTPUT_MITM | FN_LINKOUTPUT_MITM | FN_OTHER (a : Z).
#[export] Instance fnptr_eq_dec : EqDecision fnptr.
Proof. solve_decision. Defined.

(** The three hooks of the [struct netif] of the SDK. *)
Record netif := Netif { input : fnptr; output : fnptr; linkoutput : fnptr }.

Class Sdk (E : Type) := {
  fn_address : fnptr -> Z;
  system_partition_table_regist : E -> bool * E;
  wifi_set_phy_mode_11N : E -> E;
  wifi_set_sleep_type : E -> sleep_type -> bool * E;
  wifi_set_opmode : E -> opmode -> bool * E;
  wifi_get_opmode : E -> opmode;
  wifi_station_dhcpc_status : E -> dhcp_status;
  wifi_station_dhcpc_start : E -> bool * E;
  wifi_station_dhcpc_stop : E -> bool * E;
  wifi_set_ip_info : E -> interface -> ip_info -> bool * E;
  wifi_get_ip_info : E -> interface -> option ip_info;
  dns_getserver : E -> Z -> Z;
  wifi_station_set_config_current : E -> station_config -> bool * E;
  wifi_station_disconnect : E -> E;
  wifi_station_connect : E -> E;
  wifi_station_scan : E -> scan_config -> bool * E;
  wifi_get_macaddr : E -> option (list Z);
  wifi_station_get_connect_status : E -> station_status;
  wifi_station_get_rssi : E -> Z;
  wifi_softap_set_config : E -> softap_config -> bool * E;
  wifi_softap_dhcps_status : E -> dhcp_status;
  wifi_softap_dhcps_start : E -> bool * E;
  wifi_softap_dhcps_stop : E -> bool * E;
  wifi_softap_set_dhcps_lease : E -> dhcps_lease -> bool * E;
  wifi_softap_set_dhcps_offer_router : E -> Z -> bool * E;
  system_get_sdk_version : E -> list Z;
  os_delay_us : E -> Z -> E;
  (* the interface of [eagle_lwip_getif(0)], NULL if there is none yet, and
     storing its hooks *)
  eagle_lwip_getif : E -> option netif;
  netif_store : E -> netif -> E;
  (* the raw API of the stack; a control block of 0 is NULL *)
  raw_new : E -> Z -> Z * E;
  raw_bind : E -> Z -> E;
  raw_recv : E -> Z -> E;
  raw_sendto : E -> store -> Z -> Z -> Z -> Z * store * E;
  (* calls through the saved hooks *)
  call_input : E -> store -> fnptr -> Z -> Z * store * E;
  call_output : E -> store -> fnptr -> Z -> Z -> Z * store * E;
  call_linkoutput : E -> store -> fnptr -> Z -> Z * store * E;
  (* [irq_save] and [irq_restore] *)
  irq_save : E -> Z * E;
  irq_restore : E -> Z -> E
}.

(** The static variables of the file, the pbufs, and the SDK's state. *)
Record firmware (E : Type) := Firmware {
  forward_ip_broadcasts : Z;
  global_forwarding_mode : Z;
  raw_pcb_tcp : Z;
  raw_pcb_udp : Z;
  netif_input_orig : fnptr;
  netif_output_orig : fnptr;
  netif_linkoutput_orig : fnptr;
  pbufs : gmap Z pbuf;
  sdk : E
}.
Arguments Firmware {E}. Arguments forward_ip_broadcasts {E}. Arguments global_forwarding_mode {E}.
Arguments raw_pcb_tcp {E}. Arguments raw_pcb_udp {E}. Arguments netif_input_orig {E}.
Arguments netif_output_orig {E}. Arguments netif_linkoutput_orig {E}. Arguments pbufs {E}.
Arguments sdk {E}.

Definition MAX_PACKET_SIZE : Z := 1600.

(** The initial values of the static variables. *)
Definition firmware_start {E} (e : E) : firmware E :=
  Firmware 1 FORWARDING_MODE_NONE 0 0 FN_NULL FN_NULL FN_NULL empty e.

Section user_main.
Context {D E : Type} `{Soc D, Os, Sdk E}.
Abbreviation world := (comm D (firmware E)).
Implicit Type s : world.

(** ** Access to the state *)

Definition set_fw s (f : firmware E) : world := set_ext s f.
Definition set_sdk s (e : E) : world :=
  let f := ext s in
  set_fw s (Firmware (forward_ip_broadcasts f) (global_forwarding_mode f) (raw_pcb_tcp f) (raw_pcb_udp f)
    (netif_input_orig f) (netif_output_orig f) (netif_linkoutput_orig f) (pbufs f) e).
Definition set_forward_broadcasts s (v : Z) : world :=
  let f := ext s in
  set_fw s (Firmware v (global_forwarding_mode f) (raw_pcb_tcp f) (raw_pcb_udp f)
    (netif_input_orig f) (netif_output_orig f) (netif_linkoutput_orig f) (pbufs f) (sdk f)).
Definition set_forwarding_mode s (v : Z) : world :=
  let f := ext s in
  set_fw s (Firmware (forward_ip_broadcasts f) v (raw_pcb_tcp f) (raw_pcb_udp f)
    (netif_input_orig f) (netif_output_orig f) (netif_linkoutput_orig f) (pbufs f) (sdk f)).
Definition set_raw_pcbs s (tcp udp : Z) : world :=
  let f := ext s in
  set_fw s (Firmware (forward_ip_broadcasts f) (global_forwarding_mode f) tcp udp
    (netif_input_orig f) (netif_output_orig f) (netif_linkoutput_orig f) (pbufs f) (sdk f)).
Definition set_origs s (i o l : fnptr) : world :=
  let f := ext s in
  set_fw s (Firmware (forward_ip_broadcasts f) (global_forwarding_mode f) (raw_pcb_tcp f) (raw_pcb_udp f)
    i o l (pbufs f) (sdk f)).

(** The pbufs and the heap, which the link's buffers share. *)
Definition get_store s : store := Store (pbufs (ext s)) (heap s).
Definition put_store s (st : store) : world :=
  let f := ext s in
  set_heap (set_fw s (Firmware (forward_ip_broadcasts f) (global_forwarding_mode f) (raw_pcb_tcp f)
    (raw_pcb_udp f) (netif_input_orig f) (netif_output_orig f) (netif_linkoutput_orig f) (cells st) (sdk f)))
    (blocks st).

(** A call into the SDK that returns a flag. *)
Definition sdk_call s (r : bool * E) : bool * world := (r.1, set_sdk s r.2).

Definition COMM_DBG s := comm_log s 10.
Definition COMM_INFO s := comm_log s 20.
Definition COMM_WARN s := comm_log s 30.
Definition COMM_ERR s := comm_log s 40.

(** [FAIL] sends the status 255 and logs; [TRY] does so when its condition
    holds and goes on with [k] otherwise. *)
Definition FAIL s (fmt : string) (args : list sprintf_arg) : result world :=
  let! s := comm_send_status s 255 in COMM_ERR s fmt args.
Definition TRY (expr : bool) s (fmt : string) (args : list sprintf_arg) (k : result world) : result world :=
  if expr then FAIL s fmt args else k.

(** ** From the network to the host *)

(** The fields of [struct ip_hdr] and [struct udp_hdr] as they are read. *)
Definition iph_hl (hdr : list Z) : result Z :=
  let! v := read_u16 hdr 0 in Ok (IPH_HL v).
Definition ip_proto (hdr : list Z) : result Z := mread hdr 9.
Definition ip_dest (hdr : list Z) : result Z := read_u32 hdr 16.

(** The last part of [raw_receiver] and of [netif_input_mitm]: the packet goes
    to the host if it is in one piece and not too large; [limit] is the size
    below which it is sent with the higher priority. *)
Definition forward_to_host s (type p limit : Z) : result world :=
  let! c := deref (get_store s) p in
  if negb (next c =? 0) then COMM_ERR s "internal error: got scattered packet" []
  else if MAX_PACKET_SIZE <? len c then COMM_WARN s "IP packet too large: %d" [SInt (len c)]
  else
    let prio := if len c <? limit then COMM_TX_PRIO_MEDIUM else COMM_TX_PRIO_LOW in
    let! data := load (get_store s) (payload c) 0 (len c) in
    comm_send s type data prio.

Definition free_pbuf s (p : Z) : result world :=
  let! (_, st) := pbuf_free (get_store s) p in Ok (put_store s st).

(** The packet goes to the host and is freed. *)
Definition take_packet s (p : Z) : result (Z * world) :=
  let! s := forward_to_host s MSG_IP_PACKET p (48 + 20) in
  let! s := free_pbuf s p in Ok (1, s).

(** A UDP packet with an IP header of [hl] words: DHCP stays inside. *)
Definition receive_udp s (p : Z) (udp_h : list Z) (hl : Z) : result (Z * world) :=
  let! (n, udp_h) := pbuf_copy_partial (get_store s) p udp_h SIZEOF_UDP_HDR (4 * hl) in
  if n =? 0 then
    let! s := COMM_WARN s "Can't copy UDP header from WLan packet" [] in Ok (0, s)
  else
    let! src := read_u16 udp_h 0 in
    let! dst := read_u16 udp_h 2 in
    let src := ntohs src in
    let dst := ntohs dst in
    if (src =? 67) || (dst =? 67) || (src =? 68) || (dst =? 68) then
      let! s := COMM_DBG s "Got DHCP packet, passing it to internal stack" [] in Ok (0, s)
    else take_packet s p.

(** [raw_receiver]: 1 when the packet was taken, 0 when it is left to the
    internal stack.  [udp_h] is the memory of the local [struct udp_hdr]. *)
Definition raw_receiver s (p : Z) (udp_h : list Z) : result (Z * world) :=
  let! c := deref (get_store s) p in
  let! s := COMM_DBG s "WLan IP packet of size %d" [SInt (tot_len c)] in
  if negb (global_forwarding_mode (ext s) =? FORWARDING_MODE_IP) then Ok (0, s)
  else
    let! (copied, hdr) :=
      pbuf_copy_partial (get_store s) p (replicate (Z.to_nat SIZEOF_IP_HDR) 0) SIZEOF_IP_HDR 0 in
    if negb (copied =? SIZEOF_IP_HDR) then
      let! s := COMM_WARN s "WLan packet of size %d has incomplete header" [SInt (tot_len c)] in Ok (0, s)
    else
      let! dest := ip_dest hdr in
      if (forward_ip_broadcasts (ext s) =? 0) && (dest =? 0xffffffff) then
        let! s := COMM_DBG s "Passing broadcast to internal stack" [] in Ok (0, s)
      else
        let! proto := ip_proto hdr in
        let! hl := iph_hl hdr in
        if proto =? IP_PROTO_UDP then receive_udp s p udp_h hl else take_packet s p.

Definition netif_input_mitm s (p : Z) : result (Z * world) :=
  let! c := deref (get_store s) p in
  let! s := COMM_DBG s "mitm input, size=%d" [SInt (tot_len c)] in
  if global_forwarding_mode (ext s) =? FORWARDING_MODE_ETHER then
    let! s := forward_to_host s MSG_ETHER_PACKET p (68 + 20) in
    let! s := free_pbuf s p in
    Ok (0, s)
  else
    let f := netif_input_orig (ext s) in
    if decide (f = FN_NULL) then let! s := COMM_WARN s "mitm input zero pointer" [] in Ok (0, s)
    else
      let '(r, st, e) := call_input (sdk (ext s)) (get_store s) f p in
      Ok (r, put_store (set_sdk s e) st).

Definition netif_output_mitm s (p ipaddr : Z) : result (Z * world) :=
  let! c := deref (get_store s) p in
  let! s := COMM_DBG s "mitm output, size=%d" [SInt (tot_len c)] in
  if global_forwarding_mode (ext s) =? FORWARDING_MODE_ETHER then Ok (0, s)
  else
    let f := netif_output_orig (ext s) in
    if decide (f = FN_NULL) then let! s := COMM_WARN s "mitm output zero pointer" [] in Ok (0, s)
    else
      let '(r, st, e) := call_output (sdk (ext s)) (get_store s) f p ipaddr in
      Ok (r, put_store (set_sdk s e) st).

Definition netif_linkoutput_mitm s (p : Z) : result (Z * world) :=
  let! c := deref (get_store s) p in
  let! s := COMM_DBG s "mitm linkoutput, size=%d" [SInt (tot_len c)] in
  if global_forwarding_mode (ext s) =? FORWARDING_MODE_ETHER then Ok (0, s)
  else
    let f := netif_linkoutput_orig (ext s) in
    if decide (f = FN_NULL) then let! s := COMM_WARN s "mitm linkoutput zero pointer" [] in Ok (0, s)
    else
      let '(r, st, e) := call_linkoutput (sdk (ext s)) (get_store s) f p in
      Ok (r, put_store (set_sdk s e) st).

(** One hook of [mitm_interface]: unless it is ours already, it is logged,
    saved and replaced. *)
Definition mitm_hook s (cur mine : fnptr) (fmt : string) (save : world -> world) (store_hook : world -> world)
  : result world :=
  if decide (cur = mine) then Ok s
  else
    let! s := COMM_INFO s fmt [SInt (fn_address cur)] in
    Ok (store_hook (save s)).

(** Storing one hook of the interface. *)
Definition store_netif s (f : netif -> netif) : world :=
  match eagle_lwip_getif (sdk (ext s)) with
  | Some n => set_sdk s (netif_store (sdk (ext s)) (f n))
  | None => s
  end.

Definition mitm_interface s : result world :=
  match eagle_lwip_getif (sdk (ext s)) with
  | None => COMM_DBG s "mitm_interface: netif not ready" []
  | Some n =>
      let! s := mitm_hook s (input n) FN_INPUT_MITM "mitm_interface: input %x"
        (fun s => set_origs s (input n) (netif_output_orig (ext s)) (netif_linkoutput_orig (ext s)))
        (fun s => store_netif s (fun n => Netif FN_INPUT_MITM (output n) (linkoutput n))) in
      let! s := mitm_hook s (output n) FN_OUTPUT_MITM "mitm_interface: output %x"
        (fun s => set_origs s (netif_input_orig (ext s)) (output n) (netif_linkoutput_orig (ext s)))
        (fun s => store_netif s (fun n => Netif (input n) FN_OUTPUT_MITM (linkoutput n))) in
      mitm_hook s (linkoutput n) FN_LINKOUTPUT_MITM "mitm_interface: linkoutput %x"
        (fun s => set_origs s (netif_input_orig (ext s)) (netif_output_orig (ext s)) (linkoutput n))
        (fun s => store_netif s (fun n => Netif (input n) (output n) FN_LINKOUTPUT_MITM))
  end.

(** ** From the host to the network *)

(** [memcpy(p->payload, l, n); p->tot_len = n; p->len = n]. *)
Definition fill_pbuf s (p : Z) (l : list Z) (n : Z) : result world :=
  let! c := deref (get_store s) p in
  let! st := save (get_store s) (payload c) 0 l in
  Ok (put_store s (put st p (set_len (set_tot_len c (u16 n)) (u16 n)))).

(** [inject_ip_packet(data, n)]: the status of [raw_sendto], or -1. *)
Definition inject_ip_packet s (data : list Z) (n : Z) : result (Z * world) :=
  if n <? SIZEOF_IP_HDR then
    let! s := COMM_ERR s "Packet of size %d is too short" [SInt n] in Ok (-1, s)
  else
    let! hdr := mslice data 0 SIZEOF_IP_HDR in
    let! proto := ip_proto hdr in
    if negb (proto =? IP_PROTO_TCP) && negb (proto =? IP_PROTO_UDP) then
      let! s := COMM_ERR s "Proto %d is not supported" [SInt proto] in Ok (-1, s)
    else
      let! hl := iph_hl hdr in
      let hl := 4 * hl in
      if n <? hl then
        let! s := COMM_ERR s "Header is larger than data: hl=%d, dl=%d" [SInt hl; SInt n] in Ok (-1, s)
      else
        let n := n - hl in
        let! (p, st) := pbuf_alloc (get_store s) PBUF_IP (u16 n) PBUF_RAM in
        let s := put_store s st in
        if p =? 0 then
          let! s := COMM_ERR s "Failed to allocate packet of size %d" [SInt n] in Ok (-1, s)
        else
          let! l := mslice data hl n in
          let! s := fill_pbuf s p l n in
          let pcb := if proto =? 6 then raw_pcb_tcp (ext s) else raw_pcb_udp (ext s) in
          let! dest := ip_dest hdr in
          let '(status, st, e) := raw_sendto (sdk (ext s)) (get_store s) pcb p dest in
          let s := put_store (set_sdk s e) st in
          let! s := free_pbuf s p in
          Ok (status, s).

(** The exits of [inject_ether_packet]: the interrupt level is restored. *)
Definition restore_irq s (irq_level : Z) : world := set_sdk s (irq_restore (sdk (ext s)) irq_level).

Definition inject_ether_packet s (data : list Z) (n : Z) : result (Z * world) :=
  let '(irq_level, e) := irq_save (sdk (ext s)) in
  let s := set_sdk s e in
  let fail s := Ok (-1, restore_irq s irq_level) in
  let f := netif_linkoutput_orig (ext s) in
  if decide (f = FN_NULL) then let! s := COMM_WARN s "netif_linkoutput_orig is zero" [] in fail s
  else
    match eagle_lwip_getif (sdk (ext s)) with
    | None => let! s := COMM_WARN s "netif doesn't exist yet" [] in fail s
    | Some _ =>
        let! (p, st) := pbuf_alloc (get_store s) PBUF_RAW (u16 n) PBUF_RAM in
        let s := put_store s st in
        if p =? 0 then
          let! s := COMM_ERR s "Failed to allocate packet of size %d" [SInt n] in fail s
        else
          let! l := mslice data 0 n in
          let! s := fill_pbuf s p l n in
          let '(_, st, e) := call_linkoutput (sdk (ext s)) (get_store s) f p in
          let s := put_store (set_sdk s e) st in
          let! s := free_pbuf s p in
          Ok (0, restore_irq s irq_level)
    end.

(** ** Scan results *)

(** The entry for one access point; [e_ssid] is what the field holds before,
    as only [ssid_len] bytes of it are written. *)
Definition scan_entry (i : Z) (b : bss_info) (e_ssid : list Z) : result msg_wifi_scan_entry :=
  let! bss_len := strlen (bss_ssid b) in
  let ssid_len := u8 (Z.min bss_len 32) in
  let! name := mslice (bss_ssid b) 0 ssid_len in
  let! ssid := mcopy e_ssid 0 name in
  let! bssid := mslice (bss_bssid b) 0 6 in
  Ok (MsgScanEntry (u16 i) ssid_len ssid bssid (u8 (bss_channel b)) (u8 (bss_authmode b))
        (s16 (bss_rssi b)) (u8 (bss_is_hidden b))).

(** One [MSG_WIFI_SCAN_ENTRY] per access point. *)
Fixpoint send_entries s (l : list bss_info) (i : Z) (e_ssid : list Z) : result world :=
  match l with
  | [] => Ok s
  | b :: l =>
      let! e := scan_entry i b e_ssid in
      let! s := comm_send_ctl s MSG_WIFI_SCAN_ENTRY (bytes_msg_wifi_scan_entry e) in
      send_entries s l (i + 1) (se_ssid e)
  end.

(** [scan_done(arg, status)]: [bss] is the list at [arg], whose first element
    is skipped; [ok] is [status == OK]. *)
Definition scan_done s (bss : list bss_info) (ok : bool) (e_ssid : list Z) : result world :=
  if negb ok then Ok s
  else
    match bss with
    | [] => Fault NullDeref
    | _ :: found =>
        let r := MsgScanReply 0 (u16 (zlen found)) in
        let! s := comm_send_ctl s MSG_WIFI_SCAN_REPLY (bytes_msg_wifi_scan_reply r) in
        send_entries s found 0 e_ssid
    end.

(** ** Commands of the host

    One definition per [case] of [packet_from_host]; [data] is the memory
    behind the pointer, [n] the length of the payload. *)

Definition on_ip_packet s (data : list Z) (n : Z) : result world :=
  let! s := COMM_DBG s "Packet from host, %d bytes" [SInt n] in
  if global_forwarding_mode (ext s) =? FORWARDING_MODE_IP then
    let! (_, s) := inject_ip_packet s data n in Ok s
  else COMM_ERR s "Cannot forward IP packet in mode %d" [SInt (global_forwarding_mode (ext s))].

Definition on_ether_packet s (data : list Z) (n : Z) : result world :=
  if global_forwarding_mode (ext s) =? FORWARDING_MODE_ETHER then
    let! (_, s) := inject_ether_packet s data n in Ok s
  else COMM_ERR s "Cannot forward Ether packet in mode %d" [SInt (global_forwarding_mode (ext s))].

Definition decode_mode (b : Z) : option opmode :=
  if b =? 0 then Some NULL_MODE
  else if b =? MODE_STA then Some STATION_MODE
  else if b =? MODE_SOFTAP then Some SOFTAP_MODE
  else if b =? Z.lor MODE_STA MODE_SOFTAP then Some STATIONAP_MODE
  else None.

Definition on_wifi_mode_set s (data : list Z) (n : Z) : result world :=
  TRY (negb (n =? 1)) s "Wrong size of WIFI_MODE_SET payload: %d" [SInt n] (
  let! d0 := mread data 0 in
  match decode_mode d0 with
  | None => FAIL s "Cannot decode bitmask %d" [SInt d0]
  | Some mode =>
      let '(ok, s) := sdk_call s (wifi_set_opmode (sdk (ext s)) mode) in
      TRY (negb ok) s "wifi_set_opmode() failed" [] (comm_send_status s 0)
  end).

Definition on_static_ip_conf_set s (data : list Z) (n : Z) : result world :=
  TRY (negb (has_station (wifi_get_opmode (sdk (ext s))))) s
    "Cannot set STA IP while STA is inactive" [] (
  TRY (negb (n =? sizeof_msg_ip_conf)) s "Wrong size of STATIC_IP_CONF payload: %d" [SInt n] (
  let rest s :=
    let! conf := read_msg_ip_conf data in
    let info := IpInfo (address conf) (netmask conf) (gateway conf) in
    let '(ok, s) := sdk_call s (wifi_set_ip_info (sdk (ext s)) STATION_IF info) in
    TRY (negb ok) s "wifi_set_ip_info() failed" [] (comm_send_status s 0) in
  match wifi_station_dhcpc_status (sdk (ext s)) with
  | DHCP_STARTED =>
      let '(ok, s) := sdk_call s (wifi_station_dhcpc_stop (sdk (ext s))) in
      TRY (negb ok) s "Unable to stop DHCPC" [] (rest s)
  | DHCP_STOPPED => rest s
  end)).

(** The condition of the [TRY] is the result of the call, not its negation. *)
Definition on_dhcpc_state_set s (data : list Z) (n : Z) : result world :=
  TRY (negb (n =? 1)) s "Wrong size of DHCPC payload: %d" [SInt n] (
  let! d0 := mread data 0 in
  let stop s :=
    match c_true d0, wifi_station_dhcpc_status (sdk (ext s)) with
    | false, DHCP_STARTED =>
        let '(ok, s) := sdk_call s (wifi_station_dhcpc_stop (sdk (ext s))) in
        TRY ok s "wifi_station_dhcpc_stop() failed" [] (comm_send_status s 0)
    | _, _ => comm_send_status s 0
    end in
  match c_true d0, wifi_station_dhcpc_status (sdk (ext s)) with
  | true, DHCP_STOPPED =>
      let '(ok, s) := sdk_call s (wifi_station_dhcpc_start (sdk (ext s))) in
      TRY ok s "wifi_station_dhcpc_start() failed" [] (stop s)
  | _, _ => stop s
  end).

Definition on_ip_conf_request s : result world :=
  match wifi_get_ip_info (sdk (ext s)) STATION_IF with
  | None => FAIL s "wifi_get_ip_info() failed" []
  | Some info =>
      let conf := MsgIpConf (ip info) (ip_netmask info) (gw info)
                    (map (dns_getserver (sdk (ext s))) [0; 1; 2]) in
      comm_send_ctl s MSG_STATION_IP_CONF_REPLY (bytes_msg_ip_conf conf)
  end.

(** A field of [size] bytes, cleared and filled from the front. *)
Definition fill_field (size : nat) (src : list Z) (len : Z) : result (list Z) :=
  let! l := mslice src 0 len in mcopy (replicate size 0) 0 l.

(** The name and password of a configuration message; the fields of the SDK
    have 32 and 64 bytes. *)
Definition check_credentials s (ssid_len password_len : Z) (k : result world) : result world :=
  if 32 <? ssid_len + 1 then FAIL s "SSID is too long, should be max %d" [SInt (32 - 1)]
  else if 64 <? password_len + 1 then FAIL s "Password is too long, should be max %d" [SInt (64 - 1)]
  else k.

Definition on_station_conf_set s (data : list Z) (n : Z) : result world :=
  TRY (negb (n =? sizeof_msg_station_conf)) s "Wrong size of STATION_CONF payload: %d" [SInt n] (
  let! in_conf := read_msg_station_conf data in
  check_credentials s (sc_ssid_len in_conf) (sc_password_len in_conf) (
  let! ssid := fill_field 32 (sc_ssid in_conf) (sc_ssid_len in_conf) in
  let! password := fill_field 64 (sc_password in_conf) (sc_password_len in_conf) in
  let conf := StationConfig ssid password 0 (replicate 6 0) in
  TRY (negb (has_station (wifi_get_opmode (sdk (ext s))))) s
    "Cannot set STA conf when not in STA mode" [] (
  let '(ok, s) := sdk_call s (wifi_station_set_config_current (sdk (ext s)) conf) in
  TRY (negb ok) s "Call to set WIFI ssid/pass failed" [] (
  let s := set_sdk s (wifi_station_disconnect (sdk (ext s))) in
  let s := set_sdk s (wifi_station_connect (sdk (ext s))) in
  comm_send_status s 0)))).

Definition decode_sleep (b : Z) : option sleep_type :=
  if b =? 0 then Some NONE_SLEEP_T
  else if b =? 1 then Some MODEM_SLEEP_T
  else if b =? 2 then Some LIGHT_SLEEP_T
  else None.

Definition on_sleep_mode_set s (data : list Z) (n : Z) : result world :=
  TRY (negb (n =? 1)) s "Wrong size of Sleep Mode payload: %d" [SInt n] (
  let! d0 := mread data 0 in
  match decode_sleep d0 with
  | None => FAIL s "Undefined sleep mode %d" [SInt d0]
  | Some mode =>
      let '(ok, s) := sdk_call s (wifi_set_sleep_type (sdk (ext s)) mode) in
      TRY (negb ok) s "Failed to set sleep mode" [] (comm_send_status s 0)
  end).

Definition on_scan_request s (data : list Z) (n : Z) : result world :=
  TRY (negb (n =? sizeof_msg_wifi_scan_request)) s "Wrong size of Scan Request payload: %d" [SInt n] (
  let! r := read_msg_wifi_scan_request data in
  let config := ScanConfig
    (if c_true (sr_ssid_len r) then Some (sr_ssid r ++ [0]) else None)
    (if c_true (use_bssid r) then Some (sr_bssid r) else None)
    (sr_channel r) (show_hidden r) in
  let '(ok, s) := sdk_call s (wifi_station_scan (sdk (ext s)) config) in
  TRY (negb ok) s "Scan request failed" [] (comm_send_status s 0)).

Definition on_macaddr_request s : result world :=
  match wifi_get_macaddr (sdk (ext s)) with
  | None => FAIL s "Failed to get mac address" []
  | Some mac => comm_send_ctl s MSG_WIFI_GET_MACADDR_REPLY mac
  end.

Definition encode_status (st : station_status) : Z :=
  match st with
  | STATION_IDLE => 0
  | STATION_CONNECTING => 1
  | STATION_WRONG_PASSWORD => 2
  | STATION_NO_AP_FOUND => 3
  | STATION_CONNECT_FAIL => 4
  | STATION_GOT_IP => 5
  | STATION_OTHER _ => 0xff
  end.

Definition on_conn_status_request s : result world :=
  comm_send_ctl s MSG_STATION_CONN_STATUS_REPLY
    [encode_status (wifi_station_get_connect_status (sdk (ext s)))].

Definition on_rssi_request s : result world :=
  let rssi := wifi_station_get_rssi (sdk (ext s)) in
  if rssi =? 31 then FAIL s "wifi_station_get_rssi() returned '31'" []
  else comm_send_ctl s MSG_STATION_RSSI_REPLY [u8 rssi].

Definition on_forward_ip_broadcasts s (data : list Z) (n : Z) : result world :=
  TRY (negb (n =? 1)) s "Wrong size of Forward Ip Broadcasts payload: %d" [SInt n] (
  let! d0 := mread data 0 in comm_send_status (set_forward_broadcasts s d0) 0).

Definition on_set_forwarding_mode s (data : list Z) (n : Z) : result world :=
  TRY (negb (n =? 1)) s "Wrong size of Set Forwarding Mode payload: %d" [SInt n] (
  let! d0 := mread data 0 in comm_send_status (set_forwarding_mode s d0) 0).

Definition on_softap_conf_set s (data : list Z) (n : Z) : result world :=
  TRY (negb (n =? sizeof_msg_softap_conf)) s "Wrong size of SOFTAP_CONF payload: %d" [SInt n] (
  let! in_conf := read_msg_softap_conf data in
  check_credentials s (sa_ssid_len in_conf) (sa_password_len in_conf) (
  let! ssid := fill_field 32 (sa_ssid in_conf) (sa_ssid_len in_conf) in
  let! password := fill_field 64 (sa_password in_conf) (sa_password_len in_conf) in
  let conf := SoftapConfig ssid password (sa_ssid_len in_conf) (sa_channel in_conf)
                (sa_auth_mode in_conf) 0 4 (sa_beacon_interval in_conf) in
  TRY (negb (has_softap (wifi_get_opmode (sdk (ext s))))) s "Cannot switch to SoftAP mode" [] (
  let '(ok, s) := sdk_call s (wifi_softap_set_config (sdk (ext s)) conf) in
  TRY (negb ok) s "Call to set WIFI ssid/pass failed" [] (comm_send_status s 0)))).

(** The DHCP server part of [MSG_SOFTAP_NET_CONF_SET]. *)
Definition start_dhcpd s (conf : msg_softap_net_conf) : result world :=
  let leases := DhcpsLease (dhcpd_first_ip conf) (dhcpd_last_ip conf) in
  let '(ok, s) := sdk_call s (wifi_softap_set_dhcps_lease (sdk (ext s)) leases) in
  TRY (negb ok) s "wifi_softap_set_dhcps_lease() failed" [] (
  let start s :=
    let '(ok, s) := sdk_call s (wifi_softap_dhcps_start (sdk (ext s))) in
    TRY (negb ok) s "wifi_softap_dhcps_start() failed" [] (comm_send_status s 0) in
  let omode := dhcpd_offer_gateway conf in
  if c_true omode then
    let '(ok, s) := sdk_call s (wifi_softap_set_dhcps_offer_router (sdk (ext s)) omode) in
    TRY (negb ok) s "wifi_softap_set_dhcps_offer_option() failed" [] (start s)
  else start s).

Definition on_softap_net_conf_set s (data : list Z) (n : Z) : result world :=
  TRY (negb (n =? sizeof_msg_softap_net_conf)) s "Wrong size of STATION_STATIC_IP_CONF payload: %d" [SInt n] (
  let! conf := read_msg_softap_net_conf data in
  let info := IpInfo (sn_address conf) (sn_netmask conf) (sn_gateway conf) in
  let rest s :=
    let '(ok, s) := sdk_call s (wifi_set_ip_info (sdk (ext s)) SOFTAP_IF info) in
    TRY (negb ok) s "wifi_set_ip_info() failed" [] (
    if c_true (enable_dhcpd conf) then start_dhcpd s conf else comm_send_status s 0) in
  match wifi_softap_dhcps_status (sdk (ext s)) with
  | DHCP_STARTED =>
      let '(ok, s) := sdk_call s (wifi_softap_dhcps_stop (sdk (ext s))) in
      TRY (negb ok) s "wifi_softap_dhcps_stop() failed" [] (rest s)
  | DHCP_STOPPED => rest s
  end).

Definition on_log_level_set s (data : list Z) (n : Z) : result world :=
  TRY (negb (n =? 1)) s "Wrong size of Set Loglevel payload: %d" [SInt n] (
  let! d0 := mread data 0 in comm_send_status (comm_set_loglevel s d0) 0).

Definition on_print_stats s : result world :=
  let '(rx_errors, crc_errors, dropped_packets) := comm_get_stats s in
  COMM_INFO s "HEAP free: %d, rx_err: %d, crc_err: %d, dropped: %d"
    [SInt (system_get_free_heap_size (heap s)); SInt (s32 rx_errors); SInt (s32 crc_errors);
     SInt (s32 dropped_packets)].

Definition on_set_baud s (data : list Z) : result world :=
  let! baud := read_u32 data 0 in
  if baud =? 0 then Fault DivByZero
  else Ok (set_dev s (call_soc (dev s) (uart_div_modify 0 (UART_CLK_FREQ / baud)))).

(** The [switch (type)]. *)
Definition host_command s (type : Z) (data : list Z) (n : Z) : result world :=
  if type =? MSG_IP_PACKET then on_ip_packet s data n
  else if type =? MSG_ETHER_PACKET then on_ether_packet s data n
  else if type =? MSG_WIFI_MODE_SET then on_wifi_mode_set s data n
  else if type =? MSG_STATION_STATIC_IP_CONF_SET then on_static_ip_conf_set s data n
  else if type =? MSG_STATION_DHCPC_STATE_SET then on_dhcpc_state_set s data n
  else if type =? MSG_STATION_IP_CONF_REQUEST then on_ip_conf_request s
  else if type =? MSG_STATION_CONF_SET then on_station_conf_set s data n
  else if type =? MSG_WIFI_SLEEP_MODE_SET then on_sleep_mode_set s data n
  else if type =? MSG_WIFI_SCAN_REQUEST then on_scan_request s data n
  else if type =? MSG_WIFI_GET_MACADDR_REQUEST then on_macaddr_request s
  else if type =? MSG_STATION_CONN_STATUS_REQUEST then on_conn_status_request s
  else if type =? MSG_STATION_RSSI_REQUEST then on_rssi_request s
  else if type =? MSG_FORWARD_IP_BROADCASTS then on_forward_ip_broadcasts s data n
  else if type =? MSG_SET_FORWARDING_MODE then on_set_forwarding_mode s data n
  else if type =? MSG_SOFTAP_CONF_SET then on_softap_conf_set s data n
  else if type =? MSG_SOFTAP_NET_CONF_SET then on_softap_net_conf_set s data n
  else if type =? MSG_LOG_LEVEL_SET then on_log_level_set s data n
  else if type =? MSG_PRINT_STATS then on_print_stats s
  else if type =? MSG_ECHO_REQUEST then
    let! l := mslice data 0 n in comm_send_ctl s MSG_ECHO_REPLY l
  else if type =? MSG_SET_BAUD then on_set_baud s data
  else Ok s.

Definition packet_from_host s (type : Z) (data : list Z) (n : Z) : result world :=
  let! s := mitm_interface s in host_command s type data n.

(** ** Start *)

(** [user_pre_init]: the SDK is asked until it accepts the partition table. *)
Fixpoint user_pre_init (fuel : nat) (e : E) : result E :=
  match fuel with
  | O => Fault OutOfFuel
  | S fuel =>
      let '(rc, e) := system_partition_table_regist e in
      if (rc : bool) then Ok e else user_pre_init fuel e
  end.

Definition init_wlan s : result world :=
  let s := set_sdk s (wifi_set_phy_mode_11N (sdk (ext s))) in
  let '(_, s) := sdk_call s (wifi_set_sleep_type (sdk (ext s)) NONE_SLEEP_T) in
  let '(tcp, e) := raw_new (sdk (ext s)) 6 in
  let '(udp, e) := raw_new e 17 in
  let s := set_raw_pcbs (set_sdk s e) tcp udp in
  if (tcp =? 0) || (udp =? 0) then COMM_DBG s "Failed to init raw sockets" []
  else
    let e := raw_bind (sdk (ext s)) tcp in
    let e := raw_bind e udp in
    let e := raw_recv e tcp in
    let e := raw_recv e udp in
    Ok (set_sdk s e).

(** [user_init]; [raw] is the receive buffer of the link, [version] the
    version string of the build, [fuel] the polls of the transmit FIFO. *)
Definition user_init (fuel : nat) s (raw version : list Z) (alignment : Z) : result world :=
  let s := set_sdk s (os_delay_us (sdk (ext s)) (50 * 1000)) in
  let! (u, d) := uart_init (uart_dev s) (dev s) BIT_RATE_115200 BIT_RATE_115200 in
  let s := set_uart s u d in
  let! s := comm_init fuel s raw in
  let! s := comm_send_ctl s MSG_BOOT [] in
  let! s := COMM_INFO s "SDK version: %s" [SStr (system_get_sdk_version (sdk (ext s)))] in
  let! s := COMM_INFO s "FW version: %s" [SStr version] in
  let! s := COMM_INFO s "Heap size: %d" [SInt (system_get_free_heap_size (heap s))] in
  let! s := COMM_INFO s "Alignment: %d" [SInt alignment] in
  init_wlan s.
End user_main.
