(* ===== verification/Host.v ===== *)
(** * Commands of the host: what every handler of [packet_from_host]
    guarantees.

    The invariant [safe] of the firmware, what a handler may say to the host
    ([told]), and the laws of the SDK the theorems rely on. *)
From S2P Require Import Prelude Crc16 Cobs Uart Comm CommTx Message Pbuf PbufChain InetChksum UserMain.

(** ** Laws of the SDK *)

(** Every integer conversion of the formats of the firmware has two characters
    and prints at most eleven. *)
Class OsText `{Os} := {
  os_sprintf_ints : forall f zs,
    zlen (os_sprintf f (map SInt zs)) <= Z.of_nat (String.length f) + 9 * zlen zs /\
    bytes (os_sprintf f (map SInt zs))
}.

(** What a function of the stack leaves of the memory it is called in: what is
    not a pbuf stays as it is, and every pbuf has memory. *)
Record stack_frame (st st' : store) : Prop := {
  frame_others : forall a, is_Some (blocks st !! a) -> cells st !! a = None ->
    blocks st' !! a = blocks st !! a /\ cells st' !! a = None;
  frame_backed : backed st -> backed st'
}.

(** A pbuf lent to the stack: the caller's reference is still there. *)
Definition lent (st : store) (p : Z) : Prop :=
  p <> 0 /\ exists c, cells st !! p = Some c /\ next c = 0 /\ 1 <= ref c < 65536.

Class SdkLaws (E : Type) `{Sdk E} := {
  getif_store : forall e n0 n, eagle_lwip_getif e = Some n0 ->
    eagle_lwip_getif (netif_store e n) = Some n;
  macaddr_length : forall e l, wifi_get_macaddr e = Some l -> zlen l = 6 /\ bytes l;
  raw_sendto_frame : forall e st pcb p dst, lent st p ->
    let '(_, st', _) := raw_sendto e st pcb p dst in stack_frame st st' /\ lent st' p;
  call_linkoutput_frame : forall e st f p, lent st p ->
    let '(_, st', _) := call_linkoutput e st f p in stack_frame st st' /\ lent st' p
}.

Section host.
Context {D E : Type} `{Soc D, OsLaws, !OsText, SdkLaws E}.
Abbreviation world := (comm D (firmware E)).
Implicit Type s : world.

(** ** The invariant *)

(** The ring is well-formed and [k] more messages meet it with room or before
    its write index wraps, every pbuf has memory, and none of it is a frame of the ring. *)
Record safe (k : nat) s : Prop := {
  safe_ring : ring_ok (tx s) (heap s);
  safe_room : room k (tx s);
  safe_backed : backed (get_store s);
  safe_apart : Forall (fun e => pbufs (ext s) !! e.1 = None) (entries (tx s))
}.

(** Nothing but the transmit side changed. *)
Definition after s s' : Prop := rest_of s' = rest_of s /\ heap s ⊆ heap s'.

(** [s'] is [s] after the messages of [l] were pushed, each with its
    priority: queued, refused with the drop counter raised, or lost for want
    of memory. *)
Fixpoint sends s (l : list (list Z * Z)) s' : Prop :=
  match l with
  | [] => s' = s
  | (msg, prio) :: l => exists s1, push_outcome s msg prio s1 /\ sends s1 l s'
  end.

Record told (k : nat) s (l : list (list Z * Z)) s' : Prop := {
  told_sends : sends s l s';
  told_safe : safe k s';
  told_after : after s s'
}.

Definition ctl_msg (type : Z) (data : list Z) : list Z * Z := (message type data, COMM_TX_PRIO_HIGH).
Definition status_msg (v : Z) : list Z * Z := ctl_msg MSG_STATUS [v].
(** The message of a log line, when its level is not suppressed. *)
Definition log_msg s (level : Z) (text : list Z) : list (list Z * Z) :=
  if comm_loglevel s <=? level then [ctl_msg MSG_LOG (level :: text)] else [].

Lemma after_refl s : after s s.
Proof. by split. Qed.
Lemma after_trans s1 s2 s3 : after s1 s2 -> after s2 s3 -> after s1 s3.
Proof. intros [E1 L1] [E2 L2]. split; [congruence|by etransitivity]. Qed.
Lemma after_ext s s' : after s s' -> ext s' = ext s.
Proof. intros [E1 _]. by injection E1. Qed.
Lemma after_loglevel s s' : after s s' -> comm_loglevel s' = comm_loglevel s.
Proof. intros [E1 _]. by injection E1. Qed.

Lemma sends_app l1 : forall s l2 s1 s', sends s l1 s1 -> sends s1 l2 s' -> sends s (l1 ++ l2) s'.
Proof.
  induction l1 as [|[m p] l1 IH]; intros s l2 s1 s'; [by intros ->|].
  intros (s2 & Ho & Hs) T2. exists s2. split; [done|by eapply IH].
Qed.

Lemma told_nil k s : safe k s -> told k s [] s.
Proof. intros Hs. by split; [|done|apply after_refl]. Qed.
Lemma told_app k k' s l1 s1 l2 s' : told k s l1 s1 -> told k' s1 l2 s' -> told k' s (l1 ++ l2) s'.
Proof. intros [T1 _ A1] [T2 Hs A2]. split; [by eapply sends_app|done|by eapply after_trans]. Qed.

Lemma safe_le k k' s : (k' <= k)%nat -> safe k s -> safe k' s.
Proof. intros Hk []. split; [done|by eapply room_le|done|done]. Qed.

(** Pushing one message. *)
Lemma push_told k s data prio : safe (S k) s -> sendable data ->
  exists s', push s data prio = Ok s' /\ told k s [(data, prio)] s'.
Proof using Type*.
  intros [Hr Hk Hb Ha] Hd.
  destruct (push_ok s data prio) as (s' & E1 & Ho); [done|by eapply room_not_wrapped|done|].
  exists s'. split; [done|]. enough (safe k s' /\ after s s') as [] by (split; [|done|done]; by exists s').
  unfold push_outcome in Ho. destruct (push_admits s prio).
  2:{ subst s'. split; [|by split]. split; [by apply ring_drop| |done|done]. apply (room_le (S k) k (tx s)); [lia|exact Hk]. }
  destruct (os_malloc _ _); [|subst s'; split; [split; try done; by apply (room_le (S k)); [lia|]|apply after_refl]].
  destruct Ho as [Hr' Hq [Eri Ewi] _ _ _ _ _ _ Hrest Hh (e & He & Hen)].
  pose proof Hrest as Hext. injection Hext as _ _ _ _ _ _ Hext.
  assert (backed (get_store s')) as Hb'.
  { intros a Hc. unfold get_store in *. cbn [cells blocks] in *. rewrite Hext in Hc.
    destruct (Hb a Hc) as [b Hab]. exists b. by eapply lookup_weaken. }
  split; [|by split]. split; [done| |done|].
  { destruct Hk as [Hk|Hk]; [left; lia|right]. rewrite Eri, Ewi. pose proof (ring_write _ _ Hr). rewrite u16_small by width_lia. lia. }
  rewrite Hen, Hext. apply Forall_app. split; [done|]. apply Forall_singleton.
  apply eq_None_not_Some. intros Hc. destruct (Hb e.1 Hc) as [b Hab]. cbn in Hab. congruence.
Qed.

Lemma send_told k s type data prio : safe (S k) s -> is_byte type -> bytes data ->
  zlen data < 2 ^ 31 - 3 ->
  exists s', comm_send s type data prio = Ok s' /\ told k s [(message type data, prio)] s'.
Proof using Type*. intros. by apply push_told, sendable_message. Qed.

Lemma ctl_told k s type data : safe (S k) s -> is_byte type -> bytes data ->
  zlen data < 2 ^ 31 - 3 ->
  exists s', comm_send_ctl s type data = Ok s' /\ told k s [ctl_msg type data] s'.
Proof using Type*. apply send_told. Qed.

Lemma status_told k s v : safe (S k) s -> is_byte v ->
  exists s', comm_send_status s v = Ok s' /\ told k s [status_msg v] s'.
Proof using Type*.
  intros Hs Hv. unfold comm_send_status. rewrite u8_small by done.
  apply ctl_told; [done|done|by apply Forall_singleton|done].
Qed.

(** A line whose format and arguments fit the buffer. *)
Lemma log_told k s level f zs : safe (S k) s -> is_byte level ->
  Z.of_nat (String.length f) + 9 * zlen zs <= 126 ->
  exists s', comm_log s level f (map SInt zs) = Ok s' /\
    told k s (log_msg s level (os_sprintf f (map SInt zs))) s'.
Proof using Type*.
  intros Hs Hl Hf. destruct (os_sprintf_ints f zs) as [Hlen Hby].
  unfold comm_log, comm_log_via, log_msg. destruct (comm_loglevel s <=? level).
  - unfold PRINT_BUF_SIZE. rewrite (proj2 (Z.ltb_ge _ _)) by lia.
    apply send_told; [done|done|by apply bytes_cons|zl; lia].
  - exists s. split; [done|]. apply told_nil. by eapply safe_le; [|done]; lia.
Qed.

(** [FAIL]: the status 255 and an error line. *)
Lemma fail_told k s f zs : safe (S (S k)) s -> Z.of_nat (String.length f) + 9 * zlen zs <= 126 ->
  exists s', FAIL s f (map SInt zs) = Ok s' /\
    told k s (status_msg 255 :: log_msg s 40 (os_sprintf f (map SInt zs))) s'.
Proof using Type*.
  intros Hs Hf. unfold FAIL. destruct (status_told (S k) s 255) as (s1 & E1 & T1); [done|done|].
  rewrite E1. cbn [rbind]. destruct (log_told k s1 40 f zs) as (s2 & E2 & T2);
    [apply T1|done|done|].
  exists s2. split; [done|]. unfold log_msg in *. rewrite (after_loglevel s s1) in T2 by apply T1.
  exact (told_app _ _ _ _ _ _ _ T1 T2).
Qed.

(** Changing the firmware's state without its pbufs, or the log level. *)
Lemma safe_fw k s f : pbufs f = pbufs (ext s) -> safe k s -> safe k (set_fw s f).
Proof. intros Ef [? ? Hb Ha]. split; try done; unfold get_store, backed in *; cbn; by rewrite Ef. Qed.

(** ** Handlers that run to their end *)

(** The handler returns, and the invariant holds with room for [k] messages. *)
Definition runs (k : nat) (m : result world) : Prop := exists s', m = Ok s' /\ safe k s'.

Lemma runs_ret k s : safe k s -> runs k (Ok s).
Proof. intros Hs. by exists s. Qed.
Lemma runs_bind k k' m (c : world -> result world) :
  runs k m -> (forall s, safe k s -> runs k' (c s)) -> runs k' (rbind m c).
Proof. intros (s & -> & Hs) Hc. by apply Hc. Qed.

Lemma ctl_runs k s type data : safe (S k) s -> is_byte type -> bytes data ->
  zlen data < 2 ^ 31 - 3 -> runs k (comm_send_ctl s type data).
Proof using Type*. intros. destruct (ctl_told k s type data) as (s' & E1 & []); try done. by exists s'. Qed.
Lemma status_runs k s v : safe (S k) s -> is_byte v -> runs k (comm_send_status s v).
Proof using Type*. intros. destruct (status_told k s v) as (s' & E1 & []); try done. by exists s'. Qed.
Lemma log_runs k s level f zs : safe (S k) s -> is_byte level ->
  Z.of_nat (String.length f) + 9 * zlen zs <= 126 -> runs k (comm_log s level f (map SInt zs)).
Proof using Type*. intros. destruct (log_told k s level f zs) as (s' & E1 & []); try done. by exists s'. Qed.
Lemma fail_runs k s f zs : safe (S (S k)) s ->
  Z.of_nat (String.length f) + 9 * zlen zs <= 126 -> runs k (FAIL s f (map SInt zs)).
Proof using Type*. intros. destruct (fail_told k s f zs) as (s' & E1 & []); try done. by exists s'. Qed.

Lemma safe_sdk k s e : safe k s -> safe k (set_sdk s e).
Proof using Type. by apply safe_fw. Qed.

(** A field filled from a message keeps a zero behind its text. *)
Lemma fill_field_ok (sz : nat) src n : zlen src = Z.of_nat sz -> 0 <= n <= zlen src ->
  fill_field sz src n = Ok (take (Z.to_nat n) src ++ replicate (sz - Z.to_nat n) 0).
Proof.
  intros Hl Hn. unfold fill_field. unfold mslice.
  rewrite !(proj2 (Z.leb_le _ _)) by lia. cbn [andb rbind Z.to_nat]. rewrite drop_0.
  unfold mcopy. assert (length (take (Z.to_nat n) src) = Z.to_nat n) as Ht
    by (rewrite length_take; unfold zlen in *; lia).
  rewrite !(proj2 (Z.leb_le _ _)) by (unfold zlen in *; rewrite ?length_replicate; lia).
  cbn [andb Z.to_nat]. rewrite take_0, Ht. cbn [app plus]. by rewrite drop_replicate.
Qed.

(** Split a handler on its conditions and discharge each exit. *)
Ltac host_safe := repeat apply safe_sdk;
  first [eassumption | (eapply safe_le; [|eassumption]; lia) |
         (apply safe_fw; [reflexivity|]; eapply safe_le; [|eassumption]; lia)].
Ltac host_step := match goal with
  | |- runs _ (TRY ?b _ _ _ _) => unfold TRY at 1; destruct b eqn:?
  | |- runs _ (FAIL _ _ []) => apply (fail_runs _ _ _ []); [host_safe|done]
  | |- runs _ (FAIL _ _ [SInt ?z]) => apply (fail_runs _ _ _ [z]); [host_safe|done]
  | |- runs _ (COMM_ERR _ _ [SInt ?z]) => apply (log_runs _ _ _ _ [z]); [host_safe|done|done]
  | |- runs _ (comm_send_status _ _) => apply status_runs; [host_safe|done]
  | |- runs _ (let '(_, _) := sdk_call _ ?r in _) => unfold sdk_call at 1; destruct r as [[] ?]; cbn [fst snd]
  | |- runs _ (match ?x with _ => _ end) => destruct x eqn:?
  end; cbn [negb rbind].
Ltac handler Hb := repeat first [host_step | progress read_fields Hb].

Section handlers.
Context (k : nat) (s : world) (data : list Z) (n : Z).
Context (Hs : safe (S (S k)) s) (Hby : bytes data) (Hn : 0 <= n <= zlen data).

Lemma wifi_mode_runs : runs k (on_wifi_mode_set s data n).
Proof using Type*.
  unfold on_wifi_mode_set, TRY at 1. destruct (Z.eqb_spec n 1); cbn [negb]; handler Hby.
Qed.
Lemma sleep_mode_runs : runs k (on_sleep_mode_set s data n).
Proof using Type*.
  unfold on_sleep_mode_set, TRY at 1. destruct (Z.eqb_spec n 1); cbn [negb]; handler Hby.
Qed.
Lemma static_ip_runs : runs k (on_static_ip_conf_set s data n).
Proof using Type*.
  unfold on_static_ip_conf_set, TRY at 1. destruct (negb _); [handler Hby|].
  unfold TRY at 1. unfold sizeof_msg_ip_conf, read_msg_ip_conf.
  destruct (Z.eqb_spec n 24); cbn [negb]; handler Hby.
Qed.
Lemma dhcpc_state_runs : runs k (on_dhcpc_state_set s data n).
Proof using Type*.
  unfold on_dhcpc_state_set, TRY at 1. destruct (Z.eqb_spec n 1); cbn [negb]; handler Hby.
Qed.

(** The name and password checks let only lengths pass that leave room for
    the terminating zero. *)
Lemma credentials_runs sl pl c :
  (sl < 32 -> pl < 64 -> runs k c) -> runs k (check_credentials s sl pl c).
Proof using Type*.
  intros Hc. unfold check_credentials. destruct (Z.ltb_spec 32 (sl + 1)); [handler Hby|].
  destruct (Z.ltb_spec 64 (pl + 1)); [handler Hby|]. apply Hc; lia.
Qed.

Lemma station_conf_runs : runs k (on_station_conf_set s data n).
Proof using Type*.
  unfold on_station_conf_set, TRY at 1. unfold sizeof_msg_station_conf, read_msg_station_conf.
  destruct (Z.eqb_spec n 98); cbn [negb]; handler Hby.
  apply credentials_runs. intros. cbn [sc_ssid_len sc_ssid sc_password_len sc_password] in *.
  rewrite !fill_field_ok by (unfold is_byte in *; lia). cbn [rbind]. handler Hby.
Qed.
Lemma softap_conf_runs : runs k (on_softap_conf_set s data n).
Proof using Type*.
  unfold on_softap_conf_set, TRY at 1. unfold sizeof_msg_softap_conf, read_msg_softap_conf.
  destruct (Z.eqb_spec n 102); cbn [negb]; handler Hby.
  apply credentials_runs. intros. cbn [sa_ssid_len sa_ssid sa_password_len sa_password] in *.
  rewrite !fill_field_ok by (unfold is_byte in *; lia). cbn [rbind]. handler Hby.
Qed.
Lemma scan_request_runs : runs k (on_scan_request s data n).
Proof using Type*.
  unfold on_scan_request, TRY at 1. unfold sizeof_msg_wifi_scan_request, read_msg_wifi_scan_request.
  destruct (Z.eqb_spec n 42); cbn [negb]; handler Hby.
Qed.
Lemma softap_net_runs : runs k (on_softap_net_conf_set s data n).
Proof using Type*.
  unfold on_softap_net_conf_set, start_dhcpd, TRY at 1.
  unfold sizeof_msg_softap_net_conf, read_msg_softap_net_conf.
  destruct (Z.eqb_spec n 22); cbn [negb]; handler Hby.
Qed.
Lemma one_byte_runs (upd : world -> Z -> world) fmt :
  (forall v, safe (S k) (upd s v)) -> Z.of_nat (String.length fmt) + 9 <= 126 ->
  runs k (TRY (negb (n =? 1)) s fmt [SInt n] (let! d0 := mread data 0 in comm_send_status (upd s d0) 0)).
Proof using Type*.
  intros Hu Hf. unfold TRY. destruct (Z.eqb_spec n 1); cbn [negb].
  - read_fields Hby. by apply status_runs.
  - by apply (fail_runs _ _ _ [n]).
Qed.
Lemma fwd_broadcasts_runs : runs k (on_forward_ip_broadcasts s data n).
Proof using Type*. apply (one_byte_runs set_forward_broadcasts); [intros v; host_safe|done]. Qed.
Lemma fwd_mode_runs : runs k (on_set_forwarding_mode s data n).
Proof using Type*. apply (one_byte_runs set_forwarding_mode); [intros v; host_safe|done]. Qed.
Lemma log_level_runs : runs k (on_log_level_set s data n).
Proof using Type*.
  apply (one_byte_runs comm_set_loglevel); [|done]. intros v. apply (safe_le (S (S k))); [lia|].
  by destruct Hs.
Qed.
Lemma ip_conf_runs : runs k (on_ip_conf_request s).
Proof using Type*.
  unfold on_ip_conf_request. handler Hby. apply ctl_runs; [host_safe|done| |].
  - unfold bytes_msg_ip_conf. cbn [address netmask gateway dns map concat].
    repeat (apply bytes_app; split); try apply bytes_u32_bytes. constructor.
  - unfold bytes_msg_ip_conf. cbn [address netmask gateway dns map concat]. by zl.
Qed.
Lemma macaddr_runs : runs k (on_macaddr_request s).
Proof using Type*.
  unfold on_macaddr_request. destruct (wifi_get_macaddr _) as [mac|] eqn:Em; [|handler Hby].
  apply macaddr_length in Em as [Hl Hm]. apply ctl_runs; [host_safe|done|done|by rewrite Hl].
Qed.
Lemma conn_status_runs : runs k (on_conn_status_request s).
Proof using Type*.
  unfold on_conn_status_request. apply ctl_runs; [host_safe|done| |done].
  apply Forall_singleton. unfold encode_status. by case_match.
Qed.
Lemma rssi_runs : runs k (on_rssi_request s).
Proof using Type*.
  unfold on_rssi_request. handler Hby. apply ctl_runs; [host_safe|done| |done].
  apply Forall_singleton, u8_range.
Qed.
Lemma print_stats_runs : runs k (on_print_stats s).
Proof using Type*.
  unfold on_print_stats, comm_get_stats.
  match goal with |- runs _ (COMM_INFO s ?f [SInt ?a; SInt ?b; SInt ?c; SInt ?d]) =>
    apply (log_runs k s 20 f [a; b; c; d]); [host_safe|done|done] end.
Qed.
Lemma echo_runs : n < 2 ^ 31 - 3 -> runs k (let! l := mslice data 0 n in comm_send_ctl s MSG_ECHO_REPLY l).
Proof using Type*.
  intros Hlt. read_fields Hby. apply ctl_runs; [host_safe|done|done|lia].
Qed.
End handlers.

(** ** Packets into the stack *)
Lemma ring_frame t h h' : (forall e, In e (entries t) -> h' !! e.1 = h !! e.1) ->
  ring_ok t h -> ring_ok t h'.
Proof.
  intros Hf [? ? ? ? ? ? HF ? ?]. split; try done.
  rewrite List.Forall_forall in HF |- *. intros e Hin. destruct (HF e Hin) as (b & E1 & ?).
  exists b. by rewrite Hf.
Qed.

Lemma frame_refl st : stack_frame st st.
Proof. by split. Qed.
Lemma frame_trans st1 st2 st3 : stack_frame st1 st2 -> stack_frame st2 st3 -> stack_frame st1 st3.
Proof.
  intros [Fo1 Fb1] [Fo2 Fb2]. split; [|by auto]. intros a Hb Hc. destruct (Fo1 a Hb Hc) as [E1 C1].
  destruct (Fo2 a) as [E2 C2]; [by rewrite E1|done|]. by rewrite E2.
Qed.
(** Changes of one pbuf only. *)
Lemma frame_at st st' p : is_Some (cells st !! p) \/ blocks st !! p = None ->
  (forall a, a <> p -> cells st' !! a = cells st !! a /\ blocks st' !! a = blocks st !! a) ->
  (is_Some (cells st' !! p) -> is_Some (blocks st' !! p)) -> stack_frame st st'.
Proof.
  intros Hp Ha Hpb. split.
  - intros a Hb Hc. destruct (decide (a = p)) as [->|Hne]; [|destruct (Ha a Hne) as [-> ->]; done].
    destruct Hp as [[c E1]|E1]; [congruence|]. destruct Hb. congruence.
  - intros Hbk a Hc. destruct (decide (a = p)) as [->|Hne]; [by auto|].
    destruct (Ha a Hne) as [E1 ->]. rewrite E1 in Hc. by apply Hbk.
Qed.

Lemma safe_store k s st : safe k s -> stack_frame (get_store s) st -> safe k (put_store s st).
Proof.
  intros [Hr Hk Hb Ha] [Fo Fb]. assert (forall e, In e (entries (tx s)) ->
    blocks st !! e.1 = heap s !! e.1 /\ cells st !! e.1 = None) as Hen.
  { intros e Hin. pose proof (ring_entries _ _ Hr) as HF. rewrite List.Forall_forall in Ha, HF.
    destruct (HF e Hin) as (b & E1 & _). apply (Fo e.1); cbn; [by rewrite E1|by apply Ha]. }
  split; [|done| |].
  - eapply ring_frame; [|done]. intros e Hin. by apply Hen.
  - intros a Hc. by apply (Fb Hb).
  - apply List.Forall_forall. intros e Hin. by apply Hen.
Qed.

(** [pbuf_free] of a pbuf that stands alone. *)
Lemma free_lent st p : lent st p -> backed st ->
  exists n st', pbuf_free st p = Ok (n, st') /\ stack_frame st st'.
Proof.
  intros (Hp & c & Ec & Hnx & Hr) Hbk. unfold pbuf_free, chain_fuel.
  assert (exists m, size (cells st) = S m) as [m ->].
  { destruct (size (cells st)) eqn:Es; [|eauto]. apply map_size_empty_inv in Es. by rewrite Es in Ec. }
  cbn [pbuf_free_loop]. rewrite (proj2 (Z.eqb_neq p 0)), (deref_ok st p c) by done. cbn [rbind].
  destruct (Hbk p) as [b Eb]; [by rewrite Ec|].
  destruct (u16 (ref c - 1) =? 0).
  - unfold pbuf_release, os_free. cbn [put blocks]. rewrite Eb. cbn [rbind]. rewrite Hnx. cbn [Z.eqb].
    eexists _, _. split; [reflexivity|]. apply (frame_at _ _ p); [left; by rewrite Ec| |]; cbn [cells blocks put].
    + intros a Hne. rewrite !lookup_delete_ne, lookup_insert_ne by done. done.
    + rewrite lookup_delete_eq. by intros [].
  - eexists _, _. split; [reflexivity|]. apply (frame_at _ _ p); [left; by rewrite Ec| |]; cbn [cells blocks put].
    + intros a Hne. by rewrite lookup_insert_ne.
    + by rewrite Eb.
Qed.

Lemma free_pbuf_ok k s p : safe k s -> lent (get_store s) p ->
  exists st, free_pbuf s p = Ok (put_store s st) /\ safe k (put_store s st).
Proof.
  intros Hs Hl. unfold free_pbuf. destruct (free_lent _ _ Hl (safe_backed _ _ Hs)) as (m & st & -> & Hf).
  exists st. split; [done|by apply safe_store].
Qed.

Lemma put_get s : put_store s (get_store s) = s.
Proof. by destruct s as [? ? ? ? ? ? ? ? ? ? []]. Qed.

(** A fresh pbuf filled with the bytes of the host. *)
Lemma packet_filled k s layer l : safe k s -> bytes l -> is_u16 (zlen l) ->
  pbuf_alloc (get_store s) layer (zlen l) PBUF_RAM = Ok (0, get_store s) \/
  exists p st s', pbuf_alloc (get_store s) layer (zlen l) PBUF_RAM = Ok (p, st) /\ p <> 0 /\
    fill_pbuf (put_store s st) p l (zlen l) = Ok s' /\ safe k s' /\ lent (get_store s') p /\
    packet (get_store s') p [p] /\ contents (get_store s') [p] = l /\ ref_of (get_store s') p = 1 /\
    exists st', s' = put_store s st'.
Proof using Type*.
  intros Hs Hl Hn. destruct (alloc_ram_ok (get_store s) layer (zlen l) (safe_backed _ _ Hs) Hn)
    as [->|(p & st & E1 & Hp & Hc & Hb & Hpk & Hlen & Hbk & Hown & Href & Hfr & c & Ec & _)]; [by left|].
  right. exists p, st. unfold fill_pbuf. change (get_store (put_store s st)) with (Store (cells st) (blocks st)).
  assert (Store (cells st) (blocks st) = st) as -> by by destruct st.
  rewrite (deref_ok st p c) by done. cbn [rbind].
  destruct Hpk as [(_ & _ & c' & Ec' & Hch) HF Ht _].
  assert (c' = c) as -> by congruence. clear Ec'.
  apply List.Forall_cons_iff in HF as [Hok _]. unfold pbuf_ok in Hok. rewrite Ec in Hok.
  unfold own in Hown. rewrite Ec in Hown. unfold ref_of in Href. rewrite Ec in Href.
  assert (contents st [p] = cell_data st c) as Hct by
    (unfold contents, data_of; cbn [map concat]; by rewrite Ec, app_nil_r).
  assert (len c = zlen l) as Hlc by (rewrite <- Hlen, Hct; by rewrite cell_data_length).
  destruct (save_ok st p c l) as (st1 & Es & Ecs & Hbs & Hok1 & Hd1); [done|done|done|lia|done|].
  rewrite Es. cbn [rbind]. rewrite u16_small by done.
  set (c1 := set_len (set_tot_len c (zlen l)) (zlen l)). set (st2 := put st1 p c1).
  assert (c1 = set_tot_len c (zlen l)) as Hc1 by (unfold c1; rewrite <- Hlc; by destruct c).
  assert (cell_data st2 c1 = l) as Hd2.
  { rewrite Hc1. change (cell_data st1 c = l). rewrite Hd1, drop_ge, app_nil_r; [done|].
    enough (zlen (cell_data st c) = zlen l) by (unfold zlen in *; lia). by rewrite cell_data_length. }
  assert (cell_ok st2 c1) as Hok2.
  { rewrite Hc1. destruct Hok1 as (? & ? & Hby & ?). split; [done|]. split; [done|]. by split. }
  assert (cells st2 !! p = Some c1) as Ec2 by (unfold st2; cbn; apply lookup_insert_eq).
  assert (contents st2 [p] = l) as Hct2.
  { unfold contents, data_of. cbn [map concat]. by rewrite Ec2, app_nil_r. }
  exists (put_store (put_store s st) st2). split; [done|]. split; [done|]. split; [done|]. split.
  { change (put_store (put_store s st) st2) with (put_store s st2). apply safe_store; [done|].
    apply (frame_at _ _ p); [by right| |].
    - intros a Hne. unfold st2. cbn [put cells blocks]. rewrite lookup_insert_ne, Ecs, Hbs by done.
      by apply Hfr.
    - intros _. unfold st2. cbn [put blocks]. destruct (Hbk p) as [b Eb]; [by rewrite Ec|].
      revert Es. unfold save. destruct (zlen l =? 0); [intros [= <-]; eauto|].
      rewrite Hown, Eb. cbn [of_option rbind]. destruct (mcopy _ _ _); [|done]. cbn [rbind].
      intros [= <-]. cbn. rewrite lookup_insert_eq. eauto. }
  change (get_store (put_store (put_store s st) st2)) with (Store (cells st2) (blocks st2)).
  assert (Store (cells st2) (blocks st2) = st2) as -> by done.
  assert (next c1 = 0) as Hnx by (rewrite Hc1; exact Hch).
  assert (ref c1 = 1) as Hr1 by (rewrite Hc1; exact Href).
  split; [split; [done|]; exists c1; split; [done|split; [done|lia]]|]. split.
  { split; [split; [done|split; [done|by exists c1]]| |split; [|done]|by rewrite Hct2; apply Hn].
    - apply List.Forall_cons; [|apply List.Forall_nil]. unfold pbuf_ok. by rewrite Ec2.
    - rewrite Ec2, Hct2. by rewrite Hc1. }
  split; [done|]. split; [by unfold ref_of; rewrite Ec2|]. by exists st2.
Qed.
End host.

(** ** A simulated SDK

    It accepts every call, remembers the modes and addresses it is given, and
    records the packets handed to the stack and to the interface; a baud rate
    or an opmode takes effect at once. *)
Module SimSdk.
Record env := Env {
  mode : opmode;
  dhcpc : dhcp_status;
  dhcps : dhcp_status;
  station_ip : ip_info;
  netif0 : option netif;
  irq_level : Z;
  station_conf : option station_config;
  sent : list (Z * Z * list Z);     (* control block, destination, payload *)
  frames_out : list (list Z)
}.

Definition set_netif (e : env) (n : netif) : env :=
  Env (mode e) (dhcpc e) (dhcps e) (station_ip e) (Some n) (irq_level e) (station_conf e) (sent e) (frames_out e).
Definition set_irq (e : env) (l : Z) : env :=
  Env (mode e) (dhcpc e) (dhcps e) (station_ip e) (netif0 e) l (station_conf e) (sent e) (frames_out e).
Definition set_mode (e : env) (m : opmode) : env :=
  Env m (dhcpc e) (dhcps e) (station_ip e) (netif0 e) (irq_level e) (station_conf e) (sent e) (frames_out e).
Definition set_dhcpc (e : env) (d : dhcp_status) : env :=
  Env (mode e) d (dhcps e) (station_ip e) (netif0 e) (irq_level e) (station_conf e) (sent e) (frames_out e).
Definition set_dhcps (e : env) (d : dhcp_status) : env :=
  Env (mode e) (dhcpc e) d (station_ip e) (netif0 e) (irq_level e) (station_conf e) (sent e) (frames_out e).
Definition set_ip (e : env) (i : ip_info) : env :=
  Env (mode e) (dhcpc e) (dhcps e) i (netif0 e) (irq_level e) (station_conf e) (sent e) (frames_out e).
Definition set_conf (e : env) (c : station_config) : env :=
  Env (mode e) (dhcpc e) (dhcps e) (station_ip e) (netif0 e) (irq_level e) (Some c) (sent e) (frames_out e).
Definition add_sent (e : env) (x : Z * Z * list Z) : env :=
  Env (mode e) (dhcpc e) (dhcps e) (station_ip e) (netif0 e) (irq_level e) (station_conf e) (sent e ++ [x]) (frames_out e).
Definition add_frame (e : env) (l : list Z) : env :=
  Env (mode e) (dhcpc e) (dhcps e) (station_ip e) (netif0 e) (irq_level e) (station_conf e) (sent e) (frames_out e ++ [l]).

Definition payload_at (st : store) (p : Z) : list Z := data_of st p.

#[global] Instance sdk : Sdk env := {
  fn_address f := match f with FN_OTHER a => a | _ => 0 end;
  system_partition_table_regist e := (true, e);
  wifi_set_phy_mode_11N e := e;
  wifi_set_sleep_type e _ := (true, e);
  wifi_set_opmode e m := (true, set_mode e m);
  wifi_get_opmode := mode;
  wifi_station_dhcpc_status := dhcpc;
  wifi_station_dhcpc_start e := (true, set_dhcpc e DHCP_STARTED);
  wifi_station_dhcpc_stop e := (true, set_dhcpc e DHCP_STOPPED);
  wifi_set_ip_info e _ i := (true, set_ip e i);
  wifi_get_ip_info e _ := Some (station_ip e);
  dns_getserver _ _ := 0;
  wifi_station_set_config_current e c := (true, set_conf e c);
  wifi_station_disconnect e := e;
  wifi_station_connect e := e;
  wifi_station_scan e _ := (true, e);
  wifi_get_macaddr _ := Some [1; 2; 3; 4; 5; 6];
  wifi_station_get_connect_status _ := STATION_GOT_IP;
  wifi_station_get_rssi _ := 200;
  wifi_softap_set_config e _ := (true, e);
  wifi_softap_dhcps_status := dhcps;
  wifi_softap_dhcps_start e := (true, set_dhcps e DHCP_STARTED);
  wifi_softap_dhcps_stop e := (true, set_dhcps e DHCP_STOPPED);
  wifi_softap_set_dhcps_lease e _ := (true, e);
  wifi_softap_set_dhcps_offer_router e _ := (true, e);
  system_get_sdk_version _ := SimOs.chars "2.0.0";
  os_delay_us e _ := e;
  eagle_lwip_getif := netif0;
  netif_store := set_netif;
  raw_new e _ := (1, e);
  raw_bind e _ := e;
  raw_recv e _ := e;
  raw_sendto e st pcb p dst := (0, st, add_sent e (pcb, dst, payload_at st p));
  call_input e st _ _ := (0, st, e);
  call_output e st _ _ _ := (0, st, e);
  call_linkoutput e st _ p := (0, st, add_frame e (payload_at st p));
  irq_save e := (irq_level e, set_irq e 15);
  irq_restore e l := set_irq e l
}.

#[global] Instance laws : SdkLaws env.
Proof.
  split.
  - done.
  - intros e l [= <-]. split; [done|]. by apply (bool_decide_unpack _).
  - intros e st pcb p dst Hp. simpl. split; [apply frame_refl|done].
  - intros e st f p Hp. simpl. split; [apply frame_refl|done].
Qed.

#[global] Instance text : OsText.
Proof.
  split. intros f zs. simpl. unfold SimOs.chars. split.
  - unfold zlen. rewrite length_map. replace (length (String.list_ascii_of_string f)) with (String.length f); [lia|].
    induction f; simpl; congruence.
  - apply Forall_map, List.Forall_forall. intros a _. simpl. unfold is_byte.
    pose proof (Ascii.N_ascii_bounded a). lia.
Qed.

(** The firmware after boot on a station with interface [n], a control block
    each, forwarding mode [m] and [l] waiting in the receive FIFO. *)
Definition booted (n : option netif) (m : Z) : comm Sim.dev (firmware env) :=
  Comm (Transmitter (replicate 32 0) (replicate 32 0) 0 0 false 0 0)
    (Decoder (replicate 2050 0) (zlen (replicate 2050 0)) 0 0 0 0 DEC_IDLE) 0 0 0 empty [] false
    (UartDev 115200 3 0 0 1 1) (Sim.fresh [])
    (Firmware 1 m 1 2 FN_NULL FN_NULL FN_NULL empty
      (Env STATION_MODE DHCP_STOPPED DHCP_STOPPED (IpInfo 0 0 0) n 3 None [] [])).

Lemma booted_safe n m : safe 32 (booted n m).
Proof.
  split.
  - by apply (ring_check_ok (tx (booted n m)) (heap (booted n m))).
  - by left.
  - intros a [x Hx]. discriminate Hx.
  - constructor.
Qed.

(** An interface as the SDK sets it up. *)
Definition eth0 : netif := Netif (FN_OTHER 0x40100) (FN_OTHER 0x40200) (FN_OTHER 0x40300).
End SimSdk.
