(* ===== verification/Commands.v ===== *)
(** * Theorems about the application: no command of the host makes a handler
    fault, malformed ones are refused without effect, the interface's hooks
    stay chained, and injected frames restore the interrupt level. *)
From S2P Require Import Prelude Crc16 Cobs Uart Comm CommTx Message Pbuf PbufChain InetChksum IpHdr UserMain Host.

Section commands.
Context {D E : Type} `{Soc D, OsLaws, !OsText, SdkLaws E}.
Abbreviation world := (comm D (firmware E)).
Implicit Type s : world.

(** ** The interface's hooks *)

Definition MITM : netif := Netif FN_INPUT_MITM FN_OUTPUT_MITM FN_LINKOUTPUT_MITM.

(** The saved hook after the current one was taken over. *)
Definition taken (cur mine old : fnptr) : fnptr := if decide (cur = mine) then old else cur.

(** Everything but the hooks and the SDK. *)
Definition settings (f : firmware E) :=
  (forward_ip_broadcasts f, global_forwarding_mode f, raw_pcb_tcp f, raw_pcb_udp f, pbufs f).

(** The calls through the saved hooks never reach the functions of this file. *)
Definition hooks_chained (f : firmware E) : Prop :=
  netif_input_orig f <> FN_INPUT_MITM /\ netif_output_orig f <> FN_OUTPUT_MITM /\
  netif_linkoutput_orig f <> FN_LINKOUTPUT_MITM.

(** One hook: [F] is the state of the firmware once it is taken over. *)
Lemma hook_ok k s cur mine fmt save st F :
  safe (S k) s -> Z.of_nat (String.length fmt) + 9 <= 126 ->
  (forall s1, ext s1 = ext s -> st (save s1) = set_fw s1 F) -> pbufs F = pbufs (ext s) ->
  exists s', mitm_hook s cur mine fmt save st = Ok s' /\ safe k s' /\
    comm_loglevel s' = comm_loglevel s /\
    ext s' = (if decide (cur = mine) then ext s else F).
Proof using Type*.
  intros Hs Hf Hst HF. unfold mitm_hook. destruct (decide (cur = mine)).
  { exists s. split; [done|]. split; [|done]. eapply safe_le; [|done]. lia. }
  destruct (log_told k s 20 fmt [fn_address cur]) as (s1 & E1 & T1); [done|done|by zl|].
  change (map SInt [fn_address cur]) with [SInt (fn_address cur)] in E1.
  unfold COMM_INFO. rewrite E1. cbn [rbind]. pose proof (after_ext _ _ (told_after _ _ _ _ T1)) as Ee.
  rewrite Hst by done. eexists. split; [done|]. split; [|split; [|done]].
  - apply safe_fw; [by rewrite Ee|apply T1].
  - by apply (after_loglevel _ _ (told_after _ _ _ _ T1)).
Qed.

(** The state with one hook of the interface [m] taken over: the saved hooks
    and the interface change. *)
Definition with_hooks (f : firmware E) (i o l : fnptr) (m : netif) : firmware E :=
  Firmware (forward_ip_broadcasts f) (global_forwarding_mode f) (raw_pcb_tcp f) (raw_pcb_udp f)
    i o l (pbufs f) (netif_store (sdk f) m).

Lemma store_hooks s i o l (m : netif) upd : eagle_lwip_getif (sdk (ext s)) = Some m ->
  store_netif (set_origs s i o l) upd = set_fw s (with_hooks (ext s) i o l (upd m)).
Proof. intros Em. unfold store_netif. cbn. by rewrite Em. Qed.

(** One hook of the interface that is [m] so far. *)
Lemma hook_taken k s (m : netif) cur mine fmt save upd i o l :
  safe (S k) s -> Z.of_nat (String.length fmt) + 9 <= 126 ->
  eagle_lwip_getif (sdk (ext s)) = Some m -> (cur = mine -> upd m = m) ->
  (forall s1, ext s1 = ext s -> save s1 = set_origs s1 i o l) ->
  exists s', mitm_hook s cur mine fmt save (fun s => store_netif s upd) = Ok s' /\ safe k s' /\
    comm_loglevel s' = comm_loglevel s /\ settings (ext s') = settings (ext s) /\
    eagle_lwip_getif (sdk (ext s')) = Some (upd m) /\
    ext s' = (if decide (cur = mine) then ext s else with_hooks (ext s) i o l (upd m)).
Proof using Type*.
  intros Hs Hf Hm Hu Hsv.
  destruct (hook_ok k s cur mine fmt save (fun s => store_netif s upd)
    (with_hooks (ext s) i o l (upd m)) Hs Hf) as (s' & E1 & S1 & L1 & X1); [|done|].
  { intros s1 Es. rewrite Hsv by done. rewrite (store_hooks s1 i o l m) by by rewrite Es. by rewrite Es. }
  exists s'. do 3 (split; [done|]). rewrite X1. case_decide.
  - split; [done|]. split; [|done]. by rewrite Hu.
  - split; [done|]. split; [|done]. by eapply getif_store.
Qed.

(** Run the next hook of [mitm_interface] from a state with interface [m]. *)
Ltac take_hook k s m s' E S L F N X :=
  match goal with |- context [mitm_hook s ?c ?mine ?f ?sv (fun s => store_netif s ?u)] =>
    edestruct (hook_taken k s m c mine f sv u) as (s' & E & S & L & F & N & X);
      [done|done|done|first [by intros <- | by intros <-; destruct m]|
       let s1 := fresh in let Es := fresh in intros s1 Es; cbv beta; rewrite Es; reflexivity|]
  end.

Lemma mitm_ready k s n : safe (S (S (S k))) s -> eagle_lwip_getif (sdk (ext s)) = Some n ->
  exists s', mitm_interface s = Ok s' /\ safe k s' /\ comm_loglevel s' = comm_loglevel s /\
    settings (ext s') = settings (ext s) /\
    eagle_lwip_getif (sdk (ext s')) = Some MITM /\
    netif_input_orig (ext s') = taken (input n) FN_INPUT_MITM (netif_input_orig (ext s)) /\
    netif_output_orig (ext s') = taken (output n) FN_OUTPUT_MITM (netif_output_orig (ext s)) /\
    netif_linkoutput_orig (ext s') = taken (linkoutput n) FN_LINKOUTPUT_MITM (netif_linkoutput_orig (ext s)).
Proof using Type*.
  intros Hs Hn. unfold mitm_interface. rewrite Hn. unfold taken.
  take_hook (S (S k)) s n s1 E1 S1 L1 F1 N1 X1. rewrite E1. cbn [rbind].
  take_hook (S k) s1 (Netif FN_INPUT_MITM (output n) (linkoutput n)) s2 E2 S2 L2 F2 N2 X2.
  rewrite E2. cbn [rbind].
  take_hook k s2 (Netif FN_INPUT_MITM FN_OUTPUT_MITM (linkoutput n)) s3 E3 S3 L3 F3 N3 X3.
  exists s3. split; [exact E3|]. split; [done|]. split; [by rewrite L3, L2|].
  split; [by rewrite F3, F2|]. split; [done|].
  rewrite X3, X2, X1. by repeat case_decide.
Qed.

Lemma mitm_runs k s : safe (S (S (S k))) s ->
  exists s', mitm_interface s = Ok s' /\ safe k s' /\ comm_loglevel s' = comm_loglevel s /\
    settings (ext s') = settings (ext s).
Proof using Type*.
  intros Hs. destruct (eagle_lwip_getif (sdk (ext s))) as [n|] eqn:Hn.
  - destruct (mitm_ready k s n Hs Hn) as (s' & ? & ? & ? & ? & _). by exists s'.
  - unfold mitm_interface. rewrite Hn.
    destruct (log_told (S (S k)) s 10 "mitm_interface: netif not ready" []) as (s' & E1 & [_ Hs' Ha]);
      [done|done|done|].
    exists s'. split; [exact E1|]. split; [eapply safe_le; [|done]; lia|].
    split; [by apply after_loglevel|]. by rewrite (after_ext _ _ Ha).
Qed.

(** ** Injected packets *)

(** Why [inject_ip_packet] refuses a packet: header, protocol, header length,
    memory. *)
Definition ip_refused s (data : list Z) (n : Z) : Prop :=
  let hdr := take 20 data in
  n < 20 \/
  (exists proto, ip_proto hdr = Ok proto /\ proto <> 6 /\ proto <> 17) \/
  (exists hl, iph_hl hdr = Ok hl /\ (n < 4 * hl \/
     pbuf_alloc (get_store s) PBUF_IP (n - 4 * hl) PBUF_RAM = Ok (0, get_store s))).

(** The packet handed to [raw_sendto]: what follows the IP header, in one
    pbuf, to the header's destination. *)
Definition ip_injected s (data : list Z) (n r : Z) s' : Prop :=
  let hdr := take 20 data in
  exists hl proto dest p st st' e, iph_hl hdr = Ok hl /\ ip_proto hdr = Ok proto /\
    ip_dest hdr = Ok dest /\ packet st p [p] /\
    contents st [p] = drop (Z.to_nat (4 * hl)) (take (Z.to_nat n) data) /\
    raw_sendto (sdk (ext s)) st (if proto =? 6 then raw_pcb_tcp (ext s) else raw_pcb_udp (ext s)) p dest =
      (r, st', e) /\ sdk (ext s') = e.

Lemma mslice_eq m i n : 0 <= i -> 0 <= n -> i + n <= zlen m ->
  mslice m i n = Ok (take (Z.to_nat n) (drop (Z.to_nat i) m)).
Proof. intros. unfold mslice. by rewrite !(proj2 (Z.leb_le _ _)) by lia. Qed.

Lemma zlen_take {A} (l : list A) n : 0 <= n <= zlen l -> zlen (take (Z.to_nat n) l) = n.
Proof. unfold zlen. intros. rewrite length_take. lia. Qed.
Lemma zlen_drop {A} (l : list A) n : 0 <= n <= zlen l -> zlen (drop (Z.to_nat n) l) = zlen l - n.
Proof. unfold zlen. intros. rewrite length_drop. lia. Qed.

Lemma iph_hl_ok hdr : bytes hdr -> 20 <= zlen hdr -> exists hl, iph_hl hdr = Ok hl /\ 0 <= hl < 16.
Proof.
  intros Hb Hl. unfold iph_hl, IPH_HL. destruct (read_u16_in hdr 0) as (v & -> & _); [done|lia|lia|].
  cbn [rbind]. eexists. split; [done|]. change 0x0f with (Z.ones 4). rewrite Z.land_ones by lia.
  apply Z.mod_pos_bound. done.
Qed.

(** A log line and a result. *)
Lemma log_ret k s level f z (r : Z) : safe (S k) s -> is_byte level ->
  Z.of_nat (String.length f) + 9 <= 126 ->
  exists s', (let! s := comm_log s level f [SInt z] in Ok (r, s)) = Ok (r, s') /\ safe k s' /\ ext s' = ext s.
Proof using Type*.
  intros Hs Hl Hf. destruct (log_told k s level f [z]) as (s' & E1 & [_ Hs' Ha]); [done|done|by zl|].
  change (map SInt [z]) with [SInt z] in E1. rewrite E1. cbn [rbind].
  exists s'. split; [done|]. split; [done|by apply after_ext].
Qed.

Lemma inject_ip_ok k s data n : safe (S k) s -> bytes data -> 0 <= n <= zlen data ->
  n <= MAX_MESSAGE_SIZE ->
  exists r s', inject_ip_packet s data n = Ok (r, s') /\ safe k s' /\
    (r = -1 /\ ext s' = ext s /\ ip_refused s data n \/ ip_injected s data n r s').
Proof using Type*.
  intros Hs Hby Hn Hmax. unfold MAX_MESSAGE_SIZE in Hmax.
  unfold inject_ip_packet, ip_refused, ip_injected, SIZEOF_IP_HDR.
  destruct (Z.ltb_spec n 20) as [Hlt|Hge].
  { edestruct (log_ret k s 40) as (s' & E1 & Hs' & He); [done|done| |unfold COMM_ERR; rewrite E1]; [done|].
    exists (-1), s'. split; [done|]. split; [done|]. left. auto. }
  rewrite mslice_eq by lia. cbn [rbind]. rewrite drop_0. change (Z.to_nat 20) with 20%nat.
  set (hdr := take 20 data). assert (bytes hdr) as Hhb by by apply Forall_take.
  assert (zlen hdr = 20) as Hhl by (apply (zlen_take data 20); lia).
  destruct (mread_in hdr 9 Hhb) as (proto & Ep & _); [lia|]. unfold ip_proto. rewrite Ep. cbn [rbind].
  unfold IP_PROTO_TCP, IP_PROTO_UDP.
  destruct (negb (proto =? 6) && negb (proto =? 17)) eqn:Epr.
  { edestruct (log_ret k s 40) as (s' & E1 & Hs' & He); [done|done| |unfold COMM_ERR; rewrite E1]; [done|].
    exists (-1), s'. split; [done|]. split; [done|]. left. split; [done|]. split; [done|]. right. left.
    exists proto. rewrite andb_true_iff, !negb_true_iff, !Z.eqb_neq in Epr. done. }
  destruct (iph_hl_ok hdr Hhb ltac:(lia)) as (hl & Eh & Hhl16). rewrite Eh. cbn [rbind].
  destruct (Z.ltb_spec n (4 * hl)) as [Hbig|Hfit].
  { destruct (log_told k s 40 "Header is larger than data: hl=%d, dl=%d" [4 * hl; n])
      as (s' & E1 & [_ Hs' Ha]); [done|done|done|].
    change (map SInt [4 * hl; n]) with [SInt (4 * hl); SInt n] in E1. unfold COMM_ERR. rewrite E1. cbn [rbind].
    exists (-1), s'. split; [done|]. split; [done|]. left. split; [done|].
    split; [by apply after_ext|]. right. right. exists hl. auto. }
  set (l := take (Z.to_nat (n - 4 * hl)) (drop (Z.to_nat (4 * hl)) data)).
  assert (zlen l = n - 4 * hl) as Hl by (unfold l; rewrite zlen_take; [done|rewrite zlen_drop; lia]).
  rewrite u16_small by (unfold is_u16; lia). rewrite <- Hl.
  destruct (packet_filled (S k) s PBUF_IP l) as [Ea|(p & st & s1 & Ea & Hp & Ef & Hs1 & Hlent & Hpk & Hct & _ & st1 & Es1)];
    [done|by apply Forall_take, Forall_drop|unfold is_u16; lia| |].
  { rewrite Ea. cbn [rbind Z.eqb]. rewrite put_get.
    edestruct (log_ret k s 40) as (s' & E1 & Hs' & He); [done|done| |unfold COMM_ERR; rewrite E1]; [done|].
    exists (-1), s'. split; [done|]. split; [done|]. left. split; [done|]. split; [done|]. right. right.
    exists hl. split; [done|]. right. by rewrite <- Hl. }
  rewrite Ea. cbn [rbind]. rewrite (proj2 (Z.eqb_neq p 0)) by done.
  rewrite (mslice_eq data (4 * hl) (zlen l)) by lia. cbn [rbind]. rewrite Hl. fold l. rewrite <- Hl, Ef. cbn [rbind].
  destruct (read_u32_in hdr 16 Hhb) as (dest & Ed & _); [lia|lia|]. unfold ip_dest. rewrite Ed. cbn [rbind].
  assert (sdk (ext s1) = sdk (ext s) /\ raw_pcb_tcp (ext s1) = raw_pcb_tcp (ext s) /\
    raw_pcb_udp (ext s1) = raw_pcb_udp (ext s)) as (-> & -> & ->) by by rewrite Es1.
  set (pcb := if proto =? 6 then _ else _).
  pose proof (raw_sendto_frame (sdk (ext s)) (get_store s1) pcb p dest Hlent) as Hfr.
  destruct (raw_sendto (sdk (ext s)) (get_store s1) pcb p dest) as [[r st2] e] eqn:Er. destruct Hfr as [Hfr Hlent2].
  set (s2 := put_store (set_sdk s1 e) st2).
  assert (safe k s2) as Hs2.
  { apply safe_store; [|done]. apply safe_sdk. eapply safe_le; [|done]. lia. }
  destruct (free_pbuf_ok k s2 p Hs2) as (st3 & E3 & Hs3).
  { unfold s2. change (get_store (put_store (set_sdk s1 e) st2)) with (Store (cells st2) (blocks st2)).
    by destruct st2. }
  rewrite E3. cbn [rbind]. exists r, (put_store s2 st3). split; [done|]. split; [done|]. right.
  exists hl, proto, dest, p, (get_store s1), st2, e. repeat (split; [done|]). split; [|by split].
  rewrite Hct. unfold l. rewrite firstn_skipn_comm. f_equal. f_equal. lia.
Qed.

(** Why [inject_ether_packet] refuses a frame, once interrupts are off. *)
Definition ether_refused s (e : E) (n : Z) : Prop :=
  netif_linkoutput_orig (ext s) = FN_NULL \/ eagle_lwip_getif e = None \/
  pbuf_alloc (get_store s) PBUF_RAW n PBUF_RAM = Ok (0, get_store s).

(** The frame handed to the saved [linkoutput], in one pbuf. *)
Definition ether_injected s (e e1 : E) (data : list Z) (n : Z) : Prop :=
  exists p st st' x, packet st p [p] /\ contents st [p] = take (Z.to_nat n) data /\
    call_linkoutput e st (netif_linkoutput_orig (ext s)) p = (x, st', e1).

(** The exit at [fail]. *)
Lemma ether_fail k s level f zs irq : safe (S k) s -> is_byte level ->
  Z.of_nat (String.length f) + 9 * zlen zs <= 126 ->
  exists s', (let! s := comm_log s level f (map SInt zs) in Ok (-1, restore_irq s irq)) = Ok (-1, s') /\
    safe k s' /\ sdk (ext s') = irq_restore (sdk (ext s)) irq.
Proof using Type*.
  intros Hs Hl Hf. destruct (log_told k s level f zs) as (s' & E1 & [_ Hs' Ha]); [done..|].
  rewrite E1. cbn [rbind]. eexists. split; [done|]. split; [by apply safe_sdk|].
  unfold restore_irq. by rewrite (after_ext _ _ Ha).
Qed.

Lemma inject_ether_ok k s data n : safe (S k) s -> bytes data -> 0 <= n <= zlen data ->
  n <= MAX_MESSAGE_SIZE ->
  let '(irq, e) := irq_save (sdk (ext s)) in
  exists r s' e1, inject_ether_packet s data n = Ok (r, s') /\ safe k s' /\
    sdk (ext s') = irq_restore e1 irq /\
    (r = -1 /\ e1 = e /\ ether_refused s e n \/ r = 0 /\ ether_injected s e e1 data n).
Proof using Type*.
  intros Hs Hby Hn Hmax. unfold MAX_MESSAGE_SIZE in Hmax. unfold inject_ether_packet.
  destruct (irq_save (sdk (ext s))) as [irq e]. set (s0 := set_sdk s e).
  assert (safe (S k) s0) as Hs0 by by apply safe_sdk.
  change (netif_linkoutput_orig (ext s0)) with (netif_linkoutput_orig (ext s)).
  change (eagle_lwip_getif (sdk (ext s0))) with (eagle_lwip_getif e).
  assert (forall level f zs, is_byte level -> Z.of_nat (String.length f) + 9 * zlen zs <= 126 ->
    ether_refused s e n ->
    exists r s' e1, (let! s := comm_log s0 level f (map SInt zs) in Ok (-1, restore_irq s irq)) = Ok (r, s') /\
      safe k s' /\ sdk (ext s') = irq_restore e1 irq /\
      (r = -1 /\ e1 = e /\ ether_refused s e n \/ r = 0 /\ ether_injected s e e1 data n)) as Hfail.
  { intros level f zs Hl Hf Hr. destruct (ether_fail k s0 level f zs irq) as (s' & E1 & Hs' & He); [done..|].
    exists (-1), s', e. do 3 (split; [done|]). by left. }
  cbv zeta. change (netif_linkoutput_orig (ext s0)) with (netif_linkoutput_orig (ext s)) in *.
  destruct (decide _) as [Eo|Eo]; [apply (Hfail _ _ []); [done|done|by left]|].
  destruct (eagle_lwip_getif e) eqn:En; [|apply (Hfail _ _ []); [done|done|by right; left]].
  set (l := take (Z.to_nat n) data). assert (zlen l = n) as Hl by (apply zlen_take; lia).
  rewrite u16_small by (unfold is_u16; lia). rewrite <- Hl in Hfail |- *.
  destruct (packet_filled (S k) s0 PBUF_RAW l)
    as [Ea|(p & st & s1 & Ea & Hp & Ef & Hs1 & Hlent & Hpk & Hct & _ & st1 & Es1)];
    [done|by apply Forall_take|unfold is_u16; lia|..].
  { rewrite Ea. cbn [rbind Z.eqb]. rewrite put_get.
    apply (Hfail _ _ [zlen l]); [done|by zl|]. right. by right. }
  rewrite Ea. cbn [rbind]. rewrite (proj2 (Z.eqb_neq p 0)) by done.
  rewrite (mslice_eq data 0 (zlen l)) by lia. cbn [rbind]. rewrite drop_0, Hl. fold l. rewrite <- Hl, Ef.
  cbn [rbind]. assert (sdk (ext s1) = e) as -> by by rewrite Es1.
  pose proof (call_linkoutput_frame e (get_store s1) (netif_linkoutput_orig (ext s)) p Hlent) as Hfr.
  destruct (call_linkoutput e (get_store s1) (netif_linkoutput_orig (ext s)) p) as [[x st2] e1] eqn:Er.
  destruct Hfr as [Hfr Hlent2].
  set (s2 := put_store (set_sdk s1 e1) st2).
  assert (safe k s2) as Hs2.
  { apply safe_store; [|done]. apply safe_sdk. eapply safe_le; [|done]. lia. }
  destruct (free_pbuf_ok k s2 p Hs2) as (st3 & E3 & Hs3).
  { unfold s2. change (get_store (put_store (set_sdk s1 e1) st2)) with (Store (cells st2) (blocks st2)).
    by destruct st2. }
  rewrite E3. cbn [rbind]. exists 0, (restore_irq (put_store s2 st3) irq), e1. split; [done|].
  split; [by apply safe_sdk|]. split; [done|]. right. split; [done|].
  exists p, (get_store s1), st2, x. split; [done|]. split; [|done]. by rewrite Hct, Hl.
Qed.

(** ** Dispatch *)

(** Decide which case of [packet_from_host] a known command takes. *)
Ltac dispatch := repeat match goal with |- context [if ?a =? ?b then _ else _] =>
    let v := eval vm_compute in (a =? b) in
    match v with true => change (a =? b) with true | false => change (a =? b) with false end;
    cbv iota
  end.

Lemma on_ip_runs k s data n : safe (S (S k)) s -> bytes data -> 0 <= n <= zlen data ->
  n <= MAX_MESSAGE_SIZE -> runs k (on_ip_packet s data n).
Proof using Type*.
  intros Hs Hby Hn Hmax. unfold on_ip_packet. eapply runs_bind; [by apply (log_runs _ _ _ _ [n])|].
  intros s1 Hs1. case_match; [|by apply (log_runs _ _ _ _ [_])].
  destruct (inject_ip_ok k s1 data n Hs1 Hby Hn Hmax) as (r & s' & -> & Hs' & _). by apply runs_ret.
Qed.
Lemma on_ether_runs k s data n : safe (S k) s -> bytes data -> 0 <= n <= zlen data ->
  n <= MAX_MESSAGE_SIZE -> runs k (on_ether_packet s data n).
Proof using Type*.
  intros Hs Hby Hn Hmax. unfold on_ether_packet. case_match; [|by apply (log_runs _ _ _ _ [_])].
  pose proof (inject_ether_ok k s data n Hs Hby Hn Hmax) as Hi.
  destruct (irq_save (sdk (ext s))) as [irq e]. destruct Hi as (r & s' & e1 & -> & Hs' & _). by apply runs_ret.
Qed.

Lemma set_baud_runs k s data baud : safe k s -> read_u32 data 0 = Ok baud -> baud <> 0 ->
  runs k (on_set_baud s data).
Proof using Type*.
  intros Hs Eb Hb. unfold on_set_baud. rewrite Eb. cbn [rbind]. rewrite (proj2 (Z.eqb_neq _ _)) by done.
  apply runs_ret. by destruct Hs.
Qed.

Lemma command_runs k s type data n : safe (S (S k)) s -> bytes data -> 0 <= n <= zlen data ->
  n <= MAX_MESSAGE_SIZE ->
  (type = MSG_SET_BAUD -> exists baud, read_u32 data 0 = Ok baud /\ baud <> 0) ->
  runs k (host_command s type data n).
Proof using Type*.
  intros Hs Hby Hn Hmax Hbaud. unfold host_command.
  assert (n < 2 ^ 31 - 3) by (unfold MAX_MESSAGE_SIZE in Hmax; lia).
  assert (safe (S k) s) as Hs1 by (eapply safe_le; [|exact Hs]; lia).
  repeat match goal with |- context [if type =? ?c then _ else _] => destruct (Z.eqb_spec type c) as [Hc|_] end.
  - by apply on_ip_runs.
  - by apply on_ether_runs.
  - by apply wifi_mode_runs.
  - by apply static_ip_runs.
  - by apply dhcpc_state_runs.
  - by eapply ip_conf_runs.
  - by apply station_conf_runs.
  - by apply sleep_mode_runs.
  - by apply scan_request_runs.
  - by eapply macaddr_runs.
  - by eapply conn_status_runs.
  - by eapply rssi_runs.
  - by apply fwd_broadcasts_runs.
  - by apply fwd_mode_runs.
  - by apply softap_conf_runs.
  - by apply softap_net_runs.
  - by apply log_level_runs.
  - by eapply print_stats_runs.
  - by apply echo_runs.
  - destruct (Hbaud Hc) as (baud & E1 & E2). eapply set_baud_runs; [|done|done]. eapply safe_le; [|exact Hs]. lia.
  - apply runs_ret. eapply safe_le; [|exact Hs]. lia.
Qed.

(** The commands whose payload has a fixed size. *)
Definition fixed_size : list (Z * Z) :=
  [(MSG_WIFI_MODE_SET, 1); (MSG_STATION_STATIC_IP_CONF_SET, 24); (MSG_STATION_DHCPC_STATE_SET, 1);
   (MSG_STATION_CONF_SET, 98); (MSG_WIFI_SLEEP_MODE_SET, 1); (MSG_WIFI_SCAN_REQUEST, 42);
   (MSG_FORWARD_IP_BROADCASTS, 1); (MSG_SET_FORWARDING_MODE, 1); (MSG_SOFTAP_CONF_SET, 102);
   (MSG_SOFTAP_NET_CONF_SET, 22); (MSG_LOG_LEVEL_SET, 1)].

(** The answer to a refused command. *)
Definition refused k s s' : Prop :=
  exists text, told k s (status_msg 255 :: log_msg s 40 text) s'.

Lemma try_refused k s b f z c : safe (S (S k)) s -> Z.of_nat (String.length f) + 9 <= 126 -> b = true ->
  exists s', TRY b s f [SInt z] c = Ok s' /\ refused k s s'.
Proof using Type*.
  intros Hs Hf ->. destruct (fail_told k s f [z]) as (s' & E1 & T1); [done|by zl|].
  exists s'. split; [exact E1|by eexists].
Qed.

Lemma size_differs n m : n <> m -> negb (n =? m) = true.
Proof. intros Hn. by rewrite (proj2 (Z.eqb_neq _ _)). Qed.

Lemma command_wrong_size k s type size data n : safe (S (S k)) s -> In (type, size) fixed_size -> n <> size ->
  exists s', host_command s type data n = Ok s' /\ refused k s s'.
Proof using Type*.
  intros Hs Hin Hn. unfold host_command. apply size_differs in Hn.
  repeat destruct Hin as [[= <- <-]|Hin]; [..|done]; dispatch;
    try (by apply try_refused).
  unfold on_static_ip_conf_set. unfold TRY at 1. destruct (negb (has_station _)); [|by apply try_refused].
  destruct (fail_told k s "Cannot set STA IP while STA is inactive" []) as (s' & E1 & T1); [done|done|].
  exists s'. split; [exact E1|by eexists].
Qed.

(** The commands that set a byte of the firmware's state. *)
Definition byte_setting (type : Z) : option (world -> Z -> world) :=
  if type =? MSG_FORWARD_IP_BROADCASTS then Some set_forward_broadcasts
  else if type =? MSG_SET_FORWARDING_MODE then Some set_forwarding_mode
  else if type =? MSG_LOG_LEVEL_SET then Some comm_set_loglevel
  else None.

Lemma byte_setting_safe k s type upd v : byte_setting type = Some upd -> safe k s -> safe k (upd s v).
Proof.
  unfold byte_setting. intros E1 Hs. repeat case_match; simplify_eq; [by apply safe_fw..|by destruct Hs].
Qed.

(** ** Configuration and scans *)

(** [struct station_config] for a message: both fields cleared and filled from
    the front. *)
Definition station_config_of (c : msg_station_conf) : station_config :=
  StationConfig
    (take (Z.to_nat (sc_ssid_len c)) (sc_ssid c) ++ replicate (32 - Z.to_nat (sc_ssid_len c)) 0)
    (take (Z.to_nat (sc_password_len c)) (sc_password c) ++ replicate (64 - Z.to_nat (sc_password_len c)) 0)
    0 (replicate 6 0).

(** A result of a scan as the SDK hands it out: the name ends within its
    memory, the address has six bytes. *)
Definition scanned (b : bss_info) : Prop :=
  bytes (bss_ssid b) /\ In 0 (bss_ssid b) /\ bytes (bss_bssid b) /\ zlen (bss_bssid b) = 6.

(** [e] is the entry of [b], the [i]-th. *)
Definition describes (i : Z) (b : bss_info) (e : msg_wifi_scan_entry) : Prop :=
  se_index e = u16 i /\ se_bssid e = bss_bssid b /\ se_channel e = u8 (bss_channel b) /\
  se_auth_mode e = u8 (bss_authmode b) /\ se_rssi e = s16 (bss_rssi b) /\
  se_is_hidden e = u8 (bss_is_hidden b) /\ zlen (se_ssid e) = 32 /\
  exists n, strlen (bss_ssid b) = Ok n /\ se_ssid_len e = Z.min n 32 /\
    take (Z.to_nat (se_ssid_len e)) (se_ssid e) = take (Z.to_nat (se_ssid_len e)) (bss_ssid b).

Fixpoint described (i : Z) (bs : list bss_info) (es : list msg_wifi_scan_entry) : Prop :=
  match bs, es with
  | [], [] => True
  | b :: bs, e :: es => describes i b e /\ described (i + 1) bs es
  | _, _ => False
  end.

Lemma strlen_ok l : In 0 l -> exists n, strlen l = Ok n /\ 0 <= n < zlen l.
Proof.
  induction l as [|x l IH]; [done|]. intros Hin. cbn [strlen]. zl. zpos.
  destruct (Z.eqb_spec x 0) as [->|Hx]; [exists 0; split; [done|lia]|].
  destruct IH as (n & -> & Hn); [by destruct Hin|]. cbn [rbind]. eexists. split; [done|]. lia.
Qed.

Lemma scan_entry_ok i b e_ssid : scanned b -> bytes e_ssid -> zlen e_ssid = 32 ->
  exists e, scan_entry i b e_ssid = Ok e /\ describes i b e /\ bytes (se_ssid e) /\
    bytes (bytes_msg_wifi_scan_entry e) /\ zlen (bytes_msg_wifi_scan_entry e) = 46.
Proof.
  intros (Hb & H0' & Hbs & Hbl) He Hel. unfold scan_entry.
  destruct (strlen_ok _ H0') as (n & En & Hn). rewrite En. cbn [rbind].
  rewrite u8_small by (unfold is_byte; lia). set (m := Z.min n 32).
  rewrite mslice_eq by lia. cbn [rbind]. rewrite drop_0. set (name := take (Z.to_nat m) (bss_ssid b)).
  assert (zlen name = m) as Hm by (apply zlen_take; lia).
  unfold mcopy. rewrite !(proj2 (Z.leb_le _ _)) by lia. cbn [andb rbind Z.to_nat]. rewrite take_0. cbn [app plus].
  rewrite mslice_eq by lia. cbn [rbind]. rewrite drop_0, firstn_all2 by (unfold zlen in *; lia).
  eexists. split; [done|]. assert (zlen (name ++ drop (length name) e_ssid) = 32) as Hl
    by (unfold zlen in *; rewrite length_app, length_drop; lia).
  assert (bytes (name ++ drop (length name) e_ssid)) as Hby
    by (apply bytes_app; split; [by apply Forall_take|by apply Forall_drop]).
  split; [|split; [done|split]].
  - unfold describes. cbn [se_index se_bssid se_channel se_auth_mode se_rssi se_is_hidden se_ssid se_ssid_len].
    do 7 (split; [done|]). exists n. split; [done|]. split; [done|].
    rewrite take_app_le by (unfold zlen in *; lia). unfold name. rewrite take_take. f_equal. lia.
  - unfold bytes_msg_wifi_scan_entry.
    cbn [se_index se_bssid se_channel se_auth_mode se_rssi se_is_hidden se_ssid se_ssid_len].
    byte_list; try apply bytes_u16_bytes; try apply u8_range. unfold is_byte. lia.
  - unfold bytes_msg_wifi_scan_entry.
    cbn [se_index se_bssid se_channel se_auth_mode se_rssi se_is_hidden se_ssid se_ssid_len].
    change (Z.to_nat 0 + length name)%nat with (length name). zl. lia.
Qed.

Lemma send_entries_ok found : forall k s i e_ssid, safe (length found + k) s -> Forall scanned found ->
  bytes e_ssid -> zlen e_ssid = 32 ->
  exists s' es, send_entries s found i e_ssid = Ok s' /\ described i found es /\
    told k s (map (fun e => ctl_msg MSG_WIFI_SCAN_ENTRY (bytes_msg_wifi_scan_entry e)) es) s'.
Proof using Type*.
  induction found as [|b found IH]; intros k s i e_ssid Hs HF He Hl; cbn [send_entries].
  { exists s, []. split; [done|]. split; [done|]. by apply told_nil. }
  apply List.Forall_cons_iff in HF as [Hb HF].
  destruct (scan_entry_ok i b e_ssid Hb He Hl) as (e & -> & Hd & Hse & Hby & Hlen). cbn [rbind].
  destruct (ctl_told (length found + k) s MSG_WIFI_SCAN_ENTRY (bytes_msg_wifi_scan_entry e))
    as (s1 & -> & T1); [done|done|done|by rewrite Hlen|]. cbn [rbind].
  destruct (IH k s1 (i + 1) (se_ssid e)) as (s' & es & -> & Hds & T2);
    [apply T1|done|done|by apply Hd|].
  exists s', (e :: es). split; [done|]. split; [done|]. exact (told_app _ _ _ _ _ _ _ T1 T2).
Qed.

(** ** Theorems *)


(** [MSG_SET_BAUD] does not look at the length of its payload: four zero
    bytes divide by zero and fewer than four bytes behind the payload's
    address are read out of bounds, whatever length was received. *)
Theorem set_baud_faults : forall k s data n, safe (3 + k) s ->
  (read_u32 data 0 = Ok 0 -> packet_from_host s MSG_SET_BAUD data n = Fault DivByZero) /\
  (zlen data < 4 -> packet_from_host s MSG_SET_BAUD data n = Fault OutOfBounds).
Proof using Type*.
  intros k s data n Hs. unfold packet_from_host. destruct (mitm_runs k s Hs) as (s1 & -> & _). cbn [rbind].
  unfold host_command. dispatch. unfold on_set_baud. split; [by intros ->|]. intros Hl.
  enough (read_u32 data 0 = Fault OutOfBounds) as -> by done.
  destruct data as [|a [|b [|c [|d l]]]]; [done..|]. zl. zpos. lia.
Qed.

(** A command of fixed size is refused when its payload has any other: the
    answer is the status 255 and an error line, no setting, pbuf or hook of
    the firmware changes and the SDK is not called by the handler. *)
Theorem host_command_wrong_size : forall k s type size data n,
  safe (5 + k) s -> In (type, size) fixed_size -> n <> size ->
  exists s1 s', mitm_interface s = Ok s1 /\ packet_from_host s type data n = Ok s' /\
    refused k s1 s' /\ ext s' = ext s1 /\ settings (ext s') = settings (ext s).
Proof using Type*.
  intros k s type size data n Hs Hin Hn. unfold packet_from_host.
  destruct (mitm_runs (S (S k)) s Hs) as (s1 & -> & Hs1 & _ & Hset). cbn [rbind].
  destruct (command_wrong_size k s1 type size data n Hs1 Hin Hn) as (s' & E1 & text & T1).
  exists s1, s'. split; [done|]. split; [done|]. split; [by exists text|].
  pose proof (after_ext _ _ (told_after _ _ _ _ T1)) as Ee. split; [done|]. by rewrite Ee.
Qed.

(** The commands that set the broadcast flag, the forwarding mode and the
    log level store exactly the byte they carry, change nothing else and
    answer with the status 0. *)
Theorem host_command_settings : forall k s type upd v junk,
  safe (4 + k) s -> byte_setting type = Some upd ->
  exists s1 s', mitm_interface s = Ok s1 /\ packet_from_host s type (v :: junk) 1 = Ok s' /\
    told k (upd s1 v) [status_msg 0] s' /\ settings (ext s1) = settings (ext s).
Proof using Type*.
  intros k s type upd v junk Hs Hup. unfold packet_from_host.
  destruct (mitm_runs (S k) s Hs) as (s1 & -> & Hs1 & _ & Hset). cbn [rbind].
  pose proof (byte_setting_safe (S k) s1 type upd v Hup Hs1) as Hu.
  destruct (status_told k (upd s1 v) 0 Hu) as (s' & E1 & T1); [done|].
  exists s1, s'. split; [done|]. split; [|by split]. rewrite <- E1. clear - Hup. revert Hup.
  unfold byte_setting. repeat case_match; intros [= <-];
    match goal with E : (type =? _) = true |- _ => apply Z.eqb_eq in E as -> end;
    unfold host_command; dispatch; reflexivity.
Qed.

(** Interception of the interface.  After [mitm_interface] all three hooks
    of the interface are ours, each saved hook is the one found there unless
    that was ours already, a saved hook never becomes one of ours (the hooks
    do not call themselves), nothing else of the firmware changes, and a
    second call does nothing at all. *)
Theorem mitm_interface_hooks : forall k s n,
  safe (3 + k) s -> eagle_lwip_getif (sdk (ext s)) = Some n ->
  exists s', mitm_interface s = Ok s' /\ safe k s' /\
    eagle_lwip_getif (sdk (ext s')) = Some MITM /\
    netif_input_orig (ext s') = taken (input n) FN_INPUT_MITM (netif_input_orig (ext s)) /\
    netif_output_orig (ext s') = taken (output n) FN_OUTPUT_MITM (netif_output_orig (ext s)) /\
    netif_linkoutput_orig (ext s') = taken (linkoutput n) FN_LINKOUTPUT_MITM (netif_linkoutput_orig (ext s)) /\
    settings (ext s') = settings (ext s) /\
    (hooks_chained (ext s) -> hooks_chained (ext s')) /\ mitm_interface s' = Ok s'.
Proof using Type*.
  intros k s n Hs Hn. destruct (mitm_ready k s n Hs Hn) as (s' & E1 & S1 & _ & F1 & N1 & X1 & X2 & X3).
  exists s'. repeat (split; [done|]). split.
  - unfold hooks_chained. rewrite X1, X2, X3. unfold taken. intros (? & ? & ?). by repeat case_decide.
  - unfold mitm_interface. rewrite N1. unfold mitm_hook. cbn [input output linkoutput MITM].
    by repeat (rewrite decide_True by done; cbn [rbind]).
Qed.

(** An IP packet of the host either reaches [raw_sendto], with the control
    block of its protocol, the destination of its header and, in one
    well-formed pbuf, exactly the bytes behind the header; or it is refused
    for one of the listed reasons and the SDK's state is as before.  No path
    faults, and the pbuf's reference is given back. *)
Theorem inject_ip_packet_delivers : forall k s data n,
  safe (1 + k) s -> bytes data -> 0 <= n <= zlen data -> n <= MAX_MESSAGE_SIZE ->
  exists r s', inject_ip_packet s data n = Ok (r, s') /\ safe k s' /\
    (r = -1 /\ ext s' = ext s /\ ip_refused s data n \/ ip_injected s data n r s').
Proof using Type*. intros. by apply inject_ip_ok. Qed.

(** An Ethernet frame of the host reaches the interface's own [linkoutput]
    unchanged and in one piece, or is refused for one of the listed reasons;
    on every path the interrupt level saved at entry is restored last. *)
Theorem inject_ether_packet_restores_irq : forall k s data n,
  safe (1 + k) s -> bytes data -> 0 <= n <= zlen data -> n <= MAX_MESSAGE_SIZE ->
  let '(irq, e) := irq_save (sdk (ext s)) in
  exists r s' e1, inject_ether_packet s data n = Ok (r, s') /\ safe k s' /\
    sdk (ext s') = irq_restore e1 irq /\
    (r = -1 /\ e1 = e /\ ether_refused s e n \/ r = 0 /\ ether_injected s e e1 data n).
Proof using Type*. intros. by apply inject_ether_ok. Qed.

(** [MSG_STATION_CONF_SET].  The name and the password reach the SDK in
    fields that end in a zero byte, whatever the message holds behind them;
    lengths that leave no room for it, a wrong mode or a refusal by the SDK
    are answered with the status 255, and only an accepted configuration
    reconnects and is answered with 0. *)
Theorem station_conf_set_spec : forall k s c junk,
  safe (2 + k) s -> wf_station_conf c -> 0 <= sc_ssid_len c -> 0 <= sc_password_len c ->
  let conf := station_config_of c in
  exists s', on_station_conf_set s (bytes_msg_station_conf c ++ junk) sizeof_msg_station_conf = Ok s' /\
    (if (31 <? sc_ssid_len c) || (63 <? sc_password_len c) || negb (has_station (wifi_get_opmode (sdk (ext s))))
     then refused k s s'
     else
       zlen (st_ssid conf) = 32 /\ nth 31 (st_ssid conf) 1 = 0 /\
       zlen (st_password conf) = 64 /\ nth 63 (st_password conf) 1 = 0 /\
       let '(ok, e) := wifi_station_set_config_current (sdk (ext s)) conf in
       if (ok : bool) then told k (set_sdk s (wifi_station_connect (wifi_station_disconnect e))) [status_msg 0] s'
       else refused k (set_sdk s e) s').
Proof using Type*.
  intros k s c junk Hs [Hw1 Hw2] Hl1 Hl2 conf. unfold on_station_conf_set. unfold TRY at 1.
  rewrite Z.eqb_refl. cbn [negb]. rewrite station_conf_read by by split. cbn [rbind].
  unfold check_credentials.
  destruct (Z.ltb_spec 32 (sc_ssid_len c + 1)); destruct (Z.ltb_spec 31 (sc_ssid_len c)); try lia; cbn [orb].
  { destruct (fail_told k s "SSID is too long, should be max %d" [31]) as (s' & E1 & T1); [done|done|].
    exists s'. split; [exact E1|by eexists]. }
  destruct (Z.ltb_spec 64 (sc_password_len c + 1)); destruct (Z.ltb_spec 63 (sc_password_len c)); try lia; cbn [orb].
  { destruct (fail_told k s "Password is too long, should be max %d" [63]) as (s' & E1 & T1); [done|done|].
    exists s'. split; [exact E1|by eexists]. }
  rewrite !fill_field_ok by lia. cbn [rbind]. fold conf. unfold TRY at 1.
  destruct (negb (has_station _)).
  { destruct (fail_told k s "Cannot set STA conf when not in STA mode" []) as (s' & E1 & T1); [done|done|].
    exists s'. split; [exact E1|by eexists]. }
  change (StationConfig _ _ 0 (replicate 6 0)) with conf. unfold sdk_call.
  destruct (wifi_station_set_config_current (sdk (ext s)) conf) as [ok e]. cbn [fst snd].
  assert (forall (sz : nat) src n, 0 <= n < Z.of_nat sz -> zlen src = Z.of_nat sz ->
    let f := take (Z.to_nat n) src ++ replicate (sz - Z.to_nat n) 0 in
    zlen f = Z.of_nat sz /\ nth (sz - 1) f 1 = 0) as Hf.
  { intros sz src n Hn Hsz f. unfold f, zlen in *. split.
    - rewrite length_app, length_take, length_replicate. lia.
    - rewrite app_nth2 by (rewrite length_take; lia). rewrite nth_lookup, lookup_replicate_2; [done|].
      rewrite length_take. lia. }
  destruct (Hf 32%nat (sc_ssid c) (sc_ssid_len c)) as [F1 F2]; [lia|done|].
  destruct (Hf 64%nat (sc_password c) (sc_password_len c)) as [F3 F4]; [lia|done|].
  unfold TRY. destruct ok; cbn [negb].
  - destruct (status_told k (set_sdk s (wifi_station_connect (wifi_station_disconnect e))) 0)
      as (s' & E1 & T1); [by apply safe_sdk, (safe_le (2 + k)); [lia|]|done|].
    exists s'. split; [exact E1|]. by repeat (split; [done|]).
  - destruct (fail_told k (set_sdk s e) "Call to set WIFI ssid/pass failed" []) as (s' & E1 & T1);
      [by apply safe_sdk|done|].
    exists s'. split; [exact E1|]. repeat (split; [done|]). by eexists.
Qed.

(** [MSG_STATION_DHCPC_STATE_SET] takes the success of the SDK for a
    failure.  Starting the client while it is stopped is answered with the
    status 255 exactly when [wifi_station_dhcpc_start] succeeds, and with 0
    when it fails. *)
Theorem dhcpc_start_inverted : forall k s d0 junk ok e,
  safe (2 + k) s -> d0 <> 0 -> wifi_station_dhcpc_status (sdk (ext s)) = DHCP_STOPPED ->
  wifi_station_dhcpc_start (sdk (ext s)) = (ok, e) ->
  exists s', on_dhcpc_state_set s (d0 :: junk) 1 = Ok s' /\
    (if (ok : bool) then refused k (set_sdk s e) s' else told k (set_sdk s e) [status_msg 0] s').
Proof using Type*.
  intros k s d0 junk ok e Hs Hd Hst Hcall.
  assert (c_true d0 = true) as Hc by (unfold c_true; by rewrite (proj2 (Z.eqb_neq d0 0))).
  unfold on_dhcpc_state_set, TRY. change (negb (1 =? 1)) with false. cbv iota.
  change (mread (d0 :: junk) 0) with (@Ok Z d0). cbn [rbind]. rewrite !Hc, Hst. unfold sdk_call. rewrite Hcall.
  cbn [fst snd]. destruct ok.
  - destruct (fail_told k (set_sdk s e) "wifi_station_dhcpc_start() failed" []) as (s' & E1 & T1);
      [by apply safe_sdk|done|].
    exists s'. split; [exact E1|by eexists].
  - apply status_told; [|done]. apply safe_sdk. by apply (safe_le (2 + k)); [lia|].
Qed.

(** The end of a scan.  A failed scan sends nothing at all to the host; a
    finished one sends the number of access points and then one entry for
    each, in order and numbered from zero, with the name cut to 32 bytes. *)
Theorem scan_done_reports : forall k s b0 found e_ssid,
  safe (1 + length found + k) s -> Forall scanned found -> bytes e_ssid -> zlen e_ssid = 32 ->
  scan_done s (b0 :: found) false e_ssid = Ok s /\
  exists s' es, scan_done s (b0 :: found) true e_ssid = Ok s' /\ described 0 found es /\
    told k s (ctl_msg MSG_WIFI_SCAN_REPLY (bytes_msg_wifi_scan_reply (MsgScanReply 0 (u16 (zlen found)))) ::
      map (fun e => ctl_msg MSG_WIFI_SCAN_ENTRY (bytes_msg_wifi_scan_entry e)) es) s'.
Proof using Type*.
  intros k s b0 found e_ssid Hs HF He Hl. split; [done|]. unfold scan_done. cbn [negb].
  destruct (ctl_told (length found + k) s MSG_WIFI_SCAN_REPLY
    (bytes_msg_wifi_scan_reply (MsgScanReply 0 (u16 (zlen found))))) as (s1 & -> & T1);
    [done|done|by apply bytes_cons; split; [|apply bytes_u16_bytes]|done|]. cbn [rbind].
  destruct (send_entries_ok found k s1 0 e_ssid) as (s' & es & -> & Hd & T2); [apply T1|done..|].
  exists s', es. split; [done|]. split; [done|]. exact (told_app _ _ _ _ _ _ _ T1 T2).
Qed.
End commands.

(** ** Witnesses *)

Definition station0 : comm Sim.dev (firmware SimSdk.env) := SimSdk.booted (Some SimSdk.eth0) FORWARDING_MODE_IP.


Lemma set_baud_faults_witness :
  safe (3 + 29) station0 /\
  (read_u32 [0; 0; 0; 0] 0 = Ok 0 -> packet_from_host station0 MSG_SET_BAUD [0; 0; 0; 0] 4 = Fault DivByZero) /\
  (zlen [0; 0; 0; 0] < 4 -> packet_from_host station0 MSG_SET_BAUD [0; 0; 0; 0] 4 = Fault OutOfBounds).
Proof.
  assert (safe (3 + 29) station0) as H1 by apply SimSdk.booted_safe.
  split; [done|]. exact (set_baud_faults 29 station0 [0; 0; 0; 0] 4 H1).
Defined.

Lemma host_command_wrong_size_witness :
  (safe (5 + 27) station0 /\ In (MSG_SOFTAP_CONF_SET, 102) fixed_size /\ 3 <> 102) /\
  exists s1 s', mitm_interface station0 = Ok s1 /\
    packet_from_host station0 MSG_SOFTAP_CONF_SET [1; 2; 3] 3 = Ok s' /\
    refused 27 s1 s' /\ ext s' = ext s1 /\ settings (ext s') = settings (ext station0).
Proof.
  assert (safe (5 + 27) station0) as H1 by apply SimSdk.booted_safe.
  assert (In (MSG_SOFTAP_CONF_SET, 102) fixed_size) as H2 by by do 8 right; left.
  assert (3 <> 102) as H3 by done.
  split; [done|]. exact (host_command_wrong_size 27 station0 MSG_SOFTAP_CONF_SET 102 [1; 2; 3] 3 H1 H2 H3).
Defined.

Lemma host_command_settings_witness :
  (safe (4 + 28) station0 /\ byte_setting (E:=SimSdk.env) (D:=Sim.dev) MSG_SET_FORWARDING_MODE = Some set_forwarding_mode) /\
  exists s1 s', mitm_interface station0 = Ok s1 /\
    packet_from_host station0 MSG_SET_FORWARDING_MODE [2] 1 = Ok s' /\
    told 28 (set_forwarding_mode s1 2) [status_msg 0] s' /\ settings (ext s1) = settings (ext station0).
Proof.
  assert (safe (4 + 28) station0) as H1 by apply SimSdk.booted_safe.
  assert (byte_setting (E:=SimSdk.env) (D:=Sim.dev) MSG_SET_FORWARDING_MODE = Some set_forwarding_mode) as H2 by done.
  split; [done|]. exact (host_command_settings 28 station0 MSG_SET_FORWARDING_MODE _ 2 [] H1 H2).
Defined.

Lemma mitm_interface_hooks_witness :
  (safe (3 + 29) station0 /\ eagle_lwip_getif (sdk (ext station0)) = Some SimSdk.eth0) /\
  exists s', mitm_interface station0 = Ok s' /\ safe 29 s' /\
    eagle_lwip_getif (sdk (ext s')) = Some MITM /\
    netif_input_orig (ext s') = FN_OTHER 0x40100 /\
    netif_output_orig (ext s') = FN_OTHER 0x40200 /\
    netif_linkoutput_orig (ext s') = FN_OTHER 0x40300 /\
    settings (ext s') = settings (ext station0) /\
    (hooks_chained (ext station0) -> hooks_chained (ext s')) /\ mitm_interface s' = Ok s'.
Proof.
  assert (safe (3 + 29) station0) as H1 by apply SimSdk.booted_safe.
  assert (eagle_lwip_getif (sdk (ext station0)) = Some SimSdk.eth0) as H2 by done.
  split; [done|]. exact (mitm_interface_hooks 29 station0 SimSdk.eth0 H1 H2).
Defined.

(** A TCP segment of four bytes behind a header without options. *)
Definition tcp_packet : list Z :=
  [0x45; 0; 0; 24; 0; 0; 0; 0; 64; 6; 0; 0; 10; 0; 0; 1; 10; 0; 0; 2; 0xde; 0xad; 0xbe; 0xef].

Lemma inject_ip_packet_delivers_witness :
  (safe (1 + 31) station0 /\ bytes tcp_packet /\ 0 <= 24 <= zlen tcp_packet /\ 24 <= MAX_MESSAGE_SIZE) /\
  exists r s', inject_ip_packet station0 tcp_packet 24 = Ok (r, s') /\ safe 31 s' /\
    (r = -1 /\ ext s' = ext station0 /\ ip_refused station0 tcp_packet 24 \/
     ip_injected station0 tcp_packet 24 r s').
Proof.
  assert (safe (1 + 31) station0) as H1 by apply SimSdk.booted_safe.
  assert (bytes tcp_packet) as H2 by by apply (bool_decide_unpack _).
  assert (0 <= 24 <= zlen tcp_packet) as H3 by done.
  assert (24 <= MAX_MESSAGE_SIZE) as H4 by done.
  split; [done|]. exact (inject_ip_packet_delivers 31 station0 tcp_packet 24 H1 H2 H3 H4).
Defined.

(** The simulated stack has received the segment. *)
Example tcp_packet_sent : forall r s', inject_ip_packet station0 tcp_packet 24 = Ok (r, s') ->
  SimSdk.sent (sdk (ext s')) = [(1, 0x0200000a, [0xde; 0xad; 0xbe; 0xef])] /\ pbufs (ext s') = empty.
Proof.
  intros r s' E. vm_compute in E. injection E as <- <-. split; vm_compute; reflexivity.
Qed.

Lemma inject_ether_packet_restores_irq_witness :
  (safe (1 + 31) station0 /\ bytes tcp_packet /\ 0 <= 24 <= zlen tcp_packet /\ 24 <= MAX_MESSAGE_SIZE) /\
  let '(irq, e) := irq_save (sdk (ext station0)) in
  exists r s' e1, inject_ether_packet station0 tcp_packet 24 = Ok (r, s') /\ safe 31 s' /\
    sdk (ext s') = irq_restore e1 irq /\
    (r = -1 /\ e1 = e /\ ether_refused station0 e 24 \/ r = 0 /\ ether_injected station0 e e1 tcp_packet 24).
Proof.
  assert (safe (1 + 31) station0) as H1 by apply SimSdk.booted_safe.
  assert (bytes tcp_packet) as H2 by by apply (bool_decide_unpack _).
  assert (0 <= 24 <= zlen tcp_packet) as H3 by done.
  assert (24 <= MAX_MESSAGE_SIZE) as H4 by done.
  split; [done|]. exact (inject_ether_packet_restores_irq 31 station0 tcp_packet 24 H1 H2 H3 H4).
Defined.

Definition home : msg_station_conf := MsgStationConf 4 ([104; 111; 109; 101] ++ replicate 28 7) 2 ([65; 66] ++ replicate 62 9).

Lemma station_conf_set_spec_witness :
  (safe (2 + 30) station0 /\ wf_station_conf home /\ 0 <= sc_ssid_len home /\ 0 <= sc_password_len home) /\
  exists s', on_station_conf_set station0 (bytes_msg_station_conf home ++ []) sizeof_msg_station_conf = Ok s' /\
    zlen (st_ssid (station_config_of home)) = 32 /\ nth 31 (st_ssid (station_config_of home)) 1 = 0 /\
    zlen (st_password (station_config_of home)) = 64 /\ nth 63 (st_password (station_config_of home)) 1 = 0 /\
    told 30 (set_sdk station0 (SimSdk.set_conf (sdk (ext station0)) (station_config_of home))) [status_msg 0] s'.
Proof.
  assert (safe (2 + 30) station0) as H1 by apply SimSdk.booted_safe.
  assert (wf_station_conf home) as H2 by done.
  assert (0 <= sc_ssid_len home) as H3 by done.
  assert (0 <= sc_password_len home) as H4 by done.
  split; [done|]. exact (station_conf_set_spec 30 station0 home [] H1 H2 H3 H4).
Defined.

Lemma dhcpc_start_inverted_witness :
  (safe (2 + 30) station0 /\ 1 <> 0 /\ wifi_station_dhcpc_status (sdk (ext station0)) = DHCP_STOPPED /\
   wifi_station_dhcpc_start (sdk (ext station0)) = (true, SimSdk.set_dhcpc (sdk (ext station0)) DHCP_STARTED)) /\
  exists s', on_dhcpc_state_set station0 [1] 1 = Ok s' /\
    refused 30 (set_sdk station0 (SimSdk.set_dhcpc (sdk (ext station0)) DHCP_STARTED)) s'.
Proof.
  assert (safe (2 + 30) station0) as H1 by apply SimSdk.booted_safe.
  assert (1 <> 0) as H2 by done.
  assert (wifi_station_dhcpc_status (sdk (ext station0)) = DHCP_STOPPED) as H3 by done.
  split; [done|]. exact (dhcpc_start_inverted 30 station0 1 [] true _ H1 H2 H3 eq_refl).
Defined.

Definition access_point : bss_info := BssInfo [65; 80; 0; 0] [1; 2; 3; 4; 5; 6] 11 3 (-70) 0.

Lemma scan_done_reports_witness :
  (safe (1 + 2 + 29) station0 /\ Forall scanned [access_point; access_point] /\ bytes (replicate 32 0) /\
   zlen (replicate 32 0) = 32) /\
  scan_done station0 [access_point; access_point; access_point] false (replicate 32 0) = Ok station0 /\
  exists s' es, scan_done station0 [access_point; access_point; access_point] true (replicate 32 0) = Ok s' /\
    described 0 [access_point; access_point] es /\
    told 29 station0 (ctl_msg MSG_WIFI_SCAN_REPLY (bytes_msg_wifi_scan_reply (MsgScanReply 0 2)) ::
      map (fun e => ctl_msg MSG_WIFI_SCAN_ENTRY (bytes_msg_wifi_scan_entry e)) es) s'.
Proof.
  assert (safe (1 + 2 + 29) station0) as H1 by apply SimSdk.booted_safe.
  assert (scanned access_point) as Ha.
  { split; [by apply (bool_decide_unpack _)|]. split; [by do 2 right; left|].
    split; [by apply (bool_decide_unpack _)|done]. }
  assert (Forall scanned [access_point; access_point]) as H2
    by (apply List.Forall_cons; [done|apply List.Forall_cons; [done|apply List.Forall_nil]]).
  assert (bytes (replicate 32 0)) as H3 by by apply (bool_decide_unpack _).
  assert (zlen (replicate 32 0) = 32) as H4 by done.
  split; [done|].
  exact (scan_done_reports 29 station0 access_point [access_point; access_point] (replicate 32 0) H1 H2 H3 H4).
Defined.
