(* ===== verification/Forward.v ===== *)
(** * Packets of the network on their way to the host: [raw_receiver], the
    hooks of the interface, and what they leave to the stack. *)
From S2P Require Import Prelude Crc16 Cobs Uart Comm CommTx Message Pbuf PbufChain InetChksum IpHdr UserMain Host Commands.

(** ** A packet while messages are pushed *)
Lemma cell_data_grow st st' c : cell_ok st c -> blocks st ⊆ blocks st' -> cell_data st' c = cell_data st c.
Proof.
  intros (Hl & _ & _ & Hb) Hsub. unfold is_u16 in Hl. unfold cell_data.
  destruct (Z.eq_dec (len c) 0) as [->|Hne]; [done|]. destruct Hb as (b & Eb & _); [lia|].
  by rewrite Eb, (lookup_weaken _ _ _ _ Eb Hsub).
Qed.

Lemma data_grow st st' l : cells st' = cells st -> blocks st ⊆ blocks st' -> Forall (pbuf_ok st) l ->
  contents st' l = contents st l /\ Forall (pbuf_ok st') l.
Proof.
  intros Hc Hb. induction 1 as [|a l Ha _ [IH1 IH2]]; [done|]. rewrite !contents_cons, IH1.
  unfold data_of, pbuf_ok in *. rewrite Hc in IH2 |- *. destruct (cells st !! a) as [c|] eqn:Ec; [|done].
  rewrite (cell_data_grow st st') by done. split; [done|]. constructor; [|done]. rewrite Ec.
  pose proof Ha as (? & ? & Hby & Hbl). unfold cell_ok. rewrite (cell_data_grow st st') by done.
  do 3 (split; [done|]). intros Hp. destruct (Hbl Hp) as (b & Eb & ?). exists b.
  split; [by eapply lookup_weaken|done].
Qed.

Lemma totals_grow st st' l : cells st' = cells st -> blocks st ⊆ blocks st' -> Forall (pbuf_ok st) l ->
  totals_ok st l -> totals_ok st' l.
Proof.
  intros Hc Hb. induction l as [|a l IH]; intros HF; [done|]. cbn [totals_ok]. intros [Ht Hts].
  destruct (data_grow st st' (a :: l) Hc Hb HF) as [-> _]. rewrite Hc. split; [done|].
  apply IH; [|done]. by inversion HF.
Qed.

Lemma packet_grow st st' p l : cells st' = cells st -> blocks st ⊆ blocks st' -> packet st p l ->
  packet st' p l /\ contents st' l = contents st l.
Proof.
  intros Hc Hb [Hch HF Ht Hsm]. destruct (data_grow st st' l Hc Hb HF) as [Ed HF'].
  split; [|done]. split; [|done|by eapply totals_grow|by rewrite Ed].
  eapply chain_frame; [|done]. intros a _. by rewrite Hc.
Qed.

(** A packet whose every pbuf is referenced once, from the packet. *)
Definition sole (st : store) (l : list Z) : Prop := Forall (fun a => ref_of st a = 1) l.

(** ** Reading headers *)

Definition be16 (d : list Z) (i : nat) : Z := 256 * nth i d 0 + nth (S i) d 0.

Lemma mread_nth m i : (i < length m)%nat -> mread m (Z.of_nat i) = Ok (nth i m 0).
Proof.
  intros Hi. unfold mread. rewrite (proj2 (Z.leb_le _ _)), Nat2Z.id by lia.
  destruct (lookup_lt_is_Some_2 m i Hi) as [x Ex]. rewrite Ex. cbn [of_option]. f_equal.
  symmetry. by apply nth_lookup_Some.
Qed.

Lemma nth_byte m i : bytes m -> is_byte (nth i m 0).
Proof.
  intros Hm. rewrite nth_lookup. destruct (m !! i) as [x|] eqn:Ex; [by eapply Forall_lookup_1 in Ex|].
  unfold is_byte. simpl. lia.
Qed.

(** A 16-bit field in network order. *)
Lemma read_ntohs m i : bytes m -> (S i < length m)%nat ->
  exists v, read_u16 m (Z.of_nat i) = Ok v /\ ntohs v = be16 m i.
Proof.
  intros Hm Hi. unfold read_u16. rewrite mread_nth by lia. cbn [rbind].
  replace (Z.of_nat i + 1) with (Z.of_nat (S i)) by lia. rewrite mread_nth by lia. cbn [rbind].
  eexists. split; [done|]. unfold be16. pose proof (nth_byte m i Hm). pose proof (nth_byte m (S i) Hm).
  unfold is_byte in *. fold (SWAP_BYTES_IN_WORD (nth i m 0 + 256 * nth (S i) m 0)).
  rewrite swap_eq by lia. Z.div_mod_to_equations. lia.
Qed.

Definition ip_hl (d : list Z) : Z := nth 0 d 0 mod 16.
Definition broadcast (d : list Z) : bool :=
  bool_decide (nth 16 d 0 = 255 /\ nth 17 d 0 = 255 /\ nth 18 d 0 = 255 /\ nth 19 d 0 = 255).
Definition dhcp_port (v : Z) : bool := (v =? 67) || (v =? 68).

Lemma iph_hl_eq hdr : bytes hdr -> (1 < length hdr)%nat -> iph_hl hdr = Ok (ip_hl hdr).
Proof.
  intros Hb Hl. unfold iph_hl, IPH_HL, ip_hl. destruct (read_ntohs hdr 0 Hb Hl) as (v & Ev & En).
  change (read_u16 hdr 0) with (read_u16 hdr (Z.of_nat 0)). rewrite Ev. cbn [rbind]. rewrite En. f_equal.
  change 0x0f with (Z.ones 4). rewrite Z.land_ones by lia. rewrite Z.shiftr_div_pow2 by lia.
  change (2 ^ 4) with 16. change (2 ^ 8) with 256. unfold be16.
  pose proof (nth_byte hdr 1 Hb). unfold is_byte in *. f_equal. Z.div_mod_to_equations. lia.
Qed.

Lemma ip_dest_eq hdr : bytes hdr -> length hdr = 20%nat ->
  exists dest, ip_dest hdr = Ok dest /\ (dest =? 0xffffffff) = broadcast hdr.
Proof.
  intros Hb Hl. unfold ip_dest, read_u32, read_u16.
  change 16 with (Z.of_nat 16). rewrite mread_nth by lia. cbn [rbind].
  change (Z.of_nat 16 + 1) with (Z.of_nat 17). rewrite mread_nth by lia. cbn [rbind].
  change (Z.of_nat 16 + 2) with (Z.of_nat 18). rewrite mread_nth by lia. cbn [rbind].
  change (Z.of_nat 18 + 1) with (Z.of_nat 19). rewrite mread_nth by lia. cbn [rbind].
  eexists. split; [done|]. unfold broadcast.
  pose proof (nth_byte hdr 16 Hb). pose proof (nth_byte hdr 17 Hb).
  pose proof (nth_byte hdr 18 Hb). pose proof (nth_byte hdr 19 Hb). unfold is_byte in *.
  apply Bool.eq_iff_eq_true. rewrite Z.eqb_eq, bool_decide_eq_true. lia.
Qed.

(** The UDP header as [raw_receiver] sees it: what the packet has of it, over
    what its memory held before. *)
Definition udp_header (d udp_h : list Z) : list Z :=
  let h := take 8 (drop (Z.to_nat (4 * ip_hl d)) d) in h ++ drop (length h) udp_h.

(** The host takes a packet of contents [d] when IP packets are forwarded and
    it is neither a broadcast that stays inside nor from or to a DHCP port. *)
Definition host_takes {E} (f : firmware E) (d udp_h : list Z) : bool :=
  (global_forwarding_mode f =? FORWARDING_MODE_IP) && (20 <=? zlen d) &&
  negb ((forward_ip_broadcasts f =? 0) && broadcast d) &&
  (negb (nth 9 d 0 =? IP_PROTO_UDP) ||
   ((4 * ip_hl d <? zlen d) &&
    negb (dhcp_port (be16 (udp_header d udp_h) 0) || dhcp_port (be16 (udp_header d udp_h) 2)))).

Definition is_log (m : list Z * Z) : Prop := exists level text, m = ctl_msg MSG_LOG (level :: text).

Section forward.
Context {D E : Type} `{Soc D, OsLaws, !OsText, SdkLaws E}.
Abbreviation world := (comm D (firmware E)).
Implicit Type s : world.

Lemma packet_after s s' p l : after s s' -> packet (get_store s) p l ->
  packet (get_store s') p l /\ contents (get_store s') l = contents (get_store s) l.
Proof using Type.
  intros Ha Hp. apply packet_grow; [|by apply Ha|done]. unfold get_store. cbn. by rewrite (after_ext _ _ Ha).
Qed.
Lemma sole_after s s' l : after s s' -> sole (get_store s) l -> sole (get_store s') l.
Proof using Type.
  intros Ha. unfold sole, ref_of, get_store. cbn. by rewrite (after_ext _ _ Ha).
Qed.

(** What the host is sent for a packet of contents [d] in the pbufs [l]. *)
Definition to_host s (type limit : Z) (l d : list Z) : list (list Z * Z) :=
  match l with
  | _ :: _ :: _ => log_msg s 40 (os_sprintf "internal error: got scattered packet" [])
  | _ =>
      if MAX_PACKET_SIZE <? zlen d then log_msg s 30 (os_sprintf "IP packet too large: %d" [SInt (zlen d)])
      else [(message type d, if zlen d <? limit then COMM_TX_PRIO_MEDIUM else COMM_TX_PRIO_LOW)]
  end.

Lemma to_host_after s s' type limit l d : after s s' -> to_host s' type limit l d = to_host s type limit l d.
Proof using Type. intros Ha. unfold to_host, log_msg. by rewrite (after_loglevel _ _ Ha). Qed.

Lemma forward_told k s type p limit a l : safe (S k) s -> is_byte type ->
  packet (get_store s) p (a :: l) ->
  let d := contents (get_store s) (a :: l) in
  exists s', forward_to_host s type p limit = Ok s' /\ told k s (to_host s type limit (a :: l) d) s'.
Proof using Type*.
  intros Hs Ht [Hch HF Htot Hsm] d. unfold forward_to_host.
  destruct (chain_head _ _ _ _ Hch HF) as (-> & c & -> & Ec & Hok & Hz & Hda & Hlen & Hch' & HF').
  cbn [rbind]. destruct l as [|b l].
  - cbn in Hch'. rewrite Hch'. cbn [Z.eqb negb]. cbn [to_host].
    assert (d = cell_data (get_store s) c) as Hd by (unfold d; rewrite contents_cons, Hda; apply app_nil_r).
    assert (zlen d = len c) as <- by (rewrite Hd; by apply cell_data_length).
    destruct (MAX_PACKET_SIZE <? zlen d) eqn:Emax.
    + apply (log_told k s 30 _ [zlen d]); [done|done|done].
    + rewrite (load_ok (get_store s) c 0 (zlen d)); [|done|lia|apply zlen_nonneg|].
      2:{ rewrite Hd, cell_data_length by done. lia. }
      cbn [rbind]. rewrite drop_0, <- Hd. rewrite firstn_all2 by (unfold zlen; lia).
      apply send_told; [done|done|rewrite Hd; by apply cell_data_bytes|].
      apply Z.ltb_ge in Emax. unfold MAX_PACKET_SIZE in Emax. lia.
  - destruct Hch' as (-> & Hb & _). rewrite (proj2 (Z.eqb_neq b 0)) by done. cbn [negb to_host].
    by apply (log_told k s 40 _ []).
Qed.

(** Freeing a packet nobody else holds. *)
Lemma free_sole k s p l : safe k s -> packet (get_store s) p l -> sole (get_store s) l ->
  free_pbuf s p = Ok (put_store s (without l (get_store s))) /\ safe k (put_store s (without l (get_store s))).
Proof using Type.
  intros Hs [Hch HF _ _] H1'. unfold free_pbuf, pbuf_free.
  assert (Forall (releasable (get_store s)) l) as Hrel.
  { unfold sole in H1'. rewrite List.Forall_forall in H1' |- *. intros a Hin. destruct (chain_in _ _ _ _ Hch Hin) as [_ [c Ec]].
    exists c. split; [done|]. split; [apply (safe_backed _ _ Hs); by rewrite Ec|].
    specialize (H1' a Hin). unfold ref_of in H1'. rewrite Ec in H1'. lia. }
  rewrite (free_loop_ok l _ (get_store s) p []); rewrite ?app_nil_r; try done.
  2:{ by apply chain_enough with p. }
  cbn [rbind unref]. split; [done|]. apply safe_store; [done|].
  assert (forall a st, blocks (without l st) !! a = (if in_dec Z.eq_dec a l then None else blocks st !! a) /\
    cells (without l st) !! a = (if in_dec Z.eq_dec a l then None else cells st !! a)) as Hwo.
  { clear. induction l as [|b l IH]; intros a st; [done|]. cbn [without].
    destruct (IH a (Store (delete b (cells st)) (delete b (blocks st)))) as [-> ->]. cbn [blocks cells].
    destruct (in_dec Z.eq_dec a l), (in_dec Z.eq_dec a (b :: l)) as [[->|Hin]|Hni]; try done.
    - exfalso. apply Hni. by right.
    - by rewrite !lookup_delete_eq.
    - rewrite !lookup_delete_ne; [done|..]; intros ->; apply Hni; by left. }
  split.
  - intros a Hb Hc. destruct (Hwo a (get_store s)) as [-> ->]. destruct (in_dec Z.eq_dec a l) as [Hin|]; [|done].
    destruct (chain_in _ _ _ _ Hch Hin) as [_ [c Ec]]. congruence.
  - intros Hbk a. destruct (Hwo a (get_store s)) as [-> ->]. destruct (in_dec Z.eq_dec a l); [by intros []|apply Hbk].
Qed.

Lemma log_msg_log s level text : Forall is_log (log_msg s level text).
Proof using Type. unfold log_msg. case_match; [|done]. apply List.Forall_cons; [by do 2 eexists|done]. Qed.

(** The two ways [raw_receiver] ends. *)
Definition left_alone (k : nat) s (r : result (Z * world)) : Prop :=
  exists s' msgs, r = Ok (0, s') /\ Forall is_log msgs /\ told k s msgs s'.
Definition taken_over (k : nat) s (l d : list Z) (r : result (Z * world)) : Prop :=
  exists s1 text, told k s (log_msg s 10 text ++ to_host s MSG_IP_PACKET 68 l d) s1 /\
    r = Ok (1, put_store s1 (without l (get_store s1))) /\ safe k (put_store s1 (without l (get_store s1))).

Definition verdict (k : nat) s (l d : list Z) (b : bool) (r : result (Z * world)) : Prop :=
  if b then taken_over k s l d r else left_alone k s r.

(** After the first line: another line, and the packet is left alone. *)
Lemma leave k s text s1 level f zs : told (S k) s (log_msg s 10 text) s1 -> is_byte level ->
  Z.of_nat (String.length f) + 9 * zlen zs <= 126 ->
  left_alone k s (let! s := comm_log s1 level f (map SInt zs) in Ok (0, s)).
Proof using Type*.
  intros T1 Hl Hf. destruct (log_told k s1 level f zs) as (s2 & -> & T2); [apply T1|done|done|].
  cbn [rbind]. exists s2, (log_msg s 10 text ++ log_msg s1 level (os_sprintf f (map SInt zs))).
  split; [done|]. split; [apply Forall_app; split; apply log_msg_log|by eapply told_app].
Qed.

Lemma leave_now k s text s1 : told (S k) s (log_msg s 10 text) s1 -> left_alone k s (Ok (0, s1)).
Proof using Type.
  intros [T1 Hs Ha]. exists s1, (log_msg s 10 text). split; [done|]. split; [apply log_msg_log|].
  split; [done| |done]. eapply safe_le; [|done]. lia.
Qed.

Lemma take_over k s text s1 p a l :
  told (S k) s (log_msg s 10 text) s1 -> packet (get_store s) p (a :: l) -> sole (get_store s) (a :: l) ->
  taken_over k s (a :: l) (contents (get_store s) (a :: l))
    (take_packet s1 p).
Proof using Type*.
  intros T1 Hp Hsole. unfold take_packet. pose proof (told_after _ _ _ _ T1) as Ha.
  destruct (packet_after s s1 p (a :: l) Ha Hp) as [Hp1 Ed].
  destruct (forward_told k s1 MSG_IP_PACKET p (48 + 20) a l) as (s2 & -> & T2); [apply T1|done|done|].
  cbn [rbind]. pose proof (told_after _ _ _ _ T2) as Ha2.
  destruct (packet_after s1 s2 p (a :: l) Ha2 Hp1) as [Hp2 _].
  destruct (free_sole k s2 p (a :: l)) as [-> Hs2]; [apply T2|done|by eapply sole_after, sole_after|].
  cbn [rbind]. exists s2, text. split; [|by split]. rewrite Ed, (to_host_after s s1) in T2 by done.
  by eapply told_app.
Qed.

(** The UDP part of [raw_receiver]. *)
Lemma udp_verdict k s text s1 a l udp_h :
  told (S k) s (log_msg s 10 text) s1 -> packet (get_store s) a (a :: l) -> sole (get_store s) (a :: l) ->
  bytes udp_h -> zlen udp_h = 8 ->
  let d := contents (get_store s) (a :: l) in
  verdict k s (a :: l) d ((4 * ip_hl d <? zlen d) &&
      negb (dhcp_port (be16 (udp_header d udp_h) 0) || dhcp_port (be16 (udp_header d udp_h) 2)))
    (receive_udp s1 a udp_h (ip_hl d)).
Proof using Type*.
  intros T1 Hp Hsole Hub Hul d. pose proof (told_after _ _ _ _ T1) as Ha.
  destruct (packet_after s s1 _ _ Ha Hp) as [[Hch1 HF1 _ _] Ed]. unfold receive_udp.
  assert (bytes d) as Hd by (by apply contents_bytes; destruct Hp).
  assert (0 <= ip_hl d < 16) as Hhl by (apply Z.mod_pos_bound; lia).
  unfold SIZEOF_UDP_HDR. rewrite (copy_partial_ok (get_store s1) a (a :: l));
    [|done|done|lia|done|unfold is_u16; lia].
  rewrite Ed. fold d. change (Z.to_nat 8) with 8%nat. cbn [rbind]. set (h := take 8 _).
  destruct (Z.ltb_spec (4 * ip_hl d) (zlen d)) as [Hfit|Hno]; cbn [andb].
  2:{ assert (h = []) as -> by (unfold h; rewrite drop_ge by (unfold zlen in *; lia); apply take_nil).
      cbn [zlen length Z.of_nat Z.eqb]. by apply (leave k s text s1 30 _ []). }
  assert (zlen h <> 0) as Hh0.
  { unfold h, zlen in *. rewrite length_take, length_drop. lia. }
  rewrite (proj2 (Z.eqb_neq _ _)) by done.
  change (h ++ drop (length h) udp_h) with (udp_header d udp_h).
  assert (bytes (udp_header d udp_h) /\ length (udp_header d udp_h) = 8%nat) as [Huh Hlh].
  { unfold udp_header. fold h. split.
    - apply bytes_app. split; [by apply Forall_take, Forall_drop|by apply Forall_drop].
    - rewrite length_app, length_drop. unfold h, zlen in *. rewrite length_take, length_drop. lia. }
  destruct (read_ntohs (udp_header d udp_h) 0 Huh) as (src & Eh0 & Esrc); [lia|].
  destruct (read_ntohs (udp_header d udp_h) 2 Huh) as (dst & Eh2 & Edst); [lia|].
  change (Z.of_nat 0) with 0 in Eh0. change (Z.of_nat 2) with 2 in Eh2. rewrite Eh0. cbn [rbind]. rewrite Eh2.
  cbn [rbind]. rewrite Esrc, Edst. unfold dhcp_port.
  set (x := be16 _ 0). set (y := be16 _ 2).
  replace ((x =? 67) || (x =? 68) || ((y =? 67) || (y =? 68))) with
    ((x =? 67) || (y =? 67) || (x =? 68) || (y =? 68)) by
    (destruct (x =? 67), (x =? 68), (y =? 67), (y =? 68); done).
  destruct ((x =? 67) || (y =? 67) || (x =? 68) || (y =? 68)); cbn [negb];
    [by apply (leave k s text s1 10 _ [])|].
  by apply (take_over k s text s1).
Qed.

(** C4: which packets of the network the host gets.  [raw_receiver] decides by
    the contents of the packet alone, however it is split into pbufs: the
    packet is forwarded to the host and freed exactly when [host_takes] says
    so; otherwise it is left to the internal stack untouched and nothing but
    log lines is sent. *)
Theorem raw_receiver_decides : forall k s p a l udp_h,
  safe (2 + k) s -> packet (get_store s) p (a :: l) -> sole (get_store s) (a :: l) ->
  bytes udp_h -> zlen udp_h = 8 ->
  let d := contents (get_store s) (a :: l) in
  if host_takes (ext s) d udp_h then taken_over k s (a :: l) d (raw_receiver s p udp_h)
  else left_alone k s (raw_receiver s p udp_h).
Proof using Type*.
  intros k s p a l udp_h Hs Hp Hsole Hub Hul d.
  change (verdict k s (a :: l) d (host_takes (ext s) d udp_h) (raw_receiver s p udp_h)). unfold raw_receiver.
  pose proof Hp as [Hch HF Htot Hsm].
  destruct (chain_head _ _ _ _ Hch HF) as (-> & c & -> & _). cbn [rbind].
  destruct (log_told (S k) s 10 "WLan IP packet of size %d" [tot_len c]) as (s1 & E1 & T1); [done|done|done|].
  change (map SInt [tot_len c]) with [SInt (tot_len c)] in *. unfold COMM_DBG at 1. rewrite E1. cbn [rbind].
  set (text := os_sprintf _ _) in T1.
  pose proof (told_after _ _ _ _ T1) as Ha. pose proof (after_ext _ _ Ha) as Ee.
  destruct (packet_after s s1 _ _ Ha Hp) as [[Hch1 HF1 _ _] Ed]. rewrite !Ee. unfold host_takes.
  destruct (Z.eqb_spec (global_forwarding_mode (ext s)) FORWARDING_MODE_IP); cbn [negb andb];
    [|by eapply leave_now].
  unfold SIZEOF_IP_HDR. rewrite (copy_partial_ok (get_store s1) a (a :: l)); try done.
  rewrite Ed, drop_0. fold d. change (Z.to_nat 20) with 20%nat. cbn [rbind].
  assert (bytes d) as Hd by by apply contents_bytes.
  destruct (Z.leb_spec 20 (zlen d)) as [H20|H20]; cbn [andb].
  2:{ rewrite (proj2 (Z.eqb_neq _ _)) by (unfold zlen in *; rewrite length_take; lia). cbn [negb].
      by apply (leave k s text s1 30 _ [tot_len c]). }
  assert (length (take 20 d) = 20%nat) as Hl20 by (rewrite length_take; unfold zlen in *; lia).
  assert (zlen (take 20 d) = 20) as -> by (unfold zlen; by rewrite Hl20). cbn [negb Z.eqb].
  change (negb (20 =? 20)) with false. cbv iota.
  rewrite Hl20. change (drop 20 (replicate 20 0)) with (@nil Z). rewrite app_nil_r.
  set (hdr := take 20 d) in *. assert (bytes hdr) as Hhb by by apply Forall_take.
  assert (forall i, (i < 20)%nat -> nth i hdr 0 = nth i d 0) as Hnth.
  { intros i Hi. unfold hdr. rewrite !nth_lookup, lookup_take_lt by lia. done. }
  destruct (ip_dest_eq hdr Hhb Hl20) as (dest & -> & Edest). cbn [rbind]. rewrite Edest.
  assert (broadcast hdr = broadcast d) as -> by (unfold broadcast; by rewrite !Hnth by lia).
  destruct ((forward_ip_broadcasts (ext s) =? 0) && broadcast d); cbn [negb andb].
  { by apply (leave k s text s1 10 _ []). }
  unfold ip_proto. change 9 with (Z.of_nat 9). rewrite mread_nth by lia. cbn [rbind].
  rewrite iph_hl_eq by (done || lia). cbn [rbind]. rewrite Hnth by lia.
  assert (ip_hl hdr = ip_hl d) as -> by (unfold ip_hl; by rewrite Hnth by lia).
  destruct (Z.eqb_spec (nth 9 d 0) IP_PROTO_UDP) as [_|_]; cbn [negb orb];
    [|by apply (take_over k s text s1)].
  by apply (udp_verdict k s text s1 a l udp_h).
Qed.

(** The first line of the three hooks. *)
Lemma hook_entry k s p a l f :
  safe (S k) s -> packet (get_store s) p (a :: l) -> Z.of_nat (String.length f) + 9 <= 126 ->
  exists c text s1, deref (get_store s) p = Ok c /\ COMM_DBG s f [SInt (tot_len c)] = Ok s1 /\
    told k s (log_msg s 10 text) s1 /\ ext s1 = ext s.
Proof using Type*.
  intros Hs [Hch HF _ _] Hf. destruct (chain_head _ _ _ _ Hch HF) as (-> & c & Hd & _).
  destruct (log_told k s 10 f [tot_len c]) as (s1 & E1 & T1); [done|done|by zl|].
  exists c, (os_sprintf f (map SInt [tot_len c])), s1. split; [done|]. split; [exact E1|].
  split; [done|]. by eapply after_ext, told_after.
Qed.

(** In the Ethernet mode the device's own stack is cut off.  A frame that
    comes in is sent to the host, whole and with the priority its length
    asks for, or reported when it is in pieces or too large, and freed in
    either case; frames the stack wants to send are swallowed.  The saved
    functions of the interface are called in no case. *)
Theorem ether_mode_isolates : forall k s p a l,
  safe (2 + k) s -> packet (get_store s) p (a :: l) -> sole (get_store s) (a :: l) ->
  global_forwarding_mode (ext s) = FORWARDING_MODE_ETHER ->
  (exists s1 text, netif_input_mitm s p = Ok (0, put_store s1 (without (a :: l) (get_store s1))) /\
     safe k (put_store s1 (without (a :: l) (get_store s1))) /\ ext s1 = ext s /\
     told k s (log_msg s 10 text ++ to_host s MSG_ETHER_PACKET 88 (a :: l) (contents (get_store s) (a :: l))) s1) /\
  (forall ipaddr, exists s1 text, netif_output_mitm s p ipaddr = Ok (0, s1) /\ told k s (log_msg s 10 text) s1) /\
  (exists s1 text, netif_linkoutput_mitm s p = Ok (0, s1) /\ told k s (log_msg s 10 text) s1).
Proof using Type*.
  intros k s p a l Hs Hp Hsole Hm. assert (safe (S k) s) as Hs1 by (eapply safe_le; [|exact Hs]; lia).
  split; [|split].
  - unfold netif_input_mitm.
    destruct (hook_entry (S k) s p a l "mitm input, size=%d" Hs Hp) as (c & text & s1 & -> & E1 & T1 & Ee);
      [done|]. cbn [rbind]. rewrite E1. cbn [rbind]. rewrite Ee, Hm. change (_ =? FORWARDING_MODE_ETHER) with true.
    cbv iota. pose proof (told_after _ _ _ _ T1) as Ha.
    destruct (packet_after s s1 p (a :: l) Ha Hp) as [Hp1 Ed].
    destruct (forward_told k s1 MSG_ETHER_PACKET p (68 + 20) a l) as (s2 & -> & T2); [apply T1|done|done|].
    cbn [rbind]. pose proof (told_after _ _ _ _ T2) as Ha2.
    destruct (packet_after s1 s2 p (a :: l) Ha2 Hp1) as [Hp2 _].
    destruct (free_sole k s2 p (a :: l)) as [-> Hs2]; [apply T2|done|by eapply sole_after, sole_after|].
    cbn [rbind]. exists s2, text. split; [done|]. split; [done|]. split; [by rewrite (after_ext _ _ Ha2)|].
    rewrite Ed, (to_host_after s s1) in T2 by done. by eapply told_app.
  - intros ipaddr. unfold netif_output_mitm.
    destruct (hook_entry k s p a l "mitm output, size=%d" Hs1 Hp) as (c & text & s1 & -> & E1 & T1 & Ee);
      [done|]. cbn [rbind]. rewrite E1. cbn [rbind]. rewrite Ee, Hm. by exists s1, text.
  - unfold netif_linkoutput_mitm.
    destruct (hook_entry k s p a l "mitm linkoutput, size=%d" Hs1 Hp) as (c & text & s1 & -> & E1 & T1 & Ee);
      [done|]. cbn [rbind]. rewrite E1. cbn [rbind]. rewrite Ee, Hm. by exists s1, text.
Qed.

(** In every other mode the hooks are transparent: a packet goes to the
    saved function of the interface, once and untouched, and its result is
    the hook's. *)
Theorem other_modes_pass_through : forall k s p a l,
  safe (1 + k) s -> packet (get_store s) p (a :: l) ->
  global_forwarding_mode (ext s) <> FORWARDING_MODE_ETHER ->
  (netif_input_orig (ext s) <> FN_NULL -> exists s1 text, told k s (log_msg s 10 text) s1 /\
     packet (get_store s1) p (a :: l) /\
     let '(r, st, e) := call_input (sdk (ext s)) (get_store s1) (netif_input_orig (ext s)) p in
     netif_input_mitm s p = Ok (r, put_store (set_sdk s1 e) st)) /\
  (netif_output_orig (ext s) <> FN_NULL -> forall ipaddr, exists s1 text, told k s (log_msg s 10 text) s1 /\
     packet (get_store s1) p (a :: l) /\
     let '(r, st, e) := call_output (sdk (ext s)) (get_store s1) (netif_output_orig (ext s)) p ipaddr in
     netif_output_mitm s p ipaddr = Ok (r, put_store (set_sdk s1 e) st)) /\
  (netif_linkoutput_orig (ext s) <> FN_NULL -> exists s1 text, told k s (log_msg s 10 text) s1 /\
     packet (get_store s1) p (a :: l) /\
     let '(r, st, e) := call_linkoutput (sdk (ext s)) (get_store s1) (netif_linkoutput_orig (ext s)) p in
     netif_linkoutput_mitm s p = Ok (r, put_store (set_sdk s1 e) st)).
Proof using Type*.
  intros k s p a l Hs Hp Hm. apply Z.eqb_neq in Hm. split; [|split].
  - intros Hf. unfold netif_input_mitm.
    destruct (hook_entry k s p a l "mitm input, size=%d" Hs Hp) as (c & text & s1 & -> & E1 & T1 & Ee); [done|].
    exists s1, text. split; [done|]. split; [by eapply packet_after; [apply T1|]|].
    cbn [rbind]. rewrite E1. cbn [rbind]. rewrite Ee, Hm. cbv zeta. rewrite decide_False by done.
    by destruct (call_input _ _ _ _) as [[r st] e].
  - intros Hf ipaddr. unfold netif_output_mitm.
    destruct (hook_entry k s p a l "mitm output, size=%d" Hs Hp) as (c & text & s1 & -> & E1 & T1 & Ee); [done|].
    exists s1, text. split; [done|]. split; [by eapply packet_after; [apply T1|]|].
    cbn [rbind]. rewrite E1. cbn [rbind]. rewrite Ee, Hm. cbv zeta. rewrite decide_False by done.
    by destruct (call_output _ _ _ _ _) as [[r st] e].
  - intros Hf. unfold netif_linkoutput_mitm.
    destruct (hook_entry k s p a l "mitm linkoutput, size=%d" Hs Hp) as (c & text & s1 & -> & E1 & T1 & Ee); [done|].
    exists s1, text. split; [done|]. split; [by eapply packet_after; [apply T1|]|].
    cbn [rbind]. rewrite E1. cbn [rbind]. rewrite Ee, Hm. cbv zeta. rewrite decide_False by done.
    by destruct (call_linkoutput _ _ _ _) as [[r st] e].
Qed.
End forward.

(** ** Witnesses *)

(** A station in forwarding mode [m] that has received [tcp_packet]. *)
Definition received (m : Z) : comm Sim.dev (firmware SimSdk.env) :=
  let s := SimSdk.booted (Some SimSdk.eth0) m in
  put_store s (Store {[ 100 := Pbuf 0 (100, 36) 24 24 PBUF_RAM 0 1 ]} {[ 100 := replicate 36 0 ++ tcp_packet ]}).

Lemma received_packet m : packet (get_store (received m)) 100 [100].
Proof.
  split.
  - split; [done|]. split; [done|]. by eexists.
  - apply List.Forall_cons; [|apply List.Forall_nil]. split; [done|]. split; [done|].
    split; [by apply (bool_decide_unpack _)|]. intros _. by eexists.
  - by split.
  - done.
Qed.

Lemma received_sole m : sole (get_store (received m)) [100].
Proof. by apply List.Forall_cons; [|apply List.Forall_nil]. Qed.

Lemma received_safe m : safe 32 (received m).
Proof.
  split.
  - apply (ring_check_ok (tx (received m)) (heap (received m))). by vm_compute.
  - left. vm_compute. lia.
  - intros a [x Hx]. change (({[ 100 := Pbuf 0 (100, 36) 24 24 PBUF_RAM 0 1 ]} : gmap Z pbuf) !! a = Some x) in Hx.
    apply lookup_singleton_Some in Hx as [<- _]. by eexists.
  - apply List.Forall_nil. 
Qed.

Lemma raw_receiver_decides_witness :
  (safe (2 + 30) (received FORWARDING_MODE_IP) /\ packet (get_store (received FORWARDING_MODE_IP)) 100 [100] /\
   sole (get_store (received FORWARDING_MODE_IP)) [100] /\ bytes (replicate 8 0) /\ zlen (replicate 8 0) = 8) /\
  taken_over 30 (received FORWARDING_MODE_IP) [100] tcp_packet
    (raw_receiver (received FORWARDING_MODE_IP) 100 (replicate 8 0)).
Proof.
  pose proof (received_safe FORWARDING_MODE_IP) as H1. pose proof (received_packet FORWARDING_MODE_IP) as H2.
  pose proof (received_sole FORWARDING_MODE_IP) as H3.
  assert (bytes (replicate 8 0)) as H4 by by apply (bool_decide_unpack _).
  assert (zlen (replicate 8 0) = 8) as H5 by done.
  split; [done|].
  exact (raw_receiver_decides 30 (received FORWARDING_MODE_IP) 100 100 [] (replicate 8 0) H1 H2 H3 H4 H5).
Defined.

Lemma ether_mode_isolates_witness :
  let s := received FORWARDING_MODE_ETHER in
  (safe (2 + 30) s /\ packet (get_store s) 100 [100] /\ sole (get_store s) [100] /\
   global_forwarding_mode (ext s) = FORWARDING_MODE_ETHER) /\
  (exists s1 text, netif_input_mitm s 100 = Ok (0, put_store s1 (without [100] (get_store s1))) /\
     safe 30 (put_store s1 (without [100] (get_store s1))) /\ ext s1 = ext s /\
     told 30 s (log_msg s 10 text ++ to_host s MSG_ETHER_PACKET 88 [100] (contents (get_store s) [100])) s1) /\
  (forall ipaddr, exists s1 text, netif_output_mitm s 100 ipaddr = Ok (0, s1) /\ told 30 s (log_msg s 10 text) s1) /\
  (exists s1 text, netif_linkoutput_mitm s 100 = Ok (0, s1) /\ told 30 s (log_msg s 10 text) s1).
Proof.
  pose proof (received_safe FORWARDING_MODE_ETHER) as H1. pose proof (received_packet FORWARDING_MODE_ETHER) as H2.
  pose proof (received_sole FORWARDING_MODE_ETHER) as H3.
  split; [done|]. exact (ether_mode_isolates 30 (received FORWARDING_MODE_ETHER) 100 100 [] H1 H2 H3 eq_refl).
Defined.

(** The same with the hooks of the interface saved. *)
Definition chained (m : Z) : comm Sim.dev (firmware SimSdk.env) :=
  set_origs (received m) (input SimSdk.eth0) (output SimSdk.eth0) (linkoutput SimSdk.eth0).

Lemma other_modes_pass_through_witness :
  let s := chained FORWARDING_MODE_NONE in
  (safe (1 + 31) s /\ packet (get_store s) 100 [100] /\
   global_forwarding_mode (ext s) <> FORWARDING_MODE_ETHER /\ netif_input_orig (ext s) <> FN_NULL) /\
  exists s1 text, told 31 s (log_msg s 10 text) s1 /\ packet (get_store s1) 100 [100] /\
    let '(r, st, e) := call_input (sdk (ext s)) (get_store s1) (netif_input_orig (ext s)) 100 in
    netif_input_mitm s 100 = Ok (r, put_store (set_sdk s1 e) st).
Proof.
  assert (safe (1 + 31) (chained FORWARDING_MODE_NONE)) as H1
    by (apply safe_fw; [done|exact (received_safe FORWARDING_MODE_NONE)]).
  assert (packet (get_store (chained FORWARDING_MODE_NONE)) 100 [100]) as H2
    by exact (received_packet FORWARDING_MODE_NONE).
  assert (global_forwarding_mode (ext (chained FORWARDING_MODE_NONE)) <> FORWARDING_MODE_ETHER) as H3 by done.
  assert (netif_input_orig (ext (chained FORWARDING_MODE_NONE)) <> FN_NULL) as H4 by done.
  split; [done|].
  exact (proj1 (other_modes_pass_through 31 (chained FORWARDING_MODE_NONE) 100 100 [] H1 H2 H3) H4).
Defined.
