(* ===== verification/RawSend.v ===== *)
(** * Sending through a raw control block: [raw_sendto] of [lwip/core/raw.c]
    keeps what the application relies on when it lends it a packet.

    [user_main.c] calls [raw_sendto] and then frees its packet; what it needs
    of the call is the law [raw_sendto_frame] of [SdkLaws], which this file
    proves of the function of [raw.c], from the like law of [ip_output_if]. *)
From S2P Require Import Prelude Cobs Uart Comm Message Pbuf PbufChain InetChksum IpHdr UserMain Host Linked RawPcb.
From stdpp Require Import list gmap.
#[local] Open Scope Z_scope.

(** The pbufs of [l] are linked as before and have lost no reference. *)
Definition kept (st st' : store) (l : list Z) : Prop := forall a, In a l ->
  exists c c', cells st !! a = Some c /\ cells st' !! a = Some c' /\ next c' = next c /\
    ref c <= ref c' < 65536.

Section send.
Context `{OsLaws} {E F : Type}.
Context (ip_route : E -> Z -> option Z)
        (ip_output_if : E -> store -> Z -> Z -> Z -> Z -> Z -> Z -> Z * store * E).
Abbreviation raw_sendto := (raw_sendto (F := F) ip_route ip_output_if).

(** A chain whose holder may lend it. *)
Definition lendable (st : store) (l : list Z) : Prop := forall a, In a l ->
  exists c, cells st !! a = Some c /\ 1 <= ref c < 65536.

(** [ip_output_if] moves the payload of the first pbuf, may take references
    and memory, and frees nothing of the packet. *)
Definition output_keeps : Prop := forall e st q src dest ttl tos proto l,
  is_chain st q l -> lendable st l ->
  let '(_, st', _) := ip_output_if e st q src dest ttl tos proto in
  stack_frame st st' /\ kept st st' l.

Lemma put_stack_frame s p c c' : cells s !! p = Some c -> stack_frame s (put s p c').
Proof.
  intros Ec. split.
  - intros a Hb Hn. cbn. rewrite lookup_insert_ne; [done|]. intros <-. congruence.
  - intros Hbk a. cbn. destruct (decide (a = p)) as [->|Hne].
    + intros _. apply Hbk. by rewrite Ec.
    + rewrite lookup_insert_ne by done. apply Hbk.
Qed.

Lemma kept_lendable st st' l : kept st st' l -> lendable st l -> lendable st' l.
Proof.
  intros Hk Hl a Hin. destruct (Hk a Hin) as (c & c' & E1 & E2 & _ & Hr). destruct (Hl a Hin) as (c1 & E3 & ?).
  simplify_eq. exists c'. split; [done|lia].
Qed.
Lemma kept_chain st st' l : forall p, kept st st' l -> is_chain st p l -> is_chain st' p l.
Proof.
  induction l as [|a l IH]; intros p Hk; [done|]. intros (-> & Ha & c & Ec & Hl). split; [done|]. split; [done|].
  destruct (Hk a) as (c1 & c' & E1 & E2 & E3 & _); [by left|]. exists c'. split; [done|].
  replace (next c') with (next c) by congruence. apply IH; [|done]. intros x Hx. apply Hk. by right.
Qed.

(** Giving back the header pbuf [q] in front of [l]. *)
Lemma release_header st q l : is_chain st q (q :: l) -> lendable st (q :: l) -> backed st ->
  (forall a, In a l -> 2 <= ref_of st a) -> (length l <= 1)%nat ->
  exists n st', pbuf_free st q = Ok (n, st') /\ stack_frame st st' /\
    forall a, In a l -> exists c c', cells st !! a = Some c /\ cells st' !! a = Some c' /\ next c' = next c /\
      ref c - 1 <= ref c' <= ref c.
Proof.
  intros Hch Hlend Hbk Href Hlen. pose proof (chain_nodup _ _ _ Hch) as Hnd. apply NoDup_cons in Hnd as [Hq Hnd].
  rewrite list_elem_of_In in Hq.
  assert (Forall (releasable st) (q :: l)) as HF.
  { apply List.Forall_forall. intros a Hin. destruct (Hlend a Hin) as (c & Ec & Hr). exists c. split; [done|].
    split; [|done]. apply Hbk. by rewrite Ec. }
  destruct (Hlend q) as (cq & Eq & Hrq); [by left|].
  assert (ref_of st q = ref cq) as Hrefq by (unfold ref_of; by rewrite Eq).
  unfold pbuf_free. destruct (Z.eq_dec (ref cq) 1) as [Hone|Hmore].
  - rewrite (free_loop_ok [q] _ st q l 0); [|done|done|by apply chain_enough in Hch| |destruct l; [done|]|done].
    2:{ constructor; [by rewrite Hrefq|constructor]. }
    2:{ specialize (Href z). cbn in Href. lia. }
    eexists _, _. split; [reflexivity|]. cbn [without].
    assert (stack_frame st (unref l st)) as Hu.
    { destruct l as [|a l]; [apply frame_refl|]. cbn [unref]. destruct (cells st !! a) eqn:Ea; [|apply frame_refl].
      by eapply put_stack_frame. }
    split.
    + eapply frame_trans; [exact Hu|].
      assert (cells (unref l st) !! q = Some cq) as Eq'.
      { destruct l as [|a l]; [done|]. cbn [unref]. destruct (cells st !! a); [|done]. cbn.
        rewrite lookup_insert_ne; [done|]. intros ->. apply Hq. by left. }
      apply (frame_at _ _ q); [left; by rewrite Eq'| |]; cbn [cells blocks].
      * intros a Ha. by rewrite !lookup_delete_ne.
      * rewrite lookup_delete_eq. by intros [].
    + intros a Hin. destruct l as [|b l]; [done|]. destruct l; [|cbn in Hlen; lia].
      destruct Hin as [->|[]]. destruct (Hlend a) as (c & Ec & Hr); [cbn; tauto|].
      exists c. cbn [unref]. rewrite Ec. eexists. split; [done|]. cbn.
      rewrite lookup_delete_ne by (intros ->; apply Hq; by left). rewrite lookup_insert_eq.
      split; [done|]. split; [done|]. cbn. lia.
  - rewrite (free_loop_ok [] _ st q (q :: l) 0); [|done|done|by apply chain_enough in Hch|constructor| |done].
    2:{ rewrite Hrefq. lia. }
    eexists _, _. split; [reflexivity|]. cbn [without unref]. rewrite Eq. split; [by eapply put_stack_frame|].
    intros a Hin. destruct (Hlend a) as (c & Ec & Hr); [by right|]. exists c, c. split; [done|]. cbn.
    rewrite lookup_insert_ne by (intros ->; done). split; [done|]. split; [done|lia].
Qed.

Lemma lent_kept st st' p : lent st p -> kept st st' [p] -> lent st' p.
Proof.
  intros (Hp & c & Ec & Hn & Hr) Hk. destruct (Hk p) as (c1 & c' & E1 & E2 & E3 & Hr'); [by left|].
  simplify_eq. split; [done|]. exists c'. repeat split; try congruence; lia.
Qed.

(** The header pbuf [q] in front of [p]. *)
Definition chained (st : store) (q p : Z) : Prop :=
  q <> p /\ is_chain st q [q; p] /\ lendable st [q; p] /\ 2 <= ref_of st p.

(** What [with_header] gives for a packet that is lent. *)
Definition headed (st st' : store) (p q : Z) : Prop :=
  backed st' /\ stack_frame st st' /\ lent st' p /\
  (q = 0 \/ q = p \/
   q <> 0 /\ chained st' q p).


(** A fresh header pbuf [q] chained in front of [p]. *)
Lemma chain_header s1 p c q cq : p <> 0 -> q <> 0 -> p <> q ->
  cells s1 !! p = Some c -> next c = 0 -> 1 <= ref c < 65535 ->
  cells s1 !! q = Some cq -> next cq = 0 -> ref cq = 1 ->
  exists s2, pbuf_chain s1 q p = Ok s2 /\ stack_frame s1 s2 /\ lent s2 p /\
    is_chain s2 q [q; p] /\ lendable s2 [q; p] /\ 2 <= ref_of s2 p.
Proof.
  intros Hp Hq Hpq Ecp Hnx Hr Eq Hnq Hrq.
  unfold pbuf_chain, pbuf_cat. rewrite (proj2 (Z.eqb_neq q 0)), (proj2 (Z.eqb_neq p 0)) by done. cbn [orb].
  unfold chain_fuel. cbn [pbuf_cat_loop]. rewrite (deref_ok s1 q cq), (deref_ok s1 p c) by done. cbn [rbind].
  change (next (set_tot_len cq _)) with (next cq). rewrite Hnq. cbn [Z.eqb negb rbind].
  set (cq' := set_next _ p). unfold pbuf_ref. rewrite (proj2 (Z.eqb_neq p 0)) by done.
  assert (cells (put s1 q cq') !! p = Some c) as Ecp' by (cbn; by rewrite lookup_insert_ne).
  rewrite (deref_ok _ p c) by done. cbn [rbind]. rewrite u16_small by (unfold is_u16; lia).
  eexists. split; [reflexivity|].
  split; [apply (frame_trans _ (put s1 q cq')); by eapply put_stack_frame|].
  split; [split; [done|]; eexists; cbn; rewrite lookup_insert_eq; split; [done|]; split; [done|cbn; lia]|].
  split; [|split].
  - split; [done|]. split; [done|]. exists cq'. cbn. rewrite lookup_insert_ne, lookup_insert_eq by done.
    split; [done|]. split; [done|]. split; [done|]. eexists. rewrite lookup_insert_eq. split; [done|]. exact Hnx.
  - intros a [<-|[<-|[]]]; eexists; cbn.
    + rewrite lookup_insert_ne, lookup_insert_eq by done. split; [done|]. cbn. lia.
    + rewrite lookup_insert_eq. split; [done|]. cbn. lia.
  - unfold ref_of. cbn. rewrite lookup_insert_eq. cbn. lia.
Qed.

Lemma lent_same st s' p c c' : lent st p -> cells st !! p = Some c ->
  cells s' !! p = Some c' -> next c' = next c -> ref c' = ref c -> lent s' p.
Proof.
  intros (Hp & c0 & Ec0 & Hnx & Hr) Ec E1 E2 E3. simplify_eq. split; [done|]. exists c'. repeat split; try congruence; lia.
Qed.

Lemma new_header st p c : lent st p -> backed st -> cells st !! p = Some c -> ref c < 65535 -> tot_len c <> 0 ->
  exists q st', (let! (q, s) := pbuf_alloc st PBUF_IP 0 PBUF_RAM in
    if q =? 0 then Ok (0, s)
    else
      let! c := deref s p in
      let! s := (if negb (tot_len c =? 0) then pbuf_chain s q p else Ok s) in
      Ok (q, s)) = Ok (q, st') /\ headed st st' p q.
Proof.
  intros Hl Hbk Ec Href Htot. pose proof Hl as (Hp & c0 & Ec0 & Hnx & Hr). simplify_eq.
  destruct (alloc_ram_ok st PBUF_IP 0 Hbk) as [-> | (q & s1 & -> & Hq & Hcq & Hbq & Hpk & _ & Hbk1 & _ & Hrq & Hf & cq & Eq & _)];
    [done|cbn [rbind Z.eqb]; eexists 0, _; split; [reflexivity|];
          split; [done|split; [apply frame_refl|split; [done|by left]]]|].
  cbn [rbind]. rewrite (proj2 (Z.eqb_neq q 0)) by done.
  assert (p <> q) as Hpq by (intros ->; congruence).
  destruct (Hf p Hpq) as [Ecp _]. rewrite Ec in Ecp. rewrite (deref_ok s1 p c) by done. cbn [rbind].
  assert (stack_frame st s1) as Hfr.
  { apply (frame_at _ _ q); [by right|done|]. intros _. apply Hbk1. by rewrite Eq. }
  assert (next cq = 0) as Hnq by (destruct Hpk as [(_ & _ & c' & E' & H') _ _ _]; simplify_eq; by cbn in H').
  unfold ref_of in Hrq. rewrite Eq in Hrq.
  rewrite (proj2 (Z.eqb_neq (tot_len c) 0)) by done. cbn [negb].
  destruct (chain_header s1 p c q cq) as (s2 & -> & Hfr2 & Hl2 & Hch & Hld & Hr2); try done; [lia|].
  cbn [rbind]. exists q, s2. split; [done|]. split; [by apply Hfr2|]. split; [by eapply frame_trans|].
  split; [done|]. by right; right.
Qed.

Lemma with_header_ok st p c : lent st p -> backed st -> cells st !! p = Some c -> ref c < 65535 -> tot_len c <> 0 ->
  exists q st', with_header st p = Ok (q, st') /\ headed st st' p q.
Proof.
  intros Hl Hbk Ec Href Htot. assert (p <> 0) as Hp by apply Hl.
  unfold with_header. destruct (header_any st p IP_HLEN c Hp Ec) as [-> | (c1 & -> & Hn1 & Hr1)]; [done| |].
  { cbn [rbind]. change (negb (1 =? 0)) with true. cbv iota. by eapply new_header. }
  cbn [rbind]. change (negb (0 =? 0)) with false. cbv iota.
  assert (cells (put st p c1) !! p = Some c1) as Ec1 by apply lookup_insert_eq.
  assert (stack_frame st (put st p c1)) as Hfr by by eapply put_stack_frame.
  destruct (header_any (put st p c1) p (- IP_HLEN) c1 Hp Ec1) as [-> | (c2 & -> & Hn2 & Hr2)]; [done| |];
    cbn [rbind Z.eqb]; eexists _, _; (split; [reflexivity|]); unfold headed.
  - split; [by apply Hfr|]. split; [done|]. split; [by eapply lent_same|by left].
  - assert (stack_frame st (put (put st p c1) p c2)) as Hfr2.
    { apply (frame_trans _ (put st p c1)); by eapply put_stack_frame. }
    split; [by apply Hfr2|]. split; [done|]. split; [|by right; left].
    eapply (lent_same st); [done|done|cbn; apply lookup_insert_eq|congruence|congruence].
Qed.

(** Freeing the header pbuf, if there is one, afterwards. *)
Lemma release_ok st p q : backed st -> lent st p -> q = p \/ chained st q p ->
  exists st', (if negb (q =? p) then let! (_, s) := pbuf_free st q in Ok s else Ok st) = Ok st' /\
    stack_frame st st' /\ lent st' p.
Proof.
  intros Hbk Hl [-> | (Hne & Hch & Hld & Hr)].
  { rewrite Z.eqb_refl. exists st. split; [done|]. split; [apply frame_refl|done]. }
  rewrite (proj2 (Z.eqb_neq q p)) by done. cbn [negb].
  destruct (release_header st q [p]) as (n & st' & -> & Hf & Hk); [done|done|done|by intros a [<-|[]]|done|].
  cbn [rbind]. exists st'. split; [done|]. split; [done|].
  destruct Hl as (Hp & c & Ec & Hn & Hrc). split; [done|].
  destruct (Hk p) as (c0 & c' & E1 & E2 & E3 & E4); [by left|]. unfold ref_of in Hr. rewrite E1 in Hr. simplify_eq.
  exists c'. split; [done|]. split; [congruence|lia].
Qed.

(** The chain handed to [ip_output_if], and what is left of it. *)
Lemma sent_on st p q : lent st p -> q = p \/ chained st q p ->
  exists l, is_chain st q l /\ lendable st l /\ forall st', kept st st' l ->
    lent st' p /\ (q = p \/ chained st' q p).
Proof.
  intros Hl [-> | (Hne & Hch & Hld & Hr)].
  - exists [p]. pose proof Hl as (Hp & c & Ec & Hn & Hrc).
    split; [split; [done|split; [done|exists c; split; [done|exact Hn]]]|].
    split; [intros a [<-|[]]; by exists c|]. intros st' Hk. split; [by eapply lent_kept|by left].
  - exists [q; p]. split; [done|]. split; [done|]. intros st' Hk.
    split; [eapply lent_kept; [done|]; intros a [<-|[]]; apply Hk; cbn; tauto|]. right. split; [done|].
    split; [by eapply kept_chain|]. split; [by eapply kept_lendable|].
    destruct (Hk p) as (c & c' & E1 & E2 & _ & Hrc); [cbn; tauto|]. unfold ref_of in *. rewrite E1 in Hr. rewrite E2. lia.
Qed.

(** [raw_sendto] keeps the application's hold on its packet: it ends without a fault, the packet is still a single pbuf with a reference, no memory but pbufs is touched, and a header pbuf it had to chain in front is freed again; the packet goes to [ip_output_if] with the fields of the control block, unless there is no memory for the header or no route. *)
Theorem raw_sendto_lends r e st pcb cp p c dst :
  output_keeps -> lent st p -> backed st -> cells st !! p = Some c -> ref c < 65535 -> tot_len c <> 0 ->
  pcb <> 0 -> pcbs r !! pcb = Some cp ->
  exists rc st' e', raw_sendto r e st pcb p dst = Ok (rc, st', e') /\ stack_frame st st' /\ lent st' p /\
    match ip_route e dst with
    | None => (rc = ERR_MEM \/ rc = ERR_RTE) /\ e' = e
    | Some ifip => rc = ERR_MEM /\ e' = e \/
        exists q st1, headed st st1 p q /\ q <> 0 /\ (rc, e') =
          let '(err, _, e') := ip_output_if e st1 q (if local_ip cp =? 0 then ifip else local_ip cp) dst
                                 (ttl cp) (tos cp) (protocol cp) in (err, e')
    end.
Proof.
  intros Hout Hl Hbk Ec Href Htot Hpcb Ecp.
  destruct (with_header_ok st p c Hl Hbk Ec Href Htot) as (q & st1 & Hw & Hh). unfold RawPcb.raw_sendto. rewrite Hw.
  cbn [rbind]. pose proof Hh as (Hbk1 & Hf1 & Hl1 & Hq).
  destruct (Z.eqb_spec q 0) as [->|Hq0].
  { exists ERR_MEM, st1, e. split; [done|]. split; [done|]. split; [done|]. destruct (ip_route e dst); by left || by split; [left|]. }
  assert (q = p \/ chained st1 q p) as Hq1 by (destruct Hq as [?|[?|[_ ?]]]; [done|by left|by right]).
  destruct (ip_route e dst) as [ifip|].
  2:{ destruct (release_ok st1 p q) as (st2 & -> & Hf2 & Hl2); try done. cbn [rbind].
      exists ERR_RTE, st2, e. split; [done|]. split; [by eapply frame_trans|]. split; [done|]. split; [by right|done]. }
  rewrite (pcb_at_ok r pcb cp) by done. cbn [rbind].
  destruct (sent_on st1 p q) as (l & Hch & Hld & Hq2); [done|done|].
  pose proof (Hout e st1 q (if local_ip cp =? 0 then ifip else local_ip cp) dst (ttl cp) (tos cp) (protocol cp) l Hch Hld) as Ho.
  destruct (ip_output_if _ _ _ _ _ _ _ _) as [[err st2] e2] eqn:Eo. destruct Ho as [Hf2 Hk].
  destruct (Hq2 st2 Hk) as (Hl2 & Hq3).
  destruct (release_ok st2 p q) as (st3 & -> & Hf3 & Hl3); [by apply Hf2|done..|]. cbn [rbind].
  exists err, st3, e2. split; [done|]. split; [by do 2 (eapply frame_trans; [done|])|]. split; [done|].
  right. exists q, st1. split; [done|]. split; [done|]. by rewrite Eo.
Qed.
End send.

(** A packet without room for a header, and an output that logs the call. *)
Definition no_room : store :=
  Store (list_to_map [(100, Pbuf 0 (100, 20) 5 5 PBUF_RAM 0 1)]) (list_to_map [(100, replicate 20 0 ++ [1; 2; 3; 4; 5])]).
Definition log_output (e : list (list Z)) (st : store) (q src dest ttl tos proto : Z) : Z * store * list (list Z) :=
  (ERR_OK, st, e ++ [[src; dest; ttl; tos; proto]]).
Definition udp_pcb : raws unit := Raws 700 (list_to_map [(700, RawPcb 0 0 0 0 RAW_TTL 0 17 None 0)]).

Lemma raw_sendto_lends_witness :
  lent no_room 100 /\ backed no_room /\
  exists st', raw_sendto (fun _ _ => Some 77) log_output udp_pcb [] no_room 700 100 99 =
    Ok (ERR_OK, st', [[77; 99; 255; 0; 17]]) /\ stack_frame no_room st' /\ lent st' 100.
Proof.
  assert (lent no_room 100) as Hl by (split; [done|]; eexists; split; [reflexivity|done]).
  assert (backed no_room) as Hbk.
  { intros a Ha. unfold no_room in *. cbn [cells blocks list_to_map] in *.
    destruct (decide (a = 100)) as [->|Hne]; [by eexists|]. cbn in Ha. rewrite lookup_insert_ne in Ha by done.
    rewrite lookup_empty in Ha. by destruct Ha. }
  assert (output_keeps log_output) as Ho.
  { intros e st q src dest ttl tos proto l _ Hld. cbn. split; [apply frame_refl|]. intros a Ha.
    destruct (Hld a Ha) as (c & Ec & Hr). exists c, c. repeat split; try done; lia. }
  split; [done|]. split; [done|].
  destruct (raw_sendto_lends (fun _ _ => Some 77) log_output udp_pcb [] no_room 700
    (RawPcb 0 0 0 0 RAW_TTL 0 17 None 0) 100 (Pbuf 0 (100, 20) 5 5 PBUF_RAM 0 1) 99) as (rc & st' & e' & H1 & H2 & H3 & _);
    try done; try reflexivity.
  exists st'. split; [|done]. rewrite H1. vm_compute in H1. by injection H1 as <- _ <-.
Defined.
